(* ===== verification/_CoqProject ===== *)
-Q . S2P
Prelude.v
JsNumber.v
JsString.v
Json.v
Effects.v
Redis.v
Phone.v
NationalId.v
Enums.v
BrokerAccess.v
BrokerAccessFacts.v
TripFareRules.v
BrokerDriver.v
DriverProfile.v
CargoData.v
TripFareService.v
CargoTrip.v
CargoTripFacts.v
TripInvariant.v
TripSystem.v
TripProperties.v
TripEffects.v
SubscriptionPolicy.v
SubscriptionPolicyFacts.v
SubscriptionData.v
Receipts.v
ReceiptReader.v
Provisioning.v
SubscriptionAccess.v
SubscriptionFacts.v
PaymentSystem.v
AccessFacts.v
PaymentProperties.v
CompanyFeatures.v
CompanyFeatureFacts.v
Accounts.v
Invites.v
AccountVerification.v
AccountFacts.v
AccountProperties.v
Sessions.v
SessionFacts.v
SessionProperties.v
Delivery.v
CargoNotices.v
DeliveryQueue.v
DeliveryFacts.v
DeliveryInvariant.v
DeliveryProperties.v
DeliveryChain.v
FreeText.v
IranPlaces.v
TripTypes.v
Audience.v
AlertFilters.v
Contacts.v
BrokerLedger.v
BrokerLedgerFacts.v
CargoSearch.v
NumberWords.v
CargoPrice.v
TripFareDialog.v
TripFareDialogFacts.v
TripFareDialogProperties.v
BotSessions.v
PurchaseDialog.v
PurchaseDialogFacts.v
MessengerAccess.v
MessengerAccessFacts.v
Announce.v
Publishing.v
NoticeHeads.v
PublishingFacts.v
PublishingProperties.v
MenuText.v
WhatsappMenus.v
WhatsappMenuFacts.v
LlmClient.v
PlanExpiry.v
DriverVerification.v
