(* ===== verification/Prelude.v ===== *)
(** * Verification of the Transport_Backend services

    The program is a NestJS backend for road cargo: transport companies announce loads,
    drivers and brokers ask for them, a company hands a load to one of them, the trip is
    driven, delivered and paid, and drivers, brokers, companies and factories buy
    subscriptions with receipts of card payments; all of it also in the chats of several
    messengers.  The development models the services that decide these things
    (src/services, src/domain) and proves what makes them right.

    ** How the code is modelled

    A handler is a computation [M S A] ([Effects]): it reads and writes a state [S], the
    tables and caches of its services, and answers or throws; what is written before a
    throw stays, except inside [transaction].  A table is a [gmap] from its key to a
    record with the columns the services use; a query is a function of the table, a
    unique index or a column's width is a failure of the save ([QueryFailed] with the SQL
    state).  What Redis keeps is a table of entries that end ([Redis]).  A text is the
    list of its UTF-16 units and a number a binary64 ([JsString], [JsNumber], [Json]); an
    instant is its milliseconds and a date that a [bigint] or a [Date] cannot hold is an
    error.  Outside services (the border service, the vision and language models, the
    map, the messengers, [Date.parse], the machine's time zone, letter case) are type
    classes or arguments; their instances in the samples are plain functions.  A random
    code or token is an argument of the handler that draws it.  Handlers of different
    users interleave between their transactions; where a handler waits for something slow
    in the middle (an answer of a company, the reading of an image, the download of a
    photo, a message sent) its halves are steps of their own.  Where the code checks
    without a lock and saves, the handler is written as its check followed by its save; a
    property of such a handler is about runs that follow one another and says so, and a
    theorem beside it ([racing_approvals], [racing_invites], [racing_jobs_send_twice],
    [stale_retry_sends_twice], [stale_read_stays_shared]) shows what two runs that overlap
    can do.

    ** The files

    Shared:
    - [Prelude], [Effects]: lists, tables, the monad, invariants of computations
      ([preserves], [reads]) and the tactics [preserve], [run_inv].
    - [JsNumber], [JsString], [Json], [Redis]: the values of the language and the store.
    - [Phone] (dto/auth/phone-number.ts and the two services that normalize on their
      own), [NationalId] (domain/helper/nationalId.ts), [Enums] (domain/enums),
      [FreeText] (digitGroups.ts, persianText.ts, price.ts), [NumberWords] and [CargoPrice]
      (persianNumberWords.ts, services/notification/cargoPrice.ts): what people type and
      what is said to them.

    Loads and trips:
    - [BrokerAccess], [BrokerAccessFacts] (services/company/brokerAccess.service.ts): the
      policy, a broker's periods, orders and request credit, and which companies'
      loads it sees; [BrokerLedger], [BrokerLedgerFacts]: what a company owes a broker.
    - [BrokerDriver], [DriverProfile] (domain/helper/brokerDriver.ts,
      services/driver/driverProfile.service.ts): the driver a broker names, the trip types
      of a profile.
    - [TripFareRules], [TripFareService] (domain/helper/tripFare.ts,
      services/notification/tripFare.service.ts): reading a fare, its record as agreed and
      as delivered, the money in words.  [TripFareDialog] and its [Facts] and [Properties]
      (services/notification/tripFareDialog.ts): the questions a company answers before a
      fare is recorded, over [CargoTrip]'s handlers.
    - [CargoData], [CargoTrip] (services/notification/cargoTrip.service.ts with the
      repositories of loads and requests): request, cancel, decide, offer, respond,
      expire, deliver, confirm, call off, remind.
    - [CargoTripFacts], [TripInvariant], [TripSystem], [TripProperties], [TripEffects]:
      the invariant of loads and requests and that every handler keeps it;
      the system in which answers race; what holds in every reachable state; what an
      accept, a delivery, a cancelling does; how an answer is refused.
    - [IranPlaces], [TripTypes] (domain/helper/iranProvinces.ts,
      services/notification/cargoTripType.ts): where a load goes.  [CargoSearch]
      (cargoSearch.ts), [AlertFilters] (cargoFilter.service.ts), [Audience]
      (cargoAudience.repository.ts), [Contacts] (what a load shows of its publisher).
    - [Announce], [Publishing] (cargoListing.service.ts, cargoAutoAnnounceWorker,
      cargoContactSync) and [PublishingFacts], [PublishingProperties]: loads published by
      hand or from a suggestion and announced.
    - [Delivery], [CargoNotices], [DeliveryQueue] (cargoNotification.service.ts,
      cargoDeliveryQueue.service.ts, rateLimiter.ts) and [DeliveryFacts],
      [DeliveryInvariant], [DeliveryProperties], [DeliveryChain], [NoticeHeads]: how the
      notices of a load reach its drivers.  [Publishing] makes notices only through the
      operations of [DeliveryQueue].

    Money:
    - [SubscriptionPolicy], [SubscriptionPolicyFacts]
      (services/subscription/subscriptionPolicy.service.ts): the admin's policy, the cache
      of each running instance, Redis and the row.
    - [SubscriptionData], [Receipts], [ReceiptReader], [Provisioning],
      [SubscriptionAccess] (services/subscription): rows and queries; orders, receipts and
      the queue of their analysis; what the vision model's answer is cleaned into;
      approving and rejecting; rewards and who may work now.
    - [SubscriptionFacts], [PaymentSystem], [AccessFacts], [PaymentProperties]: the
      invariant of the payments, an approval as its list of refusals and its writes, the
      system in which analyses and decisions interleave, and the properties.
    - [CompanyFeatures], [CompanyFeatureFacts] (services/company/companyFeature.service.ts):
      the menus a company buys; [PlanExpiry] (companyPlanExpiryWorker.service.ts): the
      reminder before they close, on the tables of [CompanyFeatures].

    People:
    - [Accounts], [Invites], [AccountVerification] (services/company,
      services/UserService.ts) and [AccountFacts], [AccountProperties]: accounts, the four
      kinds of invitations, the check of an account.
    - [DriverVerification] (services/driver/driverVerification.service.ts): the papers of a
      driver asked of the registers, on the accounts of [Accounts] and the profiles of
      [DriverProfile].
    - [Sessions], [SessionFacts], [SessionProperties] (services/auth): codes, sign-in,
      tokens, one session per account.
    - [BotSessions], [MessengerAccess], [MessengerAccessFacts]
      (services/messengerBot/core/botSession, botIdentity, botAccess, messengerLinkCode):
      which user a messenger account is, and its first role.
    - [PurchaseDialog], [PurchaseDialogFacts] (botAccountHandler.service.ts): buying a
      subscription in a chat, over [Receipts].
    - [MenuText] (messengerBot/core/menuTextMatch.ts, agent/services/replyChoice.ts): the
      option people name or number, and the distance of two words.  [WhatsappMenus],
      [WhatsappMenuFacts] (services/notification/whatsappDialogBridge.ts, botDialog.ts,
      botCard.ts, whatsappPoll.service.ts, whatsappMenuMessages.ts and the sending, polls and
      votes of agent/services/whatsapp.service.ts): the menus of the dialogs in WhatsApp, on
      the accounts of [Accounts] and the menus of [CompanyFeatures]; the dialogs themselves
      are values with their handlers.

    Models:
    - [LlmClient] (services/common/llmClient.ts): OpenAI first, the local model after it.

    ** What the theorems show

    - Trips: at most one trip per load although answers race; a late accept is answered
      «taken» (and leaves its fare behind); an accept, a confirmation and a cancelling do
      exactly what they should; each operation moves the status of a request only along
      its own steps ([op_moves]), so what is refused or called off does not come back
      by asking again; answers and offers that come too late expire.
    - The fare form: no answer to it fails, it can always be finished, and what is saved
      is what the summary showed, whatever other users do meanwhile (the summary of an
      agreed fare that was refused under «بدون تغییر» is the exception, a defect).
    - Loads and notices: one load per message and publisher, one notice per driver and
      load; a publication that is refused, up to the save of its load, changes nothing; a
      load goes to the drivers that may work and no others; a notice is sent once as long as
      its jobs do not overlap each other or the sweep; the queue does
      what one pass over the messengers does; turns that come once.
    - Credit and ledgers: what a broker has left is what it got less what it used;
      payments to a broker, one after the other, stay within what its trips had earned at
      some moment before (older commissions follow the percent of the day and may
      shrink); an account is the sum of its lines.
    - Payments: while approvals follow one another no tracking code pays twice and neither
      paid days nor free days overlap among themselves; an approval is refused by its first failing
      guard and changes nothing, or writes exactly the buyer, the role, the subscription,
      the receipt and the order; a receipt leaves the queue after its allowed tries; an analysis that ends after a decision undoes it (a
      defect), and without one every subscription has a decided receipt; a menu bought
      stays open to the end it shows.
    - Buying in a chat: one open order per messenger account although photos overlap, a
      new order only while there is time to pay, and a receipt sent in time makes the
      order of the plan chosen.
    - Accounts: a sign-in takes an account over for good (but a parent company's), tokens
      work once, codes cannot be guessed; an invited account waits for one inviter while
      invitations of it follow one another; a messenger account has one
      user and a user one account per messenger, only its owner ties it, wrong codes run
      out, and a first role is one the account may have.
    - Menus in WhatsApp: whatever comes in, a dialog opens only for an account that is checked
      and has the menu; the number shown beside an option runs that option; a vote after a
      notice runs the notice's option (a defect).
    - The models: after an outage no request goes to OpenAI before its pause is over, unless
      one already under way succeeds, which ends the pause; embeddings come in the order of their texts; a recording that cannot be read stops
      OpenAI (a defect).
    - The reminder: a company is told once of a day, and of its first menu in time; a menu that
      closes later is not named with it.
    - Papers of a driver: nobody is shown as verified whom the registers do not know by its
      present papers (that the person is alive need not be said), however inquiries and edits interleave; twelve paid answers a day; a «no»
      is kept as long as a «yes», and an edit made during an inquiry is undone (defects).
    - Policies: a changed policy is in force everywhere within five seconds (a day when
      Redis did not answer) unless a read overlaps the change, and is read back as it was written.
    - Values: every word of a number said is known and the words say that number; fares, phones, national codes, driver fields are read and
      written without loss, within their bounds; the distance of two words is the least number
      of edits between them.

    ** Bounds

    Most recursion is structural.  Where it is not: a search in a text, the spelling of a
    number and the joining of words take the length of the text as fuel, and each round
    consumes some of it; the chain of a notice's jobs takes four (a notice is handed on to
    each of the other messengers at most, [handing_on_ends]); [NumberWords] says four groups
    of three digits, as the source does, below a million million; the tries of an analysis
    are RECEIPT_ANALYSIS_MAX_ATTEMPTS (5 unless set), for which [analysis_ends] shows that
    they suffice; a link code is drawn from a finite list of draws, and a draw that is
    missing is the source's endless one.  Sums of the ledger are exact below 10^16.  The
    periods of a messenger's pace are whole milliseconds.  A receipt's lock lives 300
    seconds, and [one_open_order] is about receipts whose work ends while the lock is
    their own.

    ** Not modelled

    The other dialogs of the chats (lists, cards and texts over the modelled operations),
    the adapters of the messengers and WhatsApp's connection, media and onboarding, HTTP
    controllers, the agent's prompts and tools, maps, market and border feeds,
    spreadsheets and SMS: texts and calls of outside services.  A database transaction is one step of
    the model, also where the code takes no lock; what two that overlap can do is shown by
    the theorems named above and is otherwise not modelled.  After a load is saved its
    notices are written and queued without failing; a database that goes away in
    between is not modelled. *)

From stdpp Require Export base gmap strings list fin_maps sorting.
From coqutil Require Export Datatypes.RecordSetters.
Export TriangleBracketNotations.

#[global] Arguments constant {E} newValue / _.
#[global] Open Scope record_set.
#[global] Open Scope Z_scope.

(** ** Opaque identifiers and instants

    A database [uuid] is only ever compared, so it is a number; a JavaScript
    [Date] is its milliseconds since the epoch. *)
Notation uuid := N.
Notation time := Z.

(** ** Booleans *)

Lemma andb_split (a b : bool) : a && b = true -> a = true /\ b = true.
Proof. destruct a, b; auto. Qed.

Lemma bool_decide_spec (P : Prop) `{Decision P} : bool_decide P = true <-> P.
Proof. apply bool_decide_eq_true. Qed.

(** ** Lists used as result sets *)

(** [xs.some(f)] and [xs.find(f)] of JavaScript. *)
Definition some_b {A} (f : A -> bool) (l : list A) : bool := existsb f l.

Lemma some_b_true {A} (f : A -> bool) (l : list A) :
  some_b f l = true <-> exists x, x ∈ l /\ f x = true.
Proof.
  unfold some_b. rewrite existsb_exists.
  split; intros (x & Hx & Hf); exists x; (split; [by apply list_elem_of_In | done]).
Qed.

Lemma some_b_false {A} (f : A -> bool) (l : list A) :
  some_b f l = false <-> forall x, x ∈ l -> f x = false.
Proof.
  split.
  - intros H x Hx. destruct (f x) eqn:E; [|done].
    assert (some_b f l = true) by (apply some_b_true; eauto). congruence.
  - intros H. destruct (some_b f l) eqn:E; [|done].
    apply some_b_true in E as (x & Hx & Hf). rewrite (H x Hx) in Hf. done.
Qed.

(** [x == null] *)
Definition is_null {A} (o : option A) : bool := match o with None => true | Some _ => false end.

(** [[...new Set(xs)]]: the first occurrence of each value, in order. *)
Fixpoint dedup_from {A} `{EqDecision A} (seen : list A) (l : list A) : list A :=
  match l with
  | [] => []
  | x :: l =>
      if decide (x ∈ seen) then dedup_from seen l
      else x :: dedup_from (x :: seen) l
  end.

Definition dedup {A} `{EqDecision A} (l : list A) : list A := dedup_from [] l.

Section Dedup.
  Context {A : Type} `{EqDecision A}.
  Implicit Types (l seen : list A) (x : A).

Lemma elem_of_dedup_from l seen x :
    x ∈ dedup_from seen l <-> x ∈ l /\ x ∉ seen.
  Proof.
    revert seen. induction l as [|y l IH]; intros seen; simpl; [set_solver|].
    case_decide as Hd.
    - rewrite IH. set_solver.
    - rewrite elem_of_cons, IH. destruct (decide (x = y)); set_solver.
  Qed.

Lemma elem_of_dedup l x : x ∈ dedup l <-> x ∈ l.
  Proof. unfold dedup. rewrite elem_of_dedup_from. set_solver. Qed.

Lemma NoDup_dedup_from l seen : NoDup (dedup_from seen l).
  Proof.
    revert seen. induction l as [|y l IH]; intros seen; simpl; [constructor|].
    case_decide; [done|]. constructor; [|done].
    rewrite elem_of_dedup_from. set_solver.
  Qed.

Lemma NoDup_dedup l : NoDup (dedup l).
  Proof. apply NoDup_dedup_from. Qed.

Lemma dedup_from_length l seen : (length (dedup_from seen l) <= length l)%nat.
  Proof.
    revert seen. induction l as [|y l IH]; intros seen; simpl; [lia|].
    case_decide; simpl; specialize (IH (y :: seen)) as H1; specialize (IH seen); lia.
  Qed.

Lemma dedup_nil_inv l : dedup l = [] -> l = [].
  Proof.
    destruct l as [|y l]; [done|]. intros H.
    assert (Hy : y ∈ dedup (y :: l)) by (apply elem_of_dedup; set_solver).
    rewrite H in Hy. set_solver.
  Qed.

Lemma dedup_from_id l seen :
    NoDup l -> (forall x, x ∈ l -> x ∉ seen) -> dedup_from seen l = l.
  Proof.
    revert seen. induction l as [|y l IH]; intros seen Hnd Hs; simpl; [done|].
    inversion Hnd; subst. rewrite decide_False by set_solver. f_equal.
    apply IH; [done|]. set_solver.
  Qed.

Lemma dedup_id l : NoDup l -> dedup l = l.
  Proof. intros. apply dedup_from_id; set_solver. Qed.
End Dedup.

(** ** Tables: rows keyed by their identifier *)

Definition rows {V} (m : gmap uuid V) : list V := (map_to_list m).*2.

Lemma elem_of_rows {V} (m : gmap uuid V) (v : V) :
  v ∈ rows m <-> exists i, m !! i = Some v.
Proof.
  unfold rows. rewrite list_elem_of_fmap. split.
  - intros ([i w] & -> & H). exists i. by apply elem_of_map_to_list in H.
  - intros (i & H). exists (i, v). split; [done|]. by apply elem_of_map_to_list.
Qed.

(** [repository.count({ where })] and [exists({ where })]. *)
Definition count_rows {V} (f : V -> bool) (m : gmap uuid V) : nat :=
  length (filter (fun v => f v = true) (rows m)).

Definition exists_row {V} (f : V -> bool) (m : gmap uuid V) : bool :=
  some_b f (rows m).

(** [repository.find({ where })], unordered, and [findOne]. *)
Definition find_rows {V} (f : V -> bool) (m : gmap uuid V) : list V :=
  filter (fun v => f v = true) (rows m).

Definition find_row {V} (f : V -> bool) (m : gmap uuid V) : option V :=
  head (find_rows f m).

Section Tables.
  Context {V : Type}.
  Implicit Types (m : gmap uuid V) (f : V -> bool) (v : V).

Lemma elem_of_find_rows f m v :
    v ∈ find_rows f m <-> f v = true /\ exists i, m !! i = Some v.
  Proof. unfold find_rows. by rewrite list_elem_of_filter, elem_of_rows. Qed.

Lemma exists_row_true f m :
    exists_row f m = true <-> exists i v, m !! i = Some v /\ f v = true.
  Proof.
    unfold exists_row. rewrite some_b_true. setoid_rewrite elem_of_rows.
    naive_solver.
  Qed.

Lemma exists_row_false f m :
    exists_row f m = false <-> forall i v, m !! i = Some v -> f v = false.
  Proof.
    unfold exists_row. rewrite some_b_false. setoid_rewrite elem_of_rows.
    naive_solver.
  Qed.

Lemma find_row_Some f m v :
    find_row f m = Some v -> f v = true /\ exists i, m !! i = Some v.
  Proof.
    unfold find_row. intros H. apply elem_of_find_rows.
    destruct (find_rows f m); simplify_eq/=. set_solver.
  Qed.

Lemma find_row_None f m :
    find_row f m = None <-> forall i v, m !! i = Some v -> f v = false.
  Proof.
    unfold find_row. split.
    - intros H i v Hi. destruct (f v) eqn:E; [|done].
      assert (v ∈ find_rows f m) as Hv by (apply elem_of_find_rows; eauto).
      destruct (find_rows f m); [set_solver | done].
    - intros H. destruct (find_rows f m) as [|v l] eqn:E; [done|].
      assert (v ∈ find_rows f m) as Hv by (rewrite E; set_solver).
      apply elem_of_find_rows in Hv as (Hf & i & Hi). rewrite (H i v Hi) in Hf. done.
  Qed.

Lemma count_rows_pos f m :
    Nat.ltb 0 (count_rows f m) = exists_row f m.
  Proof.
    unfold count_rows, exists_row, some_b, find_rows.
    induction (rows m) as [|v l IH]; [done|].
    rewrite filter_cons. simpl. destruct (f v) eqn:E.
    - by rewrite decide_True.
    - rewrite decide_False by done. by rewrite IH.
  Qed.
(** A row written changes a count by what it and the row it replaces count for. *)
Lemma rows_delete m i v : m !! i = Some v -> rows m ≡ₚ v :: rows (delete i m).
Proof. intros H. unfold rows. rewrite <- (map_to_list_delete m i v H). done. Qed.

Lemma rows_insert m i v : rows (<[i := v]> m) ≡ₚ v :: rows (delete i m).
Proof.
  rewrite (rows_delete (<[i := v]> m) i v) by apply lookup_insert_eq.
  by rewrite delete_insert_eq.
Qed.

Lemma count_rows_cons f (l : list V) v :
  length (filter (fun v => f v = true) (v :: l))
  = ((if f v then 1 else 0) + length (filter (fun v => f v = true) l))%nat.
Proof. rewrite filter_cons. destruct (f v); [by rewrite decide_True | by rewrite decide_False]. Qed.

Lemma count_rows_insert f m i v :
  count_rows f (<[i := v]> m) = ((if f v then 1 else 0) + count_rows f (delete i m))%nat.
Proof. unfold count_rows. rewrite rows_insert. apply count_rows_cons. Qed.

Lemma count_rows_delete f m i v :
  m !! i = Some v -> count_rows f m = ((if f v then 1 else 0) + count_rows f (delete i m))%nat.
Proof. intros H. unfold count_rows. rewrite (rows_delete m i v H). apply count_rows_cons. Qed.

Lemma count_rows_fmap f (g : V -> V) m :
  (forall v, f (g v) = f v) -> count_rows f (g <$> m) = count_rows f m.
Proof.
  intros Hg. unfold count_rows, rows. rewrite map_to_list_fmap, <- !list_fmap_compose.
  induction (map_to_list m) as [|[i v] l IH]; [done|]. cbn [fmap list_fmap]. rewrite !count_rows_cons. simpl.
  rewrite Hg. by rewrite IH.
Qed.
End Tables.

(** ** The latest of some instants *)

Definition latest (l : list time) (t : time) : time := foldr Z.max t l.

Lemma latest_base l t : t <= latest l t.
Proof. induction l as [|x l IH]; cbn; [lia|]. unfold latest in IH. lia. Qed.

Lemma latest_in l t x : x ∈ l -> x <= latest l t.
Proof.
  induction l as [|y l IH]; [set_solver|]. intros [->|Hx]%elem_of_cons; cbn; [lia|].
  specialize (IH Hx). unfold latest in IH. lia.
Qed.

Lemma latest_one l t : latest l t = t \/ latest l t ∈ l.
Proof.
  induction l as [|y l IH]; cbn; [by left|]. unfold latest in IH.
  destruct (Z.max_spec y (foldr Z.max t l)) as [[_ ->]|[_ ->]]; [|right; set_solver].
  destruct IH as [->|IH]; [by left | right; set_solver].
Qed.

(** ** Fresh identifiers

    A generated primary key is one above every key of the table. *)
Definition fresh_id {V} (m : gmap uuid V) : uuid :=
  N.succ (foldr N.max 0%N (map_to_list m).*1).

Lemma foldr_max_le (l : list N) (x : N) : x ∈ l -> (x <= foldr N.max 0 l)%N.
Proof.
  induction l as [|y l IH]; simpl; intros H; [set_solver|].
  apply elem_of_cons in H as [->|H]; [lia|]. specialize (IH H). lia.
Qed.

Lemma fresh_id_None {V} (m : gmap uuid V) : m !! fresh_id m = None.
Proof.
  destruct (m !! fresh_id m) as [v|] eqn:E; [|done]. exfalso.
  assert (fresh_id m ∈ (map_to_list m).*1) as Hin.
  { apply list_elem_of_fmap. exists (fresh_id m, v). split; [done|].
    by apply elem_of_map_to_list. }
  apply foldr_max_le in Hin. unfold fresh_id in Hin. lia.
Qed.

(** ** Tactics *)

(** Case analysis of the innermost condition or match of the goal or of a
    hypothesis, keeping its equation. *)
Ltac break_if :=
  match goal with
  | |- context [if ?b then _ else _] =>
      lazymatch b with context [if _ then _ else _] => fail | _ => destruct b eqn:? end
  | H : context [if ?b then _ else _] |- _ =>
      lazymatch b with context [if _ then _ else _] => fail | _ => destruct b eqn:? end
  end.

Ltac break_match_in H :=
  match type of H with
  | context [match ?x with _ => _ end] =>
      lazymatch x with context [match _ with _ => _ end] => fail | _ => destruct x eqn:? end
  end.

Create HintDb transport.
#[export] Hint Resolve NoDup_dedup fresh_id_None : transport.
#[export] Hint Rewrite @elem_of_dedup @elem_of_rows @elem_of_find_rows : transport.
