(* ===== verification/JsNumber.v ===== *)
(** * JavaScript numbers

    A JavaScript [number] is an IEEE-754 binary64, so amounts, weights and
    percents are the standard library's executable [spec_float] at precision 53:
    products and quotients round exactly where the engine rounds. *)

From Stdlib Require Import ZArith.
From Corelib Require Import SpecFloat.
From S2P Require Import Prelude.

Notation num := spec_float.

#[export] Instance num_eq_dec : EqDecision num.
Proof. solve_decision. Defined.

Definition prec : Z := 53.
Definition emax : Z := 1024.

Definition num_of_Z (z : Z) : num := binary_normalize prec emax z 0 false.

Definition num_mul (x y : num) : num := SFmul prec emax x y.
Definition num_div (x y : num) : num := SFdiv prec emax x y.
Definition num_sub (x y : num) : num := SFsub prec emax x y.

(** [x < y], [x <= y] and [x === y]; every comparison with [NaN] is false. *)
Definition num_ltb (x y : num) : bool := SFltb x y.
Definition num_leb (x y : num) : bool := SFleb x y.
Definition num_eqb (x y : num) : bool := SFeqb x y.

(** The integer a number is, if it is one. *)
Definition num_to_Z (x : num) : option Z :=
  match x with
  | S754_zero _ => Some 0
  | S754_finite s m e =>
      let z := if s then Z.neg m else Z.pos m in
      if 0 <=? e then Some (z * 2 ^ e)
      else if z mod 2 ^ (- e) =? 0 then Some (z / 2 ^ (- e)) else None
  | _ => None
  end.

(** [Number.MAX_SAFE_INTEGER] *)
Definition max_safe_integer : Z := 2 ^ 53 - 1.

(** [Number.isSafeInteger(x)], [Number.isFinite(x)] *)
Definition is_safe_integer (x : num) : bool :=
  match num_to_Z x with
  | Some z => Z.abs z <=? max_safe_integer
  | None => false
  end.

Definition is_finite_num (x : num) : bool :=
  match x with S754_zero _ | S754_finite _ _ _ => true | _ => false end.

(** [Math.round(x)]: the nearest integer, a half going up. *)
Definition math_round (x : num) : num :=
  match x with
  | S754_finite s m e =>
      if 0 <=? e then x
      else
        let z := if s then Z.neg m else Z.pos m in
        let r := (2 * z + 2 ^ (- e)) / (2 * 2 ^ (- e)) in
        if r =? 0 then S754_zero s else num_of_Z r
  | _ => x
  end.

(** [x.toFixed(2)] as the hundredths a [numeric(p, 2)] column keeps; [None] where
    the text is not a number Postgres takes ([NaN], infinities). *)
Definition to_hundredths (x : num) : option Z :=
  match x with
  | S754_zero _ => Some 0
  | S754_finite s m e =>
      let n := if 0 <=? e then 100 * Z.pos m * 2 ^ e
               else (200 * Z.pos m + 2 ^ (- e)) / (2 * 2 ^ (- e)) in
      Some (if s then - n else n)
  | _ => None
  end.

(** [Number('25.50')] of such a column: a decimal is read to the nearest double. *)
Definition num_of_hundredths (h : Z) : num := num_div (num_of_Z h) (num_of_Z 100).

Lemma is_safe_integer_spec (x : num) :
  is_safe_integer x = true <-> exists z, num_to_Z x = Some z /\ Z.abs z <= max_safe_integer.
Proof.
  unfold is_safe_integer. destruct (num_to_Z x) as [z|]; [|naive_solver].
  rewrite Z.leb_le. naive_solver.
Qed.

(** ** Whole numbers

    A safe integer is a double exactly. *)

Lemma digits2_shift (k m : positive) :
  Z.pos (digits2_pos (shift_pos k m)) = Z.pos (digits2_pos m) + Z.pos k.
Proof.
  unfold shift_pos. induction k as [|k IH] using Pos.peano_ind; [simpl; lia|].
  rewrite Pos.iter_succ. simpl. rewrite !Pos2Z.inj_succ. lia.
Qed.

Lemma shift_pos_value (k m : positive) : Z.pos (shift_pos k m) = Z.pos m * 2 ^ Z.pos k.
Proof. by rewrite shift_pos_correct, Z.pow_pos_fold, Z.mul_comm. Qed.

Lemma digits2_bound (m : positive) (k : Z) : Z.pos m < 2 ^ k -> Z.pos (digits2_pos m) <= k.
Proof.
  intros Hm. assert (Hk : 0 <= k).
  { destruct (Z.le_gt_cases 0 k); [done|]. rewrite Z.pow_neg_r in Hm; lia. }
  pose proof (Pos.size_le m) as Hle. change (Pos.size m) with (digits2_pos m) in Hle.
  assert (H2 : 2 ^ Z.pos (digits2_pos m) <= 2 * Z.pos m).
  { change 2 with (Z.pos 2). rewrite <- Pos2Z.inj_pow. lia. }
  assert (H3 : 2 ^ Z.pos (digits2_pos m) < 2 ^ (k + 1)) by (rewrite Z.pow_add_r by lia; lia).
  apply Z.pow_lt_mono_r_iff in H3; lia.
Qed.

(** A mantissa within the precision, at its own exponent, is kept as it is. *)
Lemma binary_round_aux_exact (s : bool) (m : positive) (e : Z) :
  fexp prec emax (Z.pos (digits2_pos m) + e) = e -> e <= emax - prec ->
  binary_round_aux prec emax s (Z.pos m) e loc_Exact = S754_finite s m e.
Proof.
  intros He Hmax. unfold binary_round_aux, shr_fexp. cbn [Zdigits2]. rewrite He, Z.sub_diag.
  cbn [shr shr_record_of_loc shr_m loc_of_shr_record round_nearest_even Zdigits2]. rewrite He, Z.sub_diag.
  cbn [shr shr_record_of_loc shr_m]. by rewrite (proj2 (Z.leb_le _ _) Hmax).
Qed.

Lemma num_to_Z_round (s : bool) (m : positive) :
  Z.pos m <= max_safe_integer ->
  num_to_Z (binary_round prec emax s m 0) = Some (if s then Z.neg m else Z.pos m).
Proof.
  intros Hm. pose proof (digits2_bound m 53 ltac:(unfold max_safe_integer in Hm; lia)) as Hd.
  unfold binary_round. set (d := digits2_pos m) in *.
  assert (Hf : fexp prec emax (Z.pos d + 0) = Z.pos d - 53) by (unfold fexp, emin, prec, emax; lia).
  rewrite Hf. unfold shl_align. rewrite Z.sub_0_r. destruct (Z.pos d - 53) as [|p|p] eqn:E; [| lia |].
  - rewrite binary_round_aux_exact; [| fold d; rewrite Hf; lia | unfold emax, prec; lia].
    unfold num_to_Z. cbn [Z.leb Z.compare]. by rewrite Z.mul_1_r.
  - assert (Hdig : Z.pos (digits2_pos (shift_pos p m)) = 53) by (rewrite digits2_shift; fold d; lia).
    fold (shift_pos p m). change (Z.neg p) with (- Z.pos p) in *.
    rewrite binary_round_aux_exact;
      [| fold (shift_pos p m); rewrite Hdig; unfold fexp, emin, prec, emax; lia | unfold emax, prec; lia].
    fold (shift_pos p m).
    unfold num_to_Z. cbn [Z.leb Z.compare Z.opp].
    set (w := 2 ^ Z.pos p). assert (Hw : 0 < w) by (apply Z.pow_pos_nonneg; lia).
    assert (Hv : (if s then Z.neg (shift_pos p m) else Z.pos (shift_pos p m)) = (if s then Z.neg m else Z.pos m) * w).
    { destruct s; [change (Z.neg (shift_pos p m)) with (- Z.pos (shift_pos p m));
                   change (Z.neg m) with (- Z.pos m)|]; rewrite shift_pos_value; unfold w; lia. }
    rewrite Hv, Z_mod_mult, Z.eqb_refl, Z_div_mult by lia. done.
Qed.

Lemma num_to_Z_of_Z (z : Z) : Z.abs z <= max_safe_integer -> num_to_Z (num_of_Z z) = Some z.
Proof.
  intros Hz. unfold num_of_Z, binary_normalize. destruct z as [|p|p]; [done| |].
  - by apply (num_to_Z_round false).
  - by apply (num_to_Z_round true).
Qed.
