(* ===== verification/JsString.v ===== *)
(** * JavaScript strings

    Text people type is a list of UTF-16 code units, as [length], [slice] and the
    character classes of the regular expressions see it.  [js] turns a Rocq string
    (UTF-8 bytes) into that form. *)

From Stdlib Require Import Ascii.
From S2P Require Import Prelude.

Notation text := (list N).

Fixpoint bytes_of_string (s : string) : list N :=
  match s with
  | EmptyString => []
  | String c s => N_of_ascii c :: bytes_of_string s
  end.

(** The code units of a code point: itself, or a surrogate pair. *)
Definition units_of_point (c : N) : list N :=
  (if c <? 65536 then [c]
   else [55296 + (c - 65536) / 1024; 56320 + (c - 65536) mod 1024])%N.

Fixpoint utf8_decode (l : list N) : text :=
  (match l with
   | [] => []
   | b :: l1 =>
       if b <? 128 then b :: utf8_decode l1
       else match l1 with
       | [] => []
       | b1 :: l2 =>
           if b <? 224 then units_of_point ((b - 192) * 64 + (b1 - 128)) ++ utf8_decode l2
           else match l2 with
           | [] => []
           | b2 :: l3 =>
               if b <? 240 then
                 units_of_point ((b - 224) * 4096 + (b1 - 128) * 64 + (b2 - 128)) ++ utf8_decode l3
               else match l3 with
               | [] => []
               | b3 :: l4 =>
                   units_of_point ((b - 240) * 262144 + (b1 - 128) * 4096 + (b2 - 128) * 64 + (b3 - 128))
                   ++ utf8_decode l4
               end
           end
       end
   end)%N.

Definition js (s : string) : text := utf8_decode (bytes_of_string s).
Arguments js : simpl never.

(** ** Character classes *)

(** [\s], also what [trim] removes *)
Definition is_space (c : N) : bool :=
  ((9 <=? c) && (c <=? 13) || (c =? 32) || (c =? 160) || (c =? 5760)
   || (8192 <=? c) && (c <=? 8202) || (c =? 8232) || (c =? 8233) || (c =? 8239)
   || (c =? 8287) || (c =? 12288) || (c =? 65279))%N.

(** [[0-9]], [[۰-۹]], [[٠-٩]] *)
Definition is_digit (c : N) : bool := ((48 <=? c) && (c <=? 57))%N.
Definition is_persian_digit (c : N) : bool := ((1776 <=? c) && (c <=? 1785))%N.
Definition is_arabic_digit (c : N) : bool := ((1632 <=? c) && (c <=? 1641))%N.

(** Persian and Arabic digits to Latin ones, the other characters as they are. *)
Definition latin_digit (c : N) : N :=
  (if is_persian_digit c then c - 1776 + 48
   else if is_arabic_digit c then c - 1632 + 48 else c)%N.

Definition latin_digits (t : text) : text := map latin_digit t.

(** ** String operations *)

Fixpoint drop_while (f : N -> bool) (t : text) : text :=
  match t with
  | [] => []
  | c :: t' => if f c then drop_while f t' else t
  end.

Definition trim (t : text) : text :=
  reverse (drop_while is_space (reverse (drop_while is_space t))).

(** [replace(/[f]/g, '')] *)
Definition remove_chars (f : N -> bool) (t : text) : text :=
  List.filter (fun c => negb (f c)) t.

(** [replace(/\s+/g, ' ')] *)
Fixpoint collapse_spaces_from (in_space : bool) (t : text) : text :=
  match t with
  | [] => []
  | c :: t =>
      if is_space c then
        if in_space then collapse_spaces_from true t else 32%N :: collapse_spaces_from true t
      else c :: collapse_spaces_from false t
  end.

Definition collapse_spaces (t : text) : text := collapse_spaces_from false t.

(** [t.startsWith(p)] with what follows *)
Fixpoint strip_prefix (p t : text) : option text :=
  match p, t with
  | [], _ => Some t
  | a :: p, b :: t => if (a =? b)%N then strip_prefix p t else None
  | _ :: _, [] => None
  end.

Definition starts_with (p t : text) : bool :=
  match strip_prefix p t with Some _ => true | None => false end.

(** [t.split(/[f]+/)]: the pieces between runs of separators, empty ones kept at
    the ends. *)
Fixpoint split_runs_from (f : N -> bool) (cur : text) (in_sep : bool) (t : text) : list text :=
  match t with
  | [] => [reverse cur]
  | c :: t =>
      if f c then
        if in_sep then split_runs_from f [] true t
        else reverse cur :: split_runs_from f [] true t
      else split_runs_from f (c :: cur) false t
  end.

Definition split_runs (f : N -> bool) (t : text) : list text := split_runs_from f [] false t.

(** [split] at one character *)
Fixpoint split_at (c : N) (cur : text) (t : text) : list text :=
  match t with
  | [] => [reverse cur]
  | d :: t => if (d =? c)%N then reverse cur :: split_at c [] t else split_at c (d :: cur) t
  end.

Definition join (sep : text) (l : list text) : text :=
  match l with
  | [] => []
  | x :: l => foldl (fun acc y => acc ++ sep ++ y) x l
  end.

Definition is_empty (t : text) : bool := match t with [] => true | _ => false end.

Definition includes (p : N -> bool) (t : text) : bool := existsb p t.

(** The decimal digits of a natural number, as [String(n)] writes them. *)
Definition text_of_N (n : N) : text := bytes_of_string (pretty.pretty n).

(** [n.toLocaleString('fa-IR')] of a whole number: Persian digits grouped by three
    with «٬». *)
Fixpoint group_digits_rev (i : nat) (ds : text) : text :=
  match ds with
  | [] => []
  | d :: ds =>
      let d := (d - 48 + 1776)%N in
      if (0 <? i)%nat && (Nat.modulo i 3 =? 0)%nat then 1644%N :: d :: group_digits_rev (S i) ds
      else d :: group_digits_rev (S i) ds
  end.

Definition fa_locale (n : N) : text := reverse (group_digits_rev 0 (reverse (text_of_N n))).

(** Latin digits written in Persian. *)
Definition persian_digits (t : text) : text :=
  map (fun c => if is_digit c then (c - 48 + 1776)%N else c) t.

(** ** Laws *)

Lemma drop_while_idemp f t : drop_while f (drop_while f t) = drop_while f t.
Proof.
  induction t as [|c t IH]; simpl; [done|]. destruct (f c) eqn:E; [done|].
  simpl. by rewrite E.
Qed.

Lemma drop_while_id f t : forallb (fun c => negb (f c)) t = true -> drop_while f t = t.
Proof. destruct t as [|c t]; simpl; [done|]. by destruct (f c). Qed.

Lemma forallb_reverse (f : N -> bool) (t : text) : forallb f (reverse t) = forallb f t.
Proof.
  apply eq_bool_prop_intro. rewrite !Is_true_true, !forallb_forall.
  setoid_rewrite <- list_elem_of_In. by setoid_rewrite elem_of_reverse.
Qed.

Lemma trim_id t : forallb (fun c => negb (is_space c)) t = true -> trim t = t.
Proof.
  intros H. unfold trim. rewrite (drop_while_id _ t H), drop_while_id.
  - by rewrite reverse_involutive.
  - by rewrite forallb_reverse.
Qed.

Lemma remove_chars_id f t :
  forallb (fun c => negb (f c)) t = true -> remove_chars f t = t.
Proof.
  induction t as [|c t IH]; simpl; [done|]. intros H.
  apply andb_split in H as [H1 H2]. unfold remove_chars in *. simpl. rewrite H1.
  by rewrite IH.
Qed.

Lemma remove_chars_clean f t : forallb (fun c => negb (f c)) (remove_chars f t) = true.
Proof.
  apply forallb_forall. intros c Hc. unfold remove_chars in Hc.
  by apply List.filter_In in Hc as [_ ?].
Qed.

Lemma remove_chars_idemp f t : remove_chars f (remove_chars f t) = remove_chars f t.
Proof. apply remove_chars_id, remove_chars_clean. Qed.

Lemma latin_digit_digit c : is_digit c = true -> latin_digit c = c.
Proof.
  unfold is_digit, latin_digit, is_persian_digit, is_arabic_digit. intros H.
  apply andb_split in H as [H1%N.leb_le H2%N.leb_le].
  destruct (1776 <=? c)%N eqn:E1; [apply N.leb_le in E1; lia|].
  destruct (1632 <=? c)%N eqn:E2; [apply N.leb_le in E2; lia|]. done.
Qed.

Lemma latin_digit_idemp c : latin_digit (latin_digit c) = latin_digit c.
Proof.
  destruct (is_digit (latin_digit c)) eqn:E; [by apply latin_digit_digit|].
  unfold latin_digit at 2 3. destruct (is_persian_digit c) eqn:Ep.
  - exfalso. revert E. unfold latin_digit, is_digit. rewrite Ep.
    unfold is_persian_digit in Ep. apply andb_split in Ep as [H1%N.leb_le H2%N.leb_le].
    rewrite andb_false_iff, !N.leb_gt. lia.
  - destruct (is_arabic_digit c) eqn:Ea.
    + exfalso. revert E. unfold latin_digit, is_digit. rewrite Ep, Ea.
      unfold is_arabic_digit in Ea. apply andb_split in Ea as [H1%N.leb_le H2%N.leb_le].
      rewrite andb_false_iff, !N.leb_gt. lia.
    + unfold latin_digit. by rewrite Ep, Ea.
Qed.

Lemma latin_digits_id t : forallb is_digit t = true -> latin_digits t = t.
Proof.
  induction t as [|c t IH]; simpl; [done|]. intros [H1 H2]%andb_split.
  unfold latin_digits in *. simpl. by rewrite latin_digit_digit, IH.
Qed.

Lemma latin_digits_app t1 t2 : latin_digits (t1 ++ t2) = latin_digits t1 ++ latin_digits t2.
Proof. apply map_app. Qed.

Lemma is_digit_not_space c : is_digit c = true -> is_space c = false.
Proof.
  unfold is_digit. intros [H1%N.leb_le H2%N.leb_le]%andb_split.
  unfold is_space. repeat rewrite ?orb_false_iff, ?andb_false_iff, ?N.leb_gt, ?N.eqb_neq.
  lia.
Qed.

Lemma forallb_impl (f g : N -> bool) (t : text) :
  (forall c, f c = true -> g c = true) -> forallb f t = true -> forallb g t = true.
Proof. rewrite !forallb_forall. intros H Hf c Hc. by apply H, Hf. Qed.

Lemma strip_prefix_app p t : strip_prefix p (p ++ t) = Some t.
Proof. induction p as [|a p IH]; simpl; [done|]. by rewrite N.eqb_refl. Qed.

Lemma strip_prefix_Some p t r : strip_prefix p t = Some r -> t = p ++ r.
Proof.
  revert t. induction p as [|a p IH]; intros [|b t] H; simplify_eq/=; try done.
  destruct (a =? b)%N eqn:E; [|done]. apply N.eqb_eq in E as ->. by rewrite (IH t H).
Qed.
