(* ===== verification/Json.v ===== *)
(** * Values of JSON, and [Number] of them

    What a [jsonb] column or a Redis entry holds once parsed, and the conversion
    [Number(value)] a service reads a foreign value with.  A decimal text is read to
    the nearest double: [num_of_ratio] scales the quotient until it has more bits than
    a double keeps and marks what is left as a sticky bit. *)

From Stdlib Require Import ZArith.
From Corelib Require Import SpecFloat.
From S2P Require Import Prelude JsNumber JsString.

Inductive json :=
| JNull
| JBool (b : bool)
| JNum (x : num)
| JStr (t : text)
| JArr (l : list json)
| JObj (fields : list (string * json)).

(** [value.key] of a parsed object *)
Fixpoint field (key : string) (fields : list (string * json)) : option json :=
  match fields with
  | [] => None
  | (k, v) :: fields => if String.eqb k key then Some v else field key fields
  end.

(** [(item as T)?.key]: only an object has the field *)
Definition member (key : string) (v : json) : option json :=
  match v with JObj fields => field key fields | _ => None end.

(** ** Numbers from text *)

Definition NaN : num := S754_nan.
Definition Infinity (negative : bool) : num := S754_infinity negative.

(** The double nearest to [n / d], for [0 <= n] and [0 < d] *)
Definition num_of_ratio (negative : bool) (n d : Z) : num :=
  if n =? 0 then S754_zero negative
  else
    let k := Z.max 0 (Z.log2 d - Z.log2 n + 66) in
    let q := (n * 2 ^ k) / d in
    let sticky := if (n * 2 ^ k) mod d =? 0 then 0 else 1 in
    let m := 2 * q + sticky in
    binary_normalize prec emax (if negative then - m else m) (- k - 1) negative.

Definition digits_number (base : Z) (ds : list Z) : Z := foldl (fun acc d => acc * base + d) 0 ds.

Definition decimal_digit (c : N) : option Z := if is_digit c then Some (Z.of_N c - 48) else None.

Definition hex_digit (c : N) : option Z :=
  if is_digit c then Some (Z.of_N c - 48)
  else if ((97 <=? c) && (c <=? 102))%N then Some (Z.of_N c - 87)
  else if ((65 <=? c) && (c <=? 70))%N then Some (Z.of_N c - 55)
  else None.

(** The digits a text begins with, and the rest *)
Fixpoint take_digits (t : text) : list Z * text :=
  match t with
  | c :: t' =>
      match decimal_digit c with
      | Some d => let (ds, rest) := take_digits t' in (d :: ds, rest)
      | None => ([], t)
      end
  | [] => ([], [])
  end.

Fixpoint all_digits (digit : N -> option Z) (t : text) : option (list Z) :=
  match t with
  | [] => Some []
  | c :: t => d ← digit c; ds ← all_digits digit t; Some (d :: ds)
  end.

Definition in_base (base : Z) (c : N) : option Z :=
  match hex_digit c with Some d => if d <? base then Some d else None | None => None end.

Definition based_number (base : Z) (t : text) : num :=
  match all_digits (in_base base) t with
  | Some (d :: ds) => num_of_Z (digits_number base (d :: ds))
  | _ => NaN
  end.

(** The exponent part after [e] or [E]; [None] when it is malformed *)
Definition read_exponent (t : text) : option Z :=
  match t with
  | [] => Some 0
  | c :: t' =>
      if ((c =? 101) || (c =? 69))%N then
        let (negative, ds) := match t' with
                              | 45%N :: ds => (true, ds)
                              | 43%N :: ds => (false, ds)
                              | ds => (false, ds)
                              end in
        match all_digits decimal_digit ds with
        | Some (d :: ds) => let e := digits_number 10 (d :: ds) in Some (if negative then - e else e)
        | _ => None
        end
      else None
  end.

(** [digits . digits e exponent] *)
Definition unsigned_number (negative : bool) (t : text) : num :=
  if bool_decide (t = js "Infinity") then Infinity negative
  else
    let (whole, rest) := take_digits t in
    let (fraction, rest) := match rest with 46%N :: r => take_digits r | _ => ([], rest) end in
    if bool_decide (whole ++ fraction = []) then NaN
    else
      match read_exponent rest with
      | None => NaN
      | Some e =>
          let m := digits_number 10 (whole ++ fraction) in
          let e := e - Z.of_nat (length fraction) in
          if 0 <=? e then num_of_ratio negative (m * 10 ^ e) 1 else num_of_ratio negative m (10 ^ (- e))
      end.

(** [Number(text)] *)
Definition number_of_text (t : text) : num :=
  match trim t with
  | [] => num_of_Z 0
  | 48%N :: 120%N :: ds | 48%N :: 88%N :: ds => based_number 16 ds
  | 48%N :: 111%N :: ds | 48%N :: 79%N :: ds => based_number 8 ds
  | 48%N :: 98%N :: ds | 48%N :: 66%N :: ds => based_number 2 ds
  | 45%N :: t => unsigned_number true t
  | 43%N :: t => unsigned_number false t
  | t => unsigned_number false t
  end.

(** [Number(value)]; an array is read through its text: its items joined by commas *)
Fixpoint number_of_json (v : json) : num :=
  match v with
  | JNull => num_of_Z 0
  | JBool b => num_of_Z (if b then 1 else 0)
  | JNum x => x
  | JStr t => number_of_text t
  | JArr [] => num_of_Z 0
  | JArr [JBool _] => NaN
  | JArr [item] => number_of_json item
  | JArr _ => NaN
  | JObj _ => NaN
  end.

(** [Number(value.key)]: [NaN] of a missing field *)
Definition number_of_field (o : option json) : num :=
  match o with Some v => number_of_json v | None => NaN end.

Example number_text : number_of_text (js " 12.5e1 ") = num_of_Z 125.
Proof. reflexivity. Qed.

Example number_tenth : number_of_text (js "0.3") = num_div (num_of_Z 3) (num_of_Z 10).
Proof. reflexivity. Qed.

Example number_not : number_of_text (js "12 ton") = NaN /\ number_of_text (js ".") = NaN.
Proof. split; reflexivity. Qed.
