(* ===== verification/Effects.v ===== *)
(** * Effects of the services

    A NestJS handler reads and writes the database, publishes events and either
    returns or throws.  [M S A] is such a computation over a state [S]: what was
    written before a [throw] stays written, unless the code opened a
    [dataSource.transaction], which restores the state ([transaction]). *)

From S2P Require Import Prelude JsString.

(** The exceptions the services throw: NestJS's HTTP exceptions with their
    message, TypeORM's [QueryFailedError] with the SQL state, the error of a
    messenger's answer ([response.statusCode], [response.body.error_code] and
    [response.body.parameters.retry_after]), and any other [Error]. *)
Inductive exn :=
| BadRequest (message : text)
| Unauthorized (message : text)
| NotFound (message : text)
| Conflict (message : text)
| HttpError (status : Z) (message : text)
| QueryFailed (code : string)
| MessengerError (message : text) (statusCode errorCode retryAfter : option Z)
| OtherError (message : text).

(** The exceptions with a fixed message. *)
Definition badRequest (m : string) : exn := BadRequest (js m).
Definition unauthorized (m : string) : exn := Unauthorized (js m).
Definition notFound (m : string) : exn := NotFound (js m).
Definition conflict (m : string) : exn := Conflict (js m).

#[export] Instance exn_eq_dec : EqDecision exn.
Proof. solve_decision. Defined.

(** A text of a [varchar(n)] column; Postgres counts characters, a surrogate pair
    being one. *)
Definition char_count (t : text) : nat :=
  length (List.filter (fun c => negb ((56320 <=? c) && (c <=? 57343))%N) t).
Definition fits_varchar (n : nat) (t : text) : bool := Nat.leb (char_count t) n.
Definition column_fits (n : nat) (t : option text) : bool :=
  match t with Some t => fits_varchar n t | None => true end.
Definition TOO_LONG : exn := QueryFailed "22001".

Inductive outcome (A : Type) :=
| Ok (a : A)
| Err (e : exn).
Arguments Ok {A} a.
Arguments Err {A} e.

#[export] Instance outcome_eq_dec {A} `{EqDecision A} : EqDecision (outcome A).
Proof. solve_decision. Defined.

Definition M (S A : Type) : Type := S -> outcome A * S.

Section Operations.
  Context {S : Type}.

#[export] Instance M_ret : MRet (M S) := fun _ a s => (Ok a, s).

#[export] Instance M_bind : MBind (M S) := fun _ _ k m s =>
    match m s with
    | (Ok a, s1) => k a s1
    | (Err e, s1) => (Err e, s1)
    end.

Definition throw {A} (e : exn) : M S A := fun s => (Err e, s).

  (** [if (!condition) throw e] *)
Definition ensure (b : bool) (e : exn) : M S unit := if b then mret tt else throw e.

Definition get : M S S := fun s => (Ok s, s).
Definition gets {A} (f : S -> A) : M S A := fun s => (Ok (f s), s).
Definition modify (f : S -> S) : M S unit := fun s => (Ok tt, f s).

  (** [if (!x) throw e] for a value that may be null *)
Definition some_or {A} (o : option A) (e : exn) : M S A :=
    match o with Some a => mret a | None => throw e end.

Definition of_outcome {A} (o : outcome A) : M S A := fun s => (o, s).

Definition when (b : bool) (m : M S unit) : M S unit := if b then m else mret tt.

  (** [try { m } catch (e) { h e }] *)
Definition try_catch {A} (m : M S A) (h : exn -> M S A) : M S A := fun s =>
    match m s with
    | (Err e, s1) => h e s1
    | r => r
    end.

  (** [try { m } finally { f }]: [f] runs on both ways out *)
Definition try_finally {A} (m : M S A) (f : M S unit) : M S A := fun s =>
    match m s with
    | (r, s1) =>
        match f s1 with
        | (Ok _, s2) => (r, s2)
        | (Err e, s2) => (Err e, s2)
        end
    end.

  (** [dataSource.transaction(async (manager) => m)] *)
Definition transaction {A} (m : M S A) : M S A := fun s =>
    match m s with
    | (Ok a, s1) => (Ok a, s1)
    | (Err e, _) => (Err e, s)
    end.

  (** [for (const x of xs) await f(x)] *)
Fixpoint for_each {A} (l : list A) (f : A -> M S unit) : M S unit :=
    match l with
    | [] => mret tt
    | x :: l => f x ≫= fun _ => for_each l f
    end.
End Operations.

(** A computation on a part of the state. *)
Definition zoom {S T A} (getT : S -> T) (putT : T -> S -> S) (m : M T A) : M S A :=
  fun s => match m (getT s) with (r, t) => (r, putT t s) end.

(** The answer and the state a computation ends with. *)
Definition result {S A} (m : M S A) (s : S) : outcome A := (m s).1.
Definition final {S A} (m : M S A) (s : S) : S := (m s).2.

(** ** Running *)

Section Running.
  Context {S : Type}.

Lemma run_ret {A} (a : A) (s : S) : (mret a : M S A) s = (Ok a, s).
  Proof. done. Qed.

Lemma run_bind {A B} (m : M S A) (k : A -> M S B) (s : S) :
    (m ≫= k) s = match m s with (Ok a, s1) => k a s1 | (Err e, s1) => (Err e, s1) end.
  Proof. done. Qed.

Lemma final_get_bind {A} (k : S -> M S A) (s : S) : final (get ≫= k) s = final (k s) s.
  Proof. done. Qed.

Lemma bind_Ok_inv {A B} (m : M S A) (k : A -> M S B) (s s2 : S) b :
    (m ≫= k) s = (Ok b, s2) ->
    exists a s1, m s = (Ok a, s1) /\ k a s1 = (Ok b, s2).
  Proof.
    rewrite run_bind. destruct (m s) as [[a|e] s1]; intros H; [eauto | done].
  Qed.

Lemma bind_Err_inv {A B} (m : M S A) (k : A -> M S B) (s s2 : S) e :
    (m ≫= k) s = (Err e, s2) ->
    m s = (Err e, s2) \/ exists a s1, m s = (Ok a, s1) /\ k a s1 = (Err e, s2).
  Proof.
    rewrite run_bind. destruct (m s) as [[a|e'] s1]; intros H; [eauto|].
    left. congruence.
  Qed.

Lemma ensure_Ok_inv b e (s s1 : S) u : ensure b e s = (Ok u, s1) -> b = true /\ s1 = s.
  Proof. unfold ensure. destruct b; intros H; [|done]. by inversion H. Qed.

Lemma some_or_Ok_inv {A} (o : option A) e (s s1 : S) a :
    some_or o e s = (Ok a, s1) -> o = Some a /\ s1 = s.
  Proof. unfold some_or. destruct o; intros H; [|done]. by inversion H. Qed.

Lemma transaction_Err {A} (m : M S A) (s s1 : S) e :
    transaction m s = (Err e, s1) -> s1 = s.
  Proof. unfold transaction. destruct (m s) as [[a|e'] s2]; congruence. Qed.

Lemma transaction_Ok_inv {A} (m : M S A) (s s1 : S) a :
    transaction m s = (Ok a, s1) -> m s = (Ok a, s1).
  Proof. unfold transaction. destruct (m s) as [[?|?] ?]; congruence. Qed.
End Running.

(** ** Invariants of computations

    [preserves I m]: [I] is kept whether [m] returns or throws. *)

Definition preserves {S A} (I : S -> Prop) (m : M S A) : Prop :=
  forall s, I s -> I (final m s).

(** [establishes I m Q]: run where [I] holds, [m] keeps [I], and an answer
    satisfies [Q]. *)
Definition establishes {S A} (I : S -> Prop) (m : M S A) (Q : A -> S -> Prop) : Prop :=
  forall s, I s -> I (final m s) /\ forall a, result m s = Ok a -> Q a (final m s).

Create HintDb preserves.

Section Preserves.
  Context {S : Type} (I : S -> Prop).

Lemma preserves_ret {A} (a : A) : preserves I (mret a).
  Proof. by intros s Hs. Qed.

Lemma preserves_bind {A B} (m : M S A) (k : A -> M S B) :
    preserves I m -> (forall a, preserves I (k a)) -> preserves I (m ≫= k).
  Proof.
    intros Hm Hk s Hs. unfold final. rewrite run_bind. specialize (Hm s Hs).
    unfold final in Hm. destruct (m s) as [[a|e] s1]; [|done].
    by apply (Hk a s1).
  Qed.

Lemma preserves_throw {A} e : preserves I (throw (A:=A) e).
  Proof. by intros s Hs. Qed.

Lemma preserves_ensure b e : preserves I (ensure b e).
  Proof. destruct b; [apply preserves_ret | apply preserves_throw]. Qed.

Lemma preserves_some_or {A} (o : option A) e : preserves I (some_or o e).
  Proof. destruct o; [apply preserves_ret | apply preserves_throw]. Qed.

Lemma preserves_gets {A} (f : S -> A) : preserves I (gets f).
  Proof. by intros s Hs. Qed.

Lemma preserves_get : preserves I get.
  Proof. by intros s Hs. Qed.

Lemma preserves_of_outcome {A} (o : outcome A) : preserves I (of_outcome o).
  Proof. by intros s Hs. Qed.

Lemma preserves_modify f : (forall s, I s -> I (f s)) -> preserves I (modify f).
  Proof. intros H s Hs. by apply H. Qed.

Lemma preserves_when b m : (b = true -> preserves I m) -> preserves I (when b m).
  Proof. destruct b; simpl; intros H; [by apply H | apply preserves_ret]. Qed.

Lemma preserves_if {A} (b : bool) (m1 m2 : M S A) :
    (b = true -> preserves I m1) -> (b = false -> preserves I m2) ->
    preserves I (if b then m1 else m2).
  Proof. destruct b; auto. Qed.

Lemma preserves_try_catch {A} (m : M S A) h :
    preserves I m -> (forall e, preserves I (h e)) -> preserves I (try_catch m h).
  Proof.
    intros Hm Hh s Hs. specialize (Hm s Hs). unfold final, try_catch in *.
    destruct (m s) as [[a|e] s1]; [done|]. by apply (Hh e s1).
  Qed.

Lemma preserves_try_finally {A} (m : M S A) f :
    preserves I m -> preserves I f -> preserves I (try_finally m f).
  Proof.
    intros Hm Hf s Hs. specialize (Hm s Hs). unfold final, try_finally in *.
    destruct (m s) as [r s1]. specialize (Hf s1 Hm). unfold final in Hf.
    by destruct (f s1) as [[u|e] s2].
  Qed.

Lemma preserves_transaction {A} (m : M S A) :
    preserves I m -> preserves I (transaction m).
  Proof.
    intros Hm s Hs. specialize (Hm s Hs). unfold final, transaction in *.
    by destruct (m s) as [[a|e] s1].
  Qed.

Lemma preserves_for_each {A} (l : list A) f :
    (forall x, x ∈ l -> preserves I (f x)) -> preserves I (for_each l f).
  Proof.
    induction l as [|x l IH]; simpl; intros H; [apply preserves_ret|].
    apply preserves_bind; [apply H; set_solver|]. intros _. apply IH. set_solver.
  Qed.

  (** The rules that keep what a read or a guard says. *)
Lemma preserves_get_bind {A} (k : S -> M S A) :
    (forall s, I s -> preserves I (k s)) -> preserves I (get ≫= k).
  Proof. intros H s Hs. by apply (H s Hs). Qed.

Lemma preserves_gets_bind {A B} (f : S -> A) (k : A -> M S B) :
    (forall s, I s -> preserves I (k (f s))) -> preserves I (gets f ≫= k).
  Proof. intros H s Hs. by apply (H s Hs). Qed.

Lemma preserves_ensure_bind {B} b e (k : unit -> M S B) :
    (b = true -> preserves I (k tt)) -> preserves I (ensure b e ≫= k).
  Proof. destruct b; intros H s Hs; [by apply H | done]. Qed.

Lemma preserves_some_or_bind {A B} (o : option A) e (k : A -> M S B) :
    (forall a, o = Some a -> preserves I (k a)) -> preserves I (some_or o e ≫= k).
  Proof. destruct o as [a|]; intros H s Hs; [by apply (H a) | done]. Qed.
End Preserves.

Lemma preserves_zoom {S T A} (I : S -> Prop) (J : T -> Prop)
    (getT : S -> T) (putT : T -> S -> S) (m : M T A) :
  preserves J m ->
  (forall s, I s -> J (getT s)) ->
  (forall s t, I s -> J t -> I (putT t s)) ->
  preserves I (zoom getT putT m).
Proof.
  intros Hm Hg Hp s Hs. specialize (Hm _ (Hg _ Hs)). unfold final, zoom in *.
  destruct (m (getT s)) as [r t]. by apply Hp.
Qed.

#[export] Hint Resolve preserves_ret preserves_throw preserves_ensure preserves_some_or
  preserves_gets preserves_get preserves_of_outcome preserves_bind preserves_when
  preserves_if preserves_try_catch preserves_try_finally preserves_transaction
  preserves_for_each : preserves.

(** [preserve]: peels a handler apart, guards first, down to the hinted operations. *)
Ltac preserve_step :=
  match goal with
  | |- preserves _ (get ≫= _) => apply preserves_get_bind; intros ? ?
  | |- preserves _ (gets _ ≫= _) => apply preserves_gets_bind; intros ? ?
  | |- preserves _ (ensure _ _ ≫= _) => apply preserves_ensure_bind; intros ?
  | |- preserves _ (some_or _ _ ≫= _) => apply preserves_some_or_bind; intros ? ?
  | |- preserves _ (_ ≫= _) => apply preserves_bind; [|intros ?]
  | |- preserves _ (transaction _) => apply preserves_transaction
  | |- preserves _ (try_catch _ _) => apply preserves_try_catch; [|intros ?]
  | |- preserves _ (try_finally _ _) => apply preserves_try_finally
  | |- preserves _ (when _ _) => apply preserves_when; intros ?
  | |- preserves _ (for_each _ _) => apply preserves_for_each; intros ? ?
  | |- preserves _ (if _ then _ else _) => apply preserves_if; intros ?
  | |- preserves _ (match ?x with _ => _ end) => destruct x eqn:?
  | |- preserves _ (let _ := _ in _) => cbv zeta
  | |- preserves _ _ => solve [auto with preserves]
  end.
Ltac preserve := repeat preserve_step.

(** A computation that only reads: it keeps whatever state it starts in. *)
Definition reads {S A} (m : M S A) : Prop := forall t, preserves (eq t) m.

Lemma reads_run {S A} (m : M S A) s r s1 : reads m -> m s = (r, s1) -> s1 = s.
Proof. intros Hm Hr. specialize (Hm s s eq_refl). unfold final in Hm. by rewrite Hr in Hm. Qed.

Lemma reads_final {S A} (m : M S A) s : reads m -> final m s = s.
Proof. intros Hm. symmetry. by apply Hm. Qed.

Lemma reads_preserves {S A} (I : S -> Prop) (m : M S A) : reads m -> preserves I m.
Proof. intros Hm s Hs. by rewrite reads_final. Qed.

(** What follows a read starts in the same state. *)
Lemma reads_bind {S A B} (P : S -> Prop) (m : M S A) (k : A -> M S B) s :
  reads m -> P s -> (forall a, result m s = Ok a -> P (final (k a) s)) -> P (final (m ≫= k) s).
Proof.
  intros Hm Hs Hk. unfold final, result in *. rewrite run_bind. destruct (m s) as [r s1] eqn:E.
  pose proof (reads_run m s r s1 Hm E) as ->. destruct r as [a|e]; [by apply Hk | done].
Qed.

Lemma reads_cases {S A B} (m : M S A) (k : A -> M S B) s :
  reads m -> (exists e, (m ≫= k) s = (Err e, s)) \/ (exists a, result m s = Ok a /\ (m ≫= k) s = k a s).
Proof.
  intros Hm. rewrite run_bind. unfold result. destruct (m s) as [r s1] eqn:E.
  pose proof (reads_run m s r s1 Hm E) as ->. destruct r as [a|e]; [right | left]; eauto.
Qed.

(** ** Step-by-step inversion

    [run_inv H] takes a successful run apart: [H : m s = (Ok a, s')]. *)

Lemma run_Ok_inv {S A} (a b : A) (s1 s2 : S) : (Ok a, s1) = (Ok b, s2) -> a = b /\ s1 = s2.
Proof. intros H. by inversion H. Qed.

Ltac subst_new H :=
  match type of H with
  | ?x = ?y => first [subst y | subst x | idtac]
  end.

Ltac run_inv_step :=
  match goal with
  | H : (Ok _, _) = (Ok _, _) |- _ =>
      let G := fresh "Ha" in apply run_Ok_inv in H as [G H]; subst_new G; subst_new H
  | H : (Ok _, _) = (Err _, _) |- _ => discriminate H
  | H : (Err _, _) = (Ok _, _) |- _ => discriminate H
  | H : (mret _) _ = (Ok _, _) |- _ => rewrite run_ret in H
  | H : throw _ _ = (Ok _, _) |- _ => discriminate H
  | H : (_ ≫= _) _ = (Ok _, _) |- _ =>
      let a := fresh "a" in let s := fresh "s" in let H1 := fresh "Hr" in
      apply bind_Ok_inv in H as (a & s & H1 & H)
  | H : ensure _ _ _ = (Ok _, _) |- _ =>
      let G := fresh "Hg" in apply ensure_Ok_inv in H as [G ->]
  | H : some_or _ _ _ = (Ok _, _) |- _ =>
      let G := fresh "Hs" in apply some_or_Ok_inv in H as [G ->]
  | H : transaction _ _ = (Ok _, _) |- _ => apply transaction_Ok_inv in H
  | H : gets _ _ = (Ok _, _) |- _ => unfold gets in H
  | H : get _ = (Ok _, _) |- _ => unfold get in H
  | H : modify _ _ = (Ok _, _) |- _ => unfold modify in H
  | H : of_outcome _ _ = (Ok _, _) |- _ => unfold of_outcome in H
  end.

Ltac run_inv := repeat run_inv_step.
