(* ===== verification/Redis.v ===== *)
(** * The store of entries that end

    The commands of [src/services/redis/redis.service.ts] the services use, over one table
    per kind of key: an entry is its value and the instant it lives to.  A time to live is
    in seconds, an instant in milliseconds. *)

From S2P Require Import Prelude.

Section Redis.
  Context {K V : Type} `{Countable K}.
  Implicit Types (m : gmap K (V * time)) (now : time) (ttl : Z) (k : K) (v : V).

(** A key lives to the instant its time ends, that instant included. *)
Definition redis_get m now k : option V :=
  match m !! k with Some (v, e) => if now <=? e then Some v else None | None => None end.

Definition redis_set m now k v ttl : gmap K (V * time) := <[k := (v, now + ttl * 1000)]> m.

Definition redis_expire m now k ttl : gmap K (V * time) :=
  match redis_get m now k with Some v => redis_set m now k v ttl | None => m end.

(** Rounded to seconds; [-2] of a missing key *)
Definition redis_ttl m now k : Z :=
  match m !! k with Some (_, e) => if now <=? e then (e - now + 500) `div` 1000 else -2 | None => -2 end.

End Redis.

(** [increment]: the first one starts the time, the others keep it *)
Definition redis_increment {K} `{Countable K} (m : gmap K (Z * time)) (now : time) (k : K) (ttl : Z) : gmap K (Z * time) :=
  match m !! k with
  | Some (n, e) => if now <=? e then <[k := (n + 1, e)]> m else redis_set m now k 1 ttl
  | None => redis_set m now k 1 ttl
  end.


(** ** What the commands do *)

Section Facts.
  Context {K V : Type} `{Countable K}.
  Implicit Types (m : gmap K (V * time)) (now : time) (ttl : Z) (k : K) (v : V).

Lemma redis_get_set m now k v ttl : 0 <= ttl -> redis_get (redis_set m now k v ttl) now k = Some v.
Proof.
  intros Ht. unfold redis_get, redis_set. rewrite lookup_insert_eq. by rewrite (proj2 (Z.leb_le _ _)) by lia.
Qed.

Lemma redis_get_set_ne m now now' k k' v ttl : k <> k' -> redis_get (redis_set m now k v ttl) now' k' = redis_get m now' k'.
Proof. intros Hk. unfold redis_get, redis_set. by rewrite lookup_insert_ne. Qed.

Lemma redis_get_Some m now k v : redis_get m now k = Some v <-> exists e, m !! k = Some (v, e) /\ now <= e.
Proof.
  unfold redis_get. destruct (m !! k) as [[w e]|].
  - destruct (Z.leb_spec now e); split.
    + intros [= ->]. by exists e.
    + by intros (e' & [= -> _] & _).
    + done.
    + intros (e' & [= _ ->] & ?). lia.
  - split; [done | by intros (e & ? & _)].
Qed.
End Facts.
