(* ===== verification/Phone.v ===== *)
(** * Phone numbers

    [src/dto/auth/phone-number.ts] and the two private [normalizePhone] of the
    subscription services, with what ties them together. *)

From S2P Require Import Prelude JsString.

(** [[\s()-]] *)
Definition is_phone_filler (c : N) : bool :=
  is_space c || (c =? 40)%N || (c =? 41)%N || (c =? 45)%N.

(** [phone.replace(/^(?:\+98|0098|98)(?=9)/, '0')] *)
Definition strip_country_code (phone : text) : text :=
  let nine r := match r with c :: _ => (c =? 57)%N | [] => false end in
  let try_ p (k : text) :=
    match strip_prefix (js p) phone with
    | Some r => if nine r then 48%N :: r else k
    | None => k
    end in
  try_ "+98" (try_ "0098" (try_ "98" phone)).

Definition normalizePhoneNumber (value : text) : text :=
  strip_country_code (remove_chars is_phone_filler (latin_digits (trim value))).

(** [/^09[0-9]{9}$/] *)
Definition is_mobile (t : text) : bool :=
  match strip_prefix (js "09") t with
  | Some r => (length r =? 9)%nat && forallb is_digit r
  | None => false
  end.

(** [[,،;\n]], the separators of a list of mobiles; [[\s-]] joins mobiles in a piece *)
Definition is_list_separator (c : N) : bool :=
  ((c =? 44) || (c =? 1548) || (c =? 59) || (c =? 10))%N.
Definition is_joiner (c : N) : bool := is_space c || (c =? 45)%N.

(** One piece: a whole mobile, or whole mobiles joined by a space or a dash. *)
Definition parse_piece (piece : text) : option (list text) :=
  let whole := normalizePhoneNumber (remove_chars is_joiner piece) in
  if is_mobile whole then Some [whole]
  else
    let parts := map normalizePhoneNumber (split_runs is_joiner piece) in
    if (length parts <? 2)%nat || negb (forallb is_mobile parts) then None
    else Some parts.

Fixpoint parse_pieces (pieces : list text) (mobiles : list text) : option (list text) :=
  match pieces with
  | [] => Some mobiles
  | p :: pieces =>
      match parse_piece p with
      | Some ms => parse_pieces pieces (mobiles ++ ms)
      | None => None
      end
  end.

Definition parseMobileList (value : text) : option (list text) :=
  let pieces :=
    List.filter (fun p => negb (is_empty p)) (map trim (split_runs is_list_separator value)) in
  option_map dedup (parse_pieces pieces []).

(** [SubscriptionOrderService.normalizePhone]: no Persian digits, no [0098], and a
    leading [98] goes whatever follows it. *)
Definition order_normalizePhone (phone : text) : text :=
  let value := remove_chars is_phone_filler (trim phone) in
  match strip_prefix (js "+98") value with
  | Some r => 48%N :: r
  | None => match strip_prefix (js "98") value with Some r => 48%N :: r | None => value end
  end.

(** [/^09\d{9}$/] *)
Definition isValidIranMobile (phone : text) : bool := is_mobile phone.

(** [AccountProvisioningService.normalizePhone]: only spaces and dashes go. *)
Definition provisioning_normalizePhone (phone : text) : text :=
  let value := remove_chars (fun c => c =? 45)%N (remove_chars is_space (trim phone)) in
  match strip_prefix (js "+98") value with
  | Some r => 48%N :: r
  | None => match strip_prefix (js "98") value with Some r => 48%N :: r | None => value end
  end.

(** ** Lemmas *)

Lemma is_mobile_inv t :
  is_mobile t = true ->
  exists r, t = 48%N :: 57%N :: r /\ length r = 9%nat /\ forallb is_digit r = true.
Proof.
  unfold is_mobile. destruct (strip_prefix (js "09") t) as [r|] eqn:E; [|done].
  apply strip_prefix_Some in E as ->. intros [H1%Nat.eqb_eq H2]%andb_split. by exists r.
Qed.

Lemma is_mobile_digits t : is_mobile t = true -> forallb is_digit t = true.
Proof. intros (r & -> & _ & Hr)%is_mobile_inv. simpl. by rewrite Hr. Qed.

Lemma is_mobile_length t : is_mobile t = true -> length t = 11%nat.
Proof. intros (r & -> & Hl & _)%is_mobile_inv. simpl. lia. Qed.

Lemma digit_not_filler c : is_digit c = true -> negb (is_phone_filler c) = true.
Proof.
  intros H. unfold is_phone_filler. rewrite (is_digit_not_space c H). simpl.
  unfold is_digit in H. apply andb_split in H as [H1%N.leb_le H2%N.leb_le].
  destruct (c =? 40)%N eqn:E1; [apply N.eqb_eq in E1; lia|].
  destruct (c =? 41)%N eqn:E2; [apply N.eqb_eq in E2; lia|].
  destruct (c =? 45)%N eqn:E3; [apply N.eqb_eq in E3; lia|]. done.
Qed.

Lemma digits_trim t : forallb is_digit t = true -> trim t = t.
Proof.
  intros H. apply trim_id. revert H. apply forallb_impl. intros c Hc.
  by rewrite is_digit_not_space.
Qed.

Lemma digits_no_filler t : forallb is_digit t = true -> remove_chars is_phone_filler t = t.
Proof. intros H. apply remove_chars_id. revert H. apply forallb_impl, digit_not_filler. Qed.

(** A text of digits reaches the country code unchanged. *)
Lemma normalize_digits t :
  forallb is_digit t = true -> normalizePhoneNumber t = strip_country_code t.
Proof.
  intros H. unfold normalizePhoneNumber.
  by rewrite (digits_trim t H), (latin_digits_id t H), (digits_no_filler t H).
Qed.

(** A text that begins with a zero and a nine has no country code. *)
Lemma strip_country_code_09 r : strip_country_code (48 :: 57 :: r)%N = (48 :: 57 :: r)%N.
Proof. reflexivity. Qed.

Lemma normalize_mobile t : is_mobile t = true -> normalizePhoneNumber t = t.
Proof.
  intros H. rewrite normalize_digits by by apply is_mobile_digits.
  apply is_mobile_inv in H as (r & -> & _). apply strip_country_code_09.
Qed.

Lemma order_normalize_mobile t : is_mobile t = true -> order_normalizePhone t = t.
Proof.
  intros H. pose proof (is_mobile_digits t H) as Hd. unfold order_normalizePhone.
  rewrite (digits_trim t Hd), (digits_no_filler t Hd).
  by apply is_mobile_inv in H as (r & -> & _).
Qed.

Lemma provisioning_normalize_mobile t :
  is_mobile t = true -> provisioning_normalizePhone t = t.
Proof.
  intros H. pose proof (is_mobile_digits t H) as Hd. unfold provisioning_normalizePhone.
  rewrite (digits_trim t Hd), !remove_chars_id.
  - by apply is_mobile_inv in H as (r & -> & _).
  - revert Hd. apply forallb_impl. intros c Hc. by rewrite is_digit_not_space.
  - rewrite remove_chars_id.
    + revert Hd. apply forallb_impl. intros c Hc. unfold is_digit in Hc.
      apply andb_split in Hc as [H1%N.leb_le H2%N.leb_le].
      apply negb_true_iff, N.eqb_neq. lia.
    + revert Hd. apply forallb_impl. intros c Hc. by rewrite is_digit_not_space.
Qed.

Lemma parse_piece_mobiles piece ms :
  parse_piece piece = Some ms -> Forall (fun m => is_mobile m = true) ms.
Proof.
  unfold parse_piece. intros H. break_if; simplify_eq; [by repeat constructor|].
  break_if; simplify_eq. apply orb_false_elim in Heqb0 as [_ Hall].
  apply negb_false_iff in Hall. apply Forall_forall.
  rewrite forallb_forall in Hall. intros x Hx. apply Hall. by apply list_elem_of_In.
Qed.

Lemma parse_pieces_mobiles pieces acc ms :
  Forall (fun m => is_mobile m = true) acc ->
  parse_pieces pieces acc = Some ms -> Forall (fun m => is_mobile m = true) ms.
Proof.
  revert acc. induction pieces as [|p ps IH]; intros acc Hacc H; simplify_eq/=; [done|].
  destruct (parse_piece p) as [l|] eqn:E; [|done]. apply (IH (acc ++ l)); [|done].
  apply Forall_app. split; [done|]. by eapply parse_piece_mobiles.
Qed.

#[export] Hint Resolve is_mobile_digits digits_trim digits_no_filler normalize_mobile : transport.

Lemma strip_country_code_idemp t : strip_country_code (strip_country_code t) = strip_country_code t.
Proof.
  assert (Hc : strip_country_code t = t \/ exists r, strip_country_code t = (48 :: 57 :: r)%N).
  { unfold strip_country_code.
    repeat match goal with
    | |- context [strip_prefix (js ?p) t] => destruct (strip_prefix (js p) t) as [[|? ?]|]
    end; simpl;
    repeat match goal with
    | |- context [(?c =? 57)%N] => destruct (N.eqb_spec c 57); subst; simpl
    end; eauto. }
  destruct Hc as [H | (r & ->)]; [by rewrite !H|]. apply strip_country_code_09.
Qed.

Lemma strip_country_code_clean f t :
  f 48%N = true -> forallb f t = true -> forallb f (strip_country_code t) = true.
Proof.
  intros H0 Ht. unfold strip_country_code.
  assert (Hr : forall p r, strip_prefix p t = Some r -> forallb f r = true).
  { intros p r ->%strip_prefix_Some. rewrite forallb_app in Ht.
    by apply andb_split in Ht as [_ ?]. }
  repeat match goal with
  | |- context [strip_prefix (js ?p) t] =>
      let E := fresh in destruct (strip_prefix (js p) t) as [?|] eqn:E; [apply Hr in E|]
  end; repeat case_match; simpl; rewrite ?H0; auto.
Qed.

Lemma normalized_clean t :
  forallb (fun c => negb (is_phone_filler c)) (normalizePhoneNumber t) = true /\
  forallb (fun c => (latin_digit c =? c)%N) (normalizePhoneNumber t) = true.
Proof.
  unfold normalizePhoneNumber. split; apply strip_country_code_clean; try reflexivity.
  - apply remove_chars_clean.
  - apply forallb_forall. intros c Hc. unfold remove_chars in Hc.
    apply List.filter_In in Hc as [Hc _]. apply in_map_iff in Hc as (c0 & <- & _).
    apply N.eqb_eq, latin_digit_idemp.
Qed.

Lemma latin_digits_fixed t :
  forallb (fun c => (latin_digit c =? c)%N) t = true -> latin_digits t = t.
Proof.
  induction t as [|c t IH]; simpl; [done|]. intros [H1%N.eqb_eq H2]%andb_split.
  unfold latin_digits in *. simpl. by rewrite H1, IH.
Qed.

(** ** Properties *)

(** Normalising a phone number is idempotent on every input, so a number that was
    stored normalised compares equal when it is normalised again. *)
Theorem normalizePhoneNumber_idempotent (t : text) :
  normalizePhoneNumber (normalizePhoneNumber t) = normalizePhoneNumber t.
Proof.
  destruct (normalized_clean t) as [Hf Hl].
  unfold normalizePhoneNumber at 1. rewrite trim_id.
  - rewrite (latin_digits_fixed _ Hl), (remove_chars_id _ _ Hf).
    unfold normalizePhoneNumber. apply strip_country_code_idemp.
  - revert Hf. apply forallb_impl. intros c Hc. unfold is_phone_filler in Hc.
    by destruct (is_space c).
Qed.

Lemma strip_country_code_forms (d : text) :
  strip_country_code (js "+989" ++ d) = js "09" ++ d /\
  strip_country_code (js "00989" ++ d) = js "09" ++ d /\
  strip_country_code (js "989" ++ d) = js "09" ++ d /\
  strip_country_code (js "09" ++ d) = js "09" ++ d.
Proof. repeat split; reflexivity. Qed.

Lemma normalize_prefix (p : text) (d : text) :
  forallb (fun c => negb (is_phone_filler c) && (latin_digit c =? c)%N) p = true ->
  forallb is_digit d = true ->
  normalizePhoneNumber (p ++ d) = strip_country_code (p ++ d).
Proof.
  intros Hp Hd. unfold normalizePhoneNumber.
  assert (Hf : forallb (fun c => negb (is_phone_filler c)) (p ++ d) = true).
  { rewrite forallb_app. apply andb_true_iff. split.
    - revert Hp. apply forallb_impl. by intros c [? _]%andb_split.
    - revert Hd. apply forallb_impl, digit_not_filler. }
  rewrite trim_id.
  - rewrite latin_digits_app, (latin_digits_id d Hd), latin_digits_fixed.
    + by rewrite (remove_chars_id _ _ Hf).
    + revert Hp. apply forallb_impl. by intros c [_ ?]%andb_split.
  - revert Hf. apply forallb_impl. intros c Hc. unfold is_phone_filler in Hc.
    by destruct (is_space c).
Qed.

(** One mobile, however its country code is written (+98, 0098, 98, or none), is
    stored as the same number. *)
Theorem normalizePhoneNumber_forms (d : text) (Hd : forallb is_digit d = true) :
  normalizePhoneNumber (js "+989" ++ d) = js "09" ++ d /\
  normalizePhoneNumber (js "00989" ++ d) = js "09" ++ d /\
  normalizePhoneNumber (js "989" ++ d) = js "09" ++ d /\
  normalizePhoneNumber (js "09" ++ d) = js "09" ++ d.
Proof.
  destruct (strip_country_code_forms d) as (H1 & H2 & H3 & H4).
  repeat split; rewrite normalize_prefix by (done || reflexivity); assumption.
Qed.

Lemma normalizePhoneNumber_forms_witness :
  normalizePhoneNumber (js "+989121234567") = js "09121234567".
Proof. apply (normalizePhoneNumber_forms (js "121234567")). reflexivity. Defined.

(** A mobile list that is read holds mobiles only, each once. *)
Theorem parseMobileList_sound (value : text) (ms : list text)
    (H : parseMobileList value = Some ms) :
  Forall (fun m => is_mobile m = true) ms /\ NoDup ms.
Proof.
  unfold parseMobileList in H.
  destruct (parse_pieces _ _) as [l|] eqn:E; simplify_eq/=. split; [|apply NoDup_dedup].
  apply parse_pieces_mobiles in E; [|constructor].
  rewrite Forall_forall in *. intros x Hx. apply E. by apply elem_of_dedup.
Qed.

Lemma parseMobileList_sound_witness :
  Forall (fun m => is_mobile m = true) [js "09121234567"; js "09351234567"] /\
  NoDup [js "09121234567"; js "09351234567"].
Proof.
  apply (parseMobileList_sound (js "+98 912 123 4567، 09351234567-09121234567")).
  vm_compute. reflexivity.
Defined.

(** The number an order keeps is the number its buyer's account is made with: the
    two services normalise differently, but agree on every valid mobile. *)
Theorem order_phone_is_username (phone : text)
    (H : isValidIranMobile (order_normalizePhone phone) = true) :
  provisioning_normalizePhone (order_normalizePhone phone) = order_normalizePhone phone /\
  normalizePhoneNumber (order_normalizePhone phone) = order_normalizePhone phone.
Proof. split; [by apply provisioning_normalize_mobile | by apply normalize_mobile]. Qed.

Lemma order_phone_is_username_witness :
  provisioning_normalizePhone (order_normalizePhone (js "+98 (912) 123-4567"))
    = order_normalizePhone (js "+98 (912) 123-4567") /\
  normalizePhoneNumber (order_normalizePhone (js "+98 (912) 123-4567"))
    = order_normalizePhone (js "+98 (912) 123-4567").
Proof. apply order_phone_is_username. vm_compute. reflexivity. Defined.
