(* ===== verification/NationalId.v ===== *)
(** * National identifiers

    [src/domain/helper/nationalId.ts]: the check digits of a company's national ID
    and of a person's national code. *)

From Stdlib Require Import Znumtheory.
From S2P Require Import Prelude JsString.

Definition WEIGHTS : list Z := [29; 27; 23; 19; 17; 29; 27; 23; 19; 17].

Definition digit_value (c : N) : Z := Z.of_N c - 48.

(** [/^(\d)\1*$/]: one digit repeated *)
Definition all_same (t : text) : bool :=
  match t with c :: r => forallb (N.eqb c) r | [] => false end.

Fixpoint weighted (ds ws : list Z) : Z :=
  match ds, ws with
  | d :: ds, w :: ws => d * w + weighted ds ws
  | _, _ => 0
  end.

Definition company_check (ds : list Z) : Z :=
  let shift := nth 9 ds 0 + 2 in
  let sum := weighted (map (fun d => d + shift) (take 10 ds)) WEIGHTS in
  if sum mod 11 =? 10 then 0 else sum mod 11.

Definition isCompanyNationalId (value : option text) : bool :=
  match value with
  | None => false
  | Some value =>
      if negb ((length value =? 11)%nat && forallb is_digit value) || all_same value then false
      else
        let digits := map digit_value value in
        company_check digits =? nth 10 digits 0
  end.

(** The weights 10, 9, ..., 2 of the nine digits before the check digit. *)
Definition CODE_WEIGHTS : list Z := [10; 9; 8; 7; 6; 5; 4; 3; 2].

Definition code_check (ds : list Z) : Z :=
  let sum := weighted (take 9 ds) CODE_WEIGHTS mod 11 in
  if sum <? 2 then sum else 11 - sum.

Definition isNationalCode (value : option text) : bool :=
  match value with
  | None => false
  | Some value =>
      if negb ((length value =? 10)%nat && forallb is_digit value) || all_same value then false
      else
        let digits := map digit_value value in
        nth 9 digits 0 =? code_check digits
  end.

(** ** Lemmas *)

Lemma prime_11 : Znumtheory.prime 11.
Proof.
  apply Znumtheory.prime_intro; [lia|]. intros n Hn.
  apply Znumtheory.Zgcd_1_rel_prime.
  assert (n = 1 \/ n = 2 \/ n = 3 \/ n = 4 \/ n = 5 \/ n = 6 \/ n = 7 \/ n = 8 \/ n = 9 \/ n = 10) by lia.
  intuition (subst; reflexivity).
Qed.

Lemma weighted_app ds1 ds2 ws1 ws2 :
  length ds1 = length ws1 ->
  weighted (ds1 ++ ds2) (ws1 ++ ws2) = weighted ds1 ws1 + weighted ds2 ws2.
Proof.
  revert ws1. induction ds1 as [|d ds1 IH]; intros [|w ws1] H; simplify_eq/=; [done|].
  rewrite IH by done. lia.
Qed.

Lemma code_check_range ds : 0 <= code_check ds <= 9.
Proof.
  unfold code_check. pose proof (Z.mod_pos_bound (weighted (take 9 ds) CODE_WEIGHTS) 11).
  destruct (Z.ltb_spec (weighted (take 9 ds) CODE_WEIGHTS mod 11) 2); lia.
Qed.

Lemma company_check_range ds : 0 <= company_check ds <= 9.
Proof.
  unfold company_check. cbv zeta.
  set (s := weighted _ _). pose proof (Z.mod_pos_bound s 11).
  destruct (Z.eqb_spec (s mod 11) 10); lia.
Qed.

Lemma digit_of_value (z : Z) :
  0 <= z <= 9 -> is_digit (Z.to_N (z + 48)) = true /\ digit_value (Z.to_N (z + 48)) = z.
Proof.
  intros H. unfold is_digit, digit_value. split; [|lia].
  apply andb_true_iff. rewrite !N.leb_le. lia.
Qed.

Lemma digit_value_range c : is_digit c = true -> 0 <= digit_value c <= 9.
Proof. unfold is_digit, digit_value. intros [?%N.leb_le ?%N.leb_le]%andb_split. lia. Qed.

Lemma digit_value_inj c1 c2 : digit_value c1 = digit_value c2 -> c1 = c2.
Proof. unfold digit_value. lia. Qed.

(** The check digit reads the first nine digits only. *)
Lemma code_check_prefix (p : text) c :
  length p = 9%nat -> code_check (map digit_value (p ++ [c])) = code_check (map digit_value p).
Proof.
  intros H. unfold code_check. rewrite map_app, take_app_le; [done|].
  rewrite length_map. lia.
Qed.

Lemma isNationalCode_check (p : text) (c : N) :
  length p = 9%nat -> isNationalCode (Some (p ++ [c])) = true ->
  digit_value c = code_check (map digit_value p).
Proof.
  intros Hl H. unfold isNationalCode in H. break_if; [done|]. apply Z.eqb_eq in H.
  rewrite code_check_prefix in H by done.
  rewrite map_app, app_nth2, length_map, Hl in H by (rewrite length_map; lia). exact H.
Qed.

Lemma isNationalCode_app (p : text) (c : N) :
  length p = 9%nat -> forallb is_digit p = true -> is_digit c = true ->
  all_same (p ++ [c]) = false ->
  isNationalCode (Some (p ++ [c])) = (digit_value c =? code_check (map digit_value p)).
Proof.
  intros Hl Hp Hc Hs. unfold isNationalCode.
  rewrite length_app, Hl, forallb_app, Hp. simpl. rewrite Hc, Hs. simpl.
  rewrite code_check_prefix by done.
  rewrite map_app, app_nth2; rewrite length_map, Hl; [done | lia].
Qed.

Lemma weighted_middle ds1 d ds2 ws1 w ws2 :
  length ds1 = length ws1 ->
  weighted (ds1 ++ d :: ds2) (ws1 ++ w :: ws2) = weighted ds1 ws1 + (d * w + weighted ds2 ws2).
Proof. intros H. by rewrite weighted_app. Qed.

(** Changing one digit changes the weighted sum modulo 11: the weights are nonzero
    modulo the prime 11. *)
Lemma code_sum_changes (p q : text) (d d' : N) :
  length (p ++ d :: q) = 9%nat -> is_digit d = true -> is_digit d' = true -> d <> d' ->
  weighted (map digit_value (p ++ d :: q)) CODE_WEIGHTS mod 11 <>
  weighted (map digit_value (p ++ d' :: q)) CODE_WEIGHTS mod 11.
Proof.
  intros Hl Hd Hd' Hne. rewrite length_app in Hl. simpl in Hl.
  assert (Hw : exists w, CODE_WEIGHTS = take (length p) CODE_WEIGHTS
                                     ++ w :: drop (S (length p)) CODE_WEIGHTS /\ 2 <= w <= 10).
  { destruct p as [|? [|? [|? [|? [|? [|? [|? [|? [|? ?]]]]]]]]]; simpl in *; try lia;
      (eexists; split; [reflexivity | lia]). }
  destruct Hw as (w & Hw & Hwr). rewrite Hw, !map_app. simpl map.
  assert (Hlen : length (map digit_value p) = length (take (length p) CODE_WEIGHTS)).
  { rewrite length_map, length_take. change (length CODE_WEIGHTS) with 9%nat. lia. }
  rewrite !weighted_middle by done.
  pose proof (digit_value_range d Hd). pose proof (digit_value_range d' Hd').
  assert (digit_value d <> digit_value d') by (intros ?%digit_value_inj; done).
  set (a := weighted _ (take _ _)). set (b := weighted _ (drop _ _)).
  intros Heq.
  assert (Hm : ((digit_value d - digit_value d') * w) mod 11 = 0).
  { replace ((digit_value d - digit_value d') * w)
      with ((a + (digit_value d * w + b)) - (a + (digit_value d' * w + b))) by ring.
    rewrite Zminus_mod, Heq, Z.sub_diag. done. }
  apply Z.mod_divide in Hm; [|done].
  apply Znumtheory.prime_mult in Hm; [|apply prime_11].
  destruct Hm as [[k Hk]|[k Hk]]; lia.
Qed.

(** ** Properties *)

(** Nine digits that are not all the same have exactly one check digit that makes
    a valid national code. *)
Theorem isNationalCode_unique_check (p : text)
    (Hl : length p = 9%nat) (Hd : forallb is_digit p = true) (Hs : all_same p = false) :
  exists c, is_digit c = true /\ isNationalCode (Some (p ++ [c])) = true /\
    forall c', is_digit c' = true -> isNationalCode (Some (p ++ [c'])) = true -> c' = c.
Proof.
  assert (Hsame : forall c, all_same (p ++ [c]) = false).
  { intros c. destruct p as [|d p]; [done|]. simpl in *. by rewrite forallb_app, Hs. }
  pose proof (code_check_range (map digit_value p)) as Hr.
  destruct (digit_of_value _ Hr) as [H1 H2].
  exists (Z.to_N (code_check (map digit_value p) + 48)). split; [done|]. split.
  - rewrite isNationalCode_app by auto. by apply Z.eqb_eq.
  - intros c' Hc' Hv. rewrite isNationalCode_app in Hv by auto. apply Z.eqb_eq in Hv.
    apply digit_value_inj. congruence.
Qed.

Lemma isNationalCode_unique_check_witness :
  exists c, is_digit c = true /\ isNationalCode (Some (js "001249053" ++ [c])) = true /\
    forall c', is_digit c' = true -> isNationalCode (Some (js "001249053" ++ [c'])) = true -> c' = c.
Proof. apply isNationalCode_unique_check; reflexivity. Defined.

(** A single mistyped digit (any of the first nine) changes the weighted sum modulo
    11, so it is caught unless the two sums are 1 and 10: the code maps those two
    remainders, and only those, to the same check digit. *)
Theorem isNationalCode_single_error (p q : text) (d d' c : N)
    (Hl : length (p ++ d :: q) = 9%nat)
    (Hd : is_digit d = true) (Hd' : is_digit d' = true) (Hne : d <> d')
    (Hv : isNationalCode (Some ((p ++ d :: q) ++ [c])) = true)
    (Hv' : isNationalCode (Some ((p ++ d' :: q) ++ [c])) = true) :
  let sum t := weighted (map digit_value t) CODE_WEIGHTS mod 11 in
  (sum (p ++ d :: q) = 1 /\ sum (p ++ d' :: q) = 10) \/
  (sum (p ++ d :: q) = 10 /\ sum (p ++ d' :: q) = 1).
Proof.
  intros sum. pose proof (code_sum_changes p q d d' Hl Hd Hd' Hne) as Hs.
  assert (Hl' : length (p ++ d' :: q) = 9%nat) by (rewrite length_app in *; done).
  apply isNationalCode_check in Hv; [|done]. apply isNationalCode_check in Hv'; [|done].
  rewrite Hv in Hv'. unfold code_check in Hv'.
  rewrite !take_ge in Hv' by (rewrite length_map; lia). fold (sum (p ++ d :: q)) in *.
  fold (sum (p ++ d' :: q)) in *.
  assert (0 <= sum (p ++ d :: q) < 11) by (by apply Z.mod_pos_bound).
  assert (0 <= sum (p ++ d' :: q) < 11) by (by apply Z.mod_pos_bound).
  destruct (Z.ltb_spec (sum (p ++ d :: q)) 2), (Z.ltb_spec (sum (p ++ d' :: q)) 2); lia.
Qed.

Lemma isNationalCode_single_error_witness :
  let sum t := weighted (map digit_value t) CODE_WEIGHTS mod 11 in
  (sum (js "000000006") = 1 /\ sum (js "000000036") = 10) \/
  (sum (js "000000006") = 10 /\ sum (js "000000036") = 1).
Proof.
  apply (isNationalCode_single_error (js "0000000") (js "6") 48%N 51%N 49%N);
    first [reflexivity | discriminate].
Defined.
