(* ===== verification/Enums.v ===== *)
(** * Enumerations

    [src/domain/enums/*.ts]: the enumerations the modelled services share, with the
    strings their columns and JSON fields hold, and the rows of [User] / [Role] they
    are read with. *)

From S2P Require Import Prelude.

(** [RecordStatus] (RecordStatus.ts) *)
Inductive RecordStatus := RecActive | RecInactive.

(** [AccountType] (subscription.ts) *)
Inductive AccountType := AccDriver | AccCompany | AccBroker | AccFactory.

(** [CommunicationProvider] (subscription.ts) *)
Inductive CommunicationProvider :=
| ProvTelegram | ProvWhatsapp | ProvWeb | ProvBale | ProvRubika | ProvEitaa.

(** [SubscriptionStatus] (subscription.ts) *)
Inductive SubscriptionStatus := SubActive | SubExpired | SubCancelled.

(** [SubscriptionOrderStatus] (subscription.ts) *)
Inductive SubscriptionOrderStatus :=
| WaitingForReceipt | ReceiptSubmitted | UnderReview
| OrderApproved | OrderRejected | OrderCancelled.

(** [PaymentReceiptStatus] (subscription.ts) *)
Inductive PaymentReceiptStatus :=
| PendingAnalysis | Analyzing | Analyzed | NeedsReview
| ReceiptApproved | ReceiptRejected.

(** [CargoListingStatus], [CargoRequestStatus], [CargoTripType] (notification.ts) *)
Inductive CargoListingStatus := ListingOpen | ListingTaken.

Inductive CargoRequestStatus :=
| Pending | Offered | Accepted | Rejected | Declined | Expired | Cancelled
| Delivered | TripCancelled.

Inductive CargoTripType := TripDomestic | TripExport | TripImport.

(** [TripFareStage], [FareBasis], [FareCurrency], [FareChangeReason],
    [BrokerPayModel] (tripFare.ts) *)
Inductive TripFareStage := StageAgreed | StageDelivered.
Inductive FareBasis := BasisTotal | BasisPerTon.
Inductive FareCurrency := Toman | Dollar | Euro | Dirham | Lira.
Inductive FareChangeReason :=
| Shortage | Waiting | Overweight | ExtraCost | Discount | WeightDiffers | OtherReason.
Inductive BrokerPayModel := Commission | Margin.

(** [BrokerOrderKind] (BrokerAccessOrder.ts) *)
Inductive BrokerOrderKind := KindNew | KindAdd | KindPackage | KindSuggestion.

#[export] Instance RecordStatus_eq_dec : EqDecision RecordStatus.
Proof. solve_decision. Defined.
#[export] Instance AccountType_eq_dec : EqDecision AccountType.
Proof. solve_decision. Defined.
#[export] Instance CommunicationProvider_eq_dec : EqDecision CommunicationProvider.
Proof. solve_decision. Defined.
#[export] Instance SubscriptionStatus_eq_dec : EqDecision SubscriptionStatus.
Proof. solve_decision. Defined.
#[export] Instance SubscriptionOrderStatus_eq_dec : EqDecision SubscriptionOrderStatus.
Proof. solve_decision. Defined.
#[export] Instance PaymentReceiptStatus_eq_dec : EqDecision PaymentReceiptStatus.
Proof. solve_decision. Defined.
#[export] Instance CargoListingStatus_eq_dec : EqDecision CargoListingStatus.
Proof. solve_decision. Defined.
#[export] Instance CargoRequestStatus_eq_dec : EqDecision CargoRequestStatus.
Proof. solve_decision. Defined.
#[export] Instance CargoTripType_eq_dec : EqDecision CargoTripType.
Proof. solve_decision. Defined.
#[export] Instance TripFareStage_eq_dec : EqDecision TripFareStage.
Proof. solve_decision. Defined.
#[export] Instance FareBasis_eq_dec : EqDecision FareBasis.
Proof. solve_decision. Defined.
#[export] Instance FareCurrency_eq_dec : EqDecision FareCurrency.
Proof. solve_decision. Defined.
#[export] Instance FareChangeReason_eq_dec : EqDecision FareChangeReason.
Proof. solve_decision. Defined.
#[export] Instance BrokerPayModel_eq_dec : EqDecision BrokerPayModel.
Proof. solve_decision. Defined.
#[export] Instance BrokerOrderKind_eq_dec : EqDecision BrokerOrderKind.
Proof. solve_decision. Defined.

(** [x === y] on enumerations *)
Definition eqb {A} `{EqDecision A} (x y : A) : bool := bool_decide (x = y).

Lemma eqb_true {A} `{EqDecision A} (x y : A) : eqb x y = true <-> x = y.
Proof. apply bool_decide_eq_true. Qed.

Lemma eqb_false {A} `{EqDecision A} (x y : A) : eqb x y = false <-> x <> y.
Proof. apply bool_decide_eq_false. Qed.

Lemma eqb_eq {A} `{EqDecision A} (x y : A) : eqb x y = true -> x = y.
Proof. by apply eqb_true. Qed.

Lemma eqb_neq {A} `{EqDecision A} (x y : A) : eqb x y = false -> x <> y.
Proof. by apply eqb_false. Qed.

Lemma eqb_refl {A} `{EqDecision A} (x : A) : eqb x x = true.
Proof. by apply eqb_true. Qed.

(** [Object.values(Enum)] as the strings an untyped body is checked against. *)
Definition FareBasis_of_string (s : string) : option FareBasis :=
  if String.eqb s "TOTAL" then Some BasisTotal
  else if String.eqb s "PER_TON" then Some BasisPerTon else None.

Definition FareCurrency_of_string (s : string) : option FareCurrency :=
  if String.eqb s "IRT" then Some Toman
  else if String.eqb s "USD" then Some Dollar
  else if String.eqb s "EUR" then Some Euro
  else if String.eqb s "AED" then Some Dirham
  else if String.eqb s "TRY" then Some Lira else None.

Definition FareChangeReason_of_string (s : string) : option FareChangeReason :=
  if String.eqb s "SHORTAGE" then Some Shortage
  else if String.eqb s "WAITING" then Some Waiting
  else if String.eqb s "OVERWEIGHT" then Some Overweight
  else if String.eqb s "EXTRA_COST" then Some ExtraCost
  else if String.eqb s "DISCOUNT" then Some Discount
  else if String.eqb s "WEIGHT" then Some WeightDiffers
  else if String.eqb s "OTHER" then Some OtherReason else None.

Definition BrokerPayModel_of_string (s : string) : option BrokerPayModel :=
  if String.eqb s "COMMISSION" then Some Commission
  else if String.eqb s "MARGIN" then Some Margin else None.

(** [isBrokerOnly] (src/services/notification/loadRequesters.ts) *)
Definition DRIVER_ROLE : string := "DRIVER".
Definition BROKER_ROLE : string := "BROKER".

Definition isBrokerOnly (roles : list string) : bool :=
  bool_decide (BROKER_ROLE ∈ roles) && negb (bool_decide (DRIVER_ROLE ∈ roles)).

(** A row of [UserRole] joined with its [Role]: the role's name and whether it is
    active. *)
Record RoleRow := mkRoleRow { role_name : string; role_status : RecordStatus }.

#[export] Hint Rewrite @eqb_true @eqb_false : transport.
