(* ===== verification/BrokerAccess.v ===== *)
(** * Broker access

    [src/services/company/brokerAccess.service.ts]: the admin's policy, the
    companies a broker picks, and the load requests it buys in packages. *)

From S2P Require Import Prelude Effects JsNumber JsString Enums.

(** ** Data *)

(** [BrokerAccessPolicy] *)
Record BrokerAccessPolicy := mkPolicy {
  maxCompanies : option Z;
  packagesEnabled : bool;
  packageSize : Z;
  packagePrice : Z;
  currency : string;
  commissionPercent : num;
}.

Definition DEFAULT_POLICY : BrokerAccessPolicy := {|
  maxCompanies := None;
  packagesEnabled := false;
  packageSize := 50;
  packagePrice := 0;
  currency := "IRR";
  commissionPercent := num_of_Z 0;
|}.

(** The jsonb of the setting's row: any field may be missing (or null). *)
Record StoredPolicy := mkStored {
  st_maxCompanies : option Z;
  st_packagesEnabled : option bool;
  st_packageSize : option Z;
  st_packagePrice : option Z;
  st_currency : option string;
  st_commissionPercent : option num;
}.

(** [BrokerAccessOrder], [BrokerAccessPeriod] (src/domain/entities/company) *)
Record BrokerAccessOrder := mkOrder {
  ord_id : uuid;
  ord_userId : uuid;
  ord_kind : BrokerOrderKind;
  ord_periodId : option uuid;
  ord_companyUserIds : list uuid;
  ord_durationDays : option Z;
  ord_requests : option Z;
  ord_amount : Z;
  ord_currency : string;
  ord_status : SubscriptionOrderStatus;
  ord_receiptPath : text;
  ord_rejectionReason : option text;
  ord_reviewedBy : option uuid;
  ord_reviewedAt : option time;
  ord_createdAt : time;
}.

Record BrokerAccessPeriod := mkPeriod {
  per_id : uuid;
  per_userId : uuid;
  per_companyUserIds : list uuid;
  per_startAt : time;
  per_expireAt : option time;
  per_orderId : option uuid;
  per_grantedBy : option uuid;
}.

(** A row of [CompanyFeatureService.listCompanies]. *)
Record CompanyRow := mkCompany {
  co_userId : uuid;
  co_name : option text;
  co_accountCode : option text;
  co_isParentCompany : bool;
  co_invitedByCompanyUserId : option uuid;
}.

(** [BrokerAccessOrderEvent] (src/services/redis/redis.keys.ts) and its channel. *)
Inductive BrokerChannel := brokerAccessReceipt | brokerAccessDecided.

Record BrokerAccessOrderEvent := mkEvent {
  ev_orderId : uuid;
  ev_userId : uuid;
  ev_kind : BrokerOrderKind;
  ev_title : text;
  ev_companies : Z;
  ev_requests : option Z;
  ev_amount : Z;
  ev_currency : string;
  ev_approved : option bool;
  ev_remaining : option Z;
  ev_reason : option text;
}.

(** The tables the service reads and writes, its own cache, the Redis channel, the
    [BROKERS_OPEN] switch and the clock. *)
Record broker_state := mkBroker {
  bs_open : bool;
  bs_now : time;
  bs_setting : option StoredPolicy;
  bs_cached : option (BrokerAccessPolicy * time);
  bs_roles : gmap uuid (list RoleRow);
  bs_companies : list CompanyRow;
  bs_periods : gmap uuid BrokerAccessPeriod;
  bs_orders : gmap uuid BrokerAccessOrder;
  bs_credits : gmap uuid Z;
  bs_redis_up : bool;
  bs_published : list (BrokerChannel * BrokerAccessOrderEvent);
}.

Definition LOCAL_TTL_MS : Z := 5000.
Definition MAX_PACKAGES : Z := 100.

(** An [int] or [bigint] column refuses a value out of its range. *)
Definition fits_int4 (z : Z) : bool := (- 2 ^ 31 <=? z) && (z <? 2 ^ 31).
Definition fits_int8 (z : Z) : bool := (- 2 ^ 63 <=? z) && (z <? 2 ^ 63).
Definition OUT_OF_RANGE : exn := QueryFailed "22003".

Abbreviation BM := (M broker_state).

(** [brokerOrderTitle] *)
Definition brokerOrderTitle (kind : BrokerOrderKind) (requests : option Z) (companies : nat) : text :=
  let count := fa_locale (Z.to_N (default 0 requests)) in
  match kind with
  | KindSuggestion => js "بسته‌ی " ++ count ++ js " معرفی راننده"
  | KindPackage => js "بسته‌ی " ++ count ++ js " درخواست بار"
  | KindAdd => js "افزودن" ++ js " بار " ++ fa_locale (N.of_nat companies) ++ js " شرکت"
  | KindNew => js "خرید" ++ js " بار " ++ fa_locale (N.of_nat companies) ++ js " شرکت"
  end.

(** [companyView]: the name shown for a company ([||]: an empty name counts as none) *)
Definition non_empty (o : option text) : option text :=
  match o with Some [] => None | _ => o end.

Definition companyView (company : CompanyRow) : uuid * text :=
  (co_userId company,
   match non_empty (co_name company) with
   | Some n => n
   | None => default (js "—") (non_empty (co_accountCode company))
   end).

(** ** Policy *)

Definition stored_to_policy (stored : StoredPolicy) : BrokerAccessPolicy := {|
  maxCompanies := match st_maxCompanies stored with
                  | Some n => Some n | None => maxCompanies DEFAULT_POLICY end;
  packagesEnabled := default (packagesEnabled DEFAULT_POLICY) (st_packagesEnabled stored);
  packageSize := default (packageSize DEFAULT_POLICY) (st_packageSize stored);
  packagePrice := default (packagePrice DEFAULT_POLICY) (st_packagePrice stored);
  currency := default (currency DEFAULT_POLICY) (st_currency stored);
  commissionPercent := default (commissionPercent DEFAULT_POLICY) (st_commissionPercent stored);
|}.

Definition EMPTY_STORED : StoredPolicy := mkStored None None None None None None.

Definition getPolicy : BM BrokerAccessPolicy :=
  s ← get;
  match bs_cached s with
  | Some (policy, expiresAt) =>
      if bs_now s <? expiresAt then mret policy
      else
        let policy := stored_to_policy (default EMPTY_STORED (bs_setting s)) in
        modify (fun s => s <| bs_cached := Some (policy, bs_now s + LOCAL_TTL_MS) |>) ;;
        mret policy
  | None =>
      let policy := stored_to_policy (default EMPTY_STORED (bs_setting s)) in
      modify (fun s => s <| bs_cached := Some (policy, bs_now s + LOCAL_TTL_MS) |>) ;;
      mret policy
  end.

Definition policy_to_stored (policy : BrokerAccessPolicy) : StoredPolicy := {|
  st_maxCompanies := maxCompanies policy;
  st_packagesEnabled := Some (packagesEnabled policy);
  st_packageSize := Some (packageSize policy);
  st_packagePrice := Some (packagePrice policy);
  st_currency := Some (currency policy);
  st_commissionPercent := Some (commissionPercent policy);
|}.

Definition setPolicy (policy : BrokerAccessPolicy) : BM BrokerAccessPolicy :=
  ensure (negb (packagesEnabled policy && (packagePrice policy <=? 0)))
    (badRequest "قیمت بسته را وارد کنید.") ;;
  modify (fun s => s <| bs_setting := Some (policy_to_stored policy) |>) ;;
  modify (fun s => s <| bs_cached := None |>) ;;
  getPolicy.

(** ** Access *)

(** The user's active roles decide whether it works as a broker. *)
Definition active_roles (s : broker_state) (userId : uuid) : list string :=
  map role_name (List.filter (fun r => eqb (role_status r) RecActive) (default [] (bs_roles s !! userId))).

Definition is_broker (s : broker_state) (userId : uuid) : bool := isBrokerOnly (active_roles s userId).

Definition isBroker (userId : uuid) : BM bool := gets (fun s => is_broker s userId).

(** [currentSelection]: the latest period that has started and has not ended *)
Definition period_current (userId : uuid) (now : time) (p : BrokerAccessPeriod) : bool :=
  (per_userId p =? userId)%N && (per_startAt p <=? now)
  && match per_expireAt p with None => true | Some e => now <? e end.

Fixpoint latest_start (ps : list BrokerAccessPeriod) : option BrokerAccessPeriod :=
  match ps with
  | [] => None
  | p :: ps =>
      match latest_start ps with
      | None => Some p
      | Some q => if per_startAt q <=? per_startAt p then Some p else Some q
      end
  end.

Definition current_selection (s : broker_state) (userId : uuid) (now : time) : option BrokerAccessPeriod :=
  latest_start (find_rows (period_current userId now) (bs_periods s)).

Definition currentSelection (userId : uuid) (now : time) : BM (option BrokerAccessPeriod) :=
  gets (fun s => current_selection s userId now).

Definition visiblePublishers (userId : uuid) (now : time) : BM (option (list uuid)) :=
  s ← get;
  if bs_open s then mret None
  else
    broker ← isBroker userId;
    if negb broker then mret None
    else
      policy ← getPolicy;
      match maxCompanies policy with
      | None => mret None
      | Some _ =>
          current ← currentSelection userId now;
          mret (Some (match current with Some p => per_companyUserIds p | None => [] end))
      end.

Definition canSee (userId publisherUserId : uuid) (now : time) : BM bool :=
  visible ← visiblePublishers userId now;
  mret match visible with
       | None => true
       | Some ids => bool_decide (publisherUserId ∈ ids)
       end.

(** [BrokerBlock] has one reason, [noCompanies]. *)
Inductive BrokerBlock := noCompanies.

Definition blocked (userId : uuid) (now : time) : BM (option BrokerBlock) :=
  visible ← visiblePublishers userId now;
  mret match visible with
       | Some [] => Some noCompanies
       | _ => None
       end.

Definition hasOpenAccess (userId : uuid) (now : time) : BM bool :=
  b ← blocked userId now;
  mret (match b with None => true | Some _ => false end).

Definition remaining_of (s : broker_state) (userId : uuid) : Z := default 0 (bs_credits s !! userId).

Definition remaining (userId : uuid) : BM Z := gets (fun s => remaining_of s userId).

Definition outOfRequests (userId : uuid) : BM bool :=
  s ← get;
  if bs_open s then mret false
  else
    policy ← getPolicy;
    if negb (packagesEnabled policy) then mret false
    else
      broker ← isBroker userId;
      if negb broker then mret false
      else r ← remaining userId; mret (r <=? 0).

(** The companies a broker may pick: parent companies and those under one. *)
Definition company_list (s : broker_state) : list (uuid * text) :=
  let companies := bs_companies s in
  let parents := map co_userId (List.filter co_isParentCompany companies) in
  map companyView
    (List.filter (fun c =>
        co_isParentCompany c
        || match co_invitedByCompanyUserId c with
           | Some p => bool_decide (p ∈ parents)
           | None => false
           end) companies).

Definition companyList : BM (list (uuid * text)) := gets company_list.

Definition company_names (s : broker_state) : list (uuid * text) := map companyView (bs_companies s).

(** [names.get(id) ?? '—'] *)
Definition name_of (names : list (uuid * text)) (id : uuid) : text :=
  match List.find (fun p => (p.1 =? id)%N) (rev names) with
  | Some (_, n) => n
  | None => js "—"
  end.

Definition titleOf (order : BrokerAccessOrder) : text :=
  brokerOrderTitle (ord_kind order) (ord_requests order) (length (ord_companyUserIds order)).

(** [orderView] *)
Record OrderView := mkOrderView {
  ov_id : uuid;
  ov_kind : BrokerOrderKind;
  ov_title : text;
  ov_companies : list (uuid * text);
  ov_requests : option Z;
  ov_amount : Z;
  ov_currency : string;
  ov_status : SubscriptionOrderStatus;
  ov_rejectionReason : option text;
  ov_createdAt : time;
  ov_reviewedAt : option time;
}.

Definition orderView (names : list (uuid * text)) (order : BrokerAccessOrder) : OrderView := {|
  ov_id := ord_id order;
  ov_kind := ord_kind order;
  ov_title := titleOf order;
  ov_companies := map (fun id => (id, name_of names id)) (ord_companyUserIds order);
  ov_requests := ord_requests order;
  ov_amount := ord_amount order;
  ov_currency := ord_currency order;
  ov_status := ord_status order;
  ov_rejectionReason := ord_rejectionReason order;
  ov_createdAt := ord_createdAt order;
  ov_reviewedAt := ord_reviewedAt order;
|}.

(** [ORDER BY "createdAt" DESC] *)
Definition newest_first (a b : BrokerAccessOrder) : Prop := ord_createdAt b <= ord_createdAt a.
#[export] Instance newest_first_dec : RelDecision newest_first.
Proof. intros a b. unfold newest_first. apply _. Defined.

Record BrokerStatus := mkStatus {
  status_policy : BrokerAccessPolicy;
  status_open : bool;
  status_selected : list (uuid * text);
  status_remaining : Z;
  status_blocked : option BrokerBlock;
  status_companies : list (uuid * text);
  status_orders : list OrderView;
}.

Definition status (userId : uuid) (now : time) : BM BrokerStatus :=
  policy ← getPolicy;
  s ← get;
  let names := company_names s in
  let selection := match current_selection s userId now with
                   | Some p => per_companyUserIds p | None => [] end in
  let latestOrders :=
    take 20 (merge_sort newest_first (find_rows (fun o => (ord_userId o =? userId)%N) (bs_orders s))) in
  mret {|
    status_policy := policy;
    status_open := bs_open s;
    status_selected := map (fun id => (id, name_of names id)) selection;
    status_remaining := remaining_of s userId;
    status_blocked :=
      if negb (bs_open s) && bool_decide (maxCompanies policy <> None) && bool_decide (selection = [])
      then Some noCompanies else None;
    status_companies := company_list s;
    status_orders := map (orderView names) latestOrders;
  |}.

(** ** Companies *)

(** [periods.save(periods.create(...))]: [orderId] is unique where it is not null. *)
Definition insert_period (userId : uuid) (ids : list uuid) (now : time) (orderId : option uuid) : BM unit :=
  s ← get;
  let clash p := match per_orderId p, orderId with
                 | Some a, Some b => (a =? b)%N | _, _ => false end in
  ensure (negb (exists_row clash (bs_periods s))) (QueryFailed "23505") ;;
  let id := fresh_id (bs_periods s) in
  modify (fun s => s <| bs_periods := <[id := mkPeriod id userId ids now None orderId None]> (bs_periods s) |>).

(** [periods.update({ id }, { companyUserIds, expireAt: null })] *)
Definition repicked (ids : list uuid) (p : BrokerAccessPeriod) : BrokerAccessPeriod :=
  p <| per_companyUserIds := ids |> <| per_expireAt := None |>.

Definition update_period (id : uuid) (ids : list uuid) : BM unit :=
  modify (fun s => s <| bs_periods := alter (repicked ids) id (bs_periods s) |>).

Definition selectCompanies (userId : uuid) (companyUserIds : list uuid) (now : time) : BM BrokerStatus :=
  broker ← isBroker userId;
  ensure broker (badRequest "انتخاب شرکت فقط برای حساب واسط است.") ;;
  policy ← getPolicy;
  max ← some_or (maxCompanies policy) (badRequest "بار همه‌ی شرکت‌ها را می‌بینید و انتخاب لازم نیست.");
  let ids := dedup companyUserIds in
  ensure (negb (bool_decide (ids = []))) (badRequest "دست‌کم یک شرکت انتخاب کنید.") ;;
  ensure (negb (max <? Z.of_nat (length ids))) (BadRequest (js "حداکثر " ++ fa_locale (Z.to_N max) ++ js " شرکت می‌توانید انتخاب کنید.")) ;;
  known ← companyList;
  ensure (negb (some_b (fun id => negb (bool_decide (id ∈ map fst known))) ids))
    (badRequest "یکی از شرکت‌های انتخاب‌شده پیدا نشد.") ;;
  transaction (
    current ← currentSelection userId now;
    match current with
    | Some p => update_period (per_id p) ids
    | None => insert_period userId ids now None
    end) ;;
  status userId now.

Definition addInvitingCompany (userId companyUserId : uuid) (now : time) : BM bool :=
  policy ← getPolicy;
  match maxCompanies policy with
  | None => mret false
  | Some max =>
      current ← currentSelection userId now;
      let picked := match current with Some p => per_companyUserIds p | None => [] end in
      if bool_decide (companyUserId ∈ picked) || (max <=? Z.of_nat (length picked)) then mret false
      else
        try_catch (selectCompanies userId (picked ++ [companyUserId]) now ≫= fun _ => mret true)
                  (fun _ => mret false)
  end.

(** [array_remove]: every occurrence, in every period of the broker *)
Definition dropCompany (userId companyUserId : uuid) : BM unit :=
  modify (fun s => s <| bs_periods :=
    (fun p => if (per_userId p =? userId)%N
              then p <| per_companyUserIds := List.filter (fun id => negb (id =? companyUserId)%N) (per_companyUserIds p) |>
              else p) <$> bs_periods s |>).

Definition addCompanies (userId : uuid) (companyUserIds : list uuid) (now : time) (orderId : uuid) : BM unit :=
  current ← currentSelection userId now;
  match current with
  | Some p => update_period (per_id p) (dedup (per_companyUserIds p ++ companyUserIds))
  | None => insert_period userId (dedup companyUserIds) now (Some orderId)
  end.

(** ** Requests *)

Definition useRequest (userId : uuid) : BM bool :=
  s ← get;
  if bs_open s then mret false
  else
    broker ← isBroker userId;
    if negb broker then mret false
    else
      policy ← getPolicy;
      if negb (packagesEnabled policy) then mret false
      else
        (* UPDATE ... SET remaining = remaining - 1 WHERE remaining > 0 RETURNING *)
        s ← get;
        match bs_credits s !! userId with
        | Some r =>
            ensure (0 <? r) (conflict "noCredit") ;;
            modify (fun s => s <| bs_credits := <[userId := r - 1]> (bs_credits s) |>) ;;
            mret true
        | None => throw (conflict "noCredit")
        end.

(** INSERT ... ON CONFLICT DO UPDATE SET remaining = remaining + count *)
Definition addCredit (userId : uuid) (count : Z) : BM unit :=
  s ← get;
  let r := remaining_of s userId + count in
  ensure (fits_int4 r && fits_int4 count) OUT_OF_RANGE ;;
  modify (fun s => s <| bs_credits := <[userId := r]> (bs_credits s) |>).

Definition refundRequest (userId : uuid) : BM unit := addCredit userId 1.

Definition grantRequests (userId : uuid) (requests : Z) : BM Z :=
  broker ← isBroker userId;
  ensure broker (notFound "واسطی با این شناسه پیدا نشد.") ;;
  addCredit userId requests ;;
  remaining userId.

(** [announce]: a failed publish is swallowed *)
Definition announce (channel : BrokerChannel) (order : BrokerAccessOrder)
    (approved : option bool) (rem : option Z) (reason : option text) : BM unit :=
  let event := {|
    ev_orderId := ord_id order;
    ev_userId := ord_userId order;
    ev_kind := ord_kind order;
    ev_title := titleOf order;
    ev_companies := Z.of_nat (length (ord_companyUserIds order));
    ev_requests := ord_requests order;
    ev_amount := ord_amount order;
    ev_currency := ord_currency order;
    ev_approved := approved;
    ev_remaining := rem;
    ev_reason := reason;
  |} in
  modify (fun s => if bs_redis_up s
                   then s <| bs_published := bs_published s ++ [(channel, event)] |>
                   else s).

Definition save_order (o : BrokerAccessOrder) : BM unit :=
  ensure (fits_int8 (ord_amount o) && fits_int4 (default 0 (ord_requests o))) OUT_OF_RANGE ;;
  modify (fun s => s <| bs_orders := <[ord_id o := o]> (bs_orders s) |>).

(** [findOne({ where: { userId, kind: 'PACKAGE', status: ReceiptSubmitted } })] *)
Definition open_package_of (userId : uuid) (o : BrokerAccessOrder) : bool :=
  (ord_userId o =? userId)%N && eqb (ord_kind o) KindPackage && eqb (ord_status o) ReceiptSubmitted.

Definition submitPackageOrder (userId : uuid) (packages : num) (receiptPath : text) : BM OrderView :=
  broker ← isBroker userId;
  ensure broker (badRequest "بسته‌ی درخواست فقط برای حساب واسط است.") ;;
  policy ← getPolicy;
  ensure (packagesEnabled policy) (badRequest "درخواست بار الان رایگان است و خرید لازم ندارد.") ;;
  n ← some_or (num_to_Z packages) (badRequest "تعداد بسته معتبر نیست.");
  ensure (negb ((n <? 1) || (MAX_PACKAGES <? n))) (badRequest "تعداد بسته معتبر نیست.") ;;
  s ← get;
  match find_row (open_package_of userId) (bs_orders s) with
  | Some open => throw (Conflict (js "رسید قبلی شما برای " ++ titleOf open ++ js " در حال بررسی است."))
  | None => mret tt
  end ;;
  let order := {|
    ord_id := fresh_id (bs_orders s);
    ord_userId := userId;
    ord_kind := KindPackage;
    ord_periodId := None;
    ord_companyUserIds := [];
    ord_durationDays := None;
    ord_requests := Some (n * packageSize policy);
    ord_amount := packagePrice policy * n;
    ord_currency := currency policy;
    ord_status := ReceiptSubmitted;
    ord_receiptPath := receiptPath;
    ord_rejectionReason := None;
    ord_reviewedBy := None;
    ord_reviewedAt := None;
    ord_createdAt := bs_now s;
  |} in
  save_order order ;;
  announce brokerAccessReceipt order None None None ;;
  mret (orderView [] order).

(** ** Orders *)

Definition findOrder (id : uuid) : BM (option BrokerAccessOrder) := gets (fun s => bs_orders s !! id).

(** [manager.update(BrokerAccessOrder, { id }, ...)] of a decision *)
Definition decided (st : SubscriptionOrderStatus) (adminUserId : uuid) (now : time)
    (reason : option text) (o : BrokerAccessOrder) : BrokerAccessOrder :=
  o <| ord_status := st |>
    <| ord_rejectionReason := match reason with Some r => Some r | None => ord_rejectionReason o end |>
    <| ord_reviewedBy := Some adminUserId |> <| ord_reviewedAt := Some now |>.

Definition update_order (id : uuid) (st : SubscriptionOrderStatus) (adminUserId : uuid) (now : time)
    (reason : option text) : BM unit :=
  modify (fun s => s <| bs_orders := alter (decided st adminUserId now reason) id (bs_orders s) |>).

(** The transaction of [approveOrder]: the order is locked, checked and decided. *)
Definition approve_in_transaction (orderId adminUserId : uuid) (now : time) : BM BrokerAccessOrder :=
  s ← get;
  order ← some_or (bs_orders s !! orderId) (notFound "سفارش پیدا نشد.");
  ensure (eqb (ord_status order) ReceiptSubmitted) (conflict "این سفارش قبلاً بررسی شده است.") ;;
  match ord_kind order with
  | KindPackage => addCredit (ord_userId order) (default 0 (ord_requests order))
  | KindSuggestion => mret tt
  | KindNew | KindAdd => addCompanies (ord_userId order) (ord_companyUserIds order) now (ord_id order)
  end ;;
  update_order orderId OrderApproved adminUserId now None ;;
  mret order.

Definition approveOrder (orderId adminUserId : uuid) (now : time) : BM Z :=
  order ← transaction (approve_in_transaction orderId adminUserId now);
  rem ← remaining (ord_userId order);
  announce brokerAccessDecided order (Some true) (Some rem) None ;;
  mret rem.

Definition rejectOrder (orderId adminUserId : uuid) (reason : text) (now : time) : BM uuid :=
  s ← get;
  let affected := match bs_orders s !! orderId with
                  | Some o => eqb (ord_status o) ReceiptSubmitted
                  | None => false
                  end in
  when affected (update_order orderId OrderRejected adminUserId now (Some reason)) ;;
  ensure affected (conflict "سفارشی در انتظار بررسی با این شناسه نیست.") ;;
  order ← findOrder orderId;
  match order with
  | Some o => announce brokerAccessDecided o (Some false) None (Some reason)
  | None => mret tt
  end ;;
  mret orderId.
