(* ===== verification/BrokerAccessFacts.v ===== *)
(** * Broker access: what the service guarantees

    The invariant of the broker tables over every operation, the accounting of load
    requests, decisions taken once, and what a broker sees after its pick. *)

From S2P Require Import Prelude JsNumber JsString Effects Enums BrokerAccess.

(** ** The policy in force *)

Definition effective_policy (s : broker_state) : BrokerAccessPolicy :=
  match bs_cached s with
  | Some (p, e) => if bs_now s <? e then p
                   else stored_to_policy (default EMPTY_STORED (bs_setting s))
  | None => stored_to_policy (default EMPTY_STORED (bs_setting s))
  end.

(** Reading the policy only renews the cache. *)
Definition refreshed (s : broker_state) : broker_state :=
  match bs_cached s with
  | Some (p, e) => if bs_now s <? e then s
                   else s <| bs_cached := Some (effective_policy s, bs_now s + LOCAL_TTL_MS) |>
  | None => s <| bs_cached := Some (effective_policy s, bs_now s + LOCAL_TTL_MS) |>
  end.

Lemma getPolicy_run s : getPolicy s = (Ok (effective_policy s), refreshed s).
Proof.
  unfold getPolicy, refreshed, effective_policy, mbind, M_bind, get. simpl.
  destruct (bs_cached s) as [[p e]|]; [|done]. by destruct (bs_now s <? e).
Qed.

Lemma refreshed_tables s :
  bs_open (refreshed s) = bs_open s /\ bs_now (refreshed s) = bs_now s /\
  bs_setting (refreshed s) = bs_setting s /\ bs_roles (refreshed s) = bs_roles s /\
  bs_companies (refreshed s) = bs_companies s /\ bs_periods (refreshed s) = bs_periods s /\
  bs_orders (refreshed s) = bs_orders s /\ bs_credits (refreshed s) = bs_credits s /\
  bs_redis_up (refreshed s) = bs_redis_up s /\ bs_published (refreshed s) = bs_published s.
Proof.
  unfold refreshed. destruct (bs_cached s) as [[p e]|]; [destruct (bs_now s <? e)|]; done.
Qed.

Lemma refreshed_credits s : bs_credits (refreshed s) = bs_credits s.
Proof. apply refreshed_tables. Qed.
Lemma refreshed_orders s : bs_orders (refreshed s) = bs_orders s.
Proof. apply refreshed_tables. Qed.
Lemma refreshed_periods s : bs_periods (refreshed s) = bs_periods s.
Proof. apply refreshed_tables. Qed.
Lemma refreshed_open s : bs_open (refreshed s) = bs_open s.
Proof. apply refreshed_tables. Qed.
Lemma refreshed_now s : bs_now (refreshed s) = bs_now s.
Proof. apply refreshed_tables. Qed.

Lemma refreshed_broker s u : is_broker (refreshed s) u = is_broker s u.
Proof. unfold is_broker, active_roles. by rewrite (proj1 (proj2 (proj2 (proj2 (refreshed_tables s))))). Qed.

Lemma refreshed_remaining s u : remaining_of (refreshed s) u = remaining_of s u.
Proof. unfold remaining_of. by rewrite refreshed_credits. Qed.

Lemma refreshed_selection s u now : current_selection (refreshed s) u now = current_selection s u now.
Proof. unfold current_selection. by rewrite refreshed_periods. Qed.

Lemma refreshed_company_list s : company_list (refreshed s) = company_list s.
Proof. unfold company_list. by rewrite (proj1 (proj2 (proj2 (proj2 (proj2 (refreshed_tables s)))))). Qed.

Lemma effective_policy_refreshed s : effective_policy (refreshed s) = effective_policy s.
Proof.
  assert (Hlt : forall t, (t <? t + LOCAL_TTL_MS) = true) by (intros; apply Z.ltb_lt; unfold LOCAL_TTL_MS; lia).
  unfold refreshed. destruct (bs_cached s) as [[p e]|] eqn:E.
  - destruct (bs_now s <? e) eqn:E2; [done|]. unfold effective_policy at 1. simpl. by rewrite Hlt.
  - unfold effective_policy at 1. simpl. by rewrite Hlt.
Qed.

#[export] Hint Rewrite refreshed_credits refreshed_orders refreshed_periods refreshed_open
  refreshed_now refreshed_broker refreshed_remaining refreshed_selection
  refreshed_company_list effective_policy_refreshed : broker.

(** Runs a broker operation symbolically: the policy read becomes
    [effective_policy], the rest computes. *)
Ltac broker_run :=
  repeat (first
    [ rewrite run_bind
    | rewrite getPolicy_run
    | progress unfold isBroker, currentSelection, remaining, companyList, findOrder, gets, get,
        modify, throw, ensure, some_or, when
    | progress autorewrite with broker
    | progress cbn [mret M_ret] ]; cbn beta iota).

(** ** The invariant *)

Record broker_ok (s : broker_state) : Prop := {
  ok_credits : forall u r, bs_credits s !! u = Some r -> 0 <= r;
  ok_orders : forall i o, bs_orders s !! i = Some o -> ord_id o = i /\ 0 <= default 0 (ord_requests o);
  ok_periods : forall i p, bs_periods s !! i = Some p -> per_id p = i;
  ok_size : 0 <= packageSize (stored_to_policy (default EMPTY_STORED (bs_setting s)));
  ok_cached : forall p e, bs_cached s = Some (p, e) -> 0 <= packageSize p;
}.

Lemma effective_size s : broker_ok s -> 0 <= packageSize (effective_policy s).
Proof.
  intros H. unfold effective_policy. destruct (bs_cached s) as [[p e]|] eqn:E.
  - destruct (bs_now s <? e); [by eapply ok_cached | apply (ok_size s H)].
  - apply (ok_size s H).
Qed.

Lemma refreshed_ok s : broker_ok s -> broker_ok (refreshed s).
Proof.
  intros H. pose proof (effective_size s H) as Hs. destruct H.
  unfold refreshed. destruct (bs_cached s) as [[p e]|] eqn:E; [destruct (bs_now s <? e)|];
    constructor; simpl; try done; intros; simplify_eq/=; eauto.
Qed.

Lemma preserves_getPolicy : preserves broker_ok getPolicy.
Proof. intros s H. unfold final. rewrite getPolicy_run. by apply refreshed_ok. Qed.

Lemma preserves_addCredit u c : 0 <= c -> preserves broker_ok (addCredit u c).
Proof.
  intros Hc s H. unfold final, addCredit. broker_run. destruct (_ && _); [|done]. broker_run.
  destruct H. constructor; simpl; try done. intros v r. rewrite lookup_insert.
  case_decide; [|by eauto]. intros [= <-]. unfold remaining_of.
  destruct (bs_credits s !! u) as [x|] eqn:E; simpl; [specialize (ok_credits0 u x E)|]; lia.
Qed.

Lemma preserves_announce c o a r t : preserves broker_ok (announce c o a r t).
Proof.
  unfold announce. apply preserves_modify. intros s H. destruct (bs_redis_up s); [|done].
  destruct H. by constructor.
Qed.

Lemma preserves_update_order i st a n r : preserves broker_ok (update_order i st a n r).
Proof.
  unfold update_order. apply preserves_modify. intros s H. destruct H.
  constructor; simpl; try done. intros j o. rewrite lookup_alter.
  case_decide; [|by eauto]. subst. intros (o' & Ho & ->)%fmap_Some. simpl. by apply ok_orders0.
Qed.

Lemma preserves_update_period i ids : preserves broker_ok (update_period i ids).
Proof.
  unfold update_period. apply preserves_modify. intros s H. destruct H.
  constructor; simpl; try done. intros j p. rewrite lookup_alter.
  case_decide; [|by eauto]. subst. intros (p' & Hp & ->)%fmap_Some. simpl. by apply ok_periods0.
Qed.

Lemma preserves_insert_period u ids now o : preserves broker_ok (insert_period u ids now o).
Proof.
  intros s H. unfold final, insert_period. broker_run. destruct (negb _); [|done]. broker_run.
  destruct H. constructor; simpl; try done. intros j p. rewrite lookup_insert.
  case_decide; [|by eauto]. by intros [= <-].
Qed.

Lemma preserves_status u now : preserves broker_ok (status u now).
Proof. unfold status. eauto 10 using preserves_getPolicy with preserves. Qed.

#[export] Hint Resolve preserves_getPolicy preserves_announce preserves_update_order
  preserves_update_period preserves_insert_period preserves_status : preserves.

(** ** What each operation does *)

(** A broker's request is counted when requests are sold and nothing is open. *)
Definition counted (s : broker_state) (u : uuid) : bool :=
  negb (bs_open s) && is_broker s u && packagesEnabled (effective_policy s).

Lemma useRequest_run u s :
  exists s1, bs_credits s1 = bs_credits s /\ (broker_ok s -> broker_ok s1) /\
  (forall v, is_broker s1 v = is_broker s v) /\ bs_open s1 = bs_open s /\
  effective_policy s1 = effective_policy s /\
  useRequest u s =
    if negb (counted s u) then (Ok false, s1)
    else if 0 <? remaining_of s u
    then (Ok true, s1 <| bs_credits := <[u := remaining_of s u - 1]> (bs_credits s) |>)
    else (Err (conflict "noCredit"), s1).
Proof.
  unfold useRequest, counted. broker_run.
  destruct (bs_open s) eqn:E1; simpl; [by exists s|]. broker_run.
  destruct (is_broker s u) eqn:E2; simpl; [|by exists s]. broker_run.
  exists (refreshed s). autorewrite with broker.
  repeat (split; [auto using refreshed_ok, refreshed_broker|]).
  destruct (packagesEnabled (effective_policy s)) eqn:E3; simpl; [|done]. broker_run.
  unfold remaining_of. destruct (bs_credits s !! u) as [r|] eqn:E4; simpl; [|done]. broker_run.
  destruct (0 <? r) eqn:E5; simpl; [|done]. unfold mbind, M_bind. simpl. by rewrite refreshed_credits.
Qed.

Lemma announce_run c o a r t s :
  exists s', announce c o a r t s = (Ok tt, s') /\
    bs_orders s' = bs_orders s /\ bs_credits s' = bs_credits s.
Proof.
  unfold announce, modify. eexists. split; [reflexivity|]. by destruct (bs_redis_up s).
Qed.

Lemma addCredit_run u c s :
  addCredit u c s =
    if fits_int4 (remaining_of s u + c) && fits_int4 c
    then (Ok tt, s <| bs_credits := <[u := remaining_of s u + c]> (bs_credits s) |>)
    else (Err OUT_OF_RANGE, s).
Proof. unfold addCredit. broker_run. by destruct (_ && _). Qed.

Lemma preserves_useRequest u : preserves broker_ok (useRequest u).
Proof.
  intros s H. destruct (useRequest_run u s) as (s1 & Hc & Hok & _ & _ & _ & Hr).
  unfold final. rewrite Hr. specialize (Hok H).
  repeat break_if; simpl; try done. destruct Hok. constructor; simpl; try done.
  intros v r. rewrite lookup_insert. case_decide; intros; simplify_eq.
  - apply Z.ltb_lt in Heqb0. lia.
  - rewrite <- Hc in *. eauto.
Qed.

#[export] Hint Resolve preserves_useRequest : preserves.

Lemma preserves_selectCompanies u ids now : preserves broker_ok (selectCompanies u ids now).
Proof. unfold selectCompanies, isBroker, currentSelection, companyList. preserve. Qed.
#[export] Hint Resolve preserves_selectCompanies : preserves.

Lemma preserves_addInvitingCompany u c now : preserves broker_ok (addInvitingCompany u c now).
Proof. unfold addInvitingCompany, currentSelection. preserve. Qed.

Lemma preserves_dropCompany u c : preserves broker_ok (dropCompany u c).
Proof.
  apply preserves_modify. intros s H. destruct H. constructor; simpl; try done.
  intros i p. rewrite lookup_fmap. intros (q & Hq & ->)%fmap_Some.
  specialize (ok_periods0 i q Hq). by destruct (per_userId q =? u)%N.
Qed.

Lemma preserves_save_order o :
  0 <= default 0 (ord_requests o) -> preserves broker_ok (save_order o).
Proof.
  intros Ho. unfold save_order. preserve. apply preserves_modify. intros s Hok.
  destruct Hok. constructor; simpl; try done. intros i o'. rewrite lookup_insert.
  case_decide; [|by eauto]. by intros [= <-].
Qed.

Lemma preserves_submitPackageOrder u n path : preserves broker_ok (submitPackageOrder u n path).
Proof.
  intros s H. unfold final, submitPackageOrder. broker_run.
  destruct (is_broker s u); simpl; [|done]. broker_run.
  destruct (packagesEnabled (effective_policy s)); simpl; [|by apply refreshed_ok].
  broker_run. destruct (num_to_Z n) as [k|]; simpl; [|by apply refreshed_ok]. broker_run.
  destruct (k <? 1) eqn:E1; simpl; [by apply refreshed_ok|].
  destruct (MAX_PACKAGES <? k); simpl; [by apply refreshed_ok|]. broker_run.
  destruct (find_row _ _); simpl; [by apply refreshed_ok|]. broker_run.
  match goal with |- context [save_order ?o] => set (order := o) end.
  pose proof (effective_size s H). apply Z.ltb_ge in E1.
  change (broker_ok (final (save_order order ≫= fun _ =>
    announce brokerAccessReceipt order None None None ≫= fun _ => mret (orderView [] order)) (refreshed s))).
  apply preserves_bind; [|intros ?; preserve | by apply refreshed_ok].
  apply preserves_save_order. simpl. nia.
Qed.

Lemma preserves_addCompanies u ids now o : preserves broker_ok (addCompanies u ids now o).
Proof. unfold addCompanies, currentSelection. preserve. Qed.
#[export] Hint Resolve preserves_addCompanies : preserves.

Lemma preserves_approveOrder i a now : preserves broker_ok (approveOrder i a now).
Proof.
  unfold approveOrder, approve_in_transaction, remaining. preserve.
  apply preserves_addCredit. by eapply ok_orders.
Qed.

Lemma preserves_rejectOrder i a r now : preserves broker_ok (rejectOrder i a r now).
Proof. unfold rejectOrder, findOrder. preserve. Qed.

Lemma preserves_grantRequests u n : 0 <= n -> preserves broker_ok (grantRequests u n).
Proof. intros Hn. unfold grantRequests, isBroker, remaining. preserve. by apply preserves_addCredit. Qed.

Lemma preserves_setPolicy p : 0 <= packageSize p -> preserves broker_ok (setPolicy p).
Proof.
  intros Hp. unfold setPolicy. preserve; apply preserves_modify; intros s Hok; destruct Hok;
    constructor; simpl; try done.
Qed.

(** ** The service as a system of operations *)

Inductive broker_op :=
| OpSetPolicy (policy : BrokerAccessPolicy)
| OpSelect (userId : uuid) (ids : list uuid)
| OpAddInviting (userId companyUserId : uuid)
| OpDrop (userId companyUserId : uuid)
| OpUse (userId : uuid)
| OpRefund (userId : uuid)
| OpGrant (userId : uuid) (requests : Z)
| OpSubmit (userId : uuid) (packages : num) (receiptPath : text)
| OpApprove (orderId adminUserId : uuid)
| OpReject (orderId adminUserId : uuid) (reason : text)
| OpRead (userId : uuid)
| OpTick (ms : Z).

Definition exec (op : broker_op) : BM unit :=
  s ← get;
  let now := bs_now s in
  match op with
  | OpSetPolicy p => setPolicy p ;; mret tt
  | OpSelect u ids => selectCompanies u ids now ;; mret tt
  | OpAddInviting u c => addInvitingCompany u c now ;; mret tt
  | OpDrop u c => dropCompany u c
  | OpUse u => useRequest u ;; mret tt
  | OpRefund u => refundRequest u
  | OpGrant u n => grantRequests u n ;; mret tt
  | OpSubmit u n path => submitPackageOrder u n path ;; mret tt
  | OpApprove i a => approveOrder i a now ;; mret tt
  | OpReject i a r => rejectOrder i a r now ;; mret tt
  | OpRead u => status u now ;; mret tt
  | OpTick ms => modify (fun s => s <| bs_now := bs_now s + ms |>)
  end.

(** What the controllers' DTOs let through. *)
Definition op_valid (op : broker_op) : Prop :=
  match op with
  | OpSetPolicy p => 1 <= packageSize p <= 100000
  | OpGrant _ n => 1 <= n <= 100000
  | OpTick ms => 0 <= ms
  | _ => True
  end.

Lemma preserves_exec op : op_valid op -> preserves broker_ok (exec op).
Proof.
  intros Hv. unfold exec. apply preserves_get_bind. intros s Hs.
  destruct op; simpl in Hv;
    first
    [ apply preserves_bind; [|intros ?; apply preserves_ret];
      auto using preserves_addInvitingCompany, preserves_submitPackageOrder,
        preserves_approveOrder, preserves_rejectOrder with preserves
    | apply preserves_dropCompany
    | apply preserves_addCredit; lia
    | idtac ].
  - apply preserves_setPolicy. lia.
  - apply preserves_grantRequests. lia.
  - apply preserves_modify. intros s' H. destruct H. by constructor.
Qed.

Definition run_ops (ops : list broker_op) (s : broker_state) : broker_state :=
  foldl (fun s op => final (exec op) s) s ops.

(** The requests an operation adds to a broker's credit, and those it uses. *)
Definition added (op : broker_op) (s : broker_state) (u : uuid) : Z :=
  let grant v n := if (v =? u)%N && fits_int4 (remaining_of s v + n) && fits_int4 n then n else 0 in
  match op with
  | OpRefund v => grant v 1
  | OpGrant v n => if is_broker s v then grant v n else 0
  | OpApprove i _ =>
      match bs_orders s !! i with
      | Some o => if eqb (ord_status o) ReceiptSubmitted && eqb (ord_kind o) KindPackage
                  then grant (ord_userId o) (default 0 (ord_requests o)) else 0
      | None => 0
      end
  | _ => 0
  end.

Definition used (op : broker_op) (s : broker_state) (u : uuid) : Z :=
  match op with
  | OpUse v => if (v =? u)%N && counted s v && (0 <? remaining_of s v) then 1 else 0
  | _ => 0
  end.

(** *** Operations that leave the credits alone *)

Section SameCredits.
  Context (c : gmap uuid Z).
Let same (s : broker_state) : Prop := bs_credits s = c.

Lemma same_getPolicy : preserves same getPolicy.
  Proof. intros s H. unfold final. rewrite getPolicy_run. unfold same. simpl. by rewrite refreshed_credits. Qed.

Lemma same_announce ch o a r t : preserves same (announce ch o a r t).
  Proof. apply preserves_modify. intros s H. by destruct (bs_redis_up s). Qed.

Lemma same_update_order i st a n r : preserves same (update_order i st a n r).
  Proof. by apply preserves_modify. Qed.

Lemma same_update_period i ids : preserves same (update_period i ids).
  Proof. by apply preserves_modify. Qed.

Lemma same_insert_period u ids now o : preserves same (insert_period u ids now o).
  Proof. unfold insert_period. preserve. by apply preserves_modify. Qed.

Lemma same_save_order o : preserves same (save_order o).
  Proof. unfold save_order. preserve. by apply preserves_modify. Qed.

  #[local] Hint Resolve same_getPolicy same_announce same_update_order same_update_period
    same_insert_period same_save_order : preserves.

Lemma same_status u now : preserves same (status u now).
  Proof. unfold status. preserve. Qed.
  #[local] Hint Resolve same_status : preserves.

Lemma same_selectCompanies u ids now : preserves same (selectCompanies u ids now).
  Proof. unfold selectCompanies, isBroker, currentSelection, companyList. preserve. Qed.
  #[local] Hint Resolve same_selectCompanies : preserves.

Lemma same_addInvitingCompany u d now : preserves same (addInvitingCompany u d now).
  Proof. unfold addInvitingCompany, currentSelection. preserve. Qed.

Lemma same_addCompanies u ids now o : preserves same (addCompanies u ids now o).
  Proof. unfold addCompanies, currentSelection. preserve. Qed.

Lemma same_submitPackageOrder u n path : preserves same (submitPackageOrder u n path).
  Proof. unfold submitPackageOrder, isBroker. preserve. Qed.

Lemma same_rejectOrder i a r now : preserves same (rejectOrder i a r now).
  Proof. unfold rejectOrder, findOrder. preserve. Qed.

Lemma same_setPolicy p : preserves same (setPolicy p).
  Proof. unfold setPolicy. preserve; by apply preserves_modify. Qed.

Lemma same_dropCompany u d : preserves same (dropCompany u d).
  Proof. by apply preserves_modify. Qed.
End SameCredits.

(** Approving an order adds its requests when it is a package still under review. *)
Lemma approveOrder_credits i a now s :
  bs_credits (final (approveOrder i a now) s) =
  match bs_orders s !! i with
  | Some o =>
      let n := default 0 (ord_requests o) in
      if eqb (ord_status o) ReceiptSubmitted && eqb (ord_kind o) KindPackage
         && (fits_int4 (remaining_of s (ord_userId o) + n) && fits_int4 n)
      then <[ord_userId o := remaining_of s (ord_userId o) + n]> (bs_credits s)
      else bs_credits s
  | None => bs_credits s
  end.
Proof.
  assert (Htail : bs_credits (final (approveOrder i a now) s)
                  = bs_credits (final (transaction (approve_in_transaction i a now)) s)).
  { unfold approveOrder, remaining, final. rewrite run_bind.
    destruct (transaction _ s) as [[o|e] s1]; [|done].
    apply (preserves_gets_bind (fun s2 => bs_credits s2 = bs_credits s1)); [|done].
    intros s2 Hs2. preserve. apply same_announce. }
  rewrite Htail. unfold final, transaction, approve_in_transaction.
  rewrite run_bind. unfold get. cbn beta iota.
  destruct (bs_orders s !! i) as [o|]; [|done]. cbn [some_or]. rewrite run_bind, run_ret.
  destruct (eqb (ord_status o) ReceiptSubmitted); cbn [ensure andb]; [|done].
  rewrite run_bind, run_ret, run_bind. unfold eqb. cbv zeta.
  destruct (ord_kind o); cbn [bool_decide andb].
  1, 2: pose proof (same_addCompanies (bs_credits s) (ord_userId o) (ord_companyUserIds o) now (ord_id o) s eq_refl) as H;
    unfold final in H; destruct (addCompanies _ _ _ _ s) as [[?|?] s1]; exact H || done.
  2: done.
  rewrite addCredit_run. by destruct (_ && _).
Qed.

(** One operation changes a broker's credit by what it adds less what it uses. *)
Lemma exec_credit op s u :
  remaining_of (final (exec op) s) u = remaining_of s u + added op s u - used op s u.
Proof.
  assert (Hsame : forall A (m : BM A), preserves (fun s1 => bs_credits s1 = bs_credits s) m ->
    remaining_of (final m s) u = remaining_of s u + 0 - 0).
  { intros A m Hm. unfold remaining_of. rewrite (Hm s eq_refl). lia. }
  assert (Hunit : forall A (m : BM A), preserves (fun s1 => bs_credits s1 = bs_credits s) m ->
    preserves (fun s1 => bs_credits s1 = bs_credits s) (m ≫= fun _ => mret tt)).
  { intros A m Hm. preserve. }
  assert (Hins : forall v r, default 0 (<[v := r]> (bs_credits s) !! u)
                             = if (v =? u)%N then r else remaining_of s u).
  { intros v r. rewrite lookup_insert. destruct (N.eqb_spec v u).
    - by rewrite decide_True. - by rewrite decide_False. }
  assert (Hadd : forall v n, remaining_of (final (addCredit v n) s) u = remaining_of s u +
     (if (v =? u)%N && fits_int4 (remaining_of s v + n) && fits_int4 n then n else 0)).
  { intros v n. unfold final. rewrite addCredit_run.
    destruct (fits_int4 (remaining_of s v + n) && fits_int4 n) eqn:E; simpl.
    - unfold remaining_of at 1. simpl. rewrite Hins. rewrite <- andb_assoc, E.
      destruct (N.eqb_spec v u); subst; simpl; lia.
    - rewrite <- andb_assoc, E, andb_false_r. lia. }
  assert (Hdrop : forall A (m : BM A), final (m ≫= fun _ => mret tt) s = final m s).
  { intros A m. unfold final. rewrite run_bind. by destruct (m s) as [[?|?] ?]. }
  unfold exec. rewrite final_get_bind. cbn beta zeta.
  destruct op; cbn [added used]; rewrite ?Hdrop;
    try (apply Hsame; eauto using same_setPolicy, same_selectCompanies, same_addInvitingCompany,
      same_dropCompany, same_submitPackageOrder, same_rejectOrder, same_status; by apply preserves_modify).
  - destruct (useRequest_run userId s) as (s1 & Hc & _ & _ & _ & _ & Hr).
    unfold final. rewrite Hr. destruct (counted s userId); simpl.
    + destruct (0 <? remaining_of s userId) eqn:E; simpl; rewrite ?andb_true_r, ?andb_false_r.
      * unfold remaining_of at 1. simpl. rewrite Hins. destruct (N.eqb_spec userId u); subst; lia.
      * unfold remaining_of. rewrite Hc. simpl. lia.
    + rewrite andb_false_r. unfold remaining_of. rewrite Hc. simpl. lia.
  - unfold refundRequest. rewrite Hadd. lia.
  - unfold grantRequests, isBroker, remaining. unfold final. rewrite run_bind. unfold gets at 1. cbn beta iota.
    destruct (is_broker s userId); cbn [ensure]; [|simpl; lia].
    rewrite run_bind, run_ret, run_bind. specialize (Hadd userId requests). unfold final in Hadd.
    destruct (addCredit userId requests s) as [[?|?] ?]; simpl in *; lia.
  - unfold remaining_of at 1. rewrite approveOrder_credits.
    destruct (bs_orders s !! orderId) as [o|]; [|unfold remaining_of; lia]. cbv zeta.
    destruct (eqb (ord_status o) ReceiptSubmitted && eqb (ord_kind o) KindPackage); cbn [andb];
      [|unfold remaining_of; lia].
    rewrite <- andb_assoc. destruct (fits_int4 _ && fits_int4 _).
    + rewrite Hins. destruct (N.eqb_spec (ord_userId o) u) as [->|]; simpl; lia.
    + rewrite andb_false_r. unfold remaining_of. lia.
Qed.

Fixpoint total (f : broker_op -> broker_state -> uuid -> Z) (ops : list broker_op)
    (s : broker_state) (u : uuid) : Z :=
  match ops with
  | [] => 0
  | op :: ops => f op s u + total f ops (final (exec op) s) u
  end.

Lemma broker_ok_run ops s : Forall op_valid ops -> broker_ok s -> broker_ok (run_ops ops s).
Proof.
  revert s. induction ops as [|op ops IH]; intros s Hv H; [done|].
  inversion Hv; subst. apply IH; [done|]. by apply preserves_exec.
Qed.

(** ** Properties *)

(** C13: The accounting of load requests: after any sequence of operations of the
    service, what a broker has left is what it had, plus what approvals, gifts and
    refunds added, less the requests it used; and it never uses more than that. *)
Theorem credits_accounted (ops : list broker_op) (s : broker_state) (u : uuid)
    (Hv : Forall op_valid ops) (Hs : broker_ok s) :
  remaining_of (run_ops ops s) u = remaining_of s u + total added ops s u - total used ops s u /\
  total used ops s u <= remaining_of s u + total added ops s u.
Proof.
  assert (Heq : forall s', remaining_of (run_ops ops s') u
                = remaining_of s' u + total added ops s' u - total used ops s' u).
  { clear. induction ops as [|op ops IH]; intros s'; simpl; [lia|].
    unfold run_ops in *. simpl. rewrite IH, exec_credit. lia. }
  split; [apply Heq|]. pose proof (broker_ok_run ops s Hv Hs) as Hok.
  assert (0 <= remaining_of (run_ops ops s) u).
  { unfold remaining_of. destruct (bs_credits (run_ops ops s) !! u) eqn:E; simpl; [|lia].
    by eapply ok_credits. }
  rewrite Heq in *. lia.
Qed.

(** A sample world: user 1 is a broker, the admin sells packages of 2 requests. *)
Definition sample_policy : BrokerAccessPolicy := {|
  maxCompanies := Some 1; packagesEnabled := true; packageSize := 2; packagePrice := 1000;
  currency := "IRR"; commissionPercent := num_of_Z 5 |}.

Definition sample_state : broker_state := {|
  bs_open := false; bs_now := 1000; bs_setting := Some (policy_to_stored sample_policy);
  bs_cached := None; bs_roles := {[ 1%N := [mkRoleRow "BROKER" RecActive] ]};
  bs_companies := [mkCompany 10 (Some (js "A")) None true None;
                   mkCompany 11 (Some (js "B")) None false (Some 10%N);
                   mkCompany 12 (Some (js "C")) None false None];
  bs_periods := ∅; bs_orders := ∅; bs_credits := ∅; bs_redis_up := true; bs_published := [] |}.

Definition sample_ops : list broker_op :=
  [OpSubmit 1 (num_of_Z 1) (js "r.jpg"); OpApprove 1 9; OpUse 1; OpUse 1; OpUse 1; OpRefund 1].

Lemma sample_ok : broker_ok sample_state.
Proof. constructor; simpl; try done; vm_compute; congruence. Qed.

Lemma credits_accounted_witness :
  remaining_of (run_ops sample_ops sample_state) 1 = 1 /\
  remaining_of (run_ops sample_ops sample_state) 1
    = remaining_of sample_state 1 + total added sample_ops sample_state 1 - total used sample_ops sample_state 1 /\
  total used sample_ops sample_state 1 <= remaining_of sample_state 1 + total added sample_ops sample_state 1.
Proof.
  split; [vm_compute; reflexivity|].
  apply credits_accounted; [repeat constructor; simpl; lia | apply sample_ok].
Defined.

(** A receipt is decided once: approving an order adds its package exactly, marks it
    approved, and every later approval or rejection is refused with nothing
    changed. *)
Theorem approveOrder_once (s : broker_state) (i a : uuid) (now : time) (o : BrokerAccessOrder)
    (Ho : bs_orders s !! i = Some o) (Hst : ord_status o = ReceiptSubmitted)
    (Hk : ord_kind o = KindPackage)
    (Hfit : fits_int4 (remaining_of s (ord_userId o) + default 0 (ord_requests o))
            && fits_int4 (default 0 (ord_requests o)) = true) :
  exists s',
    approveOrder i a now s
      = (Ok (remaining_of s (ord_userId o) + default 0 (ord_requests o)), s') /\
    remaining_of s' (ord_userId o) = remaining_of s (ord_userId o) + default 0 (ord_requests o) /\
    ord_status <$> (bs_orders s' !! i) = Some OrderApproved /\
    (forall a' now', approveOrder i a' now' s' = (Err (conflict "این سفارش قبلاً بررسی شده است."), s')) /\
    (forall a' r now', rejectOrder i a' r now' s'
                       = (Err (conflict "سفارشی در انتظار بررسی با این شناسه نیست."), s')).
Proof.
  assert (Hdecided : forall s', ord_status <$> (bs_orders s' !! i) = Some OrderApproved ->
    (forall a' now', approveOrder i a' now' s' = (Err (conflict "این سفارش قبلاً بررسی شده است."), s')) /\
    (forall a' r now', rejectOrder i a' r now' s'
                       = (Err (conflict "سفارشی در انتظار بررسی با این شناسه نیست."), s'))).
  { intros s' (o' & Hst' & Ho')%fmap_Some. split.
    - intros a' now'. unfold approveOrder. rewrite run_bind. unfold transaction, approve_in_transaction.
      rewrite run_bind. unfold get. cbn beta iota. rewrite Hst'. cbn [some_or].
      rewrite run_bind, run_ret. unfold eqb. rewrite <- Ho'. done.
    - intros a' r now'. unfold rejectOrder. rewrite run_bind. unfold get. cbn beta iota.
      rewrite Hst'. unfold eqb. rewrite <- Ho'. done. }
  unfold approveOrder. rewrite run_bind. unfold transaction, approve_in_transaction.
  rewrite run_bind. unfold get. cbn beta iota. rewrite Ho. cbn [some_or].
  rewrite run_bind, run_ret, Hst, eqb_refl. cbn [ensure]. rewrite run_bind, run_ret, run_bind, Hk, addCredit_run, Hfit.
  rewrite run_bind. unfold update_order at 1, modify at 1. cbn beta iota. rewrite run_ret.
  unfold remaining, gets. rewrite run_bind. cbn beta iota. rewrite run_bind.
  match goal with |- context [announce _ _ _ _ _ ?x] => set (s1 := x) end.
  destruct (announce_run brokerAccessDecided o (Some true) (Some (remaining_of s1 (ord_userId o))) None s1)
    as (s2 & -> & Ho2 & Hc2). rewrite run_ret.
  assert (Hrem : remaining_of s1 (ord_userId o)
                 = remaining_of s (ord_userId o) + default 0 (ord_requests o)).
  { unfold remaining_of at 1. subst s1. simpl. by rewrite lookup_insert_eq. }
  assert (Hord : ord_status <$> (bs_orders s2 !! i) = Some OrderApproved).
  { rewrite Ho2.
    change (bs_orders s1) with (alter (decided OrderApproved a now None) i (bs_orders s)).
    by rewrite lookup_alter_eq, Ho. }
  rewrite Hrem. exists s2. split; [reflexivity|].
  split; [unfold remaining_of at 1; rewrite Hc2; exact Hrem|]. split; [done|]. by apply Hdecided.
Qed.

Definition submitted_state : broker_state :=
  final (submitPackageOrder 1 (num_of_Z 1) (js "r.jpg")) sample_state.

Lemma approveOrder_once_witness :
  exists s',
    approveOrder 1 9 1000 submitted_state = (Ok 2, s') /\
    (forall a' now', approveOrder 1 a' now' s' = (Err (conflict "این سفارش قبلاً بررسی شده است."), s')).
Proof.
  destruct (bs_orders submitted_state !! 1%N) as [o|] eqn:E; [|vm_compute in E; discriminate].
  destruct (approveOrder_once submitted_state 1 9 1000 o E) as (s' & H1 & _ & _ & H2 & _);
    vm_compute in E; injection E as <-; try reflexivity.
  exists s'. split; [exact H1 | exact H2].
Defined.

(** ** The selection *)

Lemma latest_start_Some ps p :
  latest_start ps = Some p -> p ∈ ps /\ forall q, q ∈ ps -> per_startAt q <= per_startAt p.
Proof.
  revert p. induction ps as [|x ps IH]; intros p H; simplify_eq/=.
  destruct (latest_start ps) as [q|] eqn:E; simplify_eq.
  - destruct (IH q eq_refl) as [Hq Hmax].
    destruct (Z.leb_spec (per_startAt q) (per_startAt x)); simplify_eq.
    + split; [set_solver|]. intros y [->|Hy]%elem_of_cons; [lia|]. specialize (Hmax y Hy). lia.
    + split; [set_solver|]. intros y [->|Hy]%elem_of_cons; [lia|]. by apply Hmax.
  - split; [set_solver|]. intros y [->|Hy]%elem_of_cons; [lia|].
    destruct ps as [|z ps]; [set_solver|]. simpl in E.
    destruct (latest_start ps) as [w|]; [by destruct (_ <=? _) | done].
Qed.

Lemma latest_start_None ps : latest_start ps = None -> ps = [].
Proof.
  destruct ps as [|x ps]; [done|]. simpl.
  destruct (latest_start ps) as [q|]; [by destruct (_ <=? _) | done].
Qed.

(** Writing the picked companies into the current period, or a new period when the
    broker has none, makes them the broker's selection. *)
Lemma selection_written s s1 u ids now m :
  broker_ok s ->
  (forall i j p q, bs_periods s !! i = Some p -> bs_periods s !! j = Some q ->
     per_userId p = u -> per_userId q = u -> per_startAt p = per_startAt q -> i = j) ->
  m = match current_selection s u now with
      | Some p => update_period (per_id p) ids
      | None => insert_period u ids now None
      end ->
  m s = (Ok tt, s1) ->
  exists p, current_selection s1 u now = Some p /\ per_companyUserIds p = ids.
Proof.
  intros Hok Huniq -> Hrun. unfold current_selection in *.
  destruct (latest_start (find_rows (period_current u now) (bs_periods s))) as [p|] eqn:E.
  - apply latest_start_Some in E as [Hp Hmax]. apply elem_of_find_rows in Hp as (Hcur & i & Hi).
    pose proof (ok_periods s Hok i p Hi) as Hid. subst i.
    unfold update_period, modify in Hrun. injection Hrun as <-.
    set (p' := repicked ids p).
    assert (Hnew : forall q, q ∈ find_rows (period_current u now)
        (alter (repicked ids) (per_id p) (bs_periods s)) ->
        q = p' \/ (exists j, j <> per_id p /\ bs_periods s !! j = Some q) /\ period_current u now q = true).
    { intros q (Hq & j & Hj)%elem_of_find_rows. rewrite lookup_alter in Hj. case_decide; subst.
      - left. rewrite Hi in Hj. by injection Hj.
      - right. eauto. }
    assert (Hin : p' ∈ find_rows (period_current u now)
        (alter (repicked ids) (per_id p) (bs_periods s))).
    { apply elem_of_find_rows. split.
      - unfold period_current in *. subst p'. simpl. apply andb_split in Hcur as [Hc _].
        by rewrite andb_true_r.
      - exists (per_id p). by rewrite lookup_alter_eq, Hi. }
    match goal with |- context [bs_periods ?x] =>
      change (bs_periods x) with (alter (repicked ids) (per_id p) (bs_periods s)) end.
    destruct (latest_start _) as [r|] eqn:Er; [|apply latest_start_None in Er; rewrite Er in Hin; set_solver].
    apply latest_start_Some in Er as [Hr Hrmax]. exists r. split; [done|].
    apply Hnew in Hr as [->|((j & Hj & Hjr) & Hrc)]; [done|].
    assert (per_startAt r <= per_startAt p) by (apply Hmax, elem_of_find_rows; eauto).
    specialize (Hrmax p' Hin). change (per_startAt p') with (per_startAt p) in Hrmax.
    destruct Hj. unfold period_current in *.
    apply (Huniq j (per_id p) r p Hjr Hi).
    + apply andb_split in Hrc as [[Hu _]%andb_split _]. by apply N.eqb_eq.
    + apply andb_split in Hcur as [[Hu _]%andb_split _]. by apply N.eqb_eq.
    + lia.
  - apply latest_start_None in E. unfold insert_period in Hrun. run_inv.
    set (i := fresh_id (bs_periods s)).
    set (p' := mkPeriod i u ids now None None None).
    match goal with |- context [bs_periods ?x] =>
      change (bs_periods x) with (<[i:=p']> (bs_periods s)) end.
    assert (Hin : p' ∈ find_rows (period_current u now) (<[i:=p']> (bs_periods s))).
    { apply elem_of_find_rows. split.
      - unfold period_current, p'. simpl. by rewrite N.eqb_refl, Z.leb_refl.
      - exists i. by rewrite lookup_insert_eq. }
    destruct (latest_start _) as [r|] eqn:Er; [|apply latest_start_None in Er; rewrite Er in Hin; set_solver].
    apply latest_start_Some in Er as [Hr _]. exists r. split; [done|].
    apply elem_of_find_rows in Hr as (Hrc & j & Hj). rewrite lookup_insert in Hj.
    case_decide; [by injection Hj as <-|].
    assert (r ∈ find_rows (period_current u now) (bs_periods s)) as Hr by (apply elem_of_find_rows; eauto).
    rewrite E in Hr. set_solver.
Qed.

(** What the service answers for a broker's view. *)
Definition visible_to (s : broker_state) (u : uuid) (now : time) : option (list uuid) :=
  if negb (bs_open s) && is_broker s u && bool_decide (maxCompanies (effective_policy s) <> None)
  then Some (match current_selection s u now with Some p => per_companyUserIds p | None => [] end)
  else None.

Lemma visiblePublishers_run u now s : result (visiblePublishers u now) s = Ok (visible_to s u now).
Proof.
  unfold result, visiblePublishers, visible_to. broker_run.
  destruct (bs_open s); [done|]. simpl. broker_run. destruct (is_broker s u); [|done]. simpl.
  broker_run. by destruct (maxCompanies (effective_policy s)); broker_run.
Qed.

(** Writing a period leaves the rest of the state as it was. *)
Definition same_rest (s s1 : broker_state) : Prop :=
  bs_open s1 = bs_open s /\ is_broker s1 = is_broker s /\ effective_policy s1 = effective_policy s.

Lemma period_write_rest s s1 u ids now c :
  match c with
  | Some p => update_period (per_id p) ids
  | None => insert_period u ids now None
  end s = (Ok tt, s1) -> same_rest s s1.
Proof.
  destruct c as [p|].
  - unfold update_period. intros H. run_inv. by repeat split.
  - unfold insert_period. intros H. run_inv. by repeat split.
Qed.

Lemma status_run u now s : (status u now s).2 = refreshed s.
Proof. unfold status. by broker_run. Qed.

Lemma visible_refreshed s u now : visible_to (refreshed s) u now = visible_to s u now.
Proof. unfold visible_to. by autorewrite with broker. Qed.

(** Two periods of one broker start at different instants. *)
Definition distinct_starts (s : broker_state) (u : uuid) : Prop :=
  forall i j p q, bs_periods s !! i = Some p -> bs_periods s !! j = Some q ->
    per_userId p = u -> per_userId q = u -> per_startAt p = per_startAt q -> i = j.

(** A pick that is accepted is what the broker sees from then on: no company twice,
    at least one, no more than the admin's number, and each from the list of
    companies open to brokers. *)
Theorem selectCompanies_visible (s s1 : broker_state) (u : uuid) (ids : list uuid) (now : time)
    (st : BrokerStatus) (Hok : broker_ok s) (Hd : distinct_starts s u) (Hopen : bs_open s = false)
    (Hrun : selectCompanies u ids now s = (Ok st, s1)) :
  result (visiblePublishers u now) s1 = Ok (Some (dedup ids)) /\
  dedup ids <> [] /\
  (exists max, maxCompanies (effective_policy s) = Some max /\ Z.of_nat (length (dedup ids)) <= max) /\
  (forall id, id ∈ ids -> id ∈ (company_list s).*1).
Proof.
  unfold selectCompanies in Hrun. cbv zeta in Hrun.
  apply bind_Ok_inv in Hrun as (b & s0 & [<- <-]%run_Ok_inv & Hrun). run_inv.
  rewrite getPolicy_run in Hr0. run_inv. unfold companyList in *. run_inv.
  unfold currentSelection in Hr. run_inv. destruct a6.
  rewrite refreshed_company_list in Hg. rewrite refreshed_selection in *.
  pose proof (status_run u now s8) as Hfin. rewrite Hrun in Hfin. simpl in Hfin. subst s1.
  destruct (period_write_rest _ _ _ _ _ _ Hr6) as (Ho1 & Hb1 & Hp1).
  rewrite <- (refreshed_selection s u now) in Hr6.
  assert (Hd' : distinct_starts (refreshed s) u)
    by (intros i j; rewrite refreshed_periods; apply Hd).
  destruct (selection_written _ s8 u (dedup ids) now _ (refreshed_ok s Hok) Hd' eq_refl Hr6)
    as (p & Hp & Hpi).
  split.
  { rewrite visiblePublishers_run, visible_refreshed. unfold visible_to.
    rewrite Ho1, Hb1, Hp1, Hp, Hpi. autorewrite with broker. by rewrite Hopen, Hg2, Hs. }
  split; [by apply negb_true_iff, bool_decide_eq_false in Hg1|].
  split; [exists a1; split; [done|]; apply negb_true_iff, Z.ltb_ge in Hg0; lia|].
  intros id Hid. apply negb_true_iff in Hg. rewrite some_b_false in Hg.
  specialize (Hg id (proj2 (elem_of_dedup ids id) Hid)).
  apply negb_false_iff, bool_decide_eq_true in Hg. exact Hg.
Qed.

Lemma selectCompanies_visible_witness :
  exists st s1, selectCompanies 1 [11; 11]%N 1000 sample_state = (Ok st, s1) /\
    result (visiblePublishers 1 1000) s1 = Ok (Some [11%N]).
Proof.
  destruct (selectCompanies 1 [11; 11]%N 1000 sample_state) as [[st|e] s1] eqn:E;
    [|vm_compute in E; discriminate].
  exists st, s1. split; [done|].
  refine (proj1 (selectCompanies_visible _ _ _ _ _ _ sample_ok _ eq_refl E)).
  intros i j p q Hi. change (bs_periods sample_state) with (∅ : gmap uuid BrokerAccessPeriod) in Hi.
  by rewrite lookup_empty in Hi.
Defined.

(** What the admin saves is what every reader gets from then on, even when an older
    policy was still cached; selling packages without a price is refused and changes
    nothing. *)
Theorem setPolicy_in_force (p : BrokerAccessPolicy) (s : broker_state) :
  (packagesEnabled p && (packagePrice p <=? 0) = true ->
    setPolicy p s = (Err (badRequest "قیمت بسته را وارد کنید."), s)) /\
  (packagesEnabled p && (packagePrice p <=? 0) = false ->
    result (setPolicy p) s = Ok p /\ result getPolicy (final (setPolicy p) s) = Ok p /\
    bs_setting (final (setPolicy p) s) = Some (policy_to_stored p)).
Proof.
  assert (Hround : stored_to_policy (policy_to_stored p) = p) by (destruct p as [[m|] ?]; done).
  split; intros H; unfold result, final, setPolicy.
  - rewrite run_bind, H. done.
  - rewrite run_bind, H. cbn [negb ensure]. rewrite run_ret.
    rewrite run_bind. unfold modify at 1 3 5. cbn beta iota. rewrite run_bind.
    unfold modify. cbn beta iota. rewrite !getPolicy_run. simpl.
    rewrite effective_policy_refreshed. split; [|split]; [by f_equal..|].
    reflexivity.
Qed.

Lemma setPolicy_in_force_witness :
  result (setPolicy sample_policy) sample_state = Ok sample_policy.
Proof. exact (proj1 (proj2 (setPolicy_in_force sample_policy sample_state) eq_refl)). Defined.
