(* ===== verification/TripFareRules.v ===== *)
(** * The rules of a trip's fare

    [src/domain/helper/tripFare.ts]: reading what the company typed, the total, the
    broker's share and the amount in words.  Nothing here touches the database. *)

From S2P Require Import Prelude JsNumber JsString Enums.

(** [TripFareInput]: the web body as it arrives.  [rate] and [weightTons] are what
    [Number(...)] makes of the fields ([NaN] for a missing one). *)
Record TripFareInput := mkFareInput {
  in_basis : option string;
  in_rate : num;
  in_weightTons : num;
  in_currency : option string;
  in_changeReason : option string;
  in_note : option text;
}.

(** [TripFareValues]: what is stored, with the total worked out. *)
Record TripFareValues := mkFareValues {
  tf_basis : FareBasis;
  tf_rate : num;
  tf_weightTons : num;
  tf_currency : FareCurrency;
  tf_total : num;
  tf_changeReason : option FareChangeReason;
  tf_note : option text;
}.

#[export] Instance TripFareValues_eq_dec : EqDecision TripFareValues.
Proof. solve_decision. Defined.

Definition MAX_WEIGHT_TONS : N := 200.
Definition MAX_NOTE : nat := 300.

Definition BAD_WEIGHT : text :=
  js "وزن بار را وارد کنید (بیشتر از صفر و تا " ++ fa_locale MAX_WEIGHT_TONS ++ js " تن، یعنی "
  ++ fa_locale (MAX_WEIGHT_TONS * 1000) ++ js " کیلوگرم).".

(** [fareTotal]: the amount itself, or the per-ton fare times the weight, whole. *)
Definition fareTotal (basis : FareBasis) (rate weightTons : num) : num :=
  match basis with
  | BasisPerTon => math_round (num_mul rate weightTons)
  | BasisTotal => rate
  end.

(** [Math.round(w * 100) / 100] *)
Definition to_cents (w : num) : num :=
  num_div (math_round (num_mul w (num_of_Z 100))) (num_of_Z 100).

(** [note?.replace(/\s+/g, ' ').trim().slice(0, MAX_NOTE) || null] *)
Definition read_note (note : option text) : option text :=
  match note with
  | None => None
  | Some t => match take MAX_NOTE (trim (collapse_spaces t)) with [] => None | t => Some t end
  end.

(** The reason, checked only when one is given (an empty string is none). *)
Definition read_reason (reason : option string) : text + option FareChangeReason :=
  match reason with
  | None | Some "" => inr None
  | Some r => match FareChangeReason_of_string r with
              | Some r => inr (Some r)
              | None => inl (js "دلیل تغییر معتبر نیست.")
              end
  end.

(** [readTripFare]: what is stored, or the reason it is refused. *)
Definition readTripFare (input : option TripFareInput) : text + TripFareValues :=
  match input with
  | None => inl (js "کرایه و وزن را وارد کنید.")
  | Some input =>
  match in_basis input ≫= FareBasis_of_string with
  | None => inl (js "نوع کرایه را انتخاب کنید: دربست یا تنی.")
  | Some basis =>
  let rate := in_rate input in
  if negb (is_safe_integer rate) || num_leb rate (num_of_Z 0)
  then inl (js "مبلغ کرایه را با عدد وارد کنید.")
  else
  let weightTons := to_cents (in_weightTons input) in
  if negb (is_finite_num weightTons) || num_leb weightTons (num_of_Z 0)
     || num_ltb (num_of_Z (Z.of_N MAX_WEIGHT_TONS)) weightTons
  then inl BAD_WEIGHT
  else
  match FareCurrency_of_string (default "IRT"%string (in_currency input)) with
  | None => inl (js "واحد پول معتبر نیست.")
  | Some currency =>
  match read_reason (in_changeReason input) with
  | inl e => inl e
  | inr changeReason =>
  let note := read_note (in_note input) in
  let total := fareTotal basis rate weightTons in
  if negb (is_safe_integer total) then inl (js "مبلغ کرایه بیش از حد بزرگ است.")
  else inr (mkFareValues basis rate weightTons currency total changeReason note)
  end end end end.

(** [fareChanged]: whether delivery changed anything that matters for the money. *)
Definition fareChanged (agreed delivered : TripFareValues) : bool :=
  negb (num_eqb (tf_total agreed) (tf_total delivered))
  || negb (eqb (tf_currency agreed) (tf_currency delivered))
  || negb (num_eqb (tf_weightTons agreed) (tf_weightTons delivered)).

(** [brokerEarning] *)
Record BrokerEarning := mkEarning { commission : option num; margin : option num }.

Definition percent_of (amount percent : num) : num :=
  math_round (num_div (num_mul amount percent) (num_of_Z 100)).

Definition brokerEarning (model : BrokerPayModel) (companyTotal : num) (currency : FareCurrency)
    (driverFare : option num) (percent : num) : BrokerEarning :=
  match model with
  | Commission =>
      {| commission := if eqb currency Toman then Some (percent_of companyTotal percent) else None;
         margin := None |}
  | Margin =>
      {| commission := None;
         margin := match driverFare with
                   | Some f => if eqb currency Toman then Some (num_sub companyTotal f) else None
                   | None => None
                   end |}
  end.

(** ** An amount in words *)

Definition FARE_CURRENCY_LABEL (c : FareCurrency) : text :=
  match c with
  | Toman => js "تومان" | Dollar => js "دلار" | Euro => js "یورو"
  | Dirham => js "درهم" | Lira => js "لیر"
  end.

(** [moneyText] of a whole amount *)
Definition moneyText (amount : N) (c : FareCurrency) : text :=
  fa_locale amount ++ [32%N] ++ FARE_CURRENCY_LABEL c.

(** The sizes [moneyWords] takes off, largest first, with their words. *)
Definition money_sizes : list (N * text) :=
  [(1000000000, js "میلیارد"); (1000000, js "میلیون"); (1000, js "هزار")]%N.

(** The loop of [moneyWords]: how many of each size, and what is left. *)
Fixpoint money_parts (sizes : list (N * text)) (rest : N) : list (N * text) * N :=
  match sizes with
  | [] => ([], rest)
  | (size, word) :: sizes =>
      let count := (rest / size)%N in
      let '(parts, remainder) := money_parts sizes (rest mod size)%N in
      (if (count =? 0)%N then parts else (count, word) :: parts, remainder)
  end.

Definition moneyWords (amount : N) (c : FareCurrency) : text :=
  match c with
  | Toman =>
      let '(parts, rest) := money_parts money_sizes amount in
      let words := map (fun p => persian_digits (text_of_N p.1) ++ [32%N] ++ p.2) parts
                   ++ (if (rest =? 0)%N then [] else [persian_digits (text_of_N rest)]) in
      match join (js " و ") words with [] => js "۰" | t => t end ++ js " تومان"
  | _ => moneyText amount c
  end.

Example moneyWords_example : moneyWords 45500000 Toman = js "۴۵ میلیون و ۵۰۰ هزار تومان".
Proof. reflexivity. Qed.

Example moneyText_example : moneyText 1500 Dollar = js "۱٬۵۰۰ دلار".
Proof. reflexivity. Qed.

(** ** Facts *)

Lemma num_leb_zero_false (x : num) (z : Z) :
  num_to_Z x = Some z -> num_leb x (num_of_Z 0) = false -> 0 < z.
Proof.
  unfold num_leb. destruct x as [s|s| |s m e]; simpl; try done.
  destruct s; [done|]. intros H _. destruct (Z.leb_spec 0 e).
  - injection H as <-. pose proof (Z.pow_pos_nonneg 2 e). nia.
  - destruct (Z.eqb_spec (Z.pos m mod 2 ^ (- e)) 0) as [Hm|]; [|done]. injection H as <-.
    pose proof (Z.pow_pos_nonneg 2 (- e)) as Hp.
    pose proof (Z.div_mod (Z.pos m) (2 ^ (- e))). nia.
Qed.

Lemma read_note_bound (o : option text) (t : text) :
  read_note o = Some t -> t <> [] /\ (length t <= MAX_NOTE)%nat.
Proof.
  unfold read_note. destruct o as [n|]; [|done].
  destruct (take MAX_NOTE (trim (collapse_spaces n))) as [|c l] eqn:E; [done|].
  intros [= <-]. split; [done|]. rewrite <- E, length_take. lia.
Qed.

(** Stored values satisfy what every later figure relies on: a positive whole rate, a
    weight above nothing and up to one truck's, a total that JavaScript keeps exactly
    (the rate itself for a whole fare), and a note that fits its column. *)
Theorem readTripFare_sound (input : option TripFareInput) (f : TripFareValues)
    (H : readTripFare input = inr f) :
  (exists rate, num_to_Z (tf_rate f) = Some rate /\ 0 < rate <= max_safe_integer) /\
  (exists total, num_to_Z (tf_total f) = Some total /\ Z.abs total <= max_safe_integer) /\
  (tf_basis f = BasisTotal -> tf_total f = tf_rate f) /\
  (tf_basis f = BasisPerTon -> tf_total f = math_round (num_mul (tf_rate f) (tf_weightTons f))) /\
  num_leb (tf_weightTons f) (num_of_Z 0) = false /\
  num_ltb (num_of_Z 200) (tf_weightTons f) = false /\
  (forall t, tf_note f = Some t -> t <> [] /\ (length t <= 300)%nat).
Proof.
  unfold readTripFare in H. destruct input as [i|]; [|done].
  destruct (in_basis i ≫= FareBasis_of_string) as [b|]; [|done]. cbv zeta in H.
  destruct (negb (is_safe_integer (in_rate i)) || num_leb (in_rate i) (num_of_Z 0)) eqn:E1; [done|].
  destruct (negb (is_finite_num (to_cents (in_weightTons i))) || num_leb (to_cents (in_weightTons i)) (num_of_Z 0)
            || num_ltb (num_of_Z (Z.of_N MAX_WEIGHT_TONS)) (to_cents (in_weightTons i))) eqn:E2; [done|].
  destruct (FareCurrency_of_string _) as [c|]; [|done].
  destruct (read_reason _) as [?|r]; [done|].
  destruct (is_safe_integer (fareTotal b (in_rate i) (to_cents (in_weightTons i)))) eqn:E3; [|done].
  injection H as <-. simpl.
  apply orb_false_iff in E1 as [E1 E1']. apply orb_false_iff in E2 as [[_ E2]%orb_false_iff E2'].
  apply negb_false_iff, is_safe_integer_spec in E1 as (z & Hz & Hzb).
  apply is_safe_integer_spec in E3.
  pose proof (num_leb_zero_false _ _ Hz E1').
  split; [exists z; split; [done|lia]|]. split; [done|].
  split; [by intros ->|]. split; [by intros ->|]. split; [done|]. split; [done|].
  intros t. apply read_note_bound.
Qed.

Definition sample_input : TripFareInput :=
  mkFareInput (Some "PER_TON"%string) (num_of_Z 1800000) (num_of_Z 25) None None (Some (js "  دو   روز ")).

Definition sample_fare : TripFareValues :=
  mkFareValues BasisPerTon (num_of_Z 1800000) (num_of_Z 25) Toman (num_of_Z 45000000) None (Some (js "دو روز")).

Lemma readTripFare_sound_witness :
  readTripFare (Some sample_input) = inr sample_fare /\
  num_ltb (num_of_Z 200) (tf_weightTons sample_fare) = false.
Proof.
  assert (H : readTripFare (Some sample_input) = inr sample_fare) by reflexivity.
  split; [exact H|]. apply (readTripFare_sound _ _ H).
Defined.

(** ** Words *)

(** The worth of the parts [moneyWords] writes. *)
Definition word_size (sizes : list (N * text)) (word : text) : N :=
  match List.find (fun p => bool_decide (p.2 = word)) sizes with Some (s, _) => s | None => 0 end.

Definition parts_worth (sizes : list (N * text)) (parts : list (N * text)) : N :=
  foldr (fun p acc => p.1 * word_size sizes p.2 + acc)%N 0%N parts.

(** The words of a toman amount say exactly that amount: the parts and the remainder
    add up to it, and under a milliard every count has at most three figures. *)
Theorem moneyWords_exact (amount : N) :
  let '(parts, rest) := money_parts money_sizes amount in
  (parts_worth money_sizes parts + rest = amount)%N /\ (rest < 1000)%N /\
  Forall (fun p => p.1 <> 0%N /\ (p.2 <> js "میلیارد" -> (p.1 < 1000)%N)) parts.
Proof.
  assert (W1 : word_size money_sizes (js "میلیارد") = 1000000000%N) by reflexivity.
  assert (W2 : word_size money_sizes (js "میلیون") = 1000000%N) by reflexivity.
  assert (W3 : word_size money_sizes (js "هزار") = 1000%N) by reflexivity.
  cbn [money_parts money_sizes]. set (W := word_size money_sizes) in *.
  pose proof (N.div_mod amount 1000000000 ltac:(done)) as D1.
  pose proof (N.mod_lt amount 1000000000 ltac:(done)) as L1.
  set (r1 := (amount mod 1000000000)%N) in *.
  pose proof (N.div_mod r1 1000000 ltac:(done)) as D2.
  pose proof (N.mod_lt r1 1000000 ltac:(done)) as L2.
  set (r2 := (r1 mod 1000000)%N) in *.
  pose proof (N.div_mod r2 1000 ltac:(done)) as D3.
  pose proof (N.mod_lt r2 1000 ltac:(done)) as L3.
  set (r3 := (r2 mod 1000)%N) in *.
  assert (r1 / 1000000 < 1000)%N by (apply N.Div0.div_lt_upper_bound; lia).
  assert (r2 / 1000 < 1000)%N by (apply N.Div0.div_lt_upper_bound; lia).
  unfold parts_worth. fold W.
  destruct (N.eqb_spec (amount / 1000000000) 0), (N.eqb_spec (r1 / 1000000) 0),
    (N.eqb_spec (r2 / 1000) 0); cbn [foldr fst snd]; rewrite ?W1, ?W2, ?W3;
    (split; [lia|]); (split; [lia|]); repeat (constructor; [split; [done | first [done | intros _; lia]]|]);
    constructor.
Qed.
