(* ===== verification/BrokerDriver.v ===== *)
(** * The driver a broker names

    [src/domain/helper/brokerDriver.ts]: each field of a broker's request read from
    what was typed, the whole driver at once, and the commission on its fare. *)

From S2P Require Import Prelude JsNumber JsString Phone NationalId.

(** [String.prototype.toUpperCase] beyond ASCII follows Unicode's casing tables, a
    parameter here; on ASCII text it is the usual letters. *)
Definition ascii_upper (c : N) : N := (if (97 <=? c) && (c <=? 122) then c - 32 else c)%N.
Definition is_ascii (c : N) : bool := (c <? 128)%N.

Class JsCase := {
  toUpperCase : text -> text;
  toUpperCase_ascii : forall t, forallb is_ascii t = true -> toUpperCase t = map ascii_upper t;
}.

#[export] Instance ascii_case : JsCase.
Proof. exists (map ascii_upper). done. Defined.

(** [BrokerDriver] *)
Record BrokerDriver := mkBrokerDriver {
  bd_name : text;
  bd_nationalCode : text;
  bd_mobile : text;
  bd_plate : text;
  bd_transitPlate : option text;
  bd_companyName : option text;
  bd_fare : option text;
  bd_exitBorder : option text;
  bd_referrer : option text;
}.

Inductive BrokerDriverField :=
| FName | FNationalCode | FMobile | FPlate | FTransitPlate
| FCompanyName | FFare | FExitBorder | FReferrer.

#[export] Instance BrokerDriverField_eq_dec : EqDecision BrokerDriverField.
Proof. solve_decision. Defined.

(** [BROKER_DRIVER_FIELDS]: the identity, then this request's details *)
Definition BROKER_DRIVER_IDENTITY_FIELDS : list BrokerDriverField :=
  [FName; FNationalCode; FMobile; FPlate; FTransitPlate].
Definition BROKER_REQUEST_DETAIL_FIELDS : list BrokerDriverField := [FCompanyName; FFare; FReferrer].
Definition BROKER_DRIVER_FIELDS : list BrokerDriverField :=
  BROKER_DRIVER_IDENTITY_FIELDS ++ BROKER_REQUEST_DETAIL_FIELDS.

(** [brokerDriverIdentity] *)
Definition brokerDriverIdentity (d : BrokerDriver) : BrokerDriver :=
  mkBrokerDriver (bd_name d) (bd_nationalCode d) (bd_mobile d) (bd_plate d) (bd_transitPlate d)
    None None None None.

(** A field's text as every field reads it; what is not a string reads as empty. *)
Definition clean_field (input : option text) : text :=
  match input with
  | Some t => trim (collapse_spaces (latin_digits t))
  | None => []
  end.

(** [replace(/[\s-]/g, '')] *)
Definition is_space_or_dash (c : N) : bool := is_space c || (c =? 45)%N.

(** [[0-9\s,٬.]] *)
Definition is_number_char (c : N) : bool :=
  is_digit c || is_space c || (c =? 44)%N || (c =? 1644)%N || (c =? 46)%N.

(** [/^[0-9][0-9\s,٬.]*$/] *)
Definition is_bare_number (t : text) : bool :=
  match t with c :: r => is_digit c && forallb is_number_char r | [] => false end.

Definition between (lo hi : nat) (t : text) : bool := (lo <=? length t)%nat && (length t <=? hi)%nat.

(** A field kept as cleaned when its length is within bounds. *)
Definition read_bounded (lo hi : nat) (error : string) (t : text) : text + option text :=
  if between lo hi t then inr (Some t) else inl (js error).

Section Reading.
  Context `{JsCase}.

(** [readBrokerDriverField]: the stored form, or the reason the field is refused. *)
Definition readBrokerDriverField (key : BrokerDriverField) (input : option text) : text + option text :=
  let t := clean_field input in
  match key with
  | FName => read_bounded 3 100 "نام و نام خانوادگی راننده را کامل بنویسید." t
  | FNationalCode =>
      let code := remove_chars is_space_or_dash t in
      if isNationalCode (Some code) then inr (Some code)
      else inl (js "کد ملی راننده معتبر نیست؛ ۱۰ رقم است.")
  | FMobile =>
      let mobile := normalizePhoneNumber (remove_chars is_space_or_dash t) in
      if is_mobile mobile then inr (Some mobile)
      else inl (js "موبایل راننده معتبر نیست؛ مثلاً 09121234567.")
  | FPlate => read_bounded 5 30 "پلاک شهربانی را کامل بنویسید؛ مثلاً ۴۲ ع ۸۴۲ ایران ۳۵." t
  | FTransitPlate =>
      if is_empty t || bool_decide (t = [45%N]) then inr None
      else if (length t <=? 30)%nat then inr (Some (toUpperCase t))
      else inl (js "پلاک ترانزیت بیش از حد بلند است.")
  | FCompanyName => read_bounded 2 100 "نام شرکت را کامل بنویسید." t
  | FFare =>
      if negb (includes is_digit t) || negb (length t <=? 50)%nat
      then inl (js "مبلغ کرایه را با عدد بنویسید؛ مثلاً ۴۵٬۰۰۰٬۰۰۰ تومان.")
      else inr (Some (if is_bare_number t
                      then remove_chars (fun c => negb (is_digit c)) t else t))
  | FExitBorder => read_bounded 2 60 "مرز خروج را بنویسید؛ مثلاً بازرگان." t
  | FReferrer => read_bounded 2 100 "معرف را بنویسید (نام یا شماره‌اش)." t
  end.

(** The loop of [readBrokerDriver] over [BROKER_DRIVER_FIELDS]: the first refusal is
    the answer. *)
Fixpoint read_fields (keys : list BrokerDriverField) (input : BrokerDriverField -> option text)
    : text + list (BrokerDriverField * option text) :=
  match keys with
  | [] => inr []
  | key :: keys =>
      match readBrokerDriverField key (input key) with
      | inl e => inl e
      | inr v => match read_fields keys input with
                 | inl e => inl e
                 | inr vs => inr ((key, v) :: vs)
                 end
      end
  end.

Definition field_value (vs : list (BrokerDriverField * option text)) (key : BrokerDriverField) : option text :=
  match List.find (fun p => bool_decide (p.1 = key)) vs with Some (_, v) => v | None => None end.

(** [readBrokerDriver] *)
Definition readBrokerDriver (input : BrokerDriverField -> option text) : text + BrokerDriver :=
  match read_fields BROKER_DRIVER_FIELDS input with
  | inl e => inl e
  | inr vs =>
      let v := field_value vs in
      inr (mkBrokerDriver (default [] (v FName)) (default [] (v FNationalCode)) (default [] (v FMobile))
             (default [] (v FPlate)) (v FTransitPlate) (v FCompanyName) (v FFare) None (v FReferrer))
  end.

End Reading.

(** [Number(t)] of a text of digits *)
Definition digits_value (t : text) : Z := foldl (fun acc c => acc * 10 + digit_value c) 0 t.

(** [fareAmount]: a fare given as a bare number. *)
Definition fareAmount (fare : option text) : option num :=
  match fare with
  | None | Some [] => None
  | Some t =>
      if forallb is_digit t then
        let amount := num_of_Z (digits_value t) in
        if is_safe_integer amount then Some amount else None
      else None
  end.

(** [brokerCommission]: [Math.round((amount * percent) / 100)] *)
Definition brokerCommission (fare : option text) (percent : num) : option num :=
  option_map (fun amount => math_round (num_div (num_mul amount percent) (num_of_Z 100))) (fareAmount fare).

(** What a stored driver gives back to the form. *)
Definition driver_field (d : BrokerDriver) (key : BrokerDriverField) : option text :=
  match key with
  | FName => Some (bd_name d) | FNationalCode => Some (bd_nationalCode d)
  | FMobile => Some (bd_mobile d) | FPlate => Some (bd_plate d)
  | FTransitPlate => bd_transitPlate d | FCompanyName => bd_companyName d
  | FFare => bd_fare d | FExitBorder => bd_exitBorder d | FReferrer => bd_referrer d
  end.

(** ** Cleaning is idempotent *)

Lemma collapse_spaces_from_true_head (t : text) :
  match collapse_spaces_from true t with c :: _ => is_space c = false | [] => True end.
Proof.
  induction t as [|c t IH]; simpl; [done|]. destruct (is_space c) eqn:E; [exact IH|]. by rewrite E.
Qed.

(** No two spaces in a row, and every space is U+0020. *)
Fixpoint spaced (in_space : bool) (t : text) : bool :=
  match t with
  | [] => true
  | c :: t =>
      if is_space c then negb in_space && (c =? 32)%N && spaced true t else spaced false t
  end.

Lemma collapse_spaced b t : spaced b (collapse_spaces_from b t) = true.
Proof.
  revert b. induction t as [|c t IH]; intros b; simpl; [done|].
  destruct (is_space c) eqn:E.
  - destruct b; [apply IH|]. simpl. apply IH.
  - simpl. rewrite E. apply IH.
Qed.

Lemma spaced_collapse b t : spaced b t = true -> collapse_spaces_from b t = t.
Proof.
  revert b. induction t as [|c t IH]; intros b; simpl; [done|].
  destruct (is_space c) eqn:E; intros Hs.
  - apply andb_split in Hs as [[Hb%negb_true_iff Hc%N.eqb_eq]%andb_split Hs]. subst.
    by rewrite IH.
  - by rewrite IH.
Qed.

Lemma spaced_weaken t : spaced true t = true -> spaced false t = true.
Proof. destruct t as [|c t]; simpl; [done|]. by destruct (is_space c). Qed.

Lemma spaced_drop b t : spaced b t = true -> spaced false (drop_while is_space t) = true.
Proof.
  revert b. induction t as [|c t IH]; intros b; simpl; [done|].
  destruct (is_space c) eqn:E; intros Hs.
  - apply andb_split in Hs as [_ Hs]. by apply IH in Hs.
  - simpl. by rewrite E.
Qed.

Lemma spaced_app b t u : spaced b (t ++ u) = true -> spaced b t = true.
Proof.
  revert b. induction t as [|c t IH]; intros b; simpl; [done|].
  destruct (is_space c); [|apply IH].
  intros [H1 H2%IH]%andb_split. by rewrite H1.
Qed.

(** [drop_while] on the reversed text cuts a suffix. *)
Lemma drop_while_suffix f (t : text) : exists u, t = u ++ drop_while f t /\ forallb f u = true.
Proof.
  induction t as [|c t (u & Hu & Hf)]; simpl; [by exists []|].
  destruct (f c) eqn:E; [exists (c :: u); simpl; rewrite E; split; [by f_equal | done] | by exists []].
Qed.

Lemma trim_cut t : exists u, drop_while is_space t = trim t ++ u.
Proof.
  unfold trim. destruct (drop_while_suffix is_space (reverse (drop_while is_space t))) as (u & Hu & _).
  exists (reverse u). rewrite <- reverse_app, <- Hu. by rewrite reverse_involutive.
Qed.

Lemma spaced_trim t : spaced false t = true -> spaced false (trim t) = true.
Proof.
  intros H. apply spaced_drop in H. destruct (trim_cut t) as (u & Hu). rewrite Hu in H.
  by apply spaced_app in H.
Qed.

Lemma drop_while_head f (t : text) : match drop_while f t with c :: _ => f c = false | [] => True end.
Proof. induction t as [|c t IH]; simpl; [done|]. destruct (f c) eqn:E; [exact IH | exact E]. Qed.

Lemma drop_while_stable f (t : text) :
  match t with c :: _ => f c = false | [] => True end -> drop_while f t = t.
Proof. destruct t as [|c t]; simpl; [done|]. by intros ->. Qed.

Lemma trim_idemp t : trim (trim t) = trim t.
Proof.
  assert (Hd : drop_while is_space (trim t) = trim t).
  { apply drop_while_stable. destruct (trim_cut t) as (u & Hu).
    pose proof (drop_while_head is_space t) as Hh. rewrite Hu in Hh.
    by destruct (trim t). }
  unfold trim at 1. rewrite Hd. unfold trim. rewrite reverse_involutive.
  rewrite drop_while_idemp. done.
Qed.

Lemma latin_digit_space c : is_space (latin_digit c) = is_space c.
Proof.
  destruct (latin_digit c =? c)%N eqn:E; [by apply N.eqb_eq in E as ->|].
  apply N.eqb_neq in E. revert E. unfold latin_digit.
  destruct (is_persian_digit c) eqn:Ep; [|destruct (is_arabic_digit c) eqn:Ea; [|done]]; intros _.
  - unfold is_persian_digit in Ep. apply andb_split in Ep as [H1%N.leb_le H2%N.leb_le].
    assert (is_digit (c - 1776 + 48) = true) as Hd by (unfold is_digit; apply andb_true_iff; rewrite !N.leb_le; lia).
    rewrite (is_digit_not_space _ Hd). symmetry. unfold is_space.
    repeat rewrite ?orb_false_iff, ?andb_false_iff, ?N.leb_gt, ?N.eqb_neq. lia.
  - unfold is_arabic_digit in Ea. apply andb_split in Ea as [H1%N.leb_le H2%N.leb_le].
    assert (is_digit (c - 1632 + 48) = true) as Hd by (unfold is_digit; apply andb_true_iff; rewrite !N.leb_le; lia).
    rewrite (is_digit_not_space _ Hd). symmetry. unfold is_space.
    repeat rewrite ?orb_false_iff, ?andb_false_iff, ?N.leb_gt, ?N.eqb_neq. lia.
Qed.

(** A cleaned text, read again, stays as it is. *)
Definition latin_only (t : text) : bool := forallb (fun c => latin_digit c =? c)%N t.

Lemma latin_only_sub t u v : t = u ++ v -> latin_only t = true -> latin_only u = true /\ latin_only v = true.
Proof. intros ->. unfold latin_only. rewrite forallb_app. apply andb_split. Qed.

Lemma latin_only_reverse t : latin_only (reverse t) = latin_only t.
Proof. apply forallb_reverse. Qed.

Lemma latin_only_trim t : latin_only t = true -> latin_only (trim t) = true.
Proof.
  intros Ht. destruct (drop_while_suffix is_space t) as (u & Hu & _).
  destruct (latin_only_sub _ _ _ Hu Ht) as [_ Hd].
  destruct (trim_cut t) as (v & Hv). by destruct (latin_only_sub _ _ _ Hv Hd).
Qed.

Lemma latin_only_collapse b t : latin_only t = true -> latin_only (collapse_spaces_from b t) = true.
Proof.
  revert b. induction t as [|c t IH]; intros b; simpl; [done|]. intros [H1 H2]%andb_split.
  destruct (is_space c); [destruct b; simpl; by rewrite IH|]. simpl. by rewrite H1, IH.
Qed.

Lemma latin_only_digits t : latin_only (latin_digits t) = true.
Proof.
  induction t as [|c t IH]; [done|]. simpl. rewrite latin_digit_idemp, N.eqb_refl. exact IH.
Qed.

Lemma clean_field_fixed t :
  latin_only t = true -> spaced false t = true -> trim t = t -> clean_field (Some t) = t.
Proof.
  intros H1 H2 H3. unfold clean_field. rewrite latin_digits_fixed by exact H1.
  unfold collapse_spaces. by rewrite spaced_collapse.
Qed.

Lemma clean_field_shape i :
  latin_only (clean_field i) = true /\ spaced false (clean_field i) = true /\
  trim (clean_field i) = clean_field i.
Proof.
  destruct i as [t|]; [|done]. unfold clean_field. split; [|split].
  - apply latin_only_trim, latin_only_collapse, latin_only_digits.
  - apply spaced_trim, collapse_spaced.
  - apply trim_idemp.
Qed.

Lemma clean_field_idemp i : clean_field (Some (clean_field i)) = clean_field i.
Proof. destruct (clean_field_shape i) as (? & ? & ?). by apply clean_field_fixed. Qed.

Lemma clean_digits t : forallb is_digit t = true -> clean_field (Some t) = t.
Proof.
  intros H. unfold clean_field. rewrite latin_digits_id by done.
  assert (Hs : spaced false t = true).
  { clear -H. induction t as [|c t IH]; [done|]. simpl in *. apply andb_split in H as [Hc Ht].
    rewrite is_digit_not_space by done. by apply IH. }
  unfold collapse_spaces. rewrite spaced_collapse by done. by apply digits_trim.
Qed.

(** ** What a stored field is *)

Lemma digits_no_dash t :
  forallb is_digit t = true -> remove_chars is_space_or_dash t = t.
Proof.
  intros H. apply remove_chars_id. revert H. apply forallb_impl. intros c Hc.
  unfold is_space_or_dash. rewrite is_digit_not_space by done. simpl.
  unfold is_digit in Hc. apply andb_split in Hc as [H1%N.leb_le H2%N.leb_le].
  apply negb_true_iff, N.eqb_neq. lia.
Qed.

Lemma isNationalCode_digits t : isNationalCode (Some t) = true -> forallb is_digit t = true.
Proof.
  unfold isNationalCode. intros H. repeat (break_if; try done).
  all: repeat match goal with
       | H : negb _ = false |- _ => apply negb_false_iff in H
       | H : _ || _ = false |- _ => apply orb_false_iff in H as [? ?]
       | H : _ && _ = true |- _ => apply andb_split in H as [? ?]
       end; done.
Qed.

Lemma read_bounded_inv lo hi e t v :
  read_bounded lo hi e t = inr v -> v = Some t /\ between lo hi t = true.
Proof. unfold read_bounded. destruct (between lo hi t); intros H; by inversion H. Qed.

Lemma only_digits_clean t : forallb is_digit (remove_chars (fun c => negb (is_digit c)) t) = true.
Proof.
  apply forallb_forall. intros c Hc. unfold remove_chars in Hc.
  apply List.filter_In in Hc as [_ Hc]. by rewrite negb_involutive in Hc.
Qed.

Lemma remove_chars_length f t : (length (remove_chars f t) <= length t)%nat.
Proof. unfold remove_chars. induction t as [|c t IH]; simpl; [lia|]. destruct (f c); simpl; lia. Qed.

(** A bare number's digits are again a bare number of digits. *)
Lemma bare_number_digits t :
  is_bare_number t = true ->
  let d := remove_chars (fun c => negb (is_digit c)) t in
  includes is_digit d = true /\ is_bare_number d = true /\ forallb is_digit d = true.
Proof.
  intros H d. pose proof (only_digits_clean t) as Hd. fold d in Hd.
  assert (Hne : exists c r, d = c :: r).
  { subst d. destruct t as [|c t]; [done|]. simpl in H. apply andb_split in H as [Hc _].
    simpl. rewrite Hc. simpl. eauto. }
  destruct Hne as (c & r & E). rewrite E in *. simpl in Hd. apply andb_split in Hd as [Hc Hr].
  simpl. rewrite Hc, Hr. split; [done|]. split; [|done].
  revert Hr. apply forallb_impl. intros x Hx. unfold is_number_char. by rewrite Hx.
Qed.

Section ReadingFacts.
  Context `{JsCase}.

(** Every field but the transit plate reads back what it stored. *)
Lemma field_reread (k : BrokerDriverField) (i : option text) (v : option text) :
  k <> FTransitPlate -> readBrokerDriverField k i = inr v -> readBrokerDriverField k v = inr v.
Proof.
  intros Hk. unfold readBrokerDriverField.
  destruct k; try done; cbv zeta.
  1, 4, 5, 7, 8: intros [-> Hb]%read_bounded_inv; unfold read_bounded;
    by rewrite clean_field_idemp, Hb.
  - destruct (isNationalCode _) eqn:E; intros [= <-].
    pose proof (isNationalCode_digits _ E) as Hd.
    by rewrite (clean_digits _ Hd), (digits_no_dash _ Hd), E.
  - destruct (is_mobile _) eqn:E; intros [= <-].
    pose proof (is_mobile_digits _ E) as Hd.
    by rewrite (clean_digits _ Hd), (digits_no_dash _ Hd), (normalize_mobile _ E), E.
  - destruct (includes is_digit (clean_field i)) eqn:E1; [|done].
    destruct (length (clean_field i) <=? 50)%nat eqn:E2; [|done]. simpl. intros [= <-].
    destruct (is_bare_number (clean_field i)) eqn:E3.
    + destruct (bare_number_digits _ E3) as (H1 & H2 & H3).
      rewrite (clean_digits _ H3), H1, H2. simpl.
      pose proof (remove_chars_length (fun c => negb (is_digit c)) (clean_field i)).
      apply Nat.leb_le in E2. rewrite (proj2 (Nat.leb_le _ _)) by lia.
      simpl. by rewrite remove_chars_idemp.
    + by rewrite clean_field_idemp, E1, E2, E3.
Qed.

Lemma field_Some (k : BrokerDriverField) (i v : option text) :
  k <> FTransitPlate -> readBrokerDriverField k i = inr v -> is_Some v.
Proof.
  intros Hk. unfold readBrokerDriverField.
  destruct k; try done; cbv zeta; unfold read_bounded; intros Hr; break_match_in Hr; simplify_eq; eauto.
Qed.

Definition read_value (input : BrokerDriverField -> option text) (k : BrokerDriverField) : option text :=
  match readBrokerDriverField k (input k) with inr v => v | inl _ => None end.

Lemma read_fields_inv keys input vs :
  read_fields keys input = inr vs ->
  vs = map (fun k => (k, read_value input k)) keys /\
  forall k, k ∈ keys -> readBrokerDriverField k (input k) = inr (read_value input k).
Proof.
  revert vs. induction keys as [|k keys IH]; intros vs Hr; simplify_eq/=; [split; [done|set_solver]|].
  destruct (readBrokerDriverField k (input k)) as [e|v] eqn:Ek; [done|].
  destruct (read_fields keys input) as [e|vs'] eqn:Er; [done|]. injection Hr as <-.
  destruct (IH vs' eq_refl) as [-> Hall].
  assert (Hv : read_value input k = v) by (unfold read_value; by rewrite Ek).
  split; [by rewrite Hv|]. intros k' [->|Hk]%elem_of_cons; [by rewrite Hv | by apply Hall].
Qed.

Lemma readBrokerDriver_fields (input : BrokerDriverField -> option text) (d : BrokerDriver) :
  readBrokerDriver input = inr d ->
  forall k, k ∈ BROKER_DRIVER_FIELDS -> readBrokerDriverField k (input k) = inr (driver_field d k).
Proof.
  unfold readBrokerDriver. intros Hr k Hk.
  destruct (read_fields BROKER_DRIVER_FIELDS input) as [e|vs] eqn:E; [done|].
  apply read_fields_inv in E as [-> Hall]. injection Hr as <-.
  rewrite (Hall k Hk). f_equal.
  assert (Hs : k <> FTransitPlate -> is_Some (read_value input k))
    by (intros Hn; eapply field_Some; [exact Hn | by apply Hall]).
  destruct k; try reflexivity; try (destruct Hs as [v Hv]; [done|];
    cbn [driver_field bd_name bd_nationalCode bd_mobile bd_plate]; unfold field_value; simpl; by rewrite Hv).
  apply (bool_decide_eq_true (_ ∈ _)) in Hk. discriminate Hk.
Qed.

(** A stored driver is complete and checked: its national code and mobile are valid,
    its texts within their lengths; and given back to the form (its transit plate
    apart, which is stored in capitals) every field is accepted as it is. *)
Theorem readBrokerDriver_stable (input : BrokerDriverField -> option text) (d : BrokerDriver)
    (Hd : readBrokerDriver input = inr d) :
  isNationalCode (Some (bd_nationalCode d)) = true /\ is_mobile (bd_mobile d) = true /\
  (3 <= length (bd_name d) <= 100)%nat /\ (5 <= length (bd_plate d) <= 30)%nat /\
  is_Some (bd_companyName d) /\ is_Some (bd_fare d) /\ is_Some (bd_referrer d) /\
  forall k, k ∈ BROKER_DRIVER_FIELDS -> k <> FTransitPlate ->
    readBrokerDriverField k (driver_field d k) = inr (driver_field d k).
Proof.
  pose proof (readBrokerDriver_fields _ _ Hd) as Hf.
  assert (Hin : forall k, k <> FExitBorder -> k ∈ BROKER_DRIVER_FIELDS)
    by (intros k Hk; destruct k; try done; apply (bool_decide_eq_true (_ ∈ _)); reflexivity).
  pose proof (fun k Hk Hn => field_reread k _ _ Hn (Hf k (Hin k Hk))) as Hre.
  pose proof (fun k Hk Hn => field_Some k _ _ Hn (Hf k (Hin k Hk))) as Hsome.
  split; [|split; [|split; [|split; [|split; [|split; [|split]]]]]].
  - specialize (Hf FNationalCode (Hin FNationalCode ltac:(done))). simpl in Hf. unfold readBrokerDriverField in Hf.
    cbv zeta in Hf. match type of Hf with (if ?b then _ else _) = _ => destruct b eqn:E; [|done] end.
    injection Hf as <-. exact E.
  - specialize (Hf FMobile (Hin FMobile ltac:(done))). simpl in Hf. unfold readBrokerDriverField in Hf.
    cbv zeta in Hf. match type of Hf with (if ?b then _ else _) = _ => destruct b eqn:E; [|done] end.
    injection Hf as <-. exact E.
  - specialize (Hf FName (Hin FName ltac:(done))). simpl in Hf. apply read_bounded_inv in Hf as [[= ->] Hb].
    unfold between in Hb. apply andb_split in Hb as [?%Nat.leb_le ?%Nat.leb_le]. lia.
  - specialize (Hf FPlate (Hin FPlate ltac:(done))). simpl in Hf. apply read_bounded_inv in Hf as [[= ->] Hb].
    unfold between in Hb. apply andb_split in Hb as [?%Nat.leb_le ?%Nat.leb_le]. lia.
  - by apply (Hsome FCompanyName).
  - by apply (Hsome FFare).
  - by apply (Hsome FReferrer).
  - intros k Hk Hn. apply Hre; [|done]. intros ->. apply (bool_decide_eq_true (_ ∈ _)) in Hk. discriminate Hk.
Qed.

End ReadingFacts.

Definition sample_driver_input (k : BrokerDriverField) : option text :=
  match k with
  | FName => Some (js "  علی   رضایی ") | FNationalCode => Some (js "۰۰۱-۲۴۹۰۵۳۹")
  | FMobile => Some (js "+98 912 123 4567") | FPlate => Some (js "۴۲ ع ۸۴۲ ایران ۳۵")
  | FTransitPlate => Some (js "81aa217/218") | FCompanyName => Some (js "ترابر")
  | FFare => Some (js "۴۵٬۰۰۰٬۰۰۰") | FReferrer => Some (js "رضا") | FExitBorder => None
  end.

Definition sample_driver : BrokerDriver :=
  mkBrokerDriver (js "علی رضایی") (js "0012490539") (js "09121234567") (js "42 ع 842 ایران 35")
    (Some (js "81AA217/218")) (Some (js "ترابر")) (Some (js "45000000")) None (Some (js "رضا")).

Lemma readBrokerDriver_stable_witness :
  readBrokerDriver sample_driver_input = inr sample_driver /\
  isNationalCode (Some (bd_nationalCode sample_driver)) = true /\
  fareAmount (bd_fare sample_driver) = Some (num_of_Z 45000000).
Proof.
  assert (H : readBrokerDriver sample_driver_input = inr sample_driver) by reflexivity.
  split; [exact H|]. split; [|reflexivity]. apply (readBrokerDriver_stable _ _ H).
Defined.
