(* ===== verification/DriverProfile.v ===== *)
(** * Driver profiles

    [src/services/notification/cargoTripType.ts] (the kinds of drivers and loads) and
    the parts of [src/services/driver/driverProfile.service.ts] a trip depends on: who
    is a driver or a broker, which loads it takes, and what it must fill in before it
    requests one. *)

From S2P Require Import Prelude JsString Effects Enums.

(** ** Kinds of drivers and loads *)

Inductive DriverKind := KDomestic | KInternational.

#[export] Instance DriverKind_eq_dec : EqDecision DriverKind.
Proof. solve_decision. Defined.

Definition DRIVER_KIND_TRIP_TYPES (k : DriverKind) : list CargoTripType :=
  match k with KDomestic => [TripDomestic] | KInternational => [TripExport; TripImport] end.

Definition driverKindForLoad (t : option CargoTripType) : DriverKind :=
  match t with Some TripExport | Some TripImport => KInternational | _ => KDomestic end.

Definition driverKindOf (ts : list (option CargoTripType)) : DriverKind :=
  if some_b (fun t => eqb (driverKindForLoad t) KInternational) ts then KInternational else KDomestic.

Definition driverKindsOf (ts : list (option CargoTripType)) : list DriverKind :=
  let kinds := List.filter (fun k =>
    some_b (fun t => match t with
                     | Some _ => eqb (driverKindForLoad t) k
                     | None => false end) ts) [KDomestic; KInternational] in
  match kinds with [] => [KDomestic] | _ => kinds end.

Definition driverTripTypes (ts : list (option CargoTripType)) : list CargoTripType :=
  flat_map DRIVER_KIND_TRIP_TYPES (driverKindsOf ts).

(** ** The profile *)

(** [DriverProfile]: the columns the modelled operations read or write. *)
Record DriverProfile := mkProfile {
  dp_companyName : option text;
  dp_insuranceNumber : option text;
  dp_insuranceExpiry : option text;
  dp_tripType : CargoTripType;
  dp_tripTypes : list CargoTripType;
  dp_companyUserIds : list uuid;
  dp_cargoVoice : bool;
  dp_smartCardNumber : option text;
  dp_licenseNumber : option text;
}.

(** The column defaults of a row inserted with only its key. *)
Definition new_profile : DriverProfile :=
  mkProfile None None None TripDomestic [TripDomestic] [] false None None.

Record profile_state := mkProfiles {
  ps_profiles : gmap uuid DriverProfile;
  ps_roles : gmap uuid (list RoleRow);
  ps_parents : list uuid;
}.

Abbreviation PM := (M profile_state).

(** [driver?.tripTypes?.length ? driver.tripTypes : [driver?.tripType]] *)
Definition stored_types (d : option DriverProfile) : list (option CargoTripType) :=
  match d with
  | None => [None]
  | Some d => match dp_tripTypes d with [] => [Some (dp_tripType d)] | ts => map Some ts end
  end.

(** [DRIVER_KIND_REQUIRED]: the field and its title *)
Definition DRIVER_KIND_REQUIRED (k : DriverKind) : list ((DriverProfile -> option text) * text) :=
  match k with
  | KInternational => [(dp_companyName, js "نام شرکت")]
  | KDomestic => [(dp_insuranceNumber, js "شماره بیمه‌نامه"); (dp_insuranceExpiry, js "تاریخ اعتبار بیمه‌نامه")]
  end.

(** [!driver?.[key]?.trim()] *)
Definition field_missing (d : option DriverProfile) (key : DriverProfile -> option text) : bool :=
  match d ≫= key with Some t => is_empty (trim t) | None => true end.

Definition missing_fields (d : option DriverProfile) : list text :=
  map snd (List.filter (fun p => field_missing d p.1)
    (flat_map DRIVER_KIND_REQUIRED (driverKindsOf (stored_types d)))).

Definition missingForRequest (userId : uuid) : PM (list text) :=
  gets (fun s => missing_fields (ps_profiles s !! userId)).

Definition active_role_names (s : profile_state) (userId : uuid) : list string :=
  map role_name (List.filter (fun r => eqb (role_status r) RecActive) (default [] (ps_roles s !! userId))).

(** [isDriver]: an active DRIVER role *)
Definition is_driver (s : profile_state) (userId : uuid) : bool :=
  bool_decide (DRIVER_ROLE ∈ active_role_names s userId).

(** The [broker] column of [cards]: a BROKER role, active or not, and no driver profile *)
Definition card_broker (s : profile_state) (userId : uuid) : bool :=
  some_b (fun r => String.eqb (role_name r) BROKER_ROLE) (default [] (ps_roles s !! userId))
  && match ps_profiles s !! userId with None => true | Some _ => false end.

Definition tripTypeOf (s : profile_state) (userId : uuid) : CargoTripType :=
  match ps_profiles s !! userId with Some d => dp_tripType d | None => TripDomestic end.

(** [tripTypesOf]: a broker without a profile takes every kind of load. *)
Definition tripTypesOf (s : profile_state) (userId : uuid) : list CargoTripType :=
  match ps_profiles s !! userId with
  | None =>
      if isBrokerOnly (active_role_names s userId) then [TripDomestic; TripExport; TripImport]
      else driverTripTypes [None]
  | Some d => driverTripTypes (stored_types (Some d))
  end.

(** [canReceiveAnnouncement] *)
Definition canReceiveAnnouncement (s : profile_state) (userId publisherUserId : uuid)
    (tripType : CargoTripType) : bool :=
  match ps_profiles s !! userId with
  | None => false
  | Some d =>
      let member := bool_decide (publisherUserId ∈ ps_parents s)
                    || bool_decide (publisherUserId ∈ dp_companyUserIds d) in
      member && bool_decide (driverKindForLoad (Some tripType) ∈ driverKindsOf (map Some (dp_tripTypes d)))
  end.

(** [upsert(..., ['userId'])] *)
Definition upsert_profile (userId : uuid) (f : DriverProfile -> DriverProfile) : PM unit :=
  modify (fun s => s <| ps_profiles :=
    <[userId := f (default new_profile (ps_profiles s !! userId))]> (ps_profiles s) |>).

Definition with_types (types : list CargoTripType) (d : DriverProfile) : DriverProfile :=
  d <| dp_tripTypes := types |> <| dp_tripType := hd TripDomestic types |>.

Definition setTripType (userId : uuid) (tripType : CargoTripType) : PM unit :=
  upsert_profile userId (with_types (driverTripTypes [Some tripType])).

Definition setTripTypes (userId : uuid) (tripTypes : list CargoTripType) : PM unit :=
  match tripTypes with
  | [] => throw (badRequest "داخلی یا بین‌المللی بودن را انتخاب کنید.")
  | _ => upsert_profile userId (with_types (driverTripTypes (map Some tripTypes)))
  end.

Definition setCargoVoice (userId : uuid) (enabled : bool) : PM unit :=
  upsert_profile userId (fun d => d <| dp_cargoVoice := enabled |>).

Definition wantsCargoVoice (s : profile_state) (userId : uuid) : bool :=
  match ps_profiles s !! userId with Some d => dp_cargoVoice d | None => false end.

(** The drivers a load is announced to ([CargoAudienceRepository.findDriverIds]):
    [profile.tripTypes && DRIVER_KIND_TRIP_TYPES[driverKindForLoad(tripType)]]. *)
Definition audience_test (d : DriverProfile) (tripType : CargoTripType) : bool :=
  some_b (fun t => bool_decide (t ∈ DRIVER_KIND_TRIP_TYPES (driverKindForLoad (Some tripType)))) (dp_tripTypes d).

(** ** Facts *)

(** Every profile the service writes stores all the types of each of its kinds. *)
Definition types_closed (d : DriverProfile) : Prop :=
  dp_tripTypes d = driverTripTypes (map Some (dp_tripTypes d)) /\
  dp_tripType d = hd TripDomestic (dp_tripTypes d).

Lemma elem_of_driverKindsOf (k : DriverKind) (ts : list CargoTripType) :
  ts <> [] ->
  (k ∈ driverKindsOf (map Some ts) <-> exists t, t ∈ ts /\ driverKindForLoad (Some t) = k).
Proof.
  intros Hne. unfold driverKindsOf. cbv zeta.
  set (p k := some_b _ (map Some ts)).
  assert (Hp : forall k, p k = true <-> exists t, t ∈ ts /\ driverKindForLoad (Some t) = k).
  { intros k'. subst p. simpl. rewrite some_b_true. split.
    - intros (o & Ho & Hk). apply list_elem_of_fmap in Ho as (t & -> & Ht). apply (proj1 (eqb_true _ _)) in Hk. eauto.
    - intros (t & Ht & Hk). exists (Some t). split; [apply list_elem_of_fmap; eauto | by apply eqb_true]. }
  assert (Hsome : p KDomestic = true \/ p KInternational = true).
  { destruct ts as [|t ts]; [done|]. destruct (driverKindForLoad (Some t)) eqn:E; [left | right];
      apply Hp; exists t; split; auto; set_solver. }
  rewrite <- Hp. simpl.
  destruct (p KDomestic) eqn:E1, (p KInternational) eqn:E2; destruct k;
    rewrite ?E1, ?E2; set_solver.
Qed.

Lemma driverTripTypes_kinds (ts : list (option CargoTripType)) :
  driverKindsOf (map Some (driverTripTypes ts)) = driverKindsOf ts.
Proof.
  unfold driverTripTypes.
  assert (H : driverKindsOf ts = [KDomestic] \/ driverKindsOf ts = [KInternational] \/
              driverKindsOf ts = [KDomestic; KInternational]).
  { unfold driverKindsOf. simpl. do 2 (destruct (some_b _ ts)); auto. }
  by destruct H as [H|[H|H]]; rewrite H.
Qed.

Lemma with_types_closed (ts : list (option CargoTripType)) (d : DriverProfile) :
  types_closed (with_types (driverTripTypes ts) d).
Proof.
  split; [|done]. unfold with_types. simpl. unfold driverTripTypes at 2. by rewrite driverTripTypes_kinds.
Qed.

Lemma new_profile_closed : types_closed new_profile.
Proof. by split. Qed.

Definition profiles_ok (s : profile_state) : Prop :=
  forall u d, ps_profiles s !! u = Some d -> types_closed d.

Lemma preserves_upsert u f :
  (forall d, types_closed d -> types_closed (f d)) -> preserves profiles_ok (upsert_profile u f).
Proof.
  intros Hf. apply preserves_modify. intros s Hs v d. simpl. rewrite lookup_insert.
  case_decide; [|by apply Hs]. intros [= <-]. apply Hf. subst v.
  destruct (ps_profiles s !! u) eqn:E; simpl; [by eapply Hs | apply new_profile_closed].
Qed.

(** What the profile operations keep: a driver's stored types are always all the types
    of its kinds, and the first of them. *)
Theorem profile_types_closed (u : uuid) :
  (forall t, preserves profiles_ok (setTripType u t)) /\
  (forall ts, preserves profiles_ok (setTripTypes u ts)) /\
  (forall b, preserves profiles_ok (setCargoVoice u b)).
Proof.
  split; [|split].
  - intros t. apply preserves_upsert. intros d _. apply with_types_closed.
  - intros [|t ts]; simpl; [apply preserves_throw|]. apply preserves_upsert. intros d _.
    apply (with_types_closed (map Some (t :: ts))).
  - intros b. apply preserves_upsert. intros d Hd. exact Hd.
Qed.

(** One array test finds the drivers of a load: for a profile the service wrote, the
    load's kind is one of the driver's kinds exactly when the stored types meet the
    types of that kind, and then the load's own type is among those it takes. *)
Theorem audience_matches_kinds (d : DriverProfile) (t : CargoTripType)
    (Hd : types_closed d) (Hne : dp_tripTypes d <> []) :
  audience_test d t = bool_decide (driverKindForLoad (Some t) ∈ driverKindsOf (map Some (dp_tripTypes d))) /\
  (audience_test d t = true <-> t ∈ dp_tripTypes d).
Proof.
  assert (Hk : forall a b : CargoTripType, a ∈ DRIVER_KIND_TRIP_TYPES (driverKindForLoad (Some b))
               <-> driverKindForLoad (Some a) = driverKindForLoad (Some b)).
  { intros a b. destruct a, b; simpl; set_solver. }
  assert (Ht : audience_test d t = true <-> driverKindForLoad (Some t) ∈ driverKindsOf (map Some (dp_tripTypes d))).
  { rewrite elem_of_driverKindsOf by done. unfold audience_test. rewrite some_b_true.
    setoid_rewrite bool_decide_eq_true. setoid_rewrite Hk. done. }
  split.
  - apply eq_bool_prop_intro. rewrite !Is_true_true, Ht. by rewrite bool_decide_eq_true.
  - rewrite Ht. destruct Hd as [-> _]. rewrite driverTripTypes_kinds. unfold driverTripTypes.
    rewrite (list_elem_of_In (flat_map _ _)), in_flat_map. setoid_rewrite <- list_elem_of_In. split.
    + intros H. exists (driverKindForLoad (Some t)). split; [done|]. by apply Hk.
    + intros (k & Hkin & Hin).
      assert (driverKindForLoad (Some t) = k) as <- by (destruct k, t; simpl in *; try done; set_solver).
      done.
Qed.

Lemma audience_matches_kinds_witness :
  audience_test (with_types (driverTripTypes [Some TripExport]) new_profile) TripImport = true.
Proof.
  apply (audience_matches_kinds _ TripImport (with_types_closed [Some TripExport] new_profile) ltac:(discriminate)).
  apply (bool_decide_eq_true (_ ∈ _)). reflexivity.
Defined.
