(* ===== verification/CargoData.v ===== *)
(** * The tables of loads and trips

    The entities [CargoListing], [CargoRequest] and [TripFare], the state the trip
    services share, and [CargoRequestRepository]: its queries, and [save] with the two
    unique indexes of the table. *)

From S2P Require Import Prelude JsNumber JsString Effects Enums BrokerDriver TripFareRules.
From S2P Require Import BrokerAccess DriverProfile.

(** [CargoListing]: the columns the trip services read. *)
Record CargoListing := mkListing {
  li_id : uuid;
  li_publisherUserId : uuid;
  li_origin : text;
  li_destination : text;
  li_tripType : CargoTripType;
  li_status : CargoListingStatus;
  li_takenAt : option time;
}.

(** [CargoRequest] *)
Record CargoRequest := mkRequest {
  rq_id : uuid;
  rq_listingId : uuid;
  rq_driverUserId : uuid;
  rq_companyUserId : uuid;
  rq_status : CargoRequestStatus;
  rq_decidedAt : option time;
  rq_offerExpiresAt : option time;
  rq_deliveredAt : option time;
  rq_deliveryReportedAt : option time;
  rq_deliveryRemindedAt : option time;
  rq_source : option string;
  rq_forDriver : option BrokerDriver;
  rq_exitBorder : option text;
  rq_brokerPayModel : option BrokerPayModel;
  rq_brokerCommission : option num;
  rq_brokerCommissionPercent : option num;
  rq_brokerMargin : option num;
  rq_createdAt : time;
  rq_updatedAt : time;
}.

#[export] Instance BrokerDriver_eq_dec : EqDecision BrokerDriver.
Proof. solve_decision. Defined.
#[export] Instance CargoRequest_eq_dec : EqDecision CargoRequest.
Proof. solve_decision. Defined.

(** [requests.create({ listingId, driverUserId, companyUserId })]: not yet a row. *)
Definition new_request (id listingId driverUserId companyUserId : uuid) (now : time) : CargoRequest :=
  {| rq_id := id; rq_listingId := listingId; rq_driverUserId := driverUserId;
     rq_companyUserId := companyUserId; rq_status := Pending; rq_decidedAt := None;
     rq_offerExpiresAt := None; rq_deliveredAt := None; rq_deliveryReportedAt := None;
     rq_deliveryRemindedAt := None; rq_source := None; rq_forDriver := None; rq_exitBorder := None;
     rq_brokerPayModel := None; rq_brokerCommission := None; rq_brokerCommissionPercent := None;
     rq_brokerMargin := None; rq_createdAt := now; rq_updatedAt := now |}.

(** [TripFare]: bigint amounts, the weight in hundredths of a ton. *)
Record TripFare := mkTripFare {
  fr_requestId : uuid;
  fr_stage : TripFareStage;
  fr_basis : FareBasis;
  fr_rate : Z;
  fr_weightTons : Z;
  fr_total : Z;
  fr_currency : FareCurrency;
  fr_changeReason : option FareChangeReason;
  fr_note : option text;
  fr_enteredByUserId : uuid;
  fr_updatedAt : time;
}.

#[export] Instance TripFareStage_countable : Countable TripFareStage.
Proof.
  refine (inj_countable' (fun s => match s with StageAgreed => true | StageDelivered => false end)
            (fun b : bool => if b then StageAgreed else StageDelivered) _).
  by intros [].
Defined.

(** ** What leaves the server *)

(** The buttons of a notice ([TripAction] and its argument). *)
Inductive TripAction :=
| ActAccept (requestId : uuid) | ActReject (requestId : uuid) | ActCompanyRequests
| ActDriverRequests | ActDeliver (requestId : uuid) | ActRejectDelivery (requestId : uuid)
| ActCompanyTrips | ActActiveTrip | ActShareLocation
| ActOfferYes (requestId : uuid) | ActOfferNo (requestId : uuid).

(** [pushUrl]: the page a phone notification opens, by its buttons. *)
Definition pushUrl (actions : list TripAction) : string :=
  let has f := some_b f actions in
  if has (fun a => match a with ActAccept _ | ActReject _ | ActCompanyRequests => true | _ => false end)
  then "/account/company/requests"
  else if has (fun a => match a with ActCompanyTrips | ActRejectDelivery _ => true | _ => false end)
  then "/account/company/trips"
  else if has (fun a => match a with ActOfferYes _ | ActOfferNo _ => true | _ => false end)
  then "/account/driver/requests"
  else if has (fun a => match a with ActActiveTrip | ActShareLocation => true | _ => false end)
  then "/account/driver/trip"
  else "/".

(** A notice: the key of its text (the translations live outside the program), the
    load and the party it names, the fare under it, its buttons and the page its
    phone notification opens. *)
Record Notice := mkNotice {
  nt_to : uuid;
  nt_key : string;
  nt_cargo : uuid;
  nt_contact : option uuid;
  nt_forDriver : option BrokerDriver;
  nt_border : option text;
  nt_fare : option TripFareValues;
  nt_actions : list TripAction;
  nt_url : string;
}.

(** What is sent: a notice through a messenger and the phone, a socket event of a
    changed request to one open panel, or a load's new status to its messages. *)
Inductive Sent :=
| SentNotice (n : Notice)
| SentChanged (userId requestId listingId : uuid) (status : CargoRequestStatus) (key : option string)
| SentListing (listingId : uuid) (status : CargoListingStatus).

(** ** State *)

(** The optional services of [CargoTripService]'s constructor, and the environment
    switch of [driverRequestFieldsOn]. *)
Record TripConfig := mkTripConfig {
  cf_brokerAccess : bool;
  cf_borders : bool;
  cf_fares : bool;
  cf_driverFields : bool;
}.

Record trip_state := mkTrip {
  ts_config : TripConfig;
  ts_now : time;
  ts_listings : gmap uuid CargoListing;
  ts_requests : gmap uuid CargoRequest;
  ts_fares : gmap (uuid * TripFareStage) TripFare;
  ts_waiting : gmap uuid (list uuid);
  ts_broker : broker_state;
  ts_profiles : profile_state;
  ts_sent : list Sent;
}.

Abbreviation TM := (M trip_state).

Definition send (x : Sent) : TM unit := modify (fun s => s <| ts_sent := ts_sent s ++ [x] |>).

(** The broker service reads the same clock and the same roles. *)
Definition broker_view (s : trip_state) : broker_state :=
  (ts_broker s) <| bs_now := ts_now s |> <| bs_roles := ps_roles (ts_profiles s) |>.

Definition brokerAccess {A} (m : BM A) : TM A :=
  zoom broker_view (fun b s => s <| ts_broker := b |>) m.

Definition is_broker_card (userId : uuid) : TM bool := gets (fun s => card_broker (ts_profiles s) userId).

(** ** [CargoRequestRepository] *)

(** [UQ_CargoRequest_listing_trip]: a trip that started *)
Definition started (st : CargoRequestStatus) : bool :=
  match st with Accepted | Delivered => true | _ => false end.

(** Another row the two unique indexes refuse [r] for. *)
Definition clashes (r other : CargoRequest) : bool :=
  negb (rq_id other =? rq_id r)%N && (rq_listingId other =? rq_listingId r)%N
  && ((rq_driverUserId other =? rq_driverUserId r)%N
      || started (rq_status r) && started (rq_status other)).

(** A number written to a [bigint] column. *)
Definition bigint_ok (o : option num) : bool :=
  match o with
  | None => true
  | Some x => match num_to_Z x with Some z => fits_int8 z | None => false end
  end.

(** [save]: the row as the object is now; [updatedAt] moves when a column changed. *)
Definition written (s : trip_state) (r : CargoRequest) : CargoRequest :=
  if bool_decide (ts_requests s !! rq_id r = Some r) then r else r <| rq_updatedAt := ts_now s |>.

Definition save (r : CargoRequest) : TM CargoRequest :=
  s ← get;
  ensure (negb (exists_row (clashes r) (ts_requests s))) (QueryFailed "23505") ;;
  ensure (bigint_ok (rq_brokerCommission r) && bigint_ok (rq_brokerMargin r)) (QueryFailed "22P02") ;;
  modify (fun s => s <| ts_requests := <[rq_id r := written s r]> (ts_requests s) |>) ;;
  mret (written s r).

Definition findById (id : uuid) : TM (option CargoRequest) := gets (fun s => ts_requests s !! id).

Definition find_by_listing_and_driver (s : trip_state) (listingId driverUserId : uuid) : option CargoRequest :=
  find_row (fun r => (rq_listingId r =? listingId)%N && (rq_driverUserId r =? driverUserId)%N) (ts_requests s).

Definition findByListingAndDriver (listingId driverUserId : uuid) : TM (option CargoRequest) :=
  gets (fun s => find_by_listing_and_driver s listingId driverUserId).

(** An offer still within its time *)
Definition offer_open (now : time) (r : CargoRequest) : bool :=
  eqb (rq_status r) Offered && match rq_offerExpiresAt r with Some e => now <=? e | None => false end.

Definition active_offer (s : trip_state) (listingId : uuid) : option CargoRequest :=
  find_row (fun r => (rq_listingId r =? listingId)%N && offer_open (ts_now s) r) (ts_requests s).

Definition findActiveOffer (listingId : uuid) : TM (option CargoRequest) :=
  gets (fun s => active_offer s listingId).

Definition has_active_trip (s : trip_state) (listingId : uuid) : bool :=
  Nat.ltb 0 (count_rows (fun r => (rq_listingId r =? listingId)%N
    && (eqb (rq_status r) Accepted || offer_open (ts_now s) r)) (ts_requests s)).

Definition has_delivered (s : trip_state) (listingId : uuid) : bool :=
  Nat.ltb 0 (count_rows (fun r => (rq_listingId r =? listingId)%N && eqb (rq_status r) Delivered) (ts_requests s)).

Definition countPendingForCompany (companyUserId : uuid) : TM nat :=
  gets (fun s => count_rows (fun r => (rq_companyUserId r =? companyUserId)%N && eqb (rq_status r) Pending) (ts_requests s)).

Definition countTripsStartedBefore (companyUserId : uuid) (before : time) : TM nat :=
  gets (fun s => count_rows (fun r => (rq_companyUserId r =? companyUserId)%N && eqb (rq_status r) Accepted
    && (default (rq_updatedAt r) (rq_decidedAt r) <? before)) (ts_requests s)).

Definition due_reminder (before : time) (r : CargoRequest) : bool :=
  eqb (rq_status r) Accepted
  && (match rq_deliveryRemindedAt r with
      | Some t => t
      | None => default (rq_updatedAt r) (rq_decidedAt r)
      end <? before).

Definition findTripsDueDeliveryReminder (before : time) : TM (list CargoRequest) :=
  gets (fun s => find_rows (due_reminder before) (ts_requests s)).

Definition offer_expired (now : time) (r : CargoRequest) : bool :=
  eqb (rq_status r) Offered && match rq_offerExpiresAt r with Some e => e <? now | None => false end.

Definition findExpiredOffers (now : time) : TM (list CargoRequest) :=
  gets (fun s => take 100 (find_rows (offer_expired now) (ts_requests s))).

Definition other_pending (listingId exceptId : uuid) (r : CargoRequest) : bool :=
  (rq_listingId r =? listingId)%N && eqb (rq_status r) Pending && negb (rq_id r =? exceptId)%N.

Definition findOtherPending (listingId exceptId : uuid) : TM (list CargoRequest) :=
  gets (fun s => find_rows (other_pending listingId exceptId) (ts_requests s)).

Definition taken_over (listingId exceptId : uuid) (since : time) (r : CargoRequest) : bool :=
  (rq_listingId r =? listingId)%N && eqb (rq_status r) Rejected && negb (rq_id r =? exceptId)%N
  && match rq_decidedAt r with Some d => since <=? d | None => false end.

Definition findTakenOver (listingId exceptId : uuid) (since : time) : TM (list CargoRequest) :=
  gets (fun s => find_rows (taken_over listingId exceptId since) (ts_requests s)).

(** ** [CargoListingService] *)

Definition findListing (listingId : uuid) : TM (option CargoListing) := gets (fun s => ts_listings s !! listingId).

(** [changeStatus]: only a real change is written. *)
Definition with_status (st : CargoListingStatus) (now : time) (l : CargoListing) : CargoListing :=
  l <| li_status := st |> <| li_takenAt := if eqb st ListingTaken then Some now else None |>.

(** [setStatus], with [changeStatus] and [propagateStatus] *)
Definition setStatus (userId listingId : uuid) (status : CargoListingStatus) : TM unit :=
  s ← get;
  listing ← some_or (l ← ts_listings s !! listingId;
                     if (li_publisherUserId l =? userId)%N then Some l else None)
                    (notFound "Cargo listing not found.");
  ensure (negb (eqb status ListingOpen && has_active_trip s listingId)) (conflict "activeTrip") ;;
  ensure (negb (eqb status ListingOpen && has_delivered s listingId)) (conflict "delivered") ;;
  if eqb (li_status listing) status then mret tt
  else
    modify (fun s => s <| ts_listings := alter (with_status status (ts_now s)) listingId (ts_listings s) |>) ;;
    send (SentListing listingId status).
