(* ===== verification/TripFareService.v ===== *)
(** * The fare of a trip at its two stages

    [src/services/notification/tripFare.service.ts]: AGREED when the company closes
    the deal, fixed once the trip starts; DELIVERED when it confirms the delivery,
    with a reason whenever the money changed. *)

From S2P Require Import Prelude JsNumber JsString Effects Enums TripFareRules BrokerAccess.
From S2P Require Import CargoData.

(** [TripFareView]: the stored values as numbers again. *)
Record TripFareView := mkFareView {
  fv_stage : TripFareStage;
  fv_values : TripFareValues;
  fv_enteredAt : time;
}.

Definition view (row : TripFare) : TripFareView := {|
  fv_stage := fr_stage row;
  fv_values := {|
    tf_basis := fr_basis row;
    tf_rate := num_of_Z (fr_rate row);
    tf_weightTons := num_of_hundredths (fr_weightTons row);
    tf_currency := fr_currency row;
    tf_total := num_of_Z (fr_total row);
    tf_changeReason := fr_changeReason row;
    tf_note := fr_note row;
  |};
  fv_enteredAt := fr_updatedAt row;
|}.

Record TripFareStages := mkStages { agreed : option TripFareView; delivered : option TripFareView }.

(** [TripFareService.read]: the values checked, or a 400 with the reason. *)
Definition read_fare (input : option TripFareInput) : TM TripFareValues :=
  match readTripFare input with
  | inl e => throw (BadRequest e)
  | inr f => mret f
  end.

Definition stages_of (s : trip_state) (requestId : uuid) : TripFareStages := {|
  agreed := view <$> ts_fares s !! (requestId, StageAgreed);
  delivered := view <$> ts_fares s !! (requestId, StageDelivered);
|}.

Definition stages (requestId : uuid) : TM TripFareStages := gets (fun s => stages_of s requestId).

(** A [numeric(8, 2)] column *)
Definition fits_weight (h : Z) : bool := Z.abs h <? 10 ^ 8.

(** [upsert]: one row per stage, written over; the columns refuse what is not a whole
    amount or does not fit. *)
Definition fare_row (requestId : uuid) (stage : TripFareStage) (values : TripFareValues)
    (userId : uuid) (now : time) : outcome TripFare :=
  match num_to_Z (tf_rate values), num_to_Z (tf_total values), to_hundredths (tf_weightTons values) with
  | Some rate, Some total, Some weight =>
      if fits_int8 rate && fits_int8 total && fits_weight weight then
        Ok (mkTripFare requestId stage (tf_basis values) rate weight total (tf_currency values)
              (tf_changeReason values) (tf_note values) userId now)
      else Err OUT_OF_RANGE
  | _, _, _ => Err (QueryFailed "22P02")
  end.

Definition upsert (requestId : uuid) (stage : TripFareStage) (values : TripFareValues)
    (userId : uuid) : TM TripFareView :=
  s ← get;
  row ← of_outcome (fare_row requestId stage values userId (ts_now s));
  modify (fun s => s <| ts_fares := <[(requestId, stage) := row]> (ts_fares s) |>) ;;
  mret (view row).

Definition with_reason (reason : option FareChangeReason) (values : TripFareValues) : TripFareValues :=
  values <| tf_changeReason := reason |>.

(** [recordAgreed]: 409 once the trip has started with an agreed row. *)
Definition recordAgreed (request : CargoRequest) (values : TripFareValues) (userId : uuid) : TM TripFareView :=
  s ← get;
  ensure (negb (started (rq_status request)
                && match ts_fares s !! (rq_id request, StageAgreed) with Some _ => true | None => false end))
    (conflict "fareLocked") ;;
  upsert (rq_id request) StageAgreed (with_reason None values) userId.

(** [recordDelivered] *)
Definition fare_changed_from (s : trip_state) (requestId : uuid) (values : TripFareValues) : bool :=
  match agreed (stages_of s requestId) with
  | Some v => fareChanged (fv_values v) values
  | None => false
  end.

Definition REASON_REQUIRED : exn :=
  badRequest "کرایه یا وزن با مقدار توافقی فرق دارد؛ دلیل تغییر را انتخاب کنید.".

Definition recordDelivered (request : CargoRequest) (values : TripFareValues) (userId : uuid) : TM TripFareView :=
  s ← get;
  let changed := fare_changed_from s (rq_id request) values in
  ensure (negb (changed && match tf_changeReason values with None => true | Some _ => false end))
    REASON_REQUIRED ;;
  upsert (rq_id request) StageDelivered
    (with_reason (if changed then tf_changeReason values else None) values) userId.

(** [lastPayModel]: the pay model of the company's latest decided broker request.
    [ORDER BY "decidedAt" DESC] puts a null date first. *)
Definition pay_model_row (companyUserId : uuid) (r : CargoRequest) : bool :=
  (rq_companyUserId r =? companyUserId)%N && match rq_brokerPayModel r with Some _ => true | None => false end.

Definition decided_later (a b : CargoRequest) : bool :=
  match rq_decidedAt a, rq_decidedAt b with
  | None, _ => true
  | Some _, None => false
  | Some x, Some y => y <=? x
  end.

Fixpoint latest_decided (rs : list CargoRequest) : option CargoRequest :=
  match rs with
  | [] => None
  | r :: rs =>
      match latest_decided rs with
      | None => Some r
      | Some q => if decided_later r q then Some r else Some q
      end
  end.

Definition last_pay_model (s : trip_state) (companyUserId : uuid) : BrokerPayModel :=
  default Commission (latest_decided (find_rows (pay_model_row companyUserId) (ts_requests s)) ≫= rq_brokerPayModel).

Definition lastPayModel (companyUserId : uuid) : TM BrokerPayModel :=
  gets (fun s => last_pay_model s companyUserId).

(** ** Facts *)

Lemma upsert_run r st v u s :
  upsert r st v u s =
    match fare_row r st v u (ts_now s) with
    | Ok row => (Ok (view row), s <| ts_fares := <[(r, st) := row]> (ts_fares s) |>)
    | Err e => (Err e, s)
    end.
Proof.
  unfold upsert. rewrite run_bind. unfold get. cbn beta iota. rewrite run_bind. unfold of_outcome.
  by destruct (fare_row r st v u (ts_now s)).
Qed.

Lemma upsert_other r st v u s k :
  k <> (r, st) -> ts_fares (final (upsert r st v u) s) !! k = ts_fares s !! k.
Proof.
  intros Hk. unfold final. rewrite upsert_run. destruct (fare_row _ _ _ _ _); simpl; [|done].
  by rewrite lookup_insert_ne.
Qed.

Lemma fare_row_values r st v u now row :
  fare_row r st v u now = Ok row ->
  fr_requestId row = r /\ fr_stage row = st /\ fr_changeReason row = tf_changeReason v /\
  fr_currency row = tf_currency v /\ num_to_Z (tf_total v) = Some (fr_total row) /\
  num_to_Z (tf_rate v) = Some (fr_rate row) /\ to_hundredths (tf_weightTons v) = Some (fr_weightTons row).
Proof.
  unfold fare_row. destruct (num_to_Z (tf_rate v)), (num_to_Z (tf_total v)), (to_hundredths (tf_weightTons v));
    try done. break_if; intros [= <-]. done.
Qed.

(** ** Properties *)

(** What was agreed stays as it was agreed: once a trip has started with its agreed
    fare recorded, recording it again is refused and changes nothing, and recording
    the delivery never touches it. *)
Theorem agreed_fixed (s : trip_state) (r : CargoRequest) (row : TripFare) (v : TripFareValues) (u : uuid)
    (Hst : started (rq_status r) = true) (Hrow : ts_fares s !! (rq_id r, StageAgreed) = Some row) :
  recordAgreed r v u s = (Err (conflict "fareLocked"), s) /\
  ts_fares (final (recordDelivered r v u) s) !! (rq_id r, StageAgreed) = Some row.
Proof.
  split.
  - unfold recordAgreed. rewrite run_bind. unfold get. cbn beta iota. by rewrite Hst, Hrow.
  - unfold final, recordDelivered. rewrite run_bind. unfold get. cbn beta iota. cbv zeta.
    destruct (negb _); cbn [ensure]; [|done]. rewrite run_bind, run_ret.
    rewrite <- Hrow. by apply upsert_other.
Qed.

(** «Changed» always means a real change: the delivered fare is stored with a reason
    exactly when its total, currency or weight differs from the agreed one, and a real
    change without a reason is refused with nothing written. *)
Theorem recordDelivered_reason (s : trip_state) (r : CargoRequest) (v : TripFareValues) (u : uuid) :
  (fare_changed_from s (rq_id r) v = true -> tf_changeReason v = None ->
     recordDelivered r v u s = (Err REASON_REQUIRED, s)) /\
  (forall w s1, recordDelivered r v u s = (Ok w, s1) ->
     exists row, ts_fares s1 !! (rq_id r, StageDelivered) = Some row /\ w = view row /\
       num_to_Z (tf_total v) = Some (fr_total row) /\
       (is_Some (fr_changeReason row) <-> fare_changed_from s (rq_id r) v = true)).
Proof.
  unfold recordDelivered. split.
  - intros Hc Hn. rewrite run_bind. unfold get. cbn beta iota. cbv zeta. by rewrite Hc, Hn.
  - intros w s1 H. rewrite run_bind in H. unfold get in H. cbn beta iota in H. cbv zeta in H.
    apply bind_Ok_inv in H as (a & s2 & H1 & H). apply ensure_Ok_inv in H1 as [Hg ->].
    rewrite upsert_run in H. destruct (fare_row _ _ _ _ _) as [row|e] eqn:E; [|done].
    injection H as <- <-. exists row. simpl. rewrite lookup_insert_eq.
    destruct (fare_row_values _ _ _ _ _ _ E) as (_ & _ & Hr & _ & Ht & _).
    split; [done|]. split; [done|]. split; [exact Ht|].
    rewrite Hr. unfold with_reason. simpl.
    destruct (fare_changed_from s (rq_id r) v); simpl in *.
    + destruct (tf_changeReason v); [|done]. split; [done | eauto].
    + split; [by intros [? ?] | done].
Qed.
