(* ===== verification/CargoTrip.v ===== *)
(** * Trips

    [src/services/notification/cargoTrip.service.ts]: a driver's or broker's request
    for a load, the company's answer, the hand-over of a load to one driver, the
    delivery in two steps and a trip called off.  One definition per handler, in the
    order of its reads, guards, writes and notices. *)

From S2P Require Import Prelude JsNumber JsString Effects Enums BrokerDriver TripFareRules.
From S2P Require Import BrokerAccess DriverProfile CargoData TripFareService.

Definition OFFER_TTL_MINUTES : Z := 30.

(** [LoadBorderChoice].  Which borders a load's routes cross is worked out from map
    services and a language model, which the program only calls: [choices] is a
    parameter of the requests. *)
Record LoadBorderChoice := mkChoice { bc_needed : bool; bc_label : text; bc_options : list text }.

Class BorderService := { choices : CargoListing -> outcome LoadBorderChoice }.

(** [EXIT_BORDERS] (src/services/border/exitBorders.ts), by name *)
Definition EXIT_BORDERS : list text :=
  map js ["بازرگان"; "رازی"; "سرو"; "نوردوز"; "جلفا"; "پلدشت"; "آستارا"; "بیله‌سوار"; "تمرچین";
          "باشماق"; "پرویزخان"; "خسروی"; "مهران"; "چذابه"; "شلمچه"; "اینچه‌برون"; "باجگیران";
          "لطف‌آباد"; "سرخس"; "دوغارون"; "میلک"; "میرجاوه"; "پیشین"; "ریمدان"]%string.

(** [compact]: spaces, half-spaces and dashes out, Arabic ya and kaf as Persian *)
Definition compact (t : text) : text :=
  map (fun c => if (c =? 1610)%N then 1740%N else if (c =? 1603)%N then 1705%N else c)
    (remove_chars (fun c => is_space c || (c =? 8204)%N || (c =? 45)%N) t).

(** [LoadBorderService.named] *)
Definition named (input : option text) : option text :=
  match input with
  | None => None
  | Some t =>
      if is_empty (trim t) then None
      else List.find (fun b => bool_decide (compact b = compact t)) EXIT_BORDERS
  end.

(** ** Helpers *)

Definition REQUEST_NOT_FOUND : exn := notFound "Cargo request not found.".
Definition LISTING_NOT_FOUND : exn := notFound "Cargo listing not found.".

(** [owned] *)
Definition owned (requestId : uuid) (allowed : CargoRequest -> bool) : TM CargoRequest :=
  request ← findById requestId;
  match request with
  | Some r => if allowed r then mret r else throw REQUEST_NOT_FOUND
  | None => throw REQUEST_NOT_FOUND
  end.

(** The listing loaded with the request (its foreign key is never null). *)
Definition listing_of (r : CargoRequest) : TM CargoListing :=
  s ← get;
  some_or (ts_listings s !! rq_listingId r) (OtherError (js "Cannot read properties of null (reading 'status')")).

Definition notify_full (to : uuid) (key : string) (r : CargoRequest) (contact : option uuid)
    (forDriver : option BrokerDriver) (border : option text) (fare : option TripFareValues)
    (actions : list TripAction) (url : option string) : TM unit :=
  send (SentNotice {|
    nt_to := to; nt_key := key; nt_cargo := rq_listingId r; nt_contact := contact;
    nt_forDriver := forDriver; nt_border := border; nt_fare := fare; nt_actions := actions;
    nt_url := default (pushUrl actions) url |}).

Definition notify (to : uuid) (key : string) (r : CargoRequest) (contact : option uuid)
    (fare : option TripFareValues) (actions : list TripAction) (url : option string) : TM unit :=
  notify_full to key r contact None None fare actions url.

(** [changed]: the open panels of the company and of the driver *)
Definition changed (r : CargoRequest) (company_key driver_key : option string) : TM unit :=
  send (SentChanged (rq_companyUserId r) (rq_id r) (rq_listingId r) (rq_status r) company_key) ;;
  send (SentChanged (rq_driverUserId r) (rq_id r) (rq_listingId r) (rq_status r) driver_key).

Definition config : TM TripConfig := gets ts_config.
Definition now_ : TM time := gets ts_now.

(** [saveTrip]: the second trip of a load is answered as the load being taken. *)
Definition saveTrip (r : CargoRequest) : TM CargoRequest :=
  try_catch (save r)
    (fun e => match e with
              | QueryFailed "23505" => throw (conflict "taken")
              | e => throw e
              end).

(** ** Driver and broker *)

Section Requests.
  Context `{JsCase} `{BorderService}.

(** [pickedBorder] *)
Definition pickedBorder (listing : CargoListing) (given : option text) : TM (option text) :=
  cf ← config;
  if negb (cf_borders cf) then mret None
  else
    choice ← of_outcome (choices listing);
    if negb (bc_needed choice) then mret None
    else
      match named given with
      | Some name => mret (Some name)
      | None => throw (BadRequest (bc_label choice ++ js " را انتخاب کنید: "
                                   ++ join (js "، ") (bc_options choice) ++ js "."))
      end.

(** What a broker must give with its request, and what a driver must have filled. *)
Definition request_details (broker : bool) (driverUserId : uuid)
    (forDriver : option (BrokerDriverField -> option text)) : TM (option BrokerDriver) :=
  if broker then
    match readBrokerDriver (default (fun _ => None) forDriver) with
    | inl e => throw (BadRequest e)
    | inr d => mret (Some d)
    end
  else
    cf ← config;
    s ← get;
    let missing := if cf_driverFields cf then missing_fields (ps_profiles (ts_profiles s) !! driverUserId) else [] in
    ensure (bool_decide (missing = []))
      (BadRequest (js "برای درخواست بار اول در پروفایل راننده این‌ها را پر کنید: " ++ join (js "، ") missing ++ js ".")) ;;
    mret None.

(** The guards of [request] on the load and on an earlier request of the same driver. *)
Definition request_guards (driverUserId listingId : uuid) (exitBorder : option text)
    : TM (CargoListing * option text * option CargoRequest) :=
  found ← findListing listingId;
  listing ← some_or found LISTING_NOT_FOUND;
  ensure (eqb (li_status listing) ListingOpen) (conflict "taken") ;;
  ensure (negb (li_publisherUserId listing =? driverUserId)%N) (conflict "own") ;;
  cf ← config;
  now ← now_;
  visible ← (if cf_brokerAccess cf then brokerAccess (canSee driverUserId (li_publisherUserId listing) now)
             else mret true);
  ensure visible (conflict "notPurchased") ;;
  border ← pickedBorder listing exitBorder;
  existing ← findByListingAndDriver listingId driverUserId;
  ensure (negb match existing with
               | Some r => bool_decide (rq_status r ∈ [Pending; Offered; Accepted])
               | None => false end) (conflict "already") ;;
  offer ← findActiveOffer listingId;
  ensure (match offer with None => true | Some _ => false end) (conflict "reserved") ;;
  ensure (negb match existing with Some r => eqb (rq_status r) Rejected | None => false end)
    (conflict "rejected") ;;
  ensure (negb match existing with Some r => eqb (rq_status r) TripCancelled | None => false end)
    (conflict "tripCancelled") ;;
  mret (listing, border, existing).

(** The row [request] saves: the driver's earlier one opened again, or a new one. *)
Definition asked (r : CargoRequest) (source : option string) (forDriver : option BrokerDriver)
    (border : option text) : CargoRequest :=
  r <| rq_status := Pending |> <| rq_decidedAt := None |> <| rq_source := source |>
    <| rq_forDriver := forDriver |> <| rq_exitBorder := border |>.

(** A broker's request is charged first and given back when it is not saved. *)
Definition save_charged (driverUserId : uuid) (r : CargoRequest) : TM CargoRequest :=
  cf ← config;
  charged ← (if cf_brokerAccess cf then brokerAccess (useRequest driverUserId) else mret false);
  try_catch (save r)
    (fun e => when charged (brokerAccess (refundRequest driverUserId)) ;; throw e).

Definition request (driverUserId listingId : uuid) (source : option string)
    (forDriver : option (BrokerDriverField -> option text)) (exitBorder : option text) : TM CargoRequest :=
  broker ← is_broker_card driverUserId;
  driverFor ← request_details broker driverUserId forDriver;
  guards ← request_guards driverUserId listingId exitBorder;
  let '(listing, border, existing) := guards in
  s ← get;
  let row := match existing with
             | Some r => r
             | None => new_request (fresh_id (ts_requests s)) listingId driverUserId
                         (li_publisherUserId listing) (ts_now s)
             end in
  full ← save_charged driverUserId (asked row source driverFor border);
  let key := if (broker : bool) then "notify.newBrokerRequest" else "notify.newRequest" in
  changed full (Some key) None ;;
  notify_full (li_publisherUserId listing) key full (Some driverUserId) driverFor border None
    [ActAccept (rq_id full); ActReject (rq_id full); ActCompanyRequests] None ;;
  mret full.

End Requests.

Definition cancel (driverUserId requestId : uuid) : TM CargoRequest :=
  request ← owned requestId (fun r => rq_driverUserId r =? driverUserId)%N;
  ensure (eqb (rq_status request) Pending) (conflict "notPending") ;;
  full ← save (request <| rq_status := Cancelled |>);
  broker ← is_broker_card driverUserId;
  let key := if broker : bool then "notify.brokerRequestCancelled" else "notify.requestCancelled" in
  changed full (Some key) None ;;
  notify (rq_companyUserId full) key full (Some driverUserId) None [ActCompanyRequests] None ;;
  mret full.

(** [activeRequestFor] *)
Definition activeRequestFor (userId listingId : uuid) : TM (option CargoRequest) :=
  request ← findByListingAndDriver listingId userId;
  mret match request with
       | Some r => if bool_decide (rq_status r ∈ [Pending; Offered; Accepted]) then Some r else None
       | None => None
       end.

(** ** Company: the answer *)

(** [forCompany] *)
Definition forCompany (companyUserId requestId : uuid) : TM (option CargoRequest) :=
  request ← findById requestId;
  mret match request with
       | Some r => if (rq_companyUserId r =? companyUserId)%N then Some r else None
       | None => None
       end.

(** [overdueTrips] *)
Definition DAY_MS : Z := 24 * 60 * 60 * 1000.

Definition overdueTrips (companyUserId : uuid) (days : Z) : TM (nat * Z) :=
  now ← now_;
  count ← countTripsStartedBefore companyUserId (now - days * DAY_MS);
  mret (count, days).

(** [completeAssignment]: the load is taken and its other pending requests rejected *)
Definition turned_down (now : time) (r : CargoRequest) : CargoRequest :=
  r <| rq_status := Rejected |> <| rq_decidedAt := Some now |>.

Definition turn_down (other : CargoRequest) : TM unit :=
  now ← now_;
  saved ← save (turned_down now other);
  changed saved None (Some "notify.rejectedTaken").

Definition completeAssignment (r : CargoRequest) : TM unit :=
  setStatus (rq_companyUserId r) (rq_listingId r) ListingTaken ;;
  others ← findOtherPending (rq_listingId r) (rq_id r);
  for_each others turn_down.

(** What the company sends with its «accept». *)
Record Deal := mkDeal { deal_fare : option TripFareInput; deal_payModel : option string }.

(** The guards of [decide]: the request and, for an accept, that the load is free. *)
Definition decide_guards (companyUserId requestId : uuid) (accept : bool) : TM CargoRequest :=
  request ← owned requestId (fun r => rq_companyUserId r =? companyUserId)%N;
  ensure (eqb (rq_status request) Pending) (conflict "notPending") ;;
  if accept then
    listing ← listing_of request;
    ensure (eqb (li_status listing) ListingOpen) (conflict "taken") ;;
    offer ← findActiveOffer (rq_listingId request);
    ensure (match offer with None => true | Some _ => false end) (conflict "reserved") ;;
    mret request
  else mret request.

(** How the broker of an accepted request is paid *)
Definition picked_model (deal : option Deal) : option BrokerPayModel :=
  match deal with
  | Some d => match deal_payModel d with Some m => BrokerPayModel_of_string m | None => None end
  | None => None
  end.

Definition accept_model (companyUserId : uuid) (deal : option Deal) (r : CargoRequest) : TM CargoRequest :=
  match rq_forDriver r with
  | None => mret r
  | Some _ =>
      match picked_model deal with
      | Some m => mret (r <| rq_brokerPayModel := Some m |>)
      | None =>
          cf ← config;
          m ← (if cf_fares cf then lastPayModel companyUserId else mret Commission);
          mret (r <| rq_brokerPayModel := Some m |>)
      end
  end.

(** What [decide] writes: the agreed fare, then the request as decided. *)
Definition decide_commit (companyUserId : uuid) (accept : bool) (fare : option TripFareValues)
    (deal : option Deal) (r : CargoRequest) : TM CargoRequest :=
  match fare with
  | Some f => recordAgreed r f companyUserId ≫= fun _ => mret tt
  | None => mret tt
  end ;;
  r ← (if accept then accept_model companyUserId deal r else mret r);
  now ← now_;
  saveTrip (r <| rq_status := if accept then Accepted else Rejected |> <| rq_decidedAt := Some now |>).

(** The notices of [decide] and the rest of the load's requests. *)
Definition decide_announce (companyUserId : uuid) (accept : bool) (fare : option TripFareValues)
    (r : CargoRequest) : TM CargoRequest :=
  card ← is_broker_card (rq_driverUserId r);
  let broker := accept && card in
  let key := if accept then if broker then "notify.acceptedBroker" else "notify.accepted" else "notify.rejected" in
  if broker then
    notify (rq_driverUserId r) key r (Some companyUserId) fare [ActDeliver (rq_id r); ActDriverRequests] None ;;
    completeAssignment r ;;
    changed r None (Some key) ;; mret r
  else if accept then
    notify (rq_driverUserId r) key r (Some companyUserId) fare [ActActiveTrip; ActShareLocation] None ;;
    completeAssignment r ;;
    changed r None (Some key) ;; mret r
  else
    notify (rq_driverUserId r) key r None None [] None ;;
    changed r None (Some key) ;; mret r.

(** The fare an accept must bring, read before anything changes. *)
Definition read_deal (accept : bool) (deal : option Deal) : TM (option TripFareValues) :=
  cf ← config;
  if accept && cf_fares cf then f ← read_fare (deal ≫= deal_fare); mret (Some f) else mret None.

Definition decide (companyUserId requestId : uuid) (accept : bool) (deal : option Deal) : TM CargoRequest :=
  fare ← read_deal accept deal;
  request ← decide_guards companyUserId requestId accept;
  request ← decide_commit companyUserId accept fare deal request;
  decide_announce companyUserId accept fare request.

(** ** Company: a load handed to a driver *)

Definition own_open_listing (companyUserId listingId : uuid) : TM CargoListing :=
  found ← findListing listingId;
  listing ← some_or (l ← found; if (li_publisherUserId l =? companyUserId)%N then Some l else None)
                    LISTING_NOT_FOUND;
  ensure (eqb (li_status listing) ListingOpen) (conflict "taken") ;;
  mret listing.

Definition offered (now : time) (r : CargoRequest) : CargoRequest :=
  r <| rq_status := Offered |> <| rq_decidedAt := Some now |>
    <| rq_offerExpiresAt := Some (now + OFFER_TTL_MINUTES * 60000) |>.

Definition offer (companyUserId listingId driverUserId : uuid) (fareInput : option TripFareInput) : TM CargoRequest :=
  cf ← config;
  fare ← (match fareInput with
          | Some i => if cf_fares cf then f ← read_fare (Some i); mret (Some f) else mret None
          | None => mret None
          end);
  listing ← own_open_listing companyUserId listingId;
  ensure (negb (driverUserId =? companyUserId)%N) (conflict "own") ;;
  s ← get;
  ensure (is_driver (ts_profiles s) driverUserId) (conflict "notDriver") ;;
  active ← findActiveOffer (li_id listing);
  ensure (match active with None => true | Some _ => false end) (conflict "reserved") ;;
  existing ← findByListingAndDriver (li_id listing) driverUserId;
  now ← now_;
  let row := match existing with
             | Some r => r
             | None => new_request (fresh_id (ts_requests s)) (li_id listing) driverUserId companyUserId now
             end in
  full ← save (offered now row);
  match fare with
  | Some f => recordAgreed full f companyUserId ≫= fun _ => mret tt
  | None => mret tt
  end ;;
  notify driverUserId "notify.offer" full (Some companyUserId) fare
    [ActOfferYes (rq_id full); ActOfferNo (rq_id full)] None ;;
  changed full None (Some "notify.offer") ;;
  mret full.

(** [expire] *)
Definition expired (r : CargoRequest) : CargoRequest :=
  r <| rq_status := Expired |> <| rq_offerExpiresAt := None |>.

Definition expire (r : CargoRequest) : TM unit :=
  full ← save (expired r);
  notify (rq_companyUserId full) "notify.offerExpiredCompany" full (Some (rq_driverUserId full)) None [] None ;;
  notify (rq_driverUserId full) "notify.offerExpiredDriver" full None None [] None ;;
  changed full None (Some "notify.offerExpiredDriver").

(** [expireOffers] *)
Definition expireOffers (now : time) : TM nat :=
  rows ← findExpiredOffers now;
  for_each rows expire ;;
  mret (length rows).

Definition offer_answered (accept : bool) (now : time) (r : CargoRequest) : CargoRequest :=
  r <| rq_status := if accept then Accepted else Declined |> <| rq_decidedAt := Some now |>
    <| rq_offerExpiresAt := None |>.

Definition offer_over (now : time) (r : CargoRequest) : bool :=
  match rq_offerExpiresAt r with Some e => e <? now | None => false end.

Definition respondOffer (driverUserId requestId : uuid) (accept : bool) : TM CargoRequest :=
  request ← owned requestId (fun r => rq_driverUserId r =? driverUserId)%N;
  ensure (eqb (rq_status request) Offered) (conflict "notOffered") ;;
  now ← now_;
  if offer_over now request then
    expire request ;; throw (conflict "offerExpired")
  else
    r ← saveTrip (offer_answered accept now request);
    (if accept then
       completeAssignment r ;;
       notify (rq_companyUserId r) "notify.offerAccepted" r (Some driverUserId) None [ActCompanyTrips] None
     else
       notify (rq_companyUserId r) "notify.offerDeclined" r (Some driverUserId) None [] None) ;;
    changed r None None ;;
    mret r.

(** ** Delivery *)

(** [settleBroker]: the broker's share, fixed at delivery *)
Definition settled (r : CargoRequest) (fare : option TripFareValues) (percent : num) : CargoRequest :=
  let model := default Commission (rq_brokerPayModel r) in
  let r := r <| rq_brokerPayModel := Some model |>
             <| rq_brokerCommissionPercent := if eqb model Commission then Some percent else None |> in
  let driverFare := rq_forDriver r ≫= bd_fare in
  match fare with
  | None =>
      r <| rq_brokerCommission := if eqb model Commission then brokerCommission driverFare percent else None |>
        <| rq_brokerMargin := None |>
  | Some f =>
      let earning := brokerEarning model (tf_total f) (tf_currency f) (fareAmount driverFare) percent in
      r <| rq_brokerCommission := commission earning |> <| rq_brokerMargin := margin earning |>
  end.

Definition settleBroker (r : CargoRequest) (fare : option TripFareValues) : TM CargoRequest :=
  policy ← brokerAccess getPolicy;
  mret (settled r fare (commissionPercent policy)).

(** The driver's (or broker's) report: the trip stays active until the company confirms. *)
Definition report_delivery (userId : uuid) (r : CargoRequest) : TM CargoRequest :=
  match rq_deliveryReportedAt r with
  | Some _ => mret r
  | None =>
      now ← now_;
      full ← save (r <| rq_deliveryReportedAt := Some now |>);
      broker ← is_broker_card userId;
      let key := if (broker : bool) then "notify.deliveryReportedBroker" else "notify.deliveryReported" in
      changed full (Some key) None ;;
      notify (rq_companyUserId full) key full (Some userId) None
        [ActDeliver (rq_id full); ActRejectDelivery (rq_id full); ActCompanyTrips] None ;;
      mret full
  end.

Definition broker_page (broker : bool) : string :=
  if broker then "/account/broker?tab=requests" else "/account/driver/requests".

(** The company's confirmation, with the final fare. *)
Definition confirm_delivery (userId : uuid) (fareInput : option TripFareInput) (r : CargoRequest) : TM CargoRequest :=
  cf ← config;
  fare ← (if cf_fares cf then f ← read_fare fareInput; mret (Some f) else mret None);
  match fare with
  | Some f => recordDelivered r f userId ≫= fun _ => mret tt
  | None => mret tt
  end ;;
  let reported := match rq_deliveryReportedAt r with Some _ => true | None => false end in
  now ← now_;
  let r := r <| rq_status := Delivered |> <| rq_deliveredAt := Some now |> in
  r ← (if cf_brokerAccess cf && match rq_forDriver r with Some _ => true | None => false end
       then settleBroker r fare else mret r);
  full ← save r;
  broker ← is_broker_card (rq_driverUserId full);
  let key := if reported then "notify.deliveryConfirmed" else "notify.deliveredByCompany" in
  notify (rq_driverUserId full) key full (Some userId) fare [] (Some (broker_page broker)) ;;
  changed full None (Some key) ;;
  mret full.

Definition deliver (userId requestId : uuid) (fareInput : option TripFareInput) : TM CargoRequest :=
  r ← owned requestId (fun r => (rq_driverUserId r =? userId) || (rq_companyUserId r =? userId))%N;
  ensure (eqb (rq_status r) Accepted) (conflict "notActive") ;;
  if (userId =? rq_driverUserId r)%N then report_delivery userId r
  else confirm_delivery userId fareInput r.

(** [cancelTrip] *)
Definition trip_off (now : time) (r : CargoRequest) : CargoRequest :=
  r <| rq_status := TripCancelled |> <| rq_deliveryReportedAt := None |> <| rq_decidedAt := Some now |>.

Definition waiting_again (r : CargoRequest) : CargoRequest :=
  r <| rq_status := Pending |> <| rq_decidedAt := None |>.

Definition wait_again (other : CargoRequest) : TM unit :=
  saved ← save (waiting_again other);
  changed saved None (Some "notify.requestWaitingAgain").

Definition cancelTrip (companyUserId requestId : uuid) : TM CargoRequest :=
  r ← owned requestId (fun r => rq_companyUserId r =? companyUserId)%N;
  ensure (eqb (rq_status r) Accepted) (conflict "notActive") ;;
  let startedAt := rq_decidedAt r in
  now ← now_;
  full ← save (trip_off now r);
  match startedAt with
  | Some since =>
      others ← findTakenOver (rq_listingId full) (rq_id full) since;
      for_each others wait_again
  | None => mret tt
  end ;;
  setStatus companyUserId (rq_listingId full) ListingOpen ;;
  broker ← is_broker_card (rq_driverUserId full);
  notify (rq_driverUserId full) "notify.tripCancelled" full (Some companyUserId) None
    [ActDriverRequests] (Some (broker_page broker)) ;;
  changed full None (Some "notify.tripCancelled") ;;
  mret full.

Definition rejectDeliveryReport (companyUserId requestId : uuid) : TM CargoRequest :=
  r ← owned requestId (fun r => rq_companyUserId r =? companyUserId)%N;
  ensure (eqb (rq_status r) Accepted) (conflict "notActive") ;;
  ensure (match rq_deliveryReportedAt r with Some _ => true | None => false end) (conflict "notReported") ;;
  full ← save (r <| rq_deliveryReportedAt := None |>);
  broker ← is_broker_card (rq_driverUserId full);
  notify (rq_driverUserId full) "notify.deliveryRejected" full (Some companyUserId) None
    [if (broker : bool) then ActDriverRequests else ActActiveTrip]
    (if (broker : bool) then Some "/account/broker?tab=requests" else None) ;;
  changed full None (Some "notify.deliveryRejected") ;;
  mret full.

(** [remindDeliveries] *)
Definition remind (now : time) (r : CargoRequest) : TM unit :=
  full ← save (r <| rq_deliveryRemindedAt := Some now |>);
  let reported := match rq_deliveryReportedAt full with Some _ => true | None => false end in
  let key := if reported then "notify.confirmReminder" else "notify.deliveryReminder" in
  changed full (Some key) None ;;
  notify (rq_companyUserId full) key full (Some (rq_driverUserId full)) None
    [ActDeliver (rq_id full); ActCompanyTrips] None.

Definition remindDeliveries (days : Z) (now : time) : TM nat :=
  due ← findTripsDueDeliveryReminder (now - days * DAY_MS);
  for_each due (remind now) ;;
  mret (length due).

(** [fareForm]'s guards: an answered request is said before the form, not after it. *)
Definition fareForm_guards (companyUserId requestId : uuid) (stage : TripFareStage) : TM CargoRequest :=
  r ← owned requestId (fun r => rq_companyUserId r =? companyUserId)%N;
  cf ← config;
  ensure (cf_fares cf) (conflict "notActive") ;;
  ensure (negb (eqb stage StageAgreed && negb (eqb (rq_status r) Pending))) (conflict "notPending") ;;
  ensure (negb (eqb stage StageDelivered && negb (eqb (rq_status r) Accepted))) (conflict "notActive") ;;
  mret r.

(** [requestLocation]: the request waits for the driver's next location. *)
Definition requestLocation (companyUserId requestId : uuid) : TM CargoRequest :=
  r ← owned requestId (fun r => rq_companyUserId r =? companyUserId)%N;
  ensure (bool_decide (rq_status r ∈ [Pending; Accepted])) (conflict "notActive") ;;
  broker ← is_broker_card (rq_driverUserId r);
  ensure (negb broker) (conflict "broker") ;;
  s ← get;
  let waiting := default [] (ts_waiting s !! rq_driverUserId r) in
  let waiting := if bool_decide (rq_id r ∈ waiting) then waiting else waiting ++ [rq_id r] in
  modify (fun s => s <| ts_waiting := <[rq_driverUserId r := waiting]> (ts_waiting s) |>) ;;
  notify (rq_driverUserId r) "notify.locationRequested" r (Some companyUserId) None [ActShareLocation] None ;;
  mret r.
