(* ===== verification/CargoTripFacts.v ===== *)
(** * Trips: the invariant and how each handler runs

    What holds of the tables between handlers, and the run of each building block,
    shared by the properties of the handlers. *)

From S2P Require Import Prelude JsNumber JsString Effects Enums BrokerDriver TripFareRules.
From S2P Require Import BrokerAccess DriverProfile CargoData TripFareService CargoTrip.

(** ** Running *)

Definition put_request (s : trip_state) (r : CargoRequest) : trip_state :=
  s <| ts_requests := <[rq_id r := written s r]> (ts_requests s) |>.

Definition sent (s : trip_state) (xs : list Sent) : trip_state := s <| ts_sent := ts_sent s ++ xs |>.

Definition can_save (s : trip_state) (r : CargoRequest) : bool :=
  negb (exists_row (clashes r) (ts_requests s))
  && (bigint_ok (rq_brokerCommission r) && bigint_ok (rq_brokerMargin r)).

Lemma save_run r s :
  save r s = if exists_row (clashes r) (ts_requests s) then (Err (QueryFailed "23505"), s)
             else if bigint_ok (rq_brokerCommission r) && bigint_ok (rq_brokerMargin r)
                  then (Ok (written s r), put_request s r)
                  else (Err (QueryFailed "22P02"), s).
Proof.
  unfold save. rewrite run_bind. unfold get. cbn beta iota.
  destruct (exists_row (clashes r) (ts_requests s)); [done|]. rewrite run_bind. cbn [negb ensure].
  rewrite run_ret. destruct (_ && _); done.
Qed.

Lemma save_ok r s : can_save s r = true -> save r s = (Ok (written s r), put_request s r).
Proof.
  intros [H1 H2]%andb_split. apply negb_true_iff in H1. rewrite save_run, H1, H2. done.
Qed.

Lemma save_Ok_inv r s r1 s1 :
  save r s = (Ok r1, s1) -> can_save s r = true /\ r1 = written s r /\ s1 = put_request s r.
Proof.
  rewrite save_run. unfold can_save. destruct (exists_row _ _); [done|].
  destruct (_ && _); [|done]. by intros [= <- <-].
Qed.

Lemma save_Err_inv r s e s1 : save r s = (Err e, s1) -> can_save s r = false /\ s1 = s.
Proof.
  rewrite save_run. unfold can_save. destruct (exists_row _ _); [by intros [= _ <-]|].
  destruct (_ && _); [done|]. by intros [= _ <-].
Qed.

Lemma saveTrip_run r s :
  saveTrip r s = if exists_row (clashes r) (ts_requests s) then (Err (conflict "taken"), s)
                 else if bigint_ok (rq_brokerCommission r) && bigint_ok (rq_brokerMargin r)
                      then (Ok (written s r), put_request s r)
                      else (Err (QueryFailed "22P02"), s).
Proof.
  unfold saveTrip, try_catch. rewrite save_run.
  destruct (exists_row _ _); [done|]. by destruct (_ && _).
Qed.

Lemma saveTrip_Ok_inv r s r1 s1 :
  saveTrip r s = (Ok r1, s1) -> can_save s r = true /\ r1 = written s r /\ s1 = put_request s r.
Proof.
  rewrite saveTrip_run. unfold can_save. destruct (exists_row _ _); [done|].
  destruct (_ && _); [|done]. by intros [= <- <-].
Qed.

(** The columns of a written row, but its last, are the object's. *)
Lemma written_cases s r : written s r = r \/ written s r = r <| rq_updatedAt := ts_now s |>.
Proof. unfold written. destruct (bool_decide _); auto. Qed.

Ltac written_field := destruct (written_cases _ _) as [-> | ->]; reflexivity.

Lemma written_id s r : rq_id (written s r) = rq_id r.
Proof. destruct (written_cases s r) as [-> | ->]; reflexivity. Qed.
Lemma written_listing s r : rq_listingId (written s r) = rq_listingId r.
Proof. destruct (written_cases s r) as [-> | ->]; reflexivity. Qed.
Lemma written_driver s r : rq_driverUserId (written s r) = rq_driverUserId r.
Proof. destruct (written_cases s r) as [-> | ->]; reflexivity. Qed.
Lemma written_company s r : rq_companyUserId (written s r) = rq_companyUserId r.
Proof. destruct (written_cases s r) as [-> | ->]; reflexivity. Qed.
Lemma written_status s r : rq_status (written s r) = rq_status r.
Proof. destruct (written_cases s r) as [-> | ->]; reflexivity. Qed.
Lemma written_decidedAt s r : rq_decidedAt (written s r) = rq_decidedAt r.
Proof. destruct (written_cases s r) as [-> | ->]; reflexivity. Qed.
Lemma written_commission s r : rq_brokerCommission (written s r) = rq_brokerCommission r.
Proof. destruct (written_cases s r) as [-> | ->]; reflexivity. Qed.
Lemma written_margin s r : rq_brokerMargin (written s r) = rq_brokerMargin r.
Proof. destruct (written_cases s r) as [-> | ->]; reflexivity. Qed.
Lemma written_model s r : rq_brokerPayModel (written s r) = rq_brokerPayModel r.
Proof. destruct (written_cases s r) as [-> | ->]; reflexivity. Qed.
Lemma written_reported s r : rq_deliveryReportedAt (written s r) = rq_deliveryReportedAt r.
Proof. destruct (written_cases s r) as [-> | ->]; reflexivity. Qed.
Lemma written_delivered s r : rq_deliveredAt (written s r) = rq_deliveredAt r.
Proof. destruct (written_cases s r) as [-> | ->]; reflexivity. Qed.
Lemma written_offer s r : rq_offerExpiresAt (written s r) = rq_offerExpiresAt r.
Proof. destruct (written_cases s r) as [-> | ->]; reflexivity. Qed.

#[export] Hint Rewrite written_id written_listing written_driver written_company written_status
  written_decidedAt written_commission written_margin written_model written_reported
  written_delivered written_offer : written.

Lemma send_run x s : send x s = (Ok tt, sent s [x]).
Proof. done. Qed.

Lemma sent_sent s xs ys : sent (sent s xs) ys = sent s (xs ++ ys).
Proof. unfold sent. destruct s. cbn. by rewrite app_assoc. Qed.

Definition changed_events (r : CargoRequest) (k1 k2 : option string) : list Sent :=
  [SentChanged (rq_companyUserId r) (rq_id r) (rq_listingId r) (rq_status r) k1;
   SentChanged (rq_driverUserId r) (rq_id r) (rq_listingId r) (rq_status r) k2].

Lemma changed_run r k1 k2 s : changed r k1 k2 s = (Ok tt, sent s (changed_events r k1 k2)).
Proof. unfold changed. rewrite run_bind, send_run, send_run. by rewrite sent_sent. Qed.

Lemma notify_full_run to k r c d b f a u s :
  exists n, nt_to n = to /\ nt_key n = k /\ nt_cargo n = rq_listingId r /\ nt_fare n = f /\
    notify_full to k r c d b f a u s = (Ok tt, sent s [SentNotice n]).
Proof. eexists. repeat split; reflexivity. Qed.

Lemma notify_run to k r c f a u s :
  exists n, nt_to n = to /\ nt_key n = k /\ nt_cargo n = rq_listingId r /\ nt_fare n = f /\
    notify to k r c f a u s = (Ok tt, sent s [SentNotice n]).
Proof. eexists. repeat split; reflexivity. Qed.

Lemma owned_Ok_inv i f s r s1 :
  owned i f s = (Ok r, s1) -> s1 = s /\ ts_requests s !! i = Some r /\ f r = true.
Proof.
  unfold owned, findById, gets. rewrite run_bind. cbn beta iota.
  destruct (ts_requests s !! i) as [q|]; [|done]. destruct (f q) eqn:E; [|done].
  intros H. rewrite run_ret in H. by inversion H; subst.
Qed.

Lemma owned_run i f s r : ts_requests s !! i = Some r -> f r = true -> owned i f s = (Ok r, s).
Proof.
  intros H1 H2. unfold owned, findById, gets. rewrite run_bind. cbn beta iota. by rewrite H1, H2.
Qed.

(** ** The invariant *)

Record rows_ok (s : trip_state) : Prop := {
  ok_ids : forall i r, ts_requests s !! i = Some r -> rq_id r = i;
  ok_pair : forall i j r q, ts_requests s !! i = Some r -> ts_requests s !! j = Some q ->
    rq_listingId r = rq_listingId q -> rq_driverUserId r = rq_driverUserId q -> i = j;
  ok_one : forall i j r q, ts_requests s !! i = Some r -> ts_requests s !! j = Some q ->
    rq_listingId r = rq_listingId q -> started (rq_status r) = true -> started (rq_status q) = true -> i = j;
  ok_company : forall i r, ts_requests s !! i = Some r ->
    exists l, ts_listings s !! rq_listingId r = Some l /\ li_publisherUserId l = rq_companyUserId r;
  ok_money : forall i r, ts_requests s !! i = Some r ->
    bigint_ok (rq_brokerCommission r) && bigint_ok (rq_brokerMargin r) = true;
  ok_listing_ids : forall i l, ts_listings s !! i = Some l -> li_id l = i;
}.

(** A load with a trip is taken. *)
Definition taken_ok (s : trip_state) : Prop :=
  forall i r l, ts_requests s !! i = Some r -> started (rq_status r) = true ->
    ts_listings s !! rq_listingId r = Some l -> li_status l = ListingTaken.

Definition trips_ok (s : trip_state) : Prop := rows_ok s /\ taken_ok s.

(** The invariant reads the two tables only. *)
Lemma rows_ok_ext s s1 :
  ts_requests s1 = ts_requests s -> ts_listings s1 = ts_listings s -> rows_ok s -> rows_ok s1.
Proof.
  intros E1 E2 []. constructor; intros *; rewrite ?E1, ?E2; eauto.
Qed.

Lemma taken_ok_ext s s1 :
  ts_requests s1 = ts_requests s -> ts_listings s1 = ts_listings s -> taken_ok s -> taken_ok s1.
Proof. intros E1 E2 H i r l. rewrite E1, E2. apply H. Qed.

Lemma trips_ok_ext s s1 :
  ts_requests s1 = ts_requests s -> ts_listings s1 = ts_listings s -> trips_ok s -> trips_ok s1.
Proof. intros E1 E2 []. split; [by eapply rows_ok_ext | by eapply taken_ok_ext]. Qed.

Lemma clashes_false r q :
  clashes r q = false -> rq_id q <> rq_id r -> rq_listingId q = rq_listingId r ->
  rq_driverUserId q <> rq_driverUserId r /\
  (started (rq_status r) = true -> started (rq_status q) = true -> False).
Proof.
  unfold clashes. intros H Hid Hl.
  rewrite (proj2 (N.eqb_neq _ _) Hid), (proj2 (N.eqb_eq _ _) Hl) in H. simpl in H.
  apply orb_false_iff in H as [H1 H2]. split; [by apply N.eqb_neq|].
  intros E1 E2. by rewrite E1, E2 in H2.
Qed.

(** Saving keeps the invariant of the rows when the object belongs to its load. *)
Lemma put_rows_ok s r :
  rows_ok s -> can_save s r = true ->
  (exists l, ts_listings s !! rq_listingId r = Some l /\ li_publisherUserId l = rq_companyUserId r) ->
  rows_ok (put_request s r).
Proof.
  intros Hs [Hc%negb_true_iff Hm]%andb_split Hl.
  assert (Hno : forall i q, ts_requests s !! i = Some q -> i <> rq_id r -> rq_listingId q = rq_listingId r ->
     rq_driverUserId q <> rq_driverUserId r /\
     (started (rq_status r) = true -> started (rq_status q) = true -> False)).
  { intros i q Hq Hi. apply clashes_false.
    - by eapply exists_row_false.
    - by rewrite (ok_ids s Hs i q Hq). }
  destruct Hs. unfold put_request.
  constructor; simpl.
  - intros i q. rewrite lookup_insert. case_decide; [|by eauto]. intros [= <-]. by autorewrite with written.
  - intros i j q1 q2. rewrite !lookup_insert. repeat case_decide; subst; try done;
      intros H1 H2; simplify_eq; autorewrite with written; eauto.
    + intros E1 E2. exfalso. edestruct (Hno j q2) as [? _]; eauto.
    + intros E1 E2. exfalso. edestruct (Hno i q1) as [? _]; eauto.
  - intros i j q1 q2. rewrite !lookup_insert. repeat case_decide; subst; try done;
      intros H1 H2; simplify_eq; autorewrite with written; eauto.
    + intros E1 E2 E3. exfalso. edestruct (Hno j q2) as [_ ?]; eauto.
    + intros E1 E2 E3. exfalso. edestruct (Hno i q1) as [_ ?]; eauto.
  - intros i q. rewrite lookup_insert. case_decide; [|by eauto]. intros [= <-]. by autorewrite with written.
  - intros i q. rewrite lookup_insert. case_decide; [|by eauto]. intros [= <-]. by autorewrite with written.
  - done.
Qed.

(** A row rewritten without starting a trip can always be saved. *)
Lemma can_save_row s i r q :
  rows_ok s -> ts_requests s !! i = Some q ->
  rq_id r = rq_id q -> rq_listingId r = rq_listingId q -> rq_driverUserId r = rq_driverUserId q ->
  rq_brokerCommission r = rq_brokerCommission q -> rq_brokerMargin r = rq_brokerMargin q ->
  (started (rq_status r) = true -> started (rq_status q) = true) ->
  can_save s r = true.
Proof.
  intros Hs Hq Hid Hl Hd Hc Hm Hst. unfold can_save.
  rewrite Hc, Hm, (ok_money s Hs i q Hq), andb_true_r. apply negb_true_iff, exists_row_false.
  intros j p Hp. unfold clashes. rewrite Hid, Hl, Hd.
  destruct (N.eqb_spec (rq_id p) (rq_id q)) as [|Hne]; [done|]. simpl.
  destruct (N.eqb_spec (rq_listingId p) (rq_listingId q)) as [El|]; [|done]. simpl.
  rewrite (ok_ids s Hs j p Hp), (ok_ids s Hs i q Hq) in Hne.
  apply orb_false_iff. split.
  - apply N.eqb_neq. intros Ed. by destruct Hne; eapply (ok_pair s Hs).
  - destruct (started (rq_status r)) eqn:E1; [|done]. destruct (started (rq_status p)) eqn:E2; [|done].
    destruct Hne. eapply (ok_one s Hs); eauto.
Qed.

(** A driver's answer to an open load can be saved while the load has no trip. *)
Lemma can_save_free s i r q :
  rows_ok s -> ts_requests s !! i = Some q ->
  rq_id r = rq_id q -> rq_listingId r = rq_listingId q -> rq_driverUserId r = rq_driverUserId q ->
  rq_brokerCommission r = rq_brokerCommission q -> rq_brokerMargin r = rq_brokerMargin q ->
  (forall j p, ts_requests s !! j = Some p -> rq_listingId p = rq_listingId q -> started (rq_status p) = false) ->
  can_save s r = true.
Proof.
  intros Hs Hq Hid Hl Hd Hc Hm Hfree. unfold can_save.
  rewrite Hc, Hm, (ok_money s Hs i q Hq), andb_true_r. apply negb_true_iff, exists_row_false.
  intros j p Hp. unfold clashes. rewrite Hid, Hl, Hd.
  destruct (N.eqb_spec (rq_id p) (rq_id q)) as [|Hne]; [done|]. simpl.
  destruct (N.eqb_spec (rq_listingId p) (rq_listingId q)) as [El|]; [|done]. simpl.
  rewrite (ok_ids s Hs j p Hp), (ok_ids s Hs i q Hq) in Hne.
  apply orb_false_iff. split.
  - apply N.eqb_neq. intros Ed. by destruct Hne; eapply (ok_pair s Hs).
  - rewrite (Hfree j p Hp El). apply andb_false_r.
Qed.

(** ** Invariants closed under the writes of the handlers *)

(** Which status a request may get next; each handler has its own ([TripInvariant]). *)
Abbreviation moves := (CargoRequest -> CargoRequestStatus -> Prop).

(** What a handler may write over a row. *)
Record legal (al : moves) (q r : CargoRequest) : Prop := {
  lg_id : rq_id r = rq_id q;
  lg_listing : rq_listingId r = rq_listingId q;
  lg_driver : rq_driverUserId r = rq_driverUserId q;
  lg_company : rq_companyUserId r = rq_companyUserId q;
  lg_move : al q (rq_status r);
}.

Definition listing_ok (s : trip_state) (r : CargoRequest) : Prop :=
  exists l, ts_listings s !! rq_listingId r = Some l /\ li_publisherUserId l = rq_companyUserId r.

(** Loads stay, with their publishers. *)
Definition publishers_kept (s s1 : trip_state) : Prop :=
  forall lid l, ts_listings s !! lid = Some l ->
    exists l1, ts_listings s1 !! lid = Some l1 /\ li_publisherUserId l1 = li_publisherUserId l.

(** An invariant of the tables that the writes moving a status as [al] allows keep; [strict]
    when it relies on that. *)
Record closed (al : moves) (strict : bool) (R : trip_state -> Prop) : Prop := {
  cl_rows : forall s, R s -> rows_ok s;
  cl_ext : forall s s1, ts_requests s1 = ts_requests s -> ts_listings s1 = ts_listings s -> R s -> R s1;
  cl_put : forall s r, R s -> can_save s r = true -> listing_ok s r ->
    (strict = true -> forall q, ts_requests s !! rq_id r = Some q -> legal al q r) -> R (put_request s r);
  cl_listings : forall s s1, R s -> rows_ok s1 -> ts_requests s1 = ts_requests s ->
    publishers_kept s s1 -> R s1;
}.

Lemma rows_ok_closed al b : closed al b rows_ok.
Proof.
  constructor; try done.
  - intros s s1 H1 H2. by apply rows_ok_ext.
  - intros s r Hs Hc Hl _. by apply put_rows_ok.
Qed.

(** ** Loops over rows *)

(** Everything but the requests and what was sent. *)
Definition same_env (s s1 : trip_state) : Prop :=
  ts_config s1 = ts_config s /\ ts_now s1 = ts_now s /\ ts_listings s1 = ts_listings s /\
  ts_fares s1 = ts_fares s /\ ts_waiting s1 = ts_waiting s /\ ts_broker s1 = ts_broker s /\
  ts_profiles s1 = ts_profiles s.

#[export] Instance same_env_refl : Reflexive same_env.
Proof. by intros s. Qed.

#[export] Instance same_env_trans : Transitive same_env.
Proof.
  intros a b c (A1 & A2 & A3 & A4 & A5 & A6 & A7) (B1 & B2 & B3 & B4 & B5 & B6 & B7).
  repeat split; congruence.
Qed.

Lemma same_env_put s r : same_env s (put_request s r).
Proof. by repeat split. Qed.
Lemma same_env_sent s xs : same_env s (sent s xs).
Proof. by repeat split. Qed.

#[export] Hint Resolve same_env_refl same_env_put same_env_sent : transport.

(** A rewriting of rows that keeps who and what they are and starts no trip. *)
Record row_map (f : CargoRequest -> CargoRequest) : Prop := {
  rm_id : forall r, rq_id (f r) = rq_id r;
  rm_listing : forall r, rq_listingId (f r) = rq_listingId r;
  rm_driver : forall r, rq_driverUserId (f r) = rq_driverUserId r;
  rm_company : forall r, rq_companyUserId (f r) = rq_companyUserId r;
  rm_commission : forall r, rq_brokerCommission (f r) = rq_brokerCommission r;
  rm_margin : forall r, rq_brokerMargin (f r) = rq_brokerMargin r;
  rm_started : forall r, started (rq_status (f r)) = true -> started (rq_status r) = true;
}.

Lemma row_map_can_save f s i q :
  row_map f -> rows_ok s -> ts_requests s !! i = Some q -> can_save s (f q) = true.
Proof. intros [] Hs Hq. eapply can_save_row; eauto. Qed.

Lemma row_map_put_ok al b R (HR : closed al b R) f s i q :
  row_map f -> R s -> ts_requests s !! i = Some q -> (b = true -> legal al q (f q)) -> R (put_request s (f q)).
Proof.
  intros Hf Hs Hq Hlg. pose proof (cl_rows _ _ _ HR s Hs) as Hrows. apply (cl_put _ _ _ HR); [done | by eapply row_map_can_save | |].
  - unfold listing_ok. rewrite (rm_listing f Hf), (rm_company f Hf). by eapply ok_company.
  - intros Hb p Hp. rewrite (rm_id f Hf), (ok_ids s Hrows i q Hq), Hq in Hp. injection Hp as <-. by apply Hlg.
Qed.

(** The rows of a loop, each as it stands in the table, no two the same. *)
Definition current_rows (s : trip_state) (l : list CargoRequest) : Prop :=
  NoDup (rq_id <$> l) /\ forall q, q ∈ l -> ts_requests s !! rq_id q = Some q.

Lemma written_stable s s1 r :
  ts_now s1 = ts_now s -> ts_requests s1 !! rq_id r = ts_requests s !! rq_id r -> written s1 r = written s r.
Proof. intros E1 E2. unfold written. by rewrite E1, E2. Qed.

Lemma for_each_rows al b R (HR : closed al b R) (f : CargoRequest -> CargoRequest) (g : CargoRequest -> TM unit) l s :
  row_map f -> (b = true -> forall q, q ∈ l -> legal al q (f q)) -> R s -> current_rows s l ->
  (forall s1 q, ts_now s1 = ts_now s -> can_save s1 (f q) = true ->
     exists xs, g q s1 = (Ok tt, sent (put_request s1 (f q)) xs)) ->
  exists s1, for_each l g s = (Ok tt, s1) /\ R s1 /\ same_env s s1 /\
    (forall q, q ∈ l -> ts_requests s1 !! rq_id q = Some (written s (f q))) /\
    (forall j, j ∉ rq_id <$> l -> ts_requests s1 !! j = ts_requests s !! j).
Proof.
  intros Hf Hlegal. revert s. induction l as [|q l IH]; intros s Hs [Hnd Hcur] Hg.
  { exists s. split; [done|]. split; [done|]. split; [done|]. split; [set_solver | done]. }
  assert (Hq : ts_requests s !! rq_id q = Some q) by (apply Hcur; set_solver).
  inversion Hnd as [|? ? Hnot Hnd']; subst.
  destruct (Hg s q eq_refl (row_map_can_save f s _ q Hf (cl_rows _ _ _ HR s Hs) Hq)) as (xs & Hrun).
  set (s' := sent (put_request s (f q)) xs) in *.
  assert (Hs' : R s').
  { apply (cl_ext _ _ _ HR (put_request s (f q))); try done. apply (row_map_put_ok al b R HR f s _ q Hf Hs Hq).
    intros Hb. apply (Hlegal Hb). set_solver. }
  assert (Hsame : forall j, j <> rq_id q -> ts_requests s' !! j = ts_requests s !! j).
  { intros j Hj. change (ts_requests s') with (<[rq_id (f q) := written s (f q)]> (ts_requests s)).
    rewrite (rm_id f Hf). by rewrite lookup_insert_ne. }
  destruct (IH ltac:(intros Hb p Hp; apply (Hlegal Hb); set_solver) s' Hs') as (s1 & Hrest & Hok & Henv & Hin & Hout).
  { split; [done|]. intros p Hp. rewrite Hsame; [apply Hcur; set_solver|].
    intros E. apply Hnot. rewrite <- E. by apply list_elem_of_fmap_2. }
  { intros s2 p E. apply Hg. by rewrite E. }
  exists s1. split; [|split; [done|split; [|split]]].
  - simpl. rewrite run_bind, Hrun. exact Hrest.
  - transitivity s'; [by repeat split | done].
  - intros p Hp. apply elem_of_cons in Hp as [->|Hp].
    + rewrite Hout by done. change (ts_requests s') with (<[rq_id (f q) := written s (f q)]> (ts_requests s)).
      by rewrite (rm_id f Hf), lookup_insert_eq.
    + rewrite Hin by done. f_equal. apply written_stable; [done|]. rewrite (rm_id f Hf).
      apply Hsame. intros E. apply Hnot. rewrite <- E. by apply list_elem_of_fmap_2.
  - intros j Hj. rewrite fmap_cons in Hj. rewrite Hout by set_solver. apply Hsame. set_solver.
Qed.

Lemma find_rows_current s f : rows_ok s -> current_rows s (find_rows f (ts_requests s)).
Proof.
  intros Hs. split.
  - unfold find_rows, rows.
    assert (Hnd : NoDup (rq_id <$> (map_to_list (ts_requests s)).*2)).
    { assert (E : rq_id <$> (map_to_list (ts_requests s)).*2 = (map_to_list (ts_requests s)).*1).
      { rewrite <- list_fmap_compose. apply list_fmap_ext. intros k [i r] Hk. simpl.
        apply (ok_ids s Hs). apply elem_of_map_to_list. by eapply list_elem_of_lookup_2. }
      rewrite E. apply NoDup_fst_map_to_list. }
    revert Hnd. generalize ((map_to_list (ts_requests s)).*2). intros l. induction l as [|q l IH]; [done|].
    rewrite fmap_cons. intros Hnd. inversion Hnd as [|? ? Hnot Hnd']; subst.
    rewrite filter_cons. case_decide; [|by apply IH]. rewrite fmap_cons. constructor; [|by apply IH].
    intros (p & Hp & Hin)%list_elem_of_fmap. apply list_elem_of_filter in Hin as [_ Hin].
    apply Hnot. rewrite Hp. by apply list_elem_of_fmap_2.
  - intros q (_ & i & Hi)%elem_of_find_rows. by rewrite (ok_ids s Hs i q Hi).
Qed.

Lemma current_rows_take s l n : current_rows s l -> current_rows s (take n l).
Proof.
  intros [Hnd Hc]. split.
  - rewrite <- (take_drop n l), fmap_app in Hnd. by apply NoDup_app in Hnd as [? _].
  - intros q Hq. apply Hc. apply elem_of_take in Hq as (i & Hi & _). by eapply list_elem_of_lookup_2.
Qed.

Lemma turned_down_map now : row_map (turned_down now).
Proof. by constructor. Qed.
Lemma waiting_again_map : row_map waiting_again.
Proof. by constructor. Qed.
Lemma expired_map : row_map expired.
Proof. by constructor. Qed.
Lemma reminded_map now : row_map (fun r => r <| rq_deliveryRemindedAt := Some now |>).
Proof. by constructor. Qed.
#[export] Hint Resolve turned_down_map waiting_again_map expired_map reminded_map : transport.

Lemma turn_down_run s q :
  can_save s (turned_down (ts_now s) q) = true ->
  exists xs, turn_down q s = (Ok tt, sent (put_request s (turned_down (ts_now s) q)) xs).
Proof.
  intros Hc. unfold turn_down, now_, gets. rewrite run_bind. cbn beta iota.
  rewrite run_bind, (save_ok _ _ Hc). eexists. by rewrite changed_run.
Qed.

Lemma wait_again_run s q :
  can_save s (waiting_again q) = true ->
  exists xs, wait_again q s = (Ok tt, sent (put_request s (waiting_again q)) xs).
Proof.
  intros Hc. unfold wait_again. rewrite run_bind, (save_ok _ _ Hc). eexists. by rewrite changed_run.
Qed.

Lemma expire_run s q :
  can_save s (expired q) = true -> exists xs, expire q s = (Ok tt, sent (put_request s (expired q)) xs).
Proof.
  intros Hc. unfold expire. rewrite run_bind, (save_ok _ _ Hc), run_bind.
  match goal with |- context [notify ?a ?b ?c ?d ?e ?f ?g ?s] =>
    destruct (notify_run a b c d e f g s) as (n1 & _ & _ & _ & _ & ->) end.
  rewrite run_bind.
  match goal with |- context [notify ?a ?b ?c ?d ?e ?f ?g ?s] =>
    destruct (notify_run a b c d e f g s) as (n2 & _ & _ & _ & _ & ->) end.
  rewrite changed_run, !sent_sent. eauto.
Qed.

Lemma remind_run s q now :
  can_save s (q <| rq_deliveryRemindedAt := Some now |>) = true ->
  exists xs, remind now q s = (Ok tt, sent (put_request s (q <| rq_deliveryRemindedAt := Some now |>)) xs).
Proof.
  intros Hc. unfold remind. rewrite run_bind, (save_ok _ _ Hc). cbv zeta. rewrite run_bind, changed_run.
  match goal with |- context [notify ?a ?b ?c ?d ?e ?f ?g ?s] =>
    destruct (notify_run a b c d e f g s) as (n2 & _ & _ & _ & _ & ->) end.
  rewrite sent_sent. eauto.
Qed.

(** ** A load's status *)

(** Everything but the loads, the requests and what was sent. *)
Definition same_svc (s s1 : trip_state) : Prop :=
  ts_config s1 = ts_config s /\ ts_now s1 = ts_now s /\ ts_fares s1 = ts_fares s /\
  ts_waiting s1 = ts_waiting s /\ ts_broker s1 = ts_broker s /\ ts_profiles s1 = ts_profiles s.

#[export] Instance same_svc_refl : Reflexive same_svc.
Proof. by intros s. Qed.

#[export] Instance same_svc_trans : Transitive same_svc.
Proof.
  intros a b c (A1 & A2 & A3 & A4 & A5 & A6) (B1 & B2 & B3 & B4 & B5 & B6).
  repeat split; congruence.
Qed.

Lemma same_env_svc s s1 : same_env s s1 -> same_svc s s1.
Proof. intros (? & ? & ? & ? & ? & ? & ?). by repeat split. Qed.

Definition put_status (s : trip_state) (listingId : uuid) (st : CargoListingStatus) : trip_state :=
  s <| ts_listings := alter (with_status st (ts_now s)) listingId (ts_listings s) |>.

Definition may_set (s : trip_state) (userId listingId : uuid) (st : CargoListingStatus) : Prop :=
  (exists l, ts_listings s !! listingId = Some l /\ li_publisherUserId l = userId) /\
  (st = ListingOpen -> has_active_trip s listingId = false /\ has_delivered s listingId = false).

Lemma setStatus_run s u lid st l :
  ts_listings s !! lid = Some l -> li_publisherUserId l = u ->
  (st = ListingOpen -> has_active_trip s lid = false /\ has_delivered s lid = false) ->
  setStatus u lid st s = (Ok tt, if eqb (li_status l) st then s
                                 else sent (put_status s lid st) [SentListing lid st]).
Proof.
  intros Hl Hu Hopen. unfold setStatus. rewrite run_bind. unfold get. cbn beta iota.
  rewrite Hl. cbn [mbind option_bind]. rewrite Hu, N.eqb_refl. cbn [some_or].
  rewrite run_bind, run_ret.
  assert (E : eqb st ListingOpen && has_active_trip s lid = false /\ eqb st ListingOpen && has_delivered s lid = false).
  { destruct (eqb st ListingOpen) eqn:E; [|done]. apply eqb_eq in E. apply (Hopen E). }
  destruct E as [-> ->]. cbn [negb ensure]. rewrite !run_bind, !run_ret, run_bind, run_ret.
  destruct (eqb (li_status l) st); done.
Qed.

(** What a status written leaves: the other loads, and the load but for its status. *)
Lemma setStatus_effect s u lid st l s1 :
  ts_listings s !! lid = Some l ->
  s1 = (if eqb (li_status l) st then s else sent (put_status s lid st) [SentListing lid st]) ->
  same_svc s s1 /\ ts_requests s1 = ts_requests s /\
  (exists l1, ts_listings s1 !! lid = Some l1 /\ li_status l1 = st /\ li_id l1 = li_id l /\
     li_publisherUserId l1 = li_publisherUserId l) /\
  (forall j, j <> lid -> ts_listings s1 !! j = ts_listings s !! j) /\
  (li_publisherUserId l = u -> rows_ok s -> rows_ok s1).
Proof.
  intros Hl ->. destruct (eqb (li_status l) st) eqn:E.
  - apply eqb_eq in E. split; [done|]. split; [done|]. split; [by exists l|]. done.
  - change (ts_requests (sent (put_status s lid st) [SentListing lid st])) with (ts_requests s).
    change (ts_listings (sent (put_status s lid st) [SentListing lid st]))
      with (alter (with_status st (ts_now s)) lid (ts_listings s)).
    split; [by repeat split|]. split; [done|].
    split; [exists (with_status st (ts_now s) l); rewrite lookup_alter_eq, Hl; done|].
    split; [intros j Hj; by rewrite lookup_alter_ne|].
    intros Hu Hs. pose proof (ok_listing_ids s Hs) as Hids. pose proof (ok_company s Hs) as Hco. destruct Hs.
    constructor; try done.
    + intros i r Hr. destruct (Hco i r Hr) as (l0 & Hl0 & Hp). change (ts_listings (sent (put_status s lid st) [SentListing lid st]))
      with (alter (with_status st (ts_now s)) lid (ts_listings s)).
      rewrite lookup_alter. case_decide; [|by eauto]. subst lid. rewrite Hl0. simpl. eauto.
    + intros i l0. change (ts_listings (sent (put_status s lid st) [SentListing lid st]))
      with (alter (with_status st (ts_now s)) lid (ts_listings s)).
      rewrite lookup_alter. case_decide; [|by eauto]. subst i. intros (l1 & Hl1 & ->)%fmap_Some. simpl. by eauto.
Qed.

Lemma setStatus_publishers s lid l l1 s1 :
  ts_listings s !! lid = Some l -> ts_listings s1 !! lid = Some l1 ->
  li_publisherUserId l1 = li_publisherUserId l ->
  (forall j, j <> lid -> ts_listings s1 !! j = ts_listings s !! j) -> publishers_kept s s1.
Proof.
  intros Hl Hl1 Hp Hoth j l0 Hj. destruct (base.decide (j = lid)) as [->|Hne].
  - rewrite Hl in Hj. injection Hj as <-. eauto.
  - rewrite Hoth by done. eauto.
Qed.

(** [completeAssignment]: the load is taken, its other pending requests are turned
    down, nothing else changes. *)
Definition after_assignment (s : trip_state) (r q : CargoRequest) : CargoRequest :=
  if other_pending (rq_listingId r) (rq_id r) q then written s (turned_down (ts_now s) q) else q.

Lemma completeAssignment_run al b R (HR : closed al b R) s r :
  (b = true -> forall q, rq_id q <> rq_id r -> rq_companyUserId q = rq_companyUserId r -> rq_listingId q = rq_listingId r ->
     rq_status q = Pending -> al q Rejected) ->
  R s -> listing_ok s r ->
  exists s1, completeAssignment r s = (Ok tt, s1) /\ R s1 /\ same_svc s s1 /\
    (exists l1, ts_listings s1 !! rq_listingId r = Some l1 /\ li_status l1 = ListingTaken) /\
    (forall j, j <> rq_listingId r -> ts_listings s1 !! j = ts_listings s !! j) /\
    (forall j, ts_requests s1 !! j = after_assignment s r <$> ts_requests s !! j).
Proof.
  intros Hal HRs (l & Hl & Hp). pose proof (cl_rows _ _ _ HR s HRs) as Hs.
  unfold completeAssignment. rewrite run_bind, (setStatus_run s _ _ _ l Hl Hp) by done.
  set (s' := if eqb (li_status l) ListingTaken then s else _).
  destruct (setStatus_effect s (rq_companyUserId r) _ ListingTaken l s' Hl eq_refl)
    as (Hsvc & Hreq & (l1 & Hl1 & Hst & _ & Hpub) & Hoth & Hrows).
  specialize (Hrows Hp Hs).
  pose proof (cl_listings _ _ _ HR s s' HRs Hrows Hreq (setStatus_publishers _ _ _ _ _ Hl Hl1 Hpub Hoth)) as HRs'.
  rewrite run_bind. unfold findOtherPending, gets. cbn beta iota.
  pose proof (find_rows_current s' (other_pending (rq_listingId r) (rq_id r)) Hrows) as Hcur.
  destruct (for_each_rows al b R HR (turned_down (ts_now s')) turn_down
              (find_rows (other_pending (rq_listingId r) (rq_id r)) (ts_requests s')) s' (turned_down_map _))
    as (s1 & -> & Hok & Henv & Hin & Hout); [|done|done| |].
  { intros Hb q (Hq & i & Hi)%elem_of_find_rows. constructor; try done.
    unfold other_pending in Hq. apply andb_split in Hq as [[El%N.eqb_eq Hq%eqb_eq]%andb_split Hne%negb_true_iff].
    apply Hal; [done | by apply N.eqb_neq in Hne | | done | done].
    rewrite Hreq in Hi. destruct (ok_company s Hs i q Hi) as (l0 & Hl0 & Hp0). rewrite El, Hl in Hl0. injection Hl0 as <-. congruence. }
  { intros s2 q E Hc. destruct (turn_down_run s2 q) as (xs & Hx); [by rewrite E|].
    exists xs. by rewrite Hx, E. }
  assert (Hnow : ts_now s' = ts_now s) by apply Hsvc.
  exists s1. split; [done|]. split; [done|]. split; [by etransitivity; [|apply same_env_svc]|].
  destruct Henv as (_ & _ & Elist & _). rewrite Elist. split; [by exists l1|]. split; [done|].
  assert (Hnone : forall j, (forall q, ts_requests s !! j = Some q -> other_pending (rq_listingId r) (rq_id r) q = false) ->
            j ∉ rq_id <$> find_rows (other_pending (rq_listingId r) (rq_id r)) (ts_requests s')).
  { intros j Hj (p & Hpid & (Hpp & k & Hk)%elem_of_find_rows)%list_elem_of_fmap.
    rewrite Hreq in Hk. pose proof (ok_ids s Hs k p Hk). subst k. subst j.
    rewrite (Hj p Hk) in Hpp. done. }
  intros j. unfold after_assignment. destruct (ts_requests s !! j) as [q|] eqn:Eq.
  - pose proof (ok_ids s Hs j q Eq) as Hid. subst j. simpl.
    destruct (other_pending (rq_listingId r) (rq_id r) q) eqn:Ep.
    + rewrite Hin by (apply elem_of_find_rows; rewrite Hreq; eauto). rewrite Hnow. f_equal.
      by apply written_stable; rewrite ?Hreq.
    + rewrite Hout, Hreq; [done|]. apply Hnone. intros p Hp2. by simplify_eq.
  - rewrite Hout, Hreq; [done|]. apply Hnone. intros p Hp2. congruence.
Qed.
