(* ===== verification/TripInvariant.v ===== *)
(** * Every handler of the trips keeps the invariant

    For any invariant closed under the handlers' writes ([closed]): each handler,
    whether it answers or throws at any point, keeps it, and with it that a load with
    a trip is taken. *)

From S2P Require Import Prelude JsNumber JsString Effects Enums BrokerDriver TripFareRules.
From S2P Require Import BrokerAccess DriverProfile CargoData TripFareService CargoTrip.
From S2P Require Import CargoTripFacts.

(** ** Computations that leave the two tables alone *)

Definition tables_eq (s s1 : trip_state) : Prop :=
  ts_requests s1 = ts_requests s /\ ts_listings s1 = ts_listings s /\
  ts_now s1 = ts_now s /\ ts_config s1 = ts_config s /\ ts_profiles s1 = ts_profiles s.

#[export] Instance tables_eq_refl : Reflexive tables_eq.
Proof. by intros s. Qed.

#[export] Instance tables_eq_trans : Transitive tables_eq.
Proof.
  intros a b c (A1 & A2 & A3 & A4 & A5) (B1 & B2 & B3 & B4 & B5). repeat split; congruence.
Qed.

Definition neutral {A} (m : TM A) : Prop := forall s, preserves (tables_eq s) m.

Lemma neutral_final {A} (m : TM A) s : neutral m -> tables_eq s (final m s).
Proof. intros H. by apply H. Qed.

Lemma neutral_send x : neutral (send x).
Proof. intros s s1 H. by etransitivity. Qed.

Lemma neutral_changed r a b : neutral (changed r a b).
Proof. intros s. unfold changed. apply preserves_bind; [|intros _]; apply neutral_send. Qed.

Lemma neutral_notify_full a b c d e f g h i : neutral (notify_full a b c d e f g h i).
Proof. intros s. apply neutral_send. Qed.

Lemma neutral_notify a b c d e f g : neutral (notify a b c d e f g).
Proof. intros s. apply neutral_send. Qed.

Lemma neutral_broker {A} (m : BM A) : neutral (brokerAccess m).
Proof.
  intros s s1 H. unfold final, brokerAccess, zoom. destruct (m (broker_view s1)) as [r b].
  etransitivity; [exact H|]. by repeat split.
Qed.

Lemma neutral_upsert r st v u : neutral (upsert r st v u).
Proof.
  intros s s1 H. unfold final. rewrite upsert_run. destruct (fare_row _ _ _ _ _); [|done].
  etransitivity; [exact H|]. by repeat split.
Qed.

Lemma neutral_recordAgreed r v u : neutral (recordAgreed r v u).
Proof. intros s. unfold recordAgreed. preserve. apply neutral_upsert. Qed.

Lemma neutral_recordDelivered r v u : neutral (recordDelivered r v u).
Proof. intros s. unfold recordDelivered. preserve. apply neutral_upsert. Qed.

Lemma neutral_read_fare i : neutral (read_fare i).
Proof. intros s. unfold read_fare. preserve. Qed.

Lemma neutral_requestLocation c i : neutral (requestLocation c i).
Proof.
  intros s. unfold requestLocation, owned, findById, is_broker_card. preserve; auto with preserves.
  - apply preserves_modify. intros s2 Hs2. etransitivity; [exact Hs2|]. by repeat split.
  - apply neutral_notify.
Qed.

Lemma neutral_settleBroker r f : neutral (settleBroker r f).
Proof. intros s. unfold settleBroker. apply preserves_bind; [apply neutral_broker | intros ?; apply preserves_ret]. Qed.

(** ** Steps at a state *)

Section At.
  Context (P : trip_state -> Prop).

Lemma at_ensure {A} b e (k : unit -> TM A) s :
  P s -> (b = true -> P (final (k tt) s)) -> P (final (ensure b e ≫= k) s).
Proof. destruct b; intros H1 H2; [by apply H2 | done]. Qed.

Lemma at_some_or {A B} (o : option A) e (k : A -> TM B) s :
  P s -> (forall a, o = Some a -> P (final (k a) s)) -> P (final (some_or o e ≫= k) s).
Proof. destruct o as [a|]; intros H1 H2; [by apply (H2 a) | done]. Qed.

Lemma at_gets {A B} (f : trip_state -> A) (k : A -> TM B) s :
  P (final (k (f s)) s) -> P (final (gets f ≫= k) s).
Proof. done. Qed.

Lemma at_get {A} (k : trip_state -> TM A) s : P (final (k s) s) -> P (final (get ≫= k) s).
Proof. done. Qed.

Lemma at_ret {A B} (a : A) (k : A -> TM B) s : P (final (k a) s) -> P (final (mret a ≫= k) s).
Proof. done. Qed.

Lemma at_of_outcome {A B} (o : outcome A) (k : A -> TM B) s :
  P s -> (forall a, o = Ok a -> P (final (k a) s)) -> P (final (of_outcome o ≫= k) s).
Proof. destruct o as [a|]; intros H1 H2; [by apply (H2 a) | done]. Qed.

Lemma at_neutral {A B} (m : TM A) (k : A -> TM B) s :
  neutral m -> (forall s1, tables_eq s s1 -> P s1) ->
  (forall a s1, tables_eq s s1 -> m s = (Ok a, s1) -> P (final (k a) s1)) -> P (final (m ≫= k) s).
Proof.
  intros Hm H1 H2. pose proof (neutral_final m s Hm) as H. unfold final in *. rewrite run_bind.
  destruct (m s) as [[a|e] s1]; [by eapply H2 | by apply H1].
Qed.

Lemma at_owned {A} i f (k : CargoRequest -> TM A) s :
  P s -> (forall r, ts_requests s !! i = Some r -> f r = true -> P (final (k r) s)) ->
  P (final (owned i f ≫= k) s).
Proof.
  intros H1 H2. unfold final. rewrite run_bind. destruct (owned i f s) as [[r|e] s1] eqn:E.
  - apply owned_Ok_inv in E as (-> & Hr & Hf). by apply H2.
  - revert E. unfold owned, findById, gets. rewrite run_bind. cbn beta iota.
    destruct (ts_requests s !! i) as [q|]; [destruct (f q)|]; intros [= _ <-]; done.
Qed.

Lemma at_preserves {A B} (m : TM A) (k : A -> TM B) s :
  P s -> preserves P m -> (forall a, preserves P (k a)) -> P (final (m ≫= k) s).
Proof. intros Hs Hm Hk. by apply preserves_bind. Qed.
End At.

(** ** How each handler moves the statuses

    Of which requests, and from which status to which. *)

Definition no_moves : moves := fun _ _ => False.

Definition request_moves (driver listing : uuid) : moves := fun q st =>
  rq_driverUserId q = driver /\ rq_listingId q = listing /\
  (rq_status q = Declined \/ rq_status q = Expired \/ rq_status q = Cancelled) /\ st = Pending.

Definition cancel_moves (driver i : uuid) : moves := fun q st =>
  rq_id q = i /\ rq_driverUserId q = driver /\ rq_status q = Pending /\ st = Cancelled.

Definition decide_moves (company i : uuid) (accept : bool) : moves := fun q st =>
  rq_companyUserId q = company /\ rq_status q = Pending /\
  (rq_id q = i /\ st = (if accept then Accepted else Rejected) \/ rq_id q <> i /\ accept = true /\ st = Rejected).

Definition offer_moves (company listing driver : uuid) : moves := fun q st =>
  rq_companyUserId q = company /\ rq_listingId q = listing /\ rq_driverUserId q = driver /\
  rq_status q <> Accepted /\ rq_status q <> Delivered /\ st = Offered.

Definition expire_moves : moves := fun q st => rq_status q = Offered /\ st = Expired.

Definition respond_moves (driver i : uuid) (accept : bool) : moves := fun q st =>
  (rq_id q = i /\ rq_driverUserId q = driver /\ rq_status q = Offered /\ (st = (if accept then Accepted else Declined) \/ st = Expired)) \/
  (rq_id q <> i /\ accept = true /\ rq_status q = Pending /\ st = Rejected).

Definition deliver_moves (user i : uuid) : moves := fun q st =>
  rq_id q = i /\ rq_status q = Accepted /\
  (rq_driverUserId q = user /\ st = Accepted \/ rq_companyUserId q = user /\ st = Delivered).

Definition cancelTrip_moves (company i : uuid) : moves := fun q st =>
  (rq_id q = i /\ rq_companyUserId q = company /\ rq_status q = Accepted /\ st = TripCancelled) \/
  (rq_id q <> i /\ rq_status q = Rejected /\ st = Pending).

Definition running_moves : moves := fun q st => rq_status q = Accepted /\ st = Accepted.

(** ** The invariant of the handlers *)

Section Handlers.
  Context (al : moves) (strict : bool) (R : trip_state -> Prop) (HR : closed al strict R).

Definition Inv (s : trip_state) : Prop := R s /\ (strict = true -> taken_ok s).

Lemma Inv_rows s : Inv s -> rows_ok s.
Proof. intros [H _]. by apply (cl_rows _ _ _ HR). Qed.

Lemma Inv_ext s s1 : tables_eq s s1 -> Inv s -> Inv s1.
Proof.
  intros (E1 & E2 & _) [H1 H2]. split; [by apply (cl_ext _ _ _ HR s)|].
  intros Hb. by apply (taken_ok_ext s), H2.
Qed.

Lemma preserves_neutral {A} (m : TM A) : neutral m -> preserves Inv m.
Proof. intros Hm s Hs. by apply (Inv_ext s); [apply neutral_final|]. Qed.

(** A write that starts no trip the row did not have. *)
Lemma Inv_put s r :
  Inv s -> can_save s r = true -> listing_ok s r ->
  (strict = true -> started (rq_status r) = true ->
     exists q, ts_requests s !! rq_id r = Some q /\ started (rq_status q) = true /\ rq_listingId q = rq_listingId r) ->
  (strict = true -> forall q, ts_requests s !! rq_id r = Some q -> legal al q r) ->
  Inv (put_request s r).
Proof.
  intros [H1 H2] Hc Hl Hst Hlg. split; [by apply (cl_put _ _ _ HR)|].
  intros Hb i q l Hq Hs Hli. specialize (H2 Hb).
  change (ts_requests (put_request s r)) with (<[rq_id r := written s r]> (ts_requests s)) in Hq.
  change (ts_listings (put_request s r)) with (ts_listings s) in Hli.
  rewrite lookup_insert in Hq. case_decide; [|by eapply H2]. injection Hq as <-.
  autorewrite with written in *. destruct (Hst Hb Hs) as (q0 & Hq0 & Hs0 & El).
  eapply H2; eauto. by rewrite El.
Qed.

Lemma at_save {A} s r (k : CargoRequest -> TM A) :
  Inv s -> listing_ok s r ->
  (strict = true -> started (rq_status r) = true ->
     exists q, ts_requests s !! rq_id r = Some q /\ started (rq_status q) = true /\ rq_listingId q = rq_listingId r) ->
  (strict = true -> forall q, ts_requests s !! rq_id r = Some q -> legal al q r) ->
  preserves Inv (k (written s r)) -> Inv (final (save r ≫= k) s).
Proof.
  intros Hs Hl Hst Hlg Hk. unfold final. rewrite run_bind.
  destruct (save r s) as [[r1|e] s1] eqn:E.
  - apply save_Ok_inv in E as (Hc & -> & ->). apply Hk. by apply Inv_put.
  - by apply save_Err_inv in E as [_ ->].
Qed.

(** The common case: a row of the table rewritten. *)
Lemma at_save_row {A} s i q r (k : CargoRequest -> TM A) :
  Inv s -> ts_requests s !! i = Some q -> legal (fun _ _ => True) q r -> (strict = true -> al q (rq_status r)) ->
  (started (rq_status r) = true -> started (rq_status q) = true) ->
  preserves Inv (k (written s r)) -> Inv (final (save r ≫= k) s).
Proof.
  intros Hs Hq Hlg Hmv Hst Hk. pose proof (Inv_rows s Hs) as Hrows.
  pose proof (ok_ids s Hrows i q Hq) as Hid. destruct Hlg as [E1 E2 E3 E4 E5]. apply at_save; try done.
  - unfold listing_ok. rewrite E2, E4. by eapply ok_company.
  - intros _ Hr. exists q. rewrite E1, Hid. auto.
  - intros Hb p Hp. rewrite E1, Hid, Hq in Hp. injection Hp as <-. constructor; auto.
Qed.

(** A loop over rows of the table. *)
Lemma at_loop f g l s :
  row_map f -> (strict = true -> forall q, q ∈ l -> legal al q (f q)) -> Inv s -> current_rows s l ->
  (forall s1 q, ts_now s1 = ts_now s -> can_save s1 (f q) = true ->
     exists xs, g q s1 = (Ok tt, sent (put_request s1 (f q)) xs)) ->
  Inv (final (for_each l g) s).
Proof.
  intros Hf Hlg [H1 H2] Hcur Hg.
  destruct (for_each_rows al strict R HR f g l s Hf Hlg H1 Hcur Hg) as (s1 & Hrun & HR1 & Henv & Hin & Hout).
  unfold final. rewrite Hrun. split; [done|]. intros Hb i r li Hr Hst Hli. specialize (H2 Hb). cbn [snd] in *.
  destruct Henv as (_ & _ & El & _). rewrite El in Hli.
  destruct (base.decide (i ∈ rq_id <$> l)) as [(q & -> & Hq)%list_elem_of_fmap|Hn].
  - rewrite Hin in Hr by done. injection Hr as <-. autorewrite with written in *.
    eapply H2; [by apply Hcur | by apply (rm_started f Hf) |]. by rewrite <- (rm_listing f Hf).
  - rewrite Hout in Hr by done. by eapply H2.
Qed.

(** ** The load's status *)

Lemma preserves_setStatus u lid st : preserves Inv (setStatus u lid st).
Proof.
  intros s Hs. unfold setStatus. apply at_get. apply at_some_or; [done|]. intros l Hl.
  apply at_ensure; [done|]. intros Ha%negb_true_iff. apply at_ensure; [done|]. intros Hd%negb_true_iff.
  destruct (ts_listings s !! lid) as [l0|] eqn:El; [|done]. cbn [mbind option_bind] in Hl.
  destruct (N.eqb_spec (li_publisherUserId l0) u) as [Hu|]; [|done]. injection Hl as ->.
  destruct (eqb (li_status l) st) eqn:Es; [done|].
  set (s1 := sent (put_status s lid st) [SentListing lid st]). change (Inv s1).
  destruct (setStatus_effect s u lid st l s1 El) as (Hsvc & Hreq & (l1 & Hl1 & Hst & _ & Hpub) & Hoth & Hrows).
  { by rewrite Es. }
  pose proof (Inv_rows s Hs) as Hrs. destruct Hs as [H1 H2]. split.
  - apply (cl_listings _ _ _ HR s); auto. by eapply setStatus_publishers.
  - intros Hb i r li Hr Hsr Hli. rewrite Hreq in Hr. specialize (H2 Hb).
    destruct (base.decide (rq_listingId r = lid)) as [E|Hne]; [|rewrite Hoth in Hli by done; by eapply H2].
    rewrite E, Hl1 in Hli. injection Hli as <-. rewrite Hst. destruct st; [exfalso | done].
    unfold eqb at 1 in Ha. unfold eqb at 1 in Hd. simpl in Ha, Hd.
    unfold has_active_trip in Ha. unfold has_delivered in Hd. rewrite count_rows_pos in Ha, Hd.
    pose proof (proj1 (exists_row_false _ _) Ha i r Hr) as F1. pose proof (proj1 (exists_row_false _ _) Hd i r Hr) as F2.
    cbn beta in F1, F2. rewrite E, N.eqb_refl in F1, F2. simpl in F1, F2.
    apply orb_false_iff in F1 as [F1%eqb_neq _]. apply eqb_neq in F2.
    destruct (rq_status r); done.
Qed.

(** The moves of a handler are among the allowed ones. *)
Definition allows (mv : moves) : Prop := strict = true -> forall q st, mv q st -> al q st.

(** ** Handlers that start no trip *)

Hint Resolve neutral_send neutral_changed neutral_notify_full neutral_notify neutral_broker
  neutral_recordAgreed neutral_recordDelivered neutral_read_fare : neutral.

Ltac tail := preserve; try (apply preserves_neutral; auto with neutral).

Lemma preserves_cancel d i : allows (cancel_moves d i) -> preserves Inv (cancel d i).
Proof.
  intros Hal s Hs. unfold cancel. apply at_owned; [done|]. intros r Hr Hd%N.eqb_eq.
  pose proof (ok_ids s (Inv_rows s Hs) i r Hr) as Hid. apply at_ensure; [done|]. intros Hst%eqb_eq.
  eapply at_save_row; [done | exact Hr | by constructor | | done |].
  - intros Hb. apply (Hal Hb). by split_and!.
  - unfold is_broker_card. tail.
Qed.

Lemma neutral_request_details `{JsCase} b d f : neutral (request_details b d f).
Proof. intros s. unfold request_details, config. preserve. Qed.

Lemma neutral_pickedBorder `{BorderService} l b : neutral (pickedBorder l b).
Proof. intros s. unfold pickedBorder, config. preserve. Qed.

(** The guards of [request] answer with the load, still open, and the driver's earlier
    request, which no longer waits or runs. *)
Definition guards_answer (driverUserId listingId : uuid) (s : trip_state)
    (g : CargoListing * option text * option CargoRequest) : Prop :=
  let '(l, _, existing) := g in
  ts_listings s !! listingId = Some l /\ li_status l = ListingOpen /\
  existing = find_by_listing_and_driver s listingId driverUserId /\
  match existing with
  | Some r => rq_status r ∉ [Pending; Offered; Accepted; Rejected; TripCancelled]
  | None => True
  end.

Lemma request_guards_inv `{BorderService} d lid b s s1 g :
  request_guards d lid b s = (Ok g, s1) -> tables_eq s s1 /\ guards_answer d lid s1 g.
Proof.
  intros Hrun. unfold request_guards in Hrun.
  apply bind_Ok_inv in Hrun as (found & ? & [<- <-]%run_Ok_inv & Hrun).
  apply bind_Ok_inv in Hrun as (l & ? & [Hl ->]%some_or_Ok_inv & Hrun).
  apply bind_Ok_inv in Hrun as ([] & ? & [Ho%eqb_eq ->]%ensure_Ok_inv & Hrun).
  apply bind_Ok_inv in Hrun as ([] & ? & [_ ->]%ensure_Ok_inv & Hrun).
  apply bind_Ok_inv in Hrun as (cf & ? & [<- <-]%run_Ok_inv & Hrun).
  apply bind_Ok_inv in Hrun as (now & ? & [<- <-]%run_Ok_inv & Hrun).
  apply bind_Ok_inv in Hrun as (vis & s2 & Hv & Hrun).
  apply bind_Ok_inv in Hrun as ([] & ? & [_ ->]%ensure_Ok_inv & Hrun).
  apply bind_Ok_inv in Hrun as (border & s3 & Hb & Hrun).
  apply bind_Ok_inv in Hrun as (existing & ? & [<- <-]%run_Ok_inv & Hrun).
  apply bind_Ok_inv in Hrun as ([] & ? & [G1%negb_true_iff ->]%ensure_Ok_inv & Hrun).
  apply bind_Ok_inv in Hrun as (off & ? & [<- <-]%run_Ok_inv & Hrun).
  apply bind_Ok_inv in Hrun as ([] & ? & [_ ->]%ensure_Ok_inv & Hrun).
  apply bind_Ok_inv in Hrun as ([] & ? & [G2%negb_true_iff ->]%ensure_Ok_inv & Hrun).
  apply bind_Ok_inv in Hrun as ([] & ? & [G3%negb_true_iff ->]%ensure_Ok_inv & Hrun).
  apply run_Ok_inv in Hrun as [<- <-].
  assert (E1 : tables_eq s s2).
  { change s2 with ((Ok vis, s2).2). rewrite <- Hv.
    destruct (cf_brokerAccess _); [apply neutral_broker; done | done]. }
  assert (E2 : tables_eq s2 s3).
  { change s3 with ((Ok border, s3).2). rewrite <- Hb. by apply neutral_pickedBorder. }
  assert (E : tables_eq s s3) by (by etransitivity).
  split; [done|]. unfold guards_answer. destruct E as (_ & El & _). rewrite El.
  split; [done|]. split; [done|]. split; [done|].
  destruct (find_by_listing_and_driver s3 lid d) as [r|]; [|done].
  apply bool_decide_eq_false in G1. apply eqb_neq in G2, G3. revert G1. set_solver.
Qed.

Lemma neutral_request_guards `{BorderService} d lid b : neutral (request_guards d lid b).
Proof.
  intros s. unfold request_guards, findListing, config, now_, findByListingAndDriver, findActiveOffer.
  preserve; try (by apply neutral_broker); by apply neutral_pickedBorder.
Qed.

Lemma find_by_listing_and_driver_Some s lid d r :
  find_by_listing_and_driver s lid d = Some r ->
  (exists i, ts_requests s !! i = Some r) /\ rq_listingId r = lid /\ rq_driverUserId r = d.
Proof.
  intros [[H1%N.eqb_eq H2%N.eqb_eq]%andb_split Hi]%find_row_Some. auto.
Qed.

Lemma preserves_save_charged d r s :
  Inv s -> listing_ok s r -> started (rq_status r) = false ->
  (strict = true -> forall q, ts_requests s !! rq_id r = Some q -> legal al q r) ->
  Inv (final (save_charged d r) s).
Proof.
  intros Hs Hl Hst Hlg. unfold save_charged, config. apply (at_gets Inv).
  assert (Hn : neutral (if cf_brokerAccess (ts_config s) then brokerAccess (useRequest d) else mret false)).
  { destruct (cf_brokerAccess _); [apply neutral_broker | intros ?; apply preserves_ret]. }
  apply at_neutral; [exact Hn | intros s1 E; by apply (Inv_ext s) |].
  intros charged s1 E _. pose proof (Inv_ext s s1 E Hs) as Hs1. destruct E as (Er & El & _).
  unfold final, try_catch. destruct (save r s1) as [[r1|e] s2] eqn:Es.
  - apply save_Ok_inv in Es as (Hc & -> & ->). apply Inv_put; try done.
    + unfold listing_ok. by rewrite El.
    + by rewrite Hst.
    + intros Hb q. rewrite Er. by apply Hlg.
  - apply save_Err_inv in Es as [_ ->]. apply (preserves_neutral (when charged (brokerAccess (refundRequest d)) ;; throw e)); [|done].
    intros s3. apply preserves_bind; [|intros _; apply preserves_throw].
    apply preserves_when. intros _. apply neutral_broker.
Qed.

Lemma preserves_request `{JsCase} `{BorderService} d lid src f b :
  allows (request_moves d lid) -> preserves Inv (request d lid src f b).
Proof.
  intros Hal s Hs. unfold request, is_broker_card. apply (at_gets Inv).
  generalize (card_broker (ts_profiles s) d). intros broker. apply at_neutral; [apply neutral_request_details | |].
  { intros s1 E. by apply (Inv_ext s). }
  intros driverFor s1 E1 _. apply (Inv_ext s s1 E1) in Hs. clear E1 s. rename s1 into s.
  unfold final. rewrite run_bind. destruct (request_guards d lid b s) as [[g|e] s1] eqn:Eg.
  2: { apply (Inv_ext s); [|done]. pose proof (neutral_final _ s (neutral_request_guards d lid b)) as E.
       unfold final in E. by rewrite Eg in E. }
  apply request_guards_inv in Eg as [E Hg]. apply (Inv_ext s s1 E) in Hs. clear E s. rename s1 into s.
  destruct g as [[l border] existing]. destruct Hg as (Hl & Ho & Hex & Hst).
  rewrite run_bind. unfold get. cbn beta iota zeta.
  set (row := match existing with Some r => r | None => _ end).
  set (r := asked row src driverFor border).
  assert (Hrow : listing_ok s r /\ (strict = true -> forall q, ts_requests s !! rq_id r = Some q -> legal al q r)).
  { pose proof (Inv_rows s Hs) as Hrows. subst r row. destruct existing as [q|].
    - symmetry in Hex. apply find_by_listing_and_driver_Some in Hex as ((i & Hi) & El & Ed).
      split; [exact (ok_company s Hrows i q Hi)|]. intros Hb p Hp. change (rq_id (asked q src driverFor border)) with (rq_id q) in Hp.
      rewrite (ok_ids s Hrows i q Hi), Hi in Hp. injection Hp as <-. constructor; try done.
      apply (Hal Hb). change (rq_status (asked q src driverFor border)) with Pending.
      split; [done|]. split; [done|]. split; [|done]. destruct (rq_status q) eqn:Eq; auto; exfalso; try set_solver.
      assert (li_status l = ListingTaken) by (eapply (proj2 Hs Hb i q l Hi); [by rewrite Eq | by rewrite El]).
      congruence.
    - split; [by exists l|]. intros _ q Hq.
      change (rq_id (asked _ src driverFor border)) with (fresh_id (ts_requests s)) in Hq.
      by rewrite fresh_id_None in Hq. }
  destruct Hrow as [Hlok Hlg].
  pose proof (preserves_save_charged d r s Hs Hlok eq_refl Hlg) as Hsv.
  unfold final in Hsv. rewrite run_bind. destruct (save_charged d r s) as [[full|e] s1]; [|done].
  cbn [snd] in Hsv. revert s1 Hsv. match goal with |- forall s1, Inv s1 -> Inv (snd (?m s1)) => change (preserves Inv m) end.
  tail.
Qed.

Lemma own_open_listing_inv c lid s l s1 :
  own_open_listing c lid s = (Ok l, s1) ->
  s1 = s /\ ts_listings s !! lid = Some l /\ li_publisherUserId l = c /\ li_status l = ListingOpen.
Proof.
  intros H. unfold own_open_listing, findListing in H.
  apply bind_Ok_inv in H as (found & ? & [<- <-]%run_Ok_inv & H).
  apply bind_Ok_inv in H as (l0 & ? & [Hl ->]%some_or_Ok_inv & H).
  apply bind_Ok_inv in H as ([] & ? & [Ho%eqb_eq ->]%ensure_Ok_inv & H).
  apply run_Ok_inv in H as [<- <-].
  destruct (ts_listings s !! lid) as [l1|]; [|done]. cbn [mbind option_bind] in Hl.
  destruct (N.eqb_spec (li_publisherUserId l1) c); [|done]. by injection Hl as ->.
Qed.

Lemma at_own_open_listing {A} c lid (k : CargoListing -> TM A) s :
  Inv s ->
  (forall l, ts_listings s !! lid = Some l -> li_publisherUserId l = c -> li_status l = ListingOpen ->
     Inv (final (k l) s)) ->
  Inv (final (own_open_listing c lid ≫= k) s).
Proof.
  intros Hs Hk. unfold final. rewrite run_bind. destruct (own_open_listing c lid s) as [[l|e] s1] eqn:E.
  - apply own_open_listing_inv in E as (-> & H1 & H2 & H3). by apply Hk.
  - assert (Hn : neutral (own_open_listing c lid)) by (intros s0; unfold own_open_listing, findListing; preserve).
    apply (Inv_ext s); [|done]. pose proof (neutral_final _ s Hn) as Ht. unfold final in Ht. by rewrite E in Ht.
Qed.

Lemma preserves_recorded {A} (fare : option TripFareValues) r c (k : TM A) :
  preserves Inv k ->
  preserves Inv (match fare with Some f => recordAgreed r f c ≫= fun _ => mret tt | None => mret tt end ;; k).
Proof. intros Hk. destruct fare; tail; done. Qed.

(** A load is open, so no request of it runs. *)
Lemma open_not_started s lid l i q :
  Inv s -> strict = true -> ts_listings s !! lid = Some l -> li_status l = ListingOpen ->
  ts_requests s !! i = Some q -> rq_listingId q = lid -> started (rq_status q) = false.
Proof.
  intros Hs Hb Hl Ho Hq El. destruct (started (rq_status q)) eqn:E; [|done].
  assert (li_status l = ListingTaken) by (eapply (proj2 Hs Hb i q l Hq E); by rewrite El). congruence.
Qed.

Lemma preserves_offer c lid d fi : allows (offer_moves c lid d) -> preserves Inv (offer c lid d fi).
Proof.
  intros Hal s Hs. unfold offer, config. apply (at_gets Inv).
  apply (at_neutral Inv).
  { intros s0. destruct fi; [destruct (cf_fares _)|]; tail; try apply preserves_ret.
    apply neutral_read_fare. }
  { intros s1 E. by apply (Inv_ext s). }
  intros fare s1 E _. apply (Inv_ext s s1 E) in Hs. clear E s. rename s1 into s.
  apply at_own_open_listing; [done|]. intros l Hl Hc Ho.
  assert (Hid : li_id l = lid) by (eapply ok_listing_ids; [by apply Inv_rows | done]).
  apply at_ensure; [done|]. intros _. apply at_get. apply at_ensure; [done|]. intros _.
  unfold findActiveOffer. apply (at_gets Inv). apply at_ensure; [done|]. intros _.
  unfold findByListingAndDriver, now_. apply (at_gets Inv). apply (at_gets Inv). cbv zeta.
  set (row := match find_by_listing_and_driver s (li_id l) d with Some r => r | None => _ end).
  set (r := offered (ts_now s) row).
  assert (Hrow : listing_ok s r /\ (strict = true -> forall q, ts_requests s !! rq_id r = Some q -> legal al q r)).
  { pose proof (Inv_rows s Hs) as Hrows. subst r row.
    destruct (find_by_listing_and_driver s (li_id l) d) as [q|] eqn:Eq.
    - apply find_by_listing_and_driver_Some in Eq as ((i & Hi) & El & Ed).
      split; [exact (ok_company s Hrows i q Hi)|]. intros Hb p Hp.
      change (rq_id (offered (ts_now s) q)) with (rq_id q) in Hp.
      rewrite (ok_ids s Hrows i q Hi), Hi in Hp. injection Hp as <-. constructor; try done.
      rewrite Hid in El. pose proof (open_not_started s lid l i q Hs Hb Hl Ho Hi El) as Hns. apply (Hal Hb).
      assert (Hco : rq_companyUserId q = c).
      { destruct (ok_company s Hrows i q Hi) as (l0 & Hl0 & Hp0). rewrite El, Hl in Hl0. injection Hl0 as <-. congruence. }
      split_and!; try done; by intros E; rewrite E in Hns.
    - split; [exists l; change (rq_listingId _) with (li_id l); by rewrite Hid|]. intros _ q Hq.
      change (rq_id (offered _ _)) with (fresh_id (ts_requests s)) in Hq.
      by rewrite fresh_id_None in Hq. }
  destruct Hrow as [Hlok Hlg]. apply at_save; try done.
  apply preserves_recorded. tail.
Qed.

Lemma preserves_expire r s :
  (strict = true -> al r Expired) -> Inv s -> ts_requests s !! rq_id r = Some r -> rq_status r = Offered -> Inv (final (expire r) s).
Proof.
  intros Hal Hs Hr Hst. unfold expire. eapply at_save_row; [done | exact Hr | by constructor | done | done |]. tail.
Qed.

Lemma preserves_expireOffers now : allows expire_moves -> preserves Inv (expireOffers now).
Proof.
  intros Hal s Hs. unfold expireOffers, findExpiredOffers. apply (at_gets Inv).
  set (l := take 100 _).
  assert (Hl : Inv (final (for_each l expire) s)).
  { apply (at_loop expired); [apply expired_map | | done | apply current_rows_take, find_rows_current, Inv_rows, Hs |].
    - intros Hb q Hq. subst l. apply elem_of_take in Hq as (j & Hq%list_elem_of_lookup_2 & _).
      apply elem_of_find_rows in Hq as [[Hq%eqb_eq _]%andb_split _].
      constructor; try done. by apply (Hal Hb).
    - intros s1 q _ Hc. by apply expire_run. }
  unfold final in *. rewrite run_bind. destruct (for_each l expire s) as [[u|e] s1]; done.
Qed.

Lemma preserves_rejectDeliveryReport c i : allows running_moves -> preserves Inv (rejectDeliveryReport c i).
Proof.
  intros Hal s Hs. unfold rejectDeliveryReport. apply at_owned; [done|]. intros r Hr _.
  apply at_ensure; [done|]. intros Hst%eqb_eq. apply at_ensure; [done|]. intros _.
  eapply at_save_row; [done | exact Hr | by constructor | | done |].
  - intros Hb. by apply (Hal Hb).
  - unfold is_broker_card. tail.
Qed.

Lemma preserves_remindDeliveries days now : allows running_moves -> preserves Inv (remindDeliveries days now).
Proof.
  intros Hal s Hs. unfold remindDeliveries, findTripsDueDeliveryReminder. apply (at_gets Inv).
  set (l := find_rows _ _).
  assert (Hl : Inv (final (for_each l (remind now)) s)).
  { apply (at_loop (fun r => r <| rq_deliveryRemindedAt := Some now |>));
      [apply reminded_map | | done | apply find_rows_current, Inv_rows, Hs |].
    - intros Hb q Hq. subst l. apply elem_of_find_rows in Hq as [[Hq%eqb_eq _]%andb_split _].
      constructor; try done. by apply (Hal Hb).
    - intros s1 q _ Hc. by apply remind_run. }
  unfold final in *. rewrite run_bind. destruct (for_each l (remind now) s) as [[u|e] s1]; done.
Qed.

Lemma preserves_deliver u i f : allows (deliver_moves u i) -> preserves Inv (deliver u i f).
Proof.
  intros Hal s Hs. unfold deliver. apply at_owned; [done|]. intros r Hr Hown.
  pose proof (ok_ids s (Inv_rows s Hs) i r Hr) as Hid.
  apply at_ensure; [done|]. intros Hst%eqb_eq. destruct (N.eqb_spec u (rq_driverUserId r)) as [Hu|Hu].
  - unfold report_delivery. destruct (rq_deliveryReportedAt r); [done|]. unfold now_. apply (at_gets Inv).
    eapply at_save_row; [done | exact Hr | by constructor | | done |].
    + intros Hb. apply (Hal Hb). split; [done|]. split; [done|]. by left.
    + unfold is_broker_card. tail.
  - unfold confirm_delivery, config. apply (at_gets Inv). apply (at_neutral Inv).
    { intros s0. destruct (cf_fares _); tail; try apply preserves_ret. apply neutral_read_fare. }
    { intros s1 E. by apply (Inv_ext s). }
    intros fare s1 E1 _. pose proof (Inv_ext s s1 E1 Hs) as Hs1. apply (at_neutral Inv).
    { intros s0. destruct fare; tail; try apply preserves_ret. apply neutral_recordDelivered. }
    { intros s2 E. by apply (Inv_ext s1). }
    intros [] s2 E2 _. pose proof (Inv_ext s1 s2 E2 Hs1) as Hs2. cbv zeta. unfold now_. apply (at_gets Inv).
    set (r1 := r <| rq_status := Delivered |> <| rq_deliveredAt := Some (ts_now s2) |>).
    apply (at_neutral Inv).
    { intros s0. destruct (_ && _); [apply neutral_settleBroker | apply preserves_ret]. }
    { intros s3 E. by apply (Inv_ext s2). }
    intros r2 s3 E3 Hset. pose proof (Inv_ext s2 s3 E3 Hs2) as Hs3.
    assert (Hlg : legal (fun _ _ => True) r r2 /\ rq_status r2 = Delivered).
    { assert (Hr2 : r2 = r1 \/ exists p, r2 = settled r1 fare p).
      { destruct (_ && _); [|left; by apply run_Ok_inv in Hset as [<- _]].
        right. unfold settleBroker in Hset. apply bind_Ok_inv in Hset as (p & s4 & _ & Hset).
        apply run_Ok_inv in Hset as [<- _]. eauto. }
      destruct Hr2 as [->|[p ->]]; [|destruct fare]; (split; [by constructor | done]). }
    destruct Hlg as [Hlg Hdl]. eapply at_save_row; [done | | exact Hlg | | intros _; by rewrite Hst |].
    + destruct E3 as (E3 & _), E2 as (E2 & _), E1 as (E1 & _). rewrite E3, E2, E1. exact Hr.
    + intros Hb. rewrite Hdl. apply (Hal Hb). split; [done|]. split; [done|]. right. split; [|done].
      apply orb_true_iff in Hown as [Ho%N.eqb_eq|Ho%N.eqb_eq]; [congruence | done].
    + unfold is_broker_card. tail.
Qed.

Lemma preserves_cancelTrip c i : allows (cancelTrip_moves c i) -> preserves Inv (cancelTrip c i).
Proof.
  intros Hal s Hs. unfold cancelTrip. apply at_owned; [done|]. intros r Hr Hco%N.eqb_eq.
  pose proof (ok_ids s (Inv_rows s Hs) i r Hr) as Hid.
  apply at_ensure; [done|]. intros Hst%eqb_eq. cbv zeta. unfold now_. apply (at_gets Inv).
  eapply at_save_row; [done | exact Hr | by constructor | | done |].
  { intros Hb. apply (Hal Hb). left. by split_and!. }
  apply preserves_bind.
  { destruct (rq_decidedAt r) as [since|]; [|apply preserves_ret]. intros s1 Hs1.
    unfold findTakenOver. apply (at_gets Inv).
    apply (at_loop waiting_again); [apply waiting_again_map | | done | apply find_rows_current, Inv_rows, Hs1 |].
    - intros Hb q Hq. apply elem_of_find_rows in Hq as [Hq _]. unfold taken_over in Hq.
      apply andb_split in Hq as [[[_ Hq%eqb_eq]%andb_split Hne%negb_true_iff%N.eqb_neq]%andb_split _].
      autorewrite with written in Hne. change (rq_id (trip_off _ r)) with (rq_id r) in Hne. rewrite Hid in Hne.
      constructor; try done. apply (Hal Hb). right. by split_and!.
    - intros s2 q _ Hc. by apply wait_again_run. }
  intros _. apply preserves_bind; [apply preserves_setStatus|]. intros _. unfold is_broker_card. tail.
Qed.

(** ** Handlers that start a trip *)

(** The requests turned down with a trip *)
Definition turn_down_moves (r : CargoRequest) : moves := fun q st =>
  rq_id q <> rq_id r /\ rq_companyUserId q = rq_companyUserId r /\ rq_status q = Pending /\ st = Rejected.

(** A trip saved as started: its load is then taken, whatever neutral steps are between. *)
Lemma accept_block s r s1 :
  allows (turn_down_moves r) -> Inv s -> can_save s r = true -> listing_ok s r ->
  (strict = true -> forall q, ts_requests s !! rq_id r = Some q -> legal al q r) ->
  tables_eq (put_request s r) s1 ->
  exists s2, completeAssignment (written s r) s1 = (Ok tt, s2) /\ Inv s2.
Proof.
  intros Hal [H1 H2] Hc Hl Hlg (Er & El & _).
  pose proof (cl_put _ _ _ HR s r H1 Hc Hl Hlg) as HP. pose proof (cl_ext _ _ _ HR _ s1 Er El HP) as HR1.
  assert (Hl1 : listing_ok s1 (written s r)).
  { unfold listing_ok. rewrite El. autorewrite with written. exact Hl. }
  assert (Hturn : strict = true -> forall q, rq_id q <> rq_id (written s r) -> rq_companyUserId q = rq_companyUserId (written s r) ->
    rq_listingId q = rq_listingId (written s r) -> rq_status q = Pending -> al q Rejected).
  { autorewrite with written. intros Hb q Hq Hco _ Hst. by apply (Hal Hb). }
  destruct (completeAssignment_run al strict R HR s1 (written s r) Hturn HR1 Hl1)
    as (s2 & Hrun & HR2 & _ & (l1 & Hli1 & Htk) & Hoth & Hreq).
  exists s2. split; [done|]. split; [done|]. intros Hb i q l Hq Hst Hli. specialize (H2 Hb).
  rewrite Hreq in Hq. apply fmap_Some in Hq as (q0 & Hq0 & ->).
  unfold after_assignment in *. destruct (other_pending _ _ q0).
  { autorewrite with written in Hst. done. }
  rewrite written_listing in Hli1, Hoth.
  destruct (base.decide (rq_listingId q0 = rq_listingId r)) as [E|Hne].
  { rewrite E, Hli1 in Hli. by injection Hli as <-. }
  rewrite Hoth, El in Hli by done. rewrite Er in Hq0.
  change (ts_requests (put_request s r)) with (<[rq_id r := written s r]> (ts_requests s)) in Hq0.
  rewrite lookup_insert in Hq0. case_decide.
  - injection Hq0 as <-. by autorewrite with written in Hne.
  - by eapply H2.
Qed.

(** The tail of a started trip: the block between neutral steps. *)
Lemma accept_tail {A B} (m1 : TM A) (m2 : TM B) s r :
  allows (turn_down_moves r) -> Inv s -> can_save s r = true -> listing_ok s r ->
  (strict = true -> forall q, ts_requests s !! rq_id r = Some q -> legal al q r) ->
  neutral m1 -> (exists s1 a, m1 (put_request s r) = (Ok a, s1)) -> neutral m2 ->
  Inv (final (m1 ≫= fun _ => completeAssignment (written s r) ≫= fun _ => m2) (put_request s r)).
Proof.
  intros Hal Hs Hc Hl Hlg Hm1 (s1 & a & E1) Hm2. unfold final. rewrite run_bind, E1, run_bind.
  assert (Ht : tables_eq (put_request s r) s1).
  { pose proof (neutral_final m1 (put_request s r) Hm1) as H. unfold final in H. by rewrite E1 in H. }
  destruct (accept_block s r s1 Hal Hs Hc Hl Hlg Ht) as (s2 & -> & Hs2).
  by apply (preserves_neutral m2).
Qed.

Lemma preserves_respondOffer d i a : allows (respond_moves d i a) -> preserves Inv (respondOffer d i a).
Proof.
  intros Hal s Hs. unfold respondOffer. apply at_owned; [done|]. intros r Hr Hd%N.eqb_eq.
  pose proof (Inv_rows s Hs) as Hrows. pose proof (ok_ids s Hrows i r Hr) as Hid. apply at_ensure; [done|]. intros Hst%eqb_eq. unfold now_. apply (at_gets Inv).
  destruct (offer_over (ts_now s) r).
  { subst i. assert (He : strict = true -> al r Expired) by (intros Hb; apply (Hal Hb); left; split_and!; auto).
    unfold final. rewrite run_bind. pose proof (preserves_expire r s He Hs Hr Hst) as H. unfold final in H.
    by destruct (expire r s) as [[u|e] s1]. }
  set (r1 := offer_answered a (ts_now s) r).
  unfold final. rewrite run_bind. destruct (saveTrip r1 s) as [[r2|e] s1] eqn:E.
  2: { revert E. rewrite saveTrip_run. destruct (exists_row _ _); [by intros [= _ <-]|].
       destruct (_ && _); [done|]. by intros [= _ <-]. }
  apply saveTrip_Ok_inv in E as (Hc & -> & ->).
  assert (Hlg : strict = true -> legal al r r1).
  { intros Hb. constructor; try done. apply (Hal Hb). left. split_and!; auto. }
  assert (Hturn : a = true -> allows (turn_down_moves r1)).
  { intros -> Hb q st (Hq & _ & Hp & ->). apply (Hal Hb). right. change (rq_id r1) with (rq_id r) in Hq. rewrite Hid in Hq. by split_and!. }
  assert (Hl : listing_ok s r1) by (unfold listing_ok; apply (ok_company s Hrows i r Hr)).
  assert (Hlg' : strict = true -> forall q, ts_requests s !! rq_id r1 = Some q -> legal al q r1).
  { intros Hb q Hq. change (rq_id r1) with (rq_id r) in Hq. rewrite Hid, Hr in Hq. injection Hq as <-. by apply Hlg. }
  destruct a.
  - match goal with |- Inv (snd ((?m ≫= ?k) _)) => set (m0 := m); set (k0 := k) end.
    unfold m0. rewrite run_bind.
    destruct (accept_block s r1 (put_request s r1) (Hturn eq_refl) Hs Hc Hl Hlg' ltac:(reflexivity)) as (s2 & E2 & Hs2).
    rewrite run_bind, E2. cbn beta iota.
    match goal with |- context [notify ?a ?b ?c ?d ?e ?f ?g ?s] =>
      destruct (notify_run a b c d e f g s) as (n1 & _ & _ & _ & _ & ->) end.
    assert (Hk : preserves Inv (k0 tt)) by (unfold k0; tail). apply Hk.
    by apply (Inv_ext s2).
  - assert (HP : Inv (put_request s r1)) by (by apply Inv_put).
    revert HP. match goal with |- Inv ?s -> Inv (snd (?m ?s)) => intros HP; apply (preserves_bind Inv) end.
    + tail. 
    + intros _. tail.
    + exact HP.
Qed.

(** What [decide_commit] saves. *)
Lemma accept_model_inv c deal r s r1 s1 :
  accept_model c deal r s = (Ok r1, s1) ->
  s1 = s /\ (r1 = r \/ exists m, r1 = r <| rq_brokerPayModel := m |>).
Proof.
  unfold accept_model. intros H. destruct (rq_forDriver r).
  2: { apply run_Ok_inv in H as [<- <-]. auto. }
  destruct (picked_model deal) as [m|].
  { apply run_Ok_inv in H as [<- <-]. eauto. }
  unfold config in H. apply bind_Ok_inv in H as (cf & ? & [<- <-]%run_Ok_inv & H).
  apply bind_Ok_inv in H as (m & s2 & Hm & H). apply run_Ok_inv in H as [<- <-].
  destruct (cf_fares _); apply run_Ok_inv in Hm as [_ <-]; eauto.
Qed.

Definition decided_row (a : bool) (now : time) (r r1 : CargoRequest) : Prop :=
  exists m, r1 = r <| rq_brokerPayModel := m |> <| rq_status := if a then Accepted else Rejected |>
                   <| rq_decidedAt := Some now |>.

Lemma neutral_record_fare (fare : option TripFareValues) r c :
  neutral (match fare with Some f => recordAgreed r f c ≫= fun _ => mret tt | None => mret tt end).
Proof. intros s0. destruct fare; tail; try apply preserves_ret. apply neutral_recordAgreed. Qed.

(** A commit leaves the tables as they were, or writes the decided row. *)
Lemma decide_commit_cases c a fare deal r s :
  exists s1, tables_eq s s1 /\
    ((exists e, decide_commit c a fare deal r s = (Err e, s1)) \/
     (exists r1, decided_row a (ts_now s) r r1 /\ can_save s1 r1 = true /\
        decide_commit c a fare deal r s = (Ok (written s1 r1), put_request s1 r1))).
Proof.
  unfold decide_commit. rewrite run_bind.
  pose proof (neutral_final _ s (neutral_record_fare fare r c)) as E. unfold final in E.
  destruct ((match fare with Some f => recordAgreed r f c ≫= fun _ => mret tt | None => mret tt end : TM unit) s)
    as [[[]|e] s1]; [|exists s1; eauto].
  exists s1. split; [done|]. cbn [snd] in E. rewrite run_bind.
  destruct ((if a then accept_model c deal r else mret r) s1) as [[r1|e] s2] eqn:Em.
  - assert (Hr1 : s2 = s1 /\ (r1 = r \/ exists m, r1 = r <| rq_brokerPayModel := m |>)).
    { destruct a; [by apply accept_model_inv in Em|]. apply run_Ok_inv in Em as [<- <-]. auto. }
    destruct Hr1 as [-> Hr1]. rewrite run_bind. unfold now_, gets. cbn beta iota.
    rewrite saveTrip_run. set (r2 := r1 <| rq_status := _ |> <| rq_decidedAt := _ |>).
    destruct (exists_row (clashes r2) (ts_requests s1)) eqn:E1; [eauto|].
    destruct (bigint_ok (rq_brokerCommission r2) && bigint_ok (rq_brokerMargin r2)) eqn:E2; [|eauto].
    right. exists r2. split; [|split; [unfold can_save; by rewrite E1, E2 | done]].
    assert (En : ts_now s1 = ts_now s) by apply E. subst r2. rewrite En.
    destruct Hr1 as [->|[m ->]]; [exists (rq_brokerPayModel r) | exists m]; by destruct r.
  - left. destruct a; [|done]. revert Em. unfold accept_model. destruct (rq_forDriver r); [|done].
    destruct (picked_model deal); [done|]. unfold config, gets. rewrite run_bind. cbn beta iota.
    destruct (cf_fares _); done.
Qed.

Lemma neutral_read_deal a deal : neutral (read_deal a deal).
Proof. intros s. unfold read_deal, config. tail; try apply preserves_ret. apply neutral_read_fare. Qed.

Lemma neutral_decide_guards c i a : neutral (decide_guards c i a).
Proof. intros s. unfold decide_guards, owned, findById, listing_of, findActiveOffer. preserve. Qed.

Lemma decide_guards_inv c i a s r s1 :
  decide_guards c i a s = (Ok r, s1) ->
  s1 = s /\ ts_requests s !! i = Some r /\ rq_companyUserId r = c /\ rq_status r = Pending /\
  (a = true -> active_offer s (rq_listingId r) = None /\
     exists l, ts_listings s !! rq_listingId r = Some l /\ li_status l = ListingOpen).
Proof.
  intros H. unfold decide_guards in H.
  apply bind_Ok_inv in H as (r0 & ? & (-> & Hr & Hc%N.eqb_eq)%owned_Ok_inv & H).
  apply bind_Ok_inv in H as ([] & ? & [Hst%eqb_eq ->]%ensure_Ok_inv & H).
  destruct a; [|apply run_Ok_inv in H as [<- <-]; auto 10; done].
  unfold listing_of, findActiveOffer in H. 
  apply bind_Ok_inv in H as (l & s2 & Hl & H). apply bind_Ok_inv in Hl as (? & ? & [<- <-]%run_Ok_inv & Hl).
  apply some_or_Ok_inv in Hl as [Hl ->].
  apply bind_Ok_inv in H as ([] & ? & [Ho%eqb_eq ->]%ensure_Ok_inv & H).
  apply bind_Ok_inv in H as (o & ? & [<- <-]%run_Ok_inv & H).
  apply bind_Ok_inv in H as ([] & ? & [Hn ->]%ensure_Ok_inv & H).
  apply run_Ok_inv in H as [<- <-]. split; [done|]. split; [done|]. split; [done|]. split; [done|].
  intros _. split; [by destruct (active_offer s (rq_listingId r0)) | eauto].
Qed.

Lemma decided_row_legal mv a now r r1 :
  decided_row a now r r1 -> (mv : moves) r (if a then Accepted else Rejected) -> legal mv r r1.
Proof. by intros [m ->] Hmv. Qed.

Lemma decided_row_status (a : bool) now r r1 :
  decided_row a now r r1 -> rq_status r1 = if a then Accepted else Rejected.
Proof. by intros [m ->]. Qed.

(** The announcement of a decision just committed. *)
Lemma announce_commit c (a : bool) fare s r1 :
  (a = true -> allows (turn_down_moves r1)) -> Inv s -> can_save s r1 = true -> listing_ok s r1 ->
  (strict = true -> forall q, ts_requests s !! rq_id r1 = Some q -> legal al q r1) ->
  rq_status r1 = (if a then Accepted else Rejected) ->
  Inv (final (decide_announce c a fare (written s r1)) (put_request s r1)).
Proof.
  intros Hal Hs Hc Hl Hlg Hst. unfold decide_announce, is_broker_card. apply (at_gets Inv).
  destruct a.
  - specialize (Hal eq_refl). set (card := card_broker _ _). cbn [andb]. cbv zeta.
    destruct card; (apply accept_tail; try done; [apply neutral_notify | | intros s0; tail; apply neutral_changed]).
    all: do 2 eexists; reflexivity.
  - cbn [andb]. cbv zeta.
    assert (HP : Inv (put_request s r1)) by (apply Inv_put; try done; by rewrite Hst).
    revert HP. match goal with |- Inv ?s -> Inv (final ?m ?s) => intros HP; cut (preserves Inv m); [auto|] end.
    tail.
Qed.

Lemma preserves_decide c i a deal : allows (decide_moves c i a) -> preserves Inv (decide c i a deal).
Proof.
  intros Hal s Hs. unfold decide. apply (at_neutral Inv); [apply neutral_read_deal | intros s1 E; by apply (Inv_ext s) |].
  intros fare s1 E _. apply (Inv_ext s s1 E) in Hs. clear E s. rename s1 into s.
  apply (at_neutral Inv); [apply neutral_decide_guards | intros s1 E; by apply (Inv_ext s) |].
  intros r s1 _ Hg. apply decide_guards_inv in Hg as (-> & Hr & Hc & Hst & _).
  unfold final. rewrite run_bind.
  destruct (decide_commit_cases c a fare deal r s) as (s1 & E & [(e & ->)|(r1 & Hd & Hsv & ->)]).
  { by apply (Inv_ext s). }
  assert (Hs1 : Inv s1) by (by apply (Inv_ext s)).
  pose proof (Inv_rows s1 Hs1) as Hrows.
  assert (Hr1 : ts_requests s1 !! i = Some r) by (destruct E as [-> _]; exact Hr).
  pose proof (ok_ids s1 Hrows i r Hr1) as Hid. pose proof (decided_row_status _ _ _ _ Hd) as Hst1.
  assert (Hlg0 : legal (fun _ _ => True) r r1) by (by apply (decided_row_legal _ a (ts_now s))).
  assert (Hlg : strict = true -> legal al r r1).
  { intros Hb. apply (decided_row_legal _ a (ts_now s)); [done|]. apply (Hal Hb). split; [done|]. split; [done|]. by left. }
  apply (announce_commit c a fare s1 r1); [ | done | done | | | done].
  - intros -> Hb q st (Hq & Hco & Hp & ->). apply (Hal Hb). rewrite (lg_id _ _ _ Hlg0), Hid in Hq. rewrite (lg_company _ _ _ Hlg0) in Hco.
    split; [congruence|]. split; [done|]. by right.
  - unfold listing_ok. destruct Hlg0 as [_ -> _ -> _]. by eapply ok_company.
  - intros Hb q Hq. rewrite (lg_id _ _ _ Hlg0), Hid, Hr1 in Hq. injection Hq as <-. by apply Hlg.
Qed.

End Handlers.
