(* ===== verification/TripSystem.v ===== *)
(** * The trips as a system

    Any sequence of handlers, and the interleaving of answers that passed their checks
    on an older state: what every reachable state satisfies. *)

From S2P Require Import Prelude JsNumber JsString Effects Enums BrokerDriver TripFareRules.
From S2P Require Import BrokerAccess DriverProfile CargoData TripFareService CargoTrip.
From S2P Require Import CargoTripFacts TripInvariant.

(** ** Handlers *)

Section System.
  Context `{JsCase} `{BorderService}.

(** The requests of the outside world: the handlers, the company's own «taken / open»,
    anything of the broker service, and time passing. *)
Inductive trip_op :=
| OpRequest (driver listing : uuid) (source : option string)
    (forDriver : option (BrokerDriverField -> option text)) (border : option text)
| OpCancel (driver request : uuid)
| OpDecide (company request : uuid) (accept : bool) (deal : option Deal)
| OpOffer (company listing driver : uuid) (fare : option TripFareInput)
| OpRespond (driver request : uuid) (accept : bool)
| OpExpireOffers
| OpDeliver (user request : uuid) (fare : option TripFareInput)
| OpCancelTrip (company request : uuid)
| OpRejectReport (company request : uuid)
| OpRemind (days : Z)
| OpRequestLocation (company request : uuid)
| OpSetStatus (company listing : uuid) (status : CargoListingStatus)
| OpBrokerService (m : BM unit)
| OpTick (ms : Z).

Definition quiet {A} (m : TM A) : TM unit := m ≫= fun _ => mret tt.

Definition exec_trip (op : trip_op) : TM unit :=
  match op with
  | OpRequest d l src f b => quiet (request d l src f b)
  | OpCancel d i => quiet (cancel d i)
  | OpDecide c i a deal => quiet (decide c i a deal)
  | OpOffer c l d f => quiet (offer c l d f)
  | OpRespond d i a => quiet (respondOffer d i a)
  | OpExpireOffers => now ← now_; quiet (expireOffers now)
  | OpDeliver u i f => quiet (deliver u i f)
  | OpCancelTrip c i => quiet (cancelTrip c i)
  | OpRejectReport c i => quiet (rejectDeliveryReport c i)
  | OpRemind days => now ← now_; quiet (remindDeliveries days now)
  | OpRequestLocation c i => quiet (requestLocation c i)
  | OpSetStatus c l st => setStatus c l st
  | OpBrokerService m => brokerAccess m
  | OpTick ms => modify (fun s => s <| ts_now := ts_now s + ms |>)
  end.

Definition run_trips (ops : list trip_op) (s : trip_state) : trip_state :=
  foldl (fun s op => final (exec_trip op) s) s ops.

(** ** Interleaving

    The company's answers race: an answer first reads and checks ([decide_guards]),
    then saves what it read ([decide_commit]), then tells the others; anything may
    happen in between. *)
Record answer := mkAnswer {
  an_company : uuid;
  an_accept : bool;
  an_fare : option TripFareValues;
  an_deal : option Deal;
  an_row : CargoRequest;
}.

Record system := mkSystem {
  sy_state : trip_state;
  sy_checked : list answer;
  sy_saved : list answer;
  sy_replies : list (uuid * outcome unit);
}.

Inductive step : system -> system -> Prop :=
| step_handler op s cs ss rs :
    step (mkSystem s cs ss rs) (mkSystem (final (exec_trip op) s) cs ss rs)
| step_check c i a deal fare r s s1 s2 cs ss rs :
    read_deal a deal s = (Ok fare, s1) ->
    decide_guards c i a s1 = (Ok r, s2) ->
    step (mkSystem s cs ss rs) (mkSystem s2 (mkAnswer c a fare deal r :: cs) ss rs)
| step_save x s s1 cs1 cs2 ss rs r :
    decide_commit (an_company x) (an_accept x) (an_fare x) (an_deal x) (an_row x) s = (Ok r, s1) ->
    step (mkSystem s (cs1 ++ x :: cs2) ss rs)
         (mkSystem s1 (cs1 ++ cs2)
            (mkAnswer (an_company x) (an_accept x) (an_fare x) (an_deal x) r :: ss)
            ((rq_id r, Ok tt) :: rs))
| step_refused x s s1 cs1 cs2 ss rs e :
    decide_commit (an_company x) (an_accept x) (an_fare x) (an_deal x) (an_row x) s = (Err e, s1) ->
    step (mkSystem s (cs1 ++ x :: cs2) ss rs)
         (mkSystem s1 (cs1 ++ cs2) ss ((rq_id (an_row x), Err e) :: rs))
| step_tell x s ss1 ss2 cs rs :
    step (mkSystem s cs (ss1 ++ x :: ss2) rs)
         (mkSystem (final (decide_announce (an_company x) (an_accept x) (an_fare x) (an_row x)) s)
            cs (ss1 ++ ss2) rs).

Definition reachable (s0 : trip_state) : system -> Prop := rtc step (mkSystem s0 [] [] []).

(** ** Every handler keeps the invariant *)

Lemma preserves_quiet {A} (I : trip_state -> Prop) (m : TM A) : preserves I m -> preserves I (quiet m).
Proof. intros Hm. apply preserves_bind; [done|]. intros _. apply preserves_ret. Qed.

Lemma preserves_tick al b R (HR : closed al b R) ms :
  preserves (Inv b R) (modify (fun s => s <| ts_now := ts_now s + ms |>)).
Proof.
  apply preserves_modify. intros s [H1 H2]. split; [by apply (cl_ext _ _ _ HR s)|].
  intros Hb. by apply (taken_ok_ext s), H2.
Qed.

(** Which requests an operation may move, and to which status *)
Definition op_moves (op : trip_op) : moves :=
  match op with
  | OpRequest d l _ _ _ => request_moves d l
  | OpCancel d i => cancel_moves d i
  | OpDecide c i a _ => decide_moves c i a
  | OpOffer c l d _ => offer_moves c l d
  | OpRespond d i a => respond_moves d i a
  | OpExpireOffers => expire_moves
  | OpDeliver u i _ => deliver_moves u i
  | OpCancelTrip c i => cancelTrip_moves c i
  | OpRejectReport _ _ | OpRemind _ => running_moves
  | OpRequestLocation _ _ | OpSetStatus _ _ _ | OpBrokerService _ | OpTick _ => no_moves
  end.

Lemma preserves_exec_trip al b R (HR : closed al b R) op : allows al b (op_moves op) -> preserves (Inv b R) (exec_trip op).
Proof.
  intros Hal. destruct op; cbn [exec_trip op_moves] in *.
  - apply preserves_quiet. by apply (preserves_request al b R HR).
  - apply preserves_quiet. by apply (preserves_cancel al b R HR).
  - apply preserves_quiet. by apply (preserves_decide al b R HR).
  - apply preserves_quiet. by apply (preserves_offer al b R HR).
  - apply preserves_quiet. by apply (preserves_respondOffer al b R HR).
  - apply (preserves_gets_bind (Inv b R)). intros s _. apply preserves_quiet. by apply (preserves_expireOffers al b R HR).
  - apply preserves_quiet. by apply (preserves_deliver al b R HR).
  - apply preserves_quiet. by apply (preserves_cancelTrip al b R HR).
  - apply preserves_quiet. by apply (preserves_rejectDeliveryReport al b R HR).
  - apply (preserves_gets_bind (Inv b R)). intros s _. apply preserves_quiet. by apply (preserves_remindDeliveries al b R HR).
  - apply preserves_quiet. apply (preserves_neutral al b R HR), neutral_requestLocation.
  - by apply (preserves_setStatus al b R HR).
  - apply (preserves_neutral al b R HR), neutral_broker.
  - by apply (preserves_tick al b R HR).
Qed.

(** What some operation may do *)
Definition any_moves : moves := fun q st => exists op, op_moves op q st.

Lemma preserves_run_trips b R (HR : closed any_moves b R) ops s : Inv b R s -> Inv b R (run_trips ops s).
Proof.
  revert s. induction ops as [|op ops IH]; intros s Hs; [done|]. apply IH.
  apply (preserves_exec_trip any_moves b R HR op); [|done]. intros _ q st Hm. by exists op.
Qed.

Lemma Inv_trips_ok s : trips_ok s <-> Inv true rows_ok s.
Proof. unfold trips_ok, Inv. naive_solver. Qed.

Lemma trips_ok_run ops s : trips_ok s -> trips_ok (run_trips ops s).
Proof. rewrite !Inv_trips_ok. apply preserves_run_trips, rows_ok_closed. Qed.

(** ** Closed invariants about one starting state *)

Definition same_request (q r : CargoRequest) : Prop :=
  rq_id r = rq_id q /\ rq_listingId r = rq_listingId q /\
  rq_driverUserId r = rq_driverUserId q /\ rq_companyUserId r = rq_companyUserId q.

(** An operation does not move a request twice, and looks at who it is and where it stands. *)
Lemma op_moves_once op q p st st2 : same_request q p -> op_moves op q st -> rq_status p = st -> op_moves op p st2 -> op_moves op q st2.
Proof.
  intros (E1 & E2 & E3 & E4) Hq <- Hp. destruct op; cbn [op_moves] in *;
    unfold request_moves, cancel_moves, decide_moves, offer_moves, expire_moves, respond_moves, deliver_moves, cancelTrip_moves, running_moves, no_moves in *;
    try (exfalso; by naive_solver).
  all: destruct_and?; split_and?; try congruence; naive_solver congruence.
Qed.

Lemma op_moves_same op q p st : same_request q p -> rq_status p = rq_status q -> op_moves op p st -> op_moves op q st.
Proof.
  intros (E1 & E2 & E3 & E4) E. destruct op; cbn [op_moves];
    unfold request_moves, cancel_moves, decide_moves, offer_moves, expire_moves, respond_moves, deliver_moves, cancelTrip_moves, running_moves, no_moves;
    by rewrite ?E1, ?E2, ?E3, ?E4, ?E.
Qed.

(** Every request of [s0] is still there, itself, where it stood or moved once. *)
Definition moved_by (op : trip_op) (s0 s : trip_state) : Prop :=
  rows_ok s /\ forall i q, ts_requests s0 !! i = Some q ->
    exists r, ts_requests s !! i = Some r /\ same_request q r /\ (rq_status r = rq_status q \/ op_moves op q (rq_status r)).

Lemma moved_by_closed op s0 : closed (op_moves op) true (moved_by op s0).
Proof.
  constructor.
  - by intros s [? _].
  - intros s s1 E1 E2 [Hr Hm]. split; [by apply (rows_ok_ext s)|]. by rewrite E1.
  - intros s r [Hr Hm] Hc Hl Hlg. split; [by apply put_rows_ok|]. intros i q Hq.
    destruct (Hm i q Hq) as (p & Hp & Hsame & Hmv). pose proof Hsame as (S1 & S2 & S3 & S4).
    change (ts_requests (put_request s r)) with (<[rq_id r := written s r]> (ts_requests s)).
    destruct (base.decide (i = rq_id r)) as [->|Hne].
    + rewrite lookup_insert_eq. eexists. split; [done|]. destruct (Hlg eq_refl p Hp) as [L1 L2 L3 L4 L5].
      unfold same_request. autorewrite with written. split; [by rewrite L1, L2, L3, L4|].
      right. destruct Hmv as [E|Hmv]; [by apply (op_moves_same op q p) | by apply (op_moves_once op q p (rq_status p))].
    + rewrite lookup_insert_ne by done. exists p. split; [done|]. by split.
  - intros s s1 [Hr Hm] Hr1 E _. split; [done|]. by rewrite E.
Qed.

(** A row that stays exactly as it is. *)
Definition row_fixed (i : uuid) (q : CargoRequest) (s : trip_state) : Prop :=
  rows_ok s /\ ts_requests s !! i = Some q.

Lemma row_fixed_closed i q : rq_status q = Delivered -> closed any_moves true (row_fixed i q).
Proof.
  intros Hst. constructor.
  - by intros s [? _].
  - intros s s1 E1 E2 [Hr Hm]. split; [by apply (rows_ok_ext s)|]. by rewrite E1.
  - intros s r [Hr Hm] Hc Hl Hlg. split; [by apply put_rows_ok|].
    change (ts_requests (put_request s r)) with (<[rq_id r := written s r]> (ts_requests s)).
    destruct (base.decide (i = rq_id r)) as [->|Hne]; [|by rewrite lookup_insert_ne].
    destruct (Hlg eq_refl q Hm) as [_ _ _ _ [op L]]. exfalso. destruct op; cbn [op_moves] in L;
      unfold request_moves, cancel_moves, decide_moves, offer_moves, expire_moves, respond_moves, deliver_moves, cancelTrip_moves, running_moves, no_moves in L;
      rewrite ?Hst in L; naive_solver.
  - intros s s1 [Hr Hm] Hr1 E _. split; [done|]. by rewrite E.
Qed.

(** A load with the company that published it. *)
Definition with_listing (r : CargoRequest) (s : trip_state) : Prop := rows_ok s /\ listing_ok s r.

Lemma with_listing_closed al b r : closed al b (with_listing r).
Proof.
  constructor.
  - by intros s [? _].
  - intros s s1 E1 E2 [Hr Hl]. split; [by apply (rows_ok_ext s)|]. unfold listing_ok. by rewrite E2.
  - intros s r' [Hr Hm] Hc Hl _. split; [by apply put_rows_ok|]. exact Hm.
  - intros s s1 [Hr (l & Hl & Hp)] Hr1 E Hk. split; [done|].
    destruct (Hk _ _ Hl) as (l1 & Hl1 & Hp1). exists l1. by rewrite Hp1.
Qed.

(** ** The interleaved system *)

(** A late announcement keeps the invariant of the rows. *)
Lemma announce_rows al R (HR : closed al false R) c a fare r s :
  R s -> listing_ok s r -> R (final (decide_announce c a fare r) s).
Proof.
  intros Hs Hl.
  assert (Hn : forall A (m : TM A), neutral m -> preserves R m).
  { intros A m Hm s1 Hs1. destruct (neutral_final m s1 Hm) as (E1 & E2 & _). by apply (cl_ext _ _ _ HR s1). }
  assert (Hblock : forall acts key, R (final (notify (rq_driverUserId r) key r (Some c) fare acts None ;;
            completeAssignment r ;; changed r None (Some key) ;; mret r) s)).
  { intros acts key. unfold final. rewrite run_bind.
    destruct (notify_run (rq_driverUserId r) key r (Some c) fare acts None s) as (n & _ & _ & _ & _ & ->).
    rewrite run_bind.
    assert (Hs1 : R (sent s [SentNotice n])) by (by apply (cl_ext _ _ _ HR s)).
    destruct (completeAssignment_run al false R HR _ r ltac:(done) Hs1 Hl) as (s2 & -> & HR2 & _).
    apply (Hn _ (changed r None (Some key) ;; mret r)); [|done].
    intros s0. apply preserves_bind; [apply neutral_changed | intros _; apply preserves_ret]. }
  unfold decide_announce, is_broker_card. apply (at_gets R).
  destruct a; cbn [andb]; cbv zeta; [destruct (card_broker _ _); apply Hblock|].
  apply Hn; [|done]. intros s0. apply preserves_bind; [apply neutral_notify|]. intros _.
  apply preserves_bind; [apply neutral_changed | intros _; apply preserves_ret].
Qed.

Lemma commit_rows al R (HR : closed al false R) c a fare deal r s o s1 :
  R s -> listing_ok s r -> decide_commit c a fare deal r s = (o, s1) ->
  R s1 /\ match o with Ok r1 => listing_ok s1 r1 | Err _ => True end.
Proof.
  intros Hs Hl E.
  destruct (decide_commit_cases c a fare deal r s) as (s2 & (E1 & E2 & _) & [(e & Ec)|(r1 & [m Hd] & Hsv & Ec)]);
    rewrite Ec in E; injection E as <- <-.
  - split; [|done]. by apply (cl_ext _ _ _ HR s).
  - assert (Hl1 : listing_ok s2 r1) by (subst r1; unfold listing_ok; by rewrite E2).
    split; [|unfold listing_ok; autorewrite with written; exact Hl1].
    apply (cl_put _ _ _ HR); [by apply (cl_ext _ _ _ HR s) | done | done | done].
Qed.

Definition sys_ok (y : system) : Prop :=
  rows_ok (sy_state y) /\
  (forall x, x ∈ sy_checked y -> listing_ok (sy_state y) (an_row x)) /\
  (forall x, x ∈ sy_saved y -> listing_ok (sy_state y) (an_row x)).

(** Any closed invariant is kept by a step that keeps the rows; here, of one answer. *)
Lemma step_keeps al y y1 R (HR : closed al false R) :
  step y y1 -> sys_ok y -> R (sy_state y) -> R (sy_state y1).
Proof.
  intros Hst (Hr & Hc & Hs) HRy. destruct Hst; simpl in *.
  - destruct (preserves_exec_trip al false R HR op ltac:(done) s) as [? _]; [by split | done].
  - pose proof (neutral_final _ s (neutral_read_deal a deal)) as E1. unfold final in E1. rewrite H1 in E1.
    apply decide_guards_inv in H2 as (-> & _). destruct E1 as (E1 & E2 & _). by apply (cl_ext _ _ _ HR s).
  - apply (commit_rows al R HR) in H1 as [? _]; [done | done | apply Hc; set_solver].
  - apply (commit_rows al R HR) in H1 as [? _]; [done | done | apply Hc; set_solver].
  - apply (announce_rows al); [done | done | apply Hs; set_solver].
Qed.

Lemma sys_ok_step y y1 : step y y1 -> sys_ok y -> sys_ok y1.
Proof.
  intros Hst Hy. pose proof Hy as (Hr & Hc & Hs).
  assert (Hk : forall r, listing_ok (sy_state y) r -> listing_ok (sy_state y1) r).
  { intros r Hl. by apply (step_keeps no_moves y y1 (with_listing r) (with_listing_closed no_moves false r) Hst Hy). }
  split; [by apply (step_keeps no_moves y y1 rows_ok (rows_ok_closed no_moves false) Hst Hy)|].
  destruct Hst; simpl in *.
  - auto.
  - split; [|auto]. intros x [->|Hx]%elem_of_cons; [|auto]. simpl.
    pose proof (neutral_final _ s (neutral_read_deal a deal)) as E1. unfold final in E1. rewrite H1 in E1.
    apply decide_guards_inv in H2 as (-> & Hi & _). destruct E1 as (E1 & E2 & _). cbn [snd] in *.
    apply (ok_company s1) with (i := i); [|done]. by apply (rows_ok_ext s).
  - split; [intros y Hy1; apply Hk, Hc; set_solver|].
    intros y [->|Hy1]%elem_of_cons; [|by apply Hk, Hs]. simpl.
    apply (commit_rows no_moves rows_ok (rows_ok_closed no_moves false)) in H1 as [_ ?]; [done | done | apply Hc; set_solver].
  - split; [intros y Hy1; apply Hk, Hc; set_solver | auto].
  - split; [auto | intros y Hy1; apply Hk, Hs; set_solver].
Qed.

Lemma reachable_ok s0 y : rows_ok s0 -> reachable s0 y -> sys_ok y.
Proof.
  intros Hs Hre. assert (H1 : sys_ok (mkSystem s0 [] [] [])) by (split; [done|]; split; simpl; set_solver).
  revert H1. induction Hre as [|x y z Hxy _ IH]; [done|]. intros Hx. apply IH. by eapply sys_ok_step.
Qed.
End System.
