(* ===== verification/TripProperties.v ===== *)
(** * Trips: what the handlers guarantee

    One trip per load, decisions and deliveries that stay, the effect of each handler
    on the load and on the other requests, and what a refused one leaves. *)

From S2P Require Import Prelude JsNumber JsString Effects Enums BrokerDriver TripFareRules.
From S2P Require Import BrokerAccess BrokerAccessFacts DriverProfile CargoData TripFareService.
From S2P Require Import CargoTrip CargoTripFacts TripInvariant TripSystem.

(** ** A sample world

    Company 10 has load 100; drivers 1 and 2 asked for it, driver 1 first. *)
Definition sample_config : TripConfig := mkTripConfig true true true true.

Definition sample_listing : CargoListing :=
  mkListing 100 10 (js "تهران") (js "مشهد") TripDomestic ListingOpen None.

Definition sample_profile : DriverProfile :=
  mkProfile None (Some (js "123")) (Some (js "1405/1/1")) TripDomestic [TripDomestic] [] false None None.

Definition sample_profiles : profile_state :=
  mkProfiles (<[1%N := sample_profile]> {[ 2%N := sample_profile ]})
    (<[1%N := [mkRoleRow "DRIVER" RecActive]]> {[ 2%N := [mkRoleRow "DRIVER" RecActive] ]}) [].

Definition sample_broker : broker_state := {|
  bs_open := false; bs_now := 1000; bs_setting := None; bs_cached := None; bs_roles := ∅;
  bs_companies := []; bs_periods := ∅; bs_orders := ∅; bs_credits := ∅; bs_redis_up := true;
  bs_published := [] |}.

Definition sample_trips : trip_state := {|
  ts_config := sample_config; ts_now := 1000;
  ts_listings := {[ 100%N := sample_listing ]};
  ts_requests := <[7%N := new_request 7 100 1 10 1000]> {[ 8%N := new_request 8 100 2 10 1000 ]};
  ts_fares := ∅; ts_waiting := ∅; ts_broker := sample_broker; ts_profiles := sample_profiles;
  ts_sent := [] |}.

Definition sample_deal : option Deal := Some (mkDeal (Some sample_input) None).

Lemma sample_requests_inv i r :
  ts_requests sample_trips !! i = Some r ->
  (i = 7%N /\ r = new_request 7 100 1 10 1000) \/ (i = 8%N /\ r = new_request 8 100 2 10 1000).
Proof.
  unfold sample_trips. cbn [ts_requests]. rewrite lookup_insert. case_decide; [left; naive_solver|].
  rewrite lookup_singleton_Some. naive_solver.
Qed.

Lemma sample_trips_ok : trips_ok sample_trips.
Proof.
  split; [constructor|].
  - intros i r [[-> ->]|[-> ->]]%sample_requests_inv; done.
  - intros i j r q [[-> ->]|[-> ->]]%sample_requests_inv [[-> ->]|[-> ->]]%sample_requests_inv; done.
  - intros i j r q [[-> ->]|[-> ->]]%sample_requests_inv [[-> ->]|[-> ->]]%sample_requests_inv; done.
  - intros i r [[-> ->]|[-> ->]]%sample_requests_inv; exists sample_listing; done.
  - intros i r [[-> ->]|[-> ->]]%sample_requests_inv; done.
  - unfold sample_trips. cbn [ts_listings]. intros i l [<- <-]%lookup_singleton_Some. done.
  - intros i r l [[-> ->]|[-> ->]]%sample_requests_inv; done.
Qed.

#[export] Instance no_borders : BorderService := {| choices := fun _ => Ok (mkChoice false [] []) |}.

(** ** One trip per load *)

(** C1: At most one trip per load, whatever the order: in every reachable state of the
    interleaved system (answers that passed their checks on an older state included),
    two requests of one load that are accepted or delivered are the same request. *)
Theorem one_trip_per_load `{JsCase} `{BorderService} (s0 : trip_state) (y : system) (i j : uuid) (r q : CargoRequest)
    (Hs : rows_ok s0) (Hre : reachable s0 y)
    (Hi : ts_requests (sy_state y) !! i = Some r) (Hj : ts_requests (sy_state y) !! j = Some q)
    (Hl : rq_listingId r = rq_listingId q)
    (Hr : started (rq_status r) = true) (Hq : started (rq_status q) = true) :
  i = j.
Proof.
  destruct (reachable_ok s0 y Hs Hre) as [Hrows _]. by eapply ok_one.
Qed.

(** Both answers are checked on the same state, then saved one after the other. *)
Definition raced : system :=
  let s := sample_trips in
  let job r := mkAnswer 10 true (Some sample_fare) sample_deal r in
  mkSystem s [job (new_request 8 100 2 10 1000); job (new_request 7 100 1 10 1000)] [] [].

Lemma raced_reachable : reachable sample_trips raced.
Proof.
  eapply rtc_l; [|eapply rtc_l; [|apply rtc_refl]].
  - exact (step_check 10 7 true sample_deal (Some sample_fare) (new_request 7 100 1 10 1000)
             sample_trips sample_trips sample_trips [] [] [] eq_refl eq_refl).
  - exact (step_check 10 8 true sample_deal (Some sample_fare) (new_request 8 100 2 10 1000)
             sample_trips sample_trips sample_trips _ [] [] eq_refl eq_refl).
Qed.

Definition raced_saved : trip_state :=
  final (decide_commit 10 true (Some sample_fare) sample_deal (new_request 7 100 1 10 1000)) sample_trips.

Lemma one_trip_per_load_witness :
  exists y r, reachable sample_trips y /\ ts_requests (sy_state y) !! 7%N = Some r /\
    started (rq_status r) = true /\
    (forall q, ts_requests (sy_state y) !! 8%N = Some q -> started (rq_status q) = true -> rq_listingId q = 100%N -> False).
Proof.
  destruct (decide_commit 10 true (Some sample_fare) sample_deal (new_request 7 100 1 10 1000) sample_trips)
    as [[r|e] s1] eqn:E; [|vm_compute in E; discriminate].
  assert (Hre : reachable sample_trips (mkSystem s1 [mkAnswer 10 true (Some sample_fare) sample_deal (new_request 8 100 2 10 1000)]
            [mkAnswer 10 true (Some sample_fare) sample_deal r] [(rq_id r, Ok tt)])).
  { eapply rtc_r; [apply raced_reachable|].
    exact (step_save (mkAnswer 10 true (Some sample_fare) sample_deal (new_request 7 100 1 10 1000)) sample_trips s1
             [mkAnswer 10 true (Some sample_fare) sample_deal (new_request 8 100 2 10 1000)] [] [] [] r E). }
  assert (E2 : ts_requests s1 !! 7%N = Some r) by (vm_compute in E; injection E as <- <-; reflexivity).
  assert (E3 : started (rq_status r) = true) by (vm_compute in E; injection E as <- <-; reflexivity).
  assert (E4 : rq_listingId r = 100%N) by (vm_compute in E; injection E as <- <-; reflexivity).
  eexists; exists r. split; [exact Hre|]. split; [exact E2|]. split; [exact E3|].
  intros q Hq Hst Hlq.
  assert (7%N = 8%N) by (eapply (one_trip_per_load sample_trips _ 7 8 r q (proj1 sample_trips_ok) Hre E2 Hq);
                         [by rewrite E4 | exact E3 | exact Hst]).
  discriminate.
Defined.

(** C7: The loser of the race: an accept saved after another trip of the load started is
    answered «taken» and no request changes, but the agreed fare it recorded first
    stays. *)
Theorem late_accept_taken (c : uuid) (f : TripFareValues) (deal : option Deal) (r q : CargoRequest)
    (i : uuid) (s : trip_state) (row : TripFare)
    (Hq : ts_requests s !! i = Some q) (Hst : started (rq_status q) = true)
    (Hl : rq_listingId q = rq_listingId r) (Hne : rq_id q <> rq_id r) (Hp : rq_status r = Pending)
    (Hrow : fare_row (rq_id r) StageAgreed (with_reason None f) c (ts_now s) = Ok row) :
  exists s1, decide_commit c true (Some f) deal r s = (Err (conflict "taken"), s1) /\
    ts_requests s1 = ts_requests s /\ ts_listings s1 = ts_listings s /\
    ts_fares s1 = <[(rq_id r, StageAgreed) := row]> (ts_fares s).
Proof.
  unfold decide_commit. rewrite run_bind.
  assert (E1 : (recordAgreed r f c ≫= fun _ => mret tt) s
               = (Ok tt, s <| ts_fares := <[(rq_id r, StageAgreed) := row]> (ts_fares s) |>)).
  { unfold recordAgreed. rewrite run_bind, run_bind. unfold get. cbn beta iota. rewrite run_bind, Hp.
    cbn [started negb andb ensure]. rewrite run_ret, upsert_run, Hrow. done. }
  rewrite E1. set (s1 := s <| ts_fares := _ |>). exists s1.
  rewrite run_bind.
  assert (E2 : exists r1, accept_model c deal r s1 = (Ok r1, s1) /\ rq_id r1 = rq_id r /\
                 rq_listingId r1 = rq_listingId r).
  { unfold accept_model, config, gets. destruct (rq_forDriver r); [|by exists r].
    destruct (picked_model deal) as [m|]; [by eexists|]. rewrite run_bind. cbn beta iota.
    destruct (cf_fares _); by eexists. }
  destruct E2 as (r1 & -> & Hid & Hli). rewrite run_bind. unfold now_, gets. cbn beta iota.
  rewrite saveTrip_run.
  match goal with |- context [exists_row (clashes ?x) _] => set (r2 := x) end.
  assert (E3 : exists_row (clashes r2) (ts_requests s1) = true).
  { apply exists_row_true. exists i, q. split; [exact Hq|]. unfold clashes.
    change (rq_id r2) with (rq_id r1). change (rq_listingId r2) with (rq_listingId r1).
    rewrite Hid, Hli, (proj2 (N.eqb_neq _ _) Hne), Hl, N.eqb_refl, Hst. cbn. by rewrite orb_true_r. }
  by rewrite E3.
Qed.

Lemma late_accept_taken_witness :
  exists s1, decide_commit 10 true (Some sample_fare) sample_deal (new_request 8 100 2 10 1000) raced_saved
             = (Err (conflict "taken"), s1) /\ ts_requests s1 = ts_requests raced_saved.
Proof.
  destruct (ts_requests raced_saved !! 7%N) as [q|] eqn:E; [|vm_compute in E; discriminate].
  destruct (fare_row 8 StageAgreed (with_reason None sample_fare) 10 1000) as [row|e] eqn:Er; [|vm_compute in Er; discriminate].
  destruct (late_accept_taken 10 sample_fare sample_deal (new_request 8 100 2 10 1000) q 7 raced_saved row E)
    as (s1 & H1 & H2 & _).
  1-3: vm_compute in E; injection E as <-; try reflexivity; discriminate.
  - reflexivity.
  - exact Er.
  - exists s1. split; [exact H1 | exact H2].
Defined.

(** ** Sequences of handlers *)

(** Handlers one after another keep a load with a trip taken, with one trip, so no open
    load is ever asked for or handed over while it has a trip. *)
Theorem open_load_has_no_trip `{JsCase} `{BorderService} (ops : list trip_op) (s : trip_state) (Hs : trips_ok s)
    (i : uuid) (r : CargoRequest) (l : CargoListing) :
  ts_requests (run_trips ops s) !! i = Some r ->
  ts_listings (run_trips ops s) !! rq_listingId r = Some l -> li_status l = ListingOpen ->
  started (rq_status r) = false /\
  forall j q, ts_requests (run_trips ops s) !! j = Some q -> rq_listingId q = rq_listingId r ->
    started (rq_status q) = false.
Proof.
  intros Hr Hl Ho. destruct (trips_ok_run ops s Hs) as [Hrows Htk].
  assert (Hno : forall j q, ts_requests (run_trips ops s) !! j = Some q -> rq_listingId q = rq_listingId r ->
    started (rq_status q) = false).
  { intros j q Hq E. destruct (started (rq_status q)) eqn:Est; [|done].
    assert (li_status l = ListingTaken) by (eapply Htk; eauto; by rewrite E). congruence. }
  split; [by eapply Hno | exact Hno].
Qed.

(** A delivered trip is final: no sequence of handlers changes its request, so the
    delivery date and what the broker gets stay as they were fixed. *)
Theorem delivered_is_final `{JsCase} `{BorderService} (ops : list trip_op) (s : trip_state) (i : uuid) (r : CargoRequest)
    (Hs : trips_ok s) (Hr : ts_requests s !! i = Some r) (Hd : rq_status r = Delivered) :
  ts_requests (run_trips ops s) !! i = Some r.
Proof.
  destruct Hs as [H1 H2].
  assert (HI : Inv true (row_fixed i r) (run_trips ops s)).
  { apply preserves_run_trips; [by apply row_fixed_closed|]. by split. }
  apply HI.
Qed.

(** C37: One operation moves the status of a request only as follows, answering or failing, and
    changes neither its load nor its driver nor its company.  Its driver asking again:
    declined, expired or cancelled to pending; cancelling: pending to cancelled.  Its company
    deciding on it: pending to accepted or rejected; accepting another one: pending to
    rejected.  Its company handing the load over: any but accepted and delivered to offered.
    Its driver answering the offer: offered to accepted, declined or expired; another one
    accepting: pending to rejected.  The sweep: offered to expired.  Its company confirming the
    delivery: accepted to delivered.  Its company calling the trip off: accepted to called
    off; another trip called off: rejected to pending.  Nothing else moves it: a rejected
    request waits again only when a trip is called off, a request whose trip was called off
    is only handed over, and delivered is final. *)
Theorem status_moves `{JsCase} `{BorderService} (op : trip_op) (s : trip_state) (i : uuid) (q : CargoRequest)
    (Hs : trips_ok s) (Hq : ts_requests s !! i = Some q) :
  exists r, ts_requests (final (exec_trip op) s) !! i = Some r /\ same_request q r /\
    (rq_status r = rq_status q \/ op_moves op q (rq_status r)).
Proof.
  destruct Hs as [H1 H2].
  assert (HI : Inv true (moved_by op s) (final (exec_trip op) s)).
  { apply (preserves_exec_trip (op_moves op) true (moved_by op s) (moved_by_closed op s) op); [by intros _ q0 st|]. split; [|done].
    split; [done|]. intros j p Hp. exists p. split; [done|]. split; [done | by left]. }
  destruct HI as [[_ Hm] _]. by apply Hm.
Qed.

Definition sample_ops : list trip_op :=
  [OpDecide 10 7 true sample_deal; OpTick 1000; OpDeliver 1 7 None; OpDeliver 10 7 (Some sample_input)].

Definition sample_delivered : trip_state := run_trips sample_ops sample_trips.

Lemma open_load_has_no_trip_witness :
  exists r, ts_requests (run_trips [OpTick 5] sample_trips) !! 7%N = Some r /\ started (rq_status r) = false.
Proof.
  exists (new_request 7 100 1 10 1000). split; [reflexivity|].
  exact (proj1 (open_load_has_no_trip [OpTick 5] sample_trips sample_trips_ok 7 _ sample_listing
                  eq_refl eq_refl eq_refl)).
Defined.

Lemma delivered_is_final_witness :
  exists r, rq_status r = Delivered /\
    ts_requests (run_trips [OpCancelTrip 10 7; OpOffer 10 100 1 None] sample_delivered) !! 7%N = Some r.
Proof.
  destruct (ts_requests sample_delivered !! 7%N) as [r|] eqn:E; [|vm_compute in E; discriminate].
  assert (Hd : rq_status r = Delivered) by (vm_compute in E; injection E as <-; reflexivity).
  exists r. split; [exact Hd|].
  exact (delivered_is_final [OpCancelTrip 10 7; OpOffer 10 100 1 None] sample_delivered 7 r
           (trips_ok_run sample_ops sample_trips sample_trips_ok) E Hd).
Defined.

(** Driver 2, turned down when driver 1 got the load, waits again when that trip is called off. *)
Definition sample_started : trip_state := run_trips [OpDecide 10 7 true sample_deal] sample_trips.
Definition sample_turned_down : CargoRequest :=
  match ts_requests sample_started !! 8%N with Some q => q | None => new_request 8 100 2 10 1000 end.

Lemma status_moves_witness :
  rq_status sample_turned_down = Rejected /\
  exists r, ts_requests (final (exec_trip (OpCancelTrip 10 7)) sample_started) !! 8%N = Some r /\ rq_status r = Pending /\
    (rq_status r = Rejected \/ cancelTrip_moves 10 7 sample_turned_down (rq_status r)).
Proof.
  split; [vm_compute; reflexivity|].
  assert (Hq : ts_requests sample_started !! 8%N = Some sample_turned_down) by (vm_compute; reflexivity).
  destruct (status_moves (OpCancelTrip 10 7) sample_started 8 sample_turned_down
              (trips_ok_run [OpDecide 10 7 true sample_deal] sample_trips sample_trips_ok) Hq) as (r & Hr & _ & Hm).
  exists r. split; [exact Hr|]. split; [|exact Hm].
  assert (E : (rq_status <$> ts_requests (final (exec_trip (OpCancelTrip 10 7)) sample_started) !! 8%N) = Some Pending)
    by (vm_compute; reflexivity).
  rewrite Hr in E. by injection E.
Defined.
