(* ===== verification/TripEffects.v ===== *)
(** * Trips: the effect of each answer

    What accepting, calling off, delivering and asking do to the load, to the other
    requests of the load and to the broker's credit. *)

From S2P Require Import Prelude JsNumber JsString Effects Enums BrokerDriver TripFareRules BrokerAccess BrokerAccessFacts DriverProfile CargoData TripFareService CargoTrip CargoTripFacts TripInvariant TripSystem TripProperties.

(** ** Runs *)

Lemma announce_accept_run c fare s r :
  rows_ok s -> listing_ok s r ->
  exists s1, decide_announce c true fare r s = (Ok r, s1) /\ rows_ok s1 /\ same_svc s s1 /\
    (exists l1, ts_listings s1 !! rq_listingId r = Some l1 /\ li_status l1 = ListingTaken) /\
    (forall j, j <> rq_listingId r -> ts_listings s1 !! j = ts_listings s !! j) /\
    (forall j, ts_requests s1 !! j = after_assignment s r <$> ts_requests s !! j).
Proof.
  intros Hs Hl. unfold decide_announce, is_broker_card, gets. rewrite run_bind. cbn beta iota.
  cbn [andb]. cbv zeta.
  destruct (card_broker (ts_profiles s) (rq_driverUserId r)); rewrite run_bind;
    match goal with |- context [notify ?a ?b ?c ?d ?e ?f ?g ?s] =>
      destruct (notify_run a b c d e f g s) as (n1 & _ & _ & _ & _ & ->) end;
    rewrite run_bind;
    (destruct (completeAssignment_run no_moves false rows_ok (rows_ok_closed no_moves false) (sent s [SentNotice n1]) r ltac:(done))
       as (s1 & -> & Hok & Hsvc & Htk & Hoth & Hreq); [by apply (rows_ok_ext s) | exact Hl |]);
    rewrite run_bind, changed_run, run_ret; eexists; (split; [reflexivity|]);
    (split; [by apply (rows_ok_ext s1)|]); (split; [transitivity s1; [exact Hsvc | by repeat split]|]);
    (split; [exact Htk|]); (split; [exact Hoth|]); exact Hreq.
Qed.

Lemma same_svc_now s s1 : same_svc s s1 -> ts_now s1 = ts_now s.
Proof. by intros (_ & ? & _). Qed.

(** What is left of the other requests once [r], a row of the table, is accepted. *)
Definition accepted_rows (s : trip_state) (r : CargoRequest) (j : uuid) (q q1 : CargoRequest) : Prop :=
  if other_pending (rq_listingId r) (rq_id r) q
  then same_request q q1 /\ rq_status q1 = Rejected /\ rq_decidedAt q1 = Some (ts_now s)
  else q1 = q.

Lemma decide_guards_run c i s r l :
  ts_requests s !! i = Some r -> rq_companyUserId r = c -> rq_status r = Pending ->
  ts_listings s !! rq_listingId r = Some l -> li_status l = ListingOpen ->
  active_offer s (rq_listingId r) = None ->
  decide_guards c i true s = (Ok r, s).
Proof.
  intros Hr Hc Hp Hl Ho Hn. unfold decide_guards. rewrite run_bind, (owned_run i _ s r Hr) by by rewrite Hc, N.eqb_refl.
  rewrite Hp. cbn [ensure eqb]. rewrite run_bind. change (ensure (eqb Pending Pending) _ s) with (Ok tt, s).
  unfold listing_of, get. rewrite !run_bind. cbn beta iota. rewrite Hl. cbn [some_or]. rewrite run_ret, run_bind, Ho.
  change (ensure (eqb ListingOpen ListingOpen) _ s) with (Ok tt, s). cbn beta iota.
  unfold findActiveOffer, gets. rewrite run_bind. cbn beta iota. by rewrite Hn.
Qed.

(** The row an accept saves, and that it can be saved while the load has no trip. *)
Lemma accept_model_run c deal r s :
  exists m, accept_model c deal r s = (Ok (r <| rq_brokerPayModel := m |>), s) /\
    (rq_forDriver r = None -> m = rq_brokerPayModel r) /\ (rq_forDriver r <> None -> m <> None).
Proof.
  unfold accept_model, config, gets. destruct (rq_forDriver r) as [d|].
  - destruct (picked_model deal) as [m|]; [by exists (Some m)|]. rewrite run_bind. cbn beta iota.
    destruct (cf_fares _); by eexists (Some _).
  - exists (rq_brokerPayModel r). split; [by destruct r | done].
Qed.

Lemma commit_accept_run c f deal r row s :
  rows_ok s -> ts_requests s !! rq_id r = Some r -> rq_status r = Pending ->
  (forall j p, ts_requests s !! j = Some p -> rq_listingId p = rq_listingId r -> started (rq_status p) = false) ->
  fare_row (rq_id r) StageAgreed (with_reason None f) c (ts_now s) = Ok row ->
  exists r1 s1, decide_commit c true (Some f) deal r s = (Ok (written s1 r1), put_request s1 r1) /\
    rows_ok (put_request s1 r1) /\ tables_eq s s1 /\ decided_row true (ts_now s) r r1 /\
    ts_fares s1 = <[(rq_id r, StageAgreed) := row]> (ts_fares s) /\ listing_ok (put_request s1 r1) (written s1 r1).
Proof.
  intros Hs Hr Hp Hfree Hrow. unfold decide_commit. rewrite run_bind, run_bind.
  assert (E1 : recordAgreed r f c s
               = (Ok (view row), s <| ts_fares := <[(rq_id r, StageAgreed) := row]> (ts_fares s) |>)).
  { unfold recordAgreed. rewrite run_bind. unfold get. cbn beta iota. rewrite run_bind, Hp.
    cbn [started negb andb ensure]. rewrite run_ret, upsert_run, Hrow. done. }
  rewrite E1, run_ret. set (s1 := s <| ts_fares := _ |>). rewrite run_bind.
  destruct (accept_model_run c deal r s1) as (m & -> & _). rewrite run_bind. unfold now_, gets. cbn beta iota.
  set (r1 := r <| rq_brokerPayModel := m |> <| rq_status := Accepted |> <| rq_decidedAt := Some (ts_now s1) |>).
  assert (Hs1 : rows_ok s1) by (by apply (rows_ok_ext s)).
  assert (Hc : can_save s1 r1 = true).
  { eapply (can_save_free s1 _ r1 r); try done. }
  exists r1, s1. rewrite saveTrip_run. pose proof Hc as Hc'. apply andb_split in Hc as [Hc1%negb_true_iff Hc2].
  rewrite Hc1, Hc2.
  assert (Hl : listing_ok s1 r1) by exact (ok_company s Hs _ r Hr).
  split; [done|]. split; [by apply put_rows_ok|]. split; [by repeat split|]. split; [by exists m|].
  split; [done|]. unfold listing_ok. autorewrite with written. exact Hl.
Qed.

(** What an accept leaves: the trip, the load taken, its other waiting requests turned
    down at the same instant, every other row and load as it was. *)
Record accepted_state (s s1 : trip_state) (i : uuid) (r r1 : CargoRequest) : Prop := {
  ac_rows : rows_ok s1;
  ac_now : ts_now s1 = ts_now s;
  ac_row : ts_requests s1 !! i = Some r1;
  ac_same : same_request r r1;
  ac_status : rq_status r1 = Accepted;
  ac_decided : rq_decidedAt r1 = Some (ts_now s);
  ac_taken : exists l1, ts_listings s1 !! rq_listingId r = Some l1 /\ li_status l1 = ListingTaken;
  ac_loads : forall j, j <> rq_listingId r -> ts_listings s1 !! j = ts_listings s !! j;
  ac_others : forall j q, j <> i -> ts_requests s !! j = Some q ->
    exists q1, ts_requests s1 !! j = Some q1 /\ accepted_rows s r j q q1;
  ac_new : forall j, ts_requests s !! j = None -> ts_requests s1 !! j = None;
}.

(** The company's accept may go through: its own pending request, on an open load that
    is not reserved, with a fare that can be read and stored. *)
Record acceptable (s : trip_state) (c i : uuid) (deal : option Deal) (r : CargoRequest)
    (f : TripFareValues) (row : TripFare) : Prop := {
  ap_request : ts_requests s !! i = Some r;
  ap_company : rq_companyUserId r = c;
  ap_pending : rq_status r = Pending;
  ap_open : exists l, ts_listings s !! rq_listingId r = Some l /\ li_status l = ListingOpen;
  ap_free : active_offer s (rq_listingId r) = None;
  ap_fares : cf_fares (ts_config s) = true;
  ap_fare : readTripFare (deal ≫= deal_fare) = inr f;
  ap_stored : fare_row i StageAgreed (with_reason None f) c (ts_now s) = Ok row;
}.

Lemma accept_run s c i deal r f row :
  trips_ok s -> acceptable s c i deal r f row ->
  exists r1 s1, decide c i true deal s = (Ok r1, s1) /\ accepted_state s s1 i r r1 /\
    ts_fares s1 = <[(i, StageAgreed) := row]> (ts_fares s).
Proof.
  intros [Hs Htk] [Hr Hc Hp (l & Hl & Ho) Hn Hf Hrd Hrow].
  pose proof (ok_ids s Hs i r Hr) as Hid. subst i.
  unfold decide. rewrite run_bind.
  assert (E1 : read_deal true deal s = (Ok (Some f), s)).
  { unfold read_deal, config, gets. rewrite run_bind. cbn beta iota. rewrite Hf. cbn [andb].
    unfold read_fare. by rewrite Hrd. }
  rewrite E1, run_bind, (decide_guards_run c _ s r l Hr Hc Hp Hl Ho Hn), run_bind.
  destruct (commit_accept_run c f deal r row s Hs Hr Hp) as (r1 & s1 & -> & Hok & (Er & El & En & _) & [m Hd] & Hfa & Hlok).
  { intros j p Hj E. destruct (started (rq_status p)) eqn:Es; [|done].
    assert (li_status l = ListingTaken) by (eapply Htk; eauto; by rewrite E). congruence. }
  { done. }
  destruct (announce_accept_run c (Some f) (put_request s1 r1) (written s1 r1) Hok Hlok)
    as (s2 & -> & Hok2 & Hsvc & Htaken & Hoth & Hreq).
  exists (written s1 r1), s2. split; [done|].
  assert (Hfinal : forall j, ts_requests s2 !! j
            = after_assignment (put_request s1 r1) (written s1 r1) <$> (<[rq_id r := written s1 r1]> (ts_requests s) !! j)).
  { intros j. rewrite Hreq. change (ts_requests (put_request s1 r1)) with (<[rq_id r1 := written s1 r1]> (ts_requests s1)).
    rewrite Er. subst r1. done. }
  assert (Hself : after_assignment (put_request s1 r1) (written s1 r1) (written s1 r1) = written s1 r1).
  { unfold after_assignment, other_pending. rewrite !N.eqb_refl. cbn [negb]. by rewrite andb_false_r. }
  split; [|destruct Hsvc as (_ & _ & -> & _); exact Hfa].
  autorewrite with written in Htaken, Hoth. subst r1. constructor.
  - done.
  - rewrite (same_svc_now _ _ Hsvc). exact En.
  - rewrite Hfinal, lookup_insert_eq. exact (f_equal Some Hself).
  - unfold same_request. by autorewrite with written.
  - by autorewrite with written.
  - by autorewrite with written.
  - exact Htaken.
  - intros j Hj. rewrite Hoth by exact Hj. change (ts_listings s1 !! j = ts_listings s !! j). by rewrite El.
  - intros j q Hj Hq. rewrite Hfinal, lookup_insert_ne, Hq by done. eexists. split; [reflexivity|].
    unfold accepted_rows, after_assignment. autorewrite with written. cbn [rq_listingId rq_id].
    match goal with |- if ?a then _ else _ => match goal with |- context [if ?b then written _ _ else _] => change b with a end end.
    destruct (other_pending _ _ q); [|done]. unfold same_request. autorewrite with written.
    repeat split. change (Some (ts_now s1) = Some (ts_now s)). by rewrite En.
  - intros j Hj. rewrite Hfinal. assert (rq_id r <> j) by (intros E; rewrite E in Hr; congruence).
    by rewrite lookup_insert_ne, Hj.
Qed.

(** ** A trip called off *)

Lemma trip_off_map now : row_map (trip_off now).
Proof. by constructor. Qed.

Lemma reopen_free s lid :
  (forall j q, ts_requests s !! j = Some q -> rq_listingId q = lid ->
     started (rq_status q) = false /\ offer_open (ts_now s) q = false) ->
  has_active_trip s lid = false /\ has_delivered s lid = false.
Proof.
  intros H. unfold has_active_trip, has_delivered. rewrite !count_rows_pos, !exists_row_false.
  split; intros j q Hq; destruct (N.eqb_spec (rq_listingId q) lid) as [E|]; try done;
    destruct (H j q Hq E) as [H1 H2]; rewrite ?H2; destruct (rq_status q); done.
Qed.

(** What a call-off leaves of another request of the load. *)
Definition restored (s : trip_state) (r : CargoRequest) (since : time) (q q1 : CargoRequest) : Prop :=
  if taken_over (rq_listingId r) (rq_id r) since q
  then same_request q q1 /\ rq_status q1 = Pending /\ rq_decidedAt q1 = None
  else q1 = q.

Lemma cancelTrip_run s c i r since :
  rows_ok s -> ts_requests s !! i = Some r -> rq_companyUserId r = c -> rq_status r = Accepted ->
  rq_decidedAt r = Some since ->
  (forall j q, ts_requests s !! j = Some q -> rq_listingId q = rq_listingId r -> offer_open (ts_now s) q = false) ->
  exists r2 s3, cancelTrip c i s = (Ok r2, s3) /\
    ts_requests s3 !! i = Some r2 /\ same_request r r2 /\ rq_status r2 = TripCancelled /\
    (exists l, ts_listings s3 !! rq_listingId r = Some l /\ li_status l = ListingOpen) /\
    (forall j q, j <> i -> ts_requests s !! j = Some q ->
       exists q1, ts_requests s3 !! j = Some q1 /\ restored s r since q q1).
Proof.
  intros Hs Hr Hc Hst Hsince Hoff. pose proof (ok_ids s Hs i r Hr) as Hid. subst i.
  unfold cancelTrip. rewrite run_bind, (owned_run _ _ s r Hr) by by rewrite Hc, N.eqb_refl.
  rewrite run_bind, Hst. change (ensure (eqb Accepted Accepted) _ s) with (Ok tt, s). cbn beta iota zeta.
  rewrite run_bind. change (now_ s) with (Ok (ts_now s), s). cbn beta iota. rewrite run_bind.
  set (r1 := trip_off (ts_now s) r).
  rewrite (save_ok r1 s) by (by eapply row_map_can_save; [apply trip_off_map| |]).
  rewrite Hsince, run_bind. set (s1 := put_request s r1).
  assert (Hs1 : rows_ok s1).
  { apply (put_rows_ok s r1); [done | by eapply row_map_can_save; [apply trip_off_map| |] |]. exact (ok_company s Hs _ r Hr). }
  assert (Hreq1 : ts_requests s1 = <[rq_id r := written s r1]> (ts_requests s)) by done.
  autorewrite with written. change (rq_listingId r1) with (rq_listingId r). change (rq_id r1) with (rq_id r).
  rewrite run_bind. unfold findTakenOver, gets. cbn beta iota.
  set (others := find_rows _ _).
  destruct (for_each_rows no_moves false rows_ok (rows_ok_closed no_moves false) waiting_again wait_again others s1)
    as (s2 & -> & Hs2 & Henv & Hin & Hout);
    [apply waiting_again_map | done | done | by apply find_rows_current | intros s0 q _ Hcs; by apply wait_again_run |].
  destruct Henv as (_ & Hnow & El & _).
  assert (Hself : ts_requests s2 !! rq_id r = Some (written s r1)).
  { rewrite Hout, Hreq1, lookup_insert_eq; [done|]. subst others. intros (p & Hp & Hin2)%list_elem_of_fmap.
    apply elem_of_find_rows in Hin2 as [Hp2 _]. unfold taken_over in Hp2.
    rewrite Hp, N.eqb_refl, andb_false_r in Hp2. done. }
  assert (Hrest : forall j q, j <> rq_id r -> ts_requests s !! j = Some q ->
            exists q1, ts_requests s2 !! j = Some q1 /\ restored s r since q q1).
  { intros j q Hj Hq. pose proof (ok_ids s Hs j q Hq) as Hjq. subst j. unfold restored.
    destruct (taken_over (rq_listingId r) (rq_id r) since q) eqn:Et.
    - rewrite Hin by (apply elem_of_find_rows; rewrite Hreq1; split; [done|]; exists (rq_id q); by rewrite lookup_insert_ne).
      eexists. split; [reflexivity|]. unfold same_request. by autorewrite with written.
    - rewrite Hout, Hreq1, lookup_insert_ne by
        (first [done | subst others; intros (p & Hp & (Hp2 & k & Hk)%elem_of_find_rows)%list_elem_of_fmap;
         rewrite Hreq1 in Hk; rewrite Hp in Hj, Hq; rewrite lookup_insert in Hk; case_decide as Hd;
         [apply Hj; injection Hk as <-; by autorewrite with written|];
         pose proof (ok_ids s Hs k p Hk); subst k; simplify_eq; congruence]).
      eauto. }
  destruct (ok_company s Hs _ r Hr) as (l & Hl & Hpub).
  assert (Hl2 : ts_listings s2 !! rq_listingId r = Some l) by (rewrite El; exact Hl).
  assert (Hfrom : forall j q1, ts_requests s2 !! j = Some q1 -> j <> rq_id r -> exists q, ts_requests s !! j = Some q).
  { intros j q1 Hq1 Hj. destruct (base.decide (j ∈ rq_id <$> others)) as [Hjo|Hjo].
    - apply list_elem_of_fmap in Hjo as (p & -> & (_ & k & Hk)%elem_of_find_rows).
      pose proof (ok_ids s1 Hs1 k p Hk). subst k. rewrite Hreq1, lookup_insert_ne in Hk by done. eauto.
    - rewrite Hout, Hreq1, lookup_insert_ne in Hq1 by done. eauto. }
  assert (Hfree : has_active_trip s2 (rq_listingId r) = false /\ has_delivered s2 (rq_listingId r) = false).
  { apply reopen_free. intros j q1 Hq1 Hl1.
    destruct (base.decide (j = rq_id r)) as [->|Hj].
    - rewrite Hself in Hq1. injection Hq1 as <-. unfold offer_open. by autorewrite with written.
    - destruct (Hfrom j q1 Hq1 Hj) as (q & Hq). destruct (Hrest j q Hj Hq) as (q2 & Hq2 & Hre).
      rewrite Hq1 in Hq2. injection Hq2 as <-. unfold restored in Hre.
      destruct (taken_over (rq_listingId r) (rq_id r) since q).
      + destruct Hre as (_ & Hp & _). unfold offer_open. by rewrite Hp.
      + subst q1. rewrite Hnow. split; [|by eapply Hoff].
        destruct (started (rq_status q)) eqn:Es; [|done]. destruct Hj.
        eapply (ok_one s Hs); eauto. by rewrite Hst. }
  rewrite run_bind, (setStatus_run s2 c (rq_listingId r) ListingOpen l Hl2 ltac:(by rewrite Hpub) (fun _ => Hfree)).
  set (s3 := if eqb (li_status l) ListingOpen then s2 else _).
  destruct (setStatus_effect s2 c _ ListingOpen l s3 Hl2 eq_refl) as (_ & Hreq3 & (l3 & Hl3 & Hst3 & _) & _ & _).
  unfold is_broker_card, gets. rewrite run_bind. cbn beta iota. rewrite run_bind.
  match goal with |- context [notify ?a ?b ?c ?d ?e ?f ?g ?s] =>
    destruct (notify_run a b c d e f g s) as (n1 & _ & _ & _ & _ & ->) end.
  rewrite run_bind, changed_run, run_ret. rewrite sent_sent.
  eexists _, (sent s3 _). split; [reflexivity|].
  change (ts_requests (sent s3 _)) with (ts_requests s3). change (ts_listings (sent s3 _)) with (ts_listings s3).
  rewrite Hreq3. split; [exact Hself|]. split; [unfold same_request; by autorewrite with written|].
  split; [by autorewrite with written|]. split; [by exists l3|]. exact Hrest.
Qed.

(** ** Properties *)

(** C8: Accepting a request starts its trip: the answer is the accepted request, its fare
    is recorded, the load is taken, every other waiting request of the load is turned
    down at that instant, and no other request or load changes. *)
Theorem accept_starts_trip (s : trip_state) (c i : uuid) (deal : option Deal) (r : CargoRequest)
    (f : TripFareValues) (row : TripFare) (Hs : trips_ok s) (Ha : acceptable s c i deal r f row) :
  exists r1 s1, decide c i true deal s = (Ok r1, s1) /\ accepted_state s s1 i r r1 /\
    ts_fares s1 = <[(i, StageAgreed) := row]> (ts_fares s).
Proof. exact (accept_run s c i deal r f row Hs Ha). Qed.

(** C35: Calling a trip off undoes what starting it did: however long after the accept, the
    load is open again, the requests turned down because of it wait again, the ones the
    company had answered before stay as they were, and the trip itself is over. *)
Theorem cancel_restores (s : trip_state) (c i : uuid) (deal : option Deal) (r : CargoRequest)
    (f : TripFareValues) (row : TripFare) (ms : Z) (Hs : trips_ok s) (Ha : acceptable s c i deal r f row)
    (Hms : 0 <= ms) :
  let s1 := final (decide c i true deal) s in
  exists r2 s3, cancelTrip c i (s1 <| ts_now := ts_now s1 + ms |>) = (Ok r2, s3) /\
    rq_status r2 = TripCancelled /\ ts_requests s3 !! i = Some r2 /\
    (exists l, ts_listings s3 !! rq_listingId r = Some l /\ li_status l = ListingOpen) /\
    (forall j q, j <> i -> ts_requests s !! j = Some q ->
       match rq_decidedAt q with Some d => d < ts_now s | None => True end ->
       exists q1, ts_requests s3 !! j = Some q1 /\
         if other_pending (rq_listingId r) i q
         then same_request q q1 /\ rq_status q1 = Pending /\ rq_decidedAt q1 = None
         else q1 = q).
Proof.
  intros s1. destruct (accept_run s c i deal r f row Hs Ha) as (r1 & s' & Hrun & Hac & _).
  assert (E1 : s1 = s') by (subst s1; unfold final; by rewrite Hrun). rewrite E1. clear s1 E1.
  pose proof (ok_ids s (proj1 Hs) i r (ap_request _ _ _ _ _ _ _ Ha)) as Hid.
  destruct Hac as [Hrows Hnow Hrow (S1 & S2 & S3 & S4) Hst Hdec Htk Hloads Hothers Hnew].
  set (s2 := s' <| ts_now := _ |>).
  assert (Hs2 : rows_ok s2) by (by apply (rows_ok_ext s')).
  assert (Hoff : forall j q, ts_requests s2 !! j = Some q -> rq_listingId q = rq_listingId r1 ->
            offer_open (ts_now s2) q = false).
  { intros j q Hq Hl. change (ts_requests s2) with (ts_requests s') in Hq.
    destruct (offer_open (ts_now s2) q) eqn:Eo; [exfalso|done]. unfold offer_open in Eo.
    apply andb_split in Eo as [Eo1%eqb_eq Eo2].
    destruct (base.decide (j = i)) as [->|Hj]; [simplify_eq; congruence|].
    destruct (ts_requests s !! j) as [q0|] eqn:Eq0; [|rewrite (Hnew j Eq0) in Hq; done].
    destruct (Hothers j q0 Hj Eq0) as (q1 & Hq1 & Hacc). rewrite Hq in Hq1. injection Hq1 as <-.
    unfold accepted_rows in Hacc. destruct (other_pending _ _ q0); [destruct Hacc as (_ & Hx & _); congruence|].
    subst q0. pose proof (ap_free _ _ _ _ _ _ _ Ha) as Hn. unfold active_offer in Hn.
    pose proof (proj1 (find_row_None _ _) Hn j q Eq0) as Hf. cbn beta in Hf.
    rewrite Hl, S2, N.eqb_refl in Hf. unfold offer_open in Hf. rewrite Eo1 in Hf. cbn [andb eqb] in Hf.
    change (eqb Offered Offered) with true in Hf. cbn [andb] in Hf. destruct (rq_offerExpiresAt q); [|done].
    apply Z.leb_le in Eo2. apply Z.leb_gt in Hf. change (ts_now s2) with (ts_now s' + ms) in Eo2. lia. }
  destruct (cancelTrip_run s2 c i r1 (ts_now s) Hs2 Hrow ltac:(rewrite S4; apply (ap_company _ _ _ _ _ _ _ Ha)) Hst Hdec Hoff)
    as (r2 & s3 & Hc & Hr2 & _ & Hst2 & Hl3 & Hre).
  exists r2, s3. split; [exact Hc|]. split; [exact Hst2|]. split; [exact Hr2|].
  rewrite S2 in Hl3. split; [exact Hl3|]. intros j q Hj Hq Hbefore.
  destruct (Hothers j q Hj Hq) as (q1 & Hq1 & Hacc). destruct (Hre j q1 Hj Hq1) as (q2 & Hq2 & Hrest).
  exists q2. split; [exact Hq2|]. unfold accepted_rows in Hacc. rewrite Hid in Hacc.
  unfold restored in Hrest. rewrite S2, S1, Hid in Hrest.
  destruct (other_pending (rq_listingId r) i q) eqn:Eop.
  - destruct Hacc as ((A1 & A2 & A3 & A3') & A4 & A5).
    unfold other_pending in Eop. apply andb_split in Eop as [[Eop1 _]%andb_split Eop3].
    unfold taken_over in Hrest. rewrite A1, A2, A4, A5, Eop1, Eop3, Z.leb_refl in Hrest.
    change (true && eqb Rejected Rejected && true && true) with true in Hrest. cbn beta iota in Hrest.
    destruct Hrest as ((B1 & B2 & B3 & B4) & B5 & B6). unfold same_request.
    rewrite B1, B2, B3, B4, A1, A2, A3, A3'. done.
  - subst q1. unfold taken_over in Hrest. destruct (rq_decidedAt q) as [d|].
    + rewrite (proj2 (Z.leb_gt (ts_now s) d) Hbefore), andb_false_r in Hrest. exact Hrest.
    + rewrite andb_false_r in Hrest. exact Hrest.
Qed.

Lemma sample_acceptable :
  exists row, acceptable sample_trips 10 7 sample_deal (new_request 7 100 1 10 1000) sample_fare row.
Proof.
  eexists. constructor; try reflexivity. exists sample_listing. split; reflexivity.
Qed.

Lemma accept_starts_trip_witness :
  exists r1 s1, decide 10 7 true sample_deal sample_trips = (Ok r1, s1) /\
    accepted_state sample_trips s1 7 (new_request 7 100 1 10 1000) r1.
Proof.
  destruct sample_acceptable as (row & Ha).
  destruct (accept_starts_trip sample_trips 10 7 sample_deal _ sample_fare row sample_trips_ok Ha) as (r1 & s1 & H1 & H2 & _).
  exists r1, s1. split; [exact H1 | exact H2].
Defined.

Lemma cancel_restores_witness :
  exists s3 q1, ts_requests s3 !! 8%N = Some q1 /\ rq_status q1 = Pending.
Proof.
  destruct sample_acceptable as (row & Ha).
  destruct (cancel_restores sample_trips 10 7 sample_deal _ sample_fare row 5000 sample_trips_ok Ha ltac:(lia))
    as (r2 & s3 & _ & _ & _ & _ & Hoth).
  destruct (Hoth 8%N (new_request 8 100 2 10 1000) ltac:(discriminate) eq_refl I) as (q1 & Hq1 & _ & Hp & _).
  exists s3, q1. split; [exact Hq1 | exact Hp].
Defined.

(** ** Delivery *)

Lemma owned_either_run i s r u :
  ts_requests s !! i = Some r -> ((rq_driverUserId r =? u) || (rq_companyUserId r =? u))%N = true ->
  owned i (fun r => (rq_driverUserId r =? u) || (rq_companyUserId r =? u))%N s = (Ok r, s).
Proof. intros Hr Hu. by apply owned_run. Qed.

(** The driver's word is not a delivery: reporting keeps the trip active and only dates
    the report, for that request alone and with no fare; pressing again changes
    nothing. *)
Theorem report_keeps_trip (s : trip_state) (i : uuid) (r : CargoRequest) (fi fi' : option TripFareInput)
    (Hs : rows_ok s) (Hr : ts_requests s !! i = Some r) (Hst : rq_status r = Accepted)
    (Hrep : rq_deliveryReportedAt r = None) :
  let d := rq_driverUserId r in
  exists r1 s1, deliver d i fi s = (Ok r1, s1) /\
    ts_requests s1 = <[i := r1]> (ts_requests s) /\ ts_listings s1 = ts_listings s /\ ts_fares s1 = ts_fares s /\
    same_request r r1 /\ rq_status r1 = Accepted /\ rq_deliveryReportedAt r1 = Some (ts_now s) /\
    deliver d i fi' s1 = (Ok r1, s1).
Proof.
  intros d. pose proof (ok_ids s Hs i r Hr) as Hid. subst i.
  unfold deliver at 1. rewrite run_bind, (owned_either_run _ s r d Hr) by (unfold d; by rewrite N.eqb_refl).
  rewrite run_bind, Hst. change (ensure (eqb Accepted Accepted) _ s) with (Ok tt, s). cbn beta iota.
  unfold d at 1. rewrite N.eqb_refl. unfold report_delivery. rewrite Hrep, run_bind.
  change (now_ s) with (Ok (ts_now s), s). cbn beta iota.
  set (r0 := r <| rq_deliveryReportedAt := Some (ts_now s) |>).
  rewrite run_bind, (save_ok r0 s) by (by eapply (can_save_row s _ r0 r); try done; rewrite Hst).
  unfold is_broker_card, gets. rewrite run_bind. cbn beta iota zeta. rewrite run_bind, changed_run, run_bind.
  match goal with |- context [notify ?a ?b ?c ?d ?e ?f ?g ?s] =>
    destruct (notify_run a b c d e f g s) as (n1 & _ & _ & _ & _ & ->) end.
  rewrite run_ret, sent_sent. set (s1 := sent _ _). exists (written s r0), s1.
  split; [done|]. split; [done|]. split; [done|]. split; [done|].
  split; [unfold same_request; by autorewrite with written|].
  split; [by autorewrite with written|]. split; [by autorewrite with written|].
  assert (Hr1 : ts_requests s1 !! rq_id r = Some (written s r0)).
  { change (ts_requests s1) with (<[rq_id r := written s r0]> (ts_requests s)). by rewrite lookup_insert_eq. }
  assert (Hd : rq_driverUserId (written s r0) = d) by (by autorewrite with written).
  unfold deliver. rewrite run_bind, (owned_either_run _ s1 (written s r0) d Hr1) by by rewrite Hd, N.eqb_refl.
  rewrite run_bind, written_status. change (rq_status r0) with (rq_status r). rewrite Hst.
  change (ensure (eqb Accepted Accepted) _ s1) with (Ok tt, s1). cbn beta iota.
  rewrite Hd, N.eqb_refl. unfold report_delivery. by rewrite written_reported.
Qed.

Lemma settleBroker_run r fare s :
  exists b, settleBroker r fare s
    = (Ok (settled r fare (commissionPercent (effective_policy (broker_view s)))), s <| ts_broker := b |>).
Proof.
  unfold settleBroker. rewrite run_bind. unfold brokerAccess at 1, zoom. rewrite getPolicy_run.
  by eexists.
Qed.

(** What the broker's columns hold after a delivery. *)
Definition broker_columns (s : trip_state) (r r2 : CargoRequest) (f : TripFareValues) : Prop :=
  match rq_forDriver r, cf_brokerAccess (ts_config s) with
  | Some d, true =>
      let model := default Commission (rq_brokerPayModel r) in
      let earning := brokerEarning model (tf_total f) (tf_currency f) (fareAmount (bd_fare d))
                       (commissionPercent (effective_policy (broker_view s))) in
      rq_brokerPayModel r2 = Some model /\ rq_brokerCommission r2 = commission earning /\
      rq_brokerMargin r2 = margin earning
  | _, _ => rq_brokerCommission r2 = rq_brokerCommission r /\ rq_brokerMargin r2 = rq_brokerMargin r
  end.

Lemma settled_columns r f percent d :
  rq_forDriver r = Some d ->
  let model := default Commission (rq_brokerPayModel r) in
  let earning := brokerEarning model (tf_total f) (tf_currency f) (fareAmount (bd_fare d)) percent in
  let r2 := settled r (Some f) percent in
  rq_brokerPayModel r2 = Some model /\ rq_brokerCommission r2 = commission earning /\
  rq_brokerMargin r2 = margin earning.
Proof. destruct r. cbn. by intros ->. Qed.

Lemma recordDelivered_effective r v u s w s1 :
  recordDelivered r v u s = (Ok w, s1) ->
  ts_requests s1 = ts_requests s /\ ts_listings s1 = ts_listings s /\ ts_config s1 = ts_config s /\
  ts_now s1 = ts_now s /\ ts_broker s1 = ts_broker s /\ ts_profiles s1 = ts_profiles s /\
  (forall st, st <> StageDelivered -> ts_fares s1 !! (rq_id r, st) = ts_fares s !! (rq_id r, st)) /\
  exists row, ts_fares s1 !! (rq_id r, StageDelivered) = Some row /\
    num_to_Z (tf_total v) = Some (fr_total row) /\
    (is_Some (fr_changeReason row) <-> fare_changed_from s (rq_id r) v = true).
Proof.
  unfold recordDelivered. intros H. apply bind_Ok_inv in H as (? & ? & [<- <-]%run_Ok_inv & H). cbv zeta in H.
  apply bind_Ok_inv in H as (a & s2 & [Hg ->]%ensure_Ok_inv & H).
  rewrite upsert_run in H. destruct (fare_row _ _ _ _ _) as [row|e] eqn:E; [|done]. injection H as <- <-.
  repeat (split; [done|]). cbn [ts_fares].
  split; [intros st Hst; change (<[(rq_id r, StageDelivered) := row]> (ts_fares s) !! (rq_id r, st) = ts_fares s !! (rq_id r, st));
          rewrite lookup_insert_ne; congruence|].
  exists row. split; [change (<[(rq_id r, StageDelivered) := row]> (ts_fares s) !! (rq_id r, StageDelivered) = Some row);
                      by rewrite lookup_insert_eq|].
  destruct (fare_row_values _ _ _ _ _ _ E) as (_ & _ & Hr & _ & Ht & _). split; [exact Ht|].
  rewrite Hr. unfold with_reason. change (tf_changeReason (v <| tf_changeReason := ?x |>)) with x.
  destruct (fare_changed_from s (rq_id r) v); cbn [andb negb] in Hg.
  - destruct (tf_changeReason v); [|done]. split; [done | eauto].
  - split; [by intros [? ?] | done].
Qed.

(** C10: The company's confirmation fixes the trip: it is delivered now, with the confirmed
    fare stored beside the agreed one (a reason exactly when it differs), and a
    broker's commission or margin worked out from that fare and today's percent. *)
Theorem confirm_fixes_trip (s s2 : trip_state) (i : uuid) (r r2 : CargoRequest) (fi : option TripFareInput)
    (Hs : rows_ok s) (Hr : ts_requests s !! i = Some r) (Hne : rq_companyUserId r <> rq_driverUserId r)
    (Hcf : cf_fares (ts_config s) = true)
    (Hrun : deliver (rq_companyUserId r) i fi s = (Ok r2, s2)) :
  rq_status r = Accepted /\
  exists f row, readTripFare fi = inr f /\
    ts_requests s2 = <[i := r2]> (ts_requests s) /\ ts_listings s2 = ts_listings s /\
    rq_status r2 = Delivered /\ rq_deliveredAt r2 = Some (ts_now s) /\
    ts_fares s2 !! (i, StageDelivered) = Some row /\ num_to_Z (tf_total f) = Some (fr_total row) /\
    ts_fares s2 !! (i, StageAgreed) = ts_fares s !! (i, StageAgreed) /\
    (is_Some (fr_changeReason row) <-> fare_changed_from s i f = true) /\
    broker_columns s r r2 f.
Proof.
  pose proof (ok_ids s Hs i r Hr) as Hid. subst i.
  unfold deliver in Hrun. rewrite run_bind, (owned_either_run _ s r (rq_companyUserId r) Hr) in Hrun
    by by rewrite N.eqb_refl, orb_true_r.
  apply bind_Ok_inv in Hrun as (? & ? & [Hst%eqb_eq ->]%ensure_Ok_inv & Hrun). split; [done|].
  rewrite (proj2 (N.eqb_neq _ _) Hne) in Hrun. unfold confirm_delivery, config in Hrun.
  apply bind_Ok_inv in Hrun as (? & ? & [<- <-]%run_Ok_inv & Hrun). rewrite Hcf in Hrun.
  apply bind_Ok_inv in Hrun as (fare & ? & Hf & Hrun).
  apply bind_Ok_inv in Hf as (f & ? & Hf & [<- <-]%run_Ok_inv). unfold read_fare in Hf.
  destruct (readTripFare fi) as [e|f0] eqn:Ef; [done|]. apply run_Ok_inv in Hf as [-> <-].
  apply bind_Ok_inv in Hrun as (? & s1 & Hrec & Hrun).
  apply bind_Ok_inv in Hrec as (w & ? & Hrec & [_ ->]%run_Ok_inv).
  apply recordDelivered_effective in Hrec as (E1 & E2 & E3 & E4 & E5 & E6 & Hagr & row & Hrow & Htot & Hreason).
  cbv zeta in Hrun. apply bind_Ok_inv in Hrun as (? & ? & [<- <-]%run_Ok_inv & Hrun).
  set (r0 := r <| rq_status := Delivered |> <| rq_deliveredAt := Some (ts_now s1) |>) in *.
  apply bind_Ok_inv in Hrun as (r1 & s3 & Hset & Hrun).
  assert (Hr1 : exists b, s3 = s1 <| ts_broker := b |> /\ rq_id r1 = rq_id r /\ rq_status r1 = Delivered /\
            rq_deliveredAt r1 = Some (ts_now s) /\ broker_columns s r r1 f).
  { assert (Ev : effective_policy (broker_view s1) = effective_policy (broker_view s)).
    { unfold broker_view. by rewrite E4, E5, E6. }
    unfold broker_columns. change (rq_forDriver r0) with (rq_forDriver r) in Hset.
    destruct (rq_forDriver r) as [bd|] eqn:Efd, (cf_brokerAccess (ts_config s)); cbn [andb] in Hset.
    2-4: apply run_Ok_inv in Hset as [<- <-]; exists (ts_broker s1); (split; [by destruct s1|]);
         subst r0; cbn; rewrite E4; done.
    destruct (settleBroker_run r0 (Some f) s1) as (b & Hb). rewrite Hb in Hset. apply run_Ok_inv in Hset as [<- <-].
    exists b. split; [done|]. split; [done|]. split; [done|]. split; [change (Some (ts_now s1) = Some (ts_now s)); by rewrite E4|].
    rewrite Ev. exact (settled_columns r0 f _ bd Efd). }
  destruct Hr1 as (b & -> & Hid1 & Hst1 & Hdl1 & Hbc).
  apply bind_Ok_inv in Hrun as (full & s4 & Hsv & Hrun). apply save_Ok_inv in Hsv as (_ & -> & ->).
  unfold is_broker_card, gets in Hrun. apply bind_Ok_inv in Hrun as (? & ? & [<- <-]%run_Ok_inv & Hrun).
  rewrite run_bind in Hrun.
  match type of Hrun with context [notify ?a ?b ?c ?d ?e ?f ?g ?s] =>
    destruct (notify_run a b c d e f g s) as (n1 & _ & _ & _ & _ & Hn) end.
  rewrite Hn, run_bind, changed_run, run_ret in Hrun. rewrite sent_sent in Hrun.
  set (s3 := s1 <| ts_broker := b |>) in *. apply run_Ok_inv in Hrun as [<- <-].
  exists f, row. split; [done|].
  split. { change (<[rq_id r1 := written s3 r1]> (ts_requests s1) = <[rq_id r := written s3 r1]> (ts_requests s)).
           by rewrite E1, Hid1. }
  split; [exact E2|]. autorewrite with written. split; [exact Hst1|]. split; [exact Hdl1|].
  split; [exact Hrow|]. split; [exact Htot|]. split; [by apply (Hagr StageAgreed)|]. split; [exact Hreason|].
  unfold broker_columns in *. autorewrite with written. exact Hbc.
Qed.

Definition sample_accepted : trip_state := run_trips [OpDecide 10 7 true sample_deal] sample_trips.

Lemma report_keeps_trip_witness :
  exists r r1 s1, ts_requests sample_accepted !! 7%N = Some r /\
    deliver 1 7 None sample_accepted = (Ok r1, s1) /\ rq_status r1 = Accepted.
Proof.
  destruct (ts_requests sample_accepted !! 7%N) as [r|] eqn:E; [|vm_compute in E; discriminate].
  assert (H1 : rq_status r = Accepted) by (vm_compute in E; injection E as <-; reflexivity).
  assert (H2 : rq_deliveryReportedAt r = None) by (vm_compute in E; injection E as <-; reflexivity).
  assert (H3 : rq_driverUserId r = 1%N) by (vm_compute in E; injection E as <-; reflexivity).
  destruct (report_keeps_trip sample_accepted 7 r None None
              (proj1 (trips_ok_run [OpDecide 10 7 true sample_deal] sample_trips sample_trips_ok)) E H1 H2)
    as (r1 & s1 & Hrun & _ & _ & _ & _ & Hst & _).
  rewrite H3 in Hrun. exists r, r1, s1. split; [exact eq_refl || reflexivity | split; [exact Hrun | exact Hst]].
Defined.

Lemma confirm_fixes_trip_witness :
  exists r2 s2, deliver 10 7 (Some sample_input) sample_accepted = (Ok r2, s2) /\ rq_status r2 = Delivered.
Proof.
  destruct (deliver 10 7 (Some sample_input) sample_accepted) as [[r2|e] s2] eqn:Hrun; [|vm_compute in Hrun; discriminate].
  destruct (ts_requests sample_accepted !! 7%N) as [r|] eqn:E; [|vm_compute in E; discriminate].
  assert (H1 : rq_companyUserId r <> rq_driverUserId r) by (vm_compute in E; injection E as <-; discriminate).
  assert (H2 : rq_companyUserId r = 10%N) by (vm_compute in E; injection E as <-; reflexivity).
  assert (H3 : cf_fares (ts_config sample_accepted) = true) by (vm_compute; reflexivity).
  rewrite <- H2 in Hrun.
  destruct (confirm_fixes_trip sample_accepted s2 7 r r2 (Some sample_input)
              (proj1 (trips_ok_run [OpDecide 10 7 true sample_deal] sample_trips sample_trips_ok)) E H1 H3 Hrun)
    as (_ & f & row & _ & _ & _ & Hst & _).
  exists r2, s2. split; [reflexivity | exact Hst].
Defined.

(** ** What a request costs a broker *)

Lemma remaining_credit (b : broker_state) (d : uuid) (x : Z) :
  remaining_of (b <| bs_credits := <[d := x]> (bs_credits b) |>) d = x.
Proof.
  change (default 0 ((<[d := x]> (bs_credits b)) !! d) = x). by rewrite lookup_insert_eq.
Qed.

(** A broker's load request is charged only when it is saved: a saved request costs one
    of its requests exactly when the packages count, and never more than it has; one
    that is not saved, for whatever reason, leaves its credit and every request as
    they were. *)
Theorem request_charge (d : uuid) (r : CargoRequest) (s : trip_state)
    (Hfit : fits_int4 (remaining_of (ts_broker s) d) = true) :
  let charged := cf_brokerAccess (ts_config s) && counted (broker_view s) d in
  (forall e s1, save_charged d r s = (Err e, s1) ->
     remaining_of (ts_broker s1) d = remaining_of (ts_broker s) d /\ ts_requests s1 = ts_requests s) /\
  (forall r1 s1, save_charged d r s = (Ok r1, s1) ->
     remaining_of (ts_broker s1) d = remaining_of (ts_broker s) d - (if charged then 1 else 0) /\
     (charged = true -> 0 < remaining_of (ts_broker s) d)).
Proof.
  intros charged. subst charged.
  set (b := broker_view s). assert (Hb : remaining_of b d = remaining_of (ts_broker s) d) by done.
  rewrite <- Hb in *. unfold save_charged, config, gets. rewrite run_bind. cbn beta iota.
  destruct (cf_brokerAccess (ts_config s)); cbn [andb].
  2: { rewrite run_bind, run_ret. unfold try_catch. split; intros x s1; destruct (save r s) as [[r0|e0] s0] eqn:E.
       - done.
       - cbn [when]. rewrite run_bind, run_ret. intros [= _ <-]. apply save_Err_inv in E as [_ ->]. done.
       - intros [= _ <-]. apply save_Ok_inv in E as (_ & _ & ->). split; [change (remaining_of (ts_broker s) d = remaining_of b d - 0); lia | done].
       - cbn [when]. by rewrite run_bind, run_ret. }
  rewrite run_bind. unfold brokerAccess at 1 3, zoom.
  destruct (useRequest_run d b) as (b1 & Hc & _ & _ & _ & _ & Hrun). fold b. rewrite Hrun. clear Hrun.
  assert (Hb1 : remaining_of b1 d = remaining_of b d) by (unfold remaining_of; by rewrite Hc).
  destruct (counted b d); cbn [negb].
  2: { unfold try_catch. set (s0 := s <| ts_broker := b1 |>).
       assert (H0 : remaining_of (ts_broker s0) d = remaining_of b d) by exact Hb1.
       split; intros x s1; destruct (save r s0) as [[r0|e0] s2] eqn:E.
       - done.
       - cbn [when]. rewrite run_bind, run_ret. intros [= _ <-]. apply save_Err_inv in E as [_ ->]. done.
       - intros [= _ <-]. apply save_Ok_inv in E as (_ & _ & ->). split; [|done].
         change (remaining_of (ts_broker s0) d = remaining_of b d - 0). lia.
       - cbn [when]. by rewrite run_bind, run_ret. }
  destruct (0 <? remaining_of b d) eqn:Epos.
  2: { split; [|done]. intros e s1 [= _ <-]. split; [exact Hb1 | done]. }
  set (b2 := b1 <| bs_credits := _ |>). set (s0 := s <| ts_broker := b2 |>).
  apply Z.ltb_lt in Epos.
  assert (H2 : remaining_of b2 d = remaining_of b d - 1).
  { unfold remaining_of at 1. change (bs_credits b2) with (<[d := remaining_of b d - 1]> (bs_credits b)).
    by rewrite lookup_insert_eq. }
  unfold try_catch. destruct (save r s0) as [[r0|e0] s2] eqn:E.
  - split; [done|]. intros r1 s1 [= <- <-]. apply save_Ok_inv in E as (_ & _ & ->). split; [exact H2 | done].
  - split; [|cbn [when]; rewrite run_bind; unfold brokerAccess, zoom, refundRequest; rewrite addCredit_run;
             intros r1 s1; by destruct (fits_int4 _ && _)].
    intros e s1. cbn [when]. rewrite run_bind. unfold brokerAccess, zoom, refundRequest. rewrite addCredit_run.
    apply save_Err_inv in E as [_ ->].
    assert (H3 : remaining_of (broker_view s0) d = remaining_of b d - 1) by exact H2.
    rewrite H3. replace (remaining_of b d - 1 + 1) with (remaining_of b d) by lia. rewrite Hfit.
    change (fits_int4 1) with true. cbn [andb]. intros [= _ <-]. split; [|done].
    exact (remaining_credit (broker_view s0) d (remaining_of b d)).
Qed.

Lemma request_charge_witness :
  remaining_of (ts_broker (final (save_charged 1 (new_request 9 100 1 10 1000)) sample_trips)) 1 = 0.
Proof.
  destruct (save_charged 1 (new_request 9 100 1 10 1000) sample_trips) as [[r1|e] s1] eqn:E;
    [vm_compute in E; discriminate|].
  unfold final. rewrite E.
  exact (proj1 (proj1 (request_charge 1 (new_request 9 100 1 10 1000) sample_trips eq_refl) e s1 E)).
Defined.

(** ** Trips: answers that are refused, and offers that run out

    What [decide] and [respondOffer] answer when they refuse, the sweep of the expired
    offers, and the fares a started trip keeps, run on the sample world. *)

(** ** The guards of [decide] *)

Definition owns (s : trip_state) (c i : uuid) : bool :=
  match ts_requests s !! i with Some r => (rq_companyUserId r =? c)%N | None => false end.

Lemma owned_refused s c i :
  owns s c i = false -> owned i (fun r => rq_companyUserId r =? c)%N s = (Err REQUEST_NOT_FOUND, s).
Proof.
  unfold owns, owned, findById, gets. rewrite run_bind. cbn beta iota.
  destruct (ts_requests s !! i) as [r|]; [|done]. by intros ->.
Qed.

(** The answer of [decide]'s guards, in their order. *)
Definition decide_answer (s : trip_state) (c i : uuid) (accept : bool) : outcome CargoRequest :=
  match ts_requests s !! i with
  | None => Err REQUEST_NOT_FOUND
  | Some r =>
      if negb (rq_companyUserId r =? c)%N then Err REQUEST_NOT_FOUND
      else if negb (eqb (rq_status r) Pending) then Err (conflict "notPending")
      else if negb accept then Ok r
      else match li_status <$> ts_listings s !! rq_listingId r with
           | Some ListingOpen =>
               match active_offer s (rq_listingId r) with None => Ok r | Some _ => Err (conflict "reserved") end
           | _ => Err (conflict "taken")
           end
  end.

Lemma decide_guards_answer s c i accept :
  rows_ok s -> decide_guards c i accept s = (decide_answer s c i accept, s).
Proof.
  intros Hs. unfold decide_guards, decide_answer. rewrite run_bind.
  destruct (ts_requests s !! i) as [r|] eqn:Er.
  2: { rewrite owned_refused; [done|]. unfold owns. by rewrite Er. }
  destruct (rq_companyUserId r =? c)%N eqn:Ec; cbn [negb].
  2: { rewrite owned_refused; [done|]. unfold owns. by rewrite Er. }
  rewrite (owned_run i _ s r Er Ec), run_bind.
  destruct (eqb (rq_status r) Pending) eqn:Est; cbn [negb ensure]; [|done].
  rewrite run_ret. destruct accept; cbn [negb]; [|done].
  destruct (ok_company s Hs i r Er) as (l & Hl & _).
  rewrite run_bind. unfold listing_of. rewrite run_bind. unfold get. cbn beta iota. rewrite Hl.
  cbn [some_or fmap option_fmap option_map]. rewrite run_ret, run_bind.
  destruct (li_status l); try done.
  change (eqb ListingOpen ListingOpen) with true. cbn [ensure]. rewrite run_ret, run_bind.
  unfold findActiveOffer, gets. cbn beta iota. rewrite run_bind.
  by destruct (active_offer s (rq_listingId r)).
Qed.

(** A refused answer changes nothing: with the fare of the deal read, [decide] answers
    «not found» to another company, «notPending» to an answered request, and to an
    accept «taken» when the load is not open and «reserved» while a driver holds an
    unanswered offer of it, each time leaving every request, load, fare and message as
    it was; a deal whose fare cannot be read is refused before the request is read. *)
Theorem decide_refused (s : trip_state) (c i : uuid) (accept : bool) (deal : option Deal) (Hs : rows_ok s) :
  (forall e s1, read_deal accept deal s = (Err e, s1) -> decide c i accept deal s = (Err e, s)) /\
  (forall fare s1 e, read_deal accept deal s = (Ok fare, s1) -> decide_answer s c i accept = Err e ->
     decide c i accept deal s = (Err e, s)) /\
  (forall fare s1 r, read_deal accept deal s = (Ok fare, s1) -> decide_answer s c i accept = Ok r ->
     ts_requests s !! i = Some r /\ rq_companyUserId r = c /\ rq_status r = Pending /\
     decide c i accept deal s
       = (decide_commit c accept fare deal r ≫= decide_announce c accept fare) s).
Proof.
  assert (Hread : forall x s1, read_deal accept deal s = (x, s1) -> s1 = s).
  { intros x s1. unfold read_deal, config, gets. rewrite run_bind. cbn beta iota.
    destruct (accept && cf_fares (ts_config s)); [|by intros [= _ <-]].
    unfold read_fare. rewrite run_bind. destruct (readTripFare _); by intros [= _ <-]. }
  unfold decide. split; [|split].
  - intros e s1 H. pose proof (Hread _ _ H) as ->. by rewrite run_bind, H.
  - intros fare s1 e H He. pose proof (Hread _ _ H) as ->.
    by rewrite run_bind, H, run_bind, decide_guards_answer, He.
  - intros fare s1 r H Hr. pose proof (Hread _ _ H) as ->. split; [|split; [|split]].
    4: by rewrite run_bind, H, run_bind, decide_guards_answer, Hr.
    all: unfold decide_answer in Hr; destruct (ts_requests s !! i) as [q|]; [|done].
    all: destruct (rq_companyUserId q =? c)%N eqn:Ec; [|done].
    all: destruct (eqb (rq_status q) Pending) eqn:Est; [|done]; cbn [negb] in Hr.
    all: assert (q = r) as <- by (destruct accept; cbn [negb] in Hr; [|by injection Hr];
           destruct (li_status <$> _) as [[]|]; try done; by destruct (active_offer _ _); [|injection Hr]).
    + done.
    + by apply N.eqb_eq.
    + by apply eqb_eq.
Qed.

Lemma decide_refused_witness :
  decide 10 7 true sample_deal sample_delivered = (Err (conflict "notPending"), sample_delivered).
Proof.
  assert (Hok : rows_ok sample_delivered) by exact (proj1 (trips_ok_run sample_ops sample_trips sample_trips_ok)).
  destruct (read_deal true sample_deal sample_delivered) as [[f|e] s1] eqn:E; [|vm_compute in E; discriminate].
  refine (proj1 (proj2 (decide_refused sample_delivered 10 7 true sample_deal Hok)) f s1 _ E _).
  vm_compute. reflexivity.
Defined.

(** ** Offers that run out *)

(** A driver who answers an offer after its time, whether yes or no, is answered
    «offerExpired»; the offer is expired, no other request changes and no load is
    taken. *)
Theorem late_answer_expires (s : trip_state) (d i : uuid) (r : CargoRequest) (accept : bool) (e : time)
    (Hs : rows_ok s) (Hr : ts_requests s !! i = Some r) (Hd : rq_driverUserId r = d)
    (Hst : rq_status r = Offered) (He : rq_offerExpiresAt r = Some e) (Hlate : e < ts_now s) :
  exists s1 q, respondOffer d i accept s = (Err (conflict "offerExpired"), s1) /\
    ts_requests s1 = <[i := q]> (ts_requests s) /\ same_request r q /\ rq_status q = Expired /\
    ts_listings s1 = ts_listings s.
Proof.
  pose proof (ok_ids s Hs i r Hr) as Hid.
  unfold respondOffer. rewrite run_bind, (owned_run i _ s r Hr) by (by apply N.eqb_eq).
  rewrite run_bind, Hst. change (eqb Offered Offered) with true. cbn [ensure]. rewrite run_ret, run_bind. unfold now_, gets. cbn beta iota.
  unfold offer_over. rewrite He, (proj2 (Z.ltb_lt _ _) Hlate), run_bind.
  destruct (expire_run s r (row_map_can_save expired s i r expired_map Hs Hr)) as (xs & ->).
  exists (sent (put_request s (expired r)) xs), (written s (expired r)).
  split; [done|]. split; [by rewrite <- Hid|].
  unfold same_request. autorewrite with written. done.
Qed.

(** The sweep of the expired offers: it never fails, it expires at most a hundred
    rows, each of them an offer past its time, it leaves every other request alone, and
    when it answers less than a hundred no such offer is left. *)
Theorem sweep_expires (s : trip_state) (Hs : rows_ok s) :
  exists n s1, expireOffers (ts_now s) s = (Ok n, s1) /\ (n <= 100)%nat /\ rows_ok s1 /\
    ts_listings s1 = ts_listings s /\
    (forall i r, ts_requests s !! i = Some r ->
       ts_requests s1 !! i = Some r \/
       offer_expired (ts_now s) r = true /\ exists q, ts_requests s1 !! i = Some q /\
    same_request r q /\ rq_status q = Expired) /\
    ((n < 100)%nat -> forall i r, ts_requests s !! i = Some r -> offer_expired (ts_now s) r = true ->
       exists q, ts_requests s1 !! i = Some q /\ rq_status q = Expired).
Proof.
  unfold expireOffers, findExpiredOffers, gets. rewrite run_bind. cbn beta iota.
  set (all := find_rows (offer_expired (ts_now s)) (ts_requests s)). set (l := take 100 all).
  pose proof (find_rows_current s (offer_expired (ts_now s)) Hs) as Hall. fold all in Hall.
  pose proof (current_rows_take s all 100 Hall) as Hcur. fold l in Hcur.
  destruct (for_each_rows no_moves false rows_ok (rows_ok_closed no_moves false) expired expire l s expired_map
              ltac:(done) Hs Hcur) as (s1 & Hrun & Hok & Henv & Hin & Hout).
  { intros s1 q _ Hc. by apply expire_run. }
  exists (length l), s1. rewrite run_bind, Hrun.
  assert (Hexp : forall r, r ∈ l -> same_request r (written s (expired r)) /\
    rq_status (written s (expired r)) = Expired).
  { intros r _. unfold same_request. autorewrite with written. done. }
  split; [done|]. split; [unfold l; rewrite length_take; lia|]. split; [done|]. split; [by destruct Henv as (_ & _ & ? & _)|].
  split.
  - intros i r Hr. pose proof (ok_ids s Hs i r Hr) as Hid.
    destruct (base.decide (i ∈ rq_id <$> l)) as [Hi|Hi]; [right | left; by rewrite Hout].
    apply list_elem_of_fmap in Hi as (q & Hq & Hql).
    assert (q = r) as -> by (pose proof (proj2 Hcur q Hql) as Hx; rewrite <- Hq in Hx; congruence).
    split; [by apply elem_of_take in Hql as (k & Hk & _); apply list_elem_of_lookup_2, elem_of_find_rows in Hk as [? _]|].
    exists (written s (expired r)). rewrite Hq, Hin by done. by destruct (Hexp r Hql) as [? ?].
  - intros Hlt i r Hr Hx. pose proof (ok_ids s Hs i r Hr) as Hid.
    assert (Hl : l = all) by (unfold l in *; apply take_ge; rewrite length_take in Hlt; lia).
    assert (Hrl : r ∈ l) by (rewrite Hl; apply elem_of_find_rows; eauto).
    exists (written s (expired r)). rewrite <- Hid, Hin by done. by destruct (Hexp r Hrl).
Qed.

(** Company 10 hands load 100 to driver 1, who answers an hour later. *)
Definition sample_offered : trip_state := run_trips [OpOffer 10 100 1 None; OpTick 3600000] sample_trips.

Lemma sample_offered_ok : rows_ok sample_offered.
Proof. exact (proj1 (trips_ok_run [OpOffer 10 100 1 None; OpTick 3600000] sample_trips sample_trips_ok)). Qed.

Lemma late_answer_expires_witness :
  exists s1, respondOffer 1 7 true sample_offered = (Err (conflict "offerExpired"), s1).
Proof.
  destruct (ts_requests sample_offered !! 7%N) as [r|] eqn:E; [|vm_compute in E; discriminate].
  destruct (rq_offerExpiresAt r) as [e|] eqn:Ee; [|vm_compute in E; injection E as <-; discriminate].
  assert (H1 : rq_driverUserId r = 1%N) by (vm_compute in E; injection E as <-; reflexivity).
  assert (H2 : rq_status r = Offered) by (vm_compute in E; injection E as <-; reflexivity).
  assert (H3 : e < ts_now sample_offered)
    by (vm_compute in E; injection E as <-; injection Ee as <-; reflexivity).
  destruct (late_answer_expires sample_offered 1 7 r true e sample_offered_ok E H1 H2 Ee H3) as (s1 & q & H & _).
  exists s1. exact H.
Defined.

Lemma sweep_expires_witness :
  exists n s1, expireOffers (ts_now sample_offered) sample_offered = (Ok n, s1) /\ rows_ok s1.
Proof.
  destruct (sweep_expires sample_offered sample_offered_ok) as (n & s1 & H & _ & Hok & _).
  exists n, s1. split; [exact H | exact Hok].
Defined.

(** ** The fares of a started trip *)

Lemma agreed_fixed_witness :
  exists r, ts_requests sample_accepted !! 7%N = Some r /\
    recordAgreed r sample_fare 10 sample_accepted = (Err (conflict "fareLocked"), sample_accepted).
Proof.
  destruct (ts_requests sample_accepted !! 7%N) as [r|] eqn:E; [|vm_compute in E; discriminate].
  destruct (ts_fares sample_accepted !! (7%N, StageAgreed)) as [row|] eqn:Er; [|vm_compute in Er; discriminate].
  assert (H1 : started (rq_status r) = true) by (vm_compute in E; injection E as <-; reflexivity).
  assert (H2 : rq_id r = 7%N) by (vm_compute in E; injection E as <-; reflexivity).
  rewrite <- H2 in Er.
  exists r. split; [reflexivity|]. exact (proj1 (agreed_fixed sample_accepted r row sample_fare 10 H1 Er)).
Defined.

Definition heavier_fare : TripFareValues :=
  mkFareValues BasisPerTon (num_of_Z 1800000) (num_of_Z 26) Toman (num_of_Z 46800000) None None.

Lemma recordDelivered_reason_witness :
  exists r, ts_requests sample_accepted !! 7%N = Some r /\
    recordDelivered r heavier_fare 10 sample_accepted = (Err REASON_REQUIRED, sample_accepted).
Proof.
  destruct (ts_requests sample_accepted !! 7%N) as [r|] eqn:E; [|vm_compute in E; discriminate].
  assert (H1 : fare_changed_from sample_accepted (rq_id r) heavier_fare = true)
    by (vm_compute in E; injection E as <-; vm_compute; reflexivity).
  exists r. split; [reflexivity|].
  exact (proj1 (recordDelivered_reason sample_accepted r heavier_fare 10) H1 eq_refl).
Defined.
