(* ===== verification/SubscriptionPolicy.v ===== *)
(** * When a subscription is required

    [src/services/subscription/subscriptionPolicy.service.ts]: the admin's policy,
    read through a local cache of each running instance, a Redis entry they share
    and the [AppSetting] row, and what is accepted of a row written from outside. *)

From S2P Require Import Prelude JsNumber JsString Json Effects.

(** [Date.parse]: which texts name an instant is the engine's; [None] is [NaN]. *)
Class JsDate := { Date_parse : text -> option time }.

(** The whole amounts of a tier are numbers [Number.isSafeInteger] accepts, kept as
    the integers they are. *)
Record DriverReward := mkReward { minTomans : Z; freeDays : Z }.

Record SubscriptionPolicy := mkPolicy {
  enforced : bool;
  freeUntil : option text;
  driversEnforced : bool;
  driverTrialDays : Z;
  driverTrialStartedAt : text;
  driverRewards : list DriverReward;
}.

#[export] Instance DriverReward_eq_dec : EqDecision DriverReward.
Proof. solve_decision. Defined.
#[export] Instance SubscriptionPolicy_eq_dec : EqDecision SubscriptionPolicy.
Proof. solve_decision. Defined.

Definition LOCAL_TTL_MS : Z := 5000.
Definition REDIS_TTL_SECONDS : Z := 86400.
Definition DRIVER_TRIAL_ROLLOUT : text := js "2026-10-25T00:00:00.000Z".
Definition DEFAULT_DRIVER_TRIAL_DAYS : Z := 30.

Definition DEFAULT_POLICY : SubscriptionPolicy := {|
  enforced := false;
  freeUntil := None;
  driversEnforced := true;
  driverTrialDays := DEFAULT_DRIVER_TRIAL_DAYS;
  driverTrialStartedAt := DRIVER_TRIAL_ROLLOUT;
  driverRewards := [];
|}.

(** ** Reading a stored value *)

(** A number that is a safe integer, as the integer *)
Definition safe_integer (x : num) : option Z :=
  match num_to_Z x with
  | Some z => if Z.abs z <=? max_safe_integer then Some z else None
  | None => None
  end.

(** [tiers.set(amount, days)]: a key set again keeps its place. *)
Fixpoint set_tier (amount days : Z) (tiers : list DriverReward) : list DriverReward :=
  match tiers with
  | [] => [mkReward amount days]
  | r :: tiers =>
      if minTomans r =? amount then mkReward amount days :: tiers else r :: set_tier amount days tiers
  end.

(** The tier an item names, when both its numbers are whole and positive *)
Definition read_tier (item : json) : option DriverReward :=
  amount ← safe_integer (number_of_field (member "minTomans" item));
  days ← safe_integer (number_of_field (member "freeDays" item));
  if (0 <? amount) && (0 <? days) then Some (mkReward amount days) else None.

Fixpoint read_tiers (items : list json) (tiers : list DriverReward) : list DriverReward :=
  match items with
  | [] => tiers
  | item :: items =>
      read_tiers items
        match read_tier item with
        | Some r => set_tier (minTomans r) (freeDays r) tiers
        | None => tiers
        end
  end.

Definition smaller_tier (a b : DriverReward) : Prop := minTomans a <= minTomans b.
#[export] Instance smaller_tier_dec : RelDecision smaller_tier.
Proof. intros a b. unfold smaller_tier. apply _. Defined.

(** [normalizeRewards] *)
Definition normalizeRewards (value : option json) : list DriverReward :=
  match value with
  | Some (JArr items) => merge_sort smaller_tier (read_tiers items [])
  | _ => []
  end.

Section Policy.
  Context `{JsDate}.

(** [normalize] *)
Definition normalize (value : list (string * json)) : SubscriptionPolicy := {|
  enforced := match field "enforced" value with Some (JBool true) => true | _ => false end;
  freeUntil := match field "freeUntil" value with Some (JStr t) => Some t | _ => None end;
  driversEnforced := match field "driversEnforced" value with Some (JBool false) => false | _ => true end;
  driverTrialDays :=
    match safe_integer (number_of_field (field "driverTrialDays" value)) with
    | Some days => if 0 <=? days then days else DEFAULT_DRIVER_TRIAL_DAYS
    | None => DEFAULT_DRIVER_TRIAL_DAYS
    end;
  driverTrialStartedAt :=
    match field "driverTrialStartedAt" value with
    | Some (JStr t) => match Date_parse t with Some _ => t | None => DRIVER_TRIAL_ROLLOUT end
    | _ => DRIVER_TRIAL_ROLLOUT
    end;
  driverRewards := normalizeRewards (field "driverRewards" value);
|}.

(** The object [update] stores: [{ ...policy }] *)
Definition reward_json (r : DriverReward) : json :=
  JObj [("minTomans", JNum (num_of_Z (minTomans r))); ("freeDays", JNum (num_of_Z (freeDays r)))]%string.

Definition policy_json (p : SubscriptionPolicy) : list (string * json) :=
  [("enforced", JBool (enforced p));
   ("freeUntil", match freeUntil p with Some t => JStr t | None => JNull end);
   ("driversEnforced", JBool (driversEnforced p));
   ("driverTrialDays", JNum (num_of_Z (driverTrialDays p)));
   ("driverTrialStartedAt", JStr (driverTrialStartedAt p));
   ("driverRewards", JArr (map reward_json (driverRewards p)))]%string.

End Policy.

(** ** The caches *)

(** The row and the entry, whether the database and Redis answer, and the cache of
    each running instance. *)
Record policy_state := mkPolicyState {
  ps_now : time;
  ps_db_up : bool;
  ps_setting : option (list (string * json));
  ps_redis_up : bool;
  ps_redis : option (list (string * json) * time);
  ps_cached : gmap N (SubscriptionPolicy * time);
}.

Abbreviation PolM := (M policy_state).

Section Caches.
  Context `{JsDate}.

Definition DB_DOWN : exn := OtherError (js "Connection terminated unexpectedly").

Definition POLICY_REDIS_DOWN : exn := OtherError (js "Connection is closed.").

(** A command of Redis fails while it does not answer. *)
Definition policy_redis (f : policy_state -> policy_state) : PolM unit :=
  s ← get;
  ensure (ps_redis_up s) POLICY_REDIS_DOWN ;;
  modify f.

(** [redis.setJson(RedisService.key('subscriptionPolicy'), policy, REDIS_TTL_SECONDS)] *)
Definition setJson (policy : SubscriptionPolicy) : PolM unit :=
  policy_redis (fun s => s <| ps_redis := Some (policy_json policy, ps_now s + REDIS_TTL_SECONDS * 1000) |>).

(** [redis.publish(REDIS_CHANNELS.subscriptionPolicyChanged, '1')]: it reaches each instance by
    [deliver]. *)
Definition publish_change : PolM unit := policy_redis (fun s => s).

(** [redis.delete(RedisService.key('subscriptionPolicy'))] *)
Definition forget_shared : PolM unit := policy_redis (fun s => s <| ps_redis := None |>).

(** [try { await this.redis.setJson(...) } catch {}]: Redis is optional. *)
Definition share (policy : SubscriptionPolicy) : PolM unit := try_catch (setJson policy) (fun _ => mret tt).

(** [fromRedis] *)
Definition from_redis (s : policy_state) : option SubscriptionPolicy :=
  if ps_redis_up s then
    match ps_redis s with
    | Some (value, expires) => if ps_now s <? expires then Some (normalize value) else None
    | None => None
    end
  else None.

Definition fromRedis : PolM (option SubscriptionPolicy) := gets from_redis.

(** [fromDatabase]: with the table out of reach the default is used and not shared *)
Definition fromDatabase : PolM SubscriptionPolicy :=
  s ← get;
  if ps_db_up s then
    let policy := match ps_setting s with Some value => normalize value | None => DEFAULT_POLICY end in
    share policy ;;
    mret policy
  else mret DEFAULT_POLICY.

Definition keep (i : N) (policy : SubscriptionPolicy) : PolM unit :=
  modify (fun s => s <| ps_cached := <[i := (policy, ps_now s + LOCAL_TTL_MS)]> (ps_cached s) |>).

Definition cached_policy (i : N) (s : policy_state) : option SubscriptionPolicy :=
  match ps_cached s !! i with
  | Some (policy, expiresAt) => if ps_now s <? expiresAt then Some policy else None
  | None => None
  end.

(** [getPolicy], on the instance [i] *)
Definition getPolicy (i : N) : PolM SubscriptionPolicy :=
  s ← get;
  match cached_policy i s with
  | Some policy => mret policy
  | None =>
      found ← fromRedis;
      policy ← match found with Some policy => mret policy | None => fromDatabase end;
      keep i policy ;;
      mret policy
  end.

(** *** A read in its two parts

    Redis and the table are asked, and only then what was read is put into Redis and into the
    instance's own cache: an admin's change may come between.  The flag says that the policy is
    of the table, and goes into Redis. *)
Definition policy_fetch : PolM (SubscriptionPolicy * bool) :=
  found ← fromRedis;
  match found with
  | Some policy => mret (policy, false)
  | None =>
      s ← get;
      mret (if ps_db_up s
            then (match ps_setting s with Some value => normalize value | None => DEFAULT_POLICY end, true)
            else (DEFAULT_POLICY, false))
  end.

Definition policy_store (i : N) (fetched : SubscriptionPolicy * bool) : PolM unit :=
  when fetched.2 (share fetched.1) ;;
  keep i fetched.1.

Record SubscriptionPolicyStatus := mkStatus { policy_of : SubscriptionPolicy; required : bool }.

(** [policy.enforced && !free] *)
Definition free_at (p : SubscriptionPolicy) (now : time) : bool :=
  match freeUntil p with
  | Some t => match Date_parse t with Some u => now <? u | None => false end
  | None => false
  end.

Definition required_at (p : SubscriptionPolicy) (now : time) : bool := enforced p && negb (free_at p now).

(** [getStatus], [isRequired], [getDriverRule], [getDriverRewards] *)
Definition getStatus (i : N) (now : time) : PolM SubscriptionPolicyStatus :=
  policy ← getPolicy i;
  mret (mkStatus policy (required_at policy now)).

Definition isRequired (i : N) (now : time) : PolM bool :=
  status ← getStatus i now;
  mret (required status).

Definition getDriverRule (i : N) : PolM (bool * Z * text) :=
  policy ← getPolicy i;
  mret (driversEnforced policy, driverTrialDays policy, driverTrialStartedAt policy).

Definition getDriverRewards (i : N) : PolM (list DriverReward) :=
  policy ← getPolicy i;
  mret (driverRewards policy).

(** [update], on the instance [i]: what Redis does not take or announce is deleted there. *)
Definition update (i : N) (policy : SubscriptionPolicy) : PolM SubscriptionPolicyStatus :=
  s ← get;
  ensure (ps_db_up s) DB_DOWN ;;
  modify (fun s => s <| ps_setting := Some (policy_json policy) |>) ;;
  keep i policy ;;
  try_catch (setJson policy ;; publish_change)
    (fun _ => try_catch forget_shared (fun _ => mret tt)) ;;
  s ← get;
  getStatus i (ps_now s).

(** The handler of [REDIS_CHANNELS.subscriptionPolicyChanged] on one instance *)
Definition deliver (i : N) : PolM unit := modify (fun s => s <| ps_cached := delete i (ps_cached s) |>).

End Caches.
