(* ===== verification/SubscriptionPolicyFacts.v ===== *)
(** * The subscription policy: what is accepted, and when everyone sees it

    The tiers a stored value gives, the round trip of a policy through the row and the
    Redis entry, and how long an instance may still go by an older policy. *)

From Stdlib Require Import Sorted.
From S2P Require Import Prelude JsNumber JsString Json Effects SubscriptionPolicy.

(** ** Tiers *)

Definition tier_ok (r : DriverReward) : Prop :=
  0 < minTomans r <= max_safe_integer /\ 0 < freeDays r <= max_safe_integer.

(** Whole positive tiers, one per amount, smallest first *)
Definition tiers_ok (l : list DriverReward) : Prop :=
  Forall tier_ok l /\ StronglySorted (fun a b => minTomans a < minTomans b) l.

Lemma safe_integer_Some x z : safe_integer x = Some z -> Z.abs z <= max_safe_integer.
Proof.
  unfold safe_integer. destruct (num_to_Z x) as [w|]; [|done].
  destruct (Z.leb_spec (Z.abs w) max_safe_integer); [|done]. by intros [= <-].
Qed.

Lemma safe_integer_of_Z z : Z.abs z <= max_safe_integer -> safe_integer (num_of_Z z) = Some z.
Proof.
  intros Hz. unfold safe_integer. rewrite num_to_Z_of_Z by done. by rewrite (proj2 (Z.leb_le _ _) Hz).
Qed.

Lemma read_tier_ok item r : read_tier item = Some r -> tier_ok r.
Proof.
  unfold read_tier. destruct (safe_integer (number_of_field (member "minTomans" item))) as [a|] eqn:Ea; [|done].
  destruct (safe_integer (number_of_field (member "freeDays" item))) as [d|] eqn:Ed; [|done]. simpl.
  apply safe_integer_Some in Ea, Ed.
  destruct (Z.ltb_spec 0 a), (Z.ltb_spec 0 d); try done. intros [= <-]. unfold tier_ok. simpl. lia.
Qed.

Lemma elem_of_set_tier a d l x : x ∈ minTomans <$> set_tier a d l <-> x = a \/ x ∈ minTomans <$> l.
Proof.
  induction l as [|r l IH]; [set_solver|]. simpl. destruct (Z.eqb_spec (minTomans r) a) as [<-|]; set_solver.
Qed.

Lemma set_tier_ok a d l :
  tier_ok (mkReward a d) -> Forall tier_ok l -> NoDup (minTomans <$> l) ->
  Forall tier_ok (set_tier a d l) /\ NoDup (minTomans <$> set_tier a d l).
Proof.
  intros Ht. induction l as [|r l IH]; intros HF Hnd.
  { split; [by constructor|]. by apply NoDup_singleton. }
  inversion HF; subst. rewrite fmap_cons in Hnd. inversion Hnd; subst.
  simpl. destruct (Z.eqb_spec (minTomans r) a) as [<-|Hne].
  - split; [by constructor|]. by constructor.
  - destruct IH as [IH1 IH2]; [done|done|]. split; [by constructor|]. rewrite fmap_cons. constructor; [|done].
    rewrite elem_of_set_tier. intros [E|E]; [by apply Hne | done].
Qed.

Lemma read_tiers_ok items l :
  Forall tier_ok l -> NoDup (minTomans <$> l) ->
  Forall tier_ok (read_tiers items l) /\ NoDup (minTomans <$> read_tiers items l).
Proof.
  revert l. induction items as [|item items IH]; intros l HF Hnd; [done|]. simpl.
  destruct (read_tier item) as [r|] eqn:E; [|by apply IH].
  apply read_tier_ok in E. destruct (set_tier_ok (minTomans r) (freeDays r) l) as [H1 H2]; [by destruct r|done|done|].
  by apply IH.
Qed.

#[export] Instance smaller_tier_trans : Transitive smaller_tier.
Proof. intros a b c. unfold smaller_tier. lia. Qed.
#[export] Instance smaller_tier_total : Total smaller_tier.
Proof. intros a b. unfold smaller_tier. lia. Qed.

Lemma sorted_strict l :
  StronglySorted smaller_tier l -> NoDup (minTomans <$> l) ->
  StronglySorted (fun a b => minTomans a < minTomans b) l.
Proof.
  induction 1 as [|a l Hs IH Hall]; intros Hnd; [constructor|].
  rewrite fmap_cons in Hnd. inversion Hnd as [|? ? Hnot Hnd']; subst. constructor; [by apply IH|].
  rewrite Forall_forall in Hall |- *. intros b Hb. specialize (Hall b Hb). unfold smaller_tier in Hall.
  assert (minTomans a <> minTomans b) by (intros E; apply Hnot; rewrite E; by apply list_elem_of_fmap_2). lia.
Qed.

Lemma normalizeRewards_ok v : tiers_ok (normalizeRewards v).
Proof.
  unfold normalizeRewards. destruct v as [[| | | |items|]|]; try (split; constructor).
  destruct (read_tiers_ok items []) as [HF Hnd]; [constructor|constructor|].
  pose proof (merge_sort_Permutation smaller_tier (read_tiers items [])) as Hp. split.
  - by rewrite Hp.
  - apply sorted_strict; [by apply (StronglySorted_merge_sort _) | by rewrite Hp].
Qed.

(** ** The round trip *)

Lemma read_tier_json r : tier_ok r -> read_tier (reward_json r) = Some r.
Proof.
  destruct r as [a d]. unfold tier_ok. cbn [minTomans freeDays]. intros [Ha Hd].
  unfold read_tier, reward_json. cbn [member field String.eqb Ascii.eqb Bool.eqb minTomans freeDays number_of_field number_of_json].
  rewrite !safe_integer_of_Z by lia. simpl.
  by rewrite (proj2 (Z.ltb_lt _ _) (proj1 Ha)), (proj2 (Z.ltb_lt _ _) (proj1 Hd)).
Qed.

Lemma set_tier_new a d l : a ∉ minTomans <$> l -> set_tier a d l = l ++ [mkReward a d].
Proof.
  induction l as [|r l IH]; intros H; [done|]. rewrite fmap_cons in H. simpl.
  destruct (Z.eqb_spec (minTomans r) a); [set_solver|]. by rewrite IH by set_solver.
Qed.

Lemma read_tiers_json l acc :
  Forall tier_ok l -> NoDup (minTomans <$> (acc ++ l)) -> read_tiers (map reward_json l) acc = acc ++ l.
Proof.
  revert acc. induction l as [|r l IH]; intros acc HF Hnd; [by rewrite app_nil_r|].
  inversion HF; subst. cbn [map read_tiers]. rewrite read_tier_json by done.
  rewrite fmap_app, fmap_cons in Hnd. apply NoDup_app in Hnd as (Hn1 & Hdis & Hn2).
  inversion Hn2; subst.
  rewrite set_tier_new by (intros Hin; apply (Hdis _ Hin); set_solver).
  assert (E : acc ++ [mkReward (minTomans r) (freeDays r)] = acc ++ [r]) by (by destruct r). rewrite E.
  rewrite IH; [by rewrite <- app_assoc | done |].
  rewrite <- app_assoc. cbn [app]. rewrite fmap_app, fmap_cons. apply NoDup_app.
  split; [done|]. split; [|done]. intros x Hx. apply Hdis in Hx. set_solver.
Qed.

Lemma sorted_NoDup l : StronglySorted (fun a b => minTomans a < minTomans b) l -> NoDup (minTomans <$> l).
Proof.
  induction 1 as [|a l Hs IH Hall]; [constructor|]. rewrite fmap_cons. constructor; [|done].
  intros (b & E & Hb)%list_elem_of_fmap. rewrite Forall_forall in Hall. specialize (Hall b Hb). simpl in Hall. lia.
Qed.

Lemma normalizeRewards_json l : tiers_ok l -> normalizeRewards (Some (JArr (map reward_json l))) = l.
Proof.
  intros [HF Hs]. cbn [normalizeRewards]. rewrite read_tiers_json by (done || by apply sorted_NoDup).
  cbn [app]. apply (StronglySorted_unique_strong smaller_tier).
  - intros a b Ha Hb H1 H2. rewrite merge_sort_Permutation in Ha.
    unfold smaller_tier in H1, H2. assert (E : minTomans a = minTomans b) by lia.
    apply list_elem_of_lookup in Ha as (i & Hi), Hb as (j & Hj).
    assert (i = j) as -> by (eapply (NoDup_lookup _ _ _ (minTomans a) (sorted_NoDup l Hs));
      rewrite list_lookup_fmap; [by rewrite Hi | by rewrite Hj, E]).
    congruence.
  - by apply (StronglySorted_merge_sort _).
  - induction Hs as [|a l' Hs IH Hall]; [constructor|]. constructor; [by apply IH; inversion HF|].
    eapply Forall_impl; [exact Hall|]. intros b. unfold smaller_tier. simpl. lia.
  - apply merge_sort_Permutation.
Qed.

Section Policy.
  Context `{JsDate}.

(** A policy the admin's form can write: whole days, a real start, proper tiers *)
Definition policy_wf (p : SubscriptionPolicy) : Prop :=
  0 <= driverTrialDays p <= max_safe_integer /\ is_Some (Date_parse (driverTrialStartedAt p)) /\
  tiers_ok (driverRewards p).

Lemma normalize_json p : policy_wf p -> normalize (policy_json p) = p.
Proof.
  intros (Hd & [d Hs] & Ht). destruct p as [e f dr days st rw]. cbn [driverTrialDays driverTrialStartedAt driverRewards] in *.
  unfold normalize, policy_json.
  cbn [field String.eqb Ascii.eqb Bool.eqb enforced freeUntil driversEnforced driverTrialDays
       driverTrialStartedAt driverRewards number_of_field number_of_json].
  rewrite safe_integer_of_Z, Hs, normalizeRewards_json by (done || lia).
  rewrite (proj2 (Z.leb_le 0 days)) by lia.
  f_equal; [by destruct e | by destruct f | by destruct dr].
Qed.

Lemma normalize_wf v : is_Some (Date_parse DRIVER_TRIAL_ROLLOUT) -> policy_wf (normalize v).
Proof.
  intros Hr. unfold policy_wf, normalize. cbn [driverTrialDays driverTrialStartedAt driverRewards].
  split; [|split; [|by apply normalizeRewards_ok]].
  - destruct (safe_integer _) as [z|] eqn:E; [|by compute]. apply safe_integer_Some in E.
    destruct (Z.leb_spec 0 z); [lia | by compute].
  - destruct (field "driverTrialStartedAt" v) as [[| | |t| |]|]; try done.
    destruct (Date_parse t) eqn:E; [by rewrite E | done].
Qed.

(** ** Everyone sees it *)

Inductive policy_op :=
| PolRead (i : N)
| PolDeliver (i : N)
| PolTick (ms : time)
| PolRedis (up : bool).

Definition exec_policy (o : policy_op) (s : policy_state) : policy_state :=
  match o with
  | PolRead i => final (getPolicy i) s
  | PolDeliver i => final (deliver i) s
  | PolTick ms => s <| ps_now := ps_now s + Z.max 0 ms |>
  | PolRedis up => s <| ps_redis_up := up |>
  end.

Definition run_policy (ops : list policy_op) (s : policy_state) : policy_state :=
  fold_left (fun s o => exec_policy o s) ops s.

(** No cache outlives its time. *)
Definition caches_ok (s : policy_state) : Prop :=
  (forall j q e, ps_cached s !! j = Some (q, e) -> e <= ps_now s + LOCAL_TTL_MS) /\
  (forall v e, ps_redis s = Some (v, e) -> e <= ps_now s + REDIS_TTL_SECONDS * 1000).

(** [p] is stored; what still says otherwise in Redis ends at [t], in an instance a
    little later. *)
Record told (t : time) (p : SubscriptionPolicy) (s : policy_state) : Prop := {
  told_db : ps_db_up s = true;
  told_row : ps_setting s = Some (policy_json p);
  told_redis : forall v e, ps_redis s = Some (v, e) -> v = policy_json p \/ e <= t;
  told_cached : forall j q e, ps_cached s !! j = Some (q, e) -> q = p \/ e <= t + LOCAL_TTL_MS;
}.

Lemma policy_read_run i s :
  getPolicy i s =
    match cached_policy i s with
    | Some q => (Ok q, s)
    | None =>
        match from_redis s with
        | Some q => (Ok q, final (keep i q) s)
        | None => let r := fromDatabase s in
                  match r with (Ok q, s1) => (Ok q, final (keep i q) s1) | (Err e, s1) => (Err e, s1) end
        end
    end.
Proof.
  unfold getPolicy. rewrite run_bind. unfold get. cbn beta iota. destruct (cached_policy i s); [done|].
  unfold fromRedis, gets. rewrite run_bind. cbn beta iota. destruct (from_redis s); [done|].
  rewrite run_bind. by destruct (fromDatabase s) as [[q|e] s1].
Qed.

Lemma share_run p s :
  share p s = (Ok tt, if ps_redis_up s then s <| ps_redis := Some (policy_json p, ps_now s + REDIS_TTL_SECONDS * 1000) |> else s).
Proof. unfold share, try_catch, setJson, policy_redis. rewrite !run_bind. unfold get. cbv beta iota. rewrite run_bind. by destruct (ps_redis_up s). Qed.

Lemma share_change_run p s :
  try_catch (setJson p ;; publish_change) (fun _ => try_catch forget_shared (fun _ => mret tt)) s = share p s.
Proof. destruct s as [n d st up r c]. by destruct up. Qed.

(** The two parts of a read, one after the other, are the read. *)
Lemma getPolicy_divided i s :
  cached_policy i s = None ->
  getPolicy i s = (fetched ← policy_fetch; policy_store i fetched ;; mret fetched.1) s.
Proof.
  intros Hc. rewrite policy_read_run, Hc. rewrite run_bind. unfold policy_fetch. rewrite run_bind. unfold fromRedis, gets. cbv beta iota.
  destruct (from_redis s) as [q|]; [done|]. unfold fromDatabase. rewrite !run_bind. unfold get. cbv beta iota.
  destruct (ps_db_up s); [|done]. rewrite run_bind, share_run, run_ret, run_ret, run_bind. unfold policy_store. cbn [when fst snd].
  by rewrite run_bind, share_run.
Qed.

Lemma keep_told i t p q s : told t p s -> q = p \/ ps_now s <= t -> told t p (final (keep i q) s).
Proof.
  intros [H1 H2 H3 H4] Hq. constructor; try done. intros j q' e.
  change (ps_cached (final (keep i q) s)) with (<[i := (q, ps_now s + LOCAL_TTL_MS)]> (ps_cached s)).
  rewrite lookup_insert. case_decide; [|apply H4].
  intros [= <- <-]. destruct Hq; [by left | right; lia].
Qed.

Lemma from_redis_told t p s q :
  policy_wf p -> told t p s -> from_redis s = Some q -> q = p \/ ps_now s <= t.
Proof.
  intros Hwf [_ _ H3 _]. unfold from_redis. destruct (ps_redis_up s); [|done].
  destruct (ps_redis s) as [[v e]|]; [|done]. destruct (Z.ltb_spec (ps_now s) e); [|done]. intros [= <-].
  destruct (H3 v e eq_refl) as [->|He]; [left; by apply normalize_json | right; lia].
Qed.

Lemma fromDatabase_told t p s :
  policy_wf p -> told t p s -> exists s1, fromDatabase s = (Ok p, s1) /\ told t p s1.
Proof.
  intros Hwf [H1 H2 H3 H4]. unfold fromDatabase. rewrite run_bind. unfold get. cbn beta iota.
  rewrite H1, H2, normalize_json by done. rewrite run_bind, share_run.
  eexists. split; [done|]. destruct (ps_redis_up s); [|done].
  constructor; try done. intros v e. cbn. intros [= <- <-]. by left.
Qed.

(** A read answers with [p], or with what was still cached. *)
Lemma getPolicy_told i t p s :
  policy_wf p -> told t p s ->
  exists q s1, getPolicy i s = (Ok q, s1) /\ told t p s1 /\
    (q = p \/ ps_now s < t + LOCAL_TTL_MS).
Proof.
  intros Hwf Hs. rewrite policy_read_run. unfold cached_policy.
  destruct (ps_cached s !! i) as [[q e]|] eqn:E; [destruct (Z.ltb_spec (ps_now s) e)|].
  1: { exists q, s. split; [done|]. split; [done|]. destruct (told_cached _ _ _ Hs _ _ _ E); [by left | right; lia]. }
  all: destruct (from_redis s) as [q0|] eqn:Er.
  1, 3: exists q0, (final (keep i q0) s); pose proof (from_redis_told _ _ _ _ Hwf Hs Er) as Hq;
     split; [done|]; split; [by apply keep_told|]; destruct Hq; [by left | right; unfold LOCAL_TTL_MS; lia].
  all: destruct (fromDatabase_told _ _ _ Hwf Hs) as (s1 & -> & H1); exists p, (final (keep i p) s1);
     split; [done|]; split; [apply keep_told; [done | by left] | by left].
Qed.

Lemma exec_told o t p s : policy_wf p -> told t p s -> told t p (exec_policy o s).
Proof.
  intros Hwf Hs. destruct o as [i|i|ms|up]; simpl.
  - destruct (getPolicy_told i t p s Hwf Hs) as (q & s1 & E & H1 & _). unfold final. by rewrite E.
  - destruct Hs. constructor; try done. intros j q e.
    change (ps_cached (final (deliver i) s)) with (delete i (ps_cached s)).
    intros [_ Hj]%lookup_delete_Some. eauto.
  - by destruct Hs.
  - by destruct Hs.
Qed.

Lemma run_told ops t p s : policy_wf p -> told t p s -> told t p (run_policy ops s).
Proof.
  intros Hwf. revert s. induction ops as [|o ops IH]; intros s Hs; [done|].
  apply IH. by apply exec_told.
Qed.

(** How long after a change another policy may still be read: the local caches, and
    the Redis entry when Redis did not answer at the change. *)
Definition lag (s : policy_state) : time :=
  (if ps_redis_up s then 0 else REDIS_TTL_SECONDS * 1000) + LOCAL_TTL_MS.

Lemma update_told i p s :
  policy_wf p -> caches_ok s -> ps_db_up s = true ->
  exists st s1, update i p s = (Ok st, s1) /\ ps_now s1 = ps_now s /\
    policy_of st = p /\ required st = required_at p (ps_now s) /\
    told (ps_now s + (lag s - LOCAL_TTL_MS)) p s1.
Proof.
  intros Hwf [Hc Hr] Hdb. unfold update. rewrite run_bind. unfold get at 1. cbn beta iota.
  rewrite Hdb. cbn [ensure]. rewrite run_bind, run_ret, run_bind. unfold modify at 1. cbn beta iota.
  rewrite run_bind. unfold keep, modify at 1. cbn beta iota.
  rewrite run_bind, share_change_run, share_run. rewrite run_bind. unfold get at 1. cbn beta iota.
  match goal with |- context [getStatus i _ ?x] => set (s1 := x) end.
  assert (E : ps_cached s1 = <[i := (p, ps_now s + LOCAL_TTL_MS)]> (ps_cached s) /\ ps_now s1 = ps_now s /\
              ps_setting s1 = Some (policy_json p) /\ ps_db_up s1 = true /\
              ps_redis s1 = if ps_redis_up s then Some (policy_json p, ps_now s + REDIS_TTL_SECONDS * 1000) else ps_redis s).
  { subst s1. destruct s as [n d st up r c]. cbn in Hdb. subst d. destruct up; cbn; repeat split. }
  destruct E as (E1 & E2 & E3 & E4 & E5).
  assert (Hread : getPolicy i s1 = (Ok p, s1)).
  { rewrite policy_read_run. unfold cached_policy. rewrite E1, lookup_insert_eq, E2.
    by rewrite (proj2 (Z.ltb_lt _ _)) by (unfold LOCAL_TTL_MS; lia). }
  unfold getStatus. rewrite run_bind, Hread. do 2 eexists. split; [done|].
  split; [exact E2|]. split; [done|]. split; [by rewrite <- E2|].
  unfold lag. constructor; try done.
  - intros v e. rewrite E5. destruct (ps_redis_up s); [intros [= <- <-]; by left|].
    intros Hv. right. specialize (Hr v e Hv). lia.
  - intros j q e. rewrite E1, lookup_insert. case_decide; [intros [= <- <-]; by left|].
    intros Hj. right. specialize (Hc j q e Hj). destruct (ps_redis_up s); unfold REDIS_TTL_SECONDS; lia.
Qed.

Lemma getPolicy_up i s : ps_redis_up (final (getPolicy i) s) = ps_redis_up s.
Proof.
  unfold final. rewrite policy_read_run. destruct (cached_policy i s); [done|]. destruct (from_redis s); [done|].
  unfold fromDatabase. rewrite run_bind. unfold get. cbv beta iota. destruct (ps_db_up s); [|done].
  rewrite run_bind, share_run. by destruct (ps_redis_up s) eqn:E.
Qed.

Lemma update_up i p s : ps_redis_up (final (update i p) s) = ps_redis_up s.
Proof.
  unfold final, update. rewrite run_bind. unfold get at 1. cbv beta iota. rewrite run_bind. unfold ensure.
  destruct (ps_db_up s); [|done]. rewrite run_ret, run_bind. unfold modify at 1. cbv beta iota. rewrite run_bind.
  unfold keep at 1, modify at 1. cbv beta iota. rewrite run_bind, share_change_run, share_run, run_bind. unfold get at 1. cbv beta iota.
  unfold getStatus. rewrite run_bind. match goal with |- context [getPolicy i ?x] => pose proof (getPolicy_up i x) as H1; unfold final in H1; destruct (getPolicy i x) as [[a|e] y] end;
    cbn [snd] in H1; rewrite ?run_ret; cbn [snd]; rewrite H1; destruct s as [? ? ? up ? ?]; by destruct up.
Qed.

End Policy.

(** ** Properties *)

(** A policy survives its storage: what [normalize] accepts of any stored value has
    whole days, a real start and positive tiers, one per amount and smallest first, and
    is read back from the row or the Redis entry exactly as it was written. *)
Theorem policy_roundtrip `{JsDate} (v : list (string * json)) (Hroll : is_Some (Date_parse DRIVER_TRIAL_ROLLOUT)) :
  policy_wf (normalize v) /\ normalize (policy_json (normalize v)) = normalize v /\
  forall p, policy_wf p -> normalize (policy_json p) = p.
Proof.
  pose proof (normalize_wf v Hroll) as Hwf.
  split; [done|]. split; [by apply normalize_json | intros p; apply normalize_json].
Qed.

(** C40: Every instance goes by a changed policy at the latest five seconds after the change
    (a day and five seconds when Redis did not answer at the change), as long as the database
    answers, the policy is one the admin's form can write (whole days, a real start, proper
    tiers), no other change follows and no read of the policy overlaps the change: whatever
    reads follow, whether or not the message of the change arrives and however often Redis
    goes away.  A read that overlaps it is the case of [stale_read_stays_shared]. *)
Theorem policy_in_force_everywhere `{JsDate} (i j : N) (p : SubscriptionPolicy) (s : policy_state)
    (ops : list policy_op) (Hwf : policy_wf p) (Hs : caches_ok s) (Hdb : ps_db_up s = true) :
  let s1 := run_policy ops (final (update i p) s) in
  ps_now s + lag s <= ps_now s1 ->
  result (getPolicy j) s1 = Ok p /\ result (getStatus j (ps_now s1)) s1 = Ok (mkStatus p (required_at p (ps_now s1))).
Proof.
  intros s1 Hlate. destruct (update_told i p s Hwf Hs Hdb) as (st & s0 & E & _ & _ & _ & Hold).
  assert (E1 : s1 = run_policy ops s0) by (unfold s1, final; by rewrite E).
  pose proof (run_told ops _ p s0 Hwf Hold) as Ht. rewrite <- E1 in Ht.
  destruct (getPolicy_told j _ p s1 Hwf Ht) as (q & s2 & Eq & _ & [->|Hq]); [|lia].
  unfold result, getStatus. rewrite run_bind, Eq. done.
Qed.

(** A read that asked Redis and the table before the change and puts its answer into Redis after
    it undoes the change for a day: any instance with nothing in its own cache goes by the old
    policy, though Redis and the database answered all the time. *)
Theorem stale_read_stays_shared `{JsDate} (i j k : N) (p q : SubscriptionPolicy) (s : policy_state) (ms : time) :
  policy_wf q -> ps_redis_up s = true -> result policy_fetch s = Ok (q, true) -> 0 <= ms < REDIS_TTL_SECONDS * 1000 ->
  let s1 := final (update i p) s in
  let s2 := exec_policy (PolTick ms) (final (policy_store j (q, true)) s1) in
  cached_policy k s2 = None -> result (getPolicy k) s2 = Ok q.
Proof.
  intros Hwf Hup _ Hms s1 s2 Hc. assert (E : ps_redis_up s1 = true) by (unfold s1; by rewrite update_up).
  set (s3 := s1 <| ps_redis := Some (policy_json q, ps_now s1 + REDIS_TTL_SECONDS * 1000) |>).
  assert (E2 : s2 = exec_policy (PolTick ms) (final (keep j q) s3)).
  { unfold s2, policy_store. cbn [fst snd when]. unfold final at 1. by rewrite run_bind, share_run, E. }
  assert (Hr : from_redis s2 = Some q).
  { rewrite E2. unfold from_redis. change (ps_redis_up (exec_policy (PolTick ms) (final (keep j q) s3))) with (ps_redis_up s1). rewrite E.
    change (ps_redis (exec_policy (PolTick ms) (final (keep j q) s3))) with (Some (policy_json q, ps_now s1 + REDIS_TTL_SECONDS * 1000)).
    change (ps_now (exec_policy (PolTick ms) (final (keep j q) s3))) with (ps_now s1 + Z.max 0 ms).
    cbv beta iota. rewrite (proj2 (Z.ltb_lt _ _)) by lia. by rewrite normalize_json. }
  unfold result. by rewrite policy_read_run, Hc, Hr.
Qed.

(** *** Witnesses *)

Definition rollout_only : JsDate :=
  {| Date_parse := fun t => if bool_decide (t = DRIVER_TRIAL_ROLLOUT) then Some 1792886400000 else None |}.

Definition sample_value : list (string * json) :=
  [("enforced", JBool true); ("driverTrialDays", JStr (js "45"));
   ("driverRewards", JArr [JObj [("minTomans", JNum (num_of_Z 50)); ("freeDays", JNum (num_of_Z 60))];
                           JObj [("minTomans", JNum (num_of_Z 20)); ("freeDays", JNum (num_of_Z 30))];
                           JNull])]%string.

Definition sample_policy_state : policy_state := mkPolicyState 1000 true None true None ∅.

Lemma policy_roundtrip_witness :
  policy_wf (H := rollout_only) (normalize (H := rollout_only) sample_value) /\
  driverRewards (normalize (H := rollout_only) sample_value) = [mkReward 20 30; mkReward 50 60].
Proof.
  split; [|vm_compute; reflexivity].
  exact (proj1 (policy_roundtrip (H := rollout_only) sample_value (ex_intro _ 1792886400000 eq_refl))).
Defined.

Lemma policy_in_force_everywhere_witness :
  result (getPolicy (H := rollout_only) 2)
    (run_policy (H := rollout_only) [PolRead 2; PolTick 5000] (final (update (H := rollout_only) 1 DEFAULT_POLICY) sample_policy_state))
  = Ok DEFAULT_POLICY.
Proof.
  assert (Hwf : policy_wf (H := rollout_only) DEFAULT_POLICY).
  { split; [split; discriminate|]. split; [exact (ex_intro _ 1792886400000 eq_refl)|]. split; constructor. }
  refine (proj1 (policy_in_force_everywhere (H := rollout_only) 1 2 DEFAULT_POLICY sample_policy_state
    [PolRead 2; PolTick 5000] Hwf _ eq_refl _)).
  - split; [intros j q e Hj; discriminate Hj | intros v e Hv; discriminate Hv].
  - vm_compute. discriminate.
Defined.

(** The first policy is read while nothing is shared; the admin changes it; the read ends. *)
Definition first_policy : SubscriptionPolicy := mkPolicy true None true 30 DRIVER_TRIAL_ROLLOUT [].
Definition before_change : policy_state :=
  mkPolicyState 1000 true (Some (policy_json first_policy)) true None ∅.

Lemma stale_read_stays_shared_witness :
  result (getPolicy (H := rollout_only) 3)
    (exec_policy (H := rollout_only) (PolTick 86399000)
       (final (policy_store 2 (first_policy, true)) (final (update (H := rollout_only) 1 DEFAULT_POLICY) before_change)))
  = Ok first_policy /\ enforced first_policy = true /\ enforced DEFAULT_POLICY = false.
Proof.
  split; [|split; reflexivity].
  refine (stale_read_stays_shared (H := rollout_only) 1 2 3 DEFAULT_POLICY first_policy before_change 86399000 _ eq_refl _ _ _).
  - split; [split; discriminate|]. split; [exact (ex_intro _ 1792886400000 eq_refl)|]. split; constructor.
  - vm_compute; reflexivity.
  - split; [discriminate | reflexivity].
  - vm_compute; reflexivity.
Defined.
