(* ===== verification/SubscriptionData.v ===== *)
(** * Subscriptions: rows and repositories

    The entities of src/domain/entities/subscription with the columns the services
    read or write, the rows of the users, roles and messenger links an approval
    resolves, and the repositories of src/infrastructure/repositories/subscription. *)

From S2P Require Import Prelude JsNumber JsString Json Effects Enums.
From S2P Require Import SubscriptionPolicy.

Record SubscriptionPlan := mkPlan {
  pl_id : uuid;
  pl_title : text;
  pl_accountType : AccountType;
  pl_durationDays : Z;
  pl_price : Z;
  pl_currency : string;
  pl_recordStatus : RecordStatus;
  pl_sortOrder : Z;
}.

Record SubscriptionOrder := mkOrder {
  or_id : uuid;
  or_provider : CommunicationProvider;
  or_providerUserId : text;
  or_phoneNumber : text;
  or_accountType : AccountType;
  or_subscriptionPlanId : uuid;
  or_amount : Z;
  or_currency : string;
  or_status : SubscriptionOrderStatus;
  or_createdUserId : option uuid;
  or_approvedAt : option time;
  or_approvedByUserId : option uuid;
  or_rejectedAt : option time;
  or_rejectionReason : option text;
  or_createdAt : time;
}.

(** [extractedPaymentStatus] *)
Inductive PaymentStatus := PaymentSuccess | PaymentFailed | PaymentUnknown.

Record PaymentReceipt := mkReceipt {
  re_id : uuid;
  re_orderId : uuid;
  re_providerFileId : option text;
  re_imageUrl : text;
  re_status : PaymentReceiptStatus;
  re_analysisAttempts : Z;
  re_analysisStartedAt : option time;
  re_extractedAmount : option Z;
  re_trackingCode : option text;
  re_transactionDate : option text;
  re_transactionTime : option text;
  re_sourceCard : option text;
  re_destinationCard : option text;
  re_destinationName : option text;
  re_extractedPaymentStatus : option PaymentStatus;
  re_aiConfidence : option num;
  re_amountMatched : option bool;
  re_destinationCardMatched : option bool;
  re_destinationNameMatched : option bool;
  re_duplicateTrackingCode : option bool;
  re_aiRawResult : option json;
  re_analyzedAt : option time;
  re_reviewedByUserId : option uuid;
  re_reviewedAt : option time;
  re_reviewNote : option text;
  re_createdAt : time;
}.

(** [new PaymentReceipt()] with its image, not saved yet *)
Definition new_receipt (imageUrl : text) (providerFileId : option text) (now : time) : PaymentReceipt := {|
  re_id := 0%N; re_orderId := 0%N; re_providerFileId := providerFileId; re_imageUrl := imageUrl;
  re_status := PendingAnalysis; re_analysisAttempts := 0; re_analysisStartedAt := None;
  re_extractedAmount := None; re_trackingCode := None; re_transactionDate := None;
  re_transactionTime := None; re_sourceCard := None; re_destinationCard := None;
  re_destinationName := None; re_extractedPaymentStatus := None; re_aiConfidence := None;
  re_amountMatched := None; re_destinationCardMatched := None; re_destinationNameMatched := None;
  re_duplicateTrackingCode := None; re_aiRawResult := None; re_analyzedAt := None;
  re_reviewedByUserId := None; re_reviewedAt := None; re_reviewNote := None; re_createdAt := now |}.

Record Subscription := mkSubscription {
  sb_id : uuid;
  sb_userId : uuid;
  sb_subscriptionPlanId : uuid;
  sb_orderId : uuid;
  sb_startAt : time;
  sb_expireAt : time;
  sb_status : SubscriptionStatus;
}.

Record SubscriptionBonus := mkBonus {
  bo_id : uuid;
  bo_userId : uuid;
  bo_reason : text;
  bo_days : Z;
  bo_startAt : time;
  bo_expireAt : time;
}.

(** The columns of [User] an approval or an access check reads *)
Record UserRow := mkUser {
  us_id : uuid;
  us_username : text;
  us_mobile : option text;
  us_recordStatus : RecordStatus;
  us_isParentCompany : bool;
  us_createdAt : time;
}.

Record Role := mkRole { ro_id : uuid; ro_name : string; ro_recordStatus : RecordStatus }.

Record BotLink := mkLink { bl_externalUserId : text; bl_userId : uuid }.

(** The settings of the receipts: the card that is paid to, and the environment's
    [RECEIPT_ANALYSIS_MAX_ATTEMPTS] and [RECEIPT_ANALYSIS_STALE_MS] *)
Record ReceiptConfig := mkReceiptConfig {
  rc_cardNo : option text;
  rc_cardOwner : option text;
  rc_maxAttempts : option text;
  rc_staleMs : option text;
}.

Record sub_state := mkSub {
  su_now : time;
  su_config : ReceiptConfig;
  su_plans : gmap uuid SubscriptionPlan;
  su_orders : gmap uuid SubscriptionOrder;
  su_receipts : gmap uuid PaymentReceipt;
  su_subscriptions : gmap uuid Subscription;
  su_bonuses : gmap uuid SubscriptionBonus;
  su_users : gmap uuid UserRow;
  su_roles : gmap uuid Role;
  su_userRoles : gset (uuid * uuid);
  su_links : list BotLink;
  su_policy : policy_state;
  su_announced : list (uuid * uuid);
}.

Abbreviation SM := (M sub_state).

Definition now : SM time := gets su_now.

(** [bigint]: «value out of range for type bigint» *)
Definition fits_bigint (z : Z) : bool := (- 2 ^ 63 <=? z) && (z <? 2 ^ 63).
Definition OUT_OF_RANGE : exn := QueryFailed "22003".

(** What keeps a row out of its columns *)
Definition order_fits (o : SubscriptionOrder) : bool :=
  fits_varchar 150 (or_providerUserId o) && fits_varchar 20 (or_phoneNumber o) && column_fits 500 (or_rejectionReason o).

Definition receipt_fits (r : PaymentReceipt) : bool :=
  column_fits 500 (re_providerFileId r) && column_fits 100 (re_trackingCode r)
  && column_fits 50 (re_transactionDate r) && column_fits 20 (re_transactionTime r)
  && column_fits 30 (re_sourceCard r) && column_fits 30 (re_destinationCard r)
  && column_fits 150 (re_destinationName r) && column_fits 500 (re_reviewNote r).

Definition receipt_fault (r : PaymentReceipt) : option exn :=
  if receipt_fits r then
    match re_extractedAmount r with
    | Some a => if fits_bigint a then None else Some OUT_OF_RANGE
    | None => None
    end
  else Some TOO_LONG.

(** ** [PaymentReceiptRepository] *)

Definition findReceipt (id : uuid) : SM (option PaymentReceipt) := gets (fun s => su_receipts s !! id).
Definition findOrder (id : uuid) : SM (option SubscriptionOrder) := gets (fun s => su_orders s !! id).
Definition findPlan (id : uuid) : SM (option SubscriptionPlan) := gets (fun s => su_plans s !! id).

(** [manager.save]: a row not saved before gets its key. *)
Definition save_order (o : SubscriptionOrder) : SM SubscriptionOrder :=
  ensure (order_fits o) TOO_LONG ;;
  modify (fun s => s <| su_orders := <[or_id o := o]> (su_orders s) |>) ;;
  mret o.

Definition save_receipt (r : PaymentReceipt) : SM PaymentReceipt :=
  match receipt_fault r with
  | Some e => throw e
  | None =>
      modify (fun s => s <| su_receipts := <[re_id r := r]> (su_receipts s) |>) ;;
      mret r
  end.

Definition saveWithOrder (receipt : PaymentReceipt) (order : SubscriptionOrder) : SM PaymentReceipt :=
  transaction (
    savedOrder ← save_order order;
    save_receipt (receipt <| re_orderId := or_id savedOrder |>)).

Definition has_code (code : text) (r : PaymentReceipt) : bool := bool_decide (re_trackingCode r = Some code).

Definition existsTrackingCode (trackingCode : text) (excludeReceiptId : uuid) : SM bool :=
  if is_empty trackingCode then mret false
  else gets (fun s => Nat.ltb 0 (count_rows (fun r => has_code trackingCode r && negb (re_id r =? excludeReceiptId)%N)
                                   (su_receipts s))).

(** One [UPDATE … WHERE status = 'PENDING_ANALYSIS']: only one caller wins. *)
Definition claimed (at_ : time) (r : PaymentReceipt) : PaymentReceipt :=
  r <| re_status := Analyzing |> <| re_analysisStartedAt := Some at_ |>
    <| re_analysisAttempts := re_analysisAttempts r + 1 |>.

Definition claimForAnalysis (receiptId : uuid) : SM bool :=
  s ← get;
  match su_receipts s !! receiptId with
  | Some r =>
      if eqb (re_status r) PendingAnalysis then
        modify (fun s => s <| su_receipts := <[receiptId := claimed (su_now s) r]> (su_receipts s) |>) ;;
        mret true
      else mret false
  | None => mret false
  end.

(** What a failed or dead analysis is given back as *)
Definition released (maxAttempts : Z) (r : PaymentReceipt) : PaymentReceipt :=
  r <| re_status := if maxAttempts <=? re_analysisAttempts r then NeedsReview else PendingAnalysis |>.

Definition releaseFailedAnalysis (receiptId : uuid) (maxAttempts : Z) (error : text) : SM unit :=
  modify (fun s => s <| su_receipts :=
    alter (fun r => if eqb (re_status r) Analyzing
                    then released maxAttempts r <| re_aiRawResult := Some (JObj [("error"%string, JStr (take 2000 error))]) |>
                    else r) receiptId (su_receipts s) |>).

Definition is_stale (before : time) (r : PaymentReceipt) : bool :=
  eqb (re_status r) Analyzing
  && match re_analysisStartedAt r with Some t => t <? before | None => false end.

Definition releaseStaleAnalyses (startedBefore : time) (maxAttempts : Z) : SM nat :=
  s ← get;
  modify (fun s => s <| su_receipts :=
    (fun r => if is_stale startedBefore r then released maxAttempts r else r) <$> su_receipts s |>) ;;
  mret (count_rows (is_stale startedBefore) (su_receipts s)).

Definition older (a b : PaymentReceipt) : Prop := re_createdAt a <= re_createdAt b.
#[export] Instance older_dec : RelDecision older.
Proof. intros a b. unfold older. apply _. Defined.

Definition findPendingAnalysisIds (createdBefore : time) (limit : nat) : SM (list uuid) :=
  gets (fun s => map re_id (take limit (merge_sort older
    (find_rows (fun r => eqb (re_status r) PendingAnalysis && (re_createdAt r <? createdBefore)) (su_receipts s))))).

(** ** [SubscriptionOrderRepository], [SubscriptionRepository] *)

(** [orderBy('createdAt', 'DESC').getOne()] *)
Fixpoint latest_order (os : list SubscriptionOrder) : option SubscriptionOrder :=
  match os with
  | [] => None
  | o :: os =>
      match latest_order os with
      | Some q => if or_createdAt o <? or_createdAt q then Some q else Some o
      | None => Some o
      end
  end.

Definition of_provider_user (provider : CommunicationProvider) (providerUserId : text) (o : SubscriptionOrder) : bool :=
  eqb (or_provider o) provider && bool_decide (or_providerUserId o = providerUserId).

Definition is_final (st : SubscriptionOrderStatus) : bool :=
  match st with OrderApproved | OrderRejected | OrderCancelled => true | _ => false end.

Definition findPendingByProviderUser (provider : CommunicationProvider) (providerUserId : text) : SM (option SubscriptionOrder) :=
  gets (fun s => latest_order
    (find_rows (fun o => of_provider_user provider providerUserId o && negb (is_final (or_status o))) (su_orders s))).

Definition findLatestByProviderUser (provider : CommunicationProvider) (providerUserId : text) : SM (option SubscriptionOrder) :=
  gets (fun s => latest_order (find_rows (of_provider_user provider providerUserId) (su_orders s))).

(** A subscription [user] holds, active and not over at [t] *)
Definition runs_past (user : uuid) (t : time) (b : Subscription) : bool :=
  (sb_userId b =? user)%N && eqb (sb_status b) SubActive && (t <? sb_expireAt b).

(** [order: { expireAt: 'DESC' }] *)
Fixpoint last_to_end (bs : list Subscription) : option Subscription :=
  match bs with
  | [] => None
  | b :: bs =>
      match last_to_end bs with
      | Some c => if sb_expireAt b <? sb_expireAt c then Some c else Some b
      | None => Some b
      end
  end.

Definition active_subscription (s : sub_state) (userId : uuid) : option Subscription :=
  last_to_end (find_rows (fun b => runs_past userId (su_now s) b && (sb_startAt b <=? su_now s)) (su_subscriptions s)).

Definition findActiveByUserId (userId : uuid) : SM (option Subscription) :=
  gets (fun s => active_subscription s userId).
