(* ===== verification/Receipts.v ===== *)
(** * Orders and their receipts

    [src/services/subscription/subscriptionorder.service.ts],
    [paymentreceipt.service.ts] and [receiptAnalysisWorker.service.ts]: an order with
    the price of its plan, a receipt sent for it, and the reading of the receipt by an
    analysis that may fail and be tried again.  The reading of an image is an outside
    service: [analyze] is a parameter. *)

From S2P Require Import Prelude JsNumber JsString Json Effects Enums Phone.
From S2P Require Import SubscriptionPolicy SubscriptionData.

(** ** [SubscriptionOrderService] *)

Record CreateSubscriptionOrderParams := mkOrderParams {
  op_provider : CommunicationProvider;
  op_providerUserId : text;
  op_phoneNumber : text;
  op_accountType : AccountType;
  op_subscriptionPlanId : uuid;
}.

Definition buildOrder (params : CreateSubscriptionOrderParams) : SM SubscriptionOrder :=
  let providerUserId := trim (op_providerUserId params) in
  ensure (negb (is_empty providerUserId)) (badRequest "Provider user id is required") ;;
  let phoneNumber := order_normalizePhone (op_phoneNumber params) in
  ensure (isValidIranMobile phoneNumber) (badRequest "Invalid phone number") ;;
  found ← findPlan (op_subscriptionPlanId params);
  plan ← some_or found (notFound "Subscription plan not found");
  ensure (eqb (pl_accountType plan) (op_accountType params))
    (badRequest "Subscription plan does not belong to selected account type") ;;
  s ← get;
  mret {| or_id := fresh_id (su_orders s); or_provider := op_provider params;
          or_providerUserId := providerUserId; or_phoneNumber := phoneNumber;
          or_accountType := op_accountType params; or_subscriptionPlanId := pl_id plan;
          or_amount := pl_price plan; or_currency := pl_currency plan;
          or_status := WaitingForReceipt; or_createdUserId := None; or_approvedAt := None;
          or_approvedByUserId := None; or_rejectedAt := None; or_rejectionReason := None;
          or_createdAt := su_now s |}.

Definition createOrder (params : CreateSubscriptionOrderParams) : SM SubscriptionOrder :=
  order ← buildOrder params;
  save_order order.

Definition findOrderForTracking (provider : CommunicationProvider) (providerUserId : text) : SM (option SubscriptionOrder) :=
  pendingOrder ← findPendingByProviderUser provider providerUserId;
  match pendingOrder with
  | Some o => mret (Some o)
  | None => findLatestByProviderUser provider providerUserId
  end.

(** ** [PaymentReceiptService.submitReceipt] *)

(** A blank order id counts as none. *)
Record SubmitPaymentReceiptParams := mkSubmit {
  sp_orderId : option uuid;
  sp_newOrder : option CreateSubscriptionOrderParams;
  sp_imageUrl : text;
  sp_providerFileId : option text;
}.

Definition submitReceipt (params : SubmitPaymentReceiptParams) : SM PaymentReceipt :=
  ensure (negb (eqb (match sp_orderId params with Some _ => true | None => false end)
                    (match sp_newOrder params with Some _ => true | None => false end)))
    (badRequest "Exactly one of order id or new order is required") ;;
  ensure (negb (is_empty (trim (sp_imageUrl params)))) (badRequest "Receipt image is required") ;;
  found ← match sp_newOrder params with
          | Some p => o ← buildOrder p; mret (Some o)
          | None => match sp_orderId params with Some i => findOrder i | None => mret None end
          end;
  order ← some_or found (notFound "Subscription order not found");
  ensure (negb (is_final (or_status order))) (badRequest "Receipt cannot be submitted for this order") ;;
  s ← get;
  let receipt := (new_receipt (sp_imageUrl params) (sp_providerFileId params) (su_now s))
                   <| re_id := fresh_id (su_receipts s) |> in
  savedReceipt ← saveWithOrder receipt (order <| or_status := ReceiptSubmitted |>);
  modify (fun s => s <| su_announced := su_announced s ++ [(re_orderId savedReceipt, re_id savedReceipt)] |>) ;;
  mret savedReceipt.

(** ** What the image says *)

(** [ReceiptAnalysisResult] (src/domain/interfaces/receiptAnalyzer.interface.ts); an
    amount is digits only, so it is the number they write. *)
Record ReceiptAnalysisResult := mkAnalysis {
  ra_amount : option Z;
  ra_trackingCode : option text;
  ra_transactionDate : option text;
  ra_transactionTime : option text;
  ra_sourceCard : option text;
  ra_destinationCard : option text;
  ra_destinationName : option text;
  ra_paymentStatus : PaymentStatus;
  ra_confidence : num;
  ra_rawResult : json;
}.

(** What reading an image gives: asked at a moment, for a receipt's try of that number.  The
    same image read again may get another answer. *)
Class ReceiptAnalyzer := { analyze : time -> Z -> text -> outcome ReceiptAnalysisResult }.

(** [slice(-4)] *)
Definition last_four (t : text) : text := drop (length t - 4) t.

(** The digits that are not masked; [None] when one differs *)
Fixpoint visible_digits (extracted card : text) : option nat :=
  match extracted, card with
  | e :: extracted, c :: card =>
      if (e =? 42)%N then visible_digits extracted card
      else if (e =? c)%N then n ← visible_digits extracted card; Some (S n)
      else None
  | _, _ => Some 0%nat
  end.

Definition cardMatches (extracted : option text) (expected : text) : bool :=
  let card := remove_chars (fun c => negb (is_digit c)) expected in
  match extracted with
  | None => false
  | Some e =>
      if is_empty e || negb (Nat.eqb (length e) (length card)) then false
      else match visible_digits e card with
           | Some n => Nat.leb 4 n && bool_decide (last_four e = last_four card)
           | None => false
           end
  end.

(** The titles taken out of a name *)
Definition NAME_TITLES : list text := map js ["آقای"; "خانم"; "جناب"]%string.

(** [replace(/آقای|خانم|جناب/g, ' ')] *)
Fixpoint without_titles (skip : nat) (t : text) : text :=
  match t with
  | [] => []
  | c :: t' =>
      match skip with
      | S k => without_titles k t'
      | O => match List.find (fun w => starts_with w t) NAME_TITLES with
             | Some w => 32%N :: without_titles (length w - 1) t'
             | None => c :: without_titles 0 t'
             end
      end
  end.

Definition is_mark (c : N) : bool := (c =? 8204)%N || ((1611 <=? c) && (c <=? 1631))%N.

Definition name_words (value : text) : list text :=
  let value := map (fun c => if (c =? 1610)%N then 1740%N else if (c =? 1603)%N then 1705%N else c) value in
  List.filter (fun w => negb (is_empty w)) (split_runs is_space (without_titles 0 (remove_chars is_mark value))).

Definition nameMatches (extracted : option text) (expected : text) : bool :=
  match extracted with
  | None => false
  | Some e =>
      if is_empty e then false
      else
        let actual := name_words e in
        let owner := name_words expected in
        if Nat.eqb (length actual) 0 || Nat.eqb (length owner) 0 then false
        else
          let (shorter, longer) := if Nat.leb (length actual) (length owner) then (actual, owner) else (owner, actual) in
          forallb (fun w => bool_decide (w ∈ longer)) shorter
  end.

(** ** The analysis *)

Section Analysis.
  Context `{ReceiptAnalyzer}.

(** [config.getOrThrow(key)] *)
Definition getOrThrow (o : option text) : SM text :=
  some_or o (OtherError (js "Configuration key does not exist")).

(** The row and its order read before the image is sent to be read; [inl] the row as
    it is when another worker has taken over *)
Definition analysis_read (receiptId : uuid) : SM (PaymentReceipt + (PaymentReceipt * SubscriptionOrder)) :=
  found ← findReceipt receiptId;
  receipt ← some_or found (notFound "Payment receipt not found");
  if negb (eqb (re_status receipt) Analyzing) then mret (inl receipt)
  else
    found ← findOrder (re_orderId receipt);
    order ← some_or found (notFound "Subscription order not found");
    mret (inr (receipt, order)).

(** A field assigned [undefined] keeps its column. *)
Definition or_kept {A} (v old : option A) : option A := match v with Some _ => v | None => old end.

Definition expected_rials (order : SubscriptionOrder) : Z :=
  or_amount order * (if String.eqb (or_currency order) "IRT" then 10 else 1).

Definition read_row (receipt : PaymentReceipt) (order : SubscriptionOrder) (result : ReceiptAnalysisResult)
    (cardNo cardOwner : text) (duplicate : bool) (now : time) : PaymentReceipt :=
  receipt <| re_extractedAmount := or_kept (ra_amount result) (re_extractedAmount receipt) |>
    <| re_trackingCode := or_kept (ra_trackingCode result) (re_trackingCode receipt) |>
    <| re_transactionDate := or_kept (ra_transactionDate result) (re_transactionDate receipt) |>
    <| re_transactionTime := or_kept (ra_transactionTime result) (re_transactionTime receipt) |>
    <| re_sourceCard := or_kept (ra_sourceCard result) (re_sourceCard receipt) |>
    <| re_destinationCard := or_kept (ra_destinationCard result) (re_destinationCard receipt) |>
    <| re_destinationName := or_kept (ra_destinationName result) (re_destinationName receipt) |>
    <| re_extractedPaymentStatus := Some (ra_paymentStatus result) |>
    <| re_aiConfidence := Some (ra_confidence result) |>
    <| re_aiRawResult := Some (ra_rawResult result) |>
    <| re_amountMatched := Some (match ra_amount result with
                                 | Some a => a =? expected_rials order | None => false end) |>
    <| re_destinationCardMatched := Some (cardMatches (ra_destinationCard result) cardNo) |>
    <| re_destinationNameMatched := Some (nameMatches (ra_destinationName result) cardOwner) |>
    <| re_duplicateTrackingCode := Some duplicate |>
    <| re_status := NeedsReview |>
    <| re_analyzedAt := Some now |>.

(** What the reading gave, written with the row and the order as they were read. *)
Definition analysis_write (receipt : PaymentReceipt) (order : SubscriptionOrder)
    (result : ReceiptAnalysisResult) : SM PaymentReceipt :=
  s ← get;
  cardNo ← getOrThrow (rc_cardNo (su_config s));
  cardOwner ← getOrThrow (rc_cardOwner (su_config s));
  duplicate ← match ra_trackingCode result with
              | Some code => existsTrackingCode code (re_id receipt)
              | None => mret false
              end;
  saveWithOrder (read_row receipt order result cardNo cardOwner duplicate (su_now s))
    (order <| or_status := UnderReview |>).

Definition analyzeReceipt (receiptId : uuid) : SM PaymentReceipt :=
  read ← analysis_read receiptId;
  match read with
  | inl receipt => mret receipt
  | inr (receipt, order) =>
      asked ← now;
      result ← of_outcome (analyze asked (re_analysisAttempts receipt) (re_imageUrl receipt));
      analysis_write receipt order result
  end.

(** [positive], and [maxAnalysisAttempts] *)
Definition positive_setting (value : option text) (fallback : Z) : Z :=
  match value with
  | None => fallback
  | Some t => match safe_integer (number_of_text t) with
              | Some n => if 0 <? n then n else fallback
              | None => fallback
              end
  end.

Definition maxAnalysisAttempts (c : ReceiptConfig) : Z := positive_setting (rc_maxAttempts c) 5.

Definition error_message (e : exn) : text :=
  match e with
  | BadRequest m | Unauthorized m | NotFound m | Conflict m | HttpError _ m | OtherError m | MessengerError m _ _ _ => m
  | QueryFailed code => js code
  end.

(** [processReceipt]: claimed by one caller; a failure goes back to the queue. *)
Definition processReceipt (receiptId : uuid) : SM unit :=
  claimed ← claimForAnalysis receiptId;
  if (claimed : bool) then
    try_catch (analyzeReceipt receiptId ≫= fun _ => mret tt)
      (fun e =>
         s ← get;
         releaseFailedAnalysis receiptId (maxAnalysisAttempts (su_config s)) (error_message e))
  else mret tt.

(** [ReceiptAnalysisWorker.tick], one sweep *)
Definition sweep : SM unit :=
  s ← get;
  released ← releaseStaleAnalyses (su_now s - positive_setting (rc_staleMs (su_config s)) (10 * 60000))
               (maxAnalysisAttempts (su_config s));
  ids ← findPendingAnalysisIds (su_now s - 60000) 10;
  for_each ids processReceipt.

End Analysis.

Example card_masked :
  cardMatches (Some (js "603799******1234")) (js "6037-9911-2233-1234") = true /\
  cardMatches (Some (js "603799******1235")) (js "6037-9911-2233-1234") = false.
Proof. split; reflexivity. Qed.

Example name_titled :
  nameMatches (Some (js "آقای علی محمدي")) (js "علی محمدی") = true /\
  nameMatches (Some (js "محمدی")) (js "علی محمدی") = true /\
  nameMatches (Some (js "رضا محمدی")) (js "علی محمدی") = false.
Proof. repeat split; reflexivity. Qed.
