(* ===== verification/ReceiptReader.v ===== *)
(** * Reading a receipt's image

    [src/services/subscription/receiptAnalyzer.service.ts]: what the vision model
    answers, cleaned into the fields of [ReceiptAnalysisResult].  The model itself is an
    outside service, and which text a number prints as is the engine's. *)

From S2P Require Import Prelude JsNumber JsString Json Effects Enums.
From S2P Require Import SubscriptionPolicy SubscriptionData Receipts.

(** The parsed answer with the analyzer and the model that gave it, for the image at a
    path or an address, asked at a moment and for the try of that number; and [String(number)] *)
Class VisionModel := {
  read_image : time -> Z -> text -> outcome (json * text * text);
  Number_toString : num -> text;
}.

Section Reader.
  Context `{VisionModel}.

(** [text] *)
Definition answer_text (value : option json) (maxLength : nat) : option text :=
  match match value with
        | Some (JStr t) => Some t
        | Some (JNum x) => Some (Number_toString x)
        | _ => None
        end with
  | None => None
  | Some t =>
      let result := trim (latin_digits t) in
      if is_empty result then None else Some (take maxLength result)
  end.

(** [replace(/^0+(?=\d)/, '')] of digits *)
Fixpoint strip_zeros (ds : text) : text :=
  match ds with
  | c :: ((_ :: _) as rest) => if (c =? 48)%N then strip_zeros rest else ds
  | _ => ds
  end.

Definition digits_value (ds : text) : Z := digits_number 10 (map (fun c => Z.of_N c - 48) ds).

(** [digits]: the number the digits write, when there are at most eighteen *)
Definition answer_digits (value : option json) : option Z :=
  match answer_text value 100 with
  | None => None
  | Some t =>
      let result := strip_zeros (List.filter is_digit t) in
      if negb (is_empty result) && Nat.leb (length result) 18 then Some (digits_value result) else None
  end.

(** [x X × • ●] *)
Definition is_mask (c : N) : bool := existsb (N.eqb c) [120; 88; 215; 8226; 9679]%N.

(** [card] *)
Definition answer_card (value : option json) : option text :=
  match answer_text value 100 with
  | None => None
  | Some t =>
      let result := List.filter (fun c => is_digit c || (c =? 42)%N) (map (fun c => if is_mask c then 42%N else c) t) in
      if existsb is_digit result then Some (take 30 result) else None
  end.

Definition is_code_char (c : N) : bool :=
  is_digit c || ((65 <=? c) && (c <=? 90))%N || ((97 <=? c) && (c <=? 122))%N.

Definition answer_code (value : option json) : option text :=
  match answer_text value 100 with
  | None => None
  | Some t => let result := List.filter is_code_char t in if is_empty result then None else Some result
  end.

Definition answer_status (value : option json) : PaymentStatus :=
  match value with
  | Some (JStr t) =>
      if bool_decide (t = js "SUCCESS") then PaymentSuccess
      else if bool_decide (t = js "FAILED") then PaymentFailed
      else PaymentUnknown
  | _ => PaymentUnknown
  end.

(** [Math.min(1, Math.max(0, Number(value) || 0))] *)
Definition answer_confidence (value : option json) : num :=
  let x := number_of_field value in
  if num_ltb (num_of_Z 0) x then (if num_leb x (num_of_Z 1) then x else num_of_Z 1) else num_of_Z 0.

Definition read_answer (imageUrl : text) (answer : json * text * text) : outcome ReceiptAnalysisResult :=
  let '(parsed, analyzer, usedModel) := answer in
  match parsed with
  | JNull => Err (OtherError (js "Cannot read properties of null (reading 'amount')"))
  | _ =>
      Ok {| ra_amount := answer_digits (member "amount" parsed);
            ra_trackingCode := answer_code (member "trackingCode" parsed);
            ra_transactionDate := answer_text (member "transactionDate" parsed) 50;
            ra_transactionTime := answer_text (member "transactionTime" parsed) 20;
            ra_sourceCard := answer_card (member "sourceCard" parsed);
            ra_destinationCard := answer_card (member "destinationCard" parsed);
            ra_destinationName := answer_text (member "destinationName" parsed) 150;
            ra_paymentStatus := answer_status (member "paymentStatus" parsed);
            ra_confidence := answer_confidence (member "confidence" parsed);
            ra_rawResult := JObj [("analyzer", JStr analyzer); ("model", JStr usedModel);
                                  ("imageUrl", JStr imageUrl); ("response", parsed)]%string |}
  end.

(** [ReceiptAnalyzerService] is the [IReceiptAnalyzer] the receipts are read with. *)
#[export] Instance ReceiptAnalyzerService : ReceiptAnalyzer := {|
  analyze asked attempt imageUrl :=
    match read_image asked attempt imageUrl with
    | Ok answer => read_answer imageUrl answer
    | Err e => Err e
    end |}.
End Reader.

(** ** It fits the receipt's columns *)

Definition analysis_fits (a : ReceiptAnalysisResult) : bool :=
  column_fits 100 (ra_trackingCode a) && column_fits 50 (ra_transactionDate a)
  && column_fits 20 (ra_transactionTime a) && column_fits 30 (ra_sourceCard a)
  && column_fits 30 (ra_destinationCard a) && column_fits 150 (ra_destinationName a)
  && match ra_amount a with Some z => fits_bigint z | None => true end.

Lemma char_count_le t : (char_count t <= length t)%nat.
Proof. apply List.filter_length_le. Qed.

Lemma column_fits_short n t : (length t <= n)%nat -> column_fits n (Some t) = true.
Proof. intros Hl. apply Nat.leb_le. pose proof (char_count_le t). lia. Qed.

Lemma or_kept_fits n v o : column_fits n v = true -> column_fits n o = true -> column_fits n (or_kept v o) = true.
Proof. by destruct v. Qed.

(** What is written over a row that fits fits too. *)
Lemma read_row_fits r o a cardNo cardOwner d t :
  analysis_fits a = true -> receipt_fault r = None -> receipt_fault (read_row r o a cardNo cardOwner d t) = None.
Proof.
  unfold analysis_fits, receipt_fault. intros Ha Hr.
  destruct (receipt_fits r) eqn:Hf; [|done]. unfold receipt_fits in *.
  repeat match goal with H : _ && _ = true |- _ => apply andb_true_iff in H as [? ?] end.
  change (re_extractedAmount (read_row r o a cardNo cardOwner d t)) with (or_kept (ra_amount a) (re_extractedAmount r)).
  match goal with |- (if ?b then _ else _) = _ => assert (Hb : b = true) end.
  { cbn. rewrite !andb_true_iff. repeat split; try done; by apply or_kept_fits. }
  rewrite Hb. destruct (ra_amount a) as [z|]; cbn [or_kept]; [|done].
  by match goal with H : fits_bigint z = true |- _ => rewrite H end.
Qed.

Section ReaderFits.
  Context `{VisionModel}.

Lemma answer_text_short v n t : answer_text v n = Some t -> (length t <= n)%nat.
Proof.
  unfold answer_text. destruct (match v with Some (JStr t0) => Some t0 | Some (JNum x) => Some (Number_toString x) | _ => None end); [|done].
  destruct (is_empty _); [done|]. intros [= <-]. rewrite length_take. lia.
Qed.

Lemma answer_text_fits v n : column_fits n (answer_text v n) = true.
Proof.
  destruct (answer_text v n) as [t|] eqn:E; [|done]. apply column_fits_short. by apply answer_text_short in E.
Qed.

Lemma answer_code_fits v : column_fits 100 (answer_code v) = true.
Proof.
  unfold answer_code. destruct (answer_text v 100) as [t|] eqn:E; [|done]. apply answer_text_short in E.
  destruct (is_empty _); [done|]. apply column_fits_short. pose proof (List.filter_length_le is_code_char t). lia.
Qed.

Lemma answer_card_fits v : column_fits 30 (answer_card v) = true.
Proof.
  unfold answer_card. destruct (answer_text v 100) as [t|]; [|done].
  destruct (existsb is_digit _); [|done]. apply column_fits_short. rewrite length_take. lia.
Qed.

Lemma digits_number_bound ds acc :
  Forall (fun d => 0 <= d <= 9) ds -> 0 <= acc ->
  acc * 10 ^ Z.of_nat (length ds) <= foldl (fun a d => a * 10 + d) acc ds < (acc + 1) * 10 ^ Z.of_nat (length ds).
Proof.
  revert acc. induction ds as [|d ds IH]; intros acc Hf Ha; [cbn; lia|].
  inversion Hf as [|? ? Hd Hf']; subst. cbn [foldl length]. specialize (IH (acc * 10 + d) Hf' ltac:(lia)).
  rewrite Nat2Z.inj_succ, Z.pow_succ_r by lia. pose proof (Z.pow_pos_nonneg 10 (Z.of_nat (length ds)) ltac:(lia) ltac:(lia)).
  nia.
Qed.

Lemma strip_zeros_digits ds : List.Forall (fun c => is_digit c = true) ds -> List.Forall (fun c => is_digit c = true) (strip_zeros ds).
Proof.
  induction ds as [|c ds IH]; intros Hf; [done|]. cbn [strip_zeros]. destruct ds as [|c' ds]; [done|].
  destruct (c =? 48)%N; [|done]. apply IH. by inversion Hf.
Qed.

Lemma answer_digits_range v z : answer_digits v = Some z -> 0 <= z < 10 ^ 18.
Proof.
  unfold answer_digits. destruct (answer_text v 100) as [t|]; [|done].
  set (ds := strip_zeros (List.filter is_digit t)). destruct (_ && _) eqn:E; [|done]. intros [= <-].
  apply andb_true_iff in E as [_ Hl%Nat.leb_le].
  assert (Hf : List.Forall (fun c => is_digit c = true) ds).
  { apply strip_zeros_digits, List.Forall_forall. intros c [_ Hc]%filter_In. done. }
  unfold digits_value, digits_number.
  pose proof (digits_number_bound (map (fun c => Z.of_N c - 48) ds) 0) as Hb.
  rewrite length_map in Hb. destruct Hb as [Hlo Hhi]; [|lia|].
  - apply List.Forall_map. eapply List.Forall_impl; [|exact Hf]. intros c Hc. cbn beta in Hc |- *.
    apply andb_true_iff in Hc as [H1%N.leb_le H2%N.leb_le]. lia.
  - split; [lia|]. eapply Z.lt_le_trans; [exact Hhi|]. rewrite Z.mul_1_l. apply Z.pow_le_mono_r; lia.
Qed.

(** Whatever the model answers *)
Lemma read_answer_fits url answer a : read_answer url answer = Ok a -> analysis_fits a = true.
Proof.
  destruct answer as [[parsed an] mo]. unfold read_answer.
  assert (Hall : forall v1 v2 v3 v4 v5 v6 v7 st cf raw,
    analysis_fits (mkAnalysis (answer_digits v1) (answer_code v2) (answer_text v3 50) (answer_text v4 20)
      (answer_card v5) (answer_card v6) (answer_text v7 150) st cf raw) = true).
  { intros *. unfold analysis_fits. cbn [ra_trackingCode ra_transactionDate ra_transactionTime ra_sourceCard
      ra_destinationCard ra_destinationName ra_amount].
    rewrite answer_code_fits, !answer_text_fits, !answer_card_fits. cbn [andb].
    destruct (answer_digits v1) as [z|] eqn:E; [|done]. apply answer_digits_range in E.
    unfold fits_bigint. lia. }
  destruct parsed; intros E; try discriminate E; injection E as <-; apply Hall.
Qed.

End ReaderFits.
