(* ===== verification/Provisioning.v ===== *)
(** * Approving and rejecting a payment

    [src/services/subscription/accountprovisioning.service.ts]: the buyer resolved or
    created, its role, and the subscription that starts where the last one ends, in
    one transaction. *)

From S2P Require Import Prelude JsNumber JsString Json Effects Enums Phone.
From S2P Require Import SubscriptionPolicy SubscriptionData.

(** ** Dates

    [setDate] moves a date by calendar days of the machine's own time zone
    (Asia/Tehran): [local_of] gives the wall clock of an instant in milliseconds, and
    [utc_of] the instant of a wall clock. *)
Class LocalZone := { local_of : time -> Z; utc_of : Z -> time }.

Definition DAY_MS : Z := 86400000.

(** Past this an instant is an [Invalid Date]. *)
Definition MAX_TIME : Z := 8640000000000000.

Section Provisioning.
  Context `{LocalZone}.

(** [calculateExpireDate]; [None] is an [Invalid Date] *)
Definition calculateExpireDate (startAt : time) (durationDays : Z) : option time :=
  let t := utc_of (local_of startAt + durationDays * DAY_MS) in
  if Z.abs t <=? MAX_TIME then Some t else None.

(** [getRoleName] *)
Definition getRoleName (accountType : AccountType) : string :=
  match accountType with
  | AccDriver => "DRIVER"
  | AccCompany => "COMPANY"
  | AccBroker => "BROKER"
  | AccFactory => "FACTORY"
  end.

Record AccountProvisioningResult := mkProvisioned {
  pr_userId : uuid;
  pr_username : text;
  pr_accountType : AccountType;
  pr_providerUserId : text;
  pr_newUser : bool;
  pr_subscriptionId : uuid;
  pr_expireAt : time;
}.

(** ** Approving *)

(** 1 to 6: the order, its receipt, and a tracking code used before *)
Definition used_code (receipt : PaymentReceipt) (s : sub_state) : bool :=
  match re_trackingCode receipt with
  | Some code =>
      negb (is_empty code)
      && exists_row (fun r => has_code code r && negb (re_id r =? re_id receipt)%N && eqb (re_status r) ReceiptApproved)
           (su_receipts s)
  | None => false
  end.

Definition payment_of (orderId receiptId : uuid) : SM (SubscriptionOrder * PaymentReceipt) :=
  found ← findOrder orderId;
  order ← some_or found (notFound "Subscription order not found");
  ensure (negb (eqb (or_status order) OrderApproved)) (conflict "Subscription order has already been approved") ;;
  ensure (negb (eqb (or_status order) OrderCancelled)) (badRequest "Cancelled subscription order cannot be approved") ;;
  found ← findReceipt receiptId;
  receipt ← some_or found (notFound "Payment receipt not found");
  ensure (re_orderId receipt =? or_id order)%N
    (badRequest "Payment receipt does not belong to this subscription order") ;;
  ensure (negb (eqb (re_status receipt) ReceiptRejected)) (badRequest "Rejected payment receipt cannot be approved") ;;
  ensure (negb (eqb (re_status receipt) ReceiptApproved)) (conflict "Payment receipt has already been approved") ;;
  s ← get;
  ensure (negb (used_code receipt s)) (conflict "This payment tracking code has already been used") ;;
  mret (order, receipt).

(** 7: the user linked to the messenger account, else the one with this number *)
Definition linked_user (s : sub_state) (providerUserId : text) : option UserRow :=
  match List.find (fun l => bool_decide (bl_externalUserId l = providerUserId)) (su_links s) with
  | Some l => su_users s !! bl_userId l
  | None => None
  end.

Definition numbered_user (s : sub_state) (username : text) : option UserRow :=
  find_row (fun u => bool_decide (us_mobile u = Some username) || bool_decide (us_username u = username)) (su_users s).

Definition buyer (s : sub_state) (order : SubscriptionOrder) : option UserRow :=
  match linked_user s (or_providerUserId order) with
  | Some u => Some u
  | None => numbered_user s (provisioning_normalizePhone (or_phoneNumber order))
  end.

Definition active_role (s : sub_state) (name : string) : option Role :=
  find_row (fun r => String.eqb (ro_name r) name && eqb (ro_recordStatus r) RecActive) (su_roles s).

Definition resolve_buyer (order : SubscriptionOrder) : SM (UserRow * bool) :=
  let roleName := getRoleName (or_accountType order) in
  s ← get;
  role ← some_or (active_role s roleName) (NotFound (js "Active role " ++ [34%N] ++ js roleName ++ [34%N] ++ js " not found"));
  resolved ← match buyer s order with
             | Some u =>
                 ensure (eqb (us_recordStatus u) RecActive) (badRequest "The buyer account is inactive") ;;
                 mret (u, false)
             | None =>
                 let username := provisioning_normalizePhone (or_phoneNumber order) in
                 let u := {| us_id := fresh_id (su_users s); us_username := username; us_mobile := Some username;
                             us_recordStatus := RecActive; us_isParentCompany := false; us_createdAt := su_now s |} in
                 modify (fun s => s <| su_users := <[us_id u := u]> (su_users s) |>) ;;
                 mret (u, true)
             end;
  modify (fun s => s <| su_userRoles := {[ (us_id (fst resolved), ro_id role) ]} ∪ su_userRoles s |>) ;;
  mret resolved.

(** 14: a renewal starts when the subscription in force ends. *)
Definition renewal_start (s : sub_state) (userId : uuid) : time :=
  match last_to_end (find_rows (runs_past userId (su_now s)) (su_subscriptions s)) with
  | Some current => sb_expireAt current
  | None => su_now s
  end.

Definition approved_receipt (adminUserId : uuid) (now : time) (r : PaymentReceipt) : PaymentReceipt :=
  r <| re_status := ReceiptApproved |> <| re_reviewedByUserId := Some adminUserId |> <| re_reviewedAt := Some now |>.

Definition approved_order (adminUserId userId : uuid) (now : time) (o : SubscriptionOrder) : SubscriptionOrder :=
  o <| or_status := OrderApproved |> <| or_createdUserId := Some userId |>
    <| or_approvedByUserId := Some adminUserId |> <| or_approvedAt := Some now |>.

(** 13 to 17: the subscription, then the receipt and the order as approved *)
Definition start_subscription (order : SubscriptionOrder) (user : UserRow) : SM Subscription :=
  found ← findPlan (or_subscriptionPlanId order);
  plan ← some_or found (notFound "Subscription plan not found");
  s ← get;
  let startAt := renewal_start s (us_id user) in
  expireAt ← some_or (calculateExpireDate startAt (pl_durationDays plan)) (QueryFailed "22007");
  let subscription := {| sb_id := fresh_id (su_subscriptions s); sb_userId := us_id user;
                         sb_subscriptionPlanId := pl_id plan; sb_orderId := or_id order;
                         sb_startAt := startAt; sb_expireAt := expireAt; sb_status := SubActive |} in
  modify (fun s => s <| su_subscriptions := <[sb_id subscription := subscription]> (su_subscriptions s) |>) ;;
  mret subscription.

Definition approveOrder (orderId receiptId adminUserId : uuid) : SM AccountProvisioningResult :=
  transaction (
    payment ← payment_of orderId receiptId;
    let (order, receipt) := (payment : SubscriptionOrder * PaymentReceipt) in
    resolved ← resolve_buyer order;
    let (user, newUser) := (resolved : UserRow * bool) in
    subscription ← start_subscription order user;
    now ← now;
    save_receipt (approved_receipt adminUserId now receipt) ;;
    save_order (approved_order adminUserId (us_id user) now order) ;;
    mret {| pr_userId := us_id user; pr_username := us_username user; pr_accountType := or_accountType order;
            pr_providerUserId := or_providerUserId order; pr_newUser := newUser;
            pr_subscriptionId := sb_id subscription; pr_expireAt := sb_expireAt subscription |}).

(** *** Its reads and its writes

    The transaction locks the order's row alone (line 62).  The other receipts with the code and
    the buyer's subscriptions are read without a lock, so the reads of a second approval, of
    another order, may come between the reads of a first one and its writes. *)
Record approval := mkApproval {
  ap_order : SubscriptionOrder;
  ap_receipt : PaymentReceipt;
  ap_role : Role;
  ap_buyer : option UserRow;
  ap_plan : SubscriptionPlan;
  ap_startAt : time;
  ap_expireAt : time;
}.

Definition buyer_id (s : sub_state) (found : option UserRow) : uuid :=
  match found with Some u => us_id u | None => fresh_id (su_users s) end.

Definition approval_reads (orderId receiptId : uuid) : SM approval :=
  payment ← payment_of orderId receiptId;
  let (order, receipt) := (payment : SubscriptionOrder * PaymentReceipt) in
  let roleName := getRoleName (or_accountType order) in
  s ← get;
  role ← some_or (active_role s roleName) (NotFound (js "Active role " ++ [34%N] ++ js roleName ++ [34%N] ++ js " not found"));
  match buyer s order with
  | Some u => ensure (eqb (us_recordStatus u) RecActive) (badRequest "The buyer account is inactive")
  | None => mret tt
  end ;;
  found ← findPlan (or_subscriptionPlanId order);
  plan ← some_or found (notFound "Subscription plan not found");
  let startAt := renewal_start s (buyer_id s (buyer s order)) in
  expireAt ← some_or (calculateExpireDate startAt (pl_durationDays plan)) (QueryFailed "22007");
  mret (mkApproval order receipt role (buyer s order) plan startAt expireAt).

(** The unique index on [User.username] lets no second user of a number in. *)
Definition buyer_write (ap : approval) : SM UserRow :=
  user ← match ap_buyer ap with
         | Some u => mret u
         | None =>
             s ← get;
             let username := provisioning_normalizePhone (or_phoneNumber (ap_order ap)) in
             ensure (negb (exists_row (fun u => bool_decide (us_username u = username)) (su_users s))) (QueryFailed "23505") ;;
             let u := {| us_id := fresh_id (su_users s); us_username := username; us_mobile := Some username;
                         us_recordStatus := RecActive; us_isParentCompany := false; us_createdAt := su_now s |} in
             modify (fun s => s <| su_users := <[us_id u := u]> (su_users s) |>) ;;
             mret u
         end;
  modify (fun s => s <| su_userRoles := {[ (us_id user, ro_id (ap_role ap)) ]} ∪ su_userRoles s |>) ;;
  mret user.

Definition approval_commit (adminUserId : uuid) (ap : approval) : SM AccountProvisioningResult :=
  transaction (
    user ← buyer_write ap;
    s ← get;
    let subscription := {| sb_id := fresh_id (su_subscriptions s); sb_userId := us_id user;
                           sb_subscriptionPlanId := pl_id (ap_plan ap); sb_orderId := or_id (ap_order ap);
                           sb_startAt := ap_startAt ap; sb_expireAt := ap_expireAt ap; sb_status := SubActive |} in
    modify (fun s => s <| su_subscriptions := <[sb_id subscription := subscription]> (su_subscriptions s) |>) ;;
    now ← now;
    save_receipt (approved_receipt adminUserId now (ap_receipt ap)) ;;
    save_order (approved_order adminUserId (us_id user) now (ap_order ap)) ;;
    mret {| pr_userId := us_id user; pr_username := us_username user; pr_accountType := or_accountType (ap_order ap);
            pr_providerUserId := or_providerUserId (ap_order ap);
            pr_newUser := match ap_buyer ap with Some _ => false | None => true end;
            pr_subscriptionId := sb_id subscription; pr_expireAt := sb_expireAt subscription |}).

End Provisioning.

(** ** Rejecting *)

Definition rejected_receipt (adminUserId : uuid) (reason : text) (now : time) (r : PaymentReceipt) : PaymentReceipt :=
  r <| re_status := ReceiptRejected |> <| re_reviewedByUserId := Some adminUserId |>
    <| re_reviewedAt := Some now |> <| re_reviewNote := Some reason |>.

Definition rejected_order (reason : text) (now : time) (o : SubscriptionOrder) : SubscriptionOrder :=
  o <| or_status := OrderRejected |> <| or_rejectedAt := Some now |> <| or_rejectionReason := Some reason |>.

Definition rejectReceipt (orderId receiptId adminUserId : uuid) (reason : text) : SM unit :=
  transaction (
    found ← findOrder orderId;
    order ← some_or found (notFound "Subscription order not found");
    ensure (negb (eqb (or_status order) OrderApproved)) (badRequest "Approved subscription order cannot be rejected") ;;
    found ← findReceipt receiptId;
    receipt ← some_or found (notFound "Payment receipt not found");
    ensure (re_orderId receipt =? or_id order)%N
      (badRequest "Payment receipt does not belong to this subscription order") ;;
    now ← now;
    save_receipt (rejected_receipt adminUserId reason now receipt) ;;
    save_order (rejected_order reason now order) ;;
    mret tt).
