(* ===== verification/SubscriptionAccess.v ===== *)
(** * Who may work now, and the free days earned

    [src/services/subscription/subscriptionAccess.service.ts] and
    [subscriptionReward.service.ts]: one answer for «may this user work now?», and
    the free days a driver's purchases earn. *)

From S2P Require Import Prelude JsNumber JsString Json Effects Enums.
From S2P Require Import SubscriptionPolicy SubscriptionData.

Definition DAY_MS : Z := 86400000.

(** The policy service of this running instance reads the same clock. *)
Definition policy_view (s : sub_state) : policy_state := (su_policy s) <| ps_now := su_now s |>.

Definition policy {A} (m : PolM A) : SM A := zoom policy_view (fun p s => s <| su_policy := p |>) m.

Definition THIS_INSTANCE : N := 0.

Section Access.
  Context `{JsDate}.

(** ** Roles *)

Definition roles_of (s : sub_state) (userId : uuid) : list Role :=
  find_rows (fun r => bool_decide ((userId, ro_id r) ∈ su_userRoles s)) (su_roles s).

Definition has_role (s : sub_state) (userId : uuid) (name : string) : bool :=
  some_b (fun r => String.eqb (ro_name r) name) (roles_of s userId).

Definition has_active_role (s : sub_state) (userId : uuid) (name : string) : bool :=
  some_b (fun r => String.eqb (ro_name r) name && eqb (ro_recordStatus r) RecActive) (roles_of s userId).

(** ** [SubscriptionRewardService] *)

(** [TOMANS], in tenths of a toman: nothing for another currency *)
Definition toman_tenths (o : SubscriptionOrder) : Z :=
  if String.eqb (or_currency o) "IRT" then 10 * or_amount o
  else if String.eqb (or_currency o) "IRR" then or_amount o
  else 0.

Definition paid_tenths (s : sub_state) (userId : uuid) : Z :=
  foldr Z.add 0
    (map (fun b => match su_orders s !! sb_orderId b with
                   | Some o => if (sb_userId b =? userId)%N && eqb (or_status o) OrderApproved then toman_tenths o else 0
                   | None => 0
                   end) (rows (su_subscriptions s))).

Definition paidTomans (userId : uuid) : SM num := gets (fun s => num_of_ratio false (paid_tenths s userId) 10).

Definition reward_reason (tier : DriverReward) : text := js "paid:" ++ text_of_N (Z.to_N (minTomans tier)).

Definition given (s : sub_state) (userId : uuid) (reason : text) : bool :=
  exists_row (fun b => (bo_userId b =? userId)%N && bool_decide (bo_reason b = reason)) (su_bonuses s).

(** [freeFrom] *)
Definition free_from (s : sub_state) (userId : uuid) (now : time) : time :=
  latest (map sb_expireAt (find_rows (fun b => (sb_userId b =? userId)%N && eqb (sb_status b) SubActive) (su_subscriptions s)))
    (latest (map bo_expireAt (find_rows (fun b => (bo_userId b =? userId)%N) (su_bonuses s))) now).

Record GrantedBonus := mkGranted { gb_minTomans : Z; gb_days : Z; gb_startAt : time; gb_expireAt : time }.

(** One tier, in its transaction *)
Definition grant_tier (userId : uuid) (now : time) (tier : DriverReward) : SM (option GrantedBonus) :=
  transaction (
    s ← get;
    if given s userId (reward_reason tier) then mret None
    else
      let startAt := free_from s userId now in
      let bonus := {| bo_id := fresh_id (su_bonuses s); bo_userId := userId; bo_reason := reward_reason tier;
                      bo_days := freeDays tier; bo_startAt := startAt;
                      bo_expireAt := startAt + freeDays tier * DAY_MS |} in
      modify (fun s => s <| su_bonuses := <[bo_id bonus := bonus]> (su_bonuses s) |>) ;;
      mret (Some (mkGranted (minTomans tier) (bo_days bonus) (bo_startAt bonus) (bo_expireAt bonus)))).

Fixpoint grant_tiers (userId : uuid) (now : time) (tiers : list DriverReward) : SM (list GrantedBonus) :=
  match tiers with
  | [] => mret []
  | tier :: tiers =>
      bonus ← grant_tier userId now tier;
      granted ← grant_tiers userId now tiers;
      mret match bonus with Some b => b :: granted | None => granted end
  end.

(** [grantEarned] *)
Definition reached (paid : num) (tier : DriverReward) : bool := num_leb (num_of_Z (minTomans tier)) paid.

Definition grantEarned (userId : uuid) (now : time) : SM (list GrantedBonus) :=
  tiers ← policy (getDriverRewards THIS_INSTANCE);
  s ← get;
  if bool_decide (tiers = []) || negb (has_role s userId "DRIVER") then mret []
  else
    paid ← paidTomans userId;
    grant_tiers userId now (List.filter (reached paid) tiers).

(** [grantEarnedForAll] *)
Definition buyers (s : sub_state) : list uuid :=
  remove_dups (map sb_userId (find_rows (fun b =>
    match su_orders s !! sb_orderId b with Some o => eqb (or_status o) OrderApproved | None => false end)
    (su_subscriptions s))).

Fixpoint grant_all (users : list uuid) : SM nat :=
  match users with
  | [] => mret 0%nat
  | u :: users =>
      now ← now;
      granted ← grantEarned u now;
      n ← grant_all users;
      mret (length granted + n)%nat
  end.

Definition grantEarnedForAll : SM nat :=
  s ← get;
  grant_all (buyers s).

(** [activeUntil] *)
Definition active_until (s : sub_state) (userId : uuid) (now : time) : option time :=
  match map bo_expireAt (find_rows (fun b => (bo_userId b =? userId)%N && (bo_startAt b <=? now) && (now <? bo_expireAt b))
                           (su_bonuses s)) with
  | [] => None
  | t :: ts => Some (latest ts t)
  end.

Definition activeUntil (userId : uuid) (now : time) : SM (option time) := gets (fun s => active_until s userId now).

(** ** [SubscriptionAccessService] *)

Inductive SubscriptionAccessReason := subscribed | bonus | trial | free | required_reason.

Record SubscriptionAccess := mkAccess {
  ac_allowed : bool;
  ac_reason : SubscriptionAccessReason;
  ac_isDriver : bool;
  ac_trialEndsAt : option time;
  ac_expireAt : option time;
  ac_bonusUntil : option time;
}.

(** [driverTrialEndsAt]; [None] is the [Invalid Date] of a start that is no date *)
Definition trial_end (registeredAt : time) (rule : bool * Z * text) : option time :=
  let '(_, days, startedAt) := rule in
  match Date_parse startedAt with
  | Some t => Some (Z.max registeredAt t + days * DAY_MS)
  | None => None
  end.

Definition driverTrialEndsAt (registeredAt : time) : SM (option time) :=
  rule ← policy (getDriverRule THIS_INSTANCE);
  mret (trial_end registeredAt rule).

Definition check (userId : uuid) (now : time) : SM SubscriptionAccess :=
  s ← get;
  let user := su_users s !! userId in
  subscription ← findActiveByUserId userId;
  bonusUntil ← activeUntil userId now;
  let isDriver := match user with Some _ => has_active_role s userId "DRIVER" | None => false end in
  trialEndsAt ← match user with
                | Some u => if isDriver then driverTrialEndsAt (us_createdAt u) else mret None
                | None => mret None
                end;
  let expireAt := sb_expireAt <$> subscription in
  let result allowed reason := mkAccess allowed reason isDriver trialEndsAt expireAt bonusUntil in
  if match subscription with Some _ => true | None => false end then mret (result true subscribed)
  else if match user with Some u => us_isParentCompany u | None => false end then mret (result true free)
  else if match user with Some _ => has_active_role s userId "FACTORY" | None => false end then mret (result true free)
  else if match bonusUntil with Some _ => true | None => false end then mret (result true bonus)
  else if isDriver then
    rule ← policy (getDriverRule THIS_INSTANCE);
    mret (if negb (fst (fst rule)) then result true free
          else if match trialEndsAt with Some t => now <? t | None => false end then result true trial
          else result false required_reason)
  else
    needed ← policy (isRequired THIS_INSTANCE now);
    mret (if (needed : bool) then result false required_reason else result true free).

End Access.
