(* ===== verification/SubscriptionFacts.v ===== *)
(** * Payments: what holds between the handlers

    The invariant of the receipts and the subscriptions bought with them, that every
    handler keeps it, and what an approval decides and does. *)

From S2P Require Import Prelude JsNumber JsString Json Effects Enums Phone SubscriptionPolicy SubscriptionData Receipts Provisioning.

(** ** The invariant *)

Definition is_decided (r : PaymentReceipt) : bool :=
  match re_status r with ReceiptApproved | ReceiptRejected => true | _ => false end.

Definition of_order (o : uuid) (r : PaymentReceipt) : bool := (re_orderId r =? o)%N && is_decided r.

(** The subscriptions an order gave, and its receipts an admin decided on *)
Definition n_subscriptions (s : sub_state) (o : uuid) : nat :=
  count_rows (fun b => sb_orderId b =? o)%N (su_subscriptions s).
Definition n_decided (s : sub_state) (o : uuid) : nat := count_rows (of_order o) (su_receipts s).

Definition same_code (r q : PaymentReceipt) : Prop :=
  exists c, re_trackingCode r = Some c /\ re_trackingCode q = Some c /\ c <> [].

(** How often a receipt may have been tried *)
Definition attempts_ok (max : Z) (r : PaymentReceipt) : Prop :=
  0 <= re_analysisAttempts r <= max /\ (re_status r = PendingAnalysis -> re_analysisAttempts r < max).

(** Two spans of days that do not overlap *)
Definition apart (from1 to1 from2 to2 : time) : Prop := to1 <= from2 \/ to2 <= from1.

(** The days paid for never overlap, and a reward is given once, on days of its own. *)
Definition paid_apart (s : sub_state) : Prop :=
  forall i j a b, i <> j -> su_subscriptions s !! i = Some a -> su_subscriptions s !! j = Some b ->
    sb_userId a = sb_userId b -> sb_status a = SubActive -> sb_status b = SubActive ->
    apart (sb_startAt a) (sb_expireAt a) (sb_startAt b) (sb_expireAt b).

Definition rewards_apart (s : sub_state) : Prop :=
  forall i j a b, i <> j -> su_bonuses s !! i = Some a -> su_bonuses s !! j = Some b ->
    bo_userId a = bo_userId b ->
    bo_reason a <> bo_reason b /\ apart (bo_startAt a) (bo_expireAt a) (bo_startAt b) (bo_expireAt b).

(** [strict]: that a subscription was paid is only so when no analysis was under way
    during a decision ([PaymentRaces]). *)
Record payments_ok (strict : bool) (c : ReceiptConfig) (s : sub_state) : Prop := {
  py_config : su_config s = c;
  py_receipt_ids : forall i r, su_receipts s !! i = Some r -> re_id r = i;
  py_order_ids : forall i o, su_orders s !! i = Some o -> or_id o = i;
  py_order : forall i r, su_receipts s !! i = Some r -> is_Some (su_orders s !! re_orderId r);
  py_codes : forall i j r q, su_receipts s !! i = Some r -> su_receipts s !! j = Some q ->
    re_status r = ReceiptApproved -> re_status q = ReceiptApproved -> same_code r q -> i = j;
  py_attempts : forall i r, su_receipts s !! i = Some r -> attempts_ok (maxAnalysisAttempts c) r;
  py_apart : paid_apart s;
  py_rewards : rewards_apart s;
  py_paid : strict = true -> forall o, (n_subscriptions s o <= n_decided s o)%nat;
}.

(** It reads these tables only. *)
Lemma payments_ok_ext b c s s1 :
  su_receipts s1 = su_receipts s -> su_orders s1 = su_orders s -> su_subscriptions s1 = su_subscriptions s ->
  su_config s1 = su_config s -> su_bonuses s1 = su_bonuses s -> payments_ok b c s -> payments_ok b c s1.
Proof.
  intros E1 E2 E3 E4 E5 []. unfold n_subscriptions, n_decided, paid_apart, rewards_apart in *.
  constructor; intros *; unfold n_subscriptions, n_decided, paid_apart, rewards_apart;
    rewrite ?E1, ?E2, ?E3, ?E4, ?E5; eauto.
Qed.

(** ** Writing a row *)

Definition put_receipt (s : sub_state) (r : PaymentReceipt) : sub_state :=
  s <| su_receipts := <[re_id r := r]> (su_receipts s) |>.
Definition put_order (s : sub_state) (o : SubscriptionOrder) : sub_state :=
  s <| su_orders := <[or_id o := o]> (su_orders s) |>.

Lemma save_order_run o s :
  save_order o s = if order_fits o then (Ok o, put_order s o) else (Err TOO_LONG, s).
Proof. unfold save_order. rewrite run_bind. by destruct (order_fits o). Qed.

Lemma save_receipt_run r s :
  save_receipt r s = match receipt_fault r with None => (Ok r, put_receipt s r) | Some e => (Err e, s) end.
Proof. unfold save_receipt. by destruct (receipt_fault r). Qed.

Lemma saveWithOrder_run r o s :
  saveWithOrder r o s
  = if order_fits o
    then match receipt_fault r with
         | None => (Ok (r <| re_orderId := or_id o |>), put_receipt (put_order s o) (r <| re_orderId := or_id o |>))
         | Some e => (Err e, s)
         end
    else (Err TOO_LONG, s).
Proof.
  unfold saveWithOrder, transaction. rewrite run_bind, save_order_run.
  destruct (order_fits o); [|done]. rewrite save_receipt_run.
  change (receipt_fault (r <| re_orderId := or_id o |>)) with (receipt_fault r). by destruct (receipt_fault r).
Qed.

Lemma lookup_put_order s o i q :
  su_orders (put_order s o) !! i = Some q -> (i = or_id o /\ q = o) \/ (i <> or_id o /\ su_orders s !! i = Some q).
Proof.
  change (su_orders (put_order s o)) with (<[or_id o := o]> (su_orders s)).
  rewrite lookup_insert. case_decide; naive_solver.
Qed.

Lemma lookup_put_receipt s r i q :
  su_receipts (put_receipt s r) !! i = Some q -> (i = re_id r /\ q = r) \/ (i <> re_id r /\ su_receipts s !! i = Some q).
Proof.
  change (su_receipts (put_receipt s r)) with (<[re_id r := r]> (su_receipts s)).
  rewrite lookup_insert. case_decide; naive_solver.
Qed.

Lemma put_order_has s o : is_Some (su_orders (put_order s o) !! or_id o).
Proof.
  change (su_orders (put_order s o)) with (<[or_id o := o]> (su_orders s)).
  rewrite lookup_insert_eq. by eexists.
Qed.

Lemma put_order_ok b c s o : payments_ok b c s -> payments_ok b c (put_order s o).
Proof.
  intros [H0 H1 H2 H3 H4 H5 H6 H7 H8]. constructor; try done.
  - by intros i q [[-> ->]|[_ Hi]]%lookup_put_order; [|apply H2].
  - intros i r Hi. change (su_orders (put_order s o)) with (<[or_id o := o]> (su_orders s)).
    rewrite lookup_insert. case_decide; [done | by eapply H3].
Qed.

(** What may be written over a receipt, or as a new one *)
Record receipt_write (strict : bool) (s : sub_state) (r : PaymentReceipt) : Prop := {
  rw_order : is_Some (su_orders s !! re_orderId r);
  rw_code : re_status r = ReceiptApproved -> forall i q, su_receipts s !! i = Some q -> i <> re_id r ->
    re_status q = ReceiptApproved -> ~ same_code r q;
  rw_attempts : attempts_ok (maxAnalysisAttempts (su_config s)) r;
  rw_kept : strict = true -> forall q, su_receipts s !! re_id r = Some q ->
    re_orderId r = re_orderId q /\ (is_decided q = true -> is_decided r = true);
}.

Lemma n_decided_put s r o :
  receipt_write true s r ->
  (n_decided s o <= n_decided (put_receipt s r) o)%nat /\
  (re_orderId r = o -> is_decided r = true ->
   (forall q, su_receipts s !! re_id r = Some q -> is_decided q = false) ->
   n_decided (put_receipt s r) o = S (n_decided s o)).
Proof.
  intros [_ _ _ Hk]. specialize (Hk eq_refl). unfold n_decided.
  change (su_receipts (put_receipt s r)) with (<[re_id r := r]> (su_receipts s)). rewrite count_rows_insert.
  destruct (su_receipts s !! re_id r) as [q|] eqn:Eq.
  - rewrite (count_rows_delete (of_order o) _ _ q Eq). destruct (Hk q eq_refl) as [Ho Hd]. split.
    + unfold of_order. rewrite <- Ho. destruct (re_orderId r =? o)%N; [|simpl; lia]. simpl.
      destruct (is_decided q); [by rewrite Hd | destruct (is_decided r); lia].
    + intros <- Hr Hn. unfold of_order. rewrite <- Ho, N.eqb_refl, Hr, (Hn q eq_refl). simpl. lia.
  - rewrite delete_id by done. split; [lia|]. intros <- Hr _. unfold of_order. by rewrite N.eqb_refl, Hr.
Qed.

Lemma put_receipt_ok b c s r : payments_ok b c s -> receipt_write b s r -> payments_ok b c (put_receipt s r).
Proof.
  intros [H0 H1 H2 H3 H5 H6 H7 H8 H4] Hw. pose proof Hw as [W1 W3 W4 _]. subst c.
  constructor; try done.
  - by intros i q [[-> ->]|[_ Hi]]%lookup_put_receipt; [|apply H1].
  - by intros i q [[-> ->]|[_ Hi]]%lookup_put_receipt; [|eapply H3].
  - intros i j q p [[-> ->]|[Hne Hi]]%lookup_put_receipt [[-> ->]|[Hne' Hj]]%lookup_put_receipt Hq Hp Hc; [done| | |by eapply H5].
    + exfalso. by eapply (W3 Hq j p).
    + exfalso. eapply (W3 Hp i q Hi Hne Hq). destruct Hc as (c & ? & ? & ?). by exists c.
  - by intros i q [[-> ->]|[_ Hi]]%lookup_put_receipt; [|eapply H6].
  - intros -> o. pose proof (proj1 (n_decided_put s r o Hw)). specialize (H4 eq_refl o).
    change (n_subscriptions (put_receipt s r) o) with (n_subscriptions s o). lia.
Qed.

(** The receipt and its order in one transaction *)
Lemma saveWithOrder_ok b c s r o :
  payments_ok b c s -> receipt_write b (put_order s o) (r <| re_orderId := or_id o |>) ->
  payments_ok b c (final (saveWithOrder r o) s).
Proof.
  intros Hs Hw. unfold final. rewrite saveWithOrder_run. destruct (order_fits o); [|done]. destruct (receipt_fault r); [done|].
  apply put_receipt_ok; [by apply put_order_ok | done].
Qed.

(** A write that leaves a receipt undecided *)
Lemma undecided_write b s r :
  is_Some (su_orders s !! re_orderId r) -> is_decided r = false -> attempts_ok (maxAnalysisAttempts (su_config s)) r ->
  (b = true -> forall q, su_receipts s !! re_id r = Some q -> re_orderId r = re_orderId q /\ is_decided q = false) ->
  receipt_write b s r.
Proof.
  intros Ho Hd Ha Hk. constructor; [done| |done|].
  - intros Hr. unfold is_decided in Hd. by rewrite Hr in Hd.
  - intros Hb q Hq. destruct (Hk Hb q Hq) as [-> ->]. split; [done|by intros].
Qed.

Lemma max_attempts_pos c : 0 < maxAnalysisAttempts c.
Proof.
  unfold maxAnalysisAttempts, positive_setting. destruct (rc_maxAttempts c) as [t|]; [|lia].
  destruct (safe_integer _) as [n|]; [|lia]. destruct (Z.ltb_spec 0 n); lia.
Qed.

(** ** What an approval decides and does *)

(** ** The refusals, in the order of the guards *)

(** What stops the payment itself *)
Definition payment_refusal (s : sub_state) (orderId receiptId : uuid) : option exn :=
  match su_orders s !! orderId with
  | None => Some (notFound "Subscription order not found")
  | Some order =>
      if eqb (or_status order) OrderApproved then Some (conflict "Subscription order has already been approved")
      else if eqb (or_status order) OrderCancelled then Some (badRequest "Cancelled subscription order cannot be approved")
      else match su_receipts s !! receiptId with
           | None => Some (notFound "Payment receipt not found")
           | Some receipt =>
               if negb (re_orderId receipt =? or_id order)%N
               then Some (badRequest "Payment receipt does not belong to this subscription order")
               else if eqb (re_status receipt) ReceiptRejected
               then Some (badRequest "Rejected payment receipt cannot be approved")
               else if eqb (re_status receipt) ReceiptApproved
               then Some (conflict "Payment receipt has already been approved")
               else if used_code receipt s then Some (conflict "This payment tracking code has already been used")
               else None
           end
  end.

(** What stops its buyer *)
Definition buyer_refusal (s : sub_state) (order : SubscriptionOrder) : option exn :=
  match active_role s (getRoleName (or_accountType order)) with
  | None => Some (NotFound (js "Active role " ++ [34%N] ++ js (getRoleName (or_accountType order)) ++ [34%N] ++ js " not found"))
  | Some _ =>
      match buyer s order with
      | Some u => if eqb (us_recordStatus u) RecActive then None else Some (badRequest "The buyer account is inactive")
      | None => None
      end
  end.

(** The buyer found, or the user made for this order *)
Definition new_buyer (s : sub_state) (order : SubscriptionOrder) : UserRow :=
  let username := provisioning_normalizePhone (or_phoneNumber order) in
  {| us_id := fresh_id (su_users s); us_username := username; us_mobile := Some username;
     us_recordStatus := RecActive; us_isParentCompany := false; us_createdAt := su_now s |}.

Definition the_buyer (s : sub_state) (order : SubscriptionOrder) : UserRow :=
  match buyer s order with Some u => u | None => new_buyer s order end.

Definition is_new (s : sub_state) (order : SubscriptionOrder) : bool :=
  match buyer s order with Some _ => false | None => true end.

Definition with_buyer (s : sub_state) (order : SubscriptionOrder) (role : Role) : sub_state :=
  s <| su_users := if is_new s order then <[us_id (new_buyer s order) := new_buyer s order]> (su_users s) else su_users s |>
    <| su_userRoles := {[ (us_id (the_buyer s order), ro_id role) ]} ∪ su_userRoles s |>.

Lemma payment_of_run s orderId receiptId :
  match payment_refusal s orderId receiptId with
  | Some e => payment_of orderId receiptId s = (Err e, s)
  | None => exists order receipt, su_orders s !! orderId = Some order /\ su_receipts s !! receiptId = Some receipt /\
      payment_of orderId receiptId s = (Ok (order, receipt), s)
  end.
Proof.
  unfold payment_refusal, payment_of, findOrder, findReceipt. rewrite run_bind. unfold gets.
  destruct (su_orders s !! orderId) as [order|]; [|done]. rewrite run_bind. unfold some_or. rewrite run_ret, !run_bind.
  destruct (eqb (or_status order) OrderApproved); [done|]. cbn [negb ensure]. rewrite run_ret, !run_bind.
  destruct (eqb (or_status order) OrderCancelled); [done|]. cbn [negb ensure]. rewrite run_ret, !run_bind.
  destruct (su_receipts s !! receiptId) as [receipt|]; [|done]. rewrite run_ret, !run_bind.
  destruct (re_orderId receipt =? or_id order)%N; [|done]. cbn [negb ensure]. rewrite run_ret, !run_bind.
  destruct (eqb (re_status receipt) ReceiptRejected); [done|]. cbn [negb ensure]. rewrite run_ret, !run_bind.
  destruct (eqb (re_status receipt) ReceiptApproved); [done|]. cbn [negb ensure]. rewrite run_ret, !run_bind.
  unfold get. rewrite run_bind. destruct (used_code receipt s); [done|]. eauto.
Qed.

Lemma resolve_buyer_run s order :
  match buyer_refusal s order with
  | Some e => resolve_buyer order s = (Err e, s)
  | None => exists role, active_role s (getRoleName (or_accountType order)) = Some role /\
      resolve_buyer order s = (Ok (the_buyer s order, is_new s order), with_buyer s order role)
  end.
Proof.
  unfold buyer_refusal, resolve_buyer, the_buyer, is_new, with_buyer, the_buyer, is_new. cbv zeta. rewrite run_bind. unfold get.
  rewrite run_bind. destruct (active_role s _) as [role|]; [|done]. unfold some_or. rewrite run_ret, run_bind.
  destruct (buyer s order) as [u|].
  - rewrite run_bind. destruct (eqb (us_recordStatus u) RecActive); [|done]. cbn [ensure].
    exists role. split; [done|]. destruct s. reflexivity.
  - exists role. split; [done|]. destruct s. reflexivity.
Qed.

(** ** The whole approval *)

Section Approval.
  Context `{LocalZone}.

Definition the_end (s : sub_state) (order : SubscriptionOrder) (plan : SubscriptionPlan) : option time :=
  calculateExpireDate (renewal_start s (us_id (the_buyer s order))) (pl_durationDays plan).

(** What stops its subscription *)
Definition plan_refusal (s : sub_state) (order : SubscriptionOrder) : option exn :=
  match su_plans s !! or_subscriptionPlanId order with
  | None => Some (notFound "Subscription plan not found")
  | Some plan => match the_end s order plan with Some _ => None | None => Some (QueryFailed "22007") end
  end.

Definition first_refusal (l : list (option exn)) : option exn :=
  foldr (fun e r => match e with Some _ => e | None => r end) None l.

(** Rows read from the tables fit their columns. *)
Definition row_refusal (order : SubscriptionOrder) (receipt : PaymentReceipt) : option exn :=
  match receipt_fault receipt with Some e => Some e | None => if order_fits order then None else Some TOO_LONG end.

Definition approval_refusal (s : sub_state) (orderId receiptId : uuid) : option exn :=
  match payment_refusal s orderId receiptId, su_orders s !! orderId, su_receipts s !! receiptId with
  | None, Some order, Some receipt =>
      first_refusal [buyer_refusal s order; plan_refusal s order; row_refusal order receipt]
  | e, _, _ => e
  end.

Definition new_subscription (s : sub_state) (order : SubscriptionOrder) (plan : SubscriptionPlan) (expireAt : time) : Subscription := {|
  sb_id := fresh_id (su_subscriptions s);
  sb_userId := us_id (the_buyer s order);
  sb_subscriptionPlanId := pl_id plan;
  sb_orderId := or_id order;
  sb_startAt := renewal_start s (us_id (the_buyer s order));
  sb_expireAt := expireAt;
  sb_status := SubActive |}.

Definition add_subscription (b : Subscription) (s : sub_state) : sub_state :=
  s <| su_subscriptions := <[sb_id b := b]> (su_subscriptions s) |>.

(** The buyer with its role, the subscription, the receipt and the order, in the
    order they are written *)
Definition approved_state (s : sub_state) (order : SubscriptionOrder) (receipt : PaymentReceipt) (role : Role)
    (plan : SubscriptionPlan) (expireAt : time) (adminUserId : uuid) : sub_state :=
  put_order
    (put_receipt
       (add_subscription (new_subscription s order plan expireAt) (with_buyer s order role))
       (approved_receipt adminUserId (su_now s) receipt))
    (approved_order adminUserId (us_id (the_buyer s order)) (su_now s) order).

Lemma start_subscription_run s order role :
  match plan_refusal s order with
  | Some e => start_subscription order (the_buyer s order) (with_buyer s order role) = (Err e, with_buyer s order role)
  | None => exists plan expireAt, su_plans s !! or_subscriptionPlanId order = Some plan /\
      the_end s order plan = Some expireAt /\
      start_subscription order (the_buyer s order) (with_buyer s order role)
      = (Ok (new_subscription s order plan expireAt),
         add_subscription (new_subscription s order plan expireAt) (with_buyer s order role))
  end.
Proof.
  unfold plan_refusal, start_subscription, findPlan. rewrite run_bind. unfold gets.
  change (su_plans (with_buyer s order role)) with (su_plans s).
  destruct (su_plans s !! or_subscriptionPlanId order) as [plan|]; [|done].
  unfold some_or. rewrite run_bind, run_ret, run_bind. unfold get. rewrite run_bind.
  change (renewal_start (with_buyer s order role)) with (renewal_start s).
  fold (the_end s order plan). destruct (the_end s order plan) as [e|] eqn:E; [|done].
  exists plan, e. split; [done|]. split; [exact E|]. done.
Qed.

Lemma approveOrder_run s orderId receiptId adminUserId :
  match approval_refusal s orderId receiptId with
  | Some e => approveOrder orderId receiptId adminUserId s = (Err e, s)
  | None => exists order receipt role plan expireAt,
      su_orders s !! orderId = Some order /\ su_receipts s !! receiptId = Some receipt /\
      payment_refusal s orderId receiptId = None /\
      active_role s (getRoleName (or_accountType order)) = Some role /\
      su_plans s !! or_subscriptionPlanId order = Some plan /\ the_end s order plan = Some expireAt /\
      approveOrder orderId receiptId adminUserId s
      = (Ok {| pr_userId := us_id (the_buyer s order); pr_username := us_username (the_buyer s order);
               pr_accountType := or_accountType order; pr_providerUserId := or_providerUserId order;
               pr_newUser := is_new s order; pr_subscriptionId := sb_id (new_subscription s order plan expireAt);
               pr_expireAt := expireAt |},
         approved_state s order receipt role plan expireAt adminUserId)
  end.
Proof.
  unfold approval_refusal, approveOrder, transaction. rewrite run_bind.
  pose proof (payment_of_run s orderId receiptId) as Hp.
  destruct (payment_refusal s orderId receiptId) as [e|] eqn:Ep; [by rewrite Hp|].
  destruct Hp as (order & receipt & Ho & Hr & ->). rewrite Ho, Hr, run_bind. cbn [first_refusal foldr].
  pose proof (resolve_buyer_run s order) as Hb.
  destruct (buyer_refusal s order) as [e|]; [by rewrite Hb|]. destruct Hb as (role & Hrole & ->).
  rewrite run_bind. pose proof (start_subscription_run s order role) as Hsub.
  destruct (plan_refusal s order) as [e|]; [by rewrite Hsub|]. destruct Hsub as (plan & expireAt & Hplan & Hend & ->).
  rewrite run_bind. unfold now, gets. rewrite run_bind, save_receipt_run. unfold row_refusal.
  change (receipt_fault (approved_receipt adminUserId _ receipt)) with (receipt_fault receipt).
  destruct (receipt_fault receipt); [done|]. rewrite run_bind, save_order_run.
  change (order_fits (approved_order adminUserId _ _ order)) with (order_fits order).
  destruct (order_fits order); [|done].
  exists order, receipt, role, plan, expireAt. repeat (split; [done|]). reflexivity.
Qed.

Lemma payment_refusal_None s orderId receiptId order receipt :
  payment_refusal s orderId receiptId = None -> su_orders s !! orderId = Some order ->
  su_receipts s !! receiptId = Some receipt ->
  or_status order <> OrderApproved /\ or_status order <> OrderCancelled /\ re_orderId receipt = or_id order /\
  is_decided receipt = false /\ used_code receipt s = false.
Proof.
  unfold payment_refusal. intros Hp Ho Hr. rewrite Ho, Hr in Hp. revert Hp.
  destruct (eqb (or_status order) OrderApproved) eqn:E1; [done|].
  destruct (eqb (or_status order) OrderCancelled) eqn:E2; [done|].
  destruct (N.eqb_spec (re_orderId receipt) (or_id order)) as [E3|]; [|done]. simpl.
  destruct (eqb (re_status receipt) ReceiptRejected) eqn:E4; [done|].
  destruct (eqb (re_status receipt) ReceiptApproved) eqn:E5; [done|].
  destruct (used_code receipt s); [done|]. intros _.
  apply eqb_neq in E1, E2, E4, E5. repeat (split; [done|]). split; [|done].
  unfold is_decided. by destruct (re_status receipt).
Qed.

(** *** The two parts *)

Lemma buyer_id_the_buyer s order : buyer_id s (buyer s order) = us_id (the_buyer s order).
Proof. unfold buyer_id, the_buyer. by destruct (buyer s order). Qed.

Lemma approval_reads_run s orderId receiptId order receipt :
  payment_of orderId receiptId s = (Ok (order, receipt), s) ->
  match first_refusal [buyer_refusal s order; plan_refusal s order] with
  | Some e => approval_reads orderId receiptId s = (Err e, s)
  | None => exists role plan expireAt,
      active_role s (getRoleName (or_accountType order)) = Some role /\
      su_plans s !! or_subscriptionPlanId order = Some plan /\ the_end s order plan = Some expireAt /\
      approval_reads orderId receiptId s
      = (Ok (mkApproval order receipt role (buyer s order) plan (renewal_start s (us_id (the_buyer s order))) expireAt), s)
  end.
Proof.
  intros Hp. unfold approval_reads. rewrite run_bind, Hp, run_bind. unfold get. cbv beta iota. rewrite run_bind, buyer_id_the_buyer.
  cbn [first_refusal foldr]. unfold buyer_refusal, plan_refusal.
  destruct (active_role s _) as [role|]; [|done]. unfold some_or. rewrite run_ret, run_bind.
  destruct (buyer s order) as [u|].
  1: destruct (eqb (us_recordStatus u) RecActive); [|done].
  all: cbn [ensure]; rewrite run_ret, run_bind; unfold findPlan, gets; destruct (su_plans s !! _) as [plan|]; [|done].
  all: rewrite run_bind, run_ret, run_bind; fold (the_end s order plan).
  all: destruct (the_end s order plan) as [e|] eqn:E; [|done]; by exists role, plan, e.
Qed.

Lemma no_user_of_new s order :
  buyer s order = None ->
  exists_row (fun u => bool_decide (us_username u = provisioning_normalizePhone (or_phoneNumber order))) (su_users s) = false.
Proof.
  unfold buyer. destruct (linked_user _ _); [done|]. unfold numbered_user. rewrite find_row_None, exists_row_false.
  intros Hn i u Hu. by apply Hn, orb_false_iff in Hu as [_ Hu].
Qed.

(** The buyer the writes use, on the state they find *)
Definition commit_fault (s : sub_state) (ap : approval) : option exn :=
  match ap_buyer ap with
  | Some _ => row_refusal (ap_order ap) (ap_receipt ap)
  | None =>
      if exists_row (fun u => bool_decide (us_username u = provisioning_normalizePhone (or_phoneNumber (ap_order ap)))) (su_users s)
      then Some (QueryFailed "23505") else row_refusal (ap_order ap) (ap_receipt ap)
  end.

Definition commit_buyer (s : sub_state) (ap : approval) : UserRow :=
  match ap_buyer ap with Some u => u | None => new_buyer s (ap_order ap) end.

Definition commit_subscription (s : sub_state) (ap : approval) : Subscription := {|
  sb_id := fresh_id (su_subscriptions s); sb_userId := us_id (commit_buyer s ap);
  sb_subscriptionPlanId := pl_id (ap_plan ap); sb_orderId := or_id (ap_order ap);
  sb_startAt := ap_startAt ap; sb_expireAt := ap_expireAt ap; sb_status := SubActive |}.

Definition commit_state (s : sub_state) (ap : approval) (adminUserId : uuid) : sub_state :=
  put_order
    (put_receipt
       (add_subscription (commit_subscription s ap)
          (s <| su_users := match ap_buyer ap with
                            | Some _ => su_users s
                            | None => <[us_id (new_buyer s (ap_order ap)) := new_buyer s (ap_order ap)]> (su_users s)
                            end |>
             <| su_userRoles := {[ (us_id (commit_buyer s ap), ro_id (ap_role ap)) ]} ∪ su_userRoles s |>))
       (approved_receipt adminUserId (su_now s) (ap_receipt ap)))
    (approved_order adminUserId (us_id (commit_buyer s ap)) (su_now s) (ap_order ap)).

Definition commit_answer (s : sub_state) (ap : approval) : AccountProvisioningResult := {|
  pr_userId := us_id (commit_buyer s ap); pr_username := us_username (commit_buyer s ap);
  pr_accountType := or_accountType (ap_order ap); pr_providerUserId := or_providerUserId (ap_order ap);
  pr_newUser := match ap_buyer ap with Some _ => false | None => true end;
  pr_subscriptionId := sb_id (commit_subscription s ap); pr_expireAt := ap_expireAt ap |}.

Lemma approval_commit_run s ap adminUserId :
  approval_commit adminUserId ap s
  = match commit_fault s ap with
    | Some e => (Err e, s)
    | None => (Ok (commit_answer s ap), commit_state s ap adminUserId)
    end.
Proof.
  unfold commit_fault, row_refusal, commit_answer, commit_state, commit_subscription, commit_buyer, approval_commit, buyer_write, transaction.
  rewrite !run_bind. destruct (ap_buyer ap) as [u|].
  - rewrite run_ret, run_bind. unfold modify at 1. cbv beta iota. rewrite run_ret, run_bind. unfold get. cbv beta iota.
    rewrite run_bind. unfold modify. cbv beta iota. rewrite run_bind. unfold now, gets. cbv beta iota.
    rewrite run_bind, save_receipt_run. change (receipt_fault (approved_receipt adminUserId _ (ap_receipt ap))) with (receipt_fault (ap_receipt ap)).
    destruct (receipt_fault (ap_receipt ap)); [done|]. rewrite run_bind, save_order_run.
    change (order_fits (approved_order adminUserId _ _ (ap_order ap))) with (order_fits (ap_order ap)).
    by destruct (order_fits (ap_order ap)); [destruct s|].
  - rewrite run_bind. unfold get at 1. cbv beta iota. rewrite run_bind. destruct (exists_row _ (su_users s)); [done|].
    cbn [negb ensure]. rewrite run_ret, run_bind. unfold modify at 1. cbv beta iota. rewrite run_ret.
    rewrite run_bind. unfold modify at 1. cbv beta iota. rewrite run_ret, run_bind. unfold get. cbv beta iota.
    rewrite run_bind. unfold modify. cbv beta iota. rewrite run_bind. unfold now, gets. cbv beta iota.
    rewrite run_bind, save_receipt_run. change (receipt_fault (approved_receipt adminUserId _ (ap_receipt ap))) with (receipt_fault (ap_receipt ap)).
    destruct (receipt_fault (ap_receipt ap)); [done|]. rewrite run_bind, save_order_run.
    change (order_fits (approved_order adminUserId _ _ (ap_order ap))) with (order_fits (ap_order ap)).
    by destruct (order_fits (ap_order ap)).
Qed.

Lemma commit_receipts s ap a :
  su_receipts (commit_state s ap a) = <[re_id (ap_receipt ap) := approved_receipt a (su_now s) (ap_receipt ap)]> (su_receipts s).
Proof. reflexivity. Qed.

Lemma commit_orders s ap a :
  su_orders (commit_state s ap a)
  = <[or_id (ap_order ap) := approved_order a (us_id (commit_buyer s ap)) (su_now s) (ap_order ap)]> (su_orders s).
Proof. reflexivity. Qed.

Lemma commit_subscriptions s ap a :
  su_subscriptions (commit_state s ap a) = <[sb_id (commit_subscription s ap) := commit_subscription s ap]> (su_subscriptions s).
Proof. reflexivity. Qed.

(** Read and written at once, the two parts are [approveOrder]. *)
Lemma approveOrder_divided orderId receiptId adminUserId s :
  approveOrder orderId receiptId adminUserId s = (approval_reads orderId receiptId ≫= approval_commit adminUserId) s.
Proof.
  pose proof (approveOrder_run s orderId receiptId adminUserId) as Ha. pose proof (payment_of_run s orderId receiptId) as Hp.
  rewrite run_bind. unfold approval_refusal in Ha. destruct (payment_refusal s orderId receiptId) as [e|] eqn:Ep.
  - rewrite Ha. unfold approval_reads. by rewrite run_bind, Hp.
  - destruct Hp as (order & receipt & Ho & Hr & Hp). rewrite Ho, Hr in Ha. pose proof (approval_reads_run s _ _ order receipt Hp) as Hd.
    cbn [first_refusal foldr] in *. destruct (buyer_refusal s order) as [e|]; [by rewrite Ha, Hd|].
    destruct (plan_refusal s order) as [e|]; [by rewrite Ha, Hd|].
    destruct Hd as (role & plan & e & Hrole & Hplan & Hend & ->). rewrite approval_commit_run. unfold commit_fault.
    cbn [ap_buyer ap_order ap_receipt].
    pose proof (no_user_of_new s order) as Hnew. unfold commit_answer, commit_state, commit_subscription, commit_buyer.
    cbn [ap_buyer ap_order ap_receipt ap_role ap_plan ap_startAt ap_expireAt].
    destruct (row_refusal order receipt) as [e'|]; [rewrite Ha; destruct (buyer s order); [done | by rewrite Hnew]|].
    destruct Ha as (order' & receipt' & role' & plan' & e' & Ho' & Hr' & _ & Hrole' & Hplan' & Hend' & ->).
    simplify_eq. unfold approved_state, with_buyer, new_subscription, is_new, the_buyer in *.
    destruct (buyer s order') as [u|]; [by destruct s | by rewrite Hnew].
Qed.
End Approval.
