(* ===== verification/PaymentSystem.v ===== *)
(** * Payments: the running services

    The handlers that read and write the receipts, as steps that may interleave: the
    reading of an image takes long, so what a worker read before it and what it
    writes after it are two steps, and an admin may decide in between. *)

From S2P Require Import Prelude JsNumber JsString Json Effects Enums Phone.
From S2P Require Import SubscriptionPolicy SubscriptionData Receipts Provisioning SubscriptionAccess.
From S2P Require Import SubscriptionFacts.

(** What a worker holds while the image is read: the receipt it claimed, and its
    order, as they were *)
Abbreviation reading := (uuid * PaymentReceipt * SubscriptionOrder)%type.

Definition release (receiptId : uuid) (e : exn) : SM unit :=
  s ← get;
  releaseFailedAnalysis receiptId (maxAnalysisAttempts (su_config s)) (error_message e).

(** [processReceipt] up to the call that reads the image, and from its answer on *)
Definition start_reading (receiptId : uuid) : SM (option reading) :=
  claimed ← claimForAnalysis receiptId;
  if (claimed : bool) then
    try_catch
      (read ← analysis_read receiptId;
       mret match read with inl _ => None | inr (r, o) => Some (receiptId, r, o) end)
      (fun e => release receiptId e ;; mret None)
  else mret None.

Definition finish_reading (p : reading) (answer : outcome ReceiptAnalysisResult) : SM unit :=
  let '(receiptId, receipt, order) := p in
  try_catch (result ← of_outcome answer; analysis_write receipt order result ≫= fun _ => mret tt)
    (release receiptId).

Record payment_system := mkSystem {
  sy_state : sub_state;
  sy_reading : list reading;
}.

Section System.
  Context `{LocalZone} `{JsDate} `{ReceiptAnalyzer}.

Inductive payment_op :=
| CreateOrder (params : CreateSubscriptionOrderParams)
| SubmitReceipt (params : SubmitPaymentReceiptParams)
| ProcessReceipt (receiptId : uuid)
| Sweep
| StartReading (receiptId : uuid)
| FinishReading (k : nat) (answer : outcome ReceiptAnalysisResult)
| Approve (orderId receiptId adminUserId : uuid)
| Reject (orderId receiptId adminUserId : uuid) (reason : text)
| GrantRewards (userId : uuid)
| Tick (d : N).

(** The steps that do not split an analysis *)
Definition whole (op : payment_op) : bool :=
  match op with StartReading _ | FinishReading _ _ => false | _ => true end.

Definition on_state {A} (m : SM A) (y : payment_system) : payment_system :=
  mkSystem (final m (sy_state y)) (sy_reading y).

Definition exec_payment (op : payment_op) (y : payment_system) : payment_system :=
  match op with
  | CreateOrder params => on_state (createOrder params) y
  | SubmitReceipt params => on_state (submitReceipt params) y
  | ProcessReceipt receiptId => on_state (processReceipt receiptId) y
  | Sweep => on_state sweep y
  | StartReading receiptId =>
      match start_reading receiptId (sy_state y) with
      | (Ok (Some p), s) => mkSystem s (sy_reading y ++ [p])
      | (_, s) => mkSystem s (sy_reading y)
      end
  | FinishReading k answer =>
      match sy_reading y !! k with
      | Some p => mkSystem (final (finish_reading p answer) (sy_state y)) (delete k (sy_reading y))
      | None => y
      end
  | Approve orderId receiptId adminUserId => on_state (approveOrder orderId receiptId adminUserId) y
  | Reject orderId receiptId adminUserId reason => on_state (rejectReceipt orderId receiptId adminUserId reason) y
  | GrantRewards userId => on_state (s ← now; grantEarned userId s) y
  | Tick d => on_state (modify (fun s => s <| su_now := su_now s + Z.of_N d |>)) y
  end.

Definition run_payments (ops : list payment_op) (y : payment_system) : payment_system :=
  foldl (fun y op => exec_payment op y) y ops.

(** Undivided, the two halves are [processReceipt]. *)
Lemma processReceipt_split receiptId s :
  processReceipt receiptId s
  = (p ← start_reading receiptId;
     match p with
     | Some p => asked ← now; finish_reading p (analyze asked (re_analysisAttempts p.1.2) (re_imageUrl p.1.2))
     | None => mret tt
     end) s.
Proof.
  unfold processReceipt, start_reading. rewrite !run_bind.
  destruct (claimForAnalysis receiptId s) as [[[]|e] s1]; [|done|done].
  unfold try_catch. rewrite !run_bind. unfold analyzeReceipt. rewrite run_bind.
  destruct (analysis_read receiptId s1) as [[[r|[r o]]|e] s2]; [done| |done].
  unfold finish_reading. cbn [fst snd]. unfold try_catch. rewrite !run_bind.
  rewrite run_ret. rewrite !run_bind. unfold now, gets. cbv beta iota. rewrite !run_bind.
  destruct (of_outcome (analyze _ _ _) s2) as [[]]; done.
Qed.

End System.

(** ** Each handler keeps the receipts in order *)

Section Kept.
  Context `{LocalZone} `{JsDate} `{ReceiptAnalyzer} (b : bool) (c : ReceiptConfig).

Abbreviation ok := (payments_ok b c).

Lemma buildOrder_reads params : reads (buildOrder params).
Proof. intros t. unfold buildOrder, findPlan. preserve. Qed.

Lemma createOrder_ok params : preserves ok (createOrder params).
Proof.
  unfold createOrder. apply preserves_bind; [apply reads_preserves, buildOrder_reads|]. intros o s Hs.
  unfold final. rewrite save_order_run. destruct (order_fits o); [by apply put_order_ok | done].
Qed.

Lemma modify_ok (f : sub_state -> sub_state) :
  (forall s, su_receipts (f s) = su_receipts s /\ su_orders (f s) = su_orders s /\
             su_subscriptions (f s) = su_subscriptions s /\ su_config (f s) = su_config s /\ su_bonuses (f s) = su_bonuses s) ->
  preserves ok (modify f).
Proof. intros Hf s Hs. destruct (Hf s) as (? & ? & ? & ? & ?). by apply (payments_ok_ext b c s). Qed.

(** A new receipt *)
Lemma submitted_ok s o url file t :
  ok s ->
  ok (final (saveWithOrder ((new_receipt url file t) <| re_id := fresh_id (su_receipts s) |>) o) s).
Proof.
  intros Hs. apply saveWithOrder_ok; [done|]. apply undecided_write; [apply put_order_has | done | |].
  - pose proof (max_attempts_pos (su_config s)). split; [|intros _]; change (re_analysisAttempts _) with 0.
    + change (su_config _) with (su_config s). lia.
    + done.
  - intros _ q Hq. change (su_receipts s !! fresh_id (su_receipts s) = Some q) in Hq.
    by rewrite fresh_id_None in Hq.
Qed.

Lemma submitReceipt_ok params : preserves ok (submitReceipt params).
Proof.
  unfold submitReceipt. apply preserves_ensure_bind; intros _. apply preserves_ensure_bind; intros _.
  apply preserves_bind; [|intros found].
  { destruct (sp_newOrder params) as [p|]; [|destruct (sp_orderId params); unfold findOrder; preserve].
    apply preserves_bind; [apply reads_preserves, buildOrder_reads | intros; apply preserves_ret]. }
  apply preserves_some_or_bind; intros order _. apply preserves_ensure_bind; intros _.
  intros s Hs. cbv zeta. rewrite final_get_bind. unfold final. rewrite run_bind.
  pose proof (submitted_ok s (order <| or_status := ReceiptSubmitted |>) (sp_imageUrl params) (sp_providerFileId params) (su_now s) Hs) as Hw.
  unfold final in Hw. destruct (saveWithOrder _ _ s) as [[r|e] s1]; [|done].
  by eapply payments_ok_ext; [..|exact Hw].
Qed.

(** ** The worker *)

Lemma claim_ok receiptId : preserves ok (claimForAnalysis receiptId).
Proof.
  intros s Hs. unfold claimForAnalysis. rewrite final_get_bind.
  destruct (su_receipts s !! receiptId) as [r|] eqn:Er; [|done].
  destruct (eqb (re_status r) PendingAnalysis) eqn:Es; [|done]. apply eqb_eq in Es.
  pose proof (py_receipt_ids b c s Hs receiptId r Er) as Hid.
  change (ok (s <| su_receipts := <[receiptId := claimed (su_now s) r]> (su_receipts s) |>)).
  rewrite <- Hid. change (ok (put_receipt s (claimed (su_now s) r))).
  apply put_receipt_ok; [done|]. apply undecided_write; [exact (py_order b c s Hs receiptId r Er) | done | |].
  - rewrite (py_config b c s Hs). destruct (py_attempts b c s Hs receiptId r Er) as [Ha Hp]. specialize (Hp Es).
    split; [change (0 <= re_analysisAttempts r + 1 <= maxAnalysisAttempts c); lia | done].
  - intros _ q Hq. change (su_receipts s !! re_id r = Some q) in Hq. rewrite Hid, Er in Hq. injection Hq as <-.
    split; [done|]. unfold is_decided. by rewrite Es.
Qed.

(** What is given back to the queue, or to the admin when it was tried often enough *)
Definition given_back (g : PaymentReceipt -> PaymentReceipt) : Prop :=
  forall r, g r = r \/
    (re_status r = Analyzing /\ re_id (g r) = re_id r /\ re_orderId (g r) = re_orderId r /\
     re_analysisAttempts (g r) = re_analysisAttempts r /\
     re_status (g r) = re_status (released (maxAnalysisAttempts c) r)).

Lemma released_cases max r :
  re_status (released max r) = (if max <=? re_analysisAttempts r then NeedsReview else PendingAnalysis).
Proof. done. Qed.

Lemma given_back_same g r :
  given_back g -> re_id (g r) = re_id r /\ re_orderId (g r) = re_orderId r /\ is_decided (g r) = is_decided r /\
  (re_status (g r) = ReceiptApproved -> g r = r).
Proof.
  intros Hg. destruct (Hg r) as [->|(Hs & Hi & Ho & _ & Hst)]; [done|].
  unfold is_decided. rewrite Hst, Hs, released_cases. by destruct (_ <=? _).
Qed.

Lemma given_back_attempts g r :
  given_back g -> attempts_ok (maxAnalysisAttempts c) r -> attempts_ok (maxAnalysisAttempts c) (g r).
Proof.
  intros Hg [Ha Hp]. destruct (Hg r) as [->|(Hs & _ & _ & Hn & Hst)]; [done|].
  unfold attempts_ok. rewrite Hn, Hst, released_cases. split; [done|].
  by destruct (Z.leb_spec (maxAnalysisAttempts c) (re_analysisAttempts r)).
Qed.

Lemma fmap_given_back g s :
  given_back g -> ok s -> ok (s <| su_receipts := g <$> su_receipts s |>).
Proof.
  intros Hg [G0 G1 G2 G3 G4 G5 G7 G8 G6].
  assert (Hl : forall i r, (g <$> su_receipts s) !! i = Some r -> exists q, su_receipts s !! i = Some q /\ r = g q).
  { intros i r. rewrite lookup_fmap, fmap_Some. done. }
  constructor; try done.
  - intros i r (q & Hq & ->)%Hl. destruct (given_back_same g q Hg) as [-> _]. by apply G1.
  - intros i r (q & Hq & ->)%Hl. destruct (given_back_same g q Hg) as (_ & -> & _). by eapply G3.
  - intros i j r q (r0 & Hr & ->)%Hl (q0 & Hq & ->)%Hl Er Eq.
    destruct (given_back_same g r0 Hg) as (_ & _ & _ & Gr). destruct (given_back_same g q0 Hg) as (_ & _ & _ & Gq).
    specialize (Gr Er). specialize (Gq Eq). rewrite Gr in Er |- *. rewrite Gq in Eq |- *. by eapply G4.
  - intros i r (q & Hq & ->)%Hl. apply given_back_attempts; [done | by eapply G5].
  - intros Hb o. specialize (G6 Hb o). etrans; [exact G6|]. unfold n_decided.
    change (su_receipts (s <| su_receipts := g <$> su_receipts s |>)) with (g <$> su_receipts s).
    rewrite count_rows_fmap; [done|]. intros r. unfold of_order.
    by destruct (given_back_same g r Hg) as (_ & -> & -> & _).
Qed.

Lemma alter_given_back g i s :
  given_back g -> ok s -> ok (s <| su_receipts := alter g i (su_receipts s) |>).
Proof.
  intros Hg Hs. destruct (su_receipts s !! i) as [r|] eqn:Er.
  - assert (E : alter g i (su_receipts s) = <[re_id (g r) := g r]> (su_receipts s)).
    { destruct (given_back_same g r Hg) as [-> _]. rewrite (py_receipt_ids b c s Hs i r Er).
      apply map_eq. intros j. destruct (base.decide (i = j)) as [<-|].
      - by rewrite lookup_alter_eq, lookup_insert_eq, Er.
      - by rewrite lookup_alter_ne, lookup_insert_ne. }
    rewrite E. change (ok (put_receipt s (g r))). apply put_receipt_ok; [done|].
    destruct (given_back_same g r Hg) as (Hi & Ho & Hd & Ha). constructor.
    + rewrite Ho. by eapply (py_order b c s Hs).
    + intros Hap j q Hq Hne Hqa Hc. rewrite Hi, (py_receipt_ids b c s Hs i r Er) in Hne.
      specialize (Ha Hap). rewrite Ha in Hap, Hc.
      apply Hne. symmetry. by eapply (py_codes b c s Hs i j r q).
    + rewrite (py_config b c s Hs). apply given_back_attempts; [done | by eapply (py_attempts b c s Hs)].
    + intros _ q. rewrite Hi, (py_receipt_ids b c s Hs i r Er), Er. intros [= <-]. by rewrite Hd.
  - eapply payments_ok_ext; [..|exact Hs]; try done. apply map_eq. intros j.
    change (alter g i (su_receipts s) !! j = su_receipts s !! j).
    destruct (base.decide (i = j)) as [<-|]; [by rewrite lookup_alter_eq, Er | by rewrite lookup_alter_ne].
Qed.

Lemma release_ok receiptId e : preserves ok (release receiptId e).
Proof.
  intros s Hs. unfold release. rewrite final_get_bind. unfold releaseFailedAnalysis.
  rewrite (py_config b c s Hs). apply alter_given_back; [|done]. intros r.
  destruct (eqb (re_status r) Analyzing) eqn:E; [|by left]. right. apply eqb_eq in E. done.
Qed.

Lemma releaseStale_ok before : preserves ok (releaseStaleAnalyses before (maxAnalysisAttempts c)).
Proof.
  intros s Hs. unfold releaseStaleAnalyses. rewrite final_get_bind. unfold final. rewrite run_bind.
  apply fmap_given_back; [|done]. intros r. unfold is_stale.
  destruct (eqb (re_status r) Analyzing) eqn:E; [|by left]. apply eqb_eq in E.
  cbn [andb]. destruct (match re_analysisStartedAt r with Some t => t <? before | None => false end); [by right | by left].
Qed.

(** What an analysis read: the receipt tried within its bound, whose order exists *)
Definition reading_ok (p : reading) : Prop := 0 <= re_analysisAttempts p.1.2 <= maxAnalysisAttempts c.

(** With nothing decided since it was read, the write keeps the decisions too. *)
Definition reading_fresh (s : sub_state) (receipt : PaymentReceipt) (order : SubscriptionOrder) : Prop :=
  forall q, su_receipts s !! re_id receipt = Some q -> re_orderId q = or_id order /\ is_decided q = false.

Lemma analysis_write_ok s receipt order a :
  0 <= re_analysisAttempts receipt <= maxAnalysisAttempts c ->
  (b = true -> reading_fresh s receipt order) ->
  ok s -> ok (final (analysis_write receipt order a) s).
Proof.
  intros Ha Hf Hs. unfold analysis_write. rewrite final_get_bind.
  apply reads_bind; [unfold getOrThrow; intros ?; preserve | done|]. intros cardNo _.
  apply reads_bind; [unfold getOrThrow; intros ?; preserve | done|]. intros cardOwner _.
  apply reads_bind; [unfold existsTrackingCode; intros ?; preserve | done|]. intros duplicate _.
  apply saveWithOrder_ok; [done|]. apply undecided_write; [apply put_order_has | done | |].
  - change (su_config (put_order s (order <| or_status := UnderReview |>))) with (su_config s).
    rewrite (py_config b c s Hs). done.
  - intros Hb q Hq. destruct (Hf Hb q Hq) as [-> ?]. done.
Qed.

Lemma analysis_read_reads receiptId : reads (analysis_read receiptId).
Proof. intros t. unfold analysis_read, findReceipt, findOrder. preserve. Qed.

Lemma analysis_read_inv receiptId s r o :
  result (analysis_read receiptId) s = Ok (inr (r, o)) ->
  su_receipts s !! receiptId = Some r /\ re_status r = Analyzing /\ su_orders s !! re_orderId r = Some o.
Proof.
  unfold result. destruct (analysis_read receiptId s) as [out s1] eqn:E. simpl. intros ->.
  unfold analysis_read, findReceipt, findOrder in E. run_inv.
  destruct (eqb (re_status a0) Analyzing) eqn:Es; simpl in E; run_inv; [|done].
  apply eqb_eq in Es. injection Ha as <- <-. done.
Qed.

Lemma reading_bound s i r : ok s -> su_receipts s !! i = Some r -> 0 <= re_analysisAttempts r <= maxAnalysisAttempts c.
Proof. intros Hs Hr. apply (py_attempts b c s Hs i r Hr). Qed.

Lemma analyzeReceipt_ok receiptId : preserves ok (analyzeReceipt receiptId).
Proof.
  intros s Hs. unfold analyzeReceipt. apply reads_bind; [apply analysis_read_reads | done|].
  intros [r|[r o]] Hr; [done|]. apply analysis_read_inv in Hr as (Hr & Hst & Ho).
  apply reads_bind; [intros ?; unfold now; preserve | done|]. intros asked _.
  apply reads_bind; [intros ?; preserve | done|]. intros a _.
  apply analysis_write_ok; [by eapply reading_bound | | done]. intros _ q.
  rewrite (py_receipt_ids b c s Hs _ r Hr), Hr. intros [= <-].
  rewrite (py_order_ids b c s Hs _ o Ho). split; [done|]. unfold is_decided. by rewrite Hst.
Qed.

Lemma processReceipt_ok receiptId : preserves ok (processReceipt receiptId).
Proof.
  unfold processReceipt. apply preserves_bind; [apply claim_ok|]. intros [|]; [|apply preserves_ret].
  apply preserves_try_catch; [|apply release_ok].
  apply preserves_bind; [apply analyzeReceipt_ok | intros; apply preserves_ret].
Qed.

Lemma sweep_ok : preserves ok sweep.
Proof.
  unfold sweep. apply preserves_get_bind. intros s Hs. rewrite (py_config b c s Hs).
  apply preserves_bind; [apply releaseStale_ok|]. intros _.
  apply preserves_bind; [unfold findPendingAnalysisIds; preserve|]. intros ids.
  apply preserves_for_each. intros i _. apply processReceipt_ok.
Qed.

(** The two halves *)
Lemma start_reading_ok receiptId s :
  ok s -> ok (final (start_reading receiptId) s) /\
  (forall p, result (start_reading receiptId) s = Ok (Some p) -> reading_ok p).
Proof.
  intros Hs. unfold start_reading, final, result. rewrite run_bind. pose proof (claim_ok receiptId s Hs) as Hc.
  unfold final in Hc. destruct (claimForAnalysis receiptId s) as [[[]|e] s1]; [|done|done]. cbn [snd] in Hc.
  unfold try_catch. rewrite run_bind.
  destruct (analysis_read receiptId s1) as [out s2] eqn:E.
  pose proof (reads_run _ _ _ _ (analysis_read_reads receiptId) E) as ->.
  destruct out as [[r|[r o]]|e].
  - done.
  - split; [done|]. intros p [= <-]. eapply reading_bound; [exact Hc|].
    assert (Hr : result (analysis_read receiptId) s1 = Ok (inr (r, o))) by (unfold result; by rewrite E).
    by apply analysis_read_inv in Hr as (Hr & _).
  - pose proof (release_ok receiptId e s1 Hc) as Hk. unfold final in Hk. rewrite run_bind.
    by destruct (release receiptId e s1) as [[u|e'] s3].
Qed.

Lemma finish_reading_ok p a s :
  b = false -> reading_ok p -> ok s -> ok (final (finish_reading p a) s).
Proof.
  intros Hb Hp Hs. destruct p as [[i r] o]. unfold finish_reading.
  apply (preserves_try_catch ok); [|apply release_ok | done].
  apply preserves_bind; [preserve|]. intros x. apply preserves_bind; [|intros; apply preserves_ret].
  intros s1 Hs1. apply analysis_write_ok; [done | by rewrite Hb | done].
Qed.

(** ** Decisions and rewards *)

Lemma used_code_none r s :
  ok s -> used_code r s = false ->
  forall i q, su_receipts s !! i = Some q -> i <> re_id r -> re_status q = ReceiptApproved -> ~ same_code r q.
Proof.
  intros Hs Hu i q Hq Hne Hst (t & Hr & Hqc & Ht). unfold used_code in Hu. rewrite Hr in Hu.
  apply andb_false_iff in Hu as [Hu|Hu]; [by destruct t|].
  rewrite exists_row_false in Hu. specialize (Hu i q Hq). unfold has_code in Hu.
  rewrite (py_receipt_ids b c s Hs i q Hq) in Hu. rewrite Hst in Hu.
  rewrite bool_decide_eq_true_2 in Hu by done. destruct (N.eqb_spec i (re_id r)); done.
Qed.

Lemma decided_write s r q :
  ok s -> su_receipts s !! re_id r = Some r -> re_id q = re_id r -> re_orderId q = re_orderId r ->
  re_trackingCode q = re_trackingCode r -> re_analysisAttempts q = re_analysisAttempts r ->
  is_decided q = true ->
  (re_status q = ReceiptApproved -> used_code r s = false) -> receipt_write b s q.
Proof.
  intros Hs Hr Hi Ho Ht Ha Hd Hc. constructor.
  - rewrite Ho. exact (py_order b c s Hs _ r Hr).
  - intros Hq i p Hp Hne Hpa (t & H1' & H2' & H3'). rewrite Hi in Hne.
    apply (used_code_none r s Hs (Hc Hq) i p Hp Hne Hpa). exists t. by rewrite <- Ht.
  - rewrite (py_config b c s Hs). destruct (py_attempts b c s Hs _ r Hr) as [G _]. unfold attempts_ok. rewrite Ha.
    split; [done|]. intros E. unfold is_decided in Hd. by rewrite E in Hd.
  - intros _ p. rewrite Hi, Hr. intros [= <-]. done.
Qed.

(** A renewal starts after every subscription the buyer holds. *)
Lemma last_to_end_max l a x : last_to_end l = Some a -> x ∈ l -> sb_expireAt x <= sb_expireAt a.
Proof.
  revert a. induction l as [|y l IH]; intros a; cbn [last_to_end]; [done|]. intros Ha Hx.
  destruct (last_to_end l) as [z|] eqn:Ez.
  - apply elem_of_cons in Hx as [->|Hx].
    + destruct (Z.ltb_spec (sb_expireAt y) (sb_expireAt z)); injection Ha as <-; lia.
    + specialize (IH z eq_refl Hx). destruct (Z.ltb_spec (sb_expireAt y) (sb_expireAt z)); injection Ha as <-; lia.
  - injection Ha as <-. apply elem_of_cons in Hx as [->|Hx]; [lia|]. destruct l as [|w l]; [set_solver|].
    cbn [last_to_end] in Ez. destruct (last_to_end l) as [v|]; [destruct (_ <? _)|]; done.
Qed.

Lemma last_to_end_None l : last_to_end l = None -> l = [].
Proof.
  destruct l as [|w l]; [done|]. cbn [last_to_end]. destruct (last_to_end l); [destruct (_ <? _)|]; done.
Qed.

Lemma last_to_end_in l a : last_to_end l = Some a -> a ∈ l.
Proof.
  revert a. induction l as [|y l IH]; intros a; cbn [last_to_end]; [done|].
  destruct (last_to_end l) as [z|]; [destruct (_ <? _)|]; intros [= <-]; try (specialize (IH _ eq_refl)); set_solver.
Qed.

Lemma runs_past_true u t x :
  runs_past u t x = true <-> sb_userId x = u /\ sb_status x = SubActive /\ t < sb_expireAt x.
Proof. unfold runs_past. rewrite !andb_true_iff, N.eqb_eq, Z.ltb_lt, (eqb_true (sb_status x) SubActive). naive_solver. Qed.

Lemma renewal_start_after s u i x :
  su_subscriptions s !! i = Some x -> sb_userId x = u -> sb_status x = SubActive -> sb_expireAt x <= renewal_start s u.
Proof.
  intros Hx Hu Hst. unfold renewal_start.
  destruct (last_to_end _) as [a|] eqn:Ea.
  - destruct (Z.ltb_spec (su_now s) (sb_expireAt x)).
    + eapply last_to_end_max; [exact Ea|]. apply elem_of_find_rows. split; [by apply runs_past_true | by eexists].
    + apply last_to_end_in, elem_of_find_rows in Ea as [Ea%runs_past_true _]. lia.
  - destruct (Z.ltb_spec (su_now s) (sb_expireAt x)); [|lia]. apply last_to_end_None in Ea.
    assert (Hin : x ∈ find_rows (runs_past u (su_now s)) (su_subscriptions s)).
    { apply elem_of_find_rows. split; [by apply runs_past_true | by eexists]. }
    rewrite Ea in Hin. set_solver.
Qed.

Lemma subscription_apart s q sub :
  ok s -> su_subscriptions s !! sb_id sub = None -> sb_startAt sub = renewal_start s (sb_userId sub) ->
  paid_apart ((put_receipt s q) <| su_subscriptions := <[sb_id sub := sub]> (su_subscriptions s) |>).
Proof.
  intros Hs Hn Hst i j x y Hij.
  change (su_subscriptions ((put_receipt s q) <| su_subscriptions := <[sb_id sub := sub]> (su_subscriptions s) |>))
    with (<[sb_id sub := sub]> (su_subscriptions s)).
  rewrite !lookup_insert. case_decide; case_decide; [congruence| | |by apply (py_apart b c s Hs)].
  - intros [= <-] Hy Hu _ Hay. right. rewrite Hst. by eapply renewal_start_after.
  - intros Hx [= <-] Hu Hax _. left. rewrite Hst. by eapply renewal_start_after.
Qed.

(** A subscription beside a receipt decided for its order *)
Lemma paid_ok s r q sub :
  ok s -> su_receipts s !! re_id r = Some r -> is_decided r = false -> receipt_write b s q ->
  re_id q = re_id r -> re_orderId q = re_orderId r -> is_decided q = true ->
  su_subscriptions s !! sb_id sub = None -> sb_orderId sub = re_orderId r ->
  sb_startAt sub = renewal_start s (sb_userId sub) ->
  ok ((put_receipt s q) <| su_subscriptions := <[sb_id sub := sub]> (su_subscriptions s) |>).
Proof.
  intros Hs Hr Hd Hw Hi Ho Hdq Hn Hso. pose proof (put_receipt_ok b c s q Hs Hw) as [P0 P1 P2 P3 P4 P5 P6 P7 P8].
  constructor; try done; [by apply (subscription_apart s q sub)|]. intros Hb o. destruct b; [|done].
  pose proof (py_paid true c s Hs eq_refl o) as Hle. unfold n_subscriptions.
  change (su_subscriptions ((put_receipt s q) <| su_subscriptions := <[sb_id sub := sub]> (su_subscriptions s) |>))
    with (<[sb_id sub := sub]> (su_subscriptions s)).
  rewrite count_rows_insert, delete_id by done. unfold n_subscriptions in Hle. rewrite Hso.
  change (n_decided ((put_receipt s q) <| su_subscriptions := <[sb_id sub := sub]> (su_subscriptions s) |>) o)
    with (n_decided (put_receipt s q) o).
  pose proof (n_decided_put s q o Hw) as [Hge Hs1].
  destruct (N.eqb_spec (re_orderId r) o) as [E|]; [|lia].
  rewrite Hs1; [lia | by rewrite Ho | done |]. intros p. rewrite Hi, Hr. by intros [= <-].
Qed.

Lemma approveOrder_ok orderId receiptId adminUserId : preserves ok (approveOrder orderId receiptId adminUserId).
Proof.
  intros s Hs. unfold final. pose proof (approveOrder_run s orderId receiptId adminUserId) as Ha.
  destruct (approval_refusal s orderId receiptId) as [e|]; [by rewrite Ha|].
  destruct Ha as (o & r & role & plan & t & Ho & Hr & Hp & _ & _ & _ & ->). cbn [snd].
  apply payment_refusal_None with (order := o) (receipt := r) in Hp as (_ & _ & Hor & Hd & Hu); [|done..].
  pose proof (py_receipt_ids b c s Hs receiptId r Hr) as <-.
  pose proof (py_order_ids b c s Hs orderId o Ho) as <-.
  unfold approved_state. apply put_order_ok.
  apply (payments_ok_ext b c ((put_receipt s (approved_receipt adminUserId (su_now s) r))
    <| su_subscriptions := <[sb_id (new_subscription s o plan t) := new_subscription s o plan t]> (su_subscriptions s) |>));
    [done..|].
  apply (paid_ok s r); try done; [by apply (decided_write s r) | apply fresh_id_None].
Qed.

Lemma rejectReceipt_ok orderId receiptId adminUserId reason :
  preserves ok (rejectReceipt orderId receiptId adminUserId reason).
Proof.
  intros s Hs. unfold rejectReceipt. apply (preserves_transaction ok); [|done]. clear s Hs.
  unfold findOrder. apply preserves_gets_bind. intros s Hs. apply preserves_some_or_bind. intros o Ho.
  apply preserves_ensure_bind; intros _.
  intros s2 Hs2. unfold findReceipt. apply (reads_bind ok); [intros ?; preserve | done |]. intros found Hf.
  injection Hf as <-. apply (reads_bind ok); [intros ?; preserve | done |]. intros r Hr.
  assert (Hr2 : su_receipts s2 !! receiptId = Some r).
  { destruct (su_receipts s2 !! receiptId) as [q|]; [by injection Hr as -> | done]. }
  apply (reads_bind ok); [intros ?; preserve | done |]. intros _ _.
  apply (reads_bind ok); [intros ?; unfold now; preserve | done |]. intros t _.
  pose proof (py_receipt_ids b c s2 Hs2 receiptId r Hr2) as <-.
  unfold final. rewrite run_bind, save_receipt_run. destruct (receipt_fault _); [done|].
  rewrite run_bind, save_order_run. destruct (order_fits _); cbn [snd];
    [apply put_order_ok|]; apply put_receipt_ok; try done; by apply (decided_write s2 r).
Qed.

Lemma policy_ok {A} (m : PolM A) : preserves ok (policy m).
Proof.
  unfold policy. apply (preserves_zoom _ (fun _ => True)); [done | done |].
  intros s p Hs _. by apply (payments_ok_ext b c s).
Qed.

(** A reward starts after the ones before it. *)
Lemma free_from_bonus s u t i x :
  su_bonuses s !! i = Some x -> bo_userId x = u -> bo_expireAt x <= free_from s u t.
Proof.
  intros Hx Hu. unfold free_from. etrans; [|apply latest_base]. apply latest_in.
  apply list_elem_of_fmap_2, elem_of_find_rows. split; [by apply N.eqb_eq | by eexists].
Qed.

Lemma given_false s u reason i x :
  given s u reason = false -> su_bonuses s !! i = Some x -> bo_userId x = u -> bo_reason x <> reason.
Proof.
  unfold given. rewrite exists_row_false. intros Hg Hx <- <-. specialize (Hg i x Hx).
  rewrite N.eqb_refl in Hg. by apply bool_decide_eq_false in Hg.
Qed.

Definition add_bonus (x : SubscriptionBonus) (s : sub_state) : sub_state :=
  s <| su_bonuses := <[bo_id x := x]> (su_bonuses s) |>.

Lemma add_bonus_ok s x :
  ok s -> given s (bo_userId x) (bo_reason x) = false ->
  (forall i y, su_bonuses s !! i = Some y -> bo_userId y = bo_userId x -> bo_expireAt y <= bo_startAt x) ->
  ok (add_bonus x s).
Proof.
  intros Hs Hg Hf. pose proof Hs as [G0 G1 G2 G3 G4 G5 G7 G8 G6]. constructor; try done.
  intros i j y z Hij. change (su_bonuses (add_bonus x s)) with (<[bo_id x := x]> (su_bonuses s)).
  rewrite !lookup_insert. case_decide; case_decide; [congruence| | |by apply G8].
  - intros [= <-] Hz Hu. split; [|right; by eapply Hf].
    pose proof (given_false s _ _ j z Hg Hz (eq_sym Hu)). congruence.
  - intros Hy [= <-] Hu. split; [|left; by eapply Hf].
    by pose proof (given_false s _ _ i y Hg Hy Hu).
Qed.

(** One tier, run *)
Definition tier_bonus (s : sub_state) (u : uuid) (t : time) (tier : DriverReward) : SubscriptionBonus := {|
  bo_id := fresh_id (su_bonuses s); bo_userId := u; bo_reason := reward_reason tier; bo_days := freeDays tier;
  bo_startAt := free_from s u t; bo_expireAt := free_from s u t + freeDays tier * SubscriptionAccess.DAY_MS |}.

Lemma grant_tier_run s u t tier :
  grant_tier u t tier s
  = if given s u (reward_reason tier) then (Ok None, s)
    else (Ok (Some (mkGranted (minTomans tier) (freeDays tier) (bo_startAt (tier_bonus s u t tier))
                      (bo_expireAt (tier_bonus s u t tier)))), add_bonus (tier_bonus s u t tier) s).
Proof.
  unfold grant_tier, transaction. rewrite run_bind. unfold get. by destruct (given _ _ _).
Qed.

Lemma grant_tier_ok userId t tier : preserves ok (grant_tier userId t tier).
Proof.
  intros s Hs. unfold final. rewrite grant_tier_run.
  destruct (given s userId (reward_reason tier)) eqn:Eg; [done|].
  apply add_bonus_ok; [done..|]. intros i y. by apply free_from_bonus.
Qed.

Lemma grantEarned_ok userId t : preserves ok (grantEarned userId t).
Proof.
  unfold grantEarned. apply preserves_bind; [apply policy_ok|]. intros tiers.
  apply preserves_get_bind. intros s _. destruct (_ || _); [apply preserves_ret|].
  apply preserves_bind; [unfold paidTomans; preserve|]. intros paid.
  induction (List.filter (reached paid) tiers) as [|tier l IH]; [apply preserves_ret|].
  cbn [grant_tiers]. apply preserves_bind; [apply grant_tier_ok|]. intros x.
  apply preserves_bind; [exact IH | intros; apply preserves_ret].
Qed.

(** ** Every sequence of steps *)

Record system_ok (y : payment_system) : Prop := {
  so_state : ok (sy_state y);
  so_reading : forall k p, sy_reading y !! k = Some p -> reading_ok p;
}.

Lemma on_state_ok {A} (m : SM A) y : preserves ok m -> system_ok y -> system_ok (on_state m y).
Proof. intros Hm [Hs Hr]. constructor; [by apply Hm | done]. Qed.

Lemma exec_payment_ok op y : (b = true -> whole op = true) -> system_ok y -> system_ok (exec_payment op y).
Proof.
  intros Hw Hy. destruct op; cbn [exec_payment].
  - by apply on_state_ok, Hy; apply createOrder_ok.
  - by apply on_state_ok, Hy; apply submitReceipt_ok.
  - by apply on_state_ok, Hy; apply processReceipt_ok.
  - by apply on_state_ok, Hy; apply sweep_ok.
  - destruct Hy as [Hs Hr]. destruct (start_reading_ok receiptId (sy_state y) Hs) as [Hs1 Hp].
    unfold final, result in *. destruct (start_reading receiptId (sy_state y)) as [[[p|]|e] s1]; constructor; try done.
    intros k q. cbn [sy_reading]. rewrite lookup_app_Some. intros [Hk|[_ Hk]]; [by eapply Hr|].
    apply list_lookup_singleton_Some in Hk as [_ <-]. by apply Hp.
  - destruct (sy_reading y !! k) as [p|] eqn:Ep; [|done]. destruct Hy as [Hs Hr]. constructor; cbn.
    + apply finish_reading_ok; [|by eapply Hr | done]. destruct b; [|done]. by specialize (Hw eq_refl).
    + intros i q Hi. destruct (base.decide (i < k)%nat).
      * rewrite list_lookup_delete_lt in Hi by done. by eapply Hr.
      * rewrite list_lookup_delete_ge in Hi by lia. by eapply Hr.
  - by apply on_state_ok, Hy; apply approveOrder_ok.
  - by apply on_state_ok, Hy; apply rejectReceipt_ok.
  - apply on_state_ok, Hy. apply preserves_bind; [unfold now; preserve | intros; apply grantEarned_ok].
  - apply on_state_ok, Hy. by apply modify_ok.
Qed.

Lemma run_payments_ok ops y :
  (b = true -> forallb whole ops = true) -> system_ok y -> system_ok (run_payments ops y).
Proof.
  unfold run_payments. revert y. induction ops as [|op ops IH]; intros y Hw Hy; [done|].
  cbn [foldl]. apply IH.
  - intros Hb. specialize (Hw Hb). cbn [forallb] in Hw. by apply andb_true_iff in Hw as [_ ?].
  - apply exec_payment_ok; [|done]. intros Hb. specialize (Hw Hb). cbn [forallb] in Hw. by apply andb_true_iff in Hw as [? _].
Qed.

End Kept.
