(* ===== verification/AccessFacts.v ===== *)
(** * Who may work, and what is earned: the facts *)

From S2P Require Import Prelude JsNumber JsString Json Effects Enums.
From S2P Require Import SubscriptionPolicy SubscriptionPolicyFacts SubscriptionData SubscriptionAccess.
From S2P Require Import SubscriptionFacts PaymentSystem.

Section Policy.
  Context `{JsDate}.

(** ** Reading the policy *)

(** A policy read is cached, so the next read at this instant gives it again. *)
Lemma getPolicy_again i s :
  exists p s1, getPolicy i s = (Ok p, s1) /\ ps_now s1 = ps_now s /\ getPolicy i s1 = (Ok p, s1).
Proof.
  assert (Hkeep : forall q s0, ps_now s0 = ps_now s -> getPolicy i (final (keep i q) s0) = (Ok q, final (keep i q) s0)).
  { intros q s0 E. rewrite policy_read_run. unfold cached_policy.
    change (ps_cached (final (keep i q) s0)) with (<[i := (q, ps_now s0 + LOCAL_TTL_MS)]> (ps_cached s0)).
    rewrite lookup_insert_eq. change (ps_now (final (keep i q) s0)) with (ps_now s0).
    by rewrite (proj2 (Z.ltb_lt _ _)) by (unfold LOCAL_TTL_MS; lia). }
  rewrite (policy_read_run i s).
  destruct (cached_policy i s) as [q|] eqn:Ec.
  { exists q, s. split; [done|]. split; [done|]. rewrite policy_read_run. by rewrite Ec. }
  destruct (from_redis s) as [q|].
  { exists q, (final (keep i q) s). split; [done|]. split; [done | by apply Hkeep]. }
  cbv zeta. assert (Hdb : exists q s0, fromDatabase s = (Ok q, s0) /\ ps_now s0 = ps_now s).
  { unfold fromDatabase. rewrite run_bind. unfold get. cbv beta iota. destruct (ps_db_up s); [|by do 2 eexists].
    cbv zeta. rewrite run_bind, share_run. do 2 eexists. split; [reflexivity|]. by destruct (ps_redis_up s). }
  destruct Hdb as (q & s0 & -> & E). exists q, (final (keep i q) s0). split; [done|]. split; [done | by apply Hkeep].
Qed.

(** [p] is the policy this instance goes by at the moment. *)
Definition policy_settled (p : SubscriptionPolicy) (s : sub_state) : Prop :=
  policy (getPolicy THIS_INSTANCE) s = (Ok p, s).

Lemma put_own_policy s : s <| su_policy := su_policy s |> = s.
Proof. by destruct s. Qed.

Lemma policy_settles s :
  exists p s1, policy (getPolicy THIS_INSTANCE) s = (Ok p, s1) /\ s1 = s <| su_policy := su_policy s1 |> /\ policy_settled p s1.
Proof.
  destruct (getPolicy_again THIS_INSTANCE (policy_view s)) as (p & t & E & Hn & E2).
  exists p, (s <| su_policy := t |>). unfold policy_settled, policy, zoom. rewrite E.
  split; [done|]. split; [done|].
  assert (Hv : policy_view (s <| su_policy := t |>) = t).
  { unfold policy_view. change (su_policy (s <| su_policy := t |>)) with t.
    change (su_now (s <| su_policy := t |>)) with (su_now s). change (ps_now t = su_now s) in Hn.
    rewrite <- Hn. by destruct t. }
  by rewrite Hv, E2.
Qed.

Lemma policy_settled_ext p s s1 :
  su_policy s1 = su_policy s -> su_now s1 = su_now s -> policy_settled p s -> policy_settled p s1.
Proof.
  unfold policy_settled, policy, zoom, policy_view. intros E1 E2. rewrite E1, E2.
  destruct (getPolicy _ _) as [r t]. intros [= -> Ht]. f_equal.
  assert (t = su_policy s) as -> by (by rewrite <- Ht). rewrite <- E1. apply put_own_policy.
Qed.

(** What is read of it *)
Lemma policy_map {A B} (m : PolM A) (f : A -> B) s r s1 :
  policy m s = (r, s1) ->
  policy (x ← m; mret (f x)) s = (match r with Ok x => Ok (f x) | Err e => Err e end, s1).
Proof.
  unfold policy, zoom. rewrite run_bind. destruct (m (policy_view s)) as [[x|e] t]; by intros [= <- <-].
Qed.

Lemma driver_rule_run p s s1 :
  policy (getPolicy THIS_INSTANCE) s = (Ok p, s1) ->
  policy (getDriverRule THIS_INSTANCE) s = (Ok (driversEnforced p, driverTrialDays p, driverTrialStartedAt p), s1).
Proof. intros E. unfold getDriverRule. by rewrite (policy_map _ _ s _ s1 E). Qed.

Lemma driver_rewards_run p s s1 :
  policy (getPolicy THIS_INSTANCE) s = (Ok p, s1) ->
  policy (getDriverRewards THIS_INSTANCE) s = (Ok (driverRewards p), s1).
Proof. intros E. unfold getDriverRewards. by rewrite (policy_map _ _ s _ s1 E). Qed.

Lemma is_required_run p s s1 t :
  policy (getPolicy THIS_INSTANCE) s = (Ok p, s1) ->
  policy (isRequired THIS_INSTANCE t) s = (Ok (required_at p t), s1).
Proof.
  intros E. unfold isRequired. rewrite (policy_map (getStatus THIS_INSTANCE t) required s (Ok (mkStatus p (required_at p t))) s1); [done|].
  unfold getStatus. by rewrite (policy_map _ _ s _ s1 E).
Qed.

(** ** What [check] answers *)

Definition is_driver (s : sub_state) (u : uuid) : bool :=
  match su_users s !! u with Some _ => has_active_role s u "DRIVER" | None => false end.

(** A parent company or a factory never needs a subscription. *)
Definition free_account (s : sub_state) (u : uuid) : bool :=
  match su_users s !! u with Some x => us_isParentCompany x || has_active_role s u "FACTORY" | None => false end.

Definition trial_of (p : SubscriptionPolicy) (s : sub_state) (u : uuid) : option time :=
  match su_users s !! u with
  | Some x => if is_driver s u
              then trial_end (us_createdAt x) (driversEnforced p, driverTrialDays p, driverTrialStartedAt p)
              else None
  | None => None
  end.

Definition access_decision (p : SubscriptionPolicy) (s : sub_state) (u : uuid) (t : time) : bool * SubscriptionAccessReason :=
  if match active_subscription s u with Some _ => true | None => false end then (true, subscribed)
  else if free_account s u then (true, free)
  else if match active_until s u t with Some _ => true | None => false end then (true, bonus)
  else if is_driver s u then
    if negb (driversEnforced p) then (true, free)
    else if match trial_of p s u with Some e => t <? e | None => false end then (true, trial)
    else (false, required_reason)
  else if required_at p t then (false, required_reason) else (true, free).

Lemma check_run s u t :
  exists p ac s1, result (policy (getPolicy THIS_INSTANCE)) s = Ok p /\ check u t s = (Ok ac, s1) /\
    (ac_allowed ac, ac_reason ac) = access_decision p s u t.
Proof.
  destruct (policy_settles s) as (p & s1 & E & _ & Hset). exists p.
  unfold result at 1. rewrite E. cbn [fst].
  pose proof (driver_rule_run p s s1 E) as Erule. pose proof (driver_rule_run p s1 s1 Hset) as Erule1.
  pose proof (is_required_run p s s1 t E) as Ereq.
  unfold check, access_decision, trial_of, is_driver, free_account. rewrite run_bind. unfold get. cbv beta iota.
  unfold findActiveByUserId, activeUntil. rewrite run_bind. unfold gets at 1. cbv beta iota.
  rewrite run_bind. unfold gets. cbv beta iota. cbv zeta. unfold driverTrialEndsAt.
  destruct (su_users s !! u) as [x|].
  - destruct (has_active_role s u "DRIVER").
    + rewrite !run_bind, Erule, run_ret.
      destruct (active_subscription s u); [by do 2 eexists|].
      destruct (us_isParentCompany x); [by do 2 eexists|].
      destruct (has_active_role s u "FACTORY"); [by do 2 eexists|].
      destruct (active_until s u t); [by do 2 eexists|]. rewrite run_bind, Erule1. cbn [orb fst].
      do 2 eexists. split; [done|]. split; [done|].
      destruct (driversEnforced p); [|done]. cbn [negb].
      by destruct (trial_end _ _) as [e|]; [destruct (t <? e)|].
    + rewrite run_bind, run_ret.
      destruct (active_subscription s u); [by do 2 eexists|].
      destruct (us_isParentCompany x); [by do 2 eexists|].
      destruct (has_active_role s u "FACTORY"); [by do 2 eexists|].
      destruct (active_until s u t); [by do 2 eexists|]. rewrite run_bind, Ereq. cbn [orb].
      do 2 eexists. split; [done|]. split; [done|]. by destruct (required_at p t).
  - rewrite run_bind, run_ret. 
    destruct (active_subscription s u); [by do 2 eexists|].
    destruct (active_until s u t); [by do 2 eexists|]. rewrite run_bind, Ereq.
    do 2 eexists. split; [done|]. split; [done|]. by destruct (required_at p t).
Qed.

(** ** Subscriptions and bonuses in force *)

Lemma last_to_end_is_Some l : is_Some (last_to_end l) <-> l <> [].
Proof.
  destruct l as [|b l]; cbn [last_to_end]; [split; [by intros []|done]|].
  split; [done|]. intros _. destruct (last_to_end l); [destruct (_ <? _)|]; by eexists.
Qed.

Lemma find_rows_nil {V} (f : V -> bool) (m : gmap uuid V) :
  find_rows f m = [] <-> forall i v, m !! i = Some v -> f v = false.
Proof.
  split.
  - intros E i v Hi. destruct (f v) eqn:Ef; [|done].
    assert (Hin : v ∈ find_rows f m) by (apply elem_of_find_rows; eauto). rewrite E in Hin. set_solver.
  - intros Hf. destruct (find_rows f m) as [|v l] eqn:E; [done|].
    assert (Hin : v ∈ find_rows f m) by (rewrite E; set_solver).
    apply elem_of_find_rows in Hin as (Hv & i & Hi). rewrite (Hf i v Hi) in Hv. done.
Qed.

Definition covers (from to t : time) : Prop := from <= t < to.

Lemma active_subscription_None s u :
  active_subscription s u = None <->
  forall i b, su_subscriptions s !! i = Some b -> sb_userId b = u -> sb_status b = SubActive ->
    ~ covers (sb_startAt b) (sb_expireAt b) (su_now s).
Proof.
  unfold active_subscription, covers.
  set (f := fun b => runs_past u (su_now s) b && (sb_startAt b <=? su_now s)).
  assert (E : last_to_end (find_rows f (su_subscriptions s)) = None <-> find_rows f (su_subscriptions s) = []).
  { split; [apply last_to_end_None | by intros ->]. }
  rewrite E, find_rows_nil. unfold f. split; intros Hf i b Hb; specialize (Hf i b Hb).
  - intros Hu Hst [H1 H2]. apply andb_false_iff in Hf as [Hf|Hf]; [|lia].
    rewrite (proj2 (runs_past_true u (su_now s) b)) in Hf; done.
  - apply andb_false_iff. destruct (runs_past u (su_now s) b) eqn:Er; [right | by left].
    apply runs_past_true in Er as (Hu & Hst & Hlt). specialize (Hf Hu Hst). lia.
Qed.

Lemma active_until_None s u t :
  active_until s u t = None <->
  forall i b, su_bonuses s !! i = Some b -> bo_userId b = u -> ~ covers (bo_startAt b) (bo_expireAt b) t.
Proof.
  unfold active_until, covers.
  set (f := fun b => (bo_userId b =? u)%N && (bo_startAt b <=? t) && (t <? bo_expireAt b)).
  assert (E : match map bo_expireAt (find_rows f (su_bonuses s)) with [] => None | x :: ts => Some (latest ts x) end = None
              <-> find_rows f (su_bonuses s) = []).
  { by destruct (find_rows f (su_bonuses s)). }
  rewrite E, find_rows_nil. unfold f. split; intros Hf i b Hb; specialize (Hf i b Hb).
  - intros <- [H1 H2]. rewrite N.eqb_refl in Hf. lia.
  - destruct (N.eqb_spec (bo_userId b) u) as [Hu|]; [|done]. specialize (Hf Hu). cbn [andb]. lia.
Qed.

Lemma access_decision_refused p s u t :
  fst (access_decision p s u t) = false <->
  active_subscription s u = None /\ active_until s u t = None /\ free_account s u = false /\
  (if is_driver s u
   then driversEnforced p = true /\ (forall e, trial_of p s u = Some e -> e <= t)
   else required_at p t = true).
Proof.
  unfold access_decision.
  destruct (active_subscription s u); [naive_solver|]. destruct (free_account s u); [naive_solver|].
  destruct (active_until s u t); [naive_solver|]. destruct (is_driver s u).
  - destruct (driversEnforced p); cbn [negb fst]; [|naive_solver].
    destruct (trial_of p s u) as [e|]; [|cbn; naive_solver].
    destruct (Z.ltb_spec t e); cbn [fst]; split; try done.
    + intros (_ & _ & _ & _ & He). specialize (He e eq_refl). lia.
    + intros _. repeat (split; [done|]). intros x [= <-]. lia.
  - destruct (required_at p t); cbn [fst]; naive_solver.
Qed.

(** ** Rewards *)

Lemma grant_tier_final u t tier s :
  exists s1, final (grant_tier u t tier) s = s1 /\ given s1 u (reward_reason tier) = true /\
    (forall reason, given s u reason = true -> given s1 u reason = true) /\
    (exists g, result (grant_tier u t tier) s = Ok g) /\
    su_policy s1 = su_policy s /\ su_now s1 = su_now s /\ su_subscriptions s1 = su_subscriptions s /\
    su_orders s1 = su_orders s /\ su_roles s1 = su_roles s /\ su_userRoles s1 = su_userRoles s.
Proof.
  unfold final, result. rewrite grant_tier_run. eexists. split; [reflexivity|].
  destruct (given s u (reward_reason tier)) eqn:Eg; [by repeat split; eauto|].
  assert (Hin : forall reason, given (add_bonus (tier_bonus s u t tier) s) u reason
                 = bool_decide (reward_reason tier = reason) || given s u reason).
  { intros reason. apply eq_true_iff_eq. unfold given. rewrite orb_true_iff, !exists_row_true.
    change (su_bonuses (add_bonus (tier_bonus s u t tier) s))
      with (<[fresh_id (su_bonuses s) := tier_bonus s u t tier]> (su_bonuses s)).
    setoid_rewrite lookup_insert. split.
    - intros (i & v & Hv & Hf). destruct (decide (fresh_id (su_bonuses s) = i)); [|right; eauto]. injection Hv as <-. left.
      by apply andb_true_iff in Hf as [_ ?].
    - intros [Hd|(i & v & Hv & Hf)].
      + exists (fresh_id (su_bonuses s)), (tier_bonus s u t tier). rewrite decide_True by done. split; [done|].
        cbn. rewrite N.eqb_refl. done.
      + exists i, v. split; [|exact Hf].
        destruct (decide (fresh_id (su_bonuses s) = i)) as [<-|]; [by rewrite fresh_id_None in Hv | done]. }
  cbn [fst snd]. split; [rewrite Hin; by rewrite bool_decide_eq_true_2|].
  split; [intros reason Hr; rewrite Hin, Hr; apply orb_true_r|]. split; [by eexists|]. done.
Qed.

Lemma grant_tiers_given u t l s :
  exists g, result (grant_tiers u t l) s = Ok g /\
    (forall reason, given s u reason = true -> given (final (grant_tiers u t l) s) u reason = true) /\
    (forall tier, tier ∈ l -> given (final (grant_tiers u t l) s) u (reward_reason tier) = true) /\
    let s1 := final (grant_tiers u t l) s in
    su_policy s1 = su_policy s /\ su_now s1 = su_now s /\ su_subscriptions s1 = su_subscriptions s /\
    su_orders s1 = su_orders s /\ su_roles s1 = su_roles s /\ su_userRoles s1 = su_userRoles s.
Proof.
  revert s. induction l as [|tier l IH]; intros s.
  { exists []. split; [done|]. split; [done|]. split; [intros ? ?; set_solver | done]. }
  cbn [grant_tiers]. destruct (grant_tier_final u t tier s) as (s1 & E1 & Hg & Hk & (g & Er) & E2 & E3 & E4 & E5 & E6 & E7).
  unfold result, final in *. rewrite run_bind. destruct (grant_tier u t tier s) as [r s1'] eqn:E. cbn in E1, Er. subst s1' r.
  destruct (IH s1) as (gs & Hr & Hk1 & Hin & F2 & F3 & F4 & F5 & F6 & F7). rewrite run_bind.
  destruct (grant_tiers u t l s1) as [r2 s2]. cbn in Hr, Hk1, Hin, F2, F3, F4, F5, F6, F7. subst r2.
  rewrite run_ret. eexists. split; [done|]. cbn [snd]. split; [by eauto|]. split.
  - intros x [->|Hx]%elem_of_cons; [by apply Hk1 | by apply Hin].
  - cbv zeta. repeat split; congruence.
Qed.

Lemma grant_tiers_nothing u t l s :
  (forall tier, tier ∈ l -> given s u (reward_reason tier) = true) -> grant_tiers u t l s = (Ok [], s).
Proof.
  induction l as [|tier l IH]; intros Hl; [done|]. cbn [grant_tiers].
  rewrite run_bind, grant_tier_run, Hl by set_solver. rewrite run_bind, IH by (intros; apply Hl; set_solver). done.
Qed.

Definition earned (p : SubscriptionPolicy) (s : sub_state) (u : uuid) : list DriverReward :=
  List.filter (reached (num_of_ratio false (paid_tenths s u) 10)) (driverRewards p).

Lemma grantEarned_run p s s1 u t :
  policy (getPolicy THIS_INSTANCE) s = (Ok p, s1) ->
  grantEarned u t s
  = if bool_decide (driverRewards p = []) || negb (has_role s1 u "DRIVER") then (Ok [], s1)
    else grant_tiers u t (earned p s1 u) s1.
Proof.
  intros E. unfold grantEarned. rewrite run_bind, (driver_rewards_run p s s1 E), run_bind. unfold get.
  destruct (_ || _); [done|]. by rewrite run_bind.
Qed.

(** Everything earned is there afterwards, and a second time there is nothing to give. *)
Lemma grantEarned_all s u t :
  exists p g s1, result (policy (getPolicy THIS_INSTANCE)) s = Ok p /\ grantEarned u t s = (Ok g, s1) /\
    (has_role s u "DRIVER" = true -> forall tier, tier ∈ driverRewards p ->
       reached (num_of_ratio false (paid_tenths s u) 10) tier = true -> given s1 u (reward_reason tier) = true) /\
    forall t2, grantEarned u t2 s1 = (Ok [], s1).
Proof.
  destruct (policy_settles s) as (p & s0 & E & E0 & Hset). exists p. unfold result at 1. rewrite E.
  assert (Erole : has_role s0 u "DRIVER" = has_role s u "DRIVER") by (by rewrite E0).
  assert (Epaid : paid_tenths s0 u = paid_tenths s u) by (by rewrite E0).
  rewrite (grantEarned_run p s s0 u t E).
  destruct (_ || _) eqn:Ed.
  { exists [], s0. split; [done|]. split; [done|]. split.
    - intros Hd tier Hin. apply orb_true_iff in Ed as [Ed%bool_decide_eq_true|Ed].
      + rewrite Ed in Hin. set_solver.
      + by rewrite Erole, Hd in Ed.
    - intros t2. rewrite (grantEarned_run p s0 s0 u t2 Hset). by rewrite Ed. }
  destruct (grant_tiers_given u t (earned p s0 u) s0) as (g & Hr & _ & Hin & E1 & E2 & E3 & E4 & E5 & E6).
  unfold result, final in *. destruct (grant_tiers u t (earned p s0 u) s0) as [r s1] eqn:Eg.
  cbn in *. subst r. exists g, s1. split; [done|]. split; [done|]. split.
  - intros _ tier Ht Hr. apply Hin. unfold earned. rewrite Epaid. apply list_elem_of_In, filter_In.
    split; [by apply list_elem_of_In | done].
  - intros t2. pose proof (policy_settled_ext p s0 s1 E1 E2 Hset) as Hset1.
    rewrite (grantEarned_run p s1 s1 u t2 Hset1). unfold has_role, roles_of, earned, paid_tenths in *.
    rewrite E5, E6, E3, E4, Ed. by apply grant_tiers_nothing.
Qed.
End Policy.
