(* ===== verification/PaymentProperties.v ===== *)
(** * What holds of the payments

    The properties of the orders, the receipts and the subscriptions, over every
    sequence of the services' steps, and a sample of each. *)

From S2P Require Import Prelude JsNumber JsString Json Effects Enums Phone.
From S2P Require Import SubscriptionPolicy SubscriptionData Receipts ReceiptReader Provisioning SubscriptionAccess.
From S2P Require Import SubscriptionFacts PaymentSystem AccessFacts.
From S2P Require Import SubscriptionPolicyFacts.

(** The next read of a computation: it fails there, or goes on in the same state. *)
Ltac read_case :=
  match goal with
  | |- context [(?m ≫= ?k) ?s] =>
      let G := fresh in
      assert (G : reads m) by (intros ?; unfold getOrThrow, existsTrackingCode; preserve);
      let e := fresh "e" in let x := fresh "x" in
      destruct (reads_cases m k s G) as [[e ->]|(x & _ & ->)]; clear G
  end.

(** ** A receipt leaves the queue *)

Section Queue.
  Context `{LocalZone} `{JsDate} `{ReceiptAnalyzer} (b : bool) (c : ReceiptConfig).

(** A receipt of the queue after one try: read, given up, or tried once more *)
Definition tried (max : Z) (r q : PaymentReceipt) : Prop :=
  re_status q = NeedsReview \/
  (re_status q = PendingAnalysis /\ re_analysisAttempts q = re_analysisAttempts r + 1).

Lemma released_tried max t r e :
  tried max r (released max (claimed t r) <| re_aiRawResult := e |>).
Proof.
  unfold tried. change (re_status _) with (if max <=? re_analysisAttempts r + 1 then NeedsReview else PendingAnalysis).
  destruct (_ <=? _); [by left | by right].
Qed.

Lemma release_run i e s r :
  su_receipts s !! i = Some r -> re_status r = Analyzing ->
  su_receipts (final (release i e) s) !! i
  = Some (released (maxAnalysisAttempts (su_config s)) r
            <| re_aiRawResult := Some (JObj [("error"%string, JStr (take 2000 (error_message e)))]) |>).
Proof.
  intros Hr Hs. unfold release. rewrite final_get_bind. unfold releaseFailedAnalysis, final, modify. cbn [snd].
  change (alter (fun r0 => if eqb (re_status r0) Analyzing
                    then released (maxAnalysisAttempts (su_config s)) r0
                           <| re_aiRawResult := Some (JObj [("error"%string, JStr (take 2000 (error_message e)))]) |>
                    else r0) i (su_receipts s) !! i = Some (released (maxAnalysisAttempts (su_config s)) r
            <| re_aiRawResult := Some (JObj [("error"%string, JStr (take 2000 (error_message e)))]) |>)).
  rewrite lookup_alter_eq, Hr. cbn [fmap option_fmap option_map]. by rewrite Hs.
Qed.

(** The write either fails and changes nothing or leaves the receipt to the admin. *)
Lemma analysis_write_cases r o a s :
  (exists e, analysis_write r o a s = (Err e, s)) \/
  (exists q s1, analysis_write r o a s = (Ok q, s1) /\ su_receipts s1 !! re_id r = Some q /\ re_status q = NeedsReview).
Proof.
  unfold analysis_write. rewrite run_bind. unfold get. cbv beta iota.
  read_case; [left; by eexists|]. read_case; [left; by eexists|]. read_case; [left; by eexists|].
  rewrite saveWithOrder_run. destruct (order_fits _); [|left; by eexists].
  destruct (receipt_fault _); [left; by eexists | right].
  eexists _, _. split; [done|]. split; [|done].
  apply lookup_insert_eq.
Qed.

Lemma process_step s i r :
  payments_ok b c s -> su_receipts s !! i = Some r -> re_status r = PendingAnalysis ->
  exists q, su_receipts (final (processReceipt i) s) !! i = Some q /\ tried (maxAnalysisAttempts c) r q.
Proof.
  intros Hs Hr Hp. pose proof (py_receipt_ids b c s Hs i r Hr) as Hid.
  unfold processReceipt, final. rewrite run_bind. unfold claimForAnalysis. rewrite run_bind. unfold get at 1.
  cbv beta iota. rewrite Hr, Hp. change (eqb PendingAnalysis PendingAnalysis) with true. cbv iota.
  rewrite run_bind. unfold modify at 1. cbv beta iota. rewrite run_ret.
  set (s1 := s <| su_receipts := <[i := claimed (su_now s) r]> (su_receipts s) |>).
  assert (Hr1 : su_receipts s1 !! i = Some (claimed (su_now s) r)) by apply lookup_insert_eq.
  assert (Hc : su_config s1 = c) by exact (py_config b c s Hs).
  cut (exists q, su_receipts (final (try_catch (analyzeReceipt i ≫= fun _ => mret tt) (release i)) s1) !! i = Some q /\
                 tried (maxAnalysisAttempts c) r q); [done|].
  assert (Hrel : forall e, exists q, su_receipts (final (release i e) s1) !! i = Some q /\ tried (maxAnalysisAttempts c) r q).
  { intros e. eexists. rewrite (release_run i e s1 _ Hr1) by done. rewrite Hc. split; [done|]. apply released_tried. }
  unfold try_catch, final. rewrite run_bind. unfold analyzeReceipt.
  destruct (reads_cases (analysis_read i) (fun read => match read with
     | inl receipt => mret receipt
     | inr (receipt, order) =>
         asked ← now; result ← of_outcome (analyze asked (re_analysisAttempts receipt) (re_imageUrl receipt));
         analysis_write receipt order result
     end) s1 (analysis_read_reads i)) as [[e ->]|([q|[q o]] & Hq & ->)]; [apply Hrel| |].
  - exfalso. revert Hq. unfold result, analysis_read, findReceipt. rewrite run_bind. unfold gets at 1.
    cbv beta iota. rewrite Hr1. cbn [some_or]. rewrite run_bind, run_ret. cbn [fst].
    change (eqb (re_status (claimed (su_now s) r)) Analyzing) with true. cbn [negb]. rewrite run_bind.
    unfold findOrder, gets. rewrite run_bind. by destruct (some_or _ _ _) as [[]].
  - apply analysis_read_inv in Hq as (Hq & _). rewrite Hr1 in Hq. injection Hq as <-.
    rewrite run_bind. unfold now, gets at 1. cbv beta iota. rewrite run_bind. unfold of_outcome. destruct (analyze _ _ _) as [a|e]; [|apply Hrel].
    destruct (analysis_write_cases (claimed (su_now s) r) o a s1) as [[e ->]|(q & s2 & -> & Hq & Hst)]; [apply Hrel|].
    exists q. change (re_id (claimed (su_now s) r)) with (re_id r) in Hq. rewrite Hid in Hq. split; [done | by left].
Qed.

(** It never throws. *)
Lemma process_answers s i : exists s1, processReceipt i s = (Ok tt, s1).
Proof.
  unfold processReceipt, claimForAnalysis. rewrite run_bind, run_bind. unfold get. cbv beta iota.
  destruct (su_receipts s !! i) as [r|]; [|by eexists]. destruct (eqb _ _); [|by eexists].
  rewrite run_bind. unfold modify at 1. cbv beta iota. rewrite run_ret. unfold try_catch.
  rewrite run_bind. destruct (analyzeReceipt i _) as [[x|e] s1]; [by eexists|].
  unfold release, releaseFailedAnalysis. by eexists.
Qed.

(** Once out of the queue, it is not taken up again. *)
Lemma process_done s i r :
  su_receipts s !! i = Some r -> re_status r <> PendingAnalysis -> processReceipt i s = (Ok tt, s).
Proof.
  intros Hr Hp. unfold processReceipt, claimForAnalysis. rewrite run_bind, run_bind. unfold get. cbv beta iota.
  rewrite Hr. destruct (eqb (re_status r) PendingAnalysis) eqn:E; [by apply eqb_eq in E | done].
Qed.

Lemma process_all_done n s i r :
  su_receipts s !! i = Some r -> re_status r <> PendingAnalysis ->
  final (for_each (repeat i n) processReceipt) s = s.
Proof.
  intros Hr Hp. induction n as [|n IH]; [done|]. unfold final in *. cbn [repeat for_each].
  by rewrite run_bind, (process_done s i r).
Qed.

Lemma process_until n s i r :
  payments_ok b c s -> su_receipts s !! i = Some r -> re_status r = PendingAnalysis ->
  maxAnalysisAttempts c - re_analysisAttempts r <= Z.of_nat n ->
  exists q, su_receipts (final (for_each (repeat i n) processReceipt) s) !! i = Some q /\ re_status q = NeedsReview.
Proof.
  revert s r. induction n as [|n IH]; intros s r Hs Hr Hp Hn.
  - pose proof (proj2 (py_attempts b c s Hs i r Hr) Hp). lia.
  - destruct (process_step s i r Hs Hr Hp) as (q & Hq & Ht).
    pose proof (processReceipt_ok b c i s Hs) as Hs1.
    assert (E : final (for_each (repeat i (S n)) processReceipt) s
                = final (for_each (repeat i n) processReceipt) (final (processReceipt i) s)).
    { unfold final. cbn [repeat for_each]. rewrite run_bind. by destruct (process_answers s i) as [s1 ->]. }
    rewrite E. destruct Ht as [Ht|[Ht Ha]].
    + exists q. rewrite (process_all_done n _ i q Hq) by congruence. done.
    + apply (IH _ q); [done..|lia].
Qed.
End Queue.

(** ** Properties *)

Section Properties.
  Context `{LocalZone} `{JsDate} `{ReceiptAnalyzer}.

(** C6: As long as approvals follow one another, no tracking code pays twice: whatever orders,
    receipts, analyses (also divided ones, with decisions in between), approvals, refusals
    and rewards happen, in any order, two different approved receipts never carry the same
    tracking code.  Of two approvals that overlap this is not said: [racing_approvals] is the
    case where both go through with one code. *)
Theorem no_code_twice (c : ReceiptConfig) (ops : list payment_op) (y : payment_system) (i j : uuid) (r q : PaymentReceipt)
    (Hy : system_ok false c y) (Hij : i <> j)
    (Hr : su_receipts (sy_state (run_payments ops y)) !! i = Some r)
    (Hq : su_receipts (sy_state (run_payments ops y)) !! j = Some q) :
  re_status r = ReceiptApproved -> re_status q = ReceiptApproved -> ~ same_code r q.
Proof.
  intros Ar Aq Hc. apply Hij.
  by eapply (py_codes false c _ (so_state false c _ (run_payments_ok false c ops y ltac:(done) Hy))).
Qed.

(** C9: An approval is refused by its first failing guard and then changes nothing at all; where
    no guard fails it answers with the buyer and the end of the days, and writes exactly
    the buyer (made when the messenger account and the number are unknown) and its role, the
    subscription from where the last one ends, the approved receipt and the approved order. *)
Theorem approve_answers (s : sub_state) (orderId receiptId adminUserId : uuid) :
  match approval_refusal s orderId receiptId with
  | Some e => approveOrder orderId receiptId adminUserId s = (Err e, s)
  | None => exists order receipt role plan expireAt,
      su_orders s !! orderId = Some order /\ su_receipts s !! receiptId = Some receipt /\
      payment_refusal s orderId receiptId = None /\
      active_role s (getRoleName (or_accountType order)) = Some role /\
      su_plans s !! or_subscriptionPlanId order = Some plan /\ the_end s order plan = Some expireAt /\
      approveOrder orderId receiptId adminUserId s
      = (Ok {| pr_userId := us_id (the_buyer s order); pr_username := us_username (the_buyer s order);
               pr_accountType := or_accountType order; pr_providerUserId := or_providerUserId order;
               pr_newUser := is_new s order; pr_subscriptionId := sb_id (new_subscription s order plan expireAt);
               pr_expireAt := expireAt |},
         approved_state s order receipt role plan expireAt adminUserId)
  end.
Proof. apply approveOrder_run. Qed.

(** C36: As long as approvals follow one another, paid days never overlap and free days never
    overlap: of the active subscriptions of one buyer, renewals included, each covers days no
    other one covers, and so does each of the rewards given to one driver, none of them given
    twice; however the services' steps follow each other.  Paid days and free days may share
    days, and so may the subscriptions of two approvals that overlap ([racing_approvals]). *)
Theorem days_never_overlap (c : ReceiptConfig) (ops : list payment_op) (y : payment_system) (Hy : system_ok false c y) :
  paid_apart (sy_state (run_payments ops y)) /\ rewards_apart (sy_state (run_payments ops y)).
Proof.
  pose proof (so_state false c _ (run_payments_ok false c ops y ltac:(done) Hy)) as Hs.
  split; [apply (py_apart _ _ _ Hs) | apply (py_rewards _ _ _ Hs)].
Qed.

Lemma approval_reads_inv s orderId receiptId p :
  result (approval_reads orderId receiptId) s = Ok p -> ap_startAt p = renewal_start s (buyer_id s (ap_buyer p)).
Proof.
  unfold result. intros Hp. pose proof (payment_of_run s orderId receiptId) as Hr.
  destruct (payment_refusal s orderId receiptId) as [e|].
  - unfold approval_reads in Hp. by rewrite run_bind, Hr in Hp.
  - destruct Hr as (order & receipt & _ & _ & Hr). pose proof (approval_reads_run s _ _ order receipt Hr) as Hd.
    destruct (first_refusal _) as [e|]; [by rewrite Hd in Hp|]. destruct Hd as (? & ? & ? & _ & _ & _ & Hd).
    rewrite Hd in Hp. injection Hp as <-. cbn [ap_startAt ap_buyer]. by rewrite buyer_id_the_buyer.
Qed.

(** Two approvals of different orders, both read before either writes, go through: no lock and no
    unique index stands between them.  Both receipts are approved with the codes they carry, be
    they one code, and the subscriptions of one buyer start at the same moment, the end of the
    days it had before. *)
Theorem racing_approvals (s : sub_state) (o1 o2 r1 r2 admin1 admin2 : uuid) (p1 p2 : approval) (u : UserRow)
    (Hp1 : result (approval_reads o1 r1) s = Ok p1) (Hp2 : result (approval_reads o2 r2) s = Ok p2)
    (Ho : or_id (ap_order p1) <> or_id (ap_order p2)) (Hr : re_id (ap_receipt p1) <> re_id (ap_receipt p2))
    (Hu1 : ap_buyer p1 = Some u) (Hu2 : ap_buyer p2 = Some u)
    (Hf1 : row_refusal (ap_order p1) (ap_receipt p1) = None) (Hf2 : row_refusal (ap_order p2) (ap_receipt p2) = None) :
  let s1 := final (approval_commit admin1 p1) s in
  let s2 := final (approval_commit admin2 p2) s1 in
  (exists a1 a2, result (approval_commit admin1 p1) s = Ok a1 /\ result (approval_commit admin2 p2) s1 = Ok a2) /\
  (forall p, p = p1 \/ p = p2 ->
     (exists q, su_receipts s2 !! re_id (ap_receipt p) = Some q /\ re_status q = ReceiptApproved /\
        re_trackingCode q = re_trackingCode (ap_receipt p)) /\
     (or_status <$> su_orders s2 !! or_id (ap_order p)) = Some OrderApproved) /\
  (exists i1 i2 b1 b2, i1 <> i2 /\ su_subscriptions s2 !! i1 = Some b1 /\ su_subscriptions s2 !! i2 = Some b2 /\
     (forall b, b = b1 \/ b = b2 -> sb_userId b = us_id u /\ sb_status b = SubActive /\
        sb_startAt b = renewal_start s (us_id u))).
Proof.
  cbv zeta. pose proof (approval_reads_inv _ _ _ _ Hp1) as S1. pose proof (approval_reads_inv _ _ _ _ Hp2) as S2.
  rewrite Hu1 in S1. rewrite Hu2 in S2. cbn [buyer_id] in S1, S2.
  assert (E1 : commit_fault s p1 = None) by (unfold commit_fault; by rewrite Hu1).
  assert (E2 : commit_fault (commit_state s p1 admin1) p2 = None) by (unfold commit_fault; by rewrite Hu2).
  unfold final, result. rewrite (approval_commit_run s p1), E1. cbn [fst snd].
  rewrite (approval_commit_run _ p2), E2. cbn [fst snd]. split; [by eexists _, _|]. split.
  - intros p [-> | ->]; (split; [eexists (approved_receipt _ _ _); split; [|split; reflexivity]|]); rewrite ?commit_receipts, ?commit_orders.
    + by rewrite lookup_insert_ne, lookup_insert_eq.
    + by rewrite lookup_insert_ne, lookup_insert_eq.
    + by rewrite lookup_insert_eq.
    + by rewrite lookup_insert_eq.
  - set (b1 := commit_subscription s p1). set (b2 := commit_subscription (commit_state s p1 admin1) p2).
    assert (Hne : sb_id b1 <> sb_id b2).
    { intros E. assert (Hs : su_subscriptions (commit_state s p1 admin1) !! sb_id b1 = Some b1) by (rewrite commit_subscriptions; apply lookup_insert_eq).
      rewrite E in Hs. change (sb_id b2) with (fresh_id (su_subscriptions (commit_state s p1 admin1))) in Hs. by rewrite fresh_id_None in Hs. }
    exists (sb_id b1), (sb_id b2), b1, b2. rewrite !commit_subscriptions. split; [done|].
    split; [by rewrite lookup_insert_ne, lookup_insert_eq|]. split; [by rewrite lookup_insert_eq|].
    intros b [-> | ->]; (split; [|split]); try done; unfold b1, b2, commit_subscription, commit_buyer; cbn; by rewrite ?Hu1, ?Hu2.
Qed.

(** Every subscription is paid: as long as no decision falls into a running analysis, an
    order has at most as many subscriptions as receipts an admin has decided on. *)
Theorem subscription_per_receipt (c : ReceiptConfig) (ops : list payment_op) (y : payment_system) (o : uuid)
    (Hy : system_ok true c y) (Hw : forallb whole ops = true) :
  (n_subscriptions (sy_state (run_payments ops y)) o <= n_decided (sy_state (run_payments ops y)) o)%nat.
Proof.
  by apply (py_paid true c _ (so_state true c _ (run_payments_ok true c ops y ltac:(done) Hy))).
Qed.

(** C33: Without that it is not: an analysis that finishes after the admin's decision writes the
    receipt and the order as it read them before, so that what was approved (or rejected)
    in between is under review again, with its subscription still there. *)
Theorem late_analysis_reopens (i : uuid) (r : PaymentReceipt) (o : SubscriptionOrder) (a : ReceiptAnalysisResult)
    (s : sub_state) (cardNo cardOwner : text)
    (Hno : rc_cardNo (su_config s) = Some cardNo) (Howner : rc_cardOwner (su_config s) = Some cardOwner)
    (Ho : order_fits o = true) (Hr : receipt_fault r = None) (Ha : analysis_fits a = true) :
  let s1 := final (finish_reading (i, r, o) (Ok a)) s in
  su_orders s1 !! or_id o = Some (o <| or_status := UnderReview |>) /\
  (exists q, su_receipts s1 !! re_id r = Some q /\ re_status q = NeedsReview /\ re_orderId q = or_id o) /\
  su_subscriptions s1 = su_subscriptions s.
Proof.
  assert (Hd : exists d, finish_reading (i, r, o) (Ok a) s
    = (Ok tt, put_receipt (put_order s (o <| or_status := UnderReview |>))
                ((read_row r o a cardNo cardOwner d (su_now s)) <| re_orderId := or_id o |>))).
  { unfold finish_reading, try_catch. rewrite run_bind. unfold of_outcome. rewrite run_bind.
    unfold analysis_write. rewrite run_bind. unfold get. cbv beta iota. rewrite Hno, Howner.
    unfold getOrThrow, some_or. rewrite run_bind, run_ret, run_bind, run_ret, run_bind.
    assert (Hrd : reads (match ra_trackingCode a with Some code => existsTrackingCode code (re_id r) | None => mret false end))
      by (intros ?; unfold existsTrackingCode; preserve).
    assert (Hok : exists d, (match ra_trackingCode a with Some code => existsTrackingCode code (re_id r) | None => mret false end) s
              = (Ok d, s)).
    { destruct (ra_trackingCode a) as [t|]; [|by eexists]. unfold existsTrackingCode, gets. destruct (is_empty t); by eexists. }
    destruct Hok as (d & ->). exists d. rewrite saveWithOrder_run.
    change (order_fits (o <| or_status := UnderReview |>)) with (order_fits o). rewrite Ho.
    by rewrite (read_row_fits r o a cardNo cardOwner d (su_now s) Ha Hr). }
  destruct Hd as (d & Hd). cbv zeta. unfold final. rewrite Hd. cbn [snd]. split; [apply lookup_insert_eq|].
  split; [|done]. eexists. split; [apply lookup_insert_eq | done].
Qed.

(** C34: A receipt does not stay in the queue: whatever the image reader answers, after as many
    tries as allowed at most it has been read or handed to the admin, and was never tried
    more often. *)
Theorem analysis_ends (b : bool) (c : ReceiptConfig) (n : nat) (s : sub_state) (i : uuid) (r : PaymentReceipt)
    (Hs : payments_ok b c s) (Hr : su_receipts s !! i = Some r) (Hp : re_status r = PendingAnalysis)
    (Hn : maxAnalysisAttempts c <= Z.of_nat n) :
  exists q, su_receipts (final (for_each (repeat i n) processReceipt) s) !! i = Some q /\
    re_status q = NeedsReview /\ re_analysisAttempts q <= maxAnalysisAttempts c.
Proof.
  pose proof (py_attempts b c s Hs i r Hr) as [Ha _].
  destruct (process_until b c n s i r Hs Hr Hp) as (q & Hq & Hst); [lia|].
  exists q. split; [done|]. split; [done|].
  assert (Hs1 : payments_ok b c (final (for_each (repeat i n) processReceipt) s)).
  { apply (preserves_for_each (payments_ok b c)); [|done]. intros j _. apply processReceipt_ok. }
  pose proof (py_attempts b c _ Hs1 i q Hq) as [? _]. lia.
Qed.

(** A driver gets every tier the purchases reach, once: giving never fails, afterwards every
    such tier has been given, and giving again, at any time, gives nothing. *)
Theorem rewards_once (s : sub_state) (u : uuid) (t : time) :
  exists p g s1, result (policy (getPolicy THIS_INSTANCE)) s = Ok p /\ grantEarned u t s = (Ok g, s1) /\
    (has_role s u "DRIVER" = true -> forall tier, tier ∈ driverRewards p ->
       reached (num_of_ratio false (paid_tenths s u) 10) tier = true -> given s1 u (reward_reason tier) = true) /\
    forall t2, grantEarned u t2 s1 = (Ok [], s1).
Proof. apply grantEarned_all. Qed.

(** Work is refused exactly to a user without a subscription in force, without a bonus in
    force, who is neither a parent company nor a factory, and who is a driver whose trial
    is over while drivers must pay, or another user while the policy requires it. *)
Theorem access_refused (s : sub_state) (u : uuid) (t : time) :
  exists p ac s1, result (policy (getPolicy THIS_INSTANCE)) s = Ok p /\ check u t s = (Ok ac, s1) /\
    (ac_allowed ac = false <->
       (forall i b, su_subscriptions s !! i = Some b -> sb_userId b = u -> sb_status b = SubActive ->
          ~ covers (sb_startAt b) (sb_expireAt b) (su_now s)) /\
       (forall i b, su_bonuses s !! i = Some b -> bo_userId b = u -> ~ covers (bo_startAt b) (bo_expireAt b) t) /\
       free_account s u = false /\
       (if is_driver s u
        then driversEnforced p = true /\ (forall e, trial_of p s u = Some e -> e <= t)
        else required_at p t = true)).
Proof.
  destruct (check_run s u t) as (p & ac & s1 & Hp & Hc & Hd). exists p, ac, s1. split; [done|]. split; [done|].
  assert (E : ac_allowed ac = fst (access_decision p s u t)) by (by rewrite <- Hd).
  rewrite E, access_decision_refused, active_subscription_None, active_until_None. done.
Qed.
End Properties.

(** *** Witnesses *)

#[local] Instance tehran : LocalZone := {| local_of t := t + 12600000; utc_of t := t - 12600000 |}.
#[local] Existing Instance rollout_only.

(** It reads the file's name as the tracking code, and cannot read «blurred». *)
#[local] Instance camera : ReceiptAnalyzer := {|
  analyze _ _ url :=
    if bool_decide (url = js "blurred") then Err (OtherError (js "unreadable"))
    else Ok (mkAnalysis (Some 1000000) (Some url) None None None (Some (js "603799******1234")) (Some (js "Ali Rad"))
               PaymentSuccess (num_of_Z 1) (JObj [])) |}.

Definition office_config : ReceiptConfig :=
  mkReceiptConfig (Some (js "6037991122331234")) (Some (js "Ali Rad")) (Some (js "2")) None.

Definition office : sub_state := {|
  su_now := 1000; su_config := office_config;
  su_plans := {[ 7%N := mkPlan 7%N (js "month") AccDriver 30 100000 "IRT"%string RecActive 1 ]};
  su_orders := ∅; su_receipts := ∅; su_subscriptions := ∅; su_bonuses := ∅; su_users := ∅;
  su_roles := {[ 1%N := mkRole 1%N "DRIVER"%string RecActive ]}; su_userRoles := ∅; su_links := [];
  su_policy := mkPolicyState 1000 true
    (Some (policy_json (mkPolicy true None true 30 DRIVER_TRIAL_ROLLOUT [mkReward 150000 7]))) true None ∅;
  su_announced := [] |}.

Definition opened : payment_system := mkSystem office [].

Lemma opened_ok b : system_ok b office_config opened.
Proof.
  by constructor; [constructor|].
Qed.

Definition a_driver : CreateSubscriptionOrderParams :=
  mkOrderParams ProvTelegram (js "77") (js "09121234567") AccDriver 7%N.
Definition sends (order : uuid) (url : text) : payment_op := SubmitReceipt (mkSubmit (Some order) None url None).

(** Two orders of one driver, each with its own receipt, and the reward they earn *)
Definition two_payments : list payment_op :=
  [CreateOrder a_driver; sends 1%N (js "A1"); ProcessReceipt 1%N; Approve 1%N 1%N 9%N;
   CreateOrder a_driver; sends 2%N (js "B2"); Sweep; ProcessReceipt 2%N; Approve 2%N 2%N 9%N; GrantRewards 1%N; Tick 5%N].

Definition paid : sub_state := sy_state (run_payments two_payments opened).

Definition receipt_at (i : uuid) (s : sub_state) : PaymentReceipt :=
  match su_receipts s !! i with Some r => r | None => new_receipt [] None 0 end.

Lemma no_code_twice_witness :
  re_status (receipt_at 1%N paid) = ReceiptApproved /\ re_status (receipt_at 2%N paid) = ReceiptApproved /\
  re_trackingCode (receipt_at 1%N paid) = Some (js "A1") /\ re_trackingCode (receipt_at 2%N paid) = Some (js "B2") /\
  ~ same_code (receipt_at 1%N paid) (receipt_at 2%N paid).
Proof.
  assert (E1 : re_status (receipt_at 1%N paid) = ReceiptApproved) by (vm_compute; reflexivity).
  assert (E2 : re_status (receipt_at 2%N paid) = ReceiptApproved) by (vm_compute; reflexivity).
  split; [exact E1|]. split; [exact E2|]. split; [vm_compute; reflexivity|]. split; [vm_compute; reflexivity|].
  refine (no_code_twice office_config two_payments opened 1%N 2%N _ _ (opened_ok false) _ _ _ E1 E2);
    [discriminate | vm_compute; reflexivity | vm_compute; reflexivity].
Defined.

Lemma days_never_overlap_witness :
  (paid_apart paid /\ rewards_apart paid) /\
  (sb_startAt <$> su_subscriptions paid !! 1%N) = Some 1000 /\
  (sb_startAt <$> su_subscriptions paid !! 2%N) = (sb_expireAt <$> su_subscriptions paid !! 1%N) /\
  (bo_startAt <$> su_bonuses paid !! 1%N) = (sb_expireAt <$> su_subscriptions paid !! 2%N).
Proof.
  split; [exact (days_never_overlap office_config two_payments opened (opened_ok false))|].
  split; [vm_compute; reflexivity|]. split; vm_compute; reflexivity.
Defined.

Lemma subscription_per_receipt_witness :
  (n_subscriptions paid 1%N <= n_decided paid 1%N)%nat /\ n_subscriptions paid 1%N = 1%nat.
Proof.
  split; [exact (subscription_per_receipt office_config two_payments opened 1%N (opened_ok true) eq_refl)|].
  vm_compute; reflexivity.
Defined.

(** An analysis of the receipt starts; the admin approves; the analysis finishes; the admin
    approves again: one receipt, two subscriptions. *)
Definition before_answer : list payment_op :=
  [CreateOrder a_driver; sends 1%N (js "A1"); StartReading 1%N; Approve 1%N 1%N 9%N].
Definition waiting : payment_system := run_payments before_answer opened.
Definition answer_A1 : ReceiptAnalysisResult :=
  mkAnalysis (Some 1000000) (Some (js "A1")) None None None None None PaymentSuccess (num_of_Z 1) (JObj []).
Definition held : reading :=
  match sy_reading waiting with p :: _ => p | [] => (0%N, new_receipt [] None 0, mkOrder 0%N ProvTelegram [] [] AccDriver 0%N 0 "" OrderApproved None None None None None 0) end.
Definition twice : sub_state :=
  sy_state (run_payments [FinishReading 0 (Ok answer_A1); Approve 1%N 1%N 9%N] waiting).

Lemma late_analysis_reopens_witness :
  (or_status <$> su_orders (sy_state waiting) !! 1%N) = Some OrderApproved /\
  su_orders (final (finish_reading held (Ok answer_A1)) (sy_state waiting)) !! 1%N
    = Some (held.2 <| or_status := UnderReview |>) /\
  n_subscriptions twice 1%N = 2%nat /\ n_decided twice 1%N = 1%nat.
Proof.
  split; [vm_compute; reflexivity|]. split; [|split; vm_compute; reflexivity].
  refine (proj1 (late_analysis_reopens held.1.1 held.1.2 held.2 answer_A1 (sy_state waiting) (js "6037991122331234") (js "Ali Rad")
                   _ _ _ _ _)); vm_compute; reflexivity.
Defined.

(** A receipt no one can read *)
Definition unreadable : sub_state :=
  sy_state (run_payments [CreateOrder a_driver; sends 1%N (js "blurred")] opened).

Lemma analysis_ends_witness :
  exists q, su_receipts (final (for_each (repeat 1%N 2) processReceipt) unreadable) !! 1%N = Some q /\
    re_status q = NeedsReview /\ re_analysisAttempts q <= 2.
Proof.
  refine (analysis_ends false office_config 2 unreadable 1%N (receipt_at 1%N unreadable) _ _ _ _).
  - exact (so_state false office_config _ (run_payments_ok false office_config _ opened ltac:(done) (opened_ok false))).
  - vm_compute; reflexivity.
  - vm_compute; reflexivity.
  - vm_compute; discriminate.
Defined.

(** Two orders of a driver paid with one code, approved by two admins at once *)
Definition before_race : sub_state :=
  sy_state (run_payments [CreateOrder a_driver; sends 1%N (js "A1"); ProcessReceipt 1%N; Approve 1%N 1%N 9%N;
    CreateOrder a_driver; sends 2%N (js "B2"); ProcessReceipt 2%N;
    CreateOrder a_driver; sends 3%N (js "B2"); ProcessReceipt 3%N] opened).
Definition read_of (i : uuid) : approval :=
  match result (approval_reads i i) before_race with
  | Ok p => p
  | Err _ => mkApproval held.2 (receipt_at i before_race) (mkRole 1%N "DRIVER"%string RecActive) None
               (mkPlan 7%N (js "month") AccDriver 30 100000 "IRT"%string RecActive 1) 0 0
  end.
Definition raced : sub_state := final (approval_commit 8%N (read_of 3%N)) (final (approval_commit 9%N (read_of 2%N)) before_race).

Lemma racing_approvals_witness :
  same_code (receipt_at 2%N raced) (receipt_at 3%N raced) /\
  re_status (receipt_at 2%N raced) = ReceiptApproved /\ re_status (receipt_at 3%N raced) = ReceiptApproved /\
  (exists i1 i2 b1 b2, i1 <> i2 /\ su_subscriptions raced !! i1 = Some b1 /\ su_subscriptions raced !! i2 = Some b2 /\
     (forall b, b = b1 \/ b = b2 -> sb_userId b = 1%N /\ sb_status b = SubActive /\
        Some (sb_startAt b) = (sb_expireAt <$> su_subscriptions before_race !! 1%N))).
Proof.
  split; [exists (js "B2"); split; [vm_compute; reflexivity|]; split; [vm_compute; reflexivity | discriminate]|]. split; [vm_compute; reflexivity|]. split; [vm_compute; reflexivity|].
  assert (Hu : exists u, ap_buyer (read_of 2%N) = Some u /\ us_id u = 1%N /\
    Some (renewal_start before_race (us_id u)) = (sb_expireAt <$> su_subscriptions before_race !! 1%N))
    by (eexists; split; [vm_compute; reflexivity|]; split; vm_compute; reflexivity).
  destruct Hu as (u & Hu & Hi & He).
  destruct (racing_approvals before_race 2%N 3%N 2%N 3%N 9%N 8%N (read_of 2%N) (read_of 3%N) u) as (_ & _ & (i1 & i2 & b1 & b2 & Hne & Hb1 & Hb2 & Hb));
    [vm_compute; reflexivity | vm_compute; reflexivity | vm_compute; discriminate | vm_compute; discriminate
     | exact Hu | rewrite <- Hu; vm_compute; reflexivity | vm_compute; reflexivity | vm_compute; reflexivity |].
  exists i1, i2, b1, b2. split; [exact Hne|]. split; [exact Hb1|]. split; [exact Hb2|]. intros b Hbb.
  destruct (Hb b Hbb) as (E1 & E2 & E3). split; [rewrite E1; exact Hi|]. split; [exact E2|]. rewrite E3. exact He.
Defined.
