(* ===== verification/CompanyFeatures.v ===== *)
(** * The menus of a company

    [src/services/company/companyFeature.service.ts] with its entities and
    [src/domain/enums/companyFeature.ts]: a transport company buys menus one by one or
    in a tier, an admin approves the receipt, and each menu is open for the days
    bought; which menus are locked is one answer for every channel. *)

From S2P Require Import Prelude JsNumber JsString Json Effects Enums.

(** ** Menus and tiers *)

Inductive CompanyFeature :=
| Suggestions | CreateLoad | PublishedLoads | DriverRequests | Trips | Drivers | Channels | Agent | Factories.

Inductive CompanyTier := Bronze | Silver | Gold.

#[export] Instance CompanyFeature_eq_dec : EqDecision CompanyFeature.
Proof. solve_decision. Defined.
#[export] Instance CompanyTier_eq_dec : EqDecision CompanyTier.
Proof. solve_decision. Defined.

(** [Object.values(CompanyFeature)] *)
Definition ALL_FEATURES : list CompanyFeature :=
  [Suggestions; CreateLoad; PublishedLoads; DriverRequests; Trips; Drivers; Channels; Agent; Factories].

Definition COMPANY_FEATURE_TITLES (f : CompanyFeature) : text :=
  js match f with
     | Suggestions => "پیشنهادها" | CreateLoad => "ثبت بار" | PublishedLoads => "بارهای منتشرشده"
     | DriverRequests => "درخواست‌ها" | Trips => "سفرها" | Drivers => "رانندگان" | Channels => "کانال‌ها"
     | Agent => "دستیار هوشمند" | Factories => "کارخانه‌ها"
     end%string.

Definition COMPANY_TIERS : list CompanyTier := [Bronze; Silver; Gold].

Definition COMPANY_TIER_TITLES (t : CompanyTier) : text :=
  js match t with Bronze => "برنزی" | Silver => "نقره‌ای" | Gold => "طلایی" end%string.

Definition TIER_MONTHS : list Z := [1; 3; 6; 12].

(** [undefined] for months that are not sold *)
Definition TIER_MONTH_DAYS (months : Z) : option Z :=
  if months =? 1 then Some 30 else if months =? 3 then Some 90
  else if months =? 6 then Some 180 else if months =? 12 then Some 365 else None.

Definition tierPeriodTitle (days : Z) : text :=
  match List.find (fun m => bool_decide (TIER_MONTH_DAYS m = Some days)) TIER_MONTHS with
  | Some m => if m =? 12 then js "۱ ساله" else fa_locale (Z.to_N m) ++ js " ماهه"
  | None => fa_locale (Z.to_N days) ++ js " روزه"
  end.

(** ** Rows *)

Record CompanyFeaturePlan := mkFeaturePlan {
  fp_id : uuid;
  fp_feature : CompanyFeature;
  fp_title : text;
  fp_durationDays : Z;
  fp_price : Z;
  fp_currency : string;
  fp_recordStatus : RecordStatus;
  fp_sortOrder : Z;
  fp_createdAt : time;
}.

Record TierOption := mkOption { to_months : Z; to_price : Z }.

Record CompanyTierPlan := mkTierPlan {
  tp_tier : CompanyTier;
  tp_features : list CompanyFeature;
  tp_options : list TierOption;
  tp_currency : string;
  tp_recordStatus : RecordStatus;
}.

Record CompanyFeatureOrder := mkFeatureOrder {
  fo_id : uuid;
  fo_userId : uuid;
  fo_planId : option uuid;
  fo_feature : option CompanyFeature;
  fo_tier : option CompanyTier;
  fo_features : option (list CompanyFeature);
  fo_durationDays : Z;
  fo_amount : Z;
  fo_currency : string;
  fo_status : SubscriptionOrderStatus;
  fo_receiptPath : text;
  fo_rejectionReason : option text;
  fo_reviewedBy : option uuid;
  fo_reviewedAt : option time;
  fo_createdAt : time;
}.

Record CompanyFeatureGrant := mkGrant {
  fg_id : uuid;
  fg_userId : uuid;
  fg_feature : CompanyFeature;
  fg_startAt : time;
  fg_expireAt : time;
  fg_orderId : option uuid;
  fg_grantedBy : option uuid;
}.

(** The columns of [User] the service reads, with its roles *)
Record CompanyUser := mkCompanyUser {
  cu_id : uuid;
  cu_isParentCompany : bool;
  cu_invitedByCompanyUserId : option uuid;
  cu_approved : bool;
  cu_roles : list (string * RecordStatus);
}.

(** [CompanyFeatureOrderEvent] *)
Inductive FeatureEvent :=
| FeatureReceipt (orderId userId : uuid) (title : text)
| FeatureDecided (orderId userId : uuid) (title : text) (expireAt : option time) (reason : option text).

Record feature_state := mkFeatures {
  fs_now : time;
  fs_menuPurchase : bool;
  fs_users : gmap uuid CompanyUser;
  fs_plans : gmap uuid CompanyFeaturePlan;
  fs_tiers : list CompanyTierPlan;
  fs_orders : gmap uuid CompanyFeatureOrder;
  fs_grants : gmap uuid CompanyFeatureGrant;
  fs_published : list FeatureEvent;
}.

Abbreviation FM := (M feature_state).

Definition DAY_MS : Z := 86400000.
(** Past this an instant is an [Invalid Date], which Postgres refuses. *)
Definition MAX_TIME : Z := 8640000000000000.
Definition INVALID_DATE : exn := QueryFailed "22007".

Definition COMPANY_ROLES : list string := ["COMPANY"; "COMPANY_ADMIN"]%string.

Definition isCompanyRole (roles : list string) : bool :=
  some_b (fun role => bool_decide (role ∈ COMPANY_ROLES)) roles.

Definition orderTitle (o : CompanyFeatureOrder) : text :=
  match fo_tier o with
  | Some tier => js "طرح " ++ COMPANY_TIER_TITLES tier ++ js " " ++ tierPeriodTitle (fo_durationDays o)
  | None => js "بخش «" ++ match fo_feature o with Some f => COMPANY_FEATURE_TITLES f | None => js "امکانات" end ++ js "»"
  end.

(** ** Access *)

Record Standing := mkStanding { isParent : bool; invited : bool; verified : bool }.

Definition standing (s : feature_state) (userId : uuid) : Standing :=
  match fs_users s !! userId with
  | Some u => mkStanding (cu_isParentCompany u)
                (negb (cu_isParentCompany u) && match cu_invitedByCompanyUserId u with Some _ => true | None => false end)
                (cu_approved u)
  | None => mkStanding false false true
  end.

Definition is_active_tier (p : CompanyTierPlan) : bool := eqb (tp_recordStatus p) RecActive.
Definition tier_row (tiers : list CompanyTierPlan) (tier : CompanyTier) : option CompanyTierPlan :=
  List.find (fun p => eqb (tp_tier p) tier) tiers.

(** The tiers on sale, cheapest first *)
Definition activeTiers (s : feature_state) : list CompanyTierPlan :=
  omap (tier_row (List.filter is_active_tier (fs_tiers s))) COMPANY_TIERS.

Definition is_active_plan (p : CompanyFeaturePlan) : bool := eqb (fp_recordStatus p) RecActive.
Definition activePlans (s : feature_state) : list CompanyFeaturePlan := find_rows is_active_plan (fs_plans s).

Definition has_feature (f : CompanyFeature) (l : list CompanyFeature) : bool := bool_decide (f ∈ l).

Definition paidFeatures (s : feature_state) : list CompanyFeature :=
  let paid := flat_map tp_features (activeTiers s) in
  dedup (if fs_menuPurchase s then paid ++ map fp_feature (activePlans s) else paid).

(** [openGrants]: a menu and the end of its periods, when one of them has started *)
Definition running_grants (s : feature_state) (userId : uuid) (now : time) : list CompanyFeatureGrant :=
  find_rows (fun g => (fg_userId g =? userId)%N && (now <? fg_expireAt g)) (fs_grants s).

Definition open_until (s : feature_state) (userId : uuid) (now : time) (f : CompanyFeature) : option time :=
  match List.filter (fun g => eqb (fg_feature g) f) (running_grants s userId now) with
  | [] => None
  | g :: gs =>
      if some_b (fun g => fg_startAt g <=? now) (g :: gs)
      then Some (latest (map fg_expireAt gs) (fg_expireAt g)) else None
  end.

Definition is_open (s : feature_state) (userId : uuid) (now : time) (f : CompanyFeature) : bool :=
  match open_until s userId now f with Some _ => true | None => false end.

Definition lockedFeatures (s : feature_state) (userId : uuid) (now : time) : list CompanyFeature :=
  let st := standing s userId in
  if isParent st then []
  else if negb (verified st) then ALL_FEATURES
  else
    let locked := if invited st then ALL_FEATURES else paidFeatures s in
    List.filter (fun f => negb (is_open s userId now f)) locked.

Definition hasFeature (s : feature_state) (userId : uuid) (f : CompanyFeature) (now : time) : bool :=
  negb (has_feature f (lockedFeatures s userId now)).

(** A menu on the purchase page *)
Record CompanyFeatureState := mkFeatureState {
  st_feature : CompanyFeature;
  st_paid : bool;
  st_locked : bool;
  st_expireAt : option time;
  st_plans : list uuid;
  st_tiers : list CompanyTier;
}.

(** The [features] of [status] *)
Definition feature_status (s : feature_state) (userId : uuid) (now : time) (f : CompanyFeature) : CompanyFeatureState :=
  let st := standing s userId in
  let own := List.filter (fun p => eqb (fp_feature p) f) (if fs_menuPurchase s then activePlans s else []) in
  let inTiers := map tp_tier (List.filter (fun t => has_feature f (tp_features t)) (activeTiers s)) in
  let paid := negb (Nat.eqb (length own) 0) || negb (Nat.eqb (length inTiers) 0) in
  let expireAt := open_until s userId now f in
  {| st_feature := f; st_paid := paid;
     st_locked := negb (isParent st)
                  && (negb (verified st)
                      || ((invited st || paid) && match expireAt with Some _ => false | None => true end));
     st_expireAt := expireAt; st_plans := map fp_id own; st_tiers := inTiers |}.

Definition status (s : feature_state) (userId : uuid) (now : time) : list CompanyFeatureState :=
  map (feature_status s userId now) ALL_FEATURES.

(** [currentTier]: the tier of the running period that ends last *)
Definition tier_of_grant (s : feature_state) (g : CompanyFeatureGrant) : option CompanyTier :=
  match fg_orderId g with Some id => match fs_orders s !! id with Some o => fo_tier o | None => None end | None => None end.
Definition tier_grants (s : feature_state) (userId : uuid) (now : time) : list (CompanyTier * time) :=
  omap (fun g => match tier_of_grant s g with Some t => Some (t, fg_expireAt g) | None => None end)
    (running_grants s userId now).
Definition later_tier (a b : CompanyTier * time) : CompanyTier * time := if a.2 <? b.2 then b else a.
Definition currentTier (s : feature_state) (userId : uuid) (now : time) : option (CompanyTier * time) :=
  match tier_grants s userId now with [] => None | x :: l => Some (foldl later_tier x l) end.

(** A tier on the purchase page, and the admin's list: every tier, on sale or not *)
Record CompanyTierState := mkTierState {
  ts_tier : CompanyTier;
  ts_title : text;
  ts_features : list (CompanyFeature * text);
  ts_options : list (Z * Z * text * Z);
  ts_currency : string;
}.

Definition option_view (o : TierOption) : option (Z * Z * text * Z) :=
  match TIER_MONTH_DAYS (to_months o) with
  | Some days => Some (to_months o, days, tierPeriodTitle days, to_price o)
  | None => None
  end.

Definition tierView (p : CompanyTierPlan) : CompanyTierState := {|
  ts_tier := tp_tier p; ts_title := COMPANY_TIER_TITLES (tp_tier p);
  ts_features := map (fun f => (f, COMPANY_FEATURE_TITLES f)) (tp_features p);
  ts_options := omap (fun m => List.find (fun o => to_months o =? m) (tp_options p) ≫= option_view) TIER_MONTHS;
  ts_currency := tp_currency p |}.

Definition listTiers (s : feature_state) : list (CompanyTierState * bool) :=
  map (fun p => (tierView p, is_active_tier p)) (omap (tier_row (fs_tiers s)) COMPANY_TIERS).

Definition setParent (userId : uuid) (parent : bool) : FM unit :=
  s ← get;
  user ← some_or (fs_users s !! userId) (notFound "شرکت حمل‌ونقلی با این شناسه پیدا نشد.");
  ensure (isCompanyRole (map fst (List.filter (fun r => eqb (snd r) RecActive) (cu_roles user))))
    (notFound "شرکت حمل‌ونقلی با این شناسه پیدا نشد.") ;;
  modify (fun s => s <| fs_users := <[userId := user <| cu_isParentCompany := parent |>]> (fs_users s) |>).

(** ** Plans *)

Record CreateFeaturePlanInput := mkPlanInput {
  pi_feature : CompanyFeature;
  pi_title : text;
  pi_durationDays : Z;
  pi_price : Z;
  pi_currency : option string;
  pi_sortOrder : option Z;
}.

(** The columns [title], [currency], [durationDays] and [price] *)
Definition plan_fits (input : CreateFeaturePlanInput) : bool :=
  fits_varchar 150 (pi_title input)
  && match pi_currency input with Some c => Nat.leb (String.length c) 10 | None => true end.
Definition plan_in_range (input : CreateFeaturePlanInput) : bool :=
  (Z.abs (pi_durationDays input) <? 2 ^ 31) && (Z.abs (pi_price input) <? 2 ^ 63)
  && match pi_sortOrder input with Some n => Z.abs n <? 2 ^ 31 | None => true end.

Definition createPlan (input : CreateFeaturePlanInput) : FM CompanyFeaturePlan :=
  ensure (plan_in_range input) (QueryFailed "22003") ;;
  ensure (plan_fits input) TOO_LONG ;;
  s ← get;
  let plan := {| fp_id := fresh_id (fs_plans s); fp_feature := pi_feature input; fp_title := pi_title input;
                 fp_durationDays := pi_durationDays input; fp_price := pi_price input;
                 fp_currency := match pi_currency input with Some c => c | None => "IRR" end;
                 fp_recordStatus := RecActive;
                 fp_sortOrder := match pi_sortOrder input with Some n => n | None => 0 end;
                 fp_createdAt := fs_now s |} in
  modify (fun s => s <| fs_plans := <[fp_id plan := plan]> (fs_plans s) |>) ;;
  mret plan.

Definition deactivatePlan (id : uuid) : FM uuid :=
  s ← get;
  plan ← some_or (match fs_plans s !! id with Some p => if is_active_plan p then Some p else None | None => None end)
           (notFound "پلن پیدا نشد.");
  modify (fun s => s <| fs_plans := <[id := plan <| fp_recordStatus := RecInactive |>]> (fs_plans s) |>) ;;
  mret id.

(** ** Tiers *)

Record UpdateTierInput := mkTierInput {
  ti_features : list CompanyFeature;
  ti_options : list TierOption;
  ti_currency : string;
  ti_active : bool;
}.

(** The menus in their own order; the periods that have a price, shortest first *)
Definition sold_features (input : UpdateTierInput) : list CompanyFeature :=
  List.filter (fun f => has_feature f (ti_features input)) ALL_FEATURES.
Definition option_for (months : Z) (options : list TierOption) : option TierOption :=
  List.find (fun o => to_months o =? months) options.
Definition sold_options (input : UpdateTierInput) : list TierOption :=
  List.filter (fun o => 0 <? to_price o) (omap (fun m => option_for m (ti_options input)) TIER_MONTHS).

Definition updateTier (tier : CompanyTier) (input : UpdateTierInput) : FM unit :=
  ensure (negb (ti_active input && (Nat.eqb (length (sold_features input)) 0 || Nat.eqb (length (sold_options input)) 0)))
    (badRequest "طرح فعال باید دست‌کم یک بخش و قیمت دست‌کم یک مدت را داشته باشد.") ;;
  s ← get;
  ensure (match tier_row (fs_tiers s) tier with Some _ => true | None => false end) (notFound "طرح پیدا نشد.") ;;
  modify (fun s => s <| fs_tiers := map (fun p => if eqb (tp_tier p) tier
                                               then {| tp_tier := tier; tp_features := sold_features input;
                                                       tp_options := sold_options input; tp_currency := ti_currency input;
                                                       tp_recordStatus := if ti_active input then RecActive else RecInactive |}
                                               else p) (fs_tiers s) |>).

(** ** Orders *)

(** [announce]: a failed publish is swallowed *)
Definition announce_event (e : FeatureEvent) : FM unit :=
  modify (fun s => s <| fs_published := fs_published s ++ [e] |>).

Definition save_feature_order (o : CompanyFeatureOrder) : FM CompanyFeatureOrder :=
  modify (fun s => s <| fs_orders := <[fo_id o := o]> (fs_orders s) |>) ;;
  mret o.

Definition waiting (o : CompanyFeatureOrder) : bool := eqb (fo_status o) ReceiptSubmitted.

Definition new_order (s : feature_state) (userId : uuid) (planId : option uuid) (feature : option CompanyFeature)
    (tier : option CompanyTier) (features : option (list CompanyFeature)) (days amount : Z) (currency : string)
    (receiptPath : text) : CompanyFeatureOrder := {|
  fo_id := fresh_id (fs_orders s); fo_userId := userId; fo_planId := planId; fo_feature := feature; fo_tier := tier;
  fo_features := features; fo_durationDays := days; fo_amount := amount; fo_currency := currency;
  fo_status := ReceiptSubmitted; fo_receiptPath := receiptPath; fo_rejectionReason := None; fo_reviewedBy := None;
  fo_reviewedAt := None; fo_createdAt := fs_now s |}.

Definition submitTierOrder (userId : uuid) (tier : CompanyTier) (months : Z) (receiptPath : text) : FM CompanyFeatureOrder :=
  s ← get;
  ensure (negb (isParent (standing s userId))) (badRequest "شرکت مادر همه‌ی بخش‌ها را بدون خرید دارد.") ;;
  plan ← some_or (tier_row (List.filter is_active_tier (fs_tiers s)) tier) (notFound "این طرح فعال نیست.");
  ensure (negb (Nat.eqb (length (tp_features plan)) 0)) (notFound "این طرح فعال نیست.") ;;
  option ← some_or (option_for months (tp_options plan)) (notFound "این طرح برای این مدت فروخته نمی‌شود.");
  match find_row (fun o => (fo_userId o =? userId)%N && match fo_tier o with Some _ => true | None => false end && waiting o)
          (fs_orders s) with
  | Some open => throw (Conflict (js "رسید قبلی شما برای " ++ orderTitle open ++ js " در حال بررسی است."))
  | None => mret tt
  end ;;
  days ← some_or (TIER_MONTH_DAYS months) (QueryFailed "23502");
  order ← save_feature_order (new_order s userId None None (Some tier) (Some (tp_features plan)) days (to_price option)
                                (tp_currency plan) receiptPath);
  announce_event (FeatureReceipt (fo_id order) (fo_userId order) (orderTitle order)) ;;
  mret order.

Definition submitOrder (userId planId : uuid) (receiptPath : text) : FM CompanyFeatureOrder :=
  s ← get;
  ensure (fs_menuPurchase s) (badRequest "خرید بخش‌به‌بخش فعلاً بسته است؛ یکی از طرح‌های برنزی، نقره‌ای یا طلایی را بخرید.") ;;
  ensure (negb (isParent (standing s userId))) (badRequest "شرکت مادر همه‌ی بخش‌ها را بدون خرید دارد.") ;;
  plan ← some_or (match fs_plans s !! planId with Some p => if is_active_plan p then Some p else None | None => None end)
           (notFound "این پلن فعال نیست.");
  ensure (negb (exists_row (fun o => (fo_userId o =? userId)%N && bool_decide (fo_feature o = Some (fp_feature plan)) && waiting o)
                  (fs_orders s)))
    (conflict "رسید قبلی شما برای همین بخش در حال بررسی است.") ;;
  order ← save_feature_order (new_order s userId (Some (fp_id plan)) (Some (fp_feature plan)) None None
                                (fp_durationDays plan) (fp_price plan) (fp_currency plan) receiptPath);
  announce_event (FeatureReceipt (fo_id order) (fo_userId order) (orderTitle order)) ;;
  mret order.

(** ** Grants *)

(** The end of the menu's last period still running, else now *)
Definition grant_start (s : feature_state) (userId : uuid) (f : CompanyFeature) (now : time) : time :=
  match map fg_expireAt (List.filter (fun g => eqb (fg_feature g) f) (running_grants s userId now)) with
  | [] => now
  | t :: ts => latest ts t
  end.

Definition addGrant (userId : uuid) (f : CompanyFeature) (days : Z) (now : time) (orderId grantedBy : option uuid) :
    FM CompanyFeatureGrant :=
  s ← get;
  let startAt := grant_start s userId f now in
  let expireAt := startAt + days * DAY_MS in
  ensure (Z.abs expireAt <=? MAX_TIME) INVALID_DATE ;;
  let g := {| fg_id := fresh_id (fs_grants s); fg_userId := userId; fg_feature := f; fg_startAt := startAt;
              fg_expireAt := expireAt; fg_orderId := orderId; fg_grantedBy := grantedBy |} in
  modify (fun s => s <| fs_grants := <[fg_id g := g]> (fs_grants s) |>) ;;
  mret g.

Definition grant (userId : uuid) (f : CompanyFeature) (days : Z) (adminUserId : uuid) (now : time) : FM CompanyFeatureGrant :=
  addGrant userId f days now None (Some adminUserId).

(** The menus an order opens *)
Definition order_features (o : CompanyFeatureOrder) : list CompanyFeature :=
  match fo_tier o with
  | Some _ => match fo_features o with Some l => l | None => [] end
  | None => match fo_feature o with Some f => [f] | None => [] end
  end.

Fixpoint addGrants (o : CompanyFeatureOrder) (features : list CompanyFeature) (adminUserId : uuid) (now : time) :
    FM (list CompanyFeatureGrant) :=
  match features with
  | [] => mret []
  | f :: features =>
      g ← addGrant (fo_userId o) f (fo_durationDays o) now (Some (fo_id o)) (Some adminUserId);
      gs ← addGrants o features adminUserId now;
      mret (g :: gs)
  end.

(** [grants.reduce(...)]: the first of those that end last *)
Definition later_grant (a b : CompanyFeatureGrant) : CompanyFeatureGrant :=
  if fg_expireAt a <? fg_expireAt b then b else a.

Definition decided_order (st : SubscriptionOrderStatus) (adminUserId : uuid) (now : time) (o : CompanyFeatureOrder) : CompanyFeatureOrder :=
  o <| fo_status := st |> <| fo_reviewedBy := Some adminUserId |> <| fo_reviewedAt := Some now |>.

Definition approveOrder (orderId adminUserId : uuid) (now : time) : FM (CompanyFeatureOrder * CompanyFeatureGrant) :=
  result ← transaction (
    s ← get;
    order ← some_or (fs_orders s !! orderId) (notFound "سفارش پیدا نشد.");
    ensure (waiting order) (conflict "این سفارش قبلاً بررسی شده است.") ;;
    grants ← addGrants order (order_features order) adminUserId now;
    match grants with
    | [] => throw (conflict "این سفارش هیچ بخشی ندارد.")
    | g :: gs =>
        save_feature_order (decided_order OrderApproved adminUserId now order) ;;
        mret (order, foldl later_grant g gs)
    end);
  let (order, last) := (result : CompanyFeatureOrder * CompanyFeatureGrant) in
  announce_event (FeatureDecided (fo_id order) (fo_userId order) (orderTitle order) (Some (fg_expireAt last)) None) ;;
  mret (order, last).

Definition rejectOrder (orderId adminUserId : uuid) (reason : text) (now : time) : FM uuid :=
  s ← get;
  order ← some_or (match fs_orders s !! orderId with Some o => if waiting o then Some o else None | None => None end)
            (conflict "سفارشی در انتظار بررسی با این شناسه نیست.");
  ensure (fits_varchar 500 reason) TOO_LONG ;;
  order ← save_feature_order ((decided_order OrderRejected adminUserId now order) <| fo_rejectionReason := Some reason |>);
  announce_event (FeatureDecided (fo_id order) (fo_userId order) (orderTitle order) None (Some reason)) ;;
  mret orderId.
