(* ===== verification/CompanyFeatureFacts.v ===== *)
(** * The menus of a company: what holds between the handlers *)

From S2P Require Import Prelude JsNumber JsString Json Effects Enums CompanyFeatures.

(** ** The invariant *)

Definition same_menu (g h : CompanyFeatureGrant) : Prop := fg_userId g = fg_userId h /\ fg_feature g = fg_feature h.

Definition is_tier_order (o : CompanyFeatureOrder) : bool := match fo_tier o with Some _ => true | None => false end.

Record features_ok (s : feature_state) : Prop := {
  ft_order_ids : forall i o, fs_orders s !! i = Some o -> fo_id o = i;
  ft_order_days : forall i o, fs_orders s !! i = Some o -> 0 < fo_durationDays o;
  ft_plan_days : forall i p, fs_plans s !! i = Some p -> 0 < fp_durationDays p;
  ft_one_waiting : forall i j o p, fs_orders s !! i = Some o -> fs_orders s !! j = Some p -> fo_userId o = fo_userId p ->
    is_tier_order o = true -> is_tier_order p = true -> waiting o = true -> waiting p = true -> i = j;
  ft_span : forall i g, fs_grants s !! i = Some g -> fg_startAt g < fg_expireAt g;
  ft_chain : forall i g, fs_grants s !! i = Some g ->
    fg_startAt g <= fs_now s \/
    exists j h, fs_grants s !! j = Some h /\ same_menu h g /\ fg_expireAt h = fg_startAt g;
  ft_apart : forall i j g h, i <> j -> fs_grants s !! i = Some g -> fs_grants s !! j = Some h -> same_menu g h ->
    fg_expireAt g <= fg_startAt h \/ fg_expireAt h <= fg_startAt g;
}.

Lemma features_ok_ext s s1 :
  fs_orders s1 = fs_orders s -> fs_plans s1 = fs_plans s -> fs_grants s1 = fs_grants s -> fs_now s <= fs_now s1 ->
  features_ok s -> features_ok s1.
Proof.
  intros E1 E2 E3 E4 []. constructor; intros *; rewrite ?E1, ?E2, ?E3; eauto.
  intros Hg. destruct (ft_chain0 i g Hg) as [|]; [left; lia | by right].
Qed.

(** ** Grants of a menu *)

Definition menu_grants (s : feature_state) (u : uuid) (now : time) (f : CompanyFeature) : list CompanyFeatureGrant :=
  List.filter (fun g => eqb (fg_feature g) f) (running_grants s u now).

Lemma elem_of_menu_grants s u now f g :
  g ∈ menu_grants s u now f <->
  (exists i, fs_grants s !! i = Some g) /\ fg_userId g = u /\ fg_feature g = f /\ now < fg_expireAt g.
Proof.
  unfold menu_grants, running_grants. rewrite list_elem_of_In, filter_In, <- list_elem_of_In, elem_of_find_rows.
  rewrite andb_true_iff, N.eqb_eq, Z.ltb_lt, eqb_true. naive_solver.
Qed.

(** The end of the running periods, or now *)
Lemma grant_start_spec s u f now :
  (grant_start s u f now = now \/
   exists i g, fs_grants s !! i = Some g /\ fg_userId g = u /\ fg_feature g = f /\ fg_expireAt g = grant_start s u f now) /\
  now <= grant_start s u f now /\
  (forall i g, fs_grants s !! i = Some g -> fg_userId g = u -> fg_feature g = f -> fg_expireAt g <= grant_start s u f now).
Proof.
  unfold grant_start. fold (menu_grants s u now f).
  assert (Hall : forall i g, fs_grants s !! i = Some g -> fg_userId g = u -> fg_feature g = f ->
            fg_expireAt g <= now \/ g ∈ menu_grants s u now f).
  { intros i g Hg Hu Hf. destruct (Z.leb_spec (fg_expireAt g) now); [by left|]. right.
    apply elem_of_menu_grants. repeat split; eauto. }
  assert (Hin : forall g, g ∈ menu_grants s u now f -> exists i, fs_grants s !! i = Some g /\ fg_userId g = u /\
            fg_feature g = f /\ now < fg_expireAt g).
  { intros g ((i & Hi) & ? & ? & ?)%elem_of_menu_grants. by exists i. }
  destruct (menu_grants s u now f) as [|x l].
  - cbn [map]. split; [by left|]. split; [lia|]. intros i g Hg Hu Hf. destruct (Hall i g Hg Hu Hf); [done | set_solver].
  - cbn [map]. split; [right|split].
    + destruct (latest_one (map fg_expireAt l) (fg_expireAt x)) as [E|E].
      * destruct (Hin x) as (i & ? & ? & ? & _); [set_solver|]. rewrite E. by exists i, x.
      * apply list_elem_of_fmap in E as (y & E & Hy). destruct (Hin y) as (i & ? & ? & ? & _); [set_solver|].
        rewrite E. by exists i, y.
    + destruct (Hin x) as (i & _ & _ & _ & ?); [set_solver|].
      pose proof (latest_base (map fg_expireAt l) (fg_expireAt x)). lia.
    + intros i g Hg Hu Hf. destruct (Hall i g Hg Hu Hf) as [|[->|Hl]%elem_of_cons].
      * destruct (Hin x) as (k & _ & _ & _ & ?); [set_solver|].
        pose proof (latest_base (map fg_expireAt l) (fg_expireAt x)). lia.
      * apply latest_base.
      * apply latest_in. by apply list_elem_of_fmap_2.
Qed.

Definition new_grant (s : feature_state) (u : uuid) (f : CompanyFeature) (days : Z) (now : time) (orderId by_ : option uuid) :
    CompanyFeatureGrant := {|
  fg_id := fresh_id (fs_grants s); fg_userId := u; fg_feature := f; fg_startAt := grant_start s u f now;
  fg_expireAt := grant_start s u f now + days * DAY_MS; fg_orderId := orderId; fg_grantedBy := by_ |}.

Definition put_grant (g : CompanyFeatureGrant) (s : feature_state) : feature_state :=
  s <| fs_grants := <[fg_id g := g]> (fs_grants s) |>.

Lemma addGrant_run s u f days now orderId by_ :
  addGrant u f days now orderId by_ s
  = if Z.abs (grant_start s u f now + days * DAY_MS) <=? MAX_TIME
    then (Ok (new_grant s u f days now orderId by_), put_grant (new_grant s u f days now orderId by_) s)
    else (Err INVALID_DATE, s).
Proof.
  unfold addGrant. rewrite run_bind. unfold get. cbv zeta. rewrite run_bind. by destruct (_ <=? _).
Qed.

Lemma put_grant_ok s u f days orderId by_ :
  features_ok s -> 0 < days -> features_ok (put_grant (new_grant s u f days (fs_now s) orderId by_) s).
Proof.
  intros [H1 H2 H3 H4 H5 H6 H7] Hd. set (g := new_grant s u f days (fs_now s) orderId by_).
  destruct (grant_start_spec s u f (fs_now s)) as (Hpred & Hge & Hall).
  assert (Hl : forall i h, fs_grants (put_grant g s) !! i = Some h ->
            (i = fg_id g /\ h = g) \/ (i <> fg_id g /\ fs_grants s !! i = Some h)).
  { intros i h. change (fs_grants (put_grant g s)) with (<[fg_id g := g]> (fs_grants s)).
    rewrite lookup_insert. case_decide; naive_solver. }
  assert (Hold : forall i h, fs_grants s !! i = Some h -> fs_grants (put_grant g s) !! i = Some h).
  { intros i h Hi. change (fs_grants (put_grant g s)) with (<[fg_id g := g]> (fs_grants s)).
    rewrite lookup_insert_ne; [done|]. intros E. rewrite <- E in Hi.
    change (fg_id g) with (fresh_id (fs_grants s)) in Hi. by rewrite fresh_id_None in Hi. }
  constructor; try done.
  - intros i h [[-> ->]|[_ Hi]]%Hl; [|by eapply H5].
    change (grant_start s u f (fs_now s) < grant_start s u f (fs_now s) + days * DAY_MS). unfold DAY_MS. lia.
  - intros i h [[-> ->]|[_ Hi]]%Hl.
    + destruct Hpred as [E|(j & h & Hj & Hu & Hf & E)].
      * left. change (grant_start s u f (fs_now s) <= fs_now s). lia.
      * right. exists j, h. split; [by apply Hold | by split].
    + destruct (H6 i h Hi) as [|(j & x & Hj & ? & ?)]; [by left|]. right. exists j, x. split; [by apply Hold | done].
  - intros i j x y Hij [[-> ->]|[_ Hi]]%Hl [[-> ->]|[_ Hj]]%Hl [Hu Hf]; [congruence| | |by apply (H7 i j)].
    + right. by apply (Hall j y Hj).
    + left. by apply (Hall i x Hi).
Qed.

(** ** Every handler *)

Inductive feature_op :=
| SetParent (userId : uuid) (parent : bool)
| CreatePlan (input : CreateFeaturePlanInput)
| DeactivatePlan (id : uuid)
| UpdateTier (tier : CompanyTier) (input : UpdateTierInput)
| SubmitTierOrder (userId : uuid) (tier : CompanyTier) (months : Z) (receiptPath : text)
| SubmitOrder (userId planId : uuid) (receiptPath : text)
| ApproveOrder (orderId adminUserId : uuid)
| RejectOrder (orderId adminUserId : uuid) (reason : text)
| Grant (userId : uuid) (f : CompanyFeature) (days : Z) (adminUserId : uuid)
| FeatureTick (ms : N).

(** What the requests' validation lets through *)
Definition op_valid (op : feature_op) : Prop :=
  match op with
  | CreatePlan input => 0 < pi_durationDays input
  | Grant _ _ days _ => 0 < days
  | _ => True
  end.

Definition exec_feature (op : feature_op) (s : feature_state) : feature_state :=
  match op with
  | SetParent u p => final (setParent u p) s
  | CreatePlan input => final (createPlan input) s
  | DeactivatePlan id => final (deactivatePlan id) s
  | UpdateTier t input => final (updateTier t input) s
  | SubmitTierOrder u t m r => final (submitTierOrder u t m r) s
  | SubmitOrder u p r => final (submitOrder u p r) s
  | ApproveOrder o a => final (approveOrder o a (fs_now s)) s
  | RejectOrder o a r => final (rejectOrder o a r (fs_now s)) s
  | Grant u f d a => final (grant u f d a (fs_now s)) s
  | FeatureTick ms => s <| fs_now := fs_now s + Z.of_N ms |>
  end.

Definition run_features (ops : list feature_op) (s : feature_state) : feature_state :=
  foldl (fun s op => exec_feature op s) s ops.

Abbreviation ok := (preserves features_ok).

Lemma modify_features_ok (f : feature_state -> feature_state) :
  (forall s, fs_orders (f s) = fs_orders s /\ fs_plans (f s) = fs_plans s /\ fs_grants (f s) = fs_grants s /\ fs_now (f s) = fs_now s) ->
  ok (modify f).
Proof.
  intros Hf s Hs. destruct (Hf s) as (E1 & E2 & E3 & E4). apply (features_ok_ext s); try done.
  change (fs_now s <= fs_now (f s)). lia.
Qed.

Lemma announce_ok e : ok (announce_event e).
Proof. by apply modify_features_ok. Qed.

(** An order that may be written *)
Definition order_write (s : feature_state) (o : CompanyFeatureOrder) : Prop :=
  0 < fo_durationDays o /\
  (is_tier_order o = true -> waiting o = true ->
   forall i p, fs_orders s !! i = Some p -> i <> fo_id o -> fo_userId p = fo_userId o -> is_tier_order p = true -> waiting p = false).

Lemma save_feature_order_ok o s : features_ok s -> order_write s o -> features_ok (final (save_feature_order o) s).
Proof.
  intros [H1 H2 H3 H4 H5 H6 H7] [Hd Hw].
  assert (Hl : forall i p, fs_orders (final (save_feature_order o) s) !! i = Some p ->
            (i = fo_id o /\ p = o) \/ (i <> fo_id o /\ fs_orders s !! i = Some p)).
  { intros i p. change (fs_orders (final (save_feature_order o) s)) with (<[fo_id o := o]> (fs_orders s)).
    rewrite lookup_insert. case_decide; naive_solver. }
  constructor; try done.
  - by intros i p [[-> ->]|[_ Hi]]%Hl; [|apply H1].
  - by intros i p [[-> ->]|[_ Hi]]%Hl; [|eapply H2].
  - intros i j p q [[-> ->]|[Hi0 Hi]]%Hl [[-> ->]|[Hj0 Hj]]%Hl Hu Tp Tq Wp Wq; [done| | |by eapply (H4 i j)].
    + by rewrite (Hw Tp Wp j q Hj Hj0 (eq_sym Hu) Tq) in Wq.
    + by rewrite (Hw Tq Wq i p Hi Hi0 Hu Tp) in Wp.
Qed.

(** A decided order waits no longer. *)
Lemma decided_order_write s i o st a now reason :
  features_ok s -> fs_orders s !! i = Some o -> st <> ReceiptSubmitted ->
  order_write s ((decided_order st a now o) <| fo_rejectionReason := reason |>).
Proof.
  intros Hs Hi Hst. split; [exact (ft_order_days s Hs i o Hi)|]. intros _ Hw.
  unfold waiting in Hw. apply eqb_eq in Hw. by destruct Hst.
Qed.

Lemma setParent_ok u p : ok (setParent u p).
Proof. unfold setParent. preserve. by apply modify_features_ok. Qed.

Lemma updateTier_ok t input : ok (updateTier t input).
Proof. unfold updateTier. preserve. by apply modify_features_ok. Qed.

Lemma write_plan_ok s i p : features_ok s -> 0 < fp_durationDays p ->
  features_ok (s <| fs_plans := <[i := p]> (fs_plans s) |>).
Proof.
  intros [H1 H2 H3 H4 H5 H6 H7] Hp. constructor; try done. intros j q.
  change (fs_plans (s <| fs_plans := <[i := p]> (fs_plans s) |>)) with (<[i := p]> (fs_plans s)).
  rewrite lookup_insert. case_decide; [by intros [= <-] | apply H3].
Qed.

Lemma createPlan_ok input : 0 < pi_durationDays input -> ok (createPlan input).
Proof.
  intros Hd s Hs. unfold createPlan.
  apply reads_bind; [intros ?; preserve | done|]. intros _ _.
  apply reads_bind; [intros ?; preserve | done|]. intros _ _.
  rewrite final_get_bind. cbv zeta. unfold final. rewrite run_bind.
  by apply write_plan_ok.
Qed.

Lemma deactivatePlan_ok id : ok (deactivatePlan id).
Proof.
  intros s Hs. unfold deactivatePlan. rewrite final_get_bind.
  destruct (fs_plans s !! id) as [p|] eqn:Ep; [|done]. destruct (is_active_plan p); [|done].
  apply reads_bind; [intros ?; preserve | done|]. intros q Hq. injection Hq as <-.
  unfold final. rewrite run_bind. apply write_plan_ok; [done|]. exact (ft_plan_days s Hs id p Ep).
Qed.

(** A computation that goes on after a save *)
Lemma after_save_ok {A} o (k : CompanyFeatureOrder -> FM A) s :
  (forall o, ok (k o)) -> features_ok s -> order_write s o -> features_ok (final (save_feature_order o ≫= k) s).
Proof.
  intros Hk Hs Hw. pose proof (save_feature_order_ok o s Hs Hw) as H1. unfold final in *. rewrite run_bind.
  destruct (save_feature_order o s) as [[p|e] s1]; [by apply Hk | done].
Qed.

Lemma submitted_order_ok {A} s o (k : CompanyFeatureOrder -> FeatureEvent) (r : CompanyFeatureOrder -> A) :
  features_ok s -> order_write s o ->
  features_ok (final (order ← save_feature_order o; announce_event (k order) ;; mret (r order)) s).
Proof.
  intros Hs Hw. apply after_save_ok; [|done|done]. intros p.
  apply preserves_bind; [apply announce_ok | intros; apply preserves_ret].
Qed.

Lemma tier_days_pos m d : TIER_MONTH_DAYS m = Some d -> 0 < d.
Proof. unfold TIER_MONTH_DAYS. repeat destruct (_ =? _); naive_solver lia. Qed.

Lemma submitTierOrder_ok u t m r : ok (submitTierOrder u t m r).
Proof.
  intros s Hs. unfold submitTierOrder. rewrite final_get_bind.
  apply reads_bind; [intros ?; preserve | done|]. intros _ _.
  apply reads_bind; [intros ?; preserve | done|]. intros plan _.
  apply reads_bind; [intros ?; preserve | done|]. intros _ _.
  apply reads_bind; [intros ?; preserve | done|]. intros opt _.
  destruct (find_row _ (fs_orders s)) as [o|] eqn:Ef; [done|].
  apply reads_bind; [intros ?; preserve | done|]. intros _ _.
  destruct (TIER_MONTH_DAYS m) as [days|] eqn:Ed; [|done].
  apply reads_bind; [intros ?; preserve | done|]. intros d Hd. injection Hd as <-.
  apply submitted_order_ok; [done|]. split; [by apply (tier_days_pos m)|]. intros _ _ i p Hi _ Hu Hp.
  pose proof (proj1 (find_row_None _ _) Ef i p Hi) as Hf. unfold is_tier_order in Hp.
  change (fo_userId p = u) in Hu. cbv beta in Hf. rewrite Hu, N.eqb_refl in Hf. by destruct (fo_tier p).
Qed.

Lemma submitOrder_ok u planId r : ok (submitOrder u planId r).
Proof.
  intros s Hs. unfold submitOrder. rewrite final_get_bind.
  apply reads_bind; [intros ?; preserve | done|]. intros _ _.
  apply reads_bind; [intros ?; preserve | done|]. intros _ _.
  destruct (fs_plans s !! planId) as [p|] eqn:Ep; [|done]. destruct (is_active_plan p); [|done].
  apply reads_bind; [intros ?; preserve | done|]. intros q Hq. injection Hq as <-.
  apply reads_bind; [intros ?; preserve | done|]. intros _ _.
  apply submitted_order_ok; [done|]. split; [exact (ft_plan_days s Hs planId p Ep) | done].
Qed.

Lemma reject_features_ok i a reason now : ok (rejectOrder i a reason now).
Proof.
  intros s Hs. unfold rejectOrder. rewrite final_get_bind.
  destruct (fs_orders s !! i) as [o|] eqn:Eo; [|done]. destruct (waiting o); [|done].
  apply reads_bind; [intros ?; preserve | done|]. intros q Hq. injection Hq as <-.
  apply reads_bind; [intros ?; preserve | done|]. intros _ _.
  apply submitted_order_ok; [done|]. by apply (decided_order_write s i o).
Qed.

Lemma addGrants_run o fs a s r s1 :
  features_ok s -> 0 < fo_durationDays o -> addGrants o fs a (fs_now s) s = (r, s1) ->
  features_ok s1 /\ fs_orders s1 = fs_orders s /\ fs_now s1 = fs_now s.
Proof.
  intros Hs Hd. revert s r s1 Hs. induction fs as [|f fs IH]; intros s r s1 Hs; cbn [addGrants].
  { by intros [= _ <-]. }
  rewrite run_bind, addGrant_run. destruct (_ <=? _); [|by intros [= _ <-]].
  rewrite run_bind.
  set (s0 := put_grant (new_grant s (fo_userId o) f (fo_durationDays o) (fs_now s) (Some (fo_id o)) (Some a)) s).
  change (fs_now s) with (fs_now s0).
  destruct (addGrants o fs a (fs_now s0) s0) as [r0 s2] eqn:E.
  apply IH in E as (H2 & H3 & H4); [|by apply put_grant_ok]. destruct r0; by intros [= _ <-].
Qed.

Lemma approve_features_ok i a s : features_ok s -> features_ok (final (approveOrder i a (fs_now s)) s).
Proof.
  intros Hs. unfold approveOrder, final. rewrite run_bind. unfold transaction. rewrite run_bind. unfold get.
  cbv beta iota. destruct (fs_orders s !! i) as [o|] eqn:Eo; [|done]. unfold some_or. rewrite run_bind, run_ret, run_bind.
  destruct (waiting o); [|done]. cbn [ensure]. rewrite run_ret, run_bind.
  destruct (addGrants o (order_features o) a (fs_now s) s) as [r s1] eqn:E.
  destruct (addGrants_run o _ a s r s1 Hs (ft_order_days s Hs i o Eo) E) as (H1 & H2 & H3).
  destruct r as [[|g gs]|e]; [done| |done]. rewrite run_bind.
  cut (features_ok (final (save_feature_order (decided_order OrderApproved a (fs_now s) o)) s1)).
  { intros Hok. by apply announce_ok. }
  apply save_feature_order_ok; [done|].
  assert (Eo1 : fs_orders s1 !! i = Some o) by (by rewrite H2).
  exact (decided_order_write s1 i o OrderApproved a (fs_now s) (fo_rejectionReason o) H1 Eo1 ltac:(done)).
Qed.

Lemma exec_feature_ok op s : op_valid op -> features_ok s -> features_ok (exec_feature op s).
Proof.
  intros Hv Hs. destruct op; cbn [exec_feature].
  - by apply setParent_ok.
  - by apply createPlan_ok.
  - by apply deactivatePlan_ok.
  - by apply updateTier_ok.
  - by apply submitTierOrder_ok.
  - by apply submitOrder_ok.
  - by apply approve_features_ok.
  - by apply reject_features_ok.
  - unfold grant, final. rewrite addGrant_run. destruct (_ <=? _); [by apply put_grant_ok | done].
  - apply (features_ok_ext s); try done. change (fs_now s <= fs_now s + Z.of_N ms). lia.
Qed.

Lemma run_features_ok ops s : Forall op_valid ops -> features_ok s -> features_ok (run_features ops s).
Proof.
  unfold run_features. revert s. induction ops as [|op ops IH]; intros s Hv Hs; [done|].
  inversion Hv; subst. apply IH; [done|]. by apply exec_feature_ok.
Qed.

(** ** What the menus of a company promise

    A menu bought stays open to the end it shows, an approval adds exactly the days of
    the order, the purchase page and the guards give one answer. *)

(** ** When a menu is open *)

Lemma open_until_Some s u now f e :
  open_until s u now f = Some e <->
  (exists i g, fs_grants s !! i = Some g /\ fg_userId g = u /\ fg_feature g = f /\ fg_expireAt g = e) /\
  (exists i g, fs_grants s !! i = Some g /\ fg_userId g = u /\ fg_feature g = f /\ fg_startAt g <= now /\ now < fg_expireAt g) /\
  (forall i g, fs_grants s !! i = Some g -> fg_userId g = u -> fg_feature g = f -> fg_expireAt g <= e).
Proof.
  unfold open_until. fold (menu_grants s u now f).
  assert (Hin : forall g, g ∈ menu_grants s u now f <-> exists i, fs_grants s !! i = Some g /\ fg_userId g = u /\
            fg_feature g = f /\ now < fg_expireAt g) by (intros g; rewrite elem_of_menu_grants; naive_solver).
  destruct (menu_grants s u now f) as [|x l].
  - split; [done|]. intros (_ & (i & g & ? & ? & ? & _ & ?) & _).
    assert (Hg : g ∈ @nil CompanyFeatureGrant) by (apply Hin; eauto 6). set_solver.
  - set (e0 := latest (map fg_expireAt l) (fg_expireAt x)).
    assert (He0 : exists g, g ∈ x :: l /\ fg_expireAt g = e0).
    { destruct (latest_one (map fg_expireAt l) (fg_expireAt x)) as [E|(y & E & Hy)%list_elem_of_fmap];
        [exists x | exists y]; (split; [set_solver | unfold e0; congruence]). }
    assert (Hmax : forall g, g ∈ x :: l -> fg_expireAt g <= e0).
    { intros g [->|Hg]%elem_of_cons; [apply latest_base | apply latest_in; by apply list_elem_of_fmap_2]. }
    assert (Hall : forall i g, fs_grants s !! i = Some g -> fg_userId g = u -> fg_feature g = f -> fg_expireAt g <= e0).
    { intros i g Hg Hu Hf. destruct (Z.leb_spec (fg_expireAt g) now).
      - destruct (proj1 (Hin x) ltac:(set_solver)) as (_ & _ & _ & _ & ?). specialize (Hmax x ltac:(set_solver)). lia.
      - apply Hmax, Hin. eauto. }
    destruct (some_b _ _) eqn:Es.
    + apply some_b_true in Es as (g & Hg & Hs%Z.leb_le). apply Hin in Hg as (i & Hi & Hu & Hf & He).
      destruct He0 as (y & (j & Hj & Hyu & Hyf & _)%Hin & Ey).
      split.
      * intros [= <-]. split; [by exists j, y|]. split; [by exists i, g | done].
      * intros ((k & h & Hk & Hku & Hkf & Ek) & _ & Hub). f_equal.
        specialize (Hall k h Hk Hku Hkf). specialize (Hub j y Hj Hyu Hyf). fold e0. lia.
    + split; [done|]. intros (_ & (i & g & Hi & Hu & Hf & Hs & He) & _).
      assert (Hg : g ∈ x :: l) by (apply Hin; eauto).
      pose proof (proj1 (some_b_false _ _) Es g Hg) as Hno%Z.leb_gt. lia.
Qed.

(** A period of the menu that runs at [t], found from one that ends later *)
Lemma running_before s u f t i g :
  features_ok s -> fs_now s <= t ->
  fs_grants s !! i = Some g -> fg_userId g = u -> fg_feature g = f -> t < fg_expireAt g ->
  exists j h, fs_grants s !! j = Some h /\ fg_userId h = u /\ fg_feature h = f /\ fg_startAt h <= t /\ t < fg_expireAt h.
Proof.
  intros Hs Ht. remember (Z.to_nat (fg_startAt g - t)) as n eqn:En. revert i g En.
  induction n as [n IH] using lt_wf_ind. intros i g -> Hi Hu Hf He.
  destruct (Z.leb_spec (fg_startAt g) t) as [Hle|Hgt]; [by exists i, g|].
  destruct (ft_chain s Hs i g Hi) as [|(j & h & Hj & [Hu1 Hf1] & E)]; [lia|].
  pose proof (ft_span s Hs j h Hj). apply (IH (Z.to_nat (fg_startAt h - t)) ltac:(lia) j h); try done; [congruence..|lia].
Qed.

(** In every state the handlers reach, a menu that is open with the end [e] stays
    open, with that end, at every later instant before [e], and is closed from [e] on:
    the periods bought for it follow one another without a gap, so the end the purchase
    page shows is the end the guards enforce. *)
Theorem menu_stays_open (s0 : feature_state) (ops : list feature_op) (u : uuid) (f : CompanyFeature) (e t : time) :
  features_ok s0 -> Forall op_valid ops ->
  open_until (run_features ops s0) u (fs_now (run_features ops s0)) f = Some e ->
  fs_now (run_features ops s0) <= t ->
  open_until (run_features ops s0) u t f = if t <? e then Some e else None.
Proof.
  intros H0 Hops. pose proof (run_features_ok ops s0 Hops H0) as Hs. set (s := run_features ops s0) in *.
  intros ((i & g & Hi & Hu & Hf & He) & _ & Hub)%open_until_Some Ht. destruct (Z.ltb_spec t e) as [Hlt|Hge].
  - apply open_until_Some. split; [by exists i, g|]. split; [|done].
    apply (running_before s u f t i g); try done. lia.
  - destruct (open_until s u t f) as [e'|] eqn:E; [|done]. exfalso.
    apply open_until_Some in E as (_ & (j & h & Hj & Hju & Hjf & _ & ?) & _).
    specialize (Hub j h Hj Hju Hjf). lia.
Qed.

(** ** What an approval opens *)

(** The end a new period starts at is the least bound of [now] and the ends so far. *)
Lemma grant_start_unique s u f now z :
  (z = now \/ exists i g, fs_grants s !! i = Some g /\ fg_userId g = u /\ fg_feature g = f /\ fg_expireAt g = z) ->
  now <= z ->
  (forall i g, fs_grants s !! i = Some g -> fg_userId g = u -> fg_feature g = f -> fg_expireAt g <= z) ->
  grant_start s u f now = z.
Proof.
  intros Hz Hn Hub. destruct (grant_start_spec s u f now) as (Hg & Hge & Hall).
  destruct Hz as [->|(i & g & Hi & Hu & Hf & <-)], Hg as [Eg|(j & h & Hj & Hju & Hjf & Eg)]; try lia.
  - specialize (Hub j h Hj Hju Hjf). lia.
  - specialize (Hall i g Hi Hu Hf). lia.
  - specialize (Hub j h Hj Hju Hjf). specialize (Hall i g Hi Hu Hf). lia.
Qed.

Lemma put_grant_lookup s g i h :
  fg_id g = fresh_id (fs_grants s) ->
  fs_grants (put_grant g s) !! i = Some h <-> (i = fg_id g /\ h = g) \/ fs_grants s !! i = Some h.
Proof.
  intros E. change (fs_grants (put_grant g s)) with (<[fg_id g := g]> (fs_grants s)).
  rewrite lookup_insert_Some. split; [naive_solver|]. intros [[-> ->]|Hi]; [by left|]. right. split; [|done].
  intros <-. rewrite E, fresh_id_None in Hi. done.
Qed.

(** One more period moves the end of its menu and of no other. *)
Lemma put_grant_start s u f days now o a u' f' :
  0 < days ->
  grant_start (put_grant (new_grant s u f days now o a) s) u' f' now
  = grant_start s u' f' now + (if decide (u' = u /\ f' = f) then days * DAY_MS else 0).
Proof.
  intros Hd. set (g := new_grant s u f days now o a).
  assert (Hl : forall i h, fs_grants (put_grant g s) !! i = Some h <-> (i = fg_id g /\ h = g) \/ fs_grants s !! i = Some h)
    by (intros; by apply put_grant_lookup).
  destruct (grant_start_spec s u' f' now) as (Hg & Hge & Hall).
  assert (Hms : 0 < days * DAY_MS) by (unfold DAY_MS; lia).
  apply grant_start_unique; destruct (decide (u' = u /\ f' = f)) as [[-> ->]|Hne]; try lia.
  - right. exists (fg_id g), g. split; [apply Hl; by left | done].
  - rewrite Z.add_0_r. destruct Hg as [|(i & h & Hi & ?)]; [by left|]. right. exists i, h. split; [apply Hl; by right | done].
  - intros i h [[-> ->]|Hi]%Hl Hu Hf; [done|]. specialize (Hall i h Hi Hu Hf). lia.
  - intros i h [[-> ->]|Hi]%Hl Hu Hf; [by destruct Hne | specialize (Hall i h Hi Hu Hf); lia].
Qed.

Definition times (f : CompanyFeature) (l : list CompanyFeature) : Z := Z.of_nat (count_occ CompanyFeature_eq_dec l f).

Lemma times_cons f g l : times f (g :: l) = (if decide (f = g) then 1 else 0) + times f l.
Proof.
  unfold times. cbn [count_occ]. destruct (CompanyFeature_eq_dec g f), (decide (f = g)); try congruence; lia.
Qed.

(** The periods of an order: each of its menus gets its days once per mention. *)
Lemma addGrants_opens o fs a now s :
  0 < fo_durationDays o -> 0 <= now ->
  (forall f, grant_start s (fo_userId o) f now + times f fs * (fo_durationDays o * DAY_MS) <= MAX_TIME) ->
  exists gs s1, addGrants o fs a now s = (Ok gs, s1) /\ length gs = length fs /\
    fs_orders s1 = fs_orders s /\ fs_published s1 = fs_published s /\
    forall u' f', grant_start s1 u' f' now
      = grant_start s u' f' now + if decide (u' = fo_userId o) then times f' fs * (fo_durationDays o * DAY_MS) else 0.
Proof.
  intros Hd Hn. set (d := fo_durationDays o * DAY_MS). assert (Hms : 0 < d) by (unfold d, DAY_MS; lia).
  revert s. induction fs as [|f fs IH]; intros s Hb.
  { exists [], s. do 4 (split; [done|]). intros u' f'. unfold times. cbn. case_decide; lia. }
  cbn [addGrants]. rewrite run_bind, addGrant_run. fold d.
  set (g := new_grant s (fo_userId o) f (fo_durationDays o) now (Some (fo_id o)) (Some a)).
  destruct (grant_start_spec s (fo_userId o) f now) as (_ & Hge & _).
  pose proof (Hb f) as Hbf. rewrite times_cons, decide_True in Hbf by done.
  assert (0 <= times f fs * d) by (unfold times; nia).
  destruct (Z.leb_spec (Z.abs (grant_start s (fo_userId o) f now + d)) MAX_TIME) as [_|Hbad]; [|exfalso; lia].
  assert (Hp : forall u' f', grant_start (put_grant g s) u' f' now
             = grant_start s u' f' now + (if decide (u' = fo_userId o /\ f' = f) then d else 0))
    by (intros; by apply put_grant_start).
  destruct (IH (put_grant g s)) as (gs & s1 & E & Hlen & Ho & Hpub & Hs1).
  { intros f'. rewrite Hp. specialize (Hb f'). rewrite times_cons in Hb.
    destruct (decide (f' = f)), (decide (_ /\ _)); intuition lia. }
  exists (g :: gs), s1. rewrite run_bind, E. split; [done|]. split; [cbn; lia|]. split; [done|]. split; [done|].
  intros u' f'. rewrite Hs1, Hp, times_cons.
  destruct (decide (u' = fo_userId o)), (decide (_ /\ _)), (decide (f' = f)); intuition lia.
Qed.

(** Approving a waiting order gives each of its menus exactly the days of the order
    from where the company's periods of that menu end (or from now), once per mention,
    and moves no other menu of any company; the order is decided, its announcement
    carries the end of a menu it opened, and a second approval is refused and
    changes nothing. *)
Theorem approval_opens (s : feature_state) (i a b : uuid) (o : CompanyFeatureOrder) (now later : time) :
  features_ok s -> fs_orders s !! i = Some o -> waiting o = true -> order_features o <> [] -> 0 <= now ->
  (forall f, grant_start s (fo_userId o) f now + times f (order_features o) * (fo_durationDays o * DAY_MS) <= MAX_TIME) ->
  exists g s1,
    approveOrder i a now s = (Ok (o, g), s1) /\
    (forall u' f', grant_start s1 u' f' now
      = grant_start s u' f' now
        + if decide (u' = fo_userId o) then times f' (order_features o) * (fo_durationDays o * DAY_MS) else 0) /\
    fs_orders s1 = <[i := decided_order OrderApproved a now o]> (fs_orders s) /\
    fs_published s1 = fs_published s ++
      [FeatureDecided i (fo_userId o) (orderTitle o) (Some (fg_expireAt g)) None] /\
    approveOrder i b later s1 = (Err (conflict "این سفارش قبلاً بررسی شده است."), s1).
Proof.
  intros Hs Hi Hw Hne Hn Hb.
  destruct (addGrants_opens o (order_features o) a now s (ft_order_days s Hs i o Hi) Hn Hb)
    as (gs & s0 & E & Hlen & Ho & Hp & Hg).
  destruct gs as [|g gs]; [by destruct (order_features o)|].
  set (o' := decided_order OrderApproved a now o).
  exists (foldl later_grant g gs), (s0 <| fs_orders := <[fo_id o' := o']> (fs_orders s0) |>
    <| fs_published := fs_published s0 ++
         [FeatureDecided (fo_id o') (fo_userId o') (orderTitle o') (Some (fg_expireAt (foldl later_grant g gs))) None] |>).
  assert (Eid : fo_id o' = i) by exact (ft_order_ids s Hs i o Hi).
  split; [|split; [exact Hg | split; [|split]]].
  - unfold approveOrder, transaction. rewrite run_bind. cbv beta. rewrite run_bind. unfold get. cbv beta iota.
    rewrite Hi. unfold some_or.
    rewrite run_bind, run_ret, run_bind, Hw. cbn [ensure]. rewrite run_ret, run_bind, E. done.
  - change (<[fo_id o' := o']> (fs_orders s0) = <[i := o']> (fs_orders s)). by rewrite Eid, Ho.
  - change (fs_published s0 ++ [FeatureDecided (fo_id o') (fo_userId o) (orderTitle o)
      (Some (fg_expireAt (foldl later_grant g gs))) None] = fs_published s ++
      [FeatureDecided i (fo_userId o) (orderTitle o) (Some (fg_expireAt (foldl later_grant g gs))) None]).
    by rewrite Eid, Hp.
  - unfold approveOrder, transaction. rewrite run_bind. cbv beta. rewrite run_bind. unfold get. cbv beta iota.
    match goal with |- context [fs_orders ?t !! i] => change (fs_orders t) with (<[fo_id o' := o']> (fs_orders s0)) end.
    by rewrite Eid, lookup_insert_eq.
Qed.

(** ** One answer for every channel *)

Lemma open_until_is_open s u now f :
  is_open s u now f = match open_until s u now f with Some _ => true | None => false end.
Proof. done. Qed.

Lemma has_feature_filter (p : CompanyFeature -> bool) f l :
  has_feature f (List.filter p l) = has_feature f l && p f.
Proof.
  unfold has_feature. apply eq_true_iff_eq. rewrite andb_true_iff, !bool_decide_spec.
  by rewrite list_elem_of_In, filter_In, <- list_elem_of_In.
Qed.

Lemma has_feature_all f : has_feature f ALL_FEATURES = true.
Proof. by destruct f; vm_compute. Qed.

Lemma nonempty_filter {A} (p : A -> bool) (l : list A) :
  negb (Nat.eqb (length (List.filter p l)) 0) = some_b p l.
Proof. unfold some_b. induction l as [|x l IH]; [done|]. cbn. by destruct (p x). Qed.

(** A menu is paid for when a tier or a plan on sale has it. *)
Lemma has_feature_paid s f :
  has_feature f (paidFeatures s)
  = some_b (fun p => eqb (fp_feature p) f) (if fs_menuPurchase s then activePlans s else [])
    || some_b (fun t => has_feature f (tp_features t)) (activeTiers s).
Proof.
  apply eq_true_iff_eq. rewrite orb_true_iff, !some_b_true. unfold has_feature, paidFeatures.
  rewrite bool_decide_spec, elem_of_dedup.
  assert (Ht : f ∈ flat_map tp_features (activeTiers s) <->
               exists t, t ∈ activeTiers s /\ bool_decide (f ∈ tp_features t) = true).
  { rewrite list_elem_of_In, in_flat_map. setoid_rewrite <- list_elem_of_In. by setoid_rewrite bool_decide_spec. }
  destruct (fs_menuPurchase s).
  - rewrite elem_of_app, Ht, list_elem_of_fmap. split.
    + intros [?|(p & -> & ?)]; [by right | left]. exists p. by rewrite eqb_true.
    + intros [(p & Hp & E)|?]; [right; exists p; by rewrite eqb_true in E | by left].
  - rewrite Ht. split; [by right|]. intros [(p & Hp & _)|?]; [set_solver | done].
Qed.

(** The purchase page and the guards agree: a menu is shown locked to a company
    exactly when it is one of [lockedFeatures], for a parent company, an invited one, an
    unverified one and any other, and so exactly when [hasFeature] refuses it. *)
Theorem status_agrees (s : feature_state) (u : uuid) (now : time) (f : CompanyFeature) :
  st_locked (feature_status s u now f) = has_feature f (lockedFeatures s u now) /\
  st_locked (feature_status s u now f) = negb (hasFeature s u f now).
Proof.
  unfold hasFeature. rewrite negb_involutive. cut (st_locked (feature_status s u now f) = has_feature f (lockedFeatures s u now)); [done|].
  unfold feature_status, lockedFeatures. cbn [st_locked]. destruct (isParent (standing s u)); [done|].
  destruct (verified (standing s u)); [|by rewrite has_feature_all]. cbn [negb andb orb].
  rewrite has_feature_filter, open_until_is_open.
  replace (negb match open_until s u now f with Some _ => true | None => false end)
    with match open_until s u now f with Some _ => false | None => true end by (by destruct open_until).
  f_equal. destruct (invited (standing s u)); [by rewrite has_feature_all|]. cbn [orb].
  rewrite has_feature_paid, length_map, !nonempty_filter. done.
Qed.

(** Whatever the handlers do, two periods of one menu of one company never overlap,
    so no day is paid for twice, and at most one tier order of a company waits for the
    admin. *)
Theorem menu_periods_apart (s0 : feature_state) (ops : list feature_op) :
  features_ok s0 -> Forall op_valid ops ->
  let s := run_features ops s0 in
  (forall i j g h t, i <> j -> fs_grants s !! i = Some g -> fs_grants s !! j = Some h ->
     fg_userId g = fg_userId h -> fg_feature g = fg_feature h ->
     ~ (fg_startAt g <= t < fg_expireAt g /\ fg_startAt h <= t < fg_expireAt h)) /\
  (forall i j o p, fs_orders s !! i = Some o -> fs_orders s !! j = Some p -> fo_userId o = fo_userId p ->
     fo_tier o <> None -> fo_tier p <> None -> waiting o = true -> waiting p = true -> i = j).
Proof.
  intros H0 Hops s. pose proof (run_features_ok ops s0 Hops H0) as Hs. fold s in Hs. split.
  - intros i j g h t Hij Hi Hj Hu Hf. destruct (ft_apart s Hs i j g h Hij Hi Hj (conj Hu Hf)); lia.
  - intros i j o p Hi Hj Hu To Tp Wo Wp. apply (ft_one_waiting s Hs i j o p Hi Hj Hu); try done; unfold is_tier_order.
    + by destruct (fo_tier o).
    + by destruct (fo_tier p).
Qed.

(** ** A company that buys the bronze tier twice *)

Definition sample_tier : CompanyTierPlan :=
  mkTierPlan Bronze [CreateLoad; Trips] [mkOption 1 5000000; mkOption 3 12000000] "IRR" RecActive.

Definition sample_features : feature_state := {|
  fs_now := 1700000000000; fs_menuPurchase := false;
  fs_users := {[ 1%N := mkCompanyUser 1 false None true [("COMPANY"%string, RecActive)] ]};
  fs_plans := ∅; fs_tiers := [sample_tier]; fs_orders := ∅; fs_grants := ∅; fs_published := [] |}.

Definition sample_ops : list feature_op :=
  [SubmitTierOrder 1 Bronze 1 []; ApproveOrder 1 9; FeatureTick 86400000; SubmitTierOrder 1 Bronze 3 []].

Lemma sample_features_ok : features_ok sample_features.
Proof.
  constructor; intros *;
    repeat first [rewrite (lookup_empty (M := gmap uuid) : forall i, fs_orders sample_features !! i = None)
                 | rewrite (lookup_empty (M := gmap uuid) : forall i, fs_plans sample_features !! i = None)
                 | rewrite (lookup_empty (M := gmap uuid) : forall i, fs_grants sample_features !! i = None)]; done.
Defined.

Lemma sample_ops_valid : Forall op_valid sample_ops.
Proof. repeat constructor. Defined.

Lemma menu_stays_open_witness :
  let s := run_features (sample_ops ++ [ApproveOrder 2 9]) sample_features in
  open_until s 1 (fs_now s + 119 * DAY_MS - 1) Trips = Some (fs_now s + 119 * DAY_MS) /\
  open_until s 1 (fs_now s + 119 * DAY_MS) Trips = None.
Proof.
  intros s. assert (Hs : Forall op_valid (sample_ops ++ [ApproveOrder 2 9])) by (repeat constructor).
  split; unfold s.
  - rewrite (menu_stays_open sample_features _ 1 Trips (1700000000000 + 120 * DAY_MS) _ sample_features_ok Hs);
      vm_compute; congruence.
  - rewrite (menu_stays_open sample_features _ 1 Trips (1700000000000 + 120 * DAY_MS) _ sample_features_ok Hs);
      vm_compute; congruence.
Defined.

Lemma approval_opens_witness :
  exists g s1, approveOrder 2 9 1700086400000 (run_features sample_ops sample_features)
    = (Ok (new_order (run_features (firstn 3 sample_ops) sample_features) 1 None None
             (Some Bronze) (Some [CreateLoad; Trips]) 90 12000000 "IRR" [], g), s1) /\
    grant_start s1 1 Trips 1700086400000 = 1700000000000 + 120 * DAY_MS.
Proof.
  destruct (approval_opens (run_features sample_ops sample_features) 2 9 9
    (new_order (run_features (firstn 3 sample_ops) sample_features) 1 None None
             (Some Bronze) (Some [CreateLoad; Trips]) 90 12000000 "IRR" []) 1700086400000 1700086400001)
    as (g & s1 & E & Hg & _).
  - apply run_features_ok; [exact sample_ops_valid | exact sample_features_ok].
  - vm_compute; reflexivity.
  - vm_compute; reflexivity.
  - done.
  - done.
  - intros f. destruct f; vm_compute; congruence.
  - exists g, s1. split; [exact E|]. rewrite Hg. vm_compute. reflexivity.
Defined.

Lemma menu_periods_apart_witness :
  let s := run_features (sample_ops ++ [ApproveOrder 2 9]) sample_features in
  (is_Some (fs_grants s !! 1%N) /\ is_Some (fs_grants s !! 3%N)) /\
  ~ exists g h t, fs_grants s !! 1%N = Some g /\ fs_grants s !! 3%N = Some h /\
    fg_userId g = fg_userId h /\ fg_feature g = fg_feature h /\
    (fg_startAt g <= t < fg_expireAt g /\ fg_startAt h <= t < fg_expireAt h).
Proof.
  intros s. split; [split; vm_compute; by eexists|]. intros (g & h & t & Hg & Hh & Hu & Hf & Ht). revert Hg Hh Hu Hf Ht.
  assert (Hs : Forall op_valid (sample_ops ++ [ApproveOrder 2 9])) by (repeat constructor).
  by apply (proj1 (menu_periods_apart sample_features _ sample_features_ok Hs)).
Defined.
