(* ===== verification/Accounts.v ===== *)
(** * Accounts

    [src/domain/entities/auth] with [UserRepository] and
    [src/services/auth/phoneAccount.service.ts]: the account of a phone number, its
    roles and what its tokens carry.  The tables of the invitations, of the drivers'
    profiles, of the companies' menus and of the brokers' access are part of the same
    database, so one state holds them all. *)

From S2P Require Import Prelude JsNumber JsString Json Effects Enums Phone DriverProfile BrokerAccess CompanyFeatures.

(** ** Rows *)

Inductive VerificationStatus := VerNone | VerPending | VerApproved | VerRejected.
Inductive CustomerType := CustPerson | CustCompany.

#[export] Instance VerificationStatus_eq_dec : EqDecision VerificationStatus.
Proof. solve_decision. Defined.
#[export] Instance CustomerType_eq_dec : EqDecision CustomerType.
Proof. solve_decision. Defined.

(** [User]: the columns the modelled services read or write *)
Record Account := mkAccount {
  a_id : uuid;
  a_username : text;
  a_mobile : option text;
  a_recordStatus : RecordStatus;
  a_profileType : option CustomerType;
  a_firstName : option text;
  a_lastName : option text;
  a_nationalCode : option text;
  a_companyName : option text;
  a_isParentCompany : bool;
  a_invitedByCompanyUserId : option uuid;
  a_passwordHash : option text;
  a_verificationStatus : VerificationStatus;
  a_verificationRequests : Z;
  a_verificationNote : option text;
  a_verificationRequestedAt : option time;
  a_verificationDecidedAt : option time;
  a_verificationDecidedBy : option uuid;
  a_companyNationalId : option text;
  a_licenseNo : option text;
  a_phone : option text;
  a_contactMobiles : option text;
  a_createdAt : time;
}.

(** The four tables of invitations have the same columns: [DriverInvite],
    [FactoryInvite], [CompanyInvite], [BrokerInvite]. *)
Inductive InviteKind := DriverKindInvite | FactoryKindInvite | CompanyKindInvite | BrokerKindInvite.

#[export] Instance InviteKind_eq_dec : EqDecision InviteKind.
Proof. solve_decision. Defined.

Record Invite := mkInvite {
  iv_id : uuid;
  iv_kind : InviteKind;
  iv_token : text;
  iv_inviter : uuid;
  iv_invitee : uuid;
  iv_mobile : text;
  iv_usedAt : option time;
  iv_usedByLink : bool;
  iv_direct : bool;
  iv_revokedAt : option time;
  iv_createdAt : time;
}.

(** [InviteUsedEvent], [AccountVerificationEvent], and the SMS of an invitation *)
Inductive AccountEvent :=
| InviteUsed (kind : InviteKind) (inviter invitee : uuid) (expired byLink : bool)
| VerificationRequested (userId : uuid) (name : text)
| VerificationDecided (userId : uuid) (name : text) (approved : bool) (reason : option text) (remaining : option Z)
| InviteSms (mobile path : text).

Record account_state := mkAccounts {
  ac_now : time;
  ac_nextId : uuid;
  ac_inviteHours : option Z;
  ac_driverVerification : bool;
  ac_roles : list RoleRow;
  ac_users : gmap uuid Account;
  ac_userRoles : list (uuid * string);
  ac_invites : gmap uuid Invite;
  ac_botLinks : list uuid;
  ac_whatsapp : list uuid;
  ac_profiles : gmap uuid DriverProfile;
  ac_members : list (uuid * uuid);
  ac_parentLogins : list text;
  ac_menus : feature_state;
  ac_broker : broker_state;
  ac_published : list AccountEvent;
}.

Abbreviation AM := (M account_state).

Definition forbidden (m : string) : exn := HttpError 403 (js m).
Definition UNIQUE_VIOLATION : exn := QueryFailed "23505".

(** ** Roles *)

(** The value of [AccountType] is the name of its role. *)
Definition account_role (t : AccountType) : string :=
  match t with AccDriver => "DRIVER" | AccCompany => "COMPANY" | AccBroker => "BROKER" | AccFactory => "FACTORY" end.

Definition role_active (s : account_state) (name : string) : bool :=
  some_b (fun r => String.eqb (role_name r) name && eqb (role_status r) RecActive) (ac_roles s).

(** [user.userRoles.map((item) => item.role?.name)] *)
Definition role_names (s : account_state) (userId : uuid) : list string :=
  map snd (List.filter (fun p => (p.1 =? userId)%N) (ac_userRoles s)).

(** [JwtPayload.roles]: the active ones *)
Definition active_roles (s : account_state) (userId : uuid) : list string :=
  List.filter (role_active s) (role_names s userId).

Record JwtPayload := mkPayload {
  jw_userId : uuid;
  jw_username : text;
  jw_roles : list string;
  jw_isActive : bool;
  jw_sid : option N;
  jw_multi : bool;
}.

Definition jwt_payload (s : account_state) (u : Account) : JwtPayload :=
  mkPayload (a_id u) (a_username u) (active_roles s (a_id u)) (eqb (a_recordStatus u) RecActive) None false.

(** ** [UserRepository] *)

Definition findById (s : account_state) (id : uuid) : option Account := ac_users s !! id.

(** [+98], [98], [0098] and the Persian digits an old row may hold *)
Definition mobile_forms (mobile : text) : list text :=
  let normalized := normalizePhoneNumber mobile in
  let national := drop 1 normalized in
  [normalized; js "+98" ++ national; js "98" ++ national; js "0098" ++ national; persian_digits normalized].

Definition findByMobile (s : account_state) (mobile : text) : option Account :=
  find_row (fun u => match a_mobile u with Some m => bool_decide (m ∈ mobile_forms mobile) | None => false end) (ac_users s).

(** [findOne({ where: { mobile } })] *)
Definition with_mobile (s : account_state) (mobile : text) : option Account :=
  find_row (fun u => bool_decide (a_mobile u = Some mobile)) (ac_users s).

(** The unique columns [username] and [mobile] *)
Definition account_clash (u v : Account) : bool :=
  negb (a_id u =? a_id v)%N
  && (bool_decide (a_username u = a_username v)
      || match a_mobile u with Some m => bool_decide (a_mobile v = Some m) | None => false end).

Definition put_account (u : Account) (s : account_state) : account_state :=
  s <| ac_users := <[a_id u := u]> (ac_users s) |>.

(** The widths of the columns the services fill *)
Definition account_fits (u : Account) : bool :=
  fits_varchar 100 (a_username u) && column_fits 20 (a_mobile u) && column_fits 100 (a_firstName u)
  && column_fits 100 (a_lastName u) && column_fits 200 (a_companyName u).

Definition save_account (u : Account) : AM Account :=
  ensure (account_fits u) TOO_LONG ;;
  s ← get;
  ensure (negb (exists_row (account_clash u) (ac_users s))) UNIQUE_VIOLATION ;;
  modify (put_account u) ;;
  mret u.

(** A new row with the columns' defaults; its id is generated. *)
Definition new_account (s : account_state) (username : text) : Account := {|
  a_id := ac_nextId s; a_username := username; a_mobile := Some username; a_recordStatus := RecActive;
  a_profileType := None; a_firstName := None; a_lastName := None; a_nationalCode := None; a_companyName := None;
  a_isParentCompany := false; a_invitedByCompanyUserId := None; a_passwordHash := None;
  a_verificationStatus := VerApproved; a_verificationRequests := 0; a_verificationNote := None;
  a_verificationRequestedAt := None; a_verificationDecidedAt := None; a_verificationDecidedBy := None;
  a_companyNationalId := None; a_licenseNo := None; a_phone := None; a_contactMobiles := None;
  a_createdAt := ac_now s |}.

Definition take_id : AM unit := modify (fun s => s <| ac_nextId := N.succ (ac_nextId s) |>).

Definition insert_account (u : Account) : AM Account := saved ← save_account u; take_id ;; mret saved.

Definition add_role (userId : uuid) (name : string) : AM unit :=
  modify (fun s => s <| ac_userRoles := ac_userRoles s ++ [(userId, name)] |>).

Definition role_not_found (name : string) : exn :=
  NotFound (js "Active role " ++ [34%N] ++ js name ++ [34%N] ++ js " not found").

Definition createWithRole (user : Account) (roleName : string) : AM Account :=
  transaction (
    s ← get;
    ensure (role_active s roleName) (role_not_found roleName) ;;
    saved ← insert_account user;
    add_role (a_id saved) roleName ;;
    mret saved).

Definition assignInitialRole (userId : uuid) (roleName : string) : AM unit :=
  transaction (
    s ← get;
    user ← some_or (match findById s userId with
                    | Some u => if eqb (a_recordStatus u) RecActive then Some u else None
                    | None => None end)
             (notFound "Active user not found.");
    match role_names s userId with
    | _ :: _ => mret tt
    | [] =>
        ensure (role_active s roleName) (role_not_found roleName) ;;
        add_role userId roleName
    end).

(** ** [PhoneAccountService] *)

Definition SELF_SERVICE_ACCOUNT_TYPES : list AccountType := [AccDriver; AccCompany; AccFactory; AccBroker].
Definition VERIFIED_ACCOUNT_TYPES : list AccountType := [AccCompany; AccFactory; AccBroker; AccDriver].
Definition LEGAL_ACCOUNT_TYPES : list AccountType := [AccCompany; AccFactory].

Definition is_type (t : AccountType) (l : list AccountType) : bool := bool_decide (t ∈ l).

Definition phone_account (s : account_state) (phone : text) (accountType : AccountType) : Account :=
  (new_account s phone)
    <| a_verificationStatus := if is_type accountType VERIFIED_ACCOUNT_TYPES then VerNone else VerApproved |>
    <| a_profileType := if is_type accountType LEGAL_ACCOUNT_TYPES then Some CustCompany else None |>.

(** [create]: made at the same moment by another request, that one is answered *)
Definition create (phone : text) (accountType : AccountType) : AM Account :=
  s ← get;
  try_catch (createWithRole (phone_account s phone accountType) (account_role accountType))
    (fun error =>
      if bool_decide (error = UNIQUE_VIOLATION) then
        s ← get;
        match findByMobile s phone with
        | Some existing => mret existing
        | None => throw (conflict "This phone number or username is already in use.")
        end
      else throw error).

Definition hasRole (s : account_state) (userId : uuid) : bool :=
  match findById s userId with Some _ => negb (Nat.eqb (length (active_roles s userId)) 0) | None => false end.

(** [user!] of a row just read again *)
Definition GONE : exn := OtherError (js "Cannot read properties of null").

Definition assignRole (userId : uuid) (accountType : AccountType) : AM Account :=
  assignInitialRole userId (account_role accountType) ;;
  s ← get;
  user ← some_or (findById s userId) GONE;
  let unchecked := is_type accountType VERIFIED_ACCOUNT_TYPES && eqb (a_verificationStatus user) VerApproved
                   && (a_verificationRequests user =? 0) in
  let legal := is_type accountType LEGAL_ACCOUNT_TYPES && negb (bool_decide (a_profileType user = Some CustCompany)) in
  let user1 := if unchecked then user <| a_verificationStatus := VerNone |> else user in
  let user2 := if legal then user1 <| a_profileType := Some CustCompany |> else user1 in
  if unchecked || legal then save_account user2 else mret user2.
