(* ===== verification/Invites.v ===== *)
(** * Invitations

    [src/services/company/inviteRules.ts] and [inviteUsage.ts]: how long an invitation
    waits for its number, who may invite an account that is there already, what a
    sign-in marks as used, what a number was invited as, and the sweep of the
    invitations nobody used ([inviteExpiryWorker.service.ts]); then the invitations a company,
    a broker and a factory make ([companyInvite], [brokerInvite], [factory.service.ts]), and the
    drivers a company invites or registers ([driverInvite.service.ts]). *)

From S2P Require Import Prelude JsNumber JsString Json Effects Enums Phone DriverProfile BrokerAccess CompanyFeatures Accounts.

Definition HOUR_MS : Z := 3600000.

(** [Number(env) || 24]: not set, not a number and zero give a day *)
Definition inviteExpiryHours (s : account_state) : Z :=
  match ac_inviteHours s with Some h => if h =? 0 then 24 else h | None => 24 end.

Definition isInviteExpired (s : account_state) (i : Invite) : bool :=
  is_null (iv_usedAt i) && (inviteExpiryHours s * HOUR_MS <? ac_now s - iv_createdAt i).

Definition inviteExpiresAt (s : account_state) (i : Invite) : option time :=
  match iv_usedAt i with Some _ => None | None => Some (iv_createdAt i + inviteExpiryHours s * HOUR_MS) end.

Definition isInviteWaiting (s : account_state) (i : Invite) : bool :=
  is_null (iv_revokedAt i) && is_null (iv_usedAt i) && negb (isInviteExpired s i).

(** The invitations of one kind for an account *)
Definition invites_of (s : account_state) (kind : InviteKind) (invitee : uuid) : list Invite :=
  find_rows (fun i => eqb (iv_kind i) kind && (iv_invitee i =? invitee)%N) (ac_invites s).

(** The account was made with the invitation: within a minute of it *)
Definition made_with (createdAt : time) (i : Invite) : bool := Z.abs (iv_createdAt i - createdAt) <? 60000.

Definition another_waits (s : account_state) (noun : text) : exn :=
  Conflict (js "این " ++ noun ++ js " را شرکت دیگری دعوت کرده است؛ اگر تا "
            ++ text_of_N (Z.to_N (inviteExpiryHours s)) ++ js " ساعت وارد نشود، می‌توانید دعوتش کنید.").
Definition came_alone (noun : text) : exn :=
  Conflict (js "این " ++ noun ++ js " خودش در ترابوت است و دعوت لازم ندارد.").

Definition assertInvitable (invites : list Invite) (inviterId : uuid) (accountCreatedAt : time) (noun : text) : AM unit :=
  s ← get;
  let waiting := List.filter (isInviteWaiting s) invites in
  if some_b (fun i => (iv_inviter i =? inviterId)%N) waiting then mret tt
  else
    ensure (Nat.eqb (length waiting) 0) (another_waits s noun) ;;
    if some_b (made_with accountCreatedAt) invites && negb (some_b (fun i => negb (is_null (iv_usedAt i))) invites)
    then mret tt
    else throw (came_alone noun).

(** [renewedInvite]: a row used again, with a new token and a new day *)
Definition renewed (s : account_state) (token : text) (i : Invite) : Invite :=
  i <| iv_token := token |> <| iv_createdAt := ac_now s |> <| iv_usedAt := None |> <| iv_revokedAt := None |>.

(** The unique rules of the tables: the token, and one row for a pair of inviter and
    invitee (for an invited company, one row in all) *)
Definition invite_clash (i j : Invite) : bool :=
  negb (iv_id i =? iv_id j)%N && eqb (iv_kind i) (iv_kind j)
  && (bool_decide (iv_token i = iv_token j)
      || (iv_invitee i =? iv_invitee j)%N
         && (eqb (iv_kind i) CompanyKindInvite || (iv_inviter i =? iv_inviter j)%N)).

Definition put_invite (i : Invite) (s : account_state) : account_state :=
  s <| ac_invites := <[iv_id i := i]> (ac_invites s) |>.

Definition save_invite (i : Invite) : AM Invite :=
  s ← get;
  ensure (negb (exists_row (invite_clash i) (ac_invites s))) UNIQUE_VIOLATION ;;
  modify (put_invite i) ;;
  mret i.

Definition new_invite (s : account_state) (kind : InviteKind) (inviter invitee : uuid) (mobile token : text) : Invite := {|
  iv_id := ac_nextId s; iv_kind := kind; iv_token := token; iv_inviter := inviter; iv_invitee := invitee;
  iv_mobile := mobile; iv_usedAt := None; iv_usedByLink := false; iv_direct := false; iv_revokedAt := None;
  iv_createdAt := ac_now s |}.

Definition insert_invite (kind : InviteKind) (inviter invitee : uuid) (mobile token : text) : AM Invite :=
  s ← get;
  saved ← save_invite (new_invite s kind inviter invitee mobile token);
  take_id ;;
  mret saved.

Definition publish_account (e : AccountEvent) : AM unit :=
  modify (fun s => s <| ac_published := ac_published s ++ [e] |>).

(** ** Used *)

Definition INVITES : list InviteKind := [DriverKindInvite; FactoryKindInvite; CompanyKindInvite; BrokerKindInvite].

Definition unused_for (kind : InviteKind) (mobile : text) (i : Invite) : bool :=
  eqb (iv_kind i) kind && bool_decide (iv_mobile i = mobile) && is_null (iv_usedAt i).

(** [UPDATE ... SET "usedAt" = now() WHERE mobile = $1 AND "usedAt" IS NULL RETURNING ...] *)
Definition mark_kind (mobile : text) (kind : InviteKind) : AM unit :=
  s ← get;
  let used := find_rows (unused_for kind mobile) (ac_invites s) in
  modify (fun s => s <| ac_invites :=
    (fun i => if unused_for kind mobile i then i <| iv_usedAt := Some (ac_now s) |> else i) <$> ac_invites s |>) ;;
  for_each used (fun i => publish_account (InviteUsed kind (iv_inviter i) (iv_invitee i) false false)).

Definition markInvitesUsed (mobile : option text) : AM unit :=
  match mobile with
  | None => mret tt
  | Some m => if is_empty m then mret tt else for_each INVITES (mark_kind m)
  end.

Definition INVITED_AS : list (InviteKind * AccountType) :=
  [(DriverKindInvite, AccDriver); (FactoryKindInvite, AccFactory); (CompanyKindInvite, AccCompany); (BrokerKindInvite, AccBroker)].

Definition invited_now (s : account_state) (mobile : text) (kind : InviteKind) : bool :=
  exists_row (fun i => eqb (iv_kind i) kind && bool_decide (iv_mobile i = mobile) && is_null (iv_revokedAt i)
                       && (ac_now s - inviteExpiryHours s * HOUR_MS <? iv_createdAt i)) (ac_invites s).

Definition invitedAccountTypes (s : account_state) (mobile : text) : list AccountType :=
  map snd (List.filter (fun p => invited_now s mobile p.1) INVITED_AS).

(** ** The sweep *)

(** What the invitation tied between the two is undone. *)
Definition untie (kind : InviteKind) (invitee inviter : uuid) (s : account_state) : account_state :=
  match kind with
  | DriverKindInvite =>
      s <| ac_profiles := alter (fun p => p <| dp_companyUserIds := List.filter (fun id => negb (id =? inviter)%N) (dp_companyUserIds p) |>)
                            invitee (ac_profiles s) |>
  | FactoryKindInvite =>
      s <| ac_members := List.filter (fun m => negb ((m.1 =? invitee)%N && (m.2 =? inviter)%N)) (ac_members s) |>
  | CompanyKindInvite =>
      s <| ac_users := alter (fun u => if bool_decide (a_invitedByCompanyUserId u = Some inviter)
                                       then u <| a_invitedByCompanyUserId := None |> else u) invitee (ac_users s) |>
  | BrokerKindInvite => s <| ac_broker := final (dropCompany invitee inviter) (ac_broker s) |>
  end.

(** [DELETE FROM "User"]: what belongs to the account goes with it ([ON DELETE CASCADE]) *)
Definition owns_invite (id : uuid) (i : Invite) : bool := (iv_inviter i =? id)%N || (iv_invitee i =? id)%N.

Definition delete_menus (id : uuid) (f : feature_state) : feature_state :=
  f <| fs_orders := base.filter (fun p => fo_userId p.2 <> id) (fs_orders f) |>
    <| fs_grants := base.filter (fun p => fg_userId p.2 <> id) (fs_grants f) |>.

Definition delete_broker (id : uuid) (b : broker_state) : broker_state :=
  b <| bs_periods := base.filter (fun p => per_userId p.2 <> id) (bs_periods b) |>
    <| bs_orders := base.filter (fun p => ord_userId p.2 <> id) (bs_orders b) |>
    <| bs_credits := delete id (bs_credits b) |>.

Definition forget_inviter (id : uuid) (u : Account) : Account :=
  if bool_decide (a_invitedByCompanyUserId u = Some id) then u <| a_invitedByCompanyUserId := None |> else u.

Definition delete_account (id : uuid) (s : account_state) : account_state :=
  s <| ac_users := forget_inviter id <$> delete id (ac_users s) |>
    <| ac_userRoles := List.filter (fun p => negb (p.1 =? id)%N) (ac_userRoles s) |>
    <| ac_invites := base.filter (fun p => owns_invite id p.2 = false) (ac_invites s) |>
    <| ac_profiles := delete id (ac_profiles s) |>
    <| ac_members := List.filter (fun m => negb ((m.1 =? id)%N || (m.2 =? id)%N)) (ac_members s) |>
    <| ac_menus := delete_menus id (ac_menus s) |>
    <| ac_broker := delete_broker id (ac_broker s) |>.

(** The account the invitation made, nobody came in with, and no invitation waits for *)
Definition made_within (createdAt : time) (i : Invite) : bool :=
  (createdAt - 60000 <=? iv_createdAt i) && (iv_createdAt i <=? createdAt + 60000).

Definition disposable (s : account_state) (i : Invite) : bool :=
  match ac_users s !! iv_invitee i with
  | None => false
  | Some u =>
      made_within (a_createdAt u) i
      && negb (some_b (fun j => negb (is_null (iv_usedAt j)) || is_null (iv_revokedAt j)) (invites_of s (iv_kind i) (iv_invitee i)))
      && negb (bool_decide (iv_invitee i ∈ ac_botLinks s)) && negb (bool_decide (iv_invitee i ∈ ac_whatsapp s))
  end.

Definition stale (s : account_state) (kind : InviteKind) (i : Invite) : bool :=
  eqb (iv_kind i) kind && is_null (iv_usedAt i) && is_null (iv_revokedAt i)
  && (iv_createdAt i <? ac_now s - inviteExpiryHours s * HOUR_MS).

(** One invitation of the sweep, in a transaction of its own; it may have been used or
    deleted since it was listed *)
Definition revoke_one (id : uuid) : AM (option Invite) :=
  transaction (
    s ← get;
    match ac_invites s !! id with
    | Some i =>
        if is_null (iv_usedAt i) && is_null (iv_revokedAt i) then
          let revoked := i <| iv_revokedAt := Some (ac_now s) |> in
          modify (put_invite revoked) ;;
          modify (untie (iv_kind i) (iv_invitee i) (iv_inviter i)) ;;
          s ← get;
          when (disposable s revoked) (modify (delete_account (iv_invitee i))) ;;
          mret (Some revoked)
        else mret None
    | None => mret None
    end).

Definition expire_one (id : uuid) : AM unit :=
  gone ← revoke_one id;
  match gone with
  | Some i => publish_account (InviteUsed (iv_kind i) (iv_inviter i) (iv_invitee i) true false)
  | None => mret tt
  end.

Definition expire_kind (kind : InviteKind) : AM unit :=
  s ← get;
  for_each (map iv_id (find_rows (stale s kind) (ac_invites s))) expire_one.

Definition expireStaleInvites : AM unit := for_each INVITES expire_kind.

(** ** Who invites whom

    [src/services/company/companyInvite.service.ts] (a parent company invites transport
    companies), [brokerInvite.service.ts], [factory.service.ts] (the invitations of a
    company) and [driverInvite.service.ts]: the account of an invited number is made at
    once, a link lets only that number in.  A random token is an argument of the
    handler that draws it. *)

(** ** Shared steps *)

(** The menus as [CompanyFeatureService] sees them: its tables with the rows of [User] *)
Definition company_user (s : account_state) (u : Account) : CompanyUser :=
  mkCompanyUser (a_id u) (a_isParentCompany u) (a_invitedByCompanyUserId u) (eqb (a_verificationStatus u) VerApproved)
    (map (fun name => (name, if role_active s name then RecActive else RecInactive)) (role_names s (a_id u))).

Definition menus (s : account_state) : feature_state :=
  (ac_menus s) <| fs_now := ac_now s |> <| fs_users := company_user s <$> ac_users s |>.

Definition is_parent (s : account_state) (userId : uuid) : bool := isParent (standing (menus s) userId).

Definition has_menu (s : account_state) (userId : uuid) (f : CompanyFeature) : bool :=
  hasFeature (menus s) userId f (ac_now s).

(** [normalizePhoneNumber] and [/^09[0-9]{9}$/] *)
Definition read_mobile (input : text) : AM text :=
  let mobile := normalizePhoneNumber input in
  ensure (is_mobile mobile) (badRequest "شماره موبایل معتبر نیست؛ مثلاً 09121234567.") ;;
  mret mobile.

(** [name?.trim() || null] *)
Definition read_name (name : option text) : option text :=
  match name with Some t => if is_empty (trim t) then None else Some (trim t) | None => None end.

Definition with_company_name (name : option text) (u : Account) : Account :=
  match name with
  | Some n => u <| a_companyName := Some n |> <| a_profileType := Some CustCompany |>
  | None => u
  end.

(** The row found with the number, or a new one *)
Definition save_or_insert (s : account_state) (existing : option Account) (mobile : text) (f : Account -> Account) : AM Account :=
  match existing with
  | Some u => save_account (f u)
  | None => insert_account (f (new_account s mobile))
  end.

Definition existing_roles (s : account_state) (existing : option Account) : list string :=
  match existing with Some u => role_names s (a_id u) | None => [] end.
Definition existing_active_roles (s : account_state) (existing : option Account) : list string :=
  match existing with Some u => active_roles s (a_id u) | None => [] end.

Definition is_some {A} (o : option A) : bool := match o with Some _ => true | None => false end.

(** The one row of a pair, renewed when it waits no more, or a new one *)
Definition pair_invite (s : account_state) (kind : InviteKind) (inviter invitee : uuid) : option Invite :=
  find_row (fun i => (iv_inviter i =? inviter)%N) (base.filter (fun p => eqb (iv_kind p.2) kind && (iv_invitee p.2 =? invitee)%N = true) (ac_invites s)).

Definition renew_or_insert (kind : InviteKind) (inviter invitee : uuid) (mobile token : text) (renew : Invite -> Invite) : AM Invite :=
  s ← get;
  match pair_invite s kind inviter invitee with
  | Some existing => if isInviteWaiting s existing then mret existing else save_invite (renew existing)
  | None => insert_invite kind inviter invitee mobile token
  end.

(** [/^[A-Za-z0-9_-]{16,64}$/] *)
Definition is_token_char (c : N) : bool :=
  is_digit c || ((65 <=? c) && (c <=? 90) || (97 <=? c) && (c <=? 122) || (c =? 95) || (c =? 45))%N.
Definition is_token (t : text) : bool :=
  Nat.leb 16 (length t) && Nat.leb (length t) 64 && forallb is_token_char t.

Definition in_force (s : account_state) (kind : InviteKind) (token : text) : option Invite :=
  if is_token token then
    match find_row (fun i => eqb (iv_kind i) kind && bool_decide (iv_token i = token) && is_null (iv_revokedAt i)) (ac_invites s) with
    | Some i => if isInviteExpired s i then None else Some i
    | None => None
    end
  else None.

(** [activeInvite]: a driver's and a factory's also need the menu of the inviting company *)
Definition activeInvite (s : account_state) (kind : InviteKind) (token : text) : option Invite :=
  match in_force s kind token with
  | Some i =>
      match kind with
      | DriverKindInvite => if has_menu s (iv_inviter i) Drivers then Some i else None
      | FactoryKindInvite => if has_menu s (iv_inviter i) Factories then Some i else None
      | _ => Some i
      end
  | None => None
  end.

(** [isMember], [isInvited]: only the invited account comes in with the link *)
Definition came_in (kind : InviteKind) (userId : uuid) (token : text) : AM bool :=
  s ← get;
  match activeInvite s kind token with
  | Some i =>
      if (iv_invitee i =? userId)%N then
        when (is_null (iv_usedAt i)) (modify (put_invite (i <| iv_usedAt := Some (ac_now s) |>))) ;;
        mret true
      else mret false
  | None => mret false
  end.

(** [welcome]: whether the link is good, and for whom *)
Inductive Welcome := WelcomeJoined (inviter : uuid) | WelcomeInvalid | WelcomeOtherNumber.

Definition welcome_with (isInvited : AM bool) (kind : InviteKind) (token : text) : AM Welcome :=
  s ← get;
  match activeInvite s kind token with
  | None => mret WelcomeInvalid
  | Some i =>
      same ← isInvited;
      mret (if (same : bool) then WelcomeJoined (iv_inviter i) else WelcomeOtherNumber)
  end.

(** ** [CompanyInviteService] *)

Definition assertParent (userId : uuid) (message : string) : AM unit :=
  s ← get;
  ensure (is_parent s userId) (forbidden message).

(** The account has a role already: its one invitation again, or the rules of every invitation *)
Definition invite_company_again (parentUserId : uuid) (existing : Account) (mobile token : text) : AM Invite :=
  s ← get;
  ensure (bool_decide ("COMPANY"%string ∈ role_names s (a_id existing)))
    (conflict "این شماره از قبل در سامانه حساب دارد و نمی‌شود آن را دعوت کرد.") ;;
  let invites := invites_of s CompanyKindInvite (a_id existing) in
  assertInvitable invites parentUserId (a_createdAt existing) (js "شرکت") ;;
  match invites with
  | own :: _ =>
      if isInviteWaiting s own && (iv_inviter own =? parentUserId)%N then mret own
      else
        modify (put_account (existing <| a_invitedByCompanyUserId := Some parentUserId |>)) ;;
        save_invite ((renewed s token own) <| iv_inviter := parentUserId |>)
  | [] =>
      modify (put_account (existing <| a_invitedByCompanyUserId := Some parentUserId |>)) ;;
      insert_invite CompanyKindInvite parentUserId (a_id existing) mobile token
  end.

Definition invite_company_new (parentUserId : uuid) (existing : option Account) (mobile : text) (name : option text) (token : text) : AM Invite :=
  s ← get;
  ensure (role_active s "COMPANY") (badRequest "نقش شرکت در سامانه تعریف نشده است.") ;;
  saved ← save_or_insert s existing mobile
            (fun u => with_company_name name (u <| a_invitedByCompanyUserId := Some parentUserId |>));
  add_role (a_id saved) "COMPANY" ;;
  insert_invite CompanyKindInvite parentUserId (a_id saved) mobile token.

Definition createCompanyInvite (parentUserId : uuid) (mobileInput : text) (companyName : option text) (token : text) : AM Invite :=
  assertParent parentUserId "فقط شرکت مادر می‌تواند شرکت دعوت کند." ;;
  mobile ← read_mobile mobileInput;
  invite ← transaction (
    s ← get;
    let existing := with_mobile s mobile in
    match existing, existing_roles s existing with
    | Some u, _ :: _ => invite_company_again parentUserId u mobile token
    | _, _ => invite_company_new parentUserId existing mobile (read_name companyName) token
    end);
  publish_account (InviteSms (iv_mobile invite) (js "/join/" ++ iv_token invite)) ;;
  mret invite.

Definition isMember (userId : uuid) (token : text) : AM bool := came_in CompanyKindInvite userId token.
Definition welcomeCompany (userId : uuid) (token : text) : AM Welcome :=
  welcome_with (isMember userId token) CompanyKindInvite token.

(** ** Brokers and factories: the account vouched for by a company *)

(** The invited kind's account: a number without an active role gets it *)
Definition invited_account (kind : InviteKind) (roleName : string) (other noRole : exn) (noun : text)
    (companyUserId : uuid) (mobile : text) (name : option text) : AM uuid :=
  s ← get;
  let existing := with_mobile s mobile in
  match existing_active_roles s existing, existing with
  | (_ :: _) as roles, Some u =>
      ensure (bool_decide (roleName ∈ roles)) other ;;
      assertInvitable (invites_of s kind (a_id u)) companyUserId (a_createdAt u) noun ;;
      when (negb (eqb (a_verificationStatus u) VerApproved))
        (modify (put_account (u <| a_verificationStatus := VerApproved |> <| a_verificationDecidedAt := Some (ac_now s) |>
                                <| a_verificationDecidedBy := Some companyUserId |>))) ;;
      mret (a_id u)
  | _, _ =>
      ensure (role_active s roleName) noRole ;;
      saved ← save_or_insert s existing mobile (with_company_name name);
      add_role (a_id saved) roleName ;;
      mret (a_id saved)
  end.

(** The transaction in its two parts.  It locks nothing and the unique index is on a pair of
    inviter and broker: another company's invitation may be checked between the two. *)
Definition broker_invite_check (companyUserId : uuid) (mobile : text) (brokerName : option text) : AM uuid :=
  invited_account BrokerKindInvite "BROKER"
    (conflict "این شماره حساب راننده، شرکت یا کارخانه است و نمی‌شود آن را واسط دعوت کرد.")
    (badRequest "نقش واسط در سامانه تعریف نشده است.") (js "واسط") companyUserId mobile (read_name brokerName).

Definition broker_invite_save (companyUserId : uuid) (mobile token : text) (brokerUserId : uuid) : AM Invite :=
  s ← get;
  renew_or_insert BrokerKindInvite companyUserId brokerUserId mobile token (renewed s token).

Definition createBrokerInvite (companyUserId : uuid) (mobileInput : text) (brokerName : option text) (token : text) : AM Invite :=
  mobile ← read_mobile mobileInput;
  invite ← transaction (
    brokerUserId ← broker_invite_check companyUserId mobile brokerName;
    broker_invite_save companyUserId mobile token brokerUserId);
  now ← gets ac_now;
  zoom (fun s => (ac_broker s) <| bs_now := ac_now s |>) (fun b s => s <| ac_broker := b |>)
    (addInvitingCompany (iv_invitee invite) companyUserId now) ;;
  publish_account (InviteSms (iv_mobile invite) (js "/broker-invite/" ++ iv_token invite)) ;;
  mret invite.

(** [update({ ..., revokedAt: IsNull() }, { revokedAt })] *)
Definition in_list (kind : InviteKind) (inviter invitee : uuid) (i : Invite) : bool :=
  eqb (iv_kind i) kind && (iv_inviter i =? inviter)%N && (iv_invitee i =? invitee)%N && is_null (iv_revokedAt i).

Definition revoke_pair (kind : InviteKind) (inviter invitee : uuid) : AM bool :=
  s ← get;
  modify (fun s => s <| ac_invites := (fun i => if in_list kind inviter invitee i then i <| iv_revokedAt := Some (ac_now s) |> else i) <$> ac_invites s |>) ;;
  mret (exists_row (in_list kind inviter invitee) (ac_invites s)).

Definition removeBroker (companyUserId brokerUserId : uuid) : AM uuid :=
  affected ← revoke_pair BrokerKindInvite companyUserId brokerUserId;
  ensure (affected : bool) (notFound "این واسط در لیست شما نیست.") ;;
  modify (untie BrokerKindInvite brokerUserId companyUserId) ;;
  mret brokerUserId.

Definition isInvitedBroker (userId : uuid) (token : text) : AM bool := came_in BrokerKindInvite userId token.
Definition welcomeBroker (userId : uuid) (token : text) : AM Welcome :=
  welcome_with (isInvitedBroker userId token) BrokerKindInvite token.

(** ** [FactoryService]: the invitations *)

(** [insert().orIgnore()] *)
Definition join_company (factoryUserId companyUserId : uuid) (s : account_state) : account_state :=
  if bool_decide ((factoryUserId, companyUserId) ∈ ac_members s) then s
  else s <| ac_members := ac_members s ++ [(factoryUserId, companyUserId)] |>.

Definition createFactoryInvite (companyUserId : uuid) (mobileInput : text) (factoryName : option text) (token : text) : AM Invite :=
  mobile ← read_mobile mobileInput;
  invite ← transaction (
    factoryUserId ← invited_account FactoryKindInvite "FACTORY"
      (conflict "این شماره حساب راننده یا شرکت حمل‌ونقل است و نمی‌شود آن را کارخانه دعوت کرد.")
      (badRequest "نقش کارخانه در سامانه تعریف نشده است.") (js "کارخانه") companyUserId mobile (read_name factoryName);
    modify (join_company factoryUserId companyUserId) ;;
    s ← get;
    renew_or_insert FactoryKindInvite companyUserId factoryUserId mobile token (renewed s token));
  publish_account (InviteSms (iv_mobile invite) (js "/invite/" ++ iv_token invite)) ;;
  mret invite.

Definition removeFactory (companyUserId factoryUserId : uuid) : AM uuid :=
  s ← get;
  ensure (bool_decide ((factoryUserId, companyUserId) ∈ ac_members s)) (notFound "این کارخانه در لیست شما نیست.") ;;
  modify (untie FactoryKindInvite factoryUserId companyUserId) ;;
  revoke_pair FactoryKindInvite companyUserId factoryUserId ;;
  mret factoryUserId.

Definition isInvitedFactory (userId : uuid) (token : text) : AM bool := came_in FactoryKindInvite userId token.
Definition welcomeFactory (userId : uuid) (token : text) : AM Welcome :=
  welcome_with (isInvitedFactory userId token) FactoryKindInvite token.

(** The companies a factory may send loads to: of its list, the active ones that are
    companies and have the menu *)
Definition receives_loads (s : account_state) (companyUserId : uuid) : bool :=
  match ac_users s !! companyUserId with
  | Some u => eqb (a_recordStatus u) RecActive
              && some_b (fun name => bool_decide (name ∈ COMPANY_ROLES)) (active_roles s companyUserId)
              && has_menu s companyUserId Factories
  | None => false
  end.

Definition companies (s : account_state) (factoryUserId : uuid) : list uuid :=
  dedup (List.filter (receives_loads s) (map snd (List.filter (fun m => (m.1 =? factoryUserId)%N) (ac_members s)))).

Definition assertMember (factoryUserId companyUserId : uuid) : AM unit :=
  s ← get;
  ensure (bool_decide (companyUserId ∈ companies s factoryUserId))
    (forbidden "برای این شرکت حمل‌ونقل لینک دعوت ندارید؛ یکی از شرکت‌های حمل‌ونقل لیست خودتان را انتخاب کنید.").

(** ** Drivers invited and registered by a company

    [src/services/company/driverInvite.service.ts]: a batch of numbers, each one on its
    own; the company joins the driver's companies; the parent company may register
    drivers itself. *)

Definition MAX_DRIVER_INVITES : nat := 20.

Record DriverInviteInput := mkDriverInput { di_mobile : text; di_name : option text }.

Inductive DriverInviteOutcome :=
| DriverAdded (mobile : text) (created : bool) (driverUserId : uuid) (token : text)
| DriverRefused (mobile : text) (reason : text).

(** [driverAccount]: whether the number has an account already, which must be a driver's *)
Definition driverAccount (s : account_state) (user : option Account) : AM bool :=
  let roles := existing_active_roles s user in
  ensure (Nat.eqb (length roles) 0 || bool_decide ("DRIVER"%string ∈ roles))
    (conflict "این شماره حساب شرکت حمل‌ونقل یا شرکت / کارخانه است.") ;;
  mret (negb (Nat.eqb (length roles) 0)).

(** [name.split(/\s+/)]: the first word, the rest *)
Definition with_person_name (name : option text) (u : Account) : Account :=
  match name with
  | None => u
  | Some n =>
      match split_runs is_space n with
      | first :: rest =>
          u <| a_firstName := Some first |>
            <| a_lastName := match join [32%N] rest with [] => None | t => Some t end |>
            <| a_profileType := Some CustPerson |>
      | [] => u
      end
  end.

(** [join]: the company among the driver's companies *)
Definition join_driver (driverUserId companyUserId : uuid) (s : account_state) : account_state :=
  match ac_profiles s !! driverUserId with
  | None => s <| ac_profiles := <[driverUserId := new_profile <| dp_companyUserIds := [companyUserId] |>]> (ac_profiles s) |>
  | Some p =>
      if bool_decide (companyUserId ∈ dp_companyUserIds p) then s
      else s <| ac_profiles := <[driverUserId := p <| dp_companyUserIds := dp_companyUserIds p ++ [companyUserId] |>]> (ac_profiles s) |>
  end.

(** A number without an active role becomes a driver, to be checked like any other *)
Definition new_driver (s : account_state) (driver : option Account) (mobile : text) (name : option text) : AM uuid :=
  ensure (role_active s "DRIVER") (badRequest "نقش راننده در سامانه تعریف نشده است.") ;;
  saved ← save_or_insert s driver mobile (fun u => with_person_name name (u <| a_verificationStatus := VerNone |>));
  add_role (a_id saved) "DRIVER" ;;
  mret (a_id saved).

Definition driver_account (companyUserId : uuid) (mobile : text) (name : option text) : AM (uuid * bool) :=
  s ← get;
  let driver := with_mobile s mobile in
  known ← driverAccount s driver;
  match (known : bool), driver with
  | true, Some u =>
      assertInvitable (invites_of s DriverKindInvite (a_id u)) companyUserId (a_createdAt u) (js "راننده") ;;
      mret (a_id u, false)
  | _, _ => id ← new_driver s driver mobile name; mret (id, true)
  end.

(** [renew] *)
Definition renewed_driver (s : account_state) (token : text) (i : Invite) : Invite :=
  (renewed s token i) <| iv_usedByLink := false |>.

(** Registered by the parent company: in at once *)
Definition registered (s : account_state) (i : Invite) : Invite :=
  i <| iv_usedAt := Some (match iv_usedAt i with Some t => t | None => ac_now s end) |>
    <| iv_direct := true |> <| iv_revokedAt := None |>.

Definition inviteOne (companyUserId : uuid) (mobile : text) (name : option text) (token : text) (direct : bool) : AM DriverInviteOutcome :=
  account ← driver_account companyUserId mobile name;
  let (driverUserId, created) := (account : uuid * bool) in
  modify (join_driver driverUserId companyUserId) ;;
  s ← get;
  invite ← renew_or_insert DriverKindInvite companyUserId driverUserId mobile token (renewed_driver s token);
  when direct (modify (put_invite (registered s invite))) ;;
  mret (DriverAdded mobile created driverUserId (iv_token invite)).

(** One number of a batch: a conflict refuses it and the others go on *)
Definition try_invite (companyUserId : uuid) (mobile : text) (name : option text) (token : text) (direct : bool) : AM DriverInviteOutcome :=
  try_catch (transaction (inviteOne companyUserId mobile (read_name name) token direct))
    (fun error => match error with Conflict message => mret (DriverRefused mobile message) | _ => throw error end).

Fixpoint invite_batch (companyUserId : uuid) (drivers : list (DriverInviteInput * text)) (seen : list text) (direct : bool) :
    AM (list DriverInviteOutcome) :=
  match drivers with
  | [] => mret []
  | (input, token) :: drivers =>
      let mobile := normalizePhoneNumber (di_mobile input) in
      if negb (is_mobile mobile) then
        rest ← invite_batch companyUserId drivers seen direct;
        mret (DriverRefused (di_mobile input) (js "شماره موبایل معتبر نیست.") :: rest)
      else if bool_decide (mobile ∈ seen) then invite_batch companyUserId drivers seen direct
      else
        outcome ← try_invite companyUserId mobile (di_name input) token direct;
        rest ← invite_batch companyUserId drivers (mobile :: seen) direct;
        mret (outcome :: rest)
  end.

Definition too_many : exn := BadRequest (js "حداکثر " ++ text_of_N (N.of_nat MAX_DRIVER_INVITES) ++ js " راننده در هر بار.").

(** [tokens]: the token drawn for each number *)
Definition inviteAll (companyUserId : uuid) (drivers : list (DriverInviteInput * text)) (direct : bool) : AM (list DriverInviteOutcome) :=
  ensure (negb (Nat.eqb (length drivers) 0)) (badRequest "دست‌کم یک شماره وارد کنید.") ;;
  ensure (Nat.leb (length drivers) MAX_DRIVER_INVITES) too_many ;;
  invite_batch companyUserId drivers [] direct.

Definition notify_driver (o : DriverInviteOutcome) : AM unit :=
  match o with
  | DriverAdded mobile _ _ token => publish_account (InviteSms mobile (js "/driver-invite/" ++ token))
  | DriverRefused _ _ => mret tt
  end.

Definition invite (companyUserId : uuid) (drivers : list (DriverInviteInput * text)) : AM (list DriverInviteOutcome) :=
  outcomes ← inviteAll companyUserId drivers false;
  for_each outcomes notify_driver ;;
  mret outcomes.

Definition register (companyUserId : uuid) (drivers : list (DriverInviteInput * text)) : AM (list DriverInviteOutcome) :=
  assertParent companyUserId "فقط شرکت مادر راننده را مستقیم ثبت می‌کند." ;;
  inviteAll companyUserId drivers true.

(** [refusal]: what [readExcel] asks of a number, nothing saved *)
Definition refusal (companyUserId : uuid) (mobile : text) : AM (option text) :=
  s ← get;
  let driver := with_mobile s mobile in
  try_catch (
    known ← driverAccount s driver;
    match (known : bool), driver with
    | true, Some u =>
        assertInvitable (invites_of s DriverKindInvite (a_id u)) companyUserId (a_createdAt u) (js "راننده") ;;
        mret None
    | _, _ => mret None
    end)
    (fun error => match error with Conflict message => mret (Some message) | _ => throw error end).

Definition removeDriver (companyUserId driverUserId : uuid) : AM uuid :=
  affected ← revoke_pair DriverKindInvite companyUserId driverUserId;
  ensure (affected : bool) (notFound "این راننده در دعوت‌های شما نیست.") ;;
  modify (untie DriverKindInvite driverUserId companyUserId) ;;
  mret driverUserId.

(** [isInvited]: also marks the invitation used by its link, and says so once *)
Definition isInvitedDriver (userId : uuid) (token : text) : AM bool :=
  s ← get;
  match activeInvite s DriverKindInvite token with
  | Some i =>
      if (iv_invitee i =? userId)%N then
        when (is_null (iv_usedAt i) || negb (iv_usedByLink i))
          (modify (put_invite (i <| iv_usedAt := Some (match iv_usedAt i with Some t => t | None => ac_now s end) |>
                                 <| iv_usedByLink := true |>)) ;;
           publish_account (InviteUsed DriverKindInvite (iv_inviter i) userId false true)) ;;
        mret true
      else mret false
  | None => mret false
  end.

Definition welcomeDriver (userId : uuid) (token : text) : AM Welcome :=
  welcome_with (isInvitedDriver userId token) DriverKindInvite token.

(** [list]: the company's own invitations, not the drivers it registered itself *)
Definition listed (s : account_state) (companyUserId : uuid) : list Invite :=
  List.filter (fun i => negb (isInviteExpired s i))
    (find_rows (fun i => eqb (iv_kind i) DriverKindInvite && (iv_inviter i =? companyUserId)%N
                         && is_null (iv_revokedAt i) && negb (iv_direct i)) (ac_invites s)).
