(* ===== verification/AccountVerification.v ===== *)
(** * Checking an account

    [src/services/company/accountVerification.service.ts] and
    [src/domain/helper/driverVerification.ts]: an account that signed up on its own
    fills in its profile and asks to be checked, a parent company approves or rejects
    it, and it may ask four times in all. *)

From S2P Require Import Prelude JsNumber JsString Json Effects Enums Phone NationalId DriverProfile BrokerAccess CompanyFeatures Accounts Invites.

Definition MAX_VERIFICATION_REQUESTS : Z := 4.

Inductive VerifiedKind := CompanyAccount | FactoryAccount | BrokerAccount | DriverAccount.

#[export] Instance VerifiedKind_eq_dec : EqDecision VerifiedKind.
Proof. solve_decision. Defined.

Definition verifiedKind (roles : list string) : VerifiedKind :=
  if bool_decide ("FACTORY"%string ∈ roles) then FactoryAccount
  else if bool_decide ("BROKER"%string ∈ roles) then BrokerAccount
  else if bool_decide ("DRIVER"%string ∈ roles) then DriverAccount
  else CompanyAccount.

Definition kindOf (s : account_state) (userId : uuid) : VerifiedKind := verifiedKind (role_names s userId).

(** [DRIVER_VERIFICATION=off] lets drivers through unchecked. *)
Definition checked (s : account_state) (kind : VerifiedKind) : bool :=
  negb (eqb kind DriverAccount) || ac_driverVerification s.

(** ** What is checked *)

(** A field of the account, or of the driver's papers when it has any *)
Abbreviation field_of := (Account -> option DriverProfile -> option text).

Definition of_account (f : Account -> option text) : field_of := fun u _ => f u.
Definition of_papers (f : DriverProfile -> option text) : field_of := fun _ p => p ≫= f.

Definition REQUIRED_FIELDS (kind : VerifiedKind) : list (field_of * text) :=
  match kind with
  | CompanyAccount =>
      [(of_account a_companyName, js "نام تجاری شرکت"); (of_account a_licenseNo, js "شماره پروانه"); (of_account a_phone, js "شماره شرکت")]
  | FactoryAccount => [(of_account a_companyName, js "نام کارخانه"); (of_account a_phone, js "شماره کارخانه")]
  | BrokerAccount =>
      [(of_account a_companyName, js "نام واسط یا دفتر"); (of_account a_nationalCode, js "کد ملی");
       (of_account a_contactMobiles, js "شماره موبایل"); (of_account a_phone, js "شماره تماس")]
  | DriverAccount =>
      [(of_account a_firstName, js "نام"); (of_account a_lastName, js "نام خانوادگی"); (of_account a_mobile, js "شماره موبایل");
       (of_papers dp_smartCardNumber, js "شماره کارت هوشمند"); (of_papers dp_licenseNumber, js "شماره گواهینامه")]
  end.

(** A driver also by what its kinds need *)
Definition kind_fields (kind : VerifiedKind) (papers : option DriverProfile) : list (field_of * text) :=
  match kind with
  | DriverAccount => map (fun p => (of_papers p.1, p.2)) (flat_map DRIVER_KIND_REQUIRED (driverKindsOf (stored_types papers)))
  | _ => []
  end.

Definition empty_field (t : option text) : bool := match t with Some t => is_empty (trim t) | None => true end.

Definition given (t : option text) : bool := match t with Some (_ :: _) => true | _ => false end.

Definition missing_of (kind : VerifiedKind) (user : Account) (papers : option DriverProfile) : list text :=
  map snd (List.filter (fun f => empty_field (f.1 user papers)) (REQUIRED_FIELDS kind ++ kind_fields kind papers))
  ++ (if given (a_companyNationalId user) && negb (isCompanyNationalId (a_companyNationalId user))
      then [js "شناسه ملی درست (یا خالی)"] else [])
  ++ (if eqb kind BrokerAccount && given (a_nationalCode user) && negb (isNationalCode (a_nationalCode user))
      then [js "کد ملی درست"] else []).

Record VerificationState := mkVerification {
  vs_status : VerificationStatus;
  vs_canRequest : bool;
  vs_remaining : Z;
  vs_missing : list text;
  vs_note : option text;
  vs_requestedAt : option time;
  vs_decidedAt : option time;
}.

Definition remaining_of (user : Account) : Z := Z.max 0 (MAX_VERIFICATION_REQUESTS - a_verificationRequests user).

Definition isApproved (s : account_state) (userId : uuid) : bool :=
  match ac_users s !! userId with
  | None => true
  | Some u => eqb (a_verificationStatus u) VerApproved || negb (checked s (kindOf s userId))
  end.

Definition state_of (s : account_state) (user : Account) : VerificationState :=
  let kind := kindOf s (a_id user) in
  let remaining := remaining_of user in
  if negb (checked s kind) then
    mkVerification VerApproved false remaining [] None (a_verificationRequestedAt user) (a_verificationDecidedAt user)
  else {|
    vs_status := a_verificationStatus user;
    vs_canRequest := (eqb (a_verificationStatus user) VerNone || eqb (a_verificationStatus user) VerRejected) && (0 <? remaining);
    vs_remaining := remaining;
    vs_missing := missing_of kind user (if eqb kind DriverAccount then ac_profiles s !! a_id user else None);
    vs_note := a_verificationNote user;
    vs_requestedAt := a_verificationRequestedAt user;
    vs_decidedAt := a_verificationDecidedAt user |}.

Definition ACCOUNT_NOT_FOUND : exn := notFound "حساب پیدا نشد.".

Definition verification_state (userId : uuid) : AM VerificationState :=
  s ← get;
  user ← some_or (ac_users s !! userId) ACCOUNT_NOT_FOUND;
  mret (state_of s user).

(** [name] of an announcement *)
Definition account_name (s : account_state) (userId : uuid) : text :=
  match ac_users s !! userId with
  | None => js "حساب"
  | Some u =>
      let or_else (t k : text) := match t with [] => k | _ => t end in
      let person := trim (join [32%N] (List.filter (fun t => negb (is_empty t)) [default [] (a_firstName u); default [] (a_lastName u)])) in
      or_else (match a_companyName u with Some c => trim c | None => [] end)
        (or_else person (or_else (default [] (a_mobile u)) (js "حساب")))
  end.

(** ** Asking *)

Definition asked (now : time) (u : Account) : Account :=
  u <| a_verificationStatus := VerPending |> <| a_verificationRequests := a_verificationRequests u + 1 |>
    <| a_verificationRequestedAt := Some now |> <| a_verificationNote := None |>.

Definition fill_first (missing : list text) : exn :=
  BadRequest (js "اول این‌ها را در پروفایل پر کنید: " ++ join (js "، ") missing ++ js ".").

Definition waits_already : exn := conflict "درخواست شما در حال بررسی است.".

Definition request (userId : uuid) : AM VerificationState :=
  state ← verification_state userId;
  ensure (negb (eqb (vs_status state) VerApproved)) (conflict "حساب شما تأیید شده است.") ;;
  ensure (negb (eqb (vs_status state) VerPending)) waits_already ;;
  ensure (vs_canRequest state) (forbidden "دفعات درخواست بررسی شما تمام شده است؛ با پشتیبانی تماس بگیرید.") ;;
  ensure (Nat.eqb (length (vs_missing state)) 0) (fill_first (vs_missing state)) ;;
  s ← get;
  user ← some_or (match ac_users s !! userId with
                  | Some u => if eqb (a_verificationStatus u) VerNone || eqb (a_verificationStatus u) VerRejected then Some u else None
                  | None => None end) waits_already;
  modify (put_account (asked (ac_now s) user)) ;;
  s ← get;
  publish_account (VerificationRequested userId (account_name s userId)) ;;
  verification_state userId.

(** ** Deciding *)

Definition not_waiting : exn := conflict "این درخواست در انتظار بررسی نیست.".

Definition approved_account (parentUserId : uuid) (now : time) (kind : VerifiedKind) (u : Account) : Account :=
  let u := u <| a_verificationStatus := VerApproved |> <| a_verificationDecidedAt := Some now |>
             <| a_verificationDecidedBy := Some parentUserId |> <| a_verificationNote := None |> in
  if eqb kind CompanyAccount then u <| a_invitedByCompanyUserId := Some parentUserId |> else u.

Definition only_parent : string := "فقط شرکت مادر درخواست‌های بررسی اعتبار را می‌بیند.".

Definition approve (parentUserId userId : uuid) : AM unit :=
  assertParent parentUserId only_parent ;;
  transaction (
    s ← get;
    user ← some_or (ac_users s !! userId) ACCOUNT_NOT_FOUND;
    ensure (eqb (a_verificationStatus user) VerPending) not_waiting ;;
    let kind := kindOf s userId in
    modify (put_account (approved_account parentUserId (ac_now s) kind user)) ;;
    when (eqb kind FactoryAccount) (modify (join_company userId parentUserId))) ;;
  s ← get;
  publish_account (VerificationDecided userId (account_name s userId) true None None).

Definition rejected_account (parentUserId : uuid) (reason : text) (now : time) (u : Account) : Account :=
  u <| a_verificationStatus := VerRejected |> <| a_verificationNote := Some reason |>
    <| a_verificationDecidedAt := Some now |> <| a_verificationDecidedBy := Some parentUserId |>.

Definition reject (parentUserId userId : uuid) (reason : text) : AM Z :=
  assertParent parentUserId only_parent ;;
  s ← get;
  user ← some_or (match ac_users s !! userId with
                  | Some u => if eqb (a_verificationStatus u) VerPending then Some u else None
                  | None => None end) not_waiting;
  ensure (fits_varchar 500 reason) TOO_LONG ;;
  modify (put_account (rejected_account parentUserId reason (ac_now s) user)) ;;
  state ← verification_state userId;
  s ← get;
  publish_account (VerificationDecided userId (account_name s userId) false (Some reason) (Some (vs_remaining state))) ;;
  mret (vs_remaining state).

(** ** What a parent company sees *)

(** The roles a parent company checks; [list] and [pendingCount] join the active ones *)
Definition CHECKED_ROLES : list string := COMPANY_ROLES ++ ["FACTORY"; "BROKER"; "DRIVER"]%string.

Definition seen_by_parents (s : account_state) (u : Account) : bool :=
  eqb (a_recordStatus u) RecActive && some_b (fun r => bool_decide (r ∈ CHECKED_ROLES)) (active_roles s (a_id u)).

Definition list_with (s : account_state) (statuses : list VerificationStatus) : list Account :=
  find_rows (fun u => bool_decide (a_verificationStatus u ∈ statuses) && seen_by_parents s u) (ac_users s).

Definition pendingCount (parentUserId : uuid) : AM nat :=
  assertParent parentUserId only_parent ;;
  gets (fun s => length (list_with s [VerPending])).

(** [parentIds] *)
Definition parentIds (s : account_state) : list uuid :=
  map a_id (find_rows (fun u => a_isParentCompany u && eqb (a_recordStatus u) RecActive) (ac_users s)).

(** [messengerNotice]: which notice the messengers show instead of the menu *)
Inductive Notice :=
| NoticePending
| NoticeRejected (reason : text) (remaining : Z)
| NoticeFillIn (kind : VerifiedKind).

Definition messengerNotice (s : account_state) (userId : uuid) : option Notice :=
  match ac_users s !! userId with
  | None => None
  | Some u =>
      if eqb (a_verificationStatus u) VerApproved || negb (checked s (kindOf s userId)) then None
      else match a_verificationStatus u with
           | VerPending => Some NoticePending
           | VerRejected => Some (NoticeRejected (match a_verificationNote u with Some n => n | None => js "—" end) (remaining_of u))
           | _ => Some (NoticeFillIn (kindOf s userId))
           end
  end.
