(* ===== verification/AccountFacts.v ===== *)
(** * Accounts, invitations and checks: what holds between the handlers *)

From S2P Require Import Prelude JsNumber JsString Json Effects Enums Phone DriverProfile BrokerAccess CompanyFeatures Accounts Invites AccountVerification.

(** ** The invariant *)

(** The role an invitation of each kind makes *)
Definition kind_role (k : InviteKind) : string :=
  match k with
  | DriverKindInvite => "DRIVER" | FactoryKindInvite => "FACTORY" | CompanyKindInvite => "COMPANY" | BrokerKindInvite => "BROKER"
  end.

Definition requests_ok (u : Account) : Prop :=
  0 <= a_verificationRequests u <= MAX_VERIFICATION_REQUESTS /\
  (a_verificationStatus u = VerPending -> 1 <= a_verificationRequests u).

Record accounts_ok (s : account_state) : Prop := {
  ak_user_ids : forall i u, ac_users s !! i = Some u -> a_id u = i /\ (i < ac_nextId s)%N;
  ak_requests : forall i u, ac_users s !! i = Some u -> requests_ok u;
  ak_invite_ids : forall i v, ac_invites s !! i = Some v -> iv_id v = i /\ (i < ac_nextId s)%N;
  ak_roles : forall k, role_active s (kind_role k) = true;
  ak_role_users : forall u n, (u, n) ∈ ac_userRoles s -> is_Some (ac_users s !! u);
  ak_invited : forall i v, ac_invites s !! i = Some v -> (iv_invitee v, kind_role (iv_kind v)) ∈ ac_userRoles s;
  ak_unique : forall i j v w, ac_invites s !! i = Some v -> ac_invites s !! j = Some w -> i <> j -> invite_clash v w = false;
  ak_one : forall i j v w, ac_invites s !! i = Some v -> ac_invites s !! j = Some w -> iv_kind v = iv_kind w ->
    iv_invitee v = iv_invitee w -> isInviteWaiting s v = true -> isInviteWaiting s w = true -> iv_inviter v = iv_inviter w;
}.

Lemma accounts_ok_ext s t :
  ac_users t = ac_users s -> ac_userRoles t = ac_userRoles s -> ac_invites t = ac_invites s -> ac_roles t = ac_roles s ->
  ac_inviteHours t = ac_inviteHours s -> ac_now t = ac_now s -> ac_nextId t = ac_nextId s ->
  accounts_ok s -> accounts_ok t.
Proof.
  intros E1 E2 E3 E4 E5 E6 E7 [].
  assert (Hw : forall v, isInviteWaiting t v = isInviteWaiting s v)
    by (intros v; unfold isInviteWaiting, isInviteExpired, inviteExpiryHours; by rewrite E5, E6).
  constructor; unfold role_active; intros *; rewrite ?E1, ?E2, ?E3, ?E4, ?E7, ?Hw; eauto.
Qed.

(** A handler that leaves the tables of the invariant alone *)
Ltac same_tables := let s := fresh "s" in let Hs := fresh "Hs" in
  intros s Hs; apply (accounts_ok_ext s); [reflexivity..|exact Hs].

Abbreviation ok := (preserves accounts_ok).

Lemma publish_account_ok e : ok (publish_account e).
Proof. apply preserves_modify. same_tables. Qed.
#[export] Hint Resolve publish_account_ok : preserves.

(** ** Waiting *)

Definition free_for (s : account_state) (k : InviteKind) (inviter invitee : uuid) : Prop :=
  forall i v, ac_invites s !! i = Some v -> iv_kind v = k -> iv_invitee v = invitee -> isInviteWaiting s v = true ->
    iv_inviter v = inviter.

(** No invitation of the kind for the account was used, or the inviter's own waits *)
Definition unused_for_all (s : account_state) (k : InviteKind) (inviter invitee : uuid) : Prop :=
  (exists i v, ac_invites s !! i = Some v /\ iv_kind v = k /\ iv_invitee v = invitee /\ iv_inviter v = inviter /\ isInviteWaiting s v = true) \/
  (forall i v, ac_invites s !! i = Some v -> iv_kind v = k -> iv_invitee v = invitee -> iv_usedAt v = None).

Lemma elem_of_invites_of s k u v :
  v ∈ invites_of s k u <-> iv_kind v = k /\ iv_invitee v = u /\ exists i, ac_invites s !! i = Some v.
Proof. unfold invites_of. rewrite elem_of_find_rows, andb_true_iff, eqb_true, N.eqb_eq. naive_solver. Qed.

(** What an invitation let through by the rules may rely on *)
Lemma assertInvitable_reads l i t noun : reads (assertInvitable l i t noun).
Proof. intros ?. unfold assertInvitable. preserve. Qed.

Lemma assertInvitable_Ok s k inviter invitee t noun u s1 :
  accounts_ok s -> assertInvitable (invites_of s k invitee) inviter t noun s = (Ok u, s1) ->
  s1 = s /\ free_for s k inviter invitee /\ unused_for_all s k inviter invitee.
Proof.
  intros Hs H. split; [exact (reads_run _ s _ s1 (assertInvitable_reads _ _ _ _) H)|].
  unfold assertInvitable in H. rewrite run_bind in H. unfold get in H. cbv beta iota zeta in H.
  assert (Hw : forall v, v ∈ List.filter (isInviteWaiting s) (invites_of s k invitee) <->
            (iv_kind v = k /\ iv_invitee v = invitee /\ exists i, ac_invites s !! i = Some v) /\ isInviteWaiting s v = true)
    by (intros v; by rewrite list_elem_of_In, filter_In, <- list_elem_of_In, elem_of_invites_of).
  destruct (some_b _ _) eqn:Es.
  - apply some_b_true in Es as (v & ((Hk & Hu & i & Hi) & Hv)%Hw & Hin%N.eqb_eq). split.
    + intros j w Hj Hk2 Hu2 Hw2. rewrite <- Hin. apply (ak_one s Hs j i w v); congruence.
    + left. by exists i, v.
  - run_inv. apply Nat.eqb_eq, nil_length_inv in Hg. rewrite Hg in Hw.
    destruct (some_b _ _ && _) eqn:Em; [|done]. apply andb_true_iff in Em as [_ Em%negb_true_iff]. split.
    + intros i v Hi Hk Hu Hv. assert (Hin : v ∈ @nil Invite) by (apply Hw; eauto 6). set_solver.
    + right. intros i v Hi Hk Hu. pose proof (proj1 (some_b_false _ _) Em v) as Hn.
      destruct (iv_usedAt v) eqn:E; [|done]. exfalso.
      assert (Hin : v ∈ invites_of s k invitee) by (apply elem_of_invites_of; eauto).
      specialize (Hn Hin). cbv beta in Hn. by rewrite E in Hn.
Qed.

(** ** Rows written *)

Definition bump (s : account_state) : account_state := s <| ac_nextId := N.succ (ac_nextId s) |>.

Lemma waiting_ext s t v :
  ac_inviteHours t = ac_inviteHours s -> ac_now t = ac_now s -> isInviteWaiting t v = isInviteWaiting s v.
Proof. intros E1 E2. unfold isInviteWaiting, isInviteExpired, inviteExpiryHours. by rewrite E1, E2. Qed.

Lemma bump_ok s : accounts_ok s -> accounts_ok (bump s).
Proof.
  intros []. constructor; try done.
  - intros i u Hu. destruct (ak_user_ids0 i u Hu) as [? ?]. split; [done|].
    change (i < N.succ (ac_nextId s))%N. lia.
  - intros i v Hv. destruct (ak_invite_ids0 i v Hv) as [? ?]. split; [done|].
    change (i < N.succ (ac_nextId s))%N. lia.
Qed.

Lemma users_ok s m :
  accounts_ok s ->
  (forall i u, m !! i = Some u -> a_id u = i /\ (i < ac_nextId s)%N /\ requests_ok u) ->
  (forall i, is_Some (ac_users s !! i) -> is_Some (m !! i)) ->
  accounts_ok (s <| ac_users := m |>).
Proof.
  intros [] Hm Hd. constructor; try done.
  - intros i u Hu. by destruct (Hm i u Hu) as (? & ? & ?).
  - intros i u Hu. by destruct (Hm i u Hu) as (? & ? & ?).
  - intros u n Hu. apply Hd. by apply (ak_role_users0 u n).
Qed.

Lemma put_account_ok s i u u' :
  accounts_ok s -> ac_users s !! i = Some u -> a_id u' = i -> requests_ok u' -> accounts_ok (put_account u' s).
Proof.
  intros Hs Hi Hid Hr. apply users_ok; [done| |].
  - intros j w Hj. rewrite lookup_insert in Hj. case_decide as E.
    + injection Hj as <-. rewrite <- E, Hid. destruct (ak_user_ids s Hs i u Hi). done.
    + destruct (ak_user_ids s Hs j w Hj). by pose proof (ak_requests s Hs j w Hj).
  - intros j [w Hw]. rewrite lookup_insert. case_decide; eauto.
Qed.

Lemma put_new_account_ok s u :
  accounts_ok s -> a_id u = ac_nextId s -> requests_ok u -> accounts_ok (bump (put_account u s)).
Proof.
  intros Hs Hid Hr. apply bump_ok in Hs as Hb.
  change (bump (put_account u s)) with ((bump s) <| ac_users := <[a_id u := u]> (ac_users s) |>).
  apply users_ok; [done| |].
  - intros j w Hj. change (ac_nextId (bump s)) with (N.succ (ac_nextId s)). rewrite lookup_insert in Hj. case_decide as E.
    + injection Hj as <-. rewrite <- E, Hid. split; [done | split; [lia | done]].
    + destruct (ak_user_ids s Hs j w Hj). pose proof (ak_requests s Hs j w Hj). split; [done | split; [lia | done]].
  - intros j [w Hw]. rewrite lookup_insert. case_decide; eauto.
Qed.

Lemma add_role_ok s u n :
  accounts_ok s -> is_Some (ac_users s !! u) -> accounts_ok (s <| ac_userRoles := ac_userRoles s ++ [(u, n)] |>).
Proof.
  intros [] Hu. constructor; try done.
  - intros v m [Hv|Hv]%elem_of_app; [by apply (ak_role_users0 v m)|].
    apply list_elem_of_singleton in Hv. by injection Hv as -> _.
  - intros i v Hv. apply elem_of_app. left. by apply (ak_invited0 i v).
Qed.

(** A row of an invitation, new or written again *)
Lemma put_invite_ok s v :
  accounts_ok s -> (iv_id v < ac_nextId s)%N -> (iv_invitee v, kind_role (iv_kind v)) ∈ ac_userRoles s ->
  exists_row (invite_clash v) (ac_invites s) = false ->
  (isInviteWaiting s v = true -> forall i w, ac_invites s !! i = Some w -> i <> iv_id v -> iv_kind w = iv_kind v ->
     iv_invitee w = iv_invitee v -> isInviteWaiting s w = true -> iv_inviter w = iv_inviter v) ->
  accounts_ok (put_invite v s).
Proof.
  intros [] Hid Hr Hc Hf. rewrite exists_row_false in Hc.
  assert (Hl : forall i w, ac_invites (put_invite v s) !! i = Some w ->
            (i = iv_id v /\ w = v) \/ (i <> iv_id v /\ ac_invites s !! i = Some w)).
  { intros i w. change (ac_invites (put_invite v s)) with (<[iv_id v := v]> (ac_invites s)).
    rewrite lookup_insert. case_decide; naive_solver. }
  assert (Hsym : forall w, invite_clash w v = invite_clash v w).
  { intros w. unfold invite_clash, eqb. rewrite (N.eqb_sym (iv_id w)), (N.eqb_sym (iv_invitee w)), (N.eqb_sym (iv_inviter w)).
    rewrite (bool_decide_ext (iv_kind w = iv_kind v) (iv_kind v = iv_kind w)) by (split; congruence).
    rewrite (bool_decide_ext (iv_token w = iv_token v) (iv_token v = iv_token w)) by (split; congruence).
    destruct (bool_decide_reflect (iv_kind v = iv_kind w)) as [E|E]; [by rewrite E | by rewrite !andb_false_r]. }
  constructor; try done.
  - intros i w [[-> ->]|[_ Hi]]%Hl; [done | by apply ak_invite_ids0].
  - intros i w [[-> ->]|[_ Hi]]%Hl; [done | by apply (ak_invited0 i w)].
  - intros i j w x [[-> ->]|[Hni Hi]]%Hl [[-> ->]|[Hnj Hj]]%Hl Hij; [done| | |by apply (ak_unique0 i j)].
    + by apply (Hc j).
    + rewrite Hsym. by apply (Hc i).
  - intros i j w x [[-> ->]|[Hni Hi]]%Hl [[-> ->]|[Hnj Hj]]%Hl Hk Hu Hw Hx; [done| | |by apply (ak_one0 i j)].
    + symmetry. by apply (Hf Hw j).
    + by apply (Hf Hx i).
Qed.

(** A row that waits less than before *)
Definition weaker (s : account_state) (v w : Invite) : Prop :=
  iv_id v = iv_id w /\ iv_kind v = iv_kind w /\ iv_token v = iv_token w /\ iv_inviter v = iv_inviter w /\
  iv_invitee v = iv_invitee w /\ (isInviteWaiting s v = true -> isInviteWaiting s w = true).

Lemma weaken_invites_ok s f :
  accounts_ok s -> (forall v, weaker s (f v) v) -> accounts_ok (s <| ac_invites := f <$> ac_invites s |>).
Proof.
  intros [] Hf. constructor; try done; change (ac_invites (s <| ac_invites := f <$> ac_invites s |>)) with (f <$> ac_invites s).
  - intros i v (w & <- & Hi)%lookup_fmap_Some. destruct (Hf w) as (-> & _). by apply ak_invite_ids0.
  - intros i v (w & <- & Hi)%lookup_fmap_Some. destruct (Hf w) as (_ & -> & _ & _ & -> & _). by apply (ak_invited0 i w).
  - intros i j v w (v0 & <- & Hi)%lookup_fmap_Some (w0 & <- & Hj)%lookup_fmap_Some Hij.
    destruct (Hf v0) as (E1 & E2 & E3 & E4 & E5 & _), (Hf w0) as (F1 & F2 & F3 & F4 & F5 & _).
    unfold invite_clash. rewrite E1, E2, E3, E4, E5, F1, F2, F3, F4, F5. exact (ak_unique0 i j v0 w0 Hi Hj Hij).
  - intros i j v w (v0 & <- & Hi)%lookup_fmap_Some (w0 & <- & Hj)%lookup_fmap_Some.
    destruct (Hf v0) as (_ & E2 & _ & E4 & E5 & Ew), (Hf w0) as (_ & F2 & _ & F4 & F5 & Fw).
    rewrite E2, E4, E5, F2, F4, F5. intros Hk Hu Hv Hw. exact (ak_one0 i j v0 w0 Hi Hj Hk Hu (Ew Hv) (Fw Hw)).
Qed.

Lemma put_weaker_ok s i v w :
  accounts_ok s -> ac_invites s !! i = Some w -> weaker s v w -> accounts_ok (put_invite v s).
Proof.
  intros Hs Hi (E1 & E2 & E3 & E4 & E5 & Ew). destruct (ak_invite_ids s Hs i w Hi) as [Hid Hlt].
  apply put_invite_ok; [done|congruence|rewrite E2, E5; by apply (ak_invited s Hs i w)| |].
  - apply exists_row_false. intros j x Hj. destruct (decide (i = j)) as [->|Hij].
    + assert (x = w) as -> by congruence. unfold invite_clash. by rewrite E1, N.eqb_refl.
    + unfold invite_clash. rewrite E1, E2, E3, E4, E5. exact (ak_unique s Hs i j w x Hi Hj Hij).
  - intros Hv j x Hj _. rewrite E2, E4, E5. intros Hk Hu Hx. apply (ak_one s Hs j i x w); auto.
Qed.

(** ** Accounts saved *)

Lemma save_account_cases u s :
  (exists e, save_account u s = (Err e, s)) \/ save_account u s = (Ok u, put_account u s).
Proof.
  unfold save_account. rewrite run_bind. destruct (account_fits u); cbn [ensure]; [rewrite run_ret | left; by eexists].
  rewrite run_bind. unfold get. cbv beta iota. rewrite run_bind.
  destruct (negb _); cbn [ensure]; [by right | left; by eexists].
Qed.

Lemma insert_account_cases u s :
  (exists e, insert_account u s = (Err e, s)) \/ insert_account u s = (Ok u, bump (put_account u s)).
Proof.
  unfold insert_account. rewrite run_bind. destruct (save_account_cases u s) as [[e ->]| ->]; [left; by eexists | by right].
Qed.

(** What stays as it was when an account is saved *)
Record same_but_users (s t : account_state) : Prop := {
  sb_invites : ac_invites t = ac_invites s;
  sb_userRoles : ac_userRoles t = ac_userRoles s;
  sb_roles : ac_roles t = ac_roles s;
  sb_hours : ac_inviteHours t = ac_inviteHours s;
  sb_now : ac_now t = ac_now s;
}.

(** An edit of a row that keeps its key and its count of requests in bounds *)
Definition gentle (f : Account -> Account) : Prop :=
  forall u, a_id (f u) = a_id u /\ (requests_ok u -> requests_ok (f u)).

Lemma new_account_requests s m : requests_ok (new_account s m).
Proof. split; [cbn; unfold MAX_VERIFICATION_REQUESTS; lia | done]. Qed.

Lemma save_or_insert_cases s existing m f :
  accounts_ok s -> gentle f -> (forall u, existing = Some u -> exists i, ac_users s !! i = Some u) ->
  (exists e, save_or_insert s existing m f s = (Err e, s)) \/
  exists u s1, save_or_insert s existing m f s = (Ok u, s1) /\ accounts_ok s1 /\ is_Some (ac_users s1 !! a_id u) /\
    same_but_users s s1 /\ a_id u = match existing with Some v => a_id v | None => ac_nextId s end.
Proof.
  intros Hs Hf He. unfold save_or_insert. destruct existing as [v|].
  - destruct (He v eq_refl) as [i Hi]. destruct (ak_user_ids s Hs i v Hi) as [Hid _], (Hf v) as [Hfid Hfr].
    destruct (save_account_cases (f v) s) as [?| E]; [by left|]. right. exists (f v), (put_account (f v) s).
    split; [done|]. split; [apply (put_account_ok s i v); [done|done|congruence|by apply Hfr, (ak_requests s Hs i)]|].
    split; [by exists (f v); apply lookup_insert_eq|]. split; [by constructor | done].
  - destruct (Hf (new_account s m)) as [Hfid Hfr].
    destruct (insert_account_cases (f (new_account s m)) s) as [?| E]; [by left|]. right.
    exists (f (new_account s m)), (bump (put_account (f (new_account s m)) s)).
    split; [done|]. split; [apply put_new_account_ok; [done|done|apply Hfr, new_account_requests]|].
    split; [by exists (f (new_account s m)); apply lookup_insert_eq|]. split; [by constructor | done].
Qed.

(** ** An account ready for an invitation of a kind *)

Definition ready (s : account_state) (k : InviteKind) (inviter invitee : uuid) : Prop :=
  (invitee, kind_role k) ∈ ac_userRoles s /\ free_for s k inviter invitee.

Lemma free_for_ext s t k i u :
  ac_invites t = ac_invites s -> ac_inviteHours t = ac_inviteHours s -> ac_now t = ac_now s ->
  free_for s k i u -> free_for t k i u.
Proof.
  intros E1 E2 E3 H j v. rewrite E1, (waiting_ext s t v E2 E3). apply H.
Qed.

(** An account without the role has no invitation of the kind. *)
Lemma free_without_role s k i u : accounts_ok s -> (u, kind_role k) ∉ ac_userRoles s -> free_for s k i u.
Proof. intros Hs Hn j v Hj <- <- _. destruct Hn. by apply (ak_invited s Hs j). Qed.

Lemma elem_of_role_names s u n : n ∈ role_names s u <-> (u, n) ∈ ac_userRoles s.
Proof.
  unfold role_names. rewrite list_elem_of_In, in_map_iff. setoid_rewrite filter_In. setoid_rewrite <- list_elem_of_In. split.
  - intros ([v m] & <- & Hin & He%N.eqb_eq). cbn in He. by subst v.
  - intros H. exists (u, n). split; [done|]. split; [done|]. apply N.eqb_refl.
Qed.

Lemma elem_of_active_roles s u n : n ∈ active_roles s u <-> (u, n) ∈ ac_userRoles s /\ role_active s n = true.
Proof.
  unfold active_roles. rewrite list_elem_of_In, filter_In, <- list_elem_of_In, elem_of_role_names. done.
Qed.

Lemma with_mobile_row s m u : with_mobile s m = Some u -> exists i, ac_users s !! i = Some u.
Proof. intros H. by apply find_row_Some in H as [_ ?]. Qed.

(** The account made for an invitation: a number without an active role gets the role *)
Lemma made_account_ready s existing m f k inviter r s1 :
  accounts_ok s -> gentle f -> (forall u, existing = Some u -> exists i, ac_users s !! i = Some u) ->
  existing_active_roles s existing = [] ->
  (saved ← save_or_insert s existing m f; add_role (a_id saved) (kind_role k) ;; mret (a_id saved)) s = (r, s1) ->
  accounts_ok s1 /\ forall u, r = Ok u -> ready s1 k inviter u.
Proof.
  intros Hs Hf He Hr. rewrite run_bind.
  destruct (save_or_insert_cases s existing m f Hs Hf He) as [[e ->]|(u & s2 & -> & H2 & Hu & Hsame & Hid)].
  { by intros [= <- <-]. }
  intros E. injection E as <- <-. split; [by apply add_role_ok|]. intros v [= <-]. split.
  { apply elem_of_app. right. by apply list_elem_of_singleton. }
  apply (free_for_ext s); [apply Hsame|apply Hsame|apply Hsame|]. apply free_without_role; [done|].
  intros Hin. rewrite Hid in Hin. destruct existing as [w|].
  - assert (Ha : kind_role k ∈ existing_active_roles s (Some w))
      by (apply elem_of_active_roles; split; [done | by apply (ak_roles s Hs)]).
    rewrite Hr in Ha. set_solver.
  - destruct (ak_role_users s Hs _ _ Hin) as [w Hw]. destruct (ak_user_ids s Hs _ w Hw). lia.
Qed.

(** A row of the pair written: the one that is there when it waits, else renewed or new *)
Lemma save_invite_cases v s :
  (exists e, save_invite v s = (Err e, s)) \/
  (exists_row (invite_clash v) (ac_invites s) = false /\ save_invite v s = (Ok v, put_invite v s)).
Proof.
  unfold save_invite. rewrite run_bind. unfold get. cbv beta iota. rewrite run_bind.
  destruct (exists_row _ _); cbn [negb ensure]; [left; by eexists | by right].
Qed.

Lemma save_ready_ok s k inviter invitee v :
  accounts_ok s -> ready s k inviter invitee -> iv_kind v = k -> iv_inviter v = inviter -> iv_invitee v = invitee ->
  (iv_id v < ac_nextId s)%N -> accounts_ok (final (save_invite v) s).
Proof.
  intros Hs [Hr Hf] <- <- <- Hid. unfold final. destruct (save_invite_cases v s) as [[e ->]|[Hc ->]]; [done|].
  apply put_invite_ok; try done. intros _ i w Hi _ Hk Hu Hw. by apply (Hf i w).
Qed.

Lemma insert_ready_ok s k inviter invitee m token :
  accounts_ok s -> ready s k inviter invitee -> accounts_ok (final (insert_invite k inviter invitee m token) s).
Proof.
  intros Hs [Hr Hf]. unfold insert_invite. rewrite final_get_bind. set (v := new_invite s k inviter invitee m token).
  unfold final. rewrite run_bind. destruct (save_invite_cases v s) as [[e ->]|[Hc ->]]; [done|].
  change (accounts_ok (put_invite v (bump s))). apply put_invite_ok; try done; [by apply bump_ok| |].
  - change (ac_nextId s < N.succ (ac_nextId s))%N. lia.
  - intros _ i w Hi _ Hk Hu Hw. by apply (Hf i w).
Qed.

Lemma pair_invite_Some s k inviter invitee v :
  pair_invite s k inviter invitee = Some v ->
  (exists i, ac_invites s !! i = Some v) /\ iv_kind v = k /\ iv_inviter v = inviter /\ iv_invitee v = invitee.
Proof.
  intros (Hi%N.eqb_eq & i & Hl)%find_row_Some. apply map_lookup_filter_Some in Hl as [Hl Hp].
  cbn in Hp. apply andb_true_iff in Hp as [Hk%eqb_eq Hu%N.eqb_eq]. eauto 6.
Qed.

Lemma renew_or_insert_ok s k inviter invitee m token renew :
  accounts_ok s -> ready s k inviter invitee ->
  (forall v, iv_id (renew v) = iv_id v /\ iv_kind (renew v) = iv_kind v /\ iv_inviter (renew v) = iv_inviter v /\ iv_invitee (renew v) = iv_invitee v) ->
  accounts_ok (final (renew_or_insert k inviter invitee m token renew) s).
Proof.
  intros Hs Hr Hn. unfold renew_or_insert. rewrite final_get_bind.
  destruct (pair_invite s k inviter invitee) as [v|] eqn:Ep; [|by apply insert_ready_ok].
  destruct (isInviteWaiting s v); [done|]. apply pair_invite_Some in Ep as ([i Hi] & Hk & Hin & Hu).
  destruct (Hn v) as (E1 & E2 & E3 & E4), (ak_invite_ids s Hs i v Hi).
  apply (save_ready_ok s k inviter invitee); try done; congruence.
Qed.

Lemma gentle_company_name name : gentle (with_company_name name).
Proof. intros u. by destruct name. Qed.

Lemma gentle_compose f g : gentle f -> gentle g -> gentle (fun u => f (g u)).
Proof. intros Hf Hg u. destruct (Hg u) as [E1 H1], (Hf (g u)) as [E2 H2]. split; [congruence | auto]. Qed.

(** An edit of the row of an account that is there *)
Lemma edit_account_ok s i u u' :
  accounts_ok s -> ac_users s !! i = Some u -> a_id u' = a_id u -> requests_ok u' -> accounts_ok (put_account u' s).
Proof. intros Hs Hi E Hr. destruct (ak_user_ids s Hs i u Hi). by apply (put_account_ok s i u); [|done|congruence|]. Qed.

Lemma existing_active s existing r rs :
  existing_active_roles s existing = r :: rs -> exists u, existing = Some u /\ active_roles s (a_id u) = r :: rs.
Proof. destruct existing as [u|]; [|done]. intros H. by exists u. Qed.

Lemma ready_ext s t k i u :
  ac_userRoles t = ac_userRoles s -> ac_invites t = ac_invites s -> ac_inviteHours t = ac_inviteHours s -> ac_now t = ac_now s ->
  ready s k i u -> ready t k i u.
Proof. intros E1 E2 E3 E4 [Hr Hf]. split; [by rewrite E1 | by apply (free_for_ext s)]. Qed.

Lemma invited_account_ok k other noRole noun c m name s r s1 :
  accounts_ok s -> invited_account k (kind_role k) other noRole noun c m name s = (r, s1) ->
  accounts_ok s1 /\ forall u, r = Ok u -> ready s1 k c u.
Proof.
  intros Hs. unfold invited_account. rewrite run_bind. unfold get. cbv beta iota zeta.
  assert (Hmake : existing_active_roles s (with_mobile s m) = [] ->
    (ensure (role_active s (kind_role k)) noRole ;;
     saved ← save_or_insert s (with_mobile s m) m (with_company_name name);
     add_role (a_id saved) (kind_role k) ;; mret (a_id saved)) s = (r, s1) ->
    accounts_ok s1 /\ forall u, r = Ok u -> ready s1 k c u).
  { intros He. rewrite run_bind. rewrite (ak_roles s Hs k). cbn [ensure]. rewrite run_ret.
    apply made_account_ready; [done|apply gentle_company_name|apply with_mobile_row|done]. }
  destruct (existing_active_roles s (with_mobile s m)) as [|r0 rs] eqn:Er; [by apply Hmake|].
  destruct (existing_active _ _ _ _ Er) as (u & Eu & Ea). rewrite Eu. clear Hmake.
  destruct (with_mobile_row s m u Eu) as [i Hi]. rewrite run_bind.
  destruct (bool_decide _) eqn:Hin; cbn [ensure]; [rewrite run_ret | by intros [= <- <-]].
  rewrite run_bind. destruct (assertInvitable _ _ _ _ s) as [[x|e] s2] eqn:Eas.
  2:{ pose proof (reads_run _ s _ s2 (assertInvitable_reads _ _ _ _) Eas) as ->. by intros [= <- <-]. }
  apply (assertInvitable_Ok s k c (a_id u)) in Eas as (-> & Hfree & _); [|done].
  assert (Hready : ready s k c (a_id u)).
  { split; [|done]. apply bool_decide_spec in Hin. rewrite <- Ea in Hin. by apply elem_of_active_roles in Hin as [? _]. }
  rewrite run_bind. destruct (eqb _ _); intros E; injection E as <- <-.
  - split; [done | by intros v [= <-]].
  - split; [|intros v [= <-]; by apply (ready_ext s)]. apply (edit_account_ok s i u); [done|done|done|].
    pose proof (ak_requests s Hs i u Hi) as [? _]. split; [done|]. done.
Qed.

(** What follows a step that answers [ready] *)
Lemma ready_bind {A B} k c (m : AM A) (f : A -> uuid) (h : A -> AM B) s :
  accounts_ok s -> (forall r s1, m s = (r, s1) -> accounts_ok s1 /\ forall a, r = Ok a -> ready s1 k c (f a)) ->
  (forall a s1, accounts_ok s1 -> ready s1 k c (f a) -> accounts_ok (final (h a) s1)) ->
  accounts_ok (final (m ≫= h) s).
Proof.
  intros Hs Hm Hh. unfold final. rewrite run_bind. specialize (Hm (m s).1 (m s).2 (surjective_pairing _)).
  destruct (m s) as [[a|e] s1]; destruct Hm as [H1 H2]; [|done]. by apply Hh; [|apply H2].
Qed.

Lemma renewed_same s token v :
  iv_id (renewed s token v) = iv_id v /\ iv_kind (renewed s token v) = iv_kind v /\
  iv_inviter (renewed s token v) = iv_inviter v /\ iv_invitee (renewed s token v) = iv_invitee v.
Proof. done. Qed.

Lemma read_mobile_ok t : ok (read_mobile t).
Proof. unfold read_mobile. preserve. Qed.
#[export] Hint Resolve read_mobile_ok : preserves.

Lemma createBrokerInvite_ok c m n token : ok (createBrokerInvite c m n token).
Proof.
  unfold createBrokerInvite. apply preserves_bind; [apply read_mobile_ok|intros mobile].
  apply preserves_bind; [apply preserves_transaction|intros v].
  - intros s Hs. apply (ready_bind BrokerKindInvite c _ id); [done| |].
    + intros r s1. by apply invited_account_ok.
    + intros a s1 H1 Hr. unfold broker_invite_save. rewrite final_get_bind. by apply renew_or_insert_ok.
  - apply preserves_bind; [apply preserves_gets|intros now]. apply preserves_bind; [|intros _; preserve].
    apply (preserves_zoom accounts_ok (fun _ => True)); [done|done|]. intros s b Hs _. by apply (accounts_ok_ext s).
Qed.

Lemma join_company_ok f c s : accounts_ok s -> accounts_ok (join_company f c s).
Proof. intros Hs. unfold join_company. case_bool_decide; [done|]. by apply (accounts_ok_ext s). Qed.

Lemma createFactoryInvite_ok c m n token : ok (createFactoryInvite c m n token).
Proof.
  unfold createFactoryInvite. apply preserves_bind; [apply read_mobile_ok|intros mobile].
  apply preserves_bind; [apply preserves_transaction|intros v; preserve].
  intros s Hs. apply (ready_bind FactoryKindInvite c _ id); [done| |].
  - intros r s1. by apply invited_account_ok.
  - intros a s1 H1 Hr. unfold final. rewrite run_bind. unfold modify. cbv beta iota. rewrite run_bind. unfold get. cbv beta iota.
    apply renew_or_insert_ok; [by apply join_company_ok| |done].
    unfold join_company. case_bool_decide; [done|]. by apply (ready_ext s1).
Qed.

Lemma assertParent_ok u m : ok (assertParent u m).
Proof. unfold assertParent. preserve. Qed.
#[export] Hint Resolve assertParent_ok : preserves.

Lemma invite_company_again_ok p u i m token s :
  accounts_ok s -> ac_users s !! i = Some u -> accounts_ok (final (invite_company_again p u m token) s).
Proof.
  intros Hs Hi. unfold invite_company_again. rewrite final_get_bind.
  destruct (bool_decide _) eqn:Hin; cbn [ensure]; [|done]. unfold final. rewrite run_bind, run_ret. cbv zeta.
  rewrite run_bind. destruct (assertInvitable _ _ _ _ s) as [[x|e] s2] eqn:Eas.
  2:{ by pose proof (reads_run _ s _ s2 (assertInvitable_reads _ _ _ _) Eas) as ->. }
  apply (assertInvitable_Ok s CompanyKindInvite p (a_id u)) in Eas as (-> & Hfree & _); [|done].
  apply bool_decide_spec, elem_of_role_names in Hin.
  assert (Hready : ready s CompanyKindInvite p (a_id u)) by (by split).
  set (s1 := put_account (u <| a_invitedByCompanyUserId := Some p |>) s).
  assert (H1 : accounts_ok s1) by (apply (edit_account_ok s i u); [done|done|done|exact (ak_requests s Hs i u Hi)]).
  assert (Hr1 : ready s1 CompanyKindInvite p (a_id u)) by (by apply (ready_ext s)).
  destruct (invites_of s CompanyKindInvite (a_id u)) as [|own rest] eqn:Eo.
  - exact (insert_ready_ok s1 _ _ _ m token H1 Hr1).
  - destruct (_ && _); [done|].
    assert (Hown : own ∈ invites_of s CompanyKindInvite (a_id u)) by (rewrite Eo; set_solver).
    apply elem_of_invites_of in Hown as (Hk & Hu & j & Hj). destruct (ak_invite_ids s Hs j own Hj) as [Hid Hlt].
    change (accounts_ok (final (save_invite ((renewed s token own) <| iv_inviter := p |>)) s1)).
    apply (save_ready_ok s1 CompanyKindInvite p (a_id u)); try done.
    change (iv_id own < ac_nextId s)%N. by rewrite Hid.
Qed.

Lemma gentle_invited_by p name : gentle (fun u => with_company_name name (u <| a_invitedByCompanyUserId := Some p |>)).
Proof. apply (gentle_compose _ (fun u => u <| a_invitedByCompanyUserId := Some p |>)); [apply gentle_company_name | by intros u]. Qed.

Lemma invite_company_new_ok p existing m name token s :
  accounts_ok s -> (forall u, existing = Some u -> exists i, ac_users s !! i = Some u) -> existing_roles s existing = [] ->
  accounts_ok (final (invite_company_new p existing m name token) s).
Proof.
  intros Hs He Hr. unfold invite_company_new. rewrite final_get_bind. change "COMPANY"%string with (kind_role CompanyKindInvite).
  rewrite (ak_roles s Hs). cbn [ensure]. unfold final. rewrite run_bind, run_ret.
  assert (Hact : existing_active_roles s existing = []).
  { destruct existing as [u|]; [|done]. cbn in Hr |- *. unfold active_roles. by rewrite Hr. }
  pose proof (fun r s1 => made_account_ready s existing m _ CompanyKindInvite p r s1 Hs (gentle_invited_by p name) He Hact) as Hmade.
  rewrite run_bind. destruct (save_or_insert s existing m _ s) as [[u|e] s1] eqn:E.
  - destruct (Hmade (Ok (a_id u)) (s1 <| ac_userRoles := ac_userRoles s1 ++ [(a_id u, kind_role CompanyKindInvite)] |>)) as [H2 Hr2].
    { rewrite run_bind, E. done. }
    exact (insert_ready_ok _ _ _ _ m token H2 (Hr2 _ eq_refl)).
  - destruct (Hmade (Err e) s1) as [H2 _]; [by rewrite run_bind, E | done].
Qed.

Lemma createCompanyInvite_ok p m n token : ok (createCompanyInvite p m n token).
Proof.
  unfold createCompanyInvite. apply preserves_bind; [apply assertParent_ok|intros _].
  apply preserves_bind; [apply read_mobile_ok|intros mobile].
  apply preserves_bind; [apply preserves_transaction|intros v; preserve].
  intros s Hs. rewrite final_get_bind. cbv zeta.
  assert (He : forall u, with_mobile s mobile = Some u -> exists i, ac_users s !! i = Some u) by apply with_mobile_row.
  destruct (with_mobile s mobile) as [u|] eqn:Eu.
  - destruct (existing_roles s (Some u)) eqn:Er; [by apply invite_company_new_ok|].
    destruct (He u eq_refl) as [i Hi]. by apply (invite_company_again_ok p u i).
  - by apply invite_company_new_ok.
Qed.

(** ** Drivers *)

Lemma gentle_new_driver name : gentle (fun u => with_person_name name (u <| a_verificationStatus := VerNone |>)).
Proof.
  apply (gentle_compose _ (fun u => u <| a_verificationStatus := VerNone |>)).
  - intros u. destruct name as [n|]; [|done]. unfold with_person_name. by destruct (split_runs is_space n).
  - intros u. split; [done|]. intros [? _]. by split.
Qed.

Lemma driverAccount_cases s d :
  (exists e, driverAccount s d s = (Err e, s)) \/
  (driverAccount s d s = (Ok true, s) /\ exists u, d = Some u /\ (a_id u, "DRIVER"%string) ∈ ac_userRoles s) \/
  (driverAccount s d s = (Ok false, s) /\ existing_active_roles s d = []).
Proof.
  unfold driverAccount. rewrite run_bind. destruct (existing_active_roles s d) as [|r rs] eqn:Er; [by right; right|].
  destruct (existing_active _ _ _ _ Er) as (u & -> & Ea). destruct (bool_decide _) eqn:Hin; cbn [length Nat.eqb orb ensure]; [|left; by eexists].
  right. left. split; [done|]. exists u. split; [done|]. apply bool_decide_spec in Hin. rewrite <- Ea in Hin.
  by apply elem_of_active_roles in Hin as [? _].
Qed.

Lemma driver_account_ok c m name s r s1 :
  accounts_ok s -> driver_account c m name s = (r, s1) ->
  accounts_ok s1 /\ forall p, r = Ok p -> ready s1 DriverKindInvite c p.1.
Proof.
  intros Hs. unfold driver_account. rewrite run_bind. unfold get. cbv beta iota zeta. rewrite run_bind.
  destruct (driverAccount_cases s (with_mobile s m)) as [[e ->]|[[-> (u & Eu & Hrole)]|[-> Hno]]]; [by intros [= <- <-]| |].
  - rewrite Eu. rewrite run_bind. destruct (assertInvitable _ _ _ _ s) as [[x|e] s2] eqn:Eas.
    2:{ pose proof (reads_run _ s _ s2 (assertInvitable_reads _ _ _ _) Eas) as ->. by intros [= <- <-]. }
    apply (assertInvitable_Ok s DriverKindInvite c (a_id u)) in Eas as (-> & Hfree & _); [|done].
    intros E. injection E as <- <-. split; [done|]. by intros v [= <-].
  - unfold new_driver. intros E.
    assert (H : (saved ← save_or_insert s (with_mobile s m) m (fun u => with_person_name name (u <| a_verificationStatus := VerNone |>));
                 add_role (a_id saved) (kind_role DriverKindInvite) ;; mret (a_id saved)) s
                = (match r with Ok p => Ok p.1 | Err e => Err e end, s1)).
    { revert E. rewrite run_bind, run_bind. change "DRIVER"%string with (kind_role DriverKindInvite).
      rewrite (ak_roles s Hs DriverKindInvite). cbn [ensure]. rewrite run_ret, !run_bind.
      by destruct (save_or_insert _ _ _ _ s) as [[a|e] s3]; intros [= <- <-]. }
    destruct (made_account_ready s _ m _ DriverKindInvite c _ s1 Hs (gentle_new_driver name) (with_mobile_row s m) Hno H) as [H1 H2].
    split; [done|]. intros p ->. by apply H2.
Qed.

Lemma join_driver_ok d c s : accounts_ok s -> accounts_ok (join_driver d c s).
Proof.
  intros Hs. unfold join_driver. destruct (ac_profiles s !! d); [case_bool_decide; [done|]|]; by apply (accounts_ok_ext s).
Qed.

Lemma registered_weaker s v : weaker s (registered s v) v.
Proof. do 5 (split; [done|]). intros Hw. unfold isInviteWaiting in Hw. by rewrite andb_false_r in Hw. Qed.

(** The row [renew_or_insert] answers is in the table. *)
Lemma renew_or_insert_row s k i u m token renew v s1 :
  accounts_ok s -> (forall v, iv_id (renew v) = iv_id v) -> renew_or_insert k i u m token renew s = (Ok v, s1) ->
  ac_invites s1 !! iv_id v = Some v.
Proof.
  intros Hs Hn. unfold renew_or_insert. rewrite run_bind. unfold get. cbv beta iota.
  destruct (pair_invite s k i u) as [w|] eqn:Ep.
  - apply pair_invite_Some in Ep as ([j Hj] & _). destruct (ak_invite_ids s Hs j w Hj) as [Hid _].
    destruct (isInviteWaiting s w); [intros [= <- <-]; by rewrite Hid|].
    destruct (save_invite_cases (renew w) s) as [[e ->]|[_ ->]]; intros [= <- <-]. apply lookup_insert_eq.
  - unfold insert_invite. rewrite run_bind. unfold get. cbv beta iota. rewrite run_bind.
    destruct (save_invite_cases (new_invite s k i u m token) s) as [[e ->]|[_ ->]]; [done|].
    intros E. injection E as <- <-. apply lookup_insert_eq.
Qed.

Lemma inviteOne_ok c m name token direct : ok (inviteOne c m name token direct).
Proof.
  intros s Hs. unfold inviteOne. apply (ready_bind DriverKindInvite c _ fst); [done| |].
  { intros r s1. by apply driver_account_ok. }
  intros [d created] s1 H1 Hr. cbn [fst] in Hr. unfold final. rewrite run_bind. unfold modify at 1. cbv beta iota.
  rewrite run_bind. unfold get. cbv beta iota. set (s2 := join_driver d c s1).
  assert (H2 : accounts_ok s2) by (by apply join_driver_ok).
  assert (Hr2 : ready s2 DriverKindInvite c d).
  { unfold s2, join_driver. destruct (ac_profiles s1 !! d); [case_bool_decide; [done|]|]; by apply (ready_ext s1). }
  pose proof (renew_or_insert_ok s2 DriverKindInvite c d m token (renewed_driver s2 token) H2 Hr2 ltac:(done)) as H3.
  rewrite run_bind. unfold final in H3. destruct (renew_or_insert _ _ _ _ _ _ s2) as [[v|e] s3] eqn:E; [|done].
  rewrite run_bind. destruct direct; [|done]. cbn [when]. unfold modify. cbv beta iota.
  apply (put_weaker_ok s3 (iv_id v) _ v); [done| |].
  - by apply (renew_or_insert_row s2 DriverKindInvite c d m token (renewed_driver s2 token)).
  - destruct (registered_weaker s2 v) as (E1 & E2 & E3 & E4 & E5 & _). do 5 (split; [done|]).
    intros Hw. unfold isInviteWaiting in Hw. by rewrite andb_false_r in Hw.
Qed.

Lemma invite_batch_ok c l seen direct : ok (invite_batch c l seen direct).
Proof.
  revert seen. induction l as [|[input token] l IH]; intros seen; cbn [invite_batch]; [apply preserves_ret|].
  apply preserves_if; intros _; [apply preserves_bind; [apply IH | intros; apply preserves_ret]|].
  apply preserves_if; intros _; [apply IH|]. apply preserves_bind.
  - unfold try_invite. apply preserves_try_catch; [apply preserves_transaction, inviteOne_ok|].
    intros e. destruct e; preserve.
  - intros o. apply preserves_bind; [apply IH | intros; apply preserves_ret].
Qed.

Lemma inviteAll_ok c l direct : ok (inviteAll c l direct).
Proof. unfold inviteAll. preserve. apply invite_batch_ok. Qed.

Lemma invite_ok c l : ok (invite c l).
Proof.
  unfold invite. apply preserves_bind; [apply inviteAll_ok|intros o]. apply preserves_bind; [|intros; apply preserves_ret].
  apply preserves_for_each. intros x _. unfold notify_driver. destruct x; preserve.
Qed.

Lemma register_ok c l : ok (register c l).
Proof. unfold register. apply preserves_bind; [apply assertParent_ok|intros _; apply inviteAll_ok]. Qed.

(** ** Taken back, used, expired *)

Lemma not_waiting_weaker s f v :
  iv_id (f v) = iv_id v -> iv_kind (f v) = iv_kind v -> iv_token (f v) = iv_token v -> iv_inviter (f v) = iv_inviter v ->
  iv_invitee (f v) = iv_invitee v -> isInviteWaiting s (f v) = false -> weaker s (f v) v.
Proof. intros. do 5 (split; [done|]). congruence. Qed.

Lemma used_not_waiting s v t : isInviteWaiting s (v <| iv_usedAt := Some t |>) = false.
Proof. unfold isInviteWaiting. by rewrite andb_false_r. Qed.

Lemma revoked_not_waiting s v t : isInviteWaiting s (v <| iv_revokedAt := Some t |>) = false.
Proof. done. Qed.

Lemma revoke_pair_ok k i u : ok (revoke_pair k i u).
Proof.
  intros s Hs. unfold revoke_pair. rewrite final_get_bind. unfold final. rewrite run_bind.
  unfold modify. cbv beta iota. change (accounts_ok (s <| ac_invites :=
    (fun v => if in_list k i u v then v <| iv_revokedAt := Some (ac_now s) |> else v) <$> ac_invites s |>)).
  apply weaken_invites_ok; [done|]. intros v. destruct (in_list k i u v); [|by do 5 (split; [done|])].
  by apply (not_waiting_weaker s (fun v => v <| iv_revokedAt := Some (ac_now s) |>)).
Qed.

Lemma untie_ok k u i s : accounts_ok s -> accounts_ok (untie k u i s).
Proof.
  intros Hs. destruct k; try by apply (accounts_ok_ext s).
  apply users_ok; [done| |].
  - intros j w Hj. rewrite lookup_alter in Hj. case_decide as E; [|destruct (ak_user_ids s Hs j w Hj); by pose proof (ak_requests s Hs j w Hj)].
    subst j. destruct (ac_users s !! u) as [x|] eqn:Ex; [|done]. cbn in Hj. injection Hj as <-.
    destruct (ak_user_ids s Hs u x Ex). pose proof (ak_requests s Hs u x Ex). by case_bool_decide.
  - intros j [w Hw]. rewrite lookup_alter. case_decide as E; [|by exists w]. subst j. rewrite Hw. by eexists.
Qed.

Lemma untie_modify_ok k u i : ok (modify (untie k u i)).
Proof. apply preserves_modify. intros s Hs. by apply untie_ok. Qed.
#[export] Hint Resolve revoke_pair_ok untie_modify_ok : preserves.

Lemma removeBroker_ok c b : ok (removeBroker c b).
Proof. unfold removeBroker. preserve. Qed.
Lemma removeFactory_ok c f : ok (removeFactory c f).
Proof. unfold removeFactory. preserve. Qed.
Lemma removeDriver_ok c d : ok (removeDriver c d).
Proof. unfold removeDriver. preserve. Qed.

Lemma activeInvite_row s k token v : activeInvite s k token = Some v -> iv_kind v = k /\ exists i, ac_invites s !! i = Some v.
Proof.
  assert (Hin : forall w, in_force s k token = Some w -> iv_kind w = k /\ exists i, ac_invites s !! i = Some w).
  { unfold in_force. intros w. destruct (is_token token); [|done]. destruct (find_row _ _) as [x|] eqn:Ef; [|done].
    destruct (isInviteExpired s x); [done|]. intros [= <-]. apply find_row_Some in Ef as [Hk Hi]. split; [|done].
    apply andb_true_iff in Hk as [Hk _]. apply andb_true_iff in Hk as [Hk _]. by apply eqb_eq in Hk. }
  unfold activeInvite. destruct (in_force s k token) as [w|]; [|done].
  destruct k; repeat destruct (has_menu _ _ _); intros [= <-]; by apply Hin.
Qed.

(** A row marked as used *)
Lemma put_used_ok s k token v w :
  accounts_ok s -> activeInvite s k token = Some v -> iv_id w = iv_id v -> iv_kind w = iv_kind v -> iv_token w = iv_token v ->
  iv_inviter w = iv_inviter v -> iv_invitee w = iv_invitee v -> iv_usedAt w <> None -> accounts_ok (put_invite w s).
Proof.
  intros Hs Ha E1 E2 E3 E4 E5 Hu. destruct (activeInvite_row s k token v Ha) as [_ [i Hi]].
  apply (put_weaker_ok s i w v); [done|done|]. do 5 (split; [done|]). unfold isInviteWaiting.
  destruct (iv_usedAt w); [by rewrite andb_false_r | done].
Qed.

Lemma came_in_ok k u token : ok (came_in k u token).
Proof.
  intros s Hs. unfold came_in. rewrite final_get_bind. destruct (activeInvite s k token) as [v|] eqn:Ea; [|done].
  destruct (_ =? _)%N; [|done]. unfold final. rewrite run_bind. destruct (is_null (iv_usedAt v)); [|done].
  cbn [when]. unfold modify. cbv beta iota. by apply (put_used_ok s k token v).
Qed.

Lemma isInvitedDriver_ok u token : ok (isInvitedDriver u token).
Proof.
  intros s Hs. unfold isInvitedDriver. rewrite final_get_bind. destruct (activeInvite s _ token) as [v|] eqn:Ea; [|done].
  destruct (_ =? _)%N; [|done]. unfold final. rewrite run_bind. destruct (_ || _); [|done]. cbn [when].
  rewrite run_bind. unfold modify at 1. cbv beta iota. apply publish_account_ok. by apply (put_used_ok s DriverKindInvite token v).
Qed.

Lemma mark_kind_ok m k : ok (mark_kind m k).
Proof.
  intros s Hs. unfold mark_kind. rewrite final_get_bind. cbv zeta. unfold final. rewrite run_bind. unfold modify. cbv beta iota.
  refine (preserves_for_each accounts_ok _ _ (fun v _ => publish_account_ok _) _ _).
  change (accounts_ok (s <| ac_invites :=
    (fun v => if unused_for k m v then v <| iv_usedAt := Some (ac_now s) |> else v) <$> ac_invites s |>)).
  apply weaken_invites_ok; [done|]. intros v. destruct (unused_for k m v); [|by do 5 (split; [done|])].
  apply (not_waiting_weaker s (fun v => v <| iv_usedAt := Some (ac_now s) |>)); try done. apply used_not_waiting.
Qed.

Lemma markInvitesUsed_ok m : ok (markInvitesUsed m).
Proof.
  unfold markInvitesUsed. destruct m as [m|]; [|apply preserves_ret]. destruct (is_empty m); [apply preserves_ret|].
  apply preserves_for_each. intros k _. apply mark_kind_ok.
Qed.
#[export] Hint Resolve markInvitesUsed_ok : preserves.

Lemma elem_of_kept_roles (id : uuid) l u n :
  (u, n) ∈ List.filter (fun p : uuid * string => negb (p.1 =? id)%N) l <-> (u, n) ∈ l /\ u <> id.
Proof. rewrite list_elem_of_In, filter_In, <- list_elem_of_In, negb_true_iff, N.eqb_neq. done. Qed.

Lemma forget_inviter_same id u :
  a_id (forget_inviter id u) = a_id u /\ (requests_ok u -> requests_ok (forget_inviter id u)).
Proof. unfold forget_inviter. by case_bool_decide. Qed.

Lemma delete_account_ok id s : accounts_ok s -> accounts_ok (delete_account id s).
Proof.
  intros [].
  assert (Hu : forall i u, ac_users (delete_account id s) !! i = Some u -> i <> id /\ exists w, ac_users s !! i = Some w /\ u = forget_inviter id w).
  { intros i u. change (ac_users (delete_account id s)) with (forget_inviter id <$> delete id (ac_users s)).
    intros (w & <- & [Hne Hi]%lookup_delete_Some)%lookup_fmap_Some. split; [done | by exists w]. }
  assert (Hv : forall i v, ac_invites (delete_account id s) !! i = Some v -> ac_invites s !! i = Some v /\ owns_invite id v = false).
  { intros i v. change (ac_invites (delete_account id s)) with (base.filter (fun p => owns_invite id p.2 = false) (ac_invites s)).
    by intros [Hi Ho]%map_lookup_filter_Some. }
  constructor.
  - intros i u (Hne & w & Hi & ->)%Hu. destruct (ak_user_ids0 i w Hi), (forget_inviter_same id w) as [-> _]. done.
  - intros i u (Hne & w & Hi & ->)%Hu. apply forget_inviter_same. by apply (ak_requests0 i).
  - intros i v [Hi _]%Hv. by apply ak_invite_ids0.
  - done.
  - intros u n Hr. change (ac_userRoles (delete_account id s)) with (List.filter (fun p : uuid * string => negb (p.1 =? id)%N) (ac_userRoles s)) in Hr.
    apply elem_of_kept_roles in Hr as [Hr Hne]. destruct (ak_role_users0 u n Hr) as [w Hw]. exists (forget_inviter id w).
    change (ac_users (delete_account id s)) with (forget_inviter id <$> delete id (ac_users s)).
    rewrite lookup_fmap, lookup_delete_ne by done. by rewrite Hw.
  - intros i v [Hi Ho]%Hv. change (ac_userRoles (delete_account id s)) with (List.filter (fun p : uuid * string => negb (p.1 =? id)%N) (ac_userRoles s)).
    apply elem_of_kept_roles. split; [by apply (ak_invited0 i)|]. apply orb_false_iff in Ho as [_ Ho%N.eqb_neq]. done.
  - intros i j v w [Hi _]%Hv [Hj _]%Hv. by apply ak_unique0.
  - intros i j v w [Hi _]%Hv [Hj _]%Hv. by apply (ak_one0 i j).
Qed.

Lemma revoke_one_ok id : ok (revoke_one id).
Proof.
  unfold revoke_one. apply preserves_transaction. intros s Hs. rewrite final_get_bind.
  destruct (ac_invites s !! id) as [v|] eqn:Ev; [|done]. destruct (_ && _); [|done]. cbv zeta.
  unfold final. rewrite run_bind. unfold modify at 1. cbv beta iota. rewrite run_bind. unfold modify at 1. cbv beta iota.
  rewrite run_bind. unfold get. cbv beta iota.
  set (s2 := untie _ _ _ _). assert (H2 : accounts_ok s2).
  { apply untie_ok, (put_weaker_ok s id _ v); [done|done|]. by apply (not_waiting_weaker s (fun v => v <| iv_revokedAt := Some (ac_now s) |>)). }
  rewrite run_bind. destruct (disposable _ _); [|done]. cbn [when]. unfold modify. cbv beta iota. by apply delete_account_ok.
Qed.

Lemma expire_one_ok id : ok (expire_one id).
Proof. unfold expire_one. apply preserves_bind; [apply revoke_one_ok|]. intros [v|]; preserve. Qed.

Lemma expireStaleInvites_ok : ok expireStaleInvites.
Proof.
  apply preserves_for_each. intros k _. unfold expire_kind. apply preserves_get_bind. intros s _.
  apply preserves_for_each. intros id _. apply expire_one_ok.
Qed.

(** ** Checks and sign-ups *)

Lemma verification_state_reads u : reads (verification_state u).
Proof. intros ?. unfold verification_state. preserve. Qed.

Lemma verification_state_Ok u s st s1 :
  verification_state u s = (Ok st, s1) -> exists v, ac_users s !! u = Some v /\ st = state_of s v /\ s1 = s.
Proof.
  intros H. pose proof (reads_run _ s _ s1 (verification_state_reads u) H) as ->. unfold verification_state in H.
  run_inv. by exists a0.
Qed.

Lemma can_request_bound s v : vs_canRequest (state_of s v) = true -> a_verificationRequests v < MAX_VERIFICATION_REQUESTS.
Proof.
  unfold state_of. destruct (negb _); [done|]. cbn [vs_canRequest]. intros [_ H%Z.ltb_lt]%andb_true_iff.
  unfold remaining_of in H. lia.
Qed.

Lemma request_ok u : ok (request u).
Proof.
  intros s Hs. unfold request. apply reads_bind; [apply verification_state_reads|done|]. intros st Hst.
  unfold result in Hst. destruct (verification_state u s) as [[st'|e] s1] eqn:Est; [|done]. injection Hst as ->.
  apply verification_state_Ok in Est as (v & Hv & -> & _).
  apply reads_bind; [intros ?; preserve|done|]. intros _ _.
  apply reads_bind; [intros ?; preserve|done|]. intros _ _.
  apply reads_bind; [intros ?; preserve|done|]. intros [] Hc.
  assert (Hcan : vs_canRequest (state_of s v) = true) by (by destruct (vs_canRequest _)).
  apply reads_bind; [intros ?; preserve|done|]. intros _ _. rewrite final_get_bind, Hv.
  destruct (_ || _); [|done]. apply reads_bind; [intros ?; preserve|done|]. intros w Hw. injection Hw as <-.
  unfold final. rewrite run_bind. unfold modify at 1. cbv beta iota. rewrite run_bind. unfold get. cbv beta iota.
  set (s2 := put_account _ s). assert (H2 : accounts_ok s2).
  { apply (edit_account_ok s u v); [done|done|done|]. destruct (ak_requests s Hs u v Hv) as [? _].
    pose proof (can_request_bound s v Hcan). unfold requests_ok. cbn. lia. }
  assert (Hend : ok (publish_account (VerificationRequested u (account_name s2 u)) ;; verification_state u)).
  { apply preserves_bind; [apply publish_account_ok|intros _]. apply reads_preserves, verification_state_reads. }
  by apply Hend.
Qed.

Lemma approved_requests p now k v : requests_ok v -> requests_ok (approved_account p now k v) /\ a_id (approved_account p now k v) = a_id v.
Proof. intros [? _]. unfold approved_account. by destruct (eqb k CompanyAccount). Qed.

Lemma approve_account_ok p u : ok (approve p u).
Proof.
  unfold approve. apply preserves_bind; [apply assertParent_ok|intros _].
  apply preserves_bind; [apply preserves_transaction|intros _; preserve].
  intros s Hs. rewrite final_get_bind. destruct (ac_users s !! u) as [v|] eqn:Ev; [|done].
  apply reads_bind; [intros ?; preserve|done|]. intros w Hw. injection Hw as <-.
  apply reads_bind; [intros ?; preserve|done|]. intros _ _. cbv zeta. unfold final. rewrite run_bind.
  unfold modify at 1. cbv beta iota. set (s2 := put_account _ s). assert (H2 : accounts_ok s2).
  { destruct (approved_requests p (ac_now s) (kindOf s u) v (ak_requests s Hs u v Ev)). by apply (edit_account_ok s u v). }
  destruct (eqb _ _); [|done]. cbn [when]. unfold modify. cbv beta iota. by apply join_company_ok.
Qed.

Lemma reject_account_ok p u reason : ok (reject p u reason).
Proof.
  unfold reject. apply preserves_bind; [apply assertParent_ok|intros _].
  intros s Hs. rewrite final_get_bind. destruct (ac_users s !! u) as [v|] eqn:Ev; [|done]. destruct (eqb _ _); [|done].
  apply reads_bind; [intros ?; preserve|done|]. intros w Hw. injection Hw as <-.
  apply reads_bind; [intros ?; preserve|done|]. intros _ _. unfold final. rewrite run_bind.
  unfold modify at 1. cbv beta iota. set (s2 := put_account _ s). assert (H2 : accounts_ok s2).
  { apply (edit_account_ok s u v); [done|done|done|]. by destruct (ak_requests s Hs u v Ev). }
  assert (Hend : forall st, ok (s ← get; publish_account (VerificationDecided u (account_name s u) false (Some reason) (Some (vs_remaining st))) ;;
                     mret (vs_remaining st))).
  { intros st. preserve. }
  rewrite run_bind. destruct (verification_state u s2) as [[st|e] s3] eqn:Est;
    pose proof (reads_run _ s2 _ s3 (verification_state_reads u) Est) as ->; [by apply Hend | done].
Qed.

Lemma createWithRole_ok u n : a_verificationRequests u = 0 -> a_verificationStatus u <> VerPending ->
  forall s, accounts_ok s -> a_id u = ac_nextId s -> accounts_ok (final (createWithRole u n) s).
Proof.
  intros H0 Hp s Hs Hid. unfold createWithRole, final, transaction. rewrite run_bind. unfold get. cbv beta iota.
  destruct (role_active s n); cbn [ensure]; [|done]. rewrite run_bind, run_ret, run_bind.
  destruct (insert_account_cases u s) as [[e ->]| ->]; [done|]. rewrite run_bind.
  change (accounts_ok ((bump (put_account u s)) <| ac_userRoles := ac_userRoles s ++ [(a_id u, n)] |>)).
  apply (add_role_ok (bump (put_account u s))).
  - apply put_new_account_ok; [done|done|]. split; [rewrite H0; unfold MAX_VERIFICATION_REQUESTS; lia | done].
  - exists u. apply lookup_insert_eq.
Qed.

Lemma create_ok phone t : ok (create phone t).
Proof.
  intros s Hs. unfold create. rewrite final_get_bind. unfold final, try_catch.
  pose proof (createWithRole_ok (phone_account s phone t) (account_role t) eq_refl
    ltac:(unfold phone_account; cbn; by destruct (is_type _ _)) s Hs eq_refl) as H.
  unfold final in H. destruct (createWithRole _ _ s) as [[u|e] s1]; [done|]. cbn in H.
  case_bool_decide; [|done]. rewrite run_bind. unfold get. cbv beta iota. by destruct (findByMobile s1 phone).
Qed.

Lemma assignInitialRole_ok u n : ok (assignInitialRole u n).
Proof.
  unfold assignInitialRole. apply preserves_transaction. intros s Hs. rewrite final_get_bind.
  unfold findById. destruct (ac_users s !! u) as [v|] eqn:Ev; [|done]. destruct (eqb _ _); [|done].
  apply reads_bind; [intros ?; preserve|done|]. intros w Hw. injection Hw as <-.
  destruct (role_names s u); [|done]. apply reads_bind; [intros ?; preserve|done|]. intros _ _.
  apply (add_role_ok s u n); [done|by exists v].
Qed.

Lemma assignRole_ok u t : ok (assignRole u t).
Proof.
  unfold assignRole. apply preserves_bind; [apply assignInitialRole_ok|intros _].
  intros s Hs. rewrite final_get_bind. unfold findById. destruct (ac_users s !! u) as [v|] eqn:Ev; [|done].
  apply reads_bind; [intros ?; preserve|done|]. intros w Hw. injection Hw as <-. cbv zeta.
  set (v1 := if _ && _ && _ then v <| a_verificationStatus := VerNone |> else v).
  set (v2 := if _ && _ then v1 <| a_profileType := Some CustCompany |> else v1).
  assert (H2 : a_id v2 = a_id v /\ requests_ok v2).
  { destruct (ak_requests s Hs u v Ev) as [Hb Hp]. unfold v2, v1.
    destruct (is_type t VERIFIED_ACCOUNT_TYPES && _ && _); destruct (is_type t LEGAL_ACCOUNT_TYPES && _);
      (split; [done|split; [exact Hb|first [exact Hp | done]]]). }
  destruct (_ || _); [|done]. unfold final. destruct (save_account_cases v2 s) as [[e ->]| ->]; [done|].
  destruct H2 as [E2 R2]. by apply (edit_account_ok s u v).
Qed.

(** ** Time *)

Lemma tick_ok s ms : accounts_ok s -> accounts_ok (s <| ac_now := ac_now s + Z.of_N ms |>).
Proof.
  intros [].
  assert (Hw : forall v, isInviteWaiting (s <| ac_now := ac_now s + Z.of_N ms |>) v = true -> isInviteWaiting s v = true).
  { intros v. unfold isInviteWaiting, isInviteExpired. rewrite !andb_true_iff, !negb_true_iff, !andb_false_iff, !Z.ltb_ge.
    change (inviteExpiryHours (s <| ac_now := ac_now s + Z.of_N ms |>)) with (inviteExpiryHours s).
    change (ac_now (s <| ac_now := ac_now s + Z.of_N ms |>)) with (ac_now s + Z.of_N ms). intuition lia. }
  constructor; try done. intros i j v w Hi Hj Hk Hu Hv Hw'. apply (ak_one0 i j); auto.
Qed.

(** ** Every handler *)

Inductive account_op :=
| OpInviteCompany (parent : uuid) (mobile : text) (name : option text) (token : text)
| OpInviteBroker (company : uuid) (mobile : text) (name : option text) (token : text)
| OpInviteFactory (company : uuid) (mobile : text) (name : option text) (token : text)
| OpInviteDrivers (company : uuid) (drivers : list (DriverInviteInput * text))
| OpRegisterDrivers (company : uuid) (drivers : list (DriverInviteInput * text))
| OpRemoveBroker (company broker : uuid)
| OpRemoveFactory (company factory : uuid)
| OpRemoveDriver (company driver : uuid)
| OpCameIn (kind : InviteKind) (userId : uuid) (token : text)
| OpMarkUsed (mobile : option text)
| OpSweep
| OpAsk (userId : uuid)
| OpApprove (parent userId : uuid)
| OpReject (parent userId : uuid) (reason : text)
| OpSignUp (phone : text) (t : AccountType)
| OpAssignRole (userId : uuid) (t : AccountType)
| OpAccountTick (ms : N).

Definition exec_account (op : account_op) (s : account_state) : account_state :=
  match op with
  | OpInviteCompany p m n t => final (createCompanyInvite p m n t) s
  | OpInviteBroker c m n t => final (createBrokerInvite c m n t) s
  | OpInviteFactory c m n t => final (createFactoryInvite c m n t) s
  | OpInviteDrivers c l => final (invite c l) s
  | OpRegisterDrivers c l => final (register c l) s
  | OpRemoveBroker c b => final (removeBroker c b) s
  | OpRemoveFactory c f => final (removeFactory c f) s
  | OpRemoveDriver c d => final (removeDriver c d) s
  | OpCameIn DriverKindInvite u t => final (isInvitedDriver u t) s
  | OpCameIn k u t => final (came_in k u t) s
  | OpMarkUsed m => final (markInvitesUsed m) s
  | OpSweep => final expireStaleInvites s
  | OpAsk u => final (request u) s
  | OpApprove p u => final (approve p u) s
  | OpReject p u r => final (reject p u r) s
  | OpSignUp phone t => final (create phone t) s
  | OpAssignRole u t => final (assignRole u t) s
  | OpAccountTick ms => s <| ac_now := ac_now s + Z.of_N ms |>
  end.

Definition run_accounts (ops : list account_op) (s : account_state) : account_state :=
  foldl (fun s op => exec_account op s) s ops.

Lemma exec_account_ok op s : accounts_ok s -> accounts_ok (exec_account op s).
Proof.
  intros Hs. destruct op as [| | | | | | | |k u t| | | | | | | |]; cbn [exec_account].
  - by apply createCompanyInvite_ok.
  - by apply createBrokerInvite_ok.
  - by apply createFactoryInvite_ok.
  - by apply invite_ok.
  - by apply register_ok.
  - by apply removeBroker_ok.
  - by apply removeFactory_ok.
  - by apply removeDriver_ok.
  - destruct k; [by apply isInvitedDriver_ok | by apply came_in_ok..].
  - by apply markInvitesUsed_ok.
  - by apply expireStaleInvites_ok.
  - by apply request_ok.
  - by apply approve_account_ok.
  - by apply reject_account_ok.
  - by apply create_ok.
  - by apply assignRole_ok.
  - by apply tick_ok.
Qed.

Lemma run_accounts_ok ops s : accounts_ok s -> accounts_ok (run_accounts ops s).
Proof. unfold run_accounts. revert s. induction ops as [|op ops IH]; intros s Hs; [done|]. by apply IH, exec_account_ok. Qed.
