(* ===== verification/AccountProperties.v ===== *)
(** * What invitations and checks promise

    An account waits for one inviter at a time, the sweep ends what nobody used and
    takes only accounts nobody came in with, checks are bounded, and an approval opens
    no menu by itself. *)

From S2P Require Import Prelude JsNumber JsString Json Effects Enums Phone DriverProfile BrokerAccess CompanyFeatures Accounts Invites AccountVerification AccountFacts.

(** ** One inviter at a time *)

(** C22: As long as no two invitations of one account are made at once, whatever invitations are
    made, taken back, used or swept, and whoever signs up in between, two invitations of one
    kind that wait for the same account are of one inviter.  Of invitations made at once this
    is not said: [racing_invites] is the case where two companies' both wait. *)
Theorem invited_by_one (s0 : account_state) (ops : list account_op) :
  accounts_ok s0 ->
  let s := run_accounts ops s0 in
  forall i j v w, ac_invites s !! i = Some v -> ac_invites s !! j = Some w -> iv_kind v = iv_kind w ->
    iv_invitee v = iv_invitee w -> isInviteWaiting s v = true -> isInviteWaiting s w = true -> iv_inviter v = iv_inviter w.
Proof. intros H0 s. pose proof (run_accounts_ok ops s0 H0) as Hs. exact (ak_one s Hs). Qed.

Lemma pair_invite_None s k inviter invitee i w :
  pair_invite s k inviter invitee = None -> ac_invites s !! i = Some w -> iv_kind w = k -> iv_invitee w = invitee -> iv_inviter w <> inviter.
Proof.
  unfold pair_invite. rewrite find_row_None. intros Hn Hw <- <- <-. specialize (Hn i w). cbn beta in Hn. rewrite N.eqb_refl in Hn.
  enough (true = false) by done. apply Hn, map_lookup_filter_Some. split; [done|]. cbn. by rewrite eqb_refl, N.eqb_refl.
Qed.

Lemma renew_or_insert_new s k inviter invitee mobile token renew :
  pair_invite s k inviter invitee = None -> k <> CompanyKindInvite -> (forall i w, ac_invites s !! i = Some w -> iv_token w <> token) ->
  renew_or_insert k inviter invitee mobile token renew s
  = (Ok (new_invite s k inviter invitee mobile token),
     (put_invite (new_invite s k inviter invitee mobile token) s) <| ac_nextId := N.succ (ac_nextId s) |>).
Proof.
  intros Hp Hk Ht. unfold renew_or_insert. rewrite run_bind. unfold get. cbv beta iota. rewrite Hp. unfold insert_invite.
  rewrite run_bind. unfold get. cbv beta iota. rewrite run_bind. unfold save_invite. rewrite run_bind. unfold get. cbv beta iota.
  assert (Hc : exists_row (invite_clash (new_invite s k inviter invitee mobile token)) (ac_invites s) = false).
  { apply exists_row_false. intros i w Hw. unfold invite_clash, new_invite. cbn.
    destruct (eqb k (iv_kind w)) eqn:Ek; [|by rewrite andb_false_r]. apply eqb_eq in Ek as ->.
    rewrite bool_decide_eq_false_2 by (intros E; by apply (Ht i w Hw)). cbn [orb].
    destruct (N.eqb_spec invitee (iv_invitee w)) as [->|]; [|by rewrite andb_false_r].
    destruct (eqb (iv_kind w) CompanyKindInvite) eqn:Ec; [by apply eqb_eq in Ec|]. destruct (N.eqb_spec inviter (iv_inviter w)) as [->|]; [|by rewrite andb_false_r].
    exfalso. by apply (pair_invite_None s (iv_kind w) (iv_inviter w) (iv_invitee w) i w Hp Hw). }
  rewrite Hc. reflexivity.
Qed.

(** Two companies that invite one broker at once: each is checked before the other has saved,
    so both pass, and where neither has a row with the broker yet both invitations wait. *)
Theorem racing_invites (s s1 s2 : account_state) (p q u : uuid) (mobile t1 t2 : text) (n1 n2 : option text) :
  p <> q -> t1 <> t2 -> 0 <= inviteExpiryHours s2 ->
  broker_invite_check p mobile n1 s = (Ok u, s1) -> broker_invite_check q mobile n2 s1 = (Ok u, s2) ->
  pair_invite s2 BrokerKindInvite p u = None -> pair_invite s2 BrokerKindInvite q u = None ->
  (forall i w, ac_invites s2 !! i = Some w -> (i < ac_nextId s2)%N /\ iv_token w <> t1 /\ iv_token w <> t2) ->
  exists v w s4, (v ← broker_invite_save p mobile t1 u; w ← broker_invite_save q mobile t2 u; mret (v, w)) s2 = (Ok (v, w), s4) /\
    ac_invites s4 !! iv_id v = Some v /\ ac_invites s4 !! iv_id w = Some w /\
    iv_inviter v = p /\ iv_inviter w = q /\ iv_invitee v = u /\ iv_invitee w = u /\
    isInviteWaiting s4 v = true /\ isInviteWaiting s4 w = true.
Proof.
  intros Hpq Ht Hh _ _ Hp Hq Hrows. unfold broker_invite_save.
  set (v := new_invite s2 BrokerKindInvite p u mobile t1). set (s3 := (put_invite v s2) <| ac_nextId := N.succ (ac_nextId s2) |>).
  set (w := new_invite s3 BrokerKindInvite q u mobile t2).
  exists v, w, ((put_invite w s3) <| ac_nextId := N.succ (ac_nextId s3) |>).
  assert (Hlook : forall i x, ac_invites s3 !! i = Some x -> x = v \/ ac_invites s2 !! i = Some x).
  { intros i x. change (ac_invites s3) with (<[ac_nextId s2 := v]> (ac_invites s2)). rewrite lookup_insert_Some. naive_solver. }
  assert (Hq3 : pair_invite s3 BrokerKindInvite q u = None).
  { unfold pair_invite. apply find_row_None. intros i x [Hx Hc]%map_lookup_filter_Some. cbn in Hc. apply andb_true_iff in Hc as [Hk%eqb_eq Hu%N.eqb_eq].
    destruct (Hlook i x Hx) as [-> | Hx2]; [by apply N.eqb_neq|]. apply N.eqb_neq. by apply (pair_invite_None s2 BrokerKindInvite q u i x Hq Hx2). }
  rewrite run_bind, run_bind. unfold get at 1. cbv beta iota.
  rewrite (renew_or_insert_new s2 BrokerKindInvite p u mobile t1) by (done || by (intros i x Hx; apply (Hrows i x Hx))). fold v s3.
  rewrite run_bind, run_bind. unfold get. cbv beta iota.
  rewrite (renew_or_insert_new s3 BrokerKindInvite q u mobile t2); [|done|done|].
  2: { intros i x [-> | Hx]%Hlook; [done | by apply (Hrows i x Hx)]. }
  split; [done|]. change (iv_id v) with (ac_nextId s2). change (iv_id w) with (N.succ (ac_nextId s2)).
  set (s4 := (put_invite w s3) <| ac_nextId := N.succ (ac_nextId s3) |>).
  change (ac_invites s4) with (<[N.succ (ac_nextId s2) := w]> (<[ac_nextId s2 := v]> (ac_invites s2))).
  split; [by rewrite lookup_insert_ne, lookup_insert_eq by lia|]. split; [by rewrite lookup_insert_eq|].
  do 4 (split; [done|]). unfold isInviteWaiting, isInviteExpired. change (inviteExpiryHours s4) with (inviteExpiryHours s2).
  change (ac_now s4) with (ac_now s2). unfold v, w, new_invite. cbn [iv_revokedAt iv_usedAt iv_createdAt is_null andb].
  change (ac_now s3) with (ac_now s2). unfold HOUR_MS. split; apply negb_true_iff; lia.
Qed.

(** ** The sweep *)

(** Why an account may go: an invitation made it, nobody came in, and every inviter that
    is still there has an unused invitation only *)
Definition may_go (s s1 : account_state) (u : uuid) (a : Account) : Prop :=
  (u ∉ ac_botLinks s /\ u ∉ ac_whatsapp s) /\
  exists i w, ac_invites s !! i = Some w /\ iv_invitee w = u /\ stale s (iv_kind w) w = true /\
    made_within (a_createdAt a) w = true /\
    forall j x, ac_invites s !! j = Some x -> iv_kind x = iv_kind w -> iv_invitee x = u ->
      is_Some (ac_users s1 !! iv_inviter x) -> iv_usedAt x = None.

Definition revoked_at (t : time) (w : Invite) : Invite := w <| iv_revokedAt := Some t |>.

(** What a sweep, or a part of it, does *)
Record swept (s s1 : account_state) : Prop := {
  sw_now : ac_now s1 = ac_now s;
  sw_hours : ac_inviteHours s1 = ac_inviteHours s;
  sw_links : ac_botLinks s1 = ac_botLinks s /\ ac_whatsapp s1 = ac_whatsapp s;
  sw_rows : forall i v, ac_invites s1 !! i = Some v -> exists w, ac_invites s !! i = Some w /\
    (v = w \/ (v = revoked_at (ac_now s) w /\ iv_usedAt w = None));
  sw_kept : forall i w, ac_invites s !! i = Some w -> is_Some (ac_users s1 !! iv_inviter w) -> is_Some (ac_users s1 !! iv_invitee w) ->
    exists v, ac_invites s1 !! i = Some v /\ iv_usedAt v = iv_usedAt w /\ iv_kind v = iv_kind w /\ iv_inviter v = iv_inviter w /\ iv_invitee v = iv_invitee w;
  sw_users : forall u b, ac_users s1 !! u = Some b -> exists a, ac_users s !! u = Some a /\ a_createdAt b = a_createdAt a;
  sw_gone : forall u a, ac_users s !! u = Some a -> ac_users s1 !! u = None -> may_go s s1 u a;
}.

Lemma swept_refl s : swept s s.
Proof.
  constructor; try done; [intros i v Hi; exists v; by split; [|left] | intros i w Hi _ _; by exists w | intros u b Hb; by exists b | congruence].
Qed.

Lemma stale_ext s t k v : ac_now t = ac_now s -> ac_inviteHours t = ac_inviteHours s -> stale t k v = stale s k v.
Proof. intros E1 E2. unfold stale, inviteExpiryHours. by rewrite E1, E2. Qed.

Lemma stale_unrevoked s k v : stale s k v = true -> iv_revokedAt v = None /\ iv_usedAt v = None /\ iv_kind v = k.
Proof.
  unfold stale. rewrite !andb_true_iff. intros [[[Hk Hu] Hr] _]. apply eqb_eq in Hk.
  by destruct (iv_usedAt v), (iv_revokedAt v).
Qed.

Lemma swept_stale s s1 i k v : swept s s1 -> ac_invites s1 !! i = Some v -> stale s1 k v = true -> ac_invites s !! i = Some v /\ stale s k v = true.
Proof.
  intros H Hi Hv. destruct (sw_rows s s1 H i v Hi) as (w & Hw & [->|[-> _]]).
  - split; [done|]. by rewrite <- (stale_ext s s1 k w (sw_now s s1 H) (sw_hours s s1 H)).
  - by apply stale_unrevoked in Hv as [? _].
Qed.

Lemma swept_trans s s1 s2 : swept s s1 -> swept s1 s2 -> swept s s2.
Proof.
  intros H1 H2. constructor.
  - by rewrite (sw_now _ _ H2), (sw_now _ _ H1).
  - by rewrite (sw_hours _ _ H2), (sw_hours _ _ H1).
  - destruct (sw_links _ _ H1) as [E1 E2], (sw_links _ _ H2) as [F1 F2]. by rewrite F1, F2, E1, E2.
  - intros i v Hi. destruct (sw_rows _ _ H2 i v Hi) as (w & Hw & Hvw). destruct (sw_rows _ _ H1 i w Hw) as (x & Hx & Hwx).
    exists x. split; [done|]. rewrite (sw_now _ _ H1) in Hvw.
    destruct Hvw as [->|[-> Hu]], Hwx as [->|[-> Hux]]; [by left|by right|by right|by right].
  - intros i w Hi Hin Hout. destruct (sw_kept _ _ H1 i w Hi) as (v & Hv & E1 & E2 & E3 & E4).
    + destruct Hin as [b Hb]. destruct (sw_users _ _ H2 _ b Hb) as (a & Ha & _). by exists a.
    + destruct Hout as [b Hb]. destruct (sw_users _ _ H2 _ b Hb) as (a & Ha & _). by exists a.
    + destruct (sw_kept _ _ H2 i v Hv) as (x & Hx & F1 & F2 & F3 & F4); [by rewrite E3 | by rewrite E4|].
      exists x. split; [done|]. by rewrite F1, F2, F3, F4.
  - intros u b Hb. destruct (sw_users _ _ H2 u b Hb) as (a & Ha & E). destruct (sw_users _ _ H1 u a Ha) as (c & Hc & F).
    exists c. split; [done | congruence].
  - intros u a Ha Hnone. destruct (ac_users s1 !! u) as [b|] eqn:Eb.
    + destruct (sw_gone _ _ H2 u b Eb Hnone) as ([Hb Hw] & i & w & Hi & Hu & Hst & Hm & Hall).
      destruct (sw_links _ _ H1) as [E1 E2]. destruct (swept_stale s s1 i _ w H1 Hi Hst) as [Hi0 Hst0].
      split; [by rewrite <- E1, <- E2|]. exists i, w. split; [done|]. split; [done|]. split; [done|].
      split. { destruct (sw_users _ _ H1 u b Eb) as (a' & Ha' & E). assert (a' = a) as -> by congruence. by rewrite <- E. }
      intros j x Hj Hk Hxu Hin. destruct (sw_kept _ _ H1 j x Hj) as (y & Hy & F1 & F2 & F3 & F4).
      * destruct Hin as [c Hc]. destruct (sw_users _ _ H2 _ c Hc) as (d & Hd & _). by exists d.
      * rewrite Hxu. by exists b.
      * rewrite <- F1. apply (Hall j y Hy); [congruence|congruence|by rewrite F3].
    + destruct (sw_gone _ _ H1 u a Ha Eb) as (Hl & i & w & Hi & Hu & Hst & Hm & Hall).
      split; [done|]. exists i, w. do 4 (split; [done|]). intros j x Hj Hk Hxu [c Hc]. apply (Hall j x Hj Hk Hxu).
      destruct (sw_users _ _ H2 _ c Hc) as (d & Hd & _). by exists d.
Qed.

Lemma swept_ext s t :
  ac_users t = ac_users s -> ac_invites t = ac_invites s -> ac_now t = ac_now s -> ac_inviteHours t = ac_inviteHours s ->
  ac_botLinks t = ac_botLinks s -> ac_whatsapp t = ac_whatsapp s -> swept s t.
Proof.
  intros E1 E2 E3 E4 E5 E6. destruct (swept_refl s). constructor; rewrite ?E1, ?E2; try done.
  intros u a Ha Hn. congruence.
Qed.

(** The same accounts, their times of creation and every row of the invitations *)
Lemma swept_users s m :
  (forall u b, m !! u = Some b -> exists a, ac_users s !! u = Some a /\ a_createdAt b = a_createdAt a) ->
  (forall u, is_Some (ac_users s !! u) -> is_Some (m !! u)) -> swept s (s <| ac_users := m |>).
Proof.
  intros Hm Hd. destruct (swept_refl s). constructor; try done.
  - intros i w Hi _ _. by exists w.
  - intros u a Ha Hn. destruct (Hd u (ex_intro _ a Ha)) as [b Hb]. change (m !! u = None) in Hn. congruence.
Qed.

Lemma swept_untie s k u i : swept s (untie k u i s).
Proof.
  destruct k; try by apply swept_ext. apply swept_users.
  - intros v b Hb. rewrite lookup_alter in Hb. case_decide as E; [subst v|by exists b].
    destruct (ac_users s !! u) as [a|]; [|done]. cbn in Hb. injection Hb as <-. exists a. by case_bool_decide.
  - intros v [a Ha]. rewrite lookup_alter. case_decide as E; [subst v|by exists a]. rewrite Ha. by eexists.
Qed.

Lemma swept_revoke s i w :
  ac_invites s !! i = Some w -> iv_id w = i -> iv_usedAt w = None -> swept s (put_invite (revoked_at (ac_now s) w) s).
Proof.
  intros Hi Hid Hu. destruct (swept_refl s).
  assert (Hl : forall j, ac_invites (put_invite (revoked_at (ac_now s) w) s) !! j
                = if decide (i = j) then Some (revoked_at (ac_now s) w) else ac_invites s !! j).
  { intros j. change (<[iv_id w := revoked_at (ac_now s) w]> (ac_invites s) !! j = (if decide (i = j) then Some (revoked_at (ac_now s) w) else ac_invites s !! j)).
    by rewrite lookup_insert, Hid. }
  constructor; try done.
  - intros j v. rewrite Hl. case_decide as E; [subst j|intros Hv; exists v; by split; [|left]].
    intros [= <-]. exists w. split; [done | by right].
  - intros j v Hj _ _. rewrite Hl. case_decide as E; [subst j|by exists v]. assert (v = w) as -> by congruence. by eexists.
Qed.

(** Deleting the account of an invitation just revoked *)
Lemma swept_delete s s2 i w :
  swept s s2 -> ac_invites s !! i = Some w -> stale s (iv_kind w) w = true ->
  disposable s2 (revoked_at (ac_now s) w) = true -> swept s (delete_account (iv_invitee w) s2).
Proof.
  intros H Hi Hst Hd. set (u := iv_invitee w) in *.
  assert (Hu : forall v b, ac_users (delete_account u s2) !! v = Some b ->
            v <> u /\ exists a, ac_users s2 !! v = Some a /\ b = forget_inviter u a).
  { intros v b. change (ac_users (delete_account u s2)) with (forget_inviter u <$> delete u (ac_users s2)).
    intros (a & <- & [Hne Ha]%lookup_delete_Some)%lookup_fmap_Some. split; [congruence | by exists a]. }
  assert (Hv : forall j v, ac_invites (delete_account u s2) !! j = Some v <-> ac_invites s2 !! j = Some v /\ owns_invite u v = false).
  { intros j v. change (ac_invites (delete_account u s2)) with (base.filter (fun p => owns_invite u p.2 = false) (ac_invites s2)).
    apply map_lookup_filter_Some. }
  assert (Hin : forall v, is_Some (ac_users (delete_account u s2) !! v) -> v <> u /\ is_Some (ac_users s2 !! v)).
  { intros v [b Hb]. destruct (Hu v b Hb) as (Hne & a & Ha & _). split; [done | by exists a]. }
  constructor; [exact (sw_now _ _ H) | exact (sw_hours _ _ H) | exact (sw_links _ _ H) | | | |].
  - intros j v [Hj _]%Hv. by apply (sw_rows _ _ H).
  - intros j x Hj [Hn1 Hi1]%Hin [Hn2 Hi2]%Hin. destruct (sw_kept _ _ H j x Hj Hi1 Hi2) as (v & Hjv & E1 & E2 & E3 & E4).
    exists v. split; [|done]. apply Hv. split; [done|]. unfold owns_invite. rewrite E3, E4. apply orb_false_iff.
    by rewrite !N.eqb_neq.
  - intros v b (_ & a & Ha & ->)%Hu. destruct (sw_users _ _ H v a Ha) as (c & Hc & E). exists c. split; [done|].
    rewrite <- E. unfold forget_inviter. by case_bool_decide.
  - intros v a Ha Hn. destruct (ac_users s2 !! v) as [b|] eqn:Eb.
    + assert (v = u) as ->.
      { destruct (decide (v = u)); [done|]. exfalso.
        change (ac_users (delete_account u s2)) with (forget_inviter u <$> delete u (ac_users s2)) in Hn.
        by rewrite lookup_fmap, lookup_delete_ne, Eb in Hn by congruence. }
      unfold disposable in Hd. change (iv_invitee (revoked_at (ac_now s) w)) with u in Hd. rewrite Eb in Hd.
      apply andb_true_iff in Hd as [Hd Hwa]. apply andb_true_iff in Hd as [Hd Hbot]. apply andb_true_iff in Hd as [Hm Hno].
      apply negb_true_iff, bool_decide_eq_false in Hwa, Hbot. apply negb_true_iff in Hno.
      destruct (sw_links _ _ H) as [L1 L2]. split; [by rewrite <- L1, <- L2|].
      exists i, w. split; [done|]. split; [done|]. split; [done|]. split.
      { destruct (sw_users _ _ H u b Eb) as (a' & Ha' & E). assert (a' = a) as -> by congruence. by rewrite <- E. }
      intros j x Hj Hk Hxu [Hne Hxi]%Hin. destruct (sw_kept _ _ H j x Hj Hxi) as (y & Hy & F1 & F2 & F3 & F4).
      { rewrite Hxu. by exists b. }
      assert (Hyin : y ∈ invites_of s2 (iv_kind w) u) by (apply elem_of_invites_of; split; [congruence|split; [congruence|by exists j]]).
      pose proof (proj1 (some_b_false _ _) Hno y Hyin) as Hf. cbv beta in Hf. apply orb_false_iff in Hf as [Hf _].
      rewrite F1 in Hf. by destruct (iv_usedAt x).
    + destruct (sw_gone _ _ H v a Ha Eb) as (Hl & j & x & Hj & Hxu & Hxs & Hm & Hall).
      split; [done|]. exists j, x. do 4 (split; [done|]). intros k y Hk Hyk Hyu [_ Hyi]%Hin. by apply (Hall k y).
Qed.

(** The state one step of the sweep ends with *)
Definition expired_state (s : account_state) (w : Invite) : account_state :=
  let s2 := untie (iv_kind w) (iv_invitee w) (iv_inviter w) (put_invite (revoked_at (ac_now s) w) s) in
  if disposable s2 (revoked_at (ac_now s) w) then delete_account (iv_invitee w) s2 else s2.

Lemma expire_one_final s id :
  final (expire_one id) s
  = match ac_invites s !! id with
    | Some w =>
        if is_null (iv_usedAt w) && is_null (iv_revokedAt w)
        then final (publish_account (InviteUsed (iv_kind w) (iv_inviter w) (iv_invitee w) true false)) (expired_state s w)
        else s
    | None => s
    end.
Proof.
  unfold expire_one, revoke_one, final, transaction. rewrite run_bind. cbv beta. rewrite run_bind. unfold get. cbv beta iota.
  destruct (ac_invites s !! id) as [w|]; [|done]. destruct (_ && _); [|done]. cbv zeta.
  rewrite run_bind. unfold modify. cbv beta iota. rewrite run_bind. cbv beta iota. rewrite run_bind. cbv beta iota. rewrite run_bind.
  unfold expired_state. cbv zeta. by destruct (disposable _ _).
Qed.

(** One invitation that was listed as stale *)
Lemma swept_expire_one s id :
  accounts_ok s -> (forall w, ac_invites s !! id = Some w -> iv_usedAt w = None -> iv_revokedAt w = None -> stale s (iv_kind w) w = true) ->
  swept s (final (expire_one id) s) /\
  (forall v k, ac_invites (final (expire_one id) s) !! id = Some v -> stale (final (expire_one id) s) k v = false).
Proof.
  intros Hs Hst. rewrite expire_one_final. destruct (ac_invites s !! id) as [w|] eqn:Ew.
  2:{ split; [apply swept_refl | congruence]. }
  destruct (is_null (iv_usedAt w) && is_null (iv_revokedAt w)) eqn:En.
  2:{ split; [apply swept_refl|]. intros v k Hv. assert (v = w) as -> by congruence. destruct (stale s k w) eqn:E; [|done].
      apply stale_unrevoked in E as (Er & Eu & _). by rewrite Er, Eu in En. }
  assert (Hun : iv_usedAt w = None /\ iv_revokedAt w = None) by (by destruct (iv_usedAt w), (iv_revokedAt w)).
  destruct Hun as [Hu Hr], (ak_invite_ids s Hs id w Ew) as [Hid _].
  set (s1 := put_invite (revoked_at (ac_now s) w) s). set (s2 := untie (iv_kind w) (iv_invitee w) (iv_inviter w) s1).
  assert (H2 : swept s s2) by (apply (swept_trans s s1); [by apply (swept_revoke s id w) | apply swept_untie]).
  assert (Hrow : ac_invites s2 !! id = Some (revoked_at (ac_now s) w)).
  { assert (E : ac_invites s2 = ac_invites s1) by (by unfold s2; destruct (iv_kind w)). rewrite E.
    change (<[iv_id w := revoked_at (ac_now s) w]> (ac_invites s) !! id = Some (revoked_at (ac_now s) w)).
    by rewrite Hid, lookup_insert_eq. }
  set (s3 := expired_state s w).
  assert (H3 : swept s s3 /\ forall v, ac_invites s3 !! id = Some v -> v = revoked_at (ac_now s) w).
  { unfold s3, expired_state. fold s1 s2. cbv zeta. destruct (disposable s2 _) eqn:Ed.
    - split; [by apply (swept_delete s s2 id w); [|done|apply Hst|]|].
      intros v [Hv _]%map_lookup_filter_Some. congruence.
    - split; [done | congruence]. }
  destruct H3 as [H3 Hv3]. split; [apply (swept_trans s s3); [done | by apply swept_ext]|].
  intros v k Hv. rewrite (Hv3 v Hv). destruct (stale _ _ _) eqn:Es; [|done]. by apply stale_unrevoked in Es as [? _].
Qed.

(** No step of the sweep throws. *)
Lemma expire_one_Ok id s : exists r, expire_one id s = (Ok r, final (expire_one id) s).
Proof.
  unfold expire_one, final. rewrite run_bind. unfold revoke_one, transaction. cbv beta. rewrite run_bind. unfold get. cbv beta iota.
  destruct (ac_invites s !! id) as [w|]; [|by eexists]. destruct (_ && _); [|by eexists]. cbv zeta.
  rewrite run_bind. unfold modify. cbv beta iota. rewrite run_bind. cbv beta iota. rewrite run_bind. cbv beta iota. rewrite run_bind.
  destruct (disposable _ _); by eexists.
Qed.

Lemma for_each_Ok {A} (l : list A) (f : A -> AM unit) s :
  (forall x s, exists r, f x s = (Ok r, final (f x) s)) -> exists r, for_each l f s = (Ok r, final (for_each l f) s).
Proof.
  intros Hf. revert s. induction l as [|x l IH]; intros s; [by eexists|]. cbn [for_each]. unfold final.
  rewrite run_bind. destruct (Hf x s) as [r ->]. apply IH.
Qed.

Lemma for_each_final_cons {A} (x : A) l (f : A -> AM unit) s :
  (forall x s, exists r, f x s = (Ok r, final (f x) s)) ->
  final (for_each (x :: l) f) s = final (for_each l f) (final (f x) s).
Proof. intros Hf. cbn [for_each]. unfold final at 1. rewrite run_bind. by destruct (Hf x s) as [r ->]. Qed.

(** The invitations of a list, each stale or done with *)
Lemma swept_expire_list l s :
  accounts_ok s ->
  (forall id w, id ∈ l -> ac_invites s !! id = Some w -> iv_usedAt w = None -> iv_revokedAt w = None -> stale s (iv_kind w) w = true) ->
  swept s (final (for_each l expire_one) s) /\ accounts_ok (final (for_each l expire_one) s) /\
  (forall id v k, id ∈ l -> ac_invites (final (for_each l expire_one) s) !! id = Some v -> stale (final (for_each l expire_one) s) k v = false).
Proof.
  revert s. induction l as [|id l IH]; intros s Hs Hl; [split; [apply swept_refl | split; [done|set_solver]]|].
  destruct (swept_expire_one s id Hs (fun w => Hl id w ltac:(set_solver))) as [H1 Hid].
  pose proof (expire_one_ok id s Hs) as Hs1. set (s1 := final (expire_one id) s) in *.
  rewrite (for_each_final_cons id l expire_one s expire_one_Ok). fold s1. destruct (IH s1 Hs1) as (H2 & Hs2 & Hrest).
  { intros j w Hj Hw Hu Hr. destruct (sw_rows _ _ H1 j w Hw) as (x & Hx & [->|[-> _]]); [|done].
    rewrite (stale_ext s s1 _ _ (sw_now _ _ H1) (sw_hours _ _ H1)). apply (Hl j x); [set_solver|done..]. }
  split; [by apply (swept_trans s s1) | split; [done|]].
  intros j v k [->|Hj]%elem_of_cons Hv; [|by apply (Hrest j)]. destruct (stale _ k v) eqn:Es; [|done].
  destruct (swept_stale s1 _ id k v H2 Hv Es) as [Hv1 Hst1]. by rewrite (Hid v k Hv1) in Hst1.
Qed.

Lemma swept_expire_kind k s :
  accounts_ok s ->
  swept s (final (expire_kind k) s) /\ accounts_ok (final (expire_kind k) s) /\
  (forall id v, ac_invites (final (expire_kind k) s) !! id = Some v -> stale (final (expire_kind k) s) k v = false).
Proof.
  intros Hs. unfold expire_kind. rewrite final_get_bind. set (l := map iv_id (find_rows (stale s k) (ac_invites s))).
  assert (Hl : forall id w, ac_invites s !! id = Some w -> id ∈ l <-> stale s k w = true).
  { intros id w Hw. unfold l. rewrite list_elem_of_fmap. setoid_rewrite elem_of_find_rows. destruct (ak_invite_ids s Hs id w Hw) as [Hid _]. split.
    - intros (x & E & Hx & j & Hj). destruct (ak_invite_ids s Hs j x Hj) as [Hjd _]. assert (j = id) as -> by congruence. congruence.
    - intros Hst. exists w. split; [congruence|]. split; [done | by exists id]. }
  destruct (swept_expire_list l s Hs) as (H1 & H2 & H3).
  { intros id w Hin Hw _ _. apply (Hl id w Hw) in Hin. apply stale_unrevoked in Hin as Hk. destruct Hk as (_ & _ & ->). done. }
  split; [done | split; [done|]]. intros id v Hv. destruct (stale _ k v) eqn:Es; [|done].
  destruct (swept_stale s _ id k v H1 Hv Es) as [Hv0 Hst0]. apply (Hl id v Hv0) in Hst0. by rewrite (H3 id v k Hst0 Hv) in Es.
Qed.

Lemma expire_kind_Ok k s : exists r, expire_kind k s = (Ok r, final (expire_kind k) s).
Proof.
  unfold expire_kind. unfold final. rewrite run_bind. unfold get. cbv beta iota. apply for_each_Ok. apply expire_one_Ok.
Qed.

Lemma swept_expire_kinds ks s :
  accounts_ok s ->
  swept s (final (for_each ks expire_kind) s) /\
  (forall k id v, k ∈ ks -> ac_invites (final (for_each ks expire_kind) s) !! id = Some v -> stale (final (for_each ks expire_kind) s) k v = false).
Proof.
  revert s. induction ks as [|k ks IH]; intros s Hs; [split; [apply swept_refl | set_solver]|].
  rewrite (for_each_final_cons k ks expire_kind s expire_kind_Ok). destruct (swept_expire_kind k s Hs) as (H1 & Hs1 & Hk).
  set (s1 := final (expire_kind k) s) in *. destruct (IH s1 Hs1) as [H2 Hks]. split; [by apply (swept_trans s s1)|].
  intros j id v [->|Hj]%elem_of_cons Hv; [|by apply (Hks j id)]. destruct (stale _ k v) eqn:Es; [|done].
  destruct (swept_stale s1 _ id k v H2 Hv Es) as [Hv1 Hst1]. by rewrite (Hk id v Hv1) in Hst1.
Qed.

(** The sweep ends every invitation nobody used within its day, of every kind: none
    is stale after it, and a row that is still there is as it was, or was unused and is
    now revoked.  An account it takes away was made with an invitation now stale, is
    linked to no messenger, and was never let in by an invitation of an inviter that is
    still there; every other account stays. *)
Theorem sweep_ends_unused (s : account_state) :
  accounts_ok s ->
  let s1 := final expireStaleInvites s in
  (forall i v k, ac_invites s1 !! i = Some v -> stale s1 k v = false) /\
  (forall i v, ac_invites s1 !! i = Some v -> exists w, ac_invites s !! i = Some w /\
     (v = w \/ (v = w <| iv_revokedAt := Some (ac_now s) |> /\ iv_usedAt w = None))) /\
  (forall u a, ac_users s !! u = Some a -> ac_users s1 !! u = None ->
     (u ∉ ac_botLinks s /\ u ∉ ac_whatsapp s) /\
     exists i w, ac_invites s !! i = Some w /\ iv_invitee w = u /\ stale s (iv_kind w) w = true /\
       made_within (a_createdAt a) w = true /\
       forall j x, ac_invites s !! j = Some x -> iv_kind x = iv_kind w -> iv_invitee x = u ->
         is_Some (ac_users s1 !! iv_inviter x) -> iv_usedAt x = None).
Proof.
  intros Hs s1. destruct (swept_expire_kinds INVITES s Hs) as [H Hst]. fold expireStaleInvites in H, Hst. fold s1 in H, Hst.
  split; [|split; [exact (sw_rows s s1 H) | exact (sw_gone s s1 H)]].
  intros i v k Hi. apply (Hst k i v); [destruct k; unfold INVITES; set_solver | done].
Qed.

(** ** Checks are bounded *)

(** An account asks to be checked at most four times in all, whatever is decided in
    between; one that has asked four times and was rejected is refused with nothing
    changed, and so is one that waits or is approved. *)
Theorem checks_bounded (s0 : account_state) (ops : list account_op) (u : uuid) (v : Account) :
  accounts_ok s0 ->
  let s := run_accounts ops s0 in
  ac_users s !! u = Some v ->
  0 <= a_verificationRequests v <= 4 /\
  (a_verificationRequests v = 4 \/ a_verificationStatus v = VerPending \/ a_verificationStatus v = VerApproved ->
   exists e, request u s = (Err e, s)).
Proof.
  intros H0 s Hv. pose proof (run_accounts_ok ops s0 H0) as Hs. fold s in Hs.
  destruct (ak_requests s Hs u v Hv) as [Hb _]. split; [exact Hb|]. intros Hc.
  destruct (ak_user_ids s Hs u v Hv) as [Hid _].
  assert (Hst : verification_state u s = (Ok (state_of s v), s))
    by (unfold verification_state; rewrite run_bind; unfold get; cbv beta iota; by rewrite Hv).
  unfold request. rewrite run_bind, Hst. rewrite run_bind.
  destruct (eqb (vs_status (state_of s v)) VerApproved) eqn:Ea; [by eexists|]. cbn [negb ensure]. rewrite run_ret, run_bind.
  destruct (eqb (vs_status (state_of s v)) VerPending) eqn:Ep; [by eexists|]. cbn [negb ensure]. rewrite run_ret, run_bind.
  assert (Hno : vs_canRequest (state_of s v) = false).
  { unfold state_of in *. rewrite Hid in *. destruct (negb (checked s (kindOf s u))); [done|].
    cbn [vs_status vs_canRequest] in *. destruct Hc as [Hc|[Hc|Hc]]; [|by rewrite Hc in Ep|by rewrite Hc in Ea].
    unfold remaining_of. rewrite Hc. by rewrite andb_false_r. }
  rewrite Hno. by eexists.
Qed.

(** ** An approval and the menus *)

Lemma menus_same s t u :
  ac_menus t = ac_menus s -> ac_now t = ac_now s -> ac_roles t = ac_roles s -> ac_userRoles t = ac_userRoles s ->
  ac_users t !! u = ac_users s !! u ->
  forall now, lockedFeatures (menus t) u now = lockedFeatures (menus s) u now.
Proof.
  intros E1 E2 E3 E4 E5 now.
  assert (Hu : fs_users (menus t) !! u = fs_users (menus s) !! u).
  { change (fs_users (menus t)) with (company_user t <$> ac_users t). change (fs_users (menus s)) with (company_user s <$> ac_users s).
    rewrite !lookup_fmap, E5. destruct (ac_users s !! u); [|done]. cbn. unfold company_user, role_names, role_active.
    by rewrite E3, E4. }
  assert (Hg : fs_grants (menus t) = fs_grants (menus s)) by (unfold menus; by rewrite E1).
  unfold lockedFeatures, standing. rewrite Hu. destruct (isParent _); [done|]. destruct (negb _); [done|].
  assert (Hp : paidFeatures (menus t) = paidFeatures (menus s)).
  { unfold paidFeatures, activeTiers, activePlans. unfold menus. by rewrite E1. }
  rewrite Hp. assert (Ho : forall f, is_open (menus t) u now f = is_open (menus s) u now f).
  { intros f. unfold is_open, open_until, running_grants. by rewrite Hg. }
  destruct (invited _); apply List.filter_ext; intros f; by rewrite Ho.
Qed.

Lemma standing_of s u v : ac_users s !! u = Some v ->
  standing (menus s) u = mkStanding (a_isParentCompany v) (negb (a_isParentCompany v) && is_some (a_invitedByCompanyUserId v))
                           (eqb (a_verificationStatus v) VerApproved).
Proof.
  intros Hv. unfold standing. change (fs_users (menus s)) with (company_user s <$> ac_users s). by rewrite lookup_fmap, Hv.
Qed.

(** Approving a waiting company, step by step *)
Definition approved_state (s : account_state) (p u : uuid) (v : Account) : account_state :=
  put_account (approved_account p (ac_now s) CompanyAccount v) s.

Lemma approve_company_run s p u v :
  is_parent s p = true -> ac_users s !! u = Some v -> a_verificationStatus v = VerPending -> kindOf s u = CompanyAccount ->
  approve p u s
  = publish_account (VerificationDecided u (account_name (approved_state s p u v) u) true None None) (approved_state s p u v).
Proof.
  intros Hp Hv Hpend Hk. unfold approve, assertParent. rewrite run_bind. rewrite run_bind. unfold get. cbv beta iota.
  rewrite Hp. cbn [ensure]. rewrite run_ret, run_bind. unfold transaction. rewrite run_bind. cbv beta iota. rewrite Hv. unfold some_or.
  rewrite run_bind, run_ret, run_bind, Hpend. change (eqb VerPending VerPending) with true. cbn [ensure]. rewrite run_ret. cbv zeta.
  rewrite Hk, run_bind. done.
Qed.

(** An approval of a waiting transport company opens no menu by itself: before it every
    menu of the company is locked, after it exactly the menus without a running period
    are (an approved company buys every menu), whoever else is on the platform keeps what
    it had, and the company cannot be approved again. *)
Theorem approval_opens_no_menu (s : account_state) (p u : uuid) (v : Account) (now : time) :
  accounts_ok s -> is_parent s p = true -> ac_users s !! u = Some v -> a_verificationStatus v = VerPending ->
  kindOf s u = CompanyAccount -> a_isParentCompany v = false ->
  lockedFeatures (menus s) u now = ALL_FEATURES /\
  exists s1, approve p u s = (Ok tt, s1) /\
    lockedFeatures (menus s1) u now = List.filter (fun f => negb (is_open (menus s) u now f)) ALL_FEATURES /\
    (forall w, w <> u -> lockedFeatures (menus s1) w now = lockedFeatures (menus s) w now) /\
    isApproved s1 u = true /\
    (forall q, exists e, approve q u s1 = (Err e, s1)).
Proof.
  intros Hs Hp Hv Hpend Hk Hnp. split.
  { unfold lockedFeatures. by rewrite (standing_of s u v Hv), Hnp, Hpend. }
  rewrite (approve_company_run s p u v Hp Hv Hpend Hk). destruct (ak_user_ids s Hs u v Hv) as [Hid _].
  eexists. split; [unfold publish_account, modify; reflexivity|]. set (s1 := (_ <| ac_published := _ |>)).
  set (v1 := approved_account p (ac_now s) CompanyAccount v).
  assert (H1 : ac_users s1 !! u = Some v1).
  { change (ac_users s1) with (<[a_id v1 := v1]> (ac_users s)). change (a_id v1) with (a_id v). by rewrite Hid, lookup_insert_eq. }
  split; [|split; [|split]].
  - unfold lockedFeatures. rewrite (standing_of s1 u v1 H1). change (a_isParentCompany v1) with (a_isParentCompany v). by rewrite Hnp.
  - intros w Hw. apply menus_same; try done. change (ac_users s1) with (<[a_id v1 := v1]> (ac_users s)).
    apply lookup_insert_ne. change (a_id v1) with (a_id v). congruence.
  - unfold isApproved. by rewrite H1.
  - intros q. unfold approve, assertParent. rewrite run_bind. rewrite run_bind. unfold get. cbv beta iota.
    destruct (is_parent s1 q); cbn [ensure]; [|by eexists]. rewrite run_ret, run_bind. unfold transaction. rewrite run_bind. cbv beta iota.
    rewrite H1. by eexists.
Qed.

(** ** A registration finished late *)

(** A registration finished with an account type after the number already has an
    account with a role (a company invited it in the meantime) keeps the role but takes
    the approval away: the account, approved by its inviter and never asked to be
    checked, is unchecked again, and a company that is no parent loses every menu it has. *)
Theorem late_signup_unapproves (s : account_state) (u : uuid) (v : Account) (t : AccountType) (now : time) :
  accounts_ok s -> ac_users s !! u = Some v -> a_recordStatus v = RecActive -> role_names s u <> [] ->
  a_verificationStatus v = VerApproved -> a_verificationRequests v = 0 -> a_isParentCompany v = false ->
  account_fits v = true -> exists_row (account_clash v) (ac_users s) = false ->
  exists w s1, assignRole u t s = (Ok w, s1) /\ ac_users s1 !! u = Some w /\
    a_verificationStatus w = VerNone /\ role_names s1 u = role_names s u /\ lockedFeatures (menus s1) u now = ALL_FEATURES.
Proof.
  intros Hs Hv Hact Hroles Hver Hreq Hnp Hfit Hcl. destruct (ak_user_ids s Hs u v Hv) as [Hid _].
  unfold assignRole. rewrite run_bind.
  assert (E : assignInitialRole u (account_role t) s = (Ok tt, s)).
  { unfold assignInitialRole, transaction. rewrite run_bind. unfold get, findById. cbv beta iota. rewrite Hv, Hact.
    change (eqb RecActive RecActive) with true. unfold some_or. rewrite run_bind, run_ret. by destruct (role_names s u). }
  rewrite E, run_bind. unfold get, findById. cbv beta iota. rewrite Hv. unfold some_or. rewrite run_bind, run_ret. cbv zeta.
  assert (Ht : is_type t VERIFIED_ACCOUNT_TYPES = true) by (by destruct t).
  rewrite Ht, Hver, Hreq. change (eqb VerApproved VerApproved) with true. change (0 =? 0) with true. cbn [andb orb].
  set (legal := is_type t LEGAL_ACCOUNT_TYPES && negb (bool_decide (a_profileType v = Some CustCompany))).
  set (w := if legal then _ else _).
  assert (Hw : a_id w = a_id v /\ a_verificationStatus w = VerNone /\ a_isParentCompany w = a_isParentCompany v /\
               account_fits w = account_fits v /\ forall x, account_clash w x = account_clash v x) by (unfold w; by destruct legal).
  destruct Hw as (Hwid & Hwv & Hwp & Hwf & Hwc).
  assert (Hsave : save_account w s = (Ok w, put_account w s)).
  { unfold save_account. rewrite run_bind, Hwf, Hfit. cbn [ensure]. rewrite run_ret, run_bind. unfold get. cbv beta iota. rewrite run_bind.
    assert (Ec : exists_row (account_clash w) (ac_users s) = false).
    { apply exists_row_false. intros i x Hi. rewrite Hwc. by apply (proj1 (exists_row_false _ _) Hcl i). }
    by rewrite Ec. }
  rewrite Hsave. exists w, (put_account w s). split; [done|].
  assert (H1 : ac_users (put_account w s) !! u = Some w).
  { change (ac_users (put_account w s)) with (<[a_id w := w]> (ac_users s)). by rewrite Hwid, Hid, lookup_insert_eq. }
  split; [done|]. split; [done|]. split; [done|].
  unfold lockedFeatures. by rewrite (standing_of _ u w H1), Hwp, Hwv, Hnp.
Qed.

(** ** A parent company, another company and the numbers they invite *)

Definition sample_mobile : text := js "09121234567".
Definition sample_token (c : N) : text := replicate 16 c.

Definition sample_account (id : uuid) (mobile : string) (parent : bool) : Account := {|
  a_id := id; a_username := js mobile; a_mobile := Some (js mobile); a_recordStatus := RecActive; a_profileType := None;
  a_firstName := None; a_lastName := None; a_nationalCode := None; a_companyName := Some (js "Bar"); a_isParentCompany := parent;
  a_invitedByCompanyUserId := None; a_passwordHash := None; a_verificationStatus := VerApproved; a_verificationRequests := 0;
  a_verificationNote := None; a_verificationRequestedAt := None; a_verificationDecidedAt := None; a_verificationDecidedBy := None;
  a_companyNationalId := None; a_licenseNo := Some (js "12"); a_phone := Some (js "021"); a_contactMobiles := None; a_createdAt := 0 |}.

Definition sample_accounts : account_state := {|
  ac_now := 1700000000000; ac_nextId := 10; ac_inviteHours := None; ac_driverVerification := true;
  ac_roles := map (fun n => mkRoleRow n RecActive) ["DRIVER"; "COMPANY"; "FACTORY"; "BROKER"]%string;
  ac_users := {[ 1%N := sample_account 1 "09120000001" true; 2%N := sample_account 2 "09120000002" false ]};
  ac_userRoles := [(1%N, "COMPANY"%string); (2%N, "COMPANY"%string)];
  ac_invites := ∅; ac_botLinks := []; ac_whatsapp := []; ac_profiles := ∅; ac_members := []; ac_parentLogins := [];
  ac_menus := mkFeatures 0 false ∅ ∅ [] ∅ ∅ [];
  ac_broker := mkBroker false 0 None None ∅ [] ∅ ∅ ∅ true [];
  ac_published := [] |}.

Lemma sample_accounts_ok : accounts_ok sample_accounts.
Proof.
  assert (Hu : forall i u, ac_users sample_accounts !! i = Some u ->
            (i = 1%N /\ u = sample_account 1 "09120000001" true) \/ (i = 2%N /\ u = sample_account 2 "09120000002" false)).
  { intros i u H.
    change (<[1%N := sample_account 1 "09120000001" true]> ({[2%N := sample_account 2 "09120000002" false]} : gmap uuid Account) !! i = Some u) in H.
    apply lookup_insert_Some in H as [[<- <-]|[_ H]]; [by left|]. apply lookup_singleton_Some in H as [<- <-]. by right. }
  assert (Hi : forall i v, ac_invites sample_accounts !! i <> Some v) by done.
  constructor.
  - intros i u [[-> ->]|[-> ->]]%Hu; done.
  - intros i u [[-> ->]|[-> ->]]%Hu; (split; [cbn; unfold MAX_VERIFICATION_REQUESTS; lia | done]).
  - intros i v Hv. by destruct (Hi i v).
  - intros k. by destruct k; vm_compute.
  - intros u n [[= -> ->]|[[= -> ->]|H]%elem_of_cons]%elem_of_cons; [eexists; vm_compute; reflexivity..|set_solver].
  - intros i v Hv. by destruct (Hi i v).
  - intros i j v w Hv. by destruct (Hi i v).
  - intros i j v w Hv. by destruct (Hi i v).
Defined.

(** The parent invites a broker, the other company tries to, and tries again two days later *)
Definition sample_invitations : list account_op :=
  [OpInviteBroker 1 sample_mobile None (sample_token 65); OpInviteBroker 2 sample_mobile None (sample_token 66);
   OpAccountTick 172800000; OpInviteBroker 2 sample_mobile None (sample_token 67)].

Lemma invited_by_one_witness :
  let s := run_accounts sample_invitations sample_accounts in
  option_map (fun v => (iv_inviter v, isInviteWaiting s v)) (ac_invites s !! 12%N) = Some (2%N, true) /\
  ~ exists j v w, ac_invites s !! 12%N = Some v /\ ac_invites s !! j = Some w /\ iv_kind w = iv_kind v /\
      iv_invitee w = iv_invitee v /\ isInviteWaiting s w = true /\ iv_inviter w <> 2%N.
Proof.
  intros s. assert (E : option_map (fun v => (iv_inviter v, isInviteWaiting s v)) (ac_invites s !! 12%N) = Some (2%N, true))
    by (vm_compute; reflexivity).
  split; [exact E|]. intros (j & v & w & Hv & Hw & Hk & Hi & Ww & Hn). rewrite Hv in E. injection E as Ei Wv. apply Hn.
  rewrite <- Ei. symmetry. by apply (invited_by_one sample_accounts sample_invitations sample_accounts_ok 12%N j v w).
Defined.

Lemma tokens_free s t1 t2 :
  forallb (fun p => (p.1 <? ac_nextId s)%N && negb (bool_decide (iv_token p.2 = t1)) && negb (bool_decide (iv_token p.2 = t2)))
    (map_to_list (ac_invites s)) = true ->
  forall i w, ac_invites s !! i = Some w -> (i < ac_nextId s)%N /\ iv_token w <> t1 /\ iv_token w <> t2.
Proof.
  intros H i w Hw. rewrite forallb_forall in H. specialize (H (i, w)). cbn [fst snd] in H.
  rewrite !andb_true_iff, !negb_true_iff, !bool_decide_eq_false, N.ltb_lt in H.
  destruct H as [[H1 H2] H3]; [by apply list_elem_of_In, elem_of_map_to_list | done].
Qed.

(** A broker a parent invited and who never came: the day after next two other companies invite it *)
Definition before_invites : account_state :=
  run_accounts [OpInviteBroker 1 sample_mobile None (sample_token 65); OpAccountTick 172800000] sample_accounts.
Definition checked_once : account_state := final (broker_invite_check 2 sample_mobile None) before_invites.
Definition checked_twice : account_state := final (broker_invite_check 3 sample_mobile None) checked_once.

Lemma racing_invites_witness :
  exists v w s4, (v ← broker_invite_save 2 sample_mobile (sample_token 66) 10; w ← broker_invite_save 3 sample_mobile (sample_token 67) 10;
                  mret (v, w)) checked_twice = (Ok (v, w), s4) /\
    ac_invites s4 !! iv_id v = Some v /\ ac_invites s4 !! iv_id w = Some w /\ iv_inviter v = 2%N /\ iv_inviter w = 3%N /\
    iv_invitee v = 10%N /\ iv_invitee w = 10%N /\ isInviteWaiting s4 v = true /\ isInviteWaiting s4 w = true.
Proof.
  apply (racing_invites before_invites checked_once checked_twice 2 3 10 sample_mobile (sample_token 66) (sample_token 67) None None);
    [discriminate | vm_compute; discriminate | vm_compute; discriminate | vm_compute; reflexivity..|].
  apply tokens_free. vm_compute; reflexivity.
Defined.

Lemma sweep_ends_unused_witness :
  let s1 := final expireStaleInvites (run_accounts (firstn 3 sample_invitations) sample_accounts) in
  (forall i v k, ac_invites s1 !! i = Some v -> stale s1 k v = false) /\ ac_users s1 !! 10%N = None.
Proof.
  split; [|vm_compute; reflexivity].
  apply (proj1 (sweep_ends_unused _ (run_accounts_ok (firstn 3 sample_invitations) _ sample_accounts_ok))).
Defined.

(** A company that signs up, asks and is rejected four times *)
Definition sample_checks : list account_op :=
  [OpAsk 3; OpReject 1 3 []; OpAsk 3; OpReject 1 3 []; OpAsk 3; OpReject 1 3 []; OpAsk 3; OpReject 1 3 []].

Definition sample_signed_up : account_state :=
  sample_accounts <| ac_users :=
    <[3%N := (sample_account 3 "09120000003" false) <| a_verificationStatus := VerNone |>]> (ac_users sample_accounts) |>.
Definition sample_unchecked : account_state :=
  sample_signed_up <| ac_userRoles := ac_userRoles sample_signed_up ++ [(3%N, "COMPANY"%string)] |>.

Lemma sample_unchecked_ok : accounts_ok sample_unchecked.
Proof.
  apply (add_role_ok sample_signed_up).
  - apply users_ok; [exact sample_accounts_ok| |].
    + intros i u [[<- <-]|[_ H]]%lookup_insert_Some.
      * split; [done|]. split; [done|]. split; [cbn; unfold MAX_VERIFICATION_REQUESTS; lia | done].
      * destruct (ak_user_ids _ sample_accounts_ok i u H). by pose proof (ak_requests _ sample_accounts_ok i u H).
    + intros i [u Hu]. rewrite lookup_insert. case_decide; eauto.
  - eexists. apply lookup_insert_eq.
Defined.

Lemma checks_bounded_witness :
  let s := run_accounts sample_checks sample_unchecked in
  option_map a_verificationRequests (ac_users s !! 3%N) = Some 4 /\ exists e, request 3 s = (Err e, s).
Proof.
  intros s. assert (E : option_map a_verificationRequests (ac_users s !! 3%N) = Some 4) by (vm_compute; reflexivity).
  split; [exact E|]. destruct (ac_users s !! 3%N) as [v|] eqn:Ev; [|discriminate E]. cbn in E.
  apply (proj2 (checks_bounded sample_unchecked sample_checks 3 v sample_unchecked_ok Ev)). left. congruence.
Defined.

Lemma approval_opens_no_menu_witness :
  let s := run_accounts [OpAsk 3] sample_unchecked in
  exists s1, approve 1 3 s = (Ok tt, s1) /\ lockedFeatures (menus s1) 3 0 = ALL_FEATURES.
Proof.
  intros s. assert (Hs : accounts_ok s) by (apply run_accounts_ok; exact sample_unchecked_ok).
  destruct (ac_users s !! 3%N) as [v|] eqn:Ev; [|vm_compute in Ev; discriminate].
  assert (Hv : v = default v (ac_users s !! 3%N)) by (by rewrite Ev).
  destruct (approval_opens_no_menu s 1 3 v 0 Hs) as (_ & s1 & E & Hl & _).
  - vm_compute. reflexivity.
  - exact Ev.
  - rewrite Hv. vm_compute. reflexivity.
  - vm_compute. reflexivity.
  - rewrite Hv. vm_compute. reflexivity.
  - exists s1. split; [exact E|]. rewrite Hl. vm_compute. reflexivity.
Defined.

(** A company invited while its number was choosing its account type *)
Lemma late_signup_unapproves_witness :
  let s := run_accounts [OpInviteCompany 1 sample_mobile None (sample_token 65)] sample_accounts in
  exists w s1, assignRole 10 AccDriver s = (Ok w, s1) /\ a_verificationStatus w = VerNone /\ role_names s1 10 = ["COMPANY"%string].
Proof.
  intros s. assert (Hs : accounts_ok s) by (apply run_accounts_ok; exact sample_accounts_ok).
  destruct (ac_users s !! 10%N) as [v|] eqn:Ev; [|vm_compute in Ev; discriminate].
  assert (Hv : v = default v (ac_users s !! 10%N)) by (by rewrite Ev).
  destruct (late_signup_unapproves s 10 v AccDriver 0 Hs) as (w & s1 & E & _ & Hn & Hr & _).
  - exact Ev.
  - rewrite Hv. vm_compute. reflexivity.
  - vm_compute. discriminate.
  - rewrite Hv. vm_compute. reflexivity.
  - rewrite Hv. vm_compute. reflexivity.
  - rewrite Hv. vm_compute. reflexivity.
  - rewrite Hv. vm_compute. reflexivity.
  - rewrite Hv. vm_compute. reflexivity.
  - exists w, s1. split; [exact E|]. split; [exact Hn|]. rewrite Hr. vm_compute. reflexivity.
Defined.
