(* ===== verification/Sessions.v ===== *)
(** * Signing in

    [src/services/auth/session.service.ts], [registration.service.ts] and
    [src/auth/strategy/jwt.strategy.ts] over [src/services/redis/redis.service.ts]: a
    code sent to a phone, the account it opens or makes, the one session of an account,
    and the tokens of a session.  The store is a table per kind of key, each entry with
    the instant it lives to; the hash of a token in its key is taken as the token. *)

From S2P Require Import Prelude JsNumber JsString Json Effects Enums Phone DriverProfile BrokerAccess CompanyFeatures Accounts Invites Redis.

(** ** The state *)

Record PendingOtp := mkOtp { otp_codeHash : text; otp_expiresAt : time; otp_attempts : Z }.

Record PendingSignup := mkSignup {
  sg_phone : text;
  sg_userId : option uuid;
  sg_accountTypes : option (list AccountType);
}.

(** [userId:sid]; a token from before sessions has no [sid] *)
Record RefreshValue := mkRefresh { rf_userId : uuid; rf_sid : option N }.

(** [AccountSignedInEvent] *)
Record SignedInEvent := mkSignedIn {
  si_userId : uuid;
  si_device : text;
  si_at : time;
  si_endpoint : option text;
  si_sessionId : N;
  si_quiet : bool;
}.

Record auth_state := mkAuth {
  au_acc : account_state;
  au_smsOtpEnabled : bool;
  au_reviewLogins : option text;
  au_random : N;
  au_otp : gmap text (PendingOtp * time);
  au_cooldown : gmap text (unit * time);
  au_sends : gmap text (Z * time);
  au_locks : gmap text (N * time);
  au_signups : gmap N (PendingSignup * time);
  au_refresh : gmap N (RefreshValue * time);
  au_session : gmap uuid (N * time);
  au_failures : gmap text (Z * time);
  au_signedIn : list SignedInEvent;
}.

Abbreviation UM := (M auth_state).

Definition au_now (s : auth_state) : time := ac_now (au_acc s).

(** The keyed hash of a code, the password hash, and letter case *)
Class AuthWorld := {
  hmac : text -> text -> text;
  argon2_verify : text -> text -> bool;
  toLowerCase : text -> text;
}.

Definition OTP_TTL_SECONDS : Z := 300.
Definition OTP_COOLDOWN_SECONDS : Z := 60.
Definition MAX_ATTEMPTS : Z := 5.
Definition MAX_SENDS : Z := 3.
Definition SENDS_BLOCK_SECONDS : Z := 3600.
Definition SIGNUP_TTL_SECONDS : Z := 600.
Definition REFRESH_TTL_SECONDS : Z := 30 * 24 * 3600.
Definition ADMIN_SIGN_IN_TRIES : Z := 5.
Definition ADMIN_SIGN_IN_PAUSE_SECONDS : Z := 15 * 60.
Definition SESSION_TTL_SECONDS : Z := 30 * 24 * 3600.
Definition LOCK_SECONDS : Z := 120.

Definition on_accounts {A} (m : AM A) : UM A := zoom au_acc (fun a s => s <| au_acc := a |>) m.

(** [randomUUID], [randomBytes]: never drawn before *)
Definition random : UM N :=
  s ← get;
  modify (fun s => s <| au_random := N.succ (au_random s) |>) ;;
  mret (au_random s).

(** ** [SessionService] *)

Definition SESSION_REPLACED : exn := unauthorized "SESSION_REPLACED".

Definition active_session (s : auth_state) (userId : uuid) : option N := redis_get (au_session s) (au_now s) userId.

Definition put_session (userId : uuid) (sid : N) (s : auth_state) : auth_state :=
  s <| au_session := redis_set (au_session s) (au_now s) userId sid SESSION_TTL_SECONDS |>.

Definition start (userId : uuid) (multi : bool) : UM N :=
  sid ← random;
  when (negb multi) (modify (put_session userId sid)) ;;
  mret sid.

Definition resume (userId : uuid) (multi : bool) (sid : option N) : UM N :=
  if multi then match sid with Some sid => mret sid | None => random end
  else
    s ← get;
    match sid with
    | None =>
        ensure (is_null (active_session s userId)) SESSION_REPLACED ;;
        start userId multi
    | Some sid =>
        ensure (bool_decide (active_session s userId = Some sid)) SESSION_REPLACED ;;
        modify (fun s => s <| au_session := redis_expire (au_session s) (au_now s) userId SESSION_TTL_SECONDS |>) ;;
        mret sid
    end.

Definition isCurrent (s : auth_state) (userId : uuid) (sid : option N) (multi : bool) : bool :=
  if multi then true
  else match sid with
       | Some sid => bool_decide (active_session s userId = Some sid)
       | None => is_null (active_session s userId)
       end.

Definition assertCurrent (userId : uuid) (sid : option N) (multi : bool) : UM unit :=
  s ← get;
  ensure (isCurrent s userId sid multi) SESSION_REPLACED.

(** [deleteIfValue] *)
Definition end_session (userId : uuid) (sid : option N) : UM unit :=
  s ← get;
  match sid with
  | Some sid =>
      when (bool_decide (active_session s userId = Some sid)) (modify (fun s => s <| au_session := delete userId (au_session s) |>))
  | None => mret tt
  end.

(** [JwtStrategy.validate] of a token whose signature and time are good *)
Definition validate (payload : JwtPayload) : UM JwtPayload :=
  assertCurrent (jw_userId payload) (jw_sid payload) (jw_multi payload) ;;
  mret payload.

(** ** [RegistrationService] *)

Section Registration.
  Context `{AuthWorld}.

(** [/^\d{5,8}$/] *)
Definition is_review_code (t : text) : bool := Nat.leb 5 (length t) && Nat.leb (length t) 8 && forallb is_digit t.

Definition review_entry (phone entry : text) : option text :=
  match map (fun part => normalizePhoneNumber (trim part)) (split_at 58 [] entry) with
  | number :: code :: _ => if bool_decide (number = phone) && is_review_code code then Some code else None
  | _ => None
  end.

Definition reviewCode (s : auth_state) (phone : text) : option text :=
  match au_reviewLogins s with
  | Some logins => head (omap (review_entry phone) (split_at 44 [] logins))
  | None => None
  end.

Definition lock_busy : exn := conflict "Another request for this phone number is in progress.".

Definition withLock {A} (phone : text) (operation : UM A) : UM A :=
  owner ← random;
  s ← get;
  ensure (is_null (redis_get (au_locks s) (au_now s) phone)) lock_busy ;;
  modify (fun s => s <| au_locks := redis_set (au_locks s) (au_now s) phone owner LOCK_SECONDS |>) ;;
  try_finally operation
    (s ← get;
     when (bool_decide (redis_get (au_locks s) (au_now s) phone = Some owner))
       (modify (fun s => s <| au_locks := delete phone (au_locks s) |>))).

(** *** The code *)

Definition too_many_codes (retryAfter : Z) : exn :=
  HttpError 429 (js "Too many codes requested. Try again in " ++ text_of_N (Z.to_N ((retryAfter + 59) `div` 60)) ++ js " minutes.").
Definition wait_for_code : exn := HttpError 429 (js "Wait 60 seconds before requesting another code.").

Definition sends_of (s : auth_state) (phone : text) : Z :=
  match redis_get (au_sends s) (au_now s) phone with Some n => n | None => 0 end.

(** A code is kept as its hash, and the send counted. *)
Definition keep_code (phone code : text) (s : auth_state) : auth_state :=
  let now := au_now s in
  s <| au_otp := redis_set (au_otp s) now phone (mkOtp (hmac phone code) (now + OTP_TTL_SECONDS * 1000) 0) OTP_TTL_SECONDS |>
    <| au_sends := redis_expire (redis_increment (au_sends s) now phone SENDS_BLOCK_SECONDS) now phone SENDS_BLOCK_SECONDS |>.

Definition forget_code (phone : text) (s : auth_state) : auth_state :=
  s <| au_otp := delete phone (au_otp s) |> <| au_cooldown := delete phone (au_cooldown s) |>.

(** [sent]: the code the provider sent, or its failure *)
Definition requestOtp (phone : text) (sent : outcome text) : UM (Z * Z) :=
  s ← get;
  if negb (au_smsOtpEnabled s) then mret (OTP_TTL_SECONDS, 0)
  else withLock phone (
    s ← get;
    ensure (sends_of s phone <? MAX_SENDS) (too_many_codes (Z.max 1 (redis_ttl (au_sends s) (au_now s) phone))) ;;
    ensure (is_null (redis_get (au_cooldown s) (au_now s) phone)) wait_for_code ;;
    modify (fun s => s <| au_cooldown := redis_set (au_cooldown s) (au_now s) phone tt OTP_COOLDOWN_SECONDS |>) ;;
    try_catch (
      code ← match reviewCode s phone with Some code => mret code | None => of_outcome sent end;
      modify (keep_code phone code) ;;
      mret (OTP_TTL_SECONDS, OTP_COOLDOWN_SECONDS))
      (fun error => modify (forget_code phone) ;; throw error)).

Definition expired_code : exn := badRequest "Verification code has expired or does not exist.".
Definition too_many_attempts : exn := HttpError 429 (js "Too many incorrect attempts. Request a new code.").
Definition invalid_code : exn := badRequest "Invalid verification code.".

Definition wrong_code (phone : text) (pending : PendingOtp) (s : auth_state) : auth_state :=
  let seconds := Z.max 1 ((otp_expiresAt pending - au_now s + 999) `div` 1000) in
  s <| au_otp := redis_set (au_otp s) (au_now s) phone (pending <| otp_attempts := otp_attempts pending + 1 |>) seconds |>.

Definition check_code (phone code : text) : UM unit :=
  s ← get;
  match redis_get (au_otp s) (au_now s) phone with
  | Some pending =>
      ensure (au_now s <? otp_expiresAt pending) expired_code ;;
      ensure (otp_attempts pending <? MAX_ATTEMPTS) too_many_attempts ;;
      if bool_decide (otp_codeHash pending = hmac phone code) then
        modify (fun s => s <| au_otp := delete phone (au_otp s) |> <| au_sends := delete phone (au_sends s) |>)
      else modify (wrong_code phone pending) ;; throw invalid_code
  | None => throw expired_code
  end.

(** *** Tokens *)

Record Tokens := mkTokens { tk_access : JwtPayload; tk_refresh : N }.

Definition is_nonempty {A} (l : list A) : bool := match l with [] => false | _ => true end.

Definition review_approved (now : time) (u : Account) : Account :=
  u <| a_verificationStatus := VerApproved |> <| a_verificationDecidedAt := Some now |> <| a_verificationNote := None |>.

Definition approve_reviewer (user : Account) : UM unit :=
  s ← get;
  match a_mobile user with
  | Some mobile =>
      when (negb (is_empty mobile) && negb (eqb (a_verificationStatus user) VerApproved) && negb (is_null (reviewCode s mobile)))
        (on_accounts (modify (fun a => a <| ac_users := alter (review_approved (ac_now a)) (a_id user) (ac_users a) |>)))
  | None => mret tt
  end.

Definition put_refresh (token : N) (userId : uuid) (sid : N) (s : auth_state) : auth_state :=
  s <| au_refresh := redis_set (au_refresh s) (au_now s) token (mkRefresh userId (Some sid)) REFRESH_TTL_SECONDS |>.

Definition issueTokens (user : Account) (sid : N) : UM Tokens :=
  s ← get;
  let payload := (jwt_payload (au_acc s) user) <| jw_sid := Some sid |> <| jw_multi := a_isParentCompany user |> in
  ensure (jw_isActive payload && is_nonempty (jw_roles payload)) (unauthorized "Unauthorized") ;;
  approve_reviewer user ;;
  refreshToken ← random;
  modify (put_refresh refreshToken (a_id user) sid) ;;
  mret (mkTokens payload refreshToken).

Record Device := mkDevice { dv_userAgent : option text; dv_pushEndpoint : option text }.
Definition no_device : Device := mkDevice None None.

(** [deviceName.ts] *)
Fixpoint contains (p t : text) : bool :=
  starts_with p t || match t with [] => false | _ :: t => contains p t end.

Definition first_of (ua : text) (names : list (list string * string)) : option text :=
  option_map (fun n => js n.2) (List.find (fun n => some_b (fun p => contains (js p) ua) n.1) names).

Definition deviceName (userAgent : option text) : text :=
  let ua := default [] userAgent in
  let system := first_of ua [(["iPhone"], "iPhone"); (["iPad"], "iPad"); (["Android"], "Android"); (["Windows"], "Windows");
                             (["Mac OS X"; "Macintosh"], "Mac"); (["Linux"], "Linux")]%string in
  let browser := first_of ua [(["Edg/"], "Edge"); (["SamsungBrowser"], "Samsung Internet"); (["OPR/"; "Opera"], "Opera");
                              (["Firefox"; "FxiOS"], "Firefox"); (["Chrome"; "CriOS"], "Chrome"); (["Safari"], "Safari")]%string in
  match omap id [system; browser] with [] => js "دستگاه ناشناس" | names => join (js " · ") names end.

Definition signedIn (userId : uuid) (device : Device) (sid : N) (quiet : bool) : UM unit :=
  modify (fun s => s <| au_signedIn := au_signedIn s ++
    [mkSignedIn userId (deviceName (dv_userAgent device)) (au_now s) (dv_pushEndpoint device) sid quiet] |>).

Definition signIn (user : Account) (device : Device) (quiet : bool) : UM Tokens :=
  sid ← start (a_id user) (a_isParentCompany user);
  tokens ← issueTokens user sid;
  signedIn (a_id user) device sid quiet ;;
  mret tokens.

(** *** Accounts *)

Definition earlier_account (a b : Account) : Account := if a_createdAt b <? a_createdAt a then b else a.

Definition parentCompanyFor (s : auth_state) (phone : text) : option Account :=
  if bool_decide (phone ∈ ac_parentLogins (au_acc s)) then
    match find_rows (fun u => a_isParentCompany u && eqb (a_recordStatus u) RecActive) (ac_users (au_acc s)) with
    | [] => None
    | u :: us => findById (au_acc s) (a_id (foldl earlier_account u us))
    end
  else None.

Definition createAccount (signup : PendingSignup) (accountType : AccountType) : UM Account :=
  s ← get;
  user ← on_accounts (
    match sg_userId signup with
    | Some id => assignRole id accountType
    | None => match findByMobile (au_acc s) (sg_phone signup) with
              | Some existing => assignRole (a_id existing) accountType
              | None => create (sg_phone signup) accountType
              end
    end);
  on_accounts (markInvitesUsed (Some (sg_phone signup))) ;;
  mret user.

Inductive VerifyAnswer :=
| SignedInAnswer (tokens : Tokens)
| RegistrationRequired (registrationToken : N) (phone : text) (accountTypes : list AccountType).

Definition ask_type (signup : PendingSignup) : UM VerifyAnswer :=
  registrationToken ← random;
  modify (fun s => s <| au_signups := redis_set (au_signups s) (au_now s) registrationToken signup SIGNUP_TTL_SECONDS |>) ;;
  mret (RegistrationRequired registrationToken (sg_phone signup)
          (match sg_accountTypes signup with Some types => types | None => SELF_SERVICE_ACCOUNT_TYPES end)).

(** After the code: the parent company of the number, its account, or the choice of a type *)
Definition verified_number (phone : text) (device : Device) : UM VerifyAnswer :=
  s ← get;
  match parentCompanyFor s phone with
  | Some parent => tokens ← signIn parent device false; mret (SignedInAnswer tokens)
  | None =>
      let user := findByMobile (au_acc s) phone in
      ensure (match user with Some u => eqb (a_recordStatus u) RecActive | None => true end) (unauthorized "This account is inactive.") ;;
      let full := match user with Some u => findById (au_acc s) (a_id u) | None => None end in
      match full with
      | Some u =>
          if is_nonempty (active_roles (au_acc s) (a_id u)) then
            tokens ← signIn u device false;
            on_accounts (markInvitesUsed (a_mobile u)) ;;
            mret (SignedInAnswer tokens)
          else
            let signup := mkSignup phone (Some (a_id u)) None in
            match invitedAccountTypes (au_acc s) phone with
            | [t] => user ← createAccount signup t; tokens ← signIn user device false; mret (SignedInAnswer tokens)
            | [] => ask_type signup
            | types => ask_type (signup <| sg_accountTypes := Some types |>)
            end
      | None =>
          let signup := mkSignup phone None None in
          match invitedAccountTypes (au_acc s) phone with
          | [t] => user ← createAccount signup t; tokens ← signIn user device false; mret (SignedInAnswer tokens)
          | [] => ask_type signup
          | types => ask_type (signup <| sg_accountTypes := Some types |>)
          end
      end
  end.

Definition verifyOtp (phone code : text) (device : Device) : UM VerifyAnswer :=
  withLock phone (
    s ← get;
    when (au_smsOtpEnabled s) (check_code phone code) ;;
    verified_number phone device).

Definition registration_expired : exn := unauthorized "Registration has expired; verify your phone number again.".

(** [take]: read and gone *)
Definition take_signup (token : N) : UM (option PendingSignup) :=
  s ← get;
  modify (fun s => s <| au_signups := delete token (au_signups s) |>) ;;
  mret (redis_get (au_signups s) (au_now s) token).

Definition completeRegistration (registrationToken : N) (accountType : AccountType) : UM Tokens :=
  ensure (is_type accountType SELF_SERVICE_ACCOUNT_TYPES) (badRequest "Choose a driver or company account.") ;;
  raw ← take_signup registrationToken;
  signup ← some_or raw registration_expired;
  ensure (match sg_accountTypes signup with Some types => is_type accountType types | None => true end)
    (badRequest "این شماره با لینک دعوت آمده است؛ همان نوع حسابی را انتخاب کنید که دعوت شده است.") ;;
  withLock (sg_phone signup) (
    user ← createAccount signup accountType;
    signIn user no_device true).

(** *** The admin *)

Definition admin_paused : exn := HttpError 429 (js "تلاش‌های ناموفق زیاد بود؛ چند دقیقه‌ی دیگر دوباره امتحان کنید.").
Definition admin_wrong : exn := unauthorized "نام کاربری یا رمز عبور درست نیست.".

Definition admin_account (s : auth_state) (name password : text) : option Account :=
  match find_row (fun u => bool_decide (toLowerCase (a_username u) = name) && eqb (a_recordStatus u) RecActive) (ac_users (au_acc s)) with
  | Some u =>
      match a_passwordHash u with
      | Some hash => if negb (is_empty hash) && argon2_verify hash password
                        && bool_decide ("ADMIN"%string ∈ active_roles (au_acc s) (a_id u)) then Some u else None
      | None => None
      end
  | None => None
  end.

Definition adminSignIn (username password : text) : UM Tokens :=
  let name := toLowerCase (trim username) in
  s ← get;
  ensure (match redis_get (au_failures s) (au_now s) name with Some n => n <? ADMIN_SIGN_IN_TRIES | None => true end) admin_paused ;;
  match admin_account s name password with
  | Some user =>
      modify (fun s => s <| au_failures := delete name (au_failures s) |>) ;;
      signIn user no_device true
  | None =>
      modify (fun s => s <| au_failures := redis_increment (au_failures s) (au_now s) name ADMIN_SIGN_IN_PAUSE_SECONDS |>) ;;
      throw admin_wrong
  end.

(** *** A refresh and a sign-out *)

Definition take_refresh (token : N) : UM (option RefreshValue) :=
  s ← get;
  modify (fun s => s <| au_refresh := delete token (au_refresh s) |>) ;;
  mret (redis_get (au_refresh s) (au_now s) token).

Definition revoke (token : N) : UM unit :=
  value ← take_refresh token;
  match value with
  | Some v => end_session (rf_userId v) (rf_sid v)
  | None => mret tt
  end.

Definition invalid_refresh : exn := unauthorized "Invalid or expired refresh token.".

Definition refresh (token : N) : UM Tokens :=
  value ← take_refresh token;
  v ← some_or value invalid_refresh;
  s ← get;
  user ← some_or (findById (au_acc s) (rf_userId v)) (unauthorized "Unauthorized");
  session ← resume (a_id user) (a_isParentCompany user) (rf_sid v);
  on_accounts (markInvitesUsed (a_mobile user)) ;;
  issueTokens user session.

End Registration.
