(* ===== verification/SessionFacts.v ===== *)
(** * Signing in: what every handler keeps

    A property of the store that the single writes keep is kept by every handler: the
    interface is the list of writes, the handlers are proved against it once. *)

From S2P Require Import Prelude JsNumber JsString Json Effects Enums Phone DriverProfile BrokerAccess CompanyFeatures Accounts Invites AccountVerification AccountFacts Redis Sessions.

(** ** Account handlers keep the clock *)

Definition at_time (t : time) (a : account_state) : Prop := ac_now a = t.

Lemma at_time_modify t f : (forall a, ac_now (f a) = ac_now a) -> preserves (at_time t) (modify f).
Proof. intros Hf. apply preserves_modify. intros a Ha. unfold at_time. by rewrite Hf. Qed.

Lemma save_account_time t u : preserves (at_time t) (save_account u).
Proof. unfold save_account. preserve. by apply at_time_modify. Qed.
Lemma take_id_time t : preserves (at_time t) take_id.
Proof. by apply at_time_modify. Qed.
Lemma add_role_time t u n : preserves (at_time t) (add_role u n).
Proof. by apply at_time_modify. Qed.
#[export] Hint Resolve save_account_time take_id_time add_role_time : preserves.

Lemma assignRole_time t u a : preserves (at_time t) (assignRole u a).
Proof. unfold assignRole, assignInitialRole. preserve. Qed.
Lemma create_time t p a : preserves (at_time t) (create p a).
Proof. unfold create, createWithRole, insert_account. preserve. Qed.
Lemma markInvitesUsed_time t m : preserves (at_time t) (markInvitesUsed m).
Proof.
  unfold markInvitesUsed. destruct m as [m|]; [|apply preserves_ret]. apply preserves_if; intros _; [apply preserves_ret|].
  apply preserves_for_each. intros k _. unfold mark_kind. preserve; by apply at_time_modify.
Qed.
#[export] Hint Resolve assignRole_time create_time markInvitesUsed_time : preserves.

(** ** What the single writes keep *)

Definition draw (s : auth_state) : auth_state := s <| au_random := N.succ (au_random s) |>.

Record keeps_writes (I : auth_state -> Prop) : Prop := {
  kw_draw : forall s, I s -> I (draw s);
  kw_accounts : forall s a, I s -> ac_now a = au_now s -> I (s <| au_acc := a |>);
  kw_session : forall s u, I s -> I (put_session u (au_random s) (draw s));
  kw_renew : forall s u, I s -> I (s <| au_session := redis_expire (au_session s) (au_now s) u SESSION_TTL_SECONDS |>);
  kw_end : forall s u, I s -> I (s <| au_session := delete u (au_session s) |>);
  kw_refresh : forall s u sid, I s -> I (put_refresh (au_random s) u sid (draw s));
  kw_take : forall s t, I s -> I (s <| au_refresh := delete t (au_refresh s) |>);
  kw_signup : forall s v, I s ->
    I ((draw s) <| au_signups := redis_set (au_signups s) (au_now s) (au_random s) v SIGNUP_TTL_SECONDS |>);
  kw_signup_gone : forall s t, I s -> I (s <| au_signups := delete t (au_signups s) |>);
  kw_locks : forall s m, I s -> I (s <| au_locks := m |>);
  kw_failures : forall s m, I s -> I (s <| au_failures := m |>);
  kw_signedIn : forall s l, I s -> I (s <| au_signedIn := l |>);
}.

Section Kept.
  Context `{AuthWorld} (I : auth_state -> Prop) (HI : keeps_writes I).

Lemma random_kept : preserves I random.
Proof. intros s Hs. exact (kw_draw I HI s Hs). Qed.

Lemma on_accounts_kept {A} (m : AM A) : (forall t, preserves (at_time t) m) -> preserves I (on_accounts m).
Proof.
  intros Hm s Hs. unfold on_accounts, zoom, final. specialize (Hm (au_now s) (au_acc s) eq_refl). unfold final in Hm.
  destruct (m (au_acc s)) as [r a]. by apply (kw_accounts I HI).
Qed.

Lemma start_kept u multi : preserves I (start u multi).
Proof.
  intros s Hs. unfold start, final. rewrite run_bind. unfold random. rewrite run_bind. unfold get. cbv beta iota.
  rewrite run_bind. unfold modify at 1. cbv beta iota. rewrite run_ret, run_bind. destruct multi; cbn [negb when].
  - exact (kw_draw I HI s Hs).
  - unfold modify. exact (kw_session I HI s u Hs).
Qed.

Lemma resume_kept u multi sid : preserves I (resume u multi sid).
Proof.
  unfold resume. destruct multi; [destruct sid; [apply preserves_ret | apply random_kept]|].
  destruct sid as [sid|]; preserve; [|by apply start_kept].
  apply preserves_modify. intros t Ht. by apply (kw_renew I HI).
Qed.

Lemma approve_reviewer_kept u : preserves I (approve_reviewer u).
Proof.
  unfold approve_reviewer. preserve. apply on_accounts_kept. intros t. by apply at_time_modify.
Qed.

Lemma issueTokens_kept u sid : preserves I (issueTokens u sid).
Proof.
  unfold issueTokens. apply preserves_get_bind. intros s0 _. cbv zeta.
  apply preserves_ensure_bind. intros _. apply preserves_bind; [apply approve_reviewer_kept|intros _].
  intros s Hs. unfold final. rewrite run_bind. unfold random. rewrite run_bind. unfold get. cbv beta iota.
  rewrite run_bind. unfold modify at 1. cbv beta iota. rewrite run_ret, run_bind. unfold modify. cbv beta iota.
  exact (kw_refresh I HI s (a_id u) sid Hs).
Qed.

Lemma signedIn_kept u d sid q : preserves I (signedIn u d sid q).
Proof. apply preserves_modify. intros s Hs. by apply (kw_signedIn I HI). Qed.

Lemma signIn_kept u d q : preserves I (signIn u d q).
Proof.
  unfold signIn. apply preserves_bind; [apply start_kept|intros sid]. apply preserves_bind; [apply issueTokens_kept|intros tk].
  apply preserves_bind; [apply signedIn_kept|intros; apply preserves_ret].
Qed.

Lemma createAccount_kept v t : preserves I (createAccount v t).
Proof.
  unfold createAccount. apply preserves_get_bind. intros s _. apply preserves_bind.
  - apply on_accounts_kept. intros now. destruct (sg_userId v); [|destruct (findByMobile _ _)]; auto with preserves.
  - intros u. apply preserves_bind; [apply on_accounts_kept; auto with preserves | intros; apply preserves_ret].
Qed.

Lemma ask_type_kept v : preserves I (ask_type v).
Proof.
  intros s Hs. unfold ask_type, final. rewrite run_bind. unfold random. rewrite run_bind. unfold get. cbv beta iota.
  rewrite run_bind. unfold modify at 1. cbv beta iota. rewrite run_ret, run_bind. unfold modify. cbv beta iota.
  exact (kw_signup I HI s v Hs).
Qed.

Lemma sign_in_answer_kept u d : preserves I (tokens ← signIn u d false; mret (SignedInAnswer tokens)).
Proof. apply preserves_bind; [apply signIn_kept | intros; apply preserves_ret]. Qed.

Lemma create_and_sign_in_kept v t d :
  preserves I (user ← createAccount v t; tokens ← signIn user d false; mret (SignedInAnswer tokens)).
Proof. apply preserves_bind; [apply createAccount_kept | intros u; apply sign_in_answer_kept]. Qed.

Lemma verified_number_kept p d : preserves I (verified_number p d).
Proof.
  unfold verified_number. apply preserves_get_bind. intros s _.
  destruct (parentCompanyFor s p); [apply sign_in_answer_kept|]. cbv zeta. apply preserves_ensure_bind. intros _.
  assert (Hnew : forall v, preserves I
    (match invitedAccountTypes (au_acc s) p with
     | [t] => user ← createAccount v t; tokens ← signIn user d false; mret (SignedInAnswer tokens)
     | [] => ask_type v
     | types => ask_type (v <| sg_accountTypes := Some types |>)
     end)).
  { intros v. destruct (invitedAccountTypes _ _) as [|t [|t' l]]; [apply ask_type_kept|apply create_and_sign_in_kept|apply ask_type_kept]. }
  destruct (match findByMobile (au_acc s) p with Some u => findById (au_acc s) (a_id u) | None => None end) as [u|]; [|apply Hnew].
  apply preserves_if; intros _; [|apply Hnew]. apply preserves_bind; [apply signIn_kept|intros tk].
  apply preserves_bind; [apply on_accounts_kept; auto with preserves | intros; apply preserves_ret].
Qed.

Lemma withLock_kept {A} p (m : UM A) : preserves I m -> preserves I (withLock p m).
Proof.
  intros Hm. unfold withLock. apply preserves_bind; [apply random_kept|intros owner]. apply preserves_get_bind. intros s _.
  apply preserves_ensure_bind. intros _. apply preserves_bind; [apply preserves_modify; intros t Ht; by apply (kw_locks I HI)|intros _].
  apply preserves_try_finally; [done|]. apply preserves_get_bind. intros t _. apply preserves_when. intros _.
  apply preserves_modify. intros t' Ht. by apply (kw_locks I HI).
Qed.

Lemma registered_kept o a :
  preserves I (signup ← some_or o registration_expired;
  ensure (match sg_accountTypes signup with Some types => is_type a types | None => true end)
    (badRequest "این شماره با لینک دعوت آمده است؛ همان نوع حسابی را انتخاب کنید که دعوت شده است.") ;;
  withLock (sg_phone signup) (user ← createAccount signup a; signIn user no_device true)).
Proof.
  apply preserves_some_or_bind. intros v _. apply preserves_ensure_bind. intros _. apply withLock_kept.
  apply preserves_bind; [apply createAccount_kept|intros u; apply signIn_kept].
Qed.

Lemma take_signup_kept t : preserves I (take_signup t).
Proof.
  unfold take_signup. apply preserves_get_bind. intros s _.
  apply preserves_bind; [apply preserves_modify; intros u Hu; by apply (kw_signup_gone I HI)|intros; apply preserves_ret].
Qed.

Lemma completeRegistration_kept t a : preserves I (completeRegistration t a).
Proof.
  unfold completeRegistration. apply preserves_ensure_bind. intros _.
  apply preserves_bind; [apply take_signup_kept | intros o; apply registered_kept].
Qed.

Lemma adminSignIn_kept u p : preserves I (adminSignIn u p).
Proof.
  unfold adminSignIn. cbv zeta. apply preserves_get_bind. intros s _. apply preserves_ensure_bind. intros _.
  destruct (admin_account _ _ _).
  - apply preserves_bind; [apply preserves_modify; intros t Ht; by apply (kw_failures I HI)|intros _; apply signIn_kept].
  - apply preserves_bind; [apply preserves_modify; intros t Ht; by apply (kw_failures I HI)|intros _; apply preserves_throw].
Qed.

Lemma take_refresh_kept t : preserves I (take_refresh t).
Proof.
  unfold take_refresh. apply preserves_get_bind. intros s _.
  apply preserves_bind; [apply preserves_modify; intros u Hu; by apply (kw_take I HI)|intros; apply preserves_ret].
Qed.

Lemma ended_kept o : preserves I (match o with Some v => end_session (rf_userId v) (rf_sid v) | None => mret tt end).
Proof.
  destruct o as [v|]; [|apply preserves_ret]. unfold end_session. apply preserves_get_bind. intros s _.
  destruct (rf_sid v); [|apply preserves_ret].
  apply preserves_when. intros _. apply preserves_modify. intros u Hu. by apply (kw_end I HI).
Qed.

Lemma revoke_kept t : preserves I (revoke t).
Proof. unfold revoke. apply preserves_bind; [apply take_refresh_kept | apply ended_kept]. Qed.

Lemma renewed_kept o :
  preserves I (v ← some_or o invalid_refresh;
  s ← get;
  user ← some_or (findById (au_acc s) (rf_userId v)) (unauthorized "Unauthorized");
  session ← resume (a_id user) (a_isParentCompany user) (rf_sid v);
  on_accounts (markInvitesUsed (a_mobile user)) ;;
  issueTokens user session).
Proof.
  apply preserves_some_or_bind. intros v _. apply preserves_get_bind. intros s _. apply preserves_some_or_bind. intros u _.
  apply preserves_bind; [apply resume_kept|intros sid].
  apply preserves_bind; [apply on_accounts_kept; auto with preserves|intros _; apply issueTokens_kept].
Qed.

Lemma refresh_kept t : preserves I (refresh t).
Proof. unfold refresh. apply preserves_bind; [apply take_refresh_kept | apply renewed_kept]. Qed.

(** The writes of the codes too *)
Context (I_codes : forall s o c d, I s -> I (s <| au_otp := o |> <| au_cooldown := c |> <| au_sends := d |>)).

Lemma requestOtp_kept p sent : preserves I (requestOtp p sent).
Proof.
  unfold requestOtp. apply preserves_get_bind. intros s _. apply preserves_if; intros _; [apply preserves_ret|].
  apply withLock_kept. apply preserves_get_bind. intros s1 _. apply preserves_ensure_bind. intros _. apply preserves_ensure_bind. intros _.
  apply preserves_bind; [apply preserves_modify; intros t Ht; by apply (I_codes t (au_otp t) _ (au_sends t))|intros _].
  apply preserves_try_catch.
  - apply preserves_bind; [destruct (reviewCode s1 p); [apply preserves_ret | apply preserves_of_outcome]|intros code].
    apply preserves_bind; [apply preserves_modify; intros t Ht; by apply (I_codes t _ (au_cooldown t) _)|intros; apply preserves_ret].
  - intros e. apply preserves_bind; [apply preserves_modify; intros t Ht; exact (I_codes t (delete p (au_otp t)) (delete p (au_cooldown t)) (au_sends t) Ht)|intros; apply preserves_throw].
Qed.

Lemma check_code_kept p code : preserves I (check_code p code).
Proof.
  unfold check_code. apply preserves_get_bind. intros s _. destruct (redis_get _ _ _) as [v|]; [|apply preserves_throw].
  apply preserves_ensure_bind. intros _. apply preserves_ensure_bind. intros _. apply preserves_if; intros _.
  - apply preserves_modify. intros t Ht. by apply (I_codes t _ (au_cooldown t) _).
  - apply preserves_bind; [apply preserves_modify; intros t Ht; by apply (I_codes t _ (au_cooldown t) (au_sends t))|intros; apply preserves_throw].
Qed.

Lemma verifyOtp_kept p code d : preserves I (verifyOtp p code d).
Proof.
  unfold verifyOtp. apply withLock_kept. apply preserves_get_bind. intros s _.
  apply preserves_bind; [apply preserves_when; intros _; apply check_code_kept | intros _; apply verified_number_kept].
Qed.

End Kept.
