(* ===== verification/SessionProperties.v ===== *)
(** * What signing in promises

    One session per account, tokens that work once, and codes that cannot be guessed. *)

From S2P Require Import Prelude JsNumber JsString Json Effects Enums Phone DriverProfile BrokerAccess CompanyFeatures Accounts Invites AccountVerification AccountFacts AccountProperties Redis Sessions SessionFacts.

(** ** Every request *)

Inductive auth_op :=
| RequestOtp (phone : text) (sent : outcome text)
| VerifyOtp (phone code : text) (device : Device)
| CompleteRegistration (registrationToken : N) (accountType : AccountType)
| AdminSignIn (username password : text)
| RefreshToken (token : N)
| SignOut (token : N)
| OnAccounts (op : account_op).

Section Properties.
  Context `{AuthWorld}.

Definition exec_auth (op : auth_op) (s : auth_state) : auth_state :=
  match op with
  | RequestOtp p sent => final (requestOtp p sent) s
  | VerifyOtp p code d => final (verifyOtp p code d) s
  | CompleteRegistration t a => final (completeRegistration t a) s
  | AdminSignIn u p => final (adminSignIn u p) s
  | RefreshToken t => final (refresh t) s
  | SignOut t => final (revoke t) s
  | OnAccounts op => s <| au_acc := exec_account op (au_acc s) |>
  end.

Definition run_auth (ops : list auth_op) (s : auth_state) : auth_state := foldl (fun s op => exec_auth op s) s ops.

(** A property of the store alone is kept by every request when the writes keep it. *)
Lemma run_auth_kept (I : auth_state -> Prop) :
  keeps_writes I -> (forall s o c d, I s -> I (s <| au_otp := o |> <| au_cooldown := c |> <| au_sends := d |>)) ->
  (forall s a, I s -> I (s <| au_acc := a |>)) -> forall ops s, I s -> I (run_auth ops s).
Proof.
  intros HI Hc Ha ops. unfold run_auth. induction ops as [|op ops IH]; intros s Hs; [done|]. apply IH.
  destruct op; cbn [exec_auth].
  - by apply (requestOtp_kept I HI Hc).
  - by apply (verifyOtp_kept I HI Hc).
  - by apply (completeRegistration_kept I HI).
  - by apply (adminSignIn_kept I HI).
  - by apply (refresh_kept I HI).
  - by apply (revoke_kept I HI).
  - by apply Ha.
Qed.

(** ** A session replaced *)

Definition away (u : uuid) (old : N) (s : auth_state) : Prop :=
  (old < au_random s)%N /\ forall e, au_session s !! u <> Some (old, e).

Lemma away_writes u old : keeps_writes (away u old).
Proof.
  constructor.
  - intros s [Hl Hn]. split; [|done]. change (old < N.succ (au_random s))%N. lia.
  - by intros s a [Hl Hn] _.
  - intros s v [Hl Hn]. split; [change (old < N.succ (au_random s))%N; lia|]. intros e.
    change (au_session (put_session v (au_random s) (draw s))) with (redis_set (au_session s) (au_now s) v (au_random s) SESSION_TTL_SECONDS).
    unfold redis_set. rewrite lookup_insert. case_decide; [|by apply Hn]. intros [= E _]. lia.
  - intros s v [Hl Hn]. split; [done|]. intros e.
    change (redis_expire (au_session s) (au_now s) v SESSION_TTL_SECONDS !! u <> Some (old, e)).
    unfold redis_expire, redis_get. destruct (au_session s !! v) as [[x e']|] eqn:E; [|by apply Hn].
    destruct (_ <=? _); [|by apply Hn]. unfold redis_set. rewrite lookup_insert. case_decide; [|by apply Hn].
    subst v. intros [= -> _]. by apply (Hn e').
  - intros s v [Hl Hn]. split; [done|]. intros e. change (delete v (au_session s) !! u <> Some (old, e)).
    rewrite lookup_delete. case_decide; [done | by apply Hn].
  - intros s v sid [Hl Hn]. split; [|done]. change (old < N.succ (au_random s))%N. lia.
  - by intros s t [Hl Hn].
  - intros s v [Hl Hn]. split; [|done]. change (old < N.succ (au_random s))%N. lia.
  - by intros s t [Hl Hn].
  - by intros s m [Hl Hn].
  - by intros s m [Hl Hn].
  - by intros s l [Hl Hn].
Qed.

Lemma away_not_active u old s : away u old s -> active_session s u <> Some old.
Proof.
  intros [_ Hn]. unfold active_session, redis_get. destruct (au_session s !! u) as [[v e]|] eqn:E; [|done].
  destruct (_ <=? _); [|done]. intros [= ->]. by apply (Hn e).
Qed.

Definition same_sessions (s0 s : auth_state) : Prop := au_session s = au_session s0 /\ au_now s = au_now s0 /\ (au_random s0 <= au_random s)%N.

Lemma approve_reviewer_sessions s0 user : preserves (same_sessions s0) (approve_reviewer user).
Proof.
  unfold approve_reviewer. preserve. intros t Ht. exact Ht.
Qed.

Lemma issueTokens_session user sid s tokens s1 :
  issueTokens user sid s = (Ok tokens, s1) -> same_sessions s s1 /\ jw_sid (tk_access tokens) = Some sid.
Proof.
  intros H0. unfold issueTokens in H0. run_inv.
  assert (Hc := approve_reviewer_sessions s user s (conj eq_refl (conj eq_refl (N.le_refl _)))). unfold final in Hc.
  match goal with Hr : approve_reviewer user s = _ |- _ => rewrite Hr in Hc end.
  match goal with Hr : random _ = _ |- _ => unfold random in Hr end. run_inv.
  destruct Hc as (Hs & Hn & Hr). split; [split; [exact Hs | split; [exact Hn|]] | done].
  etrans; [exact Hr | apply N.le_succ_diag_r].
Qed.

(** A session started is the one of its account, and the tokens carry it. *)
Lemma signIn_session user device quiet s tokens s1 :
  a_isParentCompany user = false -> signIn user device quiet s = (Ok tokens, s1) ->
  au_session s1 = <[a_id user := (au_random s, au_now s + SESSION_TTL_SECONDS * 1000)]> (au_session s) /\
  au_now s1 = au_now s /\ jw_sid (tk_access tokens) = Some (au_random s) /\ (au_random s < au_random s1)%N.
Proof.
  intros Hp H0. unfold signIn in H0. rewrite Hp in H0. apply bind_Ok_inv in H0 as (sid & sa & Hst & H0).
  assert (E0 : start (a_id user) false s = (Ok (au_random s), put_session (a_id user) (au_random s) (draw s))) by done.
  rewrite E0 in Hst. apply run_Ok_inv in Hst as [<- <-].
  apply bind_Ok_inv in H0 as (tk & sb & Hi & H0). apply issueTokens_session in Hi as [(Es & En & Er) Hj].
  unfold signedIn in H0. run_inv. split_and!; [exact Es | exact En | exact Hj | change (au_random s < au_random sb)%N].
  change (au_random (put_session (a_id user) (au_random s) (draw s))) with (N.succ (au_random s)) in Er. lia.
Qed.

Lemma active_inserted u v s m t :
  au_session s = <[u := (v, t)]> m -> au_now s <= t -> active_session s u = Some v.
Proof. intros E Ht. unfold active_session, redis_get. rewrite E, lookup_insert_eq. by rewrite (proj2 (Z.leb_le _ _) Ht). Qed.

(** ** Tokens spent *)

(** A drawn number that is no refresh token, and one that is no registration token *)
Definition spent (token : N) (s : auth_state) : Prop := (token < au_random s)%N /\ au_refresh s !! token = None.
Definition spent_signup (token : N) (s : auth_state) : Prop := (token < au_random s)%N /\ au_signups s !! token = None.

Lemma drawn_later (token n : N) : (token < n)%N -> (token < N.succ n)%N.
Proof. lia. Qed.

Ltac keep_spent := intros s; intros; match goal with Hs : _ /\ _ |- _ => destruct Hs end;
  split; [first [assumption | by apply drawn_later] | first [assumption | idtac]].

Lemma spent_writes token : keeps_writes (spent token).
Proof.
  constructor; unfold spent; keep_spent.
  - change (redis_set (au_refresh s) (au_now s) (au_random s) (mkRefresh u (Some sid)) REFRESH_TTL_SECONDS !! token = None).
    unfold redis_set. rewrite lookup_insert_ne; [done | lia].
  - change (delete t (au_refresh s) !! token = None). rewrite lookup_delete. by case_decide.
Qed.

Lemma spent_signup_writes token : keeps_writes (spent_signup token).
Proof.
  constructor; unfold spent_signup; keep_spent.
  - change (redis_set (au_signups s) (au_now s) (au_random s) v SIGNUP_TTL_SECONDS !! token = None).
    unfold redis_set. rewrite lookup_insert_ne; [done | lia].
  - change (delete t (au_signups s) !! token = None). rewrite lookup_delete. by case_decide.
Qed.

Lemma run_spent token ops s : spent token s -> spent token (run_auth ops s).
Proof. apply run_auth_kept; [apply spent_writes | by intros t o c d | by intros t a]. Qed.

Lemma run_spent_signup token ops s : spent_signup token s -> spent_signup token (run_auth ops s).
Proof. apply run_auth_kept; [apply spent_signup_writes | by intros t o c d | by intros t a]. Qed.

Lemma taken_spent {B} token (k : option RefreshValue -> UM B) s :
  (token < au_random s)%N -> (forall o, preserves (spent token) (k o)) -> spent token (final (take_refresh token ≫= k) s).
Proof.
  intros Ht Hk. unfold final. rewrite run_bind.
  assert (E : take_refresh token s = (Ok (redis_get (au_refresh s) (au_now s) token), s <| au_refresh := delete token (au_refresh s) |>)) by done.
  rewrite E. apply Hk. split; [done | apply lookup_delete_eq].
Qed.

Lemma spent_refused token s : spent token s -> (refresh token s).1 = Err invalid_refresh.
Proof.
  intros [_ Hn]. unfold refresh. rewrite run_bind. unfold take_refresh. rewrite run_bind. unfold get. cbv beta iota.
  rewrite run_bind. unfold modify. cbv beta iota. rewrite run_ret. unfold redis_get at 1. by rewrite Hn.
Qed.

Lemma completeRegistration_spends token a s :
  (token < au_random s)%N -> is_type a SELF_SERVICE_ACCOUNT_TYPES = true -> spent_signup token (final (completeRegistration token a) s).
Proof.
  intros Ht Ha. unfold completeRegistration, final. rewrite Ha. rewrite run_bind. unfold ensure at 1. cbv beta iota. rewrite run_ret.
  assert (E : take_signup token s = (Ok (redis_get (au_signups s) (au_now s) token), s <| au_signups := delete token (au_signups s) |>)) by done.
  rewrite run_bind, E. apply (registered_kept _ (spent_signup_writes token)). split; [done | apply lookup_delete_eq].
Qed.

Lemma spent_signup_refused token a s :
  spent_signup token s -> is_type a SELF_SERVICE_ACCOUNT_TYPES = true -> (completeRegistration token a s).1 = Err registration_expired.
Proof.
  intros [_ Hn] Ha. unfold completeRegistration. rewrite Ha, run_bind. unfold ensure at 1. cbv beta iota. rewrite run_ret.
  assert (E : take_signup token s = (Ok (redis_get (au_signups s) (au_now s) token), s <| au_signups := delete token (au_signups s) |>)) by done.
  rewrite run_bind, E. unfold redis_get. by rewrite Hn.
Qed.

(** C14: A sign-in of an account that is not a parent company's takes it over for good (a parent
    company keeps several sessions at once): after it, whatever requests follow (of any
    phone, account or token, with any time in between), a token of any session of the
    account started before is refused, and a refresh of such a session is refused; right
    after it the new session is the one that is current. *)
Theorem replaced_session_stays_out (s s1 : auth_state) (user : Account) (device : Device) (quiet : bool) (tokens : Tokens) (ops : list auth_op) (old : N) :
  a_isParentCompany user = false -> signIn user device quiet s = (Ok tokens, s1) -> (old < au_random s)%N ->
  let s2 := run_auth ops s1 in
  isCurrent s1 (a_id user) (jw_sid (tk_access tokens)) false = true /\
  isCurrent s2 (a_id user) (Some old) false = false /\
  resume (a_id user) false (Some old) s2 = (Err SESSION_REPLACED, s2).
Proof.
  intros Hp Hsign Hold s2. destruct (signIn_session _ _ _ _ _ _ Hp Hsign) as (Es & En & Ej & Er).
  assert (Haway : away (a_id user) old s1).
  { split; [lia | intros e; rewrite Es, lookup_insert_eq; intros [= E _]; lia]. }
  assert (H2 : away (a_id user) old s2).
  { apply run_auth_kept; [apply away_writes | by intros t o c d [Hl Hn] | by intros t a [Hl Hn] | done]. }
  rewrite Ej. unfold isCurrent, resume. split; [|split].
  - apply bool_decide_eq_true. apply (active_inserted _ _ _ _ _ Es). unfold SESSION_TTL_SECONDS. lia.
  - apply bool_decide_eq_false. by apply away_not_active.
  - cbv beta iota. rewrite run_bind. unfold get. cbv beta iota. rewrite bool_decide_eq_false_2 by by apply away_not_active. done.
Qed.
(** C19: A token works once: after a refresh token was presented, to renew or to sign out, it
    renews nothing in any later state; after a registration token was presented with a
    type one may choose, it completes no registration in any later state, and this
    whether or not the presentation succeeded. *)
Theorem tokens_work_once (s : auth_state) (token : N) (a b : AccountType) (ops : list auth_op) :
  (token < au_random s)%N ->
  is_type a SELF_SERVICE_ACCOUNT_TYPES = true -> is_type b SELF_SERVICE_ACCOUNT_TYPES = true ->
  (refresh token (run_auth ops (exec_auth (RefreshToken token) s))).1 = Err invalid_refresh /\
  (refresh token (run_auth ops (exec_auth (SignOut token) s))).1 = Err invalid_refresh /\
  (completeRegistration token b (run_auth ops (exec_auth (CompleteRegistration token a) s))).1 = Err registration_expired.
Proof.
  intros Ht Ha Hb. split_and!.
  - apply spent_refused, run_spent, taken_spent; [done|]. intros o. apply (renewed_kept _ (spent_writes token)).
  - apply spent_refused, run_spent, taken_spent; [done|]. intros o. apply (ended_kept _ (spent_writes token)).
  - apply spent_signup_refused; [|done]. by apply run_spent_signup, completeRegistration_spends.
Qed.

End Properties.

(** ** A world to try them on *)

(** Hashes in the clear, letters without case *)
#[local] Instance plain_world : AuthWorld := {|
  hmac := fun phone code => phone ++ code;
  argon2_verify := fun hash password => bool_decide (hash = password);
  toLowerCase := fun t => t;
|}.

Definition sample_auth : auth_state := mkAuth sample_accounts true None 0 ∅ ∅ ∅ ∅ ∅ ∅ ∅ ∅ [].

(** The second company, signed in once *)
Definition signed_in_once : auth_state := final (signIn (sample_account 2 "09120000002" false) no_device true) sample_auth.

Lemma replaced_session_stays_out_witness :
  let user := sample_account 2 "09120000002" false in
  exists tokens s1, signIn user no_device true signed_in_once = (Ok tokens, s1) /\
  isCurrent s1 2 (jw_sid (tk_access tokens)) false = true /\
  (resume 2 false (Some 0%N) (run_auth [OnAccounts (OpAccountTick 60000); RefreshToken 1] s1)).1 = Err SESSION_REPLACED.
Proof.
  intros user. destruct (signIn user no_device true signed_in_once) as [[tokens|e] s1] eqn:E.
  - exists tokens, s1. split; [done|].
    destruct (replaced_session_stays_out signed_in_once s1 user no_device true tokens
                [OnAccounts (OpAccountTick 60000); RefreshToken 1] 0) as (Hc & _ & Hr); [done | done | vm_compute; reflexivity |].
    split; [exact Hc|]. change (a_id user) with 2%N in Hr. by rewrite Hr.
  - exfalso. revert E. vm_compute. discriminate.
Defined.

Lemma tokens_work_once_witness :
  (refresh 1 signed_in_once).1 <> Err invalid_refresh /\
  (refresh 1 (run_auth [AdminSignIn [] []]
     (exec_auth (RefreshToken 1) signed_in_once))).1 = Err invalid_refresh.
Proof.
  split; [vm_compute; discriminate|].
  apply (proj1 (tokens_work_once signed_in_once 1 AccDriver AccDriver [AdminSignIn [] []]
    ltac:(vm_compute; reflexivity) ltac:(reflexivity) ltac:(reflexivity))).
Defined.

(** ** The codes of a phone number

    How many codes an hour sends to a number, and how many guesses it leaves. *)

Section Codes.
  Context `{AuthWorld}.

(** ** What the handlers do to the codes *)

(** The codes, the sends, the switch and the clock: all a number's codes depend on *)
Record codes_view := mkView {
  vw_otp : gmap text (PendingOtp * time);
  vw_sends : gmap text (Z * time);
  vw_on : bool;
  vw_now : time;
}.

Definition view (s : auth_state) : codes_view := mkView (au_otp s) (au_sends s) (au_smsOtpEnabled s) (au_now s).

Lemma view_writes (Q : codes_view -> Prop) : keeps_writes (fun s => Q (view s)).
Proof.
  constructor; intros s; intros; try assumption.
  match goal with Hn : ac_now ?a = _ |- Q (view (s <| au_acc := ?a |>)) =>
    assert (E : view (s <| au_acc := a |>) = view s) by (unfold view, au_now in *; cbn; by rewrite Hn); by rewrite E end.
Qed.

Lemma withLock_cases {A} p (m : UM A) s r s1 :
  withLock p m s = (r, s1) ->
  (r = Err lock_busy /\ view s1 = view s) \/
  (exists s0 s2, view s0 = view s /\ m s0 = (r, s2) /\ view s1 = view s2 /\ au_reviewLogins s0 = au_reviewLogins s).
Proof.
  unfold withLock. rewrite run_bind. unfold random. rewrite run_bind. unfold get. cbv beta iota.
  rewrite run_bind. unfold modify at 1. cbv beta iota. rewrite run_ret.
  rewrite run_bind. cbv beta iota. rewrite run_bind. unfold ensure. destruct (is_null _).
  - rewrite run_ret. rewrite run_bind. unfold modify at 1. cbv beta iota. unfold try_finally.
    set (s0 := _ <| au_locks := _ |>). destruct (m s0) as [r' s2] eqn:E. rewrite run_bind. cbv beta iota.
    intros E1. right. exists s0, s2. split; [done|]. 
    destruct (bool_decide _); cbv [when modify] in E1; injection E1 as <- <-; done.
  - intros [= <- <-]. by left.
Qed.

Definition sends_in (w : codes_view) (p : text) : Z :=
  match redis_get (vw_sends w) (vw_now w) p with Some n => n | None => 0 end.

Definition kept_view (p code : text) (w : codes_view) : codes_view :=
  let now := vw_now w in
  mkView (redis_set (vw_otp w) now p (mkOtp (hmac p code) (now + OTP_TTL_SECONDS * 1000) 0) OTP_TTL_SECONDS)
    (redis_expire (redis_increment (vw_sends w) now p SENDS_BLOCK_SECONDS) now p SENDS_BLOCK_SECONDS) (vw_on w) now.

Definition forgotten_view (p : text) (w : codes_view) : codes_view :=
  mkView (delete p (vw_otp w)) (vw_sends w) (vw_on w) (vw_now w).

Lemma requestOtp_view p sent s r s1 :
  au_smsOtpEnabled s = true -> requestOtp p sent s = (r, s1) ->
  (exists a code, r = Ok a /\ sends_in (view s) p < MAX_SENDS /\ view s1 = kept_view p code (view s)) \/
  (exists e, r = Err e /\ (view s1 = view s \/ view s1 = forgotten_view p (view s))).
Proof.
  intros Hon E. unfold requestOtp in E. rewrite run_bind in E. unfold get at 1 in E. cbv beta iota in E. rewrite Hon in E.
  cbn [negb] in E. apply withLock_cases in E as [[-> Hv]|(s0 & s2 & <- & E & Hv & _)]; [right; eauto|]. rewrite Hv. clear Hv Hon s s1.
  rewrite run_bind in E. unfold get at 1 in E. cbv beta iota in E.
  rewrite run_bind in E. unfold ensure at 1 in E. change (sends_of s0 p) with (sends_in (view s0) p) in E.
  destruct (Z.ltb_spec (sends_in (view s0) p) MAX_SENDS); [rewrite run_ret in E | injection E as <- <-; right; eauto].
  rewrite run_bind in E. unfold ensure in E. destruct (is_null _); [rewrite run_ret in E | injection E as <- <-; right; eauto].
  rewrite run_bind in E. unfold modify at 1 in E. cbv beta iota in E. unfold try_catch in E.
  set (s1 := s0 <| au_cooldown := _ |>) in E. rewrite run_bind in E.
  assert (Hcode : (match reviewCode s0 p with Some code => mret code | None => of_outcome sent end) s1 =
    ((match reviewCode s0 p with Some code => Ok code | None => sent end), s1)) by (by destruct (reviewCode s0 p)).
  rewrite Hcode in E. destruct (match reviewCode s0 p with Some code => Ok code | None => sent end) as [code|e].
  - injection E as <- <-. left. exists (OTP_TTL_SECONDS, OTP_COOLDOWN_SECONDS), code. by split_and!.
  - injection E as <- <-. right. exists e. split; [done|]. by right.
Qed.

(** *** The check of a code *)

Definition wrong_view (p : text) (v : PendingOtp) (w : codes_view) : codes_view :=
  mkView (redis_set (vw_otp w) (vw_now w) p (v <| otp_attempts := otp_attempts v + 1 |>)
            (Z.max 1 ((otp_expiresAt v - vw_now w + 999) `div` 1000))) (vw_sends w) (vw_on w) (vw_now w).

(** The code is the pending one, in its time and its tries. *)
Definition hits (w : codes_view) (p code : text) : bool :=
  match redis_get (vw_otp w) (vw_now w) p with
  | Some v => (vw_now w <? otp_expiresAt v) && (otp_attempts v <? MAX_ATTEMPTS) && bool_decide (otp_codeHash v = hmac p code)
  | None => false
  end.

Lemma verifyOtp_view p code d s r s1 :
  au_smsOtpEnabled s = true -> hits (view s) p code = false -> verifyOtp p code d s = (r, s1) ->
  (exists v, redis_get (vw_otp (view s)) (vw_now (view s)) p = Some v /\ otp_attempts v < MAX_ATTEMPTS /\
     r = Err invalid_code /\ view s1 = wrong_view p v (view s)) \/
  (r <> Err invalid_code /\ view s1 = view s).
Proof.
  intros Hon Hh E. unfold verifyOtp in E. apply withLock_cases in E as [[-> Hv]|(s0 & s2 & Hs & E & Hv & _)]; [by right|].
  assert (Hon0 : au_smsOtpEnabled s0 = true) by (change (vw_on (view s0) = true); by rewrite Hs).
  rewrite <- Hs in Hh |- *. rewrite Hv. clear Hv Hon Hs s s1.
  rewrite run_bind in E. unfold get at 1 in E. cbv beta iota in E. rewrite Hon0 in E. cbn [when] in E.
  rewrite run_bind in E. unfold check_code in E. rewrite run_bind in E. unfold get at 1 in E. cbv beta iota in E.
  unfold hits in Hh. change (vw_otp (view s0)) with (au_otp s0) in *. change (vw_now (view s0)) with (au_now s0) in *.
  destruct (redis_get (au_otp s0) (au_now s0) p) as [v|]; [|injection E as <- <-; by right].
  rewrite run_bind in E. unfold ensure at 1 in E.
  destruct (au_now s0 <? otp_expiresAt v); [rewrite run_ret in E | injection E as <- <-; by right].
  rewrite run_bind in E. unfold ensure in E.
  destruct (Z.ltb_spec (otp_attempts v) MAX_ATTEMPTS); [rewrite run_ret in E | injection E as <- <-; by right].
  cbn [andb] in Hh. rewrite Hh in E. injection E as <- <-. left. by exists v.
Qed.

(** ** An hour of a number *)

Definition sent_to (p : text) (op : auth_op) (s : auth_state) : Z :=
  match op with
  | RequestOtp q sent => if bool_decide (q = p) then match (requestOtp q sent s).1 with Ok _ => 1 | Err _ => 0 end else 0
  | _ => 0
  end.

Definition wrong_answer (r : outcome VerifyAnswer) : Z :=
  match r with Ok _ => 0 | Err e => if bool_decide (e = invalid_code) then 1 else 0 end.

Definition wrong_for (p : text) (op : auth_op) (s : auth_state) : Z :=
  match op with
  | VerifyOtp q code d => if bool_decide (q = p) then wrong_answer (verifyOtp q code d s).1 else 0
  | _ => 0
  end.

Fixpoint total (f : auth_op -> auth_state -> Z) (ops : list auth_op) (s : auth_state) : Z :=
  match ops with
  | [] => 0
  | op :: ops => f op s + total f ops (exec_auth op s)
  end.

Definition accepted (p : text) (op : auth_op) (s : auth_state) : bool :=
  match op with VerifyOtp q code _ => bool_decide (q = p) && hits (view s) p code | _ => false end.

(** All within the hour from [t0], and no code of the number accepted *)
Fixpoint unbroken (p : text) (t0 : time) (ops : list auth_op) (s : auth_state) : bool :=
  match ops with
  | [] => true
  | op :: ops =>
      (t0 <=? au_now s) && (au_now s <? t0 + SENDS_BLOCK_SECONDS * 1000) && negb (accepted p op s) && unbroken p t0 ops (exec_auth op s)
  end.

(** After [k] codes and [g] wrong answers since [t0] *)
Record codes_ok (p : text) (t0 : time) (k g : Z) (w : codes_view) : Prop := {
  co_on : vw_on w = true;
  co_sent : k <= MAX_SENDS;
  co_sends : match vw_sends w !! p with
             | Some (c, e) => (e < t0 /\ k = 0) \/ (c = k /\ t0 + SENDS_BLOCK_SECONDS * 1000 <= e)
             | None => k = 0
             end;
  co_left : match vw_otp w !! p with
            | Some (v, e) => (e < t0 /\ g <= MAX_ATTEMPTS * k) \/
                             (otp_attempts v <= MAX_ATTEMPTS /\ g + (MAX_ATTEMPTS - otp_attempts v) <= MAX_ATTEMPTS * k)
            | None => g <= MAX_ATTEMPTS * k
            end;
}.

Lemma codes_ok_bound p t0 k g w : codes_ok p t0 k g w -> k <= 3 /\ g <= 15.
Proof.
  intros [_ Hk _ Hg]. unfold MAX_SENDS, MAX_ATTEMPTS in *. split; [done|].
  destruct (vw_otp w !! p) as [[v e]|]; lia.
Qed.

(** The entries of the number are all it depends on. *)
Lemma codes_ok_same p t0 k g w w' :
  vw_on w' = vw_on w -> vw_sends w' !! p = vw_sends w !! p -> vw_otp w' !! p = vw_otp w !! p ->
  codes_ok p t0 k g w -> codes_ok p t0 k g w'.
Proof. intros E1 E2 E3 [H1 H2 H3 H4]. split; rewrite ?E1, ?E2, ?E3; done. Qed.

Lemma codes_ok_forgotten p t0 k g w : codes_ok p t0 k g w -> codes_ok p t0 k g (forgotten_view p w).
Proof.
  intros [H1 H2 H3 H4]. split; [done|done|exact H3|]. cbn [forgotten_view vw_otp]. rewrite lookup_delete_eq.
  destruct (vw_otp w !! p) as [[v e]|]; lia.
Qed.

Lemma codes_ok_sends p t0 k g w :
  codes_ok p t0 k g w -> t0 <= vw_now w < t0 + SENDS_BLOCK_SECONDS * 1000 -> sends_in w p = k /\
  redis_increment (vw_sends w) (vw_now w) p SENDS_BLOCK_SECONDS !! p =
    Some (k + 1, match vw_sends w !! p with Some (_, e) => if vw_now w <=? e then e else vw_now w + SENDS_BLOCK_SECONDS * 1000
                 | None => vw_now w + SENDS_BLOCK_SECONDS * 1000 end).
Proof.
  intros [_ _ H3 _] Hn. unfold sends_in, redis_get, redis_increment, redis_set.
  destruct (vw_sends w !! p) as [[c e]|]; [|by rewrite lookup_insert_eq; subst k].
  destruct (Z.leb_spec (vw_now w) e); rewrite lookup_insert_eq; destruct H3 as [[? ?]|[? ?]]; subst; try lia; done.
Qed.

Lemma codes_ok_kept p code t0 k g w :
  codes_ok p t0 k g w -> t0 <= vw_now w < t0 + SENDS_BLOCK_SECONDS * 1000 -> sends_in w p < MAX_SENDS ->
  codes_ok p t0 (k + 1) g (kept_view p code w).
Proof.
  intros Hc Hn Hs. destruct (codes_ok_sends _ _ _ _ _ Hc Hn) as [Ek Ei]. rewrite Ek in Hs.
  destruct (codes_ok_bound _ _ _ _ _ Hc) as [_ _]. destruct Hc as [H1 H2 H3 H4].
  split; [exact H1 | lia | |]; cbn [kept_view vw_sends vw_otp].
  - unfold redis_expire at 1, redis_get. rewrite Ei.
    assert (E : vw_now w <=? match vw_sends w !! p with Some (_, e) => if vw_now w <=? e then e else vw_now w + SENDS_BLOCK_SECONDS * 1000
                 | None => vw_now w + SENDS_BLOCK_SECONDS * 1000 end = true).
    { apply Z.leb_le. unfold SENDS_BLOCK_SECONDS. destruct (vw_sends w !! p) as [[c e]|]; [|lia]. destruct (Z.leb_spec (vw_now w) e); lia. }
    rewrite E. unfold redis_set. rewrite lookup_insert_eq. right. split; lia.
  - unfold redis_set. rewrite lookup_insert_eq. right. cbn [otp_attempts]. unfold MAX_ATTEMPTS in *.
    destruct (vw_otp w !! p) as [[v e]|]; lia.
Qed.

Lemma codes_ok_wrong p t0 k g w v :
  codes_ok p t0 k g w -> t0 <= vw_now w -> redis_get (vw_otp w) (vw_now w) p = Some v -> otp_attempts v < MAX_ATTEMPTS ->
  codes_ok p t0 k (g + 1) (wrong_view p v w).
Proof.
  intros [H1 H2 H3 H4] Hn Hv Ha. split; [exact H1|exact H2|exact H3|]. cbn [wrong_view vw_otp]. unfold redis_set. rewrite lookup_insert_eq.
  unfold redis_get in Hv. destruct (vw_otp w !! p) as [[v' e]|]; [|done]. destruct (Z.leb_spec (vw_now w) e); [|done].
  injection Hv as ->. right. cbn [otp_attempts]. destruct H4 as [[? ?]|[? ?]]; [lia|].
  change (otp_attempts (v <| otp_attempts := otp_attempts v + 1 |>)) with (otp_attempts v + 1). lia.
Qed.

(** *** Other numbers *)

Lemma redis_increment_ne (m : gmap text (Z * time)) now (q p : text) ttl : q <> p -> redis_increment m now q ttl !! p = m !! p.
Proof.
  intros Hn. unfold redis_increment, redis_set. destruct (m !! q) as [[c e]|]; [destruct (_ <=? _)|]; by rewrite lookup_insert_ne.
Qed.

Lemma redis_expire_ne {V} (m : gmap text (V * time)) now (q p : text) ttl : q <> p -> redis_expire m now q ttl !! p = m !! p.
Proof. intros Hn. unfold redis_expire, redis_set. destruct (redis_get m now q); [by rewrite lookup_insert_ne | done]. Qed.

Lemma codes_ok_others p q t0 k g w w' :
  q <> p -> (exists code, w' = kept_view q code w) \/ w' = forgotten_view q w \/ (exists v, w' = wrong_view q v w) ->
  codes_ok p t0 k g w -> codes_ok p t0 k g w'.
Proof.
  intros Hn Hw. apply codes_ok_same; destruct Hw as [(code & ->)|[->|(v & ->)]];
    cbn [kept_view forgotten_view wrong_view vw_sends vw_otp vw_on]; unfold redis_set;
    rewrite ?redis_expire_ne, ?redis_increment_ne, ?lookup_insert_ne, ?lookup_delete_ne by done; done.
Qed.

Lemma requestOtp_ok p q sent t0 k g s :
  codes_ok p t0 k g (view s) -> t0 <= au_now s < t0 + SENDS_BLOCK_SECONDS * 1000 ->
  codes_ok p t0 (k + sent_to p (RequestOtp q sent) s) g (view (exec_auth (RequestOtp q sent) s)).
Proof.
  intros Hc Hn. cbn [sent_to exec_auth]. unfold final. destruct (requestOtp q sent s) as [r s1] eqn:E. cbn [fst snd].
  apply requestOtp_view in E; [|exact (co_on _ _ _ _ _ Hc)]. case_bool_decide as Hq.
  - subst q. destruct E as [(a & code & -> & Hs & ->)|(e & -> & [->| ->])]; rewrite ?Z.add_0_r.
    + by apply codes_ok_kept.
    + done.
    + by apply codes_ok_forgotten.
  - rewrite Z.add_0_r. destruct E as [(a & code & -> & _ & ->)|(e & -> & [->| ->])]; [|done|];
      (eapply codes_ok_others; [exact Hq | eauto | exact Hc]).
Qed.

Lemma check_code_others p q code t0 k g :
  q <> p -> preserves (fun s => codes_ok p t0 k g (view s)) (check_code q code).
Proof.
  intros Hn. unfold check_code. apply preserves_get_bind. intros s _. destruct (redis_get _ _ _) as [v|]; [|apply preserves_throw].
  apply preserves_ensure_bind. intros _. apply preserves_ensure_bind. intros _. apply preserves_if; intros _.
  - apply preserves_modify. intros t. apply codes_ok_same; cbn; by rewrite ?lookup_delete_ne.
  - apply preserves_bind; [apply preserves_modify|intros; apply preserves_throw]. intros t.
    apply (codes_ok_others p q t0 k g (view t)); [done|]. right; right. by exists v.
Qed.

Lemma verifyOtp_others p q code d t0 k g s :
  q <> p -> codes_ok p t0 k g (view s) -> codes_ok p t0 k g (view (final (verifyOtp q code d) s)).
Proof.
  intros Hn. pose proof (view_writes (codes_ok p t0 k g)) as Hk. apply (withLock_kept _ Hk).
  apply preserves_get_bind. intros s0 _.
  apply preserves_bind; [apply preserves_when; intros _; by apply check_code_others | intros _; by apply (verified_number_kept _ Hk)].
Qed.

Lemma verifyOtp_ok p q code d t0 k g s :
  codes_ok p t0 k g (view s) -> t0 <= au_now s -> accepted p (VerifyOtp q code d) s = false ->
  codes_ok p t0 k (g + wrong_for p (VerifyOtp q code d) s) (view (exec_auth (VerifyOtp q code d) s)).
Proof.
  intros Hc Hn Ha. cbn [wrong_for exec_auth accepted] in *. unfold final.
  pose proof (co_on _ _ _ _ _ Hc) as Hon. case_bool_decide as Hq.
  - subst q. cbn [andb] in Ha. destruct (verifyOtp p code d s) as [r s1] eqn:E. cbn [fst snd].
    apply verifyOtp_view in E as [(v & Hv & Hl & -> & ->)|[Hr ->]]; [| |done|done].
    + by apply codes_ok_wrong.
    + assert (E0 : wrong_answer r = 0) by (destruct r as [a|e]; [done|]; cbn; rewrite bool_decide_eq_false_2; congruence).
      by rewrite E0, Z.add_0_r.
  - rewrite Z.add_0_r. by apply verifyOtp_others.
Qed.

Lemma exec_codes_ok p op t0 k g s :
  codes_ok p t0 k g (view s) -> t0 <= au_now s < t0 + SENDS_BLOCK_SECONDS * 1000 -> accepted p op s = false ->
  codes_ok p t0 (k + sent_to p op s) (g + wrong_for p op s) (view (exec_auth op s)).
Proof.
  intros Hc Hn Ha. pose proof (view_writes (codes_ok p t0 k g)) as Hk. destruct op; cbn [exec_auth].
  3-7: cbn [sent_to wrong_for]; rewrite !Z.add_0_r.
  - change (wrong_for _ _ _) with 0. rewrite Z.add_0_r. by apply requestOtp_ok.
  - change (sent_to _ _ _) with 0. rewrite Z.add_0_r. apply verifyOtp_ok; [done | lia | done].
  - by apply (completeRegistration_kept _ Hk).
  - by apply (adminSignIn_kept _ Hk).
  - by apply (refresh_kept _ Hk).
  - by apply (revoke_kept _ Hk).
  - by apply (codes_ok_same _ _ _ _ (view s)).
Qed.

Lemma run_codes_ok p t0 ops : forall k g s,
  codes_ok p t0 k g (view s) -> unbroken p t0 ops s = true ->
  k + total (sent_to p) ops s <= 3 /\ g + total (wrong_for p) ops s <= 15.
Proof.
  induction ops as [|op ops IH]; intros k g s Hc Hu; cbn [total].
  - rewrite !Z.add_0_r. by apply codes_ok_bound in Hc.
  - cbn [unbroken] in Hu. apply andb_prop in Hu as [Hu Hrest]. apply andb_prop in Hu as [Hu Ha]. apply andb_prop in Hu as [H1 H2].
    rewrite !Z.add_assoc. apply IH; [|done]. apply exec_codes_ok; [done | | by apply negb_true_iff].
    apply Z.leb_le in H1. apply Z.ltb_lt in H2. lia.
Qed.

(** C17: Within an hour a number gets at most three codes, and at most fifteen wrong ones are
    answered as such: from a state where the number has no code and no send counted,
    through any requests of anyone in the hour, as long as no code of the number is
    accepted. *)
Theorem guesses_bounded (p : text) (ops : list auth_op) (s : auth_state) :
  au_smsOtpEnabled s = true ->
  redis_get (au_sends s) (au_now s) p = None -> redis_get (au_otp s) (au_now s) p = None ->
  unbroken p (au_now s) ops s = true ->
  total (sent_to p) ops s <= 3 /\ total (wrong_for p) ops s <= 15.
Proof.
  intros Hon Hs Ho Hu. apply (run_codes_ok p (au_now s) ops 0 0 s); [|done].
  unfold redis_get in Hs, Ho. split; cbn [view vw_on vw_sends vw_otp]; [done | done | |].
  - destruct (au_sends s !! p) as [[c e]|]; [|done]. destruct (Z.leb_spec (au_now s) e); [done|]. by left.
  - destruct (au_otp s !! p) as [[c e]|]; [|done]. destruct (Z.leb_spec (au_now s) e); [done|]. by left.
Qed.

End Codes.

#[local] Existing Instance plain_world.

(** The same four digits sent again and again: three codes in three minutes, and a fourth
    refused; one guess is wrong, the next is told from another number *)
Definition sample_hour : list auth_op :=
  let p := js "09120000007" in
  [RequestOtp p (Ok (js "1111")); VerifyOtp p (js "2222") no_device; RequestOtp p (Ok (js "3333"));
   OnAccounts (OpAccountTick 61000); RequestOtp p (Ok (js "4444")); OnAccounts (OpAccountTick 61000);
   RequestOtp p (Ok (js "5555")); OnAccounts (OpAccountTick 61000); RequestOtp p (Ok (js "6666"));
   VerifyOtp (js "09120000008") (js "5555") no_device; VerifyOtp p (js "4444") no_device].

Lemma guesses_bounded_witness :
  total (sent_to (js "09120000007")) sample_hour sample_auth = 3 /\
  total (wrong_for (js "09120000007")) sample_hour sample_auth <= 15.
Proof.
  split; [vm_compute; reflexivity|].
  apply (guesses_bounded); [reflexivity | vm_compute; reflexivity | vm_compute; reflexivity | vm_compute; reflexivity].
Defined.
