(* ===== verification/Delivery.v ===== *)
(** * Delivery of load notices: rows, retries, pace

    [CargoNotification] and its repository, [services/notification/cargoDeliveryRetry.ts]
    (when a failed send is tried again), [messengerOrder.ts] and [rateLimiter.ts]. *)

From S2P Require Import Prelude JsString Effects Enums DriverProfile BrokerDriver TripFareRules BrokerAccess CargoData Redis.

(** ** Messengers *)

(** [NotificationDeliveryStatus] (notification.ts) *)
Inductive NotificationDeliveryStatus := DelPending | DelSent | DelFailed | DelSkipped.

#[export] Instance NotificationDeliveryStatus_eq_dec : EqDecision NotificationDeliveryStatus.
Proof. solve_decision. Defined.

Inductive Messenger := Bale | Eitaa | Rubika | Telegram | Whatsapp.

#[export] Instance Messenger_eq_dec : EqDecision Messenger.
Proof. solve_decision. Defined.

#[export] Instance Messenger_countable : Countable Messenger.
Proof.
  refine (inj_countable' (fun m => match m with Bale => 0 | Eitaa => 1 | Rubika => 2 | Telegram => 3 | Whatsapp => 4 end%nat)
            (fun n => match n with 0 => Bale | 1 => Eitaa | 2 => Rubika | 3 => Telegram | _ => Whatsapp end%nat) _).
  by intros [].
Defined.

Definition MESSENGER_ORDER : list Messenger := [Bale; Eitaa; Rubika; Telegram; Whatsapp].

(** [MESSENGER_ORDER.slice(MESSENGER_ORDER.indexOf(messenger) + 1)] *)
Fixpoint after_in (l : list Messenger) (m : Messenger) : list Messenger :=
  match l with
  | [] => []
  | x :: l => if eqb x m then l else after_in l m
  end.
Definition after_messenger (m : Messenger) : list Messenger := after_in MESSENGER_ORDER m.

(** ** [CargoNotification] *)

(** The columns of one messenger.  WhatsApp's message key is the pair of its chat and its
    message; only WhatsApp has [sentAt]. *)
Record Channel := mkChannel {
  ch_status : NotificationDeliveryStatus;
  ch_chatId : option text;
  ch_messageId : option text;
  ch_attempts : Z;
  ch_nextRetryAt : option time;
  ch_sentAt : option time;
}.

Record CargoNotification := mkNotification {
  cn_id : uuid;
  cn_userId : uuid;
  cn_sourceMessageId : text;
  cn_listingId : option uuid;
  cn_isRead : bool;
  cn_readAt : option time;
  cn_bale : Channel;
  cn_eitaa : Channel;
  cn_rubika : Channel;
  cn_telegram : Channel;
  cn_whatsapp : Channel;
  cn_createdAt : time;
}.

#[export] Instance Channel_eq_dec : EqDecision Channel.
Proof. solve_decision. Defined.

(** [row[columns.…]]: [BOT_DELIVERY_COLUMNS], and [deliveryColumns] with WhatsApp's *)
Definition channel (m : Messenger) (row : CargoNotification) : Channel :=
  match m with
  | Bale => cn_bale row | Eitaa => cn_eitaa row | Rubika => cn_rubika row | Telegram => cn_telegram row | Whatsapp => cn_whatsapp row
  end.

Definition set_channel (m : Messenger) (f : Channel -> Channel) (row : CargoNotification) : CargoNotification :=
  match m with
  | Bale => row <| cn_bale := f (cn_bale row) |>
  | Eitaa => row <| cn_eitaa := f (cn_eitaa row) |>
  | Rubika => row <| cn_rubika := f (cn_rubika row) |>
  | Telegram => row <| cn_telegram := f (cn_telegram row) |>
  | Whatsapp => row <| cn_whatsapp := f (cn_whatsapp row) |>
  end.

Definition is_pending (m : Messenger) (row : CargoNotification) : bool := eqb (ch_status (channel m row)) DelPending.
Definition is_sent (m : Messenger) (row : CargoNotification) : bool := eqb (ch_status (channel m row)) DelSent.

(** [MESSENGER_ORDER.some((other) => … === Sent)] *)
Definition sent_elsewhere (row : CargoNotification) : bool := some_b (fun m => is_sent m row) MESSENGER_ORDER.

(** The first messenger of [l] still pending *)
Definition next_pending (l : list Messenger) (row : CargoNotification) : option Messenger := List.find (fun m => is_pending m row) l.

(** ** When a send is tried again ([cargoDeliveryRetry.ts]) *)

Definition MAX_DELIVERY_ATTEMPTS : Z := 5.
Definition DELIVERY_RETRY_WINDOW_MS : Z := 3 * 60 * 60 * 1000.
Definition BASE_RETRY_DELAY_MS : Z := 60 * 1000.

(** [attempts] counts the failed one too, so it is 1 at least. *)
Definition nextDeliveryRetryAt (attempts : Z) (createdAt now : time) : option time :=
  if MAX_DELIVERY_ATTEMPTS <=? attempts then None
  else
    let next := now + BASE_RETRY_DELAY_MS * 2 ^ (attempts - 1) in
    if next <=? createdAt + DELIVERY_RETRY_WINDOW_MS then Some next else None.

(** [response?.body?.error_code ?? response?.statusCode] *)
Definition error_code (e : exn) : option Z :=
  match e with
  | MessengerError _ status code _ => match code with Some c => Some c | None => status end
  | _ => None
  end.

Definition isPermanentTelegramError (e : exn) : bool :=
  match error_code e with Some c => (c =? 400) || (c =? 403) | None => false end.

Definition rateLimitWaitMs (e : exn) : option Z :=
  if bool_decide (error_code e = Some 429) then
    Some (Z.max 1 (match e with MessengerError _ _ _ (Some r) => r | _ => 5 end) * 1000)
  else None.

(** ** [RateLimiter]

    Its period is [1000 / perSecond] ms, a whole number for every default rate. *)

Record RateLimiter := mkLimiter { rl_period : Z; rl_next : time; rl_pausedUntil : time }.

Definition new_limiter (period : Z) : RateLimiter := mkLimiter period 0 0.

(** One turn of the loop of [take]: the turn given, or the instant to wait for *)
Definition take_turn (now : time) (l : RateLimiter) : RateLimiter + time :=
  let at_ := Z.max now (Z.max (rl_next l) (rl_pausedUntil l)) in
  if at_ <=? now then inl (l <| rl_next := now + rl_period l |>) else inr at_.

Definition pause (now : time) (ms : Z) (l : RateLimiter) : RateLimiter :=
  l <| rl_pausedUntil := Z.max (rl_pausedUntil l) (now + ms) |>.

(** [DEFAULT_RATES]: 10, 5, 5, 10 and 0.5 a second *)
Definition DEFAULT_PERIOD (m : Messenger) : Z :=
  match m with Bale => 100 | Eitaa => 200 | Rubika => 200 | Telegram => 100 | Whatsapp => 2000 end.

(** ** The state of the deliveries *)

(** A load in a summary, with whether it is taken *)
Definition DigestItem : Type := uuid * bool.

(** A call of a messenger: what is sent, edited or deleted where *)
Inductive Call :=
| SendLoad (m : Messenger) (chatId : text) (noticeId : uuid)
| SendSummary (m : Messenger) (chatId : text) (items : list DigestItem)
| SendSuggestions (m : Messenger) (chatId : text) (unread : nat)
| EditSuggestions (m : Messenger) (chatId messageId : text) (unread : nat)
| EditLoad (m : Messenger) (chatId messageId : text) (noticeId : uuid) (taken : bool)
| EditSummary (m : Messenger) (chatId messageId : text) (items : list DigestItem)
| DeleteMessage (m : Messenger) (chatId messageId : text)
| React (chatId messageId : text) (taken : bool).

Record delivery_state := mkDelivery {
  dv_now : time;
  dv_digestWindow : Z;
  dv_redisUp : bool;
  dv_nextId : uuid;
  dv_rows : gmap uuid CargoNotification;
  dv_listings : gmap uuid CargoListing;
  dv_profiles : profile_state;
  dv_platforms : list Messenger;
  dv_links : gmap (uuid * Messenger) (option text);
  dv_jids : gmap uuid text;
  dv_window : gmap (Messenger * uuid) (unit * time);
  dv_held : gmap (Messenger * uuid) (gset uuid * time);
  dv_scheduled : gmap (Messenger * uuid) (unit * time);
  dv_activity : gmap (Messenger * uuid) ((uuid * time) * time);
  dv_calls : list (Call * bool);
}.

Abbreviation DM := (M delivery_state).

(** What a messenger answers to the n-th call: the id of the message, or an error *)
Class Messengers := { answer : nat -> Call -> outcome text }.

Definition call `{Messengers} (c : Call) : DM text :=
  s ← get;
  let r := answer (length (dv_calls s)) c in
  modify (fun s => s <| dv_calls := dv_calls s ++ [(c, match r with Ok _ => true | Err _ => false end)] |>) ;;
  of_outcome r.

Definition REDIS_DOWN : exn := OtherError (js "Connection is closed.").

(** A command of Redis *)
Definition redis {A} (m : DM A) : DM A :=
  s ← get;
  ensure (dv_redisUp s) REDIS_DOWN ;;
  m.

(** ** [CargoNotificationRepository] *)

Definition created_before (a b : CargoNotification) : Prop := cn_createdAt a <= cn_createdAt b.
#[export] Instance created_before_dec : RelDecision created_before.
Proof. intros a b. unfold created_before. apply _. Defined.

(** [order: { createdAt: 'ASC' }] *)
Definition by_creation (l : list CargoNotification) : list CargoNotification := merge_sort created_before l.

(** A notice with its load ([relations: { listing: true }]) *)
Record Loaded := mkLoaded { lo_row : CargoNotification; lo_listing : option CargoListing }.

Definition listing_of (s : delivery_state) (row : CargoNotification) : option CargoListing :=
  match cn_listingId row with Some l => dv_listings s !! l | None => None end.

Definition load (s : delivery_state) (row : CargoNotification) : Loaded := mkLoaded row (listing_of s row).

Definition findWithListing (s : delivery_state) (id : uuid) : option Loaded := load s <$> dv_rows s !! id.

Definition findManyWithListing (s : delivery_state) (ids : gset uuid) : list Loaded :=
  map (load s) (by_creation (find_rows (fun r => bool_decide (cn_id r ∈ ids)) (dv_rows s))).

(** [findByMessage]: the notices one message carries *)
Definition in_message (m : Messenger) (chatId messageId : text) (row : CargoNotification) : bool :=
  bool_decide (ch_chatId (channel m row) = Some chatId) && bool_decide (ch_messageId (channel m row) = Some messageId).

Definition findByMessage (s : delivery_state) (m : Messenger) (chatId messageId : text) : list Loaded :=
  map (load s) (by_creation (find_rows (in_message m chatId messageId) (dv_rows s))).

Definition findSuggestions (s : delivery_state) (sourceMessageId : text) (userIds : list uuid) : list CargoNotification :=
  find_rows (fun r => bool_decide (cn_sourceMessageId r = sourceMessageId) && bool_decide (cn_userId r ∈ userIds)
                      && is_null (cn_listingId r)) (dv_rows s).

Definition findByListing (s : delivery_state) (listingId : uuid) : list CargoNotification :=
  find_rows (fun r => bool_decide (cn_listingId r = Some listingId)) (dv_rows s).

Definition findSuggestionNotices (s : delivery_state) (userId : uuid) (m : Messenger) : list CargoNotification :=
  find_rows (fun r => (cn_userId r =? userId)%N && is_null (cn_listingId r) && negb (is_null (ch_messageId (channel m r)))) (dv_rows s).

Definition countUnread (s : delivery_state) (userId : uuid) : nat :=
  count_rows (fun r => (cn_userId r =? userId)%N && negb (cn_isRead r)) (dv_rows s).

Definition update_row (id : uuid) (f : CargoNotification -> CargoNotification) (s : delivery_state) : delivery_state :=
  s <| dv_rows := alter f id (dv_rows s) |>.

Definition updateDelivery (id : uuid) (m : Messenger) (f : Channel -> Channel) : DM unit :=
  modify (update_row id (set_channel m f)).

(** [{ status, nextRetryAt: null }] *)
Definition closed_as (status : NotificationDeliveryStatus) (c : Channel) : Channel :=
  c <| ch_status := status |> <| ch_nextRetryAt := None |>.

(** [scheduleRetry]: the messengers still pending get the time, the others none *)
Definition retry_time (at_ : time) (c : Channel) : Channel :=
  c <| ch_nextRetryAt := if eqb (ch_status c) DelPending then Some at_ else None |>.

Definition on_channels (f : Channel -> Channel) (row : CargoNotification) : CargoNotification :=
  foldr (fun m r => set_channel m f r) row MESSENGER_ORDER.

Definition scheduleRetry (ids : list uuid) (at_ : time) : DM unit :=
  modify (fun s => s <| dv_rows :=
    (fun r => if bool_decide (cn_id r ∈ ids) then on_channels (retry_time at_) r else r) <$> dv_rows s |>).

(** [findDueRetries]: some messenger pending whose time has come *)
Definition due_channel (now : time) (c : Channel) : bool :=
  eqb (ch_status c) DelPending && match ch_nextRetryAt c with Some t => t <=? now | None => false end.

Definition due_row (now createdAfter : time) (r : CargoNotification) : bool :=
  (createdAfter <=? cn_createdAt r) && some_b (fun m => due_channel now (channel m r)) MESSENGER_ORDER.

Definition findDueRetries (s : delivery_state) (now createdAfter : time) (limit : nat) : list Loaded :=
  map (load s) (take limit (by_creation (find_rows (due_row now createdAfter) (dv_rows s)))).

(** [failExpiredPending] *)
Definition expired_channel (c : Channel) : Channel := if eqb (ch_status c) DelPending then closed_as DelFailed c else c.

Definition failExpiredPending (createdBefore : time) : DM unit :=
  modify (fun s => s <| dv_rows :=
    (fun r => if cn_createdAt r <? createdBefore then on_channels expired_channel r else r) <$> dv_rows s |>).

(** The two unique indexes: one notice of a load, and one of a suggestion, per user *)
Definition same_notice (a b : CargoNotification) : bool :=
  (cn_userId a =? cn_userId b)%N
  && match cn_listingId a, cn_listingId b with
     | Some l, Some l' => (l =? l')%N
     | None, None => bool_decide (cn_sourceMessageId a = cn_sourceMessageId b)
     | _, _ => false
     end.

Definition insert_notice (r : CargoNotification) (s : delivery_state) : delivery_state :=
  s <| dv_rows := <[dv_nextId s := r <| cn_id := dv_nextId s |> <| cn_createdAt := dv_now s |>]> (dv_rows s) |>
    <| dv_nextId := N.succ (dv_nextId s) |>.

(** [insertIgnoringDuplicates]: the ids of the rows made; each row gets its id *)
Fixpoint insertIgnoringDuplicates (new : list CargoNotification) : DM (list uuid) :=
  match new with
  | [] => mret []
  | r :: new =>
      s ← get;
      let id := dv_nextId s in
      if exists_row (same_notice r) (dv_rows s) then insertIgnoringDuplicates new
      else
        modify (insert_notice r) ;;
        ids ← insertIgnoringDuplicates new;
        mret (id :: ids)
  end.

(** [markRead] *)
Definition markRead (userId : uuid) (id : option uuid) : DM unit :=
  modify (fun s => s <| dv_rows :=
    (fun r => if (cn_userId r =? userId)%N && negb (cn_isRead r) && match id with Some i => (cn_id r =? i)%N | None => true end
              then r <| cn_isRead := true |> <| cn_readAt := Some (dv_now s) |> else r) <$> dv_rows s |>).

(** [deleteFinished]: drivers' notices no longer needed *)
Definition finished (s : delivery_state) (takenBefore createdBefore : time) (r : CargoNotification) : bool :=
  negb (is_null (cn_listingId r))
  && (match listing_of s r with
      | Some l => eqb (li_status l) ListingTaken && match li_takenAt l with Some t => t <? takenBefore | None => false end
      | None => false
      end
      || (cn_createdAt r <? createdBefore)).

Definition deleteFinished (takenBefore createdBefore : time) : DM unit :=
  modify (fun s => s <| dv_rows := base.filter (fun p => finished s takenBefore createdBefore p.2 = false) (dv_rows s) |>).
