(* ===== verification/CargoNotices.v ===== *)
(** * Sending the notices of loads

    [src/services/notification/cargoNotification.service.ts]: one messenger per notice, a
    failed send tried again, several loads of a driver held for one summary, a company's
    suggestions kept in one message, and the edits of messages already sent.  The texts,
    buttons, pictures and voices of a message are not part of a [Call]; sending a picture
    or a voice never changes what becomes of the notice. *)

From S2P Require Import Prelude JsString Effects Enums DriverProfile BrokerDriver TripFareRules BrokerAccess CargoData Redis Delivery.

Definition SUGGESTION_BURST_MS : Z := 60 * 1000.
Definition WHATSAPP_EDIT_WINDOW_MS : Z := 14 * 60 * 1000.
Definition DIGEST_KEEP_SECONDS : Z := 6 * 60 * 60.
Definition DIGEST_TEMPORARY_RETRY_MS : Z := 60 * 1000.

(** One messenger's send: the status after it, when it is tried again, and how long the
    messenger asked to wait *)
Record DeliveryResult := mkResult {
  dr_status : NotificationDeliveryStatus;
  dr_retryAt : option time;
  dr_pauseMs : option Z;
}.

Definition just (st : NotificationDeliveryStatus) : DeliveryResult := mkResult st None None.

(** What the queue does next with a job *)
Inductive QueuedOutcome :=
| Done
| Retry (at_ : time) (pauseMs : option Z)
| Next (m : Messenger)
| Digest (userId : uuid) (at_ : time) (pauseMs : option Z)
| Jobs (jobs : list (uuid * Messenger)).

Section Notices.
  Context `{Messengers}.

(** ** Who can get a notice where *)

(** [link?.chatId] of a bot that runs, or WhatsApp's address *)
Definition address (s : delivery_state) (userId : uuid) (m : Messenger) : option text :=
  match m with
  | Whatsapp => dv_jids s !! userId
  | _ => if bool_decide (m ∈ dv_platforms s) then match dv_links s !! (userId, m) with Some chat => chat | None => None end else None
  end.

Definition routes (s : delivery_state) (userId : uuid) : list Messenger :=
  List.filter (fun m => negb (is_null (address s userId m))) MESSENGER_ORDER.

Definition is_taken (l : CargoListing) : bool := eqb (li_status l) ListingTaken.

Definition canDeliverListing (s : delivery_state) (row : Loaded) : bool :=
  match lo_listing row with
  | None => true
  | Some l => negb (is_taken l)
              && canReceiveAnnouncement (dv_profiles s) (cn_userId (lo_row row)) (li_publisherUserId l) (li_tripType l)
  end.

(** ** The one message of a company's suggestions *)

(** The message is gone from the chat: a bot's keeps its chat. *)
Definition without_message (m : Messenger) (c : Channel) : Channel :=
  match m with
  | Whatsapp => c <| ch_chatId := None |> <| ch_messageId := None |>
  | _ => c <| ch_messageId := None |>
  end.

Definition delete_notice (m : Messenger) (notice : CargoNotification) : DM unit :=
  match ch_chatId (channel m notice), ch_messageId (channel m notice) with
  | Some chatId, Some messageId =>
      call (DeleteMessage m chatId messageId) ;;
      updateDelivery (cn_id notice) m (without_message m)
  | _, _ => mret tt
  end.

Definition deleteSuggestionNotices (userId : uuid) (m : Messenger) : DM unit :=
  s ← get;
  for_each (findSuggestionNotices s userId m) (delete_notice m).

(** Whether the message of [notice] can still be edited in [chatId] *)
Definition editable (now : time) (m : Messenger) (chatId : text) (notice : CargoNotification) : bool :=
  let c := channel m notice in
  bool_decide (ch_chatId c = Some chatId)
  && match m with
     | Whatsapp => match ch_sentAt c with Some t => now - t <? WHATSAPP_EDIT_WINDOW_MS | None => false end
     | _ => negb (is_null (ch_messageId c))
     end.

Definition recentSuggestionNotice (userId : uuid) (m : Messenger) (chatId : text) : DM (option CargoNotification) :=
  s ← get;
  match findSuggestionNotices s userId m with
  | [notice] =>
      redis (mret tt) ;;
      match redis_get (dv_activity s) (dv_now s) (m, userId) with
      | Some (id, at_) =>
          mret (if (id =? cn_id notice)%N && (dv_now s - at_ <? SUGGESTION_BURST_MS) && editable (dv_now s) m chatId notice
                then Some notice else None)
      | None => mret None
      end
  | _ => mret None
  end.

Definition markSuggestionActivity (row : CargoNotification) (m : Messenger) : DM unit :=
  redis (modify (fun s => s <| dv_activity :=
    redis_set (dv_activity s) (dv_now s) (m, cn_userId row) (cn_id row, dv_now s) (SUGGESTION_BURST_MS `div` 1000) |>)).

(** The message that tells a company of its suggestions: edited when it is of the last
    minute, else the old ones are deleted and a new one is sent.  The message, and the
    notice that had it. *)
Definition suggestion_message (m : Messenger) (row : CargoNotification) (chatId : text) : DM (text * option CargoNotification) :=
  previous ← recentSuggestionNotice (cn_userId row) m chatId;
  s ← get;
  match previous with
  | Some notice =>
      let messageId := default [] (ch_messageId (channel m notice)) in
      call (EditSuggestions m chatId messageId (countUnread s (cn_userId row))) ;;
      mret (messageId, Some notice)
  | None =>
      deleteSuggestionNotices (cn_userId row) m ;;
      messageId ← call (SendSuggestions m chatId (countUnread s (cn_userId row)));
      mret (messageId, None)
  end.

(** ** One messenger *)

Definition sent_to_chat (chatId messageId : text) (attempts : Z) (sentAt : option time) (c : Channel) : Channel :=
  c <| ch_status := DelSent |> <| ch_chatId := Some chatId |> <| ch_messageId := Some messageId |>
    <| ch_attempts := attempts |> <| ch_nextRetryAt := None |> <| ch_sentAt := sentAt |>.

(** What the [try] of [deliverBot] and [deliverWhatsapp] does *)
Definition send_notice (m : Messenger) (row : CargoNotification) (chatId : text) (attempts : Z) : DM unit :=
  match cn_listingId row with
  | Some _ =>
      messageId ← call (SendLoad m chatId (cn_id row));
      now ← gets dv_now;
      updateDelivery (cn_id row) m (sent_to_chat chatId messageId attempts (if eqb m Whatsapp then Some now else None))
  | None =>
      sent ← suggestion_message m row chatId;
      now ← gets dv_now;
      updateDelivery (cn_id row) m (sent_to_chat chatId sent.1 attempts
        (if eqb m Whatsapp then match sent.2 with Some previous => ch_sentAt (channel m previous) | None => Some now end else None)) ;;
      match sent.2 with
      | Some previous => when (negb (cn_id previous =? cn_id row)%N) (updateDelivery (cn_id previous) m (without_message m))
      | None => mret tt
      end ;;
      markSuggestionActivity row m
  end.

Definition tried (status : NotificationDeliveryStatus) (attempts : Z) (retryAt : option time) (c : Channel) : Channel :=
  c <| ch_status := status |> <| ch_attempts := attempts |> <| ch_nextRetryAt := retryAt |>.

(** The end of the [catch]: tried again later, or failed *)
Definition failed_send (m : Messenger) (row : CargoNotification) (attempts : Z) (retryAt : option time) : DM DeliveryResult :=
  let status := match retryAt with Some _ => DelPending | None => DelFailed end in
  updateDelivery (cn_id row) m (tried status attempts retryAt) ;;
  mret (mkResult status retryAt None).

Definition skip (m : Messenger) (row : CargoNotification) : DM DeliveryResult :=
  updateDelivery (cn_id row) m (closed_as DelSkipped) ;;
  mret (just DelSkipped).

Definition deliverBot (m : Messenger) (row : CargoNotification) (isOpen : bool) : DM DeliveryResult :=
  let c := channel m row in
  if negb (eqb (ch_status c) DelPending) then mret (just (ch_status c))
  else
    s ← get;
    match (if isOpen then address s (cn_userId row) m else None) with
    | None => skip m row
    | Some chatId =>
        let attempts := ch_attempts c + 1 in
        try_catch
          (send_notice m row chatId attempts ;;
           mret (just DelSent))
          (fun error =>
             match rateLimitWaitMs error with
             | Some wait =>
                 now ← gets dv_now;
                 updateDelivery (cn_id row) m (fun c => c <| ch_nextRetryAt := Some (now + wait) |>) ;;
                 mret (mkResult DelPending (Some (now + wait)) (Some wait))
             | None =>
                 now ← gets dv_now;
                 failed_send m row attempts
                   (if isPermanentTelegramError error then None else nextDeliveryRetryAt attempts (cn_createdAt row) now)
             end)
    end.

Definition deliverWhatsapp (row : CargoNotification) (isOpen : bool) : DM DeliveryResult :=
  let c := channel Whatsapp row in
  if negb (eqb (ch_status c) DelPending) then mret (just (ch_status c))
  else
    s ← get;
    match (if isOpen then address s (cn_userId row) Whatsapp else None) with
    | None => skip Whatsapp row
    | Some jid =>
        let attempts := ch_attempts c + 1 in
        try_catch
          (send_notice Whatsapp row jid attempts ;;
           mret (just DelSent))
          (fun error =>
             now ← gets dv_now;
             failed_send Whatsapp row attempts (nextDeliveryRetryAt attempts (cn_createdAt row) now))
    end.

Definition deliver_through (m : Messenger) (row : CargoNotification) (isOpen : bool) : DM DeliveryResult :=
  match m with Whatsapp => deliverWhatsapp row isOpen | _ => deliverBot m row isOpen end.

(** ** The messengers in turn *)

Fixpoint through_one (ms : list Messenger) (row : CargoNotification) (isOpen : bool) (ready : Messenger -> bool) (taken : bool) : DM unit :=
  match ms with
  | [] => mret tt
  | m :: ms =>
      if taken then
        when (is_pending m row) (updateDelivery (cn_id row) m (closed_as DelSkipped)) ;;
        through_one ms row isOpen ready true
      else if negb (is_pending m row) then through_one ms row isOpen ready (is_sent m row)
      else if negb (ready m) then through_one ms row isOpen ready true
      else
        result ← deliver_through m row isOpen;
        through_one ms row isOpen ready (eqb (dr_status result) DelSent || eqb (dr_status result) DelPending)
  end.

Definition deliverThroughOne (row : CargoNotification) (isOpen : bool) (ready : Messenger -> bool) : DM unit :=
  through_one MESSENGER_ORDER row isOpen ready (sent_elsewhere row).

Definition deliver (row : Loaded) : DM unit :=
  s ← get;
  deliverThroughOne (lo_row row) (canDeliverListing s row) (fun _ => true).

(** One never tried yet has no time: its turn is now. *)
Definition due (row : CargoNotification) (now : time) (m : Messenger) : bool :=
  match ch_nextRetryAt (channel m row) with Some t => t <=? now | None => true end.

Definition retryDelivery (row : Loaded) (now : time) : DM unit :=
  s ← get;
  deliverThroughOne (lo_row row) (canDeliverListing s row) (due (lo_row row) now).

(** The sweep of [CargoDeliveryRetryWorker]: what it reads, and each retry with the row
    as it was read *)
Definition sweep_due (now : time) : DM (list Loaded) :=
  failExpiredPending (now - DELIVERY_RETRY_WINDOW_MS) ;;
  s ← get;
  mret (findDueRetries s now (now - DELIVERY_RETRY_WINDOW_MS) 50).

Definition tick : DM unit :=
  now ← gets dv_now;
  try_catch
    (rows ← sweep_due now;
     for_each rows (fun row => retryDelivery row now))
    (fun _ => mret tt).

(** ** A queued send *)

(** Every other messenger still pending is skipped, for good. *)
Definition skip_others (m : Messenger) (row : CargoNotification) : DM unit :=
  for_each MESSENGER_ORDER (fun other =>
    when (negb (eqb other m) && is_pending other row) (updateDelivery (cn_id row) other (closed_as DelSkipped))).

Definition setIfAbsent {K} `{Countable K} (m : gmap K (unit * time)) (now : time) (k : K) (ttl : Z) : option (gmap K (unit * time)) :=
  match redis_get m now k with Some _ => None | None => Some (redis_set m now k tt ttl) end.

(** [hashSet] and [expire] *)
Definition hold (m : Messenger) (userId noticeId : uuid) (s : delivery_state) : delivery_state :=
  let held := default ∅ (redis_get (dv_held s) (dv_now s) (m, userId)) in
  s <| dv_held := redis_set (dv_held s) (dv_now s) (m, userId) (held ∪ {[noticeId]}) DIGEST_KEEP_SECONDS |>.

Definition schedule (m : Messenger) (userId : uuid) : DM bool :=
  s ← get;
  match setIfAbsent (dv_scheduled s) (dv_now s) (m, userId) DIGEST_KEEP_SECONDS with
  | Some scheduled => modify (fun s => s <| dv_scheduled := scheduled |>) ;; mret true
  | None => mret false
  end.

(** [null]: sent now *)
Definition holdForDigest (row : CargoNotification) (m : Messenger) : DM (option QueuedOutcome) :=
  s ← get;
  if dv_digestWindow s =? 0 then mret None
  else
    try_catch (redis (
      match setIfAbsent (dv_window s) (dv_now s) (m, cn_userId row) (dv_digestWindow s) with
      | Some opened => modify (fun s => s <| dv_window := opened |>) ;; mret None
      | None =>
          modify (hold m (cn_userId row) (cn_id row)) ;;
          first ← schedule m (cn_userId row);
          if (first : bool) then
            let left := redis_ttl (dv_window s) (dv_now s) (m, cn_userId row) in
            mret (Some (Digest (cn_userId row) (dv_now s + Z.max 1 left * 1000) None))
          else mret (Some Done)
      end)) (fun _ => mret None).

Definition is_stale (now : time) (row : CargoNotification) : bool := DELIVERY_RETRY_WINDOW_MS <? now - cn_createdAt row.

(** The send itself, and what the queue does next *)
Definition send_queued (row : Loaded) (m : Messenger) : DM QueuedOutcome :=
  s ← get;
  let isOpen := canDeliverListing s row in
  result ← deliver_through m (lo_row row) isOpen;
  match dr_status result, dr_retryAt result with
  | DelPending, Some at_ => mret (Retry at_ (dr_pauseMs result))
  | DelSent, _ => skip_others m (lo_row row) ;; mret Done
  | _, _ =>
      if negb isOpen then mret Done
      else mret (match next_pending (after_messenger m) (lo_row row) with Some next => Next next | None => Done end)
  end.

(** What follows on the row as it was read; another job of the same notice may have read it
    before the send of this one is written down. *)
Definition deliver_read (row : Loaded) (m : Messenger) : DM QueuedOutcome :=
  s ← get;
  if negb (is_pending m (lo_row row)) then mret Done
  else if sent_elsewhere (lo_row row) || is_stale (dv_now s) (lo_row row) then
    updateDelivery (cn_id (lo_row row)) m (closed_as (if sent_elsewhere (lo_row row) then DelSkipped else DelFailed)) ;;
    mret Done
  else
    held ← (if is_null (cn_listingId (lo_row row)) then mret None else holdForDigest (lo_row row) m);
    match held with
    | Some outcome => mret outcome
    | None => send_queued row m
    end.

Definition deliverQueued (notificationId : uuid) (m : Messenger) : DM QueuedOutcome :=
  s ← get;
  match findWithListing s notificationId with
  | None => mret Done
  | Some row => deliver_read row m
  end.

(** ** A summary *)

(** [handOn]: each notice marked so, and a send through its next messenger still pending *)
Fixpoint hand_on (rows : list CargoNotification) (m : Messenger) (status : NotificationDeliveryStatus) : DM (list (uuid * Messenger)) :=
  match rows with
  | [] => mret []
  | row :: rows =>
      updateDelivery (cn_id row) m (closed_as status) ;;
      jobs ← hand_on rows m status;
      mret (match next_pending (after_messenger m) row with Some next => (cn_id row, next) :: jobs | None => jobs end)
  end.

Definition handOn (rows : list CargoNotification) (m : Messenger) (status : NotificationDeliveryStatus) : DM QueuedOutcome :=
  jobs ← hand_on rows m status;
  mret (match jobs with [] => Done | _ => Jobs jobs end).

(** The notices of a summary that can still go; the others are closed. *)
Fixpoint open_rows (rows : list Loaded) (m : Messenger) : DM (list Loaded) :=
  match rows with
  | [] => mret []
  | row :: rows =>
      s ← get;
      if negb (is_pending m (lo_row row)) then open_rows rows m
      else
        let stale := is_stale (dv_now s) (lo_row row) in
        if sent_elsewhere (lo_row row) || stale || negb (canDeliverListing s row) then
          updateDelivery (cn_id (lo_row row)) m (closed_as (if stale then DelFailed else DelSkipped)) ;;
          open_rows rows m
        else
          rest ← open_rows rows m;
          mret (row :: rest)
  end.

Definition digestItem (row : Loaded) : DigestItem :=
  (cn_id (lo_row row), match lo_listing row with Some l => is_taken l | None => false end).

Definition in_summary (chatId messageId : text) (sentAt : option time) (c : Channel) : Channel :=
  c <| ch_status := DelSent |> <| ch_chatId := Some chatId |> <| ch_messageId := Some messageId |>
    <| ch_nextRetryAt := None |> <| ch_sentAt := sentAt |>.

(** The summary in a chat: every notice has its message, the other messengers are skipped,
    and the window opens again *)
Definition send_summary (userId : uuid) (m : Messenger) (rows : list Loaded) (chatId : text) : DM QueuedOutcome :=
  messageId ← call (SendSummary m chatId (map digestItem rows));
  s ← get;
  for_each rows (fun row =>
    updateDelivery (cn_id (lo_row row)) m (in_summary chatId messageId (if eqb m Whatsapp then Some (dv_now s) else None)) ;;
    skip_others m (lo_row row)) ;;
  when (negb (dv_digestWindow s =? 0))
    (redis (modify (fun s => s <| dv_window := redis_set (dv_window s) (dv_now s) (m, userId) tt (dv_digestWindow s) |>))) ;;
  mret Done.

(** Held again, for a summary a little later *)
Definition hold_again (userId : uuid) (m : Messenger) (rows : list Loaded) (wait : option Z) : DM QueuedOutcome :=
  for_each rows (fun row => redis (modify (hold m userId (cn_id (lo_row row))))) ;;
  redis (schedule m userId) ;;
  s ← get;
  mret (Digest userId (dv_now s + default DIGEST_TEMPORARY_RETRY_MS wait) wait).

(** What is held for a driver in a messenger, taken out *)
Definition take_held (userId : uuid) (m : Messenger) : DM (gset uuid) :=
  redis (
    s ← get;
    modify (fun s => s <| dv_scheduled := delete (m, userId) (dv_scheduled s) |> <| dv_held := delete (m, userId) (dv_held s) |>) ;;
    mret (default ∅ (redis_get (dv_held s) (dv_now s) (m, userId)))).

Definition deliverDigest (userId : uuid) (m : Messenger) : DM QueuedOutcome :=
  ids ← take_held userId m;
  s ← get;
  rows ← open_rows (findManyWithListing s ids) m;
  match rows with
  | [] => mret Done
  | [row] => mret (Jobs [(cn_id (lo_row row), m)])
  | _ =>
      match address s userId m with
      | None => handOn (map lo_row rows) m DelSkipped
      | Some chatId =>
          try_catch (send_summary userId m rows chatId)
            (fun error =>
               let wait := rateLimitWaitMs error in
               if is_null wait && negb (eqb m Whatsapp) && isPermanentTelegramError error
               then handOn (map lo_row rows) m DelFailed
               else hold_again userId m rows wait)
      end
  end.

(** ** A queued edit *)

(** The edit of the message a notice is in, to match its load as it is now *)
Definition edit_message (row : Loaded) (listing : CargoListing) (m : Messenger) (chatId messageId : text) : DM unit :=
  s ← get;
  let taken := is_taken listing in
  let summary := findByMessage s m chatId messageId in
  let many := Nat.ltb 1 (length summary) in
  match m with
  | Whatsapp =>
      let allTaken := if many then forallb (fun item => match lo_listing item with Some l => is_taken l | None => false end) summary else taken in
      let canEdit := match ch_sentAt (channel Whatsapp (lo_row row)) with Some t => dv_now s - t <? WHATSAPP_EDIT_WINDOW_MS | None => false end in
      if canEdit then
        call (if many then EditSummary m chatId messageId (map digestItem summary)
              else EditLoad m chatId messageId (cn_id (lo_row row)) taken) ;; mret tt
      else if negb many || allTaken then call (React chatId messageId allTaken) ;; mret tt
      else mret tt
  | _ =>
      call (if many then EditSummary m chatId messageId (map digestItem summary)
            else EditLoad m chatId messageId (cn_id (lo_row row)) taken) ;; mret tt
  end.

Definition editQueued (notificationId : uuid) (m : Messenger) : DM QueuedOutcome :=
  s ← get;
  match findWithListing s notificationId with
  | Some row =>
      match lo_listing row, ch_chatId (channel m (lo_row row)), ch_messageId (channel m (lo_row row)) with
      | Some listing, Some chatId, Some messageId =>
          try_catch (edit_message row listing m chatId messageId ;; mret Done)
            (fun error =>
               match rateLimitWaitMs error with
               | Some wait => now ← gets dv_now; mret (Retry (now + wait) (Some wait))
               | None => mret Done
               end)
      | _, _, _ => mret Done
      end
  | None => mret Done
  end.

End Notices.
