(* ===== verification/DeliveryQueue.v ===== *)
(** * The queue of the deliveries

    [src/services/notification/cargoDeliveryQueue.service.ts]: jobs per messenger at its
    pace, a job tried again after a wait, one handed to the next messenger, one given up;
    and the part of [cargoListing.service.ts] that makes the notices of a load announced
    and queues them ([sendToDrivers], [queueJobs]). *)

From S2P Require Import Prelude JsString Effects Enums DriverProfile BrokerDriver TripFareRules BrokerAccess CargoData Redis Delivery CargoNotices.

Inductive JobKind := KSend | KEdit | KDigest.

(** [id]: the notice, or the driver of a digest *)
Record DeliveryJob := mkJob {
  jb_id : uuid;
  jb_messenger : Messenger;
  jb_kind : JobKind;
  jb_tries : Z;
}.

Definition MAX_TRIES : Z := 5.
Definition ERROR_RETRY_MS : Z := 30 * 1000.

(** A job waits to the instant its retry message expires. *)
Record queue_state := mkQueue {
  qu_notices : delivery_state;
  qu_connected : bool;
  qu_jobs : list (DeliveryJob * time);
  qu_dead : list DeliveryJob;
  qu_limiters : Messenger -> RateLimiter;
}.

Abbreviation QM := (M queue_state).

Definition qu_now (s : queue_state) : time := dv_now (qu_notices s).

Definition on_notices {A} (m : DM A) : QM A := zoom qu_notices (fun d s => s <| qu_notices := d |>) m.

Definition NOT_TAKEN : exn := OtherError (js "RabbitMQ did not take the job").

(** [publish] into a queue, or a retry queue for [wait] ms *)
Definition publish (job : DeliveryJob) (wait : Z) : QM unit :=
  s ← get;
  ensure (qu_connected s) NOT_TAKEN ;;
  modify (fun s => s <| qu_jobs := qu_jobs s ++ [(job, qu_now s + wait)] |>).

Definition pause_messenger (m : Messenger) (pauseMs : option Z) : QM unit :=
  match pauseMs with
  | Some ms =>
      when (negb (ms =? 0)) (modify (fun s => s <| qu_limiters :=
        (fun x => if eqb x m then pause (qu_now s) ms (qu_limiters s x) else qu_limiters s x) |>))
  | None => mret tt
  end.

Definition send_job (j : uuid * Messenger) : DeliveryJob := mkJob j.1 j.2 KSend 0.

Definition follow (job : DeliveryJob) (outcome : QueuedOutcome) : QM unit :=
  s ← get;
  match outcome with
  | Done => mret tt
  | Retry at_ pauseMs =>
      pause_messenger (jb_messenger job) pauseMs ;;
      publish job (Z.max 1000 (at_ - qu_now s))
  | Next m => publish (job <| jb_messenger := m |> <| jb_tries := 0 |>) 0
  | Digest userId at_ pauseMs =>
      pause_messenger (jb_messenger job) pauseMs ;;
      publish (mkJob userId (jb_messenger job) KDigest 0) (Z.max 1000 (at_ - qu_now s))
  | Jobs jobs => for_each jobs (fun j => publish (send_job j) 0)
  end.

Inductive Acknowledge := Ack | Drop | Requeue.

Section Queue.
  Context `{Messengers}.

Definition work (job : DeliveryJob) : DM QueuedOutcome :=
  match jb_kind job with
  | KEdit => editQueued (jb_id job) (jb_messenger job)
  | KDigest => deliverDigest (jb_id job) (jb_messenger job)
  | KSend => deliverQueued (jb_id job) (jb_messenger job)
  end.

(** What comes next is queued, or the job comes again. *)
Definition then_follow (job : DeliveryJob) (outcome : QueuedOutcome) : QM Acknowledge :=
  try_catch (follow job outcome ;; mret Ack) (fun _ => mret Requeue).

(** [handle], after its turn was given *)
Definition handle (job : DeliveryJob) : QM Acknowledge :=
  outcome ← try_catch (o ← on_notices (work job); mret (inl o)) (fun error => mret (inr error));
  match outcome with
  | inl o => then_follow job o
  | inr _ =>
      let tries := jb_tries job + 1 in
      if MAX_TRIES <=? tries then mret Drop
      else
        now ← gets qu_now;
        then_follow (job <| jb_tries := tries |>) (Retry (now + ERROR_RETRY_MS) None)
  end.

(** A consumer takes the i-th job whose time has come and that its messenger's pace
    allows; when it is done it is acknowledged, dropped to the dead letters, or it
    comes again.  A job is one step here; the program runs up to ten of a messenger's at a
    time ([deliver_read] is what of a job may overlap with another of the same notice). *)
Definition consume (i : nat) : QM unit :=
  s ← get;
  match qu_jobs s !! i with
  | Some (job, at_) =>
      match take_turn (qu_now s) (qu_limiters s (jb_messenger job)) with
      | inl limiter =>
          if at_ <=? qu_now s then
            modify (fun s => s <| qu_jobs := delete i (qu_jobs s) |>
              <| qu_limiters := fun x => if eqb x (jb_messenger job) then limiter else qu_limiters s x |>) ;;
            answer ← handle job;
            match answer with
            | Ack => mret tt
            | Drop => modify (fun s => s <| qu_dead := qu_dead s ++ [job] |>)
            | Requeue => modify (fun s => s <| qu_jobs := qu_jobs s ++ [(job, at_)] |>)
            end
          else mret tt
      | inr _ => mret tt
      end
  | None => mret tt
  end.

(** ** A load announced *)

(** [enqueue]: the jobs the broker did not take *)
Fixpoint enqueue (jobs : list DeliveryJob) : QM (list DeliveryJob) :=
  match jobs with
  | [] => mret []
  | job :: jobs =>
      ok ← try_catch (publish job 0 ;; mret true) (fun _ => mret false);
      failed ← enqueue jobs;
      mret (if (ok : bool) then failed else job :: failed)
  end.

Definition is_kind (k : JobKind) (job : DeliveryJob) : bool :=
  match k, jb_kind job with KSend, KSend | KEdit, KEdit | KDigest, KDigest => true | _, _ => false end.

Definition queueJobs (jobs : list DeliveryJob) : QM unit :=
  failed ← enqueue jobs;
  let sends := map jb_id (List.filter (is_kind KSend) failed) in
  now ← gets qu_now;
  when (negb (Nat.eqb (length sends) 0)) (on_notices (scheduleRetry sends now)) ;;
  for_each (List.filter (is_kind KEdit) failed) (fun job => on_notices (editQueued (jb_id job) (jb_messenger job) ;; mret tt)).

Definition new_channel (status : NotificationDeliveryStatus) : Channel := mkChannel status None None 0 None None.

(** A driver's notice: the messengers it has not linked are skipped from the start. *)
Definition driver_notice (s : delivery_state) (sourceMessageId : text) (listingId driverId : uuid) : CargoNotification :=
  let c m := new_channel (if bool_decide (m ∈ routes s driverId) then DelPending else DelSkipped) in
  mkNotification 0 driverId sourceMessageId (Some listingId) false None (c Bale) (c Eitaa) (c Rubika) (c Telegram) (c Whatsapp) 0.

(** A job for a notice no messenger has, through its first one pending *)
Definition first_job (row : CargoNotification) : list DeliveryJob :=
  if sent_elsewhere row then []
  else match next_pending MESSENGER_ORDER row with Some m => [send_job (cn_id row, m)] | None => [] end.

(** [sendToDrivers]: the notices of the drivers and their jobs.  The database answers it; in the
    program a failure here leaves the load saved as announced, its notices unwritten. *)
Definition sendToDrivers (sourceMessageId : text) (listingId : uuid) (recipients : list uuid) : QM nat :=
  s ← get;
  on_notices (insertIgnoringDuplicates (map (driver_notice (qu_notices s) sourceMessageId listingId) recipients)) ;;
  s ← get;
  let rows := List.filter (fun r => bool_decide (cn_userId r ∈ recipients)) (findByListing (qu_notices s) listingId) in
  queueJobs (flat_map first_job rows) ;;
  mret (length rows).

(** [editJobs]: an edit for each message of a load, in the messenger that has it *)
Definition edit_jobs (row : CargoNotification) : list DeliveryJob :=
  map (fun m => mkJob (cn_id row) m KEdit 0)
    (List.filter (fun m => negb (is_null (ch_chatId (channel m row))) && negb (is_null (ch_messageId (channel m row)))) MESSENGER_ORDER).

(** [propagateText], and [propagateStatus] of a load open again *)
Definition edit_everywhere (listingId : uuid) : QM unit :=
  s ← get;
  queueJobs (flat_map edit_jobs (findByListing (qu_notices s) listingId)).

(** A suggestion of a company: its row, sent at once ([handleCargoDetected] and
    [suggestFactoryCargo] after they found who gets it) *)
Definition suggestion (sourceMessageId : text) (userId : uuid) : CargoNotification :=
  let c := new_channel DelPending in
  mkNotification 0 userId sourceMessageId None false None c c c c c 0.

Definition suggest (sourceMessageId : text) (recipients : list uuid) : DM unit :=
  insertIgnoringDuplicates (map (suggestion sourceMessageId) recipients) ;;
  s ← get;
  for_each (findSuggestions s sourceMessageId recipients) (fun row => deliver (load s row)).

End Queue.

(** ** A world of deliveries to run

    One driver on two bots, one announced load and its notice, and messengers that take
    everything or refuse in turn: the worlds the examples of the deliveries run in. *)

(** *** Messengers *)

Definition takes_all : Messengers := {| answer n c := Ok (js "m1") |}.

(** Bale is down at first, then it has no such chat. *)
Definition down_then_gone : Messengers := {|
  answer n c := match n with
                | O => Err (MessengerError (js "bad gateway") (Some 502) None None)
                | S O => Err (MessengerError (js "chat not found") None (Some 400) None)
                | _ => Ok (js "m1")
                end |}.

(** Bale does not know the chat, Eitaa takes the message. *)
Definition bale_refuses : Messengers := {|
  answer n c := match c with
                | SendLoad Bale _ _ => Err (MessengerError (js "forbidden") (Some 403) None None)
                | _ => Ok (js "m2")
                end |}.

(** *** Driver 1 on Bale and Eitaa, an announced load, no notice yet *)

Definition announced_load : CargoListing :=
  mkListing 100 10 (js "Tehran") (js "Rasht") TripDomestic ListingOpen None.

Definition no_notices : delivery_state := {|
  dv_now := 2000; dv_digestWindow := 0; dv_redisUp := true; dv_nextId := 5;
  dv_rows := ∅; dv_listings := {[ 100%N := announced_load ]};
  dv_profiles := mkProfiles {[ 1%N := new_profile ]} ∅ [10%N];
  dv_platforms := [Bale; Eitaa]; dv_links := <[(1%N, Bale) := Some (js "c1")]> {[ (1%N, Eitaa) := Some (js "c2") ]};
  dv_jids := ∅; dv_window := ∅; dv_held := ∅; dv_scheduled := ∅; dv_activity := ∅; dv_calls := [] |}.

Definition idle_queue : queue_state := {|
  qu_notices := no_notices; qu_connected := true; qu_jobs := []; qu_dead := [];
  qu_limiters m := new_limiter (DEFAULT_PERIOD m) |}.

(** *** Its notice: through Bale, then Eitaa *)

Definition pending_now : Channel := mkChannel DelPending None None 0 None None.
Definition not_linked : Channel := mkChannel DelSkipped None None 0 None None.

Definition sample_notice : CargoNotification :=
  mkNotification 5 1 (js "g1") (Some 100%N) false None pending_now pending_now not_linked not_linked not_linked 2000.

Definition sample_deliveries : delivery_state := no_notices <| dv_rows := {[ 5%N := sample_notice ]} |> <| dv_nextId := 6%N |>.
