(* ===== verification/DeliveryFacts.v ===== *)
(** * What the deliveries keep

    What one send does to its notice, what it leaves alone, and the invariant of the
    notices: no driver's notice is sent twice. *)

From S2P Require Import Prelude JsString Effects Enums DriverProfile BrokerDriver TripFareRules BrokerAccess CargoData Redis Delivery CargoNotices.

(** ** Channels *)

Lemma channel_set m j f r : channel j (set_channel m f r) = if decide (j = m) then f (channel j r) else channel j r.
Proof. by destruct m, j. Qed.

Lemma channel_set_eq m f r : channel m (set_channel m f r) = f (channel m r).
Proof. by destruct m. Qed.

Lemma channel_set_ne m j f r : j <> m -> channel j (set_channel m f r) = channel j r.
Proof. intros Hn. rewrite channel_set. by rewrite decide_False. Qed.

(** A notice with another channel is the same notice. *)
Definition same_head (r r' : CargoNotification) : Prop :=
  cn_id r' = cn_id r /\ cn_userId r' = cn_userId r /\ cn_listingId r' = cn_listingId r /\ cn_createdAt r' = cn_createdAt r.

Lemma same_head_set m f r : same_head r (set_channel m f r).
Proof. by destruct m. Qed.

Lemma same_head_trans r1 r2 r3 : same_head r1 r2 -> same_head r2 r3 -> same_head r1 r3.
Proof. intros (?&?&?&?) (?&?&?&?). split_and!; congruence. Qed.

Lemma elem_of_order m : m ∈ MESSENGER_ORDER.
Proof. unfold MESSENGER_ORDER. destruct m; set_solver. Qed.

Lemma sent_elsewhere_true r : sent_elsewhere r = true <-> exists m, ch_status (channel m r) = DelSent.
Proof.
  unfold sent_elsewhere. rewrite some_b_true. split.
  - intros (m & _ & Hm). exists m. by apply eqb_true.
  - intros (m & Hm). exists m. split; [apply elem_of_order | by apply eqb_true].
Qed.

(** ** What a step leaves alone *)

Definition mentions (k : uuid) (c : Call) : bool :=
  match c with
  | SendLoad _ _ id => (id =? k)%N
  | SendSummary _ _ items => some_b (fun i => (i.1 =? k)%N) items
  | _ => false
  end.

(** The messages sent with the load of a notice *)
Definition deliveries (k : uuid) (s : delivery_state) : nat :=
  length (List.filter (fun c => c.2 && mentions k c.1) (dv_calls s)).

Definition key (c : Channel) := (ch_status c, ch_attempts c, ch_nextRetryAt c).

Definition quiet (r r' : CargoNotification) : Prop := same_head r r' /\ forall m, key (channel m r') = key (channel m r).

Lemma quiet_refl r : quiet r r.
Proof. by split. Qed.

Lemma quiet_trans r1 r2 r3 : quiet r1 r2 -> quiet r2 r3 -> quiet r1 r3.
Proof. intros [H1 K1] [H2 K2]. split; [by eapply same_head_trans | intros m; by rewrite K2, K1]. Qed.

Lemma quiet_set m f r : key (f (channel m r)) = key (channel m r) -> quiet r (set_channel m f r).
Proof.
  intros Hf. split; [apply same_head_set|]. intros j. rewrite channel_set. case_decide; [by subst j | done].
Qed.

Lemma quiet_status r r' m : quiet r r' -> ch_status (channel m r') = ch_status (channel m r).
Proof. intros [_ H]. specialize (H m). unfold key in H. congruence. Qed.

(** A notice [k] is where it was, in a world that is what it was. *)
Record frame (k : uuid) (s0 s : delivery_state) : Prop := mkFrame {
  fr_deliveries : deliveries k s = deliveries k s0;
  fr_row : match dv_rows s0 !! k with
           | Some r => exists r', dv_rows s !! k = Some r' /\ quiet r r'
           | None => dv_rows s !! k = None
           end;
  fr_next : dv_nextId s = dv_nextId s0;
}.

Lemma frame_refl k s : frame k s s.
Proof. split; [done| |done]. destruct (dv_rows s !! k) as [r|]; [|done]. exists r. split; [done | apply quiet_refl]. Qed.

Lemma frame_trans k s0 s1 s2 : frame k s0 s1 -> frame k s1 s2 -> frame k s0 s2.
Proof.
  intros [D1 R1 N1] [D2 R2 N2]. split; [congruence| |congruence].
  destruct (dv_rows s0 !! k) as [r|]; [|by rewrite R1 in R2].
  destruct R1 as (r1 & E1 & Q1). rewrite E1 in R2. destruct R2 as (r2 & E2 & Q2).
  exists r2. split; [done | by eapply quiet_trans].
Qed.

Lemma deliveries_call k s c b x :
  dv_calls x = dv_calls s ++ [(c, b)] -> deliveries k x = (deliveries k s + (if b && mentions k c then 1 else 0))%nat.
Proof.
  intros E. unfold deliveries. rewrite E, List.filter_app, length_app. simpl. by destruct (b && mentions k c).
Qed.

Section Frames.
  Context `{Messengers} (k : uuid) (s0 : delivery_state).

(** A write that touches neither the rows nor the calls *)
Lemma frame_other f :
  (forall s, dv_calls (f s) = dv_calls s /\ dv_rows (f s) = dv_rows s /\ dv_nextId (f s) = dv_nextId s) ->
  preserves (frame k s0) (modify f).
Proof.
  intros Hf. apply preserves_modify. intros s [D R N]. destruct (Hf s) as (E1 & E2 & E3).
  split; [unfold deliveries; by rewrite E1 | by rewrite E2 | by rewrite E3].
Qed.

Lemma frame_update id m f :
  id <> k \/ (forall c, key (f c) = key c) -> preserves (frame k s0) (updateDelivery id m f).
Proof.
  intros Hf. apply preserves_modify. intros s [D R N]. split; [done| |done].
  change (dv_rows (update_row id (set_channel m f) s)) with (alter (set_channel m f) id (dv_rows s)).
  destruct (decide (id = k)) as [->|Hn].
  - rewrite lookup_alter_eq. destruct Hf as [Hf|Hf]; [done|].
    destruct (dv_rows s0 !! k) as [r|]; [|by rewrite R].
    destruct R as (r' & E & Q). rewrite E. eexists. split; [done|].
    eapply quiet_trans; [exact Q | by apply quiet_set].
  - by rewrite lookup_alter_ne.
Qed.

Lemma frame_call c : mentions k c = false -> preserves (frame k s0) (call c).
Proof.
  intros Hc s [D R N]. unfold call, final. rewrite run_bind. unfold get. cbv beta iota zeta. rewrite run_bind. unfold modify. cbv beta iota.
  set (s1 := s <| dv_calls := _ |>).
  assert (F : frame k s0 s1).
  { split; [|exact R|exact N]. rewrite (deliveries_call k s c _ s1 eq_refl), Hc, andb_false_r. lia. }
  exact F.
Qed.

Lemma frame_redis {A} (m : DM A) : preserves (frame k s0) m -> preserves (frame k s0) (redis m).
Proof. intros Hm. unfold redis. preserve. Qed.

End Frames.

#[export] Hint Resolve frame_redis : preserves.

Section Suggestions.
  Context `{Messengers} (k : uuid) (s0 : delivery_state).

Lemma delete_notice_frame m n : preserves (frame k s0) (delete_notice m n).
Proof.
  unfold delete_notice. preserve; [by apply frame_call|]. apply frame_update. right. intros c. by destruct m.
Qed.

Lemma suggestion_message_frame m row chat : preserves (frame k s0) (suggestion_message m row chat).
Proof.
  unfold suggestion_message, recentSuggestionNotice, deleteSuggestionNotices. preserve; try by apply frame_call.
  apply delete_notice_frame.
Qed.

Lemma markSuggestionActivity_frame row m : preserves (frame k s0) (markSuggestionActivity row m).
Proof. unfold markSuggestionActivity. apply frame_redis. by apply frame_other. Qed.

End Suggestions.

(** ** What one send does *)

(** Notice [id], [r] before, has [n] messages more and its channel [m] at [K]; nothing
    else of it changed. *)
Record moved (m : Messenger) (id : uuid) (r : CargoNotification) (s : delivery_state) (n : nat) K (s' : delivery_state) : Prop := mkMoved {
  mv_deliveries : deliveries id s' = (deliveries id s + n)%nat;
  mv_row : exists r', dv_rows s' !! id = Some r' /\ same_head r r' /\
             (forall j, j <> m -> key (channel j r') = key (channel j r)) /\ key (channel m r') = K;
  mv_next : dv_nextId s' = dv_nextId s;
}.

Section Sends.
  Context `{Messengers} (m : Messenger) (id : uuid) (r : CargoNotification) (s : delivery_state).

Lemma moved_refl : dv_rows s !! id = Some r -> moved m id r s 0 (key (channel m r)) s.
Proof. intros Hr. split; [lia| |done]. by exists r. Qed.

Lemma moved_frame n K s1 s2 : moved m id r s n K s1 -> frame id s1 s2 -> moved m id r s n K s2.
Proof.
  intros [D (r1 & E1 & H1 & O1 & K1) N] [D2 R2 N2]. rewrite E1 in R2. destruct R2 as (r2 & E2 & [Hh Hk]).
  split; [congruence| |congruence]. exists r2. split_and!; [done | by eapply same_head_trans | |].
  - intros j Hj. by rewrite Hk, O1.
  - by rewrite Hk.
Qed.

Lemma moved_run {A} (c : DM A) n K s1 :
  moved m id r s n K s1 -> preserves (frame id s1) c -> moved m id r s n K (final c s1).
Proof. intros Hm Hc. eapply moved_frame; [exact Hm|]. by apply Hc, frame_refl. Qed.

Lemma moved_update n K K' f s1 :
  (forall c, key c = K -> key (f c) = K') -> moved m id r s n K s1 -> moved m id r s n K' (update_row id (set_channel m f) s1).
Proof.
  intros Hf [D (r1 & E1 & H1 & O1 & K1) N]. split; [done| |done].
  exists (set_channel m f r1). split_and!.
  - change (dv_rows (update_row id (set_channel m f) s1)) with (alter (set_channel m f) id (dv_rows s1)).
    by rewrite lookup_alter_eq, E1.
  - eapply same_head_trans; [exact H1 | apply same_head_set].
  - intros j Hj. by rewrite channel_set_ne, O1.
  - rewrite channel_set_eq. by apply Hf.
Qed.

Lemma moved_call n K c s1 :
  moved m id r s n K s1 -> exists o s2, call c s1 = (o, s2) /\
    moved m id r s (n + match o with Ok _ => if mentions id c then 1 else 0 | Err _ => 0 end) K s2.
Proof.
  intros [D R N]. unfold call. rewrite run_bind. unfold get. cbv beta iota zeta. rewrite run_bind. unfold modify, of_outcome. cbv beta iota.
  set (s2 := s1 <| dv_calls := _ |>). eexists _, s2. split; [done|]. split; [|exact R|exact N].
  rewrite (deliveries_call id s1 c _ s2 eq_refl), D. destruct (answer _ _); cbn [andb]; lia.
Qed.

End Sends.

(** What a send came to: the result, the messages it sent, and the messenger's columns *)
Inductive send_result (listing : bool) (attempts : Z) : DeliveryResult -> nat -> NotificationDeliveryStatus * Z * option time -> Prop :=
| SentSkipped : send_result listing attempts (just DelSkipped) 0 (DelSkipped, attempts, None)
| SentNow : send_result listing attempts (just DelSent) (if listing then 1 else 0) (DelSent, attempts + 1, None)
| SentSlow t w : send_result listing attempts (mkResult DelPending (Some t) (Some w)) 0 (DelPending, attempts, Some t)
| SentAgain t : attempts + 1 < MAX_DELIVERY_ATTEMPTS ->
    send_result listing attempts (mkResult DelPending (Some t) None) 0 (DelPending, attempts + 1, Some t)
| SentFailed : send_result listing attempts (mkResult DelFailed None None) 0 (DelFailed, attempts + 1, None).

Definition has_listing (row : CargoNotification) : bool := negb (is_null (cn_listingId row)).

Section Through.
  Context `{Messengers} (m : Messenger) (r : CargoNotification) (s : delivery_state).
  Context (row : CargoNotification).

Lemma markSuggestionActivity_run s1 :
  exists s2, (markSuggestionActivity row m s1 = (Ok tt, s2) \/ markSuggestionActivity row m s1 = (Err REDIS_DOWN, s2)) /\ frame (cn_id row) s1 s2.
Proof.
  pose proof (markSuggestionActivity_frame (cn_id row) s1 row m s1 (frame_refl (cn_id row) s1)) as Hf. unfold final in Hf.
  unfold markSuggestionActivity, redis in *. rewrite run_bind in *. unfold get in *. cbv beta iota in *. rewrite run_bind in *.
  unfold ensure in *. destruct (dv_redisUp s1); eexists; (split; [eauto | exact Hf]).
Qed.

Lemma send_notice_effect chat att K s1 o s2 :
  moved m (cn_id row) r s 0 K s1 -> send_notice m row chat att s1 = (o, s2) ->
  match o with
  | Ok _ => moved m (cn_id row) r s (if has_listing row then 1 else 0) (DelSent, att, None) s2
  | Err e => moved m (cn_id row) r s 0 K s2 \/ (e = REDIS_DOWN /\ moved m (cn_id row) r s 0 (DelSent, att, None) s2)
  end.
Proof.
  intros Hm. unfold send_notice, has_listing. destruct (cn_listingId row) as [l|]; cbn [is_null negb].
  - destruct (moved_call m (cn_id row) r s 0 K (SendLoad m chat (cn_id row)) s1 Hm) as (o' & s3 & E & H2).
    rewrite run_bind, E. destruct o' as [msg|e]; [|intros [= <- <-]; by left].
    cbn [mentions] in H2. rewrite N.eqb_refl in H2. rewrite run_bind. unfold gets. cbv beta iota.
    intros [= <- <-]. by apply (moved_update m _ r s 1 K).
  - pose proof (moved_run m (cn_id row) r s _ 0 K s1 Hm (suggestion_message_frame (cn_id row) s1 m row chat)) as H2. unfold final in H2.
    rewrite run_bind. destruct (suggestion_message m row chat s1) as [[[msg previous]|e] s3]; [|intros [= <- <-]; by left].
    rewrite run_bind. unfold gets. cbv beta iota. rewrite run_bind. unfold updateDelivery at 1, modify at 1. cbv beta iota. cbn [fst snd].
    match goal with |- context [update_row ?i ?f s3] =>
      assert (H3 : moved m (cn_id row) r s 0 (DelSent, att, None) (update_row i f s3)) by (by apply (moved_update m (cn_id row) r s 0 K));
      set (s4 := update_row i f s3) in * end.
    assert (H4 : exists s5, (match previous with
        | Some p => when (negb (cn_id p =? cn_id row)%N) (updateDelivery (cn_id p) m (without_message m))
        | None => mret tt end) s4 = (Ok tt, s5) /\ moved m (cn_id row) r s 0 (DelSent, att, None) s5).
    { destruct previous as [p|]; [|by exists s4]. destruct (N.eqb_spec (cn_id p) (cn_id row)) as [|Hp]; [by exists s4|].
      eexists. split; [done|]. apply (moved_run m (cn_id row) r s (updateDelivery (cn_id p) m (without_message m)) _ _ s4 H3). apply frame_update. by left. }
    destruct H4 as (s5 & E5 & H5). rewrite run_bind, E5.
    destruct (markSuggestionActivity_run s5) as (s6 & [E6|E6] & F6); rewrite E6; intros [= <- <-].
    + by eapply moved_frame.
    + right. split; [done|]. by eapply moved_frame.
Qed.

Lemma key_closed st c : key (closed_as st c) = (st, (key c).1.2, None).
Proof. done. Qed.

(** A send of a notice whose messenger is pending comes to one of these. *)
Lemma deliver_through_effect isOpen att t s1 :
  moved m (cn_id row) r s 0 (DelPending, att, t) s1 -> key (channel m row) = (DelPending, att, t) ->
  exists d n K s2, deliver_through m row isOpen s1 = (Ok d, s2) /\
    send_result (has_listing row) att d n K /\ moved m (cn_id row) r s n K s2.
Proof.
  intros Hm Hk. assert (Hst : ch_status (channel m row) = DelPending) by (by injection Hk).
  assert (Hat : ch_attempts (channel m row) = att) by (by injection Hk).
  assert (Hskip : exists d n K s2, skip m row s1 = (Ok d, s2) /\ send_result (has_listing row) att d n K /\ moved m (cn_id row) r s n K s2).
  { eexists _, _, _, _. split; [done|]. split; [apply SentSkipped|]. apply (moved_update m (cn_id row) r s 0 (DelPending, att, t)); [|done].
    intros c Hc. by rewrite key_closed, Hc. }
  assert (Hfail : forall retryAt s2 K, (match retryAt with Some _ => att + 1 < MAX_DELIVERY_ATTEMPTS | None => True end) ->
    moved m (cn_id row) r s 0 K s2 ->
    exists d n K s3, failed_send m row (att + 1) retryAt s2 = (Ok d, s3) /\ send_result (has_listing row) att d n K /\ moved m (cn_id row) r s n K s3).
  { intros retryAt s2 K Hr H2.
    exists (mkResult (match retryAt with Some _ => DelPending | None => DelFailed end) retryAt None), 0%nat,
      (match retryAt with Some _ => DelPending | None => DelFailed end, att + 1, retryAt).
    eexists. split; [done|]. split; [|by apply (moved_update m (cn_id row) r s 0 K)].
    destruct retryAt; [by apply SentAgain | apply SentFailed]. }
  assert (Hnext : forall now, match nextDeliveryRetryAt (att + 1) (cn_createdAt row) now with
                              | Some _ => att + 1 < MAX_DELIVERY_ATTEMPTS | None => True end).
  { intros now. unfold nextDeliveryRetryAt. destruct (Z.leb_spec MAX_DELIVERY_ATTEMPTS (att + 1)); [done|]. by destruct (_ <=? _). }
  assert (Hsent : forall chat o s2, send_notice m row chat (att + 1) s1 = (o, s2) ->
    match o with
    | Ok _ => moved m (cn_id row) r s (if has_listing row then 1 else 0) (DelSent, att + 1, None) s2
    | Err e => (exists K, moved m (cn_id row) r s 0 K s2 /\ (rateLimitWaitMs e <> None -> K = (DelPending, att, t)))
    end).
  { intros chat o s2 E. pose proof (send_notice_effect chat _ _ s1 o s2 Hm E) as H2. destruct o as [u|e]; [done|].
    destruct H2 as [H2|[-> H2]]; [eauto|]. exists (DelSent, att + 1, None). by split. }
  assert (Hbot : exists d n K s2, deliverBot m row isOpen s1 = (Ok d, s2) /\ send_result (has_listing row) att d n K /\ moved m (cn_id row) r s n K s2).
  { unfold deliverBot. rewrite Hst, Hat. unfold eqb. rewrite bool_decide_eq_true_2 by done. cbn [negb]. rewrite run_bind. unfold get. cbv beta iota.
    destruct (if isOpen then _ else None) as [chat|]; [|exact Hskip].
    unfold try_catch. rewrite run_bind. destruct (send_notice m row chat (att + 1) s1) as [[u|e] s2] eqn:E; pose proof (Hsent _ _ _ E) as H2; cbv beta iota in H2.
    - rewrite run_ret. eexists _, _, _, _. split; [done|]. split; [apply SentNow | exact H2].
    - destruct H2 as (K & H2 & HK). destruct (rateLimitWaitMs e) as [w|] eqn:Ew.
      + rewrite HK in H2 by done. rewrite run_bind. unfold gets. cbv beta iota. eexists _, _, _, _. split; [done|]. split; [apply SentSlow|].
        apply (moved_update m (cn_id row) r s 0 (DelPending, att, t)); [|exact H2]. intros c Hc.
        change (((key c).1.1, (key c).1.2, Some (dv_now s2 + w)) = (DelPending, att, Some (dv_now s2 + w))). by rewrite Hc.
      + rewrite run_bind. unfold gets. cbv beta iota. apply (Hfail _ s2 K); [|exact H2].
        destruct (isPermanentTelegramError e); [done | apply Hnext]. }
  unfold deliver_through. destruct m; try exact Hbot. unfold deliverWhatsapp. rewrite Hst, Hat. unfold eqb. rewrite bool_decide_eq_true_2 by done. cbn [negb]. rewrite run_bind. unfold get. cbv beta iota.
  destruct (if isOpen then _ else None) as [chat|]; [|exact Hskip].
  unfold try_catch. rewrite run_bind. destruct (send_notice Whatsapp row chat (att + 1) s1) as [[u|e] s2] eqn:E; pose proof (Hsent _ _ _ E) as H2; cbv beta iota in H2.
  - rewrite run_ret. eexists _, _, _, _. split; [done|]. split; [apply SentNow | exact H2].
  - destruct H2 as (K & H2 & _). rewrite run_bind. unfold gets. cbv beta iota. apply (Hfail _ s2 K); [apply Hnext | exact H2].
Qed.

End Through.

Section Others.
  Context `{Messengers} (k : uuid) (s0 : delivery_state).

Lemma send_notice_frame m row chat att : cn_id row <> k -> preserves (frame k s0) (send_notice m row chat att).
Proof.
  intros Hn. unfold send_notice.
  assert (Hc : mentions k (SendLoad m chat (cn_id row)) = false) by (by apply N.eqb_neq).
  preserve; first [ by apply frame_call | by apply frame_update; left | by apply suggestion_message_frame
    | by apply markSuggestionActivity_frame | idtac ].
  apply frame_update. right. intros ?. by destruct m.
Qed.

Lemma deliver_through_frame m row isOpen : cn_id row <> k -> preserves (frame k s0) (deliver_through m row isOpen).
Proof.
  intros Hn. assert (Hb : preserves (frame k s0) (deliverBot m row isOpen)).
  { unfold deliverBot, skip, failed_send. preserve; first [by apply send_notice_frame | by apply frame_update; left]. }
  unfold deliver_through. destruct m; try exact Hb.
  unfold deliverWhatsapp, skip, failed_send. preserve; first [by apply send_notice_frame | by apply frame_update; left].
Qed.

Lemma through_one_frame ms row isOpen ready taken : cn_id row <> k -> preserves (frame k s0) (through_one ms row isOpen ready taken).
Proof.
  intros Hn. revert taken. induction ms as [|m ms IH]; intros taken; cbn [through_one]; [apply preserves_ret|].
  preserve; first [by apply IH | by apply frame_update; left | by apply deliver_through_frame].
Qed.

End Others.

(** ** The invariant *)

(** One messenger at most has a notice, a load's message is sent once at most and then one
    messenger has it, and a messenger tries five times at most. *)
Record notice_ok (k : uuid) (n : nat) (r : CargoNotification) : Prop := mkNoticeOk {
  nk_id : cn_id r = k;
  nk_once : (n <= 1)%nat;
  nk_sent : n = 1%nat -> exists m, ch_status (channel m r) = DelSent;
  nk_one : forall m m', ch_status (channel m r) = DelSent -> ch_status (channel m' r) = DelSent -> m = m';
  nk_tries : forall m, 0 <= ch_attempts (channel m r) <= MAX_DELIVERY_ATTEMPTS /\
               (ch_status (channel m r) = DelPending -> ch_attempts (channel m r) < MAX_DELIVERY_ATTEMPTS);
}.

Definition ok_at (k : uuid) (s : delivery_state) : Prop :=
  match dv_rows s !! k with
  | Some r => notice_ok k (deliveries k s) r /\ (k < dv_nextId s)%N
  | None => (deliveries k s <= 1)%nat /\ ((dv_nextId s <= k)%N -> deliveries k s = 0%nat)
  end.

Definition notices_ok (s : delivery_state) : Prop := forall k, ok_at k s.

Lemma key_status c c' : key c = key c' -> ch_status c = ch_status c'.
Proof. unfold key. congruence. Qed.
Lemma key_attempts c c' : key c = key c' -> ch_attempts c = ch_attempts c'.
Proof. unfold key. congruence. Qed.

Lemma notice_ok_quiet k n r r' : notice_ok k n r -> quiet r r' -> notice_ok k n r'.
Proof.
  intros [H1 H2 H3 H4 H5] [Hh Hk]. split.
  - destruct Hh as (E & _). congruence.
  - done.
  - intros Hn. destruct (H3 Hn) as (m & Hm). exists m. by rewrite (key_status _ _ (Hk m)).
  - intros m m'. rewrite !(key_status _ _ (Hk _)). apply H4.
  - intros m. rewrite (key_status _ _ (Hk m)), (key_attempts _ _ (Hk m)). apply H5.
Qed.

Lemma ok_at_frame k s0 s : ok_at k s0 -> frame k s0 s -> ok_at k s.
Proof.
  unfold ok_at. intros Hk [D R N]. rewrite D, N. destruct (dv_rows s0 !! k) as [r|].
  - destruct R as (r' & -> & Q). destruct Hk as [Hk Hlt]. split; [by eapply notice_ok_quiet | done].
  - by rewrite R.
Qed.

(** Not sent yet, and no messenger says so *)
Definition unsent (k : uuid) (s : delivery_state) : Prop :=
  deliveries k s = 0%nat /\ forall r j, dv_rows s !! k = Some r -> ch_status (channel j r) <> DelSent.

Lemma unsent_ok k s r : ok_at k s -> dv_rows s !! k = Some r -> sent_elsewhere r = false -> unsent k s.
Proof.
  unfold ok_at. intros Hk Hr Hs. rewrite Hr in Hk. destruct Hk as [[_ H2 H3 _ _] _].
  assert (Hn : forall j, ch_status (channel j r) <> DelSent).
  { intros j Hj. assert (sent_elsewhere r = true) by (apply sent_elsewhere_true; eauto). congruence. }
  split.
  - destruct (deliveries k s) as [|[|n]]; [done| |lia]. destruct (H3 eq_refl) as (m & Hm). by destruct (Hn m).
  - intros r' j Hr'. rewrite Hr in Hr'. injection Hr' as <-. apply Hn.
Qed.

(** Another channel of a notice, kept in the bounds *)
Lemma notice_ok_channel k n n' r r' m :
  notice_ok k n r -> cn_id r' = cn_id r -> (forall j, j <> m -> key (channel j r') = key (channel j r)) ->
  0 <= ch_attempts (channel m r') <= MAX_DELIVERY_ATTEMPTS ->
  (ch_status (channel m r') = DelPending -> ch_attempts (channel m r') < MAX_DELIVERY_ATTEMPTS) ->
  (ch_status (channel m r') = DelSent -> forall j, ch_status (channel j r) <> DelSent) ->
  (n' <= 1)%nat -> (n' = 1%nat -> ch_status (channel m r') = DelSent \/ (n = 1%nat /\ ch_status (channel m r) <> DelSent)) ->
  notice_ok k n' r'.
Proof.
  intros [H1 H2 H3 H4 H5] E Ho A1 A2 Hs Hn Hn'. split.
  - congruence.
  - done.
  - intros En. destruct (Hn' En) as [Hm|[E1 Hm]]; [eauto|]. destruct (H3 E1) as (j & Hj). exists j.
    rewrite (key_status _ _ (Ho j ltac:(congruence))). done.
  - intros j j'. destruct (decide (j = m)) as [->|Hj], (decide (j' = m)) as [->|Hj']; [done| | |].
    + rewrite (key_status _ _ (Ho j' Hj')). intros Hm Hx. by destruct (Hs Hm j').
    + rewrite (key_status _ _ (Ho j Hj)). intros Hx Hm. by destruct (Hs Hm j).
    + rewrite (key_status _ _ (Ho j Hj)), (key_status _ _ (Ho j' Hj')). apply H4.
  - intros j. destruct (decide (j = m)) as [->|Hj]; [by split|].
    rewrite (key_status _ _ (Ho j Hj)), (key_attempts _ _ (Ho j Hj)). apply H5.
Qed.

Section OneSend.
  Context `{Messengers}.

Lemma one_send m row isOpen s r :
  ok_at (cn_id row) s -> dv_rows s !! cn_id row = Some r -> key (channel m r) = key (channel m row) ->
  is_pending m row = true -> unsent (cn_id row) s ->
  exists d s2 r2, deliver_through m row isOpen s = (Ok d, s2) /\ ok_at (cn_id row) s2 /\
    dv_rows s2 !! cn_id row = Some r2 /\ (forall j, j <> m -> key (channel j r2) = key (channel j r)) /\ same_head r r2 /\
    ch_status (channel m r2) = dr_status d /\ (dr_status d <> DelSent -> unsent (cn_id row) s2).
Proof.
  intros Hok Hr Hkey Hp [Hd Hno].
  unfold is_pending in Hp. apply (proj1 (eqb_true _ _)) in Hp.
  destruct (key (channel m row)) as [[st att] t] eqn:Ek.
  assert (st = DelPending) as -> by (unfold key in Ek; congruence).
  assert (Hm : moved m (cn_id row) r s 0 (DelPending, att, t) s) by (rewrite <- Hkey; by apply moved_refl).
  destruct (deliver_through_effect m r s row isOpen att t s Hm Ek) as (d & n & K & s2 & E & Hres & [D (r2 & E2 & Hh & Ho & EK) N]).
  exists d, s2, r2. split; [done|].
  unfold ok_at in Hok |- *. rewrite Hr in Hok. destruct Hok as [Hok Hlt]. rewrite E2, D, N, Hd. cbn [Nat.add].
  assert (Ea : ch_attempts (channel m r) = att) by (unfold key in Hkey; congruence).
  assert (Es : ch_status (channel m r) = DelPending) by (unfold key in Hkey; congruence).
  destruct (nk_tries _ _ _ Hok m) as [Ht Hp']. rewrite Ea in *. specialize (Hp' Es).
  assert (Hst : ch_status (channel m r2) = K.1.1) by (by rewrite <- EK).
  assert (Hat : ch_attempts (channel m r2) = K.1.2) by (by rewrite <- EK).
  assert (Hnn : (n <= 1)%nat /\ (n = 1%nat -> K.1.1 = DelSent)).
  { destruct Hres; cbn; try (split; [lia|done]). destruct (has_listing row); split; lia || done. }
  assert (Hdk : dr_status d = K.1.1) by (by destruct Hres).
  split_and!; [|done|done|done|done|congruence|].
  - apply (notice_ok_channel (cn_id row) (deliveries (cn_id row) s) n r r2 m Hok); [apply Hh|done| | | |apply Hnn|].
    + rewrite Hat. destruct Hres; cbn; lia.
    + rewrite Hst, Hat. destruct Hres; cbn; done || lia.
    + intros _ j. by apply Hno.
    + intros En. left. rewrite Hst. by apply Hnn.
  - intros Hds. split.
    + rewrite D, Hd. destruct Hres; cbn in *; first [lia | by destruct Hds].
    + intros r' j Hr'. rewrite E2 in Hr'. injection Hr' as <-. destruct (decide (j = m)) as [->|Hj]; [congruence|].
      rewrite (key_status _ _ (Ho j Hj)). by apply Hno.
Qed.

End OneSend.

(** ** Every handler keeps the invariant *)

Lemma only_row_ok id s s2 : notices_ok s -> (forall k, k <> id -> frame k s s2) -> ok_at id s2 -> notices_ok s2.
Proof. intros Hs Hf Hid k. destruct (decide (k = id)) as [->|Hn]; [done|]. eapply ok_at_frame; [apply Hs | by apply Hf]. Qed.

(** A pending messenger is closed without a send. *)
Lemma closed_ok id m st s r :
  ok_at id s -> dv_rows s !! id = Some r -> ch_status (channel m r) = DelPending -> st <> DelSent -> st <> DelPending ->
  ok_at id (update_row id (set_channel m (closed_as st)) s).
Proof.
  unfold ok_at. intros Hok Hr Hp Hst Hst'. rewrite Hr in Hok. destruct Hok as [Hok Hlt].
  change (dv_rows (update_row id (set_channel m (closed_as st)) s)) with (alter (set_channel m (closed_as st)) id (dv_rows s)).
  rewrite lookup_alter_eq, Hr. split; [|done]. change (deliveries id (update_row _ _ s)) with (deliveries id s).
  assert (Hk : key (channel m (set_channel m (closed_as st) r)) = (st, ch_attempts (channel m r), None)) by (by rewrite channel_set_eq).
  assert (Hks : ch_status (channel m (set_channel m (closed_as st) r)) = st) by (unfold key in Hk; congruence).
  assert (Hka : ch_attempts (channel m (set_channel m (closed_as st) r)) = ch_attempts (channel m r)) by (unfold key in Hk; congruence).
  apply (notice_ok_channel id (deliveries id s) (deliveries id s) r _ m Hok).
  - by destruct (same_head_set m (closed_as st) r) as (E & _).
  - intros j Hj. by rewrite channel_set_ne.
  - rewrite Hka. apply (nk_tries _ _ _ Hok).
  - rewrite Hks. done.
  - rewrite Hks. done.
  - apply (nk_once _ _ _ Hok).
  - intros En. right. split; [done | congruence].
Qed.

(** Where the loop over the messengers [ms] is, with the notice read as [row] *)
Definition going (row : CargoNotification) (ms : list Messenger) (taken : bool) (s : delivery_state) : Prop :=
  ok_at (cn_id row) s /\ (exists r, dv_rows s !! cn_id row = Some r /\ forall j, j ∈ ms -> key (channel j r) = key (channel j row)) /\
  (taken = false -> unsent (cn_id row) s).

Lemma quiet_sent r r' : quiet r r' -> sent_elsewhere r' = sent_elsewhere r.
Proof.
  intros Hq. unfold sent_elsewhere, is_sent. generalize MESSENGER_ORDER. intros l.
  induction l as [|m l IH]; [done|]. unfold some_b in *. cbn [existsb]. by rewrite IH, (quiet_status r r' m Hq).
Qed.

Lemma going_quiet row r s ms : notices_ok s -> dv_rows s !! cn_id row = Some r -> quiet row r -> going row ms (sent_elsewhere row) s.
Proof.
  intros Hs Hr Hq. split; [apply Hs|]. split.
  - exists r. split; [done|]. intros j _. apply Hq.
  - intros Hse. eapply unsent_ok; [apply Hs | exact Hr | by rewrite (quiet_sent _ _ Hq)].
Qed.

Section Loop.
  Context `{Messengers}.

Lemma going_skip row m ms s :
  going row (m :: ms) true s -> NoDup (m :: ms) -> is_pending m row = true ->
  going row ms true (update_row (cn_id row) (set_channel m (closed_as DelSkipped)) s).
Proof.
  intros (Hok & (r & Hr & Hk) & _) [Hm _]%NoDup_cons Hp. unfold is_pending in Hp. apply (proj1 (eqb_true _ _)) in Hp.
  assert (Hst : ch_status (channel m r) = DelPending) by (rewrite (key_status _ _ (Hk m ltac:(set_solver))); done).
  split; [by eapply closed_ok|]. split; [|done]. exists (set_channel m (closed_as DelSkipped) r). split.
  - change (alter (set_channel m (closed_as DelSkipped)) (cn_id row) (dv_rows s) !! cn_id row = Some (set_channel m (closed_as DelSkipped) r)).
    by rewrite lookup_alter_eq, Hr.
  - intros j Hj. rewrite channel_set_ne by set_solver. apply Hk. set_solver.
Qed.

Lemma going_less row m ms taken s : going row (m :: ms) taken s -> going row ms taken s.
Proof. intros (Hok & (r & Hr & Hk) & Hu). split; [done|]. split; [|done]. exists r. split; [done|]. intros j Hj. apply Hk. set_solver. Qed.

Lemma going_taken row ms s : going row ms false s -> going row ms true s.
Proof. intros (? & ? & _). by split_and!. Qed.

Lemma through_one_ok ms row isOpen ready : forall taken s,
  going row ms taken s -> NoDup ms -> ok_at (cn_id row) (final (through_one ms row isOpen ready taken) s).
Proof.
  induction ms as [|m ms IH]; intros taken s Hg Hnd; cbn [through_one]; [apply Hg|].
  pose proof Hnd as [Hm Hnd']%NoDup_cons. destruct taken.
  - unfold final. rewrite run_bind. unfold when. destruct (is_pending m row) eqn:Ep.
    + unfold updateDelivery, modify. cbv beta iota. apply IH; [by apply going_skip | done].
    + rewrite run_ret. apply IH; [by eapply going_less | done].
  - destruct (is_pending m row) eqn:Ep; cbn [negb].
    + destruct (ready m); cbn [negb]; [|apply IH; [by eapply going_taken, going_less | done]].
      destruct Hg as (Hok & (r & Hr & Hk) & Hu). unfold final. rewrite run_bind.
      destruct (one_send m row isOpen s r Hok Hr (Hk m ltac:(set_solver)) Ep (Hu eq_refl))
        as (d & s2 & r2 & E & Hok2 & Hr2 & Ho & _ & _ & Hns).
      rewrite E. apply IH; [|done]. split; [done|]. split.
      * exists r2. split; [done|]. intros j Hj. rewrite Ho by set_solver. apply Hk. set_solver.
      * intros [Hs _]%orb_false_iff. apply Hns. by apply (proj1 (eqb_false _ _)) in Hs.
    + assert (Hs : is_sent m row = false).
      { destruct Hg as (Hok & (r & Hr & Hk) & Hu). unfold is_sent. apply eqb_false. rewrite <- (key_status _ _ (Hk m ltac:(set_solver))).
        by apply (proj2 (Hu eq_refl)). }
      rewrite Hs. apply IH; [by eapply going_less | done].
Qed.

(** A pass starts at the first messenger still pending. *)
Lemma through_one_first ms row isOpen ready m s :
  (forall j, j ∈ ms -> is_sent j row = false) -> next_pending ms row = Some m -> ready m = true ->
  exists ms1 ms2, ms = ms1 ++ m :: ms2 /\ (forall j, j ∈ ms1 -> is_pending j row = false) /\ through_one ms row isOpen ready false s =
    (result ← deliver_through m row isOpen;
     through_one ms2 row isOpen ready (eqb (dr_status result) DelSent || eqb (dr_status result) DelPending)) s.
Proof.
  induction ms as [|j ms IH]; intros Hs Hn Hr; [done|]. cbn [next_pending List.find] in Hn. unfold next_pending in *. cbn [List.find] in Hn.
  destruct (is_pending j row) eqn:Ep.
  - injection Hn as ->. exists [], ms. split; [done|]. split; [intros j Hj; by apply not_elem_of_nil in Hj|]. cbn [through_one]. by rewrite Ep, Hr.
  - destruct (IH ltac:(intros i Hi; apply Hs; set_solver) Hn Hr) as (ms1 & ms2 & -> & Hb & E).
    exists (j :: ms1), ms2. split; [done|]. split; [intros i [->|Hi]%elem_of_cons; [done | by apply Hb]|]. cbn [through_one app]. rewrite Ep. cbn [negb]. rewrite (Hs j ltac:(set_solver)). exact E.
Qed.

Lemma deliverThroughOne_ok row isOpen ready s r :
  notices_ok s -> dv_rows s !! cn_id row = Some r -> quiet row r -> notices_ok (final (deliverThroughOne row isOpen ready) s).
Proof.
  intros Hs Hr Hq. apply (only_row_ok (cn_id row) s); [done| |].
  - intros k Hk. by apply (through_one_frame k s), frame_refl.
  - apply through_one_ok; [by eapply going_quiet|]. unfold MESSENGER_ORDER. repeat constructor; set_solver.
Qed.

(** Every notice of [rows] is still as it was read. *)
Definition as_read (rows : list Loaded) (s : delivery_state) : Prop :=
  forall x, x ∈ rows -> exists r, dv_rows s !! cn_id (lo_row x) = Some r /\ quiet (lo_row x) r.

Lemma as_read_frame rows s s2 :
  as_read rows s -> (forall x, x ∈ rows -> frame (cn_id (lo_row x)) s s2) -> as_read rows s2.
Proof.
  intros Hr Hf x Hx. destruct (Hr x Hx) as (r & E & Q). destruct (Hf x Hx) as [_ R _]. rewrite E in R.
  destruct R as (r' & E' & Q'). exists r'. split; [done | by eapply quiet_trans].
Qed.

Definition distinct (rows : list Loaded) : Prop := NoDup (map (fun x => cn_id (lo_row x)) rows).

(** One notice after the other, each as it was read *)
Lemma each_ok (f : Loaded -> DM unit) rows : forall s,
  (forall x s r, notices_ok s -> dv_rows s !! cn_id (lo_row x) = Some r -> quiet (lo_row x) r -> notices_ok (final (f x) s)) ->
  (forall x k s, k <> cn_id (lo_row x) -> frame k s (final (f x) s)) ->
  distinct rows -> notices_ok s -> as_read rows s -> notices_ok (final (for_each rows f) s).
Proof.
  intros s Hok Hfr. revert s. induction rows as [|x rows IH]; intros s Hd Hs Hr; cbn [for_each]; [done|].
  pose proof Hd as [Hx Hd']%NoDup_cons. unfold final. rewrite run_bind.
  destruct (Hr x ltac:(set_solver)) as (r & E & Q). pose proof (Hok x s r Hs E Q) as H1.
  assert (Hf : forall k, k <> cn_id (lo_row x) -> frame k s (final (f x) s)) by (intros k; apply Hfr).
  unfold final in H1, Hf. destruct (f x s) as [[u|e] s2]; [|exact H1].
  apply IH; [done|exact H1|]. apply (as_read_frame rows s); [intros y Hy; apply Hr; set_solver|].
  intros y Hy. apply Hf. intros Ey. apply Hx. rewrite <- Ey. apply list_elem_of_fmap. by exists y.
Qed.

End Loop.

(** *** Reads *)

Lemma notices_keyed s k r : notices_ok s -> dv_rows s !! k = Some r -> cn_id r = k /\ (k < dv_nextId s)%N.
Proof. intros Hs Hr. specialize (Hs k). unfold ok_at in Hs. rewrite Hr in Hs. destruct Hs as [Hs Hl]. split; [by apply Hs | done]. Qed.

Lemma find_rows_distinct s f : notices_ok s -> NoDup (map cn_id (find_rows f (dv_rows s))).
Proof.
  intros Hs. unfold find_rows, rows.
  assert (Hk : forall k r, (k, r) ∈ map_to_list (dv_rows s) -> cn_id r = k)
    by (intros k r Hin%elem_of_map_to_list; by apply (notices_keyed s)).
  pose proof (NoDup_fst_map_to_list (dv_rows s)) as Hnd.
  induction (map_to_list (dv_rows s)) as [|[k r] l IH]; [constructor|].
  cbn [fmap list_fmap fst snd] in *. apply NoDup_cons in Hnd as [Hn Hnd]. rewrite filter_cons.
  assert (IH' : NoDup (map cn_id (filter (λ v, f v = true) l.*2))) by (apply IH; [set_solver | done]).
  case_decide; [|done]. cbn. constructor; [|done]. intros Hin. apply list_elem_of_fmap in Hin as (r' & E & Hr').
  apply list_elem_of_filter in Hr' as [_ Hr']. apply list_elem_of_fmap in Hr' as ([k' r''] & -> & Hr'). cbn in E.
  apply Hn. apply list_elem_of_fmap. exists (k', r''). split; [|done]. cbn. rewrite <- (Hk k' r''), <- (Hk k r); [done|set_solver|set_solver].
Qed.

Lemma loaded_distinct s l : NoDup (map cn_id l) -> distinct (map (load s) l).
Proof. unfold distinct. intros Hl. rewrite map_map. exact Hl. Qed.

Lemma by_creation_distinct l : NoDup (map cn_id l) -> NoDup (map cn_id (by_creation l)).
Proof. unfold by_creation. intros Hl. by rewrite (fmap_Permutation cn_id _ _ (merge_sort_Permutation _ l)). Qed.

Lemma found_as_read s s0 l : notices_ok s -> (forall r, r ∈ l -> exists k, dv_rows s !! k = Some r) -> as_read (map (load s0) l) s.
Proof.
  intros Hs Hl x Hx. apply list_elem_of_fmap in Hx as (r & -> & Hr). destruct (Hl r Hr) as (k & Hk). cbn.
  destruct (notices_keyed s k r Hs Hk) as [-> _]. exists r. split; [done | apply quiet_refl].
Qed.

(** *** Writes to every row *)

Lemma channel_on_channels j f r : channel j (on_channels f r) = f (channel j r).
Proof. by destruct j. Qed.

Lemma head_on_channels f r : same_head r (on_channels f r).
Proof. done. Qed.

Lemma rows_ok s g :
  (forall k n r, notice_ok k n r -> notice_ok k n (g r)) -> notices_ok s -> notices_ok (s <| dv_rows := g <$> dv_rows s |>).
Proof.
  intros Hg Hs k. specialize (Hs k). unfold ok_at in *.
  change (dv_rows (s <| dv_rows := g <$> dv_rows s |>)) with (g <$> dv_rows s). rewrite lookup_fmap.
  change (deliveries k (s <| dv_rows := g <$> dv_rows s |>)) with (deliveries k s).
  destruct (dv_rows s !! k) as [r|]; [|done]. destruct Hs as [Hs Hl]. split; [by apply Hg | done].
Qed.

Lemma on_channels_ok f k n r :
  (forall c, ch_attempts (f c) = ch_attempts c) -> (forall c, ch_status (f c) = DelSent <-> ch_status c = DelSent) ->
  (forall c, ch_status (f c) = DelPending -> ch_status c = DelPending) ->
  notice_ok k n r -> notice_ok k n (on_channels f r).
Proof.
  intros Ha Hs Hp [H1 H2 H3 H4 H5]. split.
  - by rewrite (proj1 (head_on_channels f r)).
  - done.
  - intros Hn. destruct (H3 Hn) as (m & Hm). exists m. rewrite channel_on_channels. by apply Hs.
  - intros m m'. rewrite !channel_on_channels, !Hs. apply H4.
  - intros m. rewrite channel_on_channels, Ha. destruct (H5 m) as [Hm Hm']. split; [done|]. intros Hq. by apply Hm', Hp.
Qed.

Lemma scheduleRetry_ok ids t : preserves notices_ok (scheduleRetry ids t).
Proof.
  apply preserves_modify. intros s. apply rows_ok. intros k n r Hr. case_bool_decide; [|done].
  by apply on_channels_ok.
Qed.

Lemma failExpiredPending_ok t : preserves notices_ok (failExpiredPending t).
Proof.
  apply preserves_modify. intros s. apply rows_ok. intros k n r Hr. destruct (_ <? _); [|done].
  apply on_channels_ok; [| | |done]; intros c; unfold expired_channel; destruct (eqb (ch_status c) DelPending) eqn:Ec; try done.
  apply (proj1 (eqb_true _ _)) in Ec. rewrite Ec. by split.
Qed.

Lemma markRead_ok u i : preserves notices_ok (markRead u i).
Proof.
  apply preserves_modify. intros s. apply rows_ok. intros k n r Hr. destruct (_ && _); [|done].
  by apply (notice_ok_quiet k n r).
Qed.

Lemma deleteFinished_ok t u : preserves notices_ok (deleteFinished t u).
Proof.
  apply preserves_modify. intros s Hs k. pose proof (Hs k) as Hk. unfold ok_at in *. cbv beta.
  set (s' := s <| dv_rows := _ |>). change (deliveries k s') with (deliveries k s). change (dv_nextId s') with (dv_nextId s).
  subst s'. cbn. destruct (base.filter _ (dv_rows s) !! k) as [r|] eqn:E.
  - apply map_lookup_filter_Some in E as [E _]. by rewrite E in Hk.
  - destruct (dv_rows s !! k) as [r|]; [|done]. destruct Hk as [Hk Hl]. split; [apply Hk | lia].
Qed.

(** *** New notices *)

Definition untried (r : CargoNotification) : Prop :=
  forall m, ch_attempts (channel m r) = 0 /\ ch_status (channel m r) <> DelSent.

Lemma insert_notice_ok r s : untried r -> notices_ok s -> notices_ok (insert_notice r s).
Proof.
  intros Hr Hs k. pose proof (Hs k) as Hk. unfold ok_at in *.
  change (dv_rows (insert_notice r s)) with (<[dv_nextId s := r <| cn_id := dv_nextId s |> <| cn_createdAt := dv_now s |>]> (dv_rows s)).
  change (deliveries k (insert_notice r s)) with (deliveries k s). change (dv_nextId (insert_notice r s)) with (N.succ (dv_nextId s)).
  rewrite lookup_insert. case_decide as Hn.
  - subst k. assert (E : dv_rows s !! dv_nextId s = None).
    { destruct (dv_rows s !! dv_nextId s) as [r'|] eqn:E; [|done]. destruct (notices_keyed s _ _ Hs E) as [_ Hl]. lia. }
    rewrite E in Hk. destruct Hk as [_ Hz]. rewrite (Hz ltac:(lia)). split; [|lia].
    set (r' := r <| cn_id := dv_nextId s |> <| cn_createdAt := dv_now s |>).
    assert (Hc : forall m, channel m r' = channel m r) by (intros []; done).
    split; [done|lia|lia| |].
    + intros m m'. rewrite !Hc. by destruct (Hr m).
    + intros m. rewrite Hc. destruct (Hr m) as [-> _]. unfold MAX_DELIVERY_ATTEMPTS. lia.
  - destruct (dv_rows s !! k) as [r'|]; [destruct Hk as [Hk Hl]; split; [done|lia] | destruct Hk as [Hk Hz]; split; [done|intros; apply Hz; lia]].
Qed.

Lemma insertIgnoringDuplicates_ok l : Forall untried l -> preserves notices_ok (insertIgnoringDuplicates l).
Proof.
  induction l as [|r l IH]; intros Hl; cbn [insertIgnoringDuplicates]; [apply preserves_ret|].
  apply Forall_cons in Hl as [Hr Hl]. apply preserves_get_bind. intros s _. cbv zeta. apply preserves_if; intros _; [by apply IH|].
  apply preserves_bind; [apply preserves_modify; intros t Ht; by apply insert_notice_ok|intros _].
  apply preserves_bind; [by apply IH | intros; apply preserves_ret].
Qed.
