(* ===== verification/DeliveryInvariant.v ===== *)
(** * Every delivery keeps the notices in order

    The queued send, the summary, the edit and the sweep, one after the other, keep the
    invariant of [DeliveryFacts]; then the system in which they follow each other in any
    order. *)

From S2P Require Import Prelude JsString Effects Enums DriverProfile BrokerDriver TripFareRules BrokerAccess CargoData Redis Delivery CargoNotices DeliveryQueue DeliveryFacts.

Section Queued.
  Context `{Messengers}.

Lemma NoDup_take {A} n (l : list A) : NoDup l -> NoDup (take n l).
Proof. rewrite <- (take_drop n l) at 1. by intros [? _]%NoDup_app. Qed.

Lemma frames_ok s s2 : notices_ok s -> (forall k, frame k s s2) -> notices_ok s2.
Proof. intros Hs Hf k. eapply ok_at_frame; [apply Hs | apply Hf]. Qed.

Lemma deliver_ok row s r :
  notices_ok s -> dv_rows s !! cn_id (lo_row row) = Some r -> quiet (lo_row row) r -> notices_ok (final (deliver row) s).
Proof. intros Hs Hr Hq. unfold deliver. rewrite final_get_bind. by eapply deliverThroughOne_ok. Qed.

Lemma retryDelivery_ok row now s r :
  notices_ok s -> dv_rows s !! cn_id (lo_row row) = Some r -> quiet (lo_row row) r -> notices_ok (final (retryDelivery row now) s).
Proof. intros Hs Hr Hq. unfold retryDelivery. rewrite final_get_bind. by eapply deliverThroughOne_ok. Qed.

Lemma retryDelivery_frame x now k s : k <> cn_id (lo_row x) -> frame k s (final (retryDelivery x now) s).
Proof. intros Hk. unfold retryDelivery. rewrite final_get_bind. by apply (through_one_frame k s), frame_refl. Qed.

Lemma deliver_frame x k s : k <> cn_id (lo_row x) -> frame k s (final (deliver x) s).
Proof. intros Hk. unfold deliver. rewrite final_get_bind. by apply (through_one_frame k s), frame_refl. Qed.

(** A sweep is its closing of the old rows, then the retries. *)
Lemma tick_final s :
  final tick s = (let s1 := final (failExpiredPending (dv_now s - DELIVERY_RETRY_WINDOW_MS)) s in
                  final (for_each (findDueRetries s1 (dv_now s) (dv_now s - DELIVERY_RETRY_WINDOW_MS) 50) (fun row => retryDelivery row (dv_now s))) s1).
Proof.
  unfold tick, final. rewrite run_bind. unfold gets. cbv beta iota. unfold try_catch. rewrite run_bind. unfold sweep_due. rewrite run_bind.
  unfold failExpiredPending, modify. cbv beta iota. rewrite run_bind. unfold get. cbv beta iota. rewrite run_ret. cbv zeta. cbn [snd].
  by destruct (for_each _ _ _) as [[u|e] s2].
Qed.

Lemma retry_sweep_ok : preserves notices_ok tick.
Proof.
  intros s Hs. rewrite tick_final. cbv zeta.
  pose proof (failExpiredPending_ok (dv_now s - DELIVERY_RETRY_WINDOW_MS) s Hs) as H1. set (s1 := final (failExpiredPending _) s) in *.
  apply (each_ok (fun row => retryDelivery row (dv_now s))); [intros x t r; apply retryDelivery_ok | intros x k t; apply retryDelivery_frame | | exact H1 |].
  - apply loaded_distinct. rewrite <- firstn_map. apply NoDup_take.
    by apply by_creation_distinct, find_rows_distinct.
  - apply found_as_read; [exact H1|]. intros r Hr. apply elem_of_take in Hr as (i & Hi & _). apply list_elem_of_lookup_2 in Hi.
    unfold by_creation in Hi. rewrite merge_sort_Permutation in Hi. by apply elem_of_find_rows in Hi as [_ Hi].
Qed.

(** *** A queued send *)

Lemma holdForDigest_frame k s0 row m : preserves (frame k s0) (holdForDigest row m).
Proof.
  unfold holdForDigest, schedule. preserve. apply frame_redis. preserve; by apply frame_other.
Qed.

(** The others skipped: the notice read as [row], the rest of the list still to do *)
Lemma skip_others_ok row m ms : forall s r,
  ok_at (cn_id row) s -> dv_rows s !! cn_id row = Some r -> NoDup ms -> (forall j, j ∈ ms -> j <> m -> key (channel j r) = key (channel j row)) ->
  ok_at (cn_id row) (final (for_each ms (fun other =>
    when (negb (eqb other m) && is_pending other row) (updateDelivery (cn_id row) other (closed_as DelSkipped)))) s).
Proof.
  induction ms as [|j ms IH]; intros s r Hok Hr Hnd Hk; cbn [for_each]; [done|]. apply NoDup_cons in Hnd as [Hj Hnd].
  unfold final. rewrite run_bind. destruct (negb (eqb j m) && is_pending j row) eqn:E; cbn [when].
  - apply andb_prop in E as [Ej Ep]. apply negb_true_iff in Ej. apply (proj1 (eqb_false _ _)) in Ej.
    unfold is_pending in Ep. apply (proj1 (eqb_true _ _)) in Ep.
    assert (Hst : ch_status (channel j r) = DelPending) by (rewrite (key_status _ _ (Hk j ltac:(set_solver) Ej)); done).
    unfold updateDelivery, modify. cbv beta iota.
    apply (IH _ (set_channel j (closed_as DelSkipped) r)); [by eapply closed_ok| |done|].
    + change (alter (set_channel j (closed_as DelSkipped)) (cn_id row) (dv_rows s) !! cn_id row = Some (set_channel j (closed_as DelSkipped) r)).
      by rewrite lookup_alter_eq, Hr.
    + intros i Hi Hi'. rewrite channel_set_ne by set_solver. apply Hk; set_solver.
  - rewrite run_ret. apply (IH _ r); [done|done|done|]. intros i Hi Hi'. apply Hk; set_solver.
Qed.

Lemma skip_others_frame k s0 m row : cn_id row <> k -> preserves (frame k s0) (skip_others m row).
Proof. intros Hn. unfold skip_others. preserve. apply frame_update. by left. Qed.

Lemma NoDup_order : NoDup MESSENGER_ORDER.
Proof. unfold MESSENGER_ORDER. repeat constructor; set_solver. Qed.

Lemma send_queued_frame k s0 row m : cn_id (lo_row row) <> k -> preserves (frame k s0) (send_queued row m).
Proof.
  intros Hn. unfold send_queued. apply preserves_get_bind. intros s _. cbv zeta.
  apply preserves_bind; [by apply deliver_through_frame | intros d]. preserve; by apply skip_others_frame.
Qed.

Lemma send_queued_ok row m s r :
  notices_ok s -> dv_rows s !! cn_id (lo_row row) = Some r -> quiet (lo_row row) r -> is_pending m (lo_row row) = true ->
  sent_elsewhere (lo_row row) = false -> notices_ok (final (send_queued row m) s).
Proof.
  intros Hs Hr Hq Hp Hse. set (id := cn_id (lo_row row)) in *. apply (only_row_ok id s); [done| |].
  - intros k Hk. by apply send_queued_frame, frame_refl.
  - unfold send_queued. rewrite final_get_bind. cbv zeta. unfold final. rewrite run_bind.
    assert (Hu : unsent id s) by (eapply unsent_ok; [apply Hs | exact Hr | by rewrite (quiet_sent _ _ Hq)]).
    destruct (one_send m (lo_row row) (canDeliverListing s row) s r (Hs id) Hr (proj2 Hq m) Hp Hu)
      as (d & s2 & r2 & E & Hok2 & Hr2 & Ho & _ & _ & _).
    rewrite E. destruct (dr_status d), (dr_retryAt d); try (destruct (negb _); exact Hok2); try exact Hok2;
      rewrite run_bind;
      (pose proof (skip_others_ok (lo_row row) m MESSENGER_ORDER s2 r2 Hok2 Hr2 NoDup_order
        ltac:(intros j _ Hj; rewrite (Ho j Hj); apply Hq)) as H3; unfold final in H3; fold (skip_others m (lo_row row)) in H3;
       destruct (skip_others m (lo_row row) s2) as [[u|e] s3]; exact H3).
Qed.

Lemma deliverQueued_ok id m : preserves notices_ok (deliverQueued id m).
Proof.
  intros s Hs. unfold deliverQueued. rewrite final_get_bind. unfold findWithListing.
  destruct (dv_rows s !! id) as [row|] eqn:Er; cbn [fmap option_fmap option_map]; [|exact Hs].
  destruct (notices_keyed s id row Hs Er) as [Hid _]. unfold deliver_read. rewrite final_get_bind. change (lo_row (load s row)) with row.
  rewrite Hid. destruct (is_pending m row) eqn:Ep; cbn [negb]; [|exact Hs].
  destruct (sent_elsewhere row || is_stale (dv_now s) row) eqn:Es.
  - unfold final. rewrite run_bind. unfold updateDelivery, modify. cbv beta iota. rewrite run_ret. cbn [snd].
    apply (only_row_ok id s); [done| |].
    + intros k Hk. apply (frame_update k s id m (closed_as (if sent_elsewhere row then DelSkipped else DelFailed))); [by left | apply frame_refl].
    + unfold is_pending in Ep. apply (proj1 (eqb_true _ _)) in Ep. apply (closed_ok id m _ s row (Hs id) Er Ep); by destruct (sent_elsewhere row).
  - apply orb_false_iff in Es as [Es _].
    set (c := if is_null (cn_listingId row) then mret None else holdForDigest row m).
    assert (Hf : forall k, frame k s (final c s)).
    { intros k. subst c. destruct (is_null _); [apply frame_refl|]. apply holdForDigest_frame, frame_refl. }
    pose proof (frames_ok s _ Hs Hf) as H1. unfold final in *. rewrite run_bind. destruct (c s) as [[[o|]|e] s1]; cbn [snd] in *; [exact H1| |exact H1].
    specialize (Hf id). destruct Hf as [_ R _]. rewrite Er in R. destruct R as (r1 & E1 & Q1).
    apply (send_queued_ok (load s row) m s1 r1); [exact H1 | | exact Q1 | exact Ep | exact Es].
    change (lo_row (load s row)) with row. by rewrite Hid.
Qed.

Lemma editQueued_frame k s0 id m : preserves (frame k s0) (editQueued id m).
Proof.
  unfold editQueued, edit_message. preserve; apply frame_call; by destruct (Nat.ltb _ _).
Qed.

Lemma editQueued_ok id m : preserves notices_ok (editQueued id m).
Proof. intros s Hs. apply (frames_ok s); [done|]. intros k. apply editQueued_frame, frame_refl. Qed.

End Queued.

(** *** A summary *)

Section Summary.
  Context `{Messengers}.

Lemma take_held_frame k s0 u m : preserves (frame k s0) (take_held u m).
Proof. unfold take_held. apply frame_redis. preserve. by apply frame_other. Qed.

(** What [open_rows] leaves: notices as read, pending there and sent nowhere *)
Definition can_go (m : Messenger) (rows : list Loaded) : Prop :=
  forall x, x ∈ rows -> is_pending m (lo_row x) = true /\ sent_elsewhere (lo_row x) = false.

Lemma closed_frame k s id m st : id <> k -> frame k s (update_row id (set_channel m (closed_as st)) s).
Proof. intros Hn. apply (frame_update k s id m (closed_as st)); [by left | apply frame_refl]. Qed.

Lemma close_read_ok x m st s :
  notices_ok s -> (exists r, dv_rows s !! cn_id (lo_row x) = Some r /\ quiet (lo_row x) r) -> is_pending m (lo_row x) = true ->
  st <> DelSent -> st <> DelPending -> notices_ok (update_row (cn_id (lo_row x)) (set_channel m (closed_as st)) s).
Proof.
  intros Hs (r & Hr & Hq) Hp H1 H2. apply (only_row_ok (cn_id (lo_row x)) s); [done | |].
  - intros k Hk. by apply closed_frame.
  - eapply closed_ok; [apply Hs | exact Hr | | done | done].
    rewrite (quiet_status _ _ m Hq). unfold is_pending in Hp. by apply (proj1 (eqb_true _ _)) in Hp.
Qed.

Lemma distinct_cons x rows : distinct (x :: rows) -> (forall y, y ∈ rows -> cn_id (lo_row y) <> cn_id (lo_row x)) /\ distinct rows.
Proof.
  unfold distinct. cbn [map]. intros [Hn Hd]%NoDup_cons. split; [|done]. intros y Hy E. apply Hn.
  apply list_elem_of_fmap. exists y. split; [done | done].
Qed.

Lemma open_rows_frame k s0 m rows : (forall y, y ∈ rows -> cn_id (lo_row y) <> k) -> preserves (frame k s0) (open_rows rows m).
Proof.
  induction rows as [|x rows IH]; intros Hn; cbn [open_rows]; [apply preserves_ret|].
  assert (IH' : preserves (frame k s0) (open_rows rows m)) by (apply IH; set_solver).
  preserve. apply frame_update. left. apply Hn. set_solver.
Qed.

Record opened (m : Messenger) (rows rest : list Loaded) (s : delivery_state) : Prop := mkOpened {
  op_ok : notices_ok s;
  op_read : as_read rest s;
  op_distinct : distinct rest;
  op_of : rest ⊆ rows;
  op_go : can_go m rest;
}.

Lemma opened_more m x rows rest s : opened m rows rest s -> opened m (x :: rows) rest s.
Proof. intros [H1 H2 H3 H4 H5]. split; [done|done|done|set_solver|done]. Qed.

Lemma open_rows_ok m rows : forall s, distinct rows -> notices_ok s -> as_read rows s ->
  exists rest s2, open_rows rows m s = (Ok rest, s2) /\ opened m rows rest s2.
Proof.
  induction rows as [|x rows IH]; intros s Hd Hs Hr; cbn [open_rows].
  - exists [], s. split; [done|]. split; [done| |constructor|done|]; intros y Hy; by apply not_elem_of_nil in Hy.
  - apply distinct_cons in Hd as [Hx Hd]. rewrite run_bind. unfold get at 1. cbv beta iota.
    assert (Hr' : as_read rows s) by (intros y Hy; apply Hr; set_solver).
    destruct (is_pending m (lo_row x)) eqn:Ep; cbn [negb].
    2:{ destruct (IH s Hd Hs Hr') as (rest & s2 & E & H1). exists rest, s2. split; [done | by apply opened_more]. }
    cbv zeta. destruct (sent_elsewhere (lo_row x) || is_stale (dv_now s) (lo_row x) || negb (canDeliverListing s x)) eqn:Es.
    + rewrite run_bind. unfold updateDelivery at 1, modify at 1. cbv beta iota.
      match goal with |- context [open_rows rows m ?s'] => set (s1 := s') end.
      assert (H1 : notices_ok s1) by (apply close_read_ok; [done | apply Hr; set_solver | done | by destruct (is_stale _ _) | by destruct (is_stale _ _)]).
      assert (Hr1 : as_read rows s1) by (apply (as_read_frame rows s); [done | intros y Hy; by apply closed_frame, not_eq_sym, Hx]).
      destruct (IH s1 Hd H1 Hr1) as (rest & s2 & E & G). exists rest, s2. split; [done | by apply opened_more].
    + rewrite run_bind. destruct (IH s Hd Hs Hr') as (rest & s2 & E & [H1 H2 H3 H4 H5]).
      assert (Hf : frame (cn_id (lo_row x)) s s2).
      { pose proof (open_rows_frame (cn_id (lo_row x)) s m rows Hx s (frame_refl _ s)) as Hf. unfold final in Hf. by rewrite E in Hf. }
      rewrite E. exists (x :: rest), s2. split; [done|]. split; [done| | |set_solver|].
      * intros y [->|Hy]%elem_of_cons; [|by apply H2]. assert (Hrx : as_read [x] s) by (intros y Hy; apply Hr; set_solver).
        apply (as_read_frame [x] s s2 Hrx); [intros y Hy; by replace y with x by set_solver | set_solver].
      * unfold distinct. cbn [map]. constructor; [|done]. intros Hin. apply list_elem_of_fmap in Hin as (y & Ey & Hy).
        by apply (Hx y (H4 y Hy)).
      * intros y [->|Hy]%elem_of_cons; [|by apply H5]. apply orb_false_iff in Es as [[Es _]%orb_false_iff _]. done.
Qed.

(** *** Handing on *)

Lemma hand_on_ok m st rows : forall s, distinct rows -> notices_ok s -> as_read rows s -> can_go m rows -> st <> DelSent -> st <> DelPending ->
  notices_ok (final (hand_on (map lo_row rows) m st) s).
Proof.
  induction rows as [|x rows IH]; intros s Hd Hs Hr Hg H1 H2; cbn [map hand_on]; [done|].
  apply distinct_cons in Hd as [Hx Hd]. unfold final. rewrite run_bind. unfold updateDelivery, modify. cbv beta iota.
  match goal with |- context [hand_on (map lo_row rows) m st ≫= ?k] => set (k0 := k) end.
  set (s1 := update_row _ _ s).
  assert (Hs1 : notices_ok s1) by (apply close_read_ok; [done | apply Hr; set_solver | apply Hg; set_solver | done | done]).
  assert (Hr1 : as_read rows s1).
  { apply (as_read_frame rows s); [intros y Hy; apply Hr; set_solver | intros y Hy; by apply closed_frame, not_eq_sym, Hx]. }
  specialize (IH s1 Hd Hs1 Hr1 ltac:(intros y Hy; apply Hg; set_solver) H1 H2). unfold final in IH. rewrite run_bind.
  by destruct (hand_on (map lo_row rows) m st s1) as [[l|e] s2].
Qed.

Lemma handOn_ok m st rows s : distinct rows -> notices_ok s -> as_read rows s -> can_go m rows -> st <> DelSent -> st <> DelPending ->
  notices_ok (final (handOn (map lo_row rows) m st) s).
Proof.
  intros Hd Hs Hr Hg H1 H2. pose proof (hand_on_ok m st rows s Hd Hs Hr Hg H1 H2) as H3. unfold handOn, final in *. rewrite run_bind.
  by destruct (hand_on (map lo_row rows) m st s) as [[l|e] s2].
Qed.

(** *** The summary sent *)

(** Sent with a message, and no messenger says so yet *)
Definition unmarked (k : uuid) (s : delivery_state) : Prop :=
  exists r, dv_rows s !! k = Some r /\ notice_ok k 0 r /\ deliveries k s = 1%nat /\ (k < dv_nextId s)%N /\
    forall j, ch_status (channel j r) <> DelSent.

(** The notices of [rows] are sent and still to be marked, the others are in order. *)
Record marking (rows : list Loaded) (s : delivery_state) : Prop := mkMarking {
  mk_todo : forall x, x ∈ rows -> unmarked (cn_id (lo_row x)) s;
  mk_others : forall k, (forall x, x ∈ rows -> cn_id (lo_row x) <> k) -> ok_at k s;
  mk_read : as_read rows s;
}.

Lemma unmarked_frame k s s2 : unmarked k s -> frame k s s2 -> unmarked k s2.
Proof.
  intros (r & Hr & Hok & Hd & Hl & Hn) [D R N]. rewrite Hr in R. destruct R as (r' & E & Q).
  exists r'. split_and!; [done | by eapply notice_ok_quiet | congruence | congruence |].
  intros j. rewrite (quiet_status _ _ j Q). apply Hn.
Qed.

Lemma frame_same k s s2 :
  dv_calls s2 = dv_calls s -> dv_rows s2 = dv_rows s -> dv_nextId s2 = dv_nextId s -> frame k s s2.
Proof.
  intros E1 E2 E3. destruct (frame_refl k s) as [_ R _]. split; [unfold deliveries; by rewrite E1 | by rewrite E2 | done].
Qed.

Definition summary_message (m : Messenger) (chatId messageId : text) (sentAt : option time) (x : Loaded) : DM unit :=
  updateDelivery (cn_id (lo_row x)) m (in_summary chatId messageId sentAt) ;;
  skip_others m (lo_row x).

Lemma summary_message_frame k s0 m c msg t x : cn_id (lo_row x) <> k -> preserves (frame k s0) (summary_message m c msg t x).
Proof.
  intros Hn. unfold summary_message. apply preserves_bind; [apply frame_update; by left | intros _; by apply skip_others_frame].
Qed.

Lemma mark_ok m c msg t x s :
  unmarked (cn_id (lo_row x)) s -> as_read [x] s -> is_pending m (lo_row x) = true ->
  ok_at (cn_id (lo_row x)) (final (summary_message m c msg t x) s).
Proof.
  intros (r & Hr & Hok & Hd & Hl & Hn) Hrd Hp. destruct (Hrd x ltac:(set_solver)) as (r' & Hr' & Hq).
  rewrite Hr in Hr'. injection Hr' as <-. unfold summary_message, final. rewrite run_bind. unfold updateDelivery at 1, modify at 1. cbv beta iota.
  set (id := cn_id (lo_row x)) in *. set (f := in_summary c msg t). set (s1 := update_row id (set_channel m f) s).
  assert (Hr1 : dv_rows s1 !! id = Some (set_channel m f r)).
  { change (alter (set_channel m f) id (dv_rows s) !! id = Some (set_channel m f r)). by rewrite lookup_alter_eq, Hr. }
  assert (Hk : key (channel m (set_channel m f r)) = (DelSent, ch_attempts (channel m r), None)) by (by rewrite channel_set_eq).
  assert (Hks : ch_status (channel m (set_channel m f r)) = DelSent) by (unfold key in Hk; congruence).
  assert (Hka : ch_attempts (channel m (set_channel m f r)) = ch_attempts (channel m r)) by (unfold key in Hk; congruence).
  assert (Hok1 : ok_at id s1).
  { unfold ok_at. rewrite Hr1. change (deliveries id s1) with (deliveries id s). split; [|done]. rewrite Hd.
    apply (notice_ok_channel id 0 1 r _ m Hok); [by destruct (same_head_set m f r) as (E & _)| | | | |lia|].
    - intros j Hj. by rewrite channel_set_ne.
    - rewrite Hka. apply (nk_tries _ _ _ Hok).
    - by rewrite Hks.
    - intros _. apply Hn.
    - intros _. by left. }
  apply (skip_others_ok (lo_row x) m MESSENGER_ORDER s1 (set_channel m f r) Hok1 Hr1 NoDup_order).
  intros j _ Hj. rewrite channel_set_ne by done. apply Hq.
Qed.

Lemma mark_all_ok m c msg t rows : forall s, distinct rows -> can_go m rows -> marking rows s ->
  exists s2, for_each rows (summary_message m c msg t) s = (Ok tt, s2) /\ notices_ok s2.
Proof.
  induction rows as [|x rows IH]; intros s Hd Hg [H1 H2 H3]; cbn [for_each].
  - exists s. split; [done|]. intros k. apply H2. intros x Hx. by apply not_elem_of_nil in Hx.
  - apply distinct_cons in Hd as [Hx Hd]. rewrite run_bind.
    assert (E : exists s1, summary_message m c msg t x s = (Ok tt, s1)).
    { unfold summary_message. rewrite run_bind. unfold updateDelivery at 1, modify at 1. cbv beta iota. unfold skip_others. generalize MESSENGER_ORDER.
      intros l. generalize (update_row (cn_id (lo_row x)) (set_channel m (in_summary c msg t)) s). induction l as [|j l IHl]; intros s1; cbn [for_each]; [by eexists|].
      rewrite run_bind. destruct (negb (eqb j m) && is_pending j (lo_row x)); cbn [when]; [unfold updateDelivery, modify; cbv beta iota | rewrite run_ret]; apply IHl. }
    destruct E as [s1 E]. rewrite E.
    assert (Hf : forall k, k <> cn_id (lo_row x) -> frame k s s1).
    { intros k Hk. pose proof (summary_message_frame k s m c msg t x ltac:(done) s (frame_refl k s)) as Hf. unfold final in Hf. by rewrite E in Hf. }
    assert (Hok : ok_at (cn_id (lo_row x)) s1).
    { pose proof (mark_ok m c msg t x s (H1 x ltac:(set_solver)) ltac:(intros y Hy; apply H3; set_solver) (proj1 (Hg x ltac:(set_solver)))) as Hok.
      unfold final in Hok. by rewrite E in Hok. }
    apply IH; [done | intros y Hy; apply Hg; set_solver |]. split.
    + intros y Hy. eapply unmarked_frame; [apply H1; set_solver | by apply Hf, Hx].
    + intros k Hk. destruct (decide (k = cn_id (lo_row x))) as [->|Hn]; [done|].
      eapply ok_at_frame; [apply H2 | by apply Hf]. intros y [->|Hy]%elem_of_cons; [done | by apply Hk].
    + apply (as_read_frame rows s); [intros y Hy; apply H3; set_solver | intros y Hy; by apply Hf, Hx].
Qed.

Lemma mentions_summary k m chat rows :
  mentions k (SendSummary m chat (map digestItem rows)) = true <-> exists x, x ∈ rows /\ cn_id (lo_row x) = k.
Proof.
  cbn [mentions]. rewrite some_b_true. split.
  - intros (i & Hi & E). apply list_elem_of_fmap in Hi as (x & -> & Hx). apply N.eqb_eq in E. eauto.
  - intros (x & Hx & E). exists (digestItem x). split; [by apply list_elem_of_fmap_2 | by apply N.eqb_eq].
Qed.

(** A summary is refused and nothing changed, or every notice of it is sent. *)
Lemma send_summary_ok u m rows chat s o s2 :
  distinct rows -> notices_ok s -> as_read rows s -> can_go m rows -> send_summary u m rows chat s = (o, s2) ->
  (exists e, o = Err e /\ forall k, frame k s s2) \/ (notices_ok s2 /\ (o = Ok Done \/ o = Err REDIS_DOWN)).
Proof.
  intros Hd Hs Hr Hg. unfold send_summary. rewrite run_bind. unfold call. rewrite run_bind. unfold get. cbv beta iota zeta. rewrite run_bind.
  unfold modify at 1. cbv beta iota. unfold of_outcome.
  set (c := SendSummary m chat (map digestItem rows)). set (a := answer _ _). set (s1 := s <| dv_calls := _ |>).
  destruct a as [msg|e] eqn:Ea.
  - assert (Hdl : forall k, deliveries k s1 = (deliveries k s + (if mentions k c then 1 else 0))%nat).
    { intros k. exact (deliveries_call k s c true s1 eq_refl). }
    assert (Hm : marking rows s1).
    { split; [| |exact Hr].
      - intros x Hx. destruct (Hr x Hx) as (r & E & Q). destruct (Hg x Hx) as [Hp Hse].
        assert (Hu : unsent (cn_id (lo_row x)) s) by (eapply unsent_ok; [apply Hs | exact E | by rewrite (quiet_sent _ _ Q)]).
        specialize (Hs (cn_id (lo_row x))). unfold ok_at in Hs. rewrite E in Hs. destruct Hs as [Hok Hl]. destruct Hu as [Hz Hn].
        exists r. split; [exact E|]. split; [by rewrite Hz in Hok|]. split; [|split; [exact Hl | intros j; by apply Hn]].
        rewrite Hdl, Hz. by rewrite (proj2 (mentions_summary _ m chat rows)) by eauto.
      - intros k Hk. assert (Hmk : mentions k c = false).
        { destruct (mentions k c) eqn:E; [|done]. apply mentions_summary in E as (x & Hx & E). by destruct (Hk x Hx). }
        pose proof (Hs k) as Hk'. unfold ok_at in *. change (dv_rows s1) with (dv_rows s). change (dv_nextId s1) with (dv_nextId s).
        by rewrite Hdl, Hmk, Nat.add_0_r. }
    rewrite run_bind. cbv beta iota. rewrite run_bind.
    destruct (mark_all_ok m chat msg (if eqb m Whatsapp then Some (dv_now s1) else None) rows s1 Hd Hg Hm) as (s3 & E3 & H3).
    unfold summary_message in E3. rewrite E3. rewrite run_bind. intros E. right. revert E.
    destruct (negb (dv_digestWindow s1 =? 0)); cbn [when]; [|rewrite !run_ret; intros [= <- <-]; eauto].
    unfold redis. rewrite run_bind. unfold get. cbv beta iota. rewrite run_bind. unfold ensure. destruct (dv_redisUp s3).
    + rewrite run_ret. unfold modify. cbv beta iota. rewrite run_ret. intros [= <- <-]. split; [|by left].
      apply (frames_ok s3); [exact H3|]. intros k. by apply frame_same.
    + intros [= <- <-]. split; [exact H3 | by right].
  - intros [= <- <-]. left. exists e. split; [done|]. intros k. split; [|destruct (dv_rows s !! k) as [r|] eqn:E; [exists r; split; [done|apply quiet_refl] | done] | done].
    rewrite (deliveries_call k s c false s1 eq_refl). cbn. lia.
Qed.

Lemma hold_again_frame k s0 u m rows w : preserves (frame k s0) (hold_again u m rows w).
Proof.
  unfold hold_again. apply preserves_bind; [apply preserves_for_each; intros x _; apply frame_redis; by apply frame_other|intros _].
  apply preserves_bind; [apply frame_redis; unfold schedule; preserve; by apply frame_other | intros _]. preserve.
Qed.

Lemma held_rows_read s ids : notices_ok s -> distinct (findManyWithListing s ids) /\ as_read (findManyWithListing s ids) s.
Proof.
  intros Hs. unfold findManyWithListing. split.
  - by apply loaded_distinct, by_creation_distinct, find_rows_distinct.
  - apply found_as_read; [done|]. intros r Hr. unfold by_creation in Hr. rewrite merge_sort_Permutation in Hr.
    by apply elem_of_find_rows in Hr as [_ Hr].
Qed.

Lemma deliverDigest_ok u m : preserves notices_ok (deliverDigest u m).
Proof.
  intros s Hs. unfold deliverDigest, final. rewrite run_bind.
  assert (Hf : forall k, frame k s (final (take_held u m) s)) by (intros k; apply take_held_frame, frame_refl).
  pose proof (frames_ok s _ Hs Hf) as H1. unfold final in H1. destruct (take_held u m s) as [[ids|e] s1]; [|exact H1]. cbn [snd] in H1.
  rewrite run_bind. unfold get. cbv beta iota. destruct (held_rows_read s1 ids H1) as [Hd Hr].
  destruct (open_rows_ok m _ s1 Hd H1 Hr) as (rest & s2 & E & [H2 H3 H4 _ H6]). rewrite run_bind, E.
  destruct rest as [|x [|y rest]]; [exact H2|exact H2|].
  destruct (address s1 u m) as [chat|]; [|by apply (handOn_ok m DelSkipped (x :: y :: rest) s2)].
  unfold try_catch. destruct (send_summary u m (x :: y :: rest) chat s2) as [o s3] eqn:Es.
  destruct (send_summary_ok u m (x :: y :: rest) chat s2 o s3 H4 H2 H3 H6 Es) as [(e & -> & Hf3)|[H5 Ho]].
  - assert (Hs3 : notices_ok s3) by (by apply (frames_ok s2)). cbv zeta. destruct (is_null _ && _ && _).
    + apply (handOn_ok m DelFailed (x :: y :: rest) s3); [done|exact Hs3| |done|done|done].
      apply (as_read_frame _ s2); [done | intros; apply Hf3].
    + apply (frames_ok s3); [exact Hs3|]. intros k. apply (hold_again_frame k s3), frame_refl.
  - destruct Ho as [->| ->]; [exact H5|]. cbv zeta. cbn [rateLimitWaitMs error_code REDIS_DOWN isPermanentTelegramError].
    rewrite andb_false_r. apply (frames_ok s3); [exact H5|]. intros k. apply (hold_again_frame k s3), frame_refl.
Qed.

End Summary.

(** ** The system *)

(** What changes outside: time passes, loads, profiles and links are what they are now *)
Record outside := mkOutside {
  os_ms : N;
  os_redisUp : bool;
  os_connected : bool;
  os_listings : gmap uuid CargoListing;
  os_profiles : profile_state;
  os_platforms : list Messenger;
  os_links : gmap (uuid * Messenger) (option text);
  os_jids : gmap uuid text;
}.

Definition with_outside (o : outside) (s : delivery_state) : delivery_state :=
  s <| dv_now := dv_now s + Z.of_N (os_ms o) |> <| dv_redisUp := os_redisUp o |> <| dv_listings := os_listings o |>
    <| dv_profiles := os_profiles o |> <| dv_platforms := os_platforms o |> <| dv_links := os_links o |> <| dv_jids := os_jids o |>.

Inductive delivery_op :=
| DvConsume (i : nat)
| DvTick
| DvAnnounce (sourceMessageId : text) (listingId : uuid) (recipients : list uuid)
| DvEdit (listingId : uuid)
| DvSuggest (sourceMessageId : text) (recipients : list uuid)
| DvRead (userId : uuid) (id : option uuid)
| DvClean (takenBefore createdBefore : time)
| DvOutside (o : outside).

Section System.
  Context `{Messengers}.

Definition exec_delivery (op : delivery_op) (s : queue_state) : queue_state :=
  match op with
  | DvConsume i => final (consume i) s
  | DvTick => final (on_notices tick) s
  | DvAnnounce m l us => final (sendToDrivers m l us) s
  | DvEdit l => final (edit_everywhere l) s
  | DvSuggest m us => final (on_notices (suggest m us)) s
  | DvRead u i => final (on_notices (markRead u i)) s
  | DvClean t c => final (on_notices (deleteFinished t c)) s
  | DvOutside o => s <| qu_notices := with_outside o (qu_notices s) |> <| qu_connected := os_connected o |>
  end.

Definition run_deliveries (ops : list delivery_op) (s : queue_state) : queue_state := foldl (fun s op => exec_delivery op s) s ops.

Definition queue_ok (s : queue_state) : Prop := notices_ok (qu_notices s).

Lemma on_notices_ok {A} (m : DM A) : preserves notices_ok m -> preserves queue_ok (on_notices m).
Proof. intros Hm. by apply (preserves_zoom queue_ok notices_ok). Qed.

Lemma publish_ok j w : preserves queue_ok (publish j w).
Proof. unfold publish. preserve. by apply preserves_modify. Qed.
#[local] Hint Resolve publish_ok : preserves.

Lemma queue_modify_ok f : (forall s, qu_notices (f s) = qu_notices s) -> preserves queue_ok (modify f).
Proof. intros Hf. apply preserves_modify. intros s Hs. unfold queue_ok. by rewrite Hf. Qed.

Lemma follow_ok j o : preserves queue_ok (follow j o).
Proof. unfold follow, pause_messenger. preserve; by apply queue_modify_ok. Qed.
#[local] Hint Resolve follow_ok : preserves.

Lemma work_ok j : preserves notices_ok (work j).
Proof. unfold work. destruct (jb_kind j); [apply deliverQueued_ok | apply editQueued_ok | apply deliverDigest_ok]. Qed.

Lemma handle_ok j : preserves queue_ok (handle j).
Proof. unfold handle, then_follow. preserve. apply on_notices_ok, work_ok. Qed.
#[local] Hint Resolve handle_ok : preserves.

Lemma consume_ok i : preserves queue_ok (consume i).
Proof. unfold consume. preserve; by apply queue_modify_ok. Qed.

Lemma enqueue_ok js : preserves queue_ok (enqueue js).
Proof. induction js as [|j js IH]; cbn [enqueue]; preserve. Qed.
#[local] Hint Resolve enqueue_ok : preserves.

Lemma queueJobs_ok js : preserves queue_ok (queueJobs js).
Proof.
  unfold queueJobs. preserve; apply on_notices_ok; [apply scheduleRetry_ok|].
  apply preserves_bind; [apply editQueued_ok | intros; apply preserves_ret].
Qed.
#[local] Hint Resolve queueJobs_ok : preserves.

Lemma driver_notice_untried s m l u : untried (driver_notice s m l u).
Proof. intros c. by destruct c; cbn; case_bool_decide. Qed.

Lemma sendToDrivers_ok m l us : preserves queue_ok (sendToDrivers m l us).
Proof.
  unfold sendToDrivers. apply preserves_get_bind. intros s _. apply preserves_bind; [|intros _; preserve].
  apply on_notices_ok, insertIgnoringDuplicates_ok, Forall_forall. intros r Hr.
  apply list_elem_of_fmap in Hr as (u & -> & _). apply driver_notice_untried.
Qed.

Lemma edit_everywhere_ok l : preserves queue_ok (edit_everywhere l).
Proof. unfold edit_everywhere. preserve. Qed.

Lemma suggest_ok m us : preserves notices_ok (suggest m us).
Proof.
  intros s Hs. unfold suggest, final. rewrite run_bind.
  assert (Hu : Forall untried (map (suggestion m) us)).
  { apply Forall_forall. intros r Hr. apply list_elem_of_fmap in Hr as (u & -> & _). intros c. by destruct c. }
  pose proof (insertIgnoringDuplicates_ok _ Hu s Hs) as H1. unfold final in H1.
  destruct (insertIgnoringDuplicates (map (suggestion m) us) s) as [[ids|e] s1]; [|exact H1]. cbn [snd] in H1.
  rewrite run_bind. unfold get. cbv beta iota.
  assert (E : forall l, for_each l (fun row => deliver (load s1 row)) = for_each (map (load s1) l) deliver).
  { induction l as [|r l IH]; [done|]. cbn [map for_each]. by rewrite IH. }
  rewrite E. apply each_ok; [intros x t r; apply deliver_ok | intros x k t; apply deliver_frame | | exact H1 |].
  - by apply loaded_distinct, find_rows_distinct.
  - apply found_as_read; [exact H1|]. intros r Hr. by apply elem_of_find_rows in Hr as [_ Hr].
Qed.

Lemma exec_delivery_ok op s : queue_ok s -> queue_ok (exec_delivery op s).
Proof.
  intros Hs. destruct op; cbn [exec_delivery].
  - by apply consume_ok.
  - by apply (on_notices_ok tick retry_sweep_ok).
  - by apply sendToDrivers_ok.
  - by apply edit_everywhere_ok.
  - by apply (on_notices_ok _ (suggest_ok _ _)).
  - by apply (on_notices_ok _ (markRead_ok _ _)).
  - by apply (on_notices_ok _ (deleteFinished_ok _ _)).
  - exact Hs.
Qed.

Lemma run_deliveries_ok ops s : queue_ok s -> queue_ok (run_deliveries ops s).
Proof.
  revert s. induction ops as [|op ops IH]; intros s Hs; [done|]. by apply IH, exec_delivery_ok.
Qed.

End System.
