(* ===== verification/DeliveryProperties.v ===== *)
(** * What the deliveries promise

    A notice reaches its user once, the queue does what one pass over the messengers
    does, nothing stays pending after its time, a messenger is not rushed; and the two
    ways in which the code breaks its own word: a retry from an old copy of a notice, and
    a failure that is temporary at first. *)

From S2P Require Import Prelude JsString Effects Enums DriverProfile BrokerDriver TripFareRules BrokerAccess CargoData Redis Delivery CargoNotices DeliveryQueue DeliveryFacts DeliveryInvariant.

Section Once.
  Context `{Messengers}.

(** C24: As long as the jobs of one notice run one after the other and a sweep has the notices to
    itself, whatever jobs the queue takes in whatever order, however often the sweep, new
    announcements, edits and clean-ups come between, and whatever the messengers answer:
    the message of a load goes out to a driver at most once, one messenger at most says
    it has a notice, and each messenger tries at most five times and less while it is
    still pending.  Of jobs and sweeps that overlap this is not said: [racing_jobs_send_twice]
    and [stale_retry_sends_twice] are the cases where the message goes out twice. *)
Theorem notice_sent_once (s : queue_state) (ops : list delivery_op) (k : uuid) :
  queue_ok s ->
  let s1 := qu_notices (run_deliveries ops s) in
  (deliveries k s1 <= 1)%nat /\
  (forall r m m', dv_rows s1 !! k = Some r -> ch_status (channel m r) = DelSent -> ch_status (channel m' r) = DelSent -> m = m') /\
  (forall r m, dv_rows s1 !! k = Some r -> ch_attempts (channel m r) <= 5 /\
     (ch_status (channel m r) = DelPending -> ch_attempts (channel m r) < 5)).
Proof.
  intros Hs s1. pose proof (run_deliveries_ok ops s Hs k) as Hk. unfold ok_at in Hk. fold s1 in Hk.
  destruct (dv_rows s1 !! k) as [r|]; [destruct Hk as [[_ H1 _ H3 H4] _] | destruct Hk as [H1 _]]; (split; [exact H1|]).
  - split; [intros r' m m' [= <-]; apply H3|]. intros r' m [= <-]. destruct (H4 m) as [Ha Hp]. unfold MAX_DELIVERY_ATTEMPTS in *.
    split; [lia | exact Hp].
  - split; [by intros r m m' | by intros r m].
Qed.

(** ** One messenger's send, exactly *)

Lemma send_load_sends m row chat att msg s :
  has_listing row = true -> answer (length (dv_calls s)) (SendLoad m chat (cn_id row)) = Ok msg ->
  exists s2, send_notice m row chat att s = (Ok tt, s2) /\ deliveries (cn_id row) s2 = S (deliveries (cn_id row) s).
Proof.
  intros Hl Ha. unfold send_notice, has_listing in *. destruct (cn_listingId row); [|done].
  unfold call. rewrite run_bind. rewrite run_bind. unfold get. cbv beta iota zeta. rewrite Ha. rewrite run_bind.
  unfold modify at 1. cbv beta iota. unfold of_outcome. rewrite run_bind. unfold gets. cbv beta iota. eexists. split; [done|].
  unfold deliveries. change (dv_calls (update_row ?i ?f ?s)) with (dv_calls s).
  match goal with |- context [List.filter ?f (dv_calls ?t)] => change (dv_calls t) with (dv_calls s ++ [(SendLoad m chat (cn_id row), true)]) end.
  rewrite List.filter_app, length_app. cbn. rewrite N.eqb_refl. cbn. lia.
Qed.

Lemma deliver_through_sends m row chat msg s :
  has_listing row = true -> is_pending m row = true -> address s (cn_userId row) m = Some chat ->
  answer (length (dv_calls s)) (SendLoad m chat (cn_id row)) = Ok msg ->
  exists s2, deliver_through m row true s = (Ok (just DelSent), s2) /\ deliveries (cn_id row) s2 = S (deliveries (cn_id row) s).
Proof.
  intros Hl Hp Had Ha. unfold is_pending in Hp.
  assert (Hb : forall m', m' = m -> exists s2, deliverBot m' row true s = (Ok (just DelSent), s2) /\ deliveries (cn_id row) s2 = S (deliveries (cn_id row) s)).
  { intros m' ->. unfold deliverBot. rewrite Hp. cbn [negb]. rewrite run_bind. unfold get. cbv beta iota. rewrite Had.
    destruct (send_load_sends m row chat (ch_attempts (channel m row) + 1) msg s Hl Ha) as (s2 & E & Hd).
    unfold try_catch. rewrite run_bind, E. rewrite run_ret. by exists s2. }
  destruct m; cbn [deliver_through]; try (by apply Hb).
  unfold deliverWhatsapp. rewrite Hp. cbn [negb]. rewrite run_bind. unfold get. cbv beta iota. rewrite Had.
  destruct (send_load_sends Whatsapp row chat (ch_attempts (channel Whatsapp row) + 1) msg s Hl Ha) as (s2 & E & Hd).
  unfold try_catch. rewrite run_bind, E. rewrite run_ret. by exists s2.
Qed.

(** Once one has it, the rest of the pass sends nothing. *)
Lemma through_taken_deliveries k ms row isOpen ready : forall s,
  deliveries k (final (through_one ms row isOpen ready true) s) = deliveries k s.
Proof.
  induction ms as [|m ms IH]; intros s; cbn [through_one]; [done|]. unfold final. rewrite run_bind.
  destruct (is_pending m row); cbn [when]; [unfold updateDelivery, modify; cbv beta iota | rewrite run_ret]; (etrans; [apply IH | done]).
Qed.

Lemma skip_others_deliveries m row s : deliveries (cn_id row) (final (skip_others m row) s) = deliveries (cn_id row) s.
Proof.
  unfold skip_others, final. generalize MESSENGER_ORDER. intros l. revert s. induction l as [|j l IH]; intros s; cbn [for_each]; [done|].
  rewrite run_bind. destruct (_ && _); cbn [when]; [unfold updateDelivery, modify; cbv beta iota; etrans; [apply IH | done] | rewrite run_ret; apply IH].
Qed.

(** A retry from an old copy sends a second message: when the sweep has read a notice
    that is due, and the queue sends it before its turn in the sweep comes, the sweep
    sends it again, for it looks at the copy it has read and not at the row. *)
Theorem stale_retry_sends_twice (s s1 : delivery_state) (row : CargoNotification) (m : Messenger) (chat msg : text) (now : time) :
  dv_rows s !! cn_id row = Some row -> has_listing row = true -> sent_elsewhere row = false ->
  next_pending MESSENGER_ORDER row = Some m -> due row now m = true ->
  deliverQueued (cn_id row) m s = (Ok Done, s1) -> deliveries (cn_id row) s1 = 1%nat ->
  canDeliverListing s1 (load s row) = true -> address s1 (cn_userId row) m = Some chat ->
  answer (length (dv_calls s1)) (SendLoad m chat (cn_id row)) = Ok msg ->
  deliveries (cn_id row) (final (retryDelivery (load s row) now) s1) = 2%nat.
Proof.
  intros Hr Hl Hse Hn Hdue Hq Hd Hc Had Ha. unfold retryDelivery. rewrite final_get_bind. rewrite Hc. unfold deliverThroughOne.
  change (lo_row (load s row)) with row. rewrite Hse.
  assert (Hns : forall j, j ∈ MESSENGER_ORDER -> is_sent j row = false).
  { intros j Hj. destruct (is_sent j row) eqn:E; [|done]. unfold sent_elsewhere in Hse.
    pose proof (proj1 (some_b_false _ _) Hse j Hj) as E'. cbn in E'. congruence. }
  destruct (through_one_first MESSENGER_ORDER row true (due row now) m s1 Hns Hn Hdue) as (ms1 & ms2 & _ & _ & E).
  unfold final. rewrite E, run_bind.
  assert (Hp : is_pending m row = true) by (by apply find_some in Hn as [_ Hn]).
  destruct (deliver_through_sends m row chat msg s1 Hl Hp Had Ha) as (s2 & E2 & Hd2). rewrite E2.
  change (eqb (dr_status (just DelSent)) DelSent || eqb (dr_status (just DelSent)) DelPending) with true.
  pose proof (through_taken_deliveries (cn_id row) ms2 row true (due row now) s2) as Ht. unfold final in Ht. rewrite Ht, Hd2, Hd. done.
Qed.

(** So do two jobs of one notice at once, where no summary is made (the window of a summary
    set to zero): the queue hands out up to ten jobs of a messenger at a time, and a load
    announced again puts a second job of a notice still pending into it. *)
Theorem racing_jobs_send_twice (s s1 : delivery_state) (row : CargoNotification) (m : Messenger) (chat msg : text) :
  has_listing row = true -> is_pending m row = true -> sent_elsewhere row = false -> is_stale (dv_now s1) row = false ->
  deliver_read (load s row) m s = (Ok Done, s1) -> deliveries (cn_id row) s1 = 1%nat ->
  dv_digestWindow s1 = 0 -> canDeliverListing s1 (load s row) = true -> address s1 (cn_userId row) m = Some chat ->
  answer (length (dv_calls s1)) (SendLoad m chat (cn_id row)) = Ok msg ->
  deliveries (cn_id row) (final (deliver_read (load s row) m) s1) = 2%nat.
Proof.
  intros Hl Hp Hse Hst _ Hd Hw Hc Had Ha. unfold deliver_read. rewrite final_get_bind. change (lo_row (load s row)) with row.
  rewrite Hp, Hse, Hst. cbn [negb orb]. unfold final. rewrite run_bind. unfold has_listing in Hl.
  destruct (cn_listingId row) as [l|] eqn:El; [|done]. cbn [is_null]. unfold holdForDigest. rewrite run_bind. unfold get at 1. cbv beta iota.
  rewrite Hw. change (0 =? 0) with true. cbv iota. rewrite run_ret. unfold send_queued. rewrite run_bind. unfold get. cbv beta iota zeta.
  rewrite Hc, run_bind. change (lo_row (load s row)) with row.
  destruct (deliver_through_sends m row chat msg s1 ltac:(unfold has_listing; by rewrite El) Hp Had Ha) as (s2 & E2 & Hd2). rewrite E2.
  cbn [just dr_status dr_retryAt]. rewrite run_bind.
  pose proof (skip_others_deliveries m row s2) as Hk. unfold final in Hk. destruct (skip_others m row s2) as [[u|e] s3]; cbn [snd] in Hk; change (deliveries (cn_id row) s3 = 2%nat); lia.
Qed.

(** ** A failure that is temporary at first *)

Lemma through_taken_closes row isOpen ready ms : forall s r,
  dv_rows s !! cn_id row = Some r -> NoDup ms ->
  exists r', dv_rows (final (through_one ms row isOpen ready true) s) !! cn_id row = Some r' /\
    forall j, channel j r' = if decide (j ∈ ms /\ is_pending j row = true) then closed_as DelSkipped (channel j r) else channel j r.
Proof.
  induction ms as [|m ms IH]; intros s r Hr Hnd; cbn [through_one].
  - exists r. split; [done|]. intros j. rewrite decide_False; [done|]. intros [Hj _]. by apply not_elem_of_nil in Hj.
  - apply NoDup_cons in Hnd as [Hm Hnd]. unfold final. rewrite run_bind. destruct (is_pending m row) eqn:Ep; cbn [when].
    + unfold updateDelivery, modify. cbv beta iota.
      destruct (IH (update_row (cn_id row) (set_channel m (closed_as DelSkipped)) s) (set_channel m (closed_as DelSkipped) r)) as (r' & E & Hc); [|done|].
      { change (alter (set_channel m (closed_as DelSkipped)) (cn_id row) (dv_rows s) !! cn_id row = Some (set_channel m (closed_as DelSkipped) r)).
        by rewrite lookup_alter_eq, Hr. }
      exists r'. split; [exact E|]. intros j. rewrite Hc, channel_set. destruct (decide (j = m)) as [->|Hj].
      * rewrite decide_False by (by intros [? _]). rewrite decide_True; [done|]. split; [set_solver | done].
      * case_decide as H1; case_decide as H2; try done; exfalso; set_solver.
    + rewrite run_ret. destruct (IH s r Hr Hnd) as (r' & E & Hc). exists r'. split; [exact E|]. intros j. rewrite Hc.
      case_decide as H1; case_decide as H2; try done; exfalso; [set_solver|].
      destruct H2 as [[->|H2]%elem_of_cons H3]; [congruence|]. by apply H1.
Qed.

(** What a bot's refusal writes *)
Lemma deliver_bot_refused m row chat e s :
  m <> Whatsapp -> has_listing row = true -> is_pending m row = true -> address s (cn_userId row) m = Some chat ->
  answer (length (dv_calls s)) (SendLoad m chat (cn_id row)) = Err e -> rateLimitWaitMs e = None ->
  let attempts := ch_attempts (channel m row) + 1 in
  let retryAt := if isPermanentTelegramError e then None else nextDeliveryRetryAt attempts (cn_createdAt row) (dv_now s) in
  let status := match retryAt with Some _ => DelPending | None => DelFailed end in
  deliver_through m row true s = (Ok (mkResult status retryAt None),
    update_row (cn_id row) (set_channel m (tried status attempts retryAt)) (s <| dv_calls := dv_calls s ++ [(SendLoad m chat (cn_id row), false)] |>)).
Proof.
  intros Hw Hl Hp Had Ha He attempts retryAt status. unfold is_pending in Hp.
  assert (E : deliver_through m row true s = deliverBot m row true s) by (by destruct m).
  rewrite E. unfold deliverBot. rewrite Hp. cbn [negb]. rewrite run_bind. unfold get. cbv beta iota. rewrite Had. cbv zeta.
  unfold try_catch. rewrite run_bind. unfold send_notice, has_listing in *. destruct (cn_listingId row); [|done].
  rewrite run_bind. unfold call. rewrite run_bind. unfold get at 1. cbv beta iota zeta. rewrite Ha. rewrite run_bind. unfold modify at 1. cbv beta iota.
  unfold of_outcome. rewrite He. rewrite run_bind. unfold gets. cbv beta iota. done.
Qed.

Lemma not_sent_in row : sent_elsewhere row = false -> forall j, is_sent j row = false.
Proof.
  intros Hse j. destruct (is_sent j row) eqn:E; [|done]. unfold sent_elsewhere in Hse.
  pose proof (proj1 (some_b_false _ _) Hse j (elem_of_order j)) as E'. cbn in E'. congruence.
Qed.

(** A pass whose first pending messenger, a bot, refuses *)
Lemma pass_refused m row chat e s ready :
  dv_rows s !! cn_id row = Some row -> m <> Whatsapp -> has_listing row = true -> sent_elsewhere row = false ->
  next_pending MESSENGER_ORDER row = Some m -> ready m = true -> address s (cn_userId row) m = Some chat ->
  answer (length (dv_calls s)) (SendLoad m chat (cn_id row)) = Err e -> rateLimitWaitMs e = None ->
  isPermanentTelegramError e = false -> is_Some (nextDeliveryRetryAt (ch_attempts (channel m row) + 1) (cn_createdAt row) (dv_now s)) ->
  exists r, dv_rows (final (deliverThroughOne row true ready) s) !! cn_id row = Some r /\
    forall j, ch_status (channel j r) = if decide (j = m) then DelPending else if is_pending j row then DelSkipped else ch_status (channel j row).
Proof.
  intros Hr Hw Hl Hse Hn Hready Had Ha He Hperm [t Ht]. unfold deliverThroughOne. rewrite Hse.
  destruct (through_one_first MESSENGER_ORDER row true ready m s ltac:(intros j _; by apply not_sent_in) Hn Hready) as (ms1 & ms2 & Eo & Hb & E).
  assert (Hp : is_pending m row = true) by (by apply find_some in Hn as [_ Hn]).
  pose proof (deliver_bot_refused m row chat e s Hw Hl Hp Had Ha He) as Hd. cbv zeta in Hd. rewrite Hperm, Ht in Hd.
  unfold final. rewrite E, run_bind, Hd. cbn [dr_status].
  change (eqb DelPending DelSent || eqb DelPending DelPending) with true.
  match goal with |- context [through_one ms2 row true ready true ?s'] => set (s1 := s') end.
  pose proof NoDup_order as Hnd. rewrite Eo in Hnd. apply NoDup_app in Hnd as (Hnd1 & Hd12 & Hnd2). apply NoDup_cons in Hnd2 as [Hm2 Hnd2].
  set (f := tried DelPending (ch_attempts (channel m row) + 1) (Some t)) in *.
  destruct (through_taken_closes row true ready ms2 s1 (set_channel m f row)) as (r & Er & Hc); [|done|].
  { change (alter (set_channel m f) (cn_id row) (dv_rows s) !! cn_id row = Some (set_channel m f row)). by rewrite lookup_alter_eq, Hr. }
  exists r. split; [exact Er|]. intros j. rewrite Hc, channel_set. destruct (decide (j = m)) as [->|Hj].
  - rewrite decide_False by (by intros [? _]). done.
  - destruct (is_pending j row) eqn:Ej.
    + rewrite decide_True; [done|]. split; [|done]. pose proof (elem_of_order j) as Hin. rewrite Eo in Hin.
      apply elem_of_app in Hin as [Hin|Hin]; [|set_solver].
      rewrite (Hb j Hin) in Ej. done.
    + by rewrite decide_False by (by intros [_ ?]).
Qed.

(** A pass whose only pending messenger, a bot, refuses for good *)
Lemma pass_failed m row chat e s ready :
  dv_rows s !! cn_id row = Some row -> m <> Whatsapp -> has_listing row = true -> sent_elsewhere row = false ->
  (forall j, is_pending j row = true <-> j = m) -> ready m = true -> address s (cn_userId row) m = Some chat ->
  answer (length (dv_calls s)) (SendLoad m chat (cn_id row)) = Err e -> rateLimitWaitMs e = None ->
  isPermanentTelegramError e = true ->
  exists r, dv_rows (final (deliverThroughOne row true ready) s) !! cn_id row = Some r /\
    forall j, ch_status (channel j r) = if decide (j = m) then DelFailed else ch_status (channel j row).
Proof.
  intros Hr Hw Hl Hse Hp Hready Had Ha He Hperm. unfold deliverThroughOne. rewrite Hse.
  assert (Hn : next_pending MESSENGER_ORDER row = Some m).
  { destruct (next_pending MESSENGER_ORDER row) as [j|] eqn:En; unfold next_pending in En.
    - apply find_some in En as [_ En]. f_equal. by apply Hp.
    - pose proof (find_none _ _ En m (proj1 (list_elem_of_In _ _) (elem_of_order m))) as Hf. cbn in Hf. by rewrite (proj2 (Hp m) eq_refl) in Hf. }
  destruct (through_one_first MESSENGER_ORDER row true ready m s ltac:(intros j _; by apply not_sent_in) Hn Hready) as (ms1 & ms2 & Eo & _ & E).
  pose proof (deliver_bot_refused m row chat e s Hw Hl (proj2 (Hp m) eq_refl) Had Ha He) as Hd. cbv zeta in Hd. rewrite Hperm in Hd.
  unfold final. rewrite E, run_bind, Hd. cbn [dr_status].
  change (eqb DelFailed DelSent || eqb DelFailed DelPending) with false.
  match goal with |- context [through_one ms2 row true ready false ?s'] => set (s1 := s') end.
  set (f := tried DelFailed (ch_attempts (channel m row) + 1) None) in *.
  assert (Hrest : forall ms, (forall j, j ∈ ms -> j <> m) -> through_one ms row true ready false s1 = (Ok tt, s1)).
  { induction ms as [|j ms IH]; intros Hj; cbn [through_one]; [done|].
    destruct (is_pending j row) eqn:Ej; [by apply Hp in Ej; destruct (Hj j ltac:(set_solver))|]. cbn [negb].
    rewrite (not_sent_in row Hse j). apply IH. intros i Hi. apply Hj. set_solver. }
  pose proof NoDup_order as Hnd. rewrite Eo in Hnd. apply NoDup_app in Hnd as (_ & _ & Hnd2). apply NoDup_cons in Hnd2 as [Hm2 _].
  rewrite Hrest by (intros j Hj ->; done). cbn [snd]. exists (set_channel m f row). split.
  - change (alter (set_channel m f) (cn_id row) (dv_rows s) !! cn_id row = Some (set_channel m f row)). by rewrite lookup_alter_eq, Hr.
  - intros j. rewrite channel_set. by case_decide as Hj; [subst j|].
Qed.

(** A failure that is temporary at first takes the other messengers away: when the first
    messenger of a notice fails once in a way that is tried again, every other pending
    messenger is skipped in the same pass, so that when its retry then fails for good
    («failed for good hands it to the next», says the comment) no messenger has the notice
    and none is left to try, linked as the others may be. *)
Theorem temporary_failure_ends_fallback (s : delivery_state) (row : CargoNotification) (m : Messenger) (chat : text) (e : exn) :
  dv_rows s !! cn_id row = Some row -> m <> Whatsapp -> has_listing row = true -> sent_elsewhere row = false ->
  next_pending MESSENGER_ORDER row = Some m -> address s (cn_userId row) m = Some chat ->
  canDeliverListing s (load s row) = true ->
  answer (length (dv_calls s)) (SendLoad m chat (cn_id row)) = Err e -> rateLimitWaitMs e = None -> isPermanentTelegramError e = false ->
  is_Some (nextDeliveryRetryAt (ch_attempts (channel m row) + 1) (cn_createdAt row) (dv_now s)) ->
  exists r, dv_rows (final (deliver (load s row)) s) !! cn_id row = Some r /\ (forall j, is_pending j r = true <-> j = m) /\
  (forall s2 chat2 e2 now, dv_rows s2 !! cn_id row = Some r -> cn_id r = cn_id row -> has_listing r = true ->
     address s2 (cn_userId r) m = Some chat2 -> due r now m = true -> canDeliverListing s2 (load s2 r) = true ->
     answer (length (dv_calls s2)) (SendLoad m chat2 (cn_id row)) = Err e2 -> rateLimitWaitMs e2 = None -> isPermanentTelegramError e2 = true ->
     exists r3, dv_rows (final (retryDelivery (load s2 r) now) s2) !! cn_id row = Some r3 /\
       forall j, ch_status (channel j r3) <> DelSent /\ ch_status (channel j r3) <> DelPending).
Proof.
  intros Hr Hw Hl Hse Hn Had Hc Ha He Hperm Ht.
  destruct (pass_refused m row chat e s (fun _ => true) Hr Hw Hl Hse Hn eq_refl Had Ha He Hperm Ht) as (r & Er & Hst).
  exists r. unfold deliver. rewrite final_get_bind, Hc. split; [exact Er|].
  assert (Hns : forall j, ch_status (channel j r) <> DelSent).
  { intros j. rewrite Hst. case_decide; [done|]. destruct (is_pending j row); [done|].
    pose proof (not_sent_in row Hse j) as Hs. unfold is_sent in Hs. by apply (proj1 (eqb_false _ _)) in Hs. }
  assert (Hp : forall j, is_pending j r = true <-> j = m).
  { intros j. unfold is_pending. rewrite eqb_true, Hst. case_decide as Hj; [done|]. split; [|done].
    destruct (is_pending j row) eqn:Ej; [done|]. unfold is_pending in Ej. apply (proj1 (eqb_false _ _)) in Ej. done. }
  split; [exact Hp|]. intros s2 chat2 e2 now Hr2 Hid Hl2 Had2 Hdue Hc2 Ha2 He2 Hperm2.
  unfold retryDelivery. rewrite final_get_bind, Hc2. change (lo_row (load s2 r)) with r.
  rewrite <- Hid in Hr2, Ha2 |- *.
  assert (Hser : sent_elsewhere r = false).
  { destruct (sent_elsewhere r) eqn:E; [|done]. apply sent_elsewhere_true in E as (j & Hj). by destruct (Hns j). }
  destruct (pass_failed m r chat2 e2 s2 (due r now) Hr2 Hw Hl2 Hser Hp Hdue Had2 Ha2 He2 Hperm2) as (r3 & E3 & Hst3).
  exists r3. split; [exact E3|]. intros j. rewrite Hst3. case_decide as Hj; [done|]. split; [apply Hns|].
  intros Hx. apply Hj, Hp. unfold is_pending. by apply eqb_true.
Qed.

End Once.

(** ** At work *)

Lemma idle_queue_ok : queue_ok idle_queue.
Proof. intros k. unfold ok_at. change (dv_rows (qu_notices idle_queue)) with (∅ : gmap uuid CargoNotification). rewrite lookup_empty. change (deliveries k (qu_notices idle_queue)) with 0%nat. split; [lia | done]. Qed.

(** A load announced to driver 1, its job taken twice, the sweep, and an edit *)
Definition announced_and_sent : list delivery_op := [DvAnnounce (js "g1") 100 [1%N]; DvConsume 0; DvConsume 0; DvTick; DvEdit 100; DvConsume 0].

Lemma notice_sent_once_witness :
  queue_ok idle_queue /\
  deliveries 5 (qu_notices (@run_deliveries takes_all announced_and_sent idle_queue)) = 1%nat /\
  (deliveries 5 (qu_notices (@run_deliveries takes_all announced_and_sent idle_queue)) <= 1)%nat.
Proof.
  split; [exact idle_queue_ok|]. split; [vm_compute; reflexivity|].
  exact (proj1 (@notice_sent_once takes_all idle_queue announced_and_sent 5%N idle_queue_ok)).
Defined.

(** The sweep has read the notice, the queue sends it, then the sweep retries it. *)
Definition after_queue : delivery_state := final (@deliverQueued takes_all 5%N Bale) sample_deliveries.

Lemma stale_retry_sends_twice_witness :
  deliveries 5 after_queue = 1%nat /\
  deliveries 5 (final (@retryDelivery takes_all (load sample_deliveries sample_notice) 2000) after_queue) = 2%nat.
Proof.
  split; [vm_compute; reflexivity|].
  apply (@stale_retry_sends_twice takes_all sample_deliveries after_queue sample_notice Bale (js "c1") (js "m1") 2000); vm_compute; reflexivity.
Defined.

(** Two jobs of the notice, both read before either has sent *)
Definition after_job : delivery_state := final (@deliver_read takes_all (load sample_deliveries sample_notice) Bale) sample_deliveries.

Lemma racing_jobs_send_twice_witness :
  deliveries 5 after_job = 1%nat /\
  deliveries 5 (final (@deliver_read takes_all (load sample_deliveries sample_notice) Bale) after_job) = 2%nat.
Proof.
  split; [vm_compute; reflexivity|].
  apply (@racing_jobs_send_twice takes_all sample_deliveries after_job sample_notice Bale (js "c1") (js "m1")); vm_compute; reflexivity.
Defined.

(** The notice after Bale was down: Eitaa is skipped; and after Bale refused it for good *)
Definition after_failure : delivery_state := final (@deliver down_then_gone (load sample_deliveries sample_notice)) sample_deliveries.
Definition after_refusal : delivery_state :=
  let s := after_failure <| dv_now := 62000 |> in
  match dv_rows s !! 5%N with Some r => final (@retryDelivery down_then_gone (load s r) 62000) s | None => s end.

Lemma temporary_failure_ends_fallback_witness :
  (fun r => (ch_status (cn_bale r), ch_status (cn_eitaa r))) <$> dv_rows after_refusal !! 5%N = Some (DelFailed, DelSkipped) /\
  ~ dv_rows after_failure !! 5%N = None.
Proof.
  split; [vm_compute; reflexivity|]. unfold after_failure.
  destruct (@temporary_failure_ends_fallback down_then_gone sample_deliveries sample_notice Bale (js "c1")
              (MessengerError (js "bad gateway") (Some 502) None None)) as (r & Hr & _); try (vm_compute; reflexivity); [done|vm_compute; by eexists|].
  change (cn_id sample_notice) with 5%N in Hr. by rewrite Hr.
Defined.
