(* ===== verification/DeliveryChain.v ===== *)
(** * The queue does what one pass does

    The chain of jobs a notice goes through, one messenger handing it to the next, against
    the pass over all messengers ([deliverThroughOne]); the sweep at the end of the retry
    window; the pace of a messenger. *)

From S2P Require Import Prelude JsString Effects Enums DriverProfile BrokerDriver TripFareRules BrokerAccess CargoData Redis Delivery CargoNotices DeliveryQueue DeliveryFacts DeliveryInvariant.

Section Chain.
  Context `{Messengers}.

(** The jobs of a notice from [m] on: a job that hands it on is followed by the next *)
Fixpoint chain (fuel : nat) (id : uuid) (m : Messenger) : DM QueuedOutcome :=
  outcome ← deliverQueued id m;
  match fuel, outcome with
  | S fuel, Next next => chain fuel id next
  | _, _ => mret outcome
  end.

Lemma after_in_suffix (l : list Messenger) m : m ∈ l -> exists l1, l = l1 ++ m :: after_in l m.
Proof.
  induction l as [|x l IH]; intros Hm; [by apply not_elem_of_nil in Hm|]. cbn [after_in]. destruct (eqb x m) eqn:E.
  - apply (proj1 (eqb_true _ _)) in E as ->. by exists [].
  - apply (proj1 (eqb_false _ _)) in E. apply elem_of_cons in Hm as [->|Hm]; [done|]. destruct (IH Hm) as (l1 & E1). exists (x :: l1). cbn. by rewrite <- E1.
Qed.

Lemma after_suffix m : exists l1, MESSENGER_ORDER = l1 ++ m :: after_messenger m.
Proof. apply after_in_suffix, elem_of_order. Qed.

(** *** A handed job is of a later messenger *)

Lemma send_queued_next row m s next s2 : send_queued row m s = (Ok (Next next), s2) -> next_pending (after_messenger m) (lo_row row) = Some next.
Proof.
  unfold send_queued. rewrite run_bind. unfold get. cbv beta iota zeta. rewrite run_bind.
  destruct (deliver_through m (lo_row row) (canDeliverListing s row) s) as [[d|e] s1]; [|done].
  destruct (dr_status d), (dr_retryAt d); try done; try (rewrite run_bind; destruct (skip_others _ _ s1) as [[u|e] s3]; done);
    (destruct (negb _); [done|]); destruct (next_pending (after_messenger m) (lo_row row)); try done; by intros [= ->].
Qed.

Lemma deliverQueued_next id m s next s2 : deliverQueued id m s = (Ok (Next next), s2) -> next ∈ after_messenger m.
Proof.
  unfold deliverQueued. rewrite run_bind. unfold get. cbv beta iota. destruct (findWithListing s id) as [row|]; [|done].
  unfold deliver_read. rewrite run_bind. unfold get. cbv beta iota.
  destruct (negb _); [done|]. destruct (_ || _); [by rewrite run_bind|]. rewrite run_bind.
  destruct ((if is_null (cn_listingId (lo_row row)) then mret None else holdForDigest (lo_row row) m) s) as [[[o|]|e] s1] eqn:E; [| |done].
  - intros [= -> ->]. exfalso. destruct (is_null _); [done|]. revert E. unfold holdForDigest. rewrite run_bind. unfold get. cbv beta iota.
    destruct (_ =? 0); [done|]. unfold try_catch. destruct (redis _ s) as [[o|e] s3] eqn:E; [|done]. intros [= -> ->]. revert E.
    unfold redis. rewrite run_bind. unfold get. cbv beta iota. rewrite run_bind. unfold ensure. destruct (dv_redisUp s); [rewrite run_ret|done].
    destruct (setIfAbsent _ _ _ _); [rewrite run_bind; done|]. rewrite run_bind. unfold modify at 1. cbv beta iota. rewrite run_bind.
    unfold schedule. rewrite run_bind. unfold get. cbv beta iota. destruct (setIfAbsent _ _ _ _); [rewrite run_bind; unfold modify; cbv beta iota|]; by intros [=].
  - intros En. apply send_queued_next in En. unfold next_pending in En. apply find_some in En as [Hin _]. by apply list_elem_of_In.
Qed.

(** Handing on ends: after five jobs at most, the jobs of a notice end without handing it
    on once more, whatever the notice, the links and the answers are. *)
Theorem handing_on_ends (id : uuid) (m : Messenger) (s : delivery_state) (next : Messenger) :
  (chain 4 id m s).1 <> Ok (Next next).
Proof.
  assert (Hgo : forall n m s, (length (after_messenger m) <= n)%nat -> forall next, (chain n id m s).1 <> Ok (Next next)).
  { clear. induction n as [|n IH]; intros m s Hn next; cbn [chain]; rewrite run_bind; destruct (deliverQueued id m s) as [[o|e] s1] eqn:E; try done.
    - destruct o; try done. apply deliverQueued_next in E. destruct (after_messenger m); [by apply not_elem_of_nil in E | cbn in Hn; lia].
    - destruct o as [| |m2| |]; try done. apply IH. apply deliverQueued_next in E.
      assert (Hl : (length (after_messenger m2) < length (after_messenger m))%nat) by (clear -E; destruct m; vm_compute in E; repeat (apply elem_of_cons in E as [->|E]; [vm_compute; lia|]); by apply not_elem_of_nil in E).
      lia. }
  apply Hgo. destruct m; vm_compute; lia.
Qed.

(** *** The same writes *)

Lemma deliver_through_other j m f row isOpen : j <> m -> deliver_through j (set_channel m f row) isOpen = deliver_through j row isOpen.
Proof. intros Hj. destruct j, m; try done; reflexivity. Qed.

Lemma is_pending_other j m f row : j <> m -> is_pending j (set_channel m f row) = is_pending j row.
Proof. intros Hj. unfold is_pending. by rewrite channel_set_ne. Qed.

Lemma is_sent_other j m f row : j <> m -> is_sent j (set_channel m f row) = is_sent j row.
Proof. intros Hj. unfold is_sent. by rewrite channel_set_ne. Qed.

Lemma through_one_other ms m f row isOpen ready : m ∉ ms -> forall taken s,
  through_one ms (set_channel m f row) isOpen ready taken s = through_one ms row isOpen ready taken s.
Proof.
  induction ms as [|j ms IH]; intros Hm taken s; cbn [through_one]; [done|].
  assert (Hj : j <> m) by set_solver. assert (Hms : m ∉ ms) by set_solver.
  rewrite is_pending_other, is_sent_other, deliver_through_other by done.
  destruct (same_head_set m f row) as (-> & _). destruct taken.
  - rewrite !run_bind. destruct (when _ _ s) as [[u|e] s2]; [by apply IH | done].
  - destruct (negb (is_pending j row)); [by apply IH|]. destruct (negb (ready j)); [by apply IH|].
    rewrite !run_bind. destruct (deliver_through j row isOpen s) as [[d|e] s2]; [by apply IH | done].
Qed.

(** Answers that are final: a send succeeds, or a bot refuses it for good *)
Definition settles (id : uuid) : Prop :=
  forall n m chat, match answer n (SendLoad m chat id) with
                   | Ok _ => True
                   | Err e => m <> Whatsapp /\ rateLimitWaitMs e = None /\ isPermanentTelegramError e = true
                   end.

(** What a send then writes *)
Lemma deliver_settled m row s :
  settles (cn_id row) -> has_listing row = true -> is_pending m row = true ->
  exists st f calls, deliver_through m row true s = (Ok (just st), update_row (cn_id row) (set_channel m f) (s <| dv_calls := calls |>)) /\
    (forall c, ch_status (f c) = st) /\ (st = DelSent \/ st = DelFailed \/ st = DelSkipped).
Proof.
  intros Hset Hl Hp. unfold is_pending in Hp.
  assert (Hsame : s = s <| dv_calls := dv_calls s |>) by (by destruct s).
  assert (Hskip : skip m row s = (Ok (just DelSkipped), update_row (cn_id row) (set_channel m (closed_as DelSkipped)) (s <| dv_calls := dv_calls s |>)))
    by (by rewrite <- Hsame).
  assert (Hsend : forall chat o, answer (length (dv_calls s)) (SendLoad m chat (cn_id row)) = o ->
    send_notice m row chat (ch_attempts (channel m row) + 1) s = match o with
      | Ok msg => (Ok tt, update_row (cn_id row) (set_channel m (sent_to_chat chat msg (ch_attempts (channel m row) + 1) (if eqb m Whatsapp then Some (dv_now s) else None)))
                          (s <| dv_calls := dv_calls s ++ [(SendLoad m chat (cn_id row), true)] |>))
      | Err e => (Err e, s <| dv_calls := dv_calls s ++ [(SendLoad m chat (cn_id row), false)] |>)
      end).
  { intros chat o <-. unfold send_notice, has_listing in *. destruct (cn_listingId row); [|done]. rewrite run_bind. unfold call. rewrite run_bind. unfold get. cbv beta iota zeta.
    rewrite run_bind. unfold modify at 1. cbv beta iota. unfold of_outcome. destruct (answer _ _) as [msg|e]; [|done]. rewrite run_bind. done. }
  assert (Hbot : m <> Whatsapp -> exists st f calls, deliverBot m row true s = (Ok (just st), update_row (cn_id row) (set_channel m f) (s <| dv_calls := calls |>)) /\
    (forall c, ch_status (f c) = st) /\ (st = DelSent \/ st = DelFailed \/ st = DelSkipped)).
  { intros _. unfold deliverBot. rewrite Hp. cbn [negb]. rewrite run_bind. unfold get. cbv beta iota.
    destruct (address s (cn_userId row) m) as [chat|]; [|rewrite Hskip; eexists DelSkipped, _, _; split; [done|]; split; [done|]; by right; right].
    unfold try_catch. rewrite run_bind. specialize (Hset (length (dv_calls s)) m chat).
    destruct (answer (length (dv_calls s)) (SendLoad m chat (cn_id row))) as [msg|e] eqn:Ea; rewrite (Hsend chat _ Ea); cbv zeta.
    - rewrite run_ret. eexists DelSent, _, _. split; [done|]. split; [done | by left].
    - destruct Hset as (_ & He & Hperm). rewrite He. rewrite run_bind. unfold gets. cbv beta iota. rewrite Hperm.
      eexists DelFailed, _, _. split; [done|]. split; [done | by right; left]. }
  destruct (decide (m = Whatsapp)) as [->|Hm]; [|destruct m; try done; by apply Hbot].
  cbn [deliver_through]. unfold deliverWhatsapp. rewrite Hp. cbn [negb]. rewrite run_bind. unfold get. cbv beta iota.
  destruct (address s (cn_userId row) Whatsapp) as [chat|]; [|rewrite Hskip; eexists DelSkipped, _, _; split; [done|]; split; [done|]; by right; right].
  unfold try_catch. rewrite run_bind. specialize (Hset (length (dv_calls s)) Whatsapp chat).
  destruct (answer (length (dv_calls s)) (SendLoad Whatsapp chat (cn_id row))) as [msg|e] eqn:Ea; [|by destruct Hset].
  rewrite (Hsend chat _ Ea). rewrite run_ret. eexists DelSent, _, _. split; [done|]. split; [done | by left].
Qed.

(** Once one messenger has it: the rest of the pass, and [skip_others] *)
Lemma skip_others_rest m row pre ms s :
  MESSENGER_ORDER = pre ++ m :: ms -> (forall j, j ∈ pre -> is_pending j row = false) ->
  final (skip_others m row) s = final (through_one ms row true (fun _ => true) true) s.
Proof.
  intros Eo Hpre. pose proof NoDup_order as Hnd. rewrite Eo in Hnd. apply NoDup_app in Hnd as (_ & _ & [Hm _]%NoDup_cons).
  unfold skip_others. rewrite Eo. clear Eo. revert s.
  assert (Htail : forall l s, m ∉ l -> final (for_each l (fun other =>
      when (negb (eqb other m) && is_pending other row) (updateDelivery (cn_id row) other (closed_as DelSkipped)))) s
    = final (through_one l row true (fun _ => true) true) s).
  { induction l as [|j l IH]; intros s Hl; cbn [for_each through_one]; [done|]. unfold final. rewrite !run_bind.
    assert (Ej : eqb j m = false) by (apply eqb_false; set_solver). rewrite Ej. cbn [negb andb].
    destruct (when (is_pending j row) _ s) as [[u|e] s2]; [apply IH; set_solver | done]. }
  induction pre as [|j pre IH]; intros s; cbn [app for_each]; unfold final; rewrite run_bind.
  - assert (Em : eqb m m = true) by (by apply eqb_true). rewrite Em. cbn [negb andb when]. rewrite run_ret. by apply Htail.
  - rewrite (Hpre j) by set_solver. rewrite andb_false_r. cbn [when]. rewrite run_ret. apply IH. intros i Hi. apply Hpre. set_solver.
Qed.

Lemma through_one_none ms row isOpen ready s :
  (forall j, j ∈ ms -> is_sent j row = false) -> next_pending ms row = None -> through_one ms row isOpen ready false s = (Ok tt, s).
Proof.
  induction ms as [|j ms IH]; intros Hs Hn; cbn [through_one]; [done|]. unfold next_pending in *. cbn [List.find] in Hn.
  destruct (is_pending j row); [done|]. cbn [negb]. rewrite (Hs j) by set_solver. apply IH; [intros i Hi; apply Hs; set_solver | done].
Qed.

(** A notice still to be sent through one of [ms], in a world where it may be *)
Record waiting (row : CargoNotification) (ms : list Messenger) (s : delivery_state) : Prop := mkWaiting {
  wt_row : dv_rows s !! cn_id row = Some row;
  wt_pre : exists pre, MESSENGER_ORDER = pre ++ ms /\ forall j, j ∈ pre -> is_pending j row = false;
  wt_unsent : sent_elsewhere row = false;
  wt_fresh : is_stale (dv_now s) row = false;
  wt_window : dv_digestWindow s = 0;
  wt_open : canDeliverListing s (load s row) = true;
}.

Lemma waiting_later row ms1 m ms2 s f calls :
  waiting row (ms1 ++ m :: ms2) s -> (forall j, j ∈ ms1 -> is_pending j row = false) ->
  (forall c, ch_status (f c) <> DelSent /\ ch_status (f c) <> DelPending) ->
  waiting (set_channel m f row) ms2 (update_row (cn_id row) (set_channel m f) (s <| dv_calls := calls |>)).
Proof.
  intros [H1 (pre & Eo & Hpre) H3 H4 H5 H6] Hms Hf. destruct (same_head_set m f row) as (E1 & E2 & E3 & E4). split.
  - rewrite E1. change (alter (set_channel m f) (cn_id row) (dv_rows s) !! cn_id row = Some (set_channel m f row)). by rewrite lookup_alter_eq, H1.
  - exists (pre ++ ms1 ++ [m]). split; [rewrite Eo, <- !(assoc_L app); done|]. intros j Hj. destruct (decide (j = m)) as [->|Hn].
    + unfold is_pending. rewrite channel_set_eq. apply eqb_false, Hf.
    + rewrite is_pending_other by done. apply elem_of_app in Hj as [Hj|[Hj|Hj%list_elem_of_singleton]%elem_of_app]; [by apply Hpre | by apply Hms | done].
  - destruct (sent_elsewhere (set_channel m f row)) eqn:E; [|done]. apply sent_elsewhere_true in E as (j & Hj). rewrite channel_set in Hj.
    case_decide; [by destruct (Hf (channel j row))|]. assert (sent_elsewhere row = true) by (apply sent_elsewhere_true; eauto). congruence.
  - unfold is_stale in *. by rewrite E4.
  - exact H5.
  - unfold canDeliverListing, load, listing_of in *. cbn [lo_listing lo_row] in *. by rewrite E2, E3.
Qed.

Lemma queued_send_run row ms m s :
  waiting row ms s -> is_pending m row = true -> deliverQueued (cn_id row) m s = send_queued (load s row) m s.
Proof.
  intros [H1 _ H3 H4 H5 _] Hp. unfold deliverQueued. rewrite run_bind. unfold get. cbv beta iota. unfold findWithListing. rewrite H1.
  cbn [fmap option_fmap option_map]. unfold deliver_read. rewrite run_bind. unfold get. cbv beta iota.
  change (lo_row (load s row)) with row. rewrite Hp, H3, H4. cbn [negb orb]. rewrite run_bind.
  destruct (is_null (cn_listingId row)); [by rewrite run_ret|]. unfold holdForDigest. rewrite run_bind. unfold get. cbv beta iota. by rewrite H5.
Qed.

Lemma skip_others_runs m row s : skip_others m row s = (Ok tt, final (skip_others m row) s).
Proof.
  unfold skip_others, final. generalize MESSENGER_ORDER. intros l. revert s. induction l as [|j l IH]; intros s; cbn [for_each]; [done|].
  rewrite run_bind. destruct (_ && _); cbn [when]; [unfold updateDelivery, modify; cbv beta iota | rewrite run_ret]; apply IH.
Qed.

(** What the job of a settled send ends with *)
Lemma queued_settled row ms m s :
  waiting row ms s -> has_listing row = true -> settles (cn_id row) -> is_pending m row = true ->
  exists st f calls, let s2 := update_row (cn_id row) (set_channel m f) (s <| dv_calls := calls |>) in
    deliver_through m row true s = (Ok (just st), s2) /\ (forall c, ch_status (f c) = st) /\
    deliverQueued (cn_id row) m s =
      (if eqb st DelSent then (Ok Done, final (skip_others m row) s2)
       else (Ok (match next_pending (after_messenger m) row with Some next => Next next | None => Done end), s2)) /\
    (st = DelSent \/ st = DelFailed \/ st = DelSkipped).
Proof.
  intros Hw Hl Hset Hp. destruct (deliver_settled m row s Hset Hl Hp) as (st & f & calls & E & Hf & Hst).
  exists st, f, calls. cbv zeta. split; [exact E|]. split; [exact Hf|]. split; [|exact Hst].
  rewrite (queued_send_run row ms m s Hw Hp). unfold send_queued. rewrite run_bind. unfold get. cbv beta iota zeta.
  rewrite (wt_open _ _ _ Hw), run_bind. change (lo_row (load s row)) with row. rewrite E.
  destruct Hst as [->|[->| ->]]; cbn [just dr_status dr_retryAt negb]; [|done|done].
  rewrite run_bind, skip_others_runs. done.
Qed.

Lemma after_split m ms1 ms2 pre : MESSENGER_ORDER = pre ++ ms1 ++ m :: ms2 -> after_messenger m = ms2.
Proof.
  pose proof NoDup_order as Hnd. unfold after_messenger. intros E. rewrite (assoc_L app) in E. rewrite E in *. clear E.
  revert Hnd. induction (pre ++ ms1) as [|j l IH]; cbn [app after_in]; intros [Hj Hnd]%NoDup_cons.
  - by rewrite (proj2 (eqb_true m m) eq_refl).
  - rewrite (proj2 (eqb_false j m)) by set_solver. by apply IH.
Qed.

Lemma waiting_unsent row ms s j : waiting row ms s -> is_sent j row = false.
Proof.
  intros Hw. destruct (is_sent j row) eqn:E; [|done]. unfold is_sent in E. apply (proj1 (eqb_true _ _)) in E.
  rewrite <- (wt_unsent _ _ _ Hw). symmetry. apply sent_elsewhere_true. eauto.
Qed.

(** From any messenger on *)
Lemma chain_is_pass n : forall ms row m s,
  (length ms <= S n)%nat -> waiting row ms s -> has_listing row = true -> settles (cn_id row) -> next_pending ms row = Some m ->
  final (chain n (cn_id row) m) s = final (through_one ms row true (fun _ => true) false) s.
Proof.
  induction n as [|n IH]; intros ms row m s Hlen Hw Hl Hset Hn.
  all: assert (Hp : is_pending m row = true) by (unfold next_pending in Hn; by apply find_some in Hn as [_ Hn]).
  all: destruct (through_one_first ms row true (fun _ => true) m s ltac:(intros j _; by eapply waiting_unsent) Hn eq_refl)
    as (ms1 & ms2 & -> & Hms1 & E).
  all: destruct (queued_settled row _ m s Hw Hl Hset Hp) as (st & f & calls & Ed & Hf & Eq & Hst).
  all: pose proof (wt_pre _ _ _ Hw) as (pre & Eo & Hpre); pose proof (after_split m ms1 ms2 pre Eo) as Ea.
  all: set (s2 := update_row (cn_id row) (set_channel m f) (s <| dv_calls := calls |>)) in *.
  all: unfold final at 2; rewrite E, run_bind, Ed; cbn [chain just dr_status]; unfold final at 1; rewrite run_bind, Eq, Ea.
  all: assert (Hdone : st = DelSent -> final (skip_others m row) s2 = final (through_one ms2 row true (fun _ => true) true) s2) by
    (intros _; apply (skip_others_rest m row (pre ++ ms1)); [by rewrite Eo, (assoc_L app) | intros j [Hj|Hj]%elem_of_app; [by apply Hpre | by apply Hms1]]).
  all: assert (Hend : st <> DelSent -> next_pending ms2 row = None -> final (through_one ms2 row true (fun _ => true) false) s2 = s2) by
    (intros _ Hnone; unfold final; rewrite through_one_none; [done | intros j _; by eapply waiting_unsent | done]).
  - assert (ms2 = []) as -> by (destruct ms1, ms2; cbn in Hlen; try done; rewrite ?length_app in Hlen; cbn in Hlen; lia).
    destruct Hst as [->|[->| ->]]; [exact (Hdone eq_refl)| |]; reflexivity.
  - destruct (decide (st = DelSent)) as [->|Hs]; [exact (Hdone eq_refl)|].
    rewrite (proj2 (eqb_false st DelSent) Hs). assert (Hs' : (false || eqb st DelPending) = false) by (by destruct Hst as [->|[->| ->]]).
    rewrite Hs'. destruct (next_pending ms2 row) as [m2|] eqn:En; [|exact (eq_sym (Hend Hs eq_refl))].
    assert (Hm2 : m ∉ ms2).
    { pose proof NoDup_order as Hnd. rewrite Eo in Hnd. apply NoDup_app in Hnd as (_ & _ & Hnd). apply NoDup_app in Hnd as (_ & _ & Hnd).
      by apply NoDup_cons in Hnd as [? _]. }
    pose proof (waiting_later row ms1 m ms2 s f calls Hw Hms1 ltac:(intros c; rewrite Hf; by destruct Hst as [->|[->| ->]])) as Hw2.
    fold s2 in Hw2. destruct (same_head_set m f row) as (E1 & E2 & E3 & E4).
    pose proof (IH ms2 (set_channel m f row) m2 s2) as Hi. rewrite E1 in Hi. unfold has_listing in *. rewrite E3 in Hi.
    unfold final in Hi. rewrite (through_one_other ms2 m f row true (fun _ => true) Hm2) in Hi. apply Hi; try done.
    + rewrite length_app in Hlen. cbn in Hlen. lia.
    + unfold next_pending in *. rewrite <- En. clear -Hm2. induction ms2 as [|j l IHl]; [done|]. cbn [List.find].
      rewrite is_pending_other by set_solver. destruct (is_pending j row); [done|]. apply IHl. set_solver.
Qed.

(** C25: Where no summaries are made and the messengers' answers are final, the queue does
    what one pass does: the chain of a notice's jobs, from its first messenger pending,
    ends in exactly the state of one pass over all messengers, with the same calls in the
    same order, the same messenger having the notice and the same ones skipped. *)
Theorem queue_is_one_pass (row : CargoNotification) (m : Messenger) (s : delivery_state) :
  waiting row MESSENGER_ORDER s -> has_listing row = true -> settles (cn_id row) ->
  next_pending MESSENGER_ORDER row = Some m ->
  final (chain 4 (cn_id row) m) s = final (deliver (load s row)) s.
Proof.
  intros Hw Hl Hset Hn. unfold deliver. rewrite final_get_bind, (wt_open _ _ _ Hw). unfold deliverThroughOne.
  change (lo_row (load s row)) with row. rewrite (wt_unsent _ _ _ Hw). by apply chain_is_pass.
Qed.

(** ** The end of the retry window *)

Lemma retries_frame k s0 rows now : (forall y, y ∈ rows -> cn_id (lo_row y) <> k) ->
  preserves (frame k s0) (for_each rows (fun row => retryDelivery row now)).
Proof.
  intros Hn. apply preserves_for_each. intros y Hy. unfold retryDelivery. apply preserves_get_bind. intros s _.
  apply through_one_frame. by apply Hn.
Qed.

(** What the sweep reads is in its window. *)
Lemma due_in_window s now cut n y : notices_ok s -> y ∈ findDueRetries s now cut n ->
  dv_rows s !! cn_id (lo_row y) = Some (lo_row y) /\ cut <= cn_createdAt (lo_row y).
Proof.
  intros Hs Hy. apply list_elem_of_fmap in Hy as (r & -> & Hy). apply elem_of_take in Hy as (i & Hi & _). apply list_elem_of_lookup_2 in Hi.
  unfold by_creation in Hi. rewrite merge_sort_Permutation in Hi. apply elem_of_find_rows in Hi as [Hd (k & Hk)].
  destruct (notices_keyed s k r Hs Hk) as [<- _]. split; [done|]. unfold due_row in Hd. by apply andb_true_iff in Hd as [Hd%Z.leb_le _].
Qed.

(** Nothing waits past its time: a sweep leaves a notice of more than three hours ago
    pending with no messenger, and whatever the messengers answer to the retries of the
    sweep, each messenger of it is as it was but for the pending ones, now failed. *)
Theorem window_ends (s : delivery_state) (k : uuid) (r : CargoNotification) :
  notices_ok s -> dv_rows s !! k = Some r -> cn_createdAt r < dv_now s - DELIVERY_RETRY_WINDOW_MS ->
  exists r', dv_rows (final tick s) !! k = Some r' /\
    forall m, ch_status (channel m r') <> DelPending /\ key (channel m r') = key (expired_channel (channel m r)).
Proof.
  intros Hs Hr Hc. set (cut := dv_now s - DELIVERY_RETRY_WINDOW_MS) in *.
  pose proof (failExpiredPending_ok cut s Hs) as Hs1. set (s1 := final (failExpiredPending cut) s) in *.
  assert (Hr1 : dv_rows s1 !! k = Some (on_channels expired_channel r)).
  { change (dv_rows s1) with ((fun r => if cn_createdAt r <? cut then on_channels expired_channel r else r) <$> dv_rows s).
    rewrite lookup_fmap, Hr. cbn. by rewrite (proj2 (Z.ltb_lt _ _) Hc). }
  rewrite tick_final. cbv zeta. fold cut s1.
  pose proof (retries_frame k s1 (findDueRetries s1 (dv_now s) cut 50) (dv_now s)) as Hf.
  destruct (Hf ltac:(intros y Hy <-; destruct (due_in_window _ _ _ _ _ Hs1 Hy) as [Ey Hw]; rewrite Hr1 in Ey; injection Ey as Ey;
                     rewrite <- Ey in Hw; change (cn_createdAt (on_channels expired_channel r)) with (cn_createdAt r) in Hw; lia)
            s1 (frame_refl k s1)) as [_ Hk _].
  rewrite Hr1 in Hk. destruct Hk as (r' & E & Q). exists r'. split; [exact E|]. intros m.
  rewrite (quiet_status _ _ m Q). split; [|by rewrite (proj2 Q m), channel_on_channels].
  rewrite channel_on_channels. unfold expired_channel. destruct (eqb _ _) eqn:Ec; [done|]. by apply (proj1 (eqb_false _ _)) in Ec.
Qed.

End Chain.

(** ** The pace of a messenger *)

(** What comes to a limiter: a [take] looking for its turn, or a pause *)
Inductive limiter_event := LookForTurn (at_ : time) | PauseFor (at_ : time) (ms : Z).

(** The limiter after the events, and the turns given *)
Fixpoint run_limiter (evs : list limiter_event) (l : RateLimiter) : RateLimiter * list time :=
  match evs with
  | [] => (l, [])
  | LookForTurn now :: evs =>
      match take_turn now l with
      | inl l => let r := run_limiter evs l in (r.1, now :: r.2)
      | inr _ => run_limiter evs l
      end
  | PauseFor now ms :: evs => run_limiter evs (pause now ms l)
  end.

Lemma take_turn_spec now l l' : take_turn now l = inl l' -> rl_next l <= now /\ rl_pausedUntil l <= now /\ l' = l <| rl_next := now + rl_period l |>.
Proof. unfold take_turn. destruct (_ <=? _) eqn:E; [|done]. intros [= <-]. apply Z.leb_le in E. split; [lia|]. split; [lia|done]. Qed.

Lemma turns_after evs : forall l, 0 <= rl_period l ->
  rl_period (run_limiter evs l).1 = rl_period l /\ Forall (fun t => rl_next l <= t /\ rl_pausedUntil l <= t) (run_limiter evs l).2.
Proof.
  induction evs as [|[now|now ms] evs IH]; intros l Hp; cbn [run_limiter]; [by split| |].
  - destruct (take_turn now l) as [l'|] eqn:E; [|by apply IH]. apply take_turn_spec in E as (H1 & H2 & ->). destruct l as [p nx pa].
    destruct (IH (mkLimiter p (now + p) pa) Hp) as [Ep Ht]. split; [exact Ep|]. cbn in *. constructor; [lia|].
    eapply Forall_impl; [exact Ht|]. cbn. lia.
  - destruct l as [p nx pa]. destruct (IH (mkLimiter p nx (Z.max pa (now + ms))) Hp) as [Ep Ht]. split; [exact Ep|]. eapply Forall_impl; [exact Ht|]. cbn. lia.
Qed.

(** A messenger is not rushed: whenever its turns are looked for and whatever pauses it
    asks for, in any order, any two turns given are at least the periods between them
    apart, so a second of time sees the rate's sends and one more at most; and while a
    pause lasts no turn is given. *)
Theorem pace_kept (l : RateLimiter) (evs : list limiter_event) :
  0 <= rl_period l ->
  (forall i n a b, (run_limiter evs l).2 !! i = Some a -> (run_limiter evs l).2 !! (i + n)%nat = Some b -> Z.of_nat n * rl_period l <= b - a) /\
  (forall evs1 now ms evs2 t, evs = evs1 ++ PauseFor now ms :: evs2 ->
     t ∈ (run_limiter evs2 (pause now ms (run_limiter evs1 l).1)).2 -> now + ms <= t).
Proof.
  intros Hp. split.
  - assert (Hgo : forall evs l n b, 0 <= rl_period l -> (run_limiter evs l).2 !! n = Some b -> rl_next l + Z.of_nat n * rl_period l <= b).
    { clear. induction evs as [|[now|now ms] evs IH]; intros l n b Hp; cbn [run_limiter]; [done| |by apply (IH (pause now ms l))].
      destruct (take_turn now l) as [l'|] eqn:E; [|by apply IH]. apply take_turn_spec in E as (H1 & H2 & ->).
      destruct l as [p nx pa]. destruct n as [|n]; cbn in *; [intros [= <-]; lia|]. intros Hb. pose proof (IH (mkLimiter p (now + p) pa) n b Hp Hb) as Hi. cbn in Hi. lia. }
    revert l Hp. induction evs as [|[now|now ms] evs IH]; intros l Hp i n a b; cbn [run_limiter]; [done| |by apply (IH (pause now ms l))].
    destruct (take_turn now l) as [l'|] eqn:E; [|by apply IH]. apply take_turn_spec in E as (H1 & H2 & ->).
    destruct l as [p nx pa]. destruct i as [|i]; cbn in *; [|by apply (IH (mkLimiter p (now + p) pa))].
    intros [= <-]. destruct n as [|n]; cbn; [intros [= <-]; lia|]. intros Hb. pose proof (Hgo _ (mkLimiter p (now + p) pa) n b Hp Hb) as Hi. cbn in Hi. lia.
  - intros evs1 now ms evs2 t _ Ht. destruct (turns_after evs1 l Hp) as [Ep _].
    destruct (turns_after evs2 (pause now ms (run_limiter evs1 l).1)) as [_ Hf]; [by rewrite <- Ep in Hp|].
    rewrite Forall_forall in Hf. apply Hf in Ht. clear -Ht. destruct (run_limiter evs1 l).1. cbn in Ht. lia.
Qed.

(** ** At work *)

Lemma sample_waiting : waiting sample_notice MESSENGER_ORDER sample_deliveries.
Proof. split; try (vm_compute; reflexivity). exists []. split; [done|]. intros j Hj. by apply not_elem_of_nil in Hj. Qed.

(** Bale refuses, Eitaa takes it *)
Definition sent_by_queue : delivery_state := final (@chain bale_refuses 4 5%N Bale) sample_deliveries.

Lemma queue_is_one_pass_witness :
  (fun r => (ch_status (cn_bale r), ch_status (cn_eitaa r))) <$> dv_rows sent_by_queue !! 5%N = Some (DelFailed, DelSent) /\
  sent_by_queue = final (@deliver bale_refuses (load sample_deliveries sample_notice)) sample_deliveries.
Proof.
  split; [vm_compute; reflexivity|]. apply (@queue_is_one_pass bale_refuses sample_notice Bale sample_deliveries); try reflexivity; [exact sample_waiting|].
  intros n [] chat; cbn; auto.
Defined.

(** Three hours and a millisecond later, with the queue away *)
Definition sample_late : delivery_state := sample_deliveries <| dv_now := 2000 + DELIVERY_RETRY_WINDOW_MS + 1 |>.

Lemma sample_late_ok : notices_ok sample_late.
Proof.
  intros k. unfold ok_at. change (deliveries k sample_late) with 0%nat. change (dv_nextId sample_late) with 6%N.
  change (dv_rows sample_late) with ({[ 5%N := sample_notice ]} : gmap uuid CargoNotification).
  destruct (decide (k = 5%N)) as [->|Hn].
  - rewrite lookup_singleton_eq. split; [|lia]. split; [done|lia|lia| |].
    + intros [] m'; by cbn.
    + intros []; cbn; unfold MAX_DELIVERY_ATTEMPTS; lia.
  - rewrite lookup_singleton_ne by done. split; [lia|done].
Qed.

Lemma window_ends_witness : ~ dv_rows (final (@tick takes_all) sample_late) !! 5%N = Some sample_notice.
Proof.
  destruct (@window_ends takes_all sample_late 5%N sample_notice sample_late_ok) as (r' & E & Hc); [reflexivity|vm_compute; reflexivity|].
  rewrite E. intros [= ->]. by destruct (Hc Bale).
Defined.

Definition sample_looks : list limiter_event :=
  [LookForTurn 0; LookForTurn 50; LookForTurn 100; PauseFor 120 1000; LookForTurn 200; LookForTurn 1120].

Lemma pace_kept_witness :
  (run_limiter sample_looks (new_limiter 100)).2 = [0; 100; 1120] /\ Z.of_nat 2 * 100 <= 1120 - 0.
Proof.
  split; [vm_compute; reflexivity|].
  apply (proj1 (pace_kept (new_limiter 100) sample_looks ltac:(cbn; lia)) 0%nat 2%nat 0 1120); vm_compute; reflexivity.
Defined.
