(* ===== verification/FreeText.v ===== *)
(** * Free text

    [domain/helper/digitGroups.ts] (thousands separators in what people type),
    [persianText.ts] (texts compared) and [price.ts] (the tomans of a fare in words). *)

From Corelib Require Import SpecFloat.
From S2P Require Import Prelude JsNumber JsString Json.

(** ** [groupDigits] *)

(** [DIGIT] *)
Definition is_any_digit (c : N) : bool := is_digit c || is_persian_digit c || is_arabic_digit c.

(** What may not stand before a run of digits: [.], [,], «٬», «٫», [/], [:], [+] (or a digit) *)
Definition glued (c : N) : bool := bool_decide (c ∈ [46; 44; 1644; 1643; 47; 58; 43]%N).

(** A run followed by [/] or [:] and a digit is a date, a time or a fraction. *)
Definition dated (rest : text) : bool :=
  match rest with
  | c :: d :: _ => ((c =? 47)%N || (c =? 58)%N) && is_any_digit d
  | _ => false
  end.

(** [replace(/(?!^)(?=(?:.{3})+$)/gu, separator)] *)
Fixpoint with_separators (separator : N) (first : bool) (run : text) : text :=
  match run with
  | [] => []
  | c :: run' =>
      (if negb first && Nat.eqb (length run mod 3) 0 then [separator] else [])
      ++ c :: with_separators separator false run'
  end.

(** A whole run, what stands before it and after it: grouped, or left alone *)
Definition groups (before : option N) (run rest : text) : bool :=
  negb (match before with Some c => glued c | None => false end)
  && Nat.leb 4 (length run) && negb (dated rest)
  && negb (match run with c :: _ => bool_decide (c ∈ [48; 1776; 1632]%N) | [] => false end).

Definition put_run (before : option N) (run rest : text) : text :=
  if groups before run rest then with_separators (if existsb is_digit run then 44 else 1644)%N true run else run.

Fixpoint group_from (before : option N) (run : text) (t : text) : text :=
  match t with
  | [] => put_run before run []
  | c :: t' =>
      if is_any_digit c then group_from before (run ++ [c]) t'
      else put_run before run t ++ c :: group_from (Some c) [] t'
  end.

Definition groupDigits (t : text) : text := group_from None [] t.

(** [groupedField]: unless the separators push it past its column *)
Definition groupedField (value : option text) (max : nat) : option text :=
  match value with
  | None => None
  | Some t => if Nat.leb (length (groupDigits t)) max then Some (groupDigits t) else Some t
  end.

(** *** Grouping twice *)

(** A text that comes after [k] digits and in which no run of digits grows to four *)
Fixpoint short (k : nat) (t : text) : Prop :=
  match t with
  | [] => True
  | c :: t => if is_any_digit c then (k < 3)%nat /\ short (S k) t else short 0 t
  end.

Lemma put_run_short before run rest : (length run < 4)%nat -> put_run before run rest = run.
Proof.
  intros Hl. unfold put_run, groups. replace (Nat.leb 4 (length run)) with false by (symmetry; apply Nat.leb_gt; lia).
  by rewrite andb_false_r.
Qed.

Lemma group_short x : forall k before cur c r, length cur = k -> (k < 4)%nat -> short k x -> is_any_digit c = false ->
  group_from before cur (x ++ c :: r) = cur ++ x ++ c :: group_from (Some c) [] r.
Proof.
  induction x as [|d x IH]; intros k before cur c r Hk Hlt Hs Hc; cbn [app group_from].
  - rewrite Hc. by rewrite put_run_short by lia.
  - cbn [short] in Hs. destruct (is_any_digit d) eqn:Ed.
    + destruct Hs as [Hs Hx]. rewrite (IH (S k)); [by rewrite <- (assoc_L app)|rewrite length_app; cbn; lia|lia|done|done].
    + rewrite put_run_short by lia. rewrite (IH 0%nat); [done|done|lia|done|done].
Qed.

Lemma group_short_end x : forall k before cur, length cur = k -> (k < 4)%nat -> short k x -> group_from before cur x = cur ++ x.
Proof.
  induction x as [|d x IH]; intros k before cur Hk Hlt Hs; cbn [app group_from].
  - rewrite put_run_short by lia. by rewrite app_nil_r.
  - cbn [short] in Hs. destruct (is_any_digit d) eqn:Ed.
    + destruct Hs as [Hs Hx]. rewrite (IH (S k)); [by rewrite <- (assoc_L app)|rewrite length_app; cbn; lia|lia|done].
    + rewrite put_run_short by lia. rewrite (IH 0%nat); [done|done|lia|done].
Qed.

Lemma separators_short sep run : is_any_digit sep = false -> Forall (fun c => is_any_digit c = true) run -> forall first k,
  (first = true -> k = 0%nat) -> (first = false -> (k <= 3)%nat /\ (length run mod 3 <> 0 -> k + length run mod 3 <= 3)%nat) ->
  short k (with_separators sep first run).
Proof.
  intros Hsep Hd. induction Hd as [|c run Hc Hd IH]; intros first k H1 H2; [done|].
  pose proof (Nat.mod_upper_bound (length run) 3 ltac:(lia)) as Hm.
  assert (Hl : (length (c :: run) mod 3 = if Nat.eqb (length run mod 3) 2 then 0 else S (length run mod 3))%nat).
  { cbn [length]. destruct (Nat.eqb_spec (length run mod 3) 2) as [E|E].
    - pose proof (Nat.div_mod_eq (length run) 3). symmetry. apply (Nat.mod_unique _ _ (S (length run / 3))); lia.
    - pose proof (Nat.div_mod_eq (length run) 3). symmetry. apply (Nat.mod_unique _ _ (length run / 3)); lia. }
  cbn [with_separators]. rewrite Hl in *.
  assert (Hnext : forall k', (k' < 3)%nat -> (k' + (length run mod 3) < 3)%nat -> short k' (c :: with_separators sep false run)).
  { intros k' Hk' Hk2. cbn [short]. rewrite Hc. split; [done|]. apply IH; [done|]. intros _. lia. }
  destruct first; cbn [negb andb app].
  - rewrite (H1 eq_refl). apply Hnext; [lia|]. lia.
  - destruct (H2 eq_refl) as [Hk3 Hk]. destruct (Nat.eqb_spec (length run mod 3) 2) as [E|E]; cbn [Nat.eqb app].
    + cbn [short]. rewrite Hsep. apply Hnext; lia.
    + apply Hnext; lia.
Qed.

(** The first character of a scan's result is the text's own, once the pending run is read. *)
Lemma group_head c before t : exists r, group_from before [c] t = c :: r.
Proof.
  assert (Hgo : forall run, exists r, group_from before (c :: run) t = c :: r).
  { induction t as [|d t IH]; intros run; cbn [group_from].
    - unfold put_run. destruct (groups _ _ _); cbn; eauto.
    - destruct (is_any_digit d); [apply (IH (run ++ [d]))|]. unfold put_run. destruct (groups _ _ _); cbn; eauto. }
  apply Hgo.
Qed.

Lemma dated_kept c t : dated (c :: group_from (Some c) [] t) = dated (c :: t).
Proof.
  destruct t as [|d t]; cbn [group_from]; [by rewrite put_run_short by (cbn; lia)|]. destruct (is_any_digit d) eqn:Ed.
  - cbn [app]. destruct (group_head d (Some c) t) as (r & ->). done.
  - by rewrite put_run_short by (cbn; lia).
Qed.

(** Scanning the scan's result changes nothing. *)
Lemma group_again t : forall before run, Forall (fun c => is_any_digit c = true) run ->
  group_from before [] (group_from before run t) = group_from before run t.
Proof.
  assert (Hrun : forall x before cur t, Forall (fun c => is_any_digit c = true) x -> group_from before cur (x ++ t) = group_from before (cur ++ x) t).
  { induction x as [|d x IH]; intros before cur t' Hx; cbn [app group_from]; [by rewrite app_nil_r|].
    apply Forall_cons in Hx as [-> Hx]. rewrite IH by done. by rewrite <- (assoc_L app). }
  assert (Hsep : forall run, short 0 (with_separators (if existsb is_digit run then 44 else 1644)%N true run) \/ ~ Forall (fun c => is_any_digit c = true) run).
  { intros run. destruct (decide (Forall (fun c => is_any_digit c = true) run)) as [Hr|Hr]; [left|by right].
    apply separators_short; [by destruct (existsb _ _)|done|done|done]. }
  induction t as [|c t IH]; intros before run Hd; cbn [group_from].
  - unfold put_run at 1 2. destruct (groups before run []) eqn:Eg.
    + destruct (Hsep run) as [Hs|Hs]; [|done]. by rewrite (group_short_end _ 0) by (done || lia).
    + pose proof (Hrun run before [] [] Hd) as E. rewrite app_nil_r in E. rewrite E. cbn [app group_from]. unfold put_run. by rewrite Eg.
  - destruct (is_any_digit c) eqn:Ec; [apply IH; by apply Forall_app_2; [|apply Forall_singleton]|].
    specialize (IH (Some c) [] (Forall_nil_2 _)). unfold put_run. destruct (groups before run (c :: t)) eqn:Eg.
    + destruct (Hsep run) as [Hs|Hs]; [|done]. rewrite (group_short _ 0) by (done || lia). by rewrite IH.
    + rewrite Hrun by done. cbn [app group_from]. rewrite Ec, IH. unfold put_run.
      assert (Eg' : groups before run (c :: group_from (Some c) [] t) = false) by (unfold groups in *; by rewrite dated_kept).
      by rewrite Eg'.
Qed.

(** *** Nothing is lost *)

Definition is_separator (c : N) : bool := (c =? 44)%N || (c =? 1644)%N.

Definition unseparated (t : text) : text := List.filter (fun c => negb (is_separator c)) t.

Lemma unseparated_app x y : unseparated (x ++ y) = unseparated x ++ unseparated y.
Proof. apply List.filter_app. Qed.

Lemma unseparated_put before run rest : unseparated (put_run before run rest) = unseparated run.
Proof.
  unfold put_run. destruct (groups _ _ _); [|done]. set (sep := if existsb is_digit run then 44%N else 1644%N).
  assert (Hs : is_separator sep = true) by (subst sep; by destruct (existsb _ _)). clearbody sep. generalize true.
  induction run as [|c run IH]; intros first; cbn [with_separators]; [done|].
  rewrite unseparated_app. replace (unseparated (if negb first && _ then _ else _)) with (@nil N).
  - unfold unseparated in *. cbn [List.filter app]. destruct (negb (is_separator c)); by rewrite IH.
  - destruct (_ && _); [|done]. unfold unseparated. cbn [List.filter]. by rewrite Hs.
Qed.

Lemma unseparated_groups t : forall before run, unseparated (group_from before run t) = unseparated (run ++ t).
Proof.
  induction t as [|c t IH]; intros before run; cbn [group_from].
  - by rewrite unseparated_put, app_nil_r.
  - destruct (is_any_digit c); [by rewrite IH, <- (assoc_L app)|].
    change (c :: group_from (Some c) [] t) with ([c] ++ group_from (Some c) [] t).
    rewrite !unseparated_app, unseparated_put, IH. change (c :: t) with ([c] ++ t). by rewrite !unseparated_app.
Qed.

(** ** Texts compared *)

(** Unicode's tables are parameters. *)
Class Unicode := { nfkc : text -> text; toLowerCase : text -> text }.

(** [[​-‏‪-‮⁦-⁩﻿]] *)
Definition is_invisible (c : N) : bool :=
  ((8203 <=? c) && (c <=? 8207) || (8234 <=? c) && (c <=? 8238) || (8294 <=? c) && (c <=? 8297) || (c =? 65279))%N.

(** «ي», «ى» and «ك» in Persian letters *)
Definition persian_letter (c : N) : N :=
  (if (c =? 1610) || (c =? 1609) then 1740 else if c =? 1603 then 1705 else c)%N.

Definition normalizePersianText `{Unicode} (t : text) : text :=
  toLowerCase (trim (collapse_spaces (latin_digits (map persian_letter (remove_chars is_invisible (nfkc t)))))).

(** [value.includes(part)] *)
Fixpoint includes_text (part value : text) : bool :=
  starts_with part value || match value with [] => false | _ :: value => includes_text part value end.

(** ** The tomans of a fare *)

(** [value.search(part)] *)
Fixpoint search_text (part value : text) : option nat :=
  if starts_with part value then Some 0%nat
  else match value with [] => None | _ :: value => S <$> search_text part value end.

(** The first place of one of [parts] *)
Definition search_any (parts : list text) (value : text) : option nat :=
  foldr (fun part found => match search_text part value, found with
                           | Some i, Some j => Some (Nat.min i j)
                           | Some i, None => Some i
                           | None, found => found
                           end) None parts.

Definition MULTIPLIERS : list (list text * Z) :=
  [ ([js "میلیارد"; js "ملیارد"], 1000000000)
  ; ([js "میلیون"; js "ملیون"], 1000000)
  ; ([js "هزار"], 1000) ].

(** The unit written first after the amount *)
Definition multiplier (rest : text) : option Z :=
  snd <$> foldr (fun m found => match search_any m.1 rest, found with
                        | Some i, Some (j, _) => if Nat.leb i j then Some (i, m.2) else found
                        | Some i, None => Some (i, m.2)
                        | None, found => found
                        end) None MULTIPLIERS.

(** [[,٬'’ ]] between a digit and three digits that end there *)
Definition is_price_separator (c : N) : bool := bool_decide (c ∈ [44; 1644; 39; 8217; 32]%N).

Definition three_digits (t : text) : bool :=
  match t with
  | a :: b :: c :: rest => is_digit a && is_digit b && is_digit c && match rest with d :: _ => negb (is_digit d) | [] => true end
  | _ => false
  end.

Fixpoint ungroup (after_digit : bool) (t : text) : text :=
  match t with
  | [] => []
  | c :: t => if after_digit && is_price_separator c && three_digits t then ungroup false t else c :: ungroup (is_digit c) t
  end.

(** [/\d+(?:\.\d+)?/]: the first number of a text, and what follows it *)
Fixpoint take_while (f : N -> bool) (t : text) : text * text :=
  match t with
  | c :: t' => if f c then let p := take_while f t' in (c :: p.1, p.2) else ([], t)
  | [] => ([], [])
  end.

Definition number_at (t : text) : text * text :=
  let (whole, rest) := take_while is_digit t in
  match rest with
  | 46%N :: d :: rest' =>
      if is_digit d then let (fraction, rest'') := take_while is_digit (d :: rest') in (whole ++ 46%N :: fraction, rest'') else (whole, rest)
  | _ => (whole, rest)
  end.

Fixpoint first_number (t : text) : option (text * text) :=
  match t with
  | [] => None
  | c :: t' => if is_digit c then Some (number_at t) else first_number t'
  end.

Definition parsePriceToman `{Unicode} (t : option text) : option num :=
  match t with
  | None | Some [] => None
  | Some t =>
      let normalized := map (fun c => if (c =? 1643)%N then 46%N else c) (ungroup false (normalizePersianText t)) in
      match first_number normalized with
      | None => None
      | Some (number, rest) =>
          let amount := number_of_text number in
          let amount := match multiplier rest with Some m => num_mul amount (num_of_Z m) | None => amount end in
          let amount := if includes_text (js "ریال") normalized then num_div amount (num_of_Z 10) else amount in
          if is_finite_num amount && num_ltb (num_of_Z 0) amount then Some (math_round amount) else None
      end
  end.

(** ** Grouping, once and for all *)

(** Separating thousands is settled after one pass: grouping a grouped text changes
    nothing, every character but the separators stays where it was, and a field grouped to
    fit its column fits it and is left alone by a second grouping. *)
Theorem grouping_settles (t : text) (value : option text) (max : nat) :
  groupDigits (groupDigits t) = groupDigits t /\
  unseparated (groupDigits t) = unseparated t /\
  groupedField (groupedField value max) max = groupedField value max /\
  (forall v, value = Some v -> (length v <= max)%nat -> exists v', groupedField value max = Some v' /\ (length v' <= max)%nat /\ unseparated v' = unseparated v).
Proof.
  assert (Ht : forall t, groupDigits (groupDigits t) = groupDigits t) by (intros t'; apply group_again; constructor).
  split; [apply Ht|]. split; [apply unseparated_groups|]. split.
  - destruct value as [v|]; [|done]. cbn [groupedField]. destruct (Nat.leb_spec (length (groupDigits v)) max) as [Hl|Hl]; cbn [groupedField].
    + rewrite Ht. by rewrite (proj2 (Nat.leb_le _ _) Hl).
    + by rewrite (proj2 (Nat.leb_gt _ _) Hl).
  - intros v -> Hv. cbn [groupedField]. destruct (Nat.leb_spec (length (groupDigits v)) max) as [Hl|Hl]; eexists; (split; [done|]); (split; [done|]); [apply unseparated_groups | done].
Qed.
