(* ===== verification/IranPlaces.v ===== *)
(** * The places of Iran

    [src/domain/helper/iranProvinces.ts] (the provinces and their cities), the search of
    whole words in a place's name, and which places are known to be in Iran
    ([isKnownIranPlace], services/notification/cargoTripType.ts). *)

From S2P Require Import Prelude JsString FreeText.

(** [Province] *)
Record Province := mkProvince { pv_names : list text; pv_capitalNamed : option text; pv_cities : list text }.

Definition IRAN_PROVINCES : list Province :=
  [ mkProvince [js "آذربایجان شرقی"] None
      [js "تبریز"; js "مراغه"; js "مرند"; js "میانه"; js "اهر"; js "بناب"; js "سراب"; js "شبستر";
       js "عجب‌شیر"; js "هشترود"; js "جلفا"; js "آذرشهر"; js "ملکان"; js "هریس"; js "بستان‌آباد";
       js "اسکو"; js "کلیبر"; js "ورزقان"]
  ; mkProvince [js "آذربایجان غربی"] None
      [js "ارومیه"; js "خوی"; js "مهاباد"; js "میاندوآب"; js "بوکان"; js "سلماس"; js "نقده";
       js "پیرانشهر"; js "سردشت"; js "ماکو"; js "تکاب"; js "شاهین‌دژ"; js "اشنویه"; js "چالدران";
       js "بازرگان"; js "پلدشت"]
  ; mkProvince [] (Some (js "اردبیل"))
      [js "اردبیل"; js "پارس‌آباد"; js "مشگین‌شهر"; js "خلخال"; js "گرمی"; js "بیله‌سوار"; js "نمین";
       js "نیر"; js "سرعین"; js "اصلاندوز"]
  ; mkProvince [] (Some (js "اصفهان"))
      [js "اصفهان"; js "کاشان"; js "خمینی‌شهر"; js "نجف‌آباد"; js "شاهین‌شهر"; js "شهرضا";
       js "مبارکه"; js "فولادشهر"; js "زرین‌شهر"; js "آران و بیدگل"; js "گلپایگان"; js "خوانسار";
       js "نطنز"; js "اردستان"; js "نائین"; js "فریدون‌شهر"; js "سمیرم"; js "دهاقان"; js "فلاورجان";
       js "بادرود"; js "میمه"]
  ; mkProvince [js "البرز"] None
      [js "کرج"; js "فردیس"; js "نظرآباد"; js "هشتگرد"; js "اشتهارد"; js "طالقان"; js "محمدشهر";
       js "ماهدشت"]
  ; mkProvince [] (Some (js "ایلام"))
      [js "ایلام"; js "دهلران"; js "مهران"; js "آبدانان"; js "دره‌شهر"; js "ایوان"; js "سرابله";
       js "ملکشاهی"]
  ; mkProvince [] (Some (js "بوشهر"))
      [js "بوشهر"; js "برازجان"; js "گناوه"; js "کنگان"; js "عسلویه"; js "جم"; js "دیلم";
       js "خورموج"; js "دشتستان"; js "تنگستان"; js "بندر دیر"]
  ; mkProvince [] (Some (js "تهران"))
      [js "تهران"; js "شهریار"; js "اسلامشهر"; js "ورامین"; js "قدس"; js "ملارد"; js "رباط‌کریم";
       js "پاکدشت"; js "دماوند"; js "فیروزکوه"; js "پردیس"; js "قرچک"; js "پیشوا"; js "شهر ری"]
  ; mkProvince [js "چهارمحال و بختیاری"; js "چهارمحال"; js "بختیاری"] None
      [js "شهرکرد"; js "بروجن"; js "فارسان"; js "لردگان"; js "اردل"; js "کوهرنگ"; js "فرخ‌شهر"]
  ; mkProvince [js "خراسان جنوبی"; js "خراسان"] None
      [js "بیرجند"; js "قائن"; js "فردوس"; js "طبس"; js "نهبندان"; js "سرایان"; js "بشرویه";
       js "سربیشه"]
  ; mkProvince [js "خراسان رضوی"; js "خراسان"] None
      [js "مشهد"; js "نیشابور"; js "سبزوار"; js "تربت حیدریه"; js "قوچان"; js "کاشمر"; js "تربت جام";
       js "گناباد"; js "چناران"; js "سرخس"; js "تایباد"; js "فریمان"; js "خواف"; js "درگز";
       js "بردسکن"; js "دوغارون"; js "طرقبه"; js "شاندیز"]
  ; mkProvince [js "خراسان شمالی"; js "خراسان"] None
      [js "بجنورد"; js "شیروان"; js "اسفراین"; js "جاجرم"; js "فاروج"; js "آشخانه"]
  ; mkProvince [js "خوزستان"] None
      [js "اهواز"; js "آبادان"; js "خرمشهر"; js "دزفول"; js "اندیمشک"; js "بهبهان"; js "ماهشهر";
       js "بندر امام خمینی"; js "شوشتر"; js "شوش"; js "مسجدسلیمان"; js "ایذه"; js "رامهرمز";
       js "شادگان"; js "سوسنگرد"; js "هندیجان"; js "امیدیه"; js "باغملک"; js "هویزه"; js "رامشیر"]
  ; mkProvince [] (Some (js "زنجان"))
      [js "زنجان"; js "ابهر"; js "خرمدره"; js "قیدار"; js "خدابنده"; js "ماهنشان"; js "طارم";
       js "سلطانیه"]
  ; mkProvince [] (Some (js "سمنان"))
      [js "سمنان"; js "شاهرود"; js "دامغان"; js "گرمسار"; js "مهدی‌شهر"; js "آرادان"; js "میامی";
       js "بسطام"]
  ; mkProvince [js "سیستان و بلوچستان"; js "سیستان"; js "بلوچستان"] None
      [js "زاهدان"; js "زابل"; js "چابهار"; js "ایرانشهر"; js "سراوان"; js "خاش"; js "نیکشهر";
       js "کنارک"; js "سرباز"; js "راسک"; js "میرجاوه"; js "دلگان"; js "هیرمند"; js "زهک"; js "فنوج";
       js "قصرقند"; js "بمپور"]
  ; mkProvince [js "فارس"] None
      [js "شیراز"; js "مرودشت"; js "کازرون"; js "جهرم"; js "فسا"; js "لار"; js "داراب"; js "آباده";
       js "فیروزآباد"; js "نی‌ریز"; js "اقلید"; js "لامرد"; js "استهبان"; js "سپیدان";
       js "نورآباد ممسنی"; js "خرامه"; js "زرقان"; js "صفاشهر"; js "گراش"; js "ارسنجان"; js "بوانات";
       js "خنج"; js "سروستان"]
  ; mkProvince [] (Some (js "قزوین"))
      [js "قزوین"; js "تاکستان"; js "آبیک"; js "بوئین‌زهرا"; js "الوند"; js "محمدیه"; js "اقبالیه";
       js "آوج"]
  ; mkProvince [] (Some (js "قم"))
      [js "قم"; js "جعفریه"; js "کهک"; js "سلفچگان"]
  ; mkProvince [js "کردستان"] None
      [js "سنندج"; js "سقز"; js "مریوان"; js "بانه"; js "بیجار"; js "قروه"; js "کامیاران";
       js "دیواندره"; js "دهگلان"; js "سروآباد"]
  ; mkProvince [] (Some (js "کرمان"))
      [js "کرمان"; js "رفسنجان"; js "سیرجان"; js "جیرفت"; js "بم"; js "زرند"; js "کهنوج";
       js "شهربابک"; js "بافت"; js "راور"; js "انار"; js "کوهبنان"; js "بردسیر"; js "عنبرآباد";
       js "منوجان"; js "قلعه گنج"; js "فهرج"; js "ریگان"; js "رابر"; js "نرماشیر"]
  ; mkProvince [] (Some (js "کرمانشاه"))
      [js "کرمانشاه"; js "اسلام‌آباد غرب"; js "کنگاور"; js "هرسین"; js "صحنه"; js "سنقر"; js "پاوه";
       js "جوانرود"; js "قصر شیرین"; js "سرپل ذهاب"; js "گیلانغرب"; js "روانسر"]
  ; mkProvince [js "کهگیلویه و بویراحمد"; js "کهگیلویه"; js "بویراحمد"] None
      [js "یاسوج"; js "دهدشت"; js "گچساران"; js "دوگنبدان"; js "سی‌سخت"; js "لیکک"; js "باشت";
       js "لنده"]
  ; mkProvince [js "گلستان"] None
      [js "گرگان"; js "گنبد کاووس"; js "علی‌آباد کتول"; js "آق‌قلا"; js "کردکوی"; js "بندر ترکمن";
       js "بندر گز"; js "آزادشهر"; js "کلاله"; js "مینودشت"; js "رامیان"; js "گالیکش";
       js "مراوه‌تپه"; js "اینچه برون"]
  ; mkProvince [js "گیلان"] None
      [js "رشت"; js "بندر انزلی"; js "لاهیجان"; js "لنگرود"; js "آستارا"; js "تالش";
       js "آستانه اشرفیه"; js "رودسر"; js "صومعه‌سرا"; js "فومن"; js "منجیل"; js "ماسال";
       js "رضوانشهر"; js "املش"; js "سیاهکل"]
  ; mkProvince [js "لرستان"] None
      [js "خرم‌آباد"; js "بروجرد"; js "دورود"; js "الیگودرز"; js "کوهدشت"; js "ازنا"; js "الشتر";
       js "پل‌دختر"; js "نورآباد"]
  ; mkProvince [js "مازندران"] None
      [js "ساری"; js "بابل"; js "آمل"; js "قائم‌شهر"; js "بهشهر"; js "چالوس"; js "نوشهر";
       js "تنکابن"; js "رامسر"; js "بابلسر"; js "نکا"; js "محمودآباد"; js "فریدونکنار"; js "جویبار";
       js "عباس‌آباد"; js "کلاردشت"; js "پل سفید"; js "گلوگاه"; js "امیرآباد"; js "زیرآب"]
  ; mkProvince [js "مرکزی"] None
      [js "اراک"; js "ساوه"; js "خمین"; js "محلات"; js "دلیجان"; js "شازند"; js "تفرش"; js "آشتیان";
       js "کمیجان"; js "زرندیه"; js "مأمونیه"]
  ; mkProvince [js "هرمزگان"] None
      [js "بندرعباس"; js "بندر عباس"; js "قشم"; js "کیش"; js "بندر لنگه"; js "میناب"; js "جاسک";
       js "رودان"; js "حاجی‌آباد"; js "بستک"; js "پارسیان"; js "بندر خمیر"; js "سیریک";
       js "بندر شهید رجایی"]
  ; mkProvince [] (Some (js "همدان"))
      [js "همدان"; js "ملایر"; js "نهاوند"; js "تویسرکان"; js "اسدآباد"; js "کبودرآهنگ"; js "رزن";
       js "لالجین"; js "فامنین"]
  ; mkProvince [] (Some (js "یزد"))
      [js "یزد"; js "میبد"; js "اردکان"; js "بافق"; js "مهریز"; js "ابرکوه"; js "تفت"; js "اشکذر";
       js "زارچ"; js "بهاباد"; js "مروست"] ].

(** ** Whole words

    [(?:^|[^\p{L}\p{N}])name(?=$|[^\p{L}\p{N}])]: which characters are letters or digits
    is Unicode's to say, of the character a text begins or ends with. *)
Class WordChars := { word_first : text -> bool; word_last : text -> bool }.

Section Words.
  Context `{WordChars}.

Definition word_ends (t : text) : bool := match t with [] => true | _ => negb (word_first t) end.
Definition word_starts (before : text) : bool := match before with [] => true | _ => negb (word_last before) end.

(** [name] stands in [t] as whole words; [before] is what was passed *)
Fixpoint has_words (name before t : text) : bool :=
  word_starts before && starts_with name t && word_ends (drop (length name) t)
  || match t with [] => false | c :: t => has_words name (before ++ [c]) t end.

(** A text with one of the names in it *)
Definition has_place (names : list text) (t : text) : bool := some_b (fun name => has_words name [] t) names.

Context `{Unicode}.

Definition IRAN_CROSSINGS_AND_PORTS : list text :=
  [ js "ایران"; js "لطف‌آباد"; js "باجگیران"; js "پرویزخان"; js "شلمچه"; js "نوردوز"; js "رازی"; js "تمرچین"; js "باشماق"; js "چذابه"
  ; js "میلک"; js "ریمدان"; js "کوهک"; js "جلفا"; js "شهید رجایی"; js "بندر امام خمینی"; js "امیرآباد"; js "بندر انزلی"; js "سرخس"
  ; js "دوغارون" ].

(** «آ» is «ا», and the half space is none *)
Definition looseWords (t : text) : text :=
  remove_chars (fun c => (c =? 8204)%N) (map (fun c => if (c =? 1570)%N then 1575%N else c) (normalizePersianText t)).

Definition without_spaces (t : text) : text := remove_chars (fun c => (c =? 32)%N) t.

Definition IRAN_NAMES : list text :=
  List.filter (fun n => negb (is_empty n)) (map looseWords
    (flat_map (fun p => pv_names p ++ (if negb (is_empty (default [] (pv_capitalNamed p))) then [default [] (pv_capitalNamed p)] else []) ++ pv_cities p) IRAN_PROVINCES
     ++ IRAN_CROSSINGS_AND_PORTS)).

(** The names [IRAN_PLACES] looks for: each one, and without its spaces *)
Definition IRAN_PLACES : list text := flat_map (fun name => [name; without_spaces name]) IRAN_NAMES.

Definition isKnownIranPlace (place : text) : bool :=
  let words := looseWords place in
  has_place IRAN_PLACES words || has_place IRAN_PLACES (without_spaces words).

End Words.
