(* ===== verification/TripTypes.v ===== *)
(** * Where a load goes: domestic, export or import

    [src/services/notification/cargoTripType.ts]: what people type for a kind of trip,
    and [CargoTripTypeService], which places each end of a route inside or outside Iran
    from the known names, the cached routes, the language model and the map.  The answers
    of the model ([llmAnswer]) and of the map ([inIranWorldwide]) come from services
    outside the program. *)

From S2P Require Import Prelude JsNumber JsString Json Effects Enums BrokerDriver DriverProfile Redis FreeText IranPlaces.

(** ** What people type *)

Section Typed.
  Context `{Unicode} `{JsCase}.

(** [Object.values(CargoTripType)] *)
Definition trip_type_of_value (t : text) : option CargoTripType :=
  if bool_decide (t = js "DOMESTIC") then Some TripDomestic
  else if bool_decide (t = js "EXPORT") then Some TripExport
  else if bool_decide (t = js "IMPORT") then Some TripImport
  else None.

Definition parseTripType (value : option text) : option CargoTripType :=
  let t := toLowerCase (trim (default [] value)) in
  if is_empty t then None
  else
    match trip_type_of_value (toUpperCase t) with
    | Some v => Some v
    | None =>
        if includes_text (js "صادر") t || includes_text (js "export") t then Some TripExport
        else if includes_text (js "وارد") t || includes_text (js "import") t then Some TripImport
        else if includes_text (js "داخل") t || includes_text (js "domestic") t then Some TripDomestic
        else None
    end.

(** [/بین.?الملل/]: a line break is no [.] *)
Definition is_line_break (c : N) : bool := bool_decide (c ∈ [10; 13; 8232; 8233]%N).

Fixpoint bein_ol_melal (t : text) : bool :=
  match t with
  | [] => false
  | _ :: t' =>
      starts_with (js "بین") t
      && (starts_with (js "الملل") (drop 3 t)
          || match drop 3 t with c :: r => negb (is_line_break c) && starts_with (js "الملل") r | [] => false end)
      || bein_ol_melal t'
  end.

Definition parseDriverKind (value : option text) : option DriverKind :=
  let t := toLowerCase (trim (default [] value)) in
  if is_empty t then None
  else if bool_decide (t = js "international") || bein_ol_melal t || includes_text (js "خارج") t || includes_text (js "ترانزیت") t
  then Some KInternational
  else (fun k => driverKindForLoad (Some k)) <$> parseTripType (Some t).

End Typed.

(** ** The side of a Latin name *)

Abbreviation Side := (option bool).

(** [name.split(',').pop()], with whether there was a comma *)
Fixpoint last_part (cur : text) (comma : bool) (t : text) : text * bool :=
  match t with
  | [] => (cur, comma)
  | c :: t => if (c =? 44)%N then last_part [] true t else last_part (cur ++ [c]) comma t
  end.

(** [\b] after a letter: no letter, digit or underscore of ASCII follows *)
Definition ascii_word (c : N) : bool :=
  (is_digit c || (65 <=? c) && (c <=? 90) || (97 <=? c) && (c <=? 122) || (c =? 95))%N.

Definition latinSide (name : option text) : Side :=
  match name with
  | None => None
  | Some name =>
      let '(part, comma) := last_part [] false name in
      let country := trim part in
      if is_empty country || negb comma then None
      else
        let upper := map ascii_upper country in
        Some (starts_with (js "IRAN") upper && match drop 4 country with c :: _ => negb (ascii_word c) | [] => true end
              || includes_text (js "ISLAMIC REPUBLIC OF IRAN") upper)
  end.

(** ** Asking *)

Inductive Question :=
| AskSides (strong : bool) (origin destination : text)
| AskLatin (origin destination : text)
| AskMap (place : text).

#[export] Instance Question_eq_dec : EqDecision Question.
Proof. solve_decision. Defined.

(** [llmAnswer]: whether the local model answered, and its answer ([None]: not JSON); and
    the map's.  Both of the n-th question. *)
Class Oracle := {
  llm : nat -> Question -> outcome (bool * option json);
  inIranWorldwide : nat -> text -> outcome Side;
}.

(** [LlmUnavailableError] *)
Definition LLM_UNAVAILABLE : exn := OtherError (js "در حال حاضر انجام این عملیات ممکن نیست؛ لطفاً کمی بعد دوباره تلاش کنید.").
Definition NOT_JSON : exn := OtherError (js "Unexpected token").

Record LatinNames := mkLatin { ln_origin : option text; ln_destination : option text }.

Record route_state := mkRoutes {
  rt_now : time;
  rt_redisUp : bool;
  rt_routes : gmap text ((Side * Side) * time);
  rt_latin : gmap text (LatinNames * time);
  rt_asked : list Question;
}.

Abbreviation RM := (M route_state).

Definition ROUTE_TTL_SECONDS : Z := 180 * 24 * 3600.

Section Routes.
  Context `{Unicode} `{WordChars} `{Oracle}.

(** [`${normalizePersianText(origin)} → ${normalizePersianText(destination)}`] *)
Definition route_key (origin destination : text) : text :=
  normalizePersianText origin ++ js " → " ++ normalizePersianText destination.

(** [JSON.parse] of the answer; a property of [null] is an error *)
Definition ask (q : Question) : RM (bool * json) :=
  s ← get;
  modify (fun s => s <| rt_asked := rt_asked s ++ [q] |>) ;;
  a ← of_outcome (llm (length (rt_asked s)) q);
  match a.2 with
  | None | Some JNull => throw NOT_JSON
  | Some v => mret (a.1, v)
  end.

(** An answer that failed: the error for «not possible now», otherwise [other] *)
Definition unless_unavailable {A} (m : RM A) (other : A) : RM A :=
  try_catch m (fun e => if bool_decide (e = LLM_UNAVAILABLE) then throw e else mret other).

Definition side_value (v : option json) : Side := match v with Some (JBool b) => Some b | _ => None end.

(** The sides, and whether the local model said so *)
Definition askModel (origin destination : text) (strong : bool) : RM (option ((Side * Side) * bool)) :=
  unless_unavailable
    (a ← ask (AskSides strong origin destination);
     mret (Some ((side_value (member "origin_in_iran" a.2), side_value (member "destination_in_iran" a.2)), a.1)))
    None.

Definition latin_name (v : option json) : option text :=
  match v with Some (JStr t) => if is_empty (trim t) then None else Some (trim t) | _ => None end.

(** [redis.getJson(key).catch(() => null)], [setJson(…).catch(() => undefined)] *)
Definition cached {A} (get_table : route_state -> gmap text (A * time)) (key : text) : RM (option A) :=
  gets (fun s => if rt_redisUp s then redis_get (get_table s) (rt_now s) key else None).

Definition keep_latin (key : text) (names : LatinNames) : RM unit :=
  modify (fun s => if rt_redisUp s then s <| rt_latin := redis_set (rt_latin s) (rt_now s) key names ROUTE_TTL_SECONDS |> else s).

Definition keep_route (key : text) (sides : Side * Side) : RM unit :=
  modify (fun s => if rt_redisUp s then s <| rt_routes := redis_set (rt_routes s) (rt_now s) key sides ROUTE_TTL_SECONDS |> else s).

Definition latinNames (origin destination : text) : RM LatinNames :=
  let key := route_key origin destination in
  found ← cached rt_latin key;
  match found with
  | Some names => mret names
  | None =>
      unless_unavailable
        (a ← ask (AskLatin origin destination);
         let names := mkLatin (latin_name (member "origin" a.2)) (latin_name (member "destination" a.2)) in
         when (negb a.1 && negb (is_null (ln_origin names) && is_null (ln_destination names))) (keep_latin key names) ;;
         mret names)
        (mkLatin None None)
  end.

Definition lookupMap (place : text) : RM Side :=
  s ← get;
  modify (fun s => s <| rt_asked := rt_asked s ++ [AskMap place] |>) ;;
  mret (match inIranWorldwide (length (rt_asked s)) place with Ok side => side | Err _ => None end).

(** [known]: an empty place is nowhere, a known one in Iran, any other ([None]) is asked *)
Definition known_side (place : text) : option Side :=
  if is_empty (looseWords place) then Some None else if isKnownIranPlace place then Some (Some true) else None.

(** A side still unknown after the model: [known[i] === undefined && sides[i] === null] *)
Definition open_side (known : option Side) (answer : Side) : bool := is_null known && is_null answer.

(** One end, and whether only the map said so *)
Definition settle_side (known : option Side) (answer : Side) (latin : option text) (place : text) : RM (Side * bool) :=
  match known, answer, latinSide latin with
  | Some side, _, _ => mret (side, false)
  | None, Some b, _ => mret (Some b, false)
  | None, None, Some b => mret (Some b, false)
  | None, None, None => side ← lookupMap place; mret (side, true)
  end.

Definition side_from (answer : option ((Side * Side) * bool)) : Side * Side := match answer with Some a => a.1 | None => (None, None) end.

Definition is_local (answer : option ((Side * Side) * bool)) : bool := match answer with Some a => a.2 | None => false end.

(** The light model, and the strong one where OpenAI's light one left a side unknown *)
Definition ask_route (known : option Side * option Side) (origin destination : text) : RM (option ((Side * Side) * bool)) :=
  answer ← askModel origin destination false;
  match answer with
  | Some ((a, b), false) =>
      if open_side known.1 a || open_side known.2 b then
        strong ← askModel origin destination true;
        mret (match strong with Some x => Some x | None => answer end)
      else mret answer
  | _ => mret answer
  end.

Definition locate_new (known : option Side * option Side) (origin destination : text) : RM (Side * Side) :=
  answer ← ask_route known origin destination;
  let sides := side_from answer in
  latin ← (if open_side known.1 sides.1 || open_side known.2 sides.2 then latinNames origin destination else mret (mkLatin None None));
  from ← settle_side known.1 sides.1 (ln_origin latin) origin;
  to ← settle_side known.2 sides.2 (ln_destination latin) destination;
  when (negb (is_null from.1) && negb (is_null to.1) && negb (from.2 || to.2) && negb (is_local answer))
    (keep_route (route_key origin destination) (from.1, to.1)) ;;
  mret (from.1, to.1).

Definition locate (origin destination : text) : RM (Side * Side) :=
  match known_side origin, known_side destination with
  | Some a, Some b => mret (a, b)
  | a, b =>
      found ← cached rt_routes (route_key origin destination);
      match found with
      | Some sides => mret sides
      | None => locate_new (a, b) origin destination
      end
  end.

Definition type_of_sides (sides : Side * Side) : option CargoTripType :=
  match sides with
  | (None, _) | (_, None) => None
  | (Some true, Some true) => Some TripDomestic
  | (Some true, Some false) => Some TripExport
  | (Some false, Some true) => Some TripImport
  | (Some false, Some false) => Some TripExport
  end.

Definition classify (origin destination : text) : RM (option CargoTripType) :=
  sides ← locate origin destination;
  mret (type_of_sides sides).

Definition classifyListing (origin destination : text) : RM CargoTripType :=
  t ← classify origin destination;
  mret (default TripDomestic t).

End Routes.

(** ** Where a load goes: what is kept of an answer *)

Section Facts.
  Context `{Unicode} `{WordChars} `{Oracle}.

(** From [s] on, only the language model was asked, and no route was kept. *)
Definition calm (s s1 : route_state) : Prop :=
  (exists qs, rt_asked s1 = rt_asked s ++ qs /\ forall p, AskMap p ∉ qs) /\
  rt_routes s1 = rt_routes s /\ rt_now s1 = rt_now s /\ rt_redisUp s1 = rt_redisUp s.

Lemma calm_refl s : calm s s.
Proof. split; [|done]. exists []. rewrite app_nil_r. split; [done|]. intros p. apply not_elem_of_nil. Qed.

Lemma ask_calm s q : (forall p, q <> AskMap p) -> preserves (calm s) (ask q).
Proof.
  intros Hq. unfold ask. apply preserves_get_bind. intros s0 _. apply preserves_bind.
  - apply preserves_modify. intros s1 ((qs & Ha & Hm) & Hr & Hn & Hu). split; [|done]. exists (qs ++ [q]).
    change (rt_asked (s1 <| rt_asked := rt_asked s1 ++ [q] |>)) with (rt_asked s1 ++ [q]). rewrite Ha, <- (assoc_L app). split; [done|].
    intros p. rewrite elem_of_app, list_elem_of_singleton. intros [Hp|Hp]; [by eapply Hm | by eapply Hq].
  - intros _. preserve.
Qed.

Lemma askModel_calm s o d strong : preserves (calm s) (askModel o d strong).
Proof. unfold askModel, unless_unavailable. preserve. by apply ask_calm. Qed.

Lemma cached_calm {A} (s : route_state) (f : route_state -> gmap text (A * time)) (key : text) : preserves (calm s) (cached f key).
Proof. apply preserves_gets. Qed.

Lemma keep_latin_calm s k names : preserves (calm s) (keep_latin k names).
Proof. apply preserves_modify. intros s1 Hs. by destruct (rt_redisUp s1). Qed.

Lemma latinNames_calm s o d : preserves (calm s) (latinNames o d).
Proof.
  unfold latinNames, unless_unavailable. cbv zeta. apply preserves_bind; [apply cached_calm|]. intros found.
  destruct found; [apply preserves_ret|]. preserve; [by apply ask_calm | apply keep_latin_calm].
Qed.

Lemma ask_route_calm s known o d : preserves (calm s) (ask_route known o d).
Proof. unfold ask_route. preserve; apply askModel_calm. Qed.

(** Without a question to the map, a side is settled where it stands. *)
Lemma settle_side_run known answer latin place s :
  (exists side, settle_side known answer latin place s = (Ok (side, false), s)) \/
  (exists side s1, settle_side known answer latin place s = (Ok (side, true), s1) /\ rt_routes s1 = rt_routes s).
Proof.
  unfold settle_side. destruct known; [left; by eexists|]. destruct answer; [left; by eexists|].
  destruct (latinSide latin); [left; by eexists|]. right. unfold lookupMap. do 2 eexists. by split.
Qed.

Definition kept (o d : text) (sides : Side * Side) (s : route_state) : route_state :=
  s <| rt_routes := redis_set (rt_routes s) (rt_now s) (route_key o d) sides ROUTE_TTL_SECONDS |>.

(** What [locate_new] leaves: nothing kept, or a route kept that only the model spoke of *)
Lemma locate_new_run known o d s sides s1 : locate_new known o d s = (Ok sides, s1) ->
  rt_routes s1 = rt_routes s \/
  exists s0, calm s s0 /\ s1 = kept o d sides s0 /\ rt_redisUp s = true /\ sides.1 <> None /\ sides.2 <> None.
Proof.
  intros Hrun. unfold locate_new in Hrun. apply bind_Ok_inv in Hrun as (answer & s2 & R1 & Hrun).
  pose proof (ask_route_calm s known o d s (calm_refl s)) as C1. unfold final in C1. rewrite R1 in C1. cbn [snd] in C1.
  cbv zeta in Hrun. apply bind_Ok_inv in Hrun as (latin & s3 & R2 & Hrun).
  assert (C2 : calm s s3).
  { destruct (_ || _) in R2; [|by injection R2 as _ <-].
    pose proof (latinNames_calm s o d s2 C1) as C. unfold final in C. by rewrite R2 in C. }
  assert (R3 : rt_routes s3 = rt_routes s) by (by destruct C2 as (_ & -> & _)).
  rewrite run_bind in Hrun.
  destruct (settle_side_run known.1 (side_from answer).1 (ln_origin latin) o s3) as [(a & E)|(a & s4 & E & R4)]; rewrite E in Hrun;
    rewrite run_bind in Hrun.
  - destruct (settle_side_run known.2 (side_from answer).2 (ln_destination latin) d s3) as [(b & E2)|(b & s5 & E2 & R5)]; rewrite E2 in Hrun;
      cbn [fst snd] in Hrun; apply bind_Ok_inv in Hrun as ([] & s6 & R6 & Hrun); injection Hrun as <- <-; unfold when in R6.
    + pose proof C2 as (_ & _ & _ & Hu).
      destruct (negb (is_null a) && negb (is_null b) && negb (false || false) && negb (is_local answer)) eqn:Ew;
        [|injection R6 as <-; by left].
      unfold keep_route, modify in R6. injection R6 as <-. destruct (rt_redisUp s3) eqn:Eu; [|by left].
      right. exists s3. split; [exact C2|]. split; [done|]. split; [done|]. destruct a, b; done.
    + cbn [orb negb] in R6. rewrite andb_false_r in R6. injection R6 as <-. left. congruence.
  - left. destruct (settle_side_run known.2 (side_from answer).2 (ln_destination latin) d s4) as [(b & E2)|(b & s5 & E2 & R5)]; rewrite E2 in Hrun;
      cbn [fst snd] in Hrun; apply bind_Ok_inv in Hrun as ([] & s6 & R6 & Hrun); injection Hrun as <- <-; unfold when in R6;
      cbn [orb negb] in R6; rewrite andb_false_r in R6; injection R6 as <-; congruence.
Qed.
End Facts.

(** ** What is kept *)

Lemma known_side_same `{Unicode} `{WordChars} o o' : normalizePersianText o' = normalizePersianText o -> known_side o' = known_side o.
Proof. intros E. unfold known_side, isKnownIranPlace, looseWords. by rewrite E. Qed.

(** An answer kept for half a year is one the map had no part in, and it stands: when
    placing a route keeps its two sides, both are known and only the language model was
    asked, and for the next 180 days the route, however it is spelled, is of the same type
    without anyone being asked, whatever the model or the map would say by then. *)
Theorem kept_route_stands `{Unicode} `{WordChars} `{Oracle} (o d : text) (s s1 : route_state) (sides : Side * Side) :
  locate o d s = (Ok sides, s1) -> rt_routes s1 <> rt_routes s ->
  (exists qs, rt_asked s1 = rt_asked s ++ qs /\ forall p, AskMap p ∉ qs) /\
  sides.1 <> None /\ sides.2 <> None /\
  forall (later : Oracle) (o' d' : text) (s2 : route_state),
    normalizePersianText o' = normalizePersianText o -> normalizePersianText d' = normalizePersianText d ->
    rt_routes s2 = rt_routes s1 -> rt_redisUp s2 = true -> rt_now s2 <= rt_now s + ROUTE_TTL_SECONDS * 1000 ->
    @classify _ _ later o' d' s2 = (Ok (type_of_sides sides), s2).
Proof.
  intros Hrun Hne. unfold locate in Hrun.
  assert (Hnew : exists s0, calm s s0 /\ s1 = kept o d sides s0 /\ rt_redisUp s = true /\ sides.1 <> None /\ sides.2 <> None /\
                 (known_side o = None \/ known_side d = None)).
  { destruct (known_side o) as [a|] eqn:Eo, (known_side d) as [b|] eqn:Ed;
      [by injection Hrun as _ <-| | |]; apply bind_Ok_inv in Hrun as (found & s3 & R1 & Hrun); unfold cached, gets in R1;
      injection R1 as <- <-; (destruct (if rt_redisUp s then _ else _); [by injection Hrun as _ <-|]);
      apply locate_new_run in Hrun as [E|(s0 & C & E & U & A & B)]; try done; exists s0; split_and!; auto. }
  destruct Hnew as (s0 & (Ha & Hr & Hn & Hu) & -> & Hup & N1 & N2 & Hk).
  split; [exact Ha|]. split; [done|]. split; [done|]. intros later o' d' s2 Eo Ed Er Eu Ht.
  unfold classify. rewrite run_bind. unfold locate. rewrite (known_side_same o o' Eo), (known_side_same d d' Ed).
  assert (Hc : (if rt_redisUp s2 then redis_get (rt_routes s2) (rt_now s2) (route_key o' d') else None) = Some sides).
  { rewrite Eu, Er. unfold route_key. rewrite Eo, Ed. fold (route_key o d).
    change (rt_routes (kept o d sides s0)) with (redis_set (rt_routes s0) (rt_now s0) (route_key o d) sides ROUTE_TTL_SECONDS).
    unfold redis_get, redis_set. rewrite lookup_insert_eq, Hn, (proj2 (Z.leb_le _ _) Ht). done. }
  destruct (known_side o), (known_side d); [by destruct Hk|..]; rewrite run_bind; unfold cached, gets; rewrite Hc; done.
Qed.

(** The local model's word is kept all the same: «the local model's answer is not cached»
    holds for the sides it is asked, but not for the Latin names.  Where OpenAI left an
    end unknown and the local model then names it, that name decides the side, and the
    route is kept for 180 days. *)
Theorem local_latin_kept `{Unicode} `{WordChars} `{Oracle} (o d : text) (s : route_state) (v w : json) (b : bool) :
  known_side o = Some (Some true) -> known_side d = None ->
  rt_redisUp s = true -> redis_get (rt_routes s) (rt_now s) (route_key o d) = None -> redis_get (rt_latin s) (rt_now s) (route_key o d) = None ->
  (forall n strong, llm n (AskSides strong o d) = Ok (false, Some v)) -> v <> JNull -> side_value (member "destination_in_iran" v) = None ->
  (forall n, llm n (AskLatin o d) = Ok (true, Some w)) -> w <> JNull -> latinSide (latin_name (member "destination" w)) = Some b ->
  exists s1, classify o d s = (Ok (Some (if b then TripDomestic else TripExport)), s1) /\
    rt_asked s1 = rt_asked s ++ [AskSides false o d; AskSides true o d; AskLatin o d] /\
    redis_get (rt_routes s1) (rt_now s + ROUTE_TTL_SECONDS * 1000) (route_key o d) = Some (Some true, Some b).
Proof.
  intros Ko Kd Hu Hr Hl Hv Hvn Hvs Hw Hwn Hws.
  assert (Hask : forall q c j s2, llm (length (rt_asked s2)) q = Ok (c, Some j) -> j <> JNull ->
            ask q s2 = (Ok (c, j), s2 <| rt_asked := rt_asked s2 ++ [q] |>)).
  { intros q c j s2 E Hj. unfold ask. rewrite run_bind. unfold get. cbv beta iota. rewrite run_bind. unfold modify. cbv beta iota.
    rewrite run_bind. unfold of_outcome. rewrite E. cbn [snd fst]. by destruct j. }
  assert (Hm : forall strong s2, askModel o d strong s2
            = (Ok (Some ((side_value (member "origin_in_iran" v), None), false)), s2 <| rt_asked := rt_asked s2 ++ [AskSides strong o d] |>)).
  { intros strong s2. unfold askModel, unless_unavailable, try_catch. rewrite run_bind, (Hask _ _ _ _ (Hv _ _) Hvn). cbn. by rewrite Hvs. }
  unfold classify. rewrite run_bind. unfold locate. rewrite Ko, Kd, run_bind. unfold cached at 1, gets. rewrite Hu, Hr.
  unfold locate_new. rewrite run_bind. unfold ask_route. rewrite run_bind, Hm. cbn [fst snd open_side is_null andb orb].
  rewrite run_bind, Hm, run_ret. cbn [side_from fst snd open_side is_null andb orb]. set (s2 := _ <| rt_asked := _ |>).
  rewrite run_bind. unfold latinNames. cbv zeta. rewrite run_bind. unfold cached, gets.
  assert (U2 : rt_redisUp s2 = true) by exact Hu. assert (L2 : redis_get (rt_latin s2) (rt_now s2) (route_key o d) = None) by exact Hl.
  rewrite U2, L2. unfold unless_unavailable, try_catch. rewrite run_bind, (Hask _ _ _ _ (Hw _) Hwn). cbn [fst snd negb andb when].
  rewrite run_bind, !run_ret. cbn [ln_origin ln_destination]. rewrite run_bind. unfold settle_side. rewrite run_ret.
  rewrite run_bind, Hws, run_ret. cbn [fst snd is_null negb andb orb is_local when].
  rewrite run_bind. unfold keep_route, modify. set (s3 := s2 <| rt_asked := _ |>). assert (U3 : rt_redisUp s3 = true) by exact Hu. rewrite U3.
  rewrite run_ret. rewrite run_ret. eexists. split; [by destruct b|]. split.
  - change (rt_asked s3 = rt_asked s ++ [AskSides false o d; AskSides true o d; AskLatin o d]).
    change (((rt_asked s ++ [AskSides false o d]) ++ [AskSides true o d]) ++ [AskLatin o d] = rt_asked s ++ [AskSides false o d; AskSides true o d; AskLatin o d]).
    by rewrite <- !(assoc_L app).
  - change (redis_get (redis_set (rt_routes s) (rt_now s) (route_key o d) (Some true, Some b) ROUTE_TTL_SECONDS)
              (rt_now s + ROUTE_TTL_SECONDS * 1000) (route_key o d) = Some (Some true, Some b)).
    unfold redis_get, redis_set. by rewrite lookup_insert_eq, Z.leb_refl.
Qed.

(** ** At work: from Tehran to a place no list knows *)

#[local] Instance plain_unicode : Unicode := {| nfkc t := t; toLowerCase t := t |}.

Definition is_letter (c : N) : bool := ((1536 <=? c) && (c <=? 1791) || (65 <=? c) && (c <=? 122))%N.

#[local] Instance plain_words : WordChars := {|
  word_first t := match t with c :: _ => is_letter c | [] => false end;
  word_last t := match rev t with c :: _ => is_letter c | [] => false end |}.

Definition sides_answer (from to : json) : json := JObj [("origin_in_iran"%string, from); ("destination_in_iran"%string, to)].

(** OpenAI knows the place. *)
Definition knowing : Oracle := {|
  llm _ q := match q with AskSides _ _ _ => Ok (false, Some (sides_answer (JBool true) (JBool false))) | _ => Err NOT_JSON end;
  inIranWorldwide _ _ := Err NOT_JSON |}.

(** OpenAI does not, and the local model takes it for a town of Iran. *)
Definition local_guess : json := JObj [("origin"%string, JStr (js "Tehran, Iran")); ("destination"%string, JStr (js "Pelun, Iran"))].

Definition guessing : Oracle := {|
  llm _ q := match q with AskSides _ _ _ => Ok (false, Some (sides_answer (JBool true) JNull)) | AskLatin _ _ => Ok (true, Some local_guess) | _ => Err NOT_JSON end;
  inIranWorldwide _ _ := Err NOT_JSON |}.

Definition no_routes : route_state := mkRoutes 1000 true ∅ ∅ [].

Lemma kept_route_stands_witness :
  exists s1, @locate _ _ knowing (js "تهران") (js "پلون") no_routes = (Ok (Some true, Some false), s1) /\
    @classify _ _ guessing (js " تهران ") (js "پلون") s1 = (Ok (Some TripExport), s1).
Proof.
  destruct (@locate _ _ knowing (js "تهران") (js "پلون") no_routes) as [[sides|e] s1] eqn:E; [|exfalso; vm_compute in E; discriminate].
  assert (Es : sides = (Some true, Some false)) by (vm_compute in E; injection E as <- _; reflexivity). subst sides.
  assert (Er : rt_redisUp s1 = true /\ rt_now s1 = 1000) by (vm_compute in E; injection E as <-; by split).
  assert (Hne : rt_routes s1 <> rt_routes no_routes).
  { intros Hr. assert (H : rt_routes s1 !! route_key (js "تهران") (js "پلون") = None) by (rewrite Hr; apply lookup_empty).
    vm_compute in E. injection E as <-. vm_compute in H. discriminate. }
  destruct (@kept_route_stands _ _ knowing _ _ _ _ _ E Hne) as (_ & _ & _ & H).
  exists s1. split; [reflexivity|]. destruct Er as [Eu En].
  apply (H guessing); [vm_compute; reflexivity | reflexivity | reflexivity | exact Eu | rewrite En; vm_compute; discriminate].
Defined.

Lemma local_latin_kept_witness :
  exists s1, @classify _ _ guessing (js "تهران") (js "پلون") no_routes = (Ok (Some TripDomestic), s1) /\
    redis_get (rt_routes s1) (1000 + ROUTE_TTL_SECONDS * 1000) (route_key (js "تهران") (js "پلون")) = Some (Some true, Some true).
Proof.
  destruct (@local_latin_kept _ _ guessing (js "تهران") (js "پلون") no_routes (sides_answer (JBool true) JNull) local_guess true) as (s1 & H1 & _ & H2).
  - vm_compute; reflexivity.
  - vm_compute; reflexivity.
  - reflexivity.
  - reflexivity.
  - reflexivity.
  - reflexivity.
  - discriminate.
  - reflexivity.
  - reflexivity.
  - discriminate.
  - vm_compute; reflexivity.
  - exists s1. split; [exact H1 | exact H2].
Defined.
