(* ===== verification/Audience.v ===== *)
(** * Who hears of a load

    [src/infrastructure/repositories/notification/cargoAudience.repository.ts]: the
    drivers a load is announced to, and which users are companies.  The query of
    [findDriverIds] reads the users, roles, subscriptions and bonuses of
    [SubscriptionData] and the profiles of [DriverProfile]. *)

From S2P Require Import Prelude JsNumber JsString Json Effects Enums DriverProfile SubscriptionPolicy SubscriptionData SubscriptionAccess SubscriptionPolicyFacts SubscriptionFacts PaymentSystem AccessFacts.

Definition DRIVER : string := "DRIVER".
Definition COMPANY_ROLES : list string := ["COMPANY"; "COMPANY_ADMIN"].

(** What the query reads: the switch [driverVerificationOn] and the users whose
    [verificationStatus] is [APPROVED] among it *)
Record audience := mkAudience {
  au_subs : sub_state;
  au_profiles : gmap uuid DriverProfile;
  au_verification : bool;
  au_approved : gset uuid;
}.

(** [isParentCompany] *)
Definition isParentCompany (s : sub_state) (userId : uuid) : bool :=
  match su_users s !! userId with Some u => us_isParentCompany u | None => false end.

(** [filterCompanyUserIds] *)
Definition filterCompanyUserIds (s : sub_state) (userIds : list uuid) : list uuid :=
  List.filter (fun id => match su_users s !! id with
                         | Some u => eqb (us_recordStatus u) RecActive && some_b (has_active_role s id) COMPANY_ROLES
                         | None => false
                         end) userIds.

Section Audience.
  Context `{JsDate}.

(** A subscription in force, the joined row of the query *)
Definition has_subscription (s : sub_state) (userId : uuid) (now : time) : bool :=
  exists_row (fun b => (sb_userId b =? userId)%N && eqb (sb_status b) SubActive && (sb_startAt b <=? now) && (now <? sb_expireAt b))
    (su_subscriptions s).

(** [EXISTS (SELECT 1 FROM "SubscriptionBonus" …)] *)
Definition has_bonus (s : sub_state) (userId : uuid) (now : time) : bool :=
  exists_row (fun b => (bo_userId b =? userId)%N && (bo_startAt b <=? now) && (now <? bo_expireAt b)) (su_bonuses s).

(** [GREATEST(user.createdAt, :trialStartedAt) + make_interval(days => :trialDays) > :now] *)
Definition in_trial (u : UserRow) (trialStart : time) (days : Z) (now : time) : bool :=
  now <? Z.max (us_createdAt u) trialStart + days * DAY_MS.

Definition may_work (s : sub_state) (u : UserRow) (enforced : bool) (days : Z) (trialStart now : time) : bool :=
  negb enforced || has_subscription s (us_id u) now || in_trial u trialStart days now || has_bonus s (us_id u) now.

(** [profile.tripTypes && …], [profile.companyUserIds @> …] *)
Definition profile_takes (a : audience) (userId : uuid) (tripType : option CargoTripType) (publisher : option uuid) : bool :=
  match tripType, publisher with
  | None, None => true
  | _, _ =>
      match au_profiles a !! userId with
      | None => false
      | Some d =>
          match tripType with Some t => audience_test d t | None => true end
          && match publisher with
             | Some p => isParentCompany (au_subs a) p || bool_decide (p ∈ dp_companyUserIds d)
             | None => true
             end
      end
  end.

Definition hears (a : audience) (rule : bool * Z * time) (tripType : option CargoTripType) (publisher : option uuid) (now : time)
    (u : UserRow) : bool :=
  let '(enforced, days, trialStart) := rule in
  has_active_role (au_subs a) (us_id u) DRIVER
  && may_work (au_subs a) u enforced days trialStart now
  && profile_takes a (us_id u) tripType publisher
  && (negb (au_verification a) || bool_decide (us_id u ∈ au_approved a))
  && eqb (us_recordStatus u) RecActive.

(** [findDriverIds]; the parameter of a start that is no date is refused by the database,
    and only sent while drivers must pay *)
Definition findDriverIds (a : audience) (rule : bool * Z * text) (tripType : option CargoTripType) (publisher : option uuid) (now : time)
    : outcome (list uuid) :=
  let '(enforced, days, startedAt) := rule in
  match Date_parse startedAt, enforced with
  | None, true => Err (QueryFailed "22007")
  | start, _ => Ok (map us_id (find_rows (hears a (enforced, days, default 0 start) tripType publisher now) (su_users (au_subs a))))
  end.

End Audience.

(** ** Who hears of a load: the same drivers that may work *)

Section Facts.
  Context `{JsDate}.

Lemma has_subscription_spec s u : has_subscription s u (su_now s) = negb (is_null (active_subscription s u)).
Proof.
  apply eq_true_iff_eq. rewrite negb_true_iff. destruct (active_subscription s u) as [b|] eqn:E; cbn [is_null]; split; try done.
  - intros _. apply exists_row_true. unfold active_subscription in E.
    assert (Hin : b ∈ find_rows (fun b => runs_past u (su_now s) b && (sb_startAt b <=? su_now s)) (su_subscriptions s)).
    { revert E. generalize (find_rows (fun b => runs_past u (su_now s) b && (sb_startAt b <=? su_now s)) (su_subscriptions s)).
      intros l. revert b. induction l as [|c l IH]; intros b; cbn [last_to_end]; [done|].
      destruct (last_to_end l) as [e|]; [destruct (_ <? _)|]; intros [= ->]; set_solver. }
    apply elem_of_find_rows in Hin as [Hb (i & Hi)]. exists i, b. split; [done|]. unfold runs_past in Hb.
    rewrite !andb_true_iff in *. tauto.
  - rewrite active_subscription_None in E. intros (i & b & Hi & Hb)%exists_row_true. exfalso. rewrite !andb_true_iff in Hb.
    destruct Hb as [[[Hu%N.eqb_eq Hst%eqb_eq] H1%Z.leb_le] H2%Z.ltb_lt]. by eapply (E i b Hi Hu Hst).
Qed.

Lemma has_bonus_spec s u t : has_bonus s u t = negb (is_null (active_until s u t)).
Proof.
  apply eq_true_iff_eq. rewrite negb_true_iff. destruct (active_until s u t) as [x|] eqn:E; cbn [is_null]; split; try done.
  - intros _. unfold has_bonus. destruct (exists_row _ _) eqn:Ex; [done|]. rewrite exists_row_false in Ex.
    assert (En : active_until s u t = None); [|congruence]. apply active_until_None. intros i b Hb Hu [H1 H2].
    specialize (Ex i b Hb). cbn beta in Ex. rewrite Hu, N.eqb_refl in Ex. lia.
  - rewrite active_until_None in E. intros (i & b & Hi & Hb)%exists_row_true. exfalso. rewrite !andb_true_iff in Hb.
    destruct Hb as [[Hu%N.eqb_eq H1%Z.leb_le] H2%Z.ltb_lt]. by eapply (E i b Hi Hu).
Qed.

(** A driver that is neither a parent company nor a factory: the query lets it through
    exactly when [check] allows it. *)
Lemma may_work_allowed p s u x start : su_users s !! u = Some x -> us_id x = u -> is_driver s u = true -> free_account s u = false ->
  Date_parse (driverTrialStartedAt p) = Some start ->
  may_work s x (driversEnforced p) (driverTrialDays p) start (su_now s) = fst (access_decision p s u (su_now s)).
Proof.
  intros Hx Hid Hd Hf Hs. unfold may_work. rewrite Hid, has_subscription_spec, has_bonus_spec. unfold access_decision. rewrite Hf, Hd.
  unfold trial_of. rewrite Hx, Hd. unfold trial_end. rewrite Hs. unfold in_trial.
  destruct (active_subscription s u); [by rewrite orb_true_r|]. destruct (active_until s u (su_now s)); [by rewrite !orb_true_r|].
  destruct (driversEnforced p); [|done]. cbn [negb orb is_null]. rewrite orb_false_r. by destruct (_ <? _).
Qed.

End Facts.

(** C12: Loads go to the drivers that may work, and to no others: asked at this instant with
    the rule in force, the query of the audience gives a driver (that is neither a parent
    company nor a factory) exactly when [SubscriptionAccessService] lets it work, its
    profile takes the load's kind and its publisher (a parent company's load needs no
    membership), it is checked where checking is on, and its account is active. *)
Theorem audience_may_work `{JsDate} (a : audience) (tripType : CargoTripType) (publisher u : uuid) (x : UserRow) :
  let s := au_subs a in
  (forall k y, su_users s !! k = Some y -> us_id y = k) ->
  su_users s !! u = Some x -> is_driver s u = true -> free_account s u = false ->
  exists p ac s1, result (policy (getPolicy THIS_INSTANCE)) s = Ok p /\ check u (su_now s) s = (Ok ac, s1) /\
    (forall start, Date_parse (driverTrialStartedAt p) = Some start ->
     exists ids, findDriverIds a (driversEnforced p, driverTrialDays p, driverTrialStartedAt p) (Some tripType) (Some publisher) (su_now s) = Ok ids /\
      (u ∈ ids <->
        ac_allowed ac = true /\ us_recordStatus x = RecActive /\ (au_verification a = true -> u ∈ au_approved a) /\
        exists d, au_profiles a !! u = Some d /\
          (exists t, t ∈ dp_tripTypes d /\ driverKindForLoad (Some t) = driverKindForLoad (Some tripType)) /\
          (isParentCompany s publisher = true \/ publisher ∈ dp_companyUserIds d))).
Proof.
  intros s Hids Hx Hd Hf. destruct (check_run s u (su_now s)) as (p & ac & s1 & Hp & Hc & Hdec). exists p, ac, s1. split; [done|]. split; [done|].
  intros start Hs. unfold findDriverIds. rewrite Hs. eexists. split; [reflexivity|].
  pose proof (Hids u x Hx) as Hid.
  assert (Eu : forall r, u ∈ map us_id (find_rows r (su_users s)) <-> r x = true).
  { intros r. rewrite list_elem_of_In, in_map_iff. split.
    - intros (y & Hy & Hin). apply list_elem_of_In, elem_of_find_rows in Hin as [Hr (k & Hk)]. pose proof (Hids k y Hk) as Hk2.
      assert (k = u) as -> by congruence. congruence.
    - intros Hr. exists x. split; [done|]. apply list_elem_of_In, elem_of_find_rows. eauto. }
  fold s. rewrite Eu. unfold hears. fold s. change (default 0 (Some start)) with start. rewrite !andb_true_iff, (may_work_allowed p s u x start Hx Hid Hd Hf Hs).
  replace (fst (access_decision p s u (su_now s))) with (ac_allowed ac) by (by rewrite <- Hdec).
  assert (Hrole : has_active_role s (us_id x) DRIVER = true).
  { rewrite Hid. revert Hd. unfold is_driver. by rewrite Hx. }
  unfold profile_takes. rewrite Hid, eqb_true, orb_true_iff, negb_true_iff, bool_decide_eq_true.
  assert (Hv : (au_verification a = false \/ u ∈ au_approved a) <-> (au_verification a = true -> u ∈ au_approved a)).
  { destruct (au_verification a); naive_solver. }
  rewrite Hv. rewrite Hid in Hrole. destruct (au_profiles a !! u) as [d|]; [|naive_solver].
  rewrite andb_true_iff, orb_true_iff, bool_decide_eq_true. fold s.
  assert (Ht : audience_test d tripType = true <-> exists t, t ∈ dp_tripTypes d /\ driverKindForLoad (Some t) = driverKindForLoad (Some tripType)).
  { unfold audience_test. rewrite some_b_true. split.
    - intros (t & H1 & H2). exists t. apply bool_decide_eq_true in H2. split; [done|]. destruct t, tripType; cbn in *; (done || set_solver).
    - intros (t & H1 & H2). exists t. split; [done|]. apply bool_decide_eq_true. destruct t, tripType; cbn in *; (done || set_solver). }
  rewrite Ht. clear - Hrole. unfold DRIVER in *. naive_solver.
Qed.

(** ** At work: driver 5, in its trial, a member of company 10 *)

#[local] Existing Instance rollout_only.

Definition sample_account : UserRow := mkUser 5 (js "ali") None RecActive false 900.

Definition sample_audience : audience := {|
  au_subs := {| su_now := 1000; su_config := mkReceiptConfig None None None None; su_plans := ∅; su_orders := ∅; su_receipts := ∅;
                su_subscriptions := ∅; su_bonuses := ∅; su_users := {[ 5%N := sample_account ]};
                su_roles := {[ 1%N := mkRole 1%N "DRIVER"%string RecActive ]}; su_userRoles := {[ (5%N, 1%N) ]}; su_links := [];
                su_policy := mkPolicyState 1000 true None true None ∅; su_announced := [] |};
  au_profiles := {[ 5%N := mkProfile None None None TripDomestic [TripDomestic] [10%N] false None None ]};
  au_verification := true;
  au_approved := {[ 5%N ]} |}.

Lemma audience_may_work_witness :
  exists ids, findDriverIds sample_audience (driversEnforced DEFAULT_POLICY, driverTrialDays DEFAULT_POLICY, driverTrialStartedAt DEFAULT_POLICY)
                (Some TripDomestic) (Some 10%N) 1000 = Ok ids /\ 5%N ∈ ids.
Proof.
  destruct (audience_may_work sample_audience TripDomestic 10 5 sample_account) as (p & ac & s1 & Hp & Hc & H).
  - intros k y Hy. change (({[ 5%N := sample_account ]} : gmap uuid UserRow) !! k = Some y) in Hy. by apply lookup_singleton_Some in Hy as [<- <-].
  - vm_compute; reflexivity.
  - vm_compute; reflexivity.
  - vm_compute; reflexivity.
  - assert (p = DEFAULT_POLICY) as -> by (vm_compute in Hp; injection Hp as <-; vm_compute; reflexivity).
    assert (Ha : ac_allowed ac = true) by (vm_compute in Hc; injection Hc as <- _; reflexivity).
    destruct (H 1792886400000 eq_refl) as (ids & Hi & Hu). exists ids. split; [exact Hi|].
    apply Hu. split; [exact Ha|]. split; [reflexivity|]. split; [intros _; set_solver|].
    exists (mkProfile None None None TripDomestic [TripDomestic] [10%N] false None None). split; [reflexivity|].
    split; [exists TripDomestic; split; [set_solver|reflexivity] | right; set_solver].
Defined.
