(* ===== verification/AlertFilters.v ===== *)
(** * Alert filters: which loads a user wants to hear of

    [src/services/notification/cargoAlertFilter.service.ts] with its repository: the
    filters a user keeps, of which one at most is on, and who wants a load. *)

From Corelib Require Import SpecFloat.
From S2P Require Import Prelude JsNumber JsString Json Effects Enums BrokerDriver TripFareRules BrokerAccess DriverProfile CargoData FreeText.

(** ** Rows *)

(** [CargoAlertFilter] *)
Record CargoAlertFilter := mkFilter {
  af_id : uuid;
  af_userId : uuid;
  af_label : option text;
  af_origins : list text;
  af_destinations : list text;
  af_cargoTypes : list text;
  af_vehicleTypes : list text;
  af_companies : list text;
  af_minPrice : option num;
  af_maxPrice : option num;
  af_isActive : bool;
}.

(** [CargoAlertFilterInput]: [None] is a field that did not come. *)
Record CargoAlertFilterInput := mkInput {
  in_label : option (option text);
  in_origins : option (list text);
  in_destinations : option (list text);
  in_cargoTypes : option (list text);
  in_vehicleTypes : option (list text);
  in_companies : option (list text);
  in_minPrice : option (option num);
  in_maxPrice : option (option num);
  in_isActive : option bool;
}.

(** [CargoRouteFields] *)
Record CargoRouteFields := mkRoute {
  rt_origin : option text;
  rt_destination : option text;
  rt_cargoType : option text;
  rt_vehicleType : option text;
  rt_price : option text;
  rt_companyName : option text;
}.

Record alert_state := mkAlerts {
  al_rows : gmap uuid CargoAlertFilter;
  al_nextId : uuid;
}.

Abbreviation AlM := (M alert_state).

(** ** Who wants a load *)

Section Matching.
  Context `{Unicode}.

Definition fieldMatches (filters : list text) (value : option text) : bool :=
  let normalized := List.filter (fun f => negb (is_empty f)) (map normalizePersianText filters) in
  match normalized, value with
  | [], _ => true
  | _, None | _, Some [] => false
  | _, Some value => some_b (fun f => includes_text f (normalizePersianText value)) normalized
  end.

Definition priceMatches (min max : option num) (price : option text) : bool :=
  if is_null min && is_null max then true
  else
    match parsePriceToman price with
    | None => false
    | Some amount =>
        match min with None => true | Some m => num_leb m amount end
        && match max with None => true | Some m => num_leb amount m end
    end.

Definition isMatch (f : CargoAlertFilter) (cargo : CargoRouteFields) : bool :=
  fieldMatches (af_origins f) (rt_origin cargo)
  && fieldMatches (af_destinations f) (rt_destination cargo)
  && fieldMatches (af_cargoTypes f) (rt_cargoType cargo)
  && fieldMatches (af_vehicleTypes f) (rt_vehicleType cargo)
  && fieldMatches (af_companies f) (rt_companyName cargo)
  && priceMatches (af_minPrice f) (af_maxPrice f) (rt_price cargo).

Definition matchesAny (filters : list CargoAlertFilter) (cargo : CargoRouteFields) : bool :=
  match filters with [] => true | _ => some_b (fun f => isMatch f cargo) filters end.

Definition is_active_of (userId : uuid) (f : CargoAlertFilter) : bool := (af_userId f =? userId)%N && af_isActive f.

(** [findActiveByUserIds] for one user *)
Definition activeFor (s : alert_state) (userId : uuid) : list CargoAlertFilter := find_rows (is_active_of userId) (al_rows s).

Definition filterInterestedUsers (s : alert_state) (userIds : list uuid) (cargo : CargoRouteFields) : list uuid :=
  List.filter (fun userId => matchesAny (activeFor s userId) cargo) userIds.

End Matching.

(** ** Keeping them *)

Definition filter_list (s : alert_state) (userId : uuid) : list CargoAlertFilter :=
  find_rows (fun f => (af_userId f =? userId)%N) (al_rows s).

(** [clean]: the texts trimmed, empty and repeated ones left out *)
Definition clean_texts (values : list text) : list text := dedup (List.filter (fun v => negb (is_empty v)) (map trim values)).

Definition clean (i : CargoAlertFilterInput) : CargoAlertFilterInput :=
  i <| in_label := (fun l => match l with Some t => if is_empty (trim t) then None else Some (trim t) | None => None end) <$> in_label i |>
    <| in_origins := clean_texts <$> in_origins i |>
    <| in_destinations := clean_texts <$> in_destinations i |>
    <| in_cargoTypes := clean_texts <$> in_cargoTypes i |>
    <| in_vehicleTypes := clean_texts <$> in_vehicleTypes i |>
    <| in_companies := clean_texts <$> in_companies i |>.

(** [Object.assign(filter, cleaned)] *)
Definition assign (i : CargoAlertFilterInput) (f : CargoAlertFilter) : CargoAlertFilter :=
  mkFilter (af_id f) (af_userId f) (default (af_label f) (in_label i)) (default (af_origins f) (in_origins i))
    (default (af_destinations f) (in_destinations i)) (default (af_cargoTypes f) (in_cargoTypes i))
    (default (af_vehicleTypes f) (in_vehicleTypes i)) (default (af_companies f) (in_companies i))
    (default (af_minPrice f) (in_minPrice i)) (default (af_maxPrice f) (in_maxPrice i)) (default (af_isActive f) (in_isActive i)).

(** The column defaults of a new row *)
Definition new_filter (id userId : uuid) : CargoAlertFilter := mkFilter id userId None [] [] [] [] [] None None true.

Definition checkPriceRange (min max : option num) : AlM unit :=
  ensure (negb (match min, max with Some a, Some b => num_ltb b a | _, _ => false end))
    (badRequest "minPrice must not be greater than maxPrice.").

(** [UQ_CargoAlertFilter_oneActivePerUser] *)
Definition other_active (f other : CargoAlertFilter) : bool :=
  af_isActive f && negb (af_id other =? af_id f)%N && is_active_of (af_userId f) other.

Definition save_filter (f : CargoAlertFilter) : AlM CargoAlertFilter :=
  s ← get;
  ensure (column_fits 150 (af_label f)) TOO_LONG ;;
  ensure (bigint_ok (af_minPrice f) && bigint_ok (af_maxPrice f)) (QueryFailed "22P02") ;;
  ensure (negb (exists_row (other_active f) (al_rows s))) (QueryFailed "23505") ;;
  modify (fun s => s <| al_rows := <[af_id f := f]> (al_rows s) |> <| al_nextId := N.max (al_nextId s) (N.succ (af_id f)) |>) ;;
  mret f.

(** The update of [saveExclusive]; a new filter has no id to spare. *)
Definition switch_off (userId : uuid) (except : option uuid) (s : alert_state) : alert_state :=
  s <| al_rows := (fun f => if is_active_of userId f && match except with Some id => negb (af_id f =? id)%N | None => true end
                            then f <| af_isActive := false |> else f) <$> al_rows s |>.

(** [saveExclusive]; [isActive] is what the object holds, which for a new filter may be
    nothing, while the column's default is true. *)
Definition saveExclusive (isActive : option bool) (id : option uuid) (f : CargoAlertFilter) : AlM CargoAlertFilter :=
  transaction (
    when (default false isActive) (modify (switch_off (af_userId f) id)) ;;
    save_filter f).

Definition create (userId : uuid) (i : CargoAlertFilterInput) : AlM CargoAlertFilter :=
  let cleaned := clean i in
  checkPriceRange (default None (in_minPrice cleaned)) (default None (in_maxPrice cleaned)) ;;
  s ← get;
  saveExclusive (in_isActive cleaned) None (assign cleaned (new_filter (al_nextId s) userId)).

Definition getOwned (userId id : uuid) : AlM CargoAlertFilter :=
  s ← get;
  some_or (f ← al_rows s !! id; if (af_userId f =? userId)%N then Some f else None) (notFound "Cargo alert filter not found.").

Definition update_filter (userId id : uuid) (i : CargoAlertFilterInput) : AlM CargoAlertFilter :=
  f ← getOwned userId id;
  let next := assign (clean i) f in
  checkPriceRange (af_minPrice next) (af_maxPrice next) ;;
  saveExclusive (Some (af_isActive next)) (Some (af_id next)) next.

Definition remove_filter (userId id : uuid) : AlM unit :=
  f ← getOwned userId id;
  modify (fun s => s <| al_rows := delete (af_id f) (al_rows s) |>).

(** ** One filter at most is on *)

Record filters_ok (s : alert_state) : Prop := mkFiltersOk {
  fo_key : forall k f, al_rows s !! k = Some f -> af_id f = k /\ (k < al_nextId s)%N;
  fo_one : forall k k' f f', al_rows s !! k = Some f -> al_rows s !! k' = Some f' ->
    af_isActive f = true -> af_isActive f' = true -> af_userId f = af_userId f' -> k = k';
}.

Lemma switch_off_lookup u x s k :
  al_rows (switch_off u x s) !! k =
  (fun f => if is_active_of u f && match x with Some id => negb (af_id f =? id)%N | None => true end
            then f <| af_isActive := false |> else f) <$> al_rows s !! k.
Proof. apply lookup_fmap. Qed.

Lemma switch_off_was u x s k f : al_rows (switch_off u x s) !! k = Some f ->
  exists f0, al_rows s !! k = Some f0 /\ af_id f = af_id f0 /\ af_userId f = af_userId f0 /\ (af_isActive f = true -> f = f0).
Proof.
  rewrite switch_off_lookup. destruct (al_rows s !! k) as [f0|]; [|done]. cbn. intros [= <-]. exists f0.
  destruct (_ && _); by split_and!.
Qed.

Lemma switch_off_ok u x s : filters_ok s -> filters_ok (switch_off u x s).
Proof.
  intros [H1 H2]. split.
  - intros k f Hf. destruct (switch_off_was u x s k f Hf) as (f0 & E & -> & _). by apply H1.
  - intros k k' f f' Hf Hf' Ha Ha'. destruct (switch_off_was _ _ _ _ _ Hf) as (f0 & E & _ & -> & Hs). destruct (switch_off_was _ _ _ _ _ Hf') as (f1 & E1 & _ & -> & Hs').
    rewrite (Hs Ha) in Ha. rewrite (Hs' Ha') in Ha'. by eapply H2.
Qed.

(** What a save is: refused, or the row is in. *)
Lemma save_filter_run f s :
  (exists e, save_filter f s = (Err e, s)) \/
  (save_filter f s = (Ok f, s <| al_rows := <[af_id f := f]> (al_rows s) |> <| al_nextId := N.max (al_nextId s) (N.succ (af_id f)) |>) /\
   exists_row (other_active f) (al_rows s) = false).
Proof.
  unfold save_filter. rewrite run_bind. unfold get. cbv beta iota. rewrite !run_bind. unfold ensure.
  destruct (column_fits _ _); [rewrite run_ret | left; eexists; reflexivity]. rewrite run_bind.
  destruct (bigint_ok _ && _); [rewrite run_ret | left; eexists; reflexivity]. rewrite run_bind.
  destruct (exists_row _ _); [left; eexists; reflexivity|]. cbn [negb]. rewrite run_ret. right. by split.
Qed.

Lemma save_filter_ok f : preserves filters_ok (save_filter f).
Proof.
  intros s [H1 H2]. unfold final. destruct (save_filter_run f s) as [[e ->]|[-> He]]; [done|]. cbn [snd].
  rewrite exists_row_false in He.
  assert (Hnew : forall k g, al_rows s !! k = Some g -> k <> af_id f -> af_isActive f = true -> af_isActive g = true -> af_userId g = af_userId f -> False).
  { intros k g Hg Hk Ha Hb Hu. pose proof (He k g Hg) as E. unfold other_active, is_active_of in E. rewrite Ha, Hb, Hu, N.eqb_refl in E.
    destruct (H1 k g Hg) as [Ek _]. rewrite Ek, (proj2 (N.eqb_neq k (af_id f)) Hk) in E. done. }
  split; cbn.
  - intros k g. rewrite lookup_insert_Some. intros [[<- <-]|[Hk Hg]]; [split; [done|lia]|]. destruct (H1 k g Hg). split; [done|lia].
  - intros k k' g g'. rewrite !lookup_insert_Some. intros [[<- <-]|[Hk Hg]] [[<- <-]|[Hk' Hg']] Ha Ha' Hu; [done| | |by eapply H2].
    + exfalso. by eapply (Hnew k' g').
    + exfalso. by eapply (Hnew k g).
Qed.

Lemma saveExclusive_ok a id f : preserves filters_ok (saveExclusive a id f).
Proof.
  unfold saveExclusive. apply preserves_transaction. apply preserves_bind; [|intros _; apply save_filter_ok].
  unfold when. destruct (default false a); [|apply preserves_ret]. apply preserves_modify. intros s. apply switch_off_ok.
Qed.

(** What users ask for *)
Inductive alert_op :=
| AfCreate (userId : uuid) (i : CargoAlertFilterInput)
| AfUpdate (userId id : uuid) (i : CargoAlertFilterInput)
| AfRemove (userId id : uuid).

Definition exec_alert (op : alert_op) (s : alert_state) : alert_state :=
  match op with
  | AfCreate u i => final (create u i) s
  | AfUpdate u id i => final (update_filter u id i) s
  | AfRemove u id => final (remove_filter u id) s
  end.

Definition run_alerts (ops : list alert_op) (s : alert_state) : alert_state := foldl (fun s op => exec_alert op s) s ops.

Lemma exec_alert_ok op s : filters_ok s -> filters_ok (exec_alert op s).
Proof.
  intros Hs. destruct op as [u i|u id i|u id]; cbn [exec_alert].
  - revert s Hs. change (preserves filters_ok (create u i)). unfold create, checkPriceRange. cbv zeta. preserve; apply saveExclusive_ok.
  - revert s Hs. change (preserves filters_ok (update_filter u id i)). unfold update_filter, getOwned, checkPriceRange. preserve; apply saveExclusive_ok.
  - revert s Hs. change (preserves filters_ok (remove_filter u id)). unfold remove_filter, getOwned. preserve.
    apply preserves_modify. intros s [H1 H2]. split; cbn.
    + intros k f. rewrite lookup_delete_Some. intros [_ Hf]. by apply H1.
    + intros k k' f f'. rewrite !lookup_delete_Some. intros [_ Hf] [_ Hf']. by apply H2.
Qed.

Lemma run_alerts_ok ops s : filters_ok s -> filters_ok (run_alerts ops s).
Proof. revert s. induction ops as [|op ops IH]; intros s Hs; cbn; [done|]. by apply IH, exec_alert_ok. Qed.

Lemma elem_of_activeFor s u f : f ∈ activeFor s u <-> (exists k, al_rows s !! k = Some f) /\ af_userId f = u /\ af_isActive f = true.
Proof.
  unfold activeFor. rewrite elem_of_find_rows. unfold is_active_of. rewrite andb_true_iff, N.eqb_eq. naive_solver.
Qed.

Lemma activeFor_nil s u : activeFor s u = [] <-> forall k f, al_rows s !! k = Some f -> af_userId f = u -> af_isActive f = false.
Proof.
  split.
  - intros E k f Hf Hu. destruct (af_isActive f) eqn:Ea; [|done]. assert (Hin : f ∈ activeFor s u) by (apply elem_of_activeFor; eauto).
    rewrite E in Hin. by apply not_elem_of_nil in Hin.
  - intros H. destruct (activeFor s u) as [|f l] eqn:E; [done|]. assert (Hin : f ∈ activeFor s u) by (rewrite E; set_solver).
    apply elem_of_activeFor in Hin as ((k & Hk) & Hu & Ha). by rewrite (H k f Hk Hu) in Ha.
Qed.

(** However users make, change and remove their filters, each has one filter on at most,
    and a load goes to exactly those of the users asked about whose filter that is on, if
    there is one, matches it. *)
Theorem one_filter_in_force `{Unicode} (s : alert_state) (ops : list alert_op) (userIds : list uuid) (cargo : CargoRouteFields) (u : uuid) :
  filters_ok s ->
  (forall f f', f ∈ activeFor (run_alerts ops s) u -> f' ∈ activeFor (run_alerts ops s) u -> f = f') /\
  (u ∈ filterInterestedUsers (run_alerts ops s) userIds cargo <->
   u ∈ userIds /\ forall f, f ∈ activeFor (run_alerts ops s) u -> isMatch f cargo = true).
Proof.
  intros Hs. pose proof (run_alerts_ok ops s Hs) as [H1 H2]. set (s' := run_alerts ops s) in *.
  assert (Hone : forall f f', f ∈ activeFor s' u -> f' ∈ activeFor s' u -> f = f').
  { intros f f' ((k & Hk) & Hu & Ha)%elem_of_activeFor ((k' & Hk') & Hu' & Ha')%elem_of_activeFor.
    assert (k = k') as <- by (eapply H2; eauto; congruence). congruence. }
  split; [exact Hone|]. unfold filterInterestedUsers. rewrite list_elem_of_In, filter_In, <- list_elem_of_In.
  assert (Hm : matchesAny (activeFor s' u) cargo = true <-> forall f, f ∈ activeFor s' u -> isMatch f cargo = true).
  { unfold matchesAny. destruct (activeFor s' u) as [|f l] eqn:E; [split; [intros _ f Hf; by apply not_elem_of_nil in Hf | done]|].
    rewrite some_b_true. split.
    - intros (g & Hg & Hgm) h Hh. by rewrite (Hone h g) by done.
    - intros Hall. exists f. split; [set_solver | apply Hall; set_solver]. }
  by rewrite Hm.
Qed.

(** A filter made without saying that it is on is refused to a user who has one on: the
    object saved holds nothing in [isActive], so the others are not switched off, while
    the column's default makes the new row an active one, which the unique index does not
    take ([create]'s comment: «the new filter, on by default, takes the place of the one
    that is on»).  Saying so makes it take over. *)
Theorem unflagged_filter_refused (s : alert_state) (u : uuid) (i : CargoAlertFilterInput) (old : CargoAlertFilter) :
  filters_ok s -> old ∈ activeFor s u ->
  column_fits 150 (af_label (assign (clean i) (new_filter (al_nextId s) u))) = true ->
  bigint_ok (default None (in_minPrice i)) && bigint_ok (default None (in_maxPrice i)) = true ->
  negb (match default None (in_minPrice i), default None (in_maxPrice i) with Some a, Some b => num_ltb b a | _, _ => false end) = true ->
  create u (i <| in_isActive := None |>) s = (Err (QueryFailed "23505"), s) /\
  exists f, result (create u (i <| in_isActive := Some true |>)) s = Ok f /\
    forall g, g ∈ activeFor (final (create u (i <| in_isActive := Some true |>)) s) u <-> g = f.
Proof.
  intros Hs Hold Hl Hb Hp. apply elem_of_activeFor in Hold as ((k & Hk) & Hu & Ha). pose proof Hs as [H1 H2].
  assert (Hrun : forall a, create u (i <| in_isActive := a |>) s =
    saveExclusive a None (assign (clean (i <| in_isActive := a |>)) (new_filter (al_nextId s) u)) s).
  { intros a. unfold create, checkPriceRange. cbv zeta. rewrite run_bind. unfold ensure.
    change (default None (in_minPrice (clean (i <| in_isActive := a |>)))) with (default None (in_minPrice i)).
    change (default None (in_maxPrice (clean (i <| in_isActive := a |>)))) with (default None (in_maxPrice i)). by rewrite Hp. }
  rewrite Hrun. unfold result, final. rewrite Hrun. unfold saveExclusive, transaction.
  set (f a := assign (clean (i <| in_isActive := a |>)) (new_filter (al_nextId s) u)).
  assert (Hf : forall a, af_id (f a) = al_nextId s /\ af_userId (f a) = u /\ af_isActive (f a) = default true a /\
                 column_fits 150 (af_label (f a)) = true /\ bigint_ok (af_minPrice (f a)) && bigint_ok (af_maxPrice (f a)) = true)
    by (intros a; by split_and!).
  split.
  - rewrite run_bind. cbn [when default]. rewrite run_ret. destruct (Hf None) as (Ei & Eu & Ea & El & Eb).
    assert (Hex : exists_row (other_active (f None)) (al_rows s) = true).
    { apply exists_row_true. exists k, old. split; [done|]. unfold other_active, is_active_of. rewrite Ea, Ei, Eu, Hu, Ha, N.eqb_refl.
      destruct (H1 k old Hk) as [-> Hlt]. rewrite (proj2 (N.eqb_neq k (al_nextId s))) by lia. done. }
    unfold save_filter. rewrite run_bind. unfold get. cbv beta iota. rewrite run_bind.
    change (assign (clean (i <| in_isActive := None |>)) (new_filter (al_nextId s) u)) with (f None). rewrite El. unfold ensure at 1. rewrite run_ret, run_bind, Eb.
    unfold ensure at 1. rewrite run_ret, run_bind. by rewrite Hex.
  - destruct (Hf (Some true)) as (Ei & Eu & Ea & El & Eb). change (assign (clean (i <| in_isActive := Some true |>)) (new_filter (al_nextId s) u)) with (f (Some true)).
    set (g := f (Some true)) in *.
    set (s1 := switch_off u None s).
    assert (Erun : (when (default false (Some true)) (modify (switch_off (af_userId g) None)) ≫= fun _ => save_filter g) s = save_filter g s1) by (by rewrite Eu).
    rewrite !Erun.
    assert (Hoff : forall k f', al_rows s1 !! k = Some f' -> af_userId f' = u -> af_isActive f' = false).
    { intros k' f'. unfold s1. rewrite switch_off_lookup. destruct (al_rows s !! k') as [f0|]; [|done]. cbn. intros [= <-].
      unfold is_active_of. destruct (af_userId f0 =? u)%N eqn:E; cbn; [by destruct (af_isActive f0) eqn:E'|]. apply N.eqb_neq in E. done. }
    destruct (save_filter_run g s1) as [[e He]|[-> _]].
    + exfalso. revert He. unfold save_filter. rewrite run_bind. unfold get. cbv beta iota. rewrite run_bind, El. unfold ensure at 1. rewrite run_ret, run_bind, Eb.
      unfold ensure at 1. rewrite run_ret, run_bind. replace (exists_row (other_active g) (al_rows s1)) with false; [done|].
      symmetry. apply exists_row_false. intros k' f' Hf'. unfold other_active, is_active_of. rewrite Eu.
      destruct (af_userId f' =? u)%N eqn:E; [|by rewrite !andb_false_r]. apply N.eqb_eq in E. by rewrite (Hoff k' f' Hf' E), !andb_false_r.
    + exists g. split; [done|]. intros g'. cbn [snd]. rewrite elem_of_activeFor. cbn [al_rows]. split.
      * intros ((k' & Hk') & Hu' & Ha'). cbn in Hk'. apply lookup_insert_Some in Hk' as [[_ <-]|[_ Hk']]; [done|]. by rewrite (Hoff k' g' Hk' Hu') in Ha'.
      * intros ->. split; [|done]. exists (af_id g). cbn. apply lookup_insert_eq.
Qed.

(** ** At work *)

#[local] Instance plain_unicode : Unicode := {| nfkc t := t; toLowerCase t := t |}.

Definition no_filters : alert_state := mkAlerts ∅ 1.

Definition only_from (place : string) : CargoAlertFilterInput :=
  mkInput None (Some [js place]) None None None None None None (Some true).

Definition load_from (place : string) : CargoRouteFields := mkRoute (Some (js place)) None None None None None.

(** Two filters of user 7, the second one in force; user 8 has none. *)
Definition two_filters : list alert_op := [AfCreate 7 (only_from "Tehran"); AfCreate 7 (only_from "Rasht")].

Lemma no_filters_ok : filters_ok no_filters.
Proof. split; intros k *; cbn; by rewrite lookup_empty. Qed.

Lemma one_filter_in_force_witness :
  filters_ok no_filters /\
  filterInterestedUsers (run_alerts two_filters no_filters) [7; 8]%N (load_from "Tehran, Shush") = [8%N] /\
  7%N ∈ filterInterestedUsers (run_alerts two_filters no_filters) [7; 8]%N (load_from "Rasht - port").
Proof.
  split; [exact no_filters_ok|]. split; [vm_compute; reflexivity|].
  apply (one_filter_in_force no_filters two_filters [7; 8]%N (load_from "Rasht - port") 7%N no_filters_ok). split; [set_solver|].
  intros f Hf. assert (E : activeFor (run_alerts two_filters no_filters) 7 = [assign (clean (only_from "Rasht")) (new_filter 2 7)]) by (vm_compute; reflexivity).
  rewrite E in Hf. apply list_elem_of_singleton in Hf as ->. vm_compute. reflexivity.
Defined.

Definition one_filter : alert_state := final (create 7 (only_from "Tehran")) no_filters.

Lemma unflagged_filter_refused_witness :
  create 7 ((only_from "Rasht") <| in_isActive := None |>) one_filter = (Err (QueryFailed "23505"), one_filter).
Proof.
  apply (unflagged_filter_refused one_filter 7 (only_from "Rasht") (assign (clean (only_from "Tehran")) (new_filter 1 7)));
    [| |vm_compute; reflexivity..].
  - exact (exec_alert_ok (AfCreate 7 (only_from "Tehran")) no_filters no_filters_ok).
  - apply elem_of_activeFor. split; [exists 1%N; vm_compute; reflexivity | vm_compute; by split].
Defined.
