(* ===== verification/Contacts.v ===== *)
(** * What a load shows of its publisher

    [publisherPhones], [companyNameFor] and [replaceContactPhones]
    (services/notification/cargoListing.service.ts), [findPublisherContact]
    (cargoAudience.repository.ts) and the text of a load ([buildCargoListingText],
    cargoNotificationText.ts). *)

From S2P Require Import Prelude JsNumber JsString Effects Enums DriverProfile FreeText.

(** ** The publisher *)

(** The columns of [User] a contact is made of *)
Record ContactProfile := mkContactProfile {
  cp_mobile : option text;
  cp_contactMobiles : option text;
  cp_person : bool;
  cp_firstName : option text;
  cp_lastName : option text;
  cp_companyName : option text;
  cp_phone : option text;
  cp_domesticCompanyName : option text;
  cp_internationalCompanyName : option text;
}.

(** The active [TransportCompany] it works for *)
Record LinkedCompany := mkLinked { lc_id : uuid; lc_name : text; lc_phone : option text }.

Record ContactCompany := mkContactCompany {
  cc_id : option uuid;
  cc_name : text;
  cc_phone : option text;
  cc_domesticName : option text;
  cc_internationalName : option text;
}.

(** [PublisherContact] *)
Record PublisherContact := mkContact { ct_mobiles : list text; ct_company : option ContactCompany }.

(** A text that is there and not empty ([Boolean]) *)
Definition truthy (t : option text) : bool := match t with Some (_ :: _) => true | _ => false end.

(** [t?.trim() || null] *)
Definition trimmed (t : option text) : option text :=
  match t with Some t => if is_empty (trim t) then None else Some (trim t) | None => None end.

(** [a ?? b] *)
Definition or_else {A} (a b : option A) : option A := match a with Some _ => a | None => b end.

(** [split(',')] *)
Fixpoint split_commas_from (cur : text) (t : text) : list text :=
  match t with
  | [] => [cur]
  | c :: t => if (c =? 44)%N then cur :: split_commas_from [] t else split_commas_from (cur ++ [c]) t
  end.

Definition contactMobilesOf (user : option ContactProfile) : list text :=
  let set := List.filter (fun m => negb (is_empty m)) (map trim (split_commas_from [] (default [] (user ≫= cp_contactMobiles)))) in
  match set with
  | [] => match user ≫= cp_mobile with Some (c :: m) => [c :: m] | _ => [] end
  | _ => set
  end.

Definition fullName (user : option ContactProfile) : option text :=
  let name := join [32%N] (map (default []) (List.filter truthy [user ≫= cp_firstName; user ≫= cp_lastName])) in
  if is_empty name then None else Some name.

Definition contact_of (user : option ContactProfile) (company : option LinkedCompany) : PublisherContact :=
  let person := match user with Some u => cp_person u | None => false end in
  let name :=
    if person then or_else (fullName user) (or_else (user ≫= cp_companyName) (lc_name <$> company))
    else or_else (user ≫= cp_companyName) (or_else (lc_name <$> company) (fullName user)) in
  let phone := or_else (user ≫= cp_phone) (company ≫= lc_phone) in
  mkContact (contactMobilesOf user)
    (if truthy name || negb (is_null company) then
       Some (mkContactCompany (lc_id <$> company) (default [] name) phone
               (trimmed (user ≫= cp_domesticCompanyName)) (trimmed (user ≫= cp_internationalCompanyName)))
     else None).

(** [publisherPhones] *)
Definition publisherPhones (contact : PublisherContact) : list text :=
  let phones := map Some (ct_mobiles contact) ++ [ct_company contact ≫= cc_phone] in
  dedup (omap (fun p => match p with Some t => if is_empty (trim t) then None else Some t | None => None end) phones).

(** [companyNameFor] *)
Definition companyNameFor (contact : PublisherContact) (tripType : option CargoTripType) : option text :=
  match ct_company contact with
  | None => None
  | Some company =>
      let kindName := match driverKindForLoad tripType with KInternational => cc_internationalName company | KDomestic => cc_domesticName company end in
      if truthy kindName then kindName else if is_empty (cc_name company) then None else Some (cc_name company)
  end.

(** ** The phones of a load after its publisher's changed *)

(** [push] of a phone not there yet *)
Definition push_phone (next : list text) (phone : text) : list text := if bool_decide (phone ∈ next) then next else next ++ [phone].

(** All the old profile phones were on the load: each gives way to all the new ones. *)
Definition swap_all (phones from to : list text) : list text :=
  foldl push_phone (foldl (fun next phone => foldl push_phone next (if bool_decide (phone ∈ from) then to else [phone])) [] phones) to.

(** Only some were: each removed one gives way to one added one, in order. *)
Fixpoint swap_some (phones from to added next : list text) : list text :=
  match phones with
  | [] => next
  | phone :: phones =>
      if negb (bool_decide (phone ∈ from)) || bool_decide (phone ∈ to) then swap_some phones from to added (push_phone next phone)
      else match added with
           | a :: added => swap_some phones from to added (push_phone next a)
           | [] => swap_some phones from to [] next
           end
  end.

(** [replaceContactPhones]: [None] is the array of the load itself, untouched. *)
Definition replaceContactPhones (phones from to : list text) : option (list text) :=
  if negb (some_b (fun p => bool_decide (p ∈ from)) phones) then None
  else
    let next :=
      if forallb (fun p => bool_decide (p ∈ phones)) from then swap_all phones from to
      else swap_some phones from to (List.filter (fun p => negb (bool_decide (p ∈ from))) to) [] in
    match next with [] => None | _ => Some next end.

(** ** The text of a load *)

Definition TRIP_TYPE_LABEL (t : CargoTripType) : text :=
  match t with TripDomestic => js "داخلی" | TripExport => js "صادراتی" | TripImport => js "وارداتی" end.

(** [CargoListingFields] *)
Record CargoListingFields := mkFields {
  fl_code : option text;
  fl_companyName : option text;
  fl_origin : text;
  fl_destination : text;
  fl_cargoType : option text;
  fl_weight : option text;
  fl_vehicleType : option text;
  fl_price : option text;
  fl_extraNotes : option text;
  fl_contactPhones : list text;
  fl_photo : option text;
  fl_tripType : option CargoTripType;
}.

Definition NEWLINE : text := [10%N].

Definition buildCargoListingText (f : CargoListingFields) : text :=
  let rows : list (text * option text) :=
    [ (js "🟠 کد بار", fl_code f)
    ; (js "شرکت حمل‌ونقل", fl_companyName f)
    ; (js "مبدا", Some (fl_origin f))
    ; (js "مقصد", Some (fl_destination f))
    ; (js "نوع حمل", TRIP_TYPE_LABEL <$> fl_tripType f)
    ; (js "نوع بار", fl_cargoType f)
    ; (js "وزن", groupDigits <$> fl_weight f)
    ; (js "نوع ماشین", fl_vehicleType f)
    ; (js "کرایه", groupDigits <$> fl_price f)
    ; (js "توضیحات", fl_extraNotes f)
    ; (js "تماس", Some (join (js " - ") (fl_contactPhones f))) ] in
  join NEWLINE (js "🚚 بار جدید" :: omap (fun r => (fun v => r.1 ++ js ": " ++ v) <$> trimmed r.2) rows).

(** ** How a load's phones follow its publisher's *)

Lemma elem_of_push next p q : q ∈ push_phone next p <-> q ∈ next \/ q = p.
Proof. unfold push_phone. case_bool_decide; set_solver. Qed.

Lemma NoDup_push next p : NoDup next -> NoDup (push_phone next p).
Proof.
  intros Hn. unfold push_phone. case_bool_decide as Hp; [done|]. apply NoDup_app. split; [done|]. split; [set_solver | apply NoDup_singleton].
Qed.

Lemma elem_of_pushes ps : forall next q, q ∈ foldl push_phone next ps <-> q ∈ next \/ q ∈ ps.
Proof. induction ps as [|p ps IH]; intros next q; cbn [foldl]; [set_solver|]. rewrite IH, elem_of_push. set_solver. Qed.

Lemma NoDup_pushes ps : forall next, NoDup next -> NoDup (foldl push_phone next ps).
Proof. induction ps as [|p ps IH]; intros next Hn; cbn [foldl]; [done|]. by apply IH, NoDup_push. Qed.

(** All the old phones were on the load. *)
Lemma elem_of_swapped (from to phones : list text) : forall (next : list text) (q : text),
  q ∈ foldl (fun next phone => foldl push_phone next (if bool_decide (phone ∈ from) then to else [phone])) next phones <->
  q ∈ next \/ exists p, p ∈ phones /\ (if bool_decide (p ∈ from) then q ∈ to else q = p).
Proof.
  induction phones as [|p ps IH]; intros next q; cbn [foldl]; [set_solver|]. rewrite IH, elem_of_pushes.
  setoid_rewrite elem_of_cons. case_bool_decide as Hp; split.
  - intros [[?|?]|(x & ? & ?)]; [by left | right; exists p; rewrite bool_decide_eq_true_2 by done; by split; [left|] | right; exists x; by split; [right|]].
  - intros [?|(x & [->|?] & Hx)]; [by left; left | rewrite bool_decide_eq_true_2 in Hx by done; left; by right | right; by exists x].
  - intros [[?|[->|?]%elem_of_cons]|(x & ? & ?)]; [by left | right; exists p; rewrite bool_decide_eq_false_2 by done; by split; [left|] | set_solver | right; exists x; by split; [right|]].
  - intros [?|(x & [->|?] & Hx)]; [by left; left | rewrite bool_decide_eq_false_2 in Hx by done; left; right; set_solver | right; by exists x].
Qed.

Lemma NoDup_swapped (from to phones : list text) : forall (next : list text), NoDup next ->
  NoDup (foldl (fun next phone => foldl push_phone next (if bool_decide (phone ∈ from) then to else [phone])) next phones).
Proof. induction phones as [|p ps IH]; intros next Hn; cbn [foldl]; [done|]. by apply IH, NoDup_pushes. Qed.

Lemma elem_of_swap_all (phones from to : list text) (q : text) :
  q ∈ swap_all phones from to <-> (q ∈ phones /\ q ∉ from) \/ q ∈ to.
Proof.
  unfold swap_all. rewrite elem_of_pushes, elem_of_swapped. split.
  - intros [[?|(p & Hp & Hq)]|?]; [set_solver | | by right]. case_bool_decide; [by right | left; by subst].
  - intros [[Hq Hf]|?]; [left; right; exists q; by rewrite bool_decide_eq_false_2 by done | by right].
Qed.

(** Only some were. *)
Lemma swap_some_spec (phones from to : list text) : forall (added next : list text) (q : text), (forall a, a ∈ added -> a ∈ to /\ a ∉ from) ->
  (q ∈ swap_some phones from to added next ->
     q ∈ next \/ (q ∈ phones /\ (q ∉ from \/ q ∈ to)) \/ q ∈ added) /\
  ((q ∈ next \/ (q ∈ phones /\ (q ∉ from \/ q ∈ to))) -> q ∈ swap_some phones from to added next).
Proof.
  induction phones as [|p ps IH]; intros added next q Ha; cbn [swap_some]; [set_solver|].
  destruct (_ || _) eqn:E.
  - assert (Hp : p ∉ from \/ p ∈ to). { apply orb_true_iff in E as [E|E]; [left; apply negb_true_iff, bool_decide_eq_false in E | right; apply bool_decide_eq_true in E]; done. }
    destruct (IH added (push_phone next p) q Ha) as [H1 H2]. rewrite elem_of_push in *. set_solver.
  - assert (Hp : p ∈ from /\ p ∉ to).
    { apply orb_false_iff in E as [E1 E2]. apply negb_false_iff, bool_decide_eq_true in E1. by apply bool_decide_eq_false in E2. }
    destruct added as [|a added].
    + destruct (IH [] next q Ha) as [H1 H2]. set_solver.
    + destruct (IH added (push_phone next a) q ltac:(set_solver)) as [H1 H2]. rewrite elem_of_push in *. set_solver.
Qed.

Lemma NoDup_swap_some phones from to : forall added next, NoDup next -> NoDup (swap_some phones from to added next).
Proof.
  induction phones as [|p ps IH]; intros added next Hn; cbn [swap_some]; [done|].
  destruct (_ || _); [by apply IH, NoDup_push|]. destruct added; [by apply IH | by apply IH, NoDup_push].
Qed.

(** A load's phones after the publisher's went from [from] to [to]: they change only when
    one of them was the publisher's; a phone typed for the load stays, one the publisher
    gave up goes, one it kept stays, nothing comes that is neither the load's nor the
    publisher's now, none is there twice and at least one is left.  A load published with
    all the old ones gets all the new ones. *)
Theorem phones_follow_profile (phones from to next : list text) :
  replaceContactPhones phones from to = Some next ->
  (exists p, p ∈ phones /\ p ∈ from) /\ next <> [] /\ NoDup next /\
  (forall p, p ∈ phones -> (p ∉ from \/ p ∈ to) -> p ∈ next) /\
  (forall p, p ∈ next -> (p ∈ phones \/ p ∈ to) /\ (p ∉ from \/ p ∈ to)) /\
  ((forall p, p ∈ from -> p ∈ phones) -> forall p, p ∈ to -> p ∈ next).
Proof.
  unfold replaceContactPhones. destruct (some_b _ phones) eqn:Es; [|done]. cbn [negb]. cbv zeta.
  apply some_b_true in Es as (p0 & Hp0 & Hf0). apply bool_decide_eq_true in Hf0. intros Hr. split; [by exists p0|].
  destruct (forallb _ from) eqn:Ea.
  - set (r := swap_all phones from to) in Hr. assert (Hin : forall q, q ∈ r <-> (q ∈ phones /\ q ∉ from) \/ q ∈ to) by (intros q; apply elem_of_swap_all).
    assert (Hd : NoDup r) by (apply NoDup_pushes, NoDup_swapped, NoDup_nil_2). destruct r as [|x r]; [done|]. injection Hr as <-.
    split; [done|]. split; [done|]. split; [|split]; intros; rewrite ?Hin in *; tauto || (destruct (decide (p ∈ from)); tauto) || (right; auto).
  - set (added := List.filter _ to) in Hr. assert (Hadd : forall a, a ∈ added -> a ∈ to /\ a ∉ from).
    { intros a Hin%list_elem_of_In. apply filter_In in Hin as [Hin Hn]. rewrite list_elem_of_In. split; [done|]. by apply negb_true_iff, bool_decide_eq_false in Hn. }
    set (r := swap_some phones from to added []) in Hr.
    assert (Hsp : forall q, (q ∈ r -> q ∈ ([] : list text) \/ (q ∈ phones /\ (q ∉ from \/ q ∈ to)) \/ q ∈ added) /\
              ((q ∈ ([] : list text) \/ (q ∈ phones /\ (q ∉ from \/ q ∈ to))) -> q ∈ r)) by (intros q; by apply swap_some_spec).
    assert (Hd : NoDup r) by (apply NoDup_swap_some, NoDup_nil_2). destruct r as [|x r]; [done|]. injection Hr as <-.
    split; [done|]. split; [done|]. split; [|split].
    + intros p Hp Hq. apply (Hsp p). by right.
    + intros p Hp. destruct (proj1 (Hsp p) Hp) as [?|[[? ?]|Hx]]; [set_solver | tauto | apply Hadd in Hx; tauto].
    + intros Hall. exfalso. enough (forallb (fun p => bool_decide (p ∈ phones)) from = true) by congruence.
      apply forallb_forall. intros p Hp%list_elem_of_In. by apply bool_decide_eq_true, Hall.
Qed.

(** Two mobiles, the first one given up for a new one, and one typed for the load *)
Lemma phones_follow_profile_witness :
  replaceContactPhones [js "1"; js "9"; js "2"] [js "1"; js "2"] [js "3"; js "2"] = Some [js "3"; js "2"; js "9"] /\
  NoDup [js "3"; js "2"; js "9"].
Proof.
  split; [vm_compute; reflexivity|].
  destruct (phones_follow_profile [js "1"; js "9"; js "2"] [js "1"; js "2"] [js "3"; js "2"] [js "3"; js "2"; js "9"]) as (_ & _ & H & _).
  - vm_compute; reflexivity.
  - exact H.
Defined.

(** A phone the publisher kept makes a fresh array each time. *)
Lemma kept_phone_replaced (phones from to : list text) (p : text) : p ∈ phones -> p ∈ from -> p ∈ to ->
  exists next, replaceContactPhones phones from to = Some next /\ p ∈ next.
Proof.
  intros Hp Hf Ht. unfold replaceContactPhones.
  assert (Es : some_b (fun p => bool_decide (p ∈ from)) phones = true) by (apply some_b_true; exists p; by rewrite bool_decide_eq_true).
  rewrite Es. cbn [negb]. cbv zeta. destruct (forallb _ from).
  - assert (Hin : p ∈ swap_all phones from to) by (apply elem_of_swap_all; by right). destruct (swap_all _ _ _); [by apply not_elem_of_nil in Hin | by eexists].
  - set (added := List.filter _ to). assert (Hin : p ∈ swap_some phones from to added []).
    { apply swap_some_spec; [|right; tauto]. intros a Ha%list_elem_of_In. apply filter_In in Ha as [Ha Hn]. rewrite list_elem_of_In. split; [done|].
      by apply negb_true_iff, bool_decide_eq_false in Hn. }
    destruct (swap_some _ _ _ _ _); [by apply not_elem_of_nil in Hin | by eexists].
Qed.
