(* ===== verification/BrokerLedger.v ===== *)
(** * The ledger of a company and its brokers

    [src/services/company/brokerLedger.service.ts] with [BrokerSettlement]: what the
    delivered trips of a broker earned it on a company's loads, what the company paid,
    a payment made and a mistaken one taken back.  The SQL is written as the queries it
    runs over the rows of the trips; amounts are whole numbers, as their texts are. *)

From S2P Require Import Prelude JsNumber JsString Effects Enums BrokerDriver TripFareRules BrokerAccess DriverProfile CargoData CargoTripFacts.

(** ** Rows *)

(** [BrokerSettlement] *)
Record BrokerSettlement := mkSettlement {
  bl_id : uuid;
  bl_companyUserId : uuid;
  bl_brokerUserId : uuid;
  bl_amount : Z;
  bl_note : option text;
  bl_createdByUserId : option uuid;
  bl_createdAt : time;
}.

(** The columns of [User] the ledger shows *)
Record LedgerUser := mkLedgerUser {
  lu_companyName : option text;
  lu_firstName : option text;
  lu_lastName : option text;
  lu_mobile : option text;
  lu_accountCode : option text;
}.

(** [BrokerAccount]; [broker] is its id and its name *)
Record BrokerAccount := mkAccount {
  ba_broker : uuid;
  ba_name : option text;
  ba_mobile : option text;
  ba_accountCode : option text;
  ba_drivers : nat;
  ba_trips : nat;
  ba_fares : Z;
  ba_unpriced : nat;
  ba_commissionTrips : nat;
  ba_marginTrips : nat;
  ba_earned : Z;
  ba_margin : Z;
  ba_paid : Z;
  ba_remaining : Z;
}.

(** A trip of [detail]; the load's code is not a column of the model *)
Record LedgerTrip := mkLedgerTrip {
  lt_id : uuid;
  lt_deliveredAt : option time;
  lt_origin : text;
  lt_destination : text;
  lt_exitBorder : option text;
  lt_driver : option BrokerDriver;
  lt_payModel : BrokerPayModel;
  lt_companyFare : option Z;
  lt_companyFareCurrency : option FareCurrency;
  lt_weightTons : option Z;
  lt_commission : option Z;
  lt_percent : option num;
  lt_margin : option Z;
}.

Record ledger_state := mkLedger {
  lg_trips : trip_state;
  lg_users : gmap uuid LedgerUser;
  lg_settlements : gmap uuid BrokerSettlement;
  lg_nextId : uuid;
}.

Abbreviation LM := (M ledger_state).

Definition on_trips {A} (m : TM A) : LM A := zoom lg_trips (fun t s => s <| lg_trips := t |>) m.

(** ** The columns of the queries *)

(** [SUM] of what is not null, with [COALESCE(…, 0)] *)
Definition Zsum (l : list Z) : Z := foldr Z.add 0 l.
Definition sum_of {A} (f : A -> option Z) (l : list A) : Z := Zsum (map (fun x => default 0 (f x)) l).
Definition count_of {A} (f : A -> bool) (l : list A) : nat := length (List.filter f l).

(** [round(numeric)]: a half goes away from zero.  The quotient it rounds has its four
    decimals as long as it is under 10^16. *)
Definition pg_round (n d : Z) : Z := if 0 <=? n then (2 * n + d) / (2 * d) else - ((2 * - n + d) / (2 * d)).

(** [NUMERIC_FARE], and the fare it lets through *)
Definition numeric_fare (r : CargoRequest) : option Z :=
  match rq_forDriver r ≫= bd_fare with
  | Some (c :: t) => if forallb is_digit (c :: t) then Some (digits_value (c :: t)) else None
  | _ => None
  end.

(** [DELIVERED_FARE] *)
Definition delivered_fare (t : trip_state) (r : CargoRequest) : option TripFare := ts_fares t !! (rq_id r, StageDelivered).

(** [COMPANY_FARE] *)
Definition company_fare (t : trip_state) (r : CargoRequest) : option Z :=
  match delivered_fare t r with
  | Some d => if eqb (fr_currency d) Toman then Some (fr_total d) else None
  | None => numeric_fare r
  end.

Definition pay_model (r : CargoRequest) : BrokerPayModel := default Commission (rq_brokerPayModel r).

(** [ON_COMMISSION] *)
Definition on_commission (r : CargoRequest) : bool := eqb (pay_model r) Commission.

(** [COMMISSION], with the percent in hundredths *)
Definition commission_of (percent : Z) (t : trip_state) (r : CargoRequest) : option Z :=
  if on_commission r then
    match rq_brokerCommission r ≫= num_to_Z with
    | Some c => Some c
    | None =>
        match delivered_fare t r, numeric_fare r with
        | None, Some fare => Some (pg_round (fare * percent) 10000)
        | _, _ => None
        end
    end
  else None.

Definition margin_of (r : CargoRequest) : option Z := rq_brokerMargin r ≫= num_to_Z.

(** [BROKER_NAME] *)
Definition broker_name (u : LedgerUser) : option text :=
  match non_empty (lu_companyName u) with
  | Some n => Some n
  | None =>
      match non_empty (Some (join [32%N] (omap id [lu_firstName u; lu_lastName u]))) with
      | Some n => Some n
      | None => lu_mobile u
      end
  end.

(** The trips of a company's brokers that were delivered on its loads *)
Definition delivered_for (company : uuid) (r : CargoRequest) : bool :=
  (rq_companyUserId r =? company)%N && negb (is_null (rq_forDriver r)) && eqb (rq_status r) Delivered.

Definition trips_of (t : trip_state) (company broker : uuid) : list CargoRequest :=
  find_rows (fun r => delivered_for company r && (rq_driverUserId r =? broker)%N) (ts_requests t).

Definition settlement_of (company broker : uuid) (x : BrokerSettlement) : bool :=
  (bl_companyUserId x =? company)%N && (bl_brokerUserId x =? broker)%N.

Definition settlements_of (s : ledger_state) (company broker : uuid) : list BrokerSettlement :=
  find_rows (settlement_of company broker) (lg_settlements s).

Definition earned_of (percent : Z) (t : trip_state) (company broker : uuid) : Z :=
  sum_of (commission_of percent t) (trips_of t company broker).

Definition paid_of (s : ledger_state) (company broker : uuid) : Z := Zsum (map bl_amount (settlements_of s company broker)).

(** ** Accounts *)

(** One row of the query: a broker with a trip or a payment, who is still a user *)
Definition account_of (percent : Z) (s : ledger_state) (company broker : uuid) : option BrokerAccount :=
  let trips := trips_of (lg_trips s) company broker in
  let paid := paid_of s company broker in
  let earned := earned_of percent (lg_trips s) company broker in
  u ← lg_users s !! broker;
  Some {| ba_broker := broker; ba_name := broker_name u; ba_mobile := lu_mobile u; ba_accountCode := lu_accountCode u;
     ba_drivers := length (dedup (omap (fun r => bd_mobile <$> rq_forDriver r) trips));
     ba_trips := length trips;
     ba_fares := sum_of (company_fare (lg_trips s)) trips;
     ba_unpriced := count_of (fun r => on_commission r && is_null (commission_of percent (lg_trips s) r)) trips;
     ba_commissionTrips := count_of on_commission trips;
     ba_marginTrips := count_of (fun r => negb (on_commission r)) trips;
     ba_earned := earned;
     ba_margin := sum_of margin_of (List.filter (fun r => negb (on_commission r)) trips);
     ba_paid := paid;
     ba_remaining := earned - paid |}.

(** The brokers of the [FULL JOIN] *)
Definition brokers_of (s : ledger_state) (company : uuid) : list uuid :=
  dedup (map rq_driverUserId (find_rows (delivered_for company) (ts_requests (lg_trips s)))
         ++ map bl_brokerUserId (find_rows (fun x => (bl_companyUserId x =? company)%N) (lg_settlements s))).

(** The largest balance first; equal ones by name, in the database's collation *)
Definition larger_balance (a b : BrokerAccount) : Prop := ba_remaining b <= ba_remaining a.
#[export] Instance larger_balance_dec : RelDecision larger_balance.
Proof. intros a b. unfold larger_balance. apply _. Defined.

(** The percent the query gets: a text of two decimals at most *)
Definition percent_now : LM (num * Z) :=
  policy ← on_trips (brokerAccess getPolicy);
  hundredths ← some_or (to_hundredths (commissionPercent policy)) (QueryFailed "22P02");
  mret (commissionPercent policy, hundredths).

Definition accounts (company : uuid) : LM (num * list BrokerAccount) :=
  percent ← percent_now;
  s ← get;
  mret (percent.1, merge_sort larger_balance (omap (account_of percent.2 s company) (brokers_of s company))).

Definition NO_ACCOUNT : exn := notFound "حسابی با این واسط ندارید.".

(** [(await this.accounts(…)).accounts.find(…)], or 404 *)
Definition account (company broker : uuid) : LM BrokerAccount :=
  all ← accounts company;
  some_or (List.find (fun a => (ba_broker a =? broker)%N) all.2) NO_ACCOUNT.

(** ** One broker *)

Definition ledger_trip (percent : num * Z) (t : trip_state) (r : CargoRequest) : option LedgerTrip :=
  l ← ts_listings t !! rq_listingId r;
  let d := delivered_fare t r in
  Some {| lt_id := rq_id r; lt_deliveredAt := rq_deliveredAt r; lt_origin := li_origin l; lt_destination := li_destination l;
     lt_exitBorder := rq_exitBorder r; lt_driver := rq_forDriver r; lt_payModel := pay_model r;
     lt_companyFare := fr_total <$> d; lt_companyFareCurrency := fr_currency <$> d; lt_weightTons := fr_weightTons <$> d;
     lt_commission := commission_of percent.2 t r;
     lt_percent := if on_commission r then Some (default percent.1 (rq_brokerCommissionPercent r)) else None;
     lt_margin := margin_of r |}.

(** [ORDER BY … DESC NULLS LAST], [order: { createdAt: 'DESC' }] *)
Definition delivered_later (a b : LedgerTrip) : Prop :=
  match lt_deliveredAt a, lt_deliveredAt b with
  | Some x, Some y => y <= x
  | Some _, None => True
  | None, Some _ => False
  | None, None => True
  end.
#[export] Instance delivered_later_dec : RelDecision delivered_later.
Proof. intros a b. unfold delivered_later. destruct (lt_deliveredAt a), (lt_deliveredAt b); apply _. Defined.

Definition paid_later (a b : BrokerSettlement) : Prop := bl_createdAt b <= bl_createdAt a.
#[export] Instance paid_later_dec : RelDecision paid_later.
Proof. intros a b. unfold paid_later. apply _. Defined.

Record LedgerDetail := mkDetail {
  ld_account : BrokerAccount;
  ld_trips : list LedgerTrip;
  ld_settlements : list BrokerSettlement;
}.

Definition detail (company broker : uuid) : LM LedgerDetail :=
  percent ← percent_now;
  a ← account company broker;
  s ← get;
  mret (mkDetail a
    (merge_sort delivered_later (omap (ledger_trip percent (lg_trips s)) (trips_of (lg_trips s) company broker)))
    (merge_sort paid_later (settlements_of s company broker))).

(** ** Payments *)

(** [/^[1-9][0-9]{0,17}$/] *)
Definition is_amount (t : text) : bool :=
  match t with c :: r => is_digit c && negb (c =? 48)%N && forallb is_digit r && Nat.leb (length r) 17 | [] => false end.

(** [note?.trim() || null] *)
Definition clean_note (note : option text) : option text := non_empty (trim <$> note).

(** What [settle] checks before it saves *)
Definition settle_check (company broker : uuid) (amount : text) : LM unit :=
  ensure (is_amount amount) (badRequest "مبلغ تسویه را با عدد درست وارد کنید.") ;;
  a ← account company broker;
  ensure (digits_value amount <=? ba_remaining a) (badRequest "مبلغ تسویه از مانده‌ی طلب واسط بیشتر است.").

Definition settle_save (company broker : uuid) (amount : text) (note : option text) (by_ : uuid) : LM unit :=
  ensure (column_fits 300 (clean_note note)) TOO_LONG ;;
  modify (fun s => s <| lg_settlements := <[lg_nextId s := mkSettlement (lg_nextId s) company broker (digits_value amount)
                                              (clean_note note) (Some by_) (ts_now (lg_trips s))]> (lg_settlements s) |>
                     <| lg_nextId := N.succ (lg_nextId s) |>).

Definition settle (company broker : uuid) (amount : text) (note : option text) (by_ : uuid) : LM LedgerDetail :=
  settle_check company broker amount ;;
  settle_save company broker amount note by_ ;;
  detail company broker.

Definition removeSettlement (company settlementId : uuid) : LM LedgerDetail :=
  s ← get;
  x ← some_or (x ← lg_settlements s !! settlementId; if (bl_companyUserId x =? company)%N then Some x else None)
              (notFound "این تسویه پیدا نشد.");
  modify (fun s => s <| lg_settlements := delete settlementId (lg_settlements s) |>) ;;
  detail company (bl_brokerUserId x).
