(* ===== verification/BrokerLedgerFacts.v ===== *)
(** * The ledger: what a balance is worth

    Payments settled one at a time stay within what the trips earned; two checked
    together do not; and the account is the sum of the trips and the payments it lists. *)

From S2P Require Import Prelude JsNumber JsString Effects NationalId Enums BrokerDriver TripFareRules BrokerAccess BrokerAccessFacts DriverProfile CargoData CargoTripFacts TripProperties BrokerLedger.

(** ** Sums *)

Lemma Zsum_app l1 l2 : Zsum (l1 ++ l2) = Zsum l1 + Zsum l2.
Proof. unfold Zsum. induction l1 as [|x l1 IH]; cbn; lia. Qed.

#[export] Instance Zsum_perm : Proper ((≡ₚ) ==> eq) Zsum.
Proof. unfold Zsum. induction 1; cbn; lia. Qed.

Lemma Zsum_omap {A} (f : A -> option Z) l : Zsum (omap f l) = sum_of f l.
Proof. induction l as [|x l IH]; [done|]. unfold sum_of, Zsum in *. cbn. rewrite <- IH. by destruct (f x). Qed.

Lemma find_rows_cons {V} (f : V -> bool) (l : list V) v :
  filter (fun v => f v = true) (v :: l) = (if f v then [v] else []) ++ filter (fun v => f v = true) l.
Proof. rewrite filter_cons. destruct (f v); [by rewrite decide_True | by rewrite decide_False]. Qed.

(** A row more, a row less *)
Lemma find_rows_insert {V} (f : V -> bool) m i v : m !! i = None -> find_rows f (<[i := v]> m) ≡ₚ (if f v then [v] else []) ++ find_rows f m.
Proof. intros H. unfold find_rows. rewrite rows_insert, delete_id by done. by rewrite find_rows_cons. Qed.

Lemma find_rows_delete {V} (f : V -> bool) m i v : m !! i = Some v -> find_rows f m ≡ₚ (if f v then [v] else []) ++ find_rows f (delete i m).
Proof. intros H. unfold find_rows. rewrite (rows_delete m i v H). by rewrite find_rows_cons. Qed.

(** ** What the reads leave *)

Definition policy_at (s : ledger_state) : BrokerAccessPolicy := effective_policy (broker_view (lg_trips s)).
Definition percent_at (s : ledger_state) : option Z := to_hundredths (commissionPercent (policy_at s)).

(** [getPolicy] may fill its cache. *)
Definition with_policy (s : ledger_state) : ledger_state :=
  s <| lg_trips := ((lg_trips s) <| ts_broker := refreshed (broker_view (lg_trips s)) |>) |>.

Lemma with_policy_same s :
  lg_settlements (with_policy s) = lg_settlements s /\ lg_users (with_policy s) = lg_users s /\ lg_nextId (with_policy s) = lg_nextId s /\
  ts_requests (lg_trips (with_policy s)) = ts_requests (lg_trips s) /\ ts_fares (lg_trips (with_policy s)) = ts_fares (lg_trips s) /\
  ts_listings (lg_trips (with_policy s)) = ts_listings (lg_trips s) /\ ts_now (lg_trips (with_policy s)) = ts_now (lg_trips s).
Proof. done. Qed.

Lemma effective_refreshed b : effective_policy (refreshed b) = effective_policy b.
Proof.
  destruct b as [o now setting cached roles cs ps os crs up pub]. unfold refreshed, effective_policy. cbn.
  assert (Hlt : (now <? now + LOCAL_TTL_MS) = true) by (unfold LOCAL_TTL_MS; lia).
  destruct cached as [[p e]|]; [destruct (now <? e) eqn:E|]; cbn; by rewrite ?E, ?Hlt.
Qed.

Lemma view_refreshed t : broker_view (t <| ts_broker := refreshed (broker_view t) |>) = refreshed (broker_view t).
Proof.
  destruct t as [cf now ls rs fs ws b ps sent]. destruct b as [o n setting cached roles cs pds os crs up pub].
  unfold broker_view, refreshed. cbn. destruct cached as [[p e]|]; [destruct (now <? e)|]; done.
Qed.

Lemma policy_at_with s : policy_at (with_policy s) = policy_at s.
Proof. unfold policy_at. change (lg_trips (with_policy s)) with ((lg_trips s) <| ts_broker := refreshed (broker_view (lg_trips s)) |>). rewrite view_refreshed. apply effective_refreshed. Qed.

Lemma percent_at_with s : percent_at (with_policy s) = percent_at s.
Proof. unfold percent_at. by rewrite policy_at_with. Qed.

Lemma percent_now_run s :
  percent_now s = match percent_at s with
                  | Some h => (Ok (commissionPercent (policy_at s), h), with_policy s)
                  | None => (Err (QueryFailed "22P02"), with_policy s)
                  end.
Proof.
  unfold percent_now. rewrite run_bind. unfold on_trips at 1, brokerAccess, zoom. rewrite getPolicy_run. rewrite run_bind.
  change (effective_policy (broker_view (lg_trips s))) with (policy_at s). fold (percent_at s).
  destruct (percent_at s); done.
Qed.

(** An account does not depend on the cache. *)
Lemma trips_of_with s c b : trips_of (lg_trips (with_policy s)) c b = trips_of (lg_trips s) c b.
Proof. done. Qed.

Lemma earned_of_with h s c b : earned_of h (lg_trips (with_policy s)) c b = earned_of h (lg_trips s) c b.
Proof. done. Qed.

Lemma paid_of_with s c b : paid_of (with_policy s) c b = paid_of s c b.
Proof. done. Qed.

Lemma account_of_Some h s c b a : account_of h s c b = Some a ->
  ba_broker a = b /\ ba_earned a = earned_of h (lg_trips s) c b /\ ba_paid a = paid_of s c b /\
  ba_remaining a = earned_of h (lg_trips s) c b - paid_of s c b.
Proof. unfold account_of. destruct (lg_users s !! b) as [u|]; [|done]. cbn [mbind option_bind]. by intros [= <-]. Qed.

(** The account the list has for a broker is the row of the query. *)
Lemma find_account h s c b l a :
  List.find (fun a => (ba_broker a =? b)%N) (merge_sort larger_balance (omap (account_of h s c) l)) = Some a -> account_of h s c b = Some a.
Proof.
  intros [Hin Hb%N.eqb_eq]%List.find_some. apply list_elem_of_In in Hin. rewrite merge_sort_Permutation in Hin.
  apply list_elem_of_omap in Hin as (b' & _ & Ha). destruct (account_of_Some _ _ _ _ _ Ha) as [E _]. by rewrite <- Hb, E.
Qed.

Lemma account_Ok_inv c b s a s1 : account c b s = (Ok a, s1) ->
  exists h, percent_at s = Some h /\ s1 = with_policy s /\ account_of h (with_policy s) c b = Some a.
Proof.
  unfold account, accounts. rewrite run_bind, run_bind, percent_now_run. destruct (percent_at s) as [h|]; [|done].
  rewrite run_bind. unfold get. cbv beta iota. rewrite run_ret. intros [H ->]%some_or_Ok_inv. exists h. split; [done|]. split; [done|].
  by eapply find_account.
Qed.

Lemma account_Err c b s e s1 : account c b s = (Err e, s1) -> s1 = with_policy s.
Proof.
  unfold account, accounts. rewrite run_bind, run_bind, percent_now_run. destruct (percent_at s) as [h|]; [|by intros [= _ <-]].
  rewrite run_bind. unfold get. cbv beta iota. rewrite run_ret. unfold some_or. destruct (List.find _ _); [done|]. by intros [= _ <-].
Qed.

(** ** Payments *)

Definition earned_now (s : ledger_state) (c b : uuid) : Z :=
  match percent_at s with Some h => earned_of h (lg_trips s) c b | None => 0 end.

Record ledger_ok (s : ledger_state) : Prop := mkLedgerOk {
  lo_ids : forall k x, lg_settlements s !! k = Some x -> (k < lg_nextId s)%N;
  lo_positive : forall k x, lg_settlements s !! k = Some x -> 0 < bl_amount x;
}.

(** The same payments, and trips that earn the same *)
Definition same_ledger (s s1 : ledger_state) : Prop :=
  lg_settlements s1 = lg_settlements s /\ lg_nextId s1 = lg_nextId s /\ (forall c b, earned_now s1 c b = earned_now s c b).

Lemma same_ledger_refl s : same_ledger s s.
Proof. done. Qed.

Lemma same_ledger_trans s s1 s2 : same_ledger s s1 -> same_ledger s1 s2 -> same_ledger s s2.
Proof. intros (E1 & E2 & E3) (F1 & F2 & F3). split_and!; [congruence..|]. intros c b. by rewrite F3. Qed.

Lemma with_policy_ledger s : same_ledger s (with_policy s).
Proof. split; [done|]. split; [done|]. intros c b. unfold earned_now. by rewrite percent_at_with. Qed.

Lemma same_ledger_paid s s1 c b : same_ledger s s1 -> paid_of s1 c b = paid_of s c b.
Proof. intros (E & _). unfold paid_of, settlements_of. by rewrite E. Qed.

Lemma same_ledger_ok s s1 : same_ledger s s1 -> ledger_ok s -> ledger_ok s1.
Proof. intros (E1 & E2 & _) [H1 H2]. split; rewrite E1, ?E2; done. Qed.

#[local] Hint Resolve same_ledger_refl with_policy_ledger : ledger.

Lemma settle_check_Ok_inv c b x s s1 : settle_check c b x s = (Ok tt, s1) ->
  s1 = with_policy s /\ is_amount x = true /\ digits_value x <= earned_now s c b - paid_of s c b.
Proof.
  unfold settle_check. intros Hrun. run_inv. apply account_Ok_inv in Hr0 as (h & Hh & -> & Ha). split; [done|]. split; [done|].
  unfold earned_now. rewrite Hh. destruct (account_of_Some _ _ _ _ _ Ha) as (_ & _ & _ & E).
  rewrite earned_of_with, paid_of_with in E. rewrite E in Hg. by apply Z.leb_le.
Qed.

Lemma settle_check_Err c b x s e s1 : settle_check c b x s = (Err e, s1) -> s1 = s \/ s1 = with_policy s.
Proof.
  unfold settle_check. rewrite run_bind. unfold ensure at 1. destruct (is_amount x); [|left; by inversion H].
  rewrite run_ret. rewrite run_bind. destruct (account c b s) as [[a|e1] s2] eqn:E.
  - apply account_Ok_inv in E as (h & _ & -> & _). unfold ensure. destruct (_ <=? _); [done|]. intros [= _ <-]. by right.
  - apply account_Err in E as ->. intros [= _ <-]. by right.
Qed.

Definition saved (c b : uuid) (x : text) (note : option text) (by_ : uuid) (s : ledger_state) : ledger_state :=
  s <| lg_settlements := <[lg_nextId s := mkSettlement (lg_nextId s) c b (digits_value x) (clean_note note) (Some by_) (ts_now (lg_trips s))]> (lg_settlements s) |>
    <| lg_nextId := N.succ (lg_nextId s) |>.

Lemma settle_save_run c b x note by_ s :
  settle_save c b x note by_ s = if column_fits 300 (clean_note note) then (Ok tt, saved c b x note by_ s) else (Err TOO_LONG, s).
Proof. unfold settle_save. rewrite run_bind. unfold ensure. by destruct (column_fits _ _). Qed.

Lemma fresh_settlement s : (forall k x, lg_settlements s !! k = Some x -> (k < lg_nextId s)%N) -> lg_settlements s !! lg_nextId s = None.
Proof. intros H. destruct (_ !! lg_nextId s) as [x|] eqn:E; [|done]. apply H in E. lia. Qed.

Lemma paid_of_saved c b x note by_ s c' b' : (forall k x, lg_settlements s !! k = Some x -> (k < lg_nextId s)%N) ->
  paid_of (saved c b x note by_ s) c' b' = (if (c =? c')%N && (b =? b')%N then digits_value x else 0) + paid_of s c' b'.
Proof.
  intros H. unfold paid_of, settlements_of.
  change (lg_settlements (saved c b x note by_ s)) with (<[lg_nextId s := mkSettlement (lg_nextId s) c b (digits_value x) (clean_note note) (Some by_) (ts_now (lg_trips s))]> (lg_settlements s)).
  rewrite find_rows_insert by (by apply fresh_settlement).
  rewrite map_app, Zsum_app. unfold settlement_of at 1. cbn [bl_companyUserId bl_brokerUserId].
  destruct (_ && _); [cbn; lia | done].
Qed.

Lemma ledger_digit_range c : is_digit c = true -> 0 <= digit_value c /\ (c <> 48%N -> 0 < digit_value c).
Proof. unfold digit_value, is_digit. intros [H1%N.leb_le H2%N.leb_le]%andb_true_iff. lia. Qed.

Lemma digits_value_positive y : forall acc, forallb is_digit y = true -> 0 < acc -> 0 < foldl (fun acc c => acc * 10 + digit_value c) acc y.
Proof.
  induction y as [|d y IH]; intros acc Hy Ha; cbn [foldl]; [done|]. cbn [forallb] in Hy. apply andb_true_iff in Hy as [Hd Hy].
  apply IH; [done|]. destruct (ledger_digit_range d Hd). lia.
Qed.

Lemma is_amount_positive x : is_amount x = true -> 0 < digits_value x.
Proof.
  destruct x as [|c x]; [done|]. cbn [is_amount]. rewrite !andb_true_iff, negb_true_iff. intros [[[Hc Hz%N.eqb_neq] Hd] _].
  destruct (ledger_digit_range c Hc) as [_ Hp]. specialize (Hp Hz). unfold digits_value. cbn [foldl]. apply digits_value_positive; [done | lia].
Qed.

Lemma saved_ids c b x note by_ s : (forall k y, lg_settlements s !! k = Some y -> (k < lg_nextId s)%N) ->
  forall k y, lg_settlements (saved c b x note by_ s) !! k = Some y -> (k < lg_nextId (saved c b x note by_ s))%N.
Proof. intros H1 k y. cbn. rewrite lookup_insert_Some. intros [[<- <-]|[_ Hy]]; [lia|]. specialize (H1 k y Hy). lia. Qed.

Lemma saved_ok c b x note by_ s : ledger_ok s -> 0 < digits_value x -> ledger_ok (saved c b x note by_ s).
Proof.
  intros [H1 H2] Hx. split; [by apply saved_ids|]. intros k y. cbn. rewrite lookup_insert_Some. intros [[<- <-]|[_ Hy]]; [done | by eapply H2].
Qed.

Definition removed (k : uuid) (s : ledger_state) : ledger_state := s <| lg_settlements := delete k (lg_settlements s) |>.

Lemma paid_of_removed k x s c b : lg_settlements s !! k = Some x ->
  paid_of s c b = (if settlement_of c b x then bl_amount x else 0) + paid_of (removed k s) c b.
Proof.
  intros E. unfold paid_of, settlements_of. change (lg_settlements (removed k s)) with (delete k (lg_settlements s)).
  rewrite (find_rows_delete _ _ k x E), map_app, Zsum_app. destruct (settlement_of c b x); cbn; lia.
Qed.

Lemma removed_ok k s : ledger_ok s -> ledger_ok (removed k s).
Proof. intros [H1 H2]. split; intros i y; cbn; rewrite lookup_delete_Some; intros [_ Hy]; [by eapply H1 | by eapply H2]. Qed.

Lemma removed_pays_less k s c b : ledger_ok s -> paid_of (removed k s) c b <= paid_of s c b.
Proof.
  intros [_ H2]. destruct (lg_settlements s !! k) as [x|] eqn:E; [|unfold paid_of, settlements_of, removed; cbn; by rewrite delete_id].
  rewrite (paid_of_removed k x s c b E). pose proof (H2 k x E). destruct (settlement_of c b x); lia.
Qed.

Lemma detail_ledger c b s : same_ledger s (final (detail c b) s).
Proof.
  assert (Hd : final (detail c b) s = with_policy s \/ final (detail c b) s = with_policy (with_policy s)).
  { unfold final, detail. rewrite run_bind, percent_now_run. destruct (percent_at s) as [h|]; [|by left].
    rewrite run_bind. destruct (account c b (with_policy s)) as [[a|e] s2] eqn:E.
    - apply account_Ok_inv in E as (h' & _ & -> & _). by right.
    - apply account_Err in E as ->. by right. }
  destruct Hd as [-> | ->]; eauto using same_ledger_trans with ledger.
Qed.

(** A payment asked for either changes nothing, or was at most what was left and is saved. *)
Lemma settle_cases c b x note by_ s :
  same_ledger s (final (settle c b x note by_) s) \/
  (0 < digits_value x /\ digits_value x <= earned_now s c b - paid_of s c b /\
   same_ledger (saved c b x note by_ s) (final (settle c b x note by_) s)).
Proof.
  unfold final, settle. rewrite run_bind. destruct (settle_check c b x s) as [[[]|e] s1] eqn:E.
  - apply settle_check_Ok_inv in E as (-> & Hx & Hle). rewrite run_bind, settle_save_run.
    destruct (column_fits _ _); [right | left; apply with_policy_ledger].
    split; [by apply is_amount_positive|]. split; [done|].
    apply (same_ledger_trans _ (saved c b x note by_ (with_policy s))); [|apply (detail_ledger c b)].
    destruct (with_policy_ledger s) as (E1 & E2 & E3). split; [done|]. split; [done|]. exact E3.
  - left. apply settle_check_Err in E as [-> | ->]; auto with ledger.
Qed.

Lemma removeSettlement_cases c k s :
  same_ledger s (final (removeSettlement c k) s) \/ same_ledger (removed k s) (final (removeSettlement c k) s).
Proof.
  unfold removeSettlement, final. rewrite run_bind. unfold get. cbv beta iota. rewrite run_bind. unfold some_or.
  destruct (_ ≫= _) as [x|]; [|by left]. rewrite run_ret, run_bind. unfold modify. cbv beta iota. right. apply (detail_ledger c).
Qed.

(** ** One after the other *)

(** A company pays or takes a payment back; in between trips end, and policies change, in
    any way. *)
Inductive ledger_step : ledger_state -> ledger_state -> Prop :=
| ls_settle c b x note by_ s : ledger_step s (final (settle c b x note by_) s)
| ls_remove c k s : ledger_step s (final (removeSettlement c k) s)
| ls_trips s s1 : lg_settlements s1 = lg_settlements s -> lg_nextId s1 = lg_nextId s -> ledger_step s s1.

Lemma ledger_step_ok s s1 : ledger_step s s1 -> ledger_ok s -> ledger_ok s1.
Proof.
  intros [c b x note by_ s0|c k s0|s0 s2 E1 E2] Hs.
  - destruct (settle_cases c b x note by_ s0) as [H|(Hx & _ & H)]; eauto using same_ledger_ok, saved_ok.
  - destruct (removeSettlement_cases c k s0); eauto using same_ledger_ok, removed_ok.
  - destruct Hs as [H1 H2]. split; rewrite E1, ?E2; done.
Qed.

(** Only a payment that what is earned at its moment covers lets a broker be paid more. *)
Lemma ledger_step_paid s s1 c b : ledger_step s s1 -> ledger_ok s ->
  paid_of s1 c b <= paid_of s c b \/ paid_of s1 c b <= earned_now s c b.
Proof.
  intros [c' b' x note by_ s0|c' k s0|s0 s2 E1 E2] Hs.
  - destruct (settle_cases c' b' x note by_ s0) as [H|(_ & Hle & H)]; rewrite (same_ledger_paid _ _ c b H); [by left|].
    rewrite paid_of_saved by apply Hs. destruct (N.eqb_spec c' c) as [->|]; [destruct (N.eqb_spec b' b) as [->|]|]; cbn [andb]; lia.
  - left. destruct (removeSettlement_cases c' k s0) as [H|H]; rewrite (same_ledger_paid _ _ c b H); [done | by apply removed_pays_less].
  - left. unfold paid_of, settlements_of. by rewrite E1.
Qed.

(** A run, with every state it went through *)
Inductive ledger_run (s : ledger_state) : list ledger_state -> ledger_state -> Prop :=
| lr_start : ledger_run s [s] s
| lr_step h s1 s2 : ledger_run s h s1 -> ledger_step s1 s2 -> ledger_run s (s2 :: h) s2.

Lemma paid_when_earned s h s1 c b :
  ledger_ok s -> paid_of s c b <= earned_now s c b -> ledger_run s h s1 ->
  ledger_ok s1 /\ s1 ∈ h /\ exists t, t ∈ h /\ paid_of s1 c b <= earned_now t c b.
Proof.
  intros Hs Hw. induction 1 as [|h s1 s2 _ (Ho & Hin & t & Ht & Hp) H12].
  - split; [done|]. split; [set_solver|]. exists s. split; [set_solver | done].
  - split; [by eapply ledger_step_ok|]. split; [set_solver|].
    destruct (ledger_step_paid _ _ c b H12 Ho); [exists t | exists s1]; (split; [set_solver | lia]).
Qed.

(** C11: Payments made one after the other stay within what a broker's trips earned, as its
    account said at the time: through any sequence of payments, payments taken back and
    changes of trips and policies, what a company has paid a broker in all was, at some moment
    so far, within the commission of its trips.  The commission may shrink later (older
    trips go by today's percent); while it is no less than at any moment before, no more has
    been paid than the trips earn now, and an account shown has no negative balance. *)
Theorem settles_within (s s1 : ledger_state) (h : list ledger_state) (c b : uuid) :
  ledger_ok s -> paid_of s c b <= earned_now s c b -> ledger_run s h s1 ->
  (exists t, t ∈ h /\ paid_of s1 c b <= earned_now t c b) /\
  ((forall t, t ∈ h -> earned_now t c b <= earned_now s1 c b) ->
   paid_of s1 c b <= earned_now s1 c b /\
   (forall a s2, account c b s1 = (Ok a, s2) -> 0 <= ba_remaining a /\ ba_paid a = paid_of s1 c b)).
Proof.
  intros Hs Hw Hr. destruct (paid_when_earned s h s1 c b Hs Hw Hr) as (_ & _ & t & Ht & Hp). split; [by exists t|]. intros Hmost.
  specialize (Hmost t Ht). assert (Hle : paid_of s1 c b <= earned_now s1 c b) by lia. split; [exact Hle|]. clear Hmost Hp. intros a s2 (p & Hh & _ & Ha)%account_Ok_inv.
  destruct (account_of_Some _ _ _ _ _ Ha) as (_ & _ & -> & ->). rewrite earned_of_with, paid_of_with. unfold earned_now in Hle. rewrite Hh in Hle.
  split; [lia | done].
Qed.

(** ** Two at once *)

(** Two payments checked before either is saved are both saved: sent twice, a payment of
    more than half of what is left leaves the broker paid more than it earned. *)
Theorem racing_settlements_overpay (s s1 s2 : ledger_state) (c b : uuid) (x y : text) (n1 n2 : option text) (u1 u2 : uuid) :
  ledger_ok s -> column_fits 300 (clean_note n1) = true -> column_fits 300 (clean_note n2) = true ->
  settle_check c b x s = (Ok tt, s1) -> settle_check c b y s1 = (Ok tt, s2) ->
  earned_now s c b < paid_of s c b + digits_value x + digits_value y ->
  exists s3, (settle_save c b x n1 u1 ≫= fun _ => settle_save c b y n2 u2) s2 = (Ok tt, s3) /\
    paid_of s3 c b = paid_of s c b + digits_value x + digits_value y /\ earned_now s3 c b = earned_now s c b /\ earned_now s3 c b < paid_of s3 c b.
Proof.
  intros Hs F1 F2 (-> & _ & _)%settle_check_Ok_inv (-> & _ & _)%settle_check_Ok_inv Hlt. set (s2 := with_policy (with_policy s)).
  exists (saved c b y n2 u2 (saved c b x n1 u1 s2)). rewrite run_bind, settle_save_run, F1, settle_save_run, F2. split; [done|].
  assert (Ho : ledger_ok s2) by (destruct Hs; by split).
  rewrite paid_of_saved by (apply saved_ids, Ho). rewrite paid_of_saved by apply Ho. rewrite !N.eqb_refl. cbn [andb].
  change (paid_of s2 c b) with (paid_of s c b).
  assert (Ee : earned_now (saved c b y n2 u2 (saved c b x n1 u1 s2)) c b = earned_now s c b).
  { change (earned_now s2 c b = earned_now s c b). unfold earned_now, s2. rewrite !percent_at_with. done. }
  rewrite Ee. split; [lia|]. split; [done | lia].
Qed.

(** ** The sum of what is listed *)

#[export] Instance sum_of_perm {A} (f : A -> option Z) : Proper ((≡ₚ) ==> eq) (sum_of f).
Proof. intros l1 l2 H. unfold sum_of. apply Zsum_perm. by apply Permutation_map. Qed.

#[export] Instance count_of_perm {A} (f : A -> bool) : Proper ((≡ₚ) ==> eq) (count_of f).
Proof.
  intros l1 l2 H. unfold count_of. induction H; cbn; [done|by destruct (f _); cbn; rewrite ?IHPermutation| |congruence].
  by destruct (f x), (f y).
Qed.

Lemma omap_all {A B} (f : A -> option B) l : (forall x, x ∈ l -> is_Some (f x)) -> Forall2 (fun x y => f x = Some y) l (omap f l).
Proof.
  induction l as [|x l IH]; intros H; [constructor|]. destruct (H x ltac:(set_solver)) as [y Hy]. cbn. rewrite Hy.
  constructor; [done|]. apply IH. set_solver.
Qed.

Lemma sum_listed {A B} (P : A -> B -> Prop) (g : A -> option Z) (h : B -> option Z) l l' :
  (forall x y, P x y -> h y = g x) -> Forall2 P l l' -> sum_of h l' = sum_of g l.
Proof. intros H. unfold sum_of, Zsum. induction 1 as [|x y l l' Hxy _ IH]; cbn; [done|]. by rewrite (H x y Hxy), IH. Qed.

Lemma count_listed {A B} (P : A -> B -> Prop) (g : A -> bool) (h : B -> bool) l l' :
  (forall x y, P x y -> h y = g x) -> Forall2 P l l' -> count_of h l' = count_of g l.
Proof.
  intros H. unfold count_of. induction 1 as [|x y l l' Hxy _ IH]; cbn; [done|]. rewrite (H x y Hxy). by destruct (g x); cbn; rewrite IH.
Qed.

Lemma count_split {A} (f : A -> bool) l : (count_of f l + count_of (fun x => negb (f x)) l)%nat = length l.
Proof. unfold count_of. induction l as [|x l IH]; cbn; [done|]. destruct (f x); cbn; lia. Qed.

Lemma ledger_trip_fields p t r y : ledger_trip p t r = Some y ->
  lt_commission y = commission_of p.2 t r /\ lt_payModel y = pay_model r /\ lt_margin y = margin_of r.
Proof. unfold ledger_trip. destruct (ts_listings t !! rq_listingId r); [|done]. cbn [mbind option_bind]. by intros [= <-]. Qed.

Lemma trips_listed p t c b : rows_ok t -> Forall2 (fun r y => ledger_trip p t r = Some y) (trips_of t c b) (omap (ledger_trip p t) (trips_of t c b)).
Proof.
  intros Hr. apply omap_all. intros r (_ & i & Hi)%elem_of_find_rows. destruct (ok_company _ Hr i r Hi) as (l & Hl & _).
  unfold ledger_trip. rewrite Hl. cbn [mbind option_bind]. by eexists.
Qed.

Lemma detail_Ok_inv c b s d s1 : detail c b s = (Ok d, s1) ->
  exists h, percent_at s = Some h /\ account_of h s c b = Some (ld_account d) /\
    ld_trips d ≡ₚ omap (ledger_trip (commissionPercent (policy_at s), h) (lg_trips s)) (trips_of (lg_trips s) c b) /\
    ld_settlements d ≡ₚ settlements_of s c b.
Proof.
  unfold detail. rewrite run_bind, percent_now_run. destruct (percent_at s) as [h|] eqn:Eh; [|done]. rewrite run_bind.
  destruct (account c b (with_policy s)) as [[a|e] s2] eqn:E; [|done]. apply account_Ok_inv in E as (h' & Hh & -> & Ha).
  rewrite percent_at_with, Eh in Hh. injection Hh as <-. rewrite run_bind. unfold get. cbv beta iota. rewrite run_ret. intros [<- _]%run_Ok_inv.
  exists h. split; [done|]. split; [exact Ha|]. split; apply merge_sort_Permutation.
Qed.

(** A company's account with a broker is the sum of what its detail lists: the trips are
    all there, what was earned and the margin are the sums over them, what was paid is the
    sum of the payments, what is left is their difference, and every trip is either on
    commission or on margin. *)
Theorem account_adds_up (s s1 : ledger_state) (c b : uuid) (d : LedgerDetail) :
  rows_ok (lg_trips s) -> detail c b s = (Ok d, s1) ->
  let a := ld_account d in
  ba_broker a = b /\
  ba_trips a = length (ld_trips d) /\
  ba_earned a = sum_of lt_commission (ld_trips d) /\
  ba_paid a = Zsum (map bl_amount (ld_settlements d)) /\
  ba_remaining a = ba_earned a - ba_paid a /\
  ba_unpriced a = count_of (fun t => eqb (lt_payModel t) Commission && is_null (lt_commission t)) (ld_trips d) /\
  ba_commissionTrips a = count_of (fun t => eqb (lt_payModel t) Commission) (ld_trips d) /\
  (ba_commissionTrips a + ba_marginTrips a)%nat = length (ld_trips d).
Proof.
  intros Hr (h & Hh & Ha & Ht & Hp)%detail_Ok_inv. cbv zeta. pose proof (trips_listed (commissionPercent (policy_at s), h) _ c b Hr) as Hl.
  set (p := (commissionPercent (policy_at s), h)) in *. unfold account_of in Ha. destruct (lg_users s !! b) as [u|]; [|done].
  cbn [mbind option_bind] in Ha. injection Ha as <-. cbn [ba_broker ba_trips ba_earned ba_paid ba_remaining ba_unpriced ba_commissionTrips ba_marginTrips].
  pose proof (Forall2_length _ _ _ Hl) as Hlen. rewrite !Ht, Hp. split; [done|]. split; [done|]. split.
  { unfold earned_of. symmetry. eapply sum_listed; [|exact Hl]. intros r y Hy. by destruct (ledger_trip_fields _ _ _ _ Hy) as (-> & _). }
  split; [done|]. split; [done|]. split; [|split].
  - symmetry. eapply count_listed; [|exact Hl]. intros r y Hy. by destruct (ledger_trip_fields _ _ _ _ Hy) as (-> & -> & _).
  - symmetry. eapply count_listed; [|exact Hl]. intros r y Hy. by destruct (ledger_trip_fields _ _ _ _ Hy) as (_ & -> & _).
  - rewrite <- Hlen. apply count_split.
Qed.

(** ** A sample ledger

    Broker 20 has one delivered trip on a load of company 10, worth 1000. *)

Definition sample_ledger_trip : CargoRequest :=
  mkRequest 7 100 20 10 Delivered (Some 500) None (Some 900) None None None
    (Some (mkBrokerDriver (js "Ali Rezai") (js "0084575948") (js "09121234567") (js "42 B 842") None None (Some (js "50000")) None None))
    None (Some Commission) (Some (num_of_Z 1000)) (Some (num_of_Z 2)) None 100 900.

Definition sample_ledger : ledger_state := {|
  lg_trips := {| ts_config := sample_config; ts_now := 1000; ts_listings := {[ 100%N := with_status ListingTaken 500 sample_listing ]};
                 ts_requests := {[ 7%N := sample_ledger_trip ]}; ts_fares := ∅; ts_waiting := ∅; ts_broker := sample_broker;
                 ts_profiles := sample_profiles; ts_sent := [] |};
  lg_users := {[ 20%N := mkLedgerUser (Some (js "Broker")) None None None None ]};
  lg_settlements := ∅; lg_nextId := 1 |}.

Lemma sample_ledger_rows : rows_ok (lg_trips sample_ledger).
Proof.
  split; cbn [lg_trips sample_ledger ts_requests ts_listings].
  - by intros i r [<- <-]%lookup_singleton_Some.
  - by intros i j r q [<- _]%lookup_singleton_Some [<- _]%lookup_singleton_Some.
  - by intros i j r q [<- _]%lookup_singleton_Some [<- _]%lookup_singleton_Some.
  - intros i r [<- <-]%lookup_singleton_Some. by eexists.
  - by intros i r [<- <-]%lookup_singleton_Some.
  - by intros i l [<- <-]%lookup_singleton_Some.
Qed.

Lemma sample_ledger_ok : ledger_ok sample_ledger.
Proof. split; by intros k x Hx. Qed.

(** A broker is paid 600 of the 1000 its trip earned; a second payment of 600 is refused. *)
Definition once_paid : ledger_state := final (settle 10 20 (js "600") None 10) sample_ledger.
Definition twice_asked : ledger_state := final (settle 10 20 (js "600") None 10) once_paid.

Lemma settles_within_witness :
  paid_of twice_asked 10 20 = 600 /\ paid_of twice_asked 10 20 <= earned_now twice_asked 10 20.
Proof.
  split; [vm_compute; reflexivity|].
  refine (proj1 (proj2 (settles_within sample_ledger twice_asked [twice_asked; once_paid; sample_ledger] 10 20 sample_ledger_ok _ _) _)).
  - vm_compute; discriminate.
  - apply lr_step with once_paid; [apply lr_step with sample_ledger; [apply lr_start|]|]; apply ls_settle.
  - intros t Ht. repeat (apply elem_of_cons in Ht as [-> | Ht]; [vm_compute; discriminate|]). by apply elem_of_nil in Ht.
Defined.

Lemma racing_settlements_overpay_witness :
  exists s3, (settle_save 10 20 (js "600") None 10 ≫= fun _ => settle_save 10 20 (js "600") None 10) (with_policy (with_policy sample_ledger)) = (Ok tt, s3) /\
    paid_of s3 10 20 = 1200 /\ earned_now s3 10 20 = 1000.
Proof.
  destruct (racing_settlements_overpay sample_ledger (with_policy sample_ledger) (with_policy (with_policy sample_ledger)) 10 20 (js "600") (js "600") None None 10 10)
    as (s3 & H1 & H2 & H3 & _).
  - exact sample_ledger_ok.
  - vm_compute; reflexivity.
  - vm_compute; reflexivity.
  - vm_compute; reflexivity.
  - vm_compute; reflexivity.
  - vm_compute; reflexivity.
  - exists s3. split; [exact H1|]. split; [rewrite H2 | rewrite H3]; vm_compute; reflexivity.
Defined.

Lemma account_adds_up_witness :
  exists d, result (detail 10 20) sample_ledger = Ok d /\ ba_trips (ld_account d) = 1%nat /\ ba_earned (ld_account d) = sum_of lt_commission (ld_trips d).
Proof.
  destruct (detail 10 20 sample_ledger) as [[d|e] s1] eqn:E; [|exfalso; vm_compute in E; discriminate].
  destruct (account_adds_up sample_ledger s1 10 20 d sample_ledger_rows E) as (_ & H2 & H3 & _).
  exists d. split; [unfold result; by rewrite E|]. split; [|exact H3].
  rewrite H2. vm_compute in E. injection E as <- _. reflexivity.
Defined.
