(* ===== verification/CargoSearch.v ===== *)
(** * Searching the loads

    [src/services/notification/cargoSearch.ts]: a search by origin, destination, kind of
    cargo, vehicle and kind of trip, where a place may be several places or a whole
    province. *)

From S2P Require Import Prelude JsNumber JsString Effects Enums BrokerDriver DriverProfile FreeText IranPlaces TripTypes TripFareRules BrokerAccess CargoData AlertFilters Contacts.

(** [CargoSearch] *)
Record CargoSearch := mkSearch {
  cs_origin : option text;
  cs_destination : option text;
  cs_cargoType : option text;
  cs_vehicleType : option text;
  cs_tripType : option text;
}.

(** [PreparedCargoSearch] *)
Record PreparedCargoSearch := mkPrepared {
  pr_origin : option (text -> bool);
  pr_destination : option (text -> bool);
  pr_cargoType : option (text -> bool);
  pr_vehicleType : option (text -> bool);
  pr_tripType : option CargoTripType;
}.

Section Search.
  Context `{Unicode} `{WordChars} `{JsCase}.

(** ** Several places *)

Fixpoint leading_spaces (t : text) : nat :=
  match t with c :: t => if is_space c then S (leading_spaces t) else 0 | [] => 0 end.

(** «،», [,], [/], [|], «؛» and [;] *)
Definition is_place_mark (c : N) : bool := bool_decide (c ∈ [1548; 44; 47; 124; 1563; 59]%N).

(** [\s+word\s+], with what [\s*] takes around it *)
Definition spaced_word (word t : text) : option nat :=
  let n := leading_spaces t in
  let m := leading_spaces (drop (n + length word) t) in
  if Nat.ltb 0 n && starts_with word (drop n t) && Nat.ltb 0 m then Some (n + length word + m)%nat else None.

(** [PLACE_SEPARATOR] at the start of a text: the length of its match *)
Definition separator_at (t : text) : option nat :=
  let n := leading_spaces t in
  match drop n t with
  | c :: rest =>
      if is_place_mark c then Some (n + 1 + leading_spaces rest)%nat
      else match spaced_word (js "و") t with
           | Some k => Some k
           | None => spaced_word (js "یا") t
           end
  | [] => None
  end.

(** [value.split(PLACE_SEPARATOR)] *)
Fixpoint split_places_from (fuel : nat) (cur t : text) : list text :=
  match fuel, t with
  | O, _ | _, [] => [cur]
  | S fuel, c :: t' =>
      match separator_at t with
      | Some n => cur :: split_places_from fuel [] (drop n t)
      | None => split_places_from fuel (cur ++ [c]) t'
      end
  end.

Definition AND : text := js " و ".

(** [JOINED_NAMES] *)
Definition JOINED_NAMES : list text :=
  List.filter (includes_text AND) (map normalizePersianText (flat_map (fun p => pv_names p ++ pv_cities p) IRAN_PROVINCES)).

(** The loop of [splitPlaces]: two parts that are one name are put together again *)
Fixpoint rejoin (fuel : nat) (parts : list text) : list text :=
  match fuel, parts with
  | S fuel, a :: b :: rest =>
      if bool_decide (a ++ AND ++ b ∈ JOINED_NAMES) then (a ++ AND ++ b) :: rejoin fuel rest else a :: rejoin fuel (b :: rest)
  | _, _ => parts
  end.

Definition splitPlaces (value : text) : list text :=
  let parts := List.filter (fun p => negb (is_empty p)) (split_places_from (length value) [] value) in
  rejoin (length parts) parts.

(** ** One place *)

(** [/^استان\s+/] *)
Definition PROVINCE_WORD : text := js "استان".

Definition province_prefix (place : text) : option text :=
  let rest := drop (length PROVINCE_WORD) place in
  if starts_with PROVINCE_WORD place && Nat.ltb 0 (leading_spaces rest) then Some (drop (leading_spaces rest) rest) else None.

(** A province by one of its names, or by its capital's after «استان» *)
Definition named (name : text) (provinceOnly : bool) (p : Province) : bool :=
  bool_decide (name ∈ map normalizePersianText (pv_names p))
  || provinceOnly && match pv_capitalNamed p with Some c => negb (is_empty c) && bool_decide (normalizePersianText c = name) | None => false end.

Definition in_province (p : Province) (value : text) : bool := has_place (map normalizePersianText (pv_cities p)) value.

Definition placeMatcher (place : text) (value : text) : bool :=
  let name := default place (province_prefix place) in
  includes_text name value
  || some_b (fun p => in_province p value) (List.filter (named name (negb (is_null (province_prefix place)))) IRAN_PROVINCES).

(** ** Searching *)

(** A field of the search, if it asks for anything *)
Definition wanted (t : option text) : option text :=
  match t with
  | Some (c :: r) => let v := normalizePersianText (c :: r) in if is_empty v then None else Some v
  | _ => None
  end.

Definition place_field (t : option text) : option (text -> bool) :=
  (fun v cargoValue => some_b (fun place => placeMatcher place cargoValue) (splitPlaces v)) <$> wanted t.

Definition text_field (t : option text) : option (text -> bool) := (fun v cargoValue => includes_text v cargoValue) <$> wanted t.

Definition prepareCargoSearch (search : CargoSearch) : option PreparedCargoSearch :=
  let p := mkPrepared (place_field (cs_origin search)) (place_field (cs_destination search)) (text_field (cs_cargoType search))
             (text_field (cs_vehicleType search)) (parseTripType (cs_tripType search)) in
  if is_null (pr_origin p) && is_null (pr_destination p) && is_null (pr_cargoType p) && is_null (pr_vehicleType p) && is_null (pr_tripType p)
  then None else Some p.

Definition field_found (f : option (text -> bool)) (value : option text) : bool :=
  match f with Some f => f (normalizePersianText (default [] value)) | None => true end.

Definition matchesCargoSearch (cargo : CargoRouteFields) (tripType : option CargoTripType) (search : PreparedCargoSearch) : bool :=
  match pr_tripType search with Some t => bool_decide (tripType = Some t) | None => true end
  && field_found (pr_origin search) (rt_origin cargo)
  && field_found (pr_destination search) (rt_destination cargo)
  && field_found (pr_cargoType search) (rt_cargoType cargo)
  && field_found (pr_vehicleType search) (rt_vehicleType cargo).

(** [cargoSearchText] *)
Definition said (before : string) (t : option text) : text := match t with Some (c :: r) => js before ++ c :: r | _ => [] end.

Definition cargoSearchText (search : CargoSearch) : text :=
  match parseTripType (cs_tripType search) with Some t => js " " ++ TRIP_TYPE_LABEL t | None => [] end
  ++ said " " (cs_cargoType search) ++ said " از " (cs_origin search) ++ said " به " (cs_destination search) ++ said " با " (cs_vehicleType search).

End Search.
