(* ===== verification/NumberWords.v ===== *)
(** * Numbers in Persian words

    [src/domain/helper/persianNumberWords.ts], which the voices read, and the other way
    round [wordsValue] of services/notification/cargoPrice.ts: what is read of the words a
    company types. *)

From S2P Require Import Prelude JsNumber JsString Json FreeText.

(** ** Writing *)

Definition ONES : list text :=
  [[]; js "یک"; js "دو"; js "سه"; js "چهار"; js "پنج"; js "شش"; js "هفت"; js "هشت"; js "نه"].
Definition TEENS : list text :=
  [js "ده"; js "یازده"; js "دوازده"; js "سیزده"; js "چهارده"; js "پانزده"; js "شانزده"; js "هفده"; js "هجده"; js "نوزده"].
Definition TENS : list text :=
  [[]; []; js "بیست"; js "سی"; js "چهل"; js "پنجاه"; js "شصت"; js "هفتاد"; js "هشتاد"; js "نود"].
Definition HUNDREDS : list text :=
  [[]; js "صد"; js "دویست"; js "سیصد"; js "چهارصد"; js "پانصد"; js "ششصد"; js "هفتصد"; js "هشتصد"; js "نهصد"].
Definition SCALES : list text := [[]; js "هزار"; js "میلیون"; js "میلیارد"].

Definition word_at (words : list text) (n : N) : text := nth (N.to_nat n) words [].

(** « و » *)
Definition AND_SIGN : text := js " و ".

(** The words of a number below a thousand, before [join(' و ')] *)
Definition parts_below_thousand (n : N) : list text :=
  let rest := (n mod 100)%N in
  (if 100 <=? n then [word_at HUNDREDS (n / 100)] else [])%N
  ++ (if (10 <=? rest) && (rest <? 20) then [word_at TEENS (rest - 10)]
      else (if 20 <=? rest then [word_at TENS (rest / 10)] else []) ++ (if rest mod 10 =? 0 then [] else [word_at ONES (rest mod 10)]))%N.

Definition belowThousand (n : N) : text := join AND_SIGN (parts_below_thousand n).

(** One group of three digits with its scale: «هزار», not «یک هزار» *)
Definition group_words (scale : nat) (group : N) : list text :=
  if (group =? 0)%N then []
  else if Nat.eqb scale 1 && (group =? 1)%N then [nth 1 SCALES []]
  else [join [32%N] (List.filter (fun t => negb (is_empty t)) [belowThousand group; nth scale SCALES []])].

(** The loop: the groups from the lowest, four of them at most; the highest is written first. *)
Fixpoint groups_from (scales : list nat) (n : N) : list text :=
  match scales with
  | [] => []
  | scale :: scales => if (n =? 0)%N then [] else groups_from scales (n / 1000) ++ group_words scale (n mod 1000)
  end.

Definition whole_words (n : N) : text :=
  if (n =? 0)%N then js "صفر" else join AND_SIGN (groups_from [0%nat; 1%nat; 2%nat; 3%nat] n).

(** [Math.floor(Math.abs(value))], of what is a number *)
Definition floor_abs (x : num) : option N :=
  match x with
  | SpecFloat.S754_zero _ => Some 0%N
  | SpecFloat.S754_finite _ m e => Some (if (0 <=? e)%Z then N.pos m * 2 ^ Z.to_N e else N.pos m / 2 ^ Z.to_N (- e))%N
  | _ => None
  end.

(** [integerToPersianWords]: of [NaN] and the infinities nothing is left *)
Definition integerToPersianWords (value : num) : text :=
  match floor_abs value with Some n => whole_words n | None => [] end.

Definition num_abs (x : num) : num := SpecFloat.SFabs x.

(** [decimalToPersianWords]: at most one decimal *)
Definition decimalToPersianWords (value : num) : text :=
  let rounded := num_div (math_round (num_mul (num_abs value) (num_of_Z 10))) (num_of_Z 10) in
  match floor_abs rounded with
  | None => []
  | Some whole =>
      match floor_abs (math_round (num_mul (num_sub rounded (num_of_Z (Z.of_N whole))) (num_of_Z 10))) with
      | None | Some 0%N => whole_words whole
      | Some tenth =>
          if (whole =? 0)%N then word_at ONES tenth ++ js " دهم"
          else whole_words whole ++ AND_SIGN ++ word_at ONES tenth ++ js " دهم"
      end
  end.

(** [replace(/(\d)[,٬](?=\d{3}(\D|$))/g, '$1')] *)
Fixpoint join_groups (after_digit : bool) (t : text) : text :=
  match t with
  | [] => []
  | c :: t => if after_digit && bool_decide (c ∈ [44; 1644]%N) && three_digits t then join_groups false t else c :: join_groups (is_digit c) t
  end.

(** [replace(/(\d)[.٫](?=\d)/g, '$1.')] *)
Fixpoint join_fraction (after_digit : bool) (t : text) : text :=
  match t with
  | [] => []
  | c :: t =>
      if after_digit && bool_decide (c ∈ [46; 1643]%N) && match t with d :: _ => is_digit d | [] => false end then 46%N :: join_fraction false t
      else c :: join_fraction (is_digit c) t
  end.

Definition digits_words (digits : text) : list text := map (fun d => integerToPersianWords (number_of_text [d])) digits.

(** One number of the text *)
Definition spell_number (number : text) : text :=
  let (whole, rest) := take_while is_digit number in
  match drop 1 rest with
  | [] => integerToPersianWords (number_of_text whole)
  | [_] => decimalToPersianWords (number_of_text number)
  | fraction => integerToPersianWords (number_of_text whole) ++ js " ممیز " ++ join [32%N] (digits_words fraction)
  end.

Fixpoint spell_from (fuel : nat) (t : text) : text :=
  match fuel, t with
  | S fuel, c :: t' => if is_digit c then let (number, rest) := number_at t in spell_number number ++ spell_from fuel rest else c :: spell_from fuel t'
  | _, _ => []
  end.

Definition spellNumbersInText (t : text) : text :=
  let latin := join_fraction false (join_groups false (latin_digits t)) in
  spell_from (length latin) latin.

(** ** Reading *)

(** [WORDS] *)
Definition WORDS : list (text * N) :=
  [ (js "یک", 1); (js "دو", 2); (js "سه", 3); (js "چهار", 4); (js "پنج", 5); (js "شش", 6); (js "هفت", 7); (js "هشت", 8); (js "نه", 9); (js "ده", 10)
  ; (js "یازده", 11); (js "دوازده", 12); (js "سیزده", 13); (js "چهارده", 14); (js "پانزده", 15); (js "شانزده", 16); (js "هفده", 17); (js "هجده", 18); (js "نوزده", 19)
  ; (js "بیست", 20); (js "سی", 30); (js "چهل", 40); (js "پنجاه", 50); (js "شصت", 60); (js "هفتاد", 70); (js "هشتاد", 80); (js "نود", 90)
  ; (js "صد", 100); (js "یکصد", 100); (js "دویست", 200); (js "سیصد", 300); (js "چهارصد", 400); (js "پانصد", 500); (js "ششصد", 600); (js "هفتصد", 700); (js "هشتصد", 800); (js "نهصد", 900) ]%N.

(** [part in WORDS] is also true of what every object has. *)
Definition OBJECT_NAMES : list text :=
  [js "constructor"; js "__defineGetter__"; js "__defineSetter__"; js "hasOwnProperty"; js "__lookupGetter__"; js "__lookupSetter__";
   js "isPrototypeOf"; js "propertyIsEnumerable"; js "toString"; js "valueOf"; js "__proto__"; js "toLocaleString"].

(** A part's number: [None] is no number word, [Some None] a function *)
Definition word_value (word : text) : option (option N) :=
  match List.find (fun p => bool_decide (p.1 = word)) WORDS with
  | Some p => Some (Some p.2)
  | None => if bool_decide (word ∈ OBJECT_NAMES) then Some None else None
  end.

(** [split(/\s+و\s+|\s+/)], the parts that are number words.  A «و» between spaces is no
    number word, so the words are those of the split at spaces. *)
Definition number_words (t : text) : list (option N) := omap word_value (split_runs is_space t).

(** The sum; a number and a function make a text, which no caller takes for a number. *)
Definition words_sum (l : list (option N)) : num :=
  if some_b is_null l then SpecFloat.S754_nan else num_of_Z (Z.of_N (foldl N.add 0%N (omap (fun x => x) l))).

Definition wordsValue (t : text) : option num :=
  match number_words t with [] => None | l => Some (words_sum l) end.

(** ** Numbers in words say what they were *)

(** ** A reference reading: words are added up, a scale multiplies what stands before it
    («هزار» alone is a thousand) *)

Definition scale_value (word : text) : option N :=
  if bool_decide (word = js "هزار") then Some 1000%N
  else if bool_decide (word = js "میلیون") then Some (10 ^ 6)%N
  else if bool_decide (word = js "میلیارد") then Some (10 ^ 9)%N else None.

Definition hear (st : N * N) (word : text) : N * N :=
  match scale_value word with
  | Some k => (st.1 + N.max 1 st.2 * k, 0)%N
  | None => match word_value word with Some (Some v) => (st.1, st.2 + v)%N | _ => st end
  end.

(** A word the reading knows: a scale, a number word, or the «و» between *)
Definition known (word : text) : bool :=
  negb (is_null (scale_value word)) || match word_value word with Some (Some _) => true | _ => false end || bool_decide (word = js "و").

(** «صفر» stands alone; of anything else every word must be known, and there must be one. *)
Definition spoken_value (t : text) : option N :=
  let words := split_runs is_space t in
  if bool_decide (words = [js "صفر"]) then Some 0%N
  else if negb (is_empty t) && forallb known words then let st := foldl hear (0, 0)%N words in Some (st.1 + st.2)%N
  else None.

Lemma hear_total a st w : hear (a + st.1, st.2)%N w = ((a + (hear st w).1)%N, (hear st w).2).
Proof. unfold hear. destruct (scale_value w); [cbn [fst snd]; f_equal; lia|]. by destruct (word_value w) as [[v|]|]. Qed.

Lemma hear_all_total ws a : forall st, foldl hear (a + st.1, st.2)%N ws = ((a + (foldl hear st ws).1)%N, (foldl hear st ws).2).
Proof. induction ws as [|w ws IH]; intros st; cbn [foldl]; [done|]. by rewrite hear_total, IH. Qed.

(** ** Words of a joined text *)

Definition ends_solid (t : text) : bool := match rev t with c :: _ => negb (is_space c) | [] => false end.
Definition starts_solid (t : text) : bool := match t with c :: _ => negb (is_space c) | [] => false end.

Lemma split_solid a : forall cur s b, a <> [] -> ends_solid a = true ->
  split_runs_from is_space cur s (a ++ 32%N :: b) = split_runs_from is_space cur s a ++ split_runs_from is_space [] true b.
Proof.
  induction a as [|c a IH]; intros cur s b Hne He; [done|]. destruct a as [|d a].
  - cbn in He. cbn [app split_runs_from]. destruct (is_space c); [done|]. by change (is_space 32) with true.
  - assert (He2 : ends_solid (d :: a) = true).
    { revert He. unfold ends_solid. change (rev (c :: d :: a)) with (rev (d :: a) ++ [c]). destruct (rev (d :: a)) eqn:E; [|done].
      apply (f_equal (@length _)) in E. rewrite length_rev in E. done. }
    change ((c :: d :: a) ++ 32%N :: b) with (c :: ((d :: a) ++ 32%N :: b)). cbn [split_runs_from].
    destruct (is_space c); [destruct s|]; rewrite (IH _ _ _ ltac:(done) He2); done.
Qed.

Lemma split_after_space b : starts_solid b = true -> split_runs_from is_space [] true b = split_runs is_space b.
Proof. destruct b as [|c b]; [done|]. cbn. unfold split_runs. cbn [split_runs_from]. by destruct (is_space c). Qed.

Lemma split_joined a b : ends_solid a = true -> starts_solid b = true ->
  split_runs is_space (a ++ AND_SIGN ++ b) = split_runs is_space a ++ js "و" :: split_runs is_space b.
Proof.
  intros Ha Hb. change (AND_SIGN ++ b) with (32%N :: (js "و" ++ 32%N :: b)). unfold split_runs at 1.
  rewrite split_solid; [|by intros -> | done]. f_equal. rewrite split_solid by done. by rewrite (split_after_space b Hb).
Qed.

(** ** One group of digits, of 999 at each scale *)

Definition group_text (scale : nat) (group : N) : text := match group_words scale group with [t] => t | _ => [] end.

Definition group_right (scale : nat) (group : N) : bool :=
  let t := group_text scale group in
  let st := foldl hear (0, 0)%N (split_runs is_space t) in
  starts_solid t && ends_solid t && forallb known (split_runs is_space t) && bool_decide (group_words scale group = [t])
  && if Nat.eqb scale 0 then bool_decide (st = (0, group)%N) else bool_decide (st = (group * 1000 ^ N.of_nat scale, 0)%N).

Lemma groups_right : forallb (fun k => forallb (group_right k) (map N.of_nat (seq 1 999))) [0%nat; 1%nat; 2%nat; 3%nat] = true.
Proof. vm_compute. reflexivity. Qed.

Lemma group_is_right k g : (k <= 3)%nat -> (0 < g < 1000)%N -> group_right k g = true.
Proof.
  intros Hk Hg. pose proof groups_right as H. rewrite forallb_forall in H. assert (Hin : In k [0%nat; 1%nat; 2%nat; 3%nat]) by (cbn; lia).
  specialize (H k Hin). rewrite forallb_forall in H. apply H. apply in_map_iff. exists (N.to_nat g). split; [lia|]. apply in_seq. lia.
Qed.

(** A group of the number, said after what stands before it *)
Lemma group_heard k g : (k <= 3)%nat -> (0 < g < 1000)%N ->
  let t := group_text k g in
  group_words k g = [t] /\ starts_solid t = true /\ ends_solid t = true /\ forallb known (split_runs is_space t) = true /\
  forall a, foldl hear (a, 0)%N (split_runs is_space t) = if Nat.eqb k 0 then (a, g) else ((a + g * 1000 ^ N.of_nat k)%N, 0%N).
Proof.
  intros Hk Hg t. pose proof (group_is_right k g Hk Hg) as H. unfold group_right in H. fold t in H. cbv zeta in H.
  rewrite !andb_true_iff in H. destruct H as [[[[H1 H2] H0] H3%bool_decide_eq_true] H4]. do 4 (split; [done|]).
  intros a. pose proof (hear_all_total (split_runs is_space t) a (0, 0)%N) as Ht. cbn [fst snd] in Ht. rewrite N.add_0_r in Ht. rewrite Ht.
  destruct (Nat.eqb k 0); apply bool_decide_eq_true in H4; rewrite H4; cbn [fst snd]; [by rewrite N.add_0_r | done].
Qed.

(** The groups of a text, and what is heard of them *)
Definition solid_list (l : list text) : Prop :=
  Forall (fun t => starts_solid t = true /\ ends_solid t = true /\ forallb known (split_runs is_space t) = true) l.

Fixpoint heard (st : N * N) (l : list text) : N * N :=
  match l with
  | [] => st
  | t :: l => heard (foldl hear st (split_runs is_space t)) l
  end.

Lemma ends_solid_app a b : b <> [] -> ends_solid (a ++ b) = ends_solid b.
Proof. intros Hb. unfold ends_solid. rewrite rev_app_distr. destruct (rev b) eqn:E; [|done]. apply (f_equal (@length _)) in E. rewrite length_rev in E. by destruct b. Qed.

Lemma join_from_split l : forall a st, ends_solid a = true -> solid_list l ->
  let t := foldl (fun acc y => acc ++ AND_SIGN ++ y) a l in
  ends_solid t = true /\ foldl hear st (split_runs is_space t) = heard (foldl hear st (split_runs is_space a)) l /\
  forallb known (split_runs is_space t) = forallb known (split_runs is_space a).
Proof.
  induction l as [|y l IH]; intros a st Ha Hl; cbn [foldl heard]; [done|]. apply Forall_cons in Hl as [(Hs & He & Hk) Hl].
  assert (Hy : y <> []) by (intros ->; done).
  assert (Ha2 : ends_solid (a ++ AND_SIGN ++ y) = true).
  { rewrite (assoc_L (++)). by rewrite ends_solid_app. }
  destruct (IH (a ++ AND_SIGN ++ y) st Ha2 Hl) as (H1 & H2 & H3). split; [done|]. rewrite H2, H3, (split_joined a y Ha Hs).
  split; [by rewrite foldl_app|]. rewrite forallb_app. cbn [forallb]. rewrite Hk. change (known (js "و")) with true. by rewrite andb_true_r.
Qed.

Lemma join_heard l : solid_list l -> l <> [] ->
  let t := join AND_SIGN l in
  ends_solid t = true /\ foldl hear (0, 0)%N (split_runs is_space t) = heard (0, 0)%N l /\ forallb known (split_runs is_space t) = true.
Proof.
  destruct l as [|a l]; [done|]. intros [(_ & Ha & Hk) Hl]%Forall_cons _. unfold join. cbn [heard]. destruct (join_from_split l a (0, 0)%N Ha Hl) as (H1 & H2 & H3). by rewrite H3.
Qed.

Lemma heard_app l1 l2 : forall st, heard st (l1 ++ l2) = heard (heard st l1) l2.
Proof. induction l1 as [|t l1 IH]; intros st; cbn [app heard]; [done | apply IH]. Qed.

(** The groups of scale [k] and above are worth what they stand for. *)
Definition worth (k : nat) (n : N) (st : N * N) : Prop := if Nat.eqb k 0 then (st.1 + st.2)%N = n else st = ((n * 1000 ^ N.of_nat k)%N, 0%N).

Lemma groups_heard ks : forall k n, ks = seq k (length ks) -> (k + length ks <= 4)%nat -> (n < 1000 ^ N.of_nat (length ks))%N ->
  solid_list (groups_from ks n) /\ worth k n (heard (0, 0)%N (groups_from ks n)) /\ (n <> 0%N -> groups_from ks n <> []).
Proof.
  induction ks as [|k0 ks IH]; intros k n Hks Hle Hn; cbn [groups_from].
  - cbn in Hn. assert (n = 0%N) as -> by lia. split; [constructor|]. split; [|done]. unfold worth. by destruct (Nat.eqb k 0).
  - cbn [length seq] in Hks. injection Hks as -> Hks. cbn [length] in Hle, Hn.
    assert (Ep : (1000 ^ N.of_nat (S (length ks)) = 1000 * 1000 ^ N.of_nat (length ks))%N) by (rewrite Nat2N.inj_succ; apply N.pow_succ_r').
    destruct (N.eqb_spec n 0) as [->|Hn0].
    { split; [constructor|]. split; [|done]. unfold worth. by destruct (Nat.eqb k 0). }
    assert (Hdm : (n = 1000 * (n / 1000) + n mod 1000)%N) by (apply N.div_mod; lia).
    assert (Hm : (n mod 1000 < 1000)%N) by (apply N.mod_lt; lia).
    assert (Hd : (n / 1000 < 1000 ^ N.of_nat (length ks))%N) by (apply N.Div0.div_lt_upper_bound; lia).
    destruct (IH (S k) (n / 1000)%N Hks ltac:(lia) Hd) as (Hs & Hw & Hne).
    assert (Hst : heard (0, 0)%N (groups_from ks (n / 1000)) = ((n / 1000 * 1000 ^ N.of_nat (S k))%N, 0%N)) by exact Hw.
    assert (Epk : (1000 ^ N.of_nat (S k) = 1000 * 1000 ^ N.of_nat k)%N) by (rewrite Nat2N.inj_succ; apply N.pow_succ_r').
    destruct (N.eqb_spec (n mod 1000) 0) as [Hz|Hz].
    + replace (group_words k (n mod 1000)) with (@nil text) by (by rewrite Hz). rewrite app_nil_r. split; [done|]. split.
      * rewrite Hst. unfold worth. destruct (Nat.eqb_spec k 0) as [->|_]; cbn [fst snd]; [rewrite Epk; cbn; lia|]. f_equal. rewrite Epk. nia.
      * intros _. apply Hne. lia.
    + assert (Hpos : (0 < n mod 1000)%N) by (by apply N.neq_0_lt_0).
      destruct (group_heard k (n mod 1000)%N ltac:(lia) (conj Hpos Hm)) as (Eg & G1 & G2 & G4 & G3). rewrite Eg. split.
      * apply Forall_app. split; [done|]. by repeat constructor.
      * split; [|intros _ F; by apply app_eq_nil in F as [_ F]].
        rewrite heard_app, Hst. cbn [heard]. rewrite G3. unfold worth.
        destruct (Nat.eqb_spec k 0) as [->|_]; cbn [fst snd]; [rewrite Epk; cbn; lia|]. f_equal. rewrite Epk. nia.
Qed.

(** A whole number that a double holds is its own whole part. *)
Lemma floor_abs_whole (n : N) : (n <= Z.to_N max_safe_integer)%N -> floor_abs (num_of_Z (Z.of_N n)) = Some n.
Proof.
  intros Hn. pose proof (num_to_Z_of_Z (Z.of_N n) ltac:(unfold max_safe_integer in *; lia)) as H. revert H.
  unfold num_to_Z, floor_abs. destruct (num_of_Z (Z.of_N n)) as [s| | |s m e]; try done.
  - intros [= H]. f_equal. lia.
  - destruct (Z.leb_spec 0 e) as [He|He].
    + intros [= H]. f_equal. apply N2Z.inj. rewrite <- H, N2Z.inj_mul, N2Z.inj_pow, Z2N.id by lia.
      assert (Hp : 0 < 2 ^ e) by lia. destruct s; [nia | done].
    + destruct (Z.eqb_spec ((if s then Z.neg m else Z.pos m) mod 2 ^ (- e)) 0) as [Hm|]; [|done]. intros [= H]. f_equal.
      apply N2Z.inj. rewrite N2Z.inj_div, N2Z.inj_pow, Z2N.id, <- H by lia. assert (Hp : 0 < 2 ^ (- e)) by lia.
      destruct s; [|done]. pose proof (Z.div_exact (Z.neg m) (2 ^ (- e)) ltac:(lia)) as [_ Hd]. specialize (Hd Hm). nia.
Qed.

(** C31: A whole number below a million million is said exactly: every word of it is known to a
    reading that adds number words up and multiplies by the scales, and what is read is the
    number, zero included; and of the words of a number from 1 to 999 the fare form's
    [wordsValue] reads that number again (of «صفر» it reads nothing). *)
Theorem spoken_exact (n : N) :
  (n < 10 ^ 12)%N ->
  spoken_value (integerToPersianWords (num_of_Z (Z.of_N n))) = Some n /\
  ((n < 1000)%N -> wordsValue (integerToPersianWords (num_of_Z (Z.of_N n))) = if (n =? 0)%N then None else Some (num_of_Z (Z.of_N n))).
Proof.
  intros Hn. unfold integerToPersianWords. rewrite floor_abs_whole by (unfold max_safe_integer; lia). split.
  - unfold whole_words. destruct (N.eqb_spec n 0) as [->|Hz]; [by vm_compute|].
    destruct (groups_heard [0%nat; 1%nat; 2%nat; 3%nat] 0 n eq_refl ltac:(cbn; lia) ltac:(cbn; lia)) as (Hs & Hw & Hne).
    destruct (join_heard _ Hs (Hne Hz)) as (He & Hh & Hk). unfold spoken_value. rewrite Hk, Hh.
    rewrite bool_decide_eq_false_2 by (intros E; by rewrite E in Hk). unfold is_empty.
    destruct (join AND_SIGN _); [done|]. cbn [negb andb]. f_equal. exact Hw.
  - intros Hn2. assert (H : forallb (fun n => bool_decide (wordsValue (whole_words n) = if (n =? 0)%N then None else Some (num_of_Z (Z.of_N n)))) (map N.of_nat (seq 0 1000)) = true) by (vm_compute; reflexivity).
    rewrite forallb_forall in H. assert (Hin : In n (map N.of_nat (seq 0 1000))) by (apply in_map_iff; exists (N.to_nat n); split; [lia | apply in_seq; lia]).
    by apply H, bool_decide_eq_true in Hin.
Qed.

Lemma spoken_exact_witness :
  spoken_value (integerToPersianWords (num_of_Z 1250)) = Some 1250%N /\ integerToPersianWords (num_of_Z 1250) = js "هزار و دویست و پنجاه" /\
  spoken_value (integerToPersianWords (num_of_Z 0)) = Some 0%N /\ spoken_value (js "هزار و کم") = None.
Proof.
  split; [exact (proj1 (spoken_exact 1250 ltac:(vm_compute; reflexivity)))|]. split; [vm_compute; reflexivity|].
  split; [exact (proj1 (spoken_exact 0 ltac:(vm_compute; reflexivity)))|]. vm_compute; reflexivity.
Defined.

(** From a million million on nothing may be left to say. *)
Example too_large_to_say : whole_words (10 ^ 12) = [].
Proof. vm_compute. reflexivity. Qed.
