(* ===== verification/CargoPrice.v ===== *)
(** * Amounts in free text

    [parseCargoPrice] (src/services/notification/cargoPrice.ts): the amount and the
    currency of a fare as a company wrote it; and on it [readAmount], [readWeight] and
    [fareDefaultsFromListing] of domain/helper/tripFare.ts, which read what is typed into
    the fare form. *)

From S2P Require Import Prelude JsNumber JsString Json Enums BrokerDriver TripFareRules FreeText NumberWords TripTypes.

(** A text with its ASCII letters in capitals: the patterns with [i] *)
Definition upper (t : text) : text := map ascii_upper t.
Definition says (part : string) (t : text) : bool := includes_text (js part) t.
Definition SAYS (part : string) (t : text) : bool := includes_text (js part) (upper t).

(** A character of the text, and whether what follows it satisfies [f] *)
Fixpoint char_before (f : option N -> bool) (c : N) (t : text) : bool :=
  match t with
  | [] => false
  | d :: t => (d =? c)%N && f (head t) || char_before f c t
  end.

Definition word_next (c : option N) : bool := match c with Some c => ascii_word c | None => false end.

(** [SCALES]: «م» is no letter of [\b], so [/م\b/] wants an ASCII word right after it;
    [/k\b/i] wants none. *)
Definition scale_of (tail : text) : num :=
  if says "میلیارد" tail || says "ملیارد" tail then num_of_Z 1000000000
  else if says "میلیون" tail || says "ملیون" tail || char_before word_next 1605 tail then num_of_Z 1000000
  else if says "هزار" tail || char_before (fun c => negb (word_next c)) 75 (upper tail) then num_of_Z 1000
  else num_of_Z 1.

(** [CURRENCIES] *)
Definition currency_of (t : text) : FareCurrency :=
  if says "دلار" t || says "$" t || SAYS "USD" t then Dollar
  else if says "یورو" t || says "€" t || SAYS "EUR" t then Euro
  else if says "درهم" t || SAYS "AED" t then Dirham
  else if says "لیر" t || SAYS "TRY" t then Lira
  else Toman.

(** [replace(/[٬,،](?=\d{3})/g, '')] *)
Definition three_digits_next (t : text) : bool :=
  match t with a :: b :: c :: _ => is_digit a && is_digit b && is_digit c | _ => false end.

Fixpoint drop_separators (separators : list N) (t : text) : text :=
  match t with
  | [] => []
  | c :: t => if bool_decide (c ∈ separators) && three_digits_next t then drop_separators separators t else c :: drop_separators separators t
  end.

Definition point_decimals (t : text) : text := map (fun c => if (c =? 1643)%N then 46%N else c) t.

Record CargoPrice := mkPrice { pc_amount : num; pc_currency : FareCurrency }.

Definition MIN_BARE_TOMANS : num := num_of_Z 1000000.

(** [/ریال/.test(text)] *)
Definition parseCargoPrice (raw : option text) : option CargoPrice :=
  match raw with
  | None | Some [] => None
  | Some raw =>
      let t := trim (point_decimals (drop_separators [1644; 44; 1548]%N (latin_digits raw))) in
      let currency := currency_of t in
      let digits := first_number t in
      value ← match digits with Some (number, _) => Some (number_of_text number) | None => wordsValue t end;
      if negb (is_finite_num value) || num_leb value (num_of_Z 0) then None
      else
        let tail := match digits with Some (_, rest) => rest | None => t end in
        let scale := scale_of tail in
        let unitWritten := negb (eqb currency Toman) || says "تومان" t || says "ریال" t in
        if negb unitWritten && num_eqb scale (num_of_Z 1) && num_ltb value MIN_BARE_TOMANS then None
        else
          let value := num_mul value scale in
          let value := if eqb currency Toman && says "ریال" t then num_div value (num_of_Z 10) else value in
          Some (mkPrice (math_round value) currency)
  end.

(** ** What is typed into the fare form (domain/helper/tripFare.ts) *)

(** [readAmount]: a bare number as it is written, anything else as a load's price *)
Definition readAmount (t : option text) : option CargoPrice :=
  match t with
  | None | Some [] => None
  | Some t =>
      let clean := remove_chars (fun c => is_space c || (c =? 44) || (c =? 1644))%N (latin_digits t) in
      if negb (is_empty clean) && forallb is_digit clean then
        let amount := number_of_text clean in
        if num_ltb (num_of_Z 0) amount && is_safe_integer amount then Some (mkPrice amount Toman) else None
      else
        price ← parseCargoPrice (Some t);
        if negb (is_safe_integer (pc_amount price)) || num_leb (pc_amount price) (num_of_Z 0) then None else Some price
  end.

Inductive WeightUnit := Ton | Kg.

#[export] Instance WeightUnit_eq_dec : EqDecision WeightUnit.
Proof. solve_decision. Defined.

(** [readWeight]: the tons of a weight as it is typed *)
Definition readWeight (t : option text) (unit_ : WeightUnit) : option num :=
  match t with
  | None | Some [] => None
  | Some t =>
      let clean := drop_separators [44; 1644]%N (point_decimals (latin_digits t)) in
      let says_tons := says "تن" clean || SAYS "TON" clean in
      let says_kilos := says "کیلو" clean || SAYS "KG" clean in
      value ← match first_number clean with
              | Some (number, _) => Some (number_of_text number)
              | None => if says_tons || says_kilos then wordsValue clean else None
              end;
      if num_eqb value (num_of_Z 0) || negb (is_finite_num value) then None
      else
        let kilos := says_kilos || negb says_tons && (eqb unit_ Kg || num_ltb (num_of_Z (Z.of_N MAX_WEIGHT_TONS)) value) || num_leb (num_of_Z 1000) value in
        let tons := to_cents (if kilos then num_div value (num_of_Z 1000) else value) in
        if num_ltb (num_of_Z 0) tons && num_leb tons (num_of_Z (Z.of_N MAX_WEIGHT_TONS)) then Some tons else None
  end.

(** The starting values of the form: what the load says *)
Record FareDefaults := mkDefaults {
  fd_basis : option FareBasis;
  fd_rate : option num;
  fd_currency : option FareCurrency;
  fd_weightTons : option num;
}.

(** [/تنی|هر\s*تن|per\s*ton/i] *)
Fixpoint spaced_after (first second t : text) : bool :=
  match strip_prefix first t with
  | Some rest => starts_with second (drop_while is_space rest)
  | None => false
  end || match t with [] => false | _ :: t => spaced_after first second t end.

Definition says_per_ton (t : text) : bool :=
  says "تنی" t || spaced_after (js "هر") (js "تن") t || spaced_after (js "PER") (js "TON") (upper t).

Definition fareDefaultsFromListing (price weight : option text) : FareDefaults :=
  let p := readAmount price in
  let perTon := match price with Some t => says_per_ton t | None => false end in
  mkDefaults ((fun _ => if perTon then BasisPerTon else BasisTotal) <$> p) (pc_amount <$> p) (Some (default Toman (pc_currency <$> p)))
    (readWeight weight Ton).

(** ** What is misread of an amount

    [parseCargoPrice] takes one figure, or the sum of the number words, and one scale for
    all of it.  An amount of two scales, which is how the program itself writes one
    ([moneyWords] on every fare form), is read as another amount. *)

(** ** What is read right: one figure and one scale *)

Example price_one_scale : readAmount (Some (js "۴۵ میلیون")) = Some (mkPrice (num_of_Z 45000000) Toman).
Proof. vm_compute. reflexivity. Qed.

Example price_thousands : readAmount (Some (js "۸۵۰ هزار")) = Some (mkPrice (num_of_Z 850000) Toman).
Proof. vm_compute. reflexivity. Qed.

Example price_dollars : readAmount (Some (js "1500 دلار")) = Some (mkPrice (num_of_Z 1500) Dollar).
Proof. vm_compute. reflexivity. Qed.

Example price_rials : readAmount (Some (js "۴۵۰۰۰۰۰۰۰ ریال")) = Some (mkPrice (num_of_Z 45000000) Toman).
Proof. vm_compute. reflexivity. Qed.

Example price_words : parseCargoPrice (Some (js "شصت و پنج میلیون")) = Some (mkPrice (num_of_Z 65000000) Toman).
Proof. vm_compute. reflexivity. Qed.

Example price_range : parseCargoPrice (Some (js "۴۰ تا ۴۵ میلیون")) = Some (mkPrice (num_of_Z 40000000) Toman).
Proof. vm_compute. reflexivity. Qed.

Example price_none : parseCargoPrice (Some (js "توافقی")) = None.
Proof. vm_compute. reflexivity. Qed.

Example price_bare : parseCargoPrice (Some (js "26000")) = None.
Proof. vm_compute. reflexivity. Qed.

(** «م» for millions is a scale of [SCALES] that never matches at the end of a text: the
    letter is no word character, so [\b] does not hold after it. *)
Example short_million : parseCargoPrice (Some (js "۴۵م")) = None.
Proof. vm_compute. reflexivity. Qed.

Example weight_kilos : readWeight (Some (js "۲۴۰۰۰ کیلو")) Ton = Some (num_of_Z 24).
Proof. vm_compute. reflexivity. Qed.

Example weight_many_trucks : readWeight (Some (js "۶۰۰ تن")) Ton = None.
Proof. vm_compute. reflexivity. Qed.

Example weight_words : readWeight (Some (js "شصت تن")) Ton = Some (num_of_Z 60).
Proof. vm_compute. reflexivity. Qed.

Example weight_trucks : readWeight (Some (js "دو دستگاه")) Ton = None.
Proof. vm_compute. reflexivity. Qed.

(** ** What is not *)

(** The whole hundreds of thousands the form shows *)
Definition shown_words (a : N) : text := moneyWords (a * 100000) Toman.

Definition reads_as (t : text) (amount : Z) : bool :=
  match readAmount (Some t) with Some p => eqb (pc_currency p) Toman && num_eqb (pc_amount p) (num_of_Z amount) | None => false end.

Definition half_words (a b : text * N) : text := a.1 ++ js " میلیون و " ++ b.1 ++ js " هزار تومان".

Fixpoint count_down (n : nat) : list N := match n with O => [] | S m => N.of_nat m :: count_down m end.

Lemma elem_of_count_down n a : (a < N.of_nat n)%N -> a ∈ count_down n.
Proof.
  induction n as [|n IH]; intros Ha; [lia|]. cbn [count_down]. destruct (N.eq_dec a (N.of_nat n)) as [->|]; [set_solver|].
  apply elem_of_cons. right. apply IH. lia.
Qed.

Lemma shown_words_checked :
  forallb (fun a => (a <? 11)%N || (a mod 10 =? 0)%N || reads_as (shown_words a) (Z.of_N (a / 10) * 1000000)) (count_down 1000) = true.
Proof. vm_compute. reflexivity. Qed.

Lemma spoken_halves_checked :
  forallb (fun a => forallb (fun b => reads_as (half_words a b) (Z.of_N (a.2 + b.2) * 1000000)) WORDS) WORDS = true.
Proof. vm_compute. reflexivity. Qed.

Lemma forallb_elem {A} (f : A -> bool) l x : forallb f l = true -> x ∈ l -> f x = true.
Proof. rewrite forallb_forall. intros Hf Hx. apply Hf. by apply list_elem_of_In. Qed.

(** An amount of millions and thousands is misread, whichever way it is written: the words
    the fare form itself shows under an amount («۴۵ میلیون و ۵۰۰ هزار تومان»), typed back,
    are read as the millions alone, and in number words («یک میلیون و پانصد هزار تومان») the
    thousands are taken for millions too. *)
Theorem two_scales_misread :
  (forall a : N, (11 <= a < 1000)%N -> (a mod 10 <> 0)%N -> reads_as (shown_words a) (Z.of_N (a / 10) * 1000000) = true) /\
  (forall a b, a ∈ WORDS -> b ∈ WORDS -> reads_as (half_words a b) (Z.of_N (a.2 + b.2) * 1000000) = true).
Proof.
  split.
  - intros a Ha Hm. pose proof (forallb_elem _ _ a shown_words_checked (elem_of_count_down 1000 a ltac:(lia))) as Hc. cbv beta in Hc.
    rewrite (proj2 (N.ltb_ge a 11)) in Hc by lia. rewrite (proj2 (N.eqb_neq _ _) Hm) in Hc. exact Hc.
  - intros a b Ha Hb. exact (forallb_elem _ _ b (forallb_elem _ _ a spoken_halves_checked Ha) Hb).
Qed.

Lemma two_scales_misread_witness :
  shown_words 455 = js "۴۵ میلیون و ۵۰۰ هزار تومان" /\ Z.of_N (455 / 10) * 1000000 = 45000000 /\
  reads_as (shown_words 455) (Z.of_N (455 / 10) * 1000000) = true.
Proof.
  split; [vm_compute; reflexivity|]. split; [reflexivity|].
  apply (proj1 two_scales_misread); [lia|]. intros Hz. vm_compute in Hz. discriminate Hz.
Defined.
