(* ===== verification/TripFareDialog.v ===== *)
(** * The fare form of the messengers

    [src/services/notification/tripFareDialog.ts]: the questions a company answers before
    it accepts a request, hands a load to a driver or confirms a delivery; with the
    starting values of [CargoTripService.fareForm] and [TripFareService.form].  One form is
    a session in Redis; every answer reads it, keeps its next step and shows the next
    question, and the last one calls the modelled [decide], [deliver] or [offer]. *)

From S2P Require Import Prelude JsNumber JsString Effects Redis Enums BrokerDriver TripFareRules BrokerAccess DriverProfile CargoData TripFareService CargoTrip NumberWords CargoPrice.

(** ** Data *)

(** The columns of a load the form reads besides those of [CargoListing]; its title is the
    line the trip messages name it with. *)
Record ListingTexts := mkListingTexts { lt_price : option text; lt_weight : option text; lt_title : text }.

(** [Partial<TripFareInput>]: what is given so far, or was prefilled *)
Record FareGiven := mkGiven {
  gv_basis : option FareBasis;
  gv_rate : option num;
  gv_weightTons : option num;
  gv_currency : option FareCurrency;
  gv_changeReason : option FareChangeReason;
}.

Definition nothing_given : FareGiven := mkGiven None None None None None.

Definition basis_string (b : FareBasis) : string := match b with BasisTotal => "TOTAL" | BasisPerTon => "PER_TON" end.
Definition currency_string (c : FareCurrency) : string :=
  match c with Toman => "IRT" | Dollar => "USD" | Euro => "EUR" | Dirham => "AED" | Lira => "TRY" end.
Definition reason_string (r : FareChangeReason) : string :=
  match r with
  | Shortage => "SHORTAGE" | Waiting => "WAITING" | Overweight => "OVERWEIGHT" | ExtraCost => "EXTRA_COST"
  | Discount => "DISCOUNT" | WeightDiffers => "WEIGHT" | OtherReason => "OTHER"
  end.
Definition model_string (m : BrokerPayModel) : string := match m with Commission => "COMMISSION" | Margin => "MARGIN" end.

(** The object as [readTripFare] reads it: [Number(undefined)] is no number. *)
Definition as_input (v : FareGiven) : TripFareInput :=
  mkFareInput (basis_string <$> gv_basis v) (default SpecFloat.S754_nan (gv_rate v)) (default SpecFloat.S754_nan (gv_weightTons v))
    (currency_string <$> gv_currency v) (reason_string <$> gv_changeReason v) None.

(** [{ ...read.fare, changeReason: read.fare.changeReason ?? undefined }] *)
Definition input_of_fare (f : TripFareValues) : TripFareInput :=
  mkFareInput (Some (basis_string (tf_basis f))) (tf_rate f) (tf_weightTons f) (Some (currency_string (tf_currency f)))
    (reason_string <$> tf_changeReason f) (tf_note f).

(** [TripFareForm] *)
Record TripFareForm := mkForm {
  fo_stage : TripFareStage;
  fo_values : FareGiven;
  fo_agreed : option TripFareValues;
  fo_broker : bool;
  fo_payModel : option BrokerPayModel;
}.

(** [FarePurpose] and [FareStep] *)
Inductive FarePurpose :=
| ForAccept (requestId : uuid)
| ForDeliver (requestId : uuid)
| ForOffer (listingId driverUserId : uuid) (driverName : text) (back : string).

Inductive FareStep := AtReview | AtBasis | AtRate | AtWeight | AtReason | AtPay | AtConfirm.

#[export] Instance FareStep_eq_dec : EqDecision FareStep.
Proof. solve_decision. Defined.

(** [FareSession] *)
Record FareSession := mkSession {
  se_purpose : FarePurpose;
  se_cargo : text;
  se_step : FareStep;
  se_values : FareGiven;
  se_defaults : FareGiven;
  se_agreed : option TripFareValues;
  se_broker : bool;
  se_payModel : option BrokerPayModel;
  se_weightUnit : option string;
}.

(** [BotContext] *)
Record BotContext := mkContext { cx_platform : string; cx_externalUserId : text; cx_userId : uuid }.

(** What is shown.  The texts are translations outside the program: a line is its key and
    what is put into it; an amount or a fare in a line is written by [faNumber],
    [moneyText], [moneyWords] and [fareLine]. *)
Inductive Arg := ArgText (t : text) | ArgNumber (x : num) | ArgMoney (x : num) (c : option FareCurrency) | ArgFare (f : TripFareValues) | ArgWords (x : num) (c : FareCurrency).
Inductive Line := Said (key : string) (args : list Arg) | Written (t : text).

Record BotAction := mkAction { ba_id : string; ba_label : Line; ba_row : nat }.
Record BotReply := mkReply { rp_text : list Line; rp_actions : list BotAction }.

(** ** State *)

Record dialog_state := mkDialog {
  dg_trips : trip_state;
  dg_texts : gmap uuid ListingTexts;
  dg_sessions : gmap (string * text) (FareSession * time);
}.

Abbreviation DM := (M dialog_state).

Definition on_trips {A} (m : TM A) : DM A := zoom dg_trips (fun t s => s <| dg_trips := t |>) m.

Definition SESSION_TTL_SECONDS : Z := 30 * 60.

Definition sessionKey (ctx : BotContext) : string * text := (cx_platform ctx, cx_externalUserId ctx).

Definition session_at (s : dialog_state) (ctx : BotContext) : option FareSession :=
  redis_get (dg_sessions s) (ts_now (dg_trips s)) (sessionKey ctx).

Definition getSession (ctx : BotContext) : DM (option FareSession) := gets (fun s => session_at s ctx).

Definition saveSession (ctx : BotContext) (session : FareSession) : DM unit :=
  modify (fun s => s <| dg_sessions := redis_set (dg_sessions s) (ts_now (dg_trips s)) (sessionKey ctx) session SESSION_TTL_SECONDS |>).

Definition clearSession (ctx : BotContext) : DM unit :=
  modify (fun s => s <| dg_sessions := delete (sessionKey ctx) (dg_sessions s) |>).

Definition hasSession (ctx : BotContext) : DM bool := gets (fun s => negb (is_null (session_at s ctx))).

(** ** The starting values *)

Definition given_by_listing (t : option ListingTexts) : FareGiven :=
  let d := fareDefaultsFromListing (t ≫= lt_price) (t ≫= lt_weight) in
  mkGiven (fd_basis d) (fd_rate d) (fd_weightTons d) (fd_currency d) None.

Definition given_by_fare (f : TripFareValues) : FareGiven :=
  mkGiven (Some (tf_basis f)) (Some (tf_rate f)) (Some (tf_weightTons f)) (Some (tf_currency f)) None.

(** [TripFareService.form] *)
Definition fare_form (r : CargoRequest) (stage : TripFareStage) : DM TripFareForm :=
  s ← get;
  let st := stages_of (dg_trips s) (rq_id r) in
  let broker := negb (is_null (rq_forDriver r)) in
  let atDelivery := eqb stage StageDelivered in
  let recorded := if atDelivery then match delivered st with Some v => Some v | None => agreed st end else agreed st in
  let values := match recorded with
                | Some v => given_by_fare (fv_values v)
                | None => given_by_listing (dg_texts s !! rq_listingId r)
                end in
  payModel ← (if broker && negb atDelivery then
                match rq_brokerPayModel r with
                | Some m => mret (Some m)
                | None => m ← on_trips (lastPayModel (rq_companyUserId r)); mret (Some m)
                end
              else mret None);
  mret (mkForm stage values (if atDelivery then fv_values <$> agreed st else None) broker payModel).

(** [CargoTripService.fareForm] and [offerFareForm] *)
Definition fareForm (companyUserId requestId : uuid) (stage : TripFareStage) : DM TripFareForm :=
  r ← on_trips (fareForm_guards companyUserId requestId stage);
  fare_form r stage.

Definition offerFareForm (companyUserId listingId : uuid) : DM TripFareForm :=
  l ← on_trips (own_open_listing companyUserId listingId);
  s ← get;
  mret (mkForm StageAgreed (given_by_listing (dg_texts s !! li_id l)) None false None).

(** [cargoTitle] of a request, and [listingTitle], which any load has *)
Definition title_of (s : dialog_state) (listingId : uuid) : text :=
  match dg_texts s !! listingId with Some t => lt_title t | None => [] end.

Definition cargoTitle (r : CargoRequest) : DM text := gets (fun s => title_of s (rq_listingId r)).

Definition listingTitle (listingId : uuid) : DM (option text) :=
  l ← on_trips (findListing listingId);
  s ← get;
  mret ((fun _ => title_of s listingId) <$> l).

(** ** Questions *)

Definition PREFIX : string := "tf:".
Definition BASIS : string := "tf:b:".
Definition KEEP : string := "tf:k".
Definition REASON : string := "tf:r:".
Definition PAY : string := "tf:p:".
Definition UNIT : string := "tf:u:".
Definition SAME : string := "tf:same".
Definition CHANGE : string := "tf:chg".
Definition SAVE : string := "tf:ok".
Definition EDIT : string := "tf:ed".
Definition CANCEL : string := "tf:x".

(** [id.startsWith(prefix)] with the rest of the id *)
Fixpoint after (prefix id : string) : option string :=
  match prefix, id with
  | EmptyString, _ => Some id
  | String a prefix, String b id => if Ascii.eqb a b then after prefix id else None
  | String _ _, EmptyString => None
  end.

Definition ownsAction (id : string) : bool := negb (is_null (after PREFIX id)).

(** [t(key, args)], and a text of the trips *)
Definition t_ (key : string) (args : list Arg) : Line := Said (String.append "fare." key) args.

(** The rows of buttons ([BotRows]): each [add] is a row, [grid] makes rows of two. *)
Definition buttons (rows : list (list (string * Line))) : list BotAction :=
  concat (imap (fun i row => map (fun a => mkAction a.1 a.2 i) row) (List.filter (fun r => match r with [] => false | _ => true end) rows)).

Fixpoint grid {A} (l : list A) : list (list A) :=
  match l with a :: b :: l => [a; b] :: grid l | [a] => [[a]] | [] => [] end.

(** [Object.values] of the enumerations, in their order, and the keys of [WEIGHT_UNIT_LABEL] *)
Definition REASONS : list FareChangeReason := [Shortage; Waiting; Overweight; ExtraCost; Discount; WeightDiffers; OtherReason].
Definition PAY_MODELS : list BrokerPayModel := [Commission; Margin].
Definition UNITS : list (string * text) := [("TON", js "تن"); ("KG", js "کیلوگرم")]%string.

Definition reason_label (r : FareChangeReason) : text :=
  match r with
  | Shortage => js "کسری بار" | Waiting => js "توقف و انتظار" | Overweight => js "اضافه‌بار" | ExtraCost => js "هزینه‌ی جانبی"
  | Discount => js "تخفیف" | WeightDiffers => js "وزن بارنامه فرق داشت" | OtherReason => js "سایر"
  end.
Definition model_label (m : BrokerPayModel) : text := match m with Commission => js "کمیسیون از شرکت" | Margin => js "اختلاف کرایه" end.

(** «● » before the chosen one *)
Definition marked (chosen : bool) (label : text) : Line := Written ((if chosen then js "● " else []) ++ label).

Definition for_deliver (p : FarePurpose) : bool := match p with ForDeliver _ => true | _ => false end.
Definition for_accept (p : FarePurpose) : bool := match p with ForAccept _ => true | _ => false end.

(** [keepValue]: the prefilled amount only for the basis it was given in *)
Definition keepValue (se : FareSession) : option num :=
  match se_step se with
  | AtRate =>
      match gv_rate (se_defaults se) with
      | Some x => if negb (num_eqb x (num_of_Z 0)) && bool_decide (gv_basis (se_defaults se) = gv_basis (se_values se)) then Some x else None
      | None => None
      end
  | AtWeight => gv_weightTons (se_defaults se)
  | _ => None
  end.

Definition title (se : FareSession) : Line :=
  match se_purpose se with
  | ForOffer _ _ name _ => t_ "titleOffer" [ArgText name; ArgText (se_cargo se)]
  | ForAccept _ => t_ "titleAccept" [ArgText (se_cargo se)]
  | ForDeliver _ => t_ "titleDeliver" [ArgText (se_cargo se)]
  end.

(** [stepLine]: which question of how many *)
Definition form_steps (se : FareSession) : list FareStep :=
  [AtBasis; AtRate; AtWeight] ++ (if for_deliver (se_purpose se) && negb (is_null (se_agreed se)) then [AtReason] else [])
  ++ (if for_accept (se_purpose se) && se_broker se then [AtPay] else []).

Definition index_in (st : FareStep) (l : list FareStep) : option nat := fst <$> list_find (fun x => x = st) l.

Definition stepLine (se : FareSession) : list Line :=
  match index_in (se_step se) (form_steps se) with
  | Some i => [t_ "step" [ArgText (persian_digits (text_of_N (N.of_nat (i + 1)))); ArgText (persian_digits (text_of_N (N.of_nat (length (form_steps se)))))]]
  | None => []
  end.

(** [fareLine(session.agreed!)] of a form without an agreed fare *)
Definition NO_AGREED : exn := OtherError (js "Cannot read properties of null (reading 'weightTons')").

Definition unit_label (unit_ : string) (u : string * text) : string * Line := (String.append UNIT u.1, marked (String.eqb u.1 unit_) u.2).
Definition weight_question (se : FareSession) : Line :=
  let kilos := String.eqb (default "TON"%string (se_weightUnit se)) "KG" in
  t_ (String.append (if for_deliver (se_purpose se) then "askWeightDeliver" else "askWeight") (if kilos then "Kg" else "")) [].

(** The question of a step and its buttons; the summary is no question. *)
Definition question (se : FareSession) : outcome (Line * list (list (string * Line))) :=
  match se_step se with
  | AtReview =>
      match se_agreed se with
      | Some f => Ok (t_ "review" [ArgFare f], [[(SAME, t_ "actions.same" [])]; [(CHANGE, t_ "actions.changed" [])]])
      | None => Err NO_AGREED
      end
  | AtBasis => Ok (t_ "askBasis" [], [[(String.append BASIS "TOTAL", t_ "actions.total" []); (String.append BASIS "PER_TON", t_ "actions.perTon" [])]])
  | AtRate => Ok (t_ (if bool_decide (gv_basis (se_values se) = Some BasisPerTon) then "askRatePerTon" else "askRateTotal") [], [])
  | AtWeight => Ok (weight_question se, [map (unit_label (default "TON"%string (se_weightUnit se))) UNITS])
  | AtReason =>
      match se_agreed se with
      | Some f =>
          let final := match readTripFare (Some (as_input (se_values se))) with inr g => ArgFare g | inl _ => ArgText [] end in
          Ok (t_ "askReason" [ArgFare f; final], grid (map (fun r => (String.append REASON (reason_string r), Written (reason_label r))) REASONS))
      | None => Err NO_AGREED
      end
  | AtPay => Ok (t_ "askPay" [], [map (fun m => (String.append PAY (model_string m), marked (bool_decide (Some m = se_payModel se)) (model_label m))) PAY_MODELS])
  | AtConfirm => Ok (t_ "confirm" [], [])
  end.

Definition keep_button (se : FareSession) : list (string * Line) :=
  match keepValue se with
  | Some x => [(KEEP, if eqb (se_step se) AtWeight then t_ "actions.keepWeight" [ArgNumber x] else t_ "actions.keepRate" [ArgMoney x (gv_currency (se_defaults se))])]
  | None => []
  end.

(** [ask] of a step that is a question *)
Definition ask_step (se : FareSession) (problem : option Line) : outcome BotReply :=
  match question se with
  | Err e => Err e
  | Ok (line, rows) =>
      Ok (mkReply (option_list problem ++ [title se] ++ stepLine se ++ [line]) (buttons (rows ++ [keep_button se; [(CANCEL, t_ "actions.cancel" [])]])))
  end.

Definition save_key (p : FarePurpose) : string :=
  match p with ForAccept _ => "actions.saveAccept" | ForOffer _ _ _ _ => "actions.saveOffer" | ForDeliver _ => "actions.saveDeliver" end.

(** The lines of [summary] about the fare *)
Definition confirm_lines (se : FareSession) (f : TripFareValues) : list Line :=
  [t_ "confirm" [ArgFare f; ArgWords (tf_total f) (tf_currency f)]]
  ++ match tf_changeReason f with Some r => [t_ "confirmReason" [ArgText (reason_label r)]] | None => [] end
  ++ match se_payModel se with Some m => if for_accept (se_purpose se) && se_broker se then [t_ "confirmPay" [ArgText (model_label m)]] else [] | None => [] end.

(** [summary]: values that cannot be read ask for the basis again, without keeping the step. *)
Definition summary (se : FareSession) (problem : option Line) : outcome BotReply :=
  match readTripFare (Some (as_input (se_values se))) with
  | inl e => ask_step (se <| se_step := AtBasis |>) (Some (Written e))
  | inr f =>
      Ok (mkReply (option_list problem ++ [title se] ++ confirm_lines se f)
            (buttons [[(SAVE, t_ (save_key (se_purpose se)) [])]; [(EDIT, t_ "actions.edit" []); (CANCEL, t_ "actions.cancel" [])]]))
  end.

Definition ask (se : FareSession) (problem : option Line) : DM BotReply :=
  of_outcome (if eqb (se_step se) AtConfirm then summary se problem else ask_step se problem).

(** ** Answers *)

Definition next (ctx : BotContext) (se : FareSession) : DM BotReply := saveSession ctx se ;; ask se None.

Definition COMPANY_REQUESTS : string := "tr:cr:1".
Definition COMPANY_TRIPS : string := "tr:ct:1".

(** [finish]: the form is over, and the list it came from *)
Definition back_to (p : FarePurpose) : list BotAction :=
  match p with
  | ForOffer _ _ _ back => [mkAction back (Said "back" []) 0]
  | ForAccept _ => [mkAction COMPANY_REQUESTS (Said "actions.allRequests" []) 0; mkAction COMPANY_TRIPS (Said "actions.companyTrips" []) 0]
  | ForDeliver _ => [mkAction COMPANY_TRIPS (Said "actions.companyTrips" []) 0]
  end.

Definition finish (ctx : BotContext) (p : FarePurpose) (line : Line) : DM BotReply :=
  clearSession ctx ;; mret (mkReply [line] (back_to p)).

(** [errorText]: a conflict's message is the key of a text *)
Definition errorText (e : exn) : Line :=
  match e with
  | Conflict m => Said "errors." [ArgText m]
  | BadRequest m => Written m
  | _ => Said "notFound" []
  end.

(** What «ثبت» does with a fare that was read *)
Definition hand_over (ctx : BotContext) (p : FarePurpose) (payModel : option BrokerPayModel) (f : TripFareValues) : DM BotReply :=
  match p with
  | ForAccept requestId =>
      r ← on_trips (decide (cx_userId ctx) requestId true (Some (mkDeal (Some (input_of_fare f)) (model_string <$> payModel))));
      cargo ← cargoTitle r;
      finish ctx p (Said "decision.accepted" [ArgText cargo])
  | ForDeliver requestId =>
      r ← on_trips (deliver (cx_userId ctx) requestId (Some (input_of_fare f)));
      cargo ← cargoTitle r;
      finish ctx p (Said "delivered.done" [ArgText cargo])
  | ForOffer listingId driverUserId name _ =>
      on_trips (offer (cx_userId ctx) listingId driverUserId (Some (input_of_fare f))) ;;
      finish ctx p (Said "cargo.assign.offered" [ArgText name; ArgText (persian_digits (text_of_N (Z.to_N OFFER_TTL_MINUTES)))])
  end.

(** The call of [save]: refused values (400) show the summary again, any other failure ends
    the form. *)
Definition save_fare (ctx : BotContext) (se : FareSession) (f : TripFareValues) : DM BotReply :=
  try_catch (hand_over ctx (se_purpose se) (se_payModel se) f)
    (fun e => match e with
              | BadRequest m => of_outcome (summary se (Some (Written m)))
              | e => finish ctx (se_purpose se) (errorText e)
              end).

(** [save]: values that cannot be read start over. *)
Definition save_form (ctx : BotContext) (se : FareSession) : DM BotReply :=
  match readTripFare (Some (as_input (se_values se))) with
  | inl _ => next ctx (se <| se_step := AtBasis |> <| se_values := nothing_given |>)
  | inr f => save_fare ctx se f
  end.

Definition afterRate (ctx : BotContext) (se : FareSession) (amount : num) (currency : option FareCurrency) : DM BotReply :=
  next ctx (se <| se_step := AtWeight |> <| se_values := (se_values se) <| gv_rate := Some amount |> <| gv_currency := currency |> |>).

(** Whether the delivery is not what was agreed *)
Definition delivery_changed (se : FareSession) (v : FareGiven) : bool :=
  for_deliver (se_purpose se)
  && match se_agreed se, readTripFare (Some (as_input v)) with
     | Some f, inr g => fareChanged f g
     | _, _ => false
     end.

(** [afterWeight]: the reason of a change, how a broker is paid, or the summary *)
Definition after_weight_session (se : FareSession) (weightTons : num) : FareSession :=
  let values := (se_values se) <| gv_weightTons := Some weightTons |> in
  let changed := delivery_changed se values in
  se <| se_step := if changed then AtReason else if for_accept (se_purpose se) && se_broker se then AtPay else AtConfirm |>
     <| se_values := values <| gv_changeReason := if changed then gv_changeReason values else None |> |>.

Definition afterWeight (ctx : BotContext) (se : FareSession) (weightTons : num) : DM BotReply :=
  next ctx (after_weight_session se weightTons).

(** [unit in WEIGHT_UNIT_LABEL] *)
Definition is_unit (u : string) : bool := existsb (fun p => String.eqb p.1 u) UNITS || bool_decide (js u ∈ OBJECT_NAMES).

(** [readWeight] knows kilograms, and takes any other unit for tons. *)
Definition unit_of (u : option string) : WeightUnit := if String.eqb (default "TON"%string u) "KG" then Kg else Ton.

Definition EXPIRED_REPLY : BotReply := mkReply [t_ "expired" []] [mkAction COMPANY_REQUESTS (Said "actions.allRequests" []) 0].

(** An answer that carries a value: the prefix of its button, in the step that asks for it *)
Definition given (prefix id : string) (se : FareSession) (st : FareStep) : option string :=
  if eqb (se_step se) st then after prefix id else None.

(** The answers of [handleAction] that only move the form on, in the order they are tried *)
Definition answer (ctx : BotContext) (se : FareSession) (id : string) : DM BotReply :=
  match given BASIS id se AtBasis with
  | Some b =>
      match FareBasis_of_string b with
      | Some b => next ctx (se <| se_step := AtRate |> <| se_values := (se_values se) <| gv_basis := Some b |> |>)
      | None => ask se None
      end
  | None =>
  if String.eqb id KEEP then
    match keepValue se with
    | None => ask se None
    | Some x => if eqb (se_step se) AtRate then afterRate ctx se x (gv_currency (se_defaults se)) else afterWeight ctx se x
    end
  else
  match given UNIT id se AtWeight with
  | Some u => if is_unit u then next ctx (se <| se_weightUnit := Some u |>) else ask se None
  | None =>
  match given REASON id se AtReason with
  | Some r =>
      match FareChangeReason_of_string r with
      | Some r => next ctx (se <| se_step := AtConfirm |> <| se_values := (se_values se) <| gv_changeReason := Some r |> |>)
      | None => ask se None
      end
  | None =>
  match given PAY id se AtPay with
  | Some m =>
      match BrokerPayModel_of_string m with
      | Some m => next ctx (se <| se_step := AtConfirm |> <| se_payModel := Some m |>)
      | None => ask se None
      end
  | None => ask se None
  end end end end.

Definition press (ctx : BotContext) (se : FareSession) (id : string) : DM BotReply :=
  if String.eqb id CANCEL then finish ctx (se_purpose se) (t_ "cancelled" [])
  else if String.eqb id EDIT || String.eqb id CHANGE then next ctx (se <| se_step := AtBasis |> <| se_values := nothing_given |>)
  else
  match (if String.eqb id SAME then se_agreed se else None) with
  | Some f => save_form ctx (se <| se_values := given_by_fare f |>)
  | None => if String.eqb id SAVE then save_form ctx se else answer ctx se id
  end.

(** [handleAction] *)
Definition handleAction (ctx : BotContext) (id : string) : DM (option BotReply) :=
  if negb (ownsAction id) then mret None
  else
    session ← getSession ctx;
    match session with
    | None => mret (Some EXPIRED_REPLY)
    | Some se => r ← press ctx se id; mret (Some r)
    end.

Definition CANCEL_WORDS : list text := [js "لغو"; js "انصراف"; js "cancel"].

Definition typed (ctx : BotContext) (se : FareSession) (t : text) : DM BotReply :=
  if bool_decide (trim t ∈ CANCEL_WORDS) then finish ctx (se_purpose se) (t_ "cancelled" [])
  else
    match se_step se with
    | AtRate =>
        match readAmount (Some t) with
        | Some p => afterRate ctx se (pc_amount p) (Some (pc_currency p))
        | None => ask se (Some (t_ "badRate" []))
        end
    | AtWeight =>
        match readWeight (Some t) (unit_of (se_weightUnit se)) with
        | Some w => afterWeight ctx se w
        | None => ask se (Some (t_ "badWeight" []))
        end
    | _ => ask se None
    end.

(** [handleText] *)
Definition handleText (ctx : BotContext) (t : text) : DM (option BotReply) :=
  session ← getSession ctx;
  match session with
  | None => mret None
  | Some se => r ← typed ctx se t; mret (Some r)
  end.

(** ** Starting points *)

(** [start]: a failure to load the form is its end *)
Definition start (ctx : BotContext) (purpose : FarePurpose) (load : DM (TripFareForm * text)) : DM BotReply :=
  form ← try_catch (f ← load; mret (inr f)) (fun e => r ← finish ctx purpose (errorText e); mret (inl r));
  match form with
  | inl r => mret r
  | inr (form, cargo) =>
      let review := for_deliver purpose && negb (is_null (fo_agreed form)) in
      let se := mkSession purpose cargo (if review then AtReview else AtBasis) nothing_given (fo_values form) (fo_agreed form) (fo_broker form) (fo_payModel form) None in
      saveSession ctx se ;;
      ask se (if for_deliver purpose && is_null (fo_agreed form) then Some (t_ "noAgreed" []) else None)
  end.

(** The form with the title of the request's load *)
Definition request_form (ctx : BotContext) (requestId : uuid) (stage : TripFareStage) : DM (TripFareForm * text) :=
  form ← fareForm (cx_userId ctx) requestId stage;
  r ← on_trips (forCompany (cx_userId ctx) requestId);
  match r with
  | Some r => cargo ← cargoTitle r; mret (form, cargo)
  | None => mret (form, [])
  end.

Definition startAccept (ctx : BotContext) (requestId : uuid) : DM BotReply :=
  start ctx (ForAccept requestId) (request_form ctx requestId StageAgreed).

Definition startDeliver (ctx : BotContext) (requestId : uuid) : DM BotReply :=
  start ctx (ForDeliver requestId) (request_form ctx requestId StageDelivered).

Definition startOffer (ctx : BotContext) (listingId driverUserId : uuid) (driverName : text) (back : string) : DM BotReply :=
  start ctx (ForOffer listingId driverUserId driverName back)
    (form ← offerFareForm (cx_userId ctx) listingId;
     name ← listingTitle listingId;
     mret (form, default [] name)).
