(* ===== verification/TripFareDialogFacts.v ===== *)
(** * The fare form: what it asks, what it saves, and where it stops

    A form is well formed when its step has been reached with the answers the step needs;
    every answer keeps it so and none of them throws.  What «ثبت» hands over is what the
    summary showed. *)

From S2P Require Import Prelude JsNumber JsString Effects Redis Enums BrokerDriver TripFareRules BrokerAccess DriverProfile CargoData TripFareService CargoTrip NumberWords CargoPrice TripFareDialog.

(** ** Reading what was given *)

Lemma basis_string_read b : FareBasis_of_string (basis_string b) = Some b.
Proof. by destruct b. Qed.

Lemma currency_string_read c : FareCurrency_of_string (currency_string c) = Some c.
Proof. by destruct c. Qed.

Lemma reason_string_read r : FareChangeReason_of_string (reason_string r) = Some r.
Proof. by destruct r. Qed.

Lemma model_string_read m : BrokerPayModel_of_string (model_string m) = Some m.
Proof. by destruct m. Qed.

Lemma read_reason_string o : read_reason (reason_string <$> o) = inr o.
Proof. destruct o as [r|]; [|done]. by destruct r. Qed.

(** [readTripFare] of what was given: without the basis, the amount or the weight there is
    no fare; the reason only goes along. *)
Definition fare_of (v : FareGiven) : text + TripFareValues := readTripFare (Some (as_input v)).

Lemma fare_of_basis v f : fare_of v = inr f -> gv_basis v = Some (tf_basis f).
Proof.
  unfold fare_of, readTripFare, as_input. cbn [in_basis in_rate in_weightTons in_currency in_changeReason in_note].
  destruct (gv_basis v) as [b|]; [|done]. cbn [fmap option_fmap option_map mbind option_bind]. rewrite basis_string_read. cbv zeta.
  break_if; [done|]. break_if; [done|]. destruct (FareCurrency_of_string _); [|done]. destruct (read_reason _); [done|].
  break_if; [done|]. by intros [= <-].
Qed.

Lemma fare_of_rate v f : fare_of v = inr f -> gv_rate v = Some (tf_rate f).
Proof.
  unfold fare_of, readTripFare, as_input. cbn [in_basis in_rate in_weightTons in_currency in_changeReason in_note].
  destruct (_ ≫= FareBasis_of_string) as [b|]; [|done]. cbv zeta.
  destruct (gv_rate v) as [x|]; cbn [default]; [|done].
  break_if; [done|]. break_if; [done|]. destruct (FareCurrency_of_string _); [|done]. destruct (read_reason _); [done|].
  break_if; [done|]. by intros [= <-].
Qed.

Lemma fare_of_reason v f : fare_of v = inr f -> tf_changeReason f = gv_changeReason v.
Proof.
  unfold fare_of, readTripFare, as_input. cbn [in_basis in_rate in_weightTons in_currency in_changeReason in_note].
  destruct (_ ≫= FareBasis_of_string) as [b|]; [|done]. cbv zeta.
  break_if; [done|]. break_if; [done|]. destruct (FareCurrency_of_string _); [|done]. rewrite read_reason_string.
  break_if; [done|]. by intros [= <-].
Qed.

Lemma fare_of_with_reason v r :
  fare_of (v <| gv_changeReason := r |>) = match fare_of v with inl e => inl e | inr f => inr (f <| tf_changeReason := r |>) end.
Proof.
  unfold fare_of, readTripFare, as_input. destruct v as [b x w c r0]. cbn.
  destruct (_ ≫= FareBasis_of_string) as [b'|]; [|done]. cbv zeta.
  break_if; [done|]. break_if; [done|]. destruct (FareCurrency_of_string _); [|done]. rewrite !read_reason_string.
  by break_if.
Qed.

Lemma fareChanged_with_reason f g r : fareChanged f (g <| tf_changeReason := r |>) = fareChanged f g.
Proof. by destruct g. Qed.

Lemma delivery_changed_with_reason se v r : delivery_changed se (v <| gv_changeReason := r |>) = delivery_changed se v.
Proof.
  unfold delivery_changed. pose proof (fare_of_with_reason v r) as H. unfold fare_of in H. rewrite H.
  destruct (se_agreed se); [|done]. by destruct (readTripFare (Some (as_input v))).
Qed.

(** ** Well-formed forms *)

(** The answers a step comes after *)
Definition step_level (st : FareStep) : nat :=
  match st with AtReview | AtBasis => 0 | AtRate => 1 | AtWeight => 2 | AtReason | AtPay | AtConfirm => 3 end.

Record session_ok (se : FareSession) : Prop := {
  ok_agreed : se_step se = AtReview \/ se_step se = AtReason -> is_Some (se_agreed se);
  ok_deliver : is_Some (se_agreed se) -> for_deliver (se_purpose se) = true;
  ok_basis : (1 <= step_level (se_step se))%nat -> is_Some (gv_basis (se_values se));
  ok_rate : (2 <= step_level (se_step se))%nat -> is_Some (gv_rate (se_values se));
  ok_weight : (3 <= step_level (se_step se))%nat -> is_Some (gv_weightTons (se_values se));
  ok_pay : se_step se = AtPay -> for_deliver (se_purpose se) = false;
  ok_reason : se_step se = AtConfirm -> delivery_changed se (se_values se) = true -> is_Some (gv_changeReason (se_values se));
}.

Definition sessions_ok (s : dialog_state) : Prop :=
  forall k se e, dg_sessions s !! k = Some (se, e) -> session_ok se.

Lemma sessions_ok_at s ctx se : sessions_ok s -> session_at s ctx = Some se -> session_ok se.
Proof. intros Hs (e & He & _)%redis_get_Some. by apply (Hs _ _ _ He). Qed.

(** A step of the program that keeps the forms well formed and answers, whatever happens *)
Definition smooth {A} (m : DM A) : Prop :=
  forall s, sessions_ok s -> sessions_ok (final m s) /\ exists a, result m s = Ok a.

Lemma result_run {A} (m : DM A) s a : result m s = Ok a -> exists s1, m s = (Ok a, s1).
Proof. unfold result. destruct (m s) as [o s1]. cbn. intros ->. by exists s1. Qed.

Lemma smooth_ret {A} (a : A) : smooth (mret a).
Proof. intros s Hs. split; [done | by exists a]. Qed.

Lemma smooth_bind {A B} (m : DM A) (k : A -> DM B) : smooth m -> (forall a, smooth (k a)) -> smooth (m ≫= k).
Proof.
  intros Hm Hk s Hs. destruct (Hm s Hs) as (H1 & a & Ha). unfold final, result in *. rewrite run_bind.
  destruct (m s) as [r s1]. cbn in H1, Ha. subst r. by apply Hk.
Qed.

Lemma smooth_try {A} (m : DM A) (h : exn -> DM A) : preserves sessions_ok m -> (forall e, smooth (h e)) -> smooth (try_catch m h).
Proof.
  intros Hm Hh s Hs. specialize (Hm s Hs). unfold final, result, try_catch in *. destruct (m s) as [[a|e] s1].
  - split; [done | by exists a].
  - by apply Hh.
Qed.

Lemma smooth_saveSession ctx se : session_ok se -> smooth (saveSession ctx se).
Proof.
  intros Hse s Hs. split; [|by exists tt]. intros k se' e He. unfold final, saveSession, modify in He. cbn [snd] in He.
  change (redis_set (dg_sessions s) (ts_now (dg_trips s)) (sessionKey ctx) se SESSION_TTL_SECONDS !! k = Some (se', e)) in He. unfold redis_set in He.
  apply lookup_insert_Some in He as [(_ & [= <- _]) | (_ & He)]; [done | by apply (Hs _ _ _ He)].
Qed.

Lemma smooth_clearSession ctx : smooth (clearSession ctx).
Proof.
  intros s Hs. split; [|by exists tt]. intros k se' e He. unfold final, clearSession, modify in He. cbn [snd] in He.
  change (delete (sessionKey ctx) (dg_sessions s) !! k = Some (se', e)) in He.
  apply lookup_delete_Some in He as (_ & He). by apply (Hs _ _ _ He).
Qed.

Lemma smooth_finish ctx p line : smooth (finish ctx p line).
Proof. apply smooth_bind; [apply smooth_clearSession | intros _; apply smooth_ret]. Qed.

Lemma smooth_of_outcome {A} (o : outcome A) : (exists a, o = Ok a) -> smooth (of_outcome o).
Proof. intros (a & ->) s Hs. split; [done | by exists a]. Qed.

Lemma smooth_preserves {A} (m : DM A) : smooth m -> preserves sessions_ok m.
Proof. intros Hm s Hs. by apply Hm. Qed.

(** ** Questions *)

Lemma question_ok se : (se_step se = AtReview \/ se_step se = AtReason -> is_Some (se_agreed se)) -> exists q, question se = Ok q.
Proof. intros Ha. unfold question. destruct (se_step se), (se_agreed se); eauto; by destruct Ha as [? ?]; [auto|]. Qed.

Lemma ask_step_ok se problem : (se_step se = AtReview \/ se_step se = AtReason -> is_Some (se_agreed se)) -> exists r, ask_step se problem = Ok r.
Proof. intros (q & Hq)%question_ok. unfold ask_step. rewrite Hq. destruct q. by eexists. Qed.

Lemma summary_ok se problem : exists r, summary se problem = Ok r.
Proof.
  unfold summary. destruct (readTripFare _); [|by eexists]. apply ask_step_ok. destruct se; cbn. intros [H|H]; discriminate H.
Qed.

Lemma smooth_ask se problem : session_ok se -> smooth (ask se problem).
Proof. intros Hse. apply smooth_of_outcome. destruct (eqb _ _); [apply summary_ok | apply ask_step_ok, (ok_agreed _ Hse)]. Qed.

Lemma smooth_next ctx se : session_ok se -> smooth (next ctx se).
Proof. intros Hse. apply smooth_bind; [by apply smooth_saveSession | intros _; by apply smooth_ask]. Qed.

(** ** Answers *)

(** The next session of each answer *)
Ltac session_step Hse :=
  destruct Hse; constructor; cbn in *; try (intros [H|H]; discriminate H); try (intros; lia); try discriminate; eauto with lia.

Lemma restart_ok se : session_ok se -> session_ok (se <| se_step := AtBasis |> <| se_values := nothing_given |>).
Proof. intros Hse. destruct se. session_step Hse. Qed.

Lemma basis_ok se b : session_ok se -> session_ok (se <| se_step := AtRate |> <| se_values := (se_values se) <| gv_basis := Some b |> |>).
Proof. intros Hse. destruct se as [? ? ? []]. session_step Hse. Qed.

Lemma rate_ok se x c : session_ok se -> se_step se = AtRate -> session_ok (se <| se_step := AtWeight |> <| se_values := (se_values se) <| gv_rate := Some x |> <| gv_currency := c |> |>).
Proof. intros Hse Hst. destruct se as [? ? st []]. cbn in Hst. subst st. session_step Hse. Qed.

Lemma unit_ok se u : session_ok se -> session_ok (se <| se_weightUnit := Some u |>).
Proof. intros Hse. destruct se as [? ? st []]. destruct Hse. by constructor. Qed.

Lemma reason_ok se r : session_ok se -> se_step se = AtReason -> session_ok (se <| se_step := AtConfirm |> <| se_values := (se_values se) <| gv_changeReason := Some r |> |>).
Proof. intros Hse Hst. destruct se as [? ? st []]. cbn in Hst. subst st. session_step Hse. Qed.

Lemma pay_ok se m : session_ok se -> se_step se = AtPay -> session_ok (se <| se_step := AtConfirm |> <| se_payModel := Some m |>).
Proof.
  intros Hse Hst. destruct se as [? ? st []]. cbn in Hst. subst st. destruct Hse. constructor; cbn in *; try (by intros [H|H]); eauto with lia.
  intros _ Hc. unfold delivery_changed in Hc. cbn in Hc. by rewrite ok_pay0 in Hc.
Qed.

Lemma weight_ok se w : session_ok se -> se_step se = AtWeight -> session_ok (after_weight_session se w).
Proof.
  intros Hse Hst. unfold after_weight_session. destruct (delivery_changed se _) eqn:Hc.
  - assert (Hd : for_deliver (se_purpose se) = true /\ is_Some (se_agreed se)).
    { unfold delivery_changed in Hc. apply andb_split in Hc as [? Hc]. by destruct (se_agreed se); eauto. }
    destruct se as [? ? st []]. cbn in Hst, Hd. subst st. session_step Hse. by intros _; destruct Hd.
  - assert (Hc' : delivery_changed se (((se_values se) <| gv_weightTons := Some w |>) <| gv_changeReason := None |>) = false)
      by (by rewrite delivery_changed_with_reason).
    destruct (for_accept (se_purpose se) && se_broker se) eqn:Ha.
    + apply andb_split in Ha as [Ha _]. assert (Hd : for_deliver (se_purpose se) = false) by by destruct (se_purpose se).
      destruct se as [p ? st []]. cbn in Hst. subst st. session_step Hse.
    + destruct se as [p ? st []]. cbn in Hst. subst st. session_step Hse.
      intros _ Hc2. unfold delivery_changed in *. cbn in *. congruence.
Qed.

Lemma preserves_on_trips {A} (m : TM A) : preserves sessions_ok (on_trips m).
Proof. intros s Hs. unfold final, on_trips, zoom. by destruct (m (dg_trips s)). Qed.

Lemma preserves_cargoTitle r : preserves sessions_ok (cargoTitle r).
Proof. apply preserves_gets. Qed.

Lemma preserves_finish ctx p line : preserves sessions_ok (finish ctx p line).
Proof. apply smooth_preserves, smooth_finish. Qed.

#[export] Hint Resolve preserves_on_trips preserves_cargoTitle preserves_finish : preserves.

Lemma preserves_hand_over ctx p m f : preserves sessions_ok (hand_over ctx p m f).
Proof. unfold hand_over. preserve. Qed.

Lemma smooth_save_form ctx se : session_ok se -> forall v, smooth (save_form ctx (se <| se_values := v |>)).
Proof.
  intros Hse v. unfold save_form. destruct (readTripFare _).
  - apply smooth_next. change (session_ok (se <| se_step := AtBasis |> <| se_values := nothing_given |>)). by apply restart_ok.
  - unfold save_fare. apply smooth_try; [apply preserves_hand_over|]. intros []; try apply smooth_finish. apply smooth_of_outcome, summary_ok.
Qed.

(** The forms [afterWeight] is given a weight for *)
Lemma keepValue_step se x : keepValue se = Some x -> se_step se = AtRate \/ se_step se = AtWeight.
Proof. unfold keepValue. destruct (se_step se); try done; auto. Qed.

Lemma given_step prefix id se st a : given prefix id se st = Some a -> se_step se = st.
Proof. unfold given. destruct (eqb _ _) eqn:E; [|done]. intros _. by apply eqb_true. Qed.

Lemma smooth_answer ctx se id : session_ok se -> smooth (answer ctx se id).
Proof.
  intros Hse. pose proof (smooth_ask se None Hse) as Hask. unfold answer.
  destruct (given BASIS id se AtBasis) as [b|].
  { destruct (FareBasis_of_string b); [|done]. apply smooth_next. by apply basis_ok. }
  destruct (String.eqb id KEEP).
  { destruct (keepValue se) as [x|] eqn:Ek; [|done]. destruct (eqb (se_step se) AtRate) eqn:Er.
    - apply smooth_next. apply rate_ok; [done | by apply eqb_true].
    - apply smooth_next. apply weight_ok; [done|]. apply eqb_false in Er. by destruct (keepValue_step se x Ek). }
  destruct (given UNIT id se AtWeight) as [u|].
  { destruct (is_unit u); [|done]. apply smooth_next. by apply unit_ok. }
  destruct (given REASON id se AtReason) as [r|] eqn:Hr.
  { destruct (FareChangeReason_of_string r); [|done]. apply smooth_next. apply reason_ok; [done|]. by apply given_step in Hr. }
  destruct (given PAY id se AtPay) as [m|] eqn:Hp; [|done].
  destruct (BrokerPayModel_of_string m); [|done]. apply smooth_next. apply pay_ok; [done|]. by apply given_step in Hp.
Qed.

Lemma smooth_press ctx se id : session_ok se -> smooth (press ctx se id).
Proof.
  intros Hse. unfold press. destruct (String.eqb id CANCEL); [apply smooth_finish|].
  destruct (_ || _); [by apply smooth_next, restart_ok|].
  destruct (if String.eqb id SAME then se_agreed se else None) as [f|]; [by apply smooth_save_form|].
  destruct (String.eqb id SAVE); [|by apply smooth_answer].
  pose proof (smooth_save_form ctx se Hse (se_values se)) as H. by destruct se.
Qed.

Lemma smooth_typed ctx se t : session_ok se -> smooth (typed ctx se t).
Proof.
  intros Hse. unfold typed. destruct (bool_decide _); [apply smooth_finish|].
  destruct (se_step se) eqn:Hst; try by apply smooth_ask.
  - destruct (readAmount _); [|by apply smooth_ask]. by apply smooth_next, rate_ok.
  - destruct (readWeight _ _); [|by apply smooth_ask]. by apply smooth_next, weight_ok.
Qed.

(** A session is read, and a form found is well formed. *)
Lemma smooth_with_session {A} ctx (k : option FareSession -> DM A) :
  smooth (k None) -> (forall se, session_ok se -> smooth (k (Some se))) -> smooth (getSession ctx ≫= k).
Proof.
  intros Hn Hk s Hs. change (sessions_ok (final (k (session_at s ctx)) s) /\ exists a, result (k (session_at s ctx)) s = Ok a).
  destruct (session_at s ctx) as [se|] eqn:E; [|by apply Hn]. apply Hk; [|done]. by apply (sessions_ok_at s ctx).
Qed.

Lemma smooth_some {A} (m : DM A) : smooth m -> smooth (r ← m; mret (Some r)).
Proof. intros Hm. apply smooth_bind; [done | intros; apply smooth_ret]. Qed.

Lemma smooth_handleAction ctx id : smooth (handleAction ctx id).
Proof.
  unfold handleAction. destruct (negb _); [apply smooth_ret|].
  apply smooth_with_session; [apply smooth_ret | intros; by apply smooth_some, smooth_press].
Qed.

Lemma smooth_handleText ctx t : smooth (handleText ctx t).
Proof. apply smooth_with_session; [apply smooth_ret | intros; by apply smooth_some, smooth_typed]. Qed.

(** ** Starting *)

(** A form that was loaded: an agreed fare only at the delivery *)
Definition form_ok (purpose : FarePurpose) (fo : TripFareForm) : Prop := is_Some (fo_agreed fo) -> for_deliver purpose = true.

Lemma start_session_ok purpose fo cargo :
  form_ok purpose fo ->
  session_ok (mkSession purpose cargo (if for_deliver purpose && negb (is_null (fo_agreed fo)) then AtReview else AtBasis) nothing_given (fo_values fo) (fo_agreed fo) (fo_broker fo) (fo_payModel fo) None).
Proof.
  intros Hf. destruct (for_deliver purpose && _) eqn:E.
  - apply andb_split in E as [Hd Ha]. constructor; cbn; try (intros; lia); try discriminate; try done.
    intros _. by destruct (fo_agreed fo).
  - constructor; cbn; try (intros; lia); try discriminate; try done. by intros [H|H].
Qed.

Lemma smooth_start ctx purpose load :
  preserves sessions_ok load -> (forall s fo cargo, result load s = Ok (fo, cargo) -> form_ok purpose fo) ->
  smooth (start ctx purpose load).
Proof.
  intros Hl Hf s Hs. unfold start. unfold final, result. rewrite run_bind. unfold try_catch. rewrite run_bind.
  specialize (Hl s Hs). specialize (Hf s). unfold final, result in Hl, Hf. destruct (load s) as [[[fo cargo]|e] s1]; cbn [fst snd] in *.
  - rewrite run_ret. pose proof (start_session_ok purpose fo cargo (Hf fo cargo eq_refl)) as Hse.
    refine (smooth_bind _ _ (smooth_saveSession ctx _ Hse) (fun _ => smooth_ask _ _ Hse) s1 Hl).
  - rewrite run_bind. pose proof (smooth_finish ctx purpose (errorText e) s1 Hl) as (H1 & r & Hr). unfold final, result in H1, Hr.
    destruct (finish ctx purpose (errorText e) s1) as [r' s2]. cbn in H1, Hr. subst r'. rewrite !run_ret. split; [done | by exists r].
Qed.
