(* ===== verification/TripFareDialogProperties.v ===== *)
(** * Properties of the fare form

    No answer fails, whatever the rest of the program does meanwhile; «ثبت» hands over what
    the summary showed; the plain answers always reach the summary; and the one place where
    the form stops for good. *)

From S2P Require Import Prelude JsNumber JsString Effects Redis Enums BrokerDriver TripFareRules BrokerAccess DriverProfile CargoData TripFareService CargoTrip TripProperties NumberWords CargoPrice TripFareDialog TripFareDialogFacts.

(** ** What a company does with the form *)

Inductive Act :=
| Accepts (requestId : uuid)
| Delivers (requestId : uuid)
| Offers (listingId driverUserId : uuid) (driverName : text) (back : string)
| Presses (id : string)
| Types (t : text).

Definition act (ctx : BotContext) (a : Act) : DM (option BotReply) :=
  match a with
  | Accepts i => r ← startAccept ctx i; mret (Some r)
  | Delivers i => r ← startDeliver ctx i; mret (Some r)
  | Offers l d n b => r ← startOffer ctx l d n b; mret (Some r)
  | Presses id => handleAction ctx id
  | Types t => handleText ctx t
  end.

(** One step of the system: an answer of any company, or anything the other services do to
    the trips, the loads and the clock *)
Inductive form_step : dialog_state -> dialog_state -> Prop :=
| step_act ctx a s : form_step s (final (act ctx a) s)
| step_other t texts s : form_step s (s <| dg_trips := t |> <| dg_texts := texts |>).

Lemma reads_fare_form r stage : reads (fare_form r stage).
Proof.
  intros t. unfold fare_form. preserve. intros s' <-. unfold final, on_trips, zoom, lastPayModel, gets. cbn. by destruct t.
Qed.

Lemma preserves_request_form ctx i stage : preserves sessions_ok (request_form ctx i stage).
Proof.
  unfold request_form, fareForm. preserve. apply reads_preserves, reads_fare_form.
Qed.

Lemma fare_form_ok r stage s fo : result (fare_form r stage) s = Ok fo -> stage = StageAgreed -> fo_agreed fo = None.
Proof.
  intros (s1 & H)%result_run ->. unfold fare_form in H. run_inv. by simplify_eq.
Qed.

Lemma smooth_startAccept ctx i : smooth (startAccept ctx i).
Proof.
  apply smooth_start; [apply preserves_request_form|]. intros s fo cargo H [f Hf]. exfalso.
  apply result_run in H as (s1 & E). unfold request_form, fareForm in E. run_inv.
  match goal with Hfo : fare_form _ _ ?s0 = (Ok ?fo0, _) |- _ =>
    assert (Hn : fo_agreed fo0 = None) by (eapply (fare_form_ok _ _ s0); [unfold result; by rewrite Hfo | done]) end.
  destruct a0; run_inv; simplify_eq; congruence.
Qed.

Lemma smooth_startDeliver ctx i : smooth (startDeliver ctx i).
Proof. apply smooth_start; [apply preserves_request_form | done]. Qed.

Lemma smooth_startOffer ctx l d n b : smooth (startOffer ctx l d n b).
Proof.
  apply smooth_start; [unfold offerFareForm, listingTitle; preserve|]. intros s fo cargo H [f Hf]. exfalso.
  apply result_run in H as (s1 & E). unfold offerFareForm in E. run_inv. by simplify_eq.
Qed.

Lemma smooth_act ctx a : smooth (act ctx a).
Proof.
  destruct a as [i | i | l d n b | id | t]; [| | | apply smooth_handleAction | apply smooth_handleText].
  - exact (smooth_some _ (smooth_startAccept ctx i)).
  - exact (smooth_some _ (smooth_startDeliver ctx i)).
  - exact (smooth_some _ (smooth_startOffer ctx l d n b)).
Qed.

Lemma form_step_ok s1 s2 : form_step s1 s2 -> sessions_ok s1 -> sessions_ok s2.
Proof. intros [ctx a s | t texts s] Hs; [by apply smooth_act|]. by destruct s. Qed.

Lemma forms_ok s0 s : dg_sessions s0 = ∅ -> rtc form_step s0 s -> sessions_ok s.
Proof.
  intros H0 Hr. assert (Hs : sessions_ok s0) by (intros k se e Hk; by rewrite H0 in Hk).
  clear H0. induction Hr; [done|]. eauto using form_step_ok.
Qed.

(** C27: No answer to the form ever fails, whatever companies have answered before and whatever
    the other services do between the answers; and a form that waits is well formed: the
    review and the question of the reason have the agreed fare they show, a step comes after
    the answers it needs, and a delivery that changed the fare is confirmed with a reason. *)
Theorem form_never_fails (s0 s : dialog_state) (ctx : BotContext) (a : Act)
    (H0 : dg_sessions s0 = ∅) (Hr : rtc form_step s0 s) :
  (exists r, result (act ctx a) s = Ok r) /\
  (forall se, session_at s ctx = Some se -> session_ok se).
Proof.
  pose proof (forms_ok s0 s H0 Hr) as Hs. split; [by apply (smooth_act ctx a s Hs)|].
  intros se Hse. by apply (sessions_ok_at s ctx).
Qed.

(** ** What is shown is what is saved *)

(** The fare a line of the summary shows *)
Definition shown_in (l : Line) : option TripFareValues :=
  match l with Said key (ArgFare f :: _) => if String.eqb key "fare.confirm" then Some f else None | _ => None end.

Definition fare_shown (r : BotReply) : option TripFareValues := head (omap shown_in (rp_text r)).

Lemma fare_shown_nil r : Forall (fun l => shown_in l = None) (rp_text r) -> fare_shown r = None.
Proof.
  unfold fare_shown. generalize (rp_text r). intros ls H. induction H as [|l ls Hl _ IH]; [done|]. cbn. by rewrite Hl.
Qed.

Definition quiet (problem : option Line) : Prop := match problem with Some l => shown_in l = None | None => True end.

Lemma title_quiet se : shown_in (title se) = None.
Proof. unfold title. by destruct (se_purpose se). Qed.

Lemma stepLine_quiet se : Forall (fun l => shown_in l = None) (stepLine se).
Proof. unfold stepLine. destruct (index_in _ _); by repeat constructor. Qed.

Lemma question_quiet se : match question se with Ok q => shown_in q.1 = None | Err _ => True end.
Proof.
  unfold question. destruct (se_step se); try exact eq_refl; destruct (se_agreed se); first [exact eq_refl | exact I].
Qed.

Lemma ask_step_quiet se problem r : quiet problem -> ask_step se problem = Ok r -> fare_shown r = None.
Proof.
  intros Hp. unfold ask_step. pose proof (question_quiet se) as Hq. destruct (question se) as [[line rows]|]; [|done]. intros [= <-].
  apply fare_shown_nil. cbn [rp_text]. apply Forall_app. split; [by destruct problem; repeat constructor|].
  constructor; [apply title_quiet|]. apply Forall_app. split; [apply stepLine_quiet|].
  by constructor.
Qed.

(** A summary that shows a fare shows what was given, for whom, and nothing else. *)
Definition summary_of (se : FareSession) (f : TripFareValues) (r : BotReply) : Prop :=
  fare_of (se_values se) = inr f /\ exists problem, rp_text r = option_list problem ++ [title se] ++ confirm_lines se f.

Lemma summary_shows se problem r f : quiet problem -> summary se problem = Ok r -> fare_shown r = Some f -> summary_of se f r.
Proof.
  intros Hp. unfold summary, summary_of. fold (fare_of (se_values se)). destruct (fare_of (se_values se)) as [e|g] eqn:Ef.
  - intros H Hf. apply ask_step_quiet in H; [congruence | done].
  - intros [= <-] Hf. unfold fare_shown in Hf. cbn [rp_text] in Hf.
    assert (Hh : omap shown_in (option_list problem ++ title se :: confirm_lines se g) = g :: omap shown_in (drop 1 (confirm_lines se g))).
    { destruct problem as [l|]; cbn; [rewrite Hp|]; by rewrite title_quiet. }
    change (head (omap shown_in (option_list problem ++ title se :: confirm_lines se g)) = Some f) in Hf.
    rewrite Hh in Hf. injection Hf as <-. split; [done | by exists problem].
Qed.

Lemma ask_shows se problem s r s1 f : quiet problem -> ask se problem s = (Ok r, s1) -> fare_shown r = Some f -> summary_of se f r /\ s1 = s.
Proof.
  intros Hp H Hf. unfold ask, of_outcome in H. injection H as H <-. split; [|done]. destruct (eqb (se_step se) AtConfirm).
  - by apply (summary_shows se problem).
  - apply ask_step_quiet in H; [congruence | done].
Qed.

(** An answer that shows a fare leaves the form it shows in the store. *)
Definition left_as_shown (ctx : BotContext) (r : BotReply) (s1 : dialog_state) : Prop :=
  forall f se e, fare_shown r = Some f -> dg_sessions s1 !! sessionKey ctx = Some (se, e) -> summary_of se f r.

Lemma next_shows ctx se s r s1 : next ctx se s = (Ok r, s1) -> left_as_shown ctx r s1.
Proof.
  unfold next. rewrite run_bind. intros H f se' e Hf He.
  destruct (ask_shows se None _ r s1 f I H Hf) as [Hsum ->].
  change (redis_set (dg_sessions s) (ts_now (dg_trips s)) (sessionKey ctx) se SESSION_TTL_SECONDS !! sessionKey ctx = Some (se', e)) in He.
  unfold redis_set in He. rewrite lookup_insert_eq in He. by injection He as <- _.
Qed.

Lemma ask_stored ctx se problem s r s1 e :
  quiet problem -> dg_sessions s !! sessionKey ctx = Some (se, e) -> ask se problem s = (Ok r, s1) -> left_as_shown ctx r s1.
Proof.
  intros Hp He H f se' e' Hf He'. destruct (ask_shows se problem s r s1 f Hp H Hf) as [Hsum ->]. congruence.
Qed.

Lemma finish_quiet ctx p line s r s1 : shown_in line = None -> finish ctx p line s = (Ok r, s1) -> left_as_shown ctx r s1.
Proof.
  unfold finish. rewrite run_bind. intros Hl H f se e Hf _. exfalso. injection H as <- _.
  unfold fare_shown in Hf. cbn in Hf. rewrite Hl in Hf. discriminate Hf.
Qed.

Lemma errorText_quiet e : shown_in (errorText e) = None.
Proof. by destruct e. Qed.

(** The trips leave the forms alone. *)
Lemma on_trips_sessions {A} (m : TM A) s : dg_sessions (final (on_trips m) s) = dg_sessions s.
Proof. unfold final, on_trips, zoom. by destruct (m (dg_trips s)). Qed.

Lemma on_trips_Err {A} (m : TM A) s e s1 : on_trips m s = (Err e, s1) -> dg_sessions s1 = dg_sessions s.
Proof. intros H. rewrite <- (on_trips_sessions m s). unfold final. by rewrite H. Qed.

Lemma told_run ctx p r (k : text -> Line) s e s1 : (cargo ← cargoTitle r; finish ctx p (k cargo)) s = (Err e, s1) -> False.
Proof. rewrite run_bind. unfold cargoTitle, gets. cbn. discriminate. Qed.

(** A refusal of the service comes from the trips. *)
Lemma hand_over_Err ctx p m f s e s1 : hand_over ctx p m f s = (Err e, s1) -> dg_sessions s1 = dg_sessions s.
Proof.
  destruct p as [i | i | l d n b]; cbn [hand_over]; intros [H | (a & s2 & _ & H)]%bind_Err_inv;
    try (by apply on_trips_Err in H); try (exfalso; by apply told_run in H). discriminate H.
Qed.

Lemma hand_over_Ok ctx p m f s r s1 : hand_over ctx p m f s = (Ok r, s1) -> left_as_shown ctx r s1.
Proof.
  destruct p as [i | i | l d n b]; cbn [hand_over]; intros (a & s2 & _ & H)%bind_Ok_inv.
  1-2: apply bind_Ok_inv in H as (c & s3 & _ & H).
  all: by apply finish_quiet in H.
Qed.

Lemma save_form_shows ctx se s r s1 e :
  dg_sessions s !! sessionKey ctx = Some (se, e) -> save_form ctx se s = (Ok r, s1) -> left_as_shown ctx r s1.
Proof.
  intros He H. unfold save_form in H. destruct (readTripFare _) as [?|g]; [by apply next_shows in H|].
  unfold save_fare, try_catch in H. destruct (hand_over _ _ _ _ s) as [[r0|x] s2] eqn:Eh.
  - injection H as <- <-. by apply hand_over_Ok in Eh.
  - apply hand_over_Err in Eh. destruct x; try (by apply finish_quiet in H; [|apply errorText_quiet]).
    unfold of_outcome in H. injection H as H <-. intros f se' e' Hf He'. rewrite Eh, He in He'. injection He' as <- _.
    by apply (summary_shows se (Some (Written message))).
Qed.

Lemma answer_shows ctx se id s r s1 e :
  dg_sessions s !! sessionKey ctx = Some (se, e) -> answer ctx se id s = (Ok r, s1) -> left_as_shown ctx r s1.
Proof.
  intros He. pose proof (fun H => ask_stored ctx se None s r s1 e I He H) as Hask. unfold answer, afterRate, afterWeight.
  repeat (first [exact Hask | apply next_shows | break_if | case_match]).
Qed.

Lemma press_shows ctx se id s r s1 e :
  id <> SAME -> dg_sessions s !! sessionKey ctx = Some (se, e) -> press ctx se id s = (Ok r, s1) -> left_as_shown ctx r s1.
Proof.
  intros Hid He. unfold press. destruct (String.eqb id CANCEL); [by apply finish_quiet|].
  destruct (_ || _); [apply next_shows|]. rewrite (proj2 (String.eqb_neq _ _) Hid).
  destruct (String.eqb id SAVE); [by apply (save_form_shows ctx se s r s1 e) | by apply (answer_shows ctx se id s r s1 e)].
Qed.

Lemma typed_shows ctx se t s r s1 e :
  dg_sessions s !! sessionKey ctx = Some (se, e) -> typed ctx se t s = (Ok r, s1) -> left_as_shown ctx r s1.
Proof.
  intros He. pose proof (fun p Hp H => ask_stored ctx se p s r s1 e Hp He H) as Hask. unfold typed, afterRate, afterWeight.
  destruct (bool_decide _); [by apply finish_quiet|].
  destruct (se_step se); try exact (Hask None I); case_match; try apply next_shows; by apply Hask.
Qed.

Lemma session_stored s ctx se : session_at s ctx = Some se -> exists e, dg_sessions s !! sessionKey ctx = Some (se, e).
Proof. intros (e & He & _)%redis_get_Some. by exists e. Qed.

Lemma start_shows ctx p load s r s1 : start ctx p load s = (Ok r, s1) -> left_as_shown ctx r s1.
Proof.
  unfold start. intros H. apply bind_Ok_inv in H as (o & s2 & Ho & H). destruct o as [r0 | [fo cargo]].
  - injection H as <- <-. unfold try_catch in Ho. destruct ((f ← load; mret (inr f)) s) as [[x|e] s3] eqn:El.
    + injection Ho as -> <-. apply bind_Ok_inv in El as (? & ? & _ & El). discriminate El.
    + apply bind_Ok_inv in Ho as (r1 & s4 & Ho & Hr). injection Hr as -> <-. by apply finish_quiet in Ho; [|apply errorText_quiet].
  - cbv zeta in H. apply bind_Ok_inv in H as (u & s3 & Hs & H). intros f se e Hf He.
    eapply ask_shows in H as [Hsum ->]; [ | by destruct (for_deliver p && is_null (fo_agreed fo)) | exact Hf].
    injection Hs as _ <-.
    match type of He with _ !! _ = Some _ => change (dg_sessions (s2 <| dg_sessions := redis_set (dg_sessions s2) (ts_now (dg_trips s2)) (sessionKey ctx)
      (mkSession p cargo (if for_deliver p && negb (is_null (fo_agreed fo)) then AtReview else AtBasis) nothing_given (fo_values fo) (fo_agreed fo) (fo_broker fo) (fo_payModel fo) None) SESSION_TTL_SECONDS |>) !! sessionKey ctx = Some (se, e)) in He end.
    cbn in He. unfold redis_set in He. rewrite lookup_insert_eq in He. by injection He as <- _.
Qed.

(** «بدون تغییر» of the review hands over the agreed fare at once.  When the service refuses it
    (400), the summary shows the agreed fare, and the form kept is the one before. *)
Definition same_refused (ctx : BotContext) (s : dialog_state) (r : BotReply) (s1 : dialog_state) : Prop :=
  forall f se e, fare_shown r = Some f -> dg_sessions s1 !! sessionKey ctx = Some (se, e) ->
    dg_sessions s !! sessionKey ctx = Some (se, e) /\
    exists g, se_agreed se = Some g /\ summary_of (se <| se_values := given_by_fare g |>) f r.

Lemma save_same_shows ctx se g s r s1 e :
  dg_sessions s !! sessionKey ctx = Some (se, e) -> se_agreed se = Some g ->
  save_form ctx (se <| se_values := given_by_fare g |>) s = (Ok r, s1) -> left_as_shown ctx r s1 \/ same_refused ctx s r s1.
Proof.
  intros He Hg H. unfold save_form in H. destruct (readTripFare _) as [?|h]; [left; by apply next_shows in H|].
  unfold save_fare, try_catch in H. destruct (hand_over _ _ _ _ s) as [[r0|x] s2] eqn:Eh.
  - injection H as <- <-. left. by apply hand_over_Ok in Eh.
  - apply hand_over_Err in Eh. destruct x; try (by left; apply finish_quiet in H; [|apply errorText_quiet]).
    right. unfold of_outcome in H. injection H as H <-. intros f se' e' Hf He'. rewrite Eh, He in He'. injection He' as <- <-.
    split; [done|]. exists g. split; [done|]. by apply (summary_shows _ (Some (Written message))).
Qed.

Lemma press_same_shows ctx se s r s1 e :
  dg_sessions s !! sessionKey ctx = Some (se, e) -> press ctx se SAME s = (Ok r, s1) -> left_as_shown ctx r s1 \/ same_refused ctx s r s1.
Proof.
  intros He. unfold press. cbn [String.eqb SAME CANCEL EDIT CHANGE SAVE Ascii.eqb Bool.eqb orb].
  change (String.eqb SAME CANCEL) with false. change (String.eqb SAME EDIT || String.eqb SAME CHANGE) with false. change (String.eqb SAME SAVE) with false.
  change (String.eqb SAME SAME) with true. cbv iota. destruct (se_agreed se) as [g|] eqn:Eg; [by apply (save_same_shows ctx se g s r s1 e)|].
  intros H. left. by apply (answer_shows ctx se SAME s r s1 e).
Qed.

Lemma act_shows ctx a s r s1 : act ctx a s = (Ok (Some r), s1) -> left_as_shown ctx r s1 \/ a = Presses SAME /\ same_refused ctx s r s1.
Proof.
  intros H. destruct a as [i | i | l d n b | id | t]; cbn [act] in H.
  1-3: left; apply bind_Ok_inv in H as (r0 & s2 & H & Hr); injection Hr as <- <-; by apply start_shows in H.
  - unfold handleAction in H. destruct (negb _); [discriminate H|]. apply bind_Ok_inv in H as (o & s2 & [<- <-]%run_Ok_inv & H).
    destruct (session_at s ctx) as [se|] eqn:Es.
    + apply session_stored in Es as (e & He). apply bind_Ok_inv in H as (r0 & s2 & H & Hr). injection Hr as <- <-.
      destruct (String.eqb_spec id SAME) as [->|Hid]; [|left; by apply (press_shows ctx se id s r0 s2 e)].
      destruct (press_same_shows ctx se s r0 s2 e He H); [by left | by right].
    + left. injection H as <- <-. intros f se e Hf _. discriminate Hf.
  - left. unfold handleText in H. apply bind_Ok_inv in H as (o & s2 & [<- <-]%run_Ok_inv & H).
    destruct (session_at s ctx) as [se|] eqn:Es; [|discriminate H].
    apply session_stored in Es as (e & He). apply bind_Ok_inv in H as (r0 & s2 & H & Hr). injection Hr as <- <-.
    by apply (typed_shows ctx se t s r0 s2 e).
Qed.

Lemma handleAction_press ctx id se s : ownsAction id = true -> session_at s ctx = Some se -> handleAction ctx id s = (r ← press ctx se id; mret (Some r)) s.
Proof. intros Ho Hs. unfold handleAction. rewrite Ho. cbn [negb]. unfold getSession. rewrite run_bind. unfold gets. cbv beta iota. by rewrite Hs. Qed.

Lemma handleText_typed ctx t se s : session_at s ctx = Some se -> handleText ctx t s = (r ← typed ctx se t; mret (Some r)) s.
Proof. intros Hs. unfold handleText, getSession. rewrite run_bind. unfold gets. cbv beta iota. by rewrite Hs. Qed.

(** C4: «ثبت» under a summary hands over what the summary shows, with one exception: whatever
    other users and the other services do in between, while the form lives and the company
    answers nothing else, the service is called for the load or driver the summary names, with
    the fare and the pay model it shows.  The exception is the summary that answers «بدون تغییر»
    when the service has refused the agreed fare: it shows the agreed fare, and «ثبت» under it
    goes by the answers kept before. *)
Theorem saved_as_shown (ctx : BotContext) (a : Act) (s s1 s2 : dialog_state) (r : BotReply) (f : TripFareValues) (se : FareSession)
    (Hact : act ctx a s = (Ok (Some r), s1)) (Hf : fare_shown r = Some f)
    (Hkeep : dg_sessions s2 !! sessionKey ctx = dg_sessions s1 !! sessionKey ctx) (Hlive : session_at s2 ctx = Some se) :
  ((exists problem, rp_text r = option_list problem ++ [title se] ++ confirm_lines se f) /\
   handleAction ctx SAVE s2 = (reply ← save_fare ctx se f; mret (Some reply)) s2) \/
  (a = Presses SAME /\ (exists e, dg_sessions s !! sessionKey ctx = Some (se, e)) /\
   (exists g problem, se_agreed se = Some g /\ fare_of (given_by_fare g) = inr f /\
      rp_text r = option_list problem ++ [title se] ++ confirm_lines (se <| se_values := given_by_fare g |>) f) /\
   handleAction ctx SAVE s2 = (reply ← save_form ctx se; mret (Some reply)) s2).
Proof.
  apply session_stored in Hlive as Hst. destruct Hst as (e & He). rewrite Hkeep in He.
  assert (Hsave : handleAction ctx SAVE s2 = (reply ← save_form ctx se; mret (Some reply)) s2) by exact (handleAction_press ctx SAVE se s2 eq_refl Hlive).
  destruct (act_shows ctx a s r s1 Hact) as [Hshown | [Ha Hsame]].
  - left. destruct (Hshown f se e Hf He) as [Hread Htext]. split; [done|]. rewrite Hsave. unfold save_form, fare_of in *. by rewrite Hread.
  - right. destruct (Hsame f se e Hf He) as (Hs & g & Hg & Hread & problem & Htext). split; [done|]. split; [by exists e|]. split; [|done].
    exists g, problem. by split_and!.
Qed.

(** ** Reaching the summary *)

(** The form kept by an answer *)
Definition keep (ctx : BotContext) (se : FareSession) (s : dialog_state) : dialog_state :=
  s <| dg_sessions := redis_set (dg_sessions s) (ts_now (dg_trips s)) (sessionKey ctx) se SESSION_TTL_SECONDS |>.

Lemma session_at_keep ctx se s : session_at (keep ctx se s) ctx = Some se.
Proof. apply redis_get_set. unfold SESSION_TTL_SECONDS. lia. Qed.

(** The answers of a list, and the last reply *)
Fixpoint acts (ctx : BotContext) (l : list Act) (last : option BotReply) : DM (option BotReply) :=
  match l with [] => mret last | a :: l => r ← act ctx a; acts ctx l r end.

Definition ask_of (se : FareSession) (problem : option Line) : outcome BotReply :=
  if eqb (se_step se) AtConfirm then summary se problem else ask_step se problem.

Lemma next_reply ctx se s : next ctx se s = (ask_of se None, keep ctx se s).
Proof. done. Qed.

(** An answer that only moves the form on *)
Lemma acts_move ctx a l last se se' s r :
  act ctx a s = (x ← next ctx se'; mret (Some x)) s -> session_at s ctx = Some se -> ask_of se' None = Ok r ->
  acts ctx (a :: l) last s = acts ctx l (Some r) (keep ctx se' s).
Proof. intros Ha _ Hr. cbn [acts]. rewrite run_bind, Ha, run_bind, next_reply, Hr. done. Qed.

(** What is typed is no word for cancelling *)
Definition no_cancel (t : text) : Prop := trim t ∉ CANCEL_WORDS.

Definition basis_button (b : FareBasis) : string := String.append BASIS (basis_string b).
Definition reason_button (x : FareChangeReason) : string := String.append REASON (reason_string x).
Definition pay_button (m : BrokerPayModel) : string := String.append PAY (model_string m).

Definition asked_basis (b : FareBasis) (se : FareSession) : FareSession :=
  se <| se_step := AtRate |> <| se_values := (se_values se) <| gv_basis := Some b |> |>.
Definition asked_rate (p : CargoPrice) (se : FareSession) : FareSession :=
  se <| se_step := AtWeight |> <| se_values := (se_values se) <| gv_rate := Some (pc_amount p) |> <| gv_currency := Some (pc_currency p) |> |>.

Lemma press_basis ctx b se s : session_at s ctx = Some se -> se_step se = AtBasis ->
  act ctx (Presses (basis_button b)) s = (x ← next ctx (asked_basis b se); mret (Some x)) s.
Proof.
  intros Hs Hst. cbn [act]. rewrite (handleAction_press ctx _ se s) by (by destruct b).
  assert (Hp : press ctx se (basis_button b) = next ctx (asked_basis b se)); [|by rewrite Hp].
  unfold press, answer, given. rewrite Hst. by destruct b.
Qed.

Lemma type_rate ctx t p se s : session_at s ctx = Some se -> se_step se = AtRate -> no_cancel t -> readAmount (Some t) = Some p ->
  act ctx (Types t) s = (x ← next ctx (asked_rate p se); mret (Some x)) s.
Proof.
  intros Hs Hst Hn Hp. cbn [act]. rewrite (handleText_typed ctx t se s Hs). unfold typed. rewrite bool_decide_false by done. by rewrite Hst, Hp.
Qed.

Lemma type_weight ctx t w se s : session_at s ctx = Some se -> se_step se = AtWeight -> no_cancel t -> readWeight (Some t) (unit_of (se_weightUnit se)) = Some w ->
  act ctx (Types t) s = (x ← next ctx (after_weight_session se w); mret (Some x)) s.
Proof.
  intros Hs Hst Hn Hw. cbn [act]. rewrite (handleText_typed ctx t se s Hs). unfold typed. rewrite bool_decide_false by done. by rewrite Hst, Hw.
Qed.

Lemma press_reason ctx x se s : session_at s ctx = Some se -> se_step se = AtReason ->
  act ctx (Presses (reason_button x)) s
  = (r ← next ctx (se <| se_step := AtConfirm |> <| se_values := (se_values se) <| gv_changeReason := Some x |> |>); mret (Some r)) s.
Proof.
  intros Hs Hst. cbn [act]. rewrite (handleAction_press ctx _ se s) by (by destruct x; try done).
  match goal with |- _ = (_ ← next ctx ?se'; _) _ => assert (Hp : press ctx se (reason_button x) = next ctx se') end; [|by rewrite Hp].
  unfold press, answer, given. rewrite Hst. by destruct x.
Qed.

Lemma press_pay ctx m se s : session_at s ctx = Some se -> se_step se = AtPay ->
  act ctx (Presses (pay_button m)) s = (r ← next ctx (se <| se_step := AtConfirm |> <| se_payModel := Some m |>); mret (Some r)) s.
Proof.
  intros Hs Hst. cbn [act]. rewrite (handleAction_press ctx _ se s) by (by destruct m).
  match goal with |- _ = (_ ← next ctx ?se'; _) _ => assert (Hp : press ctx se (pay_button m) = next ctx se') end; [|by rewrite Hp].
  unfold press, answer, given. rewrite Hst. by destruct m.
Qed.

(** The summary of a form at its last step whose answers are a fare *)
Lemma confirm_shows se f : se_step se = AtConfirm -> fare_of (se_values se) = inr f -> exists r, ask_of se None = Ok r /\ fare_shown r = Some f.
Proof.
  intros Hst Hf. unfold ask_of. rewrite Hst, (proj2 (eqb_true AtConfirm AtConfirm) eq_refl). unfold summary, fare_of in *. rewrite Hf.
  eexists. split; [reflexivity|]. unfold fare_shown. cbn. by rewrite title_quiet.
Qed.

(** One more answer, to the last step *)
Lemma acts_last ctx a last se se' s f :
  act ctx a s = (x ← next ctx se'; mret (Some x)) s -> session_at s ctx = Some se -> se_step se' = AtConfirm -> fare_of (se_values se') = inr f ->
  exists r, acts ctx [a] last s = (Ok (Some r), keep ctx se' s) /\ fare_shown r = Some f.
Proof.
  intros Ha Hs Hst Hf. destruct (confirm_shows se' f Hst Hf) as (r & Hr & Hsh). exists r. split; [|done].
  by rewrite (acts_move ctx a [] last se se' s r Ha Hs Hr).
Qed.

Lemma ask_question se : se_step se <> AtConfirm -> (se_step se = AtReview \/ se_step se = AtReason -> is_Some (se_agreed se)) -> exists r, ask_of se None = Ok r.
Proof. intros Hc Ha. unfold ask_of. rewrite (proj2 (eqb_false _ _) Hc). by apply ask_step_ok. Qed.

(** What the three questions every form has leave given *)
Definition three_answers (b : FareBasis) (p : CargoPrice) (w : num) : FareGiven :=
  mkGiven (Some b) (Some (pc_amount p)) (Some w) (Some (pc_currency p)) None.

(** The answers that lead from the first question to the summary *)
Definition plain_answers (se : FareSession) (b : FareBasis) (t1 : text) (p : CargoPrice) (t2 : text) (w : num) (x : FareChangeReason) (m : BrokerPayModel) : list Act :=
  [Presses (basis_button b); Types t1; Types t2]
  ++ (if delivery_changed se (three_answers b p w) then [Presses (reason_button x)]
      else if for_accept (se_purpose se) && se_broker se then [Presses (pay_button m)] else []).

(** The state after the three questions *)
Definition after_three (se : FareSession) (b : FareBasis) (p : CargoPrice) (w : num) : FareSession :=
  after_weight_session (asked_rate p (asked_basis b se)) w.

Lemma three_questions ctx se s b t1 p t2 w l last :
  session_at s ctx = Some se -> se_step se = AtBasis -> no_cancel t1 -> readAmount (Some t1) = Some p -> no_cancel t2 -> readWeight (Some t2) (unit_of (se_weightUnit se)) = Some w ->
  exists r s2, session_at s2 ctx = Some (asked_rate p (asked_basis b se)) /\
    acts ctx ([Presses (basis_button b); Types t1; Types t2] ++ l) last s = acts ctx (Types t2 :: l) (Some r) s2.
Proof.
  intros Hs Hst Hn1 Hp Hn2 Hw. set (se1 := asked_basis b se). set (se2 := asked_rate p se1).
  assert (K1 : se_step se1 = AtRate) by by destruct se. assert (K2 : se_step se2 = AtWeight) by by destruct se.
  destruct (ask_question se1) as (r1 & Hr1); [by rewrite K1 | rewrite K1; by intros [?|?] |].
  destruct (ask_question se2) as (r2 & Hr2); [by rewrite K2 | rewrite K2; by intros [?|?] |].
  exists r2, (keep ctx se2 (keep ctx se1 s)). split; [apply session_at_keep|]. cbn [app].
  rewrite (acts_move ctx _ _ last se se1 s r1 (press_basis ctx b se s Hs Hst) Hs Hr1).
  by rewrite (acts_move ctx _ _ _ se1 se2 _ r2 (type_rate ctx t1 p se1 _ (session_at_keep ctx se1 s) K1 Hn1 Hp) (session_at_keep ctx se1 s) Hr2).
Qed.

(** C5: The form can always be finished: from its first question the basis, an amount and a
    weight that are read, the reason when a delivery changed the fare or how the broker is
    paid when a request is accepted, lead to the summary of exactly these answers, which
    waits for «ثبت». *)
Theorem plain_answers_reach_summary (ctx : BotContext) (se : FareSession) (s : dialog_state) (b : FareBasis) (t1 t2 : text) (p : CargoPrice) (w : num)
    (x : FareChangeReason) (m : BrokerPayModel) (f : TripFareValues) (last : option BotReply)
    (Hs : session_at s ctx = Some se) (Hst : se_step se = AtBasis) (Hv : se_values se = nothing_given)
    (Hn1 : no_cancel t1) (Hp : readAmount (Some t1) = Some p)
    (Hn2 : no_cancel t2) (Hw : readWeight (Some t2) (unit_of (se_weightUnit se)) = Some w)
    (Hf : fare_of (three_answers b p w) = inr f) :
  exists r s2, acts ctx (plain_answers se b t1 p t2 w x m) last s = (Ok (Some r), s2) /\
    fare_shown r = Some (if delivery_changed se (three_answers b p w) then f <| tf_changeReason := Some x |> else f) /\
    is_Some (session_at s2 ctx).
Proof.
  unfold plain_answers.
  edestruct (three_questions ctx se s b t1 p t2 w) as (r0 & s0 & Hs0 & Hrun); [exact Hs | exact Hst | exact Hn1 | exact Hp | exact Hn2 | exact Hw|].
  rewrite Hrun. clear Hrun. set (se2 := asked_rate p (asked_basis b se)) in *. set (se3 := after_weight_session se2 w).
  assert (K2 : se_step se2 = AtWeight) by by destruct se.
  assert (Ku : se_weightUnit se2 = se_weightUnit se) by by destruct se. rewrite <- Ku in Hw.
  pose proof (type_weight ctx t2 w se2 s0 Hs0 K2 Hn2 Hw) as Ht. fold se3 in Ht.
  assert (Kv : (se_values se2) <| gv_weightTons := Some w |> = three_answers b p w) by (destruct se; cbn in Hv; by subst).
  assert (Kc : delivery_changed se2 (three_answers b p w) = delivery_changed se (three_answers b p w)) by by destruct se.
  assert (Kp : for_accept (se_purpose se2) && se_broker se2 = for_accept (se_purpose se) && se_broker se) by by destruct se.
  assert (K3 : se3 = se2 <| se_step := if delivery_changed se (three_answers b p w) then AtReason else if for_accept (se_purpose se) && se_broker se then AtPay else AtConfirm |>
                       <| se_values := three_answers b p w |>).
  { unfold se3, after_weight_session. rewrite Kv, Kc, Kp. by destruct (delivery_changed se _). }
  destruct (delivery_changed se (three_answers b p w)) eqn:Hc; [|destruct (for_accept _ && _) eqn:Hpay].
  - assert (Hst3 : se_step se3 = AtReason) by (rewrite K3; by destruct se2).
    assert (Hag : is_Some (se_agreed se3)).
    { rewrite K3. unfold delivery_changed in Kc. apply andb_split in Kc as [_ Kc]. destruct se2 as [? ? ? ? ? ag]. cbn in *. by destruct ag; eauto. }
    destruct (ask_question se3) as (r3 & Hr3); [by rewrite Hst3 | done |].
    rewrite (acts_move ctx _ _ _ se2 se3 s0 r3 Ht Hs0 Hr3). pose proof (session_at_keep ctx se3 s0) as Hs3.
    edestruct (acts_last ctx) with (f := f <| tf_changeReason := Some x |>) as (r & Hr & Hsh); [exact (press_reason ctx x se3 _ Hs3 Hst3) | exact Hs3 | by destruct se3 | |].
    { rewrite K3.
 change (fare_of ((three_answers b p w) <| gv_changeReason := Some x |>) = inr (f <| tf_changeReason := Some x |>)). by rewrite fare_of_with_reason, Hf. }
    eexists r, _. split; [exact Hr|]. split; [done|]. rewrite session_at_keep. by eexists.
  - assert (Hst3 : se_step se3 = AtPay) by (rewrite K3; by destruct se2).
    destruct (ask_question se3) as (r3 & Hr3); [by rewrite Hst3 | rewrite Hst3; by intros [?|?] |].
    rewrite (acts_move ctx _ _ _ se2 se3 s0 r3 Ht Hs0 Hr3). pose proof (session_at_keep ctx se3 s0) as Hs3.
    edestruct (acts_last ctx) as (r & Hr & Hsh); [exact (press_pay ctx m se3 _ Hs3 Hst3) | exact Hs3 | by destruct se3 | rewrite K3; exact Hf |].
    eexists r, _. split; [exact Hr|]. split; [done|]. rewrite session_at_keep. by eexists.
  - edestruct (acts_last ctx) as (r & Hr & Hsh); [exact Ht | exact Hs0 | rewrite K3; by destruct se2 | rewrite K3; exact Hf |].
    eexists r, _. split; [exact Hr|]. split; [done|]. rewrite session_at_keep. by eexists.
Qed.

(** ** Where the form stops *)

Definition ids_of (r : BotReply) : list string := map ba_id (rp_actions r).

(** A form at its last step whose answers are no fare asks for the basis again but keeps the
    step: the buttons it shows for the basis, any other button without an effect of its own
    and anything typed bring the same question back, and nothing is kept.  Only giving up is
    left, or a button of an older message. *)
Theorem unreadable_sticks (ctx : BotContext) (se : FareSession) (s : dialog_state) (e : text)
    (Hs : session_at s ctx = Some se) (Hst : se_step se = AtConfirm) (Hf : fare_of (se_values se) = inl e) :
  exists r, ids_of r = [basis_button BasisTotal; basis_button BasisPerTon; CANCEL] /\ fare_shown r = None /\
    (forall id, ownsAction id = true -> id ∉ [CANCEL; EDIT; CHANGE; SAME; SAVE] -> handleAction ctx id s = (Ok (Some r), s)) /\
    (forall t, no_cancel t -> handleText ctx t s = (Ok (Some r), s)).
Proof.
  destruct (ask_step_ok (se <| se_step := AtBasis |>) (Some (Written e))) as (r & Hr); [by destruct se; intros [?|?]|].
  assert (Hask : forall s0, ask se None s0 = (Ok r, s0)).
  { intros s0. unfold ask. rewrite Hst, (proj2 (eqb_true AtConfirm AtConfirm) eq_refl). unfold summary, fare_of in *. by rewrite Hf, Hr. }
  exists r. split; [|split; [exact (ask_step_quiet _ (Some (Written e)) _ eq_refl Hr)|split]].
  - unfold ask_step in Hr. destruct se as [? ? st]. cbn in Hst. subst st. injection Hr as <-. reflexivity.
  - intros id Ho Hid. rewrite (handleAction_press ctx id se s Ho Hs).
    assert (Hne : forall i, i ∈ [CANCEL; EDIT; CHANGE; SAME; SAVE] -> String.eqb id i = false) by (intros i Hi; apply String.eqb_neq; intros ->; done).
    assert (Hp : press ctx se id = ask se None); [|by rewrite run_bind, Hp, Hask].
    unfold press. rewrite !Hne by set_solver. cbn [orb]. unfold answer, given. rewrite Hst. cbn.
    destruct (String.eqb id KEEP); [|done]. unfold keepValue. by rewrite Hst.
  - intros t Hn. rewrite (handleText_typed ctx t se s Hs).
    assert (Hp : typed ctx se t = ask se None); [|by rewrite run_bind, Hp, Hask].
    unfold typed. rewrite bool_decide_false by done. by rewrite Hst.
Qed.

(** ** A company at its form *)

Definition sample_forms : dialog_state :=
  mkDialog sample_trips {[ 100%N := mkListingTexts (Some (js "۴۵ میلیون تومان")) (Some (js "۲۵ تن")) (js "سیمان") ]} ∅.
Definition sample_company : BotContext := mkContext "TELEGRAM" (js "42") 10.

(** The state after some answers, and the form kept there *)
Definition sample_after (l : list Act) : dialog_state := final (acts sample_company l None) sample_forms.
Definition sample_form (l : list Act) : FareSession :=
  default (mkSession (ForAccept 0) [] AtReview nothing_given nothing_given None false None None) (session_at (sample_after l) sample_company).
Definition sample_fare_of (l : list Act) : TripFareValues :=
  match fare_of (se_values (sample_form l)) with inr f => f | inl _ => sample_fare end.

Definition sample_plain : list Act := [Accepts 7; Presses (basis_button BasisTotal); Presses KEEP].
Definition sample_huge : list Act := [Accepts 7; Presses (basis_button BasisPerTon); Types (js "9007199254740991"); Types (js "۲۵")].

Lemma form_never_fails_witness :
  dg_sessions sample_forms = ∅ /\
  exists r, result (act sample_company (Presses SAVE)) (final (act sample_company (Accepts 7)) sample_forms) = Ok r.
Proof.
  split; [reflexivity|].
  apply (form_never_fails sample_forms _ sample_company (Presses SAVE) eq_refl).
  apply rtc_once. apply step_act.
Defined.

Lemma saved_as_shown_witness :
  handleAction sample_company SAVE (sample_after (sample_plain ++ [Types (js "۲۵")]))
  = (reply ← save_fare sample_company (sample_form (sample_plain ++ [Types (js "۲۵")])) (sample_fare_of (sample_plain ++ [Types (js "۲۵")])); mret (Some reply))
      (sample_after (sample_plain ++ [Types (js "۲۵")])).
Proof.
  destruct (act sample_company (Types (js "۲۵")) (sample_after sample_plain)) as [[[r|]|] s1] eqn:E; [|vm_compute in E; discriminate E..].
  assert (H1 : s1 = sample_after (sample_plain ++ [Types (js "۲۵")])) by (vm_compute in E; injection E as _ <-; vm_compute; reflexivity).
  assert (H2 : fare_shown r = Some (sample_fare_of (sample_plain ++ [Types (js "۲۵")]))) by (vm_compute in E; injection E as <- _; vm_compute; reflexivity).
  assert (H3 : session_at s1 sample_company = Some (sample_form (sample_plain ++ [Types (js "۲۵")]))) by (rewrite H1; vm_compute; reflexivity).
  rewrite <- H1.
  destruct (saved_as_shown sample_company (Types (js "۲۵")) (sample_after sample_plain) s1 s1 r _ _ E H2 eq_refl H3) as [[_ Hsave] | [Ha _]]; [exact Hsave | discriminate Ha].
Defined.

Lemma plain_answers_reach_summary_witness :
  exists r s2, acts sample_company (plain_answers (sample_form [Accepts 7]) BasisTotal (js "۴۵ میلیون") (mkPrice (num_of_Z 45000000) Toman) (js "۲۵") (num_of_Z 25) Waiting Margin) None (sample_after [Accepts 7])
    = (Ok (Some r), s2) /\ is_Some (session_at s2 sample_company).
Proof.
  assert (N1 : no_cancel (js "۴۵ میلیون")) by (unfold no_cancel; refine (bool_decide_unpack _ _); vm_compute; exact I).
  assert (N2 : no_cancel (js "۲۵")) by (unfold no_cancel; refine (bool_decide_unpack _ _); vm_compute; exact I).
  destruct (fare_of (three_answers BasisTotal (mkPrice (num_of_Z 45000000) Toman) (num_of_Z 25))) as [e|f] eqn:Ef; [vm_compute in Ef; discriminate Ef|].
  destruct (plain_answers_reach_summary sample_company (sample_form [Accepts 7]) (sample_after [Accepts 7]) BasisTotal (js "۴۵ میلیون") (js "۲۵")
    (mkPrice (num_of_Z 45000000) Toman) (num_of_Z 25) Waiting Margin f None
    ltac:(vm_compute; reflexivity) ltac:(vm_compute; reflexivity) ltac:(vm_compute; reflexivity) N1 ltac:(vm_compute; reflexivity) N2 ltac:(vm_compute; reflexivity) Ef)
    as (r & s2 & Hr & _ & Hs).
  exists r, s2. split; [exact Hr | exact Hs].
Defined.

(** A per-ton fare that is a whole number JavaScript keeps, with a total that is not *)
Lemma unreadable_sticks_witness :
  exists r, ids_of r = [basis_button BasisTotal; basis_button BasisPerTon; CANCEL] /\
    handleAction sample_company (basis_button BasisPerTon) (sample_after sample_huge) = (Ok (Some r), sample_after sample_huge).
Proof.
  destruct (fare_of (se_values (sample_form sample_huge))) as [e|f] eqn:Ef; [|vm_compute in Ef; discriminate Ef].
  destruct (unreadable_sticks sample_company (sample_form sample_huge) (sample_after sample_huge) e ltac:(vm_compute; reflexivity) ltac:(vm_compute; reflexivity) Ef)
    as (r & Hids & _ & Hpress & _).
  exists r. split; [exact Hids|]. apply Hpress; [reflexivity|]. refine (bool_decide_unpack _ _). vm_compute. exact I.
Defined.
