(* ===== verification/BotSessions.v ===== *)
(** * Messenger accounts: their names and their sessions

    [src/services/messengerBot/core/botPlatform.ts], the name of an account over all
    messengers; [botSession.service.ts], the state of a conversation with the bot, which
    slides with every read unless it has a fixed end; and the parsers of what a stranger
    may send, a code of the web panel ([messengerLinkCode.service.ts]) or an invitation
    ([factoryInvite.ts]). *)

From S2P Require Import Prelude JsNumber JsString Json Effects Redis Enums FreeText TripTypes Accounts Invites.

(** ** [botPlatform.ts] *)

Inductive BotPlatform := PlatTelegram | PlatBale | PlatRubika | PlatEitaa.

#[export] Instance BotPlatform_eq_dec : EqDecision BotPlatform.
Proof. solve_decision. Defined.

#[export] Instance BotPlatform_countable : Countable BotPlatform.
Proof.
  refine (inj_countable' (fun p => match p with PlatTelegram => 0%nat | PlatBale => 1%nat | PlatRubika => 2%nat | PlatEitaa => 3%nat end)
            (fun n => match n with 0%nat => PlatTelegram | 1%nat => PlatBale | 2%nat => PlatRubika | _ => PlatEitaa end) _).
  by intros [].
Defined.

Definition platform_name (p : BotPlatform) : text :=
  match p with PlatTelegram => js "telegram" | PlatBale => js "bale" | PlatRubika => js "rubika" | PlatEitaa => js "eitaa" end.

Definition SEPARATOR : N := 58.

(** Telegram keeps its bare numbers. *)
Definition toBotId (platform : BotPlatform) (nativeId : text) : text :=
  match platform with PlatTelegram => nativeId | p => platform_name p ++ [SEPARATOR] ++ nativeId end.

(** [value.indexOf(SEPARATOR)] with what is before and after it *)
Fixpoint cut_at (c : N) (t : text) : option (text * text) :=
  match t with
  | [] => None
  | d :: t => if (d =? c)%N then Some ([], t) else match cut_at c t with Some (a, b) => Some (d :: a, b) | None => None end
  end.

(** The messengers whose accounts have a prefix *)
Definition prefixed_platform (name : text) : option BotPlatform :=
  List.find (fun p => bool_decide (platform_name p = name)) [PlatBale; PlatRubika; PlatEitaa].

Definition parseBotId (value : text) : BotPlatform * text :=
  match cut_at SEPARATOR value with
  | Some (name, nativeId) => match prefixed_platform name with Some p => (p, nativeId) | None => (PlatTelegram, value) end
  | None => (PlatTelegram, value)
  end.

Definition botPlatformOf (id : text) : BotPlatform := (parseBotId id).1.

Definition communicationProviderOf (id : text) : CommunicationProvider :=
  match botPlatformOf id with PlatBale => ProvBale | PlatRubika => ProvRubika | PlatEitaa => ProvEitaa | PlatTelegram => ProvTelegram end.

Lemma cut_at_app c a b : c ∉ a -> cut_at c (a ++ c :: b) = Some (a, b).
Proof.
  induction a as [|d a IH]; intros Hc; cbn [app cut_at].
  - by rewrite N.eqb_refl.
  - rewrite (proj2 (N.eqb_neq d c)) by set_solver. by rewrite IH by set_solver.
Qed.

Lemma cut_at_None c t : c ∉ t -> cut_at c t = None.
Proof.
  induction t as [|d t IH]; intros Hc; [done|]. cbn [cut_at].
  rewrite (proj2 (N.eqb_neq d c)) by set_solver. by rewrite IH by set_solver.
Qed.

Lemma prefix_no_separator p : SEPARATOR ∉ platform_name p.
Proof. destruct p; refine (bool_decide_unpack _ _); vm_compute; exact I. Qed.

(** The name of an account over all messengers says which messenger it is of and its name
    there; of Telegram, whose names are numbers, when the name has no colon. *)
Theorem bot_id_read_back (p : BotPlatform) (nativeId : text) :
  p <> PlatTelegram \/ SEPARATOR ∉ nativeId -> parseBotId (toBotId p nativeId) = (p, nativeId).
Proof.
  intros Hp. unfold parseBotId, toBotId. destruct p.
  - destruct Hp as [Hp|Hp]; [done|]. by rewrite cut_at_None.
  - cbn [app]. rewrite cut_at_app; [done | by apply prefix_no_separator].
  - cbn [app]. rewrite cut_at_app; [done | by apply prefix_no_separator].
  - cbn [app]. rewrite cut_at_app; [done | by apply prefix_no_separator].
Qed.

Lemma bot_id_read_back_witness : parseBotId (toBotId PlatEitaa (js "a:b")) = (PlatEitaa, js "a:b").
Proof. apply bot_id_read_back. left. discriminate. Defined.

(** ** What a stranger sends *)

(** [match(/(?<!\d)\d{6}(?!\d)/)]: the first run of exactly six digits *)
Fixpoint digit_runs (cur : text) (t : text) : list text :=
  match t with
  | [] => [reverse cur]
  | c :: t => if is_digit c then digit_runs (c :: cur) t else reverse cur :: digit_runs [] t
  end.

Definition linkCodeIn (t : option text) : option text :=
  List.find (fun run => Nat.eqb (length run) 6) (digit_runs [] (latin_digits (default [] t))).

Record MessengerInvite := mkMessengerInvite { mi_kind : InviteKind; mi_token : text }.

Definition INVITE_PREFIXES : list (text * InviteKind) :=
  [(js "inv_", FactoryKindInvite); (js "cmp_", CompanyKindInvite); (js "drv_", DriverKindInvite); (js "brk_", BrokerKindInvite)].

(** [(inv|cmp|drv|brk)_([A-Za-z0-9_-]{16,64})] at the start of a text *)
Definition invite_here (t : text) : option MessengerInvite :=
  match List.find (fun p => starts_with p.1 t) INVITE_PREFIXES with
  | Some (prefix, kind) =>
      let token := (take_while is_token_char (drop (length prefix) t)).1 in
      if Nat.leb 16 (length token) then Some (mkMessengerInvite kind (take 64 token)) else None
  | None => None
  end.

(** [\b]: no letter, digit or underscore before it *)
Fixpoint invite_from (after_word : bool) (t : text) : option MessengerInvite :=
  match t with
  | [] => None
  | c :: rest => match (if after_word then None else invite_here t) with Some i => Some i | None => invite_from (ascii_word c) rest end
  end.

Definition inviteIn (t : option text) : option MessengerInvite :=
  match t with Some t => invite_from false t | None => None end.

Example link_code_example : linkCodeIn (Some (js "کد من ۱۲۳۴۵۶ است")) = Some (js "123456").
Proof. vm_compute. reflexivity. Qed.

Example link_code_too_long : linkCodeIn (Some (js "1234567")) = None.
Proof. vm_compute. reflexivity. Qed.

Example invite_example : inviteIn (Some (js "/start drv_AbCdEfGhIjKlMnOp")) = Some (mkMessengerInvite DriverKindInvite (js "AbCdEfGhIjKlMnOp")).
Proof. vm_compute. reflexivity. Qed.

(** ** [BotSessionService] *)

Inductive BotSessionState :=
| SessIdle | SessRegisteringAccountType | SessSelectingAccountType | SessSelectingPlan | SessWaitingForReceipt
| SessUnderReview | SessWaitingForAgentConfirmation | SessWaitingForAgentSelection.

#[export] Instance BotSessionState_eq_dec : EqDecision BotSessionState.
Proof. solve_decision. Defined.

Record BotSession := mkBotSession {
  bs_state : BotSessionState;
  bs_accountType : option AccountType;
  bs_planId : option uuid;
  bs_orderId : option uuid;
  bs_phoneNumber : option text;
  bs_pendingOperationId : option text;
  bs_pendingOptions : option (list (text * text));
  bs_expiresAt : option time;
}.

Definition idle_session : BotSession := mkBotSession SessIdle None None None None None None None.

(** The sessions of one bot, the clock and the locks of receipts *)
Record bot_store := mkBotStore {
  bt_now : time;
  bt_ttlSeconds : Z;
  bt_sessions : gmap text (BotSession * time);
  bt_receiptLocks : gmap text (N * time);
}.

Abbreviation BSM := (M bot_store).

(** [get]: a session with a fixed end is only read, any other lives on from now; [0] is no
    end *)
Definition fixed_end (session : BotSession) : bool := match bs_expiresAt session with Some t => negb (t =? 0) | None => false end.

Definition session_get (ext : text) : BSM (option BotSession) :=
  s ← get;
  match redis_get (bt_sessions s) (bt_now s) ext with
  | None => mret None
  | Some session =>
      if fixed_end session then mret (Some session)
      else
        modify (fun s => s <| bt_sessions := redis_expire (bt_sessions s) (bt_now s) ext (bt_ttlSeconds s) |>) ;;
        mret (Some session)
  end.

Definition session_delete (ext : text) : BSM unit := modify (fun s => s <| bt_sessions := delete ext (bt_sessions s) |>).

(** [Math.ceil(x / 1000)] *)
Definition ceil_seconds (ms : Z) : Z := - ((- ms) `div` 1000).

Definition session_ttl (s : bot_store) (session : BotSession) : Z :=
  match bs_expiresAt session with
  | Some t => if t =? 0 then bt_ttlSeconds s else ceil_seconds (t - bt_now s)
  | None => bt_ttlSeconds s
  end.

Definition session_put (ext : text) (session : BotSession) (s : bot_store) : bot_store :=
  let ttl := session_ttl s session in
  s <| bt_sessions := if ttl <=? 0 then delete ext (bt_sessions s) else redis_set (bt_sessions s) (bt_now s) ext session ttl |>.

Definition session_set (ext : text) (session : BotSession) : BSM unit := modify (session_put ext session).

Definition session_update (ext : text) (f : BotSession -> BotSession) : BSM BotSession :=
  current ← session_get ext;
  let session := f (default idle_session current) in
  session_set ext session ;;
  mret session.

Definition session_reset (ext : text) : BSM BotSession := session_set ext idle_session ;; mret idle_session.

Definition session_getOrCreate (ext : text) : BSM BotSession :=
  session ← session_get ext;
  match session with Some session => mret session | None => session_reset ext end.

Definition RECEIPT_LOCK_SECONDS : Z := 300.

(** [withReceiptLock]: its task runs between the two, with an owner drawn before *)
Definition take_receipt_lock (ext : text) (owner : N) : BSM bool :=
  s ← get;
  if is_null (redis_get (bt_receiptLocks s) (bt_now s) ext) then
    modify (fun s => s <| bt_receiptLocks := redis_set (bt_receiptLocks s) (bt_now s) ext owner RECEIPT_LOCK_SECONDS |>) ;; mret true
  else mret false.

Definition release_receipt_lock (ext : text) (owner : N) : BSM unit :=
  s ← get;
  when (bool_decide (redis_get (bt_receiptLocks s) (bt_now s) ext = Some owner))
    (modify (fun s => s <| bt_receiptLocks := delete ext (bt_receiptLocks s) |>)).

(** ** A session with a fixed end *)

(** A stored session with a fixed end lives at most to the second that holds its end. *)
Definition ends_kept (s : bot_store) : Prop :=
  forall ext session e t, bt_sessions s !! ext = Some (session, e) -> bs_expiresAt session = Some t -> t <> 0 -> e < t + 1000.

Lemma ceil_seconds_bound ms : ceil_seconds ms * 1000 < ms + 1000.
Proof. unfold ceil_seconds. pose proof (Z.div_mod (- ms) 1000). pose proof (Z.mod_pos_bound (- ms) 1000). lia. Qed.

Lemma ends_kept_put s ext session e :
  ends_kept s -> (forall t, bs_expiresAt session = Some t -> t <> 0 -> e < t + 1000) ->
  ends_kept (s <| bt_sessions := <[ext := (session, e)]> (bt_sessions s) |>).
Proof.
  intros Hs He ext' session' e' t H. change (<[ext := (session, e)]> (bt_sessions s) !! ext' = Some (session', e')) in H.
  apply lookup_insert_Some in H as [(<- & [= <- <-]) | (_ & H)]; [apply He | by apply (Hs ext')].
Qed.

Lemma ends_kept_delete s ext : ends_kept s -> ends_kept (s <| bt_sessions := delete ext (bt_sessions s) |>).
Proof.
  intros Hs ext' session e t H. change (delete ext (bt_sessions s) !! ext' = Some (session, e)) in H.
  apply lookup_delete_Some in H as (_ & H). by apply (Hs ext').
Qed.

Lemma session_delete_keeps ext : preserves ends_kept (session_delete ext).
Proof. apply preserves_modify. intros s. apply ends_kept_delete. Qed.

Lemma session_set_keeps ext session : preserves ends_kept (session_set ext session).
Proof.
  apply preserves_modify. intros s Hs. unfold session_put. cbv zeta. destruct (session_ttl s session <=? 0); [by apply ends_kept_delete|].
  unfold redis_set. apply ends_kept_put; [done|]. intros t Ht Hn. unfold session_ttl. rewrite Ht, (proj2 (Z.eqb_neq t 0) Hn).
  pose proof (ceil_seconds_bound (t - bt_now s)). lia.
Qed.

Lemma fixed_end_Some session t : bs_expiresAt session = Some t -> t <> 0 -> fixed_end session = true.
Proof. intros Ht Hn. unfold fixed_end. by rewrite Ht, (proj2 (Z.eqb_neq t 0) Hn). Qed.

Lemma session_get_keeps ext : preserves ends_kept (session_get ext).
Proof.
  intros s Hs. unfold final, session_get. rewrite run_bind. unfold get. cbv beta iota.
  destruct (redis_get (bt_sessions s) (bt_now s) ext) as [session|] eqn:E; [|done].
  destruct (fixed_end session) eqn:Ef; [done|]. rewrite run_bind. unfold modify. cbn [snd mret M_ret].
  unfold redis_expire. rewrite E. unfold redis_set. apply ends_kept_put; [done|].
  intros t Ht Hn. by rewrite (fixed_end_Some session t Ht Hn) in Ef.
Qed.

#[local] Hint Resolve session_delete_keeps session_set_keeps session_get_keeps : preserves.

(** What the bot does with its sessions, and the time that goes by *)
Inductive store_step : bot_store -> bot_store -> Prop :=
| step_get ext s : store_step s (final (session_get ext) s)
| step_getOrCreate ext s : store_step s (final (session_getOrCreate ext) s)
| step_set ext session s : store_step s (final (session_set ext session) s)
| step_update ext f s : store_step s (final (session_update ext f) s)
| step_reset ext s : store_step s (final (session_reset ext) s)
| step_delete ext s : store_step s (final (session_delete ext) s)
| step_time d s : 0 <= d -> store_step s (s <| bt_now := bt_now s + d |>).

Lemma store_step_keeps s1 s2 : store_step s1 s2 -> ends_kept s1 -> ends_kept s2.
Proof.
  assert (Hr : forall ext, preserves ends_kept (session_reset ext)) by (intros; unfold session_reset; preserve).
  intros [] Hs; try (by apply session_get_keeps); try (by apply session_set_keeps); try (by apply session_delete_keeps); try (by apply Hr); [| |exact Hs].
  - revert s Hs. change (preserves ends_kept (session_getOrCreate ext)). unfold session_getOrCreate. preserve.
  - revert s Hs. change (preserves ends_kept (session_update ext f)). unfold session_update. preserve.
Qed.

(** A payment's time is over when it is over: whatever the bot reads, updates or writes
    meanwhile, a session with a fixed end is not found a second after its end, although
    every other session lives on with each read. *)
Theorem fixed_end_holds (s0 s : bot_store) (ext : text) (session : BotSession) (t : time)
    (H0 : bt_sessions s0 = ∅) (Hr : rtc store_step s0 s)
    (Hg : result (session_get ext) s = Ok (Some session)) (Ht : bs_expiresAt session = Some t) (Hn : t <> 0) :
  bt_now s < t + 1000.
Proof.
  assert (Hs : ends_kept s).
  { assert (K0 : ends_kept s0) by (intros ext' se e t' H; by rewrite H0 in H). clear H0 Hg. induction Hr; eauto using store_step_keeps. }
  unfold result, session_get in Hg. rewrite run_bind in Hg. unfold get in Hg. cbv beta iota in Hg.
  destruct (redis_get (bt_sessions s) (bt_now s) ext) as [session'|] eqn:E; [|done].
  assert (session' = session) as -> by (destruct (fixed_end session'); [by injection Hg | by rewrite run_bind in Hg; injection Hg]).
  apply redis_get_Some in E as (e & He & Hle). specialize (Hs _ _ _ _ He Ht Hn). lia.
Qed.

Definition sample_payment : BotSession := idle_session <| bs_state := SessWaitingForReceipt |> <| bs_expiresAt := Some 61500 |>.
Definition sample_bot : bot_store := mkBotStore 1000 86400 ∅ ∅.

Lemma fixed_end_holds_witness :
  result (session_get (js "7")) ((final (session_set (js "7") sample_payment) sample_bot) <| bt_now := 61999 |>) = Ok (Some sample_payment) /\ 61999 < 61500 + 1000.
Proof.
  assert (Hg : result (session_get (js "7")) ((final (session_set (js "7") sample_payment) sample_bot) <| bt_now := 61999 |>) = Ok (Some sample_payment)) by (vm_compute; reflexivity).
  split; [exact Hg|].
  refine (fixed_end_holds sample_bot _ (js "7") sample_payment 61500 eq_refl _ Hg eq_refl ltac:(discriminate)).
  eapply rtc_l; [apply step_set|]. eapply rtc_once.
  exact (step_time 60999 (final (session_set (js "7") sample_payment) sample_bot) ltac:(discriminate)).
Defined.
