(* ===== verification/PurchaseDialog.v ===== *)
(** * Buying a subscription in a messenger

    [src/services/messengerBot/core/botAccountHandler.service.ts] with
    [subscriptionPlan.service.ts]: the kind of account, the plan, the time there is to pay,
    the photo of the receipt; the order is made when the receipt comes.  The conversation is
    a session of [BotSessions], orders and receipts are those of [Receipts]. *)

From S2P Require Import Prelude JsNumber JsString Json Effects Redis Enums Phone SubscriptionPolicy SubscriptionData Receipts BotSessions.

(** ** State *)

(** What the bot says: a text by its key, the kinds of account, the plans with their titles
    and prices, where to pay how much and in how many minutes, what to send, the menu *)
Inductive PurchaseSaid :=
| PuText (key : string)
| PuStatus (key : string)
| PuAccountTypes
| PuNoPurchase
| PuPlans (plans : list (uuid * text * Z))
| PuInformation (amount : Z) (currency : string) (cardNumber cardOwner : text) (minutes : option Z)
| PuReceiptRequired
| PuMenu.

Record purchase_state := mkPurchase {
  pu_sub : sub_state;
  pu_bot : bot_store;
  pu_timeout : option text;
  pu_said : list (text * PurchaseSaid);
}.

Abbreviation PM := (M purchase_state).

Definition pu_now (s : purchase_state) : time := su_now (pu_sub s).

Definition on_sub {A} (m : SM A) : PM A := zoom pu_sub (fun x s => s <| pu_sub := x |>) m.

(** The sessions go by the same clock. *)
Definition on_session {A} (m : BSM A) : PM A :=
  zoom (fun s => (pu_bot s) <| bt_now := pu_now s |>) (fun b s => s <| pu_bot := b |>) m.

Definition tell (chatId : text) (x : PurchaseSaid) : PM unit := modify (fun s => s <| pu_said := pu_said s ++ [(chatId, x)] |>).

(** [downloadFile] into the folder of the messenger and [storeUnderRandomName]: the path
    the file is at; the network and the disk are outside. *)
Class ReceiptFiles := { stored_file : CommunicationProvider -> text -> outcome text }.

(** ** [SubscriptionPlanService] *)

Definition plan_before (a b : SubscriptionPlan) : Prop :=
  pl_sortOrder a < pl_sortOrder b \/ (pl_sortOrder a = pl_sortOrder b /\ pl_durationDays a <= pl_durationDays b).
#[export] Instance plan_before_dec : RelDecision plan_before.
Proof. intros a b. unfold plan_before. apply _. Defined.

Definition findActiveByAccountType (accountType : AccountType) : SM (list SubscriptionPlan) :=
  gets (fun s => merge_sort plan_before
    (find_rows (fun p => eqb (pl_accountType p) accountType && eqb (pl_recordStatus p) RecActive) (su_plans s))).

(** ** What is shown *)

(** [paymentTimeoutSeconds] *)
Definition paymentTimeoutSeconds (s : purchase_state) : Z := positive_setting (pu_timeout s) 600.

(** [Math.ceil(remainingSeconds / 60)] of milliseconds; [0] is no deadline *)
Definition minutes_left (ms : Z) : option Z := if ms =? 0 then None else Some (- ((- ms) `div` 60000)).

Definition sendPaymentInformation (chatId : text) (amount : Z) (currency : string) (remainingMs : option Z) : PM unit :=
  s ← get;
  cardNumber ← on_sub (getOrThrow (rc_cardNo (su_config (pu_sub s))));
  cardOwner ← on_sub (getOrThrow (rc_cardOwner (su_config (pu_sub s))));
  tell chatId (PuInformation amount currency cardNumber cardOwner (remainingMs ≫= minutes_left)) ;;
  tell chatId PuReceiptRequired.

(** The session of an order that waits for its receipt, and of one that is looked at *)
Definition order_session (order : SubscriptionOrder) : BotSession :=
  idle_session <| bs_state := SessWaitingForReceipt |> <| bs_orderId := Some (or_id order) |> <| bs_accountType := Some (or_accountType order) |>
    <| bs_planId := Some (or_subscriptionPlanId order) |> <| bs_phoneNumber := Some (or_phoneNumber order) |>.

Definition review_session (order : SubscriptionOrder) : BotSession :=
  idle_session <| bs_state := SessUnderReview |> <| bs_orderId := Some (or_id order) |>.

Definition status_key (status : SubscriptionOrderStatus) : string :=
  match status with
  | OrderApproved => "payment.approved"
  | OrderRejected => "payment.rejected"
  | OrderCancelled => "payment.cancelled"
  | _ => "payment.reviewStatus"
  end.

Definition showOrderStatus (chatId ext : text) (order : SubscriptionOrder) : PM unit :=
  if eqb (or_status order) WaitingForReceipt then
    on_session (session_set ext (order_session order)) ;;
    tell chatId (PuText "payment.waitingForReceipt") ;;
    sendPaymentInformation chatId (or_amount order) (or_currency order) None
  else
    when (negb (is_final (or_status order))) (on_session (session_set ext (review_session order))) ;;
    tell chatId (PuStatus (status_key (or_status order))) ;;
    when (is_final (or_status order)) (on_session (session_reset ext) ≫= fun _ => mret tt).

Definition showPlans (chatId : text) (accountType : AccountType) : PM unit :=
  try_catch (
    plans ← on_sub (findActiveByAccountType accountType);
    match plans with
    | [] => tell chatId (PuText "account.noActivePlan")
    | _ => tell chatId (PuPlans (map (fun p => (pl_id p, pl_title p, pl_price p)) plans))
    end)
    (fun _ => tell chatId (PuText "errors.loadPlansFailed")).

(** The end a session shows, [undefined] when it has none *)
Definition session_end (session : BotSession) : option time := if fixed_end session then bs_expiresAt session else None.

Definition showPurchaseStatus (chatId ext : text) : PM unit :=
  try_catch (
    order ← on_sub (findOrderForTracking (communicationProviderOf ext) ext);
    let the_order := match order with Some o => showOrderStatus chatId ext o | None => tell chatId PuNoPurchase end in
    if match order with Some o => negb (is_final (or_status o)) | None => false end then the_order
    else
      session ← on_session (session_get ext);
      match session with
      | None => the_order
      | Some se =>
          match bs_state se, bs_accountType se, bs_orderId se, bs_planId se with
          | SessSelectingAccountType, _, _, _ => tell chatId PuAccountTypes
          | SessSelectingPlan, Some t, _, _ => showPlans chatId t
          | SessWaitingForReceipt, _, None, Some planId =>
              plan ← on_sub (findPlan planId);
              match plan with
              | Some p =>
                  tell chatId (PuText "payment.waitingForReceipt") ;;
                  s ← get;
                  sendPaymentInformation chatId (pl_price p) (pl_currency p) (option_map (fun t => t - pu_now s) (session_end se))
              | None => the_order
              end
          | _, _, _, _ => the_order
          end
      end)
    (fun _ => tell chatId (PuStatus "errors.loadPaymentStatusFailed")).

(** ** The purchase *)

Definition startBuyAccount (chatId ext : text) : PM unit :=
  on_session (session_reset ext) ;;
  on_session (session_update ext (fun se => se <| bs_state := SessSelectingAccountType |>)) ;;
  tell chatId PuAccountTypes.

Definition selectAccountType (chatId ext : text) (accountType : AccountType) : PM unit :=
  on_session (session_update ext (fun se => (se <| bs_state := SessSelectingPlan |>) <| bs_accountType := Some accountType |>)) ;;
  showPlans chatId accountType.

(** [link?.user?.mobile] of the messenger account; an empty one counts as none *)
Definition linked_mobile (s : sub_state) (ext : text) : option text :=
  match List.find (fun l => bool_decide (bl_externalUserId l = ext)) (su_links s) with
  | Some l =>
      match su_users s !! bl_userId l with
      | Some u => match us_mobile u with Some m => if is_empty m then None else Some m | None => None end
      | None => None
      end
  | None => None
  end.

Definition paying_session (accountType : AccountType) (planId : uuid) (phoneNumber : text) (expiresAt : time) : BotSession :=
  idle_session <| bs_state := SessWaitingForReceipt |> <| bs_accountType := Some accountType |> <| bs_planId := Some planId |>
    <| bs_phoneNumber := Some phoneNumber |> <| bs_expiresAt := Some expiresAt |>.

Definition selectPlan (chatId ext : text) (planId : uuid) : PM unit :=
  try_catch (
    session ← on_session (session_getOrCreate ext);
    match bs_accountType session with
    | None =>
        on_session (session_reset ext) ;;
        tell chatId (PuText "account.invalidPurchaseSession") ;;
        tell chatId PuMenu
    | Some accountType =>
        found ← on_sub (findPlan planId);
        match found with
        | None => tell chatId (PuText "account.planNotFound")
        | Some plan =>
            if negb (eqb (pl_accountType plan) accountType) then tell chatId (PuText "account.planNotValidForAccountType")
            else
              s ← get;
              match linked_mobile (pu_sub s) ext with
              | None =>
                  on_session (session_reset ext) ;;
                  tell chatId (PuText "account.invalidPurchaseSession")
              | Some phoneNumber =>
                  let timeoutSeconds := paymentTimeoutSeconds s in
                  on_session (session_set ext (paying_session accountType (pl_id plan) phoneNumber (pu_now s + timeoutSeconds * 1000))) ;;
                  sendPaymentInformation chatId (pl_price plan) (pl_currency plan) (Some (timeoutSeconds * 1000))
              end
        end
    end)
    (fun _ => tell chatId (PuText "errors.selectPlanFailed")).

Definition cancelPurchase (chatId ext : text) : PM unit :=
  on_session (session_reset ext) ;;
  tell chatId (PuText "account.buyCancelled") ;;
  tell chatId PuMenu.

(** ** The receipt *)

(** The parts of a message it may be in: the sizes of a photo, or a document with its type *)
Record ReceiptMessage := mkReceiptMessage {
  rm_from : option text;
  rm_chat : text;
  rm_photo : list text;
  rm_document : option (option text * text);
}.

Definition getImageFileId (m : ReceiptMessage) : option text :=
  match List.last (map Some (rm_photo m)) None with
  | Some fileId => Some fileId
  | None =>
      match rm_document m with
      | Some (Some mime, fileId) => if starts_with (js "image/") mime then Some fileId else None
      | _ => None
      end
  end.

(** What a receipt is sent for: an order there is, or a new one *)
Inductive ReceiptTarget := ForOrder (orderId : uuid) | ForNew (params : CreateSubscriptionOrderParams).

Definition new_order_params (ext : text) (se : BotSession) : option CreateSubscriptionOrderParams :=
  match bs_accountType se, bs_planId se, bs_phoneNumber se with
  | Some accountType, Some planId, Some phone =>
      if is_empty phone then None else Some (mkOrderParams (communicationProviderOf ext) ext phone accountType planId)
  | _, _, _ => None
  end.

Definition submit_failed (chatId : text) : PM unit := tell chatId (PuText "errors.submitReceiptFailed").

(** An order there is, the one the session has chosen, or none *)
Definition receipt_received (chatId ext : text) (se : BotSession) (orderId : option uuid) : PM (option ReceiptTarget) :=
  match orderId, new_order_params ext se with
  | Some i, _ => tell chatId (PuText "payment.receiptReceived") ;; mret (Some (ForOrder i))
  | None, Some p => tell chatId (PuText "payment.receiptReceived") ;; mret (Some (ForNew p))
  | None, None =>
      on_session (session_reset ext) ;;
      tell chatId (PuText "account.invalidPurchaseSession") ;;
      tell chatId PuMenu ;;
      mret None
  end.

(** [processReceipt] to the word that the receipt has come: the session is read again, and
    the table of orders is asked before a new order is made. *)
Definition receipt_target (chatId ext : text) : PM (option ReceiptTarget) :=
  session ← on_session (session_get ext);
  match session with
  | Some se =>
      if negb (eqb (bs_state se) SessWaitingForReceipt) then showPurchaseStatus chatId ext ;; mret None
      else
        try_catch (
          pending ← match bs_orderId se with
                    | Some _ => mret None
                    | None => on_sub (findOrderForTracking (communicationProviderOf ext) ext)
                    end;
          match pending with
          | Some o => if eqb (or_status o) ReceiptSubmitted || eqb (or_status o) UnderReview then showOrderStatus chatId ext o ;; mret None
                      else receipt_received chatId ext se (if eqb (or_status o) WaitingForReceipt then Some (or_id o) else None)
          | None => receipt_received chatId ext se (bs_orderId se)
          end)
          (fun _ => submit_failed chatId ;; mret None)
  | None => showPurchaseStatus chatId ext ;; mret None
  end.

Section Files.
  Context `{ReceiptFiles}.

(** The file, and the order with its receipt *)
Definition write_receipt (ext fileId : text) (target : ReceiptTarget) : PM PaymentReceipt :=
  path ← of_outcome (stored_file (communicationProviderOf ext) fileId);
  on_sub (submitReceipt
    match target with
    | ForOrder orderId => mkSubmit (Some orderId) None path (Some fileId)
    | ForNew p => mkSubmit None (Some p) path (Some fileId)
    end).

(** The rest of [processReceipt] *)
Definition receipt_submit (chatId ext fileId : text) (target : ReceiptTarget) : PM unit :=
  try_catch (
    receipt ← write_receipt ext fileId target;
    on_session (session_update ext (fun se => ((se <| bs_state := SessUnderReview |>) <| bs_orderId := Some (re_orderId receipt) |>) <| bs_expiresAt := None |>)) ;;
    tell chatId (PuText "payment.underReview"))
    (fun _ => submit_failed chatId).

Definition processReceipt (chatId ext fileId : text) : PM unit :=
  target ← receipt_target chatId ext;
  match target with
  | Some t => receipt_submit chatId ext fileId t
  | None => mret tt
  end.

(** [handleReceipt]; [owner] is a number never drawn before *)
Definition handleReceipt (m : ReceiptMessage) (owner : N) : PM bool :=
  match rm_from m with
  | None => mret false
  | Some ext =>
      session ← on_session (session_get ext);
      if match session with Some se => eqb (bs_state se) SessWaitingForReceipt | None => false end then
        match getImageFileId m with
        | None => tell (rm_chat m) (PuText "payment.receiptInvalid") ;; mret true
        | Some fileId =>
            locked ← on_session (take_receipt_lock ext owner);
            if (locked : bool) then
              try_finally (processReceipt (rm_chat m) ext fileId) (on_session (release_receipt_lock ext owner)) ;;
              mret true
            else tell (rm_chat m) (PuText "payment.receiptProcessing") ;; mret true
        end
      else mret false
  end.
End Files.
