(* ===== verification/PurchaseDialogFacts.v ===== *)
(** * Buying in a messenger: one order, in time

    Whatever a messenger account presses and sends, and however its photos overlap, it has
    one open order at most; a new order is made only while there is time to pay; and a
    receipt sent in time makes the order of the plan chosen. *)

From S2P Require Import Prelude JsNumber JsString Json Effects Redis Enums Phone SubscriptionPolicy SubscriptionData Receipts SubscriptionFacts BotSessions PurchaseDialog.

(** ** What the dialog leaves alone *)

(** The orders, the locks of the receipts, the clock *)
Definition world (s : purchase_state) : gmap uuid SubscriptionOrder * gmap text (N * time) * time :=
  (su_orders (pu_sub s), bt_receiptLocks (pu_bot s), pu_now s).

Definition in_world (w : gmap uuid SubscriptionOrder * gmap text (N * time) * time) (s : purchase_state) : Prop := world s = w.

Section World.
  Context (w : gmap uuid SubscriptionOrder * gmap text (N * time) * time).

Lemma world_tell c x : preserves (in_world w) (tell c x).
Proof. apply preserves_modify. by intros s Hs. Qed.

(** A session written or read has no lock of a receipt in it. *)
Definition locks_are (l : gmap text (N * time)) (b : bot_store) : Prop := bt_receiptLocks b = l.

Lemma locks_session_get l ext : preserves (locks_are l) (session_get ext).
Proof. unfold session_get. preserve. apply preserves_modify. by intros ? Hb. Qed.

Lemma locks_session_set l ext se : preserves (locks_are l) (session_set ext se).
Proof. unfold session_set, session_put. apply preserves_modify. intros b Hb. cbv zeta. exact Hb. Qed.

#[local] Hint Resolve locks_session_get locks_session_set : preserves.

Lemma locks_session_reset l ext : preserves (locks_are l) (session_reset ext).
Proof. unfold session_reset. preserve. Qed.

Lemma locks_session_update l ext f : preserves (locks_are l) (session_update ext f).
Proof. unfold session_update. preserve. Qed.

Lemma locks_session_getOrCreate l ext : preserves (locks_are l) (session_getOrCreate ext).
Proof. unfold session_getOrCreate, session_reset. preserve. Qed.

Lemma world_on_session {A} (m : BSM A) : (forall l, preserves (locks_are l) m) -> preserves (in_world w) (on_session m).
Proof.
  intros Hm s Hs. assert (H0 : locks_are (bt_receiptLocks (pu_bot s)) ((pu_bot s) <| bt_now := pu_now s |>)) by done.
  apply (Hm (bt_receiptLocks (pu_bot s))) in H0 as Hl. unfold final, on_session, zoom in *.
  destruct (m _) as [r b]. cbn [snd] in *. unfold locks_are in Hl. unfold in_world in *.
  change ((su_orders (pu_sub s), bt_receiptLocks b, pu_now s) = w). rewrite Hl. exact Hs.
Qed.

Lemma world_reads {A} (m : SM A) : reads m -> preserves (in_world w) (on_sub m).
Proof.
  intros Hm s Hs. specialize (Hm (pu_sub s) (pu_sub s) eq_refl). unfold final, on_sub, zoom in *. destruct (m (pu_sub s)) as [r t]. cbn [snd] in *. by subst t.
Qed.
End World.

Lemma reads_getOrThrow o : reads (getOrThrow o).
Proof. intros t. unfold getOrThrow. preserve. Qed.
Lemma reads_findPlan i : reads (findPlan i).
Proof. intros t. unfold findPlan. preserve. Qed.
Lemma reads_findOrderForTracking p x : reads (findOrderForTracking p x).
Proof. intros t. unfold findOrderForTracking, findPendingByProviderUser, findLatestByProviderUser. preserve. Qed.
Lemma reads_findActiveByAccountType a : reads (findActiveByAccountType a).
Proof. intros t. unfold findActiveByAccountType. preserve. Qed.

#[export] Hint Resolve world_tell world_on_session world_reads locks_session_get locks_session_set locks_session_reset locks_session_update
  locks_session_getOrCreate reads_getOrThrow reads_findPlan reads_findOrderForTracking reads_findActiveByAccountType : preserves.

Section Dialog.
  Context (w : gmap uuid SubscriptionOrder * gmap text (N * time) * time).

Lemma world_sendPaymentInformation c a u r : preserves (in_world w) (sendPaymentInformation c a u r).
Proof. unfold sendPaymentInformation. preserve. Qed.

#[local] Hint Resolve world_sendPaymentInformation : preserves.

Lemma world_showOrderStatus c x o : preserves (in_world w) (showOrderStatus c x o).
Proof. unfold showOrderStatus. preserve. Qed.

Lemma world_showPlans c t : preserves (in_world w) (showPlans c t).
Proof. unfold showPlans. preserve. Qed.

#[local] Hint Resolve world_showOrderStatus world_showPlans : preserves.

Lemma world_showPurchaseStatus c x : preserves (in_world w) (showPurchaseStatus c x).
Proof. unfold showPurchaseStatus. cbv zeta. preserve. Qed.

#[local] Hint Resolve world_showPurchaseStatus : preserves.

Lemma world_startBuyAccount c x : preserves (in_world w) (startBuyAccount c x).
Proof. unfold startBuyAccount. preserve. Qed.

Lemma world_selectAccountType c x t : preserves (in_world w) (selectAccountType c x t).
Proof. unfold selectAccountType. preserve. Qed.

Lemma world_selectPlan c x p : preserves (in_world w) (selectPlan c x p).
Proof. unfold selectPlan. preserve. Qed.

Lemma world_cancelPurchase c x : preserves (in_world w) (cancelPurchase c x).
Proof. unfold cancelPurchase. preserve. Qed.

Lemma world_receipt_target c x : preserves (in_world w) (receipt_target c x).
Proof. unfold receipt_target, receipt_received, submit_failed. preserve. Qed.
End Dialog.

(** ** A receipt submitted *)

(** The order a receipt is for: the one named, or the one built *)
Definition receipt_order (params : SubmitPaymentReceiptParams) (s : sub_state) (order : SubscriptionOrder) : Prop :=
  match sp_newOrder params with
  | Some p => sp_orderId params = None /\ buildOrder p s = (Ok order, s)
  | None => exists i, sp_orderId params = Some i /\ su_orders s !! i = Some order
  end.

Lemma reads_buildOrder p : reads (buildOrder p).
Proof. intros t. unfold buildOrder, findPlan. preserve. Qed.

Lemma submitReceipt_cases params s :
  (exists e, submitReceipt params s = (Err e, s)) \/
  (exists r s1 order, submitReceipt params s = (Ok r, s1) /\ receipt_order params s order /\ is_final (or_status order) = false /\
     re_orderId r = or_id order /\ su_orders s1 = <[or_id order := order <| or_status := ReceiptSubmitted |>]> (su_orders s) /\ su_now s1 = su_now s).
Proof.
  unfold submitReceipt, receipt_order. rewrite run_bind. destruct (negb (eqb (match sp_orderId params with _ => _ end) _)) eqn:Ex; cbn [ensure]; [rewrite run_ret|left; by eexists].
  rewrite run_bind. destruct (negb (is_empty _)); cbn [ensure]; [rewrite run_ret|left; by eexists]. rewrite run_bind.
  assert (Hfound : (exists e, (match sp_newOrder params with Some p => o ← buildOrder p; mret (Some o) | None => match sp_orderId params with Some i => findOrder i | None => mret None end end) s = (Err e, s)) \/
     exists found, (match sp_newOrder params with Some p => o ← buildOrder p; mret (Some o) | None => match sp_orderId params with Some i => findOrder i | None => mret None end end) s = (Ok found, s) /\
       forall order, found = Some order -> match sp_newOrder params with Some p => sp_orderId params = None /\ buildOrder p s = (Ok order, s) | None => exists i, sp_orderId params = Some i /\ su_orders s !! i = Some order end).
  { destruct (sp_newOrder params) as [p|].
    - rewrite run_bind. destruct (buildOrder p s) as [[o|e] s1] eqn:Eb; pose proof (reads_run _ _ _ _ (reads_buildOrder p) Eb) as ->; [right|left; by eexists].
      eexists. split; [reflexivity|]. intros order [= <-]. by destruct (sp_orderId params).
    - right. destruct (sp_orderId params) as [i|]; [|done]. eexists. split; [reflexivity|]. intros order Ho. by exists i. }
  destruct Hfound as [[e ->]|(found & -> & Hfound)]; [left; by eexists|]. rewrite run_bind.
  destruct found as [order|]; cbn [some_or]; [rewrite run_ret|left; by eexists]. specialize (Hfound order eq_refl). rewrite run_bind.
  destruct (is_final (or_status order)) eqn:Ef; cbn [negb ensure]; [left; by eexists|]. rewrite run_ret, run_bind. unfold get. cbv beta iota zeta. rewrite run_bind.
  rewrite saveWithOrder_run. destruct (order_fits _); [|left; by eexists].
  destruct (receipt_fault _) as [e|]; [left; by exists e|].
  right. eexists _, _, order. split; [reflexivity|]. split; [exact Hfound|]. split; [done|]. by repeat split.
Qed.

(** ** Open orders *)

Definition open_of (ext : text) (o : SubscriptionOrder) : bool := of_provider_user (communicationProviderOf ext) ext o && negb (is_final (or_status o)).

Definition no_open (s : purchase_state) (ext : text) : Prop := forall i o, su_orders (pu_sub s) !! i = Some o -> open_of ext o = false.

Lemma open_of_ext ext o : open_of ext o = true <-> or_provider o = communicationProviderOf ext /\ or_providerUserId o = ext /\ is_final (or_status o) = false.
Proof. unfold open_of, of_provider_user. rewrite !andb_true_iff, negb_true_iff, eqb_true, bool_decide_eq_true. naive_solver. Qed.

Lemma latest_order_None l : latest_order l = None -> l = [].
Proof. destruct l as [|o l]; [done|]. cbn [latest_order]. destruct (latest_order l); [by destruct (or_createdAt o <? or_createdAt s)|done]. Qed.

Lemma latest_order_In l o : latest_order l = Some o -> o ∈ l.
Proof.
  revert o. induction l as [|a l IH]; [done|]. cbn [latest_order]. intros o. destruct (latest_order l) as [q|].
  - destruct (or_createdAt a <? or_createdAt q); intros [= <-]; apply elem_of_cons; [right; by apply IH | by left].
  - intros [= <-]. by apply list_elem_of_here.
Qed.

(** What is found to follow is open when the account has an open order. *)
Lemma findOrderForTracking_closed s ext :
  (forall o, result (findOrderForTracking (communicationProviderOf ext) ext) (pu_sub s) = Ok (Some o) -> is_final (or_status o) = true) -> no_open s ext.
Proof.
  intros H i o Hi. destruct (open_of ext o) eqn:Eo; [|done]. exfalso.
  unfold result, findOrderForTracking, findPendingByProviderUser, gets in H. rewrite run_bind in H. cbv beta iota in H.
  set (rows := find_rows _ _) in H. assert (Ho : o ∈ rows) by (apply elem_of_find_rows; split; [exact Eo | by exists i]).
  destruct (latest_order rows) as [q|] eqn:El.
  - specialize (H q eq_refl). apply latest_order_In in El. apply elem_of_find_rows in El as [Hq _]. rewrite H, andb_false_r in Hq. done.
  - apply latest_order_None in El. rewrite El in Ho. by apply elem_of_nil in Ho.
Qed.

(** Statuses compared are known. *)
Ltac decide_eqb E :=
  repeat match type of E with context [eqb ?a ?b] => let v := eval vm_compute in (eqb a b) in change (eqb a b) with v in E end; cbn [orb negb] in E.

Ltac decide_eqb_goal :=
  repeat match goal with |- context [eqb ?a ?b] => let v := eval vm_compute in (eqb a b) in change (eqb a b) with v end; cbn [orb negb]; cbv iota.

(** A photo is for a new order only when the account has no open one, and its session waits
    for the receipt of a plan. *)
Lemma receipt_target_new c ext s p s1 :
  receipt_target c ext s = (Ok (Some (ForNew p)), s1) ->
  no_open s ext /\ exists se, result (on_session (session_get ext)) s = Ok (Some se) /\ bs_state se = SessWaitingForReceipt /\ bs_orderId se = None /\
    new_order_params ext se = Some p.
Proof.
  intros Hrun. unfold receipt_target in Hrun. apply bind_Ok_inv in Hrun as (session & t & Hg & Hrun).
  assert (Ht : pu_sub t = pu_sub s) by (unfold on_session, zoom in Hg; destruct (session_get ext _); by injection Hg as _ <-).
  destruct session as [se|]; [|by apply bind_Ok_inv in Hrun as (? & ? & _ & [=])].
  destruct (eqb (bs_state se) SessWaitingForReceipt) eqn:Est; cbn [negb] in Hrun; [|by apply bind_Ok_inv in Hrun as (? & ? & _ & [=])].
  unfold try_catch in Hrun. match type of Hrun with match ?m with _ => _ end = _ => destruct m as [[target|e] t1] eqn:E end; [|by apply bind_Ok_inv in Hrun as (? & ? & _ & [=])].
  injection Hrun as -> ->.
  assert (Hr : forall i, (exists t2, receipt_received c ext se i t2 = (Ok (Some (ForNew p)), s1)) -> i = None /\ new_order_params ext se = Some p).
  { intros i (t2 & H). unfold receipt_received in H. destruct i; [by apply bind_Ok_inv in H as (? & ? & _ & [=])|].
    destruct (new_order_params ext se); [apply bind_Ok_inv in H as (? & ? & _ & H); by injection H as -> |].
    apply bind_Ok_inv in H as (? & ? & _ & H). apply bind_Ok_inv in H as (? & ? & _ & H). by apply bind_Ok_inv in H as (? & ? & _ & [=]). }
  apply bind_Ok_inv in E as (pending & t2 & Hf & E). destruct (bs_orderId se) as [i|] eqn:Eo.
  - injection Hf as <- <-. destruct (Hr (Some i) (ex_intro _ _ E)) as [[=] _].
  - unfold on_sub, zoom in Hf. destruct (findOrderForTracking _ _ (pu_sub t)) as [r u] eqn:Ef. injection Hf as -> <-.
    assert (Hres : result (findOrderForTracking (communicationProviderOf ext) ext) (pu_sub s) = Ok pending) by (unfold result; rewrite <- Ht, Ef; done).
    assert (Hclosed : forall o, pending = Some o -> is_final (or_status o) = true).
    { intros o ->. destruct (or_status o); try done; exfalso; decide_eqb E; by apply bind_Ok_inv in E as (? & ? & _ & [=]). }
    assert (Hnp : new_order_params ext se = Some p).
    { destruct pending as [o|]; [|by apply (Hr None); eexists]. specialize (Hclosed o eq_refl).
      destruct (or_status o); try discriminate Hclosed; decide_eqb E; by apply (Hr None); eexists. }
    split; [apply findOrderForTracking_closed; intros o Ho; rewrite Hres in Ho; injection Ho as ->; by apply Hclosed|].
    exists se. split; [unfold result; by rewrite Hg|]. split; [by apply (eqb_true (bs_state se) SessWaitingForReceipt)|]. by split.
Qed.

Lemma new_order_params_for ext se p : new_order_params ext se = Some p -> op_provider p = communicationProviderOf ext /\ op_providerUserId p = ext.
Proof. unfold new_order_params. destruct (bs_accountType se), (bs_planId se), (bs_phoneNumber se) as [ph|]; try done. destruct (is_empty ph); [done|]. by intros [= <-]. Qed.

(** ** The system *)

Section System.
  Context `{ReceiptFiles}.

(** What a user presses *)
Inductive purchase_act :=
| ActStatus (chatId ext : text)
| ActStart (chatId ext : text)
| ActType (chatId ext : text) (accountType : AccountType)
| ActPlan (chatId ext : text) (planId : uuid)
| ActCancel (chatId ext : text).

Definition act (a : purchase_act) : PM unit :=
  match a with
  | ActStatus c x => showPurchaseStatus c x
  | ActStart c x => startBuyAccount c x
  | ActType c x t => selectAccountType c x t
  | ActPlan c x p => selectPlan c x p
  | ActCancel c x => cancelPurchase c x
  end.

(** A photo whose receipt is on its way: the file is being fetched under the lock. *)
Record waiting_file := mkWaiting { wf_chat : text; wf_ext : text; wf_file : text; wf_owner : N; wf_target : ReceiptTarget }.

Record purchase_system := mkPurchaseSystem { py_state : purchase_state; py_files : list waiting_file; py_next : N }.

Definition holds_lock (s : purchase_state) (ext : text) (owner : N) : Prop :=
  redis_get (bt_receiptLocks (pu_bot s)) (pu_now s) ext = Some owner.

(** The names of messenger accounts have no spaces around them. *)
Definition clean (ext : text) : Prop := trim ext = ext.

(** The sessions after something else: each one is a session there was, with no later end,
    or waits for no receipt; the locks are as they were. *)
Definition sessions_after (b b' : bot_store) : Prop :=
  bt_receiptLocks b' = bt_receiptLocks b /\
  forall ext se e, bt_sessions b' !! ext = Some (se, e) ->
    bs_state se <> SessWaitingForReceipt \/ exists e', bt_sessions b !! ext = Some (se, e') /\ e <= e'.

(** The tables after something else: no order of a messenger account is opened. *)
Definition orders_after (x x' : sub_state) : Prop :=
  su_now x' = su_now x /\
  forall i o, su_orders x' !! i = Some o -> or_id o = i /\
    forall ext, open_of ext o = true -> exists o', su_orders x !! i = Some o' /\ open_of ext o' = true.

Definition file_end (x : waiting_file) : PM unit :=
  try_finally (receipt_submit (wf_chat x) (wf_ext x) (wf_file x) (wf_target x)) (on_session (release_receipt_lock (wf_ext x) (wf_owner x))).

(** The receipt written and its session not: Redis failed. *)
Definition file_end_lost (x : waiting_file) : PM unit :=
  try_finally (write_receipt (wf_ext x) (wf_file x) (wf_target x) ≫= fun _ => mret tt) (on_session (release_receipt_lock (wf_ext x) (wf_owner x))).

(** A photo is taken, and its receipt submitted later, as long as its lock is its own; in
    between anything else happens. Each lock is taken with a number drawn for it. *)
Inductive purchase_step : purchase_system -> purchase_system -> Prop :=
| ps_act a s h n : purchase_step (mkPurchaseSystem s h n) (mkPurchaseSystem (final (act a) s) h n)
| ps_photo c ext file target s s1 s2 h n :
    clean ext -> on_session (take_receipt_lock ext n) s = (Ok true, s1) -> receipt_target c ext s1 = (Ok (Some target), s2) ->
    purchase_step (mkPurchaseSystem s h n) (mkPurchaseSystem s2 (mkWaiting c ext file n target :: h) (N.succ n))
| ps_submitted x h1 h2 s n : holds_lock s (wf_ext x) (wf_owner x) ->
    purchase_step (mkPurchaseSystem s (h1 ++ x :: h2) n) (mkPurchaseSystem (final (file_end x) s) (h1 ++ h2) n)
| ps_lost x h1 h2 s n : holds_lock s (wf_ext x) (wf_owner x) ->
    purchase_step (mkPurchaseSystem s (h1 ++ x :: h2) n) (mkPurchaseSystem (final (file_end_lost x) s) (h1 ++ h2) n)
| ps_message m s h n : (forall ext, rm_from m = Some ext -> clean ext) ->
    purchase_step (mkPurchaseSystem s h n) (mkPurchaseSystem (final (handleReceipt m n) s) h (N.succ n))
| ps_sessions b s h n : sessions_after (pu_bot s) b -> purchase_step (mkPurchaseSystem s h n) (mkPurchaseSystem (s <| pu_bot := b |>) h n)
| ps_orders x s h n : orders_after (pu_sub s) x -> purchase_step (mkPurchaseSystem s h n) (mkPurchaseSystem (s <| pu_sub := x |>) h n)
| ps_time d s h n : 0 <= d -> purchase_step (mkPurchaseSystem s h n) (mkPurchaseSystem (s <| pu_sub := (pu_sub s) <| su_now := su_now (pu_sub s) + d |> |>) h n).

(** *** One open order *)

Record orders_ok (s : purchase_state) : Prop := {
  ook_key : forall i o, su_orders (pu_sub s) !! i = Some o -> or_id o = i;
  ook_one : forall ext i j o q, su_orders (pu_sub s) !! i = Some o -> su_orders (pu_sub s) !! j = Some q -> open_of ext o = true -> open_of ext q = true -> i = j;
}.

Definition file_ok (s : purchase_state) (x : waiting_file) : Prop :=
  clean (wf_ext x) /\
  (holds_lock s (wf_ext x) (wf_owner x) ->
   match wf_target x with
   | ForNew p => op_provider p = communicationProviderOf (wf_ext x) /\ op_providerUserId p = wf_ext x /\ no_open s (wf_ext x)
   | ForOrder _ => True
   end).

Definition owners_below (s : purchase_state) (n : N) : Prop := forall ext o e, bt_receiptLocks (pu_bot s) !! ext = Some (o, e) -> (o < n)%N.

Record purchase_ok (y : purchase_system) : Prop := {
  pok_orders : orders_ok (py_state y);
  pok_files : Forall (file_ok (py_state y)) (py_files y);
  pok_drawn : Forall (fun x => (wf_owner x < py_next y)%N) (py_files y);
  pok_owners : owners_below (py_state y) (py_next y);
}.

(** Later, with the same orders or fewer open ones and the same locks or fewer *)
Record calm (s t : purchase_state) : Prop := {
  calm_orders : forall i o, su_orders (pu_sub t) !! i = Some o -> or_id o = i /\
    forall ext, open_of ext o = true -> exists o', su_orders (pu_sub s) !! i = Some o' /\ open_of ext o' = true;
  calm_locks : forall ext p, bt_receiptLocks (pu_bot t) !! ext = Some p -> bt_receiptLocks (pu_bot s) !! ext = Some p;
  calm_now : pu_now s <= pu_now t;
}.

Lemma calm_world s t : orders_ok s -> world t = world s -> calm s t.
Proof.
  intros Hs Hw. unfold world in Hw. injection Hw as H1 H2 H3. split; rewrite ?H1, ?H2, ?H3; [|done|done].
  intros i o Hi. split; [by apply (ook_key s Hs)|]. intros ext Ho. by exists o.
Qed.

Lemma calm_trans s t u : calm s t -> calm t u -> calm s u.
Proof.
  intros [A1 A2 A3] [B1 B2 B3]. split; [|by eauto|lia]. intros i o Hi. destruct (B1 i o Hi) as [Hk Ho]. split; [done|].
  intros ext He. destruct (Ho ext He) as (o' & Hi' & He'). destruct (A1 i o' Hi') as [_ Ho']. by apply Ho'.
Qed.

Lemma calm_holds s t ext owner : calm s t -> holds_lock t ext owner -> holds_lock s ext owner.
Proof.
  intros Hc Hl. unfold holds_lock in *. apply redis_get_Some in Hl as (e & He & Hle). apply redis_get_Some. exists e.
  split; [by apply (calm_locks s t Hc) | pose proof (calm_now s t Hc); lia].
Qed.

Lemma calm_no_open s t ext : calm s t -> no_open s ext -> no_open t ext.
Proof.
  intros Hc Hs i o Hi. destruct (open_of ext o) eqn:E; [|done]. destruct (calm_orders s t Hc i o Hi) as [_ Ho].
  destruct (Ho ext E) as (o' & Hi' & E'). by rewrite (Hs i o' Hi') in E'.
Qed.

Lemma calm_file s t x : calm s t -> file_ok s x -> file_ok t x.
Proof.
  intros Hc [H1 H2]. split; [done|]. intros Hl. specialize (H2 (calm_holds s t _ _ Hc Hl)). destruct (wf_target x); [done|].
  destruct H2 as (A & B & C). split; [done|]. split; [done|]. by apply (calm_no_open s).
Qed.

Lemma calm_orders_ok s t : calm s t -> orders_ok s -> orders_ok t.
Proof.
  intros Hc Hs. split; [intros i o Hi; by apply (calm_orders s t Hc)|].
  intros ext i j o q Hi Hj Ho Hq. destruct (calm_orders s t Hc i o Hi) as [_ Ao]. destruct (calm_orders s t Hc j q Hj) as [_ Aq].
  destruct (Ao ext Ho) as (o' & Hi' & Ho'). destruct (Aq ext Hq) as (q' & Hj' & Hq'). by apply (ook_one s Hs ext i j o' q').
Qed.

Lemma calm_ok s t h n n' : calm s t -> (n <= n')%N -> purchase_ok (mkPurchaseSystem s h n) -> purchase_ok (mkPurchaseSystem t h n').
Proof.
  intros Hc Hn [K1 K2 K3 K4]. cbn [py_state py_files py_next] in *. split; cbn [py_state py_files py_next].
  - by apply (calm_orders_ok s).
  - eapply Forall_impl; [exact K2|]. intros x. by apply calm_file.
  - eapply Forall_impl; [exact K3|]. cbn beta. intros x. lia.
  - intros ext o e Ho. apply (calm_locks s t Hc) in Ho. apply K4 in Ho. lia.
Qed.

(** What a receipt written does to the orders *)
Record submitted (ext : text) (target : ReceiptTarget) (s t : purchase_state) : Prop := {
  sm_orders : su_orders (pu_sub t) = su_orders (pu_sub s) \/
    exists order, is_final (or_status order) = false /\
      su_orders (pu_sub t) = <[or_id order := order <| or_status := ReceiptSubmitted |>]> (su_orders (pu_sub s)) /\
      match target with
      | ForNew p => or_provider order = op_provider p /\ or_providerUserId order = trim (op_providerUserId p)
      | ForOrder i => su_orders (pu_sub s) !! i = Some order
      end;
  sm_locks : bt_receiptLocks (pu_bot t) = bt_receiptLocks (pu_bot s);
  sm_now : pu_now t = pu_now s;
}.

Lemma submitted_refl ext target s : submitted ext target s s.
Proof. split; [by left | done | done]. Qed.

Lemma buildOrder_says p s o s1 : buildOrder p s = (Ok o, s1) -> or_provider o = op_provider p /\ or_providerUserId o = trim (op_providerUserId p).
Proof.
  unfold buildOrder. intros Hb. apply bind_Ok_inv in Hb as (? & ? & _ & Hb). apply bind_Ok_inv in Hb as (? & ? & _ & Hb).
  apply bind_Ok_inv in Hb as (? & ? & _ & Hb). apply bind_Ok_inv in Hb as (? & ? & _ & Hb). apply bind_Ok_inv in Hb as (? & ? & _ & Hb).
  apply bind_Ok_inv in Hb as (? & ? & _ & Hb). by injection Hb as <- _.
Qed.

Lemma write_submitted ext file target s : submitted ext target s (final (write_receipt ext file target) s).
Proof.
  unfold write_receipt, final. rewrite run_bind. unfold of_outcome. destruct (stored_file _ _) as [path|e]; [|apply submitted_refl].
  unfold on_sub, zoom. set (params := match target with ForOrder i => _ | ForNew p => _ end).
  destruct (submitReceipt_cases params (pu_sub s)) as [[e ->]|(r & x & order & -> & Ho & Hf & _ & Hx & Hn)].
  - split; [by left | done | done].
  - cbn [snd]. split; [|done|exact Hn]. right. exists order. split; [done|]. split; [exact Hx|].
    destruct target as [i|p]; unfold params, receipt_order in Ho; cbn [sp_newOrder sp_orderId] in Ho.
    + by destruct Ho as (j & [= <-] & Ho).
    + destruct Ho as [_ Hb]. by apply buildOrder_says in Hb.
Qed.

(** What follows a write in the same world *)
Lemma submitted_world ext target s t u : submitted ext target s t -> world u = world t -> submitted ext target s u.
Proof. intros [A1 A2 A3] Hw. unfold world in Hw. injection Hw as H1 H2 H3. split; rewrite ?H1, ?H2, ?H3; done. Qed.

Lemma submit_submitted c ext file target s : submitted ext target s (final (receipt_submit c ext file target) s).
Proof.
  unfold receipt_submit, try_catch, final. rewrite run_bind. pose proof (write_submitted ext file target s) as Hw. unfold final in Hw.
  destruct (write_receipt ext file target s) as [[r|e] t]; cbn [snd] in Hw.
  - match goal with |- submitted _ _ _ (snd (match ?m t with _ => _ end)) => assert (Hm : forall w, preserves (in_world w) m) by (intros w; preserve); specialize (Hm (world t) t eq_refl); unfold final in Hm; destruct (m t) as [[?|?] u] end; cbn [snd] in *.
    + by apply (submitted_world _ _ _ t).
    + apply (submitted_world _ _ _ t); [done|]. transitivity (world u); [|exact Hm]. apply (world_tell (world u) c (PuText "errors.submitReceiptFailed") u eq_refl).
  - apply (submitted_world _ _ _ t); [done|]. apply (world_tell (world t) c (PuText "errors.submitReceiptFailed") t eq_refl).
Qed.

Lemma receipt_release_run ext owner s :
  holds_lock s ext owner -> exists t, final (on_session (release_receipt_lock ext owner)) s = t /\ pu_sub t = pu_sub s /\
    bt_receiptLocks (pu_bot t) = delete ext (bt_receiptLocks (pu_bot s)).
Proof.
  intros Hl. eexists. split; [reflexivity|]. unfold final, on_session, zoom, release_receipt_lock. rewrite run_bind. unfold get. cbv beta iota.
  change (redis_get (bt_receiptLocks ((pu_bot s) <| bt_now := pu_now s |>)) (bt_now ((pu_bot s) <| bt_now := pu_now s |>)) ext)
    with (redis_get (bt_receiptLocks (pu_bot s)) (pu_now s) ext).
  unfold holds_lock in Hl. rewrite Hl, bool_decide_true by done. done.
Qed.

(** The orders that are open after a receipt was written: the ones there were, and the new
    one of an account that had none *)
Lemma submitted_open x s t :
  orders_ok s -> file_ok s x -> holds_lock s (wf_ext x) (wf_owner x) -> submitted (wf_ext x) (wf_target x) s t ->
  forall i o, su_orders (pu_sub t) !! i = Some o -> or_id o = i /\ forall ext, open_of ext o = true ->
    (exists o', su_orders (pu_sub s) !! i = Some o' /\ open_of ext o' = true) \/
    (ext = wf_ext x /\ no_open s ext /\ forall j q, su_orders (pu_sub t) !! j = Some q -> open_of ext q = true -> j = i).
Proof.
  intros Hs [Hclean Hfile] Hl [[E|(order & Hf & E & Ht)] _ _] i o Hi; rewrite E in Hi.
  { split; [by apply (ook_key s Hs)|]. intros ext Ho. left. by exists o. }
  apply lookup_insert_Some in Hi as [(<- & <-) | (Hne & Hi)].
  2: { split; [by apply (ook_key s Hs)|]. intros ext Ho. left. by exists o. }
  split; [done|]. intros ext (Hp & Hu & _)%open_of_ext. cbn [or_provider or_providerUserId] in Hp, Hu.
  change (or_provider order = communicationProviderOf ext) in Hp. change (or_providerUserId order = ext) in Hu.
  destruct (wf_target x) as [k|p].
  - left. exists order. rewrite (ook_key s Hs k order Ht). split; [done|]. by apply open_of_ext.
  - right. destruct (Hfile Hl) as (_ & Hpu & Hno). destruct Ht as [_ Hpu']. assert (ext = wf_ext x) as -> by congruence.
    split; [done|]. split; [done|]. intros j q Hj Hq. rewrite E in Hj. apply lookup_insert_Some in Hj as [(<- & _) | (_ & Hj)]; [done|].
    by rewrite (Hno j q Hj) in Hq.
Qed.

(** A receipt that ends under its lock keeps the orders right, and the lock goes. *)
Lemma ended_ok x h1 h2 s t n :
  purchase_ok (mkPurchaseSystem s (h1 ++ x :: h2) n) -> holds_lock s (wf_ext x) (wf_owner x) -> submitted (wf_ext x) (wf_target x) s t ->
  purchase_ok (mkPurchaseSystem (final (on_session (release_receipt_lock (wf_ext x) (wf_owner x))) t) (h1 ++ h2) n).
Proof.
  intros [K1 K2 K3 K4] Hl Ht. cbn [py_state py_files py_next] in *.
  assert (Hlt : holds_lock t (wf_ext x) (wf_owner x)) by (unfold holds_lock in *; by rewrite (sm_locks _ _ _ _ Ht), (sm_now _ _ _ _ Ht)).
  destruct (receipt_release_run _ _ t Hlt) as (u & -> & Hsub & Hlocks). rewrite (sm_locks _ _ _ _ Ht) in Hlocks.
  assert (Hnow : pu_now u = pu_now s) by (unfold pu_now in *; rewrite Hsub; exact (sm_now _ _ _ _ Ht)).
  apply Forall_app in K2 as [K2a [Kx K2b]%Forall_cons]. apply Forall_app in K3 as [K3a [_ K3b]%Forall_cons].
  pose proof (submitted_open x s t K1 Kx Hl Ht) as Hopen. rewrite <- Hsub in Hopen.
  assert (Hkeep : forall y, file_ok s y -> file_ok u y).
  { intros y [Hc Hy]. split; [done|]. intros Hly. unfold holds_lock in Hly. rewrite Hlocks, Hnow in Hly.
    assert (Hne : wf_ext y <> wf_ext x) by (intros E; rewrite E in Hly; unfold redis_get in Hly; by rewrite lookup_delete_eq in Hly).
    assert (Hls : holds_lock s (wf_ext y) (wf_owner y)) by (unfold holds_lock, redis_get in *; by rewrite lookup_delete_ne in Hly).
    specialize (Hy Hls). destruct (wf_target y); [done|]. destruct Hy as (A & B & Hno). split; [done|]. split; [done|].
    intros i o Hi. destruct (open_of (wf_ext y) o) eqn:Eo; [|done]. destruct (Hopen i o Hi) as [_ Ho].
    destruct (Ho _ Eo) as [(o' & Hi' & Eo')|(E & _)]; [by rewrite (Hno i o' Hi') in Eo' | by destruct (Hne E)]. }
  split; cbn [py_state py_files py_next].
  - split; [intros i o Hi; by apply Hopen|]. intros ext i j o q Hi Hj Ho Hq.
    destruct (Hopen i o Hi) as [_ Ai]. destruct (Ai ext Ho) as [(o' & Hi' & Ho')|(_ & _ & Hall)]; [|symmetry; by apply (Hall j q)].
    destruct (Hopen j q Hj) as [_ Aj]. destruct (Aj ext Hq) as [(q' & Hj' & Hq')|(_ & _ & Hall)]; [by apply (ook_one s K1 ext i j o' q') | by apply (Hall i o)].
  - apply Forall_app. split; [exact (Forall_impl _ _ _ K2a Hkeep) | exact (Forall_impl _ _ _ K2b Hkeep)].
  - by apply Forall_app.
  - intros ext o e Ho. rewrite Hlocks in Ho. apply lookup_delete_Some in Ho as [_ Ho]. by apply (K4 ext o e).
Qed.

Lemma world_act a w : preserves (in_world w) (act a).
Proof. destruct a; [apply world_showPurchaseStatus | apply world_startBuyAccount | apply world_selectAccountType | apply world_selectPlan | apply world_cancelPurchase]. Qed.

Lemma take_cases ext n s :
  (exists t, on_session (take_receipt_lock ext n) s = (Ok false, t) /\ world t = world s) \/
  (exists t, on_session (take_receipt_lock ext n) s = (Ok true, t) /\ pu_sub t = pu_sub s /\
     bt_receiptLocks (pu_bot t) = <[ext := (n, pu_now s + RECEIPT_LOCK_SECONDS * 1000)]> (bt_receiptLocks (pu_bot s))).
Proof.
  unfold on_session, zoom, take_receipt_lock. rewrite run_bind. unfold get. cbv beta iota. destruct (is_null _).
  - right. eexists. split; [reflexivity|]. done.
  - left. eexists. split; [reflexivity|]. done.
Qed.

Lemma photo_ok c ext file target s s1 s2 h n :
  purchase_ok (mkPurchaseSystem s h n) -> clean ext -> on_session (take_receipt_lock ext n) s = (Ok true, s1) ->
  receipt_target c ext s1 = (Ok (Some target), s2) ->
  purchase_ok (mkPurchaseSystem s2 (mkWaiting c ext file n target :: h) (N.succ n)) /\ holds_lock s2 ext n.
Proof.
  intros [K1 K2 K3 K4] Hclean Htake Htarget. cbn [py_state py_files py_next] in *.
  destruct (take_cases ext n s) as [(t & E & _)|(t & E & Hsub & Hlocks)]; rewrite E in Htake; [done|]. injection Htake as ->.
  pose proof (world_receipt_target (world s1) c ext s1 eq_refl) as Hw. unfold final in Hw. rewrite Htarget in Hw. cbn [snd] in Hw.
  unfold in_world, world in Hw. injection Hw as W1 W2 W3. rewrite Hlocks in W2. rewrite Hsub in W1.
  assert (Hnow : pu_now s2 = pu_now s) by (unfold pu_now in *; by rewrite W3, Hsub).
  assert (Hkeep : forall y, file_ok s y /\ (wf_owner y < n)%N -> file_ok s2 y).
  { intros y [[Hc Hy] Hn]. split; [done|]. intros Hl. unfold holds_lock in Hl. rewrite W2, Hnow in Hl.
    destruct (decide (wf_ext y = ext)) as [E'|Hne].
    - unfold redis_get in Hl. rewrite E', lookup_insert_eq in Hl. destruct (_ <=? _); [|done]. injection Hl as Hl. lia.
    - assert (Hls : holds_lock s (wf_ext y) (wf_owner y)) by (unfold holds_lock, redis_get in *; by rewrite lookup_insert_ne in Hl).
      specialize (Hy Hls). destruct (wf_target y); [done|]. destruct Hy as (A & B & Hno). split; [done|]. split; [done|]. unfold no_open. by rewrite W1. }
  assert (K23 : Forall (fun y => file_ok s y /\ (wf_owner y < n)%N) h) by (apply Forall_and; by split).
  split; [|unfold holds_lock; rewrite W2, Hnow; by refine (redis_get_set _ _ _ _ RECEIPT_LOCK_SECONDS _)]. split; cbn [py_state py_files py_next].
  - split; rewrite W1; apply K1.
  - constructor; [|exact (Forall_impl _ _ _ K23 Hkeep)].
    split; [done|]. intros _. cbn [wf_target wf_ext]. destruct target as [i|p]; [done|].
    destruct (receipt_target_new c ext s1 p s2 Htarget) as (Hno & se & _ & _ & _ & [A B]%new_order_params_for). split; [done|]. split; [done|]. unfold no_open in *. by rewrite W1, <- Hsub.
  - constructor; [cbn [wf_owner]; lia|]. eapply Forall_impl; [exact K3|]. cbn beta. intros y. lia.
  - intros ext' o e Ho. rewrite W2 in Ho. apply lookup_insert_Some in Ho as [(_ & [= <- _]) | (_ & Ho)]; [lia|]. apply K4 in Ho. lia.
Qed.

(** A step that keeps the world, or lets a lock go *)
Lemma world_calm s t h n n' : world t = world s -> (n <= n')%N -> purchase_ok (mkPurchaseSystem s h n) -> purchase_ok (mkPurchaseSystem t h n').
Proof. intros Hw Hn Hs. apply (calm_ok s t h n n'); [apply calm_world; [apply Hs | exact Hw] | done | done]. Qed.

(** A lock taken for nothing and let go *)
Lemma idle_ok ext h n s t s2 :
  purchase_ok (mkPurchaseSystem s h n) -> pu_sub t = pu_sub s ->
  bt_receiptLocks (pu_bot t) = <[ext := (n, pu_now s + RECEIPT_LOCK_SECONDS * 1000)]> (bt_receiptLocks (pu_bot s)) -> world s2 = world t ->
  purchase_ok (mkPurchaseSystem (final (on_session (release_receipt_lock ext n)) s2) h (N.succ n)).
Proof.
  intros H0 Hsub Hlocks Hw. unfold world in Hw. injection Hw as W1 W2 W3. rewrite Hlocks in W2. rewrite Hsub in W1.
  assert (Hnow : pu_now s2 = pu_now s) by (unfold pu_now in *; by rewrite W3, Hsub).
  assert (Hl : holds_lock s2 ext n) by (unfold holds_lock; rewrite W2, Hnow; by refine (redis_get_set _ _ _ _ RECEIPT_LOCK_SECONDS _)).
  destruct (receipt_release_run ext n s2 Hl) as (u & -> & Hus & Hul). apply (calm_ok s u h n); [|lia|done].
  split; [|rewrite Hul, W2|unfold pu_now in *; rewrite Hus; lia].
  - intros i o Hi. rewrite Hus, W1 in Hi. split; [by apply (ook_key _ (pok_orders _ H0))|]. intros x Hx. by exists o.
  - intros x p Hp. apply lookup_delete_Some in Hp as [Hne Hp]. by rewrite lookup_insert_ne in Hp.
Qed.

Lemma message_ok m s h n :
  (forall ext, rm_from m = Some ext -> clean ext) -> purchase_ok (mkPurchaseSystem s h n) -> purchase_ok (mkPurchaseSystem (final (handleReceipt m n) s) h (N.succ n)).
Proof.
  intros Hclean Hs. unfold handleReceipt. destruct (rm_from m) as [ext|]; [|apply (world_calm s _ h n); [done | lia | done]].
  specialize (Hclean ext eq_refl). unfold final. rewrite run_bind.
  assert (Hg : in_world (world s) (final (on_session (session_get ext)) s)) by (apply world_on_session; [auto with preserves | done]).
  unfold final in Hg. destruct (on_session (session_get ext) s) as [[session|e] s0]; [|apply (world_calm s _ h n); [exact Hg | lia | done]]. cbn [snd] in Hg.
  assert (H0 : purchase_ok (mkPurchaseSystem s0 h n)) by (apply (world_calm s _ h n); [exact Hg | lia | done]). clear Hs Hg s.
  assert (Hquiet : forall s', world s' = world s0 -> purchase_ok (mkPurchaseSystem s' h (N.succ n))) by (intros s' Hw; apply (world_calm s0 _ h n); [done | lia | done]).
  destruct (match session with Some se => _ | None => false end); [|by apply Hquiet].
  destruct (getImageFileId m) as [file|]; [|by apply Hquiet].
  rewrite run_bind. destruct (on_session (take_receipt_lock ext n) s0) as [r t] eqn:Et.
  destruct (take_cases ext n s0) as [(t' & E & Hw)|(t' & E & Hsub & Hlocks)]; rewrite E in Et; injection Et as <- <-; [by apply Hquiet|].
  rewrite run_bind. unfold try_finally at 1, processReceipt at 1. rewrite run_bind.
  pose proof (world_receipt_target (world t') (rm_chat m) ext t' eq_refl) as Hw. unfold final in Hw.
  destruct (receipt_target (rm_chat m) ext t') as [[[target|]|e] s2] eqn:Ert; cbn [snd] in Hw.
  - destruct (photo_ok (rm_chat m) ext file target s0 t' s2 h n H0 Hclean E Ert) as [Hok Hl].
    pose proof (submit_submitted (rm_chat m) ext file target s2) as Hsm. unfold final in Hsm.
    destruct (receipt_submit (rm_chat m) ext file target s2) as [r s3]. cbn [snd] in Hsm.
    pose proof (ended_ok (mkWaiting (rm_chat m) ext file n target) [] h s2 s3 (N.succ n) Hok Hl Hsm) as Hend. unfold final in Hend. cbn [wf_ext wf_owner app] in Hend.
    destruct (on_session (release_receipt_lock ext n) s3) as [[?|?] s4]; [|done]. by destruct r.
  - pose proof (idle_ok ext h n s0 t' s2 H0 Hsub Hlocks Hw) as Hend. unfold final in Hend. cbn [mret M_ret].
    by destruct (on_session (release_receipt_lock ext n) s2) as [[?|?] s4].
  - pose proof (idle_ok ext h n s0 t' s2 H0 Hsub Hlocks Hw) as Hend. unfold final in Hend.
    by destruct (on_session (release_receipt_lock ext n) s2) as [[?|?] s4].
Qed.

Lemma purchase_step_ok y1 y2 : purchase_step y1 y2 -> purchase_ok y1 -> purchase_ok y2.
Proof.
  intros Hstep Hy. destruct Hstep as [a s h n | c ext file target s s1 s2 h n Hc Ht Hr | x h1 h2 s n Hl | x h1 h2 s n Hl | m s h n Hc | b s h n Hb | x s h n Hx | d s h n Hd].
  - apply (world_calm s _ h n); [by apply world_act | lia | done].
  - by apply (photo_ok c ext file target s s1).
  - unfold file_end, final, try_finally. pose proof (submit_submitted (wf_chat x) (wf_ext x) (wf_file x) (wf_target x) s) as Hsm. unfold final in Hsm.
    destruct (receipt_submit _ _ _ _ s) as [r t]. cbn [snd] in Hsm. pose proof (ended_ok x h1 h2 s t n Hy Hl Hsm) as Hend. unfold final in Hend.
    by destruct (on_session _ t) as [[?|?] u].
  - unfold file_end_lost, final, try_finally. rewrite run_bind. pose proof (write_submitted (wf_ext x) (wf_file x) (wf_target x) s) as Hsm. unfold final in Hsm.
    destruct (write_receipt _ _ _ s) as [[r|e] t]; cbn [snd] in Hsm; pose proof (ended_ok x h1 h2 s t n Hy Hl Hsm) as Hend; unfold final in Hend;
      cbn [mret M_ret]; by destruct (on_session _ t) as [[?|?] u].
  - by apply message_ok.
  - apply (world_calm s _ h n); [|lia|done]. unfold world. destruct Hb as [Hb _]. change (bt_receiptLocks (pu_bot (s <| pu_bot := b |>))) with (bt_receiptLocks b). by rewrite Hb.
  - apply (calm_ok s _ h n); [|lia|done]. destruct Hx as [Hn Hx]. split; [exact Hx | done|]. change (su_now (pu_sub s) <= su_now x). lia.
  - apply (calm_ok s _ h n); [|lia|done]. split; [|done|change (su_now (pu_sub s) <= su_now (pu_sub s) + d); lia].
    intros i o Hi. change (su_orders (pu_sub s) !! i = Some o) in Hi. split; [by apply (ook_key _ (pok_orders _ Hy))|]. intros ext Ho. by exists o.
Qed.

(** Nobody has ordered in a messenger yet, and no receipt is on its way. *)
Definition nothing_bought (s : purchase_state) : Prop :=
  (forall i o, su_orders (pu_sub s) !! i = Some o -> or_id o = i /\ forall ext, open_of ext o = false) /\ bt_receiptLocks (pu_bot s) = ∅.

(** C16: A messenger account has one open order at most, whatever it presses, however its photos
    overlap (each one asks for the open order and writes under a lock, and ends before the
    lock does), whether the session of a written receipt is kept or lost, and whatever the
    review of orders does meanwhile, as long as it opens none again; each open order waits
    for its receipt, or has one that is looked at. *)
Theorem one_open_order (s0 : purchase_state) (y : purchase_system) (ext : text) (i j : uuid) (o q : SubscriptionOrder)
    (H0 : nothing_bought s0) (Hr : rtc purchase_step (mkPurchaseSystem s0 [] 0) y)
    (Hi : su_orders (pu_sub (py_state y)) !! i = Some o) (Hj : su_orders (pu_sub (py_state y)) !! j = Some q)
    (Ho : open_of ext o = true) (Hq : open_of ext q = true) :
  i = j.
Proof.
  assert (Hy : purchase_ok y).
  { assert (K0 : purchase_ok (mkPurchaseSystem s0 [] 0)).
    { destruct H0 as [A B]. split; cbn [py_state py_files py_next]; [|constructor|constructor|intros x p e; by rewrite B].
      split; [intros k v Hk; by apply A|]. intros x k l v w Hk _ Hv _. destruct (A k v Hk) as [_ Hno]. by rewrite Hno in Hv. }
    clear H0. remember (mkPurchaseSystem s0 [] 0) as y0 eqn:E. clear E. induction Hr; eauto using purchase_step_ok. }
  by apply (ook_one _ (pok_orders _ Hy) ext i j o q).
Qed.

(** *** A new order in time *)

(** A session that waits for the receipt of a plan has an end, and is kept no longer. *)
Definition paying (se : BotSession) : bool := eqb (bs_state se) SessWaitingForReceipt && is_null (bs_orderId se).

Definition may_pay (se : BotSession) : Prop := paying se = true -> exists t, bs_expiresAt se = Some t /\ t <> 0.

Definition pays_ok (b : bot_store) : Prop :=
  forall ext se e, bt_sessions b !! ext = Some (se, e) -> paying se = true -> exists t, bs_expiresAt se = Some t /\ t <> 0 /\ e < t + 1000.

Definition pays_state (s : purchase_state) : Prop := 0 <= pu_now s /\ pays_ok (pu_bot s).

Lemma pays_insert b ext se e :
  pays_ok b -> (paying se = true -> exists t, bs_expiresAt se = Some t /\ t <> 0 /\ e < t + 1000) -> pays_ok (b <| bt_sessions := <[ext := (se, e)]> (bt_sessions b) |>).
Proof.
  intros Hb He ext' se' e' Hi. change (<[ext := (se, e)]> (bt_sessions b) !! ext' = Some (se', e')) in Hi.
  apply lookup_insert_Some in Hi as [(_ & [= <- <-]) | (_ & Hi)]; [done | by apply (Hb ext')].
Qed.

Lemma pays_delete b ext : pays_ok b -> pays_ok (b <| bt_sessions := delete ext (bt_sessions b) |>).
Proof. intros Hb ext' se e Hi. change (delete ext (bt_sessions b) !! ext' = Some (se, e)) in Hi. apply lookup_delete_Some in Hi as [_ Hi]. by apply (Hb ext'). Qed.

Lemma pays_session_set ext se : may_pay se -> preserves pays_ok (session_set ext se).
Proof.
  intros Hm. apply preserves_modify. intros b Hb. unfold session_put. cbv zeta. destruct (session_ttl b se <=? 0); [by apply pays_delete|].
  unfold redis_set. apply pays_insert; [done|]. intros Hp. destruct (Hm Hp) as (t & Ht & Hn). exists t. split; [done|]. split; [done|].
  unfold session_ttl. rewrite Ht, (proj2 (Z.eqb_neq t 0) Hn). pose proof (ceil_seconds_bound (t - bt_now b)). lia.
Qed.

Lemma pays_session_get ext : preserves pays_ok (session_get ext).
Proof.
  intros b Hb. unfold final, session_get. rewrite run_bind. unfold get. cbv beta iota. destruct (redis_get _ _ _) as [se|] eqn:E; [|done].
  destruct (fixed_end se) eqn:Ef; [done|]. rewrite run_bind. unfold modify. cbn [snd mret M_ret]. unfold redis_expire. rewrite E. unfold redis_set.
  apply pays_insert; [done|]. intros Hp. apply redis_get_Some in E as (e & He & _). destruct (Hb _ _ _ He Hp) as (t & Ht & Hn & _).
  by rewrite (fixed_end_Some se t Ht Hn) in Ef.
Qed.

Lemma may_pay_not se : bs_state se <> SessWaitingForReceipt -> may_pay se.
Proof. intros Hn Hp. unfold paying in Hp. apply andb_true_iff in Hp as [Hp _]. by apply (eqb_true (bs_state se) SessWaitingForReceipt) in Hp. Qed.

#[local] Hint Resolve pays_session_set pays_session_get : preserves.
#[local] Hint Extern 1 (may_pay _) => apply may_pay_not; discriminate : preserves.

Lemma pays_session_reset ext : preserves pays_ok (session_reset ext).
Proof. unfold session_reset. preserve. Qed.

Lemma pays_session_update ext f : (forall se, bs_state (f se) <> SessWaitingForReceipt) -> preserves pays_ok (session_update ext f).
Proof. intros Hf. unfold session_update. preserve. apply pays_session_set, may_pay_not, Hf. Qed.

Lemma pays_session_getOrCreate ext : preserves pays_ok (session_getOrCreate ext).
Proof. pose proof pays_session_reset. unfold session_getOrCreate. preserve. Qed.

Lemma pays_on_session {A} (m : BSM A) : preserves pays_ok m -> preserves pays_state (on_session m).
Proof.
  intros Hm s [Hn Hs]. assert (H0 : pays_ok ((pu_bot s) <| bt_now := pu_now s |>)) by exact Hs. apply Hm in H0. unfold final, on_session, zoom in *.
  destruct (m _) as [r b]. cbn [snd] in *. by split.
Qed.

Lemma pays_tell c x : preserves pays_state (tell c x).
Proof. apply preserves_modify. by intros s Hs. Qed.

Lemma pays_on_sub {A} (m : SM A) : (forall t, preserves (fun s => su_now s = t) m) -> preserves pays_state (on_sub m).
Proof.
  intros Hm s [Hn Hs]. specialize (Hm (pu_now s) (pu_sub s) eq_refl). unfold final, on_sub, zoom in *. destruct (m (pu_sub s)) as [r x]. cbn [snd] in *.
  split; [|exact Hs]. change (0 <= su_now x). by rewrite Hm.
Qed.

Lemma pays_reads {A} (m : SM A) : reads m -> preserves pays_state (on_sub m).
Proof. intros Hm. apply pays_on_sub. intros t. by apply reads_preserves. Qed.

Lemma may_pay_order o : may_pay (order_session o).
Proof. intros Hp. discriminate Hp. Qed.

Lemma may_pay_reset : may_pay idle_session.
Proof. intros Hp. discriminate Hp. Qed.

Lemma may_pay_review o : may_pay (review_session o).
Proof. intros Hp. discriminate Hp. Qed.

#[local] Hint Resolve pays_tell pays_on_session pays_reads pays_session_reset pays_session_getOrCreate may_pay_order may_pay_review may_pay_reset : preserves.
#[local] Hint Extern 1 (preserves pays_ok (session_update _ _)) => apply pays_session_update; discriminate : preserves.

Lemma pays_sendPaymentInformation c a u r : preserves pays_state (sendPaymentInformation c a u r).
Proof. unfold sendPaymentInformation. preserve. Qed.

#[local] Hint Resolve pays_sendPaymentInformation : preserves.

Lemma pays_showOrderStatus c x o : preserves pays_state (showOrderStatus c x o).
Proof. unfold showOrderStatus. preserve. Qed.

Lemma pays_showPlans c t : preserves pays_state (showPlans c t).
Proof. unfold showPlans. preserve. Qed.

#[local] Hint Resolve pays_showOrderStatus pays_showPlans : preserves.

Lemma pays_showPurchaseStatus c x : preserves pays_state (showPurchaseStatus c x).
Proof. unfold showPurchaseStatus. cbv zeta. preserve. Qed.

#[local] Hint Resolve pays_showPurchaseStatus : preserves.

Lemma timeout_positive s : 0 < paymentTimeoutSeconds s.
Proof.
  unfold paymentTimeoutSeconds, positive_setting. destruct (pu_timeout s); [|lia]. destruct (safe_integer _) as [n|]; [|lia].
  destruct (Z.ltb_spec 0 n); lia.
Qed.

Lemma pays_selectPlan c x p : preserves pays_state (selectPlan c x p).
Proof.
  unfold selectPlan. apply preserves_try_catch; [|intros; preserve]. preserve.
  match goal with Hs : pays_state ?s |- _ => apply pays_on_session, pays_session_set; intros _; exists (pu_now s + paymentTimeoutSeconds s * 1000); split; [done|];
    pose proof (timeout_positive s); destruct Hs; lia end.
Qed.

Lemma pays_act a : preserves pays_state (act a).
Proof.
  destruct a; [apply pays_showPurchaseStatus | | | apply pays_selectPlan | ]; cbn [act]; unfold startBuyAccount, selectAccountType, cancelPurchase; preserve.
Qed.

Lemma pays_receipt_target c x : preserves pays_state (receipt_target c x).
Proof. unfold receipt_target, receipt_received, submit_failed. preserve. Qed.

Lemma now_submitReceipt params t : preserves (fun s => su_now s = t) (submitReceipt params).
Proof. intros s Hs. unfold final. destruct (submitReceipt_cases params s) as [[e ->]|(r & s1 & o & -> & _ & _ & _ & _ & Hn)]; [done|]. cbn [snd]. by rewrite Hn. Qed.

Lemma pays_write_receipt x f t : preserves pays_state (write_receipt x f t).
Proof. unfold write_receipt. preserve. apply pays_on_sub. intros n. apply now_submitReceipt. Qed.

#[local] Hint Resolve pays_receipt_target pays_write_receipt : preserves.

Lemma pays_receipt_submit c x f t : preserves pays_state (receipt_submit c x f t).
Proof. unfold receipt_submit, submit_failed. preserve. Qed.

(** A lock taken or let go is no session. *)
Lemma pays_locks (f : bot_store -> bot_store) : (forall b, bt_sessions (f b) = bt_sessions b) -> preserves pays_ok (modify f).
Proof. intros Hf. apply preserves_modify. intros b Hb x se e. rewrite Hf. apply Hb. Qed.

Lemma pays_take x n : preserves pays_ok (take_receipt_lock x n).
Proof. unfold take_receipt_lock. preserve. by apply pays_locks. Qed.

Lemma pays_release x n : preserves pays_ok (release_receipt_lock x n).
Proof. unfold release_receipt_lock. preserve. by apply pays_locks. Qed.

#[local] Hint Resolve pays_receipt_submit pays_take pays_release : preserves.

Lemma pays_handleReceipt m n : preserves pays_state (handleReceipt m n).
Proof. unfold handleReceipt, processReceipt. preserve. Qed.

Lemma pays_step y1 y2 : purchase_step y1 y2 -> pays_state (py_state y1) -> pays_state (py_state y2).
Proof.
  intros Hstep Hs. destruct Hstep as [a s h n | c ext file target s s1 s2 h n Hc Ht Hr | x h1 h2 s n Hl | x h1 h2 s n Hl | m s h n Hc | b s h n Hb | x s h n Hx | d s h n Hd]; cbn [py_state] in *.
  - by apply pays_act.
  - assert (H1 : pays_state s1) by (assert (Hp : preserves pays_state (on_session (take_receipt_lock ext n))) by preserve; apply Hp in Hs; unfold final in Hs; by rewrite Ht in Hs).
    apply (pays_receipt_target c ext) in H1. unfold final in H1. by rewrite Hr in H1.
  - unfold file_end. assert (Hp : preserves pays_state (try_finally (receipt_submit (wf_chat x) (wf_ext x) (wf_file x) (wf_target x)) (on_session (release_receipt_lock (wf_ext x) (wf_owner x))))) by preserve. by apply Hp.
  - unfold file_end_lost. assert (Hp : preserves pays_state (try_finally (write_receipt (wf_ext x) (wf_file x) (wf_target x) ≫= fun _ => mret tt) (on_session (release_receipt_lock (wf_ext x) (wf_owner x))))) by preserve. by apply Hp.
  - by apply pays_handleReceipt.
  - destruct Hs as [Hn Hs], Hb as [_ Hb]. split; [exact Hn|]. intros ext se e He Hp. destruct (Hb ext se e He) as [Hne|(e' & He' & Hle)].
    + unfold paying in Hp. apply andb_true_iff in Hp as [Hp _]. by apply (eqb_true (bs_state se) SessWaitingForReceipt) in Hp.
    + destruct (Hs ext se e' He' Hp) as (t & Ht & Hn0 & Hlt). exists t. split; [done|]. split; [done | lia].
  - destruct Hs as [Hn Hs], Hx as [Hn' _]. split; [|exact Hs]. change (0 <= su_now x). rewrite Hn'. exact Hn.
  - destruct Hs as [Hn Hs]. split; [|exact Hs]. change (0 <= su_now (pu_sub s) + d). unfold pu_now in Hn. lia.
Qed.

(** A new order is made in time: whatever happened before, a photo is for a new order only
    when its session holds a plan chosen and a time to pay that is not over, or over for
    less than a second, however often the purchase was looked at meanwhile. *)
Theorem new_order_in_time (s0 : purchase_state) (y : purchase_system) (c ext : text) (p : CreateSubscriptionOrderParams) (s1 : purchase_state)
    (H0 : bt_sessions (pu_bot s0) = ∅ /\ 0 <= pu_now s0) (Hr : rtc purchase_step (mkPurchaseSystem s0 [] 0) y)
    (Ht : receipt_target c ext (py_state y) = (Ok (Some (ForNew p)), s1)) :
  exists se t, result (on_session (session_get ext)) (py_state y) = Ok (Some se) /\ new_order_params ext se = Some p /\
    bs_expiresAt se = Some t /\ pu_now (py_state y) < t + 1000.
Proof.
  assert (Hs : pays_state (py_state y)).
  { assert (K0 : pays_state (py_state (mkPurchaseSystem s0 [] 0))) by (destruct H0 as [A B]; split; [done|]; intros x se e He; cbn [py_state] in He; by rewrite A in He).
    clear H0 Ht. remember (mkPurchaseSystem s0 [] 0) as y0 eqn:E. clear E. induction Hr; eauto using pays_step. }
  set (s := py_state y) in *. destruct (receipt_target_new c ext s p s1 Ht) as (_ & se & Hg & Hst & Ho & Hp).
  assert (Hpay : paying se = true) by (unfold paying; by rewrite Hst, Ho).
  unfold result, on_session, zoom in Hg. destruct (session_get ext _) as [r b] eqn:Eg. cbn [fst] in Hg. subst r.
  unfold session_get in Eg. rewrite run_bind in Eg. unfold get in Eg. cbv beta iota in Eg.
  change (redis_get (bt_sessions ((pu_bot s) <| bt_now := pu_now s |>)) (bt_now ((pu_bot s) <| bt_now := pu_now s |>)) ext)
    with (redis_get (bt_sessions (pu_bot s)) (pu_now s) ext) in Eg.
  destruct (redis_get (bt_sessions (pu_bot s)) (pu_now s) ext) as [se'|] eqn:Er; [|by injection Eg].
  assert (se' = se) as -> by (destruct (fixed_end se'); [by injection Eg | rewrite run_bind in Eg; by injection Eg]).
  apply redis_get_Some in Er as (e & He & Hle). destruct (proj2 Hs ext se e He Hpay) as (t & Ht' & _ & Hlt).
  exists se, t. split; [|split; [done|split; [done | lia]]]. unfold result, on_session, zoom. unfold session_get. rewrite run_bind. unfold get. cbv beta iota.
  change (redis_get (bt_sessions ((pu_bot s) <| bt_now := pu_now s |>)) (bt_now ((pu_bot s) <| bt_now := pu_now s |>)) ext)
    with (redis_get (bt_sessions (pu_bot s)) (pu_now s) ext).
  rewrite (proj2 (redis_get_Some _ _ _ se) (ex_intro _ e (conj He Hle))). by destruct (fixed_end se).
Qed.

End System.

(** ** A receipt in time makes the order *)

Section Making.
  Context `{ReceiptFiles}.

(** The same tables, settings, sessions and locks; what was said may differ. *)
Record alike (s t : purchase_state) : Prop := {
  al_sub : pu_sub t = pu_sub s;
  al_timeout : pu_timeout t = pu_timeout s;
  al_sessions : bt_sessions (pu_bot t) = bt_sessions (pu_bot s);
  al_locks : bt_receiptLocks (pu_bot t) = bt_receiptLocks (pu_bot s);
  al_ttl : bt_ttlSeconds (pu_bot t) = bt_ttlSeconds (pu_bot s);
}.

Lemma alike_trans s t u : alike s t -> alike t u -> alike s u.
Proof. intros [A1 A2 A3 A4 A5] [B1 B2 B3 B4 B5]. split; congruence. Qed.

Lemma alike_tell s c x : alike s (final (tell c x) s).
Proof. by split. Qed.

(** A session of [ext] with a fixed end that is not over *)
Definition has_session (s : purchase_state) (ext : text) (se : BotSession) : Prop :=
  exists e, bt_sessions (pu_bot s) !! ext = Some (se, e) /\ pu_now s <= e.

Lemma alike_has_session s t ext se : alike s t -> has_session s ext se -> has_session t ext se.
Proof. intros [A1 A2 A3 A4 A5] (e & He & Hle). exists e. unfold pu_now in *. by rewrite A3, A1. Qed.

Lemma get_fixed s ext se : has_session s ext se -> fixed_end se = true -> exists t, on_session (session_get ext) s = (Ok (Some se), t) /\ alike s t.
Proof.
  intros (e & He & Hle) Hf. unfold on_session, zoom, session_get. eexists. rewrite run_bind. unfold get. cbv beta iota.
  change (redis_get (bt_sessions ((pu_bot s) <| bt_now := pu_now s |>)) (bt_now ((pu_bot s) <| bt_now := pu_now s |>)) ext)
    with (redis_get (bt_sessions (pu_bot s)) (pu_now s) ext).
  rewrite (proj2 (redis_get_Some _ _ _ se) (ex_intro _ e (conj He Hle))), Hf. split; [reflexivity|]. done.
Qed.

Lemma set_session s ext se :
  0 < session_ttl ((pu_bot s) <| bt_now := pu_now s |>) se ->
  exists t, on_session (session_set ext se) s = (Ok tt, t) /\ pu_sub t = pu_sub s /\ pu_timeout t = pu_timeout s /\
    bt_receiptLocks (pu_bot t) = bt_receiptLocks (pu_bot s) /\ bt_ttlSeconds (pu_bot t) = bt_ttlSeconds (pu_bot s) /\
    bt_sessions (pu_bot t) = <[ext := (se, pu_now s + session_ttl ((pu_bot s) <| bt_now := pu_now s |>) se * 1000)]> (bt_sessions (pu_bot s)).
Proof.
  intros Ht. eexists. unfold on_session, zoom, session_set, modify, session_put. cbv zeta. rewrite (proj2 (Z.leb_gt _ _) Ht). split; [reflexivity|]. done.
Qed.

Lemma ttl_getOrCreate n ext : preserves (fun b => bt_ttlSeconds b = n) (session_getOrCreate ext).
Proof. unfold session_getOrCreate, session_reset, session_get, session_set, session_put. preserve; apply preserves_modify; intros ? Hb; exact Hb. Qed.

(** The time a payment has, in whole seconds *)
Lemma paying_ttl b t p m now n : bt_now b = now -> now + n * 1000 <> 0 -> session_ttl b (paying_session t p m (now + n * 1000)) = n.
Proof.
  intros Hb Hn. unfold session_ttl. change (bs_expiresAt (paying_session t p m (now + n * 1000))) with (Some (now + n * 1000)).
  cbv iota. rewrite (proj2 (Z.eqb_neq _ 0) Hn), Hb.
  unfold ceil_seconds. replace (- (now + n * 1000 - now)) with ((- n) * 1000) by lia. rewrite Z.div_mul; lia.
Qed.

Lemma sendPaymentInformation_run c a u r s cardNo cardOwner :
  rc_cardNo (su_config (pu_sub s)) = Some cardNo -> rc_cardOwner (su_config (pu_sub s)) = Some cardOwner ->
  exists t, sendPaymentInformation c a u r s = (Ok tt, t) /\ alike s t.
Proof.
  intros Hc Ho. eexists. unfold sendPaymentInformation. rewrite run_bind. unfold get. cbv beta iota. rewrite Hc, Ho. split; [reflexivity|]. done.
Qed.

(** A plan chosen: the session waits for its receipt, to the end of the time to pay. *)
Lemma selectPlan_run c ext planId s se accountType plan mobile cardNo cardOwner :
  result (on_session (session_getOrCreate ext)) s = Ok se -> bs_accountType se = Some accountType ->
  su_plans (pu_sub s) !! planId = Some plan -> pl_id plan = planId -> pl_accountType plan = accountType ->
  linked_mobile (pu_sub s) ext = Some mobile -> rc_cardNo (su_config (pu_sub s)) = Some cardNo -> rc_cardOwner (su_config (pu_sub s)) = Some cardOwner ->
  0 <= pu_now s ->
  let pay := paying_session accountType planId mobile (pu_now s + paymentTimeoutSeconds s * 1000) in
  exists t, selectPlan c ext planId s = (Ok tt, t) /\ pu_sub t = pu_sub s /\ pu_timeout t = pu_timeout s /\
    bt_receiptLocks (pu_bot t) = bt_receiptLocks (pu_bot s) /\ bt_ttlSeconds (pu_bot t) = bt_ttlSeconds (pu_bot s) /\
    bt_sessions (pu_bot t) !! ext = Some (pay, pu_now s + paymentTimeoutSeconds s * 1000).
Proof.
  intros Hg Ht Hp Hid Hty Hm Hc Ho Hnow pay. unfold result in Hg.
  assert (Hw : in_world (world s) (final (on_session (session_getOrCreate ext)) s)) by (apply world_on_session; [auto with preserves | done]).
  unfold final in Hw. destruct (on_session (session_getOrCreate ext) s) as [r s1] eqn:E. cbn [fst snd] in Hg, Hw. subst r.
  assert (Hsub : pu_sub s1 = pu_sub s /\ pu_timeout s1 = pu_timeout s /\ bt_ttlSeconds (pu_bot s1) = bt_ttlSeconds (pu_bot s)).
  { unfold on_session, zoom in E. assert (Hb : bt_ttlSeconds ((pu_bot s) <| bt_now := pu_now s |>) = bt_ttlSeconds (pu_bot s)) by done.
    pose proof (ttl_getOrCreate _ ext _ Hb) as Httl. unfold final in Httl.
    destruct (session_getOrCreate ext _) as [r b]. injection E as _ <-. by split. }
  destruct Hsub as (Hsub & Htmo & Httl). unfold in_world, world in Hw. injection Hw as _ Hlocks _.
  assert (Htm : paymentTimeoutSeconds s1 = paymentTimeoutSeconds s) by (unfold paymentTimeoutSeconds; by rewrite Htmo).
  assert (Hn1 : pu_now s1 = pu_now s) by (unfold pu_now; by rewrite Hsub).
  assert (Ht2 : session_ttl ((pu_bot s1) <| bt_now := pu_now s1 |>) pay = paymentTimeoutSeconds s).
  { unfold pay. rewrite <- Hn1. apply paying_ttl; [done|]. pose proof (timeout_positive s). rewrite Hn1. lia. }
  destruct (set_session s1 ext pay) as (t & Eset & A1 & A2 & A3 & A4 & A5); [rewrite Ht2; apply timeout_positive|].
  rewrite Ht2, Hn1 in A5. destruct (sendPaymentInformation_run c (pl_price plan) (pl_currency plan) (Some (paymentTimeoutSeconds s * 1000)) t cardNo cardOwner) as (u & Esend & [B1 B2 B3 B4 B5]);
    [by rewrite A1, Hsub | by rewrite A1, Hsub|].
  exists u. split.
  - unfold selectPlan, try_catch. rewrite run_bind, E, Ht, run_bind. unfold on_sub at 1, zoom, findPlan, gets. rewrite Hsub, Hp.
    rewrite Hty, (proj2 (eqb_true accountType accountType) eq_refl). cbn [negb]. rewrite run_bind. unfold get. cbv beta iota.
    change (linked_mobile (pu_sub (s1 <| pu_sub := pu_sub s |>)) ext) with (linked_mobile (pu_sub s) ext). rewrite Hm. cbv zeta.
    replace (s1 <| pu_sub := pu_sub s |>) with s1 by (rewrite <- Hsub; by destruct s1). rewrite Htm, Hn1, Hid. fold pay. rewrite run_bind, Eset, Esend. done.
  - split; [congruence|]. split; [congruence|]. split; [congruence|]. split; [congruence|]. rewrite B3, A5. apply lookup_insert_eq.
Qed.

(** The order of a plan, as it is built *)
Definition plan_order (x : sub_state) (ext mobile : text) (plan : SubscriptionPlan) : SubscriptionOrder := {|
  or_id := fresh_id (su_orders x); or_provider := communicationProviderOf ext; or_providerUserId := ext;
  or_phoneNumber := order_normalizePhone mobile; or_accountType := pl_accountType plan; or_subscriptionPlanId := pl_id plan;
  or_amount := pl_price plan; or_currency := pl_currency plan; or_status := WaitingForReceipt; or_createdUserId := None; or_approvedAt := None;
  or_approvedByUserId := None; or_rejectedAt := None; or_rejectionReason := None; or_createdAt := su_now x |}.

Lemma buildOrder_run x ext mobile plan :
  clean ext -> ext <> [] -> isValidIranMobile (order_normalizePhone mobile) = true -> su_plans x !! pl_id plan = Some plan ->
  buildOrder (mkOrderParams (communicationProviderOf ext) ext mobile (pl_accountType plan) (pl_id plan)) x = (Ok (plan_order x ext mobile plan), x).
Proof.
  intros Hc Hne Hm Hp. unfold buildOrder. cbn [op_providerUserId op_phoneNumber op_subscriptionPlanId op_accountType op_provider]. cbv zeta. rewrite Hc.
  rewrite run_bind. destruct ext as [|a ext]; [done|]. cbn [is_empty negb ensure]. rewrite run_ret, run_bind, Hm. cbn [ensure]. rewrite run_ret, run_bind.
  unfold findPlan, gets. cbv beta iota. rewrite Hp, run_bind. cbn [some_or]. rewrite run_ret, run_bind, (proj2 (eqb_true (pl_accountType plan) (pl_accountType plan)) eq_refl).
  done.
Qed.

(** The receipt of a new order, written *)
Lemma write_receipt_run ext file path s mobile plan :
  clean ext -> ext <> [] -> isValidIranMobile (order_normalizePhone mobile) = true -> su_plans (pu_sub s) !! pl_id plan = Some plan ->
  stored_file (communicationProviderOf ext) file = Ok path -> trim path <> [] ->
  order_fits (plan_order (pu_sub s) ext mobile plan) = true -> fits_varchar 500 file = true ->
  exists r t, write_receipt ext file (ForNew (mkOrderParams (communicationProviderOf ext) ext mobile (pl_accountType plan) (pl_id plan))) s = (Ok r, t) /\
    re_orderId r = or_id (plan_order (pu_sub s) ext mobile plan) /\ re_imageUrl r = path /\ re_status r = PendingAnalysis /\
    pu_bot t = pu_bot s /\ pu_now t = pu_now s /\ su_receipts (pu_sub t) !! re_id r = Some r /\
    su_orders (pu_sub t) = <[or_id (plan_order (pu_sub s) ext mobile plan) := (plan_order (pu_sub s) ext mobile plan) <| or_status := ReceiptSubmitted |>]> (su_orders (pu_sub s)).
Proof.
  intros Hc Hne Hm Hp Hst Hpath Hfit Hfile. eexists _, _. unfold write_receipt. rewrite run_bind, Hst. unfold of_outcome. unfold on_sub, zoom, submitReceipt.
  cbn [sp_newOrder sp_orderId sp_imageUrl sp_providerFileId]. rewrite run_bind. change (eqb false true) with false. cbn [negb ensure]. rewrite run_ret, run_bind.
  destruct (trim path) as [|a q] eqn:Et; [done|]. cbn [is_empty negb ensure]. rewrite run_ret, run_bind, run_bind.
  rewrite (buildOrder_run (pu_sub s) ext mobile plan Hc Hne Hm Hp), run_ret, run_bind. cbn [some_or]. rewrite run_ret, run_bind.
  change (is_final (or_status (plan_order (pu_sub s) ext mobile plan))) with false. cbn [negb ensure]. rewrite run_ret, run_bind. unfold get. cbv beta iota zeta.
  rewrite run_bind, saveWithOrder_run.
  match goal with |- context [order_fits ?o] => change (order_fits o) with (order_fits (plan_order (pu_sub s) ext mobile plan)) end. rewrite Hfit.
  match goal with |- context [receipt_fault ?r] => assert (Hr : receipt_fault r = None) by (unfold receipt_fault, receipt_fits; cbn; by rewrite Hfile) end.
  rewrite Hr. split; [reflexivity|]. split; [done|]. split; [done|]. split; [done|]. split; [done|]. split; [done|]. split; [apply lookup_insert_eq | done].
Qed.

(** A messenger account that may choose a plan: its session has chosen the kind, the plan is
    of it, its user has a mobile number, the card to pay to is set, and no order is open *)
Record ready_to_buy (s : purchase_state) (ext : text) (plan : SubscriptionPlan) (mobile : text) : Prop := {
  rd_session : exists se, result (on_session (session_getOrCreate ext)) s = Ok se /\ bs_accountType se = Some (pl_accountType plan);
  rd_plan : su_plans (pu_sub s) !! pl_id plan = Some plan;
  rd_mobile : linked_mobile (pu_sub s) ext = Some mobile;
  rd_valid : isValidIranMobile (order_normalizePhone mobile) = true;
  rd_cardNo : is_Some (rc_cardNo (su_config (pu_sub s)));
  rd_cardOwner : is_Some (rc_cardOwner (su_config (pu_sub s)));
  rd_clean : clean ext;
  rd_name : ext <> [];
  rd_closed : no_open s ext;
  rd_now : 0 <= pu_now s;
  rd_ttl : 0 < bt_ttlSeconds (pu_bot s);
  rd_fits : order_fits (plan_order (pu_sub s) ext mobile plan) = true;
}.

(** [d] milliseconds later *)
Definition later (d : Z) (s : purchase_state) : purchase_state := s <| pu_sub := (pu_sub s) <| su_now := su_now (pu_sub s) + d |> |>.

(** A photo taken: a session that waits, no lock of another one *)
Lemma receipt_target_run c ext s p pay :
  has_session s ext pay -> fixed_end pay = true -> bs_state pay = SessWaitingForReceipt -> bs_orderId pay = None -> new_order_params ext pay = Some p -> no_open s ext ->
  exists t, receipt_target c ext s = (Ok (Some (ForNew p)), t) /\ alike s t.
Proof.
  intros Hses Hfix Hst Ho Hp Hno. destruct (get_fixed s ext pay Hses Hfix) as (t & Eg & At). unfold receipt_target. rewrite run_bind, Eg, Hst.
  change (eqb SessWaitingForReceipt SessWaitingForReceipt) with true. cbn [negb]. unfold try_catch. rewrite run_bind, Ho. unfold on_sub at 1, zoom.
  rewrite (al_sub s t At).
  destruct (findOrderForTracking (communicationProviderOf ext) ext (pu_sub s)) as [r x] eqn:Ef.
  pose proof (reads_run _ _ _ _ (reads_findOrderForTracking _ _) Ef) as ->. rewrite <- (al_sub s t At).
  replace (t <| pu_sub := pu_sub t |>) with t by (by destruct t).
  assert (Hr : exists pending, r = Ok pending /\ forall o, pending = Some o -> is_final (or_status o) = true).
  { unfold findOrderForTracking, findPendingByProviderUser, findLatestByProviderUser, gets in Ef. rewrite run_bind in Ef. cbv beta iota in Ef.
    set (rows := find_rows _ _) in Ef. destruct (latest_order rows) as [q|] eqn:El.
    - exfalso. apply latest_order_In, elem_of_find_rows in El as [Hq (i & Hi)]. pose proof (Hno i q Hi) as Hf. unfold open_of in Hf. by rewrite Hq in Hf.
    - injection Ef as <-. eexists. split; [reflexivity|]. intros o Hl. apply latest_order_In, elem_of_find_rows in Hl as [Hq (i & Hi)].
      pose proof (Hno i o Hi) as Hf. unfold open_of in Hf. rewrite Hq in Hf. by apply negb_false_iff in Hf. }
  destruct Hr as (pending & -> & Hfin). assert (Hrec : receipt_received c ext pay None t = (Ok (Some (ForNew p)), final (tell c (PuText "payment.receiptReceived")) t))
    by (unfold receipt_received; by rewrite Hp).
  exists (final (tell c (PuText "payment.receiptReceived")) t). split; [|exact (alike_trans _ _ _ At (alike_tell t c _))].
  destruct pending as [o|]; [|by rewrite Hrec]. specialize (Hfin o eq_refl). destruct (or_status o); try discriminate Hfin; decide_eqb_goal; by rewrite Hrec.
Qed.

(** The session of an order under review, kept as long as any other *)
Lemma review_run ext i s pay :
  has_session s ext pay -> fixed_end pay = true -> 0 < bt_ttlSeconds (pu_bot s) ->
  exists t se e, on_session (session_update ext (fun se => ((se <| bs_state := SessUnderReview |>) <| bs_orderId := Some i |>) <| bs_expiresAt := None |>)) s = (Ok se, t) /\
    pu_sub t = pu_sub s /\ bt_receiptLocks (pu_bot t) = bt_receiptLocks (pu_bot s) /\
    bt_sessions (pu_bot t) !! ext = Some (se, e) /\ bs_state se = SessUnderReview /\ bs_orderId se = Some i /\ bs_expiresAt se = None.
Proof.
  intros (e & He & Hle) Hf Httl. unfold on_session, zoom, session_update, session_get. rewrite run_bind, run_bind. unfold get. cbv beta iota.
  change (redis_get (bt_sessions ((pu_bot s) <| bt_now := pu_now s |>)) (bt_now ((pu_bot s) <| bt_now := pu_now s |>)) ext)
    with (redis_get (bt_sessions (pu_bot s)) (pu_now s) ext).
  rewrite (proj2 (redis_get_Some _ _ _ pay) (ex_intro _ e (conj He Hle))), Hf, run_ret. cbv zeta. rewrite run_bind. unfold session_set, modify, session_put. cbv zeta.
  cbn [default]. set (se := _ <| bs_expiresAt := None |>).
  change (session_ttl ((pu_bot s) <| bt_now := pu_now s |>) se) with (bt_ttlSeconds (pu_bot s)). rewrite (proj2 (Z.leb_gt _ _) Httl).
  eexists _, se, _. split; [reflexivity|]. split; [done|]. split; [done|]. split; [apply lookup_insert_eq|]. done.
Qed.

(** A lock nobody has, and its release *)
Lemma take_free ext n s se :
  redis_get (bt_receiptLocks (pu_bot s)) (pu_now s) ext = None -> has_session s ext se ->
  exists t, on_session (take_receipt_lock ext n) s = (Ok true, t) /\ pu_sub t = pu_sub s /\
    bt_receiptLocks (pu_bot t) = <[ext := (n, pu_now s + RECEIPT_LOCK_SECONDS * 1000)]> (bt_receiptLocks (pu_bot s)) /\
    has_session t ext se /\ bt_ttlSeconds (pu_bot t) = bt_ttlSeconds (pu_bot s).
Proof.
  intros Hl Hse. unfold on_session, zoom, take_receipt_lock. eexists. rewrite run_bind. unfold get. cbv beta iota.
  change (redis_get (bt_receiptLocks ((pu_bot s) <| bt_now := pu_now s |>)) (bt_now ((pu_bot s) <| bt_now := pu_now s |>)) ext)
    with (redis_get (bt_receiptLocks (pu_bot s)) (pu_now s) ext).
  rewrite Hl. split; [reflexivity|]. done.
Qed.

Lemma release_free ext n s :
  holds_lock s ext n -> exists t, on_session (release_receipt_lock ext n) s = (Ok tt, t) /\ pu_sub t = pu_sub s /\ bt_sessions (pu_bot t) = bt_sessions (pu_bot s).
Proof.
  intros Hl. eexists. unfold on_session, zoom, release_receipt_lock. rewrite run_bind. unfold get. cbv beta iota.
  change (redis_get (bt_receiptLocks ((pu_bot s) <| bt_now := pu_now s |>)) (bt_now ((pu_bot s) <| bt_now := pu_now s |>)) ext)
    with (redis_get (bt_receiptLocks (pu_bot s)) (pu_now s) ext).
  unfold holds_lock in Hl. rewrite Hl, bool_decide_true by done. split; [reflexivity|]. done.
Qed.

(** A photo of a session that waits: the order, its receipt, the session *)
Lemma photo_makes_order ext file path s plan mobile pay m owner :
  has_session s ext pay -> fixed_end pay = true -> bs_state pay = SessWaitingForReceipt -> bs_orderId pay = None ->
  new_order_params ext pay = Some (mkOrderParams (communicationProviderOf ext) ext mobile (pl_accountType plan) (pl_id plan)) ->
  clean ext -> ext <> [] -> isValidIranMobile (order_normalizePhone mobile) = true -> su_plans (pu_sub s) !! pl_id plan = Some plan -> no_open s ext ->
  0 < bt_ttlSeconds (pu_bot s) -> order_fits (plan_order (pu_sub s) ext mobile plan) = true ->
  rm_from m = Some ext -> getImageFileId m = Some file -> fits_varchar 500 file = true ->
  stored_file (communicationProviderOf ext) file = Ok path -> trim path <> [] -> redis_get (bt_receiptLocks (pu_bot s)) (pu_now s) ext = None ->
  let order := plan_order (pu_sub s) ext mobile plan in
  exists t r se e, handleReceipt m owner s = (Ok true, t) /\
    su_orders (pu_sub t) = <[or_id order := order <| or_status := ReceiptSubmitted |>]> (su_orders (pu_sub s)) /\
    su_receipts (pu_sub t) !! re_id r = Some r /\ re_orderId r = or_id order /\ re_imageUrl r = path /\ re_status r = PendingAnalysis /\
    bt_sessions (pu_bot t) !! ext = Some (se, e) /\ bs_state se = SessUnderReview /\ bs_orderId se = Some (or_id order) /\ bs_expiresAt se = None.
Proof.
  intros Hpay Hfix Hst Ho Hparams Hclean Hname Hval Hplan Hclosed Httl Hord Hfrom Hfile Hfits Hpath Htrim Hlock order.
  destruct (get_fixed s ext pay Hpay Hfix) as (s3 & E3 & B3).
  destruct (take_free ext owner s3 pay) as (s4 & E4 & C1 & C2 & D4 & Dttl); [unfold pu_now; by rewrite (al_locks _ _ B3), (al_sub _ _ B3) | exact (alike_has_session s s3 ext pay B3 Hpay)|].
  assert (Hsub4 : pu_sub s4 = pu_sub s) by (rewrite C1; apply (al_sub _ _ B3)).
  assert (Hno4 : no_open s4 ext) by (intros i o Hi; rewrite Hsub4 in Hi; by apply (Hclosed i o)).
  destruct (receipt_target_run (rm_chat m) ext s4 _ pay D4 Hfix Hst Ho Hparams Hno4) as (s5 & E5 & B5).
  assert (Hsub5 : pu_sub s5 = pu_sub s) by (rewrite (al_sub _ _ B5); exact Hsub4).
  destruct (write_receipt_run ext file path s5 mobile plan Hclean Hname Hval) as (r & s6 & E6 & F1 & F2 & F3 & F4 & F5 & F6 & F7);
    [by rewrite Hsub5 | exact Hpath | exact Htrim | by rewrite Hsub5 | exact Hfits|]. rewrite Hsub5 in F1, F7.
  assert (D6 : has_session s6 ext pay) by (destruct (alike_has_session s4 s5 ext pay B5 D4) as (e & He & Hle); exists e; rewrite F4, F5; by split).
  destruct (review_run ext (re_orderId r) s6 pay D6 Hfix) as (s7 & se & e & E7 & G1 & G2 & G3 & G4 & G5 & G6); [rewrite F4, (al_ttl _ _ B5), Dttl, (al_ttl _ _ B3); exact Httl|].
  set (s8 := final (tell (rm_chat m) (PuText "payment.underReview")) s7).
  assert (Hl8 : holds_lock s8 ext owner).
  { unfold holds_lock. change (redis_get (bt_receiptLocks (pu_bot s7)) (pu_now s7) ext = Some owner). unfold pu_now. rewrite G2, G1, F4, (al_locks _ _ B5), C2.
    change (su_now (pu_sub s6)) with (pu_now s6). rewrite F5. unfold pu_now. rewrite (al_sub _ _ B5), C1. by refine (redis_get_set _ _ _ _ RECEIPT_LOCK_SECONDS _). }
  destruct (release_free ext owner s8 Hl8) as (s9 & E9 & K1 & K2).
  exists s9, r, se, e. split.
  - unfold handleReceipt. rewrite Hfrom, run_bind, E3, Hst. change (eqb SessWaitingForReceipt SessWaitingForReceipt) with true. cbv iota.
    rewrite Hfile, run_bind, E4, run_bind. unfold try_finally, processReceipt. rewrite run_bind, E5.
    unfold receipt_submit, try_catch. rewrite run_bind, E6, run_bind, E7. unfold tell at 1, modify at 1. cbv beta iota. fold s8.
    change (final (tell (rm_chat m) (PuText "payment.underReview")) s7) with s8 in E9. unfold s8 in E9. unfold final, tell, modify in E9. cbn [snd] in E9. rewrite E9. done.
  - rewrite K1, K2. change (pu_sub s8) with (pu_sub s7). change (bt_sessions (pu_bot s8)) with (bt_sessions (pu_bot s7)). rewrite G1.
    split; [exact F7|]. split; [exact F6|]. split; [exact F1|]. split; [exact F2|]. split; [exact F3|]. split; [exact G3|]. split; [exact G4|].
    split; [by rewrite G5, F1 | exact G6].
Qed.

(** A receipt sent in time makes the order: after a plan is chosen, a photo sent before the
    time to pay is over makes one order, with the price the plan has when the photo comes, the
    number of the user and the kind it chose, a receipt with the photo that waits to be read,
    and a session that no longer ends with the payment. *)
Theorem receipt_makes_order (c ext file path : text) (s : purchase_state) (plan : SubscriptionPlan) (mobile : text) (d : Z) (m : ReceiptMessage) (owner : N)
    (Hready : ready_to_buy s ext plan mobile) (Hd : 0 <= d <= paymentTimeoutSeconds s * 1000)
    (Hfrom : rm_from m = Some ext) (Hfile : getImageFileId m = Some file) (Hfits : fits_varchar 500 file = true)
    (Hpath : stored_file (communicationProviderOf ext) file = Ok path /\ trim path <> [])
    (Hlock : redis_get (bt_receiptLocks (pu_bot s)) (pu_now s + d) ext = None) :
  let s2 := later d (final (selectPlan c ext (pl_id plan)) s) in
  let t := final (handleReceipt m owner) s2 in
  let order := (plan_order (pu_sub s2) ext mobile plan) <| or_status := ReceiptSubmitted |> in
  result (handleReceipt m owner) s2 = Ok true /\
  su_orders (pu_sub t) = <[or_id order := order]> (su_orders (pu_sub s)) /\
  (exists r, su_receipts (pu_sub t) !! re_id r = Some r /\ re_orderId r = or_id order /\ re_imageUrl r = path /\ re_status r = PendingAnalysis) /\
  (exists se e, bt_sessions (pu_bot t) !! ext = Some (se, e) /\ bs_state se = SessUnderReview /\ bs_orderId se = Some (or_id order) /\ bs_expiresAt se = None).
Proof.
  destruct Hready as [(se0 & Hg & Hty) Hplan Hmob Hval [cardNo Hno] [cardOwner Hown] Hclean Hname Hclosed Hnow Httl Hord]. destruct Hpath as [Hst Htrim].
  destruct (selectPlan_run c ext (pl_id plan) s se0 (pl_accountType plan) plan mobile cardNo cardOwner Hg Hty Hplan eq_refl eq_refl Hmob Hno Hown Hnow)
    as (s1 & E1 & A1 & A2 & A3 & A4 & A5). set (pay := paying_session _ _ _ _) in A5.
  assert (Es1 : final (selectPlan c ext (pl_id plan)) s = s1) by (unfold final; by rewrite E1). cbv zeta. rewrite Es1. set (s2 := later d s1). assert (Hs2 : pu_sub s2 = (pu_sub s) <| su_now := su_now (pu_sub s) + d |>) by (change (pu_sub s2) with ((pu_sub s1) <| su_now := su_now (pu_sub s1) + d |>); by rewrite A1).
  assert (Hn2 : pu_now s2 = pu_now s + d) by (unfold pu_now; by rewrite Hs2).
  assert (Hpay : has_session s2 ext pay) by (exists (pu_now s + paymentTimeoutSeconds s * 1000); split; [exact A5 | lia]).
  assert (Hfix : fixed_end pay = true) by (pose proof (timeout_positive s); apply (fixed_end_Some pay (pu_now s + paymentTimeoutSeconds s * 1000)); [done | lia]).
  assert (Hparams : new_order_params ext pay = Some (mkOrderParams (communicationProviderOf ext) ext mobile (pl_accountType plan) (pl_id plan))).
  { unfold new_order_params. cbn. destruct mobile as [|a mo]; [|done]. exfalso. unfold linked_mobile in Hmob.
    destruct (List.find _ _); [|done]. destruct (su_users _ !! _); [|done]. destruct (us_mobile _) as [mm|]; [|done]. by destruct mm. }
  destruct (photo_makes_order ext file path s2 plan mobile pay m owner) as (t & r & se & e & Erun & R1 & R2 & R3 & R4 & R5 & R6); try done.
  - by rewrite Hs2.
  - intros i o Hi. rewrite Hs2 in Hi. by apply (Hclosed i o).
  - change (0 < bt_ttlSeconds (pu_bot s1)). by rewrite A4.
  - rewrite Hn2. change (bt_receiptLocks (pu_bot s2)) with (bt_receiptLocks (pu_bot s1)). by rewrite A3.
  - unfold result, final. rewrite Erun. cbn [fst snd]. split; [done|]. split; [rewrite R1, Hs2; done|]. split; [by exists r | by exists se, e].
Qed.
End Making.

(** ** A driver buys on Telegram *)

Definition sample_files : ReceiptFiles := {| stored_file _ file := Ok (js "/private/" ++ file) |}.
#[local] Existing Instance sample_files.

Definition sample_plan : SubscriptionPlan := mkPlan 7 (js "ماهانه") AccDriver 30 500000 "IRT" RecActive 1.

Definition sample_shop : purchase_state := {|
  pu_sub := {| su_now := 1000000; su_config := mkReceiptConfig (Some (js "6037")) (Some (js "A")) None None;
               su_plans := {[7%N := sample_plan]}; su_orders := ∅; su_receipts := ∅; su_subscriptions := ∅; su_bonuses := ∅;
               su_users := {[1%N := mkUser 1 (js "a") (Some (js "09121234567")) RecActive false 0]}; su_roles := ∅; su_userRoles := ∅;
               su_links := [mkLink (js "42") 1]; su_policy := mkPolicyState 1000000 true None true None ∅; su_announced := [] |};
  pu_bot := mkBotStore 1000000 86400 ∅ ∅; pu_timeout := None; pu_said := [] |}.

Definition sample_photo : ReceiptMessage := mkReceiptMessage (Some (js "42")) (js "42") [js "small"; js "large"] None.

(** The driver chooses, sends the photo ten minutes less a second later, and chooses and
    sends one again. *)
Definition sample_kind : purchase_state := final (act (ActType (js "42") (js "42") AccDriver)) sample_shop.
Definition sample_chosen : purchase_state := final (act (ActPlan (js "42") (js "42") 7)) sample_kind.
Definition sample_waited : purchase_state := later 599000 sample_chosen.
Definition sample_sent : purchase_state := final (handleReceipt sample_photo 0) sample_waited.
Definition sample_kind_again : purchase_state := final (act (ActType (js "42") (js "42") AccDriver)) sample_sent.
Definition sample_chosen_again : purchase_state := final (act (ActPlan (js "42") (js "42") 7)) sample_kind_again.
Definition sample_purchase : purchase_state := final (handleReceipt sample_photo 1) sample_chosen_again.

Lemma sample_shop_empty : nothing_bought sample_shop.
Proof. split; [|done]. intros i o Hi. discriminate Hi. Defined.

Lemma sample_purchase_reached : rtc purchase_step (mkPurchaseSystem sample_shop [] 0) (mkPurchaseSystem sample_purchase [] 2).
Proof.
  assert (Hc : forall ext, rm_from sample_photo = Some ext -> clean ext) by (intros ext [= <-]; vm_compute; reflexivity).
  eapply rtc_l; [exact (ps_act (ActType (js "42") (js "42") AccDriver) sample_shop [] 0)|]. fold sample_kind.
  eapply rtc_l; [exact (ps_act (ActPlan (js "42") (js "42") 7) sample_kind [] 0)|]. fold sample_chosen.
  eapply rtc_l; [exact (ps_time 599000 sample_chosen [] 0 ltac:(discriminate))|]. change (_ <| pu_sub := _ |>) with sample_waited.
  eapply rtc_l; [exact (ps_message sample_photo sample_waited [] 0 Hc)|]. fold sample_sent.
  eapply rtc_l; [exact (ps_act (ActType (js "42") (js "42") AccDriver) sample_sent [] 1)|]. fold sample_kind_again.
  eapply rtc_l; [exact (ps_act (ActPlan (js "42") (js "42") 7) sample_kind_again [] 1)|]. fold sample_chosen_again.
  eapply rtc_l; [exact (ps_message sample_photo sample_chosen_again [] 1 Hc)|]. fold sample_purchase. apply rtc_refl.
Defined.

Lemma one_open_order_witness :
  map (fun p => (p.1, or_status p.2, or_amount p.2)) (map_to_list (su_orders (pu_sub sample_purchase))) = [(1%N, ReceiptSubmitted, 500000)] /\
  ~ exists i j o q, i <> j /\ su_orders (pu_sub sample_purchase) !! i = Some o /\ su_orders (pu_sub sample_purchase) !! j = Some q /\
      open_of (js "42") o = true /\ open_of (js "42") q = true.
Proof.
  split; [vm_compute; reflexivity|]. intros (i & j & o & q & Hij & Hi & Hj & Ho & Hq). apply Hij.
  exact (one_open_order sample_shop (mkPurchaseSystem sample_purchase [] 2) (js "42") i j o q sample_shop_empty sample_purchase_reached Hi Hj Ho Hq).
Defined.

Definition sample_params : CreateSubscriptionOrderParams := mkOrderParams ProvTelegram (js "42") (js "09121234567") AccDriver 7.

Lemma new_order_in_time_witness :
  exists se t, result (on_session (session_get (js "42"))) sample_waited = Ok (Some se) /\ new_order_params (js "42") se = Some sample_params /\
    bs_expiresAt se = Some t /\ pu_now sample_waited < t + 1000.
Proof.
  apply (new_order_in_time sample_shop (mkPurchaseSystem sample_waited [] 0) (js "42") (js "42") sample_params (final (receipt_target (js "42") (js "42")) sample_waited)).
  - split; [reflexivity | vm_compute; discriminate].
  - eapply rtc_l; [exact (ps_act (ActType (js "42") (js "42") AccDriver) sample_shop [] 0)|]. fold sample_kind.
    eapply rtc_l; [exact (ps_act (ActPlan (js "42") (js "42") 7) sample_kind [] 0)|]. fold sample_chosen.
    eapply rtc_l; [exact (ps_time 599000 sample_chosen [] 0 ltac:(discriminate))|]. change (_ <| pu_sub := _ |>) with sample_waited. apply rtc_refl.
  - vm_compute. reflexivity.
Defined.

Lemma sample_kind_ready : ready_to_buy sample_kind (js "42") sample_plan (js "09121234567").
Proof.
  constructor; try (vm_compute; reflexivity); try discriminate.
  - exists (idle_session <| bs_state := SessSelectingPlan |> <| bs_accountType := Some AccDriver |>). split; vm_compute; reflexivity.
  - exists (js "6037"). vm_compute. reflexivity.
  - exists (js "A"). vm_compute. reflexivity.
Defined.

Lemma receipt_makes_order_witness :
  result (handleReceipt sample_photo 0) (later 599000 (final (selectPlan (js "42") (js "42") 7) sample_kind)) = Ok true /\
  map (fun p => or_status p.2) (map_to_list (su_orders (pu_sub (final (handleReceipt sample_photo 0) (later 599000 (final (selectPlan (js "42") (js "42") 7) sample_kind)))))) = [ReceiptSubmitted].
Proof.
  split; [|vm_compute; reflexivity].
  refine (proj1 (receipt_makes_order (js "42") (js "42") (js "large") (js "/private/large") sample_kind sample_plan (js "09121234567") 599000 sample_photo 0
    sample_kind_ready _ eq_refl eq_refl eq_refl _ _)); [vm_compute; split; discriminate | split; [reflexivity | discriminate] | vm_compute; reflexivity].
Defined.
