(* ===== verification/MessengerAccess.v ===== *)
(** * Whose messenger account it is

    [src/services/messengerBot/core/botAccess.service.ts] with [botIdentity.service.ts],
    [messengerLinkCode.service.ts], [BotLinkRepository.ts] and the code of the web panel
    ([eitaaLink.controller.ts]): a messenger account is tied to the account of the number
    its owner shares, or of the code its owner was shown on the web; an invited number
    becomes what it was invited as. *)

From S2P Require Import Prelude JsNumber JsString Json Effects Redis Enums Phone DriverProfile BrokerAccess CompanyFeatures Accounts Invites BotSessions.

(** ** State *)

(** [BotLink] *)
Record BotLink := mkBotLink {
  bl_id : uuid;
  bl_externalUserId : text;
  bl_chatId : text;
  bl_platform : BotPlatform;
  bl_userId : uuid;
  bl_username : option text;
  bl_firstName : option text;
  bl_lastName : option text;
  bl_lastInteractionAt : option time;
}.

(** What the bot says: the key of a text and what is put into it, the button that shares the
    phone number, the kinds of account to choose from, the menu *)
Inductive BotSaid :=
| SaysText (key : string) (args : list text)
| SaysWelcome (kind : InviteKind) (inviter : uuid)
| AsksContact (key : string)
| AsksType (types : list AccountType)
| ShowsMenu (roles : option (list string)).

(** The store has one table per kind of key: the user of a messenger account, its roles, its
    lock, the invitation it came with, the codes of the web panel, the code of a user, and
    the wrong codes of a messenger account. *)
Record access_state := mkAccess {
  xs_acc : account_state;
  xs_bot : bot_store;
  xs_links : gmap uuid BotLink;
  xs_identity : gmap text (uuid * time);
  xs_roles : gmap text (list string * time);
  xs_locks : gmap text (N * time);
  xs_invites : gmap text (MessengerInvite * time);
  xs_codes : gmap (BotPlatform * text) (uuid * time);
  xs_userCodes : gmap (BotPlatform * uuid) (text * time);
  xs_attempts : gmap text (Z * time);
  xs_said : list (text * BotSaid);
}.

Abbreviation XM := (M access_state).

Definition xs_now (s : access_state) : time := ac_now (xs_acc s).

Definition on_acc {A} (m : AM A) : XM A := zoom xs_acc (fun a s => s <| xs_acc := a |>) m.

(** The sessions go by the same clock. *)
Definition on_bot {A} (m : BSM A) : XM A :=
  zoom (fun s => (xs_bot s) <| bt_now := xs_now s |>) (fun b s => s <| xs_bot := b |>) m.

Definition say (chatId : text) (x : BotSaid) : XM unit := modify (fun s => s <| xs_said := xs_said s ++ [(chatId, x)] |>).

Definition CODE_TTL_SECONDS : Z := 10 * 60.
Definition MAX_CODE_ATTEMPTS : Z := 5.
Definition ATTEMPTS_WINDOW_SECONDS : Z := 10 * 60.
Definition ACCESS_LOCK_TTL_SECONDS : Z := 120.
Definition INVITE_TTL_SECONDS : Z := 3600.
Definition IDENTITY_TTL_SECONDS : Z := 86400.
Definition ROLES_TTL_SECONDS : Z := 5 * 60.

(** ** [BotLinkRepository] *)

Definition find_link (s : access_state) (ext : text) : option BotLink :=
  find_row (fun l => bool_decide (bl_externalUserId l = ext)) (xs_links s).

Definition find_link_of (s : access_state) (userId : uuid) (platform : BotPlatform) : option BotLink :=
  find_row (fun l => (bl_userId l =? userId)%N && bool_decide (bl_platform l = platform)) (xs_links s).

(** The unique column and [UQ_BotLink_UserId_Platform] *)
Definition link_clash (l o : BotLink) : bool :=
  negb (bl_id o =? bl_id l)%N
  && (bool_decide (bl_externalUserId o = bl_externalUserId l)
      || (bl_userId o =? bl_userId l)%N && bool_decide (bl_platform o = bl_platform l)).

Definition link_fits (l : BotLink) : bool :=
  fits_varchar 100 (bl_externalUserId l) && fits_varchar 100 (bl_chatId l) && column_fits 100 (bl_username l)
  && column_fits 150 (bl_firstName l) && column_fits 150 (bl_lastName l).

(** The row with its messenger; its account knows that somebody uses it ([ac_botLinks]). *)
Definition put_link (l : BotLink) (s : access_state) : access_state :=
  s <| xs_links := <[bl_id l := l]> (xs_links s) |>
    <| xs_acc := (xs_acc s) <| ac_botLinks := bl_userId l :: ac_botLinks (xs_acc s) |> |>.

Definition save_link (entity : BotLink) : XM BotLink :=
  let l := entity <| bl_platform := botPlatformOf (bl_externalUserId entity) |> in
  ensure (link_fits l) TOO_LONG ;;
  s ← get;
  ensure (is_some (findById (xs_acc s) (bl_userId l))) (QueryFailed "23503") ;;
  ensure (negb (exists_row (link_clash l) (xs_links s))) UNIQUE_VIOLATION ;;
  modify (put_link l) ;;
  mret l.

(** What a messenger says of its user *)
Record BotIdentityMetadata := mkMetadata {
  md_externalUserId : text;
  md_chatId : text;
  md_username : option text;
  md_firstName : option text;
  md_lastName : option text;
}.

Definition new_link (s : access_state) (m : BotIdentityMetadata) (userId : uuid) : BotLink := {|
  bl_id := fresh_id (xs_links s); bl_externalUserId := md_externalUserId m; bl_chatId := md_chatId m; bl_platform := PlatTelegram;
  bl_userId := userId; bl_username := md_username m; bl_firstName := md_firstName m; bl_lastName := md_lastName m;
  bl_lastInteractionAt := Some (xs_now s) |}.

(** The row brought up to date with what the messenger says *)
Definition touched (s : access_state) (m : BotIdentityMetadata) (l : BotLink) : BotLink :=
  l <| bl_chatId := md_chatId m |> <| bl_username := md_username m |> <| bl_firstName := md_firstName m |>
    <| bl_lastName := md_lastName m |> <| bl_lastInteractionAt := Some (xs_now s) |>.

(** [createUserWithLink] *)
Definition createUserWithLink (phone : text) (m : BotIdentityMetadata) : XM BotLink :=
  transaction (
    s ← get;
    saved ← on_acc (insert_account (new_account (xs_acc s) phone));
    save_link (new_link s m (a_id saved))).

(** [assignInitialRole]: the first role of an account *)
Definition unchecked_account (u : Account) : Account := u <| a_verificationStatus := VerNone |>.

Definition link_initialRole (ext : text) (accountType : AccountType) : XM uuid :=
  transaction (
    s ← get;
    link ← some_or (find_link s ext) (notFound "Messenger account is not linked.");
    user ← some_or (match findById (xs_acc s) (bl_userId link) with
                    | Some u => if eqb (a_recordStatus u) RecActive then Some u else None
                    | None => None end)
             (notFound "Active user not found.");
    match role_names (xs_acc s) (a_id user) with
    | _ :: _ => mret (a_id user)
    | [] =>
        ensure (role_active (xs_acc s) (account_role accountType)) (notFound "Active account role not found.") ;;
        on_acc (add_role (a_id user) (account_role accountType)) ;;
        on_acc (modify (put_account (unchecked_account user))) ;;
        mret (a_id user)
    end).

(** ** [BotIdentityService] *)

Definition cacheUserId (ext : text) (userId : uuid) : XM unit :=
  modify (fun s => s <| xs_roles := delete ext (xs_roles s) |>
                     <| xs_identity := redis_set (xs_identity s) (xs_now s) ext userId IDENTITY_TTL_SECONDS |>).

Definition cache_roles (ext : text) (roles : list string) : XM unit :=
  modify (fun s => s <| xs_roles := redis_set (xs_roles s) (xs_now s) ext roles ROLES_TTL_SECONDS |>).

(** [link.user] *)
Definition link_user (s : access_state) (l : BotLink) : option Account := findById (xs_acc s) (bl_userId l).

Definition getMenuRoles (ext : text) : XM (option (list string)) :=
  s ← get;
  match redis_get (xs_roles s) (xs_now s) ext with
  | Some roles => mret (Some roles)
  | None =>
      match find_link s ext with
      | Some l =>
          match link_user s l with
          | Some u => cache_roles ext (active_roles (xs_acc s) (a_id u)) ;; mret (Some (active_roles (xs_acc s) (a_id u)))
          | None => mret None
          end
      | None => mret None
      end
  end.

Definition getUserId (ext : text) : XM (option uuid) :=
  s ← get;
  match redis_get (xs_identity s) (xs_now s) ext with
  | Some userId => mret (Some userId)
  | None =>
      match find_link s ext with
      | Some l =>
          cacheUserId ext (bl_userId l) ;;
          match link_user s l with Some u => cache_roles ext (active_roles (xs_acc s) (a_id u)) | None => mret tt end ;;
          mret (Some (bl_userId l))
      | None => mret None
      end
  end.

Definition isRegistered (ext : text) : XM bool := id ← getUserId ext; mret (is_some id).

(** [forgetRoles] *)
Definition forgetRoles (userId : uuid) : XM unit :=
  modify (fun s => s <| xs_roles := foldr (fun l m => delete (bl_externalUserId l) m) (xs_roles s)
                                      (find_rows (fun l => (bl_userId l =? userId)%N) (xs_links s)) |>).

(** [touch] *)
Definition touch (m : BotIdentityMetadata) : XM (option BotLink) :=
  s ← get;
  match find_link s (md_externalUserId m) with
  | None => mret None
  | Some l => saved ← save_link (touched s m l); mret (Some saved)
  end.

Definition LINKED_TO_OTHER : exn := conflict "Messenger account is already linked.".
Definition USER_LINKED : exn := conflict "User is already linked to another account on this messenger.".

(** [linkUser]: its checks, then its write *)
Definition link_checks (ext : text) (userId : uuid) : XM (option BotLink) :=
  s ← get;
  let link := find_link s ext in
  ensure (match link with Some l => (bl_userId l =? userId)%N | None => true end) LINKED_TO_OTHER ;;
  ensure (match find_link_of s userId (botPlatformOf ext) with Some o => bool_decide (bl_externalUserId o = ext) | None => true end) USER_LINKED ;;
  mret link.

Definition link_write (m : BotIdentityMetadata) (userId : uuid) (link : option BotLink) : XM BotLink :=
  s ← get;
  saved ← save_link (match link with Some l => touched s m (l <| bl_userId := userId |>) | None => new_link s m userId end);
  cacheUserId (md_externalUserId m) userId ;;
  mret saved.

Definition linkUser (m : BotIdentityMetadata) (userId : uuid) : XM BotLink :=
  link ← link_checks (md_externalUserId m) userId;
  link_write m userId link.

(** ** [MessengerLinkCodeService] *)

(** [create]: draws until a code is free; [None] when all of [draws] are taken *)
Fixpoint draw_code (platform : BotPlatform) (userId : uuid) (draws : list text) : XM (option text) :=
  match draws with
  | [] => mret None
  | code :: draws =>
      s ← get;
      if is_null (redis_get (xs_codes s) (xs_now s) (platform, code)) then
        modify (fun s => s <| xs_codes := redis_set (xs_codes s) (xs_now s) (platform, code) userId CODE_TTL_SECONDS |>
                           <| xs_userCodes := redis_set (xs_userCodes s) (xs_now s) (platform, userId) code CODE_TTL_SECONDS |>) ;;
        mret (Some code)
      else draw_code platform userId draws
  end.

Definition create_code (platform : BotPlatform) (userId : uuid) (draws : list text) : XM (option text) :=
  s ← get;
  match redis_get (xs_userCodes s) (xs_now s) (platform, userId) with
  | Some previous => modify (fun s => s <| xs_codes := delete (platform, previous) (xs_codes s) |>)
  | None => mret tt
  end ;;
  draw_code platform userId draws.

(** [POST link-code] of [EitaaLinkController]; the account of the system on Eitaa is a setting *)
Definition web_linkCode (eitaaAccount : option text) (userId : option uuid) (draws : list text) : XM (option text) :=
  ensure (is_some eitaaAccount) (notFound "ایتا فعال نیست.") ;;
  userId ← some_or userId (unauthorized "Unauthorized");
  create_code PlatEitaa userId draws.

Inductive ConsumeResult := CodeLimited | CodeWrong | CodeOf (userId : uuid).

(** [consume] *)
Definition consume_code (platform : BotPlatform) (ext code : text) : XM ConsumeResult :=
  s ← get;
  if match redis_get (xs_attempts s) (xs_now s) ext with Some n => MAX_CODE_ATTEMPTS <=? n | None => false end then mret CodeLimited
  else
    match redis_get (xs_codes s) (xs_now s) (platform, code) with
    | None =>
        modify (fun s => s <| xs_attempts := redis_increment (xs_attempts s) (xs_now s) ext ATTEMPTS_WINDOW_SECONDS |>) ;;
        mret CodeWrong
    | Some userId =>
        modify (fun s => s <| xs_codes := delete (platform, code) (xs_codes s) |>
                           <| xs_userCodes := delete (platform, userId) (xs_userCodes s) |>
                           <| xs_attempts := delete ext (xs_attempts s) |>) ;;
        mret (CodeOf userId)
    end.

(** ** [BotAccessService] *)

(** [TelegramBot.Contact] and what an update brings: the chat, who wrote, a text or a shared
    contact, or the button pressed *)
Record Contact := mkContact { ct_phone_number : text; ct_user_id : option text }.

Record BotUpdate := mkUpdate {
  up_private : bool;
  up_from : BotIdentityMetadata;
  up_text : option text;
  up_contact : option Contact;
  up_callback : option text;
}.

Definition up_ext (u : BotUpdate) : text := md_externalUserId (up_from u).

Definition account_button (t : AccountType) : text := js "register_account_type:" ++ js (account_role t).

(** What the number of the linked account was invited as *)
Definition invitedAs (ext : text) : XM (list AccountType) :=
  userId ← getUserId ext;
  s ← get;
  mret match userId ≫= findById (xs_acc s) with
       | Some u => match a_mobile u with
                   | Some m => if is_empty m then [] else invitedAccountTypes (xs_acc s) m
                   | None => []
                   end
       | None => []
       end.

Definition completeAccountSetup (m : BotIdentityMetadata) : XM unit :=
  on_bot (session_delete (md_externalUserId m)) ;;
  say (md_chatId m) (SaysText "identity.connected" []) ;;
  roles ← getMenuRoles (md_externalUserId m);
  say (md_chatId m) (ShowsMenu roles).

(** The welcome of each kind of invitation *)
Definition welcome_of (kind : InviteKind) (userId : uuid) (token : text) : AM Welcome :=
  match kind with
  | CompanyKindInvite => welcomeCompany userId token
  | DriverKindInvite => welcomeDriver userId token
  | BrokerKindInvite => welcomeBroker userId token
  | FactoryKindInvite => welcomeFactory userId token
  end.

Definition invite_key (kind : InviteKind) : string :=
  match kind with CompanyKindInvite => "companyInvite" | DriverKindInvite => "driverInvite" | BrokerKindInvite => "brokerInvite" | FactoryKindInvite => "factoryInvite" end.

Definition welcome_said (kind : InviteKind) (w : Welcome) : BotSaid :=
  match w with
  | WelcomeJoined inviter => SaysWelcome kind inviter
  | WelcomeInvalid => SaysText (String.append (invite_key kind) ".invalid") []
  | WelcomeOtherNumber => SaysText (String.append (invite_key kind) ".otherNumber") []
  end.

Definition joined (w : Welcome) : bool := match w with WelcomeJoined _ => true | _ => false end.

(** [handleInvite]: the invitation that waits for the number; [false] goes on as usual *)
Definition handleInvite (m : BotIdentityMetadata) : XM bool :=
  let ext := md_externalUserId m in
  s ← get;
  match redis_get (xs_invites s) (xs_now s) ext with
  | None => mret false
  | Some invite =>
      userId ← getUserId ext;
      match userId with
      | None => mret false
      | Some userId =>
          modify (fun s => s <| xs_invites := delete ext (xs_invites s) |>) ;;
          roles ← getMenuRoles ext;
          w ← on_acc (welcome_of (mi_kind invite) userId (mi_token invite));
          say (md_chatId m) (welcome_said (mi_kind invite) w) ;;
          if negb (joined w) && match default [] roles with [] => true | _ => false end then mret false
          else
            now_roles ← getMenuRoles ext;
            say (md_chatId m) (ShowsMenu now_roles) ;;
            mret true
      end
  end.

Definition showAccountTypes (m : BotIdentityMetadata) (types : list AccountType) : XM unit := say (md_chatId m) (AsksType types).

(** [handleIdentifiedUser] *)
Definition handleIdentifiedUser (m : BotIdentityMetadata) (callback : option text) : XM bool :=
  let ext := md_externalUserId m in
  roles ← getMenuRoles ext;
  match default [] roles with
  | _ :: _ =>
      if match callback with Some c => starts_with (js "register_account_type:") c | None => false end then
        say (md_chatId m) (ShowsMenu roles) ;; mret true
      else mret false
  | [] =>
      invited ← invitedAs ext;
      let allowed := match invited with [] => SELF_SERVICE_ACCOUNT_TYPES | l => l end in
      let picked := match invited with
                    | [t] => Some t
                    | _ => List.find (fun t => bool_decide (callback = Some (account_button t))) allowed
                    end in
      match picked with
      | None => showAccountTypes m allowed ;; mret true
      | Some t =>
          userId ← link_initialRole ext t;
          cacheUserId ext userId ;;
          completeAccountSetup m ;;
          mret true
      end
  end.

(** [linkExistingUser] *)
Definition linkExistingUser (m : BotIdentityMetadata) (user : Account) : XM unit :=
  if negb (eqb (a_recordStatus user) RecActive) then say (md_chatId m) (SaysText "identity.inactive" [])
  else
    linkUser m (a_id user) ;;
    on_acc (markInvitesUsed (a_mobile user)) ;;
    handled ← handleInvite m;
    if (handled : bool) then mret tt
    else
      roles ← getMenuRoles (md_externalUserId m);
      match default [] roles with
      | [] => showAccountTypes m SELF_SERVICE_ACCOUNT_TYPES
      | _ => completeAccountSetup m
      end.

(** [registerNewUser] *)
Definition registerNewUser (m : BotIdentityMetadata) (phone : text) : XM unit :=
  s ← get;
  ensure (is_null (find_link s (md_externalUserId m))) LINKED_TO_OTHER ;;
  saved ← createUserWithLink phone m;
  say (md_chatId m) (SaysText "identity.webLogin" [phone]) ;;
  cacheUserId (md_externalUserId m) (bl_userId saved).

(** [handleContact]: only a number the messenger says is the sender's own *)
Definition handleContact (contact : Contact) (m : BotIdentityMetadata) : XM unit :=
  if negb (bool_decide (ct_user_id contact = Some (md_externalUserId m))) then
    say (md_chatId m) (SaysText "account.invalidContactOwner" [])
  else
    let phone := normalizePhoneNumber (ct_phone_number contact) in
    if negb (is_mobile phone) then say (md_chatId m) (SaysText "identity.invalidPhone" [])
    else
      s ← get;
      match findByMobile (xs_acc s) phone with
      | Some user => linkExistingUser m user
      | None =>
          registerNewUser m phone ;;
          handled ← handleInvite m;
          if (handled : bool) then mret tt else showAccountTypes m SELF_SERVICE_ACCOUNT_TYPES
      end.

(** [handleLinkCode] *)
Definition handleLinkCode (t : option text) (m : BotIdentityMetadata) : XM unit :=
  match linkCodeIn t with
  | None => say (md_chatId m) (SaysText "identity.eitaaLink" [])
  | Some code =>
      r ← consume_code (botPlatformOf (md_externalUserId m)) (md_externalUserId m) code;
      match r with
      | CodeLimited => say (md_chatId m) (SaysText "identity.eitaaLinkLimited" [])
      | CodeWrong => say (md_chatId m) (SaysText "identity.eitaaLinkWrong" [])
      | CodeOf userId =>
          s ← get;
          match findById (xs_acc s) userId with
          | Some user => linkExistingUser m user
          | None => say (md_chatId m) (SaysText "identity.eitaaLinkWrong" [])
          end
      end
  end.

(** [handleUnidentifiedUser] *)
Definition handleUnidentifiedUser (u : BotUpdate) : XM unit :=
  let m := up_from u in
  if bool_decide (botPlatformOf (up_ext u) = PlatEitaa) then handleLinkCode (up_text u) m
  else
    match (if is_null (up_callback u) then up_contact u else None) with
    | Some contact => handleContact contact m
    | None =>
        s ← get;
        say (md_chatId m) (AsksContact match redis_get (xs_invites s) (xs_now s) (up_ext u) with
                                       | Some i => String.append (invite_key (mi_kind i)) ".requestPhone"
                                       | None => "identity.requestPhone"
                                       end)
    end.

(** What comes under the lock: an update that came first may have linked the account. *)
Definition locked_part (u : BotUpdate) : XM bool :=
  s ← get;
  match redis_get (xs_identity s) (xs_now s) (up_ext u) with
  | Some _ => handleIdentifiedUser (up_from u) (up_callback u)
  | None => handleUnidentifiedUser u ;; mret true
  end.

Definition is_conflict (e : exn) : bool :=
  match e with Conflict _ => true | QueryFailed code => String.eqb code "23505" | _ => false end.

Definition with_access_lock (ext : text) (owner : N) (m : XM bool) : XM bool :=
  s ← get;
  if negb (is_null (redis_get (xs_locks s) (xs_now s) ext)) then mret true
  else
    modify (fun s => s <| xs_locks := redis_set (xs_locks s) (xs_now s) ext owner ACCESS_LOCK_TTL_SECONDS |>) ;;
    try_finally m
      (s ← get;
       when (bool_decide (redis_get (xs_locks s) (xs_now s) ext = Some owner)) (modify (fun s => s <| xs_locks := delete ext (xs_locks s) |>))).

(** [handle]: an account whose user is known goes on as identified; any other under its lock.
    [owner] is a number never drawn before. *)
Definition handle (u : BotUpdate) (owner : N) : XM bool :=
  if negb (up_private u && bool_decide (md_chatId (up_from u) = up_ext u)) then mret true
  else
    let invite := if is_null (up_callback u) then inviteIn (up_text u) else None in
    match invite with
    | Some i => modify (fun s => s <| xs_invites := redis_set (xs_invites s) (xs_now s) (up_ext u) i INVITE_TTL_SECONDS |>)
    | None => mret tt
    end ;;
    known ← getUserId (up_ext u);
    if is_some known then
      handled ← (if is_some invite then handleInvite (up_from u) else mret false);
      if (handled : bool) then mret true else handleIdentifiedUser (up_from u) (up_callback u)
    else
      with_access_lock (up_ext u) owner
        (try_catch (locked_part u)
           (fun e => if is_conflict e then say (md_chatId (up_from u)) (SaysText "identity.conflict" []) ;; mret true else throw e)).
