(* ===== verification/MessengerAccessFacts.v ===== *)
(** * Messenger accounts: who is tied to whom, and by whom

    The links of messenger accounts stay one to one whatever order updates come in, a link
    is made only by the owner of the number or of the code, wrong codes run out, and a first
    role is one the account may choose or was invited as. *)

From S2P Require Import Prelude JsNumber JsString Json Effects Redis Enums Phone DriverProfile BrokerAccess CompanyFeatures Accounts Invites AccountProperties BotSessions MessengerAccess.

(** ** What a step leaves alone *)

(** The links and the codes are as they were. *)
Definition links_kept (s t : access_state) : Prop := xs_links t = xs_links s /\ xs_codes t = xs_codes s /\ xs_attempts t = xs_attempts s /\ xs_userCodes t = xs_userCodes s.

(** The clock, and the accounts with their roles *)
Definition accounts_kept (s t : access_state) : Prop := xs_acc t = xs_acc s.

(** [keeps R m]: [m] leaves alone what [R] says, whatever it answers *)
Definition keeps {A} (R : access_state -> access_state -> Prop) (m : XM A) : Prop := forall t, preserves (R t) m.

Lemma keeps_use {A} (R : access_state -> access_state -> Prop) (m : XM A) s : (forall s, R s s) -> keeps R m -> R s (final m s).
Proof. intros Hr Hm. apply Hm, Hr. Qed.

(** The tables a cache of an identity is kept in are none of those. *)
Ltac cache_write := intros ? [H1 [H2 [H3 H4]]]; repeat split; assumption.

Lemma links_cacheUserId ext u : keeps links_kept (cacheUserId ext u).
Proof. intros t. apply preserves_modify. intros s (H1 & H2 & H3 & H4). by split. Qed.

Lemma links_cache_roles ext r : keeps links_kept (cache_roles ext r).
Proof. intros t. apply preserves_modify. intros s (H1 & H2 & H3 & H4). by split. Qed.

Lemma acc_cacheUserId ext u : keeps accounts_kept (cacheUserId ext u).
Proof. intros t. apply preserves_modify. by intros s H. Qed.

Lemma acc_cache_roles ext r : keeps accounts_kept (cache_roles ext r).
Proof. intros t. apply preserves_modify. by intros s H. Qed.

Lemma links_say c x : keeps links_kept (say c x).
Proof. intros t. apply preserves_modify. intros s (H1 & H2 & H3 & H4). by split. Qed.

Lemma acc_say c x : keeps accounts_kept (say c x).
Proof. intros t. apply preserves_modify. by intros s H. Qed.

Lemma links_on_acc {A} (m : AM A) : keeps links_kept (on_acc m).
Proof. intros t s (H1 & H2 & H3 & H4). unfold final, on_acc, zoom. destruct (m (xs_acc s)). by split. Qed.

Lemma links_on_bot {A} (m : BSM A) : keeps links_kept (on_bot m).
Proof. intros t s (H1 & H2 & H3 & H4). unfold final, on_bot, zoom. destruct (m _). by split. Qed.

Lemma acc_on_bot {A} (m : BSM A) : keeps accounts_kept (on_bot m).
Proof. intros t s H. unfold final, on_bot, zoom. by destruct (m _). Qed.

Create HintDb access.
#[export] Hint Unfold keeps : access.

(** A handler made of such operations leaves the same alone. *)
Ltac keep_all :=
  intros t; unfold getUserId, getMenuRoles, showAccountTypes, completeAccountSetup, invitedAs; preserve;
  first [apply links_cacheUserId | apply links_cache_roles | apply acc_cacheUserId | apply acc_cache_roles | apply links_say | apply acc_say
        | apply links_on_acc | apply links_on_bot | apply acc_on_bot
        | apply preserves_modify; intros ? (? & ? & ? & ?); by split | apply preserves_modify; intros ? ?; assumption].

Lemma links_getUserId ext : keeps links_kept (getUserId ext).
Proof. keep_all. Qed.
Lemma acc_getUserId ext : keeps accounts_kept (getUserId ext).
Proof. keep_all. Qed.
Lemma links_getMenuRoles ext : keeps links_kept (getMenuRoles ext).
Proof. keep_all. Qed.
Lemma acc_getMenuRoles ext : keeps accounts_kept (getMenuRoles ext).
Proof. keep_all. Qed.

(** ** One to one *)

(** Accounts are kept under their ids. *)
Definition keyed (a : account_state) : Prop := forall i u, ac_users a !! i = Some u -> a_id u = i.

(** The links made so far, with their accounts and users; a link stays. *)
Section Kept.
  Context (made : gmap uuid (text * uuid)).

Record access_ok (s : access_state) : Prop := {
  ok_key : forall i l, xs_links s !! i = Some l -> bl_id l = i;
  ok_platform : forall i l, xs_links s !! i = Some l -> bl_platform l = botPlatformOf (bl_externalUserId l);
  ok_ext_one : forall i j l o, xs_links s !! i = Some l -> xs_links s !! j = Some o -> bl_externalUserId l = bl_externalUserId o -> i = j;
  ok_user_one : forall i j l o, xs_links s !! i = Some l -> xs_links s !! j = Some o -> bl_userId l = bl_userId o -> bl_platform l = bl_platform o -> i = j;
  ok_cache : forall ext u e, xs_identity s !! ext = Some (u, e) -> exists i l, xs_links s !! i = Some l /\ bl_externalUserId l = ext /\ bl_userId l = u;
  ok_used : forall i l, xs_links s !! i = Some l -> bl_userId l ∈ ac_botLinks (xs_acc s);
  ok_accounts : keyed (xs_acc s);
  ok_made : forall i ext u, made !! i = Some (ext, u) -> exists o, xs_links s !! i = Some o /\ bl_externalUserId o = ext /\ bl_userId o = u;
}.

(** Only these tables count, and the cache may forget. *)
Lemma access_ok_same s t :
  xs_links t = xs_links s -> ac_botLinks (xs_acc t) = ac_botLinks (xs_acc s) ->
  (forall ext u e, xs_identity t !! ext = Some (u, e) -> exists i l, xs_links s !! i = Some l /\ bl_externalUserId l = ext /\ bl_userId l = u) ->
  keyed (xs_acc t) -> access_ok s -> access_ok t.
Proof. intros E1 E2 E3 E4 [K1 K2 K3 K4 K5 K6 K7 K8]. split; rewrite ?E1, ?E2; eauto. Qed.

Lemma find_link_Some s ext l : access_ok s -> find_link s ext = Some l -> xs_links s !! bl_id l = Some l /\ bl_externalUserId l = ext.
Proof. intros Hs (He & i & Hi)%find_row_Some. rewrite (ok_key s Hs i l Hi). split; [done | by apply bool_decide_eq_true in He]. Qed.

Lemma link_clash_false l o : link_clash l o = false -> bl_id o <> bl_id l -> bl_externalUserId o <> bl_externalUserId l /\ ~ (bl_userId o = bl_userId l /\ bl_platform o = bl_platform l).
Proof.
  unfold link_clash. intros H Hid. rewrite (proj2 (N.eqb_neq _ _) Hid) in H. cbn [negb andb] in H. apply orb_false_iff in H as [H1 H2].
  split; [by apply bool_decide_eq_false in H1|]. intros [Hu Hp]. rewrite Hu, N.eqb_refl, Hp, bool_decide_true in H2; done.
Qed.

(** A row written: a new one, or one brought up to date *)
Lemma put_link_ok s l :
  access_ok s -> exists_row (link_clash l) (xs_links s) = false -> bl_platform l = botPlatformOf (bl_externalUserId l) ->
  (forall o, xs_links s !! bl_id l = Some o -> bl_externalUserId o = bl_externalUserId l /\ bl_userId o = bl_userId l) ->
  access_ok (put_link l s).
Proof.
  intros [K1 K2 K3 K4 K5 K6 K7 K8] Hc Hp Hrow. rewrite exists_row_false in Hc.
  assert (Hother : forall i o, i <> bl_id l -> xs_links s !! i = Some o -> bl_externalUserId o <> bl_externalUserId l /\ ~ (bl_userId o = bl_userId l /\ bl_platform o = bl_platform l)).
  { intros i o Hi Ho. apply link_clash_false; [by apply (Hc i)|]. rewrite (K1 i o Ho). done. }
  change (xs_links (put_link l s)) with (<[bl_id l := l]> (xs_links s)).
  split; change (xs_links (put_link l s)) with (<[bl_id l := l]> (xs_links s));
    change (ac_botLinks (xs_acc (put_link l s))) with (bl_userId l :: ac_botLinks (xs_acc s)); change (xs_identity (put_link l s)) with (xs_identity s).
  - intros i o. rewrite lookup_insert_Some. intros [[<- <-]|[_ H]]; eauto.
  - intros i o. rewrite lookup_insert_Some. intros [[<- <-]|[_ H]]; eauto.
  - intros i j o o'. rewrite !lookup_insert_Some. intros [[<- <-]|[Hi Ho]] [[<- <-]|[Hj Ho']] He; [done | | |by eauto].
    + by destruct (proj1 (Hother j o' (fun E => Hj (eq_sym E)) Ho')).
    + by destruct (proj1 (Hother i o (fun E => Hi (eq_sym E)) Ho)).
  - intros i j o o'. rewrite !lookup_insert_Some. intros [[<- <-]|[Hi Ho]] [[<- <-]|[Hj Ho']] Hu Hpl; [done | | |by eauto].
    + by destruct (proj2 (Hother j o' (fun E => Hj (eq_sym E)) Ho')).
    + by destruct (proj2 (Hother i o (fun E => Hi (eq_sym E)) Ho)).
  - intros ext u e He. destruct (K5 ext u e He) as (i & o & Ho & He' & Hu'). destruct (decide (i = bl_id l)) as [->|Hi].
    + destruct (Hrow o Ho) as [H1 H2]. exists (bl_id l), l. rewrite lookup_insert_eq. split; [done|]. split; congruence.
    + exists i, o. by rewrite lookup_insert_ne.
  - intros i o. rewrite lookup_insert_Some. intros [[<- <-]|[_ H]]; [apply elem_of_cons; by left | apply elem_of_cons; right; eauto].
  - exact K7.
  - intros i ext u Hi. destruct (K8 i ext u Hi) as (o & Ho & He & Hu). destruct (decide (i = bl_id l)) as [->|Hne].
    + destruct (Hrow o Ho) as [H1 H2]. exists l. rewrite lookup_insert_eq. split; [done|]. split; congruence.
    + exists o. by rewrite lookup_insert_ne.
Qed.

Definition saved_as (entity : BotLink) : BotLink := entity <| bl_platform := botPlatformOf (bl_externalUserId entity) |>.

Lemma save_link_cases entity s :
  (exists e, save_link entity s = (Err e, s)) \/
  (exists_row (link_clash (saved_as entity)) (xs_links s) = false /\ is_Some (findById (xs_acc s) (bl_userId entity)) /\
   save_link entity s = (Ok (saved_as entity), put_link (saved_as entity) s)).
Proof.
  unfold save_link. cbv zeta. fold (saved_as entity). rewrite run_bind.
  destruct (link_fits _); cbn [ensure]; [rewrite run_ret|left; by eexists].
  rewrite run_bind. unfold get. cbv beta iota. rewrite run_bind.
  destruct (is_some _) eqn:Ef; cbn [ensure]; [rewrite run_ret|left; by eexists].
  rewrite run_bind. destruct (exists_row _ _) eqn:Ec; cbn [negb ensure]; [left; by eexists|]. rewrite run_ret.
  right. split; [done|]. split; [|done]. change (bl_userId (saved_as entity)) with (bl_userId entity) in Ef.
  by destruct (findById (xs_acc s) (bl_userId entity)).
Qed.

(** A save of a new row, or of one with the user it has *)
Definition may_save (s : access_state) (entity : BotLink) : Prop :=
  forall o, xs_links s !! bl_id entity = Some o -> bl_externalUserId o = bl_externalUserId entity /\ bl_userId o = bl_userId entity.

Lemma save_link_ok entity s : access_ok s -> may_save s entity -> access_ok (final (save_link entity) s).
Proof.
  intros Hs Hm. unfold final. destruct (save_link_cases entity s) as [[e ->]|(Hc & _ & ->)]; [done|]. cbn [snd]. by apply put_link_ok.
Qed.

Lemma may_save_new s m u : may_save s (new_link s m u).
Proof. intros o Ho. cbn [new_link bl_id] in Ho. by rewrite fresh_id_None in Ho. Qed.

Lemma cacheUserId_ok ext u s :
  access_ok s -> (exists i l, xs_links s !! i = Some l /\ bl_externalUserId l = ext /\ bl_userId l = u) -> access_ok (final (cacheUserId ext u) s).
Proof.
  intros Hs Hl. apply (access_ok_same s); [done | done | | apply (ok_accounts s Hs) | done].
  intros ext' u' e He. change (redis_set (xs_identity s) (xs_now s) ext u IDENTITY_TTL_SECONDS !! ext' = Some (u', e)) in He. unfold redis_set in He.
  apply lookup_insert_Some in He as [(<- & [= <- _]) | (_ & He)]; [done | by apply (ok_cache s Hs ext' u' e)].
Qed.

(** ** Every operation keeps the links one to one *)

(** An operation on the accounts that leaves alone who has a messenger *)
Definition accounts_good (b : list uuid) (a : account_state) : Prop := ac_botLinks a = b /\ keyed a.
Definition botlinks_kept {A} (m : AM A) : Prop := forall b, preserves (accounts_good b) m.

Lemma access_ok_on_acc {A} (m : AM A) : botlinks_kept m -> preserves access_ok (on_acc m).
Proof.
  intros Hm s Hs. specialize (Hm (ac_botLinks (xs_acc s)) (xs_acc s) (conj eq_refl (ok_accounts s Hs))). unfold final, on_acc, zoom in *.
  destruct (m (xs_acc s)) as [r a]. cbn [snd] in *. destruct Hm as [H1 H2].
  apply (access_ok_same s); [done | exact H1 | intros ext u e; apply (ok_cache s Hs) | exact H2 | done].
Qed.

Lemma keyed_put u a : keyed a -> keyed (put_account u a).
Proof. intros Hk i v H. change (<[a_id u := u]> (ac_users a) !! i = Some v) in H. apply lookup_insert_Some in H as [[<- <-]|[_ H]]; eauto. Qed.

Ltac same_links := intros b; preserve; apply preserves_modify; intros ? [<- ?]; split; first [done | by apply keyed_put].

Lemma botlinks_insert_account u : botlinks_kept (insert_account u).
Proof. unfold insert_account, save_account, take_id. same_links. Qed.

Lemma botlinks_add_role u r : botlinks_kept (add_role u r).
Proof. unfold add_role. same_links. Qed.

Lemma botlinks_put_account u : botlinks_kept (modify (put_account u)).
Proof. same_links. Qed.

Lemma botlinks_markInvitesUsed m : botlinks_kept (markInvitesUsed m).
Proof. unfold markInvitesUsed, mark_kind, publish_account. same_links. Qed.

Lemma botlinks_welcome kind u t : botlinks_kept (welcome_of kind u t).
Proof.
  unfold welcome_of, welcomeCompany, welcomeDriver, welcomeBroker, welcomeFactory, welcome_with, isMember, isInvitedDriver, isInvitedBroker,
    isInvitedFactory, came_in, publish_account. same_links.
Qed.

(** The same cache, links and users of messengers *)
Lemma ok_modify (f : access_state -> access_state) :
  (forall s, xs_links (f s) = xs_links s) -> (forall s, xs_acc (f s) = xs_acc s) -> (forall s, xs_identity (f s) = xs_identity s) -> preserves access_ok (modify f).
Proof.
  intros H1 H2 H3 s Hs. unfold final, modify. cbn [snd]. apply (access_ok_same s); [done | by rewrite H2 | | rewrite H2; apply (ok_accounts s Hs) | done].
  intros ext u e. rewrite H3. apply (ok_cache s Hs).
Qed.

Lemma ok_say c x : preserves access_ok (say c x).
Proof. by apply ok_modify. Qed.

Lemma ok_cache_roles ext r : preserves access_ok (cache_roles ext r).
Proof. by apply ok_modify. Qed.

Lemma ok_on_bot {A} (m : BSM A) : preserves access_ok (on_bot m).
Proof.
  intros s Hs. unfold final, on_bot, zoom. destruct (m _). cbn [snd]. apply (access_ok_same s); [done | done | | apply (ok_accounts s Hs) | done].
  intros ext u e. apply (ok_cache s Hs).
Qed.

Lemma ok_getMenuRoles ext : preserves access_ok (getMenuRoles ext).
Proof. unfold getMenuRoles. preserve; apply ok_cache_roles. Qed.

(** What follows a step that kept the invariant *)
Lemma final_bind {A B} (I : access_state -> Prop) (m : XM A) (k : A -> XM B) s :
  I (final m s) -> (forall a, preserves I (k a)) -> I (final (m ≫= k) s).
Proof. unfold final. rewrite run_bind. intros Hm Hk. destruct (m s) as [[a|e] s1]; [by apply (Hk a s1) | done]. Qed.

Lemma ok_getUserId ext : preserves access_ok (getUserId ext).
Proof.
  intros s Hs. unfold getUserId. rewrite final_get_bind.
  destruct (redis_get _ _ _); [done|]. destruct (find_link s ext) as [l|] eqn:El; [|done].
  apply (find_link_Some s ext l Hs) in El as [Hl He].
  apply final_bind; [apply cacheUserId_ok; [done | by exists (bl_id l), l]|]. intros _. preserve. apply ok_cache_roles.
Qed.

(** ** Links made *)

Lemma ok_link_write m u link s :
  access_ok s -> (forall l, link = Some l -> xs_links s !! bl_id l <> None -> exists o, xs_links s !! bl_id l = Some o /\ bl_externalUserId o = bl_externalUserId l /\ bl_userId o = u) ->
  (forall l, link = Some l -> bl_externalUserId l = md_externalUserId m) ->
  access_ok (final (link_write m u link) s).
Proof.
  intros Hs Hl Hext. unfold link_write. unfold final. rewrite run_bind. unfold get. cbv beta iota.
  set (entity := match link with Some l => touched s m (l <| bl_userId := u |>) | None => new_link s m u end).
  assert (He : bl_externalUserId entity = md_externalUserId m /\ bl_userId entity = u).
  { unfold entity. destruct link as [l|]; [|done]. split; [exact (Hext l eq_refl) | done]. }
  assert (Hm : may_save s entity).
  { unfold entity. destruct link as [l|]; [|apply may_save_new]. intros o Ho. change (bl_id (touched s m (l <| bl_userId := u |>))) with (bl_id l) in Ho.
    destruct (Hl l eq_refl) as (o' & Ho' & H1 & H2); [by rewrite Ho|]. rewrite Ho in Ho'. injection Ho' as <-. by split. }
  rewrite run_bind. destruct (save_link_cases entity s) as [[e ->]|(Hc & _ & ->)]; [done|].
  pose proof (put_link_ok s (saved_as entity) Hs Hc eq_refl Hm) as H1.
  change (access_ok (final (cacheUserId (md_externalUserId m) u ;; mret (saved_as entity)) (put_link (saved_as entity) s))).
  apply final_bind; [|intros _; apply preserves_ret]. apply cacheUserId_ok; [done|].
  exists (bl_id (saved_as entity)), (saved_as entity). destruct He as [He1 He2].
  split; [apply lookup_insert_eq|]. by split.
Qed.

Lemma link_checks_Ok ext u s link s1 :
  link_checks ext u s = (Ok link, s1) -> s1 = s /\ link = find_link s ext /\ (forall l, link = Some l -> bl_userId l = u).
Proof.
  unfold link_checks. intros H. run_inv. split; [done|]. split; [done|]. intros l Hl. simplify_eq. rewrite Hl in *. by apply N.eqb_eq.
Qed.

Lemma ok_linkUser m u : preserves access_ok (linkUser m u).
Proof.
  intros s Hs. unfold final, linkUser. rewrite run_bind. destruct (link_checks (md_externalUserId m) u s) as [[link|e] s1] eqn:Ec.
  - destruct (link_checks_Ok _ _ _ _ _ Ec) as (-> & Hl & Hu). apply ok_link_write; [done | |].
    + intros l -> _. destruct (find_link_Some s _ l Hs (eq_sym Hl)) as [H1 H2]. exists l. split; [done|]. split; [done | by apply Hu].
    + intros l ->. by apply (find_link_Some s _ l Hs (eq_sym Hl)).
  - unfold link_checks in Ec. rewrite run_bind in Ec. unfold get in Ec. cbv beta iota in Ec.
    repeat match type of Ec with context [ensure ?b ?e] => destruct b; cbn [ensure] in Ec end;
      rewrite ?run_bind, ?run_ret in Ec; by injection Ec as _ <-.
Qed.

(** A new account with its link: both rows, or neither *)
Lemma createUserWithLink_cases phone m s :
  (exists e, createUserWithLink phone m s = (Err e, s)) \/
  (exists a l, createUserWithLink phone m s = (Ok l, put_link l (s <| xs_acc := a |>)) /\
     insert_account (new_account (xs_acc s) phone) (xs_acc s) = (Ok (new_account (xs_acc s) phone), a) /\
     l = saved_as (new_link s m (a_id (new_account (xs_acc s) phone))) /\ exists_row (link_clash l) (xs_links s) = false).
Proof.
  unfold createUserWithLink, transaction. rewrite run_bind. unfold get. cbv beta iota. rewrite run_bind. unfold on_acc at 1 2, zoom.
  destruct (insert_account _ (xs_acc s)) as [[saved|e] a] eqn:Ei; [|left; by eexists].
  assert (Hsv : saved = new_account (xs_acc s) phone).
  { unfold insert_account, save_account in Ei. run_inv. by simplify_eq. }
  subst saved. set (s1 := s <| xs_acc := a |>).
  destruct (save_link_cases (new_link s m (a_id (new_account (xs_acc s) phone))) s1) as [[e ->]|(Hc & _ & ->)]; [left; by eexists|].
  right. eexists a, _. split; [done|]. split; [done|]. split; [done|exact Hc].
Qed.

Lemma ok_createUserWithLink phone m s :
  access_ok s -> access_ok (final (createUserWithLink phone m) s) /\
  (forall l, result (createUserWithLink phone m) s = Ok l -> xs_links (final (createUserWithLink phone m) s) !! bl_id l = Some l /\ bl_externalUserId l = md_externalUserId m).
Proof.
  intros Hs. unfold final, result. destruct (createUserWithLink_cases phone m s) as [[e ->]|(a & l & -> & Hi & -> & Hc)]; [done|]. cbn [fst snd].
  assert (Ha : access_ok (s <| xs_acc := a |>)).
  { destruct (botlinks_insert_account (new_account (xs_acc s) phone) (ac_botLinks (xs_acc s)) (xs_acc s) (conj eq_refl (ok_accounts s Hs))) as [Hb Hk].
    unfold final in Hb, Hk. rewrite Hi in Hb, Hk. cbn [snd] in Hb, Hk.
    apply (access_ok_same s); [done | exact Hb | intros ext u e; apply (ok_cache s Hs) | exact Hk | done]. }
  split; [|intros l [= <-]; split; [apply lookup_insert_eq | done]].
  apply put_link_ok; [exact Ha | exact Hc | done|]. intros o Ho.
  change (xs_links s !! fresh_id (xs_links s) = Some o) in Ho. by rewrite fresh_id_None in Ho.
Qed.

Lemma ok_registerNewUser m phone : preserves access_ok (registerNewUser m phone).
Proof.
  intros s Hs. unfold registerNewUser. rewrite final_get_bind. destruct (is_null _); [|done].
  destruct (ok_createUserWithLink phone m s Hs) as [H1 H2]. unfold final, result in *. rewrite run_bind. cbn [ensure]. rewrite run_ret, run_bind.
  destruct (createUserWithLink phone m s) as [[l|e] s1]; [|done]. cbn [fst snd] in *. destruct (H2 l eq_refl) as [Hl He].
  set (s2 := final (say (md_chatId m) (SaysText "identity.webLogin" [phone])) s1).
  change (access_ok (final (cacheUserId (md_externalUserId m) (bl_userId l)) s2)). apply cacheUserId_ok; [by apply ok_say|]. by exists (bl_id l), l.
Qed.

Lemma ok_link_initialRole ext t : preserves access_ok (link_initialRole ext t).
Proof. unfold link_initialRole. preserve; apply access_ok_on_acc; [apply botlinks_add_role | apply botlinks_put_account]. Qed.

(** The first role of an account is given to the user of its link. *)
Lemma link_initialRole_user ext t s u s1 :
  access_ok s -> link_initialRole ext t s = (Ok u, s1) -> exists l, find_link s ext = Some l /\ bl_userId l = u /\ xs_links s1 = xs_links s.
Proof.
  intros Hs H. assert (Hl : xs_links s1 = xs_links s).
  { assert (Hk : preserves (links_kept s) (link_initialRole ext t)) by (unfold link_initialRole; preserve; apply links_on_acc).
    specialize (Hk s (conj eq_refl (conj eq_refl (conj eq_refl eq_refl)))). unfold final in Hk. rewrite H in Hk. apply Hk. }
  unfold link_initialRole in H. apply transaction_Ok_inv in H. apply bind_Ok_inv in H as (s' & s0 & [<- <-]%run_Ok_inv & H).
  apply bind_Ok_inv in H as (l & s0 & [Hfl ->]%some_or_Ok_inv & H). apply bind_Ok_inv in H as (user & s0 & [Hu ->]%some_or_Ok_inv & H).
  exists l. split; [done|]. split; [|done].
  destruct (findById (xs_acc s) (bl_userId l)) as [v|] eqn:Ef; [|done]. destruct (eqb _ _); [|done]. injection Hu as ->.
  pose proof (ok_accounts s Hs _ _ Ef) as Hid.
  destruct (role_names _ _); [|apply run_Ok_inv in H as [Hu _]; congruence]. run_inv. congruence.
Qed.

Lemma ok_welcome kind u t : preserves access_ok (on_acc (welcome_of kind u t)).
Proof. apply access_ok_on_acc, botlinks_welcome. Qed.

Lemma ok_marked m : preserves access_ok (on_acc (markInvitesUsed m)).
Proof. apply access_ok_on_acc, botlinks_markInvitesUsed. Qed.

#[local] Hint Resolve ok_say ok_cache_roles ok_on_bot ok_getMenuRoles ok_getUserId ok_welcome ok_marked ok_linkUser ok_registerNewUser : preserves.

Lemma ok_completeAccountSetup m : preserves access_ok (completeAccountSetup m).
Proof. unfold completeAccountSetup. preserve. Qed.

Lemma ok_invitedAs ext : preserves access_ok (invitedAs ext).
Proof. unfold invitedAs. preserve. Qed.

Lemma ok_handleInvite m : preserves access_ok (handleInvite m).
Proof. unfold handleInvite, showAccountTypes. preserve. by apply ok_modify. Qed.

#[local] Hint Resolve ok_completeAccountSetup ok_invitedAs ok_handleInvite : preserves.

Lemma ok_handleIdentifiedUser m c : preserves access_ok (handleIdentifiedUser m c).
Proof.
  unfold handleIdentifiedUser, showAccountTypes. cbv zeta. apply preserves_bind; [apply ok_getMenuRoles|]. intros roles.
  destruct (default [] roles); [|preserve]. apply preserves_bind; [apply ok_invitedAs|]. intros invited.
  match goal with |- preserves _ (match ?picked with _ => _ end) => destruct picked as [t|]; [|preserve] end.
  intros s Hs. pose proof (ok_link_initialRole (md_externalUserId m) t s Hs) as H1. unfold final in H1 |- *. rewrite run_bind.
  destruct (link_initialRole (md_externalUserId m) t s) as [[u|e] s1] eqn:E; [|done]. cbn [snd] in H1.
  destruct (link_initialRole_user _ _ _ _ _ Hs E) as (l & Hl & Hu & Hk). apply (find_link_Some s _ _ Hs) in Hl as [Hl He].
  change (access_ok (final (cacheUserId (md_externalUserId m) u ;; completeAccountSetup m ;; mret true) s1)).
  apply final_bind; [|intros _; preserve]. apply cacheUserId_ok; [done|]. exists (bl_id l), l. rewrite Hk. by split.
Qed.

#[local] Hint Resolve ok_handleIdentifiedUser : preserves.

Lemma ok_linkExistingUser m u : preserves access_ok (linkExistingUser m u).
Proof. unfold linkExistingUser, showAccountTypes. preserve. Qed.

#[local] Hint Resolve ok_linkExistingUser : preserves.

Lemma ok_consume_code p e c : preserves access_ok (consume_code p e c).
Proof. unfold consume_code. preserve; by apply ok_modify. Qed.

#[local] Hint Resolve ok_consume_code : preserves.

Lemma ok_handleUnidentifiedUser u : preserves access_ok (handleUnidentifiedUser u).
Proof. unfold handleUnidentifiedUser, handleLinkCode, handleContact, showAccountTypes. preserve. Qed.

Lemma ok_handle u owner : preserves access_ok (handle u owner).
Proof.
  pose proof ok_handleUnidentifiedUser. unfold handle, with_access_lock, locked_part. preserve; auto; by apply ok_modify.
Qed.

Lemma ok_draw_code p u draws : preserves access_ok (draw_code p u draws).
Proof. induction draws as [|c draws IH]; cbn [draw_code]; preserve; first [by apply ok_modify | exact IH]. Qed.

Lemma ok_create_code p u draws : preserves access_ok (create_code p u draws).
Proof. pose proof (ok_draw_code p u draws). unfold create_code. preserve; first [by apply ok_modify | done]. Qed.

Lemma ok_forgetRoles u : preserves access_ok (forgetRoles u).
Proof. by apply ok_modify. Qed.

Lemma ok_touch m : preserves access_ok (touch m).
Proof.
  intros s Hs. unfold touch. rewrite final_get_bind. destruct (find_link s _) as [l|] eqn:E; [|done].
  apply final_bind; [|intros; apply preserves_ret]. apply save_link_ok; [done|]. intros o Ho.
  apply (find_link_Some s _ l Hs) in E as [Hl _]. change (bl_id (touched s m l)) with (bl_id l) in Ho. rewrite Hl in Ho. injection Ho as <-. done.
Qed.

End Kept.

(** ** The system *)

(** [linkUser] of one update may be split by another's: what its checks found waits to be
    written. *)
Record half_link := mkHalf { hl_metadata : BotIdentityMetadata; hl_userId : uuid; hl_link : option BotLink }.
Record access_system := mkAccessSystem { sx_state : access_state; sx_halves : list half_link }.

(** The other services do what they like with the accounts, as long as no account somebody
    uses in a messenger is deleted ([disposable]) and accounts keep their ids; the clock goes
    on. *)
Inductive access_step : access_system -> access_system -> Prop :=
| step_update u owner s h : access_step (mkAccessSystem s h) (mkAccessSystem (final (handle u owner) s) h)
| step_checked m userId link s h : link_checks (md_externalUserId m) userId s = (Ok link, s) -> access_step (mkAccessSystem s h) (mkAccessSystem s (mkHalf m userId link :: h))
| step_written x s h : x ∈ h -> access_step (mkAccessSystem s h) (mkAccessSystem (final (link_write (hl_metadata x) (hl_userId x) (hl_link x)) s) h)
| step_web account userId draws s h : access_step (mkAccessSystem s h) (mkAccessSystem (final (web_linkCode account userId draws) s) h)
| step_touch m s h : access_step (mkAccessSystem s h) (mkAccessSystem (final (touch m) s) h)
| step_forget userId s h : access_step (mkAccessSystem s h) (mkAccessSystem (final (forgetRoles userId) s) h)
| step_accounts a s h : ac_botLinks a = ac_botLinks (xs_acc s) -> keyed a -> access_step (mkAccessSystem s h) (mkAccessSystem (s <| xs_acc := a |>) h).

(** A row that was read is there still, with its account and its user. *)
Definition half_ok (s : access_state) (x : half_link) : Prop :=
  forall l, hl_link x = Some l ->
    bl_externalUserId l = md_externalUserId (hl_metadata x) /\
    exists o, xs_links s !! bl_id l = Some o /\ bl_externalUserId o = bl_externalUserId l /\ bl_userId o = hl_userId x.

(** What is made of the links of a state *)
Definition made_in (s : access_state) : gmap uuid (text * uuid) := (fun l => (bl_externalUserId l, bl_userId l)) <$> xs_links s.

Lemma made_in_lookup s i l : xs_links s !! i = Some l -> made_in s !! i = Some (bl_externalUserId l, bl_userId l).
Proof. intros H. unfold made_in. by rewrite lookup_fmap, H. Qed.

Lemma access_ok_made s : access_ok ∅ s -> access_ok (made_in s) s.
Proof.
  intros [K1 K2 K3 K4 K5 K6 K7 _]. split; try done. intros i ext u Hi. unfold made_in in Hi. rewrite lookup_fmap in Hi.
  destruct (xs_links s !! i) as [o|]; [|done]. injection Hi as <- <-. by exists o.
Qed.

Lemma access_ok_forget made s : access_ok made s -> access_ok ∅ s.
Proof. by intros [K1 K2 K3 K4 K5 K6 K7 _]. Qed.

Lemma half_ok_grow s t x : access_ok (made_in s) t -> half_ok s x -> half_ok t x.
Proof.
  intros Ht Hx l Hl. destruct (Hx l Hl) as (He & o & Ho & H1 & H2). split; [done|].
  destruct (ok_made _ t Ht _ _ _ (made_in_lookup s _ o Ho)) as (o' & Ho' & H3 & H4). exists o'. split; [done|]. split; congruence.
Qed.

Definition system_ok (y : access_system) : Prop := access_ok ∅ (sx_state y) /\ Forall (half_ok (sx_state y)) (sx_halves y).

(** An operation that keeps the links made keeps what waits to be written right. *)
Lemma system_ok_step s t h : system_ok (mkAccessSystem s h) -> access_ok (made_in s) t -> system_ok (mkAccessSystem t h).
Proof.
  intros [Hs Hh] Ht. split; [by apply (access_ok_forget (made_in s))|]. cbn [sx_state sx_halves] in *.
  eapply Forall_impl; [exact Hh|]. intros x. by apply half_ok_grow.
Qed.

Lemma ok_web_linkCode made account userId draws : preserves (access_ok made) (web_linkCode account userId draws).
Proof. pose proof (ok_create_code made). unfold web_linkCode. preserve. Qed.

Lemma access_step_ok y1 y2 : access_step y1 y2 -> system_ok y1 -> system_ok y2.
Proof.
  intros Hstep Hy. destruct Hstep as [u owner s h | m userId link s h Hc | x s h Hx | account userId draws s h | m s h | userId s h | a s h Hb Hk].
  - apply (system_ok_step s); [done|]. apply ok_handle, access_ok_made, Hy.
  - destruct Hy as [Hs Hh]. split; [done|]. constructor; [|done]. cbn [sx_state] in *.
    destruct (link_checks_Ok _ _ _ _ _ Hc) as (_ & Hl & Hu). intros l Hx. cbn [hl_link] in Hx. subst link.
    destruct (find_link_Some _ s _ l Hs Hx) as [H1 H2]. split; [done|]. exists l. split; [done|]. split; [done|]. by apply Hu.
  - apply (system_ok_step s); [done|]. destruct Hy as [Hs Hh]. rewrite Forall_forall in Hh. specialize (Hh x Hx).
    apply ok_link_write; [by apply access_ok_made | |].
    + intros l Hl _. destruct (Hh l Hl) as (_ & o & Ho & H1 & H2). by exists o.
    + intros l Hl. by destruct (Hh l Hl).
  - apply (system_ok_step s); [done|]. apply ok_web_linkCode, access_ok_made, Hy.
  - apply (system_ok_step s); [done|]. apply ok_touch, access_ok_made, Hy.
  - apply (system_ok_step s); [done|]. apply ok_forgetRoles, access_ok_made, Hy.
  - apply (system_ok_step s); [done|]. pose proof (access_ok_made _ (proj1 Hy)) as Hs. cbn [sx_state] in Hs.
    apply (access_ok_same _ s); [done | done | intros ext u e; apply (ok_cache _ s Hs) | done | done].
Qed.

(** Nobody is linked yet. *)
Definition no_links (s : access_state) : Prop := xs_links s = ∅ /\ xs_identity s = ∅ /\ keyed (xs_acc s).

Lemma reachable_access_ok s0 y : no_links s0 -> rtc access_step (mkAccessSystem s0 []) y -> system_ok y.
Proof.
  intros (H1 & H2 & H3) Hr. assert (H0 : system_ok (mkAccessSystem s0 [])).
  { split; [|constructor]. split; cbn [sx_state]; rewrite ?H1, ?H2; done. }
  remember (mkAccessSystem s0 []) as y0 eqn:E. clear E. induction Hr; eauto using access_step_ok.
Qed.

(** The user of a messenger account is the one of its link, whether the cache holds it or
    not. *)
Lemma find_link_row made s i l : access_ok made s -> xs_links s !! i = Some l -> find_link s (bl_externalUserId l) = Some l.
Proof.
  intros Hs Hi. destruct (find_link s (bl_externalUserId l)) as [o|] eqn:E.
  - apply (find_link_Some made s _ o Hs) in E as [Ho He]. rewrite (ok_ext_one _ s Hs _ _ _ _ Ho Hi He) in Ho. congruence.
  - exfalso. unfold find_link in E. rewrite find_row_None in E. specialize (E i l Hi). cbn beta in E. by rewrite bool_decide_true in E.
Qed.

Lemma getUserId_says made s ext : access_ok made s -> result (getUserId ext) s = Ok (bl_userId <$> find_link s ext).
Proof.
  intros Hs. unfold result, getUserId. rewrite run_bind. unfold get. cbv beta iota.
  destruct (redis_get _ _ _) as [v|] eqn:Ec.
  - apply redis_get_Some in Ec as (e & He & _). destruct (ok_cache _ s Hs _ _ _ He) as (k & l & Hk & <- & <-).
    by rewrite (find_link_row made s k l Hs Hk).
  - destruct (find_link s ext) as [l|]; [|done]. rewrite run_bind. by destruct (link_user s l).
Qed.

(** C38: A messenger account belongs to one user and a user has one account on each messenger,
    whatever updates come in, whether a linking is split by another one or not; the user the
    cache gives for a messenger account is the one it is linked to; and no account that is
    linked is among those the sweep of invitations may delete. *)
Theorem one_link_each (s0 : access_state) (y : access_system) (l o : BotLink) (i j : uuid)
    (H0 : no_links s0) (Hr : rtc access_step (mkAccessSystem s0 []) y)
    (Hi : xs_links (sx_state y) !! i = Some l) (Hj : xs_links (sx_state y) !! j = Some o) :
  (bl_externalUserId l = bl_externalUserId o -> i = j) /\
  (bl_userId l = bl_userId o -> botPlatformOf (bl_externalUserId l) = botPlatformOf (bl_externalUserId o) -> i = j) /\
  (forall u, result (getUserId (bl_externalUserId l)) (sx_state y) = Ok (Some u) -> u = bl_userId l) /\
  (forall inv, iv_invitee inv = bl_userId l -> disposable (xs_acc (sx_state y)) inv = false).
Proof.
  destruct (reachable_access_ok s0 y H0 Hr) as [Hs _]. set (s := sx_state y) in *.
  split; [by apply (ok_ext_one _ s Hs i j)|]. split; [|split].
  - intros Hu Hp. apply (ok_user_one _ s Hs i j l o Hi Hj Hu). by rewrite (ok_platform _ s Hs i l Hi), (ok_platform _ s Hs j o Hj).
  - intros u Hg. rewrite (getUserId_says _ s _ Hs), (find_link_row _ s i l Hs Hi) in Hg. by injection Hg.
  - intros inv Hinv. unfold disposable. rewrite Hinv. destruct (ac_users _ !! _); [|done].
    rewrite (bool_decide_true (bl_userId l ∈ _)) by apply (ok_used _ s Hs i l Hi). cbn [negb]. by rewrite andb_false_r.
Qed.

(** ** Who makes a link *)

(** Every link of [t] is one of [s] or one that [P] allows. *)
Definition linked_only (P : text -> uuid -> Prop) (s t : access_state) : Prop :=
  forall i l, xs_links t !! i = Some l ->
    (exists j o, xs_links s !! j = Some o /\ bl_externalUserId o = bl_externalUserId l /\ bl_userId o = bl_userId l) \/ P (bl_externalUserId l) (bl_userId l).

Lemma linked_only_refl P s : linked_only P s s.
Proof. intros i l Hl. left. by exists i, l. Qed.

Lemma keeps_linked_only {A} P s (m : XM A) : keeps links_kept m -> preserves (linked_only P s) m.
Proof.
  intros Hm t Ht. destruct (Hm t t (conj eq_refl (conj eq_refl (conj eq_refl eq_refl)))) as [Hl _]. intros i l H. rewrite Hl in H. by apply (Ht i).
Qed.

Lemma link_initialRole_links ext t : keeps links_kept (link_initialRole ext t).
Proof. intros s. unfold link_initialRole. preserve; apply links_on_acc. Qed.

Ltac keep_links :=
  intros t; preserve;
  first [apply links_cacheUserId | apply links_cache_roles | apply links_say | apply links_on_acc | apply links_on_bot | apply links_getUserId | apply links_getMenuRoles
        | apply link_initialRole_links | apply preserves_modify; intros ? (? & ? & ? & ?); by split].

Lemma links_completeAccountSetup m : keeps links_kept (completeAccountSetup m).
Proof. unfold completeAccountSetup. keep_links. Qed.

Lemma links_invitedAs ext : keeps links_kept (invitedAs ext).
Proof. unfold invitedAs. keep_links. Qed.

Lemma links_handleInvite m : keeps links_kept (handleInvite m).
Proof. unfold handleInvite. keep_links. Qed.

Lemma links_handleIdentifiedUser m c : keeps links_kept (handleIdentifiedUser m c).
Proof.
  unfold handleIdentifiedUser, showAccountTypes. intros t. preserve;
    first [apply links_getMenuRoles | apply links_say | apply links_invitedAs | apply link_initialRole_links | apply links_cacheUserId | apply links_completeAccountSetup].
Qed.

Section Linking.
  Context (P : text -> uuid -> Prop) (s0 : access_state).

(** A row written with an account and a user that are allowed *)
Lemma save_link_linked entity : P (bl_externalUserId entity) (bl_userId entity) -> preserves (linked_only P s0) (save_link entity).
Proof.
  intros Hp s Hs. unfold final. destruct (save_link_cases entity s) as [[e ->]|(_ & _ & ->)]; [done|]. cbn [snd]. intros i l Hl.
  change (<[bl_id (saved_as entity) := saved_as entity]> (xs_links s) !! i = Some l) in Hl. apply lookup_insert_Some in Hl as [(_ & <-)|(_ & Hl)]; [by right | by apply (Hs i)].
Qed.

Lemma link_write_linked m u link :
  P (md_externalUserId m) u -> (forall l, link = Some l -> bl_externalUserId l = md_externalUserId m) -> preserves (linked_only P s0) (link_write m u link).
Proof.
  intros Hp Hl. unfold link_write. preserve; [|apply keeps_linked_only, links_cacheUserId].
  apply save_link_linked. destruct link as [l|]; [|done]. change (P (bl_externalUserId l) u). by rewrite (Hl l eq_refl).
Qed.

Lemma linkUser_linked m u : P (md_externalUserId m) u -> preserves (linked_only P s0) (linkUser m u).
Proof.
  intros Hp s Hs. unfold final, linkUser. rewrite run_bind. destruct (link_checks (md_externalUserId m) u s) as [[link|e] s1] eqn:Ec.
  - destruct (link_checks_Ok _ _ _ _ _ Ec) as (-> & Hl & _). apply link_write_linked; [done | | done].
    intros l ->. symmetry in Hl. apply find_row_Some in Hl as [Hl _]. by apply bool_decide_eq_true in Hl.
  - assert (Hr : reads (link_checks (md_externalUserId m) u)) by (intros t; unfold link_checks; preserve).
    by rewrite (reads_run _ _ _ _ Hr Ec).
Qed.

#[local] Hint Extern 1 (preserves (linked_only _ _) (handleInvite _)) => apply keeps_linked_only, links_handleInvite : preserves.
#[local] Hint Extern 1 (preserves (linked_only _ _) (completeAccountSetup _)) => apply keeps_linked_only, links_completeAccountSetup : preserves.
#[local] Hint Extern 1 (preserves (linked_only _ _) (getMenuRoles _)) => apply keeps_linked_only, links_getMenuRoles : preserves.
#[local] Hint Extern 1 (preserves (linked_only _ _) (say _ _)) => apply keeps_linked_only, links_say : preserves.
#[local] Hint Extern 1 (preserves (linked_only _ _) (on_acc _)) => apply keeps_linked_only, links_on_acc : preserves.
#[local] Hint Extern 1 (preserves (linked_only _ _) (cacheUserId _ _)) => apply keeps_linked_only, links_cacheUserId : preserves.

Lemma linkExistingUser_linked m user :
  (a_recordStatus user = RecActive -> P (md_externalUserId m) (a_id user)) -> preserves (linked_only P s0) (linkExistingUser m user).
Proof.
  intros Hp. unfold linkExistingUser, showAccountTypes. destruct (negb _) eqn:Ea; [preserve|].
  apply negb_false_iff in Ea. apply (eqb_true (a_recordStatus user) RecActive) in Ea. pose proof (linkUser_linked m (a_id user) (Hp Ea)). preserve.
Qed.

Lemma createUserWithLink_linked m phone s :
  linked_only P s0 s -> P (md_externalUserId m) (ac_nextId (xs_acc s)) -> linked_only P s0 (final (createUserWithLink phone m) s).
Proof.
  intros Hs Hp. unfold final. destruct (createUserWithLink_cases phone m s) as [[e ->]|(a & l & -> & _ & -> & _)]; [done|]. cbn [snd]. intros i l Hl.
  set (e := saved_as _) in Hl. change (<[bl_id e := e]> (xs_links s) !! i = Some l) in Hl. apply lookup_insert_Some in Hl as [(_ & <-)|(_ & Hl)]; [by right | by apply (Hs i)].
Qed.

Lemma registerNewUser_linked m phone s :
  linked_only P s0 s -> P (md_externalUserId m) (ac_nextId (xs_acc s)) -> linked_only P s0 (final (registerNewUser m phone) s).
Proof.
  intros Hs Hp. unfold registerNewUser. rewrite final_get_bind. destruct (is_null _); [|done].
  change (linked_only P s0 (final (saved ← createUserWithLink phone m;
      say (md_chatId m) (SaysText "identity.webLogin" [phone]) ;; cacheUserId (md_externalUserId m) (bl_userId saved)) s)).
  apply (final_bind (linked_only P s0)); [by apply createUserWithLink_linked|]. intros l. preserve.
Qed.
End Linking.

(** *** The owner of a number, or of a code *)

(** What the update of a messenger account must bring for a link to a user, as the accounts
    and the codes stand: a contact the messenger says is the sender's own, whose number is
    the user's, or nobody's yet; on Eitaa, a live code that was shown to the user, while
    guesses are left. *)
Definition owns_number (s : access_state) (ext : text) (u : BotUpdate) (user : uuid) : Prop :=
  botPlatformOf ext <> PlatEitaa /\ up_callback u = None /\
  exists c, up_contact u = Some c /\ ct_user_id c = Some ext /\ is_mobile (normalizePhoneNumber (ct_phone_number c)) = true /\
    match findByMobile (xs_acc s) (normalizePhoneNumber (ct_phone_number c)) with
    | Some a => a_recordStatus a = RecActive /\ user = a_id a
    | None => user = ac_nextId (xs_acc s)
    end.

Definition attempts_left (s : access_state) (ext : text) : Prop :=
  match redis_get (xs_attempts s) (xs_now s) ext with Some n => n < MAX_CODE_ATTEMPTS | None => True end.

Definition has_code (s : access_state) (ext : text) (u : BotUpdate) (user : uuid) : Prop :=
  botPlatformOf ext = PlatEitaa /\ attempts_left s ext /\
  exists code shown a, linkCodeIn (up_text u) = Some code /\ redis_get (xs_codes s) (xs_now s) (PlatEitaa, code) = Some shown /\
    findById (xs_acc s) shown = Some a /\ a_recordStatus a = RecActive /\ user = a_id a.

Definition owner_of (s : access_state) (u : BotUpdate) (ext : text) (user : uuid) : Prop :=
  ext = up_ext u /\ (owns_number s ext u user \/ has_code s ext u user).

(** A step that leaves the accounts, the links and the codes alone *)
Definition prefix_kept (s t : access_state) : Prop := accounts_kept s t /\ links_kept s t.

Lemma prefix_kept_refl s : prefix_kept s s.
Proof. by repeat split. Qed.

Lemma prefix_kept_trans s t v : prefix_kept s t -> prefix_kept t v -> prefix_kept s v.
Proof.
  intros (Ha & H1 & H2 & H3 & H4) (Ha' & H1' & H2' & H3' & H4'). unfold accounts_kept in *. repeat split; unfold accounts_kept; congruence.
Qed.

Lemma owner_of_kept s t u ext user : prefix_kept s t -> owner_of t u ext user -> owner_of s u ext user.
Proof.
  intros (Ha & _ & Hc & Ht & _). unfold owner_of, owns_number, has_code, attempts_left, xs_now. unfold accounts_kept in Ha. by rewrite Ha, Hc, Ht.
Qed.

Lemma linked_only_kept P s t t' : prefix_kept s t -> linked_only P t t' -> linked_only P s t'.
Proof. intros (_ & Hl & _) H i l Hi. rewrite <- Hl. by apply (H i). Qed.

Lemma linked_only_weaken (P Q : text -> uuid -> Prop) s t : (forall ext u, P ext u -> Q ext u) -> linked_only P s t -> linked_only Q s t.
Proof. intros HPQ H i l Hi. destruct (H i l Hi); eauto. Qed.


(** What follows a step, on the way out of a [try] as well *)
Lemma final_try_finally {A} (I : access_state -> Prop) (m : XM A) f s : I (final m s) -> preserves I f -> I (final (try_finally m f) s).
Proof. intros Hm Hf. unfold final, try_finally in *. destruct (m s) as [r s1]. specialize (Hf s1 Hm). unfold final in Hf. by destruct (f s1) as [[?|?] ?]. Qed.

Lemma final_try_catch {A} (I : access_state -> Prop) (m : XM A) h s : I (final m s) -> (forall e, preserves I (h e)) -> I (final (try_catch m h) s).
Proof. intros Hm Hh. unfold final, try_catch in *. destruct (m s) as [[a|e] s1]; [done | by apply (Hh e s1)]. Qed.

Section Owners.
  Context (u : BotUpdate).

#[local] Hint Extern 1 (preserves (linked_only _ _) (say _ _)) => apply keeps_linked_only, links_say : preserves.
#[local] Hint Extern 1 (preserves (linked_only _ _) (handleInvite _)) => apply keeps_linked_only, links_handleInvite : preserves.

Lemma handleContact_linked s c :
  botPlatformOf (up_ext u) <> PlatEitaa -> up_callback u = None -> up_contact u = Some c ->
  linked_only (owner_of s u) s (final (handleContact c (up_from u)) s).
Proof.
  intros Hp Hc Hu. unfold handleContact, showAccountTypes. destruct (bool_decide (ct_user_id c = _)) eqn:Eo; cbn [negb];
    [|by apply (keeps_linked_only _ _ _ (links_say _ _)), linked_only_refl].
  apply bool_decide_eq_true in Eo. cbv zeta. destruct (is_mobile _) eqn:Em; cbn [negb];
    [|by apply (keeps_linked_only _ _ _ (links_say _ _)), linked_only_refl].
  rewrite final_get_bind. destruct (findByMobile _ _) as [a|] eqn:Ef.
  - apply linkExistingUser_linked; [|apply linked_only_refl]. intros Ha. split; [done|]. left. repeat split; [done | done|].
    exists c. rewrite Ef. done.
  - apply (final_bind (linked_only (owner_of s u) s)); [|intros _; preserve].
    apply registerNewUser_linked; [apply linked_only_refl|]. split; [done|]. left. repeat split; [done | done|].
    exists c. by rewrite Ef.
Qed.

Lemma consume_code_links p ext code s : xs_links (final (consume_code p ext code) s) = xs_links s /\ xs_acc (final (consume_code p ext code) s) = xs_acc s.
Proof.
  unfold consume_code. rewrite final_get_bind. destruct (match redis_get (xs_attempts s) (xs_now s) ext with Some n => MAX_CODE_ATTEMPTS <=? n | None => false end); [done|].
  by destruct (redis_get (xs_codes s) (xs_now s) (p, code)).
Qed.

Lemma consume_code_Of p ext code s user :
  result (consume_code p ext code) s = Ok (CodeOf user) -> attempts_left s ext /\ redis_get (xs_codes s) (xs_now s) (p, code) = Some user.
Proof.
  unfold result, consume_code, attempts_left. rewrite run_bind. unfold get. cbv beta iota.
  destruct (redis_get (xs_attempts s) _ _) as [n|]; [destruct (Z.leb_spec MAX_CODE_ATTEMPTS n); [done|]|];
    (destruct (redis_get (xs_codes s) _ _) as [v|]; [|done]); rewrite run_bind; intros [= ->]; done.
Qed.

Lemma handleLinkCode_linked s :
  botPlatformOf (up_ext u) = PlatEitaa -> linked_only (owner_of s u) s (final (handleLinkCode (up_text u) (up_from u)) s).
Proof.
  intros Hp. unfold handleLinkCode. destruct (linkCodeIn (up_text u)) as [code|] eqn:Ec;
    [|by apply (keeps_linked_only _ _ _ (links_say _ _)), linked_only_refl].
  fold (up_ext u). rewrite Hp. destruct (consume_code_links PlatEitaa (up_ext u) code s) as [Hl Ha].
  pose proof (consume_code_Of PlatEitaa (up_ext u) code s) as Hof. unfold final, result in *. rewrite run_bind.
  destruct (consume_code PlatEitaa (up_ext u) code s) as [[r|e] s1]; cbn [fst snd] in *.
  - assert (H1 : linked_only (owner_of s u) s s1) by (intros i l; rewrite Hl; apply linked_only_refl).
    destruct r as [| |shown]; [by apply (keeps_linked_only _ _ _ (links_say _ _)) | by apply (keeps_linked_only _ _ _ (links_say _ _))|].
    destruct (Hof shown eq_refl) as [Ht Hv]. rewrite run_bind. unfold get. cbv beta iota. rewrite Ha.
    destruct (findById (xs_acc s) shown) as [a|] eqn:Ef; [|by apply (keeps_linked_only _ _ _ (links_say _ _))].
    apply linkExistingUser_linked; [|exact H1]. intros Hact. split; [done|]. right. split; [done|]. split; [done|].
    by exists code, shown, a.
  - intros i l. rewrite Hl. apply linked_only_refl.
Qed.

Lemma handleUnidentifiedUser_linked s : linked_only (owner_of s u) s (final (handleUnidentifiedUser u) s).
Proof.
  unfold handleUnidentifiedUser. cbv zeta. destruct (bool_decide (botPlatformOf _ = _)) eqn:Ep.
  - apply bool_decide_eq_true in Ep. by apply handleLinkCode_linked.
  - apply bool_decide_eq_false in Ep. destruct (up_callback u) eqn:Ec; cbn [is_null];
      [|destruct (up_contact u) as [c|] eqn:Eu; [by apply handleContact_linked|]];
      (rewrite final_get_bind; by apply (keeps_linked_only _ _ _ (links_say _ _)), linked_only_refl).
Qed.

Lemma locked_part_linked s : linked_only (owner_of s u) s (final (locked_part u) s).
Proof.
  unfold locked_part. rewrite final_get_bind. destruct (redis_get _ _ _).
  - by apply (keeps_linked_only _ _ _ (links_handleIdentifiedUser _ _)), linked_only_refl.
  - apply (final_bind (linked_only (owner_of s u) s)); [apply handleUnidentifiedUser_linked | intros _; apply preserves_ret].
Qed.
End Owners.

(** *** The paths of an update *)

Definition known_part (u : BotUpdate) : XM bool :=
  handled ← (if is_some (if is_null (up_callback u) then inviteIn (up_text u) else None) then handleInvite (up_from u) else mret false);
  if (handled : bool) then mret true else handleIdentifiedUser (up_from u) (up_callback u).

Definition tried_part (u : BotUpdate) : XM bool :=
  try_catch (locked_part u)
    (fun e => if is_conflict e then say (md_chatId (up_from u)) (SaysText "identity.conflict" []) ;; mret true else throw e).

Definition unlock (ext : text) (owner : N) : XM unit :=
  s ← get;
  when (bool_decide (redis_get (xs_locks s) (xs_now s) ext = Some owner)) (modify (fun s => s <| xs_locks := delete ext (xs_locks s) |>)).

Lemma lock_cases ext owner m s :
  final (with_access_lock ext owner m) s = s \/
  final (with_access_lock ext owner m) s =
    final (try_finally m (unlock ext owner)) (s <| xs_locks := redis_set (xs_locks s) (xs_now s) ext owner ACCESS_LOCK_TTL_SECONDS |>).
Proof. unfold with_access_lock. rewrite final_get_bind. destruct (negb _); [by left | by right]. Qed.

(** An update comes to nothing, or goes on as that of a known user, or under its lock, from a
    state whose accounts, links and codes are those it found. *)
Lemma handle_cases u owner s :
  exists s', prefix_kept s s' /\ (forall made, access_ok made s -> access_ok made s') /\
    (final (handle u owner) s = s' \/ final (handle u owner) s = final (known_part u) s' \/
     final (handle u owner) s = final (try_finally (tried_part u) (unlock (up_ext u) owner)) s').
Proof.
  assert (Hsame : forall t t', prefix_kept t t' -> xs_identity t' = xs_identity t -> forall made, access_ok made t -> access_ok made t').
  { intros t t' (Ha & Hl & _) Hi made Ht. unfold accounts_kept in Ha.
    apply (access_ok_same _ t); [done | by rewrite Ha | rewrite Hi; apply (ok_cache _ t Ht) | rewrite Ha; apply (ok_accounts _ t Ht) | done]. }
  unfold handle. destruct (negb _); [exists s; split; [apply prefix_kept_refl | by auto]|]. cbv zeta.
  set (store := match (if is_null (up_callback u) then inviteIn (up_text u) else None) with Some i => _ | None => _ end).
  assert (Hstore : result store s = Ok tt /\ prefix_kept s (final store s) /\ xs_identity (final store s) = xs_identity s)
    by (unfold store; by destruct (if is_null (up_callback u) then _ else None)).
  unfold final, result in *. rewrite run_bind. destruct (store s) as [r s1]. cbn [fst snd] in Hstore. destruct Hstore as (-> & H1 & Hi1).
  pose proof (keeps_use links_kept (getUserId (up_ext u)) s1 (fun s => proj2 (prefix_kept_refl s)) (links_getUserId _)) as Hl.
  pose proof (keeps_use accounts_kept (getUserId (up_ext u)) s1 (fun s => eq_refl) (acc_getUserId _)) as Ha.
  assert (Hok : forall made, access_ok made s -> access_ok made (final (getUserId (up_ext u)) s1)).
  { intros made Hs. apply ok_getUserId. by apply (Hsame s). }
  unfold final in Hl, Ha, Hok. rewrite run_bind. destruct (getUserId (up_ext u) s1) as [[known|e] s2]; cbn [snd] in Hl, Ha, Hok.
  2: { exists s2. split; [by apply (prefix_kept_trans s s1)|]. auto. }
  assert (H2 : prefix_kept s s2) by (by apply (prefix_kept_trans s s1)).
  destruct (is_some known); [exists s2; by auto|].
  destruct (lock_cases (up_ext u) owner (tried_part u) s2) as [E|E]; unfold final, tried_part in E; rewrite E.
  - exists s2. by auto.
  - eexists. split; [|split; [|right; right; reflexivity]]; [exact (prefix_kept_trans s s2 _ H2 (prefix_kept_refl s2))|].
    intros made Hs. apply (Hsame s2); [by repeat split | done | by auto].
Qed.

Lemma links_unlock ext owner : keeps links_kept (unlock ext owner).
Proof. intros t. unfold unlock. preserve. apply preserves_modify. intros ? (? & ? & ? & ?). by split. Qed.

(** C39: A messenger account gets a user only from its owner: whatever a stranger sends, an
    update makes no link but one between the account that wrote it and the user whose number
    the messenger says is the sender's own (or the new user of a number nobody has), or, on
    Eitaa, the user who was shown on the web the live code it holds. *)
Theorem linked_by_owner (u : BotUpdate) (owner : N) (s : access_state) : linked_only (owner_of s u) s (final (handle u owner) s).
Proof.
  destruct (handle_cases u owner s) as (s' & Hk & _ & H). apply (linked_only_kept _ _ s'); [done|].
  apply (linked_only_weaken (owner_of s' u)); [intros ext v; by apply owner_of_kept|]. destruct H as [-> | [-> | ->]].
  - apply linked_only_refl.
  - assert (Hi : forall m c, preserves (linked_only (owner_of s' u) s') (handleIdentifiedUser m c)) by (intros; apply keeps_linked_only, links_handleIdentifiedUser).
    assert (Hv : forall m, preserves (linked_only (owner_of s' u) s') (handleInvite m)) by (intros; apply keeps_linked_only, links_handleInvite).
    assert (Hp : preserves (linked_only (owner_of s' u) s') (known_part u)) by (unfold known_part; preserve). apply Hp, linked_only_refl.
  - apply final_try_finally; [unfold tried_part; apply final_try_catch; [apply locked_part_linked|]|].
    + intros e. preserve. apply keeps_linked_only, links_say.
    + apply keeps_linked_only, links_unlock.
Qed.

(** ** Wrong codes run out *)

Definition guesses_ok (s : access_state) : Prop := forall ext n e, xs_attempts s !! ext = Some (n, e) -> 1 <= n <= MAX_CODE_ATTEMPTS.

Lemma guesses_modify (f : access_state -> access_state) : (forall s, xs_attempts (f s) = xs_attempts s) -> preserves guesses_ok (modify f).
Proof. intros H. apply preserves_modify. intros s Hs ext n e. rewrite H. apply Hs. Qed.

Lemma guesses_zoom {T A} (getT : access_state -> T) (putT : T -> access_state -> access_state) (m : M T A) :
  (forall t s, xs_attempts (putT t s) = xs_attempts s) -> preserves guesses_ok (zoom getT putT m).
Proof. intros H s Hs. unfold final, zoom. destruct (m _) as [r t]. intros ext n e. cbn [snd]. rewrite H. apply Hs. Qed.

Lemma guesses_consume p ext code : preserves guesses_ok (consume_code p ext code).
Proof.
  intros s Hs. unfold consume_code. rewrite final_get_bind.
  destruct (match redis_get (xs_attempts s) (xs_now s) ext with Some n => MAX_CODE_ATTEMPTS <=? n | None => false end) eqn:El; [done|].
  destruct (redis_get (xs_codes s) (xs_now s) (p, code)).
  - intros ext' k e H. change (delete ext (xs_attempts s) !! ext' = Some (k, e)) in H. apply lookup_delete_Some in H as [_ H]. exact (Hs ext' _ _ H).
  - intros ext' k e H. change (redis_increment (xs_attempts s) (xs_now s) ext ATTEMPTS_WINDOW_SECONDS !! ext' = Some (k, e)) in H.
    unfold redis_get in El. unfold redis_increment, redis_set in H. destruct (xs_attempts s !! ext) as [[m f]|] eqn:Ea; [destruct (xs_now s <=? f)|];
      apply lookup_insert_Some in H as [(<- & [= <- <-]) | (_ & H)]; try (exact (Hs ext' _ _ H)); [|by unfold MAX_CODE_ATTEMPTS..].
    specialize (Hs ext _ _ Ea). lia.
Qed.

#[local] Hint Extern 2 (preserves guesses_ok (modify _)) => apply guesses_modify; intros ?; reflexivity : preserves.
#[local] Hint Extern 2 (preserves guesses_ok (on_acc _)) => apply guesses_zoom; intros ? ?; reflexivity : preserves.
#[local] Hint Extern 2 (preserves guesses_ok (on_bot _)) => apply guesses_zoom; intros ? ?; reflexivity : preserves.
#[local] Hint Resolve guesses_consume : preserves.

Lemma guesses_getUserId ext : preserves guesses_ok (getUserId ext).
Proof. unfold getUserId, cacheUserId, cache_roles. preserve. Qed.

Lemma guesses_getMenuRoles ext : preserves guesses_ok (getMenuRoles ext).
Proof. unfold getMenuRoles, cache_roles. preserve. Qed.

#[local] Hint Resolve guesses_getUserId guesses_getMenuRoles : preserves.

Lemma guesses_save_link l : preserves guesses_ok (save_link l).
Proof. unfold save_link. preserve. Qed.

#[local] Hint Resolve guesses_save_link : preserves.

Lemma guesses_link_write m u l : preserves guesses_ok (link_write m u l).
Proof. unfold link_write, cacheUserId. preserve. Qed.

#[local] Hint Resolve guesses_link_write : preserves.

Lemma guesses_handleInvite m : preserves guesses_ok (handleInvite m).
Proof. unfold handleInvite, say. preserve. Qed.

Lemma guesses_handleIdentifiedUser m c : preserves guesses_ok (handleIdentifiedUser m c).
Proof. unfold handleIdentifiedUser, invitedAs, completeAccountSetup, showAccountTypes, say, cacheUserId, link_initialRole. preserve. Qed.

#[local] Hint Resolve guesses_handleInvite guesses_handleIdentifiedUser : preserves.

Lemma guesses_handle u owner : preserves guesses_ok (handle u owner).
Proof.
  unfold handle, with_access_lock, locked_part, handleUnidentifiedUser, handleLinkCode, handleContact, linkExistingUser, registerNewUser, createUserWithLink,
    linkUser, link_checks, completeAccountSetup, showAccountTypes, say, cacheUserId. preserve.
Qed.

Lemma guesses_draw_code p u draws : preserves guesses_ok (draw_code p u draws).
Proof. induction draws as [|c draws IH]; cbn [draw_code]; preserve. Qed.

#[local] Hint Resolve guesses_handle guesses_draw_code : preserves.

Lemma guesses_step y1 y2 : access_step y1 y2 -> guesses_ok (sx_state y1) -> guesses_ok (sx_state y2).
Proof.
  intros []; cbn [sx_state]; intros Hs; try done.
  - by apply guesses_handle.
  - by apply guesses_link_write.
  - revert s Hs. change (preserves guesses_ok (web_linkCode account userId draws)). unfold web_linkCode, create_code. preserve.
  - revert s Hs. change (preserves guesses_ok (touch m)). unfold touch. preserve.
Qed.

(** Wrong codes run out: in the time that starts with a messenger account's first wrong
    code it has at most five, whatever happens meanwhile; each one counts and leaves the end
    of that time where it was, and after the fifth no code is looked at, not even a right
    one. *)
Theorem guess_limit (s0 : access_state) (y : access_system) (p : BotPlatform) (ext code : text) (n : Z) (e : time)
    (H0 : xs_attempts s0 = ∅) (Hr : rtc access_step (mkAccessSystem s0 []) y)
    (Ha : xs_attempts (sx_state y) !! ext = Some (n, e)) (Hl : xs_now (sx_state y) <= e) :
  1 <= n <= MAX_CODE_ATTEMPTS /\
  (n = MAX_CODE_ATTEMPTS -> consume_code p ext code (sx_state y) = (Ok CodeLimited, sx_state y)) /\
  (n < MAX_CODE_ATTEMPTS -> redis_get (xs_codes (sx_state y)) (xs_now (sx_state y)) (p, code) = None ->
   result (consume_code p ext code) (sx_state y) = Ok CodeWrong /\
   xs_attempts (final (consume_code p ext code) (sx_state y)) !! ext = Some (n + 1, e)).
Proof.
  assert (Hs : guesses_ok (sx_state y)).
  { assert (K0 : guesses_ok (sx_state (mkAccessSystem s0 []))) by (intros ext' k f H; cbn [sx_state] in H; by rewrite H0 in H).
    clear H0 Ha Hl. remember (mkAccessSystem s0 []) as y0 eqn:E. clear E. induction Hr; eauto using guesses_step. }
  set (s := sx_state y) in *. split; [exact (Hs ext n e Ha)|].
  assert (Hg : redis_get (xs_attempts s) (xs_now s) ext = Some n) by (apply redis_get_Some; by exists e).
  split.
  - intros ->. unfold consume_code. rewrite run_bind. unfold get. cbv beta iota. rewrite Hg. done.
  - intros Hn Hc. unfold result, final, consume_code. rewrite run_bind. unfold get. cbv beta iota. rewrite Hg, (proj2 (Z.leb_gt _ _) Hn), Hc.
    split; [done|]. change (redis_increment (xs_attempts s) (xs_now s) ext ATTEMPTS_WINDOW_SECONDS !! ext = Some (n + 1, e)).
    unfold redis_increment. rewrite Ha, (proj2 (Z.leb_le _ _) Hl). apply lookup_insert_eq.
Qed.

(** ** A first role is chosen, or was invited *)

Section Roles.
  Context (r : list (uuid * string)).

(** The roles of all accounts are [r]. *)
Definition roles_are (a : account_state) : Prop := ac_userRoles a = r.
Definition xroles_are (s : access_state) : Prop := roles_are (xs_acc s).

Lemma xroles_modify (f : access_state -> access_state) : (forall s, xs_acc (f s) = xs_acc s) -> preserves xroles_are (modify f).
Proof. intros H. apply preserves_modify. intros s Hs. unfold xroles_are. by rewrite H. Qed.

Lemma xroles_on_acc {A} (m : AM A) : preserves roles_are m -> preserves xroles_are (on_acc m).
Proof. intros Hm. apply (preserves_zoom _ roles_are); [done | by intros | by intros]. Qed.

Lemma xroles_on_bot {A} (m : BSM A) : preserves xroles_are (on_bot m).
Proof. intros s Hs. unfold final, on_bot, zoom. by destruct (m _). Qed.

Lemma roles_modify (f : account_state -> account_state) : (forall a, ac_userRoles (f a) = ac_userRoles a) -> preserves roles_are (modify f).
Proof. intros H. apply preserves_modify. intros a Ha. unfold roles_are. by rewrite H. Qed.

#[local] Hint Extern 2 (preserves roles_are (modify _)) => apply roles_modify; intros ?; reflexivity : preserves.
#[local] Hint Extern 2 (preserves xroles_are (modify _)) => apply xroles_modify; intros ?; reflexivity : preserves.
#[local] Hint Extern 2 (preserves xroles_are (on_bot _)) => apply xroles_on_bot : preserves.

Lemma roles_insert_account u : preserves roles_are (insert_account u).
Proof. unfold insert_account, save_account, take_id. preserve. Qed.

Lemma roles_markInvitesUsed m : preserves roles_are (markInvitesUsed m).
Proof. unfold markInvitesUsed, mark_kind, publish_account. preserve. Qed.

Lemma roles_welcome kind u t : preserves roles_are (welcome_of kind u t).
Proof.
  unfold welcome_of, welcomeCompany, welcomeDriver, welcomeBroker, welcomeFactory, welcome_with, isMember, isInvitedDriver, isInvitedBroker,
    isInvitedFactory, came_in, publish_account. preserve.
Qed.

#[local] Hint Resolve xroles_on_acc roles_insert_account roles_markInvitesUsed roles_welcome : preserves.

Lemma xroles_getUserId ext : preserves xroles_are (getUserId ext).
Proof. unfold getUserId, cacheUserId, cache_roles. preserve. Qed.

Lemma xroles_getMenuRoles ext : preserves xroles_are (getMenuRoles ext).
Proof. unfold getMenuRoles, cache_roles. preserve. Qed.

#[local] Hint Resolve xroles_getUserId xroles_getMenuRoles : preserves.

Lemma xroles_handleInvite m : preserves xroles_are (handleInvite m).
Proof. unfold handleInvite, say. preserve. Qed.

#[local] Hint Resolve xroles_handleInvite : preserves.

Lemma xroles_save_link l : preserves xroles_are (save_link l).
Proof. unfold save_link. preserve. apply preserves_modify. by intros t Ht. Qed.

#[local] Hint Resolve xroles_save_link : preserves.

Lemma xroles_handleUnidentifiedUser u : preserves xroles_are (handleUnidentifiedUser u).
Proof.
  unfold handleUnidentifiedUser, handleLinkCode, handleContact, linkExistingUser, registerNewUser, createUserWithLink, consume_code,
    linkUser, link_checks, link_write, completeAccountSetup, showAccountTypes, say, cacheUserId. preserve.
Qed.
End Roles.

(** The kinds of account a user without a role may become *)
Definition invited_kinds (s : access_state) (user : Account) : list AccountType :=
  match a_mobile user with Some m => if is_empty m then [] else invitedAccountTypes (xs_acc s) m | None => [] end.

Definition may_become (s : access_state) (user : Account) : list AccountType :=
  match invited_kinds s user with [] => SELF_SERVICE_ACCOUNT_TYPES | l => l end.

(** No account gets a role, or the user linked to [ext], who had none, gets its first. *)
Definition first_role (ext : text) (s t : access_state) : Prop :=
  ac_userRoles (xs_acc t) = ac_userRoles (xs_acc s) \/
  exists link user kind,
    find_link s ext = Some link /\ findById (xs_acc s) (bl_userId link) = Some user /\ a_recordStatus user = RecActive /\
    role_names (xs_acc s) (bl_userId link) = [] /\ kind ∈ may_become s user /\ role_active (xs_acc s) (account_role kind) = true /\
    ac_userRoles (xs_acc t) = ac_userRoles (xs_acc s) ++ [(bl_userId link, account_role kind)].

Lemma first_role_kept ext s s' t : prefix_kept s s' -> first_role ext s' t -> first_role ext s t.
Proof.
  intros (Ha & Hl & _). unfold accounts_kept in Ha. unfold first_role, find_link, may_become, invited_kinds. by rewrite Ha, Hl.
Qed.

Lemma xroles_final ext {A} (m : XM A) s : (forall r, preserves (xroles_are r) m) -> first_role ext s (final m s).
Proof. intros Hm. left. by apply (Hm (ac_userRoles (xs_acc s)) s). Qed.

(** What follows a step whose answer and states are known *)
Lemma final_bind_run {A B} (I : access_state -> Prop) (m : XM A) (k : A -> XM B) s :
  (forall a s1, m s = (Ok a, s1) -> I (final (k a) s1)) -> (forall e s1, m s = (Err e, s1) -> I s1) -> I (final (m ≫= k) s).
Proof. unfold final. rewrite run_bind. intros Hm He. destruct (m s) as [[a|e] s1]; [by apply Hm | by eapply He]. Qed.

Lemma prefix_run {A} (m : XM A) s r s1 : keeps accounts_kept m -> keeps links_kept m -> m s = (r, s1) -> prefix_kept s s1.
Proof.
  intros Ha Hl E. split.
  - pose proof (keeps_use accounts_kept m s (fun _ => eq_refl) Ha) as H. unfold final in H. by rewrite E in H.
  - pose proof (keeps_use links_kept m s (fun s => proj2 (prefix_kept_refl s)) Hl) as H. unfold final in H. by rewrite E in H.
Qed.

Lemma invitedAs_says ext s l s1 link user :
  access_ok ∅ s -> invitedAs ext s = (Ok l, s1) -> find_link s ext = Some link -> findById (xs_acc s) (bl_userId link) = Some user -> l = invited_kinds s user.
Proof.
  intros Hs Hrun Hl Hu. unfold invitedAs in Hrun. apply bind_Ok_inv in Hrun as (id & t & Hid & Hrun).
  pose proof (getUserId_says ∅ s ext Hs) as Hg. unfold result in Hg. rewrite Hid, Hl in Hg. injection Hg as ->.
  destruct (prefix_run _ _ _ _ (acc_getUserId ext) (links_getUserId ext) Hid) as [Ha _]. unfold accounts_kept in Ha.
  rewrite run_bind in Hrun. unfold get in Hrun. cbv beta iota in Hrun. rewrite Ha in Hrun. cbn [fmap option_fmap option_map mbind option_bind] in Hrun.
  rewrite Hu in Hrun. injection Hrun as <- _. done.
Qed.

(** The role [assignInitialRole] gives *)
Lemma link_initialRole_gives ext kind s :
  keyed (xs_acc s) ->
  ac_userRoles (xs_acc (final (link_initialRole ext kind) s)) = ac_userRoles (xs_acc s) \/
  exists link user, find_link s ext = Some link /\ findById (xs_acc s) (bl_userId link) = Some user /\ a_recordStatus user = RecActive /\
    role_names (xs_acc s) (bl_userId link) = [] /\ role_active (xs_acc s) (account_role kind) = true /\
    ac_userRoles (xs_acc (final (link_initialRole ext kind) s)) = ac_userRoles (xs_acc s) ++ [(bl_userId link, account_role kind)].
Proof.
  intros Hk. unfold final. destruct (link_initialRole ext kind s) as [[v|e] t] eqn:E; cbn [snd]; [|left; apply transaction_Err in E; by rewrite E].
  apply transaction_Ok_inv in E. rewrite run_bind in E. unfold get in E. cbv beta iota in E.
  apply bind_Ok_inv in E as (link & ? & [Hl ->]%some_or_Ok_inv & E). apply bind_Ok_inv in E as (user & ? & [Hu ->]%some_or_Ok_inv & E).
  destruct (findById (xs_acc s) (bl_userId link)) as [u|] eqn:Ef; [|done]. destruct (eqb (a_recordStatus u) RecActive) eqn:Ea; [|done].
  injection Hu as ->. apply (eqb_true (a_recordStatus user) RecActive) in Ea. pose proof (Hk _ _ Ef) as Hid. rewrite Hid in E.
  destruct (role_names (xs_acc s) (bl_userId link)) eqn:Er; [|left; apply run_Ok_inv in E as [_ ->]; done].
  apply bind_Ok_inv in E as (? & ? & [Hr ->]%ensure_Ok_inv & E). injection E as _ <-.
  right. exists link, user. split; [done|]. split; [exact Ef|]. split; [exact Ea|]. split; [exact Er|]. split; [exact Hr | reflexivity].
Qed.

Lemma acc_invitedAs ext : keeps accounts_kept (invitedAs ext).
Proof. unfold invitedAs. intros t. preserve. apply acc_getUserId. Qed.

Lemma handleIdentifiedUser_role m callback s :
  access_ok ∅ s -> first_role (md_externalUserId m) s (final (handleIdentifiedUser m callback) s).
Proof.
  intros Hs. unfold handleIdentifiedUser, showAccountTypes. cbv zeta. apply final_bind_run.
  2: { intros e s1 E. apply (first_role_kept _ s s1); [exact (prefix_run _ _ _ _ (acc_getMenuRoles _) (links_getMenuRoles _) E) | by left]. }
  intros roles s1 E. pose proof (prefix_run _ _ _ _ (acc_getMenuRoles _) (links_getMenuRoles _) E) as H1.
  pose proof (ok_getMenuRoles ∅ (md_externalUserId m) s Hs) as Hs1. unfold final in Hs1. rewrite E in Hs1. cbn [snd] in Hs1.
  apply (first_role_kept _ s s1); [done|]. clear E Hs H1 s.
  destruct (default [] roles); [|by apply xroles_final; intros r; unfold say; preserve; by apply xroles_modify].
  apply final_bind_run.
  2: { intros e s2 E. apply (first_role_kept _ s1 s2); [exact (prefix_run _ _ _ _ (acc_invitedAs _) (links_invitedAs _) E) | by left]. }
  intros invited s2 E. pose proof (prefix_run _ _ _ _ (acc_invitedAs _) (links_invitedAs _) E) as H2.
  apply (first_role_kept _ s1 s2); [done|].
  pose proof (ok_invitedAs ∅ (md_externalUserId m) s1 Hs1) as Hs2. unfold final in Hs2. rewrite E in Hs2. cbn [snd] in Hs2.
  assert (Hinv : forall link user, find_link s2 (md_externalUserId m) = Some link -> findById (xs_acc s2) (bl_userId link) = Some user -> invited = invited_kinds s2 user).
  { destruct H2 as (Ha & Hl & _). unfold accounts_kept in Ha. intros link user. unfold find_link, invited_kinds. rewrite Ha, Hl. exact (invitedAs_says _ _ _ _ link user Hs1 E). }
  match goal with |- first_role _ _ (final (match ?x with _ => _ end) _) => set (picked := x) end.
  assert (Hpick : forall kind, picked = Some kind -> kind ∈ match invited with [] => SELF_SERVICE_ACCOUNT_TYPES | l => l end).
  { intros kind. unfold picked. clear. destruct invited as [|k [|]]; [|intros [= ->]; by apply list_elem_of_here|];
      intros H; by apply find_some in H as [H%list_elem_of_In _]. }
  destruct picked as [kind|]; [|by apply xroles_final; intros r; unfold say; preserve; by apply xroles_modify].
  destruct (link_initialRole_gives (md_externalUserId m) kind s2 (ok_accounts _ s2 Hs2)) as [Hr|(link & user & Hl & Hu & Ha & Hn & Hact & Hr)];
    (match goal with |- first_role _ _ (final (_ ≫= ?k) _) =>
       assert (Hk : forall a r, preserves (xroles_are r) (k a)) by (intros; unfold cacheUserId, completeAccountSetup, say; preserve;
         first [by apply xroles_modify | apply xroles_on_bot | apply xroles_getMenuRoles]) end).
  - left. match goal with |- ac_userRoles (xs_acc (final (?m ≫= ?k) _)) = ?r => change (xroles_are r (final (m ≫= k) s2)) end.
    apply final_bind; [exact Hr | intros; apply Hk].
  - right. exists link, user, kind. do 4 (split; [assumption|]). split; [unfold may_become; rewrite <- (Hinv link user Hl Hu); pose proof (Hpick kind eq_refl); by destruct invited|]. split; [done|].
    match goal with |- ac_userRoles (xs_acc (final (?m ≫= ?k) _)) = ?r => change (xroles_are r (final (m ≫= k) s2)) end.
    apply final_bind; [exact Hr | intros; apply Hk].
Qed.

Lemma welcome_with_no isInvited kind t a w a1 :
  (forall b b1, isInvited b = (Ok false, b1) -> b1 = b) -> welcome_with isInvited kind t a = (Ok w, a1) -> joined w = false -> a1 = a.
Proof.
  intros Hi. unfold welcome_with. rewrite run_bind. unfold get. cbv beta iota. destruct (activeInvite a kind t); [|by intros [= <- <-]].
  intros ([|] & b & E & H)%bind_Ok_inv; injection H as <- <-; [done|]. intros _. by apply Hi.
Qed.

Lemma came_in_no kind u t b b1 : came_in kind u t b = (Ok false, b1) -> b1 = b.
Proof.
  unfold came_in. rewrite run_bind. unfold get. cbv beta iota. destruct (activeInvite b kind t) as [i|]; [|by intros [= <-]].
  destruct (iv_invitee i =? u)%N; [|by intros [= <-]]. by intros (? & ? & _ & [=])%bind_Ok_inv.
Qed.

Lemma isInvitedDriver_no u t b b1 : isInvitedDriver u t b = (Ok false, b1) -> b1 = b.
Proof.
  unfold isInvitedDriver. rewrite run_bind. unfold get. cbv beta iota. destruct (activeInvite b DriverKindInvite t) as [i|]; [|by intros [= <-]].
  destruct (iv_invitee i =? u)%N; [|by intros [= <-]]. by intros (? & ? & _ & [=])%bind_Ok_inv.
Qed.

Lemma welcome_not_joined kind u t a w a1 : welcome_of kind u t a = (Ok w, a1) -> joined w = false -> a1 = a.
Proof. destruct kind; apply welcome_with_no; intros b b1; first [apply came_in_no | apply isInvitedDriver_no]. Qed.

(** An invitation answered without joining changes no account. *)
Lemma handleInvite_no m s s1 : handleInvite m s = (Ok false, s1) -> accounts_kept s s1.
Proof.
  unfold handleInvite, accounts_kept. rewrite run_bind. unfold get at 1. cbv beta iota.
  destruct (redis_get (xs_invites s) (xs_now s) (md_externalUserId m)) as [invite|]; [|by intros [= <-]].
  intros (known & t & E & H)%bind_Ok_inv. pose proof (proj1 (prefix_run _ _ _ _ (acc_getUserId _) (links_getUserId _) E)) as Ha. unfold accounts_kept in Ha.
  destruct known as [userId|]; [|by injection H as <-]. rewrite <- Ha. clear E Ha s.
  rewrite run_bind in H. unfold modify at 1 in H. cbv beta iota in H. apply bind_Ok_inv in H as (roles & t2 & E & H).
  pose proof (proj1 (prefix_run _ _ _ _ (acc_getMenuRoles _) (links_getMenuRoles _) E)) as Ha. unfold accounts_kept in Ha.
  change (xs_acc t2 = xs_acc t) in Ha. rewrite <- Ha. clear E Ha t. rewrite run_bind in H. unfold on_acc at 1, zoom in H.
  destruct (welcome_of (mi_kind invite) userId (mi_token invite) (xs_acc t2)) as [[w|e] a] eqn:Ew; [|done].
  rewrite run_bind in H. unfold say at 1, modify at 1 in H. cbv beta iota in H.
  destruct (negb (joined w) && _) eqn:Ej.
  - injection H as <-. apply andb_true_iff in Ej as [Ej%negb_true_iff _]. change (a = xs_acc t2). by apply (welcome_not_joined (mi_kind invite) userId (mi_token invite) _ w).
  - apply bind_Ok_inv in H as (? & ? & _ & H). by apply bind_Ok_inv in H as (? & ? & _ & [=]).
Qed.

Lemma first_role_after ext s {A} (m : XM A) : (forall r, preserves (xroles_are r) m) -> preserves (first_role ext s) m.
Proof.
  intros Hm t Ht. unfold first_role. assert (E : ac_userRoles (xs_acc (final m t)) = ac_userRoles (xs_acc t)) by (by apply (Hm (ac_userRoles (xs_acc t)) t)).
  by rewrite E.
Qed.

Lemma roles_say r c x : preserves (xroles_are r) (say c x).
Proof. by apply xroles_modify. Qed.

Lemma known_part_role u s : access_ok ∅ s -> first_role (up_ext u) s (final (known_part u) s).
Proof.
  intros Hs. unfold known_part. apply final_bind_run.
  - intros handled s1 E. destruct (is_some _); [|injection E as <- <-; by apply handleIdentifiedUser_role].
    destruct handled.
    + left. pose proof (xroles_handleInvite (ac_userRoles (xs_acc s)) (up_from u) s eq_refl) as H. unfold final in H. by rewrite E in H.
    + apply (first_role_kept _ s s1).
      * split; [by apply (handleInvite_no (up_from u))|].
        pose proof (keeps_use links_kept (handleInvite (up_from u)) s (fun s => proj2 (prefix_kept_refl s)) (links_handleInvite _)) as H. unfold final in H. by rewrite E in H.
      * apply handleIdentifiedUser_role. pose proof (ok_handleInvite ∅ (up_from u) s Hs) as H. unfold final in H. by rewrite E in H.
  - intros e s1 E. left. destruct (is_some _); [|done].
    pose proof (xroles_handleInvite (ac_userRoles (xs_acc s)) (up_from u) s eq_refl) as H. unfold final in H. by rewrite E in H.
Qed.

Lemma locked_part_role u s : access_ok ∅ s -> first_role (up_ext u) s (final (locked_part u) s).
Proof.
  intros Hs. unfold locked_part. rewrite final_get_bind. destruct (redis_get _ _ _); [by apply handleIdentifiedUser_role|].
  apply xroles_final. intros r. pose proof (xroles_handleUnidentifiedUser r u). preserve.
Qed.

(** A first role is one the account may have: whatever an update brings, it gives no role,
    or gives the active user of the messenger account that wrote it, who had none, the role
    of a kind its number is invited as, or, of a number nobody invited, of a kind anybody
    may choose. *)
Theorem role_as_invited (s0 : access_state) (y : access_system) (u : BotUpdate) (owner : N)
    (H0 : no_links s0) (Hr : rtc access_step (mkAccessSystem s0 []) y) :
  first_role (up_ext u) (sx_state y) (final (handle u owner) (sx_state y)).
Proof.
  destruct (reachable_access_ok s0 y H0 Hr) as [Hs _]. set (s := sx_state y) in *.
  destruct (handle_cases u owner s) as (s' & Hk & Hok & H). specialize (Hok ∅ Hs). apply (first_role_kept _ s s'); [done|].
  destruct H as [-> | [-> | ->]]; [by left | by apply known_part_role|].
  apply final_try_finally; [unfold tried_part; apply final_try_catch; [by apply locked_part_role|]|]; [intros e|]; apply first_role_after; intros r.
  - pose proof (roles_say r). preserve.
  - unfold unlock. preserve. by apply xroles_modify.
Qed.

(** ** An account on Telegram, the same number on Bale, a code on Eitaa *)

Definition sample_access : access_state := {|
  xs_acc := sample_accounts <| ac_users := ∅ |> <| ac_userRoles := [] |>;
  xs_bot := sample_bot; xs_links := ∅; xs_identity := ∅; xs_roles := ∅; xs_locks := ∅; xs_invites := ∅; xs_codes := ∅;
  xs_userCodes := ∅; xs_attempts := ∅; xs_said := [] |}.

Lemma sample_access_nobody : no_links sample_access.
Proof. repeat split. intros i u H. discriminate H. Defined.

Definition sample_sender (ext : text) : BotIdentityMetadata := mkMetadata ext ext None (Some (js "A")) None.
Definition shares (ext : text) (number : string) : BotUpdate := mkUpdate true (sample_sender ext) None (Some (mkContact (js number) (Some ext))) None.
Definition presses (ext : text) (t : AccountType) : BotUpdate := mkUpdate true (sample_sender ext) None None (Some (account_button t)).
Definition writes (ext : text) (t : string) : BotUpdate := mkUpdate true (sample_sender ext) (Some (js t)) None None.

Definition sample_telegram : access_state := final (handle (shares (js "7") "09121234567") 1) sample_access.
Definition sample_bale : access_state := final (handle (shares (toBotId PlatBale (js "9")) "+989121234567") 2) sample_telegram.

Lemma sample_bale_reached : rtc access_step (mkAccessSystem sample_access []) (mkAccessSystem sample_bale []).
Proof. eapply rtc_l; [exact (step_update (shares (js "7") "09121234567") 1 sample_access [])|]. eapply rtc_l; [exact (step_update (shares (toBotId PlatBale (js "9")) "+989121234567") 2 sample_telegram [])|]. apply rtc_refl. Defined.

Lemma one_link_each_witness :
  map (fun p => (bl_externalUserId p.2, bl_userId p.2)) (map_to_list (xs_links sample_bale)) = [(js "bale:9", 10%N); (js "7", 10%N)] /\
  ~ exists i j l o, i <> j /\ xs_links sample_bale !! i = Some l /\ xs_links sample_bale !! j = Some o /\ bl_externalUserId l = bl_externalUserId o.
Proof.
  split; [vm_compute; reflexivity|]. intros (i & j & l & o & Hij & Hi & Hj & He). apply Hij.
  exact (proj1 (one_link_each sample_access (mkAccessSystem sample_bale []) l o i j sample_access_nobody sample_bale_reached Hi Hj) He).
Defined.

Lemma role_as_invited_witness :
  first_role (js "7") sample_bale (final (handle (presses (js "7") AccDriver) 3) sample_bale) /\
  ac_userRoles (xs_acc (final (handle (presses (js "7") AccDriver) 3) sample_bale)) = [(10%N, "DRIVER"%string)].
Proof.
  split; [|vm_compute; reflexivity].
  exact (role_as_invited sample_access (mkAccessSystem sample_bale []) (presses (js "7") AccDriver) 3 sample_access_nobody sample_bale_reached).
Defined.

Definition sample_guess : access_state := final (handle (writes (toBotId PlatEitaa (js "5")) "123456") 1) sample_access.

Lemma guess_limit_witness :
  result (consume_code PlatEitaa (toBotId PlatEitaa (js "5")) (js "654321")) sample_guess = Ok CodeWrong /\
  xs_attempts (final (consume_code PlatEitaa (toBotId PlatEitaa (js "5")) (js "654321")) sample_guess) !! toBotId PlatEitaa (js "5") =
    Some (2, xs_now sample_access + 600000).
Proof.
  refine (proj2 (proj2 (guess_limit sample_access (mkAccessSystem sample_guess []) PlatEitaa (toBotId PlatEitaa (js "5")) (js "654321") 1
            (xs_now sample_access + 600000) eq_refl _ _ _)) _ _).
  - eapply rtc_l; [exact (step_update (writes (toBotId PlatEitaa (js "5")) "123456") 1 sample_access []) | apply rtc_refl].
  - vm_compute. reflexivity.
  - vm_compute. discriminate.
  - vm_compute. reflexivity.
  - vm_compute. reflexivity.
Defined.
