(* ===== verification/Announce.v ===== *)
(** * When a company's loads are announced by themselves

    [src/services/notification/companyAnnounce.service.ts]: a company announces by hand,
    or every so many minutes. *)

From S2P Require Import Prelude JsNumber JsString Effects Enums.

(** [CargoAnnounceMode] *)
Inductive CargoAnnounceMode := Manual | Auto.

#[export] Instance CargoAnnounceMode_eq_dec : EqDecision CargoAnnounceMode.
Proof. solve_decision. Defined.

(** [CompanyAnnounceSetting] *)
Record CompanyAnnounceSetting := mkAnnounce {
  as_mode : CargoAnnounceMode;
  as_intervalMinutes : Z;
  as_autoSince : option time;
  as_lastRunAt : option time;
}.

(** [create({ userId })] with the column defaults *)
Definition new_setting : CompanyAnnounceSetting := mkAnnounce Manual 120 None None.

(** [AnnounceSettingView] *)
Record AnnounceSettingView := mkAnnounceView {
  av_mode : CargoAnnounceMode;
  av_intervalMinutes : Z;
  av_nextRunAt : option time;
  av_lastRunAt : option time;
  av_lastRunAnnounced : option nat;
}.

(** [ANNOUNCE_INTERVALS] *)
Definition MIN_INTERVAL : Z := 15.
Definition MAX_INTERVAL : Z := 24 * 60.
Definition RUN_WINDOW_MS : Z := 5 * 60000.

Abbreviation settings := (gmap uuid CompanyAnnounceSetting).
Abbreviation SetM := (M settings).

Definition minutes (n : Z) : Z := n * 60000.

Definition setting_of (s : settings) (userId : uuid) : CompanyAnnounceSetting := default new_setting (s !! userId).

Definition toView (now : time) (x : CompanyAnnounceSetting) : AnnounceSettingView :=
  mkAnnounceView (as_mode x) (as_intervalMinutes x)
    (match as_mode x with Auto => Some (default now (as_lastRunAt x) + minutes (as_intervalMinutes x)) | Manual => None end)
    (as_lastRunAt x) None.

(** A turn has run: switching on sets both instants to the same one. *)
Definition turn_ran (x : CompanyAnnounceSetting) : option time :=
  match as_mode x, as_lastRunAt x, as_autoSince x with
  | Auto, Some last, Some since => if 1000 <? last - since then Some last else None
  | _, _, _ => None
  end.

(** [get]; [announced from to] counts the loads announced between two instants. *)
Definition get_setting (s : settings) (userId : uuid) (now : time) (announced : time -> time -> nat) : AnnounceSettingView :=
  let x := setting_of s userId in
  match turn_ran x with
  | Some from => (toView now x) <| av_lastRunAnnounced := Some (announced from (from + RUN_WINDOW_MS)) |>
  | None => toView now x
  end.

Definition isAuto (s : settings) (userId : uuid) : bool := eqb (as_mode (setting_of s userId)) Auto.

(** [!Number.isInteger(n) || n < min || n > max] *)
Definition read_interval (n : num) : option Z :=
  match num_to_Z n with
  | Some z => if (z <? MIN_INTERVAL) || (MAX_INTERVAL <? z) then None else Some z
  | None => None
  end.

Definition switched (mode : CargoAnnounceMode) (now : time) (x : CompanyAnnounceSetting) : CompanyAnnounceSetting :=
  let x := match mode, as_mode x with
           | Auto, Manual => x <| as_autoSince := Some now |> <| as_lastRunAt := Some now |>
           | _, _ => x
           end in
  x <| as_mode := mode |>.

Definition set_setting (userId : uuid) (mode : CargoAnnounceMode) (intervalMinutes : option num) (now : time) : SetM unit :=
  s ← get;
  let x := setting_of s userId in
  x ← match intervalMinutes with
      | None => mret x
      | Some n =>
          z ← some_or (read_interval n) (badRequest "intervalMinutes must be between 15 and 1440.");
          mret (x <| as_intervalMinutes := z |>)
      end;
  modify (fun s => <[userId := switched mode now x]> s).

(** [due]: the companies whose turn has come *)
Definition turn_due (now : time) (x : CompanyAnnounceSetting) : bool :=
  match as_mode x, as_lastRunAt x with
  | Auto, Some last => (last <=? now) && (last + minutes (as_intervalMinutes x) <=? now)
  | _, _ => false
  end.

Definition due (s : settings) (now : time) : list (uuid * CompanyAnnounceSetting) :=
  List.filter (fun p => turn_due now p.2) (map_to_list s).

Definition markRun (userId : uuid) (at_ : time) (s : settings) : settings :=
  alter (fun x => x <| as_lastRunAt := Some at_ |>) userId s.
