(* ===== verification/Publishing.v ===== *)
(** * Publishing and announcing loads

    [src/services/notification/cargoListing.service.ts] with its repository: a company
    publishes a suggested load or its own, to the drivers of the load's kind whose filters
    it fits; announces it later, by hand or by turns ([cargoAutoAnnounceWorker]); changes
    the name and phones its loads show ([cargoContactSync]).  The notices themselves are
    [DeliveryQueue]'s.  A load is written here and, its columns of [CargoListing], where
    the deliveries read them. *)

From S2P Require Import Prelude JsNumber JsString Json Effects Enums BrokerDriver TripFareRules BrokerAccess DriverProfile CargoData Redis SubscriptionPolicy SubscriptionData SubscriptionAccess Delivery CargoNotices DeliveryQueue FreeText IranPlaces TripTypes Audience AlertFilters Contacts CargoSearch Announce.

(** ** Rows *)

(** [CargoListing]: the columns the trips read, and the others *)
Record Load := mkLoad {
  ld_row : CargoListing;
  ld_sourceMessageId : text;
  ld_code : text;
  ld_sourceNotificationId : option uuid;
  ld_companyId : option uuid;
  ld_companyName : option text;
  ld_cargoType : option text;
  ld_weight : option text;
  ld_vehicleType : option text;
  ld_price : option text;
  ld_extraNotes : option text;
  ld_photo : option text;
  ld_contactPhones : list text;
  ld_text : text;
  ld_announcedAt : option time;
  ld_createdAt : time;
}.

Definition ld_id (l : Load) : uuid := li_id (ld_row l).
Definition ld_publisher (l : Load) : uuid := li_publisherUserId (ld_row l).
Definition ld_status (l : Load) : CargoListingStatus := li_status (ld_row l).
Definition ld_tripType (l : Load) : CargoTripType := li_tripType (ld_row l).

(** The payload of a suggestion ([Partial<CargoDetectedEvent>], with a factory's photo) *)
Record Payload := mkPayload {
  py_code : option text;
  py_origin : option text;
  py_destination : option text;
  py_cargoType : option text;
  py_weight : option text;
  py_vehicleType : option text;
  py_price : option text;
  py_extraNotes : option text;
  py_photo : option text;
}.

(** What the panels hear of a changed contact: a load's name and phones *)
Record ContactItem := mkItem { it_id : uuid; it_companyName : option text; it_contactPhones : list text }.

Record publish_state := mkPublish {
  pb_queue : queue_state;
  pb_loads : gmap uuid Load;
  pb_nextLoad : uuid;
  pb_nextCode : N;
  pb_nextManual : N;
  pb_payloads : gmap uuid Payload;
  pb_filters : alert_state;
  pb_subs : sub_state;
  pb_verification : bool;
  pb_approved : gset uuid;
  pb_users : gmap uuid ContactProfile;
  pb_companies : gmap uuid LinkedCompany;
  pb_routes : route_state;
  pb_settings : settings;
  pb_batch : gmap uuid (list uuid);
  pb_pushes : list (gmap uuid (list uuid));
  pb_changes : list (uuid * CargoListingStatus);
  pb_contacts : list (uuid * list ContactItem);
}.

Abbreviation PbM := (M publish_state).

Definition pb_now (s : publish_state) : time := qu_now (pb_queue s).

Definition on_queue {A} (m : QM A) : PbM A := zoom pb_queue (fun q s => s <| pb_queue := q |>) m.

(** The other services read the same clock. *)
Definition subs_view (s : publish_state) : sub_state := (pb_subs s) <| su_now := pb_now s |>.
Definition on_subs {A} (m : SM A) : PbM A := zoom subs_view (fun x s => s <| pb_subs := x |>) m.

Definition routes_view (s : publish_state) : route_state := (pb_routes s) <| rt_now := pb_now s |>.
Definition on_routes {A} (m : RM A) : PbM A := zoom routes_view (fun x s => s <| pb_routes := x |>) m.

Definition on_settings {A} (m : SetM A) : PbM A := zoom pb_settings (fun x s => s <| pb_settings := x |>) m.

Definition audience_of (s : publish_state) : audience :=
  mkAudience (subs_view s) (ps_profiles (dv_profiles (qu_notices (pb_queue s)))) (pb_verification s) (pb_approved s).

(** ** [CargoListingRepository] *)

Definition findOneForPublisher (s : publish_state) (id publisher : uuid) : option Load :=
  l ← pb_loads s !! id;
  if (ld_publisher l =? publisher)%N then Some l else None.

Definition from_source (source : text) (publisher : uuid) (l : Load) : bool :=
  bool_decide (ld_sourceMessageId l = source) && (ld_publisher l =? publisher)%N.

Definition findBySourceAndPublisher (s : publish_state) (source : text) (publisher : uuid) : option Load :=
  find_row (from_source source publisher) (pb_loads s).

(** [order: { createdAt: … }] *)
Definition older_load (a b : Load) : Prop := ld_createdAt a <= ld_createdAt b.
#[export] Instance older_load_dec : RelDecision older_load.
Proof. intros a b. unfold older_load. apply _. Defined.

Definition newer_load (a b : Load) : Prop := ld_createdAt b <= ld_createdAt a.
#[export] Instance newer_load_dec : RelDecision newer_load.
Proof. intros a b. unfold newer_load. apply _. Defined.

Definition pending_announce (publisher : uuid) (l : Load) : bool :=
  (ld_publisher l =? publisher)%N && is_null (ld_announcedAt l) && eqb (ld_status l) ListingOpen.

Definition findPendingAnnounce (s : publish_state) (publisher : uuid) : list Load :=
  merge_sort older_load (find_rows (pending_announce publisher) (pb_loads s)).

Definition countAnnouncedBetween (s : publish_state) (publisher : uuid) (from to : time) : nat :=
  count_rows (fun l => (ld_publisher l =? publisher)%N
    && match ld_announcedAt l with Some t => (from <=? t) && (t <=? to) | None => false end) (pb_loads s).

(** [findByPublisherContact] *)
Definition shows_contact (publisher : uuid) (phones names : list text) (l : Load) : bool :=
  (ld_publisher l =? publisher)%N
  && (some_b (fun p => bool_decide (p ∈ ld_contactPhones l)) phones
      || match ld_companyName l with Some n => bool_decide (n ∈ names) | None => false end).

Definition findByPublisherContact (s : publish_state) (publisher : uuid) (phones names : list text) : list Load :=
  find_rows (shows_contact publisher phones names) (pb_loads s).

(** [nextval('manual_cargo_code_seq')] *)
Definition nextManualCode : PbM text :=
  s ← get;
  modify (fun s => s <| pb_nextCode := N.succ (pb_nextCode s) |>) ;;
  mret (js "TRB" ++ text_of_N (pb_nextCode s)).

(** The columns' lengths *)
Definition load_fits (l : Load) : bool :=
  fits_varchar 100 (ld_sourceMessageId l) && fits_varchar 20 (ld_code l) && column_fits 200 (ld_companyName l)
  && fits_varchar 200 (li_origin (ld_row l)) && fits_varchar 200 (li_destination (ld_row l)) && column_fits 200 (ld_cargoType l)
  && column_fits 100 (ld_weight l) && column_fits 200 (ld_vehicleType l) && column_fits 100 (ld_price l) && column_fits 64 (ld_photo l).

(** A load in its table, and its columns where the deliveries read them *)
Definition put_load (l : Load) (s : publish_state) : publish_state :=
  let q := pb_queue s in
  let d := qu_notices q in
  s <| pb_loads := <[ld_id l := l]> (pb_loads s) |>
    <| pb_queue := (q <| qu_notices := (d <| dv_listings := <[ld_id l := ld_row l]> (dv_listings d) |>) |>) |>.

(** [UQ_CargoListing_source_publisher] *)
Definition save_load (l : Load) : PbM Load :=
  s ← get;
  ensure (load_fits l) TOO_LONG ;;
  ensure (negb (exists_row (fun o => negb (ld_id o =? ld_id l)%N && from_source (ld_sourceMessageId l) (ld_publisher l) o) (pb_loads s)))
    (QueryFailed "23505") ;;
  modify (put_load l) ;;
  mret l.

(** A new row gets its id and its time. *)
Definition insert_load (l : Load) : PbM Load :=
  s ← get;
  let l := l <| ld_row := ((ld_row l) <| li_id := pb_nextLoad s |>) |> <| ld_createdAt := pb_now s |> in
  l ← save_load l;
  modify (fun s => s <| pb_nextLoad := N.succ (pb_nextLoad s) |>) ;;
  mret l.

Definition ALREADY : exn := conflict "You have already published this cargo.".

(** [saveListing] *)
Definition saveListing (l : Load) : PbM Load :=
  try_catch (insert_load l) (fun e => throw (if bool_decide (e = QueryFailed "23505") then ALREADY else e)).

(** ** Contacts *)

Definition findPublisherContact (s : publish_state) (userId : uuid) (profile : option ContactProfile) : PublisherContact :=
  let stored := pb_users s !! userId in
  let user := match stored, profile with
              | Some u, Some p => Some (p <| cp_mobile := cp_mobile u |>)
              | stored, _ => stored
              end in
  contact_of user (pb_companies s !! userId).

(** [contact.company?.name || null] *)
Definition company_name (c : PublisherContact) : option text :=
  match ct_company c with Some x => if is_empty (cc_name x) then None else Some (cc_name x) | None => None end.

(** ** Suggestions *)

Definition NO_SUGGESTION : exn := notFound "Cargo suggestion not found.".

Definition getSuggestion (userId notificationId : uuid) : PbM (CargoNotification * Payload) :=
  s ← get;
  row ← some_or (r ← dv_rows (qu_notices (pb_queue s)) !! notificationId;
                 if (cn_userId r =? userId)%N && is_null (cn_listingId r) then Some r else None) NO_SUGGESTION;
  mret (row, default (mkPayload None None None None None None None None None) (pb_payloads s !! notificationId)).

Definition findSuggestionsSince (s : publish_state) (userId : uuid) (since : time) : list CargoNotification :=
  by_creation (find_rows (fun r => (cn_userId r =? userId)%N && is_null (cn_listingId r) && (since <=? cn_createdAt r))
                 (dv_rows (qu_notices (pb_queue s)))).

Definition buildDraft (userId notificationId : uuid) : PbM CargoListingFields :=
  suggestion ← getSuggestion userId notificationId;
  s ← get;
  let cargo := suggestion.2 in
  let contact := findPublisherContact s userId None in
  mret (mkFields (py_code cargo) (company_name contact) (default [] (py_origin cargo)) (default [] (py_destination cargo)) (py_cargoType cargo)
          (py_weight cargo) (py_vehicleType cargo) (py_price cargo) (py_extraNotes cargo) (publisherPhones contact) None None).

Definition buildManualDraft (userId : uuid) : PbM (option text * list text) :=
  s ← get;
  let contact := findPublisherContact s userId None in
  mret (company_name contact, publisherPhones contact).

(** ** Announcing *)

(** [NoCargoRecipientsException] *)
Definition NO_RECIPIENTS : exn :=
  badRequest "بار اعلام نشد؛ راننده‌ای که عضو شرکت شما باشد و نوع حمل، اشتراک و تنظیمات متناسب داشته باشد پیدا نشد.".

Definition fields_route (f : CargoListingFields) : CargoRouteFields :=
  mkRoute (Some (fl_origin f)) (Some (fl_destination f)) (fl_cargoType f) (fl_vehicleType f) (fl_price f) (fl_companyName f).

Definition load_route (l : Load) : CargoRouteFields :=
  mkRoute (Some (li_origin (ld_row l))) (Some (li_destination (ld_row l))) (ld_cargoType l) (ld_vehicleType l) (ld_price l) (ld_companyName l).

Definition load_fields (l : Load) : CargoListingFields :=
  mkFields (Some (ld_code l)) (ld_companyName l) (li_origin (ld_row l)) (li_destination (ld_row l)) (ld_cargoType l) (ld_weight l)
    (ld_vehicleType l) (ld_price l) (ld_extraNotes l) (ld_contactPhones l) (ld_photo l) (Some (ld_tripType l)).

(** What the publisher gets back: the load, the drivers it reached, whether it waits *)
Inductive PendingReason := NoDrivers | Automatic.

Record Published := mkPublished {
  pu_load : Load;
  pu_recipients : nat;
  pu_pending : option PendingReason;
  pu_nextAnnounceAt : option time;
}.

Section Publishing.
  Context `{Messengers} `{JsDate} `{Unicode} `{WordChars} `{Oracle}.

(** [announcementRecipients] *)
Definition announcementRecipients (userId : uuid) (tripType : CargoTripType) (cargo : CargoRouteFields) : PbM (list uuid) :=
  rule ← on_subs (policy (getDriverRule THIS_INSTANCE));
  s ← get;
  ids ← of_outcome (findDriverIds (audience_of s) rule (Some tripType) (Some userId) (pb_now s));
  let drivers := List.filter (fun id => negb (id =? userId)%N) ids in
  let recipients := filterInterestedUsers (pb_filters s) drivers cargo in
  ensure (negb (is_null (head recipients))) NO_RECIPIENTS ;;
  mret recipients.

(** [broadcast]: the open pages hear of the load *)
Definition announceChange (l : Load) : PbM unit :=
  modify (fun s => s <| pb_changes := pb_changes s ++ [(ld_id l, ld_status l)] |>).

(** The drivers' phones: for the end of the turn, or at once *)
Definition push_notice (batched : bool) (load : uuid) (users : list uuid) (s : publish_state) : publish_state :=
  if batched then s <| pb_batch := foldr (fun u b => <[u := default [] (b !! u) ++ [load]]> b) (pb_batch s) users |>
  else s <| pb_pushes := pb_pushes s ++ [foldr (fun u b => <[u := [load]]> b) ∅ users] |>.

Definition notified (s : publish_state) (load : uuid) (recipients : list uuid) : list uuid :=
  map cn_userId (List.filter (fun r => bool_decide (cn_userId r ∈ recipients)) (findByListing (qu_notices (pb_queue s)) load)).

(** [sendToDrivers], with the phone notifications *)
Definition send_load (l : Load) (recipients : list uuid) (batched : bool) : PbM nat :=
  n ← on_queue (sendToDrivers (ld_sourceMessageId l) (ld_id l) recipients);
  s ← get;
  modify (push_notice batched (ld_id l) (notified s (ld_id l) recipients)) ;;
  mret n.

(** A load announced now to these drivers *)
Definition announce_load (l : Load) (recipients : list uuid) (batched : bool) : PbM (Load * nat) :=
  now ← gets pb_now;
  saved ← save_load (l <| ld_announcedAt := Some now |>);
  announceChange saved ;;
  n ← send_load saved recipients batched;
  mret (saved, n).

Definition announceNow (userId listingId : uuid) : PbM Published :=
  s ← get;
  l ← some_or (findOneForPublisher s listingId userId) (notFound "Cargo listing not found.");
  ensure (eqb (ld_status l) ListingOpen) (conflict "Only open cargo can be announced.") ;;
  recipients ← announcementRecipients userId (ld_tripType l) (load_route l);
  sent ← announce_load l recipients false;
  mret (mkPublished sent.1 sent.2 None None).

(** The drivers of a load published now; no driver is no error *)
Definition try_recipients (announce : bool) (userId : uuid) (tripType : CargoTripType) (cargo : CargoRouteFields) : PbM (list uuid) :=
  if announce then
    try_catch (announcementRecipients userId tripType cargo)
      (fun e => if bool_decide (e = NO_RECIPIENTS) then mret [] else throw e)
  else mret [].

(** The name a load shows: the profile's (or none) becomes the name for this kind of load *)
Definition shown_name (contact : PublisherContact) (typed : option text) (tripType : CargoTripType) : option text :=
  match trimmed typed with
  | Some t => if bool_decide (Some t = cc_name <$> ct_company contact) then companyNameFor contact (Some tripType) else Some t
  | None => companyNameFor contact (Some tripType)
  end.

Definition new_load (userId : uuid) (f : CargoListingFields) (code : text) (contact : PublisherContact) (tripType : CargoTripType)
    (source : text) (notification : option uuid) (announcedAt : option time) : Load :=
  let companyName := shown_name contact (fl_companyName f) tripType in
  mkLoad (mkListing 0 userId (fl_origin f) (fl_destination f) tripType ListingOpen None) source code notification
    (ct_company contact ≫= cc_id) companyName (fl_cargoType f) (fl_weight f) (fl_vehicleType f) (fl_price f) (fl_extraNotes f) (fl_photo f)
    (fl_contactPhones f)
    (buildCargoListingText (f <| fl_code := Some code |> <| fl_companyName := companyName |> <| fl_tripType := Some tripType |>))
    announcedAt 0.

(** [publishListing] *)
Definition publishListing (userId : uuid) (f : CargoListingFields) (code source : text) (notification : option uuid)
    (announce batched : bool) : PbM Published :=
  let f := f <| fl_weight := groupedField (fl_weight f) 100 |> <| fl_price := groupedField (fl_price f) 100 |> in
  contact ← gets (fun s => findPublisherContact s userId None);
  tripType ← on_routes (classifyListing (fl_origin f) (fl_destination f));
  driverIds ← try_recipients announce userId tripType (fields_route f);
  let willAnnounce := negb (is_null (head driverIds)) in
  now ← gets pb_now;
  l ← saveListing (new_load userId f code contact tripType source notification (if willAnnounce then Some now else None));
  announceChange l ;;
  if negb willAnnounce then
    s ← get;
    let view := get_setting (pb_settings s) userId (pb_now s) (countAnnouncedBetween s userId) in
    mret (mkPublished l 0 (Some (if announce then NoDrivers else Automatic)) (av_nextRunAt view))
  else
    n ← send_load l driverIds batched;
    mret (mkPublished l n None None).

Definition publish (userId notificationId : uuid) (f : CargoListingFields) (batched : bool) : PbM Published :=
  suggestion ← getSuggestion userId notificationId;
  s ← get;
  let source := cn_sourceMessageId suggestion.1 in
  match findBySourceAndPublisher s source userId with
  | Some existing =>
      if is_null (ld_announcedAt existing) && eqb (ld_status existing) ListingOpen then announceNow userId (ld_id existing)
      else throw ALREADY
  | None =>
      code ← match py_code suggestion.2 with Some c => mret c | None => nextManualCode end;
      let photo := match fl_photo f with
                   | Some p => Some p
                   | None => match py_photo suggestion.2 with Some (c :: r) => Some (c :: r) | _ => None end
                   end in
      publishListing userId (f <| fl_photo := photo |>) code source (Some (cn_id suggestion.1)) true batched
  end.

(** [manual:${randomUUID()}] *)
Definition manual_source (n : N) : text := js "manual:" ++ text_of_N n.

Definition createManual (userId : uuid) (f : CargoListingFields) : PbM Published :=
  code ← nextManualCode;
  s ← get;
  modify (fun s => s <| pb_nextManual := N.succ (pb_nextManual s) |>) ;;
  publishListing userId f code (manual_source (pb_nextManual s)) None (negb (isAuto (pb_settings s) userId)) false.

(** ** By turns *)

Definition is_blank (t : text) : bool := is_empty (trim t).

(** One suggestion of a turn: whether it was announced *)
Definition auto_suggestion (userId : uuid) (suggestion : CargoNotification) : PbM nat :=
  s ← get;
  match findBySourceAndPublisher s (cn_sourceMessageId suggestion) userId with
  | Some _ => mret 0%nat
  | None =>
      draft ← buildDraft userId (cn_id suggestion);
      if is_blank (fl_origin draft) || is_blank (fl_destination draft) || is_null (head (fl_contactPhones draft)) then mret 0%nat
      else
        try_catch (result ← publish userId (cn_id suggestion) draft true;
                   mret (if is_null (pu_pending result) then 1 else 0)%nat)
          (fun e => match e with
                    | Conflict _ => mret 0%nat
                    | _ => if bool_decide (e = NO_RECIPIENTS) then mret 0%nat else throw e
                    end)
  end.

(** One waiting load of a turn *)
Definition auto_pending (userId : uuid) (l : Load) : PbM nat :=
  recipients ← try_recipients true userId (ld_tripType l) (load_route l);
  match recipients with
  | [] => mret 0%nat
  | _ => announce_load l recipients true ;; mret 1%nat
  end.

Fixpoint count_each {A} (l : list A) (f : A -> PbM nat) : PbM nat :=
  match l with
  | [] => mret 0%nat
  | x :: l => n ← f x; m ← count_each l f; mret (n + m)%nat
  end.

Definition sendPushBatch : PbM unit := modify (fun s => s <| pb_pushes := pb_pushes s ++ [pb_batch s] |>).

Definition autoAnnounce (userId : uuid) (since : time) : PbM (nat * nat) :=
  modify (fun s => s <| pb_batch := ∅ |>) ;;
  s ← get;
  suggestions ← count_each (findSuggestionsSince s userId since) (auto_suggestion userId);
  s ← get;
  pending ← count_each (findPendingAnnounce s userId) (auto_pending userId);
  sendPushBatch ;;
  mret (suggestions, pending).

(** [CargoAutoAnnounceWorker.tick]: the turn is written first; an error ends that
    company's turn only *)
Definition announce_turn (now : time) (p : uuid * CompanyAnnounceSetting) : PbM unit :=
  try_catch
    (modify (fun s => s <| pb_settings := markRun p.1 now (pb_settings s) |>) ;;
     autoAnnounce p.1 (default now (or_else (as_autoSince p.2) (as_lastRunAt p.2))) ;;
     mret tt)
    (fun _ => mret tt).

Definition announce_tick : PbM unit :=
  s ← get;
  for_each (due (pb_settings s) (pb_now s)) (announce_turn (pb_now s)).

(** ** A changed contact *)

Definition same_phones (from to : list text) : bool := Nat.eqb (length from) (length to) && forallb (fun p => bool_decide (p ∈ to)) from.

Definition LOAD_TYPES : list CargoTripType := [TripDomestic; TripExport; TripImport].

(** A load after its publisher's contact changed; [None]: nothing to change *)
Definition recontacted (before after : PublisherContact) (l : Load) : option Load :=
  let phones := replaceContactPhones (ld_contactPhones l) (publisherPhones before) (publisherPhones after) in
  let t := Some (ld_tripType l) in
  let companyName := if truthy (ld_companyName l) && bool_decide (ld_companyName l = companyNameFor before t)
                     then companyNameFor after t else ld_companyName l in
  if bool_decide (companyName = ld_companyName l) && is_null phones then None
  else
    let l := l <| ld_contactPhones := default (ld_contactPhones l) phones |> <| ld_companyName := companyName |> in
    Some (l <| ld_text := buildCargoListingText (load_fields l) |>).

Fixpoint recontact_each (before after : PublisherContact) (ls : list Load) : PbM (list Load) :=
  match ls with
  | [] => mret []
  | l :: ls =>
      match recontacted before after l with
      | None => recontact_each before after ls
      | Some l' => saved ← save_load l'; rest ← recontact_each before after ls; mret (saved :: rest)
      end
  end.

(** [propagateText] *)
Definition propagateText (ls : list Load) : PbM unit :=
  for_each ls (fun l => try_catch (on_queue (edit_everywhere (ld_id l))) (fun _ => mret tt)).

Definition refreshPublisherContact (userId : uuid) (before after : PublisherContact) : PbM (list Load) :=
  let same := same_phones (publisherPhones before) (publisherPhones after) in
  let renamed := List.filter (fun t => negb (bool_decide (companyNameFor before (Some t) = companyNameFor after (Some t)))) LOAD_TYPES in
  if same && is_null (head renamed) then mret []
  else
    let oldNames := dedup (omap (fun t => match companyNameFor before (Some t) with Some (c :: r) => Some (c :: r) | _ => None end) renamed) in
    s ← get;
    changed ← recontact_each before after (findByPublisherContact s userId (if same then [] else publisherPhones before) oldNames);
    propagateText (List.filter (fun l => eqb (ld_status l) ListingOpen) changed) ;;
    mret changed.

Definition MAX_SENT : nat := 300.

(** [CargoContactSync.handle]: what the panels hear *)
Definition contact_changed (userId : uuid) (before : ContactProfile) : PbM unit :=
  try_catch
    (s ← get;
     changed ← refreshPublisherContact userId (findPublisherContact s userId (Some before)) (findPublisherContact s userId None);
     match changed with
     | [] => mret tt
     | _ =>
         let items := map (fun l => mkItem (ld_id l) (ld_companyName l) (ld_contactPhones l)) (take MAX_SENT (merge_sort newer_load changed)) in
         modify (fun s => s <| pb_contacts := pb_contacts s ++ [(userId, items)] |>)
     end)
    (fun _ => mret tt).

End Publishing.

(** ** Cleaning up ([CargoNotificationCleanupWorker]) *)

Definition HOUR_MS : Z := 60 * 60 * 1000.
Definition TAKEN_KEPT_MS : Z := 24 * HOUR_MS.
Definition NOTICE_KEPT_MS : Z := 30 * (24 * HOUR_MS).

Definition cleanup_tick : PbM unit :=
  now ← gets pb_now;
  on_queue (on_notices (deleteFinished (now - TAKEN_KEPT_MS) (now - NOTICE_KEPT_MS))).

(** ** Lists of loads *)

Section Lists.
  Context `{Unicode} `{WordChars} `{JsCase}.

Definition OPEN_SCAN_LIMIT : nat := 1000.

(** A page: its items and the total *)
Definition page_of {A} (l : list A) (page pageSize : nat) : list A * nat := (take pageSize (drop ((page - 1) * pageSize) l), length l).

(** [findOpenPage]'s rows, newest first *)
Definition open_loads (s : publish_state) (tripTypes : option (list CargoTripType)) (tripType : option CargoTripType) (publishers : option (list uuid))
    : list Load :=
  merge_sort newer_load (find_rows (fun l =>
    eqb (ld_status l) ListingOpen && negb (is_null (ld_announcedAt l))
    && match tripTypes, tripType with
       | Some ts, _ => bool_decide (ld_tripType l ∈ ts)
       | None, Some t => eqb (ld_tripType l) t
       | None, None => true
       end
    && match publishers with Some ps => bool_decide (ld_publisher l ∈ ps) | None => true end) (pb_loads s)).

Definition searched (search : option PreparedCargoSearch) (l : Load) : bool :=
  match search with Some p => matchesCargoSearch (load_route l) (Some (ld_tripType l)) p | None => true end.

Definition listOpen (s : publish_state) (page pageSize : nat) (userId : option uuid) (tripTypes : option (list CargoTripType))
    (publishers : option (list uuid)) (search : CargoSearch) : list Load * nat :=
  match publishers with
  | Some [] => ([], 0%nat)
  | _ =>
      let filters := match userId with Some u => activeFor (pb_filters s) u | None => [] end in
      let prepared := prepareCargoSearch search in
      let loads := open_loads s tripTypes (parseTripType (cs_tripType search)) publishers in
      if is_null (head filters) && is_null prepared then page_of loads page pageSize
      else page_of (List.filter (fun l => matchesAny filters (load_route l) && searched prepared l) (take OPEN_SCAN_LIMIT loads)) page pageSize
  end.

Inductive ListingStage := StagePublished | StageInTransit | StageDone.

(** [findPageForPublisher]'s rows; [trip_of] says whether a load has a trip of a status *)
Definition publisher_loads (s : publish_state) (trip_of : uuid -> CargoRequestStatus -> bool) (publisher : uuid)
    (status : option CargoListingStatus) (stage : option ListingStage) (announcedOnly : bool) : list Load :=
  merge_sort newer_load (find_rows (fun l =>
    (ld_publisher l =? publisher)%N
    && match status with Some st => eqb (ld_status l) st | None => true end
    && (negb announcedOnly || negb (is_null (ld_announcedAt l)))
    && match stage with
       | Some StagePublished => eqb (ld_status l) ListingOpen
       | Some StageInTransit => trip_of (ld_id l) Accepted
       | Some StageDone => trip_of (ld_id l) Delivered
       | None => true
       end) (pb_loads s)).

Definition listMine (s : publish_state) (trip_of : uuid -> CargoRequestStatus -> bool) (userId : uuid) (page pageSize : nat)
    (status : option CargoListingStatus) (stage : option ListingStage) (announcedOnly : bool) (search : CargoSearch) : list Load * nat :=
  let loads := publisher_loads s trip_of userId status stage announcedOnly in
  match prepareCargoSearch search with
  | None => page_of loads page pageSize
  | prepared => page_of (List.filter (searched prepared) (take OPEN_SCAN_LIMIT loads)) page pageSize
  end.

(** [unannounced]: the newest first *)
Definition unannounced (s : publish_state) (userId : uuid) : list Load := merge_sort newer_load (findPendingAnnounce s userId).

(** PostgreSQL's [TRIM]: the spaces at both ends *)
Fixpoint drop_spaces (t : text) : text :=
  match t with c :: r => if (c =? 32)%N then drop_spaces r else t | [] => [] end.

Definition sql_trim (t : text) : text := rev (drop_spaces (rev (drop_spaces t))).

Definition kept_name (l : Load) : option text :=
  n ← ld_companyName l; if is_empty (sql_trim n) then None else Some (sql_trim n).

(** [findPublisherCompanyNames]: the names, the one that published last first *)
Definition companyNames (s : publish_state) (limit : nat) : list text :=
  take limit (dedup (omap kept_name (merge_sort newer_load (rows (pb_loads s))))).

End Lists.
