(* ===== verification/NoticeHeads.v ===== *)
(** * Which notices there are

    Sending, editing, retrying and cleaning never make a notice or change whose it is and
    what it is of: only an announcement or a suggestion makes notices, one per user and
    load. *)

From S2P Require Import Prelude JsString Effects Enums DriverProfile BrokerDriver TripFareRules BrokerAccess CargoData Redis Delivery CargoNotices DeliveryQueue DeliveryFacts DeliveryInvariant.

Definition identity (r : CargoNotification) := (cn_id r, cn_userId r, cn_sourceMessageId r, cn_listingId r).

Lemma identity_set m f r : identity (set_channel m f r) = identity r.
Proof. by destruct m. Qed.

Lemma identity_channels f r : identity (on_channels f r) = identity r.
Proof. unfold on_channels, MESSENGER_ORDER. cbn [foldr]. by rewrite !identity_set. Qed.

Lemma same_notice_identity a a' b b' : identity a = identity a' -> identity b = identity b' -> same_notice a b = same_notice a' b'.
Proof. unfold identity, same_notice. intros [= _ -> -> ->] [= _ -> -> ->]. done. Qed.

(** No notice more than in [s0], each the one it was, and the same world around them *)
Record same_notices (s0 s : delivery_state) : Prop := mkSameNotices {
  sn_rows : forall k r, dv_rows s !! k = Some r -> exists r0, dv_rows s0 !! k = Some r0 /\ identity r = identity r0;
  sn_next : dv_nextId s = dv_nextId s0;
  sn_now : dv_now s = dv_now s0;
  sn_listings : dv_listings s = dv_listings s0;
  sn_profiles : dv_profiles s = dv_profiles s0;
}.

Lemma same_notices_refl s : same_notices s s.
Proof. split; try done. intros k r Hr. by exists r. Qed.

Lemma same_notices_trans s0 s1 s2 : same_notices s0 s1 -> same_notices s1 s2 -> same_notices s0 s2.
Proof.
  intros [R1 N1 T1 L1 P1] [R2 N2 T2 L2 P2]. split; try congruence. intros k r Hr. destruct (R2 k r Hr) as (r1 & H1 & E1).
  destruct (R1 k r1 H1) as (r0 & H0 & E0). exists r0. split; [done | congruence].
Qed.

Section Heads.
  Context `{Messengers} (s0 : delivery_state).

(** A write to the rows that keeps their identity, or away from them *)
Lemma heads_rows (g : delivery_state -> CargoNotification -> CargoNotification) f :
  (forall s r, identity (g s r) = identity r) ->
  (forall s, dv_rows (f s) = g s <$> dv_rows s /\ dv_nextId (f s) = dv_nextId s /\ dv_now (f s) = dv_now s /\ dv_listings (f s) = dv_listings s /\
     dv_profiles (f s) = dv_profiles s) ->
  preserves (same_notices s0) (modify f).
Proof.
  intros Hg Hf. apply preserves_modify. intros s [R N T L P]. destruct (Hf s) as (E1 & E2 & E3 & E4 & E5). split; try congruence.
  intros k r. rewrite E1, lookup_fmap. destruct (dv_rows s !! k) as [r1|] eqn:E; [|done]. intros [= <-].
  destruct (R k r1 E) as (r0 & H0 & Hi). exists r0. split; [done|]. by rewrite Hg.
Qed.

Lemma heads_other f :
  (forall s, dv_rows (f s) = dv_rows s /\ dv_nextId (f s) = dv_nextId s /\ dv_now (f s) = dv_now s /\ dv_listings (f s) = dv_listings s /\
     dv_profiles (f s) = dv_profiles s) ->
  preserves (same_notices s0) (modify f).
Proof.
  intros Hf. apply preserves_modify. intros s [R N T L P]. destruct (Hf s) as (E1 & E2 & E3 & E4 & E5). split; try congruence.
  intros k r. rewrite E1. apply R.
Qed.

Lemma heads_update id m f : preserves (same_notices s0) (updateDelivery id m f).
Proof.
  apply preserves_modify. intros s [R N T L P]. split; try done. intros k r.
  change (dv_rows (update_row id (set_channel m f) s)) with (alter (set_channel m f) id (dv_rows s)).
  destruct (decide (id = k)) as [->|Hn]; [rewrite lookup_alter_eq | by rewrite lookup_alter_ne; auto].
  destruct (dv_rows s !! k) as [r1|] eqn:E; [|done]. intros [= <-]. destruct (R k r1 E) as (r0 & H0 & Hi). exists r0.
  split; [done|]. by rewrite identity_set.
Qed.

Lemma heads_call c : preserves (same_notices s0) (call c).
Proof. unfold call. apply preserves_get_bind. intros s _. cbv zeta. apply preserves_bind; [by apply heads_other | intros _; preserve]. Qed.

Lemma heads_redis {A} (m : DM A) : preserves (same_notices s0) m -> preserves (same_notices s0) (redis m).
Proof. intros Hm. unfold redis. preserve. Qed.

#[local] Hint Resolve heads_update heads_call heads_redis : preserves.

Ltac heads := repeat first [progress preserve | by apply heads_other | apply heads_redis].

Lemma heads_delete_notice m n : preserves (same_notices s0) (delete_notice m n).
Proof. unfold delete_notice. heads. Qed.
#[local] Hint Resolve heads_delete_notice : preserves.

Lemma heads_suggestion_message m row chat : preserves (same_notices s0) (suggestion_message m row chat).
Proof. unfold suggestion_message, recentSuggestionNotice, deleteSuggestionNotices. heads. Qed.
#[local] Hint Resolve heads_suggestion_message : preserves.

Lemma heads_activity row m : preserves (same_notices s0) (markSuggestionActivity row m).
Proof. unfold markSuggestionActivity. apply heads_redis. by apply heads_other. Qed.
#[local] Hint Resolve heads_activity : preserves.

Lemma heads_send_notice m row chat att : preserves (same_notices s0) (send_notice m row chat att).
Proof. unfold send_notice. heads. Qed.
#[local] Hint Resolve heads_send_notice : preserves.

Lemma heads_deliver_through m row isOpen : preserves (same_notices s0) (deliver_through m row isOpen).
Proof. unfold deliver_through. destruct m; unfold deliverBot, deliverWhatsapp, skip, failed_send; cbv zeta; heads. Qed.
#[local] Hint Resolve heads_deliver_through : preserves.

Lemma heads_through_one ms row isOpen ready : forall taken, preserves (same_notices s0) (through_one ms row isOpen ready taken).
Proof. induction ms as [|m ms IH]; intros taken; cbn [through_one]; heads. Qed.
#[local] Hint Resolve heads_through_one : preserves.

Lemma heads_deliver row : preserves (same_notices s0) (deliver row).
Proof. unfold deliver, deliverThroughOne. heads. Qed.

Lemma heads_retry row now : preserves (same_notices s0) (retryDelivery row now).
Proof. unfold retryDelivery, deliverThroughOne. heads. Qed.
#[local] Hint Resolve heads_deliver heads_retry : preserves.

Lemma heads_failExpired t : preserves (same_notices s0) (failExpiredPending t).
Proof. eapply (heads_rows (fun s => _)); [|intros s; split_and!; reflexivity]. intros s r. cbv beta. destruct (_ <? _); [apply identity_channels | done]. Qed.

Lemma heads_scheduleRetry ids t : preserves (same_notices s0) (scheduleRetry ids t).
Proof. eapply (heads_rows (fun s => _)); [|intros s; split_and!; reflexivity]. intros s r. cbv beta. case_bool_decide; [apply identity_channels | done]. Qed.

Lemma heads_markRead u i : preserves (same_notices s0) (markRead u i).
Proof. eapply (heads_rows (fun s => _)); [|intros s; split_and!; reflexivity]. intros s r. cbv beta. by destruct (_ && _). Qed.

Lemma heads_deleteFinished t c : preserves (same_notices s0) (deleteFinished t c).
Proof.
  apply preserves_modify. intros s [R N T L P]. split; try done. intros k r. cbn. rewrite map_lookup_filter_Some. intros [Hr _]. by apply R.
Qed.
#[local] Hint Resolve heads_failExpired heads_scheduleRetry heads_markRead heads_deleteFinished : preserves.

Lemma heads_tick : preserves (same_notices s0) tick.
Proof. unfold tick, sweep_due. heads. Qed.

Lemma heads_skip_others m row : preserves (same_notices s0) (skip_others m row).
Proof. unfold skip_others. heads. Qed.
#[local] Hint Resolve heads_skip_others : preserves.

Lemma heads_schedule m u : preserves (same_notices s0) (schedule m u).
Proof. unfold schedule. heads. Qed.

Lemma heads_hold m u id : preserves (same_notices s0) (modify (hold m u id)).
Proof. by apply heads_other. Qed.
#[local] Hint Resolve heads_schedule heads_hold : preserves.

Lemma heads_holdForDigest row m : preserves (same_notices s0) (holdForDigest row m).
Proof. unfold holdForDigest. heads. Qed.

Lemma heads_send_queued row m : preserves (same_notices s0) (send_queued row m).
Proof. unfold send_queued. heads. Qed.
#[local] Hint Resolve heads_holdForDigest heads_send_queued : preserves.

Lemma heads_deliverQueued id m : preserves (same_notices s0) (deliverQueued id m).
Proof. unfold deliverQueued, deliver_read. heads. Qed.

Lemma heads_hand_on rows m st : preserves (same_notices s0) (hand_on rows m st).
Proof. induction rows as [|r rows IH]; cbn [hand_on]; heads. Qed.

Lemma heads_open_rows rows m : preserves (same_notices s0) (open_rows rows m).
Proof. induction rows as [|r rows IH]; cbn [open_rows]; cbv zeta; heads. Qed.
#[local] Hint Resolve heads_hand_on heads_open_rows : preserves.

Lemma heads_deliverDigest u m : preserves (same_notices s0) (deliverDigest u m).
Proof. unfold deliverDigest, take_held, handOn, send_summary, hold_again. heads. Qed.

Lemma heads_editQueued id m : preserves (same_notices s0) (editQueued id m).
Proof. unfold editQueued, edit_message. cbv zeta. heads. Qed.
#[local] Hint Resolve heads_deliverQueued heads_deliverDigest heads_editQueued : preserves.

Lemma heads_work job : preserves (same_notices s0) (work job).
Proof. unfold work. heads. Qed.

End Heads.

(** ** One notice per user and load *)

Definition one_notice_each (s : delivery_state) : Prop :=
  forall k k' r r', dv_rows s !! k = Some r -> dv_rows s !! k' = Some r' -> same_notice r r' = true -> k = k'.

Lemma same_notices_one s0 s : same_notices s0 s -> one_notice_each s0 -> one_notice_each s.
Proof.
  intros Hs Ho k k' r r' Hr Hr' E. destruct (sn_rows _ _ Hs k r Hr) as (r0 & H0 & E0). destruct (sn_rows _ _ Hs k' r' Hr') as (r0' & H0' & E0').
  rewrite (same_notice_identity r r0 r' r0' E0 E0') in E. by eapply Ho.
Qed.

Lemma same_notice_sym a b : same_notice a b = same_notice b a.
Proof.
  unfold same_notice. rewrite N.eqb_sym. f_equal. destruct (cn_listingId a), (cn_listingId b); [apply N.eqb_sym|done|done|].
  by apply bool_decide_ext.
Qed.

(** What inserting notices leaves: the old ones, one more for each user that had none, and
    the same world *)
Record inserted (new : list CargoNotification) (s0 s : delivery_state) : Prop := mkInserted {
  in_old : forall k r, dv_rows s0 !! k = Some r -> dv_rows s !! k = Some r;
  in_new : forall k r, dv_rows s !! k = Some r -> dv_rows s0 !! k = Some r \/
    exists x, x ∈ new /\ cn_userId r = cn_userId x /\ cn_listingId r = cn_listingId x /\ cn_sourceMessageId r = cn_sourceMessageId x /\
      exists_row (same_notice x) (dv_rows s0) = false;
  in_all : forall x, x ∈ new -> exists k r, dv_rows s !! k = Some r /\ same_notice x r = true;
  in_one : one_notice_each s0 -> one_notice_each s;
  in_now : dv_now s = dv_now s0;
  in_listings : dv_listings s = dv_listings s0;
  in_profiles : dv_profiles s = dv_profiles s0;
}.

Lemma same_notice_like x r id t : same_notice x (r <| cn_id := id |> <| cn_createdAt := t |>) = same_notice x r.
Proof. done. Qed.

Lemma same_notice_refl x : same_notice x x = true.
Proof. unfold same_notice. rewrite N.eqb_refl. destruct (cn_listingId x); [apply N.eqb_refl | by apply bool_decide_eq_true]. Qed.

Lemma insert_one r s : notices_ok s -> exists_row (same_notice r) (dv_rows s) = false -> inserted [r] s (insert_notice r s).
Proof.
  intros Hs He. rewrite exists_row_false in He.
  assert (Hf : dv_rows s !! dv_nextId s = None).
  { destruct (dv_rows s !! dv_nextId s) as [x|] eqn:E; [|done]. destruct (notices_keyed s _ _ Hs E) as [_ Hl]. lia. }
  set (r1 := r <| cn_id := dv_nextId s |> <| cn_createdAt := dv_now s |>).
  assert (Er : dv_rows (insert_notice r s) = <[dv_nextId s := r1]> (dv_rows s)) by done.
  split; try done; rewrite ?Er.
  - intros k x Hx. rewrite lookup_insert_ne; [done|]. congruence.
  - intros k x. rewrite lookup_insert_Some. intros [[<- <-]|[_ Hx]]; [right; exists r; split; [set_solver|] | by left].
    split; [done|]. split; [done|]. split; [done|]. by apply exists_row_false.
  - intros x Hx. apply list_elem_of_singleton in Hx as ->. exists (dv_nextId s), r1. split; [apply lookup_insert_eq|].
    change (same_notice r r = true). apply same_notice_refl.
  - intros Ho k k' x x'. rewrite Er, !lookup_insert_Some. intros [[<- <-]|[Hk Hx]] [[<- <-]|[Hk' Hx']] E; [done| | |by eapply Ho].
    + exfalso. assert (same_notice r x' = true) as E2 by exact E. rewrite (He k' x' Hx') in E2. done.
    + exfalso. rewrite same_notice_sym in E. assert (same_notice r x = true) as E2 by exact E. rewrite (He k x Hx) in E2. done.
Qed.

Lemma insertIgnoringDuplicates_run new : forall s, Forall untried new -> notices_ok s ->
  exists ids s1, insertIgnoringDuplicates new s = (Ok ids, s1) /\ inserted new s s1.
Proof.
  induction new as [|r new IH]; intros s Hu Hs; cbn [insertIgnoringDuplicates].
  { do 2 eexists. split; [reflexivity|]. split; try done; [by intros k x Hx; left | intros x Hx; by apply not_elem_of_nil in Hx]. }
  apply Forall_cons in Hu as [Hr Hu]. rewrite run_bind. unfold get. cbv beta iota zeta. destruct (exists_row (same_notice r) (dv_rows s)) eqn:E.
  - destruct (IH s Hu Hs) as (ids & s1 & -> & [O N A U T L P]). do 2 eexists. split; [reflexivity|]. split; try done.
    + intros k x Hx. destruct (N k x Hx) as [?|(y & ? & ?)]; [by left | right; exists y; split; [set_solver | done]].
    + intros x [->|Hx]%elem_of_cons; [|by apply A]. apply exists_row_true in E as (k & y & Hy & Hs2). exists k, y. split; [by apply O | done].
  - rewrite run_bind. unfold modify. cbv beta iota.
    destruct (IH (insert_notice r s) Hu (insert_notice_ok r s Hr Hs)) as (ids & s1 & E1 & [O N A U T L P]).
    destruct (insert_one r s Hs E) as [O1 N1 A1 U1 T1 L1 P1]. rewrite run_bind, E1.
    do 2 eexists. split; [reflexivity|]. split; try congruence.
    + intros k x Hx. by apply O, O1.
    + intros k x Hx. destruct (N k x Hx) as [Hx1|(y & Hy & Y1 & Y2 & Y3 & Y4)].
      * destruct (N1 k x Hx1) as [?|(y & Hy & Y1 & Y2 & Y3 & Y4)]; [by left|]. right. exists y. split; [set_solver | by split_and!].
      * right. exists y. split; [set_solver|]. split_and!; try done. rewrite exists_row_false in *. intros i z Hz. apply (Y4 i z). by apply O1.
    + intros x [->|Hx]%elem_of_cons; [|by apply A]. destruct (A1 r ltac:(set_solver)) as (k & y & Hy & Hsn). exists k, y. split; [by apply O | done].
    + intros Ho. by apply U, U1.
Qed.

(** ** The queue *)

Section Queue.
  Context `{Messengers}.

Definition queue_same (q0 q : queue_state) : Prop := same_notices (qu_notices q0) (qu_notices q).

Lemma queue_on_notices {A} (m : DM A) q0 : (forall s, preserves (same_notices s) m) -> preserves (queue_same q0) (on_notices m).
Proof. intros Hm. apply (preserves_zoom (queue_same q0) (same_notices (qu_notices q0))); [apply Hm | done | done]. Qed.

Lemma queue_modify q0 f : (forall q, qu_notices (f q) = qu_notices q) -> preserves (queue_same q0) (modify f).
Proof. intros Hf. apply preserves_modify. intros q Hq. unfold queue_same. by rewrite Hf. Qed.

Lemma queue_publish q0 j w : preserves (queue_same q0) (publish j w).
Proof. unfold publish. preserve. by apply queue_modify. Qed.
#[local] Hint Resolve queue_publish : preserves.

Lemma queue_follow q0 j o : preserves (queue_same q0) (follow j o).
Proof. unfold follow, pause_messenger. preserve; by apply queue_modify. Qed.
#[local] Hint Resolve queue_follow : preserves.

Lemma queue_handle q0 j : preserves (queue_same q0) (handle j).
Proof. unfold handle, then_follow. preserve. apply queue_on_notices. intros s. apply heads_work. Qed.
#[local] Hint Resolve queue_handle : preserves.

Lemma queue_consume q0 i : preserves (queue_same q0) (consume i).
Proof. unfold consume. preserve; by apply queue_modify. Qed.

Lemma queue_enqueue q0 js : preserves (queue_same q0) (enqueue js).
Proof. induction js as [|j js IH]; cbn [enqueue]; preserve. Qed.
#[local] Hint Resolve queue_enqueue : preserves.

Lemma queue_queueJobs q0 js : preserves (queue_same q0) (queueJobs js).
Proof.
  unfold queueJobs. preserve; apply queue_on_notices; intros d; [apply heads_scheduleRetry|].
  apply preserves_bind; [apply heads_editQueued | intros; apply preserves_ret].
Qed.
#[local] Hint Resolve queue_queueJobs : preserves.

Lemma queue_edit q0 l : preserves (queue_same q0) (edit_everywhere l).
Proof. unfold edit_everywhere. preserve. Qed.

Lemma enqueue_Ok js : forall q, exists l q1, enqueue js q = (Ok l, q1).
Proof.
  induction js as [|j js IH]; intros q; cbn [enqueue]; [by do 2 eexists|]. rewrite run_bind.
  assert (Hp : exists b q1, try_catch (publish j 0 ;; mret true) (fun _ => mret false) q = (Ok b, q1)).
  { unfold try_catch. destruct ((publish j 0 ;; mret true) q) as [[b|e] q1]; by do 2 eexists. }
  destruct Hp as (b & q1 & ->). rewrite run_bind. destruct (IH q1) as (l & q2 & ->). by do 2 eexists.
Qed.

Lemma editQueued_Ok id m d : exists o d1, editQueued id m d = (Ok o, d1).
Proof.
  unfold editQueued. rewrite run_bind. unfold get. cbv beta iota. destruct (findWithListing d id) as [row|]; [|by do 2 eexists].
  destruct (lo_listing row) as [l|]; [|by do 2 eexists]. destruct (ch_chatId (channel m (lo_row row))) as [c|]; [|by do 2 eexists].
  destruct (ch_messageId (channel m (lo_row row))) as [t|]; [|by do 2 eexists]. unfold try_catch.
  destruct ((edit_message row l m c t ;; mret Done) d) as [[x|e] d1]; [by do 2 eexists|]. destruct (rateLimitWaitMs e); by do 2 eexists.
Qed.

Lemma edits_Ok js : forall q, exists q1, for_each js (fun job => on_notices (editQueued (jb_id job) (jb_messenger job) ;; mret tt)) q = (Ok tt, q1).
Proof.
  induction js as [|j js IH]; intros q; cbn [for_each]; [by eexists|]. rewrite run_bind.
  assert (Hq : exists q1, on_notices (editQueued (jb_id j) (jb_messenger j) ;; mret tt) q = (Ok tt, q1)).
  { unfold on_notices, zoom. rewrite run_bind. destruct (editQueued_Ok (jb_id j) (jb_messenger j) (qu_notices q)) as (o & d & ->). by eexists. }
  destruct Hq as (q1 & ->). apply IH.
Qed.

Lemma queueJobs_Ok js q : exists q1, queueJobs js q = (Ok tt, q1).
Proof.
  unfold queueJobs. rewrite run_bind. destruct (enqueue_Ok js q) as (l & q1 & ->). cbv zeta. rewrite run_bind. unfold gets. cbv beta iota.
  rewrite run_bind. unfold when. destruct (negb _); [|apply edits_Ok]. unfold on_notices at 1, scheduleRetry, zoom, modify. apply edits_Ok.
Qed.

(** Only sends: the rows stay, each the notice it was. *)
Lemma enqueue_failed js : forall q l q1, enqueue js q = (Ok l, q1) -> (forall j, j ∈ l -> j ∈ js) /\ qu_notices q1 = qu_notices q.
Proof.
  induction js as [|j js IH]; intros q l q1; cbn [enqueue].
  { intros E. injection E as <- <-. by split. }
  rewrite run_bind.
  assert (Hp : exists b q2, try_catch (publish j 0 ;; mret true) (fun _ => mret false) q = (Ok b, q2) /\ qu_notices q2 = qu_notices q).
  { assert (Hk : preserves (fun x => qu_notices x = qu_notices q) (publish j 0 ;; mret true)).
    { unfold publish. preserve. all: apply preserves_modify; intros x Hx; exact Hx. }
    specialize (Hk q eq_refl). unfold final, try_catch in *. destruct ((publish j 0 ;; mret true) q) as [[b|e] q2]; by do 2 eexists. }
  destruct Hp as (b & q2 & -> & E2). rewrite run_bind. destruct (enqueue js q2) as [[l2|e] q3] eqn:E3; [|done].
  destruct (IH q2 l2 q3 E3) as [Hin Eq]. intros E. injection E as <- <-. split; [|congruence].
  intros x Hx. destruct b; set_solver.
Qed.

Lemma queueJobs_sends js q : (forall j, j ∈ js -> jb_kind j = KSend) ->
  exists q1 g, queueJobs js q = (Ok tt, q1) /\ (forall r, identity (g r) = identity r) /\
    dv_rows (qu_notices q1) = g <$> dv_rows (qu_notices q).
Proof.
  intros Hj. unfold queueJobs. rewrite run_bind. destruct (enqueue_Ok js q) as (l & q1 & E). rewrite E.
  destruct (enqueue_failed js q l q1 E) as [Hin Eq]. cbv zeta. rewrite run_bind. unfold gets. cbv beta iota.
  assert (El : List.filter (is_kind KEdit) l = []).
  { destruct (List.filter (is_kind KEdit) l) as [|j l'] eqn:Ef; [done|]. exfalso.
    assert (Hf : j ∈ List.filter (is_kind KEdit) l) by (rewrite Ef; set_solver). apply list_elem_of_In, filter_In in Hf as [Hf Hk].
    apply list_elem_of_In, Hin, Hj in Hf. unfold is_kind in Hk. by rewrite Hf in Hk. }
  rewrite El, run_bind. unfold when. destruct (negb _).
  - unfold on_notices, zoom, scheduleRetry, modify. cbn [for_each].
    eexists _, (fun r => if bool_decide (cn_id r ∈ map jb_id (List.filter (is_kind KSend) l)) then on_channels (retry_time (qu_now q1)) r else r).
    split; [reflexivity|]. split; [|by rewrite <- Eq].
    intros r. case_bool_decide; [apply identity_channels | done].
  - cbn [for_each]. exists q1, (fun r => r). split; [reflexivity|]. split; [done|]. rewrite Eq; symmetry; apply map_fmap_id.
Qed.

(** Sending a load: its notices are inserted, and the rows stay. *)
Lemma sendToDrivers_run m l us q : notices_ok (qu_notices q) ->
  exists n q1 d1 g, sendToDrivers m l us q = (Ok n, q1) /\
    inserted (map (driver_notice (qu_notices q) m l) us) (qu_notices q) d1 /\
    (forall r, identity (g r) = identity r) /\ dv_rows (qu_notices q1) = g <$> dv_rows d1.
Proof.
  intros Hq. unfold sendToDrivers. rewrite run_bind. unfold get. cbv beta iota. rewrite run_bind.
  assert (Hu : Forall untried (map (driver_notice (qu_notices q) m l) us)).
  { apply Forall_forall. intros r Hr. apply list_elem_of_fmap in Hr as (u & -> & _). apply driver_notice_untried. }
  unfold on_notices at 1, zoom. destruct (insertIgnoringDuplicates_run _ (qu_notices q) Hu Hq) as (ids & d1 & E & Hi). rewrite E.
  rewrite run_bind. cbv beta iota zeta. rewrite run_bind.
  match goal with |- context [queueJobs ?js ?qq] => destruct (queueJobs_sends js qq) as (q2 & g & E2 & Hg & Er) end.
  { intros j Hj. apply list_elem_of_In, in_flat_map in Hj as (r & _ & Hj). unfold first_job in Hj.
    destruct (sent_elsewhere r); [done|]. destruct (next_pending MESSENGER_ORDER r); [|done]. destruct Hj as [<-|[]]. done. }
  rewrite E2. do 4 eexists. split; [reflexivity|]. split; [exact Hi|]. split; [exact Hg | exact Er].
Qed.

End Queue.
