(* ===== verification/PublishingFacts.v ===== *)
(** * Publishing: what every handler keeps

    One load per message and publisher, one notice per driver and load, whatever companies
    publish, announce and change and whatever the deliveries do in between. *)

From S2P Require Import Prelude JsNumber JsString Json Effects Enums BrokerDriver TripFareRules BrokerAccess DriverProfile CargoData Redis SubscriptionPolicy SubscriptionData SubscriptionAccess Delivery CargoNotices DeliveryQueue DeliveryFacts DeliveryInvariant NoticeHeads FreeText IranPlaces TripTypes Audience AlertFilters Contacts CargoSearch Announce Publishing SubscriptionPolicyFacts.

(** ** The notices, through the queue *)

Section Notices.
  Context `{Messengers}.

Definition notices_one (q : queue_state) : Prop := queue_ok q /\ one_notice_each (qu_notices q).

Lemma queue_same_one {A} (m : QM A) : (forall q0, preserves (queue_same q0) m) -> preserves queue_ok m -> preserves notices_one m.
Proof.
  intros Hs Hk q [H1 H2]. split; [by apply Hk|]. eapply same_notices_one; [|exact H2]. apply (Hs q q). apply same_notices_refl.
Qed.

Lemma insert_each_one new : Forall untried new -> preserves notices_one (on_notices (insertIgnoringDuplicates new)).
Proof.
  intros Hu q [H1 H2]. unfold final, on_notices, zoom. destruct (insertIgnoringDuplicates_run new (qu_notices q) Hu H1) as (ids & s1 & E & Hi).
  rewrite E. cbn [snd]. split; [|by apply (in_one _ _ _ Hi)]. pose proof (insertIgnoringDuplicates_ok new Hu _ H1) as Hok.
  unfold final in Hok. by rewrite E in Hok.
Qed.

Lemma driver_notices_untried s m l us : Forall untried (map (driver_notice s m l) us).
Proof. apply Forall_forall. intros r Hr. apply list_elem_of_fmap in Hr as (u & -> & _). apply driver_notice_untried. Qed.

Lemma sendToDrivers_one m l us : preserves notices_one (sendToDrivers m l us).
Proof.
  unfold sendToDrivers. apply preserves_get_bind. intros q _. apply preserves_bind.
  - apply insert_each_one, driver_notices_untried.
  - intros _. apply preserves_get_bind. intros q1 _. cbv zeta. apply preserves_bind; [|intros _; apply preserves_ret].
    apply queue_same_one; [intros q0; apply queue_queueJobs | apply queueJobs_ok].
Qed.

Lemma suggestions_untried m us : Forall untried (map (suggestion m) us).
Proof. apply Forall_forall. intros r Hr. apply list_elem_of_fmap in Hr as (u & -> & _). intros c. by destruct c. Qed.

Lemma heads_each (s0 s1 : delivery_state) l : preserves (same_notices s0) (for_each l (fun row => deliver (load s1 row))).
Proof. apply preserves_for_each. intros x _. apply heads_deliver. Qed.

Lemma suggest_one m us : preserves notices_one (on_notices (suggest m us)).
Proof.
  intros q [H1 H2]. split; [by apply (on_notices_ok _ (suggest_ok m us))|]. unfold final, on_notices, zoom, suggest.
  rewrite run_bind. destruct (insertIgnoringDuplicates_run _ (qu_notices q) (suggestions_untried m us) H1) as (ids & s1 & E & Hi).
  rewrite E, run_bind. unfold get. cbv beta iota.
  pose proof (heads_each s1 s1 (findSuggestions s1 m us) s1 (same_notices_refl s1)) as Hh. unfold final in Hh.
  destruct (for_each _ _ s1) as [o s2]. cbn [snd] in *. eapply same_notices_one; [exact Hh | by apply (in_one _ _ _ Hi)].
Qed.

Lemma exec_delivery_one op q : notices_one q -> notices_one (exec_delivery op q).
Proof.
  intros Hq. destruct op; cbn [exec_delivery].
  - revert q Hq. apply queue_same_one; [intros q0; apply queue_consume | apply consume_ok].
  - revert q Hq. apply (queue_same_one (on_notices tick)); [intros q0; apply queue_on_notices; intros s; apply heads_tick | apply on_notices_ok, retry_sweep_ok].
  - by apply sendToDrivers_one.
  - revert q Hq. apply queue_same_one; [intros q0; apply queue_edit | apply edit_everywhere_ok].
  - by apply suggest_one.
  - revert q Hq. apply (queue_same_one (on_notices _)); [intros q0; apply queue_on_notices; intros s; apply heads_markRead | apply on_notices_ok, markRead_ok].
  - revert q Hq. apply (queue_same_one (on_notices _)); [intros q0; apply queue_on_notices; intros s; apply heads_deleteFinished | apply on_notices_ok, deleteFinished_ok].
  - destruct Hq as [H1 H2]. split; [exact H1|]. intros k k' r r'. exact (H2 k k' r r').
Qed.

End Notices.

(** ** The loads *)

Record loads_ok (s : publish_state) : Prop := mkLoadsOk {
  lk_ids : forall k l, pb_loads s !! k = Some l -> ld_id l = k /\ (k < pb_nextLoad s)%N;
  lk_source : forall k k' l l', pb_loads s !! k = Some l -> pb_loads s !! k' = Some l' ->
    ld_sourceMessageId l = ld_sourceMessageId l' -> ld_publisher l = ld_publisher l' -> k = k';
  lk_notices : notices_one (pb_queue s);
}.

(** ... and the loads below [n] have been given out. *)
Definition upto (n : uuid) (s : publish_state) : Prop := loads_ok s /\ (n <= pb_nextLoad s)%N.

Lemma put_load_loads l s : pb_loads (put_load l s) = <[ld_id l := l]> (pb_loads s).
Proof. done. Qed.

Lemma put_load_ok l s : (ld_id l < pb_nextLoad s)%N -> 
  exists_row (fun o => negb (ld_id o =? ld_id l)%N && from_source (ld_sourceMessageId l) (ld_publisher l) o) (pb_loads s) = false ->
  loads_ok s -> loads_ok (put_load l s).
Proof.
  intros Hid He [H1 H2 H3]. rewrite exists_row_false in He.
  assert (Hne : forall k o, pb_loads s !! k = Some o -> k <> ld_id l -> ld_sourceMessageId o = ld_sourceMessageId l ->
            ld_publisher o = ld_publisher l -> False).
  { intros k o Ho Hk E1 E2. pose proof (He k o Ho) as F. destruct (H1 k o Ho) as [Ek _]. unfold from_source in F.
    rewrite Ek, (proj2 (N.eqb_neq _ _) Hk), E1, E2, N.eqb_refl, bool_decide_eq_true_2 in F by done. done. }
  split.
  - intros k o. rewrite put_load_loads, lookup_insert_Some. intros [[<- <-]|[_ Ho]]; [done | by apply H1].
  - intros k k' o o'. rewrite !put_load_loads, !lookup_insert_Some. intros [[<- <-]|[Hk Ho]] [[<- <-]|[Hk' Ho']] E1 E2; [done| | |by eapply H2].
    + exfalso. by eapply (Hne k' o').
    + exfalso. by eapply (Hne k o).
  - exact H3.
Qed.

Lemma save_load_run l s :
  (exists e, save_load l s = (Err e, s)) \/
  (save_load l s = (Ok l, put_load l s) /\
   exists_row (fun o => negb (ld_id o =? ld_id l)%N && from_source (ld_sourceMessageId l) (ld_publisher l) o) (pb_loads s) = false).
Proof.
  unfold save_load. rewrite run_bind. unfold get. cbv beta iota. rewrite run_bind. unfold ensure at 1.
  destruct (load_fits l); [rewrite run_ret | left; by eexists]. rewrite run_bind. unfold ensure.
  destruct (exists_row _ _); [left; by eexists|]. cbn [negb]. rewrite run_ret. right. by split.
Qed.

Lemma save_load_ok l n : (ld_id l < n)%N -> preserves (upto n) (save_load l).
Proof.
  intros Hn s [Hs Hle]. unfold final. destruct (save_load_run l s) as [[e ->]|[-> He]]; cbn [snd]; [by split|].
  split; [apply put_load_ok; [lia | done | done] | exact Hle].
Qed.

Definition newborn (s : publish_state) (l : Load) : Load :=
  l <| ld_row := ((ld_row l) <| li_id := pb_nextLoad s |>) |> <| ld_createdAt := pb_now s |>.

Definition born (l : Load) (s : publish_state) : publish_state :=
  (put_load (newborn s l) s) <| pb_nextLoad := N.succ (pb_nextLoad s) |>.

Lemma insert_load_run l s :
  (exists e, insert_load l s = (Err e, s)) \/
  (insert_load l s = (Ok (newborn s l), born l s) /\
   exists_row (fun o => negb (ld_id o =? pb_nextLoad s)%N && from_source (ld_sourceMessageId l) (ld_publisher l) o) (pb_loads s) = false).
Proof.
  unfold insert_load. rewrite run_bind. unfold get. cbv beta iota zeta. fold (newborn s l). rewrite run_bind.
  destruct (save_load_run (newborn s l) s) as [[e ->]|[-> He]]; [left; by eexists|]. right. split; [done | exact He].
Qed.

Lemma born_ok l s n : upto n s -> exists_row (fun o => negb (ld_id o =? pb_nextLoad s)%N && from_source (ld_sourceMessageId l) (ld_publisher l) o) (pb_loads s) = false ->
  upto n (born l s) /\ (ld_id (newborn s l) < pb_nextLoad (born l s))%N.
Proof.
  intros [Hs Hn] He. assert (Hid : ld_id (newborn s l) = pb_nextLoad s) by done. change (pb_nextLoad (born l s)) with (N.succ (pb_nextLoad s)).
  split; [|rewrite Hid; lia]. split; [|change (pb_nextLoad (born l s)) with (N.succ (pb_nextLoad s)); lia].
  set (s1 := s <| pb_nextLoad := N.succ (pb_nextLoad s) |>).
  assert (Hs1 : loads_ok s1).
  { destruct Hs as [H1 H2 H3]. split; [|exact H2|exact H3]. intros k o Ho. destruct (H1 k o Ho). split; [done|].
    change (pb_nextLoad s1) with (N.succ (pb_nextLoad s)). lia. }
  change (loads_ok (put_load (newborn s l) s1)). apply put_load_ok; [rewrite Hid; change (pb_nextLoad s1) with (N.succ (pb_nextLoad s)); lia | exact He | exact Hs1].
Qed.

(** A write away from the loads and the notices *)
Lemma upto_modify n f : (forall s, pb_loads (f s) = pb_loads s /\ pb_nextLoad (f s) = pb_nextLoad s /\ pb_queue (f s) = pb_queue s) ->
  preserves (upto n) (modify f).
Proof.
  intros Hf. apply preserves_modify. intros s [[H1 H2 H3] Hn]. destruct (Hf s) as (E1 & E2 & E3).
  split; [split; rewrite ?E1, ?E2, ?E3; done | by rewrite E2].
Qed.

Lemma upto_queue {A} n (m : QM A) : preserves notices_one m -> preserves (upto n) (on_queue m).
Proof.
  intros Hm. apply (preserves_zoom (upto n) notices_one); [exact Hm | by intros s [[_ _ H] _]|].
  intros s q [[H1 H2 H3] Hn] Hq. split; [by split | exact Hn].
Qed.

Lemma upto_subs {A} n (m : SM A) : preserves (upto n) (on_subs m).
Proof.
  apply (preserves_zoom (upto n) (fun _ => True)); [done | done|]. intros s q [[H1 H2 H3] Hn] _. split; [by split | exact Hn].
Qed.

Lemma upto_routes {A} n (m : RM A) : preserves (upto n) (on_routes m).
Proof.
  apply (preserves_zoom (upto n) (fun _ => True)); [done | done|]. intros s q [[H1 H2 H3] Hn] _. split; [by split | exact Hn].
Qed.

Lemma lookup_below s k l : loads_ok s -> pb_loads s !! k = Some l -> (ld_id l < pb_nextLoad s)%N.
Proof. intros Hs Hl. by destruct (lk_ids _ Hs k l Hl) as [-> ?]. Qed.

Section Handlers.
  Context `{Messengers} `{JsDate} `{Unicode} `{WordChars} `{Oracle}.

Ltac keep := repeat first [progress preserve | by apply upto_modify | apply upto_subs | apply upto_routes | apply upto_queue].

Lemma announcementRecipients_ok n u t c : preserves (upto n) (announcementRecipients u t c).
Proof. unfold announcementRecipients. keep. Qed.
#[local] Hint Resolve announcementRecipients_ok : preserves.

Lemma announceChange_ok n l : preserves (upto n) (announceChange l).
Proof. by apply upto_modify. Qed.
#[local] Hint Resolve announceChange_ok : preserves.

Lemma send_load_ok n l us b : preserves (upto n) (send_load l us b).
Proof.
  unfold send_load. keep; [apply sendToDrivers_one|]. apply upto_modify. intros x. unfold push_notice. by destruct b.
Qed.
#[local] Hint Resolve send_load_ok : preserves.

Lemma announce_load_ok n l us b : (ld_id l < n)%N -> preserves (upto n) (announce_load l us b).
Proof. intros Hn. unfold announce_load. keep. by apply save_load_ok. Qed.

Lemma announceNow_ok u id : preserves loads_ok (announceNow u id).
Proof.
  intros s Hs. assert (Hu : upto (pb_nextLoad s) s) by (split; [done | lia]).
  unfold final, announceNow. rewrite run_bind. unfold get. cbv beta iota. unfold findOneForPublisher. rewrite run_bind.
  destruct (pb_loads s !! id) as [l|] eqn:El; [|exact Hs]. cbn [mbind option_bind]. destruct (_ =? u)%N; [|exact Hs]. unfold some_or. rewrite run_ret.
  enough (Hp : preserves (upto (pb_nextLoad s)) (ensure (eqb (ld_status l) ListingOpen) (conflict "Only open cargo can be announced.") ;;
      recipients ← announcementRecipients u (ld_tripType l) (load_route l); sent ← announce_load l recipients false; mret (mkPublished sent.1 sent.2 None None))).
  { apply (Hp s Hu). }
  keep. apply announce_load_ok. by eapply lookup_below.
Qed.

Lemma try_recipients_ok n a u t c : preserves (upto n) (try_recipients a u t c).
Proof. unfold try_recipients. keep. Qed.
#[local] Hint Resolve try_recipients_ok : preserves.

Lemma saveListing_ok n l : preserves (upto n) (saveListing l).
Proof.
  unfold saveListing. apply preserves_try_catch; [|intros e; apply preserves_throw]. intros s Hs. unfold final.
  destruct (insert_load_run l s) as [[e ->]|[-> He]]; cbn [snd]; [done | by apply born_ok].
Qed.
#[local] Hint Resolve saveListing_ok : preserves.

Lemma publishListing_ok n u f code src nid a b : preserves (upto n) (publishListing u f code src nid a b).
Proof. unfold publishListing. cbv zeta. keep. Qed.

Lemma loads_upto {A} (m : PbM A) : (forall n, preserves (upto n) m) -> preserves loads_ok m.
Proof. intros Hm s Hs. apply (Hm (pb_nextLoad s) s). split; [done | lia]. Qed.

Lemma nextManualCode_ok n : preserves (upto n) nextManualCode.
Proof. unfold nextManualCode. keep. Qed.

Lemma getSuggestion_reads u n : reads (getSuggestion u n).
Proof. intros s. unfold getSuggestion. preserve. Qed.

Lemma publish_loads_ok u nid f b : preserves loads_ok (publish u nid f b).
Proof.
  unfold publish. apply preserves_bind; [apply reads_preserves, getSuggestion_reads|]. intros sg. apply preserves_get_bind. intros s _. cbv zeta.
  destruct (findBySourceAndPublisher _ _ _); [apply preserves_if; intros _; [apply announceNow_ok | apply preserves_throw]|].
  apply loads_upto. intros n. apply preserves_bind; [destruct (py_code sg.2); [apply preserves_ret | apply nextManualCode_ok]|].
  intros code. apply publishListing_ok.
Qed.

Lemma createManual_ok u f : preserves loads_ok (createManual u f).
Proof. apply loads_upto. intros n. unfold createManual. keep. all: first [apply nextManualCode_ok | apply publishListing_ok]. Qed.

Lemma count_each_ok {A} (I : publish_state -> Prop) (l : list A) f : (forall x, x ∈ l -> preserves I (f x)) -> preserves I (count_each l f).
Proof.
  induction l as [|x l IH]; intros Hf; cbn [count_each]; [apply preserves_ret|].
  apply preserves_bind; [apply Hf; set_solver|]. intros a. apply preserves_bind; [apply IH; set_solver | intros; apply preserves_ret].
Qed.

Lemma buildDraft_reads u n : reads (buildDraft u n).
Proof. intros s. unfold buildDraft. apply preserves_bind; [apply getSuggestion_reads | intros; preserve]. Qed.

Lemma auto_suggestion_ok u sg : preserves loads_ok (auto_suggestion u sg).
Proof.
  unfold auto_suggestion. apply preserves_get_bind. intros s _. destruct (findBySourceAndPublisher _ _ _); [apply preserves_ret|].
  apply preserves_bind; [apply reads_preserves, buildDraft_reads|]. intros d. apply preserves_if; intros _; [apply preserves_ret|].
  apply preserves_try_catch; [|intros e; preserve]. apply preserves_bind; [apply publish_loads_ok | intros; apply preserves_ret].
Qed.

Lemma auto_pending_ok n u l : (ld_id l < n)%N -> preserves (upto n) (auto_pending u l).
Proof. intros Hn. unfold auto_pending. keep. by apply announce_load_ok. Qed.

Lemma findPendingAnnounce_in s u l : l ∈ findPendingAnnounce s u -> pending_announce u l = true /\ exists k, pb_loads s !! k = Some l.
Proof. unfold findPendingAnnounce. rewrite merge_sort_Permutation. apply elem_of_find_rows. Qed.

Lemma autoAnnounce_ok u since : preserves loads_ok (autoAnnounce u since).
Proof.
  unfold autoAnnounce. apply preserves_bind; [apply loads_upto; intros n; by apply upto_modify|]. intros _. apply preserves_get_bind. intros s1 _.
  apply preserves_bind; [apply count_each_ok; intros x _; apply auto_suggestion_ok|]. intros a s2 Hs2. rewrite final_get_bind.
  assert (Hp : preserves (upto (pb_nextLoad s2)) (count_each (findPendingAnnounce s2 u) (auto_pending u) ≫= fun pending => sendPushBatch ;; mret (a, pending))).
  { apply preserves_bind; [|intros b; unfold sendPushBatch; keep]. apply count_each_ok. intros l Hl. apply auto_pending_ok.
    destruct (findPendingAnnounce_in s2 u l Hl) as (_ & k & Hk). by eapply lookup_below. }
  apply (Hp s2). split; [done | lia].
Qed.

Lemma announce_tick_ok : preserves loads_ok announce_tick.
Proof.
  unfold announce_tick. apply preserves_get_bind. intros s _. apply preserves_for_each. intros p _. unfold announce_turn.
  apply preserves_try_catch; [|intros; apply preserves_ret]. apply preserves_bind; [apply loads_upto; intros n; by apply upto_modify|].
  intros _. apply preserves_bind; [apply autoAnnounce_ok | intros; apply preserves_ret].
Qed.

Lemma recontacted_id before after l l' : recontacted before after l = Some l' ->
  ld_id l' = ld_id l /\ ld_publisher l' = ld_publisher l /\ ld_sourceMessageId l' = ld_sourceMessageId l /\ ld_status l' = ld_status l.
Proof. unfold recontacted. cbv zeta. destruct (_ && is_null _); [done|]. by intros [= <-]. Qed.

Lemma recontact_each_ok n before after ls : (forall l, l ∈ ls -> (ld_id l < n)%N) -> preserves (upto n) (recontact_each before after ls).
Proof.
  induction ls as [|l ls IH]; intros Hl; cbn [recontact_each]; [apply preserves_ret|].
  destruct (recontacted before after l) as [l'|] eqn:E; [|apply IH; set_solver].
  apply preserves_bind; [apply save_load_ok; destruct (recontacted_id _ _ _ _ E) as [-> _]; apply Hl; set_solver|].
  intros saved. apply preserves_bind; [apply IH; set_solver | intros; apply preserves_ret].
Qed.

Lemma propagateText_ok n ls : preserves (upto n) (propagateText ls).
Proof. unfold propagateText. keep. apply queue_same_one; [intros q; apply queue_edit | apply edit_everywhere_ok]. Qed.

Lemma refreshPublisherContact_ok u before after : preserves loads_ok (refreshPublisherContact u before after).
Proof.
  unfold refreshPublisherContact. cbv zeta. apply preserves_if; intros _; [apply preserves_ret|]. intros s Hs. rewrite final_get_bind.
  match goal with |- loads_ok (final (recontact_each _ _ ?ls ≫= ?k) s) =>
    assert (Hp : preserves (upto (pb_nextLoad s)) (recontact_each before after ls ≫= k)) end.
  { apply preserves_bind; [|intros c; apply preserves_bind; [apply propagateText_ok | intros; apply preserves_ret]].
    apply recontact_each_ok. intros l [_ (k & Hk)]%elem_of_find_rows. by eapply lookup_below. }
  apply (Hp s). split; [done | lia].
Qed.

Lemma contact_changed_ok u before : preserves loads_ok (contact_changed u before).
Proof.
  unfold contact_changed. apply preserves_try_catch; [|intros; apply preserves_ret]. apply preserves_get_bind. intros s _.
  apply preserves_bind; [apply refreshPublisherContact_ok|]. intros c. destruct c; [apply preserves_ret|]. cbv zeta.
  apply loads_upto. intros n. by apply upto_modify.
Qed.

Lemma cleanup_tick_ok : preserves loads_ok cleanup_tick.
Proof.
  apply loads_upto. intros n. unfold cleanup_tick. keep.
  apply (queue_same_one (on_notices _)); [intros q; apply queue_on_notices; intros d; apply heads_deleteFinished | apply on_notices_ok, deleteFinished_ok].
Qed.

(** ** What the outside asks for *)

Inductive publish_op :=
| PbPublish (userId notificationId : uuid) (f : CargoListingFields)
| PbManual (userId : uuid) (f : CargoListingFields)
| PbAnnounce (userId listingId : uuid)
| PbTick
| PbContact (userId : uuid) (before : ContactProfile)
| PbClean
| PbSetting (userId : uuid) (mode : CargoAnnounceMode) (intervalMinutes : option num)
| PbDelivery (op : delivery_op).

Definition exec_publish (op : publish_op) (s : publish_state) : publish_state :=
  match op with
  | PbPublish u n f => final (publish u n f false) s
  | PbManual u f => final (createManual u f) s
  | PbAnnounce u l => final (announceNow u l) s
  | PbTick => final announce_tick s
  | PbContact u before => final (contact_changed u before) s
  | PbClean => final cleanup_tick s
  | PbSetting u mode n => final (on_settings (set_setting u mode n (pb_now s))) s
  | PbDelivery op => s <| pb_queue := exec_delivery op (pb_queue s) |>
  end.

Definition run_publish (ops : list publish_op) (s : publish_state) : publish_state := foldl (fun s op => exec_publish op s) s ops.

Lemma exec_publish_ok op s : loads_ok s -> loads_ok (exec_publish op s).
Proof.
  intros Hs. destruct op; cbn [exec_publish].
  - by apply publish_loads_ok.
  - by apply createManual_ok.
  - by apply announceNow_ok.
  - by apply announce_tick_ok.
  - by apply contact_changed_ok.
  - by apply cleanup_tick_ok.
  - destruct Hs as [K1 K2 K3]. unfold final, on_settings, zoom. destruct (set_setting _ _ _ _ _) as [o x]. by split.
  - destruct Hs as [K1 K2 K3]. split; [exact K1 | exact K2 | by apply exec_delivery_one].
Qed.

Lemma run_publish_ok ops s : loads_ok s -> loads_ok (run_publish ops s).
Proof. revert s. induction ops as [|op ops IH]; intros s Hs; [done|]. by apply IH, exec_publish_ok. Qed.

End Handlers.

(** ** A company with suggested loads, to run

    Company 10 is suggested a load from Tehran to Rasht (notice 7); driver 5, its member,
    is in its trial and on Eitaa.  In the second world an older suggestion (6)
    is from a place no list knows. *)

Definition suggested (id : uuid) (source : string) (at_ : time) : CargoNotification :=
  mkNotification id 10 (js source) None false None not_linked not_linked not_linked not_linked not_linked at_.

Definition company_profile : ContactProfile :=
  mkContactProfile (Some (js "09120000001")) None false None None (Some (js "Tarabar")) None None None.

Definition suggestion_payload (origin : text) : Payload :=
  mkPayload (Some (js "100001")) (Some origin) (Some (js "رشت")) None (Some (js "20000")) None None None None.

Definition sample_notices (rows : gmap uuid CargoNotification) : delivery_state :=
  mkDelivery 1000 0 true 8 rows ∅ (mkProfiles {[ 5%N := mkProfile None None None TripDomestic [TripDomestic] [10%N] false None None ]} ∅ [10%N])
    [Bale; Eitaa] {[ (5%N, Eitaa) := Some (js "c2") ]} ∅ ∅ ∅ ∅ ∅ [].

Definition publishing_with (rows : gmap uuid CargoNotification) (payloads : gmap uuid Payload) : publish_state := {|
  pb_queue := idle_queue <| qu_notices := sample_notices rows |>;
  pb_loads := ∅; pb_nextLoad := 100; pb_nextCode := 90000000; pb_nextManual := 1; pb_payloads := payloads;
  pb_filters := no_filters; pb_subs := au_subs sample_audience; pb_verification := true; pb_approved := {[ 5%N ]};
  pb_users := {[ 10%N := company_profile ]}; pb_companies := ∅; pb_routes := no_routes;
  pb_settings := {[ 10%N := mkAnnounce Auto 15 (Some 500) (Some (1000 - minutes 15)) ]}; pb_batch := ∅; pb_pushes := []; pb_changes := []; pb_contacts := [] |}.

Definition one_suggestion : publish_state :=
  publishing_with {[ 7%N := suggested 7 "g1" 900 ]} {[ 7%N := suggestion_payload (js "تهران") ]}.

(** The language models are all down. *)
Definition all_down : Oracle := {| llm _ _ := Err LLM_UNAVAILABLE; inIranWorldwide _ _ := Err NOT_JSON |}.

Definition two_suggestions : publish_state :=
  publishing_with (<[6%N := suggested 6 "g0" 800]> {[ 7%N := suggested 7 "g1" 900 ]})
    (<[6%N := suggestion_payload (js "پلون")]> {[ 7%N := suggestion_payload (js "تهران") ]}).

Lemma suggested_ok k id source t d : dv_rows d !! k = Some (suggested id source t) -> deliveries k d = 0%nat -> (k < dv_nextId d)%N -> id = k -> ok_at k d.
Proof.
  intros Hr Hd Hk ->. unfold ok_at. rewrite Hr, Hd. split; [|done]. split; [done|lia|lia| |].
  - intros [] m'; by cbn.
  - intros []; cbn; unfold MAX_DELIVERY_ATTEMPTS; lia.
Qed.

Lemma one_suggestion_notices : notices_ok (qu_notices (pb_queue one_suggestion)).
Proof.
  intros k. destruct (decide (k = 7%N)) as [->|Hn].
  - apply (suggested_ok 7 7 "g1" 900); by vm_compute.
  - unfold ok_at. change (dv_rows (qu_notices (pb_queue one_suggestion))) with ({[ 7%N := suggested 7 "g1" 900 ]} : gmap uuid CargoNotification).
    rewrite lookup_singleton_ne by done. change (deliveries k _) with 0%nat. split; [lia|done].
Qed.

Lemma two_suggestions_notices : notices_ok (qu_notices (pb_queue two_suggestions)).
Proof.
  intros k. destruct (decide (k = 6%N)) as [->|Hn6]; [apply (suggested_ok 6 6 "g0" 800); by vm_compute|].
  destruct (decide (k = 7%N)) as [->|Hn].
  - apply (suggested_ok 7 7 "g1" 900); by vm_compute.
  - unfold ok_at.
    change (dv_rows (qu_notices (pb_queue two_suggestions))) with (<[6%N := suggested 6 "g0" 800]> {[ 7%N := suggested 7 "g1" 900 ]} : gmap uuid CargoNotification).
    rewrite lookup_insert_ne, lookup_singleton_ne by done. change (deliveries k _) with 0%nat. split; [lia|done].
Qed.

Lemma one_suggestion_ok : loads_ok one_suggestion.
Proof.
  split.
  - intros k l Hl. change ((∅ : gmap uuid Load) !! k = Some l) in Hl. by rewrite lookup_empty in Hl.
  - intros k k' l l' Hl. change ((∅ : gmap uuid Load) !! k = Some l) in Hl. by rewrite lookup_empty in Hl.
  - split; [exact one_suggestion_notices|]. intros k k' r r' Hr Hr' _.
    change (({[ 7%N := suggested 7 "g1" 900 ]} : gmap uuid CargoNotification) !! k = Some r) in Hr.
    change (({[ 7%N := suggested 7 "g1" 900 ]} : gmap uuid CargoNotification) !! k' = Some r') in Hr'.
    apply lookup_singleton_Some in Hr as [<- _]. by apply lookup_singleton_Some in Hr' as [<- _].
Qed.

Lemma one_suggestion_born k r i : dv_rows (qu_notices (pb_queue one_suggestion)) !! k = Some r -> cn_listingId r = Some i -> (i < pb_nextLoad one_suggestion)%N.
Proof.
  intros Hr. change (({[ 7%N := suggested 7 "g1" 900 ]} : gmap uuid CargoNotification) !! k = Some r) in Hr.
  apply lookup_singleton_Some in Hr as [_ <-]. done.
Qed.
