(* ===== verification/PublishingProperties.v ===== *)
(** * Publishing loads: what it guarantees

    One load per message and publisher and one notice per driver and load; the drivers a
    load goes to; how the phones a load shows follow its publisher's; turns that end. *)

From S2P Require Import Prelude JsNumber JsString Json Effects Enums BrokerDriver TripFareRules BrokerAccess DriverProfile CargoData Redis SubscriptionPolicy SubscriptionPolicyFacts SubscriptionData SubscriptionAccess AccessFacts Delivery CargoNotices DeliveryQueue DeliveryFacts DeliveryInvariant NoticeHeads FreeText IranPlaces TripTypes Audience AlertFilters Contacts CargoSearch Announce Publishing PublishingFacts.

(** ** Runs *)

Lemma announcementRecipients_run `{JsDate} `{Unicode} u t c s :
  exists p x, result (policy (getPolicy THIS_INSTANCE)) (subs_view s) = Ok p /\
    let s1 := s <| pb_subs := x |> in
    announcementRecipients u t c s =
      match findDriverIds (audience_of s) (driversEnforced p, driverTrialDays p, driverTrialStartedAt p) (Some t) (Some u) (pb_now s) with
      | Err e => (Err e, s1)
      | Ok ids =>
          match filterInterestedUsers (pb_filters s) (List.filter (fun id => negb (id =? u)%N) ids) c with
          | [] => (Err NO_RECIPIENTS, s1)
          | recipients => (Ok recipients, s1)
          end
      end.
Proof.
  destruct (getPolicy_again THIS_INSTANCE (policy_view (subs_view s))) as (p & q & E & _ & _).
  assert (Ep : policy (getPolicy THIS_INSTANCE) (subs_view s) = (Ok p, (subs_view s) <| su_policy := q |>)) by (unfold policy, zoom; by rewrite E).
  exists p, ((subs_view s) <| su_policy := q |>). split; [unfold result; by rewrite Ep|]. cbv zeta.
  unfold announcementRecipients, on_subs. rewrite run_bind. unfold zoom at 1. rewrite (driver_rule_run p _ _ Ep).
  rewrite run_bind. unfold get. cbv beta iota. rewrite run_bind. unfold of_outcome.
  set (s1 := s <| pb_subs := _ |>).
  change (findDriverIds (audience_of s1)) with (findDriverIds (audience_of s)).
  destruct (findDriverIds _ _ _ _ _) as [ids|e]; [|done]. cbv beta iota zeta. change (pb_filters s1) with (pb_filters s).
  rewrite run_bind. by destruct (filterInterestedUsers _ _ _).
Qed.

(** The drivers a load of kind [t] is for, asked at [s] *)
Definition audience_at `{JsDate} (s : publish_state) (u : uuid) (t : CargoTripType) (ids : list uuid) : Prop :=
  exists p, result (policy (getPolicy THIS_INSTANCE)) (subs_view s) = Ok p /\
    findDriverIds (audience_of s) (driversEnforced p, driverTrialDays p, driverTrialStartedAt p) (Some t) (Some u) (pb_now s) = Ok ids.

Definition recipients_of `{Unicode} (s : publish_state) (u : uuid) (ids : list uuid) (c : CargoRouteFields) : list uuid :=
  filterInterestedUsers (pb_filters s) (List.filter (fun id => negb (id =? u)%N) ids) c.

Lemma try_recipients_run `{JsDate} `{Unicode} u t c s recs s1 :
  try_recipients true u t c s = (Ok recs, s1) ->
  exists ids x, audience_at s u t ids /\ s1 = s <| pb_subs := x |> /\ recs = recipients_of s u ids c.
Proof.
  destruct (announcementRecipients_run u t c s) as (p & x & Hp & E). cbv zeta in E. unfold try_recipients, try_catch. rewrite E.
  destruct (findDriverIds _ _ _ _ _) as [ids|e] eqn:Ef.
  - fold (recipients_of s u ids c). destruct (recipients_of s u ids c) as [|r l] eqn:Er.
    + rewrite bool_decide_eq_true_2 by done. rewrite run_ret. intros [= <- <-]. exists ids, x. split; [by exists p | by rewrite Er].
    + intros [= <- <-]. exists ids, x. split; [by exists p | by rewrite Er].
  - revert Ef. unfold findDriverIds. destruct (Date_parse _), (driversEnforced p); intros [=]; subst e.
    rewrite bool_decide_eq_false_2; [done|discriminate].
Qed.

Lemma elem_of_recipients `{Unicode} s u ids c d :
  d ∈ recipients_of s u ids c <-> d ∈ ids /\ d <> u /\ matchesAny (activeFor (pb_filters s) d) c = true.
Proof.
  unfold recipients_of, filterInterestedUsers. rewrite !list_elem_of_In, !filter_In, negb_true_iff, N.eqb_neq. tauto.
Qed.

(** No notice is of a load still to come. *)
Definition notices_born (s : publish_state) : Prop :=
  forall k r i, dv_rows (qu_notices (pb_queue s)) !! k = Some r -> cn_listingId r = Some i -> (i < pb_nextLoad s)%N.

Definition has_notice (s : publish_state) (load d : uuid) : Prop :=
  exists k r, dv_rows (qu_notices (pb_queue s)) !! k = Some r /\ cn_listingId r = Some load /\ cn_userId r = d.

Section Runs.
  Context `{Messengers} `{JsDate} `{Unicode} `{WordChars} `{Oracle}.

(** Sending a load none has a notice of yet *)
Lemma send_load_run l us b s : notices_ok (qu_notices (pb_queue s)) -> (forall d, ~ has_notice s (ld_id l) d) ->
  exists n s1, send_load l us b s = (Ok n, s1) /\ pb_loads s1 = pb_loads s /\ forall d, has_notice s1 (ld_id l) d <-> d ∈ us.
Proof.
  intros Hk Hn. unfold send_load. rewrite run_bind. unfold on_queue, zoom.
  destruct (sendToDrivers_run (ld_sourceMessageId l) (ld_id l) us (pb_queue s) Hk) as (n & q1 & d1 & g & E & Hi & Hg & Er). rewrite E.
  rewrite run_bind. unfold get. cbv beta iota. rewrite run_bind. unfold modify. cbv beta iota. rewrite run_ret.
  do 2 eexists. split; [reflexivity|]. split; [by destruct b|].
  intros d. unfold has_notice. set (s2 := push_notice _ _ _ _).
  replace (dv_rows (qu_notices (pb_queue s2))) with (g <$> dv_rows d1) by (unfold s2, push_notice; destruct b; symmetry; exact Er).
  split.
  - intros (k & r & Hr & Hl & Hu). rewrite lookup_fmap in Hr. destruct (dv_rows d1 !! k) as [r0|] eqn:E0; [|done]. injection Hr as <-.
    pose proof (Hg r0) as Hgi. unfold identity in Hgi. injection Hgi as _ Eu _ El. rewrite El in Hl. rewrite Eu in Hu.
    destruct (in_new _ _ _ Hi k r0 E0) as [Hold|(x & Hx & X1 & X2 & _)].
    + exfalso. apply (Hn d). by exists k, r0.
    + apply list_elem_of_fmap in Hx as (y & -> & Hy). cbn in X1. congruence.
  - intros Hd. destruct (in_all _ _ _ Hi (driver_notice (qu_notices (pb_queue s)) (ld_sourceMessageId l) (ld_id l) d)) as (k & r & Hr & Hs).
    { apply list_elem_of_fmap. by exists d. }
    exists k, (g r). rewrite lookup_fmap, Hr. split; [done|]. pose proof (Hg r) as Hgi. unfold identity in Hgi. injection Hgi as _ -> _ ->.
    unfold same_notice in Hs. cbn in Hs. apply andb_true_iff in Hs as [Hu Hl]. destruct (cn_listingId r); [|done].
    apply N.eqb_eq in Hu, Hl. by subst.
Qed.

Definition grouped_fields (f : CargoListingFields) : CargoListingFields :=
  f <| fl_weight := groupedField (fl_weight f) 100 |> <| fl_price := groupedField (fl_price f) 100 |>.

(** A new load, its id the next one, and its notices those of its drivers *)
Lemma publishListing_run u f code src nid b s res s' : loads_ok s -> notices_born s ->
  publishListing u f code src nid true b s = (Ok res, s') ->
  let l := pu_load res in
  pb_loads s !! ld_id l = None /\ pb_loads s' !! ld_id l = Some l /\
  ld_publisher l = u /\ ld_status l = ListingOpen /\ ld_sourceMessageId l = src /\
  exists ids, audience_at s u (ld_tripType l) ids /\
    let recs := recipients_of s u ids (fields_route (grouped_fields f)) in
    ld_announcedAt l = (match recs with [] => None | _ => Some (pb_now s) end) /\
    pu_pending res = (match recs with [] => Some NoDrivers | _ => None end) /\
    forall d, has_notice s' (ld_id l) d <-> d ∈ recs.
Proof.
  intros Hs Hb Er l. unfold publishListing in Er. cbv zeta in Er. fold (grouped_fields f) in Er.
  rewrite run_bind in Er. unfold gets at 1 in Er. cbv beta iota in Er. rewrite run_bind in Er. unfold on_routes, zoom in Er.
  destruct (classifyListing _ _ (routes_view s)) as [[t|e] y]; [|done]. set (s1 := s <| pb_routes := y |>) in Er.
  rewrite run_bind in Er. destruct (try_recipients true u t (fields_route (grouped_fields f)) s1) as [[recs|e] s2] eqn:Et; [|done].
  apply try_recipients_run in Et as (ids & x & Ha & -> & Erec). set (s2 := s1 <| pb_subs := x |>) in Er. change (recipients_of s1) with (recipients_of s) in Erec.
  change (audience_at s1) with (audience_at s) in Ha.
  rewrite run_bind in Er. unfold gets at 1 in Er. cbv beta iota in Er. rewrite run_bind in Er. unfold saveListing, try_catch in Er.
  match type of Er with context [insert_load ?a s2] => set (l0 := a) in Er end.
  destruct (insert_load_run l0 s2) as [[e E]|[E _]]; rewrite E in Er; [done|]. clear E.
  assert (Hfresh : pb_loads s !! pb_nextLoad s = None).
  { destruct (pb_loads s !! pb_nextLoad s) as [z|] eqn:Ez; [|done]. destruct (lk_ids _ Hs _ _ Ez). lia. }
  assert (Eid : ld_id (newborn s2 l0) = pb_nextLoad s) by done.
  assert (Ht : ld_tripType (newborn s2 l0) = t) by done.
  assert (Hann : ld_announcedAt (newborn s2 l0) = match recs with [] => None | _ => Some (pb_now s) end).
  { change (ld_announcedAt (newborn s2 l0)) with (if negb (is_null (head recs)) then Some (pb_now s2) else None). by destruct recs. }
  rewrite run_bind in Er. unfold announceChange, modify in Er. cbv beta iota in Er.
  set (s3 := (born l0 s2) <| pb_changes := _ |>) in Er.
  assert (Hl3 : pb_loads s3 !! ld_id (newborn s2 l0) = Some (newborn s2 l0)).
  { change (pb_loads s3) with (<[ld_id (newborn s2 l0) := newborn s2 l0]> (pb_loads s2)). apply lookup_insert_eq. }
  assert (Hrows : dv_rows (qu_notices (pb_queue s3)) = dv_rows (qu_notices (pb_queue s))) by done.
  assert (Hno : forall d, ~ has_notice s3 (ld_id (newborn s2 l0)) d).
  { intros d (k & r & Hr & Hl & _). rewrite Hrows in Hr. pose proof (Hb k r _ Hr Hl) as Hlt. rewrite Eid in Hlt. lia. }
  assert (Hk : notices_ok (qu_notices (pb_queue s3))).
  { exact (proj1 (lk_notices _ Hs)). }
  enough (pu_load res = newborn s2 l0 /\ pb_loads s' !! ld_id (newborn s2 l0) = Some (newborn s2 l0) /\
          pu_pending res = match recs with [] => Some NoDrivers | _ => None end /\
          forall d, has_notice s' (ld_id (newborn s2 l0)) d <-> d ∈ recs) as (El & Hl' & Hp & Hd).
  { unfold l. rewrite El, Eid in *. split; [done|]. split; [done|]. do 3 (split; [done|]). exists ids. rewrite Ht. split; [done|]. cbv zeta.
    rewrite <- Erec. by split_and!. }
  destruct recs as [|r recs].
  - cbn [head is_null negb] in Er. rewrite run_bind in Er. unfold get in Er. cbv beta iota zeta in Er. rewrite run_ret in Er.
    injection Er as <- <-. split; [done|]. split; [done|]. split; [done|]. intros d. split; [intros F; by apply Hno in F | by intros ?%not_elem_of_nil].
  - cbn [head is_null negb] in Er. rewrite run_bind in Er.
    destruct (send_load_run (newborn s2 l0) (r :: recs) b s3 Hk Hno) as (n & s4 & E4 & El4 & Hd). rewrite E4, run_ret in Er.
    injection Er as <- <-. split; [done|]. split; [by rewrite El4|]. split; [done | exact Hd].
Qed.

End Runs.

(** ** What it guarantees *)

(** C2: One load per message and publisher, and one notice per driver and load, whatever
    companies publish, announce (by hand and by turns), change in their profile or
    settings, and whatever the deliveries do in between. *)
Theorem published_once `{Messengers} `{JsDate} `{Unicode} `{WordChars} `{Oracle} (s : publish_state) (ops : list publish_op) :
  loads_ok s ->
  let s' := run_publish ops s in
  (forall k k' l l', pb_loads s' !! k = Some l -> pb_loads s' !! k' = Some l' ->
     ld_sourceMessageId l = ld_sourceMessageId l' -> ld_publisher l = ld_publisher l' -> k = k') /\
  (forall k k' r r' load, dv_rows (qu_notices (pb_queue s')) !! k = Some r -> dv_rows (qu_notices (pb_queue s')) !! k' = Some r' ->
     cn_listingId r = Some load -> cn_listingId r' = Some load -> cn_userId r = cn_userId r' -> k = k').
Proof.
  intros Hs s'. pose proof (run_publish_ok ops s Hs) as [_ Hone [_ Hn]]. split; [exact Hone|].
  intros k k' r r' load Hr Hr' El El' Eu. apply (Hn k k' r r' Hr Hr'). unfold same_notice. by rewrite El, El', Eu, !N.eqb_refl.
Qed.

(** C3: A company's suggestion published for the first time: a new load of the company, open,
    and its notices are exactly those of the drivers the audience gives for the load's
    kind, the company itself left out, that have no filter on or whose filter the load
    fits; it waits unannounced exactly when there is no such driver. *)
Theorem announced_to_audience `{Messengers} `{JsDate} `{Unicode} `{WordChars} `{Oracle} (s s' : publish_state) (u nid : uuid)
    (f : CargoListingFields) (batched : bool) (row : CargoNotification) (res : Published) :
  loads_ok s -> notices_born s ->
  dv_rows (qu_notices (pb_queue s)) !! nid = Some row ->
  findBySourceAndPublisher s (cn_sourceMessageId row) u = None ->
  publish u nid f batched s = (Ok res, s') ->
  let l := pu_load res in
  pb_loads s !! ld_id l = None /\ pb_loads s' !! ld_id l = Some l /\
  ld_publisher l = u /\ ld_status l = ListingOpen /\ ld_sourceMessageId l = cn_sourceMessageId row /\
  exists ids, audience_at s u (ld_tripType l) ids /\
    (forall d, has_notice s' (ld_id l) d <->
       d ∈ ids /\ d <> u /\ matchesAny (activeFor (pb_filters s) d) (fields_route (grouped_fields f)) = true) /\
    (is_Some (ld_announcedAt l) <-> exists d, has_notice s' (ld_id l) d) /\
    (pu_pending res = Some NoDrivers <-> forall d, ~ has_notice s' (ld_id l) d).
Proof.
  intros Hs Hb Hrow Hnone Er l. unfold publish in Er. rewrite run_bind in Er. unfold getSuggestion in Er. rewrite run_bind in Er.
  unfold get at 1 in Er. cbv beta iota in Er. rewrite run_bind, Hrow in Er. cbn [mbind option_bind] in Er.
  destruct (_ && _); [|done]. unfold some_or in Er. rewrite run_ret in Er. cbv beta iota in Er. rewrite run_ret in Er. cbv beta iota in Er.
  rewrite run_bind in Er. unfold get in Er. cbv beta iota zeta in Er. cbn [fst] in Er. rewrite Hnone in Er. rewrite run_bind in Er.
  match type of Er with context [match ?c s with _ => _ end] =>
    assert (Hc : exists code n, c s = (Ok code, s <| pb_nextCode := n |>)) end.
  { match goal with |- context [match ?o with Some _ => _ | None => _ end] => destruct o as [c|] end; [|by do 2 eexists].
    exists c, (pb_nextCode s). by destruct s. }
  destruct Hc as (code & n & Ec). rewrite Ec in Er. set (s1 := s <| pb_nextCode := n |>) in Er.
  match type of Er with publishListing _ ?g _ _ _ _ _ _ = _ =>
    pose proof (publishListing_run u g code (cn_sourceMessageId row) (Some (cn_id row)) batched s1 res s') as Hr;
    change (fields_route (grouped_fields g)) with (fields_route (grouped_fields f)) in Hr end.
  assert (Hs1 : loads_ok s1) by (destruct Hs as [K1 K2 K3]; by split).
  destruct (Hr Hs1 Hb Er) as (L1 & L2 & L3 & L4 & L5 & ids & Ha & Hann & Hp & Hd).
  split; [exact L1|]. split; [exact L2|]. do 3 (split; [assumption|]). exists ids. split; [exact Ha|].
  change (recipients_of s1) with (recipients_of s) in *. fold l in Hann, Hd, L1, L2.
  split; [intros d; rewrite (Hd d); apply elem_of_recipients|].
  destruct (recipients_of s u ids _) as [|r recs] eqn:Erec.
  - rewrite Hann, Hp. split; split; [by intros [? ?] | intros (d & Hd2%Hd); by apply not_elem_of_nil in Hd2 | intros _ d Hd2%Hd; by apply not_elem_of_nil in Hd2 | done].
  - rewrite Hann, Hp. split; split; [intros _; exists r; apply Hd; set_solver | by eexists | done | intros F; exfalso; apply (F r), Hd; set_solver].
Qed.

(** ** A turn *)

(** What publishing and announcing keep: [I], that every write they make keeps; [P] says
    which phone notifications it lets through ([false]: those sent at once) *)
Section Keeping.
  Context (I : publish_state -> Prop) (P : bool -> Prop).
  Context `{Messengers} `{JsDate} `{Unicode} `{WordChars} `{Oracle}.
  Context (I_send : forall m l us, preserves I (on_queue (sendToDrivers m l us)))
    (I_subs : forall s x, I s -> I (s <| pb_subs := x |>)) (I_routes : forall s x, I s -> I (s <| pb_routes := x |>))
    (I_put : forall s l, I s -> I (put_load l s)) (I_next : forall s x, I s -> I (s <| pb_nextLoad := x |>))
    (I_code : forall s x, I s -> I (s <| pb_nextCode := x |>)) (I_changes : forall s x, I s -> I (s <| pb_changes := x |>))
    (I_push : forall b l us s, P b -> I s -> I (push_notice b l us s)).

Lemma subs_keeps {A} (m : SM A) : preserves I (on_subs m).
Proof. apply (preserves_zoom _ (fun _ => True)); [done|done|]. intros s q Hs _. by apply I_subs. Qed.

Lemma routes_keeps {A} (m : RM A) : preserves I (on_routes m).
Proof. apply (preserves_zoom _ (fun _ => True)); [done|done|]. intros s q Hs _. by apply I_routes. Qed.

Lemma announcementRecipients_keeps u t c : preserves I (announcementRecipients u t c).
Proof. unfold announcementRecipients. apply preserves_bind; [apply subs_keeps|]. intros r. preserve. Qed.
#[local] Hint Resolve announcementRecipients_keeps : preserves.

Lemma try_recipients_keeps a u t c : preserves I (try_recipients a u t c).
Proof. unfold try_recipients. preserve. Qed.

Lemma save_load_keeps l : preserves I (save_load l).
Proof. intros s Hs. unfold final. destruct (save_load_run l s) as [[e ->]|[-> _]]; [done|]. by apply I_put. Qed.

Lemma saveListing_keeps l : preserves I (saveListing l).
Proof.
  unfold saveListing. apply preserves_try_catch; [|intros e; apply preserves_throw]. intros s Hs. unfold final.
  destruct (insert_load_run l s) as [[e ->]|[-> _]]; [done|]. by apply I_next, I_put.
Qed.

Lemma send_load_keeps l us b : P b -> preserves I (send_load l us b).
Proof.
  intros Hb. unfold send_load. apply preserves_bind; [apply I_send|]. intros n. apply preserves_get_bind. intros s _.
  apply preserves_bind; [|intros; apply preserves_ret]. apply preserves_modify. intros x. by apply I_push.
Qed.

Lemma announceChange_keeps l : preserves I (announceChange l).
Proof. apply preserves_modify. intros s. apply I_changes. Qed.

Lemma announce_load_keeps l us b : P b -> preserves I (announce_load l us b).
Proof.
  intros Hb. unfold announce_load. apply preserves_gets_bind. intros s _. apply preserves_bind; [apply save_load_keeps|]. intros x.
  apply preserves_bind; [apply announceChange_keeps|]. intros _. apply preserves_bind; [by apply send_load_keeps | intros; apply preserves_ret].
Qed.

Lemma announceNow_keeps u id : P false -> preserves I (announceNow u id).
Proof. intros Hb. unfold announceNow. preserve. by apply announce_load_keeps. Qed.

Lemma publishListing_keeps u f code src nid a b : P b -> preserves I (publishListing u f code src nid a b).
Proof.
  intros Hb. unfold publishListing. cbv zeta. apply preserves_gets_bind. intros s _. apply preserves_bind; [apply routes_keeps|]. intros t.
  apply preserves_bind; [apply try_recipients_keeps|]. intros ds. apply preserves_gets_bind. intros s2 _.
  apply preserves_bind; [apply saveListing_keeps|]. intros l. apply preserves_bind; [apply announceChange_keeps|]. intros _.
  apply preserves_if; intros _; [preserve|]. apply preserves_bind; [by apply send_load_keeps | intros; apply preserves_ret].
Qed.

Lemma publish_keeps u nid f b s : P b -> I s ->
  (P false \/ forall row, dv_rows (qu_notices (pb_queue s)) !! nid = Some row -> findBySourceAndPublisher s (cn_sourceMessageId row) u = None) ->
  I (final (publish u nid f b) s).
Proof.
  intros Hb Hs Hnew. unfold publish. apply reads_bind; [apply getSuggestion_reads | exact Hs|]. intros sg Hsg. rewrite final_get_bind. cbv zeta.
  assert (Hrow : dv_rows (qu_notices (pb_queue s)) !! nid = Some sg.1).
  { revert Hsg. unfold result, getSuggestion. rewrite run_bind. unfold get. cbv beta iota. rewrite run_bind.
    destruct (dv_rows _ !! nid) as [r|]; [|done]. cbn [mbind option_bind]. destruct (_ && _); [|done]. unfold some_or. rewrite run_ret.
    cbv beta iota. rewrite run_ret. by intros [= <-]. }
  destruct (findBySourceAndPublisher s _ u) as [l|] eqn:Ef.
  - destruct Hnew as [Hnew|Hnew]; [|by rewrite (Hnew _ Hrow) in Ef].
    destruct (_ && _); [by apply announceNow_keeps | done].
  - match goal with |- I (final (?c ≫= ?k) s) => assert (Hc : preserves I (c ≫= k)) end; [|by apply Hc].
    apply preserves_bind; [|intros code; by apply publishListing_keeps].
    destruct (py_code sg.2); [apply preserves_ret|]. unfold nextManualCode. apply preserves_get_bind. intros x _.
    apply preserves_bind; [apply preserves_modify; intros y; apply I_code | intros; apply preserves_ret].
Qed.

Lemma auto_suggestion_keeps u sg : P true ->
  (P false \/ forall s row, I s -> dv_rows (qu_notices (pb_queue s)) !! cn_id sg = Some row -> cn_sourceMessageId row = cn_sourceMessageId sg) ->
  preserves I (auto_suggestion u sg).
Proof.
  intros Hb Hnew s Hs. unfold auto_suggestion. rewrite final_get_bind. destruct (findBySourceAndPublisher _ _ _) eqn:Ef; [done|].
  apply reads_bind; [apply buildDraft_reads | exact Hs|]. intros d Hd. destruct (_ || _ || _); [done|].
  assert (Hp : I (final (publish u (cn_id sg) d true) s)).
  { apply publish_keeps; [done|done|]. destruct Hnew as [Hnew|Hnew]; [by left|right]. intros row Hrow. by rewrite (Hnew s row Hs Hrow). }
  unfold final, try_catch in *. rewrite run_bind. destruct (publish u (cn_id sg) d true s) as [[r|e] s1]; cbn [snd] in Hp; [done|].
  destruct e; try done; by destruct (bool_decide _).
Qed.

Lemma auto_pending_keeps u l : P true -> preserves I (auto_pending u l).
Proof.
  intros Hb. unfold auto_pending. apply preserves_bind; [apply try_recipients_keeps|]. intros [|d ds]; [apply preserves_ret|].
  apply preserves_bind; [by apply announce_load_keeps | intros; apply preserves_ret].
Qed.

End Keeping.

(** The phone notifications sent, and the notices, each of the message it was of *)
Definition turn_world (p : list (gmap uuid (list uuid))) (rows : gmap uuid CargoNotification) (s : publish_state) : Prop :=
  pb_pushes s = p /\ notices_ok (qu_notices (pb_queue s)) /\
  forall k r, rows !! k = Some r -> exists r', dv_rows (qu_notices (pb_queue s)) !! k = Some r' /\ cn_sourceMessageId r' = cn_sourceMessageId r.

Lemma turn_world_send `{Messengers} p rows m l us : preserves (turn_world p rows) (on_queue (sendToDrivers m l us)).
Proof.
  intros s (Hp & Hk & Hr). unfold final, on_queue, zoom.
  destruct (sendToDrivers_run m l us (pb_queue s) Hk) as (n & q1 & d1 & g & E & Hi & Hg & Er).
  pose proof (sendToDrivers_ok m l us _ Hk) as Hok. unfold final in Hok. rewrite E in *. cbn [snd] in *. split; [exact Hp|]. split; [exact Hok|].
  change (forall k r, rows !! k = Some r -> exists r', dv_rows (qu_notices q1) !! k = Some r' /\ cn_sourceMessageId r' = cn_sourceMessageId r).
  intros k r Hk1. destruct (Hr k r Hk1) as (r1 & H1 & E1). exists (g r1). rewrite Er, lookup_fmap, (in_old _ _ _ Hi k r1 H1). split; [done|].
  pose proof (Hg r1) as Hgi. unfold identity in Hgi. injection Hgi as _ _ -> _. done.
Qed.

Lemma findSuggestionsSince_in s u since sg : sg ∈ findSuggestionsSince s u since -> exists k, dv_rows (qu_notices (pb_queue s)) !! k = Some sg.
Proof.
  unfold findSuggestionsSince, by_creation. rewrite merge_sort_Permutation. intros Hsg. by apply elem_of_find_rows in Hsg as [_ ?].
Qed.

(** A turn sends its phone notifications once, at its end, one to each driver for all its
    loads; a turn that an error ends sends none, not even to the drivers it has already
    sent loads. *)
Theorem turn_pushes_once `{Messengers} `{JsDate} `{Unicode} `{WordChars} `{Oracle} (s : publish_state) (u : uuid) (since : time) :
  notices_ok (qu_notices (pb_queue s)) ->
  let '(r, s') := autoAnnounce u since s in
  pb_pushes s' = pb_pushes s ++ match r with Ok _ => [pb_batch s'] | Err _ => [] end.
Proof.
  intros Hk. set (rows := dv_rows (qu_notices (pb_queue s))). set (I := turn_world (pb_pushes s) rows).
  unfold autoAnnounce. rewrite run_bind. unfold modify at 1. cbv beta iota. set (s1 := s <| pb_batch := ∅ |>).
  assert (Hs1 : I s1) by (split; [done|]; split; [done|]; intros k r Hr; by exists r).
  rewrite run_bind. unfold get at 1. cbv beta iota. rewrite run_bind.
  assert (Hsg : preserves I (count_each (findSuggestionsSince s1 u since) (auto_suggestion u))).
  { apply count_each_ok. intros sg Hsg. apply (auto_suggestion_keeps I (eq true)); [apply turn_world_send|done..| |done|].
    - intros b l us x <- Hx. exact Hx.
    - right. intros x row Hx Hrow. destruct (findSuggestionsSince_in _ _ _ _ Hsg) as (k & Hk1).
      destruct (notices_keyed _ _ _ Hk Hk1) as [Ek _]. destruct Hx as (_ & _ & Hr). destruct (Hr _ _ Hk1) as (r' & Hr' & E'). rewrite Ek in Hrow. congruence. }
  specialize (Hsg s1 Hs1). unfold final in Hsg. destruct (count_each _ _ s1) as [[n|e] s2]; cbn [snd] in Hsg; [|by rewrite app_nil_r; apply Hsg].
  rewrite run_bind. unfold get. cbv beta iota. rewrite run_bind.
  assert (Hpd : preserves I (count_each (findPendingAnnounce s2 u) (auto_pending u))).
  { apply count_each_ok. intros l _. apply (auto_pending_keeps I (eq true)); [apply turn_world_send|done..| |done]. intros b i us x <- Hx. exact Hx. }
  specialize (Hpd s2 Hsg). unfold final in Hpd. destruct (count_each _ _ s2) as [[n2|e] s3]; cbn [snd] in Hpd; [|by rewrite app_nil_r; apply Hpd].
  unfold sendPushBatch, modify. rewrite run_bind, run_ret. change (pb_pushes s3 ++ [pb_batch s3] = pb_pushes s ++ [pb_batch s3]).
  destruct Hpd as (-> & _). done.
Qed.

(** ** Taking turns *)

Definition intervals_ok (x : settings) : Prop := forall k c, x !! k = Some c -> 0 < as_intervalMinutes c.

Lemma autoAnnounce_settings `{Messengers} `{JsDate} `{Unicode} `{WordChars} `{Oracle} u since x :
  preserves (fun s => pb_settings s = x) (autoAnnounce u since).
Proof.
  set (I := fun s => pb_settings s = x).
  assert (Hsend : forall m l us, preserves I (on_queue (sendToDrivers m l us))).
  { intros m l us s Hs. unfold final, on_queue, zoom. by destruct (sendToDrivers m l us (pb_queue s)). }
  assert (Hpush : forall b l us s, True -> I s -> I (push_notice b l us s)) by (intros [] l us s _ Hs; exact Hs).
  unfold autoAnnounce. apply preserves_bind; [by apply preserves_modify|]. intros _. apply preserves_get_bind. intros s1 _.
  apply preserves_bind.
  - apply count_each_ok. intros sg _. apply (auto_suggestion_keeps I (fun _ => True)); [exact Hsend|done..|exact Hpush|done|by left].
  - intros n. apply preserves_get_bind. intros s2 _. apply preserves_bind; [|intros n2; unfold sendPushBatch; preserve; by apply preserves_modify].
    apply count_each_ok. intros l _. apply (auto_pending_keeps I (fun _ => True)); [exact Hsend|done..|exact Hpush|done].
Qed.

(** One company's turn writes its own setting, and nothing else of the settings. *)
Lemma announce_turn_run `{Messengers} `{JsDate} `{Unicode} `{WordChars} `{Oracle} now p s :
  exists s1, announce_turn now p s = (Ok tt, s1) /\ pb_settings s1 = markRun p.1 now (pb_settings s).
Proof.
  unfold announce_turn, try_catch. rewrite run_bind. unfold modify. cbv beta iota. rewrite run_bind.
  set (s0 := s <| pb_settings := _ |>). pose proof (autoAnnounce_settings p.1 (default now (or_else (as_autoSince p.2) (as_lastRunAt p.2))) _ s0 eq_refl) as Hk.
  unfold final in Hk. destruct (autoAnnounce _ _ s0) as [[r|e] s1]; eexists; (split; [reflexivity | exact Hk]).
Qed.

Lemma announce_turns_run `{Messengers} `{JsDate} `{Unicode} `{WordChars} `{Oracle} now ps : forall s,
  exists s1, for_each ps (announce_turn now) s = (Ok tt, s1) /\
    pb_settings s1 = foldl (fun x p => markRun p.1 now x) (pb_settings s) ps.
Proof.
  induction ps as [|p ps IH]; intros s; cbn [for_each foldl]; [by exists s|].
  rewrite run_bind. destruct (announce_turn_run now p s) as (s1 & -> & E1). destruct (IH s1) as (s2 & -> & E2). exists s2. by rewrite <- E1.
Qed.

Lemma marked now (ps : list (uuid * CompanyAnnounceSetting)) : forall x k, foldl (fun x p => markRun p.1 now x) x ps !! k =
  if bool_decide (k ∈ map fst ps) then (fun c => c <| as_lastRunAt := Some now |>) <$> x !! k else x !! k.
Proof.
  induction ps as [|[i c] ps IH]; intros x k; cbn [foldl map fst]; [done|]. rewrite IH. unfold markRun.
  destruct (decide (k = i)) as [->|Hn].
  - rewrite lookup_alter_eq. rewrite (bool_decide_eq_true_2 (i ∈ i :: _)) by set_solver.
    destruct (bool_decide _); [|done]. by destruct (x !! i) as [[]|].
  - rewrite lookup_alter_ne by done. rewrite (bool_decide_ext (k ∈ i :: map fst ps) (k ∈ map fst ps)) by set_solver. done.
Qed.

(** A sweep gives every company whose time has come its turn, and counts the turn even
    when an error ends it: no company's turn comes again at that instant, and a company
    it was not the turn of keeps its time. *)
Theorem tick_once `{Messengers} `{JsDate} `{Unicode} `{WordChars} `{Oracle} (s : publish_state) :
  intervals_ok (pb_settings s) ->
  exists s', announce_tick s = (Ok tt, s') /\ due (pb_settings s') (pb_now s) = [] /\
    forall k c, pb_settings s !! k = Some c ->
      pb_settings s' !! k = Some (if turn_due (pb_now s) c then c <| as_lastRunAt := Some (pb_now s) |> else c).
Proof.
  intros Hi. unfold announce_tick. rewrite run_bind. unfold get. cbv beta iota.
  destruct (announce_turns_run (pb_now s) (due (pb_settings s) (pb_now s)) s) as (s1 & E & Es). exists s1. split; [exact E|].
  assert (Hk : forall k c, pb_settings s !! k = Some c ->
      pb_settings s1 !! k = Some (if turn_due (pb_now s) c then c <| as_lastRunAt := Some (pb_now s) |> else c)).
  { intros k c Hc. rewrite Es, marked, Hc. case_bool_decide as Hin.
    - apply list_elem_of_In, in_map_iff in Hin as ([k' c'] & Ek & Hin). cbn in Ek. subst k'. unfold due in Hin. apply filter_In in Hin as [Hin Hd].
      apply list_elem_of_In, elem_of_map_to_list in Hin. cbn in Hd. assert (c' = c) as -> by congruence. by rewrite Hd.
    - destruct (turn_due (pb_now s) c) eqn:Hd; [|done]. exfalso. apply Hin. apply list_elem_of_In, in_map_iff. exists (k, c). split; [done|].
      unfold due. apply filter_In. split; [|done]. by apply list_elem_of_In, elem_of_map_to_list. }
  split; [|exact Hk]. unfold due. destruct (List.filter _ _) as [|[k c1] l] eqn:Ef; [done|]. exfalso.
  assert (Hin : (k, c1) ∈ List.filter (fun p => turn_due (pb_now s) p.2) (map_to_list (pb_settings s1))) by (rewrite Ef; set_solver).
  apply list_elem_of_In, filter_In in Hin as [Hin Hd]. apply list_elem_of_In, elem_of_map_to_list in Hin. cbn in Hd.
  destruct (pb_settings s !! k) as [c|] eqn:Hc.
  - rewrite (Hk k c Hc) in Hin. injection Hin as <-. destruct (turn_due (pb_now s) c) eqn:Hd0; [|congruence].
    pose proof (Hi k c Hc). revert Hd. unfold turn_due. destruct c as [md iv sc lr]. cbn in *. destruct md; [done|]. unfold minutes. rewrite andb_true_iff, !Z.leb_le. lia.
  - rewrite Es, marked, Hc in Hin. by destruct (bool_decide _).
Qed.

(** ** Errors *)

(** The loads, the notices and what everyone was told, as they were *)
Definition same_world (s s' : publish_state) : Prop :=
  pb_loads s' = pb_loads s /\ pb_queue s' = pb_queue s /\ pb_pushes s' = pb_pushes s /\ pb_batch s' = pb_batch s /\ pb_changes s' = pb_changes s.

Definition errs_clean {A} (s : publish_state) (r : outcome A * publish_state) : Prop :=
  match r with (Ok _, _) => True | (Err _, s') => same_world s s' end.

Lemma errs_clean_from {A} s s0 (r : outcome A * publish_state) : same_world s s0 -> errs_clean s0 r -> errs_clean s r.
Proof. destruct r as [[a|e] s1]; [done|]. unfold errs_clean, same_world. naive_solver congruence. Qed.

Section Errors.
  Context `{Messengers} `{JsDate} `{Unicode} `{WordChars} `{Oracle}.

Lemma send_load_Ok l us b s : notices_ok (qu_notices (pb_queue s)) -> exists n s1, send_load l us b s = (Ok n, s1).
Proof.
  intros Hk. unfold send_load. rewrite run_bind. unfold on_queue, zoom.
  destruct (sendToDrivers_run (ld_sourceMessageId l) (ld_id l) us (pb_queue s) Hk) as (n & q1 & d1 & g & -> & _). by do 2 eexists.
Qed.

Lemma announce_load_clean l us b s : notices_ok (qu_notices (pb_queue s)) -> errs_clean s (announce_load l us b s).
Proof.
  intros Hk. unfold announce_load. rewrite run_bind. unfold gets. cbv beta iota. rewrite run_bind.
  destruct (save_load_run (l <| ld_announcedAt := Some (pb_now s) |>) s) as [[e ->]|[-> _]]; [done|]. rewrite run_bind.
  unfold announceChange, modify. cbv beta iota. rewrite run_bind.
  match goal with |- context [send_load ?l ?us ?b ?x] => destruct (send_load_Ok l us b x) as (n & s1 & ->) end; [exact Hk | done].
Qed.

Lemma announcementRecipients_same u t c s : same_world s (final (announcementRecipients u t c) s).
Proof.
  destruct (announcementRecipients_run u t c s) as (p & x & _ & E). cbv zeta in E. unfold final. rewrite E.
  destruct (findDriverIds _ _ _ _ _); [destruct (filterInterestedUsers _ _ _)|]; done.
Qed.

Lemma announceNow_clean u id s : notices_ok (qu_notices (pb_queue s)) -> errs_clean s (announceNow u id s).
Proof.
  intros Hk. unfold announceNow. rewrite run_bind. unfold get. cbv beta iota. rewrite run_bind.
  destruct (findOneForPublisher s id u) as [l|]; [|done]. unfold some_or. rewrite run_ret, run_bind. unfold ensure. destruct (eqb _ _); [|done].
  rewrite run_ret, run_bind. pose proof (announcementRecipients_same u (ld_tripType l) (load_route l) s) as Hs. unfold final in Hs.
  destruct (announcementRecipients _ _ _ s) as [[recs|e] s1]; cbn [snd] in Hs; [|exact Hs]. rewrite run_bind.
  assert (Hk1 : notices_ok (qu_notices (pb_queue s1))) by (by rewrite (proj1 (proj2 Hs))).
  pose proof (announce_load_clean l recs false s1 Hk1) as Hc. destruct (announce_load l recs false s1) as [[sent|e] s2]; [done|].
  unfold errs_clean, same_world in *. naive_solver congruence.
Qed.

Lemma publishListing_clean u f code src nid a b s : notices_ok (qu_notices (pb_queue s)) -> errs_clean s (publishListing u f code src nid a b s).
Proof.
  intros Hk. unfold publishListing. cbv zeta. rewrite run_bind. unfold gets at 1. cbv beta iota. rewrite run_bind. unfold on_routes, zoom.
  destruct (classifyListing _ _ _) as [[t|e] y]; [|done]. set (s1 := s <| pb_routes := y |>). rewrite run_bind.
  match goal with |- context [try_recipients a u t ?c s1] =>
    assert (Hs : same_world s1 (final (try_recipients a u t c) s1)) end.
  { unfold try_recipients. destruct a; [|done]. pose proof (announcementRecipients_same u t (fields_route (grouped_fields f)) s1) as Hs. revert Hs.
    unfold final, try_catch, grouped_fields. destruct (announcementRecipients _ _ _ s1) as [[recs|e] s2]; [done|]. by destruct (bool_decide _). }
  unfold final in Hs. destruct (try_recipients a u t _ s1) as [[recs|e] s2]; cbn [snd] in Hs; [|exact Hs].
  rewrite run_bind. unfold gets at 1. cbv beta iota. rewrite run_bind. unfold saveListing, try_catch.
  match goal with |- context [insert_load ?l s2] => destruct (insert_load_run l s2) as [[e ->]|[-> _]] end; [exact Hs|].
  rewrite run_bind. unfold announceChange, modify. cbv beta iota. destruct (negb (negb _)); [done|]. rewrite run_bind.
  match goal with |- context [send_load ?l ?us ?b ?x] => destruct (send_load_Ok l us b x) as (n & s3 & ->) end; [|done].
  change (notices_ok (qu_notices (pb_queue s2))). destruct Hs as (_ & -> & _). exact Hk.
Qed.

Lemma nextManualCode_run s : exists code n, nextManualCode s = (Ok code, s <| pb_nextCode := n |>).
Proof. by do 2 eexists. Qed.

Lemma publish_clean u nid f b s : notices_ok (qu_notices (pb_queue s)) -> errs_clean s (publish u nid f b s).
Proof.
  intros Hk. unfold publish. rewrite run_bind. destruct (getSuggestion u nid s) as [r s0] eqn:E.
  rewrite (reads_run _ _ _ _ (getSuggestion_reads u nid) E). destruct r as [sg|e]; [|done].
  rewrite run_bind. unfold get. cbv beta iota zeta. destruct (findBySourceAndPublisher _ _ _) as [l|].
  { destruct (_ && _); [by apply announceNow_clean | done]. }
  rewrite run_bind. destruct (py_code sg.2) as [c|]; [rewrite run_ret; by apply publishListing_clean|].
  destruct (nextManualCode_run s) as (code & n & ->).
  apply (errs_clean_from s (s <| pb_nextCode := n |>)); [done | by apply publishListing_clean].
Qed.

Lemma createManual_clean u f s : notices_ok (qu_notices (pb_queue s)) -> errs_clean s (createManual u f s).
Proof.
  intros Hk. unfold createManual. rewrite run_bind. destruct (nextManualCode_run s) as (code & n & ->). rewrite run_bind. unfold get. cbv beta iota.
  rewrite run_bind. unfold modify. cbv beta iota. 
  eapply errs_clean_from; [|by apply publishListing_clean]. done.
Qed.

End Errors.

(** C26: A publication or an announcement that is refused has done nothing: when its guards, the
    route that cannot be told, the search for its drivers, a conflict or the save of its load
    answers with an error, no load is made or marked, no notice is written and nobody is told.
    The steps after the save (the notices written and queued) do not fail here; in the program
    a database that fails them leaves the load saved and its drivers untold. *)
Theorem refused_publish_changes_nothing `{Messengers} `{JsDate} `{Unicode} `{WordChars} `{Oracle} (s : publish_state) (u nid : uuid)
    (f : CargoListingFields) (batched : bool) (e : exn) (s' : publish_state) :
  notices_ok (qu_notices (pb_queue s)) ->
  publish u nid f batched s = (Err e, s') \/ createManual u f s = (Err e, s') \/ announceNow u nid s = (Err e, s') ->
  same_world s s'.
Proof.
  intros Hk [Hr|[Hr|Hr]].
  - pose proof (publish_clean u nid f batched s Hk) as Hc. by rewrite Hr in Hc.
  - pose proof (createManual_clean u f s Hk) as Hc. by rewrite Hr in Hc.
  - pose proof (announceNow_clean u nid s Hk) as Hc. by rewrite Hr in Hc.
Qed.

(** A suggestion that cannot be published stops its company: while the first suggestion of
    a turn is refused (by the database, or because the kind of the load cannot be told),
    the turn ends there with no load announced - neither the other suggestions nor those
    waiting - and the next turn starts with the same suggestion. *)
Theorem refused_suggestion_stops_turns `{Messengers} `{JsDate} `{Unicode} `{WordChars} `{Oracle} (s s1 : publish_state) (u : uuid)
    (since : time) (sg : CargoNotification) (rest : list CargoNotification) (draft : CargoListingFields) (e : exn) :
  let s0 := s <| pb_batch := ∅ |> in
  notices_ok (qu_notices (pb_queue s)) ->
  findSuggestionsSince s u since = sg :: rest ->
  findBySourceAndPublisher s (cn_sourceMessageId sg) u = None ->
  result (buildDraft u (cn_id sg)) s0 = Ok draft ->
  is_blank (fl_origin draft) || is_blank (fl_destination draft) || is_null (head (fl_contactPhones draft)) = false ->
  publish u (cn_id sg) draft true s0 = (Err e, s1) -> e <> NO_RECIPIENTS -> ~ (exists t, e = Conflict t) ->
  let '(r, s') := autoAnnounce u since s in
  r = Err e /\ same_world s0 s' /\
  findSuggestionsSince s' u since = sg :: rest /\ findBySourceAndPublisher s' (cn_sourceMessageId sg) u = None /\
  findPendingAnnounce s' u = findPendingAnnounce s u.
Proof.
  intros s0 Hk Hsg Hnone Hd Hfull Hp Hn Hc.
  assert (Hs : same_world s0 s1) by (pose proof (publish_clean u (cn_id sg) draft true s0 Hk) as Hs; by rewrite Hp in Hs).
  assert (E : autoAnnounce u since s = (Err e, s1)).
  { unfold autoAnnounce. rewrite run_bind. unfold modify at 1. cbv beta iota. fold s0. rewrite run_bind. unfold get at 1. cbv beta iota.
    change (findSuggestionsSince s0 u since) with (findSuggestionsSince s u since). rewrite Hsg, run_bind. cbn [count_each]. rewrite run_bind.
    unfold auto_suggestion at 1. rewrite run_bind. unfold get at 1. cbv beta iota.
    change (findBySourceAndPublisher s0) with (findBySourceAndPublisher s). rewrite Hnone, run_bind.
    unfold result in Hd. destruct (buildDraft u (cn_id sg) s0) as [r x] eqn:Eb. cbn [fst] in Hd. subst r.
    rewrite (reads_run _ _ _ _ (buildDraft_reads u (cn_id sg)) Eb), Hfull. unfold try_catch. rewrite run_bind, Hp.
    rewrite bool_decide_eq_false_2 by done. destruct e; try done. exfalso; apply Hc; by eexists. }
  rewrite E. split; [done|]. split; [exact Hs|]. destruct Hs as (El & Eq & _).
  split; [|split].
  - rewrite <- Hsg. unfold findSuggestionsSince. by rewrite Eq.
  - rewrite <- Hnone. unfold findBySourceAndPublisher. by rewrite El.
  - unfold findPendingAnnounce. by rewrite El.
Qed.

(** ** At work *)

#[local] Existing Instance rollout_only.
#[local] Existing Instance TripTypes.plain_unicode.
#[local] Existing Instance plain_words.
#[local] Existing Instance takes_all.

Definition tehran_rasht : CargoListingFields :=
  mkFields (Some (js "100001")) (Some (js "Tarabar")) (js "تهران") (js "رشت") None (Some (js "20000")) None None None [js "09120000001"] None None.

Definition pelun_rasht : CargoListingFields := tehran_rasht <| fl_origin := js "پلون" |>.

Definition two_turns : publish_state :=
  @run_publish _ _ _ _ knowing [PbTick; PbDelivery (DvSuggest (js "g2") [10%N]); PbTick] one_suggestion.

Lemma published_once_witness :
  ~ exists k k' l l', k <> k' /\ pb_loads two_turns !! k = Some l /\ pb_loads two_turns !! k' = Some l' /\
      ld_sourceMessageId l = ld_sourceMessageId l' /\ ld_publisher l = ld_publisher l'.
Proof.
  intros (k & k' & l & l' & Hk & Hl & Hl' & Hm & Hp). apply Hk.
  exact (proj1 (@published_once _ _ _ _ knowing one_suggestion [PbTick; PbDelivery (DvSuggest (js "g2") [10%N]); PbTick] one_suggestion_ok) k k' l l' Hl Hl' Hm Hp).
Defined.

Lemma announced_to_audience_witness :
  exists res s', @publish _ _ _ _ knowing 10 7 tehran_rasht false one_suggestion = (Ok res, s') /\ has_notice s' 100 5 /\ ~ has_notice s' 100 10.
Proof.
  destruct (@publish _ _ _ _ knowing 10 7 tehran_rasht false one_suggestion) as [[res|e] s'] eqn:E; [|exfalso; vm_compute in E; discriminate].
  exists res, s'. split; [reflexivity|].
  destruct (@announced_to_audience _ _ _ _ knowing one_suggestion s' 10 7 tehran_rasht false (suggested 7 "g1" 900) res
    one_suggestion_ok one_suggestion_born) as (_ & _ & _ & _ & _ & ids & Ha & Hn & _); [vm_compute; reflexivity | vm_compute; reflexivity | exact E|].
  assert (Er : match fst (@publish _ _ _ _ knowing 10 7 tehran_rasht false one_suggestion) with Ok x => (ld_id (pu_load x), ld_tripType (pu_load x)) | _ => (0%N, TripExport) end = (100%N, TripDomestic)) by (vm_compute; reflexivity).
  rewrite E in Er. injection Er as El Et. rewrite El in Hn. rewrite Et in Ha.
  assert (Ei : ids = [5%N]). { destruct Ha as (p & Hp & Hi). vm_compute in Hp. injection Hp as <-. vm_compute in Hi. by injection Hi as <-. }
  subst ids. clear E. split; [|intros F; apply Hn in F as (_ & F & _); apply F; reflexivity].
  apply Hn. split; [left|]. split; [discriminate | vm_compute; reflexivity].
Defined.

Lemma turn_pushes_once_witness :
  exists s' r, @autoAnnounce _ _ _ _ knowing 10 500 one_suggestion = (Ok r, s') /\ pb_pushes s' = [pb_batch s'].
Proof.
  pose proof (@turn_pushes_once _ _ _ _ knowing one_suggestion 10 500 one_suggestion_notices) as Hp.
  destruct (@autoAnnounce _ _ _ _ knowing 10 500 one_suggestion) as [[r|e] s'] eqn:E; [|exfalso; vm_compute in E; discriminate].
  exists s', r. split; [reflexivity | exact Hp].
Defined.

Lemma tick_once_witness :
  exists s', @announce_tick _ _ _ _ all_down two_suggestions = (Ok tt, s') /\ due (pb_settings s') 1000 = [] /\ ~ due (pb_settings two_suggestions) 1000 = [].
Proof.
  destruct (@tick_once _ _ _ _ all_down two_suggestions) as (s' & E & Hd & _).
  - intros k c Hc. change (({[ 10%N := mkAnnounce Auto 15 (Some 500) (Some (1000 - minutes 15)) ]} : settings) !! k = Some c) in Hc.
    apply lookup_singleton_Some in Hc as [_ <-]. cbn. lia.
  - exists s'. split; [exact E|]. split; [exact Hd | vm_compute; discriminate].
Defined.

Lemma refused_publish_changes_nothing_witness :
  exists e s', @publish _ _ _ _ all_down 10 6 pelun_rasht true two_suggestions = (Err e, s') /\ same_world two_suggestions s'.
Proof.
  destruct (@publish _ _ _ _ all_down 10 6 pelun_rasht true two_suggestions) as [[r|e] s'] eqn:E; [exfalso; vm_compute in E; discriminate|].
  exists e, s'. split; [reflexivity|].
  apply (@refused_publish_changes_nothing _ _ _ _ all_down two_suggestions 10 6 pelun_rasht true e s' two_suggestions_notices). left. exact E.
Defined.

Lemma refused_suggestion_stops_turns_witness :
  exists s', @autoAnnounce _ _ _ _ all_down 10 500 two_suggestions = (Err LLM_UNAVAILABLE, s') /\
    findSuggestionsSince s' 10 500 = [suggested 6 "g0" 800; suggested 7 "g1" 900].
Proof.
  destruct (@publish _ _ _ _ all_down 10 6 pelun_rasht true (two_suggestions <| pb_batch := ∅ |>)) as [[r|e] s1] eqn:E; [exfalso; vm_compute in E; discriminate|].
  assert (e = LLM_UNAVAILABLE) as -> by (vm_compute in E; injection E as <- _; vm_compute; reflexivity).
  pose proof (@refused_suggestion_stops_turns _ _ _ _ all_down two_suggestions s1 10 500 (suggested 6 "g0" 800) [suggested 7 "g1" 900] pelun_rasht LLM_UNAVAILABLE two_suggestions_notices) as Hr.
  specialize (Hr ltac:(vm_compute; reflexivity) ltac:(vm_compute; reflexivity) ltac:(vm_compute; reflexivity) ltac:(vm_compute; reflexivity) E).
  destruct (autoAnnounce 10 500 two_suggestions) as [r s']. destruct Hr as (-> & _ & Hs & _); [discriminate | intros [t F]; discriminate |].
  exists s'. split; [reflexivity | exact Hs].
Defined.

(** ** A changed contact, told twice *)

(** The load [i] is its publisher's and shows the phone [p]. *)
Definition shows_phone (i u : uuid) (p : text) (s : publish_state) : Prop :=
  exists l, pb_loads s !! i = Some l /\ ld_id l = i /\ ld_publisher l = u /\ p ∈ ld_contactPhones l.

Section Refresh.
  Context `{Messengers} (u i : uuid) (p : text) (before after : PublisherContact).
  Context (Hbefore : p ∈ publisherPhones before) (Hafter : p ∈ publisherPhones after).

Lemma recontacted_phone l : ld_publisher l = u -> p ∈ ld_contactPhones l ->
  exists l', recontacted before after l = Some l' /\ ld_id l' = ld_id l /\ ld_publisher l' = u /\ p ∈ ld_contactPhones l'.
Proof.
  intros Hu Hp. destruct (kept_phone_replaced _ _ _ p Hp Hbefore Hafter) as (next & E & Hn). unfold recontacted. rewrite E. cbv zeta.
  cbn [is_null]. rewrite andb_false_r. eexists. split; [reflexivity|]. by split_and!.
Qed.

Lemma put_load_shows l s : (ld_id l = i -> ld_publisher l = u /\ p ∈ ld_contactPhones l) -> shows_phone i u p s -> shows_phone i u p (put_load l s).
Proof.
  intros Hl (x & Hx & Ex & Hu & Hp). unfold shows_phone. rewrite put_load_loads. destruct (decide (ld_id l = i)) as [E|Hn].
  - destruct (Hl E) as [H1 H2]. exists l. rewrite E, lookup_insert_eq. by split_and!.
  - exists x. rewrite lookup_insert_ne by done. by split_and!.
Qed.

Lemma recontact_each_run ls : forall s changed s1,
  (forall l, l ∈ ls -> ld_id l = i -> ld_publisher l = u /\ p ∈ ld_contactPhones l) -> shows_phone i u p s ->
  recontact_each before after ls s = (Ok changed, s1) ->
  shows_phone i u p s1 /\ ((exists l, l ∈ ls /\ ld_id l = i) -> exists l', l' ∈ changed /\ ld_id l' = i).
Proof.
  induction ls as [|l ls IH]; intros s changed s1 Hl Hs Er; cbn [recontact_each] in Er.
  { rewrite run_ret in Er. injection Er as <- <-. split; [done|]. intros (l & Hin & _). by apply not_elem_of_nil in Hin. }
  assert (Hl2 : forall x, x ∈ ls -> ld_id x = i -> ld_publisher x = u /\ p ∈ ld_contactPhones x) by (intros x Hx; apply Hl; by right).
  assert (Hhead : ld_id l = i -> exists l', recontacted before after l = Some l' /\ ld_id l' = i /\ ld_publisher l' = u /\ p ∈ ld_contactPhones l').
  { intros E. destruct (Hl l ltac:(left) E) as [H1 H2]. destruct (recontacted_phone l H1 H2) as (l' & ? & ? & ? & ?). exists l'. split_and!; congruence. }
  destruct (recontacted before after l) as [l'|] eqn:E.
  - rewrite run_bind in Er. destruct (save_load_run l' s) as [[e Hsv]|[Hsv _]]; rewrite Hsv in Er; [done|].
    rewrite run_bind in Er. destruct (recontact_each before after ls (put_load l' s)) as [[rest|e] s2] eqn:E2; [|done].
    rewrite run_ret in Er. injection Er as <- <-. destruct (recontacted_id _ _ _ _ E) as (Ei & _).
    assert (Hput : shows_phone i u p (put_load l' s)).
    { apply put_load_shows; [|done]. intros Hi. rewrite Ei in Hi. destruct (Hhead Hi) as (x & [= <-] & ?). tauto. }
    destruct (IH _ _ _ Hl2 Hput E2) as [Hs2 Hin]. split; [done|]. intros (x & [->|Hx]%elem_of_cons & Hi).
    + exists l'. split; [left | congruence].
    + destruct Hin as (y & Hy & Hyi); [by exists x|]. exists y. split; [by right | done].
  - destruct (IH _ _ _ Hl2 Hs Er) as [Hs2 Hin]. split; [done|]. intros (x & [->|Hx]%elem_of_cons & Hi).
    + by destruct (Hhead Hi) as (y & ? & _).
    + apply Hin. by exists x.
Qed.

Lemma propagateText_shows ls : preserves (shows_phone i u p) (propagateText ls).
Proof.
  unfold propagateText. apply preserves_for_each. intros l _. apply preserves_try_catch; [|intros; apply preserves_ret].
  apply (preserves_zoom _ (fun _ => True)); [done|done|]. intros s q Hs _. exact Hs.
Qed.

Lemma refresh_writes s changed s1 : loads_ok s -> shows_phone i u p s ->
  same_phones (publisherPhones before) (publisherPhones after) = false ->
  refreshPublisherContact u before after s = (Ok changed, s1) ->
  loads_ok s1 /\ shows_phone i u p s1 /\ exists l', l' ∈ changed /\ ld_id l' = i.
Proof.
  intros Hok Hs Hsame Er. pose proof (refreshPublisherContact_ok u before after s Hok) as Hok1. unfold final in Hok1. rewrite Er in Hok1. cbn [snd] in Hok1.
  split; [done|]. unfold refreshPublisherContact in Er. rewrite Hsame in Er. cbn [andb] in Er. cbv zeta in Er. rewrite run_bind in Er. unfold get in Er. cbv beta iota in Er.
  rewrite run_bind in Er. match type of Er with context [recontact_each before after ?ls s] => set (ls0 := ls) in Er end.
  destruct (recontact_each before after ls0 s) as [[c|e] s2] eqn:E; [|done].
  assert (Hin : forall l, l ∈ ls0 -> shows_contact u (publisherPhones before)
      (dedup (omap (fun t => match companyNameFor before (Some t) with Some (c :: r) => Some (c :: r) | _ => None end)
         (List.filter (fun t => negb (bool_decide (companyNameFor before (Some t) = companyNameFor after (Some t)))) LOAD_TYPES))) l = true /\ exists k, pb_loads s !! k = Some l).
  { intros l Hl. apply elem_of_find_rows in Hl. exact Hl. }
  destruct Hs as (l & Hl & El & Hu & Hp).
  assert (Hsame_l : forall x, x ∈ ls0 -> ld_id x = i -> x = l).
  { intros x Hx Ex. destruct (Hin x Hx) as (_ & k & Hk). destruct (lk_ids _ Hok k x Hk) as [Ek _]. congruence. }
  destruct (recontact_each_run ls0 s c s2) as [Hs2 Hc]; [intros x Hx Ex; by rewrite (Hsame_l x Hx Ex) | by exists l | exact E|].
  rewrite run_bind in Er. pose proof (propagateText_shows (List.filter (fun l => eqb (ld_status l) ListingOpen) c) s2 Hs2) as Hs3. unfold final in Hs3.
  destruct (propagateText _ s2) as [[x|e] s3]; [|done]. rewrite run_ret in Er. injection Er as <- <-. cbn [snd] in Hs3. split; [done|].
  apply Hc. exists l. split; [|done]. apply elem_of_find_rows. split; [|by exists i].
  unfold shows_contact. rewrite Hu, N.eqb_refl. apply orb_true_iff. left. apply some_b_true. exists p. split; [done|]. by apply bool_decide_eq_true.
Qed.

End Refresh.

(** The message that a company's phones changed, handled by a second instance of the
    server: a load that shows a phone the company kept is written again, and told to the
    panels and edited in every messenger again - although the first instance has done it
    all ([CargoContactSync.handle]: «a second server instance finds nothing left to change
    and sends nothing»). *)
Theorem second_instance_writes_again `{Messengers} (s s1 s2 : publish_state) (u : uuid) (before after : PublisherContact) (l : Load) (p : text)
    (changed changed2 : list Load) :
  loads_ok s -> pb_loads s !! ld_id l = Some l -> ld_publisher l = u ->
  p ∈ ld_contactPhones l -> p ∈ publisherPhones before -> p ∈ publisherPhones after ->
  same_phones (publisherPhones before) (publisherPhones after) = false ->
  refreshPublisherContact u before after s = (Ok changed, s1) ->
  refreshPublisherContact u before after s1 = (Ok changed2, s2) ->
  exists l', l' ∈ changed2 /\ ld_id l' = ld_id l.
Proof.
  intros Hok Hl Hu Hp Hb Ha Hsame E1 E2.
  assert (Hs : shows_phone (ld_id l) u p s) by (exists l; by split_and!).
  destruct (refresh_writes u (ld_id l) p before after Hb Ha s changed s1 Hok Hs Hsame E1) as (Hok1 & Hs1 & _).
  by destruct (refresh_writes u (ld_id l) p before after Hb Ha s1 changed2 s2 Hok1 Hs1 Hsame E2) as (_ & _ & ?).
Qed.

(** ** At work: of two mobiles the first one changes *)

Definition contact_with (mobile : string) : PublisherContact :=
  mkContact [js mobile; js "0919"] (Some (mkContactCompany None (js "Tarabar") None None None)).

Definition shown_load : Load :=
  mkLoad (mkListing 100 10 (js "تهران") (js "رشت") TripDomestic ListingOpen None) (js "g1") (js "100001") None None (Some (js "Tarabar"))
    None None None None None None [js "0911"; js "0919"] [] (Some 900) 900.

Definition one_load : publish_state := one_suggestion <| pb_loads := {[ 100%N := shown_load ]} |> <| pb_nextLoad := 101%N |>.

Lemma one_load_ok : loads_ok one_load.
Proof.
  split; [| |exact (lk_notices _ one_suggestion_ok)].
  - intros k l Hl. change (({[ 100%N := shown_load ]} : gmap uuid Load) !! k = Some l) in Hl. apply lookup_singleton_Some in Hl as [<- <-]. by vm_compute.
  - intros k k' l l' Hl Hl' _ _. change (({[ 100%N := shown_load ]} : gmap uuid Load) !! k = Some l) in Hl.
    change (({[ 100%N := shown_load ]} : gmap uuid Load) !! k' = Some l') in Hl'. apply lookup_singleton_Some in Hl as [<- _].
    by apply lookup_singleton_Some in Hl' as [<- _].
Qed.

Lemma second_instance_writes_again_witness :
  exists changed s1 changed2 s2,
    @refreshPublisherContact takes_all 10 (contact_with "0911") (contact_with "0912") one_load = (Ok changed, s1) /\
    @refreshPublisherContact takes_all 10 (contact_with "0911") (contact_with "0912") s1 = (Ok changed2, s2) /\
    map ld_contactPhones changed2 = [[js "0912"; js "0919"]] /\ ~ changed2 = [].
Proof.
  destruct (@refreshPublisherContact takes_all 10 (contact_with "0911") (contact_with "0912") one_load) as [[c|e] s1] eqn:E1; [|exfalso; vm_compute in E1; discriminate].
  destruct (@refreshPublisherContact takes_all 10 (contact_with "0911") (contact_with "0912") s1) as [[c2|e] s2] eqn:E2.
  - exists c, s1, c2, s2. split; [reflexivity|]. split; [exact E2|]. split.
    + vm_compute in E1. injection E1 as <- <-. vm_compute in E2. injection E2 as <- _. vm_compute. reflexivity.
    + destruct (@second_instance_writes_again takes_all one_load s1 s2 10 (contact_with "0911") (contact_with "0912") shown_load (js "0919") c c2) as (l' & Hl' & _).
      * exact one_load_ok.
      * vm_compute; reflexivity.
      * reflexivity.
      * right; left.
      * vm_compute; right; left.
      * vm_compute; right; left.
      * vm_compute; reflexivity.
      * exact E1.
      * exact E2.
      * intros F. rewrite F in Hl'. by apply not_elem_of_nil in Hl'.
  - exfalso. vm_compute in E1. injection E1 as _ <-. vm_compute in E2. discriminate.
Defined.
