(* ===== verification/MenuText.v ===== *)
(** * Options named or numbered by what people write and say

    [src/services/messengerBot/core/menuTextMatch.ts]: the button of a menu a text means, by
    its number, its text or its name among words that only say «show»; and
    [src/application/services/agent/services/replyChoice.ts]: short answers («اولی», «بله»)
    as a voice is heard, with the distance of two words. *)

From S2P Require Import Prelude JsNumber JsString Json FreeText.

(** [\p{L}] or [\p{N}], of a code point *)
Class Letters := { letter_or_number : N -> bool }.

Definition is_high (c : N) : bool := ((55296 <=? c) && (c <=? 56319))%N.
Definition is_low (c : N) : bool := ((56320 <=? c) && (c <=? 57343))%N.
Definition point_of_pair (c d : N) : N := ((c - 55296) * 1024 + (d - 56320) + 65536)%N.

(** [replace(/[^\p{L}\p{N}\s]/gu, ' ')] *)
Fixpoint words_only `{Letters} (t : text) : text :=
  match t with
  | [] => []
  | c :: t1 =>
      let one := (if letter_or_number c || is_space c then c else 32%N) :: words_only t1 in
      match t1 with
      | d :: t2 =>
          if is_high c && is_low d then
            (if letter_or_number (point_of_pair c d) then [c; d] else [32%N]) ++ words_only t2
          else one
      | [] => one
      end
  end.

(** [split(' ')] *)
Definition split_spaces (t : text) : list text := split_at 32 [] t.

Definition in_words (words : list text) (word : text) : bool := bool_decide (word ∈ words).

(** ** [menuTextMatch.ts] *)

Record MenuButton := mkButton {
  mb_text : text;
  mb_data : text;
  mb_url : option text;
}.

(** «ي» and «ى», «ك», «ۀ» and «ة», «أ», «إ» and «آ» *)
Definition menu_letter (c : N) : N :=
  (if (c =? 1610) || (c =? 1609) then 1740 else if c =? 1603 then 1705
   else if (c =? 1728) || (c =? 1577) then 1607
   else if (c =? 1571) || (c =? 1573) || (c =? 1570) then 1575 else c)%N.

(** [[ً-ٰٟ]] *)
Definition is_vowel_sign (c : N) : bool := ((1611 <=? c) && (c <=? 1631) || (c =? 1648))%N.

Definition half_space (c : N) : N := if (c =? 8204)%N then 32%N else c.

Definition normalizeMenuText `{Letters} `{Unicode} (t : text) : text :=
  toLowerCase (trim (collapse_spaces (words_only (map half_space (remove_chars is_vowel_sign (latin_digits (map menu_letter t))))))).

Definition ORDINALS : list text :=
  [js "اول"; js "دوم"; js "سوم"; js "چهارم"; js "پنجم"; js "ششم"; js "هفتم"; js "هشتم"; js "نهم"; js "دهم"].
Definition CARDINALS : list text :=
  [js "یک"; js "دو"; js "سه"; js "چهار"; js "پنج"; js "شش"; js "هفت"; js "هشت"; js "نه"; js "ده"].
Definition OPTION_WORDS : list text := [js "گزینه"; js "شماره"; js "دکمه"; js "مورد"].
Definition FILLER_WORDS : list text :=
  [js "لطفا"; js "ی"; js "رو"; js "را"; js "بزن"; js "انتخاب"; js "کن"; js "میکنم"; js "میخوام"; js "می"; js "خوام"; js "خواهم"].
Definition COMMAND_WORDS : list text :=
  [ js "نشون"; js "نشان"; js "بده"; js "بدید"; js "بدین"; js "بیار"; js "بیارید"; js "باز"; js "کن"; js "کنید"; js "برو"; js "بریم"
  ; js "بزن"; js "بزنید"; js "منو"; js "منوی"; js "بخش"; js "صفحه"; js "قسمت"; js "رو"; js "را"; js "لطفا"; js "لطفاً"; js "میخوام"
  ; js "میخواهم"; js "می"; js "خوام"; js "خواهم"; js "ببینم"; js "ببینیم"; js "ببین"; js "به"; js "من"; js "و" ].

Definition MAX_NAME_WORDS : nat := 4.
Definition YEH : text := js "ی".

(** [list.findIndex(test)] *)
Fixpoint find_index {A} (f : A -> bool) (l : list A) : option nat :=
  match l with [] => None | x :: l => if f x then Some 0%nat else S <$> find_index f l end.

(** Words that are the number at their place of a list, from one *)
Definition numbered (words : list text) : list (text * text) := imap (fun i w => (w, text_of_N (N.of_nat (S i)))) words.

(** [SPOKEN_INDEX] *)
Definition SPOKEN_INDEX : list (text * text) :=
  List.filter (fun p => negb (bool_decide (p.1 = js "نه"))) (numbered CARDINALS)
  ++ [(js "یه", js "1")]
  ++ flat_map (fun p => [p; (p.1 ++ YEH, p.2)]) (numbered ORDINALS)
  ++ [(js "یکم", js "1"); (js "یکمی", js "1")].

Definition spoken (word : text) : text :=
  match List.find (fun p => bool_decide (p.1 = word)) SPOKEN_INDEX with Some (_, n) => n | None => word end.

(** [/^\d{1,2}$/] and [/\d{3,}/] *)
Definition short_number (word : text) : bool :=
  forallb is_digit word && Nat.leb 1 (length word) && Nat.leb (length word) 2.

Fixpoint long_number (run : nat) (t : text) : bool :=
  match t with [] => false | c :: t => if is_digit c then Nat.leb 2 run || long_number (S run) t else long_number 0 t end.

(** The number a text of digits is *)
Definition digits_value (t : text) : N := foldl (fun n c => 10 * n + (c - 48))%N 0%N t.

(** The number [word] is among [count] options, from one *)
Definition word_position (word : text) (afterOptionWord : bool) (count : nat) : option nat :=
  if short_number word then Some (N.to_nat (digits_value word))
  else if in_words [js "اخر"; js "اخری"] word then Some count
  else match find_index (fun item => bool_decide (word = item) || bool_decide (word = item ++ YEH)) ORDINALS with
  | Some i => Some (S i)
  | None =>
      if in_words [js "یکم"; js "یکمی"] word then Some 1%nat
      else if afterOptionWord then S <$> find_index (fun item => bool_decide (item = word)) CARDINALS
      else None
  end.

Definition optionPosition (t : text) (count : nat) : option nat :=
  let words := List.filter (fun w => negb (in_words FILLER_WORDS w)) (split_spaces t) in
  let hasOptionWord := match words with w :: _ => in_words OPTION_WORDS w | [] => false end in
  match (if hasOptionWord then tail words else words) with
  | [word] => match word_position word hasOptionWord count with Some (S i) => Some i | _ => None end
  | _ => None
  end.

(** The words that name a button, with all that was said *)
Definition namedWords (t : text) : option (list text * list text) :=
  let said := map spoken (List.filter (fun w => negb (is_empty w)) (split_spaces t)) in
  if existsb (long_number 0) said then None
  else
    let named := List.filter (fun w => negb (in_words COMMAND_WORDS w)) said in
    if Nat.eqb (length named) 0 || Nat.ltb MAX_NAME_WORDS (length named) then None else Some (said, named).

Section Buttons.
  Context `{Letters} `{Unicode}.

Definition button_words (button : MenuButton) : list text := split_spaces (normalizeMenuText (mb_text button)).

Definition buttonsNamed (named : list text) (buttons : list MenuButton) : list MenuButton :=
  List.filter (fun button => forallb (in_words (button_words button)) named) buttons.

(** The one element of a list that has one *)
Definition the_one {A} (l : list A) : option A := match l with [x] => Some x | _ => None end.

Definition phraseMatch (t : text) (buttons : list MenuButton) : option MenuButton :=
  match namedWords t with
  | None => None
  | Some (said, named) =>
      let row := match List.filter short_number named with
                 | [n] => the_one (List.filter (fun button => bool_decide (head (button_words button) = Some n)) buttons)
                 | _ => None
                 end in
      match row with
      | Some button => Some button
      | None =>
          let fits := buttonsNamed named buttons in
          match the_one fits with
          | Some button => Some button
          | None =>
              if in_words said (js "من")
              then the_one (List.filter (fun button => in_words (button_words button) (js "من")) fits)
              else None
          end
      end
  end.

Definition findMenuButton (input : text) (buttons : list MenuButton) : option MenuButton :=
  let t := normalizeMenuText input in
  if is_empty t then None
  else match optionPosition t (length buttons) with
  | Some position => buttons !! position
  | None =>
      match List.filter (fun button => bool_decide (normalizeMenuText (mb_text button) = t)) buttons with
      | [] => phraseMatch t buttons
      | exact => the_one exact
      end
  end.

Definition namesSeveralButtons (input : text) (buttons : list MenuButton) : bool :=
  let t := normalizeMenuText input in
  match (if is_empty t then None else namedWords t) with
  | None => false
  | Some (_, named) =>
      match findMenuButton input buttons with
      | Some _ => false
      | None => Nat.ltb 1 (length (buttonsNamed named buttons))
      end
  end.

End Buttons.

(** ** [replyChoice.ts] *)

(** [ORDINALS] of the voices: also what is heard for a short number *)
Definition HEARD_ORDINALS : list (list text * N) :=
  [ ([js "1"; js "یک"; js "یه"; js "یکی"; js "اول"; js "اولی"; js "اولین"; js "یکم"; js "یگ"], 1%N)
  ; ([js "2"; js "دو"; js "دوتا"; js "دوم"; js "دومی"; js "دومین"; js "تو"; js "توو"; js "دوو"; js "تومی"], 2%N)
  ; ([js "3"; js "سه"; js "سوم"; js "سومی"; js "سومین"; js "صه"; js "ثه"], 3%N)
  ; ([js "4"; js "چهار"; js "چار"; js "چهارم"; js "چهارمی"; js "چهارمین"], 4%N)
  ; ([js "5"; js "پنج"; js "پنجم"; js "پنجمی"; js "پنجمین"; js "پنچ"], 5%N)
  ; ([js "6"; js "شش"; js "شیش"; js "ششم"; js "ششمی"; js "ششمین"], 6%N)
  ; ([js "7"; js "هفت"; js "هفتم"; js "هفتمی"; js "هفتمین"; js "حفت"], 7%N)
  ; ([js "8"; js "هشت"; js "هشتم"; js "هشتمی"; js "هشتمین"; js "حشت"], 8%N)
  ; ([js "9"; js "نهم"; js "نهمی"; js "نهمین"], 9%N)
  ; ([js "10"; js "ده"; js "دهم"; js "دهمی"; js "دهمین"], 10%N)
  ; ([js "11"; js "یازده"; js "یازدهم"; js "یازدهمی"], 11%N)
  ; ([js "12"; js "دوازده"; js "دوازدهم"; js "دوازدهمی"], 12%N) ].

Definition YES_WORDS : list text :=
  [ js "بله"; js "بلی"; js "آره"; js "اره"; js "آری"; js "باشه"; js "اوکی"; js "ok"; js "okay"; js "حتما"; js "حتماً"; js "درسته"
  ; js "انجام"; js "انجامش"; js "بزن"; js "تایید"; js "تأیید"; js "موافقم" ].
Definition NO_WORDS : list text :=
  [ js "نه"; js "نخیر"; js "خیر"; js "لغو"; js "لغوش"; js "کنسل"; js "بیخیال"; js "بی"; js "خیال"; js "ولش"; js "نمیخوام"; js "نمی"
  ; js "خوام"; js "اشتباهه"; js "اشتباه"; js "نده"; js "نکن" ].
Definition HELPING_WORDS : list text :=
  [ js "کن"; js "بکن"; js "کنید"; js "بده"; js "بدید"; js "میکنم"; js "می"; js "کنم"; js "رو"; js "را"; js "لطفا"; js "لطفاً"; js "دیگه"
  ; js "همینو"; js "همین"; js "است"; js "هست"; js "شد" ].

(** [[.،,!؟?:؛)\-]] *)
Definition is_reply_mark (c : N) : bool := bool_decide (c ∈ [46; 1548; 44; 33; 1567; 63; 58; 1563; 41; 45]%N).

Definition CHOICE_HEADS : list text :=
  [js "گزینه ی"; js "گزینهٔ"; js "گزینه"; js "شماره ی"; js "شماره"; js "همون"; js "همان"; js "بار"].
Definition CHOICE_VERBS : list text := [js "بزن"; js "انتخاب کن"; js "میخوام"; js "می خوام"].

(** [/^(?:…)\s+/]: the first of the heads that a space follows *)
Fixpoint drop_head (heads : list text) (t : text) : text :=
  match heads with
  | [] => t
  | h :: heads =>
      match strip_prefix h t with
      | Some (c :: rest) => if is_space c then drop_while is_space rest else drop_head heads t
      | _ => drop_head heads t
      end
  end.

(** [/\s+(?:رو|را|و)?\s*(?:…)$/] from here *)
Definition verb_tail (t : text) : bool :=
  match t with
  | c :: _ =>
      is_space c &&
      let r := drop_while is_space t in
      (in_words CHOICE_VERBS r
       || existsb (fun w => match strip_prefix w r with Some r' => in_words CHOICE_VERBS (drop_while is_space r') | None => false end)
            [js "رو"; js "را"; js "و"])
  | [] => false
  end.

Fixpoint drop_verb (t : text) : text :=
  match t with [] => [] | c :: t' => if verb_tail t then [] else c :: drop_verb t' end.

Definition normalize (t : text) : text :=
  let plain := trim (collapse_spaces (map half_space (map (fun c => if is_reply_mark c then 32%N else c) (map persian_letter (latin_digits t))))) in
  trim (drop_verb (drop_head CHOICE_HEADS plain)).

Definition ordinal (value : text) : option N :=
  snd <$> List.find (fun o => in_words o.1 value) HEARD_ORDINALS.

(** *** [distance] *)

(** The row after one more character [c] of the first word: [previous] is the entry above and
    before, [left] the one just made. *)
Fixpoint next_row (c : N) (b : text) (previous left : nat) (row : list nat) : list nat :=
  match b, row with
  | d :: b, current :: row =>
      let v := Nat.min (Nat.min (current + 1) (left + 1)) (previous + if (c =? d)%N then 0 else 1) in
      v :: next_row c b current v row
  | _, _ => []
  end.

(** [i]: the characters read so far *)
Fixpoint distance_rows (i : nat) (a b : text) (row : list nat) : list nat :=
  match a with
  | [] => row
  | c :: a => distance_rows (S i) a b (S i :: next_row c b (hd 0%nat row) (S i) (tail row))
  end.

Definition distance (a b : text) : nat := List.last (distance_rows 0 a b (seq 0 (S (length b)))) 0%nat.

Definition CHOICE_PREFIXES : list text := [js "گزینه"; js "شماره"].

Definition parseChoice (t : text) : option N :=
  let value := normalize t in
  match ordinal value with
  | Some n => Some n
  | None =>
      match split_spaces value with
      | [w1; w2] => if existsb (fun prefix => Nat.leb (distance w1 prefix) 2) CHOICE_PREFIXES then ordinal w2 else None
      | _ => None
      end
  end.

Definition parseYesNo `{Unicode} (t : text) : option bool :=
  let words := List.filter (fun w => negb (is_empty w)) (split_spaces (toLowerCase (normalize t))) in
  if Nat.eqb (length words) 0 || Nat.ltb 5 (length words) then None
  else
    let yes := existsb (in_words YES_WORDS) words in
    let no := existsb (in_words NO_WORDS) words in
    if Bool.eqb yes no then None
    else if forallb (fun w => in_words (if yes then YES_WORDS else NO_WORDS) w || in_words HELPING_WORDS w) words then Some yes else None.

(** *** The least number of letters to change *)

(** [n] letters dropped, added or replaced make [b] of [a]. *)
Inductive edits : text -> text -> nat -> Prop :=
| edits_done : edits [] [] 0
| edits_keep c a b n : edits a b n -> edits (c :: a) (c :: b) n
| edits_replace c d a b n : edits a b n -> edits (c :: a) (d :: b) (S n)
| edits_drop c a b n : edits a b n -> edits (c :: a) b (S n)
| edits_add d a b n : edits a b n -> edits a (d :: b) (S n).

(** The least of them, by the first letters *)
Fixpoint least_edits (a : text) : text -> nat :=
  match a with
  | [] => fun b => length b
  | c :: a' => fix on_b (b : text) : nat :=
      match b with
      | [] => length (c :: a')
      | d :: b' => Nat.min (Nat.min (least_edits a' (d :: b') + 1) (on_b b' + 1)) (least_edits a' b' + if (c =? d)%N then 0 else 1)
      end
  end.

Lemma least_edits_nil_r a : least_edits a [] = length a.
Proof. by destruct a. Qed.

Lemma least_edits_cons c d a b :
  least_edits (c :: a) (d :: b)
  = Nat.min (Nat.min (least_edits a (d :: b) + 1) (least_edits (c :: a) b + 1)) (least_edits a b + if (c =? d)%N then 0 else 1).
Proof. done. Qed.

Lemma drop_all a : edits a [] (length a).
Proof. induction a; cbn; by constructor. Qed.

Lemma add_all b : edits [] b (length b).
Proof. induction b; cbn; by constructor. Qed.

Lemma least_edits_works a b : edits a b (least_edits a b).
Proof.
  revert b. induction a as [|c a IHa]; [exact add_all|].
  induction b as [|d b IHb]; [exact (drop_all (c :: a))|]. rewrite least_edits_cons.
  destruct (Nat.min_dec (Nat.min (least_edits a (d :: b) + 1) (least_edits (c :: a) b + 1)) (least_edits a b + if (c =? d)%N then 0 else 1)) as [->| ->].
  - destruct (Nat.min_dec (least_edits a (d :: b) + 1) (least_edits (c :: a) b + 1)) as [->| ->]; rewrite Nat.add_1_r; by constructor.
  - destruct (N.eqb_spec c d) as [->|_]; [rewrite Nat.add_0_r | rewrite Nat.add_1_r]; by constructor.
Qed.

Lemma least_edits_least a b n : edits a b n -> (least_edits a b <= n)%nat.
Proof.
  induction 1 as [|c a b n _ IH|c d a b n _ IH|c a b n _ IH|d a b n _ IH]; [done|..].
  - rewrite least_edits_cons, N.eqb_refl. lia.
  - rewrite least_edits_cons. destruct (c =? d)%N; lia.
  - destruct b as [|d b]; [rewrite least_edits_nil_r in *; cbn; lia|]. rewrite least_edits_cons. lia.
  - destruct a as [|c a]; [cbn in *; lia|]. rewrite least_edits_cons. lia.
Qed.

Lemma edits_app a b n a' b' n' : edits a b n -> edits a' b' n' -> edits (a ++ a') (b ++ b') (n + n').
Proof. induction 1; intros H'; cbn; [done|..]; constructor; auto. Qed.

Lemma edits_reverse a b n : edits a b n -> edits (reverse a) (reverse b) n.
Proof.
  assert (Hsnoc : forall x y k x' y' k', edits x y k -> edits x' y' k' -> (forall m, m = (k + k')%nat -> edits (x ++ x') (y ++ y') m)).
  { intros x y k x' y' k' H H' m ->. by apply edits_app. }
  induction 1 as [|c a b n _ IH|c d a b n _ IH|c a b n _ IH|d a b n _ IH]; [constructor|..]; rewrite ?reverse_cons.
  - refine (Hsnoc _ _ _ _ _ _ IH (edits_keep c _ _ _ edits_done) _ _). lia.
  - refine (Hsnoc _ _ _ _ _ _ IH (edits_replace c d _ _ _ edits_done) _ _). lia.
  - rewrite <- (app_nil_r (reverse b)). refine (Hsnoc _ _ _ _ _ _ IH (edits_drop c _ _ _ edits_done) _ _). lia.
  - rewrite <- (app_nil_r (reverse a)). refine (Hsnoc _ _ _ _ _ _ IH (edits_add d _ _ _ edits_done) _ _). lia.
Qed.

(** The entries of a row beyond the prefix [q] (last letter first) *)
Fixpoint row_after (x q b : text) : list nat :=
  match b with [] => [] | d :: b => least_edits x (d :: q) :: row_after x (d :: q) b end.

Lemma next_row_right c x b : forall q,
  next_row c b (least_edits x q) (least_edits (c :: x) q) (row_after x q b) = row_after (c :: x) q b.
Proof.
  induction b as [|d b IH]; intros q; [done|]. cbn [next_row row_after].
  rewrite <- least_edits_cons. f_equal. apply IH.
Qed.

Lemma distance_rows_right a : forall x b,
  distance_rows (length x) a b (length x :: row_after x [] b) = length (reverse a ++ x) :: row_after (reverse a ++ x) [] b.
Proof.
  induction a as [|c a IH]; intros x b; [done|]. cbn [distance_rows hd tail].
  pose proof (next_row_right c x b []) as E. rewrite !least_edits_nil_r in E. cbn [length] in E. rewrite E.
  specialize (IH (c :: x) b). cbn [length] in IH. rewrite IH. by rewrite reverse_cons, <- (assoc_L app).
Qed.

Lemma first_row b : forall q, row_after [] q b = seq (S (length q)) (length b).
Proof. induction b as [|d b IH]; intros q; [done|]. cbn [row_after length seq]. f_equal. apply (IH (d :: q)). Qed.

Lemma row_end x b : forall q n, List.last (least_edits x q :: row_after x q b) n = least_edits x (reverse b ++ q).
Proof.
  induction b as [|d b IH]; intros q n; [done|]. cbn [row_after]. rewrite reverse_cons, <- (assoc_L app). apply (IH (d :: q)).
Qed.

Lemma distance_reversed a b : distance a b = least_edits (reverse a) (reverse b).
Proof.
  unfold distance. pose proof (distance_rows_right a [] b) as E. rewrite (first_row b []) in E.
  cbn [length seq] in E |- *. rewrite E, !app_nil_r. rewrite <- (least_edits_nil_r (reverse a)), row_end. by rewrite app_nil_r.
Qed.

(** C32: The rows the code fills give the least number of letters dropped, added or replaced that
    make one word of the other: so many are enough, and with fewer it cannot be done. *)
Theorem distance_least (a b : text) :
  edits a b (distance a b) /\ (forall n, edits a b n -> (distance a b <= n)%nat).
Proof.
  rewrite distance_reversed. split.
  - pose proof (edits_reverse _ _ _ (least_edits_works (reverse a) (reverse b))) as E. by rewrite !reverse_involutive in E.
  - intros n H. by apply least_edits_least, edits_reverse.
Qed.

#[local] Instance plain_letters : Letters :=
  {| letter_or_number c := is_digit c || ((97 <=? c) && (c <=? 122) || (1570 <=? c) && (c <=? 1740))%N |}.
#[local] Instance plain_unicode : Unicode := {| nfkc t := t; toLowerCase t := t |}.

Lemma distance_least_witness :
  distance (js "گزینه") (js "وزینه") = 1%nat /\ parseChoice (js "وزینه ی دو") = None /\ parseChoice (js "وزینه دو.") = Some 2%N
  /\ edits (js "گزینه") (js "وزینه") 1.
Proof.
  repeat (split; [vm_compute; reflexivity|]). exact (proj1 (distance_least (js "گزینه") (js "وزینه"))).
Defined.

(** ** Which button is meant *)

Section Meant.
  Context `{Letters} `{Unicode}.
  Implicit Types (buttons : list MenuButton) (t input : text).

Lemma the_one_perm {A} (l l' : list A) : l ≡ₚ l' -> the_one l = the_one l'.
Proof.
  intros Hp. destruct l as [|x [|y l]].
  - by apply Permutation_nil_l in Hp as ->.
  - by apply Permutation_singleton_l in Hp as ->.
  - pose proof (Permutation_length Hp) as E. destruct l' as [|x' [|y' l']]; done.
Qed.

Lemma the_one_elem {A} (l : list A) x : the_one l = Some x -> l = [x].
Proof. destruct l as [|y [|]]; intros [=]; by subst. Qed.

Lemma filter_perm {A} (f : A -> bool) (l l' : list A) : l ≡ₚ l' -> List.filter f l ≡ₚ List.filter f l'.
Proof.
  induction 1 as [|x l l' _ IH|x y l|l l1 l' _ IH1 _ IH2]; cbn; [done|by destruct (f x); rewrite IH|..].
  - destruct (f x), (f y); try done. constructor.
  - by rewrite IH1.
Qed.

Lemma the_one_filter {A} (f : A -> bool) (l : list A) x : the_one (List.filter f l) = Some x -> x ∈ l.
Proof. intros E%the_one_elem. apply list_elem_of_In, (proj1 (List.filter_In f x l)). rewrite E. by left. Qed.

Lemma phrase_perm t buttons buttons' : buttons ≡ₚ buttons' -> phraseMatch t buttons = phraseMatch t buttons'.
Proof.
  intros Hp. unfold phraseMatch, buttonsNamed. destruct (namedWords t) as [[said named]|]; [|done]. cbv zeta.
  assert (Hf : forall f : MenuButton -> bool, the_one (List.filter f buttons) = the_one (List.filter f buttons')) by (intros f; by apply the_one_perm, filter_perm).
  assert (Hff : forall f g : MenuButton -> bool, the_one (List.filter f (List.filter g buttons)) = the_one (List.filter f (List.filter g buttons')))
    by (intros f g; by apply the_one_perm, filter_perm, filter_perm).
  rewrite Hf, Hff. destruct (List.filter short_number named) as [|n [|]]; [done| |done]. by rewrite Hf.
Qed.

Lemma phrase_elem t buttons b : phraseMatch t buttons = Some b -> b ∈ buttons.
Proof.
  unfold phraseMatch, buttonsNamed. destruct (namedWords t) as [[said named]|]; [|done]. cbv zeta.
  destruct (match List.filter short_number named with [] => None | _ => _ end) as [b'|] eqn:Er.
  - intros [= ->]. destruct (List.filter short_number named) as [|n [|]]; try done. by eapply the_one_filter.
  - destruct (the_one (List.filter _ buttons)) as [b'|] eqn:E1; [intros [= ->]; by eapply the_one_filter|].
    destruct (in_words said _); [|done]. intros E2%the_one_filter. apply list_elem_of_In in E2. apply list_elem_of_In.
    by apply (List.filter_In _ b buttons) in E2 as [? _].
Qed.

(** [n] of one or two digits is the position of the [n]th option. *)
Lemma number_position (k : nat) (count : nat) : (1 <= k <= 99)%nat -> optionPosition (text_of_N (N.of_nat k)) count = Some (pred k).
Proof.
  intros Hk. assert (Hall : Forall (fun k => optionPosition (text_of_N (N.of_nat k)) count = Some (pred k)) (seq 1 99)) by (repeat constructor).
  rewrite Forall_forall in Hall. apply Hall, elem_of_seq. lia.
Qed.

(** What a text means among the buttons of a menu: a number of one or two digits means the
    button at that place; the whole text of a button that only it has means that button; and
    what is not a place is never decided by the order of the buttons: the same button is meant
    however they are arranged, so that no first of several is guessed.  Whatever is meant is a
    button of the menu. *)
Theorem button_not_guessed (input : text) (buttons : list MenuButton) :
  (forall k, (1 <= k <= 99)%nat -> normalizeMenuText input = text_of_N (N.of_nat k) -> findMenuButton input buttons = buttons !! pred k) /\
  (forall b, normalizeMenuText input = normalizeMenuText (mb_text b) -> normalizeMenuText input <> [] ->
     optionPosition (normalizeMenuText input) (length buttons) = None ->
     List.filter (fun b' => bool_decide (normalizeMenuText (mb_text b') = normalizeMenuText (mb_text b))) buttons = [b] ->
     findMenuButton input buttons = Some b) /\
  (forall buttons', optionPosition (normalizeMenuText input) (length buttons) = None -> buttons ≡ₚ buttons' ->
     findMenuButton input buttons' = findMenuButton input buttons) /\
  (forall b, findMenuButton input buttons = Some b -> b ∈ buttons).
Proof.
  unfold findMenuButton. set (t := normalizeMenuText input). cbv zeta. split; [|split; [|split]].
  - intros k Hk Ht. rewrite Ht, number_position by done.
    destruct (text_of_N (N.of_nat k)) eqn:E; [|done]. exfalso.
    pose proof (number_position k 0 Hk) as Hp. rewrite E in Hp. done.
  - intros b Ht Hne Hp Hf. rewrite Hp, Ht, Hf. destruct (normalizeMenuText (mb_text b)) eqn:E; [congruence|done].
  - intros buttons' Hp Hperm. destruct (is_empty t); [done|]. rewrite <- (Permutation_length Hperm), Hp.
    pose proof (filter_perm (fun b => bool_decide (normalizeMenuText (mb_text b) = t)) _ _ Hperm) as Hf.
    pose proof (the_one_perm _ _ Hf) as Ho.
    destruct (List.filter _ buttons) as [|x l] eqn:E1.
    + apply Permutation_nil_l in Hf as <-. by rewrite (phrase_perm t _ _ Hperm).
    + destruct (List.filter _ buttons') as [|x' l'] eqn:E2; [by apply Permutation_nil_r in Hf|]. done.
  - intros b. destruct (is_empty t); [done|]. destruct (optionPosition _ _); [apply list_elem_of_lookup_2|].
    destruct (List.filter _ buttons) as [|x l] eqn:E1; [apply phrase_elem|].
    rewrite <- E1. apply the_one_filter.
Qed.

End Meant.

Definition sample_buttons : list MenuButton :=
  [mkButton (js "💰 قیمت دلار و طلا") (js "a") None; mkButton (js "⛽ جایگاه ۱") (js "b") None; mkButton (js "⛽ جایگاه ۲") (js "c") None].

Lemma button_not_guessed_witness :
  findMenuButton (js "۲") sample_buttons = sample_buttons !! 1%nat
  /\ findMenuButton (js "قیمت دلار و طلا") sample_buttons = sample_buttons !! 0%nat
  /\ findMenuButton (js "قیمت طلا رو نشون بده") (reverse sample_buttons) = findMenuButton (js "قیمت طلا رو نشون بده") sample_buttons
  /\ findMenuButton (js "قیمت طلا رو نشون بده") sample_buttons = sample_buttons !! 0%nat
  /\ findMenuButton (js "جایگاه") sample_buttons = None /\ namesSeveralButtons (js "جایگاه") sample_buttons = true.
Proof.
  split; [refine (proj1 (button_not_guessed (js "۲") sample_buttons) 2%nat _ _); [lia | vm_compute; reflexivity]|].
  split; [refine (proj1 (proj2 (button_not_guessed (js "قیمت دلار و طلا") sample_buttons)) (mkButton (js "💰 قیمت دلار و طلا") (js "a") None) _ _ _ _);
          vm_compute; first [reflexivity | discriminate]|].
  split; [refine (proj1 (proj2 (proj2 (button_not_guessed (js "قیمت طلا رو نشون بده") sample_buttons))) (reverse sample_buttons) _ _);
          [vm_compute; reflexivity | symmetry; apply reverse_Permutation]|].
  repeat split; vm_compute; reflexivity.
Defined.
