(* ===== verification/WhatsappMenus.v ===== *)
(** * The dialogs in WhatsApp

    [src/services/notification/whatsappDialogBridge.ts] over the dialogs registered in
    [messengerBot/core/botDialog.ts], with [botCard.ts] (options as numbered lines),
    [whatsappPoll.service.ts] and [whatsappMenuMessages.ts]: WhatsApp has no buttons, so the
    options of the last message are kept in Redis and a number, a name or a poll's vote runs
    one of them.  A dialog is an interface ([BotDialog]) over the world of the services; the
    network and what the telephone knows are [Whatsapp], the texts of i18n/fa [Texts]. *)

From S2P Require Import Prelude JsNumber JsString Json Effects Redis Enums FreeText TripTypes CompanyFeatures Accounts Invites AccountVerification SubscriptionAccess BotSessions MenuText.

(** ** [botDialog.ts] *)

Record BotAction := mkAction {
  ba_id : text;
  ba_label : text;
  ba_row : option Z;
  ba_url : option text;
}.

Inductive Closed := ClosedExit | ClosedDenied.

#[export] Instance Closed_eq_dec : EqDecision Closed.
Proof. solve_decision. Defined.

(** A file is a number. *)
Record BotReply := mkReply {
  br_text : text;
  br_refreshAction : option text;
  br_actions : list BotAction;
  br_closed : option Closed;
  br_locationButton : option text;
  br_photo : option (N * option text);
  br_voice : option N;
  br_document : option (N * text * option text);
  br_copyText : option text;
}.

Definition text_reply (t : text) : BotReply := mkReply t None [] None None None None None None.

Record BotLocation := mkLocation {
  lo_latitude : num;
  lo_longitude : num;
  lo_edited : bool;
}.

Record BotDocument := mkDocument {
  do_fileName : text;
  do_size : option Z;
  do_file : N;
}.

(** In WhatsApp the context of a dialog is the user alone. *)
Record BotDialog (W : Type) := mkDialog {
  entries : list (text * text);
  ownsAction : text -> bool;
  handleAction : uuid -> text -> M W (option BotReply);
  hasSession : uuid -> M W bool;
  handleText : uuid -> text -> M W (option BotReply);
  handleLocation : option (uuid -> BotLocation -> M W (option BotReply));
  handleDocument : option (uuid -> BotDocument -> M W (option BotReply));
  clearSession : option (uuid -> M W unit);
}.
Arguments entries {W}.
Arguments ownsAction {W}.
Arguments handleAction {W}.
Arguments hasSession {W}.
Arguments handleText {W}.
Arguments handleLocation {W}.
Arguments handleDocument {W}.
Arguments clearSession {W}.

(** [if (value)] of a text *)
Definition truthy (t : option text) : option text := match t with Some (c :: t) => Some (c :: t) | _ => None end.

Definition entry_of {W} (dialog : BotDialog W) (callback : text) : option text :=
  truthy (snd <$> List.find (fun e => bool_decide (e.1 = callback)) (entries dialog)).

Fixpoint resolve {W} (dialogs : list (BotDialog W)) (callback : text) : option (BotDialog W * text) :=
  match dialogs with
  | [] => None
  | dialog :: dialogs =>
      if ownsAction dialog callback then Some (dialog, callback)
      else match entry_of dialog callback with
      | Some entry => Some (dialog, entry)
      | None => resolve dialogs callback
      end
  end.

(** [actionRows] *)
Fixpoint add_to_rows (rows : list (list BotAction)) (action : BotAction) : list (list BotAction) :=
  match rows with
  | [] => [[action]]
  | [last] =>
      match ba_row action, last with
      | Some row, first :: _ => if bool_decide (ba_row first = Some row) then [last ++ [action]] else [last; [action]]
      | _, _ => [last; [action]]
      end
  | row :: rows => row :: add_to_rows rows action
  end.

Definition actionRows (actions : list BotAction) : list (list BotAction) := foldl add_to_rows [] actions.

(** [unavailableReply] *)
Definition unavailableReply {W} (error : exn) : M W (option BotReply) :=
  match error with
  | OtherError message => if bool_decide (error = LLM_UNAVAILABLE) then mret (Some (text_reply message)) else throw error
  | _ => throw error
  end.

(** ** [botCard.ts] *)

Definition OPEN : N := 57344.
Definition CLOSE : N := 57345.
Definition NEWLINE : text := [10%N].
Definition BLANK_LINE : text := [10; 10]%N.

Definition hasCards (t : text) : bool := existsb (fun c => (c =? OPEN)%N) t.

Definition quoted (body : text) : text := join NEWLINE (map (fun line => js "> " ++ line) (split_at 10 [] body)).

(** [replace(CARD, …)]: a card goes from an opening mark to the first closing one; [fuel] is the
    length of the text. *)
Fixpoint cards_from (fuel : nat) (t : text) : text :=
  match fuel, t with
  | S fuel, c :: t' =>
      if (c =? OPEN)%N then
        match cut_at CLOSE t' with
        | Some (body, rest) => quoted body ++ cards_from fuel rest
        | None => c :: cards_from fuel t'
        end
      else c :: cards_from fuel t'
  | _, _ => t
  end.

Definition whatsappCards (t : text) : text := cards_from (length t) t.

Definition faDigits (n : nat) : text := persian_digits (text_of_N (N.of_nat n)).

Definition option_line (number : nat) (label : text) : text := faDigits number ++ js "- " ++ label.

Definition whatsappOptions (labels : list text) (start : nat) : text :=
  join NEWLINE (imap (fun i label => option_line (start + i) label) labels).

Definition ROW_LINE_LIMIT : nat := 38.

(** The lines of the rows, numbered on from [number] *)
Fixpoint row_lines (number : nat) (rows : list (list text)) : list text :=
  match rows with
  | [] => []
  | row :: rows =>
      let items := imap (fun i label => option_line (number + i) label) row in
      (if Nat.ltb 1 (length items) && Nat.leb (length (concat items)) ROW_LINE_LIMIT then [join (js "    ") items] else items)
      ++ row_lines (number + length row) rows
  end.

Definition whatsappOptionRows (rows : list (list text)) : text := join NEWLINE (row_lines 1 rows).

(** ** The state *)

Record MenuState := mkMenu {
  me_actions : list text;
  me_labels : list text;
  me_links : list (text * text);
  me_refreshAction : option text;
}.

Record StoredPoll := mkPoll {
  po_id : N;
  po_jid : text;
  po_values : list text;
  po_createdAt : time;
}.

Inductive Outgoing :=
| OutText (t : text)
| OutImage (image : N) (caption : option text)
| OutDocument (file : N) (fileName : text) (mimetype : string) (caption : option text)
| OutVoice (audio : N)
| OutPoll (question : text) (values : list text)
| OutLocation (latitude longitude : num)
| OutDelete (message : N).

(** [wb_polls] in the order they were made; [wb_calls] counts the calls of the socket; [wb_sent]
    is what reached the telephones, the last one first. *)
Record bridge (W : Type) := mkBridge {
  wb_world : W;
  wb_sock : bool;
  wb_calls : nat;
  wb_menus : gmap uuid (MenuState * time);
  wb_live : gmap uuid (unit * time);
  wb_messages : gmap uuid (list N * time);
  wb_polls : list StoredPoll;
  wb_menuPolls : gmap text N;
  wb_sent : list (text * Outgoing);
}.
Arguments wb_world {W}.
Arguments wb_sock {W}.
Arguments wb_calls {W}.
Arguments wb_menus {W}.
Arguments wb_live {W}.
Arguments wb_messages {W}.
Arguments wb_polls {W}.
Arguments wb_menuPolls {W}.
Arguments wb_sent {W}.

(** The accounts in the world of the dialogs, and [SubscriptionAccessService.check] *)
Class World (W : Type) := {
  accounts : W -> account_state;
  access : uuid -> M W SubscriptionAccess;
}.

(** What the [n]th call of the socket answers: the number of the message sent, or its error;
    whether polls are on; who has which WhatsApp number *)
Class Whatsapp := {
  send_error : nat -> option exn;
  message_id : nat -> N;
  polls_enabled : bool;
  jid_of : uuid -> option text;
  user_of : text -> option uuid;
}.

Class Texts := { translate : string -> list (string * text) -> text }.

Definition MENU_TTL_SECONDS : Z := 3600.
Definition LIVE_SILENT_SECONDS : Z := 3600.
Definition MESSAGES_TTL_SECONDS : Z := 30 * 24 * 60 * 60.
Definition CAPTION_LIMIT : nat := 1000.
Definition POLL_TTL_MS : Z := 30 * 60000.
Definition MAX_POLLS : nat := 500.
Definition MAX_QUESTION_LENGTH : nat := 250.
Definition MAX_OPTION_LENGTH : nat := 100.
Definition MENU_WORDS : list text := [js "منو"; js "منوی اصلی"; js "فهرست"; js "menu"; js "/start"; js "start"].
Definition CANCEL_WORDS : list text := [js "لغو"; js "انصراف"; js "خروج"; js "cancel"].
Definition MENU_POLL_QUESTION : text := js "👇 یکی را انتخاب کنید".
Definition EMPTY_MESSAGE : text := js "عملیات انجام شد.".
Definition NOT_CONNECTED : exn := OtherError (js "WhatsApp socket is not connected.").
Definition TRIAL_ENDED_TEXT : text :=
  js "⏳ دوره‌ی رایگان شما تمام شده است." ++ NEWLINE ++ js "برای ادامه‌ی کار، اشتراک را از بخش «اشتراک» در برنامه‌ی ترابوت یا از ربات تلگرام/بله بخرید.".
Definition SUBSCRIPTION_REQUIRED_TEXT : text :=
  js "برای ادامه‌ی کار اشتراک لازم است. اشتراک را از بخش «اشتراک» در برنامه‌ی ترابوت یا از ربات تلگرام/بله بخرید.".

(** [SECTIONS]: the roles a section of the main menu is for, the key of its text and its callback *)
Record Section_ := mkSection { se_roles : list string; se_key : string; se_action : text }.

Definition LOAD_REQUESTER_ROLES : list string := ["DRIVER"; "BROKER"]%string.
Definition DRIVER_ROLES : list string := ["DRIVER"]%string.
Definition FACTORY_ROLES : list string := ["FACTORY"]%string.

Definition SECTIONS : list Section_ :=
  [ mkSection LOAD_REQUESTER_ROLES "findCargo" (js "driver_search_loads")
  ; mkSection LOAD_REQUESTER_ROLES "myRequests" (js "driver_load_requests")
  ; mkSection ["BROKER"]%string "brokerAccess" (js "broker_access")
  ; mkSection DRIVER_ROLES "activeTrip" (js "driver_active_trip")
  ; mkSection DRIVER_ROLES "returnLoads" (js "driver_return_loads")
  ; mkSection DRIVER_ROLES "sendLocation" (js "tr:loc")
  ; mkSection DRIVER_ROLES "myLocation" (js "tr:me")
  ; mkSection DRIVER_ROLES "nearStations" (js "tr:ns")
  ; mkSection COMPANY_ROLES "companyLoads" (js "company_loads")
  ; mkSection COMPANY_ROLES "companyProfile" (js "company_profile")
  ; mkSection COMPANY_ROLES "createLoad" (js "company_create_load")
  ; mkSection COMPANY_ROLES "driverRequests" (js "company_driver_requests")
  ; mkSection COMPANY_ROLES "activeTrips" (js "company_active_trips")
  ; mkSection COMPANY_ROLES "companyFeatures" (js "company_features")
  ; mkSection (DRIVER_ROLES ++ COMPANY_ROLES) "filters" (js "cg:fl")
  ; mkSection (DRIVER_ROLES ++ COMPANY_ROLES) "marketPrices" (js "mk:show")
  ; mkSection DRIVER_ROLES "borders" (js "borders")
  ; mkSection DRIVER_ROLES "cargoDisplay" (js "cargo_display")
  ; mkSection FACTORY_ROLES "factoryCreateLoad" (js "factory_create_load")
  ; mkSection FACTORY_ROLES "factoryExcel" (js "factory_excel")
  ; mkSection FACTORY_ROLES "factoryLoads" (js "factory_loads") ].

Definition COMPANY_FEATURE_BY_MENU_ACTION : list (text * CompanyFeature) :=
  [ (js "company_loads", Suggestions); (js "company_create_load", CreateLoad); (js "company_driver_requests", DriverRequests)
  ; (js "company_active_trips", Trips); (js "company_channels", Channels) ].

Definition paid_menu (action : text) : option CompanyFeature :=
  snd <$> List.find (fun p => bool_decide (p.1 = action)) COMPANY_FEATURE_BY_MENU_ACTION.

Definition MAIN_MENU : text := js "main_menu".

(** [truncate] *)
Definition truncate (t : text) (max : nat) : text := if Nat.ltb max (length t) then take (max - 1) t ++ [8230%N] else t.

(** [number]: one to three digits of any script *)
Definition number (value : text) : option nat :=
  let latin := latin_digits value in
  if forallb is_digit latin && Nat.leb 1 (length latin) && Nat.leb (length latin) 3 then Some (N.to_nat (digits_value latin)) else None.

Record MenuOptions := mkOptions {
  mo_waiting : bool;
  mo_home : bool;
  mo_footer : option text;
  mo_photo : option (N * option text);
}.

Definition home_only : MenuOptions := mkOptions false true None None.

(** [options]: what gets a number; links are lines of their own. *)
Definition is_link (action : BotAction) : bool := match truthy (ba_url action) with Some _ => true | None => false end.
Definition options (actions : list BotAction) : list BotAction := List.filter (fun a => negb (is_link a)) actions.
Definition links (actions : list BotAction) : list (text * text) :=
  omap (fun a => (fun url => (ba_label a, url)) <$> truthy (ba_url a)) actions.

Definition menu_of (actions : list BotAction) (refreshAction : option text) : MenuState :=
  mkMenu (map ba_id (options actions)) (map ba_label (options actions)) (links actions) refreshAction.

Section Bridge.
  Context {W : Type} `{World W} `{Whatsapp} `{Texts} `{Unicode} `{Letters}.
  Variable dialogs : list (BotDialog W).

Abbreviation BM := (M (bridge W)).

Definition wb_accounts (s : bridge W) : account_state := accounts (wb_world s).
Definition wb_now (s : bridge W) : time := ac_now (wb_accounts s).

(** What a dialog does happens in the world. *)
Definition in_world {A} (m : M W A) : BM A := zoom wb_world (fun w s => s <| wb_world := w |>) m.

(** ** Sending *)

(** One call of the socket: the number of the message, or its error *)
Definition call (jid : text) (message : Outgoing) : BM N :=
  s ← get;
  modify (fun s => s <| wb_calls := S (wb_calls s) |>) ;;
  match send_error (wb_calls s) with
  | Some e => throw e
  | None => modify (fun s => s <| wb_sent := (jid, message) :: wb_sent s |>) ;; mret (message_id (wb_calls s))
  end.

(** [if (!this.sock) throw …] *)
Definition need_sock : BM unit := s ← get; ensure (wb_sock s) NOT_CONNECTED.

(** [sendMessage]: an error is only logged. *)
Definition sendMessage (jid t : text) : BM unit :=
  s ← get;
  if wb_sock s then
    try_catch (call jid (OutText (if is_empty (trim t) then EMPTY_MESSAGE else t)) ;; mret tt) (fun _ => mret tt)
  else mret tt.

(** [WhatsappMenuMessages.track] *)
Definition track (userId : uuid) (message : N) : BM unit :=
  modify (fun s => s <| wb_messages := redis_set (wb_messages s) (wb_now s) userId
    (default [] (redis_get (wb_messages s) (wb_now s) userId) ++ [message]) MESSAGES_TTL_SECONDS |>).

(** [forget] *)
Definition without_poll (id : N) (polls : list StoredPoll) : list StoredPoll := List.filter (fun p => negb (po_id p =? id)%N) polls.

Definition forgetMenuPoll (jid : text) : BM unit :=
  modify (fun s => s <| wb_polls := match wb_menuPolls s !! jid with Some id => without_poll id (wb_polls s) | None => wb_polls s end |>
                     <| wb_menuPolls := delete jid (wb_menuPolls s) |>).

Definition sendMenuMessage (jid : text) (userId : uuid) (t : text) : BM unit :=
  need_sock ;;
  forgetMenuPoll jid ;;
  id ← call jid (OutText t);
  track userId id.

Definition sendMenuImage (jid : text) (userId : uuid) (image : N) (caption : text) : BM unit :=
  need_sock ;;
  forgetMenuPoll jid ;;
  id ← call jid (OutImage image (Some caption));
  track userId id.

(** An error of these is logged by [send]. *)
Definition sendFile (jid : text) (message : Outgoing) : BM unit :=
  try_catch (need_sock ;; call jid message ;; mret tt) (fun _ => mret tt).

(** [canSend] *)
Definition canSend (options : list text) : bool :=
  polls_enabled && Nat.leb 2 (length options) && Nat.leb (length options) 12
  && Nat.eqb (length (dedup (map (fun o => truncate o MAX_OPTION_LENGTH) options))) (length options).

Definition fitsMenuPollQuestion (t : text) : bool := Nat.leb (length t) MAX_QUESTION_LENGTH.

(** [prune]: the ones whose time is over, then the oldest of too many *)
Definition prune (now : time) (polls : list StoredPoll) : list StoredPoll :=
  let live := List.filter (fun p => now - po_createdAt p <=? POLL_TTL_MS) polls in
  drop (S (length live) - MAX_POLLS) live.

(** [WhatsappPollService.send]: [null] also when the call failed *)
Definition send_poll (jid question : text) (options : list text) : BM (option N) :=
  if canSend options then
    let values := map (fun o => truncate o MAX_OPTION_LENGTH) options in
    try_catch
      (id ← call jid (OutPoll (truncate question MAX_QUESTION_LENGTH) values);
       modify (fun s => s <| wb_polls := without_poll id (prune (wb_now s) (wb_polls s)) ++ [mkPoll id jid values (wb_now s)] |>) ;;
       mret (Some id))
      (fun _ => mret None)
  else mret None.

Definition sendMenuPoll (jid : text) (userId : uuid) (options : list text) (question : text) : BM bool :=
  s ← get;
  if wb_sock s then
    sent ← send_poll jid question options;
    match sent with
    | None => mret false
    | Some id =>
        forgetMenuPoll jid ;;
        modify (fun s => s <| wb_menuPolls := <[jid := id]> (wb_menuPolls s) |>) ;;
        track userId id ;;
        mret true
    end
  else mret false.

Definition canSendMenuPoll (s : bridge W) (labels : list text) : bool := wb_sock s && canSend labels.

(** ** The text of a menu *)

Definition t_ (key : string) : text := translate key [].

Definition numbered_options (actions : list BotAction) (o : MenuOptions) : text :=
  let rows := map (map ba_label) (actionRows (options actions)) in
  let lines := (match rows with [] => [] | _ => [whatsappOptionRows rows] end)
               ++ (if mo_home o then [whatsappOptions [t_ "whatsapp.showMenu"] 0] else []) in
  match lines with
  | [] => []
  | _ => join BLANK_LINE [join NEWLINE lines; t_ (if mo_waiting o then "whatsapp.textOrNumberHint" else "whatsapp.numberHint")]
  end.

Definition render (t : text) (actions : list BotAction) (o : MenuOptions) (withOptions : bool) : text :=
  let lines := map (fun l => l.1 ++ js ": " ++ l.2) (links actions) in
  join BLANK_LINE ([whatsappCards t]
    ++ (match lines with [] => [] | _ => [join NEWLINE lines] end)
    ++ (if withOptions then match numbered_options actions o with [] => [] | n => [n] end else [])).

Definition sendPhoto (jid : text) (photo : N * option text) : BM unit := sendFile jid (OutImage photo.1 photo.2).

(** The menu as one poll, where its text fits the question *)
Definition poll_if (single : bool) (jid : text) (userId : uuid) (labels : list text) (question : text) : BM bool :=
  if single then sendMenuPoll jid userId labels question else mret false.

Definition sendMenu (jid : text) (userId : uuid) (t : text) (actions : list BotAction) (o : MenuOptions) : BM unit :=
  let labels := map ba_label (options actions) in
  s ← get;
  if Nat.eqb (length labels) 0 || negb (canSendMenuPoll s labels) then
    let rendered := render t actions o true in
    let message := match truthy (mo_footer o) with Some footer => rendered ++ BLANK_LINE ++ footer | None => rendered end in
    match mo_photo o with
    | None => sendMenuMessage jid userId message
    | Some photo =>
        if Nat.leb (length message) CAPTION_LIMIT then sendMenuImage jid userId photo.1 message
        else sendPhoto jid photo ;; sendMenuMessage jid userId message
    end
  else
    (match mo_photo o with Some photo => sendPhoto jid photo | None => mret tt end) ;;
    let body := render t actions (mkOptions false false None None) false in
    let single := negb (is_empty (trim body)) && negb (hasCards t) && negb (existsb is_link actions) && fitsMenuPollQuestion body in
    one ← poll_if single jid userId labels body;
    if (one : bool) then mret tt
    else
      when (negb (is_empty (trim body))) (sendMenuMessage jid userId body) ;;
      sent ← sendMenuPoll jid userId labels MENU_POLL_QUESTION;
      if (sent : bool) then mret tt else sendMenuMessage jid userId (numbered_options actions o).

(** ** The open menu *)

Definition getMenu (userId : uuid) : BM (option MenuState) := gets (fun s => redis_get (wb_menus s) (wb_now s) userId).

Definition saveMenu (userId : uuid) (actions : list BotAction) (refreshAction : option text) : BM unit :=
  modify (fun s => s <| wb_menus := redis_set (wb_menus s) (wb_now s) userId (menu_of actions refreshAction) MENU_TTL_SECONDS |>).

Definition clearMenu (userId : uuid) : BM unit := modify (fun s => s <| wb_menus := delete userId (wb_menus s) |>).

(** The roles of an account that is there *)
Definition sections (s : bridge W) (userId : uuid) : list Section_ :=
  let roles := match findById (wb_accounts s) userId with Some _ => role_names (wb_accounts s) userId | None => [] end in
  List.filter (fun section => existsb (fun role => bool_decide (role ∈ roles)) (se_roles section)) SECTIONS.

Definition sectionLabel (key : string) : text := t_ ("whatsapp.sections." ++ key).

(** The notice of an account that is not checked, as the messengers put it *)
Definition notice_text (n : Notice) : text :=
  match n with
  | NoticePending => translate "verification.pending" []
  | NoticeRejected reason _ => translate "verification.rejected" [("reason"%string, reason)]
  | NoticeFillIn _ => translate "verification.fillIn" []
  end.

Definition sendIfUnverified (jid : text) (userId : uuid) : BM bool :=
  s ← get;
  match messengerNotice (wb_accounts s) userId with
  | None => mret false
  | Some n => clearMenu userId ;; sendMessage jid (notice_text n) ;; mret true
  end.

Definition section_action (section : Section_) : BotAction := mkAction (se_action section) (sectionLabel (se_key section)) None None.

Definition sendMainMenu (jid : text) (userId : uuid) : BM unit :=
  stopped ← sendIfUnverified jid userId;
  if (stopped : bool) then mret tt
  else
    s ← get;
    match sections s userId with
    | [] => clearMenu userId ;; sendMessage jid (t_ "whatsapp.noSections")
    | l =>
        let actions := map section_action l in
        sendMenu jid userId (t_ "whatsapp.menuTitle") actions (mkOptions false false (Some (t_ "whatsapp.startHint")) None) ;;
        saveMenu userId actions None
    end.

Fixpoint any_session (l : list (BotDialog W)) (userId : uuid) : BM bool :=
  match l with
  | [] => mret false
  | dialog :: l => waiting ← in_world (hasSession dialog userId); if (waiting : bool) then mret true else any_session l userId
  end.

Definition waitingForText (userId : uuid) : BM bool := any_session dialogs userId.

(** ** Answers of the dialogs *)

Definition XLSX : string := "application/vnd.openxmlformats-officedocument.spreadsheetml.sheet".

Definition ends_with (suffix t : text) : bool := starts_with (reverse suffix) (reverse t).

Definition send (jid : text) (userId : uuid) (reply : BotReply) : BM unit :=
  if bool_decide (br_closed reply = Some ClosedExit) then sendMainMenu jid userId
  else
    (match br_document reply with
     | Some (file, fileName, caption) =>
         sendFile jid (OutDocument file fileName (if ends_with (js ".xlsx") fileName then XLSX else "application/octet-stream") caption)
     | None => mret tt
     end) ;;
    (match br_voice reply with Some audio => sendFile jid (OutVoice audio) | None => mret tt end) ;;
    let t := match truthy (br_locationButton reply) with Some _ => br_text reply ++ BLANK_LINE ++ t_ "whatsapp.locationHint" | None => br_text reply end in
    waiting ← waitingForText userId;
    sendMenu jid userId t (br_actions reply) (mkOptions waiting true None (br_photo reply)) ;;
    (match truthy (br_copyText reply) with Some copy => sendMenuMessage jid userId copy | None => mret tt end) ;;
    if Nat.eqb (length (options (br_actions reply))) 0 then clearMenu userId
    else saveMenu userId (br_actions reply) (br_refreshAction reply).

(** The menus a company has to buy *)
Definition locked_menu (s : bridge W) (userId : uuid) (action : text) : option CompanyFeature :=
  match paid_menu action with
  | Some f => if has_menu (wb_accounts s) userId f then None else Some f
  | None => None
  end.

Definition run (jid : text) (userId : uuid) (action : text) : BM unit :=
  stopped ← sendIfUnverified jid userId;
  if (stopped : bool) then mret tt
  else
    s ← get;
    match locked_menu s userId action with
    | Some f => sendMenu jid userId (translate "whatsapp.featureLocked" [("feature"%string, COMPANY_FEATURE_TITLES f)]) [] home_only
    | None =>
        match resolve dialogs action with
        | None => sendMainMenu jid userId
        | Some (dialog, action) =>
            reply ← in_world (try_catch (handleAction dialog userId action) unavailableReply);
            match reply with Some reply => send jid userId reply | None => mret tt end
        end
    end.

(** ** What comes in *)

Definition menu_buttons (menu : option MenuState) : list MenuButton :=
  match menu with
  | Some menu => imap (fun i action => mkButton (default [] (me_labels menu !! i)) action None) (me_actions menu)
  | None => []
  end.

Definition link_buttons (menu : option MenuState) : list MenuButton :=
  match menu with Some menu => map (fun l => mkButton l.1 [] (Some l.2)) (me_links menu) | None => [] end.

Definition section_buttons (s : bridge W) (userId : uuid) : list MenuButton :=
  map (fun section => mkButton (sectionLabel (se_key section)) (se_action section) None) (sections s userId).

(** [list.length ? findMenuButton(text, list) : null] *)
Definition found_in (t : text) (buttons : list MenuButton) : option MenuButton :=
  match buttons with [] => None | _ => findMenuButton t buttons end.

Definition named_button (s : bridge W) (userId : uuid) (t : text) (menu : option MenuState) : option MenuButton :=
  match found_in t (menu_buttons menu) with
  | Some button => Some button
  | None =>
      match found_in t (link_buttons menu) with
      | Some button => Some button
      | None => findMenuButton t (section_buttons s userId)
      end
  end.

Definition selectByName (jid : text) (userId : uuid) (t : text) (menu : option MenuState) : BM bool :=
  s ← get;
  match named_button s userId t menu with
  | None =>
      if namesSeveralButtons t (menu_buttons menu ++ link_buttons menu)
      then sendMessage jid (translate "whatsapp.ambiguous" [("text"%string, t)]) ;; mret true
      else mret false
  | Some button =>
      match truthy (mb_url button) with
      | Some url => sendMessage jid (js "🧭 " ++ mb_text button ++ NEWLINE ++ url) ;; mret true
      | None => run jid userId (mb_data button) ;; mret true
      end
  end.

(** The option of the open menu a number is *)
Definition numbered_action (menu : option MenuState) (index : option nat) : option text :=
  match menu, index with
  | Some menu, Some (S i) => me_actions menu !! i
  | _, _ => None
  end.

(** The form that waits for a text, the first that takes it *)
Fixpoint form_reply (l : list (BotDialog W)) (userId : uuid) (value : text) : BM (option BotReply) :=
  match l with
  | [] => mret None
  | dialog :: l =>
      waiting ← in_world (hasSession dialog userId);
      if (waiting : bool) then
        reply ← in_world (try_catch (handleText dialog userId value) unavailableReply);
        match reply with Some reply => mret (Some reply) | None => form_reply l userId value end
      else form_reply l userId value
  end.

Definition bridge_text (jid : text) (userId : uuid) (t : text) : BM bool :=
  let value := trim t in
  menu ← getMenu userId;
  if in_words MENU_WORDS (toLowerCase value) then sendMainMenu jid userId ;; mret true
  else match numbered_action menu (number value) with
  | Some action => run jid userId action ;; mret true
  | None =>
      reply ← form_reply dialogs userId value;
      match reply with
      | Some reply => send jid userId reply ;; mret true
      | None =>
          named ← selectByName jid userId value menu;
          if (named : bool) then mret true
          else match menu with
          | Some _ =>
              if in_words CANCEL_WORDS (toLowerCase value) then
                clearMenu userId ;; sendMenu jid userId (t_ "whatsapp.closed") [] home_only ;; mret true
              else mret false
          | None => mret false
          end
      end
  end.

(** [clearSessions] *)
Definition clearSessions (userId : uuid) : BM unit :=
  for_each dialogs (fun dialog => match clearSession dialog with Some clear => in_world (clear userId) | None => mret tt end).

Definition reset (userId : uuid) : BM unit := clearMenu userId ;; clearSessions userId.

Definition menuLabels (userId : uuid) : BM (option (list text)) :=
  menu ← getMenu userId;
  mret (match menu with Some menu => match me_labels menu with [] => None | l => Some l end | None => None end).

Definition handleVoiceChoice (jid : text) (userId : uuid) (t : text) : BM bool :=
  menu ← getMenu userId;
  match numbered_action menu (N.to_nat <$> parseChoice t) with
  | Some action => run jid userId action ;; mret true
  | None => selectByName jid userId t menu
  end.

(** [/^cg:(mine|sg):/] *)
Definition refreshes (action : text) : bool := starts_with (js "cg:mine:") action || starts_with (js "cg:sg:") action.

Definition refreshCargoMenu (jid : text) (userId : uuid) : BM unit :=
  menu ← getMenu userId;
  match menu ≫= me_refreshAction with
  | Some action => if refreshes action then run jid userId action else mret tt
  | None => mret tt
  end.

(** [dialog.handleX?.(…)], the first that answers *)
Fixpoint first_reply {A} (f : BotDialog W -> option (uuid -> A -> M W (option BotReply))) (l : list (BotDialog W)) (userId : uuid) (a : A) :
    BM (option BotReply) :=
  match l with
  | [] => mret None
  | dialog :: l =>
      reply ← match f dialog with Some handle => in_world (handle userId a) | None => mret None end;
      match reply with Some reply => mret (Some reply) | None => first_reply f l userId a end
  end.

(** [setIfAbsent] of the live location: only its first message is answered. *)
Definition first_live (userId : uuid) : BM bool :=
  s ← get;
  match redis_get (wb_live s) (wb_now s) userId with
  | Some _ => mret false
  | None => modify (fun s => s <| wb_live := redis_set (wb_live s) (wb_now s) userId tt LIVE_SILENT_SECONDS |>) ;; mret true
  end.

Definition bridge_location (jid : text) (userId : uuid) (latitude longitude : num) (live : bool) : BM bool :=
  edited ← (if live then first ← first_live userId; mret (negb first) else mret false);
  reply ← first_reply handleLocation dialogs userId (mkLocation latitude longitude edited);
  match reply with
  | Some reply => when (negb edited) (send jid userId reply) ;; mret true
  | None => mret false
  end.

Definition bridge_document (jid : text) (userId : uuid) (document : BotDocument) : BM bool :=
  reply ← first_reply handleDocument dialogs userId document;
  match reply with Some reply => send jid userId reply ;; mret true | None => mret false end.

Definition openAction (jid : text) (userId : uuid) (action : text) : BM bool :=
  if bool_decide (action = MAIN_MENU) then sendMainMenu jid userId ;; mret true
  else match resolve dialogs action with
  | None => mret false
  | Some _ => run jid userId action ;; mret true
  end.

(** *** Notices *)

(** The wait before a notice ([notificationQueue]) changes nothing but its instant. *)
Definition sendNotification (jid t : text) : BM unit := need_sock ;; call jid (OutText t) ;; mret tt.

Definition notify (userId : uuid) (t : text) (actions : list BotAction) : BM bool :=
  match jid_of userId with
  | None => mret false
  | Some jid =>
      let some := negb (Nat.eqb (length (options actions)) 0) in
      sendNotification jid (render t actions (mkOptions false some None None) true) ;;
      when some (saveMenu userId actions None) ;;
      mret true
  end.

Definition sendLocation (userId : uuid) (t : option text) (latitude longitude : num) : BM bool :=
  match jid_of userId with
  | None => mret false
  | Some jid =>
      (match truthy t with Some t => sendNotification jid t | None => mret tt end) ;;
      need_sock ;; call jid (OutLocation latitude longitude) ;; mret true
  end.

(** ** A vote of a poll *)

(** What a vote decrypts to: the poll and the chosen text, nothing when it was taken back or no
    key opens it *)
Record PollUpdate := mkVote { pv_poll : N; pv_selected : option text }.

(** [readVote]: a poll is used once. *)
Definition readVote (vote : PollUpdate) : BM (option (N * text * nat)) :=
  s ← get;
  match List.find (fun p => (po_id p =? pv_poll vote)%N) (wb_polls s) with
  | None => mret None
  | Some poll =>
      if POLL_TTL_MS <? wb_now s - po_createdAt poll then mret None
      else match pv_selected vote ≫= fun selected => find_index (fun v => bool_decide (v = selected)) (po_values poll) with
      | None => mret None
      | Some index =>
          modify (fun s => s <| wb_polls := without_poll (po_id poll) (wb_polls s) |>) ;;
          mret (Some (po_id poll, po_jid poll, index))
      end
  end.

(** [blockedBySubscription]: a failed check lets the message through. *)
Definition blockedBySubscription (jid : text) (userId : uuid) : BM bool :=
  result ← try_catch (a ← in_world (access userId); mret (Some a)) (fun _ => mret None);
  match result with
  | Some a =>
      if ac_allowed a then mret false
      else sendMessage jid (if ac_isDriver a then TRIAL_ENDED_TEXT else SUBSCRIPTION_REQUIRED_TEXT) ;; mret true
  | None => mret false
  end.

(** The part of [handlePollVote] for the polls of the menus *)
Definition menu_vote (vote : PollUpdate) : BM unit :=
  read ← readVote vote;
  match read with
  | None => mret tt
  | Some (poll, jid, index) =>
      s ← get;
      if bool_decide (wb_menuPolls s !! jid = Some poll) then
        modify (fun s => s <| wb_menuPolls := delete jid (wb_menuPolls s) |>) ;;
        match user_of jid with
        | None => mret tt
        | Some userId =>
            stopped ← blockedBySubscription jid userId;
            if (stopped : bool) then mret tt else bridge_text jid userId (text_of_N (N.of_nat (S index))) ;; mret tt
        end
      else mret tt
  end.

(** *** «۰» *)

(** [WhatsappMenuMessages.clear] with [deleteNotification]: what could not be deleted is kept. *)
Fixpoint delete_messages (jid : text) (messages : list N) : BM (list N) :=
  match messages with
  | [] => mret []
  | m :: messages =>
      gone ← try_catch (need_sock ;; call jid (OutDelete m) ;; mret true) (fun _ => mret false);
      failed ← delete_messages jid messages;
      mret (if (gone : bool) then failed else m :: failed)
  end.

Definition clear_messages (jid : text) (userId : uuid) : BM unit :=
  s ← get;
  failed ← delete_messages jid (default [] (redis_get (wb_messages s) (wb_now s) userId));
  modify (fun s => s <| wb_messages := match failed with
                                       | [] => delete userId (wb_messages s)
                                       | _ => redis_set (wb_messages s) (wb_now s) userId failed MESSAGES_TTL_SECONDS
                                       end |>).

(** [isHomeCommand] of a text that is one digit, and the part of [resetConversation] on menus *)
Definition home (jid : text) (userId : uuid) : BM unit :=
  clear_messages jid userId ;; reset userId ;; forgetMenuPoll jid ;; bridge_text jid userId (js "/start") ;; mret tt.

End Bridge.
