(* ===== verification/WhatsappMenuFacts.v ===== *)
(** * The dialogs in WhatsApp: what a number means, and what it may open

    Whatever is written, said or voted, the world of the dialogs moves only by the answers of a
    form and by actions that are open to the account; the number shown beside an option runs
    that option; and a vote that comes after a notice runs the notice's. *)

From S2P Require Import Prelude JsNumber JsString Json Effects Redis Enums FreeText TripTypes CompanyFeatures Accounts Invites AccountVerification AccountProperties SubscriptionAccess BotSessions MenuText WhatsappMenus.

(** ** What may move the world *)

Section Gate.
  Context {W : Type} `{World W} `{Whatsapp} `{Texts} `{Unicode} `{Letters}.
  Variable dialogs : list (BotDialog W).

(** One move of the world: a form asked whether it waits, its answer to a text, a place or a
    file, its reset, the check of a subscription; or an action opened by a callback, of an
    account that is checked and has the menu when it is one to be bought. *)
Inductive world_step : W -> W -> Prop :=
| step_waits u d w : d ∈ dialogs -> world_step w (final (hasSession d u) w)
| step_form u d t w : d ∈ dialogs -> world_step w (final (handleText d u t) w)
| step_location u d f l w : d ∈ dialogs -> handleLocation d = Some f -> world_step w (final (f u l) w)
| step_document u d f x w : d ∈ dialogs -> handleDocument d = Some f -> world_step w (final (f u x) w)
| step_clear u d f w : d ∈ dialogs -> clearSession d = Some f -> world_step w (final (f u) w)
| step_access u w : world_step w (final (access u) w)
| step_opens u callback d action w :
    resolve dialogs callback = Some (d, action) -> messengerNotice (accounts w) u = None ->
    (forall f, paid_menu callback = Some f -> has_menu (accounts w) u f = true) ->
    world_step w (final (handleAction d u action) w).

Abbreviation moved w0 := (fun s : bridge W => rtc world_step w0 (wb_world s)).

Lemma keeps_modify w0 f : (forall s : bridge W, wb_world (f s) = wb_world s) -> preserves (moved w0) (modify f).
Proof. intros Hf. apply preserves_modify. intros s Hs. by rewrite Hf. Qed.

Lemma keeps_world {A} w0 (m : M W A) : (forall w, world_step w (final m w)) -> preserves (moved w0) (in_world m).
Proof.
  intros Hm s Hs. unfold final, in_world, zoom. pose proof (Hm (wb_world s)) as Hw. unfold final in Hw.
  destruct (m (wb_world s)) as [r w]. cbn [snd] in *. exact (rtc_r _ _ _ Hs Hw).
Qed.

(** The answer to an error does nothing to the world. *)
Lemma final_unavailable {A} (m : M A (option BotReply)) w : final (try_catch m unavailableReply) w = final m w.
Proof.
  unfold final, try_catch. destruct (m w) as [[r|e] w1]; [done|]. unfold unavailableReply. destruct e; try done. by case_bool_decide.
Qed.

#[local] Ltac keep :=
  repeat first [ apply keeps_modify; intros ?; by repeat case_match | progress preserve_step ].

Lemma keeps_call w0 jid m : preserves (moved w0) (call jid m).
Proof. unfold call. keep. Qed.
#[local] Hint Resolve keeps_call : preserves.

Lemma keeps_need w0 : preserves (moved w0) need_sock.
Proof. unfold need_sock. keep. Qed.
#[local] Hint Resolve keeps_need : preserves.

Lemma keeps_message w0 jid t : preserves (moved w0) (sendMessage jid t).
Proof. unfold sendMessage. keep. Qed.
#[local] Hint Resolve keeps_message : preserves.

Lemma keeps_track w0 u m : preserves (moved w0) (track u m).
Proof. unfold track. keep. Qed.
#[local] Hint Resolve keeps_track : preserves.

Lemma keeps_forget w0 jid : preserves (moved w0) (forgetMenuPoll jid).
Proof. unfold forgetMenuPoll. keep. Qed.
#[local] Hint Resolve keeps_forget : preserves.

Lemma keeps_menu_message w0 jid u t : preserves (moved w0) (sendMenuMessage jid u t).
Proof. unfold sendMenuMessage. keep. Qed.
#[local] Hint Resolve keeps_menu_message : preserves.

Lemma keeps_menu_image w0 jid u i t : preserves (moved w0) (sendMenuImage jid u i t).
Proof. unfold sendMenuImage. keep. Qed.
#[local] Hint Resolve keeps_menu_image : preserves.

Lemma keeps_file w0 jid m : preserves (moved w0) (sendFile jid m).
Proof. unfold sendFile. keep. Qed.
#[local] Hint Resolve keeps_file : preserves.

Lemma keeps_poll w0 jid u o q : preserves (moved w0) (sendMenuPoll jid u o q).
Proof. unfold sendMenuPoll, send_poll. keep. Qed.
#[local] Hint Resolve keeps_poll : preserves.

Lemma keeps_menu w0 jid u t a o : preserves (moved w0) (sendMenu jid u t a o).
Proof. unfold sendMenu, poll_if, sendPhoto. keep. Qed.
#[local] Hint Resolve keeps_menu : preserves.

Lemma keeps_get_menu w0 u : preserves (moved w0) (getMenu u).
Proof. unfold getMenu. keep. Qed.
#[local] Hint Resolve keeps_get_menu : preserves.

Lemma keeps_save w0 u a r : preserves (moved w0) (saveMenu u a r).
Proof. unfold saveMenu. keep. Qed.
#[local] Hint Resolve keeps_save : preserves.

Lemma keeps_clear w0 u : preserves (moved w0) (clearMenu u).
Proof. unfold clearMenu. keep. Qed.
#[local] Hint Resolve keeps_clear : preserves.

Lemma keeps_unverified w0 jid u : preserves (moved w0) (sendIfUnverified jid u).
Proof. unfold sendIfUnverified. keep. Qed.
#[local] Hint Resolve keeps_unverified : preserves.

Lemma keeps_main w0 jid u : preserves (moved w0) (sendMainMenu jid u).
Proof. unfold sendMainMenu. keep. Qed.
#[local] Hint Resolve keeps_main : preserves.

Lemma keeps_waiting w0 u l : (forall d, d ∈ l -> d ∈ dialogs) -> preserves (moved w0) (any_session l u).
Proof.
  induction l as [|d l IH]; intros Hl; cbn [any_session]; [keep|].
  apply preserves_bind; [apply keeps_world; intros w; apply step_waits; set_solver|]. intros []; [keep|]. apply IH. set_solver.
Qed.

Lemma keeps_send w0 jid u r : preserves (moved w0) (send dialogs jid u r).
Proof. unfold send, waitingForText. pose proof (keeps_waiting w0 u dialogs) as Hw. keep. Qed.
#[local] Hint Resolve keeps_send : preserves.

Lemma sendMessage_ok jid t (s : bridge W) : result (sendMessage jid t) s = Ok tt.
Proof.
  unfold result, sendMessage. rewrite run_bind. unfold get. cbv beta iota. destruct (wb_sock s); [|done].
  unfold try_catch. by destruct ((call jid _ ;; mret tt) s) as [[[]|e] s1].
Qed.

(** A notice stops: the world stays and nothing more happens. *)
Lemma unverified_stops jid u (s : bridge W) n :
  messengerNotice (wb_accounts s) u = Some n -> exists s1, sendIfUnverified jid u s = (Ok true, s1) /\ wb_world s1 = wb_world s.
Proof.
  intros Hn. unfold sendIfUnverified. rewrite run_bind. unfold get. cbv beta iota. rewrite Hn. unfold clearMenu, modify.
  rewrite run_bind. cbv beta iota. rewrite run_bind. set (s0 := s <| wb_menus := _ |>).
  pose proof (sendMessage_ok jid (notice_text n) s0) as Hr. unfold result in Hr.
  assert (Hw : wb_world (final (sendMessage jid (notice_text n)) s0) = wb_world s).
  { unfold final, sendMessage. rewrite run_bind. unfold get. cbv beta iota. destruct (wb_sock s0); [|done].
    unfold try_catch. rewrite run_bind. unfold call. rewrite run_bind. unfold get. cbv beta iota. rewrite run_bind. unfold modify. cbv beta iota.
    by destruct (send_error _). }
  unfold final in Hw. destruct (sendMessage jid _ s0) as [[[]|e] s1]; [|done]. by exists s1.
Qed.

Lemma unverified_passes jid u (s : bridge W) : messengerNotice (wb_accounts s) u = None -> sendIfUnverified jid u s = (Ok false, s).
Proof. intros Hn. unfold sendIfUnverified. rewrite run_bind. unfold get. cbv beta iota. by rewrite Hn. Qed.

Lemma keeps_run w0 jid u action : preserves (moved w0) (run dialogs jid u action).
Proof.
  intros s Hs. unfold final, run. rewrite run_bind. destruct (messengerNotice (wb_accounts s) u) as [n|] eqn:En.
  - destruct (unverified_stops jid u s n En) as (s1 & -> & Hw). cbv beta iota. cbn [snd mret M_ret]. by rewrite Hw.
  - rewrite unverified_passes by done. cbv beta iota. rewrite run_bind. unfold get. cbv beta iota.
    unfold locked_menu. destruct (resolve dialogs action) as [[d a]|] eqn:Er.
    2:{ destruct (paid_menu action) as [f|]; [destruct (has_menu _ _ _)|]; (apply keeps_main || apply keeps_menu); exact Hs. }
    assert (Hrun : (forall f, paid_menu action = Some f -> has_menu (accounts (wb_world s)) u f = true) ->
      moved w0 (final (reply ← in_world (try_catch (handleAction d u a) unavailableReply);
                       match reply with Some reply => send dialogs jid u reply | None => mret tt end) s)).
    { intros Hp. unfold final. rewrite run_bind. unfold in_world, zoom.
      pose proof (final_unavailable (handleAction d u a) (wb_world s)) as Hf. unfold final in Hf.
      destruct (try_catch (handleAction d u a) unavailableReply (wb_world s)) as [r w]. cbn [snd] in Hf. subst w.
      assert (Hm : moved w0 (s <| wb_world := (handleAction d u a (wb_world s)).2 |>)).
      { exact (rtc_r _ _ _ Hs (step_opens u action d a (wb_world s) Er En Hp)). }
      destruct r as [[reply|]|e]; [exact (keeps_send w0 jid u reply _ Hm) | exact Hm | exact Hm]. }
    destruct (paid_menu action) as [f|] eqn:Ep.
    + fold (wb_accounts s) in Hrun. destruct (has_menu (wb_accounts s) u f) eqn:Eh; [|apply keeps_menu; exact Hs]. apply Hrun. by intros f' [= <-].
    + by apply Hrun.
Qed.
#[local] Hint Resolve keeps_run : preserves.

Lemma keeps_form w0 u t l : (forall d, d ∈ l -> d ∈ dialogs) -> preserves (moved w0) (form_reply l u t).
Proof.
  induction l as [|d l IH]; intros Hl; cbn [form_reply]; [keep|].
  apply preserves_bind; [apply keeps_world; intros w; apply step_waits; set_solver|].
  intros []; [|apply IH; set_solver]. apply preserves_bind; [|intros []; [keep | apply IH; set_solver]].
  apply keeps_world. intros w. rewrite final_unavailable. apply step_form. set_solver.
Qed.

Lemma keeps_first {A} w0 (f : BotDialog W -> option (uuid -> A -> M W (option BotReply))) u (x : A) l :
  (forall d g w, d ∈ l -> f d = Some g -> world_step w (final (g u x) w)) -> preserves (moved w0) (first_reply f l u x).
Proof.
  induction l as [|d l IH]; intros Hl; cbn [first_reply]; [keep|].
  apply preserves_bind; [|intros []; [keep | apply IH; set_solver]].
  destruct (f d) as [g|] eqn:Ef; [|keep]. apply keeps_world. intros w. eapply Hl; [|done]. set_solver.
Qed.

Lemma keeps_name w0 jid u t menu : preserves (moved w0) (selectByName dialogs jid u t menu).
Proof. unfold selectByName. keep. Qed.
#[local] Hint Resolve keeps_name : preserves.

Lemma keeps_text w0 jid u t : preserves (moved w0) (bridge_text dialogs jid u t).
Proof. unfold bridge_text. pose proof (keeps_form w0 u (trim t) dialogs) as Hf. keep. Qed.
#[local] Hint Resolve keeps_text : preserves.

Lemma keeps_reset w0 u : preserves (moved w0) (reset dialogs u).
Proof.
  unfold reset, clearSessions. apply preserves_bind; [keep|]. intros _. apply preserves_for_each. intros d Hd.
  destruct (clearSession d) as [f|] eqn:Ef; [|keep]. apply keeps_world. intros w. by apply step_clear with (d := d).
Qed.
#[local] Hint Resolve keeps_reset : preserves.

Lemma keeps_notification w0 jid t : preserves (moved w0) (sendNotification jid t).
Proof. unfold sendNotification. keep. Qed.
#[local] Hint Resolve keeps_notification : preserves.

Lemma keeps_delete w0 jid l : preserves (moved w0) (delete_messages jid l).
Proof. induction l as [|m l IH]; cbn [delete_messages]; keep. Qed.
#[local] Hint Resolve keeps_delete : preserves.

Lemma keeps_blocked w0 jid u : preserves (moved w0) (blockedBySubscription jid u).
Proof.
  unfold blockedBySubscription. apply preserves_bind; [|intros ?; keep]. apply preserves_try_catch; [|intros ?; keep].
  apply preserves_bind; [apply keeps_world; intros w; apply step_access | intros ?; keep].
Qed.
#[local] Hint Resolve keeps_blocked : preserves.

(** ** Everything that comes in *)

Inductive Incoming :=
| InText (u : uuid) (t : text)
| InVoice (u : uuid) (t : text)
| InLocation (u : uuid) (latitude longitude : num) (live : bool)
| InDocument (u : uuid) (document : BotDocument)
| InHome (u : uuid)
| InRefresh (u : uuid)
| InAgent (u : uuid) (action : text)
| InNotice (u : uuid) (t : text) (actions : list BotAction)
| InVote (vote : PollUpdate).

Definition incoming (jid : text) (e : Incoming) : M (bridge W) unit :=
  match e with
  | InText u t => bridge_text dialogs jid u t ;; mret tt
  | InVoice u t => handleVoiceChoice dialogs jid u t ;; mret tt
  | InLocation u lat lon live => bridge_location dialogs jid u lat lon live ;; mret tt
  | InDocument u document => bridge_document dialogs jid u document ;; mret tt
  | InHome u => home dialogs jid u
  | InRefresh u => refreshCargoMenu dialogs jid u
  | InAgent u action => openAction dialogs jid u action ;; mret tt
  | InNotice u t actions => notify u t actions ;; mret tt
  | InVote vote => menu_vote dialogs vote
  end.

(** C20: A dialog opens only for those it is open to: whatever comes in, of whomever, by number,
    name, voice, vote, the agent or a refreshed list, the world of the dialogs moves only by
    the steps of [world_step]; an action runs in none but where its account is checked and,
    when the action is a menu to be bought, has that menu at that moment. *)
Theorem opens_only_open (jid : text) (e : Incoming) (s : bridge W) :
  rtc world_step (wb_world s) (wb_world (final (incoming jid e) s)).
Proof.
  cut (preserves (moved (wb_world s)) (incoming jid e)); [intros Hp; by apply (Hp s)|]. set (w0 := wb_world s). clearbody w0.
  destruct e as [u t|u t|u lat lon live|u document|u|u|u action|u t actions|vote]; cbn [incoming].
  - keep.
  - unfold handleVoiceChoice. keep.
  - unfold bridge_location, first_live. keep. apply keeps_first. intros d g w Hd Hg. by apply step_location with (d := d).
  - unfold bridge_document. keep. apply keeps_first. intros d g w Hd Hg. by apply step_document with (d := d).
  - unfold home, clear_messages. keep.
  - unfold refreshCargoMenu. keep.
  - unfold openAction. keep.
  - unfold notify. keep.
  - unfold menu_vote, readVote. keep.
Qed.

End Gate.

(** ** What is shown *)

Definition infix (x t : text) : Prop := exists a b, t = a ++ x ++ b.

Lemma infix_refl x : infix x x.
Proof. exists [], []. by rewrite app_nil_r. Qed.

Lemma infix_trans x y z : infix x y -> infix y z -> infix x z.
Proof. intros (a & b & ->) (a' & b' & ->). exists (a' ++ a), (b ++ b'). by rewrite <- !(assoc_L app). Qed.

Lemma infix_l x a b : infix x a -> infix x (a ++ b).
Proof. intros Hx. apply (infix_trans _ _ _ Hx). exists [], b. done. Qed.

Lemma infix_r x a b : infix x b -> infix x (a ++ b).
Proof. intros Hx. apply (infix_trans _ _ _ Hx). exists a, []. by rewrite app_nil_r. Qed.

Lemma join_infix sep l x : x ∈ l -> infix x (join sep l).
Proof.
  assert (Hgo : forall l acc, infix x acc \/ x ∈ l -> infix x (foldl (fun acc y => acc ++ sep ++ y) acc l)).
  { clear. induction l as [|y l IH]; intros acc Hx; cbn [foldl]; [by destruct Hx as [?|?%not_elem_of_nil]|].
    apply IH. destruct Hx as [Hx|Hx]; [left; by apply infix_l|]. apply elem_of_cons in Hx as [->|Hx]; [|by right].
    left. apply infix_r, infix_r, infix_refl. }
  destruct l as [|y l]; [by intros ?%not_elem_of_nil|]. intros Hx. apply Hgo. apply elem_of_cons in Hx as [->|Hx]; [left; apply infix_refl | by right].
Qed.

Lemma concat_add rows a : concat (add_to_rows rows a) = concat rows ++ [a].
Proof.
  induction rows as [|row rows IH]; [done|]. cbn [add_to_rows]. destruct rows as [|row' rows].
  - destruct (ba_row a) as [r|], row as [|first row]; try case_bool_decide; cbn [concat]; by rewrite ?app_nil_r.
  - cbn [concat] in *. rewrite IH. by rewrite !(assoc_L app).
Qed.

Lemma concat_rows l : concat (actionRows l) = l.
Proof.
  assert (Hgo : forall rows, concat (foldl add_to_rows rows l) = concat rows ++ l).
  { induction l as [|a l IH]; intros rows; cbn [foldl]; [by rewrite app_nil_r|]. rewrite IH, concat_add. by rewrite <- (assoc_L app). }
  apply Hgo.
Qed.

Lemma row_lines_have rows : forall n k label, concat rows !! k = Some label ->
  exists line, line ∈ row_lines n rows /\ infix (option_line (n + k) label) line.
Proof.
  induction rows as [|row rows IH]; intros n k label Hk; [done|]. cbn [concat row_lines] in *. cbv zeta.
  apply lookup_app_Some in Hk as [Hk|[Hlen Hk]].
  - assert (Hi : option_line (n + k) label ∈ imap (fun i label => option_line (n + i) label) row).
    { apply elem_of_lookup_imap. by exists k, label. }
    destruct (_ && _).
    + exists (join (js "    ") (imap (fun i label => option_line (n + i) label) row)). split; [apply elem_of_app; left; by apply list_elem_of_singleton|].
      by apply join_infix.
    + exists (option_line (n + k) label). split; [apply elem_of_app; by left | apply infix_refl].
  - destruct (IH (n + length row)%nat (k - length row)%nat label Hk) as (line & Hline & Hin).
    exists line. split; [apply elem_of_app; by right|]. by replace (n + k)%nat with (n + length row + (k - length row))%nat by lia.
Qed.

(** The number [k] is beside [label] in one of these messages: a line of a text, or the [k]th
    answer of a poll. *)
Definition shown (jid : text) (k : nat) (label : text) (l : list (text * Outgoing)) : Prop :=
  exists m, (jid, m) ∈ l /\
    match m with
    | OutText t | OutImage _ (Some t) => infix (option_line k label) t
    | OutPoll _ values => values !! pred k = Some (truncate label MAX_OPTION_LENGTH)
    | _ => False
    end.

Section Shown.
  Context {W : Type} `{World W} `{Whatsapp} `{Texts} `{Unicode} `{Letters}.
  Variable dialogs : list (BotDialog W).
  Implicit Types (s : bridge W).

Lemma numbered_shows actions o k a : options actions !! k = Some a -> infix (option_line (S k) (ba_label a)) (numbered_options actions o).
Proof.
  intros Hk. unfold numbered_options. cbv zeta.
  assert (Hc : concat (map (map ba_label) (actionRows (options actions))) !! k = Some (ba_label a)).
  { rewrite <- concat_map, concat_rows. rewrite list_lookup_fmap, Hk. done. }
  destruct (map (map ba_label) (actionRows (options actions))) as [|row rows] eqn:E; [done|].
  cbn [app]. apply (infix_trans _ (whatsappOptionRows (row :: rows))).
  - destruct (row_lines_have (row :: rows) 1 k (ba_label a) Hc) as (line & Hl & Hi). apply (infix_trans _ _ _ Hi). unfold whatsappOptionRows. by apply join_infix.
  - apply (infix_trans _ (join NEWLINE (whatsappOptionRows (row :: rows) :: (if mo_home o then [whatsappOptions [t_ "whatsapp.showMenu"] 0] else [])))).
    + apply join_infix. by left.
    + apply join_infix. by left.
Qed.

Lemma render_shows t actions o k a : options actions !! k = Some a -> infix (option_line (S k) (ba_label a)) (render t actions o true).
Proof.
  intros Hk. pose proof (numbered_shows actions o k a Hk) as Hn. unfold render. cbv zeta.
  apply (infix_trans _ _ _ Hn). apply join_infix. rewrite !elem_of_app. right; right.
  destruct (numbered_options actions o) as [|c n] eqn:E; [|by apply list_elem_of_singleton].
  destruct Hn as (x & y & E'). unfold option_line, faDigits in E'. exfalso. clear -E'. destruct x; [|done].
  pose proof (f_equal length E') as El. rewrite !length_app in El. change (length (js "- ")) with 2%nat in El. cbn [length] in El. lia.
Qed.

Lemma call_run jid m s :
  call jid m s = match send_error (wb_calls s) with
                 | Some e => (Err e, s <| wb_calls := S (wb_calls s) |>)
                 | None => (Ok (message_id (wb_calls s)), (s <| wb_calls := S (wb_calls s) |>) <| wb_sent := (jid, m) :: wb_sent s |>)
                 end.
Proof. unfold call. rewrite run_bind. unfold get. cbv beta iota. rewrite run_bind. unfold modify. cbv beta iota. by destruct (send_error _). Qed.

Lemma call_Ok jid m s id s1 : call jid m s = (Ok id, s1) -> wb_sent s1 = (jid, m) :: wb_sent s /\ wb_world s1 = wb_world s.
Proof. unfold call. intros Hr. run_inv. destruct (send_error _); run_inv. done. Qed.

Lemma menu_message_Ok jid u t s r s1 : sendMenuMessage jid u t s = (Ok r, s1) -> wb_sent s1 = (jid, OutText t) :: wb_sent s /\ wb_world s1 = wb_world s.
Proof.
  unfold sendMenuMessage, need_sock, forgetMenuPoll, track. intros Hr. run_inv.
  match goal with Hc : call _ _ _ = _ |- _ => apply call_Ok in Hc as [E Ew] end. done.
Qed.

Lemma menu_image_Ok jid u i t s r s1 : sendMenuImage jid u i t s = (Ok r, s1) -> wb_sent s1 = (jid, OutImage i (Some t)) :: wb_sent s /\ wb_world s1 = wb_world s.
Proof.
  unfold sendMenuImage, need_sock, forgetMenuPoll, track. intros Hr. run_inv.
  match goal with Hc : call _ _ _ = _ |- _ => apply call_Ok in Hc as [E Ew] end. done.
Qed.

(** A poll that went out shows its values; one that did not has sent nothing. *)
Lemma menu_poll_Ok jid u labels q s b s1 : sendMenuPoll jid u labels q s = (Ok b, s1) ->
  wb_world s1 = wb_world s /\
  if b then exists q', wb_sent s1 = (jid, OutPoll q' (map (fun o => truncate o MAX_OPTION_LENGTH) labels)) :: wb_sent s else wb_sent s1 = wb_sent s.
Proof.
  unfold sendMenuPoll. intros Hr. run_inv. destruct (wb_sock s); [|by run_inv].
  apply bind_Ok_inv in Hr as (sent & s2 & Hp & Hr).
  assert (Hsent : wb_world s2 = wb_world s /\ match sent with
    | Some _ => exists q', wb_sent s2 = (jid, OutPoll q' (map (fun o => truncate o MAX_OPTION_LENGTH) labels)) :: wb_sent s
    | None => wb_sent s2 = wb_sent s end).
  { unfold send_poll in Hp. destruct (canSend labels); [|by run_inv]. cbv zeta in Hp. unfold try_catch in Hp.
    rewrite run_bind, call_run in Hp. destruct (send_error (wb_calls s)); cbv beta iota in Hp.
    - rewrite run_ret in Hp. apply run_Ok_inv in Hp as [<- <-]. done.
    - rewrite run_bind in Hp. unfold modify in Hp. cbv beta iota in Hp. rewrite run_ret in Hp. apply run_Ok_inv in Hp as [<- <-].
      split; [done|]. by eexists. }
  destruct Hsent as [Hw Hs]. destruct sent as [id|].
  - unfold forgetMenuPoll, track in Hr. run_inv. done.
  - by run_inv.
Qed.

Lemma file_sent jid m s r s1 : sendFile jid m s = (r, s1) -> wb_world s1 = wb_world s /\ exists new, wb_sent s1 = new ++ wb_sent s.
Proof.
  unfold sendFile, try_catch, need_sock. rewrite run_bind. rewrite run_bind. unfold get. cbv beta iota. unfold ensure.
  destruct (wb_sock s); [|intros [= <- <-]; split; [done | by exists []]]. rewrite run_ret. cbv beta iota.
  rewrite run_bind, call_run. destruct (send_error (wb_calls s)); cbv beta iota; rewrite ?run_ret; intros [= <- <-]; (split; [done|]).
  - by exists [].
  - by exists [(jid, m)].
Qed.

Lemma photo_sent jid photo s r s1 :
  (match photo with Some photo => sendPhoto jid photo | None => mret tt end) s = (r, s1) ->
  wb_world s1 = wb_world s /\ exists new, wb_sent s1 = new ++ wb_sent s.
Proof. destruct photo as [photo|]; [apply file_sent|]. rewrite run_ret. intros [= <- <-]. split; [done|]. by exists []. Qed.

(** A menu that went out shows each option beside its number. *)
Lemma sendMenu_shows jid u t actions o s s1 : sendMenu jid u t actions o s = (Ok tt, s1) ->
  wb_world s1 = wb_world s /\
  exists new, wb_sent s1 = new ++ wb_sent s /\ forall k a, options actions !! k = Some a -> shown jid (S k) (ba_label a) new.
Proof.
  unfold sendMenu. cbv zeta. intros Hr. apply bind_Ok_inv in Hr as (s' & s0 & Hg & Hr). unfold get in Hg. injection Hg as <- <-.
  set (labels := map ba_label (options actions)) in *.
  set (message := match truthy (mo_footer o) with Some footer => _ | None => _ end) in Hr.
  assert (Hmessage : forall k a, options actions !! k = Some a -> infix (option_line (S k) (ba_label a)) message).
  { intros k a Hk. pose proof (render_shows t actions o k a Hk). subst message. destruct (truthy (mo_footer o)); [by apply infix_l | done]. }
  assert (Hpoll : forall k a new, options actions !! k = Some a -> (exists q, (jid, OutPoll q (map (fun o => truncate o MAX_OPTION_LENGTH) labels)) ∈ new) -> shown jid (S k) (ba_label a) new).
  { intros k a new Hk (q & Hq). eexists. split; [exact Hq|]. cbn [pred]. subst labels. by rewrite !list_lookup_fmap, Hk. }
  destruct (_ || _) in Hr.
  - assert (Htext : forall s2 r s3 new, sendMenuMessage jid u message s2 = (Ok r, s3) -> wb_world s2 = wb_world s -> wb_sent s2 = new ++ wb_sent s ->
      wb_world s3 = wb_world s /\ exists new, wb_sent s3 = new ++ wb_sent s /\ forall k a, options actions !! k = Some a -> shown jid (S k) (ba_label a) new).
    { intros s2 r s3 new Hm Hw Hs. apply menu_message_Ok in Hm as [Es Ew]. split; [congruence|]. exists ((jid, OutText message) :: new).
      split; [by rewrite Es, Hs|]. intros k a Hk. eexists. split; [by left|]. by apply Hmessage. }
    destruct (mo_photo o) as [photo|]; [|by apply (Htext s _ _ [] Hr)].
    destruct (Nat.leb _ _).
    + apply menu_image_Ok in Hr as [Es Ew]. split; [done|]. eexists [_]. split; [exact Es|]. intros k a Hk. eexists. split; [by left|]. by apply Hmessage.
    + apply bind_Ok_inv in Hr as (r0 & s2 & Hp & Hr). apply file_sent in Hp as (Hw & new & Hs). by apply (Htext s2 _ _ new Hr).
  - apply bind_Ok_inv in Hr as (r0 & s2 & Hp & Hr). apply photo_sent in Hp as (Hw2 & new2 & Hs2). cbv zeta in Hr.
    apply bind_Ok_inv in Hr as (one & s3 & Hq1 & Hr).
    assert (Hq3 : wb_world s3 = wb_world s /\ exists new3, wb_sent s3 = new3 ++ wb_sent s /\
      (one = true -> exists q, (jid, OutPoll q (map (fun o => truncate o MAX_OPTION_LENGTH) labels)) ∈ new3)).
    { unfold poll_if in Hq1. destruct (_ && _) in Hq1.
      - apply menu_poll_Ok in Hq1 as (Hw3 & Hs3). split; [congruence|]. destruct one.
        + destruct Hs3 as (q & ->). rewrite Hs2. eexists (_ :: new2). split; [done|]. intros _. exists q. by left.
        + rewrite Hs3, Hs2. by exists new2.
      - rewrite run_ret in Hq1. apply run_Ok_inv in Hq1 as [<- <-]. rewrite Hs2. split; [congruence|]. by exists new2. }
    destruct Hq3 as (Hw3 & new3 & Hs3 & Hone). destruct one.
    { rewrite run_ret in Hr. injection Hr as <-. split; [done|]. exists new3. split; [done|]. intros k a Hk. apply (Hpoll k a new3 Hk). by apply Hone. }
    apply bind_Ok_inv in Hr as (r4 & s4 & Hb & Hr).
    assert (Hq4 : wb_world s4 = wb_world s /\ exists new4, wb_sent s4 = new4 ++ wb_sent s).
    { unfold when in Hb. destruct (negb _) in Hb.
      - apply menu_message_Ok in Hb as [Es Ew]. split; [congruence|]. rewrite Es, Hs3. by eexists (_ :: new3).
      - rewrite run_ret in Hb. apply run_Ok_inv in Hb as [_ <-]. split; [done|]. by exists new3. }
    destruct Hq4 as (Hw4 & new4 & Hs4). apply bind_Ok_inv in Hr as (sent & s5 & Hp5 & Hr). apply menu_poll_Ok in Hp5 as (Hw5 & Hs5). destruct sent.
    + rewrite run_ret in Hr. injection Hr as <-. destruct Hs5 as (q & Es5). split; [congruence|]. rewrite Es5, Hs4. eexists (_ :: new4). split; [done|].
      intros k a Hk. apply (Hpoll k a _ Hk). exists q. by left.
    + apply menu_message_Ok in Hr as [Es Ew]. split; [congruence|]. rewrite Es, Hs5, Hs4. eexists (_ :: new4). split; [done|].
      intros k a Hk. eexists. split; [by left|]. by apply numbered_shows.
Qed.

(** ** What a number runs *)

(** Numbers of one to three digits, as they are shown, are read back. *)
Lemma number_shown k : (1 <= k <= 999)%nat -> number (trim (faDigits k)) = Some k.
Proof.
  intros Hk. assert (Hall : forallb (fun k => bool_decide (number (trim (faDigits k)) = Some k)) (seq 1 999) = true) by (vm_compute; reflexivity).
  rewrite forallb_forall in Hall. eapply bool_decide_eq_true_1, Hall. apply in_seq. lia.
Qed.

Lemma number_digits t k : number t = Some k -> forallb is_any_digit t = true.
Proof.
  unfold number. cbv zeta. destruct (_ && _) eqn:E; [|done]. intros _. apply andb_split in E as [E _]. apply andb_split in E as [E _].
  rewrite forallb_forall in E |- *. intros c Hc. specialize (E (latin_digit c) (in_map latin_digit t c Hc)). revert E. unfold is_any_digit, latin_digit.
  destruct (is_persian_digit c) eqn:E1; [by rewrite orb_true_r|]. destruct (is_arabic_digit c) eqn:E2; [by rewrite !orb_true_r|]. intros ->. done.
Qed.

(** No menu word is of digits. *)
Lemma digits_no_menu_word t : forallb is_any_digit t = true -> in_words MENU_WORDS t = false.
Proof.
  intros Ht. unfold in_words. apply bool_decide_eq_false. intros Hin.
  assert (Hall : forallb (fun w => negb (forallb is_any_digit w)) MENU_WORDS = true) by (vm_compute; reflexivity).
  rewrite forallb_forall in Hall. specialize (Hall t (proj1 (list_elem_of_In _ _) Hin)). by rewrite Ht in Hall.
Qed.

(** The open menu decides what a number is. *)
Lemma number_runs (Hcase : forall t, forallb is_any_digit t = true -> toLowerCase t = t) jid u t k menu action s :
  getMenu u s = (Ok (Some menu), s) -> number (trim t) = Some (S k) -> me_actions menu !! k = Some action ->
  bridge_text dialogs jid u t s = (run dialogs jid u action ;; mret true) s.
Proof.
  intros Hm Hn Ha. unfold bridge_text. cbv zeta. rewrite run_bind, Hm. cbv beta iota.
  pose proof (number_digits _ _ Hn) as Hd. rewrite (Hcase _ Hd), digits_no_menu_word by done. rewrite Hn. cbn [numbered_action]. by rewrite Ha.
Qed.

Lemma run_send_menu jid u reply s s1 : br_closed reply <> Some ClosedExit -> send dialogs jid u reply s = (Ok tt, s1) ->
  exists new, wb_sent s1 = new ++ wb_sent s /\ forall k a, options (br_actions reply) !! k = Some a ->
    shown jid (S k) (ba_label a) new /\
    wb_menus s1 !! u = Some (menu_of (br_actions reply) (br_refreshAction reply), wb_now s1 + MENU_TTL_SECONDS * 1000).
Proof.
  intros Hclosed. unfold send. rewrite bool_decide_eq_false_2 by done. intros Hr.
  apply bind_Ok_inv in Hr as (r1 & s2 & Hd & Hr).
  assert (Hq2 : exists new, wb_sent s2 = new ++ wb_sent s).
  { destruct (br_document reply) as [[[file name] caption]|]; [by apply file_sent in Hd as [_ Hd]|].
    rewrite run_ret in Hd. apply run_Ok_inv in Hd as [_ <-]. by exists []. }
  apply bind_Ok_inv in Hr as (r3 & s3 & Hv & Hr).
  assert (Hq3 : exists new, wb_sent s3 = new ++ wb_sent s2).
  { destruct (br_voice reply) as [audio|]; [by apply file_sent in Hv as [_ Hv]|].
    rewrite run_ret in Hv. apply run_Ok_inv in Hv as [_ <-]. by exists []. }
  cbv zeta in Hr. apply bind_Ok_inv in Hr as (waiting & s4 & Hw & Hr).
  assert (Hq4 : wb_sent s4 = wb_sent s3).
  { clear -Hw. unfold waitingForText in Hw. revert s3 Hw. induction dialogs as [|d l IH]; intros s3; cbn [any_session].
    - rewrite run_ret. by intros [= _ <-].
    - rewrite run_bind. unfold in_world, zoom. destruct (hasSession d u (wb_world s3)) as [[[]|e] w]; [|intros Hr; by rewrite (IH _ Hr)|done].
      rewrite run_ret. by intros [= _ <-]. }
  apply bind_Ok_inv in Hr as ([] & s5 & Hm & Hr). apply sendMenu_shows in Hm as (_ & new5 & Hs5 & Hshown).
  apply bind_Ok_inv in Hr as (r6 & s6 & Hc & Hr).
  assert (Hq6 : exists new, wb_sent s6 = new ++ wb_sent s5).
  { destruct (truthy (br_copyText reply)); [apply menu_message_Ok in Hc as [-> _]; by eexists [_]|].
    rewrite run_ret in Hc. apply run_Ok_inv in Hc as [_ <-]. by exists []. }
  destruct Hq2 as [new2 Hq2], Hq3 as [new3 Hq3], Hq6 as [new6 Hq6].
  assert (Hall : wb_sent s6 = (new6 ++ new5 ++ new3 ++ new2) ++ wb_sent s) by (rewrite Hq6, Hs5, Hq4, Hq3, Hq2; by rewrite <- !(assoc_L app)).
  assert (Hkeep : forall k a, options (br_actions reply) !! k = Some a -> shown jid (S k) (ba_label a) (new6 ++ new5 ++ new3 ++ new2)).
  { intros k a Hk. destruct (Hshown k a Hk) as (m & Hin & Hm). exists m. split; [|done]. rewrite !elem_of_app. tauto. }
  exists (new6 ++ new5 ++ new3 ++ new2). destruct (Nat.eqb_spec (length (options (br_actions reply))) 0) as [E|E].
  - unfold clearMenu, modify in Hr. injection Hr as <-. split; [exact Hall|]. intros k a Hk. apply lookup_lt_Some in Hk. lia.
  - unfold saveMenu, modify in Hr. injection Hr as <-. split; [exact Hall|]. intros k a Hk. split; [by apply (Hkeep k a)|].
    cbn [wb_menus]. unfold redis_set. exact (lookup_insert_eq _ _ _).
Qed.

(** C21: The number beside an option runs that option: when a dialog's reply has gone out, each of
    its options is shown beside its number, in a text or as a poll's answer; and for an hour,
    whatever else has happened since in the world of the dialogs and to the telephones, as long as
    no other menu took its place, that number, in whichever digits and before any form gets
    to see it, runs that option's action.  A number up to 999 may be typed as it is shown. *)
Theorem number_runs_shown (Hcase : forall t, forallb is_any_digit t = true -> toLowerCase t = t)
    (jid : text) (u : uuid) (reply : BotReply) (s s1 : bridge W) :
  br_closed reply <> Some ClosedExit -> send dialogs jid u reply s = (Ok tt, s1) ->
  exists new, wb_sent s1 = new ++ wb_sent s /\
  forall k a, options (br_actions reply) !! k = Some a ->
    shown jid (S k) (ba_label a) new /\
    ((k < 999)%nat -> number (trim (faDigits (S k))) = Some (S k)) /\
    forall s2 jid' t, wb_menus s2 !! u = wb_menus s1 !! u -> wb_now s2 <= wb_now s1 + MENU_TTL_SECONDS * 1000 -> number (trim t) = Some (S k) ->
      bridge_text dialogs jid' u t s2 = (run dialogs jid' u (ba_id a) ;; mret true) s2.
Proof.
  intros Hclosed Hsend. destruct (run_send_menu jid u reply s s1 Hclosed Hsend) as (new & Hnew & Hk). exists new. split; [done|].
  intros k a Ha. destruct (Hk k a Ha) as [Hshown Hmenu]. split; [done|]. split; [intros Hlt; apply number_shown; lia|].
  intros s2 jid' t Hsame Hnow Hn. apply (number_runs Hcase jid' u t k (menu_of (br_actions reply) (br_refreshAction reply))); [|done|].
  - unfold getMenu, gets, redis_get. rewrite Hsame, Hmenu. by rewrite (proj2 (Z.leb_le _ _) Hnow).
  - cbn [menu_of me_actions]. by rewrite list_lookup_fmap, Ha.
Qed.

(** ** A vote after a notice *)

Lemma notify_saves u t actions jid s s1 : jid_of u = Some jid -> options actions <> [] -> notify u t actions s = (Ok true, s1) ->
  wb_menus s1 !! u = Some (menu_of actions None, wb_now s1 + MENU_TTL_SECONDS * 1000) /\
  wb_world s1 = wb_world s /\ wb_polls s1 = wb_polls s /\ wb_menuPolls s1 = wb_menuPolls s.
Proof.
  intros Hj Ho. unfold notify. rewrite Hj. cbv zeta. intros Hr. apply bind_Ok_inv in Hr as (r & s2 & Hn & Hr).
  assert (Hq2 : wb_world s2 = wb_world s /\ wb_polls s2 = wb_polls s /\ wb_menuPolls s2 = wb_menuPolls s).
  { unfold sendNotification, need_sock in Hn. apply bind_Ok_inv in Hn as (r0 & s0 & Hs & Hn). run_inv.
    match goal with Hc : call _ _ _ = _ |- _ => rewrite call_run in Hc; destruct (send_error _); [done|]; by injection Hc as <- <- end. }
  destruct (Nat.eqb_spec (length (options actions)) 0) as [E|E]; [by apply length_zero_iff_nil in E|]. cbn [negb when] in Hr.
  unfold saveMenu in Hr. rewrite run_bind in Hr. unfold modify in Hr. cbv beta iota in Hr. rewrite run_ret in Hr. injection Hr as <-.
  split; [|exact Hq2]. exact (lookup_insert_eq _ _ _).
Qed.

Lemma small_numbers k : (k < 99)%nat -> number (trim (text_of_N (N.of_nat (S k)))) = Some (S k).
Proof.
  intros Hk. assert (Hall : forallb (fun k => bool_decide (number (trim (text_of_N (N.of_nat (S k)))) = Some (S k))) (seq 0 99) = true) by (vm_compute; reflexivity).
  rewrite forallb_forall in Hall. eapply bool_decide_eq_true_1, Hall. apply in_seq. lia.
Qed.

(** C28: A vote runs another menu's option.  A menu sent as a poll is still on the telephone and its
    poll still taken, when a notice with options of its own comes (a request to accept or
    refuse): a tap on the poll's [k]th answer then runs the notice's [k]th option, whatever the
    answer said. *)
Theorem vote_runs_notice (Hcase : forall t, forallb is_any_digit t = true -> toLowerCase t = t)
    (u : uuid) (jid t : text) (actions : list BotAction) (s s1 : bridge W) (poll : StoredPoll) (value : text) (k : nat) (a : BotAction)
    (allowed : SubscriptionAccess) :
  jid_of u = Some jid -> user_of jid = Some u ->
  notify u t actions s = (Ok true, s1) ->
  wb_menuPolls s !! jid = Some (po_id poll) -> List.find (fun p => (po_id p =? po_id poll)%N) (wb_polls s) = Some poll -> po_jid poll = jid ->
  wb_now s <= po_createdAt poll + POLL_TTL_MS ->
  find_index (fun v => bool_decide (v = value)) (po_values poll) = Some k -> (k < 99)%nat -> options actions !! k = Some a ->
  access u (wb_world s) = (Ok allowed, wb_world s) -> ac_allowed allowed = true ->
  exists s2, wb_world s2 = wb_world s /\ menu_vote dialogs (mkVote (po_id poll) (Some value)) s1 = (run dialogs jid u (ba_id a) ;; mret tt) s2.
Proof.
  intros Hj Hu Hn Hmp Hf Hpj Httl Hi Hk Ha Hacc Hal.
  destruct (notify_saves u t actions jid s s1 Hj) as (Hm & Hw & Hp & Hmp1); [by intros E; rewrite E in Ha | done |].
  assert (Hnow : wb_now s1 = wb_now s) by (unfold wb_now, wb_accounts; by rewrite Hw).
  unfold menu_vote, readVote. rewrite !run_bind. unfold get. cbv beta iota. cbn [pv_poll pv_selected]. rewrite Hp, Hf, Hnow.
  rewrite (proj2 (Z.ltb_ge _ _)) by lia. cbn [mbind option_bind]. rewrite Hi. rewrite run_bind. unfold modify. cbv beta iota. rewrite run_ret. cbv beta iota.
  rewrite run_bind. unfold get. cbv beta iota. rewrite bool_decide_eq_true_2 by (rewrite <- Hpj in Hmp; by rewrite <- Hmp, <- Hmp1). rewrite run_bind. cbv beta iota.
  rewrite Hpj, Hu. set (s2 := _ <| wb_menuPolls := _ |>). exists s2. split; [exact Hw|].
  assert (Hb : blockedBySubscription jid u s2 = (Ok false, s2)).
  { unfold blockedBySubscription. rewrite run_bind. unfold try_catch. rewrite run_bind. unfold in_world, zoom.
    assert (Hs2 : wb_world s2 = wb_world s) by exact Hw. rewrite Hs2, Hacc, <- Hs2. cbv beta iota. rewrite run_ret. cbv beta iota. rewrite Hal.
    by destruct s2. }
  rewrite run_bind, Hb. cbv beta iota.
  rewrite run_bind, (number_runs Hcase jid u _ k (menu_of actions None) (ba_id a) s2); [| |by apply small_numbers|].
  - rewrite !run_bind. by destruct (run dialogs jid u (ba_id a) s2) as [[[]|e] s3].
  - assert (Hm2 : wb_menus s2 !! u = wb_menus s1 !! u) by done. assert (Hn2 : wb_now s2 = wb_now s1) by done.
    unfold getMenu, gets, redis_get. rewrite Hm2, Hn2, Hm. rewrite (proj2 (Z.leb_le _ _)); [done|]. unfold MENU_TTL_SECONDS. lia.
  - cbn [menu_of me_actions]. by rewrite list_lookup_fmap, Ha.
Qed.

End Shown.

(** ** A company with its menu as a poll *)

(** The accounts and the actions that were run *)
Definition sample_world : Type := account_state * list text.

#[local] Instance sample_World : World sample_world := {|
  accounts := fst;
  access u := fun w => (Ok (mkAccess true subscribed false None None None), w)
|}.
#[local] Instance sample_whatsapp : Whatsapp := {|
  send_error n := None; message_id n := N.of_nat n; polls_enabled := true;
  jid_of u := if (u =? 1)%N then Some (js "989120000001") else None;
  user_of jid := if bool_decide (jid = js "989120000001") then Some 1%N else None
|}.
#[local] Instance sample_texts : Texts := {| translate key args := js key |}.
#[local] Instance sample_unicode : Unicode := {| nfkc t := t; toLowerCase t := t |}.
#[local] Instance sample_letters : Letters := {| letter_or_number c := (is_digit c || (1570 <=? c) && (c <=? 1740))%N |}.

Definition sample_dialog : BotDialog sample_world := {|
  entries := []; ownsAction id := starts_with (js "c:") id;
  handleAction u id := modify (fun w => (w.1, w.2 ++ [id])) ;; mret None;
  hasSession u := mret false; handleText u t := mret None;
  handleLocation := None; handleDocument := None; clearSession := None |}.

Definition sample_start : bridge sample_world := mkBridge _ (sample_accounts, []) true 0 ∅ ∅ ∅ [] ∅ [].

Definition plain_action (id label : string) : BotAction := mkAction (js id) (js label) None None.
Definition sample_reply : BotReply :=
  mkReply (js "بارهای شما") None [plain_action "c:mine" "📦 بارهای من"; plain_action "c:new" "➕ ثبت بار"] None None None None None None.
Definition request_actions : list BotAction := [plain_action "c:yes" "✅ قبول درخواست"; plain_action "c:no" "❌ رد"].

Definition sample_jid : text := js "989120000001".
Definition menu_sent : bridge sample_world := final (send [sample_dialog] sample_jid 1 sample_reply) sample_start.
Definition request_told : bridge sample_world := final (notify 1 (js "درخواست راننده") request_actions) menu_sent.
Definition sample_poll : StoredPoll := mkPoll 0 sample_jid [js "📦 بارهای من"; js "➕ ثبت بار"] 1700000000000.

Lemma number_runs_shown_witness :
  wb_sent menu_sent = [(sample_jid, OutPoll (js "بارهای شما") [js "📦 بارهای من"; js "➕ ثبت بار"])] /\
  bridge_text [sample_dialog] sample_jid 1 (js " ۲ ") menu_sent = (run [sample_dialog] sample_jid 1 (js "c:new") ;; mret true) menu_sent /\
  (wb_world (final (bridge_text [sample_dialog] sample_jid 1 (js " ۲ ")) menu_sent)).2 = [js "c:new"].
Proof.
  split; [vm_compute; reflexivity|]. split; [|vm_compute; reflexivity].
  destruct (number_runs_shown [sample_dialog] ltac:(done) sample_jid 1 sample_reply sample_start menu_sent) as (new & _ & Hk);
    [discriminate | vm_compute; reflexivity|].
  apply (Hk 1%nat (plain_action "c:new" "➕ ثبت بار")); [reflexivity | reflexivity | vm_compute; discriminate | vm_compute; reflexivity].
Defined.

(** The company taps «my loads» on its menu, and accepts the driver's request. *)
Lemma vote_runs_notice_witness :
  (exists s2, wb_world s2 = wb_world menu_sent /\
     menu_vote [sample_dialog] (mkVote 0 (Some (js "📦 بارهای من"))) request_told = (run [sample_dialog] sample_jid 1 (js "c:yes") ;; mret tt) s2) /\
  (wb_world (final (menu_vote [sample_dialog] (mkVote 0 (Some (js "📦 بارهای من")))) request_told)).2 = [js "c:yes"].
Proof.
  split; [|vm_compute; reflexivity].
  apply (vote_runs_notice [sample_dialog] ltac:(done) 1 sample_jid (js "درخواست راننده") request_actions menu_sent request_told sample_poll
           (js "📦 بارهای من") 0 (plain_action "c:yes" "✅ قبول درخواست") (mkAccess true subscribed false None None None));
    first [reflexivity | vm_compute; reflexivity | vm_compute; discriminate | lia].
Defined.
