(* ===== verification/LlmClient.v ===== *)
(** * The models: OpenAI first, the local one when it does not answer

    [src/services/common/llmClient.ts]: chat and vision, speech and embeddings; OpenAI is
    asked first and left alone for a while after an outage, a model that refuses
    temperature and top_p is no longer sent them, embeddings never come from the local model.
    The two models and how long they take are [Models]; the environment is part of the state.
    A handler runs from its start to its end; the requests that overlap are the pool of
    [client_step], of which each handler alone is a run ([ask_is_steps]). *)

From S2P Require Import Prelude JsNumber JsString Json.

(** ** Errors *)

(** What a call throws: a cancel of the user, an answer with a status (and the parameter a 400
    names), any error without an answer, or [LlmUnavailableError] *)
Inductive failure :=
| Cancelled
| Status (status : Z) (param : option text)
| NoAnswer
| LlmUnavailable.

#[export] Instance failure_eq_dec : EqDecision failure.
Proof. solve_decision. Defined.

(** [isOutage] *)
Definition isOutage (e : failure) : bool :=
  match e with
  | Status status _ => (500 <=? status) || bool_decide (status ∈ [401; 403; 404; 408; 429])
  | _ => true
  end.

Definition isCancel (e : failure) : bool := match e with Cancelled => true | _ => false end.

(** [rejectsSampling] *)
Definition rejectsSampling (e : failure) : bool :=
  match e with Status 400 (Some param) => bool_decide (param ∈ [js "temperature"; js "top_p"]) | _ => false end.

(** ** Requests *)

Record LlmMessage := mkMessage { lm_role : text; lm_content : text; lm_images : list text }.

Inductive LlmTier := TierLight | TierStrong.

Record LlmChatRequest := mkRequest {
  rq_messages : list LlmMessage;
  rq_format : option json;
  rq_temperature : option num;
  rq_top_p : option num;
  rq_model : option text;
  rq_timeoutMs : option Z;
  rq_tier : option LlmTier;
}.

Inductive ContentPart := TextPart (t : text) | ImagePart (url : text).
Inductive MessageContent := PlainContent (t : text) | PartsContent (parts : list ContentPart).

Record ChatBody := mkBody {
  cb_model : text;
  cb_messages : list (text * MessageContent);
  cb_format : option json;
  cb_temperature : option num;
  cb_top_p : option num;
}.

(** What went out, with its instant *)
Inductive Sent :=
| SentChat (body : ChatBody)
| SentSpeech (model language prompt : text)
| SentEmbeddings (model : text) (input : list text) (dimensions : Z)
| SentLocal (model : text) (request : LlmChatRequest).

(** To OpenAI, or to the local model *)
Definition to_openai (s : Sent) : bool := match s with SentLocal _ _ => false | _ => true end.

(** ** The state *)

(** Whole milliseconds for the times of the environment *)
Record llm_env := mkEnv {
  en_key : option text;
  en_model : option text;
  en_modelLight : option text;
  en_visionModel : option text;
  en_sttModel : option text;
  en_embeddingModel : option text;
  en_timeoutMs : option Z;
  en_sttTimeoutMs : option Z;
  en_retryAfterMs : option Z;
  en_dimensions : option Z;
  en_localModel : option text;
  en_localFallback : option text;
}.

Record llm_state := mkLlm {
  ll_now : time;
  ll_env : llm_env;
  ll_downUntil : time;
  ll_withoutSampling : list text;
  ll_calls : nat;
  ll_sent : list (time * Sent);
}.

(** The [n]th call: its answer and how long it takes *)
Class Models := {
  chat_answer : nat -> ChatBody -> option text + failure;
  speech_answer : nat -> Sent -> option text + failure;
  embed_answer : nat -> Sent -> list (Z * list num) + failure;
  local_answer : nat -> Sent -> option text + failure;
  lasts : nat -> Z;
}.

Definition LM (A : Type) : Type := llm_state -> (A + failure) * llm_state.

#[export] Instance LM_ret : MRet LM := fun _ a s => (inl a, s).
#[export] Instance LM_bind : MBind LM := fun _ _ k m s => match m s with (inl a, s1) => k a s1 | (inr e, s1) => (inr e, s1) end.

Definition fail {A} (e : failure) : LM A := fun s => (inr e, s).

(** [process.env.X || value] and [Number(process.env.X) || value] *)
Definition env_text (t : option text) : option text := match t with Some (c :: t) => Some (c :: t) | _ => None end.
Definition env_number (n : option Z) (value : Z) : Z := match n with Some n => if n =? 0 then value else n | None => value end.

Definition localFallback (e : llm_env) : bool := negb (bool_decide (en_localFallback e = Some (js "off"))).
Definition llmModel (e : llm_env) : text := default (js "qwen3:8b") (env_text (en_localModel e)).
Definition embeddingModel (e : llm_env) : text := default (js "text-embedding-3-large") (env_text (en_embeddingModel e)).

Record OpenAiConfig := mkConfig { oc_model : text; oc_timeoutMs : Z; oc_retryAfterMs : Z }.

Definition openAiConfig (e : llm_env) (model : option text) (timeoutMs : Z) : option OpenAiConfig :=
  match env_text (en_key e), env_text model with
  | Some _, Some model => Some (mkConfig model timeoutMs (env_number (en_retryAfterMs e) 60000))
  | _, _ => None
  end.

(** A request goes out. *)
Definition sends (x : Sent) (s : llm_state) : llm_state := (s <| ll_calls := S (ll_calls s) |>) <| ll_sent := (ll_now s, x) :: ll_sent s |>.

Section Client.
  Context `{Models}.

(** One request that may last [ms] at most: after that it is an error without an answer, as it
    is when there is no such deadline ([AbortSignal.timeout] of a negative number). *)
Definition withDeadline {A} (ms : Z) (sent : Sent) (answer : nat -> A + failure) : LM A := fun s =>
  let d := Z.max 0 (lasts (ll_calls s)) in
  let s1 := sends sent s in
  if ms <? 0 then (inr NoAnswer, s)
  else if d <=? ms then (answer (ll_calls s), s1 <| ll_now := ll_now s + d |>)
  else (inr NoAnswer, s1 <| ll_now := ll_now s + Z.max 0 ms |>).

(** The local model, which has no deadline but the request's own *)
Definition local_call (sent : Sent) : LM (option text) := fun s =>
  let d := Z.max 0 (lasts (ll_calls s)) in
  (local_answer (ll_calls s) sent, (sends sent s) <| ll_now := ll_now s + d |>).

(** Whether [openAiFirst] asks OpenAI: it is set up and not being left alone *)
Definition admitted (s : llm_state) (config : option OpenAiConfig) : option OpenAiConfig :=
  match config with
  | Some config => if ll_downUntil s <=? ll_now s then Some config else None
  | None => None
  end.

(** What [openAiFirst] keeps of an answer ([None]) or an error of OpenAI *)
Definition settled (config : OpenAiConfig) (o : option failure) (s : llm_state) : llm_state :=
  match o with
  | None => s <| ll_downUntil := 0 |>
  | Some e => if isOutage e then s <| ll_downUntil := ll_now s + oc_retryAfterMs config |> else s
  end.

(** [openAiFirst] of one request, from its start to its end; other requests may begin and end
    in between ([client_step]). *)
Definition openAiFirst {A} (config : option OpenAiConfig) (openAi : OpenAiConfig -> LM A) (local : LM A) (allowLocal : bool) : LM A := fun s =>
  let elsewhere s := if allowLocal then local s else (inr LlmUnavailable, s) in
  match admitted s config with
  | None => elsewhere s
  | Some config =>
      match openAi config s with
      | (inl answer, s1) => (inl answer, settled config None s1)
      | (inr e, s1) => if isCancel e then (inr e, s1) else elsewhere (settled config (Some e) s1)
      end
  end.

(** ** Chat *)

Definition imageMime (base64 : text) : text :=
  if starts_with (js "iVBOR") base64 then js "image/png"
  else if starts_with (js "UklGR") base64 then js "image/webp"
  else if starts_with (js "R0lGOD") base64 then js "image/gif"
  else js "image/jpeg".

Definition openAiMessage (m : LlmMessage) : text * MessageContent :=
  (lm_role m,
   match lm_images m with
   | [] => PlainContent (lm_content m)
   | images => PartsContent (TextPart (lm_content m) :: map (fun i => ImagePart (js "data:" ++ imageMime i ++ js ";base64," ++ i)) images)
   end).

Definition takes_sampling (s : llm_state) (model : text) : bool := negb (bool_decide (model ∈ ll_withoutSampling s)).

Definition chat_body (s : llm_state) (request : LlmChatRequest) (model : text) : ChatBody := {|
  cb_model := model;
  cb_messages := map openAiMessage (rq_messages request);
  cb_format := rq_format request;
  cb_temperature := if takes_sampling s model then rq_temperature request else None;
  cb_top_p := if takes_sampling s model then rq_top_p request else None |}.

(** [Math.min(config.timeoutMs, timeoutMs || Infinity)] *)
Definition wait_for (request : LlmChatRequest) (config : OpenAiConfig) : Z :=
  match rq_timeoutMs request with Some ms => if ms =? 0 then oc_timeoutMs config else Z.min (oc_timeoutMs config) ms | None => oc_timeoutMs config end.

Definition send_chat (request : LlmChatRequest) (config : OpenAiConfig) : LM (option text) := fun s =>
  let body := chat_body s request (oc_model config) in
  withDeadline (wait_for request config) (SentChat body) (fun n => chat_answer n body) s.

Definition openAiChat (request : LlmChatRequest) (config : OpenAiConfig) : LM text := fun s =>
  let response :=
    match send_chat request config s with
    | (inr e, s1) =>
        if rejectsSampling e && takes_sampling s1 (oc_model config) then
          send_chat request config (s1 <| ll_withoutSampling := oc_model config :: ll_withoutSampling s1 |>)
        else (inr e, s1)
    | answered => answered
    end in
  match response with
  | (inl content, s2) => (inl (default [] content), s2)
  | (inr e, s2) => (inr e, s2)
  end.

Definition ollamaChat (request : LlmChatRequest) : LM text := fun s =>
  match local_call (SentLocal (default (llmModel (ll_env s)) (rq_model request)) request) s with
  | (inl content, s1) => (inl (default [] content), s1)
  | (inr e, s1) => (inr e, s1)
  end.

Inductive AnswerSource := FromOpenAi | FromLocal.

Definition is_vision (request : LlmChatRequest) : bool := existsb (fun m => negb (Nat.eqb (length (lm_images m)) 0)) (rq_messages request).

(** [a || b] of two names of models *)
Definition or_text (a b : option text) : option text := match env_text a with Some t => Some t | None => b end.

Definition chat_model (e : llm_env) (request : LlmChatRequest) : option text :=
  if is_vision request then or_text (en_visionModel e) (en_model e)
  else match rq_tier request with Some TierLight => or_text (en_modelLight e) (en_model e) | _ => en_model e end.

Definition llmAnswer (request : LlmChatRequest) : LM (text * AnswerSource) := fun s =>
  openAiFirst (openAiConfig (ll_env s) (chat_model (ll_env s) request) (env_number (en_timeoutMs (ll_env s)) 15000))
    (fun config => content ← openAiChat request config; mret (content, FromOpenAi))
    (content ← ollamaChat request; mret (content, FromLocal))
    (localFallback (ll_env s)) s.

Definition llmChat (request : LlmChatRequest) : LM text := answer ← llmAnswer request; mret answer.1.

(** ** Speech *)

Record Transcript := mkTranscript { tr_text : text; tr_model : text }.

(** [readable]: [readFile] finds the audio; [local] is whisper. *)
Definition transcribeSpeech (readable : bool) (language prompt : text) (local : LM Transcript) : LM Transcript := fun s =>
  openAiFirst (openAiConfig (ll_env s) (en_sttModel (ll_env s)) (env_number (en_sttTimeoutMs (ll_env s)) 30000))
    (fun config =>
       if readable then
         let sent := SentSpeech (oc_model config) language prompt in
         t ← withDeadline (oc_timeoutMs config) sent (fun n => speech_answer n sent);
         mret (mkTranscript (default [] t) (js "openai/" ++ oc_model config))
       else fail NoAnswer)
    local (localFallback (ll_env s)) s.

(** ** Embeddings *)

(** [(a, b) => a.index - b.index] *)
Definition row_before (a b : Z * list num) : Prop := a.1 <= b.1.
#[export] Instance row_before_dec : RelDecision row_before.
Proof. intros a b. unfold row_before. apply _. Defined.

Definition embedMany (input : list text) : LM (list (list num)) := fun s =>
  match input with
  | [] => (inl [], s)
  | _ =>
      openAiFirst (openAiConfig (ll_env s) (Some (embeddingModel (ll_env s))) (env_number (en_timeoutMs (ll_env s)) 15000))
        (fun config =>
           let sent := SentEmbeddings (oc_model config) input (env_number (en_dimensions (ll_env s)) 1024) in
           rows ← withDeadline (oc_timeoutMs config) sent (fun n => embed_answer n sent);
           mret (map snd (merge_sort row_before rows)))
        (fail LlmUnavailable) false s
  end.

(** ** A client at work *)

(** What the services ask for, with time going by in between *)
Inductive Ask :=
| AskChat (request : LlmChatRequest)
| AskSpeech (readable : bool) (language prompt : text) (heard : Transcript)
| AskEmbed (input : list text)
| Pass (ms : Z).

Definition ask (a : Ask) (s : llm_state) : llm_state :=
  match a with
  | AskChat request => (llmAnswer request s).2
  | AskSpeech readable language prompt heard => (transcribeSpeech readable language prompt (mret heard) s).2
  | AskEmbed input => (embedMany input s).2
  | Pass ms => s <| ll_now := ll_now s + Z.max 0 ms |>
  end.

End Client.

(** ** Requests that overlap *)

(** What is on its way to OpenAI: the request, its configuration, and whether it is the second
    try of a chat, without temperature and top_p *)
Inductive Requested :=
| ForChat (request : LlmChatRequest)
| ForSpeech (readable : bool) (language prompt : text)
| ForEmbed (input : list text).

Record Flight := mkFlight { fl_request : Requested; fl_config : OpenAiConfig; fl_again : bool }.

Record client_pool := mkPool { cp_state : llm_state; cp_flights : gmap N Flight }.

Definition config_for (e : llm_env) (r : Requested) : option OpenAiConfig :=
  match r with
  | ForChat request => openAiConfig e (chat_model e request) (env_number (en_timeoutMs e) 15000)
  | ForSpeech _ _ _ => openAiConfig e (en_sttModel e) (env_number (en_sttTimeoutMs e) 30000)
  | ForEmbed _ => openAiConfig e (Some (embeddingModel e)) (env_number (en_timeoutMs e) 15000)
  end.

Definition sent_for (s : llm_state) (r : Requested) (config : OpenAiConfig) : Sent :=
  match r with
  | ForChat request => SentChat (chat_body s request (oc_model config))
  | ForSpeech _ language prompt => SentSpeech (oc_model config) language prompt
  | ForEmbed input => SentEmbeddings (oc_model config) input (env_number (en_dimensions (ll_env s)) 1024)
  end.

(** A request that fails before anything is sent *)
Definition unsent (r : Requested) (config : OpenAiConfig) : bool :=
  match r with
  | ForChat request => wait_for request config <? 0
  | ForSpeech readable _ _ => negb readable || (oc_timeoutMs config <? 0)
  | ForEmbed _ => oc_timeoutMs config <? 0
  end.

(** What goes to the local model when OpenAI does not answer; whisper is not the client's. *)
Definition elsewhere (r : Requested) (s : llm_state) : llm_state :=
  match r with
  | ForChat request => if localFallback (ll_env s) then sends (SentLocal (default (llmModel (ll_env s)) (rq_model request)) request) s else s
  | _ => s
  end.

Definition ended (r : Requested) (config : OpenAiConfig) (o : option failure) (s : llm_state) : llm_state :=
  match o with
  | None => settled config None s
  | Some e => if isCancel e then s else elsewhere r (settled config (Some e) s)
  end.

(** A chat refused for its temperature is tried again without. *)
Definition tried_again (f : Flight) (o : option failure) (s : llm_state) : bool :=
  match fl_request f, o with
  | ForChat _, Some e => negb (fl_again f) && rejectsSampling e && takes_sampling s (oc_model (fl_config f))
  | _, _ => false
  end.

Definition without_sampling (config : OpenAiConfig) (s : llm_state) : llm_state :=
  s <| ll_withoutSampling := oc_model config :: ll_withoutSampling s |>.

(** Requests begin and end in any order; what OpenAI answers and the time are free, but for the
    requests named in [old] no answer comes. *)
Inductive client_step (old : gset N) : client_pool -> client_pool -> Prop :=
| client_time s fs ms : 0 <= ms -> client_step old (mkPool s fs) (mkPool (s <| ll_now := ll_now s + ms |>) fs)
| client_elsewhere s fs r : admitted s (config_for (ll_env s) r) = None -> client_step old (mkPool s fs) (mkPool (elsewhere r s) fs)
| client_unsent s fs r config : admitted s (config_for (ll_env s) r) = Some config -> unsent r config = true ->
    client_step old (mkPool s fs) (mkPool (ended r config (Some NoAnswer) s) fs)
| client_begin s fs id r config : admitted s (config_for (ll_env s) r) = Some config -> unsent r config = false -> fs !! id = None -> id ∉ old ->
    client_step old (mkPool s fs) (mkPool (sends (sent_for s r config) s) (<[id := mkFlight r config false]> fs))
| client_again s fs id f o : fs !! id = Some f -> tried_again f o s = true ->
    let s1 := without_sampling (fl_config f) s in
    client_step old (mkPool s fs) (mkPool (sends (sent_for s1 (fl_request f) (fl_config f)) s1) (<[id := mkFlight (fl_request f) (fl_config f) true]> fs))
| client_end s fs id f o : fs !! id = Some f -> tried_again f o s = false -> (o = None -> id ∉ old) ->
    client_step old (mkPool s fs) (mkPool (ended (fl_request f) (fl_config f) o s) (delete id fs)).

(** ** The handlers are runs of the pool *)

Section Runs.
  Context `{Models}.
  Implicit Types (s : llm_state) (fs : gmap N Flight).

Definition runs fs s s' : Prop := rtc (client_step ∅) (mkPool s fs) (mkPool s' fs).

Lemma runs_time fs s d : 0 <= d -> runs fs s (s <| ll_now := ll_now s + d |>).
Proof. intros Hd. by apply rtc_once, client_time. Qed.

(** One call with its deadline: nothing is sent, or it is on its way until it ends. *)
Lemma deadline_run {A} ms x (answer : nat -> A + failure) s :
  (ms <? 0 = true /\ withDeadline ms x answer s = (inr NoAnswer, s)) \/
  (ms <? 0 = false /\ exists d o, 0 <= d /\ withDeadline ms x answer s = (o, (sends x s) <| ll_now := ll_now s + d |>)).
Proof.
  unfold withDeadline. cbv zeta. destruct (ms <? 0) eqn:E; [by left|]. right. split; [done|].
  destruct (Z.max 0 (lasts (ll_calls s)) <=? ms); eexists _, _; (split; [|reflexivity]); lia.
Qed.

Definition failed {A} (o : A + failure) : option failure := match o with inl _ => None | inr e => Some e end.

(** From the start of a request to the end of its call, on the way or unsent *)
Definition calls_openai {A} (r : Requested) (openAi : OpenAiConfig -> LM A) s : Prop :=
  forall config fs id, admitted s (config_for (ll_env s) r) = Some config -> fs !! id = None ->
    let '(o, s1) := openAi config s in
    (unsent r config = true /\ failed o = Some NoAnswer /\ s1 = s) \/
    exists f, fl_request f = r /\ fl_config f = config /\ tried_again f (failed o) s1 = false /\ ll_env s1 = ll_env s /\
      rtc (client_step ∅) (mkPool s fs) (mkPool s1 (<[id := f]> fs)).

Lemma first_runs {A} r (openAi : OpenAiConfig -> LM A) (local : LM A) allow s fs id :
  fs !! id = None -> calls_openai r openAi s ->
  (forall s', ll_env s' = ll_env s -> (allow = true -> runs fs (elsewhere r s') (local s').2) /\ (allow = false -> elsewhere r s' = s')) ->
  runs fs s (openAiFirst (config_for (ll_env s) r) openAi local allow s).2.
Proof.
  intros Hid Hopen Hlocal. unfold openAiFirst. cbv zeta.
  assert (Helse : forall s', ll_env s' = ll_env s -> runs fs (elsewhere r s') (if allow then local s' else (inr LlmUnavailable, s')).2).
  { intros s' He. destruct (Hlocal s' He) as [H1 H2]. destruct allow; [by apply H1|]. rewrite H2 by done. apply rtc_refl. }
  destruct (admitted s (config_for (ll_env s) r)) as [config|] eqn:Ha.
  2:{ unfold runs in *. eapply rtc_l; [by apply (client_elsewhere ∅ _ _ r) | by apply Helse]. }
  specialize (Hopen config fs id Ha Hid). destruct (openAi config s) as [o s1].
  assert (Hend : forall o, ll_env s1 = ll_env s -> rtc (client_step ∅) (mkPool s fs) (mkPool (ended r config (failed o) s1) fs) ->
    runs fs s (match o with inl answer => (inl answer, settled config None s1) | inr e => if isCancel e then (inr e, s1) else if allow then local (settled config (Some e) s1) else (inr LlmUnavailable, settled config (Some e) s1) end).2).
  { intros [a|e] He Hs; [exact Hs|]. cbn [failed ended] in Hs. destruct (isCancel e); [exact Hs|]. unfold runs in *. etrans; [exact Hs|].
    apply Helse. unfold settled. by destruct (isOutage e). }
  destruct Hopen as [(Hu & Hf & ->)|(f & <- & <- & Hf & He & Hs)]; apply (Hend o); [done| |done|].
  - rewrite Hf. by apply rtc_once, client_unsent.
  - etrans; [exact Hs|]. apply rtc_once. rewrite <- (delete_insert_id fs id f Hid) at 2. apply client_end; [apply lookup_insert_eq | done | intros _; apply not_elem_of_empty].
Qed.

(** A call that goes out at once *)
Lemma call_begins fs id r config s s1 : admitted s (config_for (ll_env s) r) = Some config -> fs !! id = None -> unsent r config = false ->
  (exists d, 0 <= d /\ s1 = (sends (sent_for s r config) s) <| ll_now := ll_now s + d |>) ->
  rtc (client_step ∅) (mkPool s fs) (mkPool s1 (<[id := mkFlight r config false]> fs)).
Proof.
  intros Ha Hid Hu (d & Hd & ->). eapply rtc_l; [apply (client_begin ∅ _ _ id); [done..|apply not_elem_of_empty]|]. by apply rtc_once, (client_time ∅ (sends _ s)).
Qed.

Lemma chat_calls request s : calls_openai (ForChat request) (openAiChat request) s.
Proof.
  intros config fs id Ha Hid. unfold openAiChat, send_chat.
  destruct (deadline_run (wait_for request config) (SentChat (chat_body s request (oc_model config)))
              (fun n => chat_answer n (chat_body s request (oc_model config))) s) as [[Hw ->]|(Hw & d & o & Hd & ->)]; [by left|].
  set (s1 := (sends _ s) <| ll_now := _ |>).
  assert (Hs1 : rtc (client_step ∅) (mkPool s fs) (mkPool s1 (<[id := mkFlight (ForChat request) config false]> fs))).
  { apply call_begins; [done..|]. by exists d. }
  destruct o as [content|e]; cbv beta iota; [right; by exists (mkFlight (ForChat request) config false)|].
  destruct (rejectsSampling e && takes_sampling s1 (oc_model config)) eqn:Hagain.
  2:{ right. exists (mkFlight (ForChat request) config false). split_and!; [done..| |done|done]. unfold tried_again. cbn [fl_request failed fl_again fl_config negb andb]. exact Hagain. }
  set (s2 := s1 <| ll_withoutSampling := _ |>).
  destruct (deadline_run (wait_for request config) (SentChat (chat_body s2 request (oc_model config)))
              (fun n => chat_answer n (chat_body s2 request (oc_model config))) s2) as [[Hw2 _]|(_ & d2 & o2 & Hd2 & ->)]; [congruence|].
  assert (Hs2 : rtc (client_step ∅) (mkPool s fs) (mkPool ((sends (SentChat (chat_body s2 request (oc_model config))) s2) <| ll_now := ll_now s2 + d2 |>) (<[id := mkFlight (ForChat request) config true]> fs))).
  { etrans; [exact Hs1|]. eapply rtc_l; [apply (client_again ∅ _ _ id (mkFlight (ForChat request) config false) (Some e));
      [apply lookup_insert_eq | unfold tried_again; cbn [fl_request fl_again fl_config negb andb]; exact Hagain]|].
    cbv zeta. cbn [fl_request fl_config]. rewrite insert_insert_eq. by apply rtc_once, (client_time ∅ (sends _ s2)). }
  destruct o2 as [content|e2]; right; exists (mkFlight (ForChat request) config true); by split_and!.
Qed.

Lemma speech_calls readable language prompt s :
  calls_openai (ForSpeech readable language prompt)
    (fun config => if readable then
       let sent := SentSpeech (oc_model config) language prompt in
       t ← withDeadline (oc_timeoutMs config) sent (fun n => speech_answer n sent);
       mret (mkTranscript (default [] t) (js "openai/" ++ oc_model config)) else fail NoAnswer) s.
Proof.
  intros config fs id Ha Hid. destruct readable; [|by left]. cbv zeta. unfold mbind, LM_bind.
  destruct (deadline_run (oc_timeoutMs config) (SentSpeech (oc_model config) language prompt)
              (fun n => speech_answer n (SentSpeech (oc_model config) language prompt)) s) as [[Hw ->]|(Hw & d & o & Hd & ->)]; [by left|].
  destruct o; right; exists (mkFlight (ForSpeech true language prompt) config false); (split_and!; [done..|]; apply call_begins; [done..|]; by exists d).
Qed.

Lemma embed_calls input s :
  calls_openai (ForEmbed input)
    (fun config => let sent := SentEmbeddings (oc_model config) input (env_number (en_dimensions (ll_env s)) 1024) in
                   rows ← withDeadline (oc_timeoutMs config) sent (fun n => embed_answer n sent);
                   mret (map snd (merge_sort row_before rows))) s.
Proof.
  intros config fs id Ha Hid. cbv zeta. unfold mbind, LM_bind.
  set (x := SentEmbeddings (oc_model config) input (env_number (en_dimensions (ll_env s)) 1024)).
  destruct (deadline_run (oc_timeoutMs config) x (fun n => embed_answer n x) s) as [[Hw ->]|(Hw & d & o & Hd & ->)]; [by left|].
  destruct o; right; exists (mkFlight (ForEmbed input) config false); (split_and!; [done..|]; apply call_begins; [done..|]; by exists d).
Qed.

(** A request answered from its start to its end is a run of the pool in which no other one
    moves. *)
Theorem ask_is_steps (a : Ask) (s : llm_state) (fs : gmap N Flight) (id : N) : fs !! id = None -> rtc (client_step ∅) (mkPool s fs) (mkPool (ask a s) fs).
Proof.
  intros Hid. destruct a as [request|readable language prompt heard|input|ms]; cbn [ask].
  - unfold llmAnswer. apply (first_runs (ForChat request) _ _ _ s fs id Hid).
    + intros config fs1 id1 Ha1 Hid1. pose proof (chat_calls request s config fs1 id1 Ha1 Hid1) as Hc. unfold mbind, LM_bind.
      by destruct (openAiChat request config s) as [[c|e] s2].
    + intros s1 He. cbn [elsewhere]. rewrite He. destruct (localFallback (ll_env s)); (split; [|done]); [|done]. intros _.
      unfold ollamaChat, local_call, mbind, LM_bind. rewrite He. destruct (local_answer _ _); by apply (runs_time fs (sends _ s1)); lia.
  - unfold transcribeSpeech. apply (first_runs (ForSpeech readable language prompt) _ _ _ s fs id Hid); [apply speech_calls|].
    intros s1 _. split; [intros _; apply rtc_refl | done].
  - unfold embedMany. destruct input as [|t input]; [apply rtc_refl|].
    apply (first_runs (ForEmbed (t :: input)) _ _ _ s fs id Hid); [apply embed_calls | done].
  - apply runs_time. lia.
Qed.

End Runs.

(** ** OpenAI is left alone after an outage *)

Section Rest.
  Implicit Types (s : llm_state) (fs : gmap N Flight) (D : time).











(** A recording that cannot be read stops OpenAI for everybody: nothing is wrong with OpenAI and
    nothing was sent to it, but the error has no status and counts as an outage; until the pause
    is over no request that begins is asked of OpenAI. *)
Theorem missing_file_stops_openai `{Models} (language prompt : text) (heard : Transcript) (config : OpenAiConfig) (s : llm_state) :
  openAiConfig (ll_env s) (en_sttModel (ll_env s)) (env_number (en_sttTimeoutMs (ll_env s)) 30000) = Some config ->
  ll_downUntil s <= ll_now s ->
  let s1 := ask (AskSpeech false language prompt heard) s in
  ll_sent s1 = ll_sent s /\ ll_now s1 = ll_now s /\
  forall later r, ll_now s <= later < ll_now s + oc_retryAfterMs config -> admitted (s1 <| ll_now := later |>) (config_for (ll_env s) r) = None.
Proof.
  intros Hc Hd s1.
  assert (E : s1 = s <| ll_downUntil := ll_now s + oc_retryAfterMs config |>).
  { subst s1. cbn [ask]. unfold transcribeSpeech, openAiFirst, admitted. cbv zeta. rewrite Hc, (proj2 (Z.leb_le _ _) Hd). cbn [fail isCancel].
    by destruct (localFallback (ll_env s)). }
  rewrite E. split; [done|]. split; [done|]. intros later r Hl. unfold admitted. destruct (config_for (ll_env s) r); [|done].
  rewrite (proj2 (Z.leb_gt _ _)); [done|]. change (later < ll_now s + oc_retryAfterMs config). lia.
Qed.

End Rest.

(** ** Embeddings *)

(** The rows of an answer in the order of their texts *)
Fixpoint indexed (k : Z) (vectors : list (list num)) : list (Z * list num) :=
  match vectors with [] => [] | v :: vectors => (k, v) :: indexed (k + 1) vectors end.

Lemma indexed_from k vectors i v : (i, v) ∈ indexed k vectors -> k <= i.
Proof.
  revert k. induction vectors as [|w vs IH]; intros k; cbn [indexed]; [by intros ?%not_elem_of_nil|].
  intros [[= -> ->]|H]%elem_of_cons; [lia|]. specialize (IH _ H). lia.
Qed.

Lemma indexed_vectors k vectors : map snd (indexed k vectors) = vectors.
Proof. revert k. induction vectors as [|v vs IH]; intros k; cbn; [done|]. by rewrite IH. Qed.

(** Sorting by the index finds that order. *)
Lemma sorted_is_indexed l : forall k vectors, StronglySorted row_before l -> l ≡ₚ indexed k vectors -> l = indexed k vectors.
Proof.
  induction l as [|[i a] l IH]; intros k vectors Hs Hp; [by apply Permutation_nil_l in Hp as <-|].
  destruct vectors as [|v vs]; [by apply Permutation_nil_r in Hp|]. cbn [indexed] in *.
  apply StronglySorted_inv in Hs as [Hs Ha]. rewrite Forall_forall in Ha.
  assert (E : (i, a) = (k, v)).
  { assert (Hin : (i, a) ∈ (k, v) :: indexed (k + 1) vs) by (rewrite <- Hp; by left).
    assert (Hout : (k, v) ∈ (i, a) :: l) by (rewrite Hp; by left).
    apply elem_of_cons in Hin as [->|Hin]; [done|]. apply elem_of_cons in Hout as [->|Hout]; [done|].
    apply indexed_from in Hin. specialize (Ha _ Hout). unfold row_before in Ha. cbn in Ha. lia. }
  injection E as -> ->. f_equal. apply IH; [done|]. by apply Permutation_cons_inv in Hp.
Qed.

(** Embeddings come in the order of their texts, whatever order the answer has. *)
Theorem embeddings_in_order `{Models} (config : OpenAiConfig) (input : list text) (vectors : list (list num)) (rows : list (Z * list num)) (s s1 : llm_state) :
  input <> [] -> rows ≡ₚ indexed 0 vectors ->
  openAiConfig (ll_env s) (Some (embeddingModel (ll_env s))) (env_number (en_timeoutMs (ll_env s)) 15000) = Some config -> ll_downUntil s <= ll_now s ->
  (let sent := SentEmbeddings (oc_model config) input (env_number (en_dimensions (ll_env s)) 1024) in
   withDeadline (oc_timeoutMs config) sent (fun n => embed_answer n sent) s) = (inl rows, s1) ->
  embedMany input s = (inl vectors, s1 <| ll_downUntil := 0 |>).
Proof.
  intros Hi Hp Hc Hd Hr. unfold embedMany. destruct input as [|t input]; [done|]. unfold openAiFirst, admitted. cbv zeta in *. rewrite Hc, (proj2 (Z.leb_le _ _) Hd).
  unfold mbind, LM_bind. rewrite Hr. cbv beta iota. cbn [mret LM_ret].
  rewrite (sorted_is_indexed (merge_sort row_before rows) 0 vectors).
  - by rewrite indexed_vectors.
  - apply Sorted_StronglySorted; [intros a b c; unfold row_before; lia|]. apply Sorted_merge_sort. intros a b. unfold row_before. lia.
  - by rewrite merge_sort_Permutation.
Qed.

(** ** A client with a key *)

Definition sample_env : llm_env :=
  mkEnv (Some (js "sk")) (Some (js "gpt")) None None (Some (js "stt")) None None None None None None None.

Definition sample_llm : llm_state := mkLlm 1000000 sample_env 0 [] 0 [].

Definition sample_chat : LlmChatRequest := mkRequest [mkMessage (js "user") (js "hi") []] None None None None None None.

(** OpenAI answers every call but the first, which takes too long. *)
Definition slow_once : Models := {|
  chat_answer n body := inl (Some (js "openai")); speech_answer n sent := inl (Some (js "heard"));
  embed_answer n sent := inl [(1, [num_of_Z 2]); (0, [num_of_Z 1])]; local_answer n sent := inl (Some (js "local"));
  lasts n := if Nat.eqb n 0 then 20000 else 1000 |}.

Definition sample_config : OpenAiConfig := mkConfig (js "gpt") 15000 60000.
Definition sample_flight : Flight := mkFlight (ForChat sample_chat) sample_config false.

(** Two chats on their way, and fifteen seconds later nothing came. *)
Definition one_sent : llm_state := sends (sent_for sample_llm (ForChat sample_chat) sample_config) sample_llm.
Definition two_sent : llm_state := sends (sent_for one_sent (ForChat sample_chat) sample_config) one_sent.
Definition two_flights : gmap N Flight := <[2%N := sample_flight]> (<[1%N := sample_flight]> ∅).
Definition no_answer_yet : llm_state := two_sent <| ll_now := ll_now two_sent + 15000 |>.

(** The first gives up and asks the local model; a third chat goes there at once. *)
Definition gave_up : llm_state := ended (ForChat sample_chat) sample_config (Some NoAnswer) no_answer_yet.



(** When the second is answered after all, the pause is over. *)
Example late_answer_ends_pause :
  admitted gave_up (Some sample_config) = None /\ admitted (ended (ForChat sample_chat) sample_config None gave_up) (Some sample_config) = Some sample_config.
Proof. split; vm_compute; reflexivity. Qed.

Lemma ask_is_steps_witness :
  map (fun p => to_openai p.2) (ll_sent (@ask slow_once (AskChat sample_chat) sample_llm)) = [false; true] /\
  rtc (client_step ∅) (mkPool sample_llm two_flights) (mkPool (@ask slow_once (AskChat sample_chat) sample_llm) two_flights).
Proof. split; [vm_compute; reflexivity | exact (@ask_is_steps slow_once (AskChat sample_chat) sample_llm two_flights 3 eq_refl)]. Defined.

Lemma missing_file_stops_openai_witness :
  let s1 := @ask slow_once (AskSpeech false (js "fa") [] (mkTranscript (js "x") (js "whisper"))) sample_llm in
  ll_sent s1 = [] /\ (@llmAnswer slow_once sample_chat s1).1 = inl (js "local", FromLocal) /\
  admitted (s1 <| ll_now := 1059999 |>) (config_for sample_env (ForChat sample_chat)) = None.
Proof.
  destruct (@missing_file_stops_openai slow_once (js "fa") [] (mkTranscript (js "x") (js "whisper")) (mkConfig (js "stt") 30000 60000) sample_llm) as (H1 & _ & H3);
    [vm_compute; reflexivity | vm_compute; discriminate|].
  split; [exact H1|]. split; [vm_compute; reflexivity|]. apply (H3 1059999 (ForChat sample_chat)). vm_compute. by split.
Defined.

Lemma embeddings_in_order_witness :
  exists s1, @embedMany slow_once [js "a"; js "b"] (sample_llm <| ll_calls := 1%nat |>) = (inl [[num_of_Z 1]; [num_of_Z 2]], s1).
Proof.
  eexists. apply (@embeddings_in_order slow_once (mkConfig (js "text-embedding-3-large") 15000 60000) [js "a"; js "b"] [[num_of_Z 1]; [num_of_Z 2]] [(1, [num_of_Z 2]); (0, [num_of_Z 1])]);
    [discriminate | apply Permutation_swap | vm_compute; reflexivity | vm_compute; discriminate | vm_compute; reflexivity].
Defined.
