(* ===== verification/PlanExpiry.v ===== *)
(** * The reminder before a company's menus close

    [src/services/company/companyPlanExpiryWorker.service.ts]: a sweep over the menus bought
    ([CompanyFeatures]) tells each company of those that close first, a week before, once per
    company and day; what it says is [planExpiring.ts]'s, how it gets there
    [SubscriptionNotifier.planExpiring], of which only the failure matters here. *)

From S2P Require Import Prelude JsNumber JsString Json Effects Redis Enums CompanyFeatures.

Record EndingRow := mkEnding {
  er_userId : uuid;
  er_feature : CompanyFeature;
  er_endsAt : time;
  er_tier : option CompanyTier;
}.

Record PlanExpiringNotice := mkExpiring {
  px_userId : uuid;
  px_tierTitle : option text;
  px_features : list text;
  px_endsAt : time;
  px_daysLeft : Z;
}.

(** [xp_told]: what the companies heard, with its instant *)
Record expiry_state := mkExpiry {
  xp_now : time;
  xp_remindDays : option Z;
  xp_features : feature_state;
  xp_reminded : gmap (uuid * Z) (unit * time);
  xp_running : bool;
  xp_calls : nat;
  xp_told : list (time * PlanExpiringNotice);
}.

Abbreviation EM := (M expiry_state).

(** The error of the [n]th notice *)
Class Notifier := { notice_error : nat -> option exn }.

(** [Number(config) || 7], whole days *)
Definition remindDays (s : expiry_state) : Z := match xp_remindDays s with Some n => if n =? 0 then 7 else n | None => 7 end.

(** ** [expiring] *)

(** The [ends] of the query: grants that run, and later ones of a menu that is open *)
Definition same_grant_menu (u : uuid) (f : CompanyFeature) (g : CompanyFeatureGrant) : bool := (fg_userId g =? u)%N && eqb (fg_feature g) f.

Definition counted (s : feature_state) (now : time) (g : CompanyFeatureGrant) : bool :=
  (now <? fg_expireAt g) && (fg_startAt g <=? now)
  || (now <? fg_expireAt g)
     && exists_row (fun r => same_grant_menu (fg_userId g) (fg_feature g) r && (fg_startAt r <=? now) && (now <? fg_expireAt r)) (fs_grants s).

Definition ends_at (s : feature_state) (now : time) (u : uuid) (f : CompanyFeature) : option time :=
  match find_rows (fun g => same_grant_menu u f g && counted s now g) (fs_grants s) with
  | [] => None
  | g :: gs => Some (latest (map fg_expireAt gs) (fg_expireAt g))
  end.

(** The tier of an order whose grant has that end ([LIMIT 1]) *)
Definition ending_tier (s : feature_state) (u : uuid) (f : CompanyFeature) (endsAt : time) : option CompanyTier :=
  mjoin (head (omap (fun g => match fg_orderId g with Some id => fo_tier <$> fs_orders s !! id | None => None end)
                    (find_rows (fun g => same_grant_menu u f g && (fg_expireAt g =? endsAt)) (fs_grants s)))).

Definition ends_before (a b : EndingRow) : Prop := er_endsAt a <= er_endsAt b.
#[export] Instance ends_before_dec : RelDecision ends_before.
Proof. intros a b. unfold ends_before. apply _. Defined.

Definition company_endings (s : feature_state) (now : time) (u : uuid) : list EndingRow :=
  omap (fun f => (fun e => mkEnding u f e (ending_tier s u f e)) <$> ends_at s now u f) ALL_FEATURES.

(** Rows of equal ends come in the database's order, here that of the companies and menus. *)
Definition ending_rows (s : feature_state) (now until : time) : list EndingRow :=
  merge_sort ends_before
    (List.filter (fun r => er_endsAt r <=? until)
      (flat_map (fun u => company_endings s now (cu_id u)) (find_rows (fun u => negb (cu_isParentCompany u)) (fs_users s)))).

Definition days_left (now endsAt : time) : Z := Z.max 1 (- ((now - endsAt) `div` DAY_MS)).

(** The first to close sets the day; the menus that close within a day of it go with it. *)
Definition notice_of (now : time) (u : uuid) (ending : list EndingRow) : option PlanExpiringNotice :=
  match ending with
  | [] => None
  | first :: _ =>
      let same := List.filter (fun r => er_endsAt r - er_endsAt first <? DAY_MS) ending in
      let tier := mjoin (head (List.filter (fun t => negb (is_null t)) (map er_tier same))) in
      Some (mkExpiring u ((fun t => js "طرح " ++ COMPANY_TIER_TITLES t) <$> tier) (map (fun r => COMPANY_FEATURE_TITLES (er_feature r)) same)
              (er_endsAt first) (days_left now (er_endsAt first)))
  end.

Definition expiring (s : expiry_state) : list PlanExpiringNotice :=
  let rows := ending_rows (xp_features s) (xp_now s) (xp_now s + remindDays s * DAY_MS) in
  omap (fun u => notice_of (xp_now s) u (List.filter (fun r => (er_userId r =? u)%N) rows)) (dedup (map er_userId rows)).

(** ** [tick] *)

(** [toISOString().slice(0, 10)]: the day of the end, up to the year 9999 *)
Definition end_day (n : PlanExpiringNotice) : Z := px_endsAt n `div` DAY_MS.
Definition notice_key (n : PlanExpiringNotice) : uuid * Z := (px_userId n, end_day n).

Section Worker.
  Context `{Notifier}.

(** [setIfAbsent] *)
Definition first_time (key : uuid * Z) : EM bool :=
  s ← get;
  match redis_get (xp_reminded s) (xp_now s) key with
  | Some _ => mret false
  | None => modify (fun s => s <| xp_reminded := redis_set (xp_reminded s) (xp_now s) key tt ((remindDays s + 3) * 86400) |>) ;; mret true
  end.

Definition planExpiring (n : PlanExpiringNotice) : EM unit :=
  s ← get;
  modify (fun s => s <| xp_calls := S (xp_calls s) |>) ;;
  match notice_error (xp_calls s) with
  | Some e => throw e
  | None => modify (fun s => s <| xp_told := xp_told s ++ [(xp_now s, n)] |>)
  end.

Fixpoint tell_all (l : list PlanExpiringNotice) : EM nat :=
  match l with
  | [] => mret 0%nat
  | n :: l =>
      fresh ← first_time (notice_key n);
      if (fresh : bool) then planExpiring n ;; sent ← tell_all l; mret (S sent)
      else tell_all l
  end.

(** One sweep; overlapping sweeps of one instance are skipped. *)
Definition remind_tick : EM nat :=
  s ← get;
  if xp_running s then mret 0%nat
  else
    modify (fun s => s <| xp_running := true |>) ;;
    try_finally (try_catch (s ← get; tell_all (expiring s)) (fun _ => mret 0%nat)) (modify (fun s => s <| xp_running := false |>)).

(** What happens: a sweep of any instance, time that goes by, and anything that changes the menus
    bought *)
Inductive expiry_step : expiry_state -> expiry_state -> Prop :=
| step_sweep s : expiry_step s (final remind_tick s)
| step_later s ms : 0 <= ms -> expiry_step s (s <| xp_now := xp_now s + ms |>)
| step_menus s f : expiry_step s (s <| xp_features := f |>).

(** ** Once a day *)

Definition told_keys (s : expiry_state) : list (uuid * Z) := map (fun p => notice_key p.2) (xp_told s).

(** Every company told of a day has its key to the end of that day. *)
Definition keys_kept (s : expiry_state) : Prop :=
  NoDup (told_keys s) /\
  forall u d, (u, d) ∈ told_keys s -> exists e, xp_reminded s !! (u, d) = Some (tt, e) /\ (d + 1) * DAY_MS <= e.

(** A notice that may be told now: its end is ahead, and not further than the days of the reminder. *)
Definition due_now (s : expiry_state) (n : PlanExpiringNotice) : Prop :=
  xp_now s < px_endsAt n <= xp_now s + remindDays s * DAY_MS.

Lemma ends_at_later s now u f e : ends_at s now u f = Some e -> now < e.
Proof.
  unfold ends_at. destruct (find_rows _ _) as [|g gs] eqn:E; [done|]. intros [= <-].
  assert (Hg : g ∈ find_rows (fun g => same_grant_menu u f g && counted s now g) (fs_grants s)) by (rewrite E; by left).
  apply elem_of_find_rows in Hg as [Hg _]. apply andb_split in Hg as [_ Hg]. unfold counted in Hg.
  pose proof (latest_base (map fg_expireAt gs) (fg_expireAt g)) as Hl.
  destruct (Z.ltb_spec now (fg_expireAt g)); [lia|]. done.
Qed.

Lemma ending_rows_due s now until r : r ∈ ending_rows s now until -> now < er_endsAt r <= until.
Proof.
  unfold ending_rows. rewrite merge_sort_Permutation. intros Hr%list_elem_of_In. apply filter_In in Hr as [Hr Hu%Z.leb_le].
  split; [|done]. apply in_flat_map in Hr as (u & _ & Hr). unfold company_endings in Hr. apply list_elem_of_In, list_elem_of_omap in Hr as (f & _ & Hf).
  apply fmap_Some in Hf as (e & He & ->). by apply ends_at_later in He.
Qed.

Lemma expiring_due s n : n ∈ expiring s -> due_now s n.
Proof.
  unfold expiring. cbv zeta. intros (u & _ & Hn)%list_elem_of_omap. unfold notice_of in Hn.
  destruct (List.filter _ _) as [|first l] eqn:E; [done|]. injection Hn as <-.
  assert (Hin : In first (first :: l)) by (by left). rewrite <- E in Hin. apply filter_In in Hin as [Hin _].
  apply list_elem_of_In in Hin. by apply ending_rows_due in Hin.
Qed.

Lemma due_day s n : due_now s n -> xp_now s < (end_day n + 1) * DAY_MS /\ (end_day n + 1) * DAY_MS <= xp_now s + (remindDays s + 1) * DAY_MS.
Proof.
  intros [H1 H2]. unfold end_day. pose proof (Z.mod_pos_bound (px_endsAt n) DAY_MS ltac:(unfold DAY_MS; lia)).
  pose proof (Z.div_mod (px_endsAt n) DAY_MS ltac:(unfold DAY_MS; lia)). unfold DAY_MS in *. lia.
Qed.

(** Telling keeps the keys: a company that was told of this day still has its key. *)
Lemma tell_all_keeps l : forall s, (forall n, n ∈ l -> due_now s n) -> keys_kept s -> keys_kept (final (tell_all l) s).
Proof.
  induction l as [|n l IH]; intros s Hdue Hk; [done|].
  assert (Hl : forall s', xp_now s' = xp_now s -> remindDays s' = remindDays s -> forall n, n ∈ l -> due_now s' n).
  { intros s' En Ed m Hm. unfold due_now. rewrite En, Ed. apply Hdue. by right. }
  cbn [tell_all]. unfold final. rewrite run_bind. unfold first_time. rewrite run_bind. unfold get. cbv beta iota.
  destruct (redis_get (xp_reminded s) (xp_now s) (notice_key n)) eqn:Eg; [rewrite run_ret; cbv beta iota; by apply (IH s (Hl s eq_refl eq_refl))|].
  rewrite run_bind. unfold modify. cbv beta iota. rewrite run_ret. cbv beta iota.
  set (s1 := s <| xp_reminded := _ |>).
  pose proof (due_day s n (Hdue n (list_elem_of_here _ _))) as [Hd1 Hd2]. destruct Hk as [Hnd Hkeys].
  assert (Hnew : notice_key n ∉ told_keys s).
  { intros Hin. destruct (Hkeys _ _ Hin) as (e & He & Hle). unfold redis_get, notice_key in Eg. rewrite He in Eg.
    destruct (Z.leb_spec (xp_now s) e); [done | lia]. }
  assert (Hk1 : forall u d, (u, d) ∈ notice_key n :: told_keys s -> exists e, xp_reminded s1 !! (u, d) = Some (tt, e) /\ (d + 1) * DAY_MS <= e).
  { intros u d [E|Hin]%elem_of_cons.
    - exists (xp_now s + (remindDays s + 3) * 86400 * 1000). unfold notice_key in E. injection E as -> ->.
      split; [exact (lookup_insert_eq _ _ _)|]. unfold DAY_MS in *. lia.
    - destruct (Hkeys u d Hin) as (e & He & Hle). exists e. split; [|done]. rewrite <- He. apply lookup_insert_ne. intros E. by rewrite E in Hnew. }
  rewrite run_bind. unfold planExpiring. rewrite run_bind. unfold get. cbv beta iota. rewrite run_bind. unfold modify. cbv beta iota.
  destruct (notice_error (xp_calls s1)) as [e|].
  - cbv beta iota. unfold throw. cbn [snd]. split; [exact Hnd|]. intros u d Hin. apply Hk1. by right.
  - cbv beta iota. set (s2 := _ <| xp_told := _ |>).
    assert (Hk2 : keys_kept s2).
    { assert (Et : told_keys s2 = told_keys s ++ [notice_key n]) by (exact (map_app _ _ _)). split.
      - rewrite Et. apply NoDup_app. split; [done|]. split; [|apply NoDup_singleton]. intros k Hk2 Hk3%list_elem_of_singleton. by subst k.
      - intros u d Hin. rewrite Et in Hin. apply (Hk1 u d). rewrite elem_of_app, list_elem_of_singleton in Hin. rewrite elem_of_cons. tauto. }
    rewrite run_bind. specialize (IH s2 (Hl s2 eq_refl eq_refl) Hk2). unfold final in IH. by destruct (tell_all l s2) as [[m|e] s3].
Qed.

Lemma tick_keeps s : keys_kept s -> keys_kept (final remind_tick s).
Proof.
  intros Hk. unfold final, remind_tick. rewrite run_bind. unfold get. cbv beta iota. destruct (xp_running s); [done|].
  rewrite run_bind. unfold modify. cbv beta iota. set (s1 := s <| xp_running := true |>). unfold try_finally, try_catch. rewrite run_bind. cbv beta iota.
  pose proof (tell_all_keeps (expiring s1) s1 (expiring_due s1) Hk) as Ht. unfold final in Ht.
  by destruct (tell_all (expiring s1) s1) as [[n|e] s2].
Qed.

(** C23: A company is told of a day once: from a start with nothing told, whatever sweeps the
    instances make, however long they wait, whatever menus are bought, renewed, given or taken
    meanwhile and whichever notices fail, no company is told twice of an end on the same day. *)
Theorem told_once_a_day (s0 s : expiry_state) : xp_told s0 = [] -> rtc expiry_step s0 s -> NoDup (told_keys s).
Proof.
  intros H0 Hs. assert (Hk : keys_kept s0).
  { assert (E : told_keys s0 = []) by (unfold told_keys; by rewrite H0). split; rewrite E; [constructor|]. intros u d Hin. by apply not_elem_of_nil in Hin. }
  clear H0. cut (keys_kept s); [by intros []|]. induction Hs as [s|s1 s2 s3 Hstep _ IH]; [done|]. apply IH.
  destruct Hstep as [s|s ms Hms|s f]; [by apply tick_keeps | exact Hk | exact Hk].
Qed.

(** ** What a sweep says *)

Lemma find_rows_filter {V} (f : V -> bool) (m : gmap uuid V) : find_rows f m = List.filter f (rows m).
Proof.
  unfold find_rows. induction (rows m) as [|v l IH]; [done|]. rewrite filter_cons. cbn [List.filter]. rewrite IH.
  destruct (decide (f v = true)) as [->|Hf]; [done|]. by apply not_true_is_false in Hf as ->.
Qed.

Lemma filter_both {A} (f g : A -> bool) (l : list A) : List.filter f (List.filter g l) = List.filter (fun x => g x && f x) l.
Proof. induction l as [|x l IH]; [done|]. cbn. destruct (g x); cbn; [destruct (f x); by rewrite IH | done]. Qed.

Lemma same_menu_of u f g : same_grant_menu u f g = true -> fg_userId g = u /\ fg_feature g = f.
Proof. unfold same_grant_menu. intros [Hu%N.eqb_eq Hf]%andb_split. apply (eqb_true (fg_feature g) f) in Hf. done. Qed.

Lemma same_menu_refl g : same_grant_menu (fg_userId g) (fg_feature g) g = true.
Proof. unfold same_grant_menu. rewrite N.eqb_refl. by apply (eqb_true (fg_feature g) (fg_feature g)). Qed.

(** The end the sweep goes by is the end the purchase page shows: of the whole chain of a menu's
    periods. *)
Lemma ends_at_shown s now u f : ends_at s now u f = open_until s u now f.
Proof.
  unfold ends_at, open_until, running_grants. rewrite !find_rows_filter, filter_both.
  set (L := List.filter (fun g => same_grant_menu u f g && (now <? fg_expireAt g)) (rows (fs_grants s))).
  replace (List.filter (fun x => (fg_userId x =? u)%N && (now <? fg_expireAt x) && eqb (fg_feature x) f) (rows (fs_grants s))) with L.
  2:{ apply List.filter_ext. intros g. unfold same_grant_menu. destruct (fg_userId g =? u)%N, (now <? fg_expireAt g), (eqb (fg_feature g) f); done. }
  assert (HL : forall g, In g L <-> In g (rows (fs_grants s)) /\ same_grant_menu u f g = true /\ now < fg_expireAt g).
  { intros g. unfold L. rewrite filter_In, andb_true_iff, Z.ltb_lt. tauto. }
  assert (Hrun : forall g, In g (rows (fs_grants s)) -> same_grant_menu u f g = true -> counted s now g = (now <? fg_expireAt g) && some_b (fun g => fg_startAt g <=? now) L).
  { intros g Hg Hsame. unfold counted. destruct (Z.ltb_spec now (fg_expireAt g)) as [Hn|Hn]; [|by rewrite !andb_false_l]. cbn [andb].
    destruct (same_menu_of u f g Hsame) as [<- <-]. apply eq_bool_prop_intro. rewrite !Is_true_true, orb_true_iff. unfold exists_row. rewrite !some_b_true. split.
    - intros [Hst|(r & Hr & Hx)].
      + exists g. split; [|done]. apply list_elem_of_In, HL. done.
      + apply andb_split in Hx as [Hx Hexp%Z.ltb_lt]. apply andb_split in Hx as [Hx Hst]. exists r. split; [|done].
        apply list_elem_of_In, HL. by apply list_elem_of_In in Hr.
    - intros (r & Hr & Hst). apply list_elem_of_In, HL in Hr as (Hr & Hs & Hexp). right. exists r. split; [by apply list_elem_of_In|].
      by rewrite Hs, Hst, (proj2 (Z.ltb_lt _ _) Hexp). }
  destruct (some_b (fun g => fg_startAt g <=? now) L) eqn:Es.
  - replace (List.filter (fun g => same_grant_menu u f g && counted s now g) (rows (fs_grants s))) with L; [by destruct L; [|rewrite Es]|].
    apply List.filter_ext_in. intros g Hg. destruct (same_grant_menu u f g) eqn:Esame; [|done]. rewrite (Hrun g Hg Esame), andb_true_r. done.
  - replace (List.filter (fun g => same_grant_menu u f g && counted s now g) (rows (fs_grants s))) with (@nil CompanyFeatureGrant); [by destruct L; [|rewrite Es]|].
    symmetry.
    assert (Hnone : forall g, In g (rows (fs_grants s)) -> same_grant_menu u f g && counted s now g = false).
    { intros g Hg. destruct (same_grant_menu u f g) eqn:Esame; [|done]. by rewrite (Hrun g Hg Esame), andb_false_r. }
    revert Hnone. generalize (rows (fs_grants s)). intros l Hl. induction l as [|g l IH]; [done|]. cbn. rewrite Hl by (by left). apply IH. intros g' Hg'. apply Hl. by right.
Qed.

Lemma titles_differ f g : COMPANY_FEATURE_TITLES f = COMPANY_FEATURE_TITLES g -> f = g.
Proof. destruct f, g; intros E; first [reflexivity | exfalso; vm_compute in E; discriminate E]. Qed.

Lemma all_features f : f ∈ ALL_FEATURES.
Proof. destruct f; unfold ALL_FEATURES; set_solver. Qed.

(** The rows of a company that has any: one for each of its open menus that ends in time *)
Lemma company_rows s now until u r f e : er_userId r = u -> r ∈ ending_rows s now until -> open_until s u now f = Some e -> e <= until ->
  mkEnding u f e (ending_tier s u f e) ∈ List.filter (fun r => (er_userId r =? u)%N) (ending_rows s now until).
Proof.
  intros Hu Hr He Hle. apply list_elem_of_In, filter_In. split; [|apply N.eqb_refl]. apply list_elem_of_In. unfold ending_rows in *.
  rewrite merge_sort_Permutation in *. apply list_elem_of_In, filter_In in Hr as [Hr _]. apply list_elem_of_In, filter_In.
  split; [|by apply Z.leb_le]. apply in_flat_map in Hr as (c & Hc & Hr). apply in_flat_map. exists c. split; [done|].
  unfold company_endings in *. apply list_elem_of_In, list_elem_of_omap in Hr as (f' & _ & Hf'). apply fmap_Some in Hf' as (e' & He' & ->). cbn in Hu. subst u.
  apply list_elem_of_In, list_elem_of_omap. exists f. split; [apply all_features|]. by rewrite ends_at_shown, He.
Qed.

Lemma row_of_company s now until r : r ∈ ending_rows s now until -> open_until s (er_userId r) now (er_feature r) = Some (er_endsAt r).
Proof.
  unfold ending_rows. rewrite merge_sort_Permutation. intros Hr%list_elem_of_In. apply filter_In in Hr as [Hr _]. apply in_flat_map in Hr as (c & _ & Hr).
  unfold company_endings in Hr. apply list_elem_of_In, list_elem_of_omap in Hr as (f' & _ & Hf'). apply fmap_Some in Hf' as (e' & He' & ->). by rewrite ends_at_shown in He'.
Qed.

Lemma rows_sorted s now until u : StronglySorted ends_before (List.filter (fun r => (er_userId r =? u)%N) (ending_rows s now until)).
Proof.
  assert (Hs : StronglySorted ends_before (ending_rows s now until)).
  { apply Sorted_StronglySorted; [intros a b c; unfold ends_before; lia|]. apply Sorted_merge_sort. intros a b. unfold ends_before. lia. }
  induction Hs as [|r l _ IH Ha]; [constructor|]. cbn. destruct (_ =? _)%N; [|done]. constructor; [done|].
  rewrite Forall_forall in *. intros x Hx. apply Ha. apply list_elem_of_In in Hx. apply filter_In in Hx as [Hx _]. by apply list_elem_of_In.
Qed.

(** The notice of a company: its rows, the first of them the first to close *)
Lemma notice_rows s n : n ∈ expiring s ->
  exists first l, List.filter (fun r => (er_userId r =? px_userId n)%N) (ending_rows (xp_features s) (xp_now s) (xp_now s + remindDays s * DAY_MS)) = first :: l /\
    notice_of (xp_now s) (px_userId n) (first :: l) = Some n /\ px_endsAt n = er_endsAt first /\ forall r, r ∈ first :: l -> er_endsAt first <= er_endsAt r.
Proof.
  unfold expiring. cbv zeta. intros (u & _ & Hn)%list_elem_of_omap. pose proof (rows_sorted (xp_features s) (xp_now s) (xp_now s + remindDays s * DAY_MS) u) as Hsort.
  destruct (List.filter _ _) as [|first l] eqn:E; [done|]. assert (Hu : px_userId n = u) by (cbn in Hn; by injection Hn as <-).
  exists first, l. rewrite Hu. split; [done|]. split; [done|]. split; [cbn in Hn; by injection Hn as <-|].
  apply StronglySorted_inv in Hsort as [_ Ha]. rewrite Forall_forall in Ha. intros r [->|Hr]%elem_of_cons; [lia | by apply Ha].
Qed.

(** A menu is not mentioned a week before it closes when another closes first: as long as a
    menu of the company that is open ends a day or more before it, in the days of the reminder, no
    sweep names it; it is named only once the other has closed, with so much less time left. *)
Theorem later_menu_unsaid (s : expiry_state) (n : PlanExpiringNotice) (f0 f : CompanyFeature) (e0 e : time) :
  open_until (xp_features s) (px_userId n) (xp_now s) f0 = Some e0 -> e0 <= xp_now s + remindDays s * DAY_MS ->
  open_until (xp_features s) (px_userId n) (xp_now s) f = Some e -> e0 + DAY_MS <= e ->
  n ∈ expiring s -> px_endsAt n <= e0 /\ COMPANY_FEATURE_TITLES f ∉ px_features n.
Proof.
  intros H0 Hin He Hlate Hn. destruct (notice_rows s n Hn) as (first & l & Hrows & Hnotice & Hend & Hmin).
  assert (Hfirst : first ∈ ending_rows (xp_features s) (xp_now s) (xp_now s + remindDays s * DAY_MS) /\ er_userId first = px_userId n).
  { assert (Hf : In first (first :: l)) by (by left). rewrite <- Hrows in Hf. apply filter_In in Hf as [Hf Hu%N.eqb_eq]. split; [by apply list_elem_of_In | done]. }
  assert (Hle : er_endsAt first <= e0).
  { destruct Hfirst as [Hf Hu]. pose proof (company_rows _ _ _ _ _ _ _ Hu Hf H0 Hin) as Hr. rewrite Hrows in Hr. apply (Hmin _ Hr). }
  split; [by rewrite Hend|]. intros Hname. unfold notice_of in Hnotice. apply (inj Some) in Hnotice.
  apply (f_equal px_features) in Hnotice. cbv zeta in Hnotice. cbn [px_features] in Hnotice. rewrite <- Hnotice in Hname.
  apply list_elem_of_fmap in Hname as (r & Htitle & Hr). apply titles_differ in Htitle as ->.
  apply list_elem_of_In in Hr. apply filter_In in Hr as [Hr Hday%Z.ltb_lt]. rewrite <- Hrows in Hr. apply filter_In in Hr as [Hr Hu%N.eqb_eq].
  apply list_elem_of_In, row_of_company in Hr. cbn in Hu. rewrite Hu in Hr. cbn in *. rewrite Hr in He. injection He as <-. lia.
Qed.

(** ** Told in time *)

(** Whoever has a key has been told. *)
Definition keys_told (s : expiry_state) : Prop := forall u d, is_Some (xp_reminded s !! (u, d)) -> (u, d) ∈ told_keys s.

Lemma tell_all_tells (Hup : forall n, notice_error n = None) l : forall s, keys_told s ->
  exists m s', tell_all l s = (Ok m, s') /\ keys_told s' /\ (forall k, k ∈ told_keys s -> k ∈ told_keys s') /\
    forall n, n ∈ l -> notice_key n ∈ told_keys s'.
Proof.
  induction l as [|n l IH]; intros s Hk.
  - exists 0%nat, s. split; [done|]. split; [done|]. split; [done|]. intros n Hn. by apply not_elem_of_nil in Hn.
  - cbn [tell_all]. rewrite run_bind. unfold first_time. rewrite run_bind. unfold get. cbv beta iota.
    destruct (redis_get (xp_reminded s) (xp_now s) (notice_key n)) eqn:Eg.
    + rewrite run_ret. cbv beta iota. destruct (IH s Hk) as (m & s' & Hr & Hk' & Hmono & Hall). exists m, s'. split; [done|]. split; [done|]. split; [done|].
      intros n' [->|Hn']%elem_of_cons; [|by apply Hall]. apply Hmono. apply (Hk (px_userId n) (end_day n)).
      unfold redis_get, notice_key in Eg. destruct (xp_reminded s !! (px_userId n, end_day n)); [by eexists | done].
    + rewrite run_bind. unfold modify. cbv beta iota. rewrite run_ret. cbv beta iota. set (s1 := s <| xp_reminded := _ |>).
      rewrite run_bind. unfold planExpiring. rewrite run_bind. unfold get. cbv beta iota. rewrite run_bind. unfold modify. cbv beta iota. rewrite Hup. cbv beta iota.
      set (s2 := _ <| xp_told := _ |>). assert (Et : told_keys s2 = told_keys s ++ [notice_key n]) by (exact (map_app _ _ _)).
      assert (Hk2 : keys_told s2).
      { intros u d Hs. rewrite Et. apply elem_of_app. destruct (decide (notice_key n = (u, d))) as [E|E]; [right; rewrite E; by apply list_elem_of_singleton|].
        left. apply Hk. change (is_Some (redis_set (xp_reminded s) (xp_now s) (notice_key n) tt ((remindDays s + 3) * 86400) !! (u, d))) in Hs.
        unfold redis_set in Hs. by rewrite lookup_insert_ne in Hs. }
      destruct (IH s2 Hk2) as (m & s' & Hr & Hk' & Hmono & Hall). rewrite run_bind, Hr. cbv beta iota. exists (S m), s'. split; [done|]. split; [done|].
      assert (Hin : forall k, k ∈ told_keys s2 -> k ∈ told_keys s') by done. rewrite Et in Hin. split; [intros k Hkk; apply Hin, elem_of_app; by left|].
      intros n' [->|Hn']%elem_of_cons; [apply Hin, elem_of_app; right; by apply list_elem_of_singleton | by apply Hall].
Qed.

Lemma tick_tells (Hup : forall n, notice_error n = None) s : xp_running s = false -> keys_told s ->
  let s' := final remind_tick s in
  xp_running s' = false /\ keys_told s' /\ forall n, n ∈ expiring s -> notice_key n ∈ told_keys s'.
Proof.
  intros Hr Hk. unfold final, remind_tick. rewrite run_bind. unfold get. cbv beta iota. rewrite Hr. rewrite run_bind. unfold modify. cbv beta iota.
  set (s1 := s <| xp_running := true |>). unfold try_finally, try_catch. rewrite run_bind. cbv beta iota.
  destruct (tell_all_tells Hup (expiring s1) s1 Hk) as (m & s2 & Ht & Hk2 & _ & Hall). rewrite Ht. cbv beta iota. cbn [snd].
  split; [done|]. split; [exact Hk2|]. exact Hall.
Qed.

(** The menu that closes first is told of in time: while the notices arrive, after any sweep
    every company that has to buy its menus has been told of the day its first menu closes, when
    that is in the days of the reminder; the end is the one the purchase page shows. *)
Theorem first_closing_told (Hup : forall n, notice_error n = None) (s0 s : expiry_state) (c : CompanyUser) (f0 : CompanyFeature) (e0 : time) :
  xp_reminded s0 = ∅ -> xp_running s0 = false -> rtc expiry_step s0 s ->
  (exists i, fs_users (xp_features s) !! i = Some c) -> cu_isParentCompany c = false ->
  open_until (xp_features s) (cu_id c) (xp_now s) f0 = Some e0 -> e0 <= xp_now s + remindDays s * DAY_MS ->
  (forall f e, open_until (xp_features s) (cu_id c) (xp_now s) f = Some e -> e0 <= e) ->
  (cu_id c, e0 `div` DAY_MS) ∈ told_keys (final remind_tick s).
Proof.
  intros H0 Hr0 Hs Hc Hp He Hle Hmin.
  assert (Hk : keys_told s /\ xp_running s = false).
  { assert (Hstart : keys_told s0 /\ xp_running s0 = false) by (split; [intros u d Hs'; rewrite H0, lookup_empty in Hs'; by destruct Hs' | done]).
    clear -Hup Hs Hstart. induction Hs as [s|s1 s2 s3 Hstep _ IH]; [done|]. apply IH. destruct Hstart as [Hk Hr].
    destruct Hstep as [s|s ms Hms|s f]; [|done|done]. destruct (tick_tells Hup s Hr Hk) as (? & ? & _). done. }
  destruct Hk as [Hk Hr]. destruct (tick_tells Hup s Hr Hk) as (_ & _ & Htold).
  set (rows := ending_rows (xp_features s) (xp_now s) (xp_now s + remindDays s * DAY_MS)).
  set (row := mkEnding (cu_id c) f0 e0 (ending_tier (xp_features s) (cu_id c) f0 e0)).
  assert (Hrow : row ∈ rows).
  { unfold rows, ending_rows. rewrite merge_sort_Permutation. apply list_elem_of_In, filter_In. split; [|by apply Z.leb_le].
    apply in_flat_map. exists c. split.
    - apply list_elem_of_In, elem_of_find_rows. by rewrite Hp.
    - apply list_elem_of_In, list_elem_of_omap. exists f0. split; [apply all_features|]. by rewrite ends_at_shown, He. }
  assert (Hmine : row ∈ List.filter (fun r => (er_userId r =? cu_id c)%N) rows).
  { apply list_elem_of_In, filter_In. split; [by apply list_elem_of_In | apply N.eqb_refl]. }
  pose proof (rows_sorted (xp_features s) (xp_now s) (xp_now s + remindDays s * DAY_MS) (cu_id c)) as Hsort. fold rows in Hsort.
  destruct (List.filter (fun r => (er_userId r =? cu_id c)%N) rows) as [|first l] eqn:Ef; [by apply not_elem_of_nil in Hmine|].
  destruct (notice_of (xp_now s) (cu_id c) (first :: l)) as [n|] eqn:En; [|done].
  assert (Hn : n ∈ expiring s).
  { unfold expiring. cbv zeta. fold rows. apply list_elem_of_omap. exists (cu_id c). split; [|by rewrite Ef].
    apply elem_of_dedup, list_elem_of_fmap. by exists row. }
  assert (Hend : er_endsAt first = e0).
  { apply Z.le_antisymm.
    - apply StronglySorted_inv in Hsort as [_ Ha]. rewrite Forall_forall in Ha. apply elem_of_cons in Hmine as [<-|Hm]; [cbn; lia | exact (Ha row Hm)].
    - assert (Hf : In first (first :: l)) by (by left). rewrite <- Ef in Hf. apply filter_In in Hf as [Hf Hu%N.eqb_eq].
      apply list_elem_of_In, row_of_company in Hf. rewrite Hu in Hf. by apply Hmin in Hf. }
  specialize (Htold n Hn). cbn in En. injection En as <-. unfold notice_key, end_day in Htold. cbn [px_userId px_endsAt] in Htold. by rewrite Hend in Htold.
Qed.

End Worker.

(** ** A company with two menus *)

Definition sample_now : time := 1700000000000.

(** Registering loads closes in five days, the trips in nine. *)
Definition sample_menus : feature_state :=
  mkFeatures sample_now true {[ 1%N := mkCompanyUser 1 false None true [("COMPANY"%string, RecActive)] ]} ∅ [] ∅
    {[ 1%N := mkGrant 1 1 CreateLoad (sample_now - 25 * DAY_MS) (sample_now + 5 * DAY_MS) None None;
       2%N := mkGrant 2 1 Trips (sample_now - 21 * DAY_MS) (sample_now + 9 * DAY_MS) None None ]} [].

Definition sample_expiry : expiry_state := mkExpiry sample_now None sample_menus ∅ false 0 [].

Definition all_arrive : Notifier := {| notice_error n := None |}.

(** An hour later, six days later *)
Definition swept : expiry_state := final (@remind_tick all_arrive) sample_expiry.
Definition swept_again : expiry_state := final (@remind_tick all_arrive) (swept <| xp_now := xp_now swept + 3600000 |>).
Definition swept_late : expiry_state := final (@remind_tick all_arrive) (swept_again <| xp_now := xp_now swept_again + 6 * DAY_MS |>).

Definition heard (s : expiry_state) : list (time * list text * Z) := map (fun p => (p.1, px_features p.2, px_daysLeft p.2)) (xp_told s).

Lemma told_once_a_day_witness :
  heard swept_again = [(sample_now, [js "ثبت بار"], 5)] /\ NoDup (told_keys swept_again).
Proof.
  split; [vm_compute; reflexivity|]. apply (@told_once_a_day all_arrive sample_expiry swept_again); [reflexivity|].
  refine (rtc_l _ _ _ _ (@step_sweep all_arrive sample_expiry) _). fold swept.
  refine (rtc_l _ _ _ _ (@step_later all_arrive swept 3600000 _) _); [lia|].
  exact (rtc_once _ _ (@step_sweep all_arrive _)).
Defined.

(** The company that pays to hear of its menus a week before hears of its trips with three days left. *)
Lemma later_menu_unsaid_witness :
  (forall n, n ∈ expiring sample_expiry -> px_userId n = 1%N -> COMPANY_FEATURE_TITLES Trips ∉ px_features n) /\
  heard swept_late = [(sample_now, [js "ثبت بار"], 5); (sample_now + 6 * DAY_MS + 3600000, [js "سفرها"], 3)].
Proof.
  split; [|vm_compute; reflexivity]. intros n Hn Hu.
  apply (later_menu_unsaid sample_expiry n CreateLoad Trips (sample_now + 5 * DAY_MS) (sample_now + 9 * DAY_MS));
    [rewrite Hu; vm_compute; reflexivity | vm_compute; discriminate | rewrite Hu; vm_compute; reflexivity | vm_compute; discriminate | exact Hn].
Defined.

Lemma first_closing_told_witness : (1%N, (sample_now + 5 * DAY_MS) `div` DAY_MS) ∈ told_keys swept.
Proof.
  refine (@first_closing_told all_arrive (fun _ => eq_refl) sample_expiry sample_expiry (mkCompanyUser 1 false None true [("COMPANY"%string, RecActive)])
           CreateLoad (sample_now + 5 * DAY_MS) eq_refl eq_refl (rtc_refl _ _) _ eq_refl _ _ _);
    [exists 1%N; vm_compute; reflexivity | vm_compute; reflexivity | vm_compute; discriminate |].
  intros [] e; vm_compute; first [discriminate | intros [= <-]; discriminate].
Defined.
