(* ===== verification/DriverVerification.v ===== *)
(** * The papers of a driver, asked of the registers

    [src/services/driver/driverVerification.service.ts]: what is asked of api.ir for a
    driver (phone and national code, civil register, licence, penalty points), what the
    answers kept say of its present papers, when a paid inquiry is made again and how many a
    day.  The service api.ir and the hash of the inputs are parameters; an inquiry takes its
    time, and what others write meanwhile is a step of the system at the end. *)

From S2P Require Import Prelude JsNumber JsString Json Effects Enums FreeText BrokerDriver DriverProfile BrokerAccess CompanyFeatures Accounts.

(** ** The four checks *)

Inductive VerificationCheck := Shahkar | Person | License | Score.

#[export] Instance VerificationCheck_eq_dec : EqDecision VerificationCheck.
Proof. solve_decision. Defined.

Definition VERIFICATION_CHECKS : list VerificationCheck := [Shahkar; Person; License; Score].

Inductive CheckStatus := StPassed | StFailed | StMissing | StPending.

#[export] Instance CheckStatus_eq_dec : EqDecision CheckStatus.
Proof. solve_decision. Defined.

(** ** What api.ir answers *)

Record PersonInfo := mkPerson { pi_firstName : option text; pi_lastName : option text; pi_fatherName : option text; pi_alive : option bool }.

Record DrivingLicenseInfo := mkLicense {
  li_licenseNumber : option text;
  li_licenseType : option text;
  li_licenseStatus : option text;
  li_issueDate : option text;
  li_validityYears : option text;
}.

Record DrivingScoreInfo := mkScore { si_negativeScore : option num; si_offenseCount : option num; si_rule : option text }.

(** [data] of an answer; [licenses] may be missing from it *)
Inductive ApiData :=
| ShahkarData (same : bool)
| PersonData (person : PersonInfo)
| LicenseData (licenses : option (list DrivingLicenseInfo))
| ScoreData (score : DrivingScoreInfo).

Record ApiIrResult := mkResult { ar_success : bool; ar_message : option text; ar_data : option ApiData }.

(** [createHash('sha256').update(text).digest('hex').slice(0, 16)] *)
Class Digest := { digest16 : text -> text }.

(** ** What is kept *)

Record VerificationAnswer := mkAnswer {
  va_inputKey : text;
  va_checkedAt : time;
  va_ok : bool;
  va_message : option text;
  va_data : option ApiData;
}.

(** [usage]: a day and the inquiries of that day *)
Record DriverVerificationRecord := mkRecord {
  rc_answers : VerificationCheck -> option VerificationAnswer;
  rc_usage : option (Z * Z);
}.

Definition no_answers : VerificationCheck -> option VerificationAnswer := fun _ => None.

Definition with_answer (c : VerificationCheck) (a : VerificationAnswer) (r : DriverVerificationRecord) : DriverVerificationRecord :=
  mkRecord (fun c' => if eqb c' c then Some a else rc_answers r c') (rc_usage r).

(** The row of [DriverProfile] with two more columns than [DriverProfile.v] has *)
Record Papers := mkPapers {
  pp_profile : DriverProfile;
  pp_birthDate : option text;
  pp_verification : option DriverVerificationRecord;
}.

Definition new_papers : Papers := mkPapers new_profile None None.

(** ** Normal forms *)

(** [normalizeMobile] *)
Definition normalizeMobile (mobile : option text) : option text :=
  let digits := List.filter is_digit (latin_digits (default [] mobile)) in
  let front := take (length digits - 10) digits in
  let last := drop (length digits - 10) digits in
  if bool_decide (front ∈ [[]; js "0"; js "98"; js "0098"]) && Nat.eqb (length last) 10 && starts_with (js "9") last
  then Some (js "0" ++ last) else None.

(** One or two digits, as [Number] reads and writes them *)
Definition short_part (t : text) : option text :=
  if forallb is_digit t && (Nat.eqb (length t) 1 || Nat.eqb (length t) 2) then Some (text_of_N (Z.to_N (digits_value t))) else None.

Definition solar_year (t : text) : bool :=
  forallb is_digit t && Nat.eqb (length t) 4 && (starts_with (js "13") t || starts_with (js "14") t).

(** [normalizeBirthDate]: «1370/01/01» and «1370/1/1» are one date *)
Definition normalizeBirthDate (date : option text) : option text :=
  match split_at 47 [] (trim (latin_digits (default [] date))) with
  | [y; m; d] => if solar_year y then m ← short_part m; d ← short_part d; Some (y ++ js "/" ++ m ++ js "/" ++ d) else None
  | _ => None
  end.

(** [normalizeName]: «ي» and «ك», spaces, half spaces and «ـ» make no difference. *)
Definition normalizeName `{Unicode} (name : option text) : text :=
  toLowerCase (remove_chars (fun c => is_space c || (c =? 8204)%N || (c =? 1600)%N)
    (map (fun c => if (c =? 1610)%N then 1740%N else if (c =? 1603)%N then 1705%N else c) (default [] name))).

(** [x?.trim() || null] *)
Definition trimmed (t : option text) : option text :=
  match trim (default [] t) with [] => None | t => Some t end.

Definition tenDigits (code : option text) : option text :=
  match code with Some t => if forallb is_digit t && Nat.eqb (length t) 10 then Some t else None | None => None end.

(** ** Judging the answers *)

(** The documents of a driver: [birthDate], [licenseNumber] *)
Definition documents : Type := option text * option text.

Definition licenseNumber (driver : documents) : option text := driver.2.

(** [checkInputs]: [None] when a paper is missing *)
Definition checkInputs (user : Account) (driver : documents) (c : VerificationCheck) : option (list text) :=
  nationalCode ← tenDigits (a_nationalCode user);
  match c with
  | Shahkar | License => mobile ← normalizeMobile (a_mobile user); Some [nationalCode; mobile]
  | Person => birthDate ← normalizeBirthDate driver.1; Some [nationalCode; birthDate]
  | Score => mobile ← normalizeMobile (a_mobile user); number ← trimmed (licenseNumber driver); Some [nationalCode; mobile; number]
  end.

Definition inputKey `{Digest} (inputs : list text) : text := digest16 (join (js "|") inputs).

Definition MISSING_MESSAGE (c : VerificationCheck) : text :=
  match c with
  | Shahkar | License => js "کد ملی و موبایل لازم است."
  | Person => js "کد ملی و تاریخ تولد لازم است."
  | Score => js "کد ملی، موبایل و شماره گواهینامه لازم است."
  end.

Inductive Details :=
| PersonDetails (firstName lastName fatherName : option text)
| LicenseDetails (licenses : list DrivingLicenseInfo)
| ScoreDetails (score : DrivingScoreInfo).

Record VerificationCheckView := mkView {
  vw_status : CheckStatus;
  vw_message : option text;
  vw_checkedAt : option time;
  vw_details : option Details;
}.

Definition pending_view (message : option text) : VerificationCheckView := mkView StPending message None None.

(** [(answer.data ?? {}) as T] *)
Definition person_of (d : option ApiData) : PersonInfo := match d with Some (PersonData p) => p | _ => mkPerson None None None None end.
Definition licenses_of (d : option ApiData) : list DrivingLicenseInfo := match d with Some (LicenseData (Some l)) => l | _ => [] end.
Definition score_of (d : option ApiData) : DrivingScoreInfo := match d with Some (ScoreData s) => s | _ => mkScore None None None end.

Definition has_number (number : text) (l : list DrivingLicenseInfo) : bool :=
  existsb (fun i => bool_decide (li_licenseNumber i = Some number)) l.

Section Judge.
  Context `{Unicode} `{Digest}.

(** [judge] *)
Definition judge (c : VerificationCheck) (answer : VerificationAnswer) (user : Account) (driver : documents) : VerificationCheckView :=
  let view status message details := mkView status message (Some (va_checkedAt answer)) details in
  if negb (va_ok answer) then
    view StFailed (Some match va_message answer with Some (c :: t) => c :: t | _ => js "استعلام ناموفق بود." end) None
  else
    match c with
    | Shahkar =>
        match va_data answer with
        | Some (ShahkarData true) => view StPassed None None
        | _ => view StFailed (Some (js "این موبایل به نام این کد ملی ثبت نشده است.")) None
        end
    | Person =>
        let person := person_of (va_data answer) in
        let details := Some (PersonDetails (pi_firstName person) (pi_lastName person) (pi_fatherName person)) in
        if bool_decide (pi_alive person = Some false) then view StFailed (Some (js "ثبت احوال این شخص را در قید حیات نمی‌داند.")) details
        else if negb (bool_decide (normalizeName (pi_firstName person) = normalizeName (a_firstName user)))
                || negb (bool_decide (normalizeName (pi_lastName person) = normalizeName (a_lastName user)))
        then view StFailed (Some (js "نام و نام خانوادگی با ثبت احوال یکی نیست.")) details
        else view StPassed None details
    | License =>
        match licenses_of (va_data answer) with
        | [] => view StFailed (Some (js "گواهینامه‌ای به نام این کد ملی پیدا نشد.")) None
        | licenses =>
            match trimmed (licenseNumber driver) with
            | Some number =>
                if has_number number licenses then view StPassed None (Some (LicenseDetails licenses))
                else view StFailed (Some (js "شماره گواهینامه با گواهینامه‌های ثبت‌شده یکی نیست.")) (Some (LicenseDetails licenses))
            | None => view StPassed None (Some (LicenseDetails licenses))
            end
        end
    | Score => view StPassed None (Some (ScoreDetails (score_of (va_data answer))))
    end.

(** One check by itself *)
Definition own_view (user : Account) (driver : documents) (answers : VerificationCheck -> option VerificationAnswer) (c : VerificationCheck)
    : VerificationCheckView :=
  match checkInputs user driver c with
  | None => mkView StMissing (Some (MISSING_MESSAGE c)) None None
  | Some input =>
      match answers c with
      | Some answer => if bool_decide (va_inputKey answer = inputKey input) then judge c answer user driver else pending_view None
      | None => pending_view None
      end
  end.

Definition status_passed (v : VerificationCheckView) : bool := eqb (vw_status v) StPassed.

(** [checks]: licence and points are asked with the phone, so they wait for it. *)
Definition check_view (user : Account) (driver : documents) (answers : VerificationCheck -> option VerificationAnswer) (c : VerificationCheck)
    : VerificationCheckView :=
  let own := own_view user driver answers c in
  match c with
  | License | Score =>
      if status_passed (own_view user driver answers Shahkar) || eqb (vw_status own) StMissing then own
      else pending_view (Some (js "اول باید موبایل به نام کد ملی تأیید شود."))
  | _ => own
  end.

Record DriverVerificationView := mkVerificationView {
  dv_verified : bool;
  dv_checks : list (VerificationCheck * VerificationCheckView);
}.

Definition passed (user : Account) (driver : documents) (answers : VerificationCheck -> option VerificationAnswer) (c : VerificationCheck) : bool :=
  status_passed (check_view user driver answers c).

(** [evaluateVerification] *)
Definition evaluateVerification (user : Account) (driver : documents) (answers : VerificationCheck -> option VerificationAnswer) : DriverVerificationView :=
  mkVerificationView
    (passed user driver answers Shahkar && passed user driver answers Person && passed user driver answers License)
    (map (fun c => (c, check_view user driver answers c)) VERIFICATION_CHECKS).

End Judge.

(** ** Asking *)

Definition HOUR : Z := 3600000.
Definition DAY : Z := 24 * HOUR.

(** [PASSED_MAX_AGE]: [None] never grows old *)
Definition PASSED_MAX_AGE (c : VerificationCheck) : option Z :=
  match c with Shahkar => Some (180 * DAY) | Person => None | License => Some (30 * DAY) | Score => Some (7 * DAY) end.

Definition FAILED_RETRY_AFTER : Z := HOUR.
Definition DAILY_PAID_INQUIRIES : Z := 12.

(** An inquiry that has been answered or has failed, with the day its count was taken on *)
Record Asked := mkAsked {
  as_user : uuid;
  as_day : Z;
  as_check : VerificationCheck;
  as_input : list text;
  as_result : ApiIrResult + exn;
}.

(** The accounts, the rows of [DriverProfile], and everything asked so far, the last first *)
Record inquiry_state := mkInquiry {
  iq_now : time;
  iq_users : gmap uuid Account;
  iq_papers : gmap uuid Papers;
  iq_asked : list Asked;
}.

Abbreviation IM := (M inquiry_state).

(** The [n]th inquiry: its answer, and how long it takes *)
Class ApiIr := { api_answer : nat -> VerificationCheck -> list text -> ApiIrResult + exn; api_lasts : nat -> Z }.

(** [driver], as TypeORM has it in memory: a row that was read, the object made where there was
    none, and that object once it is a row, with the defaults of its columns *)
Inductive Entity := Found (row : Papers) | Made | Inserted.

Definition documents_of (e : Entity) : documents :=
  match e with Found row => (pp_birthDate row, dp_licenseNumber (pp_profile row)) | _ => (None, None) end.

(** One run of [verify]: its copies of the account and the row, and [record] *)
Record Verifying := mkVerifying {
  vf_userId : uuid;
  vf_user : Account;
  vf_driver : Entity;
  vf_record : DriverVerificationRecord;
}.

Definition record_of (row : option Papers) : DriverVerificationRecord :=
  match row ≫= pp_verification with Some r => r | None => mkRecord no_answers None end.

Definition begin_verify (userId : uuid) : IM Verifying :=
  s ← get;
  user ← some_or (iq_users s !! userId) (notFound "User not found.");
  let row := iq_papers s !! userId in
  mret (mkVerifying userId user (match row with Some row => Found row | None => Made end) (record_of row)).

(** [profiles.save(driver)]: every column of a row that was read is written as it was read; of
    an object that was made, the columns it has. *)
Definition default_columns (p : DriverProfile) : DriverProfile :=
  (((p <| dp_tripType := dp_tripType new_profile |>) <| dp_tripTypes := dp_tripTypes new_profile |>)
     <| dp_companyUserIds := dp_companyUserIds new_profile |>) <| dp_cargoVoice := dp_cargoVoice new_profile |>.

Definition saved_row (driver : Entity) (stored : option Papers) (r : DriverVerificationRecord) : Papers :=
  match driver, stored with
  | Found row, _ => row <| pp_verification := Some r |>
  | Made, Some row => row <| pp_verification := Some r |>
  | Inserted, Some row => mkPapers (default_columns (pp_profile row)) (pp_birthDate row) (Some r)
  | _, None => new_papers <| pp_verification := Some r |>
  end.

Definition saved_entity (driver : Entity) (stored : option Papers) (r : DriverVerificationRecord) : Entity :=
  match driver, stored with
  | Found row, _ => Found (row <| pp_verification := Some r |>)
  | Made, None => Inserted
  | driver, _ => driver
  end.

Definition save_verification (p : Verifying) : IM Verifying :=
  s ← get;
  let stored := iq_papers s !! vf_userId p in
  modify (fun s => s <| iq_papers := <[vf_userId p := saved_row (vf_driver p) stored (vf_record p)]> (iq_papers s) |>) ;;
  mret (p <| vf_driver := saved_entity (vf_driver p) stored (vf_record p) |>).

(** An inquiry on its way *)
Record Asking := mkAsking { ak_check : VerificationCheck; ak_key : text; ak_input : list text; ak_day : Z }.

(** [spendQuota]: the inquiries of the day, one more *)
Definition spent (now : time) (r : DriverVerificationRecord) : Z :=
  match rc_usage r with Some (day, count) => if day =? now `div` DAY then count else 0 | None => 0 end.

Definition spendQuota (p : Verifying) : IM Verifying :=
  s ← get;
  let count := spent (iq_now s) (vf_record p) in
  ensure (count <? DAILY_PAID_INQUIRIES) (HttpError 429 (js "Too many identity inquiries today. Please try again tomorrow.")) ;;
  mret (p <| vf_record := mkRecord (rc_answers (vf_record p)) (Some (iq_now s `div` DAY, count + 1)) |>).

Section Asking.
  Context `{Unicode} `{Digest}.

(** The answer kept is of these papers and not too old. *)
Definition still_good (now : time) (c : VerificationCheck) (key : text) (r : DriverVerificationRecord) : bool :=
  match rc_answers r c with
  | Some a =>
      bool_decide (va_inputKey a = key) &&
      (if va_ok a then match PASSED_MAX_AGE c with Some age => now - va_checkedAt a <? age | None => true end
       else now - va_checkedAt a <? FAILED_RETRY_AFTER)
  | None => false
  end.

(** [refresh] up to its call *)
Definition prepare (c : VerificationCheck) (p : Verifying) : IM (option Asking * Verifying) :=
  match checkInputs (vf_user p) (documents_of (vf_driver p)) c with
  | None => mret (None, p)
  | Some input =>
      s ← get;
      if still_good (iq_now s) c (inputKey input) (vf_record p) then mret (None, p)
      else p ← spendQuota p; mret (Some (mkAsking c (inputKey input) input (iq_now s `div` DAY)), p)
  end.

(** [refresh] after its call: an answer is kept at once, an error ends the handler. *)
Definition receive (q : Asking) (r : ApiIrResult + exn) (p : Verifying) : IM Verifying :=
  modify (fun s => s <| iq_asked := mkAsked (vf_userId p) (ak_day q) (ak_check q) (ak_input q) r :: iq_asked s |>) ;;
  match r with
  | inr e => throw e
  | inl r =>
      s ← get;
      let answer := mkAnswer (ak_key q) (iq_now s) (ar_success r) (ar_message r) (ar_data r) in
      save_verification (p <| vf_record := with_answer (ak_check q) answer (vf_record p) |>)
  end.

Definition current (p : Verifying) : DriverVerificationView :=
  evaluateVerification (vf_user p) (documents_of (vf_driver p)) (rc_answers (vf_record p)).

Definition passed_now (p : Verifying) (c : VerificationCheck) : bool :=
  passed (vf_user p) (documents_of (vf_driver p)) (rc_answers (vf_record p)) c.

(** What must have passed before a check is asked *)
Definition gate (c : VerificationCheck) (p : Verifying) : bool :=
  match c with License => passed_now p Shahkar | Score => passed_now p License | _ => true end.

Context `{ApiIr}.

Definition call_api (q : Asking) (p : Verifying) : IM Verifying :=
  s ← get;
  let n := length (iq_asked s) in
  modify (fun s => s <| iq_now := iq_now s + Z.max 0 (api_lasts n) |>) ;;
  receive q (api_answer n (ak_check q) (ak_input q)) p.

Definition refresh (c : VerificationCheck) (p : Verifying) : IM Verifying :=
  if gate c p then
    '(q, p) ← prepare c p;
    match q with None => mret p | Some q => call_api q p end
  else mret p.

Fixpoint refresh_all (l : list VerificationCheck) (p : Verifying) : IM Verifying :=
  match l with [] => mret p | c :: l => p ← refresh c p; refresh_all l p end.

Definition verify (userId : uuid) : IM DriverVerificationView :=
  p ← begin_verify userId;
  p ← refresh_all VERIFICATION_CHECKS p;
  mret (current p).

(** [status] *)
Definition status (userId : uuid) : IM DriverVerificationView :=
  p ← begin_verify userId; mret (current p).

End Asking.

(** ** The system: inquiries on their way and everything else meanwhile *)

(** A run of [verify] between two of its waits *)
Record Task := mkTask { tk_run : Verifying; tk_left : list VerificationCheck; tk_asking : option Asking }.

Record inquiry_system := mkSystem { sy_state : inquiry_state; sy_tasks : gmap N Task }.

Section System.
  Context `{Unicode} `{Digest}.

(** An edit of a profile leaves [verification] as it is; an account may change in any way. *)
Inductive verify_step : inquiry_system -> inquiry_system -> Prop :=
| step_time s tasks ms : 0 <= ms -> verify_step (mkSystem s tasks) (mkSystem (s <| iq_now := iq_now s + ms |>) tasks)
| step_account s tasks u a : verify_step (mkSystem s tasks) (mkSystem (s <| iq_users := <[u := a]> (iq_users s) |>) tasks)
| step_papers s tasks u row : pp_verification row = (iq_papers s !! u ≫= pp_verification) ->
    verify_step (mkSystem s tasks) (mkSystem (s <| iq_papers := <[u := row]> (iq_papers s) |>) tasks)
| step_start s s' tasks id u p : tasks !! id = None -> begin_verify u s = (Ok p, s') ->
    verify_step (mkSystem s tasks) (mkSystem s' (<[id := mkTask p VERIFICATION_CHECKS None]> tasks))
| step_closed s tasks id p c l : tasks !! id = Some (mkTask p (c :: l) None) -> gate c p = false ->
    verify_step (mkSystem s tasks) (mkSystem s (<[id := mkTask p l None]> tasks))
| step_prepare s s' tasks id p c l q p' : tasks !! id = Some (mkTask p (c :: l) None) -> gate c p = true -> prepare c p s = (Ok (q, p'), s') ->
    verify_step (mkSystem s tasks) (mkSystem s' (<[id := mkTask p' l q]> tasks))
| step_refused s s' tasks id p c l e : tasks !! id = Some (mkTask p (c :: l) None) -> gate c p = true -> prepare c p s = (Err e, s') ->
    verify_step (mkSystem s tasks) (mkSystem s' (delete id tasks))
| step_answer s s' tasks id p l q r p' : tasks !! id = Some (mkTask p l (Some q)) -> receive q r p s = (Ok p', s') ->
    verify_step (mkSystem s tasks) (mkSystem s' (<[id := mkTask p' l None]> tasks))
| step_failed s s' tasks id p l q r e : tasks !! id = Some (mkTask p l (Some q)) -> receive q r p s = (Err e, s') ->
    verify_step (mkSystem s tasks) (mkSystem s' (delete id tasks))
| step_done s tasks id p : tasks !! id = Some (mkTask p [] None) ->
    verify_step (mkSystem s tasks) (mkSystem s (delete id tasks)).

End System.

(** ** The handler is a run of the system *)

Section Runs.
  Context `{Unicode} `{Digest} `{ApiIr}.

Definition reaches (tasks : gmap N Task) (id : N) (p : Verifying) (l : list VerificationCheck) (s : inquiry_state)
    (r : outcome Verifying) (s' : inquiry_state) (l' : list VerificationCheck) : Prop :=
  rtc verify_step (mkSystem s (<[id := mkTask p l None]> tasks))
    (mkSystem s' (match r with Ok p' => <[id := mkTask p' l' None]> tasks | Err _ => tasks end)).

Lemma refresh_steps tasks id c l p s r s' :
  tasks !! id = None -> refresh c p s = (r, s') -> reaches tasks id p (c :: l) s r s' l.
Proof.
  intros Hid. unfold reaches, refresh. pose proof (lookup_insert_eq tasks id (mkTask p (c :: l) None)) as Ht.
  destruct (gate c p) eqn:Hg.
  2:{ rewrite run_ret. intros [= <- <-]. apply rtc_once. rewrite <- (insert_insert_eq tasks id (mkTask p l None) (mkTask p (c :: l) None)). by apply (step_closed _ _ _ _ c). }
  rewrite run_bind. destruct (prepare c p s) as [[[q p1]|e] s1] eqn:Hp.
  2:{ intros [= <- <-]. apply rtc_once. rewrite <- (delete_insert_id tasks id (mkTask p (c :: l) None) Hid) at 2. by apply (step_refused _ _ _ _ p c l e). }
  intros Hrun. apply (rtc_l _ _ (mkSystem s1 (<[id := mkTask p1 l q]> tasks))).
  { rewrite <- (insert_insert_eq tasks id (mkTask p1 l q) (mkTask p (c :: l) None)). by apply (step_prepare _ _ _ _ p c). }
  destruct q as [q|]; [|rewrite run_ret in Hrun; injection Hrun as <- <-; apply rtc_refl].
  unfold call_api in Hrun. rewrite run_bind in Hrun. unfold get in Hrun. cbv beta iota in Hrun. rewrite run_bind in Hrun. unfold modify in Hrun. cbv beta iota in Hrun.
  set (n := length (iq_asked s1)) in *. set (s2 := s1 <| iq_now := iq_now s1 + Z.max 0 (api_lasts n) |>) in *.
  apply (rtc_l _ _ (mkSystem s2 (<[id := mkTask p1 l (Some q)]> tasks))); [apply step_time; lia|].
  pose proof (lookup_insert_eq tasks id (mkTask p1 l (Some q))) as Hq. apply rtc_once. destruct r as [p2|e].
  - rewrite <- (insert_insert_eq tasks id (mkTask p2 l None) (mkTask p1 l (Some q))). by eapply step_answer.
  - rewrite <- (delete_insert_id tasks id (mkTask p1 l (Some q)) Hid) at 2. by eapply step_failed.
Qed.

Lemma refresh_all_steps tasks id l : forall p s r s',
  tasks !! id = None -> refresh_all l p s = (r, s') -> reaches tasks id p l s r s' [].
Proof.
  induction l as [|c l IH]; intros p s r s' Hid; cbn [refresh_all]; [rewrite run_ret; intros [= <- <-]; apply rtc_refl|].
  rewrite run_bind. destruct (refresh c p s) as [[p1|e] s1] eqn:Hc; pose proof (refresh_steps tasks id c l p s _ _ Hid Hc) as Hstep.
  - intros Hl. pose proof (IH p1 s1 r s' Hid Hl) as Hrest. unfold reaches in *. by etrans.
  - by intros [= <- <-].
Qed.

(** The handler [verify] is a run of the system in which nobody else moves: what holds in every
    state the system reaches holds after it, whatever it answers. *)
Theorem verify_is_steps (tasks : gmap N Task) (id : N) (u : uuid) (s : inquiry_state) :
  tasks !! id = None -> rtc verify_step (mkSystem s tasks) (mkSystem (final (verify u) s) tasks).
Proof.
  intros Hid. unfold final, verify. rewrite run_bind. destruct (begin_verify u s) as [[p|e] s1] eqn:Hb.
  2:{ unfold begin_verify in Hb. rewrite run_bind in Hb. unfold get in Hb. cbv beta iota in Hb. rewrite run_bind in Hb.
      destruct (iq_users s !! u); cbn in Hb; [by inversion Hb|]. injection Hb as _ <-. apply rtc_refl. }
  apply (rtc_l _ _ (mkSystem s1 (<[id := mkTask p VERIFICATION_CHECKS None]> tasks))); [by apply (step_start _ _ _ _ u)|].
  rewrite run_bind. destruct (refresh_all VERIFICATION_CHECKS p s1) as [[p2|e] s2] eqn:E;
    pose proof (refresh_all_steps tasks id VERIFICATION_CHECKS p s1 _ _ Hid E) as Hr; [|exact Hr].
  unfold reaches in Hr. etrans; [exact Hr|]. rewrite run_ret. apply rtc_once. cbn [snd].
  rewrite <- (delete_insert_id tasks id (mkTask p2 [] None) Hid) at 2. apply (step_done _ _ _ p2), lookup_insert_eq.
Qed.

End Runs.

(** ** What is kept was answered *)

Section Truth.
  Context `{Unicode} `{Digest}.

(** The answer kept for a check of a user is one api.ir gave, to the inputs of its key. *)
Definition told (asked : list Asked) (u : uuid) (c : VerificationCheck) (a : VerificationAnswer) : Prop :=
  exists e r, e ∈ asked /\ as_user e = u /\ as_check e = c /\ as_result e = inl r /\ va_inputKey a = inputKey (as_input e) /\
    va_ok a = ar_success r /\ va_data a = ar_data r /\ exists user driver, checkInputs user driver c = Some (as_input e).

Definition record_true (asked : list Asked) (u : uuid) (r : DriverVerificationRecord) : Prop :=
  forall c a, rc_answers r c = Some a -> told asked u c a.

Definition asking_true (t : Task) : Prop :=
  match tk_asking t with
  | Some q => ak_key q = inputKey (ak_input q) /\ exists user driver, checkInputs user driver (ak_check q) = Some (ak_input q)
  | None => True
  end.

Definition task_true (asked : list Asked) (t : Task) : Prop :=
  record_true asked (vf_userId (tk_run t)) (vf_record (tk_run t)) /\ asking_true t.

Definition all_true (sy : inquiry_system) : Prop :=
  (forall u, record_true (iq_asked (sy_state sy)) u (record_of (iq_papers (sy_state sy) !! u))) /\
  map_Forall (fun _ => task_true (iq_asked (sy_state sy))) (sy_tasks sy).

Lemma told_more asked e u c a : told asked u c a -> told (e :: asked) u c a.
Proof. intros (x & r & Hx & Hr). exists x, r. split; [by right | done]. Qed.

Lemma record_more asked e u r : record_true asked u r -> record_true (e :: asked) u r.
Proof. intros Hr c a Ha. by apply told_more, Hr. Qed.

Lemma task_more asked e t : task_true asked t -> task_true (e :: asked) t.
Proof. intros [Hr Ha]. split; [by apply record_more | done]. Qed.

(** [spendQuota] changes nothing but the count. *)
Lemma quota_run p s :
  spendQuota p s =
    (if spent (iq_now s) (vf_record p) <? DAILY_PAID_INQUIRIES
     then Ok (p <| vf_record := mkRecord (rc_answers (vf_record p)) (Some (iq_now s `div` DAY, spent (iq_now s) (vf_record p) + 1)) |>)
     else Err (HttpError 429 (js "Too many identity inquiries today. Please try again tomorrow.")), s).
Proof. unfold spendQuota. rewrite run_bind. unfold get. cbv beta iota. rewrite run_bind. by destruct (_ <? _). Qed.

(** What [prepare] may answer: nothing to ask, or an inquiry of these papers counted today *)
Lemma prepare_run c p s o s' : prepare c p s = (o, s') ->
  s' = s /\
  match o with
  | Ok (None, p') => p' = p
  | Ok (Some q, p') => checkInputs (vf_user p) (documents_of (vf_driver p)) c = Some (ak_input q) /\
      q = mkAsking c (inputKey (ak_input q)) (ak_input q) (iq_now s `div` DAY) /\ spent (iq_now s) (vf_record p) < DAILY_PAID_INQUIRIES /\
      p' = p <| vf_record := mkRecord (rc_answers (vf_record p)) (Some (iq_now s `div` DAY, spent (iq_now s) (vf_record p) + 1)) |>
  | Err _ => True
  end.
Proof.
  unfold prepare. destruct (checkInputs _ _ c) as [input|]; [|by intros [= <- <-]].
  rewrite run_bind. unfold get. cbv beta iota. destruct (still_good _ _ _ _); [by intros [= <- <-]|].
  rewrite run_bind, quota_run. destruct (Z.ltb_spec (spent (iq_now s) (vf_record p)) DAILY_PAID_INQUIRIES) as [Hs|Hs]; [|by intros [= <- <-]].
  cbv beta iota. rewrite run_ret. by intros [= <- <-].
Qed.

(** What [receive] leaves: the inquiry in the list of what was asked and, when it was answered,
    the answer in the run and in the row *)
Definition answer_of (now : time) (q : Asking) (r : ApiIrResult) : VerificationAnswer :=
  mkAnswer (ak_key q) now (ar_success r) (ar_message r) (ar_data r).

Lemma receive_run q r p s o s' : receive q r p s = (o, s') ->
  iq_asked s' = mkAsked (vf_userId p) (ak_day q) (ak_check q) (ak_input q) r :: iq_asked s /\ iq_now s' = iq_now s /\ iq_users s' = iq_users s /\
  match r with
  | inr e => o = Err e /\ iq_papers s' = iq_papers s
  | inl r => let rec := with_answer (ak_check q) (answer_of (iq_now s) q r) (vf_record p) in
      let stored := iq_papers s !! vf_userId p in
      o = Ok (mkVerifying (vf_userId p) (vf_user p) (saved_entity (vf_driver p) stored rec) rec) /\
      iq_papers s' = <[vf_userId p := saved_row (vf_driver p) stored rec]> (iq_papers s)
  end.
Proof.
  unfold receive. rewrite run_bind. unfold modify at 1. cbv beta iota. destruct r as [r|e]; [|unfold throw; by intros [= <- <-]].
  rewrite run_bind. unfold get. cbv beta iota. unfold save_verification. rewrite run_bind. unfold get. cbv beta iota. rewrite run_bind.
  unfold modify. cbv beta iota. rewrite run_ret. by intros [= <- <-].
Qed.

Lemma saved_record driver stored r : pp_verification (saved_row driver stored r) = Some r.
Proof. by destruct driver, stored. Qed.

Lemma begin_run u s o s' : begin_verify u s = (o, s') ->
  s' = s /\ match o with
            | Ok p => vf_userId p = u /\ vf_record p = record_of (iq_papers s !! u) /\ iq_users s !! u = Some (vf_user p) /\
                vf_driver p = match iq_papers s !! u with Some row => Found row | None => Made end
            | Err _ => True
            end.
Proof.
  unfold begin_verify. rewrite run_bind. unfold get. cbv beta iota. rewrite run_bind.
  destruct (iq_users s !! u); cbn; by intros [= <- <-].
Qed.

Lemma step_true sy sy' : verify_step sy sy' -> all_true sy -> all_true sy'.
Proof.
  intros Hstep [Hrows Htasks]. destruct Hstep as
    [s tasks ms _|s tasks u a|s tasks u row Hv|s s' tasks id u p _ Hb|s tasks id p c l Ht _|s s' tasks id p c l q p' Ht _ Hp
    |s s' tasks id p c l e Ht _ Hp|s s' tasks id p l q r p' Ht Hr|s s' tasks id p l q r e Ht Hr|s tasks id p Ht];
    cbn [sy_state sy_tasks] in *.
  - by split.
  - by split.
  - split; [|done]. intros v. cbn. destruct (decide (u = v)) as [<-|Hne]; [|rewrite lookup_insert_ne by done; by apply Hrows].
    rewrite lookup_insert_eq. specialize (Hrows u). unfold record_of in *. cbn [mbind option_bind]. by rewrite Hv.
  - destruct (begin_run _ _ _ _ Hb) as (-> & Hu & Hr & _). split; [done|].
    apply map_Forall_insert_2; [|done]. split; [|done]. cbn [tk_run]. rewrite Hr, Hu. apply Hrows.
  - split; [done|]. apply map_Forall_insert_2; [|done]. by destruct (Htasks id _ Ht).
  - destruct (prepare_run _ _ _ _ _ Hp) as [-> Hq]. split; [done|]. apply map_Forall_insert_2; [|done]. destruct (Htasks id _ Ht) as [Hr _].
    destruct q as [q|]; [|by subst]. destruct Hq as (Hc & -> & _ & ->). split; [exact Hr|]. split; [done|]. eexists _, _. exact Hc.
  - destruct (prepare_run _ _ _ _ _ Hp) as [-> _]. split; [done|]. by apply map_Forall_delete.
  - destruct (receive_run _ _ _ _ _ _ Hr) as (Ha & _ & _ & Hcase). unfold all_true. cbn [sy_state sy_tasks]. rewrite Ha. destruct r as [r|e]; [|by destruct Hcase].
    cbv zeta in Hcase. destruct Hcase as [[= ->] Hpapers]. destruct (Htasks id _ Ht) as [Hrec [Hk Hin]]. cbn [tk_run tk_asking] in *.
    set (e := mkAsked _ _ _ _ _) in *. set (rec := with_answer _ _ _) in *.
    assert (Hnew : record_true (e :: iq_asked s) (vf_userId p) rec).
    { intros c a Hca. unfold rec, with_answer in Hca. cbn [rc_answers] in Hca. destruct (eqb c (ak_check q)) eqn:E; [|by apply told_more, Hrec].
      apply (eqb_true c (ak_check q)) in E as ->. injection Hca as <-. exists e, r. split; [by left|]. by repeat split. }
    split.
    + intros v. rewrite Hpapers. destruct (decide (vf_userId p = v)) as [<-|Hne].
      * rewrite lookup_insert_eq. unfold record_of. cbn [mbind option_bind]. by rewrite saved_record.
      * rewrite lookup_insert_ne by done. by apply record_more, Hrows.
    + apply map_Forall_insert_2; [by split|]. intros j t Hj. by apply task_more, (Htasks j).
  - destruct (receive_run _ _ _ _ _ _ Hr) as (Ha & _ & _ & Hcase). unfold all_true. cbn [sy_state sy_tasks]. rewrite Ha. destruct r as [r|e']; [by destruct Hcase|].
    destruct Hcase as [_ Hpapers]. rewrite Hpapers. split; [intros v; by apply record_more, Hrows|].
    apply map_Forall_delete. intros j t Hj. by apply task_more, (Htasks j).
  - split; [done|]. by apply map_Forall_delete.
Qed.

End Truth.

(** ** Who counts as verified *)

Section Verified.
  Context `{Unicode} `{Digest}.

(** api.ir answered the check of the user for [input], and what it said *)
Definition register_said (asked : list Asked) (u : uuid) (c : VerificationCheck) (input : list text) (said : option ApiData -> Prop) : Prop :=
  exists e r, e ∈ asked /\ as_user e = u /\ as_check e = c /\ as_input e = input /\ as_result e = inl r /\ ar_success r = true /\ said (ar_data r).

Definition same_person (user : Account) (d : option ApiData) : Prop :=
  pi_alive (person_of d) <> Some false /\
  normalizeName (pi_firstName (person_of d)) = normalizeName (a_firstName user) /\
  normalizeName (pi_lastName (person_of d)) = normalizeName (a_lastName user).

Definition has_license (driver : documents) (d : option ApiData) : Prop :=
  exists i, i ∈ licenses_of d /\ forall number, trimmed (licenseNumber driver) = Some number -> exists j, j ∈ licenses_of d /\ li_licenseNumber j = Some number.

Lemma judge_passed c a user driver : status_passed (judge c a user driver) = true ->
  va_ok a = true /\
  match c with
  | Shahkar => va_data a = Some (ShahkarData true)
  | Person => same_person user (va_data a)
  | License => has_license driver (va_data a)
  | Score => True
  end.
Proof.
  unfold judge, status_passed. destruct (va_ok a); cbn [negb]; [|done]. intros Hp. split; [done|]. destruct c; [| | |done].
  - destruct (va_data a) as [[[]| | |]|]; done.
  - cbv zeta in Hp. unfold same_person. destruct (bool_decide_reflect (pi_alive (person_of (va_data a)) = Some false)); [done|].
    destruct (bool_decide_reflect (normalizeName (pi_firstName (person_of (va_data a))) = normalizeName (a_firstName user))); [|done].
    by destruct (bool_decide_reflect (normalizeName (pi_lastName (person_of (va_data a))) = normalizeName (a_lastName user))).
  - unfold has_license. destruct (licenses_of (va_data a)) as [|i l] eqn:E; [done|]. exists i. split; [by left|]. intros number Hn.
    rewrite Hn in Hp. destruct (has_number number (i :: l)) eqn:Hh; [|done]. unfold has_number in Hh.
    apply existsb_exists in Hh as (j & Hj & Hd%bool_decide_eq_true). exists j. split; [by apply list_elem_of_In | done].
Qed.

Lemma view_passed user driver answers c : c = Shahkar \/ c = Person \/ c = License -> passed user driver answers c = true ->
  exists input a, checkInputs user driver c = Some input /\ answers c = Some a /\ va_inputKey a = inputKey input /\ status_passed (judge c a user driver) = true.
Proof.
  intros Hc Hp. assert (Hown : status_passed (own_view user driver answers c) = true).
  { unfold passed, check_view in Hp. destruct c; [exact Hp | exact Hp | | naive_solver]. by destruct (status_passed (own_view user driver answers Shahkar) || _). }
  unfold own_view in Hown. destruct (checkInputs user driver c) as [input|]; [|done]. destruct (answers c) as [a|]; [|done].
  destruct (bool_decide_reflect (va_inputKey a = inputKey input)); [|done]. by exists input, a.
Qed.

Lemma tenDigits_length t n : tenDigits t = Some n -> length n = 10%nat.
Proof.
  destruct t as [t|]; cbn; [|done]. destruct (forallb is_digit t); cbn; [|done]. destruct (Nat.eqb_spec (length t) 10); [|done]. by intros [= <-].
Qed.

(** The first input of a check has ten digits, so the joined text tells the inputs apart. *)
Lemma join_inputs user driver user' driver' c i i' : c = Shahkar \/ c = Person \/ c = License ->
  checkInputs user driver c = Some i -> checkInputs user' driver' c = Some i' -> join (js "|") i = join (js "|") i' -> i = i'.
Proof.
  intros Hc Hi Hi' Hj. unfold checkInputs in Hi, Hi'.
  destruct (tenDigits (a_nationalCode user)) as [n|] eqn:E; [|done]. destruct (tenDigits (a_nationalCode user')) as [n'|] eqn:E'; [|done].
  assert (Htwo : exists x x', i = [n; x] /\ i' = [n'; x']).
  { destruct Hc as [->|[->| ->]];
      [destruct (normalizeMobile (a_mobile user)), (normalizeMobile (a_mobile user'))
      |destruct (normalizeBirthDate driver.1), (normalizeBirthDate driver'.1)
      |destruct (normalizeMobile (a_mobile user)), (normalizeMobile (a_mobile user'))]; cbn in Hi, Hi'; try done;
      injection Hi as <-; injection Hi' as <-; eauto. }
  destruct Htwo as (x & x' & -> & ->). cbn [join foldl] in Hj. apply app_inj_1 in Hj as [<- Hx]; [by injection Hx as <-|].
  by rewrite (tenDigits_length _ _ E), (tenDigits_length _ _ E').
Qed.

(** C15: Nobody is verified without the registers' answers.  Whatever inquiries overlap, whatever is
    edited meanwhile and whichever calls fail: when a driver is shown as verified, api.ir has
    answered for its present national code that the present phone is its own; for the code and
    the present date of birth, an answer that does not say the person is dead and whose first
    and last names, spelling aside, are the driver's present ones; and for the code and the
    phone at least one licence, with the present number when there is one; as long as no two of
    the inputs asked of it meet in their hash.  A name that is missing counts as empty, and that
    the person is alive need not be said: an answer with nothing in it passes the second
    inquiry of a driver whose own names are empty, and of no other. *)
Theorem verified_is_registered (sy0 sy : inquiry_system) (u : uuid) (user : Account) (row : Papers) (driver : documents) :
  (forall v, iq_papers (sy_state sy0) !! v ≫= pp_verification = None) -> sy_tasks sy0 = ∅ -> rtc verify_step sy0 sy ->
  iq_users (sy_state sy) !! u = Some user -> iq_papers (sy_state sy) !! u = Some row -> driver = documents_of (Found row) ->
  (forall e c input, e ∈ iq_asked (sy_state sy) -> as_user e = u -> as_check e = c -> checkInputs user driver c = Some input ->
     inputKey (as_input e) = inputKey input -> join (js "|") (as_input e) = join (js "|") input) ->
  dv_verified (evaluateVerification user driver (rc_answers (record_of (Some row)))) = true ->
  exists nationalCode mobile birthDate,
    tenDigits (a_nationalCode user) = Some nationalCode /\ normalizeMobile (a_mobile user) = Some mobile /\ normalizeBirthDate (pp_birthDate row) = Some birthDate /\
    register_said (iq_asked (sy_state sy)) u Shahkar [nationalCode; mobile] (eq (Some (ShahkarData true))) /\
    register_said (iq_asked (sy_state sy)) u Person [nationalCode; birthDate] (same_person user) /\
    register_said (iq_asked (sy_state sy)) u License [nationalCode; mobile] (has_license driver).
Proof.
  intros Hempty Ht0 Hsteps Huser Hrow Hdocs Hmeet Hv.
  assert (Htrue : all_true sy).
  { assert (Hinit : all_true sy0).
    { split; [|rewrite Ht0; apply map_Forall_empty]. intros v c a. unfold record_of. by rewrite Hempty. }
    clear -Hsteps Hinit. induction Hsteps as [|s1 s2 s3 Hs _ IH]; [done|]. by apply IH, (step_true s1). }
  destruct Htrue as [Hrows _]. specialize (Hrows u). rewrite Hrow in Hrows.
  unfold evaluateVerification in Hv. cbn [dv_verified] in Hv. apply andb_true_iff in Hv as [[Hs Hp]%andb_true_iff Hl].
  assert (Hsaid : forall c, c = Shahkar \/ c = Person \/ c = License -> passed user driver (rc_answers (record_of (Some row))) c = true ->
    exists input, checkInputs user driver c = Some input /\
      register_said (iq_asked (sy_state sy)) u c input
        (match c with Shahkar => fun d => d = Some (ShahkarData true) | Person => same_person user | License => has_license driver | Score => fun _ => True end)).
  { intros c Hc Hpass. destruct (view_passed _ _ _ _ Hc Hpass) as (input & a & Hin & Ha & Hk & Hj).
    destruct (Hrows c a Ha) as (e & r & He & Heu & Hec & Her & Hek & Hok & Hdata & user' & driver' & Hwf).
    destruct (judge_passed _ _ _ _ Hj) as [Hok' Hsay]. exists input. split; [done|]. exists e, r.
    split; [done|]. split; [done|]. split; [done|]. split.
    { apply (join_inputs user' driver' user driver c); [done..|]. apply (Hmeet e c input); [done..|]. congruence. }
    split; [done|]. split; [congruence|]. rewrite <- Hdata. by destruct c. }
  destruct (Hsaid Shahkar (or_introl eq_refl) Hs) as (i1 & Hi1 & Hr1).
  destruct (Hsaid Person (or_intror (or_introl eq_refl)) Hp) as (i2 & Hi2 & Hr2).
  destruct (Hsaid License (or_intror (or_intror eq_refl)) Hl) as (i3 & Hi3 & Hr3).
  unfold checkInputs in Hi1, Hi2, Hi3. rewrite Hdocs in Hi2. cbn [fst documents_of] in Hi2.
  destruct (tenDigits (a_nationalCode user)) as [n|]; [|done]. cbn [mbind option_bind] in *.
  destruct (normalizeMobile (a_mobile user)) as [m|]; [|done]. destruct (normalizeBirthDate (pp_birthDate row)) as [b|]; [|done].
  cbn [mbind option_bind] in *. injection Hi1 as <-. injection Hi2 as <-. injection Hi3 as <-. exists n, m, b.
  do 3 (split; [done|]). split; [|by split]. destruct Hr1 as (e & r & ? & ? & ? & ? & ? & ? & Hd). exists e, r. by rewrite Hd.
Qed.

End Verified.

(** ** Twelve a day *)

Section Quota.
  Context `{Unicode} `{Digest}.

Definition answered_on (u : uuid) (day : Z) (e : Asked) : bool :=
  (as_user e =? u)%N && (as_day e =? day) && match as_result e with inl _ => true | inr _ => false end.

Definition answers_on (u : uuid) (day : Z) (asked : list Asked) : Z := Z.of_nat (length (List.filter (answered_on u day) asked)).

(** No two inquiries of one driver are on their way at once. *)
Definition alone (sy : inquiry_system) : Prop :=
  forall i j t t', sy_tasks sy !! i = Some t -> sy_tasks sy !! j = Some t' -> vf_userId (tk_run t) = vf_userId (tk_run t') -> i = j.

Definition lone_step (sy sy' : inquiry_system) : Prop := verify_step sy sy' /\ alone sy'.

(** A count covers the answers of its day, with [more] to come, and there is none after it. *)
Definition covers (asked : list Asked) (u : uuid) (now : time) (more : Z) (usage : option (Z * Z)) : Prop :=
  match usage with
  | Some (day, n) => answers_on u day asked + more <= n /\ n <= DAILY_PAID_INQUIRIES /\ day <= now `div` DAY /\ forall d, day < d -> answers_on u d asked = 0
  | None => more = 0 /\ forall d, answers_on u d asked = 0
  end.

Definition task_covered (asked : list Asked) (now : time) (t : Task) : Prop :=
  let usage := rc_usage (vf_record (tk_run t)) in
  covers asked (vf_userId (tk_run t)) now (match tk_asking t with Some _ => 1 | None => 0 end) usage /\
  match tk_asking t with Some q => exists n, usage = Some (ak_day q, n) | None => True end.

Definition counted_system (sy : inquiry_system) : Prop :=
  let s := sy_state sy in
  (forall u d, answers_on u d (iq_asked s) <= DAILY_PAID_INQUIRIES) /\
  (forall u, covers (iq_asked s) u (iq_now s) 0 (rc_usage (record_of (iq_papers s !! u)))) /\
  map_Forall (fun _ => task_covered (iq_asked s) (iq_now s)) (sy_tasks sy).

Lemma day_later now ms : 0 <= ms -> now `div` DAY <= (now + ms) `div` DAY.
Proof. intros Hms. apply Z.div_le_mono; unfold DAY, HOUR; lia. Qed.

Lemma covers_later asked u now ms more usage : 0 <= ms -> covers asked u now more usage -> covers asked u (now + ms) more usage.
Proof. intros Hms. pose proof (day_later now ms Hms). destruct usage as [[d n]|]; cbn; [|done]. intros (? & ? & ? & ?). split_and!; [done..|lia|done]. Qed.

Lemma answers_other u d e asked : answered_on u d e = false -> answers_on u d (e :: asked) = answers_on u d asked.
Proof. unfold answers_on. cbn [List.filter]. by intros ->. Qed.

Lemma covers_other e asked u now more usage : (forall d, answered_on u d e = false) -> covers asked u now more usage -> covers (e :: asked) u now more usage.
Proof.
  intros He. destruct usage as [[d n]|]; cbn; [intros (? & ? & ? & Hlater) | intros [? Hnone]].
  - rewrite answers_other by done. split_and!; [done..|]. intros d' Hd. rewrite answers_other by done. by apply Hlater.
  - split; [done|]. intros d. by rewrite answers_other.
Qed.

(** The answer that was awaited is the one more. *)
Lemma covers_answer e asked u now day n : as_user e = u -> as_day e = day -> (exists r, as_result e = inl r) ->
  covers asked u now 1 (Some (day, n)) -> covers (e :: asked) u now 0 (Some (day, n)).
Proof.
  intros Hu Hd [r Hr] (Hn & Hmax & Hday & Hlater). unfold covers.
  assert (Hone : answers_on u day (e :: asked) = answers_on u day asked + 1).
  { unfold answers_on. cbn [List.filter]. unfold answered_on at 1. rewrite Hu, Hd, Hr, N.eqb_refl, Z.eqb_refl. cbn. lia. }
  split; [lia|]. split_and!; [done..|]. intros d Hd'. rewrite answers_other; [by apply Hlater|].
  unfold answered_on. rewrite Hd. rewrite (proj2 (Z.eqb_neq day d)) by lia. by rewrite andb_false_r.
Qed.

(** [spendQuota] makes room for one more. *)
Lemma covers_spent asked u now r : covers asked u now 0 (rc_usage r) -> spent now r < DAILY_PAID_INQUIRIES ->
  covers asked u now 1 (Some (now `div` DAY, spent now r + 1)).
Proof.
  unfold spent. destruct (rc_usage r) as [[d n]|]; cbn.
  - intros (Hn & Hmax & Hday & Hlater). destruct (Z.eqb_spec d (now `div` DAY)) as [->|Hne]; intros Hlt.
    + split_and!; [lia..|done].
    + rewrite Hlater by lia. split_and!; [lia..|]. intros d' Hd'. apply Hlater. lia.
  - intros [_ Hnone] _. rewrite Hnone. unfold DAILY_PAID_INQUIRIES. split_and!; [lia..|]. intros d _. by apply Hnone.
Qed.

Lemma covers_max asked u now more usage : covers asked u now more usage -> 0 <= more -> forall d, (exists n, usage = Some (d, n)) -> answers_on u d asked + more <= DAILY_PAID_INQUIRIES.
Proof. intros Hc Hm d [n ->]. destruct Hc as (? & ? & _). lia. Qed.

Lemma alone_other sy i t : alone sy -> sy_tasks sy !! i = Some t ->
  forall j t', sy_tasks sy !! j = Some t' -> j <> i -> vf_userId (tk_run t') <> vf_userId (tk_run t).
Proof. intros Ha Hi j t' Hj Hne E. by apply Hne, (Ha j i t' t). Qed.

Lemma step_counted sy sy' : alone sy -> verify_step sy sy' -> counted_system sy -> counted_system sy'.
Proof.
  intros Halone Hstep (Hmax & Hrows & Htasks). destruct Hstep as
    [s tasks ms Hms|s tasks u a|s tasks u row Hv|s s' tasks id u p _ Hb|s tasks id p c l Ht _|s s' tasks id p c l q p' Ht _ Hp
    |s s' tasks id p c l e Ht _ Hp|s s' tasks id p l q r p' Ht Hr|s s' tasks id p l q r e Ht Hr|s tasks id p Ht];
    unfold counted_system; cbn [sy_state sy_tasks] in *; cbv zeta.
  - split; [exact Hmax|]. split; [intros u; by apply covers_later, Hrows|].
    intros j t Hj. destruct (Htasks j t Hj) as [Hc Hq]. split; [by apply covers_later | exact Hq].
  - by split_and!.
  - split_and!; [done| |done]. intros v. cbn. destruct (decide (u = v)) as [<-|Hne]; [|rewrite lookup_insert_ne by done; by apply Hrows].
    rewrite lookup_insert_eq. specialize (Hrows u). unfold record_of in *. cbn [mbind option_bind]. by rewrite Hv.
  - destruct (begin_run _ _ _ _ Hb) as (-> & Hu & Hr & _). split_and!; [done..|]. apply map_Forall_insert_2; [|done].
    split; [|done]. cbn [tk_run tk_asking]. rewrite Hr, Hu. apply Hrows.
  - split_and!; [done..|]. apply map_Forall_insert_2; [|done]. by destruct (Htasks id _ Ht).
  - destruct (prepare_run _ _ _ _ _ Hp) as [-> Hq]. split_and!; [done..|]. apply map_Forall_insert_2; [|done]. destruct (Htasks id _ Ht) as [Hc _].
    destruct q as [q|]; [|by subst]. destruct Hq as (_ & -> & Hlt & ->). split; [|by eexists]. by apply covers_spent.
  - destruct (prepare_run _ _ _ _ _ Hp) as [-> _]. split_and!; [done..|]. by apply map_Forall_delete.
  - destruct (receive_run _ _ _ _ _ _ Hr) as (Ha & Hnow & _ & Hcase). rewrite Ha, Hnow. destruct r as [r|e]; [|by destruct Hcase].
    cbv zeta in Hcase. destruct Hcase as [[= ->] Hpapers]. destruct (Htasks id _ Ht) as [Hc [n Hn]]. cbn [tk_run tk_asking] in Hc, Hn.
    set (e := mkAsked _ _ _ _ _) in *. set (rec := with_answer _ _ _) in *. rewrite Hn in Hc.
    assert (Hother : forall v d, v <> vf_userId p -> answered_on v d e = false).
    { intros v d Hv. unfold answered_on, e. cbn [as_user]. by rewrite (proj2 (N.eqb_neq _ _)). }
    assert (Hnew : covers (e :: iq_asked s) (vf_userId p) (iq_now s) 0 (rc_usage rec)).
    { unfold rec, with_answer. cbn [rc_usage]. rewrite Hn. apply covers_answer; [done..|by eexists|done]. }
    split_and!.
    + intros v d. destruct (decide (v = vf_userId p)) as [->|Hv]; [|rewrite answers_other by (by apply Hother); apply Hmax].
      destruct (decide (d = ak_day q)) as [->|Hd].
      * unfold rec, with_answer in Hnew. cbn [rc_usage] in Hnew. rewrite Hn in Hnew. destruct Hnew as (? & ? & _). lia.
      * rewrite answers_other; [apply Hmax|]. unfold answered_on, e. cbn [as_user as_day]. rewrite (proj2 (Z.eqb_neq (ak_day q) d)) by done.
        by rewrite andb_false_r.
    + intros v. rewrite Hpapers. destruct (decide (vf_userId p = v)) as [<-|Hne].
      * rewrite lookup_insert_eq. unfold record_of. cbn [mbind option_bind]. by rewrite saved_record.
      * rewrite lookup_insert_ne by done. apply covers_other; [intros d; by apply Hother | apply Hrows].
    + intros j t. destruct (decide (j = id)) as [->|Hj]; [rewrite lookup_insert_eq; by intros [= <-]|]. rewrite lookup_insert_ne by done. intros Hjt.
      destruct (Htasks j t Hjt) as [Hcj Hqj]. split; [|exact Hqj]. apply covers_other; [|exact Hcj]. intros d. apply Hother.
      exact (alone_other _ id _ Halone Ht j t Hjt Hj).
  - destruct (receive_run _ _ _ _ _ _ Hr) as (Ha & Hnow & _ & Hcase). rewrite Ha, Hnow. destruct r as [r|e']; [by destruct Hcase|].
    destruct Hcase as [_ Hpapers]. rewrite Hpapers. set (e1 := mkAsked _ _ _ _ _).
    assert (Hnone : forall v d, answered_on v d e1 = false) by (intros v d; unfold answered_on, e1; cbn; by rewrite andb_false_r).
    split_and!.
    + intros v d. rewrite answers_other by done. apply Hmax.
    + intros v. by apply covers_other.
    + apply map_Forall_delete. intros j t Hj. destruct (Htasks j t Hj) as [Hcj Hqj]. split; [by apply covers_other | exact Hqj].
  - split_and!; [done..|]. by apply map_Forall_delete.
Qed.

(** C18: Twelve a day.  While the inquiries of one driver do not overlap, api.ir answers at most
    twelve of them a day, whatever papers are changed in between and whichever calls fail. *)
Theorem twelve_a_day (sy0 sy : inquiry_system) :
  iq_asked (sy_state sy0) = [] -> (forall v, iq_papers (sy_state sy0) !! v ≫= pp_verification = None) -> sy_tasks sy0 = ∅ ->
  rtc lone_step sy0 sy -> forall u day, answers_on u day (iq_asked (sy_state sy)) <= DAILY_PAID_INQUIRIES.
Proof.
  intros Ha Hempty Ht Hsteps. cut (alone sy /\ counted_system sy); [by intros (_ & Hmax & _)|].
  assert (Hinit : alone sy0 /\ counted_system sy0).
  { split; [intros i j t t' Hi; by rewrite Ht in Hi|]. unfold counted_system. cbv zeta. rewrite Ha, Ht. split_and!; [done| |apply map_Forall_empty].
    intros v. unfold record_of. by rewrite Hempty. }
  clear Ha Hempty Ht. induction Hsteps as [|s1 s2 s3 [Hs Hal] _ IH]; [done|]. apply IH. destruct Hinit. split; [done|]. by apply (step_counted s1).
Qed.

End Quota.

(** ** What an answer is kept for, and what it writes *)

Section Kept.
  Context `{Unicode} `{Digest}.

(** A run that was read from a row keeps the columns of that row. *)
Lemma refresh_person_keeps `{ApiIr} p s p' s' row : vf_driver p = Found row -> refresh Person p s = (Ok p', s') ->
  vf_userId p' = vf_userId p /\ vf_user p' = vf_user p /\ documents_of (vf_driver p') = documents_of (vf_driver p) /\
  rc_answers (vf_record p') Shahkar = rc_answers (vf_record p) Shahkar /\
  exists new, iq_asked s' = new ++ iq_asked s /\ Forall (fun e => as_check e = Person) new.
Proof.
  destruct p as [pu puser pdriver prec]. cbn [vf_driver vf_userId vf_user vf_record]. intros ->. unfold refresh. cbn [gate]. rewrite run_bind. destruct (prepare Person _ s) as [[[q p1]|e] s1] eqn:Hp; [|done].
  destruct (prepare_run _ _ _ _ _ Hp) as [-> Hq]. destruct q as [q|]; [|subst; rewrite run_ret; intros [= <- <-]; split_and!; try done; by exists []].
  destruct Hq as (_ & Hqc & _ & ->). unfold call_api. rewrite run_bind. unfold get. cbv beta iota. rewrite run_bind. unfold modify. cbv beta iota.
  intros Hr. destruct (receive_run _ _ _ _ _ _ Hr) as (Ha & _ & _ & Hcase). destruct (api_answer _ _ _) as [r|e]; [|by destruct Hcase].
  cbv zeta in Hcase. destruct Hcase as [[= ->] _]. assert (Hck : ak_check q = Person) by by rewrite Hqc.
  split_and!; [done|done| | |].
  - done.
  - unfold with_answer. cbn [vf_record rc_answers]. by rewrite Hck.
  - exists [mkAsked pu (ak_day q) (ak_check q) (ak_input q) (inl r)]. split; [exact Ha|]. by repeat constructor.
Qed.

Lemma refresh_shut `{ApiIr} c p s : gate c p = false -> refresh c p s = (Ok p, s).
Proof. intros Hg. unfold refresh. by rewrite Hg. Qed.

Lemma shahkar_gate p : passed_now p Shahkar = false -> gate License p = false /\ gate Score p = false.
Proof.
  intros Hs. split; [exact Hs|]. cbn [gate]. unfold passed_now, passed, check_view in *.
  rewrite Hs. destruct (eqb (vw_status (own_view _ _ _ License)) StMissing) eqn:E; [|done].
  apply (eqb_true (vw_status _) StMissing) in E. unfold orb, status_passed. by rewrite E.
Qed.

(** C29: A phone that is not the driver's own is not asked about for half a year.  The register's
    «no» is an answer that was given, so it is kept as long as a «yes» (180 days) and not for the
    hour an unsuccessful answer is kept: while it is, [verify] asks nothing about the phone, the
    licence or the points, whatever happened to the phone in the meantime, and the driver stays
    unverified. *)
Theorem mismatch_sticks `{ApiIr} (s : inquiry_state) (u : uuid) (user : Account) (row : Papers) (input : list text) (a : VerificationAnswer) :
  iq_users s !! u = Some user -> iq_papers s !! u = Some row ->
  checkInputs user (documents_of (Found row)) Shahkar = Some input ->
  rc_answers (record_of (Some row)) Shahkar = Some a -> va_inputKey a = inputKey input ->
  va_ok a = true -> va_data a = Some (ShahkarData false) -> iq_now s - va_checkedAt a < 180 * DAY ->
  (exists new, iq_asked (final (verify u) s) = new ++ iq_asked s /\ Forall (fun e => as_check e = Person) new) /\
  forall view, result (verify u) s = Ok view -> dv_verified view = false.
Proof.
  intros Hu Hrow Hin Ha Hk Hok Hdata Hage. unfold final, result, verify. rewrite run_bind. unfold begin_verify. rewrite run_bind.
  unfold get at 1 2. cbv beta iota. rewrite Hu. cbn [some_or]. rewrite run_bind, run_ret. cbv beta iota. rewrite Hrow, run_ret. cbv beta iota.
  set (p := mkVerifying u user (Found row) (record_of (Some row))). rewrite run_bind. cbn [refresh_all VERIFICATION_CHECKS].
  assert (Hfirst : refresh Shahkar p s = (Ok p, s)).
  { unfold refresh. cbn [gate]. rewrite run_bind. unfold prepare. cbn [vf_user vf_driver p]. rewrite Hin, run_bind. unfold get. cbv beta iota.
    assert (Hgood : still_good (iq_now s) Shahkar (inputKey input) (record_of (Some row)) = true).
    { unfold still_good. rewrite Ha, (bool_decide_eq_true_2 _ Hk), Hok. cbn [PASSED_MAX_AGE andb]. by apply Z.ltb_lt. }
    cbn [vf_record p]. by rewrite Hgood. }
  assert (Hno : forall p', vf_user p' = user -> documents_of (vf_driver p') = documents_of (Found row) -> rc_answers (vf_record p') Shahkar = Some a ->
    passed_now p' Shahkar = false).
  { intros p' Hpu Hpd Hpa. unfold passed_now, passed, check_view, own_view. rewrite Hpu, Hpd, Hin, Hpa, (bool_decide_eq_true_2 _ Hk).
    unfold judge, status_passed. rewrite Hok, Hdata. done. }
  rewrite run_bind, Hfirst, run_bind. destruct (refresh Person p s) as [[p1|e] s1] eqn:Hp.
  - destruct (refresh_person_keeps p s p1 s1 row eq_refl Hp) as (_ & Hpu & Hpd & Hpa & new & Hnew & Hall).
    specialize (Hno p1 Hpu Hpd (eq_trans Hpa Ha)). destruct (shahkar_gate p1 Hno) as [Hg1 Hg2].
    rewrite run_bind, (refresh_shut License p1 s1 Hg1), run_bind, (refresh_shut Score p1 s1 Hg2), !run_ret. split; [by exists new|].
    intros view [= <-]. unfold current, evaluateVerification. cbn [dv_verified]. unfold passed_now in Hno. by rewrite Hno.
  - split; [|done]. clear -Hp. unfold refresh in Hp. cbn [gate] in Hp. rewrite run_bind in Hp.
    destruct (prepare Person p s) as [[[q p1]|e1] s2] eqn:Hq; destruct (prepare_run _ _ _ _ _ Hq) as [-> Hcase]; [|injection Hp as _ <-; by exists []].
    destruct q as [q|]; [|done]. destruct Hcase as (_ & Hqc & _). unfold call_api in Hp. rewrite run_bind in Hp. unfold get in Hp. cbv beta iota in Hp.
    rewrite run_bind in Hp. unfold modify in Hp. cbv beta iota in Hp. destruct (receive_run _ _ _ _ _ _ Hp) as (Hasked & _). cbn [snd].
    eexists [_]. split; [exact Hasked|]. repeat constructor. by rewrite Hqc.
Qed.

(** An edit made while an inquiry is on its way is undone.  The handler keeps the row it read
    and saves the whole of it with each answer: a profile of a driver edited after [verify] has
    asked about the phone is, once the answer has come, what it was before the edit. *)
Theorem edit_undone (tasks : gmap N Task) (id : N) (s : inquiry_state) (u : uuid) (user : Account) (row row1 : Papers) (input : list text) (r : ApiIrResult) :
  tasks !! id = None -> iq_users s !! u = Some user -> iq_papers s !! u = Some row ->
  checkInputs user (documents_of (Found row)) Shahkar = Some input ->
  still_good (iq_now s) Shahkar (inputKey input) (record_of (Some row)) = false -> spent (iq_now s) (record_of (Some row)) < DAILY_PAID_INQUIRIES ->
  pp_verification row1 = pp_verification row ->
  exists sy1 sy2 row2, rtc verify_step (mkSystem s tasks) sy1 /\ iq_papers (sy_state sy1) !! u = Some row1 /\
    verify_step sy1 sy2 /\ iq_papers (sy_state sy2) !! u = Some row2 /\
    pp_profile row2 = pp_profile row /\ pp_birthDate row2 = pp_birthDate row /\ is_Some (rc_answers (record_of (Some row2)) Shahkar).
Proof.
  intros Hid Hu Hrow Hin Hold Hspent Hsame. set (p := mkVerifying u user (Found row) (record_of (Some row))).
  assert (Hb : begin_verify u s = (Ok p, s)).
  { unfold begin_verify. rewrite run_bind. unfold get. cbv beta iota. rewrite Hu. cbn [some_or]. rewrite run_bind, run_ret. cbv beta iota. by rewrite Hrow. }
  set (p1 := p <| vf_record := mkRecord (rc_answers (vf_record p)) (Some (iq_now s `div` DAY, spent (iq_now s) (vf_record p) + 1)) |>).
  set (q := mkAsking Shahkar (inputKey input) input (iq_now s `div` DAY)).
  assert (Hp : prepare Shahkar p s = (Ok (Some q, p1), s)).
  { unfold prepare. cbn [vf_user vf_driver p]. rewrite Hin, run_bind. unfold get. cbv beta iota. cbn [vf_record p]. rewrite Hold, run_bind, quota_run.
    cbn [vf_record p]. by rewrite (proj2 (Z.ltb_lt _ _) Hspent). }
  set (s1 := s <| iq_papers := <[u := row1]> (iq_papers s) |>). set (l := [Person; License; Score]).
  destruct (receive q (inl r) p1 s1) as [o s2] eqn:Hr. pose proof (receive_run _ _ _ _ _ _ Hr) as (_ & _ & _ & Hcase). cbv zeta in Hcase.
  set (rec := with_answer _ _ _) in Hcase. destruct Hcase as [-> Hpapers].
  exists (mkSystem s1 (<[id := mkTask p1 l (Some q)]> tasks)). eexists (mkSystem s2 _), (row <| pp_verification := Some rec |>). split_and!.
  - apply (rtc_l _ _ (mkSystem s (<[id := mkTask p VERIFICATION_CHECKS None]> tasks))); [by apply (step_start _ _ _ _ u)|].
    apply (rtc_l _ _ (mkSystem s (<[id := mkTask p1 l (Some q)]> tasks))); [|apply rtc_once, step_papers; by rewrite Hrow].
    rewrite <- (insert_insert_eq tasks id (mkTask p1 l (Some q)) (mkTask p VERIFICATION_CHECKS None)).
    apply (step_prepare _ _ _ _ p Shahkar); [apply lookup_insert_eq | done | exact Hp].
  - exact (lookup_insert_eq _ _ _).
  - eapply step_answer; [apply lookup_insert_eq | exact Hr].
  - cbn [sy_state]. rewrite Hpapers. exact (lookup_insert_eq _ _ _).
  - done.
  - done.
  - by eexists.
Qed.

End Kept.

(** ** Samples *)

Definition plain_letters : Unicode := {| nfkc t := t; toLowerCase t := t |}.
Definition no_hash : Digest := {| digest16 t := t |}.

Definition sample_driver : Account :=
  mkAccount 7 (js "driver") (Some (js "09121234567")) RecActive None (Some (js "علي")) (Some (js "رضایی")) (Some (js "0499370899")) None false None None
    VerNone 0 None None None None None None None None 0.

Definition sample_papers : Papers := mkPapers (new_profile <| dp_licenseNumber := Some (js "9912") |>) (Some (js "1370/01/01")) None.

(** A register that knows the driver, and takes a second for each answer *)
Definition knowing : ApiIr := {|
  api_answer _ c _ := inl (mkResult true None (Some match c with
    | Shahkar => ShahkarData true
    | Person => PersonData (mkPerson (Some (js "علی")) (Some (js "رضایی")) None (Some true))
    | License => LicenseData (Some [mkLicense (Some (js "9912")) None None None None])
    | Score => ScoreData (mkScore None None None)
    end));
  api_lasts _ := 1000;
|}.

Definition inquiry_start : inquiry_state := mkInquiry (100 * DAY) {[ 7%N := sample_driver ]} {[ 7%N := sample_papers ]} [].

Definition inquired : inquiry_state := final (@verify plain_letters no_hash knowing 7) inquiry_start.

Definition papers_then : Papers := default new_papers (iq_papers inquired !! 7%N).

Lemma verify_is_steps_witness : rtc (@verify_step plain_letters no_hash) (mkSystem inquiry_start ∅) (mkSystem inquired ∅) /\ length (iq_asked inquired) = 4%nat.
Proof. split; [exact (@verify_is_steps plain_letters no_hash knowing ∅ 0 7 inquiry_start eq_refl) | vm_compute; reflexivity]. Defined.

Lemma verified_is_registered_witness :
  dv_verified (@evaluateVerification plain_letters no_hash sample_driver (documents_of (Found papers_then)) (rc_answers (record_of (Some papers_then)))) = true /\
  exists nationalCode mobile birthDate,
    tenDigits (a_nationalCode sample_driver) = Some nationalCode /\ normalizeMobile (a_mobile sample_driver) = Some mobile /\
    normalizeBirthDate (pp_birthDate papers_then) = Some birthDate /\
    register_said (iq_asked inquired) 7 Shahkar [nationalCode; mobile] (eq (Some (ShahkarData true))) /\
    register_said (iq_asked inquired) 7 Person [nationalCode; birthDate] (@same_person plain_letters sample_driver) /\
    register_said (iq_asked inquired) 7 License [nationalCode; mobile] (has_license (documents_of (Found papers_then))).
Proof.
  assert (Hv : dv_verified (@evaluateVerification plain_letters no_hash sample_driver (documents_of (Found papers_then)) (rc_answers (record_of (Some papers_then)))) = true)
    by (vm_compute; reflexivity).
  split; [exact Hv|].
  apply (@verified_is_registered plain_letters no_hash (mkSystem inquiry_start ∅) (mkSystem inquired ∅) 7 sample_driver papers_then (documents_of (Found papers_then))).
  - intros v. cbn [sy_state iq_papers inquiry_start]. destruct (decide (7%N = v)) as [<-|Hv7]; [reflexivity|]. by rewrite lookup_singleton_ne.
  - reflexivity.
  - exact (proj1 verify_is_steps_witness).
  - vm_compute; reflexivity.
  - vm_compute; reflexivity.
  - reflexivity.
  - intros e c input _ _ _ _ Hk. exact Hk.
  - exact Hv.
Defined.

(** The first inquiry of the sample, step by step *)
Definition run_begun : Verifying := mkVerifying 7 sample_driver (Found sample_papers) (mkRecord no_answers None).

Definition first_input : list text := [js "0499370899"; js "09121234567"].

Definition first_asking : Asking := mkAsking Shahkar (join (js "|") first_input) first_input 100.

Definition run_asking : Verifying := mkVerifying 7 sample_driver (Found sample_papers) (mkRecord no_answers (Some (100, 1))).

Definition not_own : ApiIrResult := mkResult true None (Some (ShahkarData false)).

Definition answered_no : inquiry_state := final (receive first_asking (inl not_own) run_asking) inquiry_start.

Definition run_answered : Verifying :=
  match result (receive first_asking (inl not_own) run_asking) inquiry_start with Ok p => p | Err _ => run_asking end.

Lemma lone_task s t : alone (mkSystem s (<[0%N := t]> ∅)).
Proof.
  intros i j x y. cbn [sy_tasks]. destruct (decide (0%N = i)) as [<-|Hi]; [|rewrite lookup_insert_ne by done; by rewrite lookup_empty].
  destruct (decide (0%N = j)) as [<-|Hj]; [done|]. rewrite (lookup_insert_ne _ 0%N j) by done. by rewrite lookup_empty.
Qed.

Lemma first_steps : rtc (@lone_step plain_letters no_hash) (mkSystem inquiry_start ∅)
  (mkSystem answered_no (<[0%N := mkTask run_answered [Person; License; Score] None]> (<[0%N := mkTask run_asking [Person; License; Score] (Some first_asking)]> (<[0%N := mkTask run_begun VERIFICATION_CHECKS None]> ∅)))).
Proof.
  eapply rtc_l; [split|].
  { apply (@step_start plain_letters no_hash inquiry_start inquiry_start ∅ 0 7 run_begun); reflexivity. }
  { apply lone_task. }
  eapply rtc_l; [split|].
  { apply (@step_prepare plain_letters no_hash inquiry_start inquiry_start _ 0 run_begun Shahkar [Person; License; Score] (Some first_asking) run_asking);
      [apply lookup_insert_eq | reflexivity | vm_compute; reflexivity]. }
  { rewrite insert_insert_eq. apply lone_task. }
  apply rtc_once. split.
  - apply (@step_answer plain_letters no_hash inquiry_start answered_no _ 0 run_asking [Person; License; Score] first_asking (inl not_own) run_answered);
      [apply lookup_insert_eq | reflexivity].
  - rewrite !insert_insert_eq. apply lone_task.
Qed.

Lemma twelve_a_day_witness : answers_on 7 100 (iq_asked answered_no) = 1 /\ answers_on 7 100 (iq_asked answered_no) <= DAILY_PAID_INQUIRIES.
Proof.
  split; [vm_compute; reflexivity|]. refine (@twelve_a_day plain_letters no_hash (mkSystem inquiry_start ∅) _ eq_refl _ eq_refl first_steps 7%N 100).
  intros v. cbn [sy_state iq_papers inquiry_start]. destruct (decide (7%N = v)) as [<-|Hv]; [reflexivity|]. by rewrite lookup_singleton_ne.
Defined.

(** Told that the phone is another's, the driver has it put in its own name and asks again, 179
    days later. *)
Definition months_later : inquiry_state := answered_no <| iq_now := iq_now answered_no + 179 * DAY |>.

Lemma mismatch_sticks_witness :
  map as_check (iq_asked (final (@verify plain_letters no_hash knowing 7) months_later)) = [Person; Shahkar] /\
  forall view, result (@verify plain_letters no_hash knowing 7) months_later = Ok view -> dv_verified view = false.
Proof.
  split; [vm_compute; reflexivity|].
  refine (proj2 (@mismatch_sticks plain_letters no_hash knowing months_later 7 sample_driver (saved_row (vf_driver run_asking) (Some sample_papers) (vf_record run_answered)) first_input
    (mkAnswer (ak_key first_asking) (100 * DAY) true None (Some (ShahkarData false))) _ _ _ _ _ _ _ _)); try reflexivity; vm_compute; reflexivity.
Defined.

Lemma edit_undone_witness : exists sy1 sy2 row2,
  rtc (@verify_step plain_letters no_hash) (mkSystem inquiry_start ∅) sy1 /\ iq_papers (sy_state sy1) !! 7%N = Some (sample_papers <| pp_birthDate := Some (js "1371/2/2") |>) /\
  @verify_step plain_letters no_hash sy1 sy2 /\ iq_papers (sy_state sy2) !! 7%N = Some row2 /\
  pp_profile row2 = pp_profile sample_papers /\ pp_birthDate row2 = Some (js "1370/01/01") /\ is_Some (rc_answers (record_of (Some row2)) Shahkar).
Proof.
  apply (@edit_undone plain_letters no_hash ∅ 0 inquiry_start 7 sample_driver sample_papers (sample_papers <| pp_birthDate := Some (js "1371/2/2") |>) first_input not_own);
    try reflexivity; vm_compute; reflexivity.
Defined.
